(* ===== verification/_CoqProject ===== *)
-Q . S2P
Prelude.v
Memory.v
ZoneMem.v
Virtqueue.v
IoVec.v
DescChain.v
Device.v
Ring.v
Interrupt.v
Mmio.v
Bridge.v
RequestLoop.v
Blk.v
BlkDisk.v
BlkWorker.v
Json.v
Config.v
ScmiCore.v
ScmiBase.v
ScmiPower.v
ScmiClock.v
VirtioScmi.v
HostFd.v
Net.v
Console.v
ZoneConfig.v
Loader.v
Boot.v
ZoneParse.v
ZoneStart.v
EventMonitor.v
HvisorDriver.v
ImageLoad.v
IvcDriver.v
ScmiServer.v
ScmiPath.v
HostRes.v
IvcDemo.v
Backends.v
ConfigMem.v
Daemon.v
Devices.v
Control.v
ControlServer.v
TailQ.v
GpuIov.v
Gpu.v
GpuInv.v
GpuBase.v
GpuWorker.v
