(* ===== verification/Prelude.v ===== *)
(** * Verification of hvisor-tool

    hvisor-tool is the management side of the hvisor hypervisor.  Its core is the
    virtio daemon ([tools/virtio]): guests ("zones") trap on the MMIO windows of
    their virtio devices, the hypervisor puts each access as a request into a ring
    shared with the daemon, and the daemon emulates the devices (block, network,
    console, GPU, SCMI) on guest memory it has mapped, completing requests in the
    guest's virtqueues and injecting interrupts through a second shared ring and an
    ioctl.  Guest memory, descriptors and register writes are under the guest's
    control: most theorems quantify over all of them.  Beside the daemon there are the
    command line tool ([tools/hvisor.c], [tools/boot]), which reads a zone's configuration,
    loads its images and starts it, and the kernel modules ([driver]), which pass the
    tool's and the daemon's requests on to the hypervisor and serve inter-VM
    communication.

    ** Files and the code they model

    - [Prelude]: results with faults, machine integers, tactics, hint database.
    - [Memory]: byte-addressed host memory with mapped ranges; an access through
      NULL or outside every range is a fault.
    - [ZoneMem]: [zone_mem], [get_virt_addr], [mmap_virtio_zone_memory] and the overlap
      tests of [tools/virtio/virtio.c].
    - [Virtqueue]: [VirtQueue] ([include/virtio.h]), queue set-up, the bounded
      descriptor walk [process_descriptor_chain_buf], [update_used_ring] and its batched
      form ([virtio.c]).
    - [DescChain]: the allocating walk [process_descriptor_chain] ([virtio.c]).
    - [Device]: the structs [VirtIODevice], [VirtMmioRegs], [virtio_bridge], [device_req],
      [device_res]; the interface [VirtioBackends] through which the transport calls a
      device (the [virtio_device_ops] table).
    - [Ring], [Interrupt]: [is_queue_full], [virtio_inject_irq],
      [virtio_deassert_line_locked], the interrupt parts of ACK and reset.
    - [Mmio]: [virtio_mmio_read], [virtio_mmio_write], [virtio_dev_reset], queue
      initialisation; theorems against the interface law [BackendLaws].
    - [Bridge]: [virtio_handle_req], [consume_pending_requests] and the sleep/wake
      handshake of [handle_virtio_requests] as a step relation of daemon and hypervisor.
    - [RequestLoop]: the loop of [handle_virtio_requests] around them: signals, kicks,
      interruptions.
    - [IoVec], [HostFd]: scatter/gather over guest buffers, host file descriptors.
    - [Blk], [BlkWorker]: [devices/blk/virtio_blk.c], requests and the worker thread
      with its mutex, condition variable and reset/close flags.
    - [BlkDisk]: an abstract disk, as a relation on requests and replies, and the drain
      loop as an implementation of it.
    - [Json], [Config]: [json_parse.c], [safe_cjson.c]; configuration parsing, validation,
      device creation and publication, control requests ([virtio.c]).  cJSON is the
      interface [CJson] with its documented laws; device life-cycle hooks are
      [DeviceLife].
    - [ScmiCore], [ScmiBase], [ScmiPower], [ScmiClock], [VirtioScmi]: [devices/scmi]; the
      handlers run in a state monad over guest memory, the response context and the
      ioctls issued; the kernel's answers are the parameter [ScmiKernel].
    - [Net], [Console]: [devices/net/virtio_net.c], [devices/console/virtio_console.c].
    - [EventMonitor]: [event_monitor.c], the event table, the epoll set and the thread that
      dispatches, as a step relation with the devices that register and close.
    - [ZoneConfig]: the structs of [include/zone_config.h], one [arch_zone_config] per
      architecture, and when a configuration is well-formed.
    - [Loader]: the image loading calls of [tools/hvisor.c], in a monad that records the
      ioctls issued; the driver, the files and the host are the interface [ToolEnv] with
      its laws [ToolEnvLaws]; [spec] is the program logic of that monad.
    - [Boot]: [tools/boot/boot.c], [tools/boot/multiboot2.c]: boot mode, ELF segments.
    - [ZoneParse], [ZoneStart]: the parsers of [hvisor.c] and its commands, up to [main].
    - [HvisorDriver], [IvcDriver]: [driver/hvisor_main.c], [driver/ivc_driver.c]; the kernel's
      and the hypervisor's answers are records of parameters.
    - [ImageLoad]: the tool's image loading composed with the driver's.
    - [ScmiServer], [ScmiPath]: the kernel's SCMI server ([driver/virtio/scmi]), and the
      daemon's SCMI device composed with it; the clock, reset and power frameworks are
      a parameter.
    - [HostRes]: the descriptors, events, threads, locks and allocations a process holds,
      the system calls that change them, and a program logic ([hwp], [holds]) that
      accounts for each.
    - [Backends]: [init] and [close] of the block, network, console and SCMI devices and
      their parameter parsers, as the instance of [DeviceLife] and [ConfigOps].
    - [ConfigMem]: the file's buffer ([read_file]) and configuration parsing again, in
      place and with its return codes and [malloc]/[free] calls, down to
      [free_virtio_config]; it agrees with [Config] on what is parsed (lemma
      [parse_in_place_agrees]) and accounts for every block.
    - [IvcDemo]: [tools/ivc_demo.c] in two zones over [IvcDriver], as a step relation, and
      [tools/rpmsg_demo.c] on the descriptors of [HostRes].
    - [TailQ]: the TAILQ macros of [tools/compat/sys/queue.h] as loads and stores of
      pointer words, with a small program logic ([pwp]) and the lists they implement.
    - [Daemon]: [virtio_init], [virtio_start], [virtio_close] in its three parts and the
      control server's start and stop, over [Config], [EventMonitor] and [Backends].
    - [Devices]: [device_ops_table] without the GPU as an instance of [VirtioBackends]
      that keeps [BackendLaws], and the threads of a running daemon interleaved.
    - [Control], [ControlServer]: the control socket's messages and the [virtio add]
      command; the server's thread against its stop, as a step relation.
    - [GpuIov], [Gpu], [GpuInv], [GpuBase], [GpuWorker]: [devices/gpu]: copies between
      buffers and structs, the 2D commands in a state monad, their invariant, creation,
      queues, reset and close, and the worker thread as a step relation; libdrm is a
      parameter and its calls are recorded.

    ** How the code is represented

    A C function is a Rocq function in the [result] monad.  [Err] marks what the C
    program must not do (out of bounds, NULL or unmapped access, signed overflow) or
    cannot finish with the environment given ([Spinning], [EnvExhausted]); a C error
    return is an ordinary value.  Integers are [Z] with the wrap-around written at the
    operation ([u8] to [u64], [s32]).  Memory is threaded explicitly.  System calls take
    their outcome from an environment argument (a list of answers, or a function),
    so a theorem covers every outcome.  An execution ends at the first thing C leaves
    undefined: what the program does after a write outside an array is not described.
    Allocations fail when the environment says so: where the code tests the pointer the
    failure is an ordinary path, where it does not ([read_file], [add_event], the GPU's
    handlers) it is the fault [NullDeref], and theorems name the condition.  Logging is
    left out, but for the log line that reads a zone's name.  Mutexes that only
    serialise one function are left out where the function is modelled as one step;
    where interleaving matters (the wake-up handshake, the block and GPU workers, the
    event monitor, the control server, the driver's SET_EVENTFD against its interrupt)
    there are step relations in which each shared access is its own step; waiting on
    the guest, the hypervisor or a client's file is a step that need not be enabled.
    Memory barriers are taken to make the shared accesses sequentially consistent.

    ** Loops and fuel

    Loops whose bound is not structural take fuel.  The bounded walk uses the queue
    size (the C loop's own bound) and the length of an indirect table; the batch,
    drain and consumer loops have theorems that give a fuel with which they return
    ([blk_process_drains], [net_tx_drains], [consume_pending_requests_returns]).  The
    measuring loop of the allocating walk has no bound in the code, which
    [process_descriptor_chain_diverges] states.  Busy waiting on the result ring
    consumes one observation of the other side per turn.

    ** What the theorems show

    - Isolation: in every table the daemon builds translation is exact, and buffers of
      different guests, or without a common byte, get disjoint host ranges; the walk
      stays in its arrays and in the guest's zone; SCMI ioctls name configured objects
      only; devices write only the writable buffers of the request they serve.
    - Refinement: the block worker acts as an abstract disk ([blk_drain_refines_disk]), an
      ELF kernel is loaded as its headers say ([elf_kernel_in_memory]), the descriptor walk
      returns the chain's buffers, the tail queues are lists ([tailq_refines]).
    - Functional correctness: the walk returns the chain's buffers; completions
      publish one element each; dispatch performs the register access on the one device
      that claims it and answers once; consumption of requests is FIFO and exactly once;
      an injection is described branch by branch against the words in guest memory;
      register programming round-trips; block data round-trips and the status byte
      tells the kernel's outcome; frames and console input arrive in order; a
      configuration document is read item by item ([parse_virtio_config_exact]);
      protocol discovery is exact; hexadecimal numbers parse exactly.
    - Invariants: an asserted line has a cause, and on level-triggered targets agrees
      with the hypervisor's view as long as its calls succeed; a register write stays in
      the selected queue unless QUEUE_SEL is out of range ([virtio_mmio_write_confined]);
      starting a configuration publishes all devices or closes all it made, and keeps
      device windows disjoint (zone memory mapped before a failure stays mapped).
    - Starting a zone: the calls come in the right order, the configuration handed
      over matches the file (and is well-typed: lemma [zone_start_well_typed]), the
      tool stays within defined behaviour on documents of the expected shape if its
      buffers can be allocated; an ELF kernel ends up in physical memory as its headers
      say, tool and driver together.
    - Kernel modules: image loading writes the requested range only; the eventfd
      references are known in every state, with the window in which an interrupt finds
      none; interrupts and devices are released on unloading and on failure paths; from
      a guest's message to the hardware, SCMI reaches the configured objects only.
    - Resources: the daemon holds exactly what its published devices own, whichever
      checked call fails ([start_resources_exact]); shutdown, after any interleaving of
      guests' accesses, events and clients whose handlers return, gives it back
      ([serving_daemon_shuts_down]), and every way a start can end short of its loop is
      described ([failed_start_releases]); the memory of a configuration is freed
      exactly once on every path from a buffer that holds the file
      ([config_params_released]).
    - Control socket: request and response arrive whole in whatever pieces they travel
      ([control_add_roundtrip]); stopping the server ends whatever clients send, unless
      the file one of them named never becomes readable ([stop_always_ends]).
    - GPU: copies are exact ([gpu_copies_exact]); commands with a complete header are
      answered once on their own queue; ids stay distinct and the memory accounted for;
      scanouts show live resources; no control command is lost while the cursor queue is
      not used.
    - Progress: requests are served in order over any number of wake-ups; no wake-up is
      lost (outside LoongArch: no request before the first sleep); no EVENT_IDX
      interrupt is lost; the block worker pauses for a reset, and its close completes
      once the guest stops adding requests; the loops above return.
    - Defects: statements about concrete inputs for which the code faults or
      misbehaves (names ending in [_overruns_array], [_diverges], [_unchecked],
      [_overflow], [_overflows], [_after_reset], [_skips_request], [_not_announced],
      [_survive_reset], [_negative_string], [_wraps], [_exhausted], [_reports_failure],
      [_unrequested_irq], [_closed_twice], [_unreported], [_unanswered], [_accepted],
      [_use_after_free], [_left_asleep], [_lost], [_small_segments], [_corrupts],
      [_beyond_window], [_closes_stdin], [_held_up], [_overruns], [_overread],
      [_not_listed], [_eventfd_window], or containing [_leaks], [_races_] or
      [_holds_up_]).

    ** Not modelled

    Pure I/O: logging, what the demonstration programs print, the terminal's line
    discipline, signal masks, CPU affinity, the text of [virtio_mmio_reg_name] and
    [virtio_device_type_to_string].  The instructions behind the memory barriers.  Code that is not in the repository:
    cJSON, libdrm, the kernel's frameworks, the hypervisor; they are parameters or
    interfaces.  In the GPU files the lists made with [tools/compat/sys/queue.h] are
    lists; [TailQ] justifies that for the TAILQ macros, and the header's other families of
    macros are used nowhere.  The GPU cursor and configuration registers are declared and
    not used by the code.  In [Devices] the
    block worker's flags and the GPU are left to their own files.  The initialisation of
    each device's [interrupt_lock], which nothing undoes, is not accounted for. *)

From stdpp Require Export base option list numbers relations.
From Stdlib Require Export ZArith Lia ZifyBool.

#[global] Open Scope Z_scope.

(** ** [errno] *)

Definition ENOENT : Z := 2.
Definition EINTR : Z := 4.
Definition EIO : Z := 5.
Definition EWOULDBLOCK : Z := 11.
Definition ENOMEM : Z := 12.
Definition EFAULT : Z := 14.
Definition ENODEV : Z := 19.
Definition EINVAL : Z := 22.
Definition ENOTTY : Z := 25.
Definition ENAMETOOLONG : Z := 36.
Definition EOPNOTSUPP : Z := 95.
Definition ENOTSUPP : Z := 524.

(** ** Results: a C call either returns or leaves defined behaviour *)

(** Why an execution does not return normally. *)
Inductive fault : Type :=
  | OutOfBounds      (* array index or buffer offset outside its object *)
  | NullDeref        (* access through a NULL pointer *)
  | Unmapped         (* access to an address no mapping covers *)
  | UseAfterFree     (* access to an object that was freed *)
  | SignedOverflow   (* signed arithmetic outside the range of its type *)
  | BadShift         (* shift by a negative count or by the width and more *)
  | Spinning         (* a busy-wait whose peer has not made progress yet *)
  | EnvExhausted     (* the supplied environment answers are used up *)
  | OutOfFuel.       (* the loop has not finished within its fuel *)

Inductive result (A : Type) : Type :=
  | Ok (a : A)
  | Err (f : fault).
Arguments Ok {A} a.
Arguments Err {A} f.

#[global] Instance fault_eq_dec : EqDecision fault.
Proof. solve_decision. Defined.

#[global] Instance result_eq_dec {A} `{!EqDecision A} : EqDecision (result A).
Proof. solve_decision. Defined.

#[global] Instance result_ret : MRet result := fun A a => Ok a.

#[global] Instance result_bind : MBind result := fun A B k r =>
  match r with
  | Ok a => k a
  | Err f => Err f
  end.

(** An option read as an array access: [None] is an index out of range. *)
Definition of_index {A} (o : option A) : result A :=
  match o with
  | Some a => Ok a
  | None => Err OutOfBounds
  end.

Definition is_ok {A} (r : result A) : bool :=
  match r with
  | Ok _ => true
  | Err _ => false
  end.

Lemma bind_Ok_inv {A B} (r : result A) (k : A -> result B) (b : B) :
  r ≫= k = Ok b -> exists a, r = Ok a /\ k a = Ok b.
Proof. destruct r as [a|f]; simpl; [eauto | discriminate]. Qed.

Lemma bind_Ok {A B} (a : A) (k : A -> result B) : Ok a ≫= k = k a.
Proof. reflexivity. Qed.

Lemma of_index_Ok_inv {A} (o : option A) (a : A) : of_index o = Ok a -> o = Some a.
Proof. destruct o; simpl; congruence. Qed.

(** ** Machine integers: [Z] with the wrap-around written out *)

Definition u8 (z : Z) : Z := z `mod` 2 ^ 8.
Definition u16 (z : Z) : Z := z `mod` 2 ^ 16.
Definition u32 (z : Z) : Z := z `mod` 2 ^ 32.
Definition u64 (z : Z) : Z := z `mod` 2 ^ 64.

(** Conversion of an unsigned value to [int32_t]/[int] and [int64_t]. *)
Definition s32 (z : Z) : Z := let v := u32 z in if v <? 2 ^ 31 then v else v - 2 ^ 32.
Definition s64 (z : Z) : Z := let v := u64 z in if v <? 2 ^ 63 then v else v - 2 ^ 64.

Definition UINT8_MAX : Z := 2 ^ 8 - 1.
Definition UINT16_MAX : Z := 2 ^ 16 - 1.
Definition UINT32_MAX : Z := 2 ^ 32 - 1.
Definition UINT64_MAX : Z := 2 ^ 64 - 1.

(** A flag test [x & f]. *)
Definition has_flag (x f : Z) : bool := negb (Z.land x f =? 0).

Lemma u8_range z : 0 <= u8 z < 2 ^ 8.
Proof. apply Z.mod_pos_bound; lia. Qed.

(** Little-endian bytes. *)
Fixpoint le_value (l : list Z) : Z :=
  match l with
  | [] => 0
  | b :: l' => u8 b + 2 ^ 8 * le_value l'
  end.

Fixpoint le_bytes (n : nat) (v : Z) : list Z :=
  match n with
  | O => []
  | S k => v `mod` 2 ^ 8 :: le_bytes k (v / 2 ^ 8)
  end.

Lemma le_value_range l : 0 <= le_value l < 2 ^ (8 * Z.of_nat (length l)).
Proof.
  induction l as [|b l IH]; [simpl; lia|]. cbn [le_value length]. pose proof (u8_range b).
  replace (8 * Z.of_nat (S (length l))) with (8 + 8 * Z.of_nat (length l)) by lia.
  rewrite Z.pow_add_r by lia. nia.
Qed.

Lemma length_le_bytes n : forall v, length (le_bytes n v) = n.
Proof. induction n as [|n IH]; intros v; [done|]. cbn. by rewrite IH. Qed.

Lemma le_value_bytes n : forall v, le_value (le_bytes n v) = v `mod` 2 ^ (8 * Z.of_nat n).
Proof.
  induction n as [|n IH]; intros v; [by rewrite Z.mod_1_r|]. cbn [le_bytes le_value]. rewrite IH. unfold u8. rewrite Z.mod_mod by lia.
  replace (8 * Z.of_nat (S n)) with (8 + 8 * Z.of_nat n) by lia. rewrite Z.pow_add_r, Z.rem_mul_r by lia. lia.
Qed.
Lemma u16_range z : 0 <= u16 z < 2 ^ 16.
Proof. apply Z.mod_pos_bound; lia. Qed.
Lemma u32_range z : 0 <= u32 z < 2 ^ 32.
Proof. apply Z.mod_pos_bound; lia. Qed.
Lemma u64_range z : 0 <= u64 z < 2 ^ 64.
Proof. apply Z.mod_pos_bound; lia. Qed.

Lemma u8_small z : 0 <= z < 2 ^ 8 -> u8 z = z.
Proof. apply Z.mod_small. Qed.
Lemma u16_small z : 0 <= z < 2 ^ 16 -> u16 z = z.
Proof. apply Z.mod_small. Qed.
Lemma u32_small z : 0 <= z < 2 ^ 32 -> u32 z = z.
Proof. apply Z.mod_small. Qed.
Lemma u64_small z : 0 <= z < 2 ^ 64 -> u64 z = z.
Proof. apply Z.mod_small. Qed.

(** Masking with [2^k - 1] is reduction modulo [2^k]. *)
Lemma land_mask_mod (x k : Z) : 0 <= k -> Z.land x (2 ^ k - 1) = x `mod` 2 ^ k.
Proof.
  intros Hk. rewrite <- (Z.land_ones x k) by lia.
  f_equal. rewrite Z.ones_equiv. lia.
Qed.

(** [x & m] never exceeds a non-negative [m]. *)
Lemma land_upper (x m : Z) : 0 <= m -> 0 <= Z.land x m <= m.
Proof.
  intros Hm. apply Z.ldiff_le; [done|].
  apply Z.bits_inj'. intros n Hn.
  rewrite Z.ldiff_spec, Z.land_spec, Z.bits_0. by destruct (Z.testbit x n), (Z.testbit m n).
Qed.

(** [lor] stays within a power of two. *)
Lemma lor_range (x y k : Z) : 0 <= k -> 0 <= x < 2 ^ k -> 0 <= y < 2 ^ k -> 0 <= Z.lor x y < 2 ^ k.
Proof.
  intros Hk Hx Hy. rewrite <- (Z.mod_small x (2 ^ k)), <- (Z.mod_small y (2 ^ k)) by done.
  rewrite <- !Z.land_ones, <- Z.land_lor_distr_l, Z.land_ones by done.
  apply Z.mod_pos_bound, Z.pow_pos_nonneg; lia.
Qed.

(** Two halves of a word, put together with [|]. *)
Lemma lor_halves (lo hi k : Z) : 0 <= k -> 0 <= lo < 2 ^ k -> Z.lor lo (Z.shiftl hi k) = lo + 2 ^ k * hi.
Proof.
  intros Hk Hlo. replace (2 ^ k * hi) with (Z.shiftl hi k) by (rewrite Z.shiftl_mul_pow2; lia).
  assert (Z.land lo (Z.shiftl hi k) = 0) as H0.
  { apply Z.bits_inj'. intros n Hn. rewrite Z.land_spec, Z.bits_0.
    destruct (decide (n < k)).
    - rewrite Z.shiftl_spec_low by lia. apply andb_false_r.
    - rewrite <- (Z.mod_small lo (2 ^ k)) by done. rewrite Z.mod_pow2_bits_high by lia. done. }
  rewrite Z.add_nocarry_lxor by done. by rewrite Z.lxor_lor.
Qed.

(** ** Automation *)

Create HintDb hvisor discriminated.
#[export] Hint Resolve u8_range u16_range u32_range u64_range : hvisor.
#[export] Hint Rewrite @bind_Ok : hvisor.

(** Split every bind that is known to have returned, and every test it went
    through. *)
Ltac res_step :=
  match goal with
  | H : Ok _ = Ok _ |- _ => injection H as H; try subst
  | H : Err _ = Ok _ |- _ => discriminate H
  | H : Ok _ = Err _ |- _ => discriminate H
  | H : _ ≫= _ = Ok _ |- _ =>
      let a := fresh "a" in let Ha := fresh "Ha" in
      apply bind_Ok_inv in H; destruct H as (a & Ha & H); simpl in H
  | H : of_index _ = Ok _ |- _ => apply of_index_Ok_inv in H
  | H : (if ?b then _ else _) = Ok _ |- _ => let E := fresh "E" in destruct b eqn:E
  | H : (let (_, _) := ?p in _) = Ok _ |- _ => let E := fresh "E" in destruct p eqn:E
  end.
Ltac res := repeat (res_step; simpl in *).
