(* ===== verification/Memory.v ===== *)
(** * Host memory of the virtio daemon

    The daemon reaches guest memory through host-virtual addresses obtained by
    [mmap] ([tools/virtio/virtio.c], [mmap_virtio_zone_memory]).  This file has the
    byte-addressed memory those accesses go to: a set of mapped ranges, the
    bytes, and little-endian loads and stores of 1, 2, 4 and 8 bytes.  An access
    through NULL or outside every mapped range is a [fault] of the model. *)

From S2P Require Import Prelude.

(** ** Memory and its accessors *)

Record hmem := HMem {
  hm_ranges : list (Z * Z);      (* mapped [base, base + len) host ranges *)
  hm_bytes : Z -> Z;             (* byte at each host address *)
}.

Definition in_span (a : Z) (r : Z * Z) : bool := (r.1 <=? a) && (a <? r.1 + r.2).

Definition mapped (m : hmem) (a : Z) : bool := existsb (in_span a) (hm_ranges m).

(** Every byte of [a, a + n) is mapped. *)
Fixpoint mapped_span (m : hmem) (a : Z) (n : nat) : bool :=
  match n with
  | O => true
  | S k => mapped m a && mapped_span m (a + 1) k
  end.

Definition get_byte (m : hmem) (a : Z) : Z := u8 (hm_bytes m a).

Definition set_byte (m : hmem) (a v : Z) : hmem :=
  HMem (hm_ranges m) (fun x => if x =? a then u8 v else hm_bytes m x).

(** Little-endian value of the [n] bytes at [a]. *)
Fixpoint peek (m : hmem) (a : Z) (n : nat) : Z :=
  match n with
  | O => 0
  | S k => get_byte m a + 2 ^ 8 * peek m (a + 1) k
  end.

(** Write the [n] low bytes of [v] at [a], little-endian. *)
Fixpoint poke (m : hmem) (a : Z) (n : nat) (v : Z) : hmem :=
  match n with
  | O => m
  | S k => poke (set_byte m a v) (a + 1) k (v `div` 2 ^ 8)
  end.

(** The check the hardware makes before an access of [n] bytes at [a]. *)
Definition access (m : hmem) (a : Z) (n : nat) : result unit :=
  if a =? 0 then Err NullDeref
  else if mapped_span m a n then Ok tt else Err Unmapped.

Definition load (n : nat) (m : hmem) (a : Z) : result Z :=
  access m a n ≫= fun _ => Ok (peek m a n).

Definition store (n : nat) (m : hmem) (a v : Z) : result hmem :=
  access m a n ≫= fun _ => Ok (poke m a n v).

(** Copy a list of bytes to [a] ([memcpy] into guest memory). *)
Fixpoint poke_bytes (m : hmem) (a : Z) (l : list Z) : hmem :=
  match l with
  | [] => m
  | b :: l' => poke_bytes (set_byte m a b) (a + 1) l'
  end.

Definition store_bytes (m : hmem) (a : Z) (l : list Z) : result hmem :=
  match l with
  | [] => Ok m
  | _ => access m a (length l) ≫= fun _ => Ok (poke_bytes m a l)
  end.

Fixpoint peek_bytes (m : hmem) (a : Z) (n : nat) : list Z :=
  match n with
  | O => []
  | S k => get_byte m a :: peek_bytes m (a + 1) k
  end.

Definition load_bytes (n : nat) (m : hmem) (a : Z) : result (list Z) :=
  match n with
  | O => Ok []
  | _ => access m a n ≫= fun _ => Ok (peek_bytes m a n)
  end.

(** A memory with the given mapped ranges, zero but for the given little-endian values. *)
Definition mem_with (ranges : list (Z * Z)) (vals : list (Z * nat * Z)) : hmem :=
  fold_left (fun m '(a, n, v) => poke m a n v) vals (HMem ranges (fun _ => 0)).

(** Two memories that differ at most on [a, a + n). *)
Definition same_outside (a n : Z) (m m' : hmem) : Prop :=
  hm_ranges m' = hm_ranges m /\
  forall x, ~ (a <= x < a + n) -> get_byte m' x = get_byte m x.

(** ** Bytes *)

Lemma get_byte_range m a : 0 <= get_byte m a < 2 ^ 8.
Proof. apply u8_range. Qed.

Lemma get_set_byte m a v x :
  get_byte (set_byte m a v) x = if x =? a then u8 v else get_byte m x.
Proof.
  unfold get_byte, set_byte; simpl. destruct (x =? a); [|done].
  apply u8_small, u8_range.
Qed.

Lemma hm_ranges_poke n : forall m a v, hm_ranges (poke m a n v) = hm_ranges m.
Proof. induction n as [|n IH]; intros; simpl; [done|]. by rewrite IH. Qed.

Lemma hm_ranges_poke_bytes l : forall m a, hm_ranges (poke_bytes m a l) = hm_ranges m.
Proof. induction l as [|b l IH]; intros; simpl; [done|]. by rewrite IH. Qed.

Lemma mapped_ranges m m' a : hm_ranges m = hm_ranges m' -> mapped m a = mapped m' a.
Proof. unfold mapped. by intros ->. Qed.

Lemma mapped_span_ranges n : forall m m' a,
  hm_ranges m = hm_ranges m' -> mapped_span m a n = mapped_span m' a n.
Proof.
  induction n as [|n IH]; intros m m' a H; simpl; [done|].
  by rewrite (mapped_ranges m m' a H), (IH m m').
Qed.

Lemma access_ranges m m' a n : hm_ranges m = hm_ranges m' -> access m a n = access m' a n.
Proof. intros H. unfold access. by rewrite (mapped_span_ranges n m m' a H). Qed.

(** ** [peek] and [poke] *)

Lemma get_byte_poke n : forall m a v x,
  get_byte (poke m a n v) x =
    if (a <=? x) && (x <? a + Z.of_nat n) then u8 (v `div` 2 ^ (8 * (x - a))) else get_byte m x.
Proof.
  induction n as [|n IH]; intros m a v x; simpl poke.
  { destruct (a <=? x) eqn:E1, (x <? a + Z.of_nat 0) eqn:E2; simpl; try done; lia. }
  rewrite IH, get_set_byte.
  destruct (decide (x = a)) as [->|Hne].
  - replace (a + 1 <=? a) with false by lia. simpl. rewrite Z.eqb_refl.
    replace (a <=? a) with true by lia. replace (a <? a + Z.of_nat (S n)) with true by lia.
    simpl. rewrite Z.sub_diag, Z.mul_0_r, Z.div_1_r. done.
  - replace (x =? a) with false by lia.
    replace (a <=? x) with (a + 1 <=? x) by lia.
    replace (x <? a + Z.of_nat (S n)) with (x <? a + 1 + Z.of_nat n) by lia.
    destruct ((a + 1 <=? x) && (x <? a + 1 + Z.of_nat n)) eqn:E; [|done].
    apply andb_true_iff in E as [E1 E2]. f_equal.
    rewrite Z.div_div by (try apply Z.pow_pos_nonneg; lia).
    rewrite <- Z.pow_add_r by lia. f_equal. f_equal. lia.
Qed.

Lemma peek_range n : forall m a, 0 <= peek m a n < 2 ^ (8 * Z.of_nat n).
Proof.
  induction n as [|n IH]; intros m a; [simpl; lia|].
  rewrite Nat2Z.inj_succ, Z.mul_succ_r, Z.pow_add_r by lia.
  pose proof (get_byte_range m a). pose proof (IH m (a + 1)). simpl peek. lia.
Qed.

Lemma peek_ext n : forall m m' a b,
  (forall i, 0 <= i < Z.of_nat n -> get_byte m (a + i) = get_byte m' (b + i)) ->
  peek m a n = peek m' b n.
Proof.
  induction n as [|n IH]; intros m m' a b H; simpl; [done|].
  f_equal; [by rewrite <- (Z.add_0_r a), <- (Z.add_0_r b); apply H; lia|].
  f_equal. apply IH. intros i Hi. rewrite <- !Z.add_assoc. apply H; lia.
Qed.

Lemma get_byte_poke_outside n m a v x :
  ~ (a <= x < a + Z.of_nat n) -> get_byte (poke m a n v) x = get_byte m x.
Proof.
  intros H. rewrite get_byte_poke.
  by replace ((a <=? x) && (x <? a + Z.of_nat n)) with false by lia.
Qed.

Lemma peek_poke_same n : forall m a v, peek (poke m a n v) a n = v `mod` 2 ^ (8 * Z.of_nat n).
Proof.
  induction n as [|n IH]; intros m a v; [simpl; by rewrite Z.mod_1_r|].
  cbn [peek poke]. rewrite IH, get_byte_poke_outside by lia.
  rewrite get_set_byte, Z.eqb_refl.
  replace (8 * Z.of_nat (S n)) with (8 + 8 * Z.of_nat n) by lia.
  rewrite Z.pow_add_r, Z.rem_mul_r by lia. reflexivity.
Qed.

Lemma peek_poke_other n k m a b v :
  a + Z.of_nat n <= b \/ b + Z.of_nat k <= a -> peek (poke m a n v) b k = peek m b k.
Proof. intros H. apply peek_ext. intros i Hi. apply get_byte_poke_outside. lia. Qed.

(** ** Loads and stores *)

Lemma access_Ok_inv m a n u : access m a n = Ok u -> a <> 0 /\ mapped_span m a n = true.
Proof. unfold access. intros H. res. split; [lia|done]. Qed.

Lemma store_ranges n m a v m' : store n m a v = Ok m' -> hm_ranges m' = hm_ranges m.
Proof. unfold store. intros H. res. apply hm_ranges_poke. Qed.

Lemma store_get_byte_outside n m a v m' x :
  store n m a v = Ok m' -> ~ (a <= x < a + Z.of_nat n) -> get_byte m' x = get_byte m x.
Proof. unfold store. intros H Hx. res. by apply get_byte_poke_outside. Qed.

Lemma load_range n m a v : load n m a = Ok v -> 0 <= v < 2 ^ (8 * Z.of_nat n).
Proof. unfold load. intros H. res. apply peek_range. Qed.

Lemma load_store_same n m a v m' :
  store n m a v = Ok m' -> load n m' a = Ok (v `mod` 2 ^ (8 * Z.of_nat n)).
Proof.
  unfold store, load. intros H. res.
  rewrite (access_ranges _ m) by apply hm_ranges_poke. rewrite Ha. simpl.
  by rewrite peek_poke_same.
Qed.

Lemma load_store_other n k m a b v m' :
  store n m a v = Ok m' ->
  a + Z.of_nat n <= b \/ b + Z.of_nat k <= a ->
  load k m' b = load k m b.
Proof.
  unfold store, load. intros H Hd. res.
  rewrite (access_ranges _ m) by apply hm_ranges_poke.
  destruct (access m b k); simpl; [|done]. by rewrite peek_poke_other.
Qed.

Lemma store_defined n m a v w : is_ok (store n m a v) = is_ok (store n m a w).
Proof. unfold store. by destruct (access m a n). Qed.

Lemma store_same_outside n m a v m' :
  store n m a v = Ok m' -> same_outside a (Z.of_nat n) m m'.
Proof.
  intros H. split; [eapply store_ranges; eauto|].
  intros x Hx. eapply store_get_byte_outside; eauto.
Qed.

(** ** Frames *)

Lemma same_outside_refl a n m : same_outside a n m m.
Proof. by split. Qed.

Lemma same_outside_trans a n m1 m2 m3 :
  same_outside a n m1 m2 -> same_outside a n m2 m3 -> same_outside a n m1 m3.
Proof.
  intros [R1 B1] [R2 B2]. split; [congruence|].
  intros x Hx. rewrite B2, B1 by done. done.
Qed.

Lemma same_outside_weaken a n b k m m' :
  same_outside a n m m' -> b <= a -> a + n <= b + k -> same_outside b k m m'.
Proof. intros [R B] H1 H2. split; [done|]. intros x Hx. apply B. lia. Qed.

Lemma load_same_outside a n k b m m' :
  same_outside a n m m' ->
  a + n <= b \/ b + Z.of_nat k <= a ->
  load k m' b = load k m b.
Proof.
  intros [R B] Hd. unfold load. rewrite (access_ranges m' m) by done.
  destruct (access m b k); simpl; [|done]. f_equal.
  apply peek_ext. intros i Hi. apply B. lia.
Qed.

Lemma is_ok_store_same_outside a n k b v w m m' :
  same_outside a n m m' -> is_ok (store k m' b v) = is_ok (store k m b w).
Proof.
  intros [R B]. unfold store. rewrite (access_ranges m' m) by done.
  by destruct (access m b k).
Qed.

(** ** Byte strings *)

Lemma get_byte_poke_bytes l : forall m a x,
  get_byte (poke_bytes m a l) x =
    match (if (a <=? x) then l !! Z.to_nat (x - a) else None) with
    | Some b => u8 b
    | None => get_byte m x
    end.
Proof.
  induction l as [|b l IH]; intros m a x; cbn [poke_bytes].
  { destruct (a <=? x); [rewrite lookup_nil|]; done. }
  rewrite IH, get_set_byte.
  destruct (decide (x = a)) as [->|Hne].
  - replace (a + 1 <=? a) with false by lia.
    rewrite Z.eqb_refl, Z.leb_refl, Z.sub_diag. done.
  - replace (x =? a) with false by lia.
    destruct (a <=? x) eqn:E.
    + replace (a + 1 <=? x) with true by lia.
      replace (Z.to_nat (x - a)) with (S (Z.to_nat (x - (a + 1)))) by lia. done.
    + by replace (a + 1 <=? x) with false by lia.
Qed.

Lemma get_byte_poke_bytes_outside l m a x :
  ~ (a <= x < a + Z.of_nat (length l)) -> get_byte (poke_bytes m a l) x = get_byte m x.
Proof.
  intros H. rewrite get_byte_poke_bytes. destruct (a <=? x) eqn:E; [|done].
  rewrite lookup_ge_None_2 by lia. done.
Qed.

Lemma length_peek_bytes n : forall m a, length (peek_bytes m a n) = n.
Proof. induction n as [|n IH]; intros; simpl; [done|]. by rewrite IH. Qed.

Lemma lookup_peek_bytes n : forall m a i,
  (i < n)%nat -> peek_bytes m a n !! i = Some (get_byte m (a + Z.of_nat i)).
Proof.
  induction n as [|n IH]; intros m a i Hi; [lia|].
  destruct i as [|i]; simpl; [by rewrite Z.add_0_r|].
  rewrite IH by lia. do 2 f_equal. lia.
Qed.

Lemma peek_bytes_ext n m m' a :
  (forall i, 0 <= i < Z.of_nat n -> get_byte m (a + i) = get_byte m' (a + i)) ->
  peek_bytes m a n = peek_bytes m' a n.
Proof.
  intros H. apply list_eq. intros i. destruct (decide (i < n)%nat) as [Hi|Hi].
  - rewrite !lookup_peek_bytes by done. f_equal. apply H. lia.
  - by rewrite !lookup_ge_None_2 by (rewrite length_peek_bytes; lia).
Qed.

Lemma store_bytes_same_outside m a l m' :
  store_bytes m a l = Ok m' -> same_outside a (Z.of_nat (length l)) m m'.
Proof.
  unfold store_bytes. destruct l as [|b l]; intros H; res; [apply same_outside_refl|].
  split; [apply (hm_ranges_poke_bytes (b :: l))|].
  intros x Hx. by apply (get_byte_poke_bytes_outside (b :: l)).
Qed.

(** A byte string stored is the byte string read back. *)
Lemma peek_bytes_store_bytes m a l m' :
  store_bytes m a l = Ok m' -> peek_bytes m' a (length l) = u8 <$> l.
Proof.
  unfold store_bytes. intros H.
  assert (m' = poke_bytes m a l) as -> by (destruct l; res; done).
  apply list_eq. intros i. rewrite list_lookup_fmap.
  destruct (decide (i < length l)%nat) as [Hi|Hi].
  - rewrite lookup_peek_bytes by done. rewrite get_byte_poke_bytes.
    replace (a <=? a + Z.of_nat i) with true by lia.
    replace (Z.to_nat (a + Z.of_nat i - a)) with i by lia.
    destruct (lookup_lt_is_Some_2 l i Hi) as [b Hb]. by rewrite Hb.
  - rewrite (lookup_ge_None_2 l i) by lia.
    by rewrite lookup_ge_None_2 by (rewrite length_peek_bytes; lia).
Qed.

#[global] Arguments peek : simpl never.
#[global] Arguments poke : simpl never.
#[global] Arguments poke_bytes : simpl never.
#[global] Arguments peek_bytes : simpl never.
#[global] Arguments mapped_span : simpl never.

#[export] Hint Resolve store_ranges store_same_outside same_outside_refl store_bytes_same_outside : hvisor.
