(* ===== verification/ZoneMem.v ===== *)
(** * Zone memory: translating guest addresses to host addresses

    [tools/virtio/virtio.c] keeps, for every zone, the table of memory regions it
    has mapped ([struct zone_mem]).  [get_virt_addr] translates a guest
    intermediate physical address (IPA) through it; [mmap_virtio_zone_memory]
    extends it.  Mutexes are not part of the state: every critical section is
    one step, and [mmap_begin]/[mmap_commit] are the two critical sections
    between which the daemon drops [ZONE_MEM_MUTEX]. *)

From S2P Require Import Prelude.

(** ** Data *)

Definition CONFIG_MAX_MEMORY_REGIONS : nat := 64.
Definition MAX_CPUS : nat := 32.
Definition MAX_ZONES : nat := MAX_CPUS.

Record zone_mem_region := {
  virt_addr : Z;
  zone0_ipa : Z;
  zonex_ipa : Z;
  mem_size : Z;
}.

Record VirtioMemoryRegionConfig := {
  cfg_zone0_ipa : Z;
  cfg_zonex_ipa : Z;
  cfg_size : Z;
}.

(** [struct zone_mem]: the first [num_regions] entries of its array. *)
Abbreviation zone_mem := (list zone_mem_region).

(** The global [zone_mem[MAX_ZONES]]. *)
Abbreviation zone_table := (list (list zone_mem_region)).

#[global] Instance zone_mem_region_eq_dec : EqDecision zone_mem_region.
Proof. solve_decision. Defined.

(** ** Address translation *)

Fixpoint get_virt_addr_loop (rs : zone_mem) (ipa : Z) : Z :=
  match rs with
  | [] => 0
  | r :: rs' =>
      let lef := zonex_ipa r in
      let rig := u64 (zonex_ipa r + mem_size r) in
      if (lef <=? ipa) && (ipa <? rig) then u64 (ipa - lef + virt_addr r)
      else get_virt_addr_loop rs' ipa
  end.

(** Host address of a guest address, 0 for NULL. *)
Definition get_virt_addr (zt : zone_table) (ipa : Z) (zone_id : Z) : Z :=
  if (zone_id <? 0) || (Z.of_nat MAX_ZONES <=? zone_id) then 0
  else match zt !! Z.to_nat zone_id with
       | Some rs => get_virt_addr_loop rs ipa
       | None => 0
       end.

(** ** Range arithmetic *)

Definition range_end (base len : Z) : Z :=
  if UINT64_MAX - base <? len then UINT64_MAX else base + len.

Definition ranges_overlap (base_a len_a base_b len_b : Z) : bool :=
  if (len_a =? 0) || (len_b =? 0) then false
  else (base_a <? range_end base_b len_b) && (base_b <? range_end base_a len_a).

Definition same_memory_region (a b : VirtioMemoryRegionConfig) : bool :=
  (cfg_zone0_ipa a =? cfg_zone0_ipa b) && (cfg_zonex_ipa a =? cfg_zonex_ipa b) &&
  (cfg_size a =? cfg_size b).

(** ** Extending the table *)

Definition current_config (r : zone_mem_region) : VirtioMemoryRegionConfig :=
  {| cfg_zone0_ipa := zone0_ipa r; cfg_zonex_ipa := zonex_ipa r; cfg_size := mem_size r |}.

(** The index of an identical region, [-2] on an overlap, [-1] if the region is new. *)
Fixpoint find_zone_memory_region_loop (rs : zone_mem) (i : Z) (mem : VirtioMemoryRegionConfig) : Z :=
  match rs with
  | [] => -1
  | existing :: rs' =>
      let current := current_config existing in
      if same_memory_region current mem then i
      else if ranges_overlap (cfg_zone0_ipa mem) (cfg_size mem) (cfg_zone0_ipa current) (cfg_size current)
              || ranges_overlap (cfg_zonex_ipa mem) (cfg_size mem) (cfg_zonex_ipa current) (cfg_size current)
           then -2
           else find_zone_memory_region_loop rs' (i + 1) mem
  end.

Definition find_zone_memory_region_locked (rs : zone_mem) (mem : VirtioMemoryRegionConfig) : Z :=
  find_zone_memory_region_loop rs 0 mem.

Inductive map_decision :=
  | MapSkip               (* already mapped: continue with the next region *)
  | MapReject             (* overlap, empty region or full table: return -1 *)
  | MapAt (slot : nat).   (* map it and store it in this slot *)

(** First critical section of [mmap_virtio_zone_memory]. *)
Definition mmap_begin (rs : zone_mem) (mem : VirtioMemoryRegionConfig) : map_decision :=
  let found := find_zone_memory_region_locked rs mem in
  if 0 <=? found then MapSkip
  else if (found =? -2) || (cfg_size mem =? 0) || (CONFIG_MAX_MEMORY_REGIONS <=? length rs)%nat
       then MapReject
       else MapAt (length rs).

Definition new_region (mem : VirtioMemoryRegionConfig) (va : Z) : zone_mem_region :=
  {| virt_addr := va; zone0_ipa := cfg_zone0_ipa mem; zonex_ipa := cfg_zonex_ipa mem;
     mem_size := cfg_size mem |}.

(** Second critical section: [None] is the path that unmaps and returns [-1]. *)
Definition mmap_commit (rs : zone_mem) (mem : VirtioMemoryRegionConfig) (slot : nat) (va : Z) : option zone_mem :=
  if (slot =? length rs)%nat then Some (rs ++ [new_region mem va]) else None.

(** [mmap] of the kernel module's device, from the environment: [None] is [MAP_FAILED]. *)
Abbreviation mmap_answers := (list (option Z)).

Record VirtioZoneMemory := {
  zone_memory_id : nat;
  memory_regions : list VirtioMemoryRegionConfig;
}.

(** The loop over the configured regions of one zone: the zone's table
    afterwards, the return value and the unused [mmap] answers. *)
Fixpoint mmap_regions (rs : zone_mem) (mems : list VirtioMemoryRegionConfig) (ans : mmap_answers) :
    result (zone_mem * Z * mmap_answers) :=
  match mems with
  | [] => Ok (rs, 0, ans)
  | mem :: mems' =>
      match mmap_begin rs mem with
      | MapSkip => mmap_regions rs mems' ans
      | MapReject => Ok (rs, -1, ans)
      | MapAt slot =>
          match ans with
          | [] => Err EnvExhausted
          | None :: ans' => Ok (rs, -1, ans')
          | Some va :: ans' =>
              match mmap_commit rs mem slot va with
              | None => Ok (rs, -1, ans')
              | Some rs' => mmap_regions rs' mems' ans'
              end
          end
      end
  end.

Definition mmap_virtio_zone_memory (zt : zone_table) (cfg : VirtioZoneMemory) (ans : mmap_answers) :
    result (zone_table * Z * mmap_answers) :=
  rs ← of_index (zt !! zone_memory_id cfg);
  '(rs', ret, ans') ← mmap_regions rs (memory_regions cfg) ans;
  Ok (<[zone_memory_id cfg := rs']> zt, ret, ans').

(** ** Well-formedness *)

Definition u64_val (z : Z) : Prop := 0 <= z < 2 ^ 64.

Definition config_ok (c : VirtioMemoryRegionConfig) : Prop :=
  u64_val (cfg_zone0_ipa c) /\ u64_val (cfg_zonex_ipa c) /\ u64_val (cfg_size c).

Definition region_ok (r : zone_mem_region) : Prop :=
  config_ok (current_config r) /\ mem_size r <> 0.

(** Two regions that share no guest address and no zone-0 address. *)
Definition regions_apart (a b : zone_mem_region) : Prop :=
  ranges_overlap (zone0_ipa a) (mem_size a) (zone0_ipa b) (mem_size b) = false /\
  ranges_overlap (zonex_ipa a) (mem_size a) (zonex_ipa b) (mem_size b) = false.

Definition zone_mem_ok (rs : zone_mem) : Prop :=
  (length rs <= CONFIG_MAX_MEMORY_REGIONS)%nat /\
  Forall region_ok rs /\
  (forall i j a b, (i < j)%nat -> rs !! i = Some a -> rs !! j = Some b -> regions_apart b a).

Definition zone_table_ok (zt : zone_table) : Prop :=
  length zt = MAX_ZONES /\ Forall zone_mem_ok zt.

(** The host ranges handed out by [mmap] do not wrap and do not overlap, for
    any two distinct slots of the whole table: what the kernel guarantees of
    live mappings. *)
Definition host_apart (zt : zone_table) : Prop :=
  forall z1 z2 i1 i2 rs1 rs2 r1 r2,
    zt !! z1 = Some rs1 -> zt !! z2 = Some rs2 ->
    rs1 !! i1 = Some r1 -> rs2 !! i2 = Some r2 ->
    0 < virt_addr r1 /\ virt_addr r1 + mem_size r1 <= 2 ^ 64 /\
    ((z1, i1) <> (z2, i2) ->
       virt_addr r1 + mem_size r1 <= virt_addr r2 \/ virt_addr r2 + mem_size r2 <= virt_addr r1).

(** The tables the daemon can build: from the empty table, by mapping the memory of
    configured zones, whatever [mmap] answers as long as its live mappings stay
    apart. *)
Inductive table_built : zone_table -> Prop :=
  | built_empty : table_built (replicate MAX_ZONES [])
  | built_map zt cfg ans zt' ret ans' :
      table_built zt -> Forall config_ok (memory_regions cfg) ->
      mmap_virtio_zone_memory zt cfg ans = Ok (zt', ret, ans') -> host_apart zt' -> table_built zt'.

(** Guest address [ipa] lies in region [r]. *)
Definition in_region (ipa : Z) (r : zone_mem_region) : Prop :=
  zonex_ipa r <= ipa < zonex_ipa r + mem_size r.

(** The bytes from [ipa] up to [ipa + n] lie in one region of zone [z], which ends
    below 2^64, and the first of them is at [v] in the daemon's address space. *)
Definition buffer_at (zt : zone_table) (z ipa n v : Z) : Prop :=
  exists rs i r, 0 <= z /\ zt !! Z.to_nat z = Some rs /\ rs !! i = Some r /\
    zonex_ipa r <= ipa /\ ipa + n <= zonex_ipa r + mem_size r /\ zonex_ipa r + mem_size r < 2 ^ 64 /\
    v = virt_addr r + (ipa - zonex_ipa r).

(** ** Lemmas *)

Lemma u64_le x : 0 <= x -> u64 x <= x.
Proof. intros H. unfold u64. apply Z.mod_le; lia. Qed.

Lemma ranges_overlap_iff base_a len_a base_b len_b :
  u64_val base_a -> u64_val len_a -> u64_val base_b -> u64_val len_b ->
  ranges_overlap base_a len_a base_b len_b = true <->
  exists x, base_a <= x < base_a + len_a /\ base_b <= x < base_b + len_b /\ x < UINT64_MAX.
Proof.
  unfold u64_val, ranges_overlap, range_end, UINT64_MAX. intros Ha Hla Hb Hlb.
  split.
  - intros H. exists (Z.max base_a base_b).
    destruct ((len_a =? 0) || (len_b =? 0)) eqn:E; [done|].
    destruct (_ <? len_a) eqn:E1, (_ <? len_b) eqn:E2; lia.
  - intros (x & H1 & H2 & H3).
    replace ((len_a =? 0) || (len_b =? 0)) with false by lia.
    destruct (_ <? len_a) eqn:E1, (_ <? len_b) eqn:E2; lia.
Qed.

Lemma get_virt_addr_loop_cases rs ipa :
  get_virt_addr_loop rs ipa = 0 \/
  exists i r, rs !! i = Some r /\ zonex_ipa r <= ipa < u64 (zonex_ipa r + mem_size r) /\
              get_virt_addr_loop rs ipa = u64 (ipa - zonex_ipa r + virt_addr r).
Proof.
  induction rs as [|r rs IH]; simpl; [by left|].
  destruct ((zonex_ipa r <=? ipa) && (ipa <? u64 (zonex_ipa r + mem_size r))) eqn:E.
  - right. exists 0%nat, r. split; [done|]. split; [lia|done].
  - destruct IH as [IH|(i & r' & H1 & H2 & H3)]; [by left|].
    right. exists (S i), r'. auto.
Qed.

Lemma in_region_no_wrap ipa r :
  region_ok r -> zonex_ipa r <= ipa < u64 (zonex_ipa r + mem_size r) -> in_region ipa r /\ ipa < UINT64_MAX.
Proof.
  intros [[_ [Hx Hs]] _] H. unfold in_region, u64_val, UINT64_MAX in *. simpl in *.
  pose proof (u64_le (zonex_ipa r + mem_size r)). pose proof (u64_range (zonex_ipa r + mem_size r)). lia.
Qed.

Lemma apart_not_both ipa a b :
  region_ok a -> region_ok b -> regions_apart b a -> ipa < UINT64_MAX ->
  in_region ipa a -> in_region ipa b -> False.
Proof.
  intros [[_ [Ha1 Ha2]] _] [[_ [Hb1 Hb2]] _] [_ Hap] Hlt Hia Hib. simpl in *.
  assert (ranges_overlap (zonex_ipa b) (mem_size b) (zonex_ipa a) (mem_size a) = true) as H; [|congruence].
  apply ranges_overlap_iff; try done. exists ipa. unfold in_region in *. lia.
Qed.

Lemma zone_mem_ok_unique rs ipa i j a b :
  zone_mem_ok rs -> rs !! i = Some a -> rs !! j = Some b -> ipa < UINT64_MAX ->
  in_region ipa a -> in_region ipa b -> i = j.
Proof.
  intros (_ & Hok & Hap) Hi Hj Hlt Ha Hb.
  assert (region_ok a /\ region_ok b) as [Hra Hrb]
    by (split; eapply (Forall_lookup_1 _ _ _ _ Hok); eauto).
  destruct (Nat.lt_trichotomy i j) as [H|[H|H]]; [|done|]; exfalso.
  - eapply (apart_not_both ipa a b); eauto.
  - eapply (apart_not_both ipa b a); eauto.
Qed.

(** In a well-formed zone the translation is that of the one region holding the address. *)
Lemma get_virt_addr_loop_hit rs ipa i r :
  zone_mem_ok rs -> rs !! i = Some r -> in_region ipa r ->
  zonex_ipa r + mem_size r < 2 ^ 64 ->
  get_virt_addr_loop rs ipa = u64 (ipa - zonex_ipa r + virt_addr r).
Proof.
  intros Hok Hi Hin Hnw.
  assert (region_ok r) as [[_ [Hx Hs]] _] by (destruct Hok as (_ & H & _); eapply Forall_lookup_1; eauto).
  simpl in *. unfold u64_val in *.
  assert (exists j r', rs !! j = Some r' /\ zonex_ipa r' <= ipa < u64 (zonex_ipa r' + mem_size r') /\
            get_virt_addr_loop rs ipa = u64 (ipa - zonex_ipa r' + virt_addr r')) as (j & r' & Hj & Hin' & ->).
  { clear Hok. revert i Hi. induction rs as [|r0 rs IH]; intros i Hi; [done|]. simpl.
    destruct ((zonex_ipa r0 <=? ipa) && (ipa <? u64 (zonex_ipa r0 + mem_size r0))) eqn:E.
    { exists 0%nat, r0. split; [done|]. split; [lia|done]. }
    destruct i as [|i]; simpl in Hi.
    { injection Hi as ->. unfold in_region in Hin. rewrite u64_small in E by lia. lia. }
    destruct (IH i Hi) as (j & r' & H1 & H2 & H3). exists (S j), r'. auto. }
  assert (region_ok r') as Hr' by (destruct Hok as (_ & H & _); eapply Forall_lookup_1; eauto).
  destruct (in_region_no_wrap ipa r' Hr' Hin') as [Hin2 Hlt].
  rewrite (zone_mem_ok_unique rs ipa i j r r') in Hi by done. congruence.
Qed.

Lemma find_zone_memory_region_absent rs mem : forall i,
  0 <= i -> find_zone_memory_region_loop rs i mem = -1 ->
  Forall (fun r => ranges_overlap (cfg_zone0_ipa mem) (cfg_size mem) (zone0_ipa r) (mem_size r) = false /\
                   ranges_overlap (cfg_zonex_ipa mem) (cfg_size mem) (zonex_ipa r) (mem_size r) = false) rs.
Proof.
  induction rs as [|r rs IH]; intros i Hi H; [constructor|]. simpl in H.
  destruct (same_memory_region (current_config r) mem); [lia|].
  destruct (ranges_overlap _ _ (zone0_ipa r) _ || _) eqn:E; [lia|].
  apply orb_false_iff in E. constructor; [done|]. eapply (IH (i + 1)); [lia|done].
Qed.

Lemma find_zone_memory_region_range rs mem : forall i,
  let f := find_zone_memory_region_loop rs i mem in f = -1 \/ f = -2 \/ i <= f.
Proof.
  induction rs as [|r rs IH]; intros i; simpl; [lia|].
  destruct (same_memory_region _ _); [lia|]. destruct (_ || _); [lia|].
  specialize (IH (i + 1)). simpl in IH. lia.
Qed.

Lemma mmap_begin_MapAt rs mem slot :
  mmap_begin rs mem = MapAt slot ->
  slot = length rs /\ (length rs < CONFIG_MAX_MEMORY_REGIONS)%nat /\ cfg_size mem <> 0 /\
  Forall (fun r => regions_apart (new_region mem 0) r) rs.
Proof.
  unfold mmap_begin. intros H.
  destruct (0 <=? _) eqn:E1; [done|]. destruct (_ || _) eqn:E2; [done|].
  injection H as <-. apply orb_false_iff in E2 as [E2 E3]. apply orb_false_iff in E2 as [E2 E4].
  split; [done|]. split; [lia|]. split; [lia|].
  unfold find_zone_memory_region_locked in *.
  eapply (find_zone_memory_region_absent rs mem 0); [lia|].
  pose proof (find_zone_memory_region_range rs mem 0) as Hr. simpl in Hr. lia.
Qed.

(** A commit keeps the table well-formed whatever ran between the two critical
    sections, as long as that only appended regions. *)
Lemma mmap_commit_ok rs0 rs mem slot va rs' :
  zone_mem_ok rs -> config_ok mem ->
  mmap_begin rs0 mem = MapAt slot -> rs0 `prefix_of` rs ->
  mmap_commit rs mem slot va = Some rs' ->
  zone_mem_ok rs' /\ rs' = rs ++ [new_region mem va].
Proof.
  intros (Hlen & Hall & Hap) Hmem Hb [ext ->] Hc.
  apply mmap_begin_MapAt in Hb as (-> & Hlt & Hsz & Hnew).
  unfold mmap_commit in Hc. destruct (_ =? _)%nat eqn:E; [|done]. injection Hc as <-.
  apply Nat.eqb_eq in E. rewrite length_app in E.
  destruct ext as [|e ext]; [|simpl in E; lia]. rewrite app_nil_r in *.
  split; [|done]. split; [rewrite length_app; simpl; lia|]. split.
  - apply Forall_app. split; [done|]. constructor; [|constructor]. by split.
  - intros i j a b Hij Hi Hj.
    assert (i < length rs0)%nat as Hil.
    { apply lookup_lt_Some in Hj. rewrite length_app in Hj. simpl in Hj. lia. }
    rewrite lookup_app_l in Hi by done.
    destruct (decide (j < length rs0)%nat) as [Hjl|Hjl].
    + rewrite lookup_app_l in Hj by done. eauto.
    + rewrite lookup_app_r in Hj by lia.
      apply list_lookup_singleton_Some in Hj as [_ <-].
      eapply Forall_lookup_1 in Hnew; [|exact Hi]. exact Hnew.
Qed.

Lemma mmap_regions_ok mems : forall rs ans rs' ret ans',
  zone_mem_ok rs -> Forall config_ok mems ->
  mmap_regions rs mems ans = Ok (rs', ret, ans') ->
  zone_mem_ok rs' /\ rs `prefix_of` rs' /\ (ret = 0 \/ ret = -1).
Proof.
  induction mems as [|mem mems IH]; intros rs ans rs' ret ans' Hok Hms H; simpl in H.
  { injection H as <- <- <-. split; [done|]. split; [done|lia]. }
  apply Forall_cons_1 in Hms as [Hm Hms].
  destruct (mmap_begin rs mem) as [| |slot] eqn:Eb; [eauto|injection H as <- <- <-; auto|].
  destruct ans as [|[va|] ans]; [done| |injection H as <- <- <-; auto].
  destruct (mmap_commit rs mem slot va) as [rs1|] eqn:Ec; [|injection H as <- <- <-; auto].
  destruct (mmap_commit_ok rs rs mem slot va rs1) as [Hok1 ->]; auto.
  destruct (IH _ _ _ _ _ Hok1 Hms H) as (H1 & H2 & H3).
  split; [done|]. split; [|done]. etrans; [|exact H2]. by exists [new_region mem va].
Qed.

(** A region whose end passes 2^64 never matches. *)
Lemma match_no_wrap ipa r :
  region_ok r -> zonex_ipa r <= ipa < u64 (zonex_ipa r + mem_size r) -> zonex_ipa r + mem_size r < 2 ^ 64.
Proof.
  intros [[_ [Hx Hs]] _] H. unfold u64_val in *. simpl in *. destruct (decide (zonex_ipa r + mem_size r < 2 ^ 64)) as [|Hge]; [done|].
  exfalso. unfold u64 in H. rewrite <- (Z.mod_add _ (-1)) in H by lia. rewrite Z.mod_small in H by lia. lia.
Qed.

Lemma mmap_virtio_zone_memory_ok zt cfg ans zt' ret ans' :
  zone_table_ok zt -> Forall config_ok (memory_regions cfg) ->
  mmap_virtio_zone_memory zt cfg ans = Ok (zt', ret, ans') -> zone_table_ok zt'.
Proof.
  unfold mmap_virtio_zone_memory. intros [Hlen Hall] Hcfg H.
  apply bind_Ok_inv in H as (rs & Hrs & H). apply of_index_Ok_inv in Hrs.
  apply bind_Ok_inv in H as ([[rs' r] a] & Hm & H). injection H as <- <- <-.
  assert (zone_mem_ok rs) as Hrs' by (eapply Forall_lookup_1; eauto).
  destruct (mmap_regions_ok _ _ _ _ _ _ Hrs' Hcfg Hm) as (Hok & _).
  split; [by rewrite length_insert|]. by apply Forall_insert.
Qed.

Lemma table_built_ok zt : table_built zt -> zone_table_ok zt /\ host_apart zt.
Proof.
  induction 1 as [|zt cfg ans zt' ret ans' _ [Hok _] Hcfg H Hhost]; [|split; [by eapply mmap_virtio_zone_memory_ok|done] ].
  split; [split; [done|]|].
  - apply Forall_replicate. split; [apply Nat.le_0_l|]. split; [constructor|]. intros; simplify_list_eq.
  - intros z1 z2 i1 i2 rs1 rs2 r1 r2 H1. apply lookup_replicate in H1 as [-> _]. intros _ H. done.
Qed.

(** Translation finds exactly the buffers of one byte. *)
Lemma get_virt_addr_buffer zt ipa z v : table_built zt -> v <> 0 -> get_virt_addr zt ipa z = v <-> buffer_at zt z ipa 1 v.
Proof.
  intros Hb Hv. destruct (table_built_ok zt Hb) as [[Hlen Hall] Hhost]. split.
  - intros <-. unfold get_virt_addr in *. destruct ((z <? 0) || _) eqn:E; [done|].
    destruct (zt !! Z.to_nat z) as [rs|] eqn:Hz; [|done].
    destruct (get_virt_addr_loop_cases rs ipa) as [H|(i & r & Hi & Hin & H)]; [done|].
    assert (zone_mem_ok rs) as (_ & Hrs & _) by (eapply Forall_lookup_1; eauto).
    assert (region_ok r) as Hr by (eapply Forall_lookup_1; eauto).
    destruct (in_region_no_wrap ipa r Hr Hin) as [Hin' _]. pose proof (match_no_wrap ipa r Hr Hin).
    destruct (Hhost _ _ _ _ _ _ _ _ Hz Hz Hi Hi) as (Hp & Hw & _). unfold in_region in Hin'. rewrite u64_small in H by lia.
    exists rs, i, r. repeat split; try done; lia.
  - intros (rs & i & r & Hz0 & Hz & Hi & H1 & H2 & H3 & ->). pose proof (lookup_lt_Some _ _ _ Hz) as Hlt.
    assert (zone_mem_ok rs) as Hrs by (eapply Forall_lookup_1; eauto). destruct (Hhost _ _ _ _ _ _ _ _ Hz Hz Hi Hi) as (Hp & Hw & _).
    unfold get_virt_addr. rewrite Hz. replace ((z <? 0) || _) with false by lia.
    rewrite (get_virt_addr_loop_hit rs ipa i r Hrs Hi) by (unfold in_region; lia). rewrite u64_small; lia.
Qed.

(** Two buffers without a common guest byte have no common host byte. *)
Lemma buffers_apart zt z1 ipa1 n1 v1 z2 ipa2 n2 v2 :
  host_apart zt -> buffer_at zt z1 ipa1 n1 v1 -> buffer_at zt z2 ipa2 n2 v2 ->
  z1 <> z2 \/ ipa1 + n1 <= ipa2 \/ ipa2 + n2 <= ipa1 -> v1 + n1 <= v2 \/ v2 + n2 <= v1.
Proof.
  intros Hhost (rs1 & i1 & r1 & Z1 & L1 & K1 & A1 & B1 & _ & ->) (rs2 & i2 & r2 & Z2 & L2 & K2 & A2 & B2 & _ & ->) Hd.
  destruct (Hhost _ _ _ _ _ _ _ _ L1 L2 K1 K2) as (_ & _ & Hap).
  destruct (decide ((Z.to_nat z1, i1) = (Z.to_nat z2, i2))) as [Hsame|Hdiff]; [|specialize (Hap Hdiff); lia].
  injection Hsame as Hz Hi. assert (z1 = z2) as -> by lia. simplify_eq. lia.
Qed.

Lemma buffer_shrinks zt z ipa n v k : 0 <= k -> k < n -> buffer_at zt z ipa n v -> buffer_at zt z (ipa + k) 1 (v + k).
Proof. intros H1 H2 (rs & i & r & ? & ? & ? & ? & ? & ? & ->). exists rs, i, r. repeat split; try done; lia. Qed.

(** ** Theorems *)

(** C2: guest-address translation is exact.  In every table the daemon builds, a
    non-NULL translation is the address at the same offset of a region of that zone
    that contains the guest address, and every guest address in a region that ends
    below 2^64 is translated so; NULL is returned exactly when there is no such
    region, regions that reach or pass 2^64 not counted, or no such zone. *)
Theorem get_virt_addr_exact zt ipa z :
  table_built zt ->
  (forall v, v <> 0 -> get_virt_addr zt ipa z = v <->
     exists rs i r, 0 <= z /\ zt !! Z.to_nat z = Some rs /\ rs !! i = Some r /\ in_region ipa r /\
       zonex_ipa r + mem_size r < 2 ^ 64 /\ v = virt_addr r + (ipa - zonex_ipa r)) /\
  (get_virt_addr zt ipa z = 0 <->
     forall rs i r, 0 <= z -> zt !! Z.to_nat z = Some rs -> rs !! i = Some r ->
       zonex_ipa r + mem_size r < 2 ^ 64 -> ~ in_region ipa r).
Proof.
  intros Hb. assert (forall v, v <> 0 -> get_virt_addr zt ipa z = v <->
     exists rs i r, 0 <= z /\ zt !! Z.to_nat z = Some rs /\ rs !! i = Some r /\ in_region ipa r /\
       zonex_ipa r + mem_size r < 2 ^ 64 /\ v = virt_addr r + (ipa - zonex_ipa r)) as H1.
  { intros v Hv. rewrite (get_virt_addr_buffer zt ipa z v Hb Hv). unfold buffer_at, in_region.
    split; intros (rs & i & r & H); exists rs, i, r; repeat split; try apply H; lia. }
  split; [exact H1|]. split.
  - intros H0 rs i r Hz Hzt Hi Hw Hin. destruct (table_built_ok zt Hb) as [_ Hhost].
    destruct (Hhost _ _ _ _ _ _ _ _ Hzt Hzt Hi Hi) as (Hp & _). unfold in_region in Hin.
    assert (get_virt_addr zt ipa z = virt_addr r + (ipa - zonex_ipa r)) as E; [|lia].
    apply H1; [lia|]. exists rs, i, r. done.
  - intros Hno. destruct (decide (get_virt_addr zt ipa z = 0)) as [|Hne]; [done|]. exfalso.
    destruct (proj1 (H1 _ Hne) eq_refl) as (rs & i & r & A & B & C & D & E & _). by eapply Hno.
Qed.

(** C1: isolation in the daemon's address space.  In every table the daemon builds,
    two buffers that each lie in a region of their zone (ending below 2^64) and have
    no guest byte in common (those of two zones never have) are translated byte by
    byte, in order, to ranges of the daemon's address space that do not overlap; and
    whatever a guest passes, a non-NULL translation is the address of a byte of a
    region of that guest's own zone. *)
Theorem get_virt_addr_isolated zt :
  table_built zt ->
  (forall z1 ipa1 n1 v1 z2 ipa2 n2 v2,
     0 < n1 -> 0 < n2 -> buffer_at zt z1 ipa1 n1 v1 -> buffer_at zt z2 ipa2 n2 v2 ->
     z1 <> z2 \/ ipa1 + n1 <= ipa2 \/ ipa2 + n2 <= ipa1 ->
     (forall k, 0 <= k < n1 -> get_virt_addr zt (ipa1 + k) z1 = v1 + k) /\
     (forall k, 0 <= k < n2 -> get_virt_addr zt (ipa2 + k) z2 = v2 + k) /\
     (v1 + n1 <= v2 \/ v2 + n2 <= v1)) /\
  (forall z ipa, get_virt_addr zt ipa z <> 0 -> buffer_at zt z ipa 1 (get_virt_addr zt ipa z)).
Proof.
  intros Hb. destruct (table_built_ok zt Hb) as [_ Hhost].
  assert (forall z ipa n v k, buffer_at zt z ipa n v -> 0 <= k < n -> get_virt_addr zt (ipa + k) z = v + k) as Hrun.
  { intros z ipa n v k Hbuf Hk. apply get_virt_addr_buffer; [done| |by eapply buffer_shrinks; [lia| |exact Hbuf]; lia].
    destruct Hbuf as (rs & i & r & _ & Hz & Hi & A & _ & _ & ->). destruct (Hhost _ _ _ _ _ _ _ _ Hz Hz Hi Hi) as (? & _). lia. }
  split; [|intros z ipa Hne; by apply get_virt_addr_buffer].
  intros z1 ipa1 n1 v1 z2 ipa2 n2 v2 N1 N2 B1 B2 Hd. split; [intros k Hk; by eapply Hrun|]. split; [intros k Hk; by eapply Hrun|].
  by eapply buffers_apart.
Qed.

(** Mapping a zone's memory keeps every zone's table well-formed (at most
    64 regions, none of them overlapping in guest or zone-0 addresses), never
    drops or changes a region that was there, and touches no other zone. *)
Theorem mmap_virtio_zone_memory_preserves zt cfg ans zt' ret ans' :
  zone_table_ok zt -> Forall config_ok (memory_regions cfg) ->
  mmap_virtio_zone_memory zt cfg ans = Ok (zt', ret, ans') ->
  zone_table_ok zt' /\ (ret = 0 \/ ret = -1) /\
  (forall z rs rs', zt !! z = Some rs -> zt' !! z = Some rs' -> rs `prefix_of` rs') /\
  (forall z, z <> zone_memory_id cfg -> zt' !! z = zt !! z).
Proof.
  intros Hok Hcfg H. split; [by eapply mmap_virtio_zone_memory_ok|].
  unfold mmap_virtio_zone_memory in H. apply bind_Ok_inv in H as (rs & Hrs & H). apply of_index_Ok_inv in Hrs.
  apply bind_Ok_inv in H as ([[rs' r] a] & Hm & H). injection H as <- <- <-. destruct Hok as [_ Hall].
  assert (zone_mem_ok rs) as Hrs' by (eapply Forall_lookup_1; eauto).
  destruct (mmap_regions_ok _ _ _ _ _ _ Hrs' Hcfg Hm) as (_ & Hpre & Hret).
  pose proof (lookup_lt_Some _ _ _ Hrs) as Hlt. split; [done|split].
  - intros z a1 a2 H1 H2. destruct (decide (z = zone_memory_id cfg)) as [->|Hne].
    + rewrite list_lookup_insert_eq in H2 by done. simplify_eq. done.
    + rewrite list_lookup_insert_ne in H2 by done. simplify_eq. done.
  - intros z Hne. by rewrite list_lookup_insert_ne.
Qed.

(** The overlap test of the configuration checks decides intersection of
    the two half-open ranges, except for the last address of the 64-bit space,
    which the saturating [range_end] never counts. *)
Theorem ranges_overlap_exact base_a len_a base_b len_b :
  u64_val base_a -> u64_val len_a -> u64_val base_b -> u64_val len_b ->
  ranges_overlap base_a len_a base_b len_b = true <->
  exists x, base_a <= x < base_a + len_a /\ base_b <= x < base_b + len_b /\ x < UINT64_MAX.
Proof. apply ranges_overlap_iff. Qed.

(** ** Witnesses *)

Definition region_a : zone_mem_region :=
  {| virt_addr := 0x7000; zone0_ipa := 0x5000; zonex_ipa := 0x4000; mem_size := 0x1000 |}.
Definition region_b : zone_mem_region :=
  {| virt_addr := 0x9000; zone0_ipa := 0x8000; zonex_ipa := 0x6000; mem_size := 0x800 |}.
Definition table_ab : zone_table := [] :: [region_a; region_b] :: replicate 30 [].

Lemma table_ab_ok : zone_table_ok table_ab.
Proof.
  split; [done|]. constructor; [|constructor].
  - split; [by apply Nat.leb_le|]. split; [constructor|]. intros; simplify_list_eq.
  - split; [by apply Nat.leb_le|]. split.
    + repeat constructor; simpl; lia.
    + intros i j a b Hij Hi Hj. destruct i as [|[|i]], j as [|[|j]]; simplify_list_eq; try lia; done.
  - apply Forall_replicate. split; [by apply Nat.leb_le|]. split; [constructor|]. intros; simplify_list_eq.
Qed.

Lemma table_ab_host : host_apart table_ab.
Proof.
  intros z1 z2 i1 i2 rs1 rs2 r1 r2 Hz1 Hz2 H1 H2.
  assert (forall z i rs r, table_ab !! z = Some rs -> rs !! i = Some r ->
    z = 1%nat /\ (i = 0%nat /\ r = region_a \/ i = 1%nat /\ r = region_b)) as Hsel.
  { intros z i rs r Hz Hi. destruct z as [|[|z]]; cbn in Hz; simplify_eq.
    - destruct i as [|[|i]]; cbn in Hi; simplify_eq; auto.
    - change (replicate 30 (@nil zone_mem_region) !! z = Some rs) in Hz.
      apply lookup_replicate in Hz as [-> _]. done. }
  destruct (Hsel _ _ _ _ Hz1 H1) as [-> [[-> ->]|[-> ->]]];
  destruct (Hsel _ _ _ _ Hz2 H2) as [-> [[-> ->]|[-> ->]]]; simpl;
    (split; [lia|]; split; [lia|]; intros; try congruence; lia).
Qed.

(** Every region with its zone and slot; a test for [host_apart]. *)
Definition all_regions (zt : zone_table) : list (nat * nat * zone_mem_region) :=
  concat (imap (fun z rs => imap (fun i r => (z, i, r)) rs) zt).

Definition host_apart_test (zt : zone_table) : bool :=
  let l := all_regions zt in
  forallb (fun x => forallb (fun y =>
    (0 <? virt_addr x.2) && (virt_addr x.2 + mem_size x.2 <=? 2 ^ 64) &&
    (bool_decide (x.1 = y.1) || (virt_addr x.2 + mem_size x.2 <=? virt_addr y.2) || (virt_addr y.2 + mem_size y.2 <=? virt_addr x.2))) l) l.

Lemma all_regions_in zt z i rs r : zt !! z = Some rs -> rs !! i = Some r -> In (z, i, r) (all_regions zt).
Proof.
  intros Hz Hi. apply in_concat. exists (imap (fun i r => (z, i, r)) rs). split.
  - apply list_elem_of_In, (list_elem_of_lookup_2 _ z). by rewrite list_lookup_imap, Hz.
  - apply list_elem_of_In, (list_elem_of_lookup_2 _ i). by rewrite list_lookup_imap, Hi.
Qed.

Lemma host_apart_tested zt : host_apart_test zt = true -> host_apart zt.
Proof.
  intros H z1 z2 i1 i2 rs1 rs2 r1 r2 Hz1 Hz2 H1 H2. unfold host_apart_test in H. rewrite forallb_forall in H.
  specialize (H _ (all_regions_in _ _ _ _ _ Hz1 H1)). rewrite forallb_forall in H. specialize (H _ (all_regions_in _ _ _ _ _ Hz2 H2)).
  cbn [fst snd] in H. apply andb_prop in H as [H Hd]. apply andb_prop in H as [Ha Hb]. split; [lia|]. split; [lia|]. intros Hne.
  rewrite bool_decide_eq_false_2 in Hd by done. lia.
Qed.

(** Zone 1 with two regions and zone 2 with one, at the same guest address as one of
    them. *)
Definition map_zone1 : VirtioZoneMemory :=
  {| zone_memory_id := 1; memory_regions := [current_config region_a; current_config region_b] |}.
Definition map_zone2 : VirtioZoneMemory :=
  {| zone_memory_id := 2; memory_regions := [{| cfg_zone0_ipa := 0xb000; cfg_zonex_ipa := 0x4000; cfg_size := 0x1000 |}] |}.
Definition region_c : zone_mem_region := {| virt_addr := 0xa000; zone0_ipa := 0xb000; zonex_ipa := 0x4000; mem_size := 0x1000 |}.
Definition table_two : zone_table := [] :: [region_a; region_b] :: [region_c] :: replicate 29 [].

Lemma table_ab_built : table_built table_ab.
Proof.
  eapply (built_map _ map_zone1 [Some 0x7000; Some 0x9000]); [apply built_empty| |reflexivity|apply host_apart_tested; reflexivity].
  repeat constructor; simpl; lia.
Qed.

Lemma table_two_built : table_built table_two.
Proof.
  eapply (built_map _ map_zone2 [Some 0xa000]); [apply table_ab_built| |reflexivity|apply host_apart_tested; reflexivity].
  repeat constructor; simpl; lia.
Qed.

Lemma get_virt_addr_exact_witness : get_virt_addr table_two 0x4010 2 = 0xa010 /\ get_virt_addr table_two 0x5000 2 = 0.
Proof.
  split.
  - apply (get_virt_addr_exact table_two 0x4010 2 table_two_built); [lia|]. exists [region_c], 0%nat, region_c.
    unfold in_region. repeat split; simpl; lia.
  - apply (get_virt_addr_exact table_two 0x5000 2 table_two_built). intros rs i r _ Hz Hi _ Hin. cbn in Hz. injection Hz as <-.
    destruct i as [|i]; cbn in Hi; [injection Hi as <-|done]. unfold in_region in Hin. simpl in Hin. lia.
Defined.

(** The same guest range of two zones, 16 bytes each: 0x7010 and 0xa010 on the host. *)
Lemma get_virt_addr_isolated_witness :
  get_virt_addr table_two (0x4010 + 5) 1 = 0x7015 /\ get_virt_addr table_two (0x4010 + 5) 2 = 0xa015 /\ buffer_at table_two 1 0x6004 1 0x9004.
Proof.
  destruct (get_virt_addr_isolated table_two table_two_built) as [H1 H2].
  destruct (H1 1 0x4010 16 0x7010 2 0x4010 16 0xa010) as (A & B & _).
  - lia.
  - lia.
  - exists [region_a; region_b], 0%nat, region_a. repeat split; simpl; lia.
  - exists [region_c], 0%nat, region_c. repeat split; simpl; lia.
  - left. lia.
  - split; [apply (A 5); lia|]. split; [apply (B 5); lia|]. exact (H2 1 0x6004 ltac:(vm_compute; discriminate)).
Defined.

Definition map_one : VirtioZoneMemory :=
  {| zone_memory_id := 1; memory_regions := [{| cfg_zone0_ipa := 0xa000; cfg_zonex_ipa := 0x8000; cfg_size := 0x100 |}] |}.

Lemma mmap_virtio_zone_memory_preserves_witness :
  exists zt' ret ans', mmap_virtio_zone_memory table_ab map_one [Some 0xc000] = Ok (zt', ret, ans') /\ zone_table_ok zt'.
Proof.
  do 3 eexists. split; [reflexivity|].
  eapply (mmap_virtio_zone_memory_preserves table_ab map_one [Some 0xc000]).
  - apply table_ab_ok.
  - repeat constructor; simpl; lia.
  - reflexivity.
Defined.

Lemma ranges_overlap_exact_witness : ranges_overlap 0x10 0x10 0x18 4 = true <->
  exists x, 0x10 <= x < 0x10 + 0x10 /\ 0x18 <= x < 0x18 + 4 /\ x < UINT64_MAX.
Proof. apply (ranges_overlap_exact 0x10 0x10 0x18 4); unfold u64_val; lia. Defined.
