(* ===== verification/Virtqueue.v ===== *)
(** * Split virtqueues

    The virtqueue routines of [tools/virtio/virtio.c] and the [VirtQueue] of
    [tools/virtio/include/virtio.h], on rings that live in guest memory.  Ring layouts
    and flag values are those of the virtio 1.x split virtqueue ABI
    (<linux/virtio_ring.h>): a 16-byte descriptor, [avail = {u16 flags; u16 idx;
    u16 ring[]}] and [used = {u16 flags; u16 idx; {u32 id; u32 len} ring[]}].
    A [VirtQueue]'s back pointer [dev] is always the device that owns it, so the
    functions that follow take what they read of the device ([zone_id]) as an
    argument. *)

From S2P Require Import Prelude Memory ZoneMem.

(** ** Data *)

Definition VRING_DESC_F_NEXT : Z := 1.
Definition VRING_DESC_F_WRITE : Z := 2.
Definition VRING_DESC_F_INDIRECT : Z := 4.
Definition VRING_USED_F_NO_NOTIFY : Z := 1.
Definition VRING_AVAIL_F_NO_INTERRUPT : Z := 1.

(** The functions a [notify_handler] pointer can hold. *)
Inductive notify_fn :=
  | virtio_blk_notify
  | virtio_net_rxq_notify
  | virtio_net_txq_notify
  | virtio_console_rxq_notify
  | virtio_console_txq_notify
  | virtio_scmi_txq_notify
  | virtio_gpu_ctrl_notify
  | virtio_gpu_cursor_notify.

#[global] Instance notify_fn_eq_dec : EqDecision notify_fn.
Proof. solve_decision. Defined.

Record VirtqDesc := {
  desc_addr : Z;
  desc_len : Z;
  desc_flags : Z;
  desc_next : Z;
}.

Record iovec := {
  iov_base : Z;
  iov_len : Z;
}.

Record VirtQueue := {
  vq_idx : Z;   (* uint64_t *)
  num : Z;   (* capacity chosen by the driver *)
  queue_num_max : Z;   (* capacity offered by the device *)
  desc_table_addr : Z;   (* guest addresses of the three rings *)
  avail_addr : Z;
  used_addr : Z;
  desc_table : Z;   (* host addresses of the three rings, 0 for NULL *)
  avail_ring : Z;
  used_ring : Z;
  notify_handler : option notify_fn;
  last_avail_idx : Z;   (* uint16_t *)
  last_used_idx : Z;   (* uint16_t *)
  ready : Z;   (* uint8_t *)
  event_idx_enabled : bool;
}.

#[global] Instance VirtQueue_eq_dec : EqDecision VirtQueue.
Proof. solve_decision. Defined.

Definition set_num (v : Z) (vq : VirtQueue) : VirtQueue :=
  {| vq_idx := vq_idx vq; num := v; queue_num_max := queue_num_max vq;
     desc_table_addr := desc_table_addr vq; avail_addr := avail_addr vq; used_addr := used_addr vq;
     desc_table := desc_table vq; avail_ring := avail_ring vq; used_ring := used_ring vq;
     notify_handler := notify_handler vq; last_avail_idx := last_avail_idx vq;
     last_used_idx := last_used_idx vq; ready := ready vq;
     event_idx_enabled := event_idx_enabled vq |}.

Definition set_desc_table_addr (v : Z) (vq : VirtQueue) : VirtQueue :=
  {| vq_idx := vq_idx vq; num := num vq; queue_num_max := queue_num_max vq; desc_table_addr := v;
     avail_addr := avail_addr vq; used_addr := used_addr vq; desc_table := desc_table vq;
     avail_ring := avail_ring vq; used_ring := used_ring vq; notify_handler := notify_handler vq;
     last_avail_idx := last_avail_idx vq; last_used_idx := last_used_idx vq; ready := ready vq;
     event_idx_enabled := event_idx_enabled vq |}.

Definition set_avail_addr (v : Z) (vq : VirtQueue) : VirtQueue :=
  {| vq_idx := vq_idx vq; num := num vq; queue_num_max := queue_num_max vq;
     desc_table_addr := desc_table_addr vq; avail_addr := v; used_addr := used_addr vq;
     desc_table := desc_table vq; avail_ring := avail_ring vq; used_ring := used_ring vq;
     notify_handler := notify_handler vq; last_avail_idx := last_avail_idx vq;
     last_used_idx := last_used_idx vq; ready := ready vq;
     event_idx_enabled := event_idx_enabled vq |}.

Definition set_used_addr (v : Z) (vq : VirtQueue) : VirtQueue :=
  {| vq_idx := vq_idx vq; num := num vq; queue_num_max := queue_num_max vq;
     desc_table_addr := desc_table_addr vq; avail_addr := avail_addr vq; used_addr := v;
     desc_table := desc_table vq; avail_ring := avail_ring vq; used_ring := used_ring vq;
     notify_handler := notify_handler vq; last_avail_idx := last_avail_idx vq;
     last_used_idx := last_used_idx vq; ready := ready vq;
     event_idx_enabled := event_idx_enabled vq |}.

Definition set_desc_table (v : Z) (vq : VirtQueue) : VirtQueue :=
  {| vq_idx := vq_idx vq; num := num vq; queue_num_max := queue_num_max vq;
     desc_table_addr := desc_table_addr vq; avail_addr := avail_addr vq; used_addr := used_addr vq;
     desc_table := v; avail_ring := avail_ring vq; used_ring := used_ring vq;
     notify_handler := notify_handler vq; last_avail_idx := last_avail_idx vq;
     last_used_idx := last_used_idx vq; ready := ready vq;
     event_idx_enabled := event_idx_enabled vq |}.

Definition set_avail_ring (v : Z) (vq : VirtQueue) : VirtQueue :=
  {| vq_idx := vq_idx vq; num := num vq; queue_num_max := queue_num_max vq;
     desc_table_addr := desc_table_addr vq; avail_addr := avail_addr vq; used_addr := used_addr vq;
     desc_table := desc_table vq; avail_ring := v; used_ring := used_ring vq;
     notify_handler := notify_handler vq; last_avail_idx := last_avail_idx vq;
     last_used_idx := last_used_idx vq; ready := ready vq;
     event_idx_enabled := event_idx_enabled vq |}.

Definition set_used_ring (v : Z) (vq : VirtQueue) : VirtQueue :=
  {| vq_idx := vq_idx vq; num := num vq; queue_num_max := queue_num_max vq;
     desc_table_addr := desc_table_addr vq; avail_addr := avail_addr vq; used_addr := used_addr vq;
     desc_table := desc_table vq; avail_ring := avail_ring vq; used_ring := v;
     notify_handler := notify_handler vq; last_avail_idx := last_avail_idx vq;
     last_used_idx := last_used_idx vq; ready := ready vq;
     event_idx_enabled := event_idx_enabled vq |}.

Definition set_last_avail_idx (v : Z) (vq : VirtQueue) : VirtQueue :=
  {| vq_idx := vq_idx vq; num := num vq; queue_num_max := queue_num_max vq;
     desc_table_addr := desc_table_addr vq; avail_addr := avail_addr vq; used_addr := used_addr vq;
     desc_table := desc_table vq; avail_ring := avail_ring vq; used_ring := used_ring vq;
     notify_handler := notify_handler vq; last_avail_idx := v; last_used_idx := last_used_idx vq;
     ready := ready vq; event_idx_enabled := event_idx_enabled vq |}.

Definition set_last_used_idx (v : Z) (vq : VirtQueue) : VirtQueue :=
  {| vq_idx := vq_idx vq; num := num vq; queue_num_max := queue_num_max vq;
     desc_table_addr := desc_table_addr vq; avail_addr := avail_addr vq; used_addr := used_addr vq;
     desc_table := desc_table vq; avail_ring := avail_ring vq; used_ring := used_ring vq;
     notify_handler := notify_handler vq; last_avail_idx := last_avail_idx vq; last_used_idx := v;
     ready := ready vq; event_idx_enabled := event_idx_enabled vq |}.

Definition set_ready (v : Z) (vq : VirtQueue) : VirtQueue :=
  {| vq_idx := vq_idx vq; num := num vq; queue_num_max := queue_num_max vq;
     desc_table_addr := desc_table_addr vq; avail_addr := avail_addr vq; used_addr := used_addr vq;
     desc_table := desc_table vq; avail_ring := avail_ring vq; used_ring := used_ring vq;
     notify_handler := notify_handler vq; last_avail_idx := last_avail_idx vq;
     last_used_idx := last_used_idx vq; ready := v; event_idx_enabled := event_idx_enabled vq |}.

Definition set_event_idx_enabled (v : bool) (vq : VirtQueue) : VirtQueue :=
  {| vq_idx := vq_idx vq; num := num vq; queue_num_max := queue_num_max vq;
     desc_table_addr := desc_table_addr vq; avail_addr := avail_addr vq; used_addr := used_addr vq;
     desc_table := desc_table vq; avail_ring := avail_ring vq; used_ring := used_ring vq;
     notify_handler := notify_handler vq; last_avail_idx := last_avail_idx vq;
     last_used_idx := last_used_idx vq; ready := ready vq; event_idx_enabled := v |}.

(** ** Ring accesses *)

(** [desc_table[i]], copied in one go as the C code does. *)
Definition read_desc (m : hmem) (table i : Z) : result VirtqDesc :=
  let a := table + 16 * i in
  addr ← load 8 m a;
  len ← load 4 m (a + 8);
  flags ← load 2 m (a + 12);
  next ← load 2 m (a + 14);
  Ok {| desc_addr := addr; desc_len := len; desc_flags := flags; desc_next := next |}.

Definition avail_flags (m : hmem) (vq : VirtQueue) : result Z := load 2 m (avail_ring vq).
Definition avail_idx (m : hmem) (vq : VirtQueue) : result Z := load 2 m (avail_ring vq + 2).
Definition avail_entry (m : hmem) (vq : VirtQueue) (i : Z) : result Z := load 2 m (avail_ring vq + 4 + 2 * i).
Definition used_flags (m : hmem) (vq : VirtQueue) : result Z := load 2 m (used_ring vq).
Definition used_idx (m : hmem) (vq : VirtQueue) : result Z := load 2 m (used_ring vq + 2).
Definition used_elem_addr (vq : VirtQueue) (i : Z) : Z := used_ring vq + 4 + 8 * i.

(** [VQ_USED_EVENT] and the address behind [VQ_AVAIL_EVENT]. *)
Definition VQ_USED_EVENT (m : hmem) (vq : VirtQueue) : result Z := avail_entry m vq (num vq).
Definition VQ_AVAIL_EVENT (vq : VirtQueue) : Z := used_elem_addr vq (num vq).

(** The next available descriptor head: [avail_ring->ring[last_avail_idx & (num - 1)]]. *)
Definition next_avail_head (m : hmem) (vq : VirtQueue) : result Z :=
  avail_entry m vq (Z.land (last_avail_idx vq) (u64 (num vq - 1))).

Definition virtqueue_reset (vq : VirtQueue) (idx : Z) : VirtQueue :=
  {| vq_idx := idx; num := 0; queue_num_max := queue_num_max vq;
     desc_table_addr := 0; avail_addr := 0; used_addr := 0;
     desc_table := 0; avail_ring := 0; used_ring := 0;
     notify_handler := notify_handler vq; last_avail_idx := 0; last_used_idx := 0;
     ready := 0; event_idx_enabled := false |}.

Definition vq_is_empty (m : hmem) (vq : VirtQueue) : result bool :=
  if avail_ring vq =? 0 then Ok true
  else idx ← avail_idx m vq; Ok (idx =? last_avail_idx vq).

Definition virtqueue_is_empty := vq_is_empty.

Definition desc_is_writable (m : hmem) (table idx : Z) : result bool :=
  d ← read_desc m table idx; Ok (has_flag (desc_flags d) VRING_DESC_F_WRITE).

Definition virtqueue_disable_notify (m : hmem) (vq : VirtQueue) : result hmem :=
  if event_idx_enabled vq then store 2 m (VQ_AVAIL_EVENT vq) (u16 (last_avail_idx vq - 1))
  else f ← used_flags m vq; store 2 m (used_ring vq) (Z.lor f VRING_USED_F_NO_NOTIFY).

Definition virtqueue_enable_notify (m : hmem) (vq : VirtQueue) : result hmem :=
  if event_idx_enabled vq then i ← avail_idx m vq; store 2 m (VQ_AVAIL_EVENT vq) i
  else f ← used_flags m vq; store 2 m (used_ring vq) (Z.land f (Z.lnot VRING_USED_F_NO_NOTIFY)).

Definition virtqueue_set_desc_table (zt : zone_table) (zone_id : Z) (vq : VirtQueue) : VirtQueue :=
  set_desc_table (get_virt_addr zt (desc_table_addr vq) (s32 zone_id)) vq.

Definition virtqueue_set_avail (zt : zone_table) (zone_id : Z) (vq : VirtQueue) : VirtQueue :=
  set_avail_ring (get_virt_addr zt (avail_addr vq) (s32 zone_id)) vq.

Definition virtqueue_set_used (zt : zone_table) (zone_id : Z) (vq : VirtQueue) : VirtQueue :=
  set_used_ring (get_virt_addr zt (used_addr vq) (s32 zone_id)) vq.

(** ** Walking a descriptor chain into caller-provided buffers *)

Record VirtioBufConfig := {
  max_out : Z;
  max_in : Z;
}.

(** The two iovec arrays being filled: the first [out_count]/[in_count] entries. *)
Record VirtioRequest := {
  out_iov : list iovec;
  in_iov : list iovec;
}.

Definition out_count (r : VirtioRequest) : Z := Z.of_nat (length (out_iov r)).
Definition in_count (r : VirtioRequest) : Z := Z.of_nat (length (in_iov r)).

(** [None] is the return value -1 (buffer full). *)
Definition push_descriptor (flags address length : Z) (cfg : VirtioBufConfig) (r : VirtioRequest) :
    option VirtioRequest :=
  let v := {| iov_base := address; iov_len := length |} in
  if has_flag flags VRING_DESC_F_WRITE then
    if max_in cfg <=? in_count r then None
    else Some {| out_iov := out_iov r; in_iov := in_iov r ++ [v] |}
  else
    if max_out cfg <=? out_count r then None
    else Some {| out_iov := out_iov r ++ [v]; in_iov := in_iov r |}.

(** Translate one descriptor and push it: shared by the two loops below. *)
Definition push_translated (zt : zone_table) (zone_id : Z) (cfg : VirtioBufConfig) (d : VirtqDesc) (r : VirtioRequest) :
    option VirtioRequest :=
  let address := get_virt_addr zt (desc_addr d) (s32 zone_id) in
  if address =? 0 then None
  else push_descriptor (desc_flags d) address (desc_len d) cfg r.

Fixpoint walk_indirect (j : nat) (m : hmem) (zt : zone_table) (zone_id table indirect_count : Z)
    (cfg : VirtioBufConfig) (indirect_next : Z) (r : VirtioRequest) : result (option VirtioRequest) :=
  match j with
  | O => Ok (Some r)
  | S j' =>
      if indirect_count <=? indirect_next then Ok None
      else
        d ← read_desc m table indirect_next;
        match push_translated zt zone_id cfg d r with
        | None => Ok None
        | Some r' =>
            if has_flag (desc_flags d) VRING_DESC_F_NEXT
            then walk_indirect j' m zt zone_id table indirect_count cfg (desc_next d) r'
            else Ok (Some r')
        end
  end.

(** One iteration's contribution: an indirect table or a single buffer. *)
Definition walk_one (m : hmem) (zt : zone_table) (zone_id : Z) (cfg : VirtioBufConfig) (d : VirtqDesc)
    (r : VirtioRequest) : result (option VirtioRequest) :=
  if has_flag (desc_flags d) VRING_DESC_F_INDIRECT then
    let indirect_count := desc_len d `div` 16 in
    let indirect_table := get_virt_addr zt (desc_addr d) (s32 zone_id) in
    walk_indirect (Z.to_nat indirect_count) m zt zone_id indirect_table indirect_count cfg 0 r
  else Ok (push_translated zt zone_id cfg d r).

Fixpoint walk_chain (iter : nat) (m : hmem) (zt : zone_table) (zone_id table : Z)
    (cfg : VirtioBufConfig) (next : Z) (r : VirtioRequest) : result (option VirtioRequest) :=
  match iter with
  | O => Ok (Some r)
  | S iter' =>
      d ← read_desc m table next;
      o ← walk_one m zt zone_id cfg d r;
      match o with
      | None => Ok None
      | Some r' =>
          if has_flag (desc_flags d) VRING_DESC_F_NEXT
          then walk_chain iter' m zt zone_id table cfg (desc_next d) r'
          else Ok (Some r')
      end
  end.

(** The queue afterwards and the parsed request; [None] is the return value -1,
    otherwise the return value is [out_count + in_count]. *)
Definition process_descriptor_chain_buf (m : hmem) (zt : zone_table) (zone_id : Z) (vq : VirtQueue)
    (descriptor_head : Z) (cfg : VirtioBufConfig) : result (VirtQueue * option VirtioRequest) :=
  o ← walk_chain (Z.to_nat (num vq)) m zt zone_id (desc_table vq) cfg descriptor_head
        {| out_iov := []; in_iov := [] |};
  match o with
  | None => Ok (vq, None)
  | Some r => Ok (set_last_avail_idx (u16 (last_avail_idx vq + 1)) vq, Some r)
  end.

(** ** Publishing completions *)

Definition used_mask (vq : VirtQueue) : Z := u16 (num vq - 1).

Definition store_used_elem (m : hmem) (vq : VirtQueue) (slot id len : Z) : result hmem :=
  m1 ← store 4 m (used_elem_addr vq slot) id;
  store 4 m1 (used_elem_addr vq slot + 4) len.

Definition update_used_ring (m : hmem) (vq : VirtQueue) (idx iolen : Z) : result hmem :=
  i ← used_idx m vq;
  m1 ← store_used_elem m vq (Z.land i (used_mask vq)) idx iolen;
  store 2 m1 (used_ring vq + 2) (u16 (i + 1)).

Fixpoint store_used_elems (m : hmem) (vq : VirtQueue) (i : Z) (l : list (Z * Z)) : result hmem :=
  match l with
  | [] => Ok m
  | (id, len) :: l' =>
      m1 ← store_used_elem m vq (Z.land i (used_mask vq)) id len;
      store_used_elems m1 vq (i + 1) l'
  end.

Definition update_used_ring_batch (m : hmem) (vq : VirtQueue) (l : list (Z * Z)) : result hmem :=
  if (length l =? 0)%nat then Ok m
  else
    i ← used_idx m vq;
    m1 ← store_used_elems m vq i l;
    store 2 m1 (used_ring vq + 2) (u16 (i + Z.of_nat (length l))).

(** ** Reference semantics of a descriptor chain *)

(** The chain inside an indirect table of [count] entries, starting at [i], in
    at most [n] hops. *)
Inductive ind_chain (m : hmem) (table count : Z) : nat -> Z -> list VirtqDesc -> Prop :=
  | ind_last n i d :
      i < count -> read_desc m table i = Ok d ->
      has_flag (desc_flags d) VRING_DESC_F_NEXT = false ->
      ind_chain m table count (S n) i [d]
  | ind_more n i d ds :
      i < count -> read_desc m table i = Ok d ->
      has_flag (desc_flags d) VRING_DESC_F_NEXT = true ->
      ind_chain m table count n (desc_next d) ds ->
      ind_chain m table count (S n) i (d :: ds).

(** The buffers one entry of the descriptor table stands for. *)
Definition expands (m : hmem) (zt : zone_table) (zone_id : Z) (d : VirtqDesc) (ds : list VirtqDesc) : Prop :=
  if has_flag (desc_flags d) VRING_DESC_F_INDIRECT
  then ind_chain m (get_virt_addr zt (desc_addr d) (s32 zone_id)) (desc_len d `div` 16)
         (Z.to_nat (desc_len d `div` 16)) 0 ds
  else ds = [d].

(** The buffers of the whole chain from table entry [i], in at most [n] hops. *)
Inductive chain (m : hmem) (zt : zone_table) (zone_id table : Z) : nat -> Z -> list VirtqDesc -> Prop :=
  | chain_last n i d ds :
      read_desc m table i = Ok d -> expands m zt zone_id d ds ->
      has_flag (desc_flags d) VRING_DESC_F_NEXT = false ->
      chain m zt zone_id table (S n) i ds
  | chain_more n i d ds rest :
      read_desc m table i = Ok d -> expands m zt zone_id d ds ->
      has_flag (desc_flags d) VRING_DESC_F_NEXT = true ->
      chain m zt zone_id table n (desc_next d) rest ->
      chain m zt zone_id table (S n) i (ds ++ rest).

Definition writable (d : VirtqDesc) : bool := has_flag (desc_flags d) VRING_DESC_F_WRITE.

Definition to_iovec (zt : zone_table) (zone_id : Z) (d : VirtqDesc) : iovec :=
  {| iov_base := get_virt_addr zt (desc_addr d) (s32 zone_id); iov_len := desc_len d |}.

(** The request a chain denotes: its buffers split by direction, in chain order. *)
Definition split_request (zt : zone_table) (zone_id : Z) (ds : list VirtqDesc) : VirtioRequest :=
  {| out_iov := to_iovec zt zone_id <$> List.filter (fun d => negb (writable d)) ds;
     in_iov := to_iovec zt zone_id <$> List.filter writable ds |}.

Definition translates (zt : zone_table) (zone_id : Z) (d : VirtqDesc) : Prop :=
  get_virt_addr zt (desc_addr d) (s32 zone_id) <> 0.

Definition fits (cfg : VirtioBufConfig) (r : VirtioRequest) : Prop :=
  out_count r <= max_out cfg /\ in_count r <= max_in cfg.

Definition append_request (r s : VirtioRequest) : VirtioRequest :=
  {| out_iov := out_iov r ++ out_iov s; in_iov := in_iov r ++ in_iov s |}.

(** Pushing a list of buffers one after the other. *)
Fixpoint push_list (zt : zone_table) (zone_id : Z) (cfg : VirtioBufConfig) (ds : list VirtqDesc) (r : VirtioRequest) :
    option VirtioRequest :=
  match ds with
  | [] => Some r
  | d :: ds' => push_translated zt zone_id cfg d r ≫= push_list zt zone_id cfg ds'
  end.

(** A buffer of 32-bit length that starts at the translation of an address of
    the zone. *)
Definition zone_buffer (zt : zone_table) (zone_id : Z) (v : iovec) : Prop :=
  iov_base v <> 0 /\ (exists ipa, iov_base v = get_virt_addr zt ipa (s32 zone_id)) /\ 0 <= iov_len v < 2 ^ 32.

(** Memories with the same mappings and the same bytes. *)
Definition mem_equiv (m m' : hmem) : Prop :=
  hm_ranges m = hm_ranges m' /\ forall x, get_byte m x = get_byte m' x.

(** One completion after the other through [update_used_ring]. *)
Fixpoint update_used_ring_each (m : hmem) (vq : VirtQueue) (l : list (Z * Z)) : result hmem :=
  match l with
  | [] => Ok m
  | (id, len) :: l' => m1 ← update_used_ring m vq id len; update_used_ring_each m1 vq l'
  end.

(** ** Lemmas on the walk *)

Section walk.
Context (m : hmem) (zt : zone_table) (zone_id : Z) (cfg : VirtioBufConfig).

Definition good (r : VirtioRequest) : Prop :=
  fits cfg r /\ Forall (zone_buffer zt zone_id) (out_iov r ++ in_iov r).

Lemma read_desc_len table i d : read_desc m table i = Ok d -> 0 <= desc_len d < 2 ^ 32.
Proof.
  unfold read_desc. intros H. apply bind_Ok_inv in H as (x & _ & H). apply bind_Ok_inv in H as (l & Hl & H).
  apply bind_Ok_inv in H as (y & _ & H). apply bind_Ok_inv in H as (z & _ & H). injection H as <-.
  exact (load_range _ _ _ _ Hl).
Qed.

Lemma push_translated_good d r r' :
  0 <= desc_len d < 2 ^ 32 -> push_translated zt zone_id cfg d r = Some r' -> good r -> good r'.
Proof.
  unfold push_translated, push_descriptor, good, fits, out_count, in_count.
  intros Hlen H [[Ho Hi] Hb]. destruct (_ =? 0) eqn:E0; [done|].
  assert (zone_buffer zt zone_id (to_iovec zt zone_id d)) as Hv by (split; [simpl; lia|split; [eauto|exact Hlen]]).
  apply Forall_app in Hb as [Hb1 Hb2].
  destruct (has_flag _ _); [destruct (max_in cfg <=? _) eqn:E|destruct (max_out cfg <=? _) eqn:E]; simplify_eq;
    simpl; rewrite !length_app; simpl; (split; [lia|]); rewrite !Forall_app; repeat split; try done; by constructor.
Qed.

Lemma walk_indirect_good table count : forall j next r r',
  walk_indirect j m zt zone_id table count cfg next r = Ok (Some r') -> good r -> good r'.
Proof.
  induction j as [|j IH]; intros next r r' H Hr; simpl in H; [by injection H as <-|].
  destruct (count <=? next); [done|]. apply bind_Ok_inv in H as (d & Hd & H).
  destruct (push_translated zt zone_id cfg d r) as [r1|] eqn:E; [|done].
  pose proof (push_translated_good _ _ _ (read_desc_len _ _ _ Hd) E Hr) as Hr1.
  destruct (has_flag _ _); [by eapply IH|by injection H as <-].
Qed.

Lemma walk_one_good d r r' :
  0 <= desc_len d < 2 ^ 32 -> walk_one m zt zone_id cfg d r = Ok (Some r') -> good r -> good r'.
Proof.
  unfold walk_one. intros Hl. destruct (has_flag _ _); intros H; [by eapply walk_indirect_good|].
  injection H as H. by eapply push_translated_good.
Qed.

Lemma walk_chain_good table : forall iter next r r',
  walk_chain iter m zt zone_id table cfg next r = Ok (Some r') -> good r -> good r'.
Proof.
  induction iter as [|iter IH]; intros next r r' H Hr; simpl in H; [by injection H as <-|].
  apply bind_Ok_inv in H as (d & Hd & H). apply bind_Ok_inv in H as (o & Ho & H).
  destruct o as [r1|]; [|done]. pose proof (walk_one_good _ _ _ (read_desc_len _ _ _ Hd) Ho Hr) as Hr1.
  destruct (has_flag _ _); [by eapply IH|by injection H as <-].
Qed.

Lemma push_list_app ds1 : forall ds2 r,
  push_list zt zone_id cfg (ds1 ++ ds2) r = push_list zt zone_id cfg ds1 r ≫= push_list zt zone_id cfg ds2.
Proof.
  induction ds1 as [|d ds1 IH]; intros ds2 r; [done|]. simpl.
  destruct (push_translated zt zone_id cfg d r); simpl; [apply IH|done].
Qed.

Lemma walk_indirect_chain table count n i ds :
  ind_chain m table count n i ds ->
  forall r, walk_indirect n m zt zone_id table count cfg i r = Ok (push_list zt zone_id cfg ds r).
Proof.
  induction 1 as [n i d Hi Hd Hf|n i d ds Hi Hd Hf _ IH]; intros r; simpl;
    (replace (count <=? i) with false by lia); rewrite Hd; simpl;
    (destruct (push_translated zt zone_id cfg d r) as [r1|]; simpl; [|done]); rewrite Hf; [done|apply IH].
Qed.

Lemma walk_one_expands d ds r :
  expands m zt zone_id d ds -> walk_one m zt zone_id cfg d r = Ok (push_list zt zone_id cfg ds r).
Proof.
  unfold expands, walk_one. destruct (has_flag _ VRING_DESC_F_INDIRECT).
  - intros H. by apply walk_indirect_chain.
  - intros ->. simpl. by destruct (push_translated zt zone_id cfg d r).
Qed.

Lemma walk_chain_chain table n i ds :
  chain m zt zone_id table n i ds ->
  forall k r, (n <= k)%nat -> walk_chain k m zt zone_id table cfg i r = Ok (push_list zt zone_id cfg ds r).
Proof.
  induction 1 as [n i d ds Hd He Hf|n i d ds rest Hd He Hf _ IH]; intros k r Hk;
    (destruct k as [|k]; [lia|]); simpl; rewrite Hd; simpl; rewrite (walk_one_expands d ds r He); simpl.
  - destruct (push_list zt zone_id cfg ds r); [|done]. by rewrite Hf.
  - rewrite push_list_app. destruct (push_list zt zone_id cfg ds r) as [r1|]; [|done].
    rewrite Hf. apply IH. lia.
Qed.

Lemma append_split_cons r d ds :
  append_request r (split_request zt zone_id (d :: ds)) =
  append_request (append_request r (split_request zt zone_id [d])) (split_request zt zone_id ds).
Proof.
  unfold append_request, split_request. simpl. destruct (writable d); simpl;
    by rewrite ?app_nil_r, <- ?app_assoc.
Qed.

(** Pushing succeeds exactly when every address translates and both arrays are
    large enough, and then yields the split of the buffers. *)
Lemma push_list_spec ds : forall r,
  fits cfg r ->
  (Forall (translates zt zone_id) ds /\ fits cfg (append_request r (split_request zt zone_id ds)) ->
     push_list zt zone_id cfg ds r = Some (append_request r (split_request zt zone_id ds))) /\
  (push_list zt zone_id cfg ds r <> None ->
     Forall (translates zt zone_id) ds /\ fits cfg (append_request r (split_request zt zone_id ds))).
Proof.
  induction ds as [|d ds IH]; intros r Hr.
  { unfold append_request. simpl. rewrite !app_nil_r. destruct r; simpl in *. repeat split; try apply Hr; auto. }
  rewrite append_split_cons. simpl push_list.
  set (r1 := append_request r (split_request zt zone_id [d])).
  assert (Hlen : forall s, out_count r1 <= out_count (append_request r1 s) /\ in_count r1 <= in_count (append_request r1 s)).
  { intros s. unfold out_count, in_count, append_request. simpl. rewrite !length_app. lia. }
  assert (Hpush : push_translated zt zone_id cfg d r =
            if (get_virt_addr zt (desc_addr d) (s32 zone_id) =? 0) || (max_out cfg <? out_count r1) || (max_in cfg <? in_count r1)
            then None else Some r1).
  { subst r1. unfold push_translated, push_descriptor. destruct (_ =? 0); [done|].
    unfold append_request, split_request, out_count, in_count, fits in *. simpl.
    destruct Hr as [Ho Hi]. unfold out_count, in_count in Ho, Hi.
    change (writable d) with (has_flag (desc_flags d) VRING_DESC_F_WRITE). destruct (has_flag _ _); simpl;
      rewrite ?app_nil_r, ?length_app; simpl.
    - destruct (max_in cfg <=? _) eqn:E.
      + by replace (_ || _) with true by lia.
      + by replace (_ || _) with false by lia.
    - destruct (max_out cfg <=? _) eqn:E.
      + by replace (_ || _) with true by lia.
      + by replace (_ || _) with false by lia. }
  rewrite Hpush. split.
  - intros [Ht Hf]. apply Forall_cons_1 in Ht as [Hd Ht]. unfold translates in Hd. unfold fits in Hf.
    specialize (Hlen (split_request zt zone_id ds)).
    replace (_ || _) with false by lia. simpl. apply IH; [split; lia|]. by split.
  - destruct (_ || _) eqn:E; [done|]. simpl. intros Hne.
    destruct (IH r1) as [_ H2]; [unfold fits; lia|]. destruct (H2 Hne) as [Ht Hf].
    split; [|done]. constructor; [unfold translates; lia|done].
Qed.

End walk.

(** ** Lemmas on the used ring *)

#[global] Instance mem_equiv_equivalence : Equivalence mem_equiv.
Proof.
  split.
  - intros m. by split.
  - intros m m' [H1 H2]. split; [done|]. intros x. by rewrite H2.
  - intros m1 m2 m3 [H1 H2] [H3 H4]. split; [congruence|]. intros x. by rewrite H2, H4.
Qed.

(** Loads cannot tell equivalent memories apart. *)
#[global] Instance load_proper n : Proper (mem_equiv ==> eq ==> eq) (load n).
Proof.
  intros m m' [H1 H2] a ? <-. unfold load. rewrite (access_ranges m m') by done.
  destruct (access m' a n); simpl; [|done]. f_equal. apply peek_ext. intros i _. apply H2.
Qed.

Section used_ring.
Context (vq : VirtQueue).

Lemma used_mask_range : 0 <= used_mask vq < 2 ^ 16.
Proof. apply u16_range. Qed.

(** Only the low 16 bits of an index matter under the mask. *)
Lemma used_mask_u16 i : Z.land (u16 i) (used_mask vq) = Z.land i (used_mask vq).
Proof.
  pose proof used_mask_range as Hm. unfold u16. rewrite <- (Z.land_ones i 16) by lia.
  rewrite <- Z.land_assoc. f_equal. rewrite Z.land_comm, Z.land_ones by lia. by apply Z.mod_small.
Qed.

Lemma used_slot_range i : 0 <= Z.land i (used_mask vq) <= used_mask vq.
Proof. apply land_upper, used_mask_range. Qed.

Lemma used_slot_pow2 i k :
  0 <= k <= 16 -> num vq = 2 ^ k -> Z.land i (used_mask vq) = i `mod` num vq.
Proof.
  intros Hk Hn. unfold used_mask. rewrite Hn.
  assert (2 ^ k <= 2 ^ 16) by (apply Z.pow_le_mono_r; lia).
  pose proof (Z.pow_pos_nonneg 2 k).
  rewrite u16_small by lia. apply land_mask_mod. lia.
Qed.

(** What [store_used_elem] leaves at its slot and what it leaves alone. *)
Lemma store_used_elem_spec m slot id len m' :
  store_used_elem m vq slot id len = Ok m' ->
  load 4 m' (used_elem_addr vq slot) = Ok (u32 id) /\
  load 4 m' (used_elem_addr vq slot + 4) = Ok (u32 len) /\
  same_outside (used_elem_addr vq slot) 8 m m'.
Proof.
  unfold store_used_elem. intros H. apply bind_Ok_inv in H as (m1 & H1 & H2).
  pose proof (load_store_same _ _ _ _ _ H1) as L1. pose proof (load_store_same _ _ _ _ _ H2) as L2.
  split; [|split].
  - rewrite (load_store_other _ _ _ _ _ _ _ H2) by lia. exact L1.
  - exact L2.
  - eapply same_outside_trans.
    + eapply same_outside_weaken; [eapply store_same_outside, H1|lia|simpl; lia].
    + eapply same_outside_weaken; [eapply store_same_outside, H2|lia|simpl; lia].
Qed.

Lemma used_idx_store_elem m slot id len m' :
  0 <= slot -> store_used_elem m vq slot id len = Ok m' -> used_idx m' vq = used_idx m vq.
Proof.
  intros Hs H. destruct (store_used_elem_spec _ _ _ _ _ H) as (_ & _ & Hout).
  unfold used_idx. eapply load_same_outside; [exact Hout|]. unfold used_elem_addr. simpl. lia.
Qed.

Lemma update_used_ring_inv m idx iolen m' :
  update_used_ring m vq idx iolen = Ok m' ->
  exists i m1, used_idx m vq = Ok i /\ 0 <= i < 2 ^ 16 /\
    store_used_elem m vq (Z.land i (used_mask vq)) idx iolen = Ok m1 /\
    store 2 m1 (used_ring vq + 2) (u16 (i + 1)) = Ok m'.
Proof.
  unfold update_used_ring. intros H. apply bind_Ok_inv in H as (i & Hi & H).
  apply bind_Ok_inv in H as (m1 & H1 & H). exists i, m1. repeat split; try done; eapply (load_range 2); exact Hi.
Qed.

Lemma store_used_elem_congr m1 m2 slot id len m1' :
  hm_ranges m1 = hm_ranges m2 ->
  store_used_elem m1 vq slot id len = Ok m1' ->
  exists m2', store_used_elem m2 vq slot id len = Ok m2' /\ hm_ranges m2' = hm_ranges m2 /\
    forall x, (get_byte m1 x = get_byte m2 x -> get_byte m1' x = get_byte m2' x) /\
              (~ (used_elem_addr vq slot <= x < used_elem_addr vq slot + 8) -> get_byte m2' x = get_byte m2 x).
Proof.
  intros Hr H. unfold store_used_elem, store in *.
  apply bind_Ok_inv in H as (a & Ha & H). apply bind_Ok_inv in Ha as ([] & Hac & Ha). injection Ha as <-.
  apply bind_Ok_inv in H as ([] & Hac2 & H). injection H as <-.
  rewrite (access_ranges _ m2) in Hac by done.
  rewrite (access_ranges _ m2) in Hac2 by (by rewrite hm_ranges_poke).
  rewrite Hac. simpl. rewrite (access_ranges _ m2) by apply hm_ranges_poke. rewrite Hac2. simpl.
  eexists. split; [done|]. split; [by rewrite !hm_ranges_poke|]. intros x. split.
  - intros Hx. rewrite !get_byte_poke. by rewrite Hx.
  - intros Hx. rewrite !get_byte_poke_outside by lia. done.
Qed.

(** Writing a batch of elements depends on memory only through its mappings,
    and leaves everything below the ring entries alone. *)
Lemma store_used_elems_congr l : forall m1 m2 i m1',
  hm_ranges m1 = hm_ranges m2 ->
  store_used_elems m1 vq i l = Ok m1' ->
  exists m2', store_used_elems m2 vq i l = Ok m2' /\ hm_ranges m2' = hm_ranges m2 /\
    forall x, (get_byte m1 x = get_byte m2 x -> get_byte m1' x = get_byte m2' x) /\
              (x < used_ring vq + 4 -> get_byte m2' x = get_byte m2 x).
Proof.
  induction l as [|[id len] l IH]; intros m1 m2 i m1' Hr H; cbn [store_used_elems] in *.
  { injection H as <-. exists m2. auto. }
  apply bind_Ok_inv in H as (a & Ha & H).
  destruct (store_used_elem_congr m1 m2 _ id len a Hr Ha) as (b & Hb & Hrb & Hx1). rewrite Hb. simpl.
  assert (hm_ranges a = hm_ranges b) as Hab.
  { destruct (store_used_elem_spec _ _ _ _ _ Ha) as (_ & _ & [R _]). congruence. }
  destruct (IH a b (i + 1) m1' Hab H) as (m2' & Hm2 & Hr2 & Hx2).
  exists m2'. split; [done|]. split; [congruence|]. intros x. split.
  - intros Hx. apply Hx2, Hx1, Hx.
  - intros Hx. rewrite (proj2 (Hx2 x) Hx). apply Hx1.
    pose proof (used_slot_range i). unfold used_elem_addr. lia.
Qed.

Lemma store_used_elems_u16 l : forall m i, store_used_elems m vq (u16 i) l = store_used_elems m vq i l.
Proof.
  assert (Hgen : forall l m i j, u16 i = u16 j -> store_used_elems m vq i l = store_used_elems m vq j l).
  { clear l. induction l as [|[id len] l IH]; intros m i j Hij; [done|]. cbn [store_used_elems].
    rewrite <- (used_mask_u16 i), Hij, (used_mask_u16 j).
    destruct (store_used_elem m vq _ id len); simpl; [|done]. apply IH.
    unfold u16 in *. rewrite (Z.add_mod i 1), (Z.add_mod j 1) by lia. by rewrite Hij. }
  intros m i. apply Hgen. unfold u16. by rewrite Z.mod_mod by lia.
Qed.

(** Element writes followed by one index write, against one index write per element. *)
Lemma batch_each l : forall m i m1 m2,
  l <> [] -> used_idx m vq = Ok i ->
  store_used_elems m vq i l = Ok m1 ->
  store 2 m1 (used_ring vq + 2) (u16 (i + Z.of_nat (length l))) = Ok m2 ->
  exists m3, update_used_ring_each m vq l = Ok m3 /\ mem_equiv m2 m3.
Proof.
  induction l as [|[id len] l IH]; intros m i m1 m2 Hne Hi He Hs; [done|].
  cbn [store_used_elems] in He. apply bind_Ok_inv in He as (a & Ha & He).
  cbn [update_used_ring_each]. unfold update_used_ring at 1. rewrite Hi. cbn [mbind result_bind].
  rewrite Ha. cbn [mbind result_bind].
  assert (exists b, store 2 a (used_ring vq + 2) (u16 (i + 1)) = Ok b) as [b Hb].
  { destruct (store_used_elems_congr l a a (i + 1) m1 eq_refl He) as (a' & Ha' & Hra & _).
    assert (a' = m1) as -> by congruence. unfold store in *. rewrite (access_ranges m1 a) in Hs by done.
    destruct (access a _ _); [eexists; reflexivity|done]. }
  rewrite Hb. cbn [mbind result_bind].
  destruct l as [|p l'] eqn:El.
  { exists b. split; [done|]. cbn in He. injection He as <-.
    change (Z.of_nat (length [(id, len)])) with 1 in Hs. rewrite Hb in Hs. by injection Hs as <-. }
  rewrite <- El in *. assert (l <> []) as Hne' by (by rewrite El).
  assert (used_idx b vq = Ok (u16 (i + 1))) as Hib.
  { unfold used_idx. rewrite (load_store_same _ _ _ _ _ Hb). f_equal. unfold u16. simpl. by rewrite Z.mod_mod. }
  assert (hm_ranges a = hm_ranges b) as Hab by (symmetry; eapply store_ranges; exact Hb).
  destruct (store_used_elems_congr l a b (i + 1) m1 Hab He) as (b1 & Hb1 & Hrb1 & Hx).
  rewrite <- store_used_elems_u16 in Hb1.
  assert (exists b2, store 2 b1 (used_ring vq + 2) (u16 (u16 (i + 1) + Z.of_nat (length l))) = Ok b2) as [b2 Hb2].
  { unfold store in *. rewrite (access_ranges b1 a) by congruence.
    destruct (access a _ _); [eexists; reflexivity|done]. }
  destruct (IH b (u16 (i + 1)) b1 b2 Hne' Hib Hb1 Hb2) as (m3 & H3 & Heq).
  exists m3. split; [done|]. transitivity b2; [|done].
  assert (u16 (u16 (i + 1) + Z.of_nat (length l)) = u16 (i + Z.of_nat (length ((id, len) :: l)))) as Hidx.
  { unfold u16. rewrite Z.add_mod_idemp_l by lia. f_equal. cbn [length]. lia. }
  split.
  - rewrite (store_ranges _ _ _ _ _ Hs), (store_ranges _ _ _ _ _ Hb2).
    destruct (store_used_elems_congr l a a (i + 1) m1 eq_refl He) as (a' & Ha' & Hra & _).
    assert (a' = m1) as -> by congruence. congruence.
  - intros x. unfold store in Hs, Hb2. rewrite Hidx in Hb2.
    apply bind_Ok_inv in Hs as (? & _ & Hs). apply bind_Ok_inv in Hb2 as (? & _ & Hb2).
    injection Hs as <-. injection Hb2 as <-. rewrite !get_byte_poke.
    destruct ((used_ring vq + 2 <=? x) && _) eqn:E; [done|].
    apply (proj1 (Hx x)). symmetry. eapply store_get_byte_outside; [exact Hb|]. simpl in *. lia.
Qed.

(** Entry [j] of a batch that fits the ring survives the rest of the batch. *)
Lemma store_used_elems_lookup k l : forall m i m' j id len,
  0 <= k <= 16 -> num vq = 2 ^ k -> Z.of_nat (length l) <= num vq ->
  store_used_elems m vq i l = Ok m' ->
  l !! j = Some (id, len) ->
  load 4 m' (used_elem_addr vq ((i + Z.of_nat j) `mod` num vq)) = Ok (u32 id) /\
  load 4 m' (used_elem_addr vq ((i + Z.of_nat j) `mod` num vq) + 4) = Ok (u32 len).
Proof.
  intros m i m' j id len Hk Hn Hlen H Hj.
  assert (Hkeep : forall l m i m' a, store_used_elems m vq i l = Ok m' ->
    (forall t, 0 <= t < Z.of_nat (length l) -> (i + t) `mod` num vq <> a) -> 0 <= a ->
    load 4 m' (used_elem_addr vq a) = load 4 m (used_elem_addr vq a) /\
    load 4 m' (used_elem_addr vq a + 4) = load 4 m (used_elem_addr vq a + 4)).
  { clear -Hk Hn. induction l as [|[id len] l IH]; intros m i m' a H Hne Ha; cbn [store_used_elems] in H.
    { by injection H as <-. }
    apply bind_Ok_inv in H as (m1 & H1 & H).
    destruct (IH m1 (i + 1) m' a H) as [E1 E2]; [|done|].
    { intros t Ht. replace (i + 1 + t) with (i + (t + 1)) by lia. apply Hne. simpl length. lia. }
    destruct (store_used_elem_spec _ _ _ _ _ H1) as (_ & _ & Hout).
    rewrite (used_slot_pow2 i k) in Hout by done.
    assert (i `mod` num vq <> a) as Hia by (rewrite <- (Z.add_0_r i); apply Hne; simpl length; lia).
    pose proof (Z.pow_pos_nonneg 2 k). pose proof (Z.mod_pos_bound i (num vq)).
    rewrite E1, E2. unfold used_elem_addr in *. simpl in Hout.
    split; eapply load_same_outside; [exact Hout|simpl; lia|exact Hout|simpl; lia]. }
  revert m i j H Hj. induction l as [|[id0 len0] l IH]; intros m i j H Hj; [done|].
  cbn [store_used_elems] in H. apply bind_Ok_inv in H as (m1 & H1 & H).
  destruct j as [|j]; cbn in Hj.
  - injection Hj as -> ->. rewrite Z.add_0_r.
    destruct (store_used_elem_spec _ _ _ _ _ H1) as (L1 & L2 & _).
    rewrite (used_slot_pow2 i k) in L1, L2 by done.
    pose proof (Z.pow_pos_nonneg 2 k). pose proof (Z.mod_pos_bound i (num vq)).
    destruct (Hkeep l m1 (i + 1) m' (i `mod` num vq) H) as [-> ->]; [|lia|done].
    intros t Ht Heq. simpl length in Hlen.
    assert ((1 + t) `mod` num vq = 0) as Hz.
    { replace (1 + t) with ((i + 1 + t) - i) by lia. rewrite Zminus_mod, Heq, Z.sub_diag. apply Z.mod_0_l. lia. }
    rewrite Z.mod_small in Hz by lia. lia.
  - replace (i + Z.of_nat (S j)) with (i + 1 + Z.of_nat j) by lia.
    eapply IH; [|exact H|exact Hj]. simpl length in Hlen. lia.
Qed.

End used_ring.

(** ** Theorems *)

Lemma process_descriptor_chain_buf_inv m zt zone_id vq head cfg vq' o :
  0 <= max_out cfg -> 0 <= max_in cfg ->
  process_descriptor_chain_buf m zt zone_id vq head cfg = Ok (vq', o) ->
  match o with
  | None => vq' = vq
  | Some r => good zt zone_id cfg r /\ vq' = set_last_avail_idx (u16 (last_avail_idx vq + 1)) vq
  end.
Proof.
  unfold process_descriptor_chain_buf. intros Ho Hi H.
  apply bind_Ok_inv in H as ([r|] & Hw & H); injection H as <- <-; [|done].
  split; [|done]. eapply walk_chain_good; [exact Hw|]. by repeat split.
Qed.

(** C3: walking a descriptor chain into caller-provided arrays is safe for
    every memory contents and every descriptor loop the guest can build: on
    success neither array is overrun, every buffer starts inside a mapping of
    the guest's own zone, and exactly one available entry is consumed; on
    failure the queue is unchanged. *)
Theorem process_descriptor_chain_buf_safe m zt zone_id vq head cfg vq' o :
  0 <= max_out cfg -> 0 <= max_in cfg ->
  process_descriptor_chain_buf m zt zone_id vq head cfg = Ok (vq', o) ->
  match o with
  | None => vq' = vq
  | Some r => out_count r <= max_out cfg /\ in_count r <= max_in cfg /\
              Forall (zone_buffer zt zone_id) (out_iov r ++ in_iov r) /\
              vq' = set_last_avail_idx (u16 (last_avail_idx vq + 1)) vq
  end.
Proof.
  intros Ho Hi H. apply process_descriptor_chain_buf_inv in H; [|done..].
  destruct o as [r|]; [|done]. destruct H as [[[H1 H2] H3] H4]. auto.
Qed.

(** C4: on a well-formed chain (direct, indirect or mixed) of at most [num]
    table entries, the walk returns exactly the chain's buffers, split by
    direction and in chain order; it returns -1 exactly when some address does
    not translate or one of the arrays is too small. *)
Theorem process_descriptor_chain_buf_refines m zt zone_id vq head cfg n ds :
  chain m zt zone_id (desc_table vq) n head ds -> Z.of_nat n <= num vq ->
  0 <= max_out cfg -> 0 <= max_in cfg ->
  (Forall (translates zt zone_id) ds /\ fits cfg (split_request zt zone_id ds) ->
     process_descriptor_chain_buf m zt zone_id vq head cfg =
       Ok (set_last_avail_idx (u16 (last_avail_idx vq + 1)) vq, Some (split_request zt zone_id ds))) /\
  (~ (Forall (translates zt zone_id) ds /\ fits cfg (split_request zt zone_id ds)) ->
     process_descriptor_chain_buf m zt zone_id vq head cfg = Ok (vq, None)).
Proof.
  intros Hc Hn Ho Hi. unfold process_descriptor_chain_buf.
  rewrite (walk_chain_chain m zt zone_id cfg _ _ _ _ Hc) by lia. cbn [mbind result_bind].
  destruct (push_list_spec zt zone_id cfg ds {| out_iov := []; in_iov := [] |}) as [H1 H2]; [by split|].
  change (append_request _ (split_request zt zone_id ds)) with (split_request zt zone_id ds) in *.
  split; intros H; [by rewrite (H1 H)|].
  destruct (push_list _ _ _ _ _); [|done]. exfalso. apply H, H2. done.
Qed.

(** C5: completing a request appends one element to the used ring: the element
    at [idx mod num] gets the id and length, the 16-bit index advances by one
    with wrap-around, and no byte outside the element and the index changes. *)
Theorem update_used_ring_spec m vq k id len m' :
  0 <= k <= 16 -> num vq = 2 ^ k ->
  update_used_ring m vq id len = Ok m' ->
  exists i, used_idx m vq = Ok i /\ used_idx m' vq = Ok (u16 (i + 1)) /\
    load 4 m' (used_elem_addr vq (i `mod` num vq)) = Ok (u32 id) /\
    load 4 m' (used_elem_addr vq (i `mod` num vq) + 4) = Ok (u32 len) /\
    (forall x, ~ (used_ring vq + 2 <= x < used_ring vq + 4) ->
               ~ (used_elem_addr vq (i `mod` num vq) <= x < used_elem_addr vq (i `mod` num vq) + 8) ->
               get_byte m' x = get_byte m x).
Proof.
  intros Hk Hn H. apply update_used_ring_inv in H as (i & m1 & Hi & Hr & H1 & H2).
  rewrite (used_slot_pow2 vq i k) in H1 by done.
  destruct (store_used_elem_spec _ _ _ _ _ _ H1) as (L1 & L2 & [_ Hout]).
  pose proof (Z.pow_pos_nonneg 2 k). pose proof (Z.mod_pos_bound i (num vq)).
  exists i. split; [done|]. split.
  { unfold used_idx. rewrite (load_store_same _ _ _ _ _ H2). f_equal. unfold u16. simpl. by rewrite Z.mod_mod. }
  split; [|split].
  1, 2: erewrite load_store_other; [eassumption|exact H2|unfold used_elem_addr; simpl; lia].
  intros x Hx1 Hx2. rewrite (store_get_byte_outside _ _ _ _ _ _ H2) by (simpl; lia). by apply Hout.
Qed.

(** C6: the batched completion publishes every element of the batch at its own
    slot and advances the index by the batch length, and is equivalent, byte
    for byte, to completing the requests one after the other. *)
Theorem update_used_ring_batch_spec m vq k l m' :
  0 <= k <= 16 -> num vq = 2 ^ k -> Z.of_nat (length l) <= num vq -> l <> [] ->
  update_used_ring_batch m vq l = Ok m' ->
  (exists i, used_idx m vq = Ok i /\ used_idx m' vq = Ok (u16 (i + Z.of_nat (length l))) /\
     forall j id len, l !! j = Some (id, len) ->
       load 4 m' (used_elem_addr vq ((i + Z.of_nat j) `mod` num vq)) = Ok (u32 id) /\
       load 4 m' (used_elem_addr vq ((i + Z.of_nat j) `mod` num vq) + 4) = Ok (u32 len)) /\
  exists m2, update_used_ring_each m vq l = Ok m2 /\ mem_equiv m' m2.
Proof.
  intros Hk Hn Hlen Hne H. unfold update_used_ring_batch in H.
  replace (length l =? 0)%nat with false in H by (destruct l; [done|reflexivity]).
  apply bind_Ok_inv in H as (i & Hi & H). apply bind_Ok_inv in H as (m1 & H1 & H2).
  split; [|by eapply batch_each].
  exists i. split; [done|]. split.
  { unfold used_idx. rewrite (load_store_same _ _ _ _ _ H2). f_equal. unfold u16. simpl. by rewrite Z.mod_mod. }
  intros j id len Hj. pose proof (Z.pow_pos_nonneg 2 k).
  pose proof (Z.mod_pos_bound (i + Z.of_nat j) (num vq)).
  destruct (store_used_elems_lookup vq k l m i m1 j id len) as [L1 L2]; try done.
  split; (erewrite load_store_other; [eassumption|exact H2|unfold used_elem_addr; simpl; lia]).
Qed.

(** ** Witnesses *)

(** A queue of 4 entries with its rings in [region_a] of zone 1, and a chain of
    three descriptors: header (readable), data and status (writable). *)
Definition vq4 : VirtQueue :=
  {| vq_idx := 0; num := 4; queue_num_max := 512; desc_table_addr := 0x4000; avail_addr := 0x4100;
     used_addr := 0x4200; desc_table := 0x7000; avail_ring := 0x7100; used_ring := 0x7200;
     notify_handler := Some virtio_blk_notify; last_avail_idx := 0; last_used_idx := 0; ready := 1;
     event_idx_enabled := false |}.

Definition desc_vals (i addr len flags next : Z) : list (Z * nat * Z) :=
  [(0x7000 + 16 * i, 8%nat, addr); (0x7000 + 16 * i + 8, 4%nat, len);
   (0x7000 + 16 * i + 12, 2%nat, flags); (0x7000 + 16 * i + 14, 2%nat, next)].

Definition mem4 : hmem :=
  mem_with [(0x7000, 0x1000)]
    (desc_vals 0 0x4800 16 1 1 ++ desc_vals 1 0x4900 512 3 2 ++ desc_vals 2 0x4b00 1 2 0
     ++ [(0x7102, 2%nat, 1)]).

Definition chain4 : list VirtqDesc :=
  [{| desc_addr := 0x4800; desc_len := 16; desc_flags := 1; desc_next := 1 |};
   {| desc_addr := 0x4900; desc_len := 512; desc_flags := 3; desc_next := 2 |};
   {| desc_addr := 0x4b00; desc_len := 1; desc_flags := 2; desc_next := 0 |}].

Lemma chain4_ok : chain mem4 table_ab 1 (desc_table vq4) 3 0 chain4.
Proof.
  change chain4 with ([{| desc_addr := 0x4800; desc_len := 16; desc_flags := 1; desc_next := 1 |}] ++
    ([{| desc_addr := 0x4900; desc_len := 512; desc_flags := 3; desc_next := 2 |}] ++
     [{| desc_addr := 0x4b00; desc_len := 1; desc_flags := 2; desc_next := 0 |}])).
  eapply chain_more; [vm_compute; reflexivity|reflexivity|reflexivity|].
  eapply chain_more; [vm_compute; reflexivity|reflexivity|reflexivity|].
  eapply chain_last; [vm_compute; reflexivity|reflexivity|reflexivity].
Qed.

Definition cfg_blk : VirtioBufConfig := {| max_out := 512; max_in := 512 |}.

Lemma process_descriptor_chain_buf_safe_witness :
  exists r, process_descriptor_chain_buf mem4 table_ab 1 vq4 0 cfg_blk = Ok (set_last_avail_idx 1 vq4, Some r) /\
            out_count r <= 512 /\ in_count r <= 512.
Proof.
  exists (split_request table_ab 1 chain4).
  assert (process_descriptor_chain_buf mem4 table_ab 1 vq4 0 cfg_blk =
    Ok (set_last_avail_idx 1 vq4, Some (split_request table_ab 1 chain4))) as H by (vm_compute; reflexivity).
  split; [exact H|].
  destruct (process_descriptor_chain_buf_safe mem4 table_ab 1 vq4 0 cfg_blk _ _ ltac:(simpl; lia) ltac:(simpl; lia) H)
    as (H1 & H2 & _).
  split; [exact H1|exact H2].
Defined.

Lemma process_descriptor_chain_buf_refines_witness :
  process_descriptor_chain_buf mem4 table_ab 1 vq4 0 cfg_blk =
    Ok (set_last_avail_idx (u16 (last_avail_idx vq4 + 1)) vq4, Some (split_request table_ab 1 chain4)).
Proof.
  apply (process_descriptor_chain_buf_refines mem4 table_ab 1 vq4 0 cfg_blk 3 chain4 chain4_ok);
    [simpl; lia|simpl; lia|simpl; lia|].
  split; [|vm_compute; split; discriminate].
  repeat constructor; vm_compute; discriminate.
Defined.

Lemma update_used_ring_spec_witness :
  exists m', update_used_ring mem4 vq4 2 513 = Ok m' /\ used_idx m' vq4 = Ok 1.
Proof.
  eexists. split; [reflexivity|].
  edestruct (update_used_ring_spec mem4 vq4 2 2 513) as (i & Hi & Hi' & _); [lia|reflexivity|reflexivity|].
  rewrite Hi'. vm_compute in Hi. injection Hi as <-. reflexivity.
Defined.

Lemma update_used_ring_batch_spec_witness :
  exists m' m2, update_used_ring_batch mem4 vq4 [(0, 10); (3, 20)] = Ok m' /\
    update_used_ring_each mem4 vq4 [(0, 10); (3, 20)] = Ok m2 /\ mem_equiv m' m2.
Proof.
  edestruct (update_used_ring_batch_spec mem4 vq4 2 [(0, 10); (3, 20)]) as (_ & m2 & H2 & He);
    [lia|reflexivity|simpl; lia|discriminate|reflexivity|].
  eexists _, m2. split; [reflexivity|]. split; [exact H2|exact He].
Defined.
