(* ===== verification/IoVec.v ===== *)
(** * Scatter/gather I/O

    The vectored system calls of the backends ([preadv], [pwritev], [readv],
    [writev]) move a byte string between a file descriptor and a list of
    [struct iovec] buffers, in order and each filled before the next.  This file
    has the two directions on the daemon's memory. *)

From S2P Require Import Prelude Memory ZoneMem Virtqueue.

(** Total length of the buffers. *)
Definition iov_total (v : list iovec) : Z := foldr (fun b acc => iov_len b + acc) 0 v.

(** Fill the buffers with [data] (at most [iov_total] bytes of it). *)
Fixpoint scatter (m : hmem) (v : list iovec) (data : list Z) : result hmem :=
  match v with
  | [] => Ok m
  | b :: v' =>
      let k := Z.to_nat (iov_len b) in
      m1 ← store_bytes m (iov_base b) (take k data);
      scatter m1 v' (drop k data)
  end.

(** The first [n] bytes of the buffers. *)
Fixpoint gather (m : hmem) (v : list iovec) (n : nat) : result (list Z) :=
  match v with
  | [] => Ok []
  | b :: v' =>
      let k := (Z.to_nat (iov_len b) `min` n)%nat in
      l ← load_bytes k m (iov_base b);
      r ← gather m v' (n - k);
      Ok (l ++ r)
  end.

(** The address lies in one of the buffers. *)
Definition in_bufs (v : list iovec) (x : Z) : Prop :=
  exists b, b ∈ v /\ iov_base b <= x < iov_base b + iov_len b.

Definition bufs_ok (v : list iovec) : Prop := Forall (fun b => 0 <= iov_len b) v.

(** No byte is in two buffers. *)
Fixpoint bufs_apart (v : list iovec) : Prop :=
  match v with
  | [] => True
  | b :: v' => (forall x, iov_base b <= x < iov_base b + iov_len b -> ~ in_bufs v' x) /\ bufs_apart v'
  end.

(** Two memories that agree outside the buffers. *)
Definition same_but (v : list iovec) (m m' : hmem) : Prop :=
  hm_ranges m' = hm_ranges m /\ forall x, ~ in_bufs v x -> get_byte m' x = get_byte m x.

#[global] Instance same_but_refl v : Reflexive (same_but v).
Proof. by split. Qed.

#[global] Instance same_but_trans v : Transitive (same_but v).
Proof. intros m1 m2 m3 [R1 B1] [R2 B2]. split; [congruence|]. intros x Hx. by rewrite B2, B1. Qed.

Lemma same_but_weaken v v' m m' : (forall b, b ∈ v -> b ∈ v') -> same_but v m m' -> same_but v' m m'.
Proof. intros H [R B]. split; [done|]. intros x Hx. apply B. intros (b & Hb & Hr). apply Hx. exists b. auto. Qed.

(** Storing a string inside one buffer. *)
Lemma store_bytes_same_but m a l m' v b :
  store_bytes m a l = Ok m' -> b ∈ v -> iov_base b <= a -> a + Z.of_nat (length l) <= iov_base b + iov_len b ->
  same_but v m m'.
Proof.
  intros H Hb H1 H2. apply store_bytes_same_outside in H as [R B]. split; [done|].
  intros x Hx. apply B. intros Hr. apply Hx. exists b. split; [done|lia].
Qed.

Lemma store_same_but n m a v m' bs b :
  store n m a v = Ok m' -> b ∈ bs -> iov_base b <= a -> a + Z.of_nat n <= iov_base b + iov_len b -> same_but bs m m'.
Proof.
  intros H Hb H1 H2. apply store_same_outside in H as [R B]. split; [done|].
  intros x Hx. apply B. intros Hr. apply Hx. exists b. split; [done|lia].
Qed.

Lemma scatter_nil m v : scatter m v [] = Ok m.
Proof. induction v as [|b v IH]; [done|]. cbn [scatter]. by rewrite take_nil, drop_nil. Qed.

(** Scattering writes into the buffers and nowhere else. *)
Lemma scatter_same_but v : forall m data m',
  bufs_ok v -> scatter m v data = Ok m' -> same_but v m m'.
Proof.
  induction v as [|b v IH]; intros m data m' Hok H; cbn [scatter] in H; [by injection H as <-|].
  apply Forall_cons_1 in Hok as [Hb Hok]. apply bind_Ok_inv in H as (m1 & H1 & H).
  transitivity m1.
  - eapply store_bytes_same_but; [exact H1|by left|lia|]. rewrite length_take. lia.
  - eapply same_but_weaken; [|by eapply IH]. intros c Hc. by right.
Qed.

Lemma load_bytes_Ok_inv n m a l : load_bytes n m a = Ok l -> l = peek_bytes m a n.
Proof. unfold load_bytes. destruct n as [|n]; intros H; [by injection H as <-|]. res. done. Qed.

Lemma store_load_bytes m a l m' : store_bytes m a l = Ok m' -> load_bytes (length l) m' a = Ok (u8 <$> l).
Proof.
  intros H. pose proof (peek_bytes_store_bytes _ _ _ _ H) as Hp.
  destruct l as [|b l]; [done|]. unfold load_bytes. cbn [length]. unfold store_bytes in H.
  apply bind_Ok_inv in H as ([] & Ha & H). injection H as H. cbn [length] in Ha, Hp.
  rewrite (access_ranges m' m), Ha by (rewrite <- H; apply hm_ranges_poke_bytes).
  cbn [mbind result_bind]. by rewrite <- Hp.
Qed.

(** Loads agree on memories that agree outside buffers the load stays away from. *)
Lemma load_bytes_same_but v m m' a n :
  same_but v m m' -> (forall x, a <= x < a + Z.of_nat n -> ~ in_bufs v x) -> load_bytes n m' a = load_bytes n m a.
Proof.
  intros [R B] Hx. unfold load_bytes. destruct n as [|n]; [done|].
  rewrite (access_ranges m' m) by done. destruct (access m a (S n)); simpl; [|done].
  f_equal. apply peek_bytes_ext. intros i Hi. apply B, Hx. lia.
Qed.

Lemma load_same_but v m m' a n :
  same_but v m m' -> (forall x, a <= x < a + Z.of_nat n -> ~ in_bufs v x) -> load n m' a = load n m a.
Proof.
  intros [R B] Hx. unfold load. rewrite (access_ranges m' m) by done.
  destruct (access m a n); simpl; [|done]. f_equal. apply peek_ext. intros i Hi. apply B, Hx. lia.
Qed.

Lemma iov_total_nonneg v : bufs_ok v -> 0 <= iov_total v.
Proof. induction 1 as [|b v Hb _ IH]; unfold iov_total in *; simpl; lia. Qed.

(** What is scattered over disjoint buffers is gathered back. *)
Lemma gather_scatter v : forall m data m',
  bufs_ok v -> bufs_apart v -> Z.of_nat (length data) <= iov_total v ->
  scatter m v data = Ok m' -> gather m' v (length data) = Ok (u8 <$> data).
Proof.
  induction v as [|b v IH]; intros m data m' Hok Hap Hlen H; cbn [scatter gather iov_total foldr bufs_apart] in *.
  { by destruct data; [|simpl in Hlen; lia]. }
  apply Forall_cons_1 in Hok as [Hb Hok]. destruct Hap as [Hap1 Hap2]. apply bind_Ok_inv in H as (m1 & H1 & H).
  set (k := Z.to_nat (iov_len b)) in *.
  assert (Hk : (k `min` length data)%nat = length (take k data)) by (rewrite length_take; lia).
  rewrite Hk. rewrite (load_bytes_same_but v m1 m').
  - rewrite (store_load_bytes _ _ _ _ H1). cbn [mbind result_bind].
    replace (length data - length (take k data))%nat with (length (drop k data)) by (rewrite length_drop, length_take; lia).
    rewrite (IH m1 (drop k data) m'); [|done|done| |done].
    + cbn [mbind result_bind]. f_equal. by rewrite <- fmap_app, take_drop.
    + rewrite length_drop. pose proof (iov_total_nonneg v Hok). unfold iov_total in *. lia.
  - by eapply scatter_same_but.
  - intros x Hx. apply Hap1. rewrite length_take in Hx. lia.
Qed.

Lemma gather_length v : forall m n l,
  bufs_ok v -> gather m v n = Ok l -> Z.of_nat (length l) = Z.of_nat n `min` iov_total v.
Proof.
  induction v as [|b v IH]; intros m n l Hok H; cbn [gather iov_total foldr] in *.
  { injection H as <-. simpl. lia. }
  apply Forall_cons_1 in Hok as [Hb Hok]. apply bind_Ok_inv in H as (l1 & H1 & H). apply bind_Ok_inv in H as (r & H2 & H).
  injection H as <-. apply load_bytes_Ok_inv in H1 as ->. apply IH in H2; [|done].
  fold (iov_total v). rewrite length_app, length_peek_bytes.
  pose proof (iov_total_nonneg v Hok).
  lia.
Qed.

Lemma gather_bytes v : forall m n l, gather m v n = Ok l -> (u8 <$> l) = l.
Proof.
  induction v as [|b v IH]; intros m n l H; cbn [gather] in H; [by injection H as <-|].
  apply bind_Ok_inv in H as (l1 & H1 & H). apply bind_Ok_inv in H as (r & H2 & H). injection H as <-.
  apply load_bytes_Ok_inv in H1 as ->. rewrite fmap_app, (IH _ _ _ H2). f_equal.
  apply list_eq. intros i. rewrite list_lookup_fmap.
  destruct (decide (i < Z.to_nat (iov_len b) `min` n)%nat) as [Hi|Hi].
  - rewrite lookup_peek_bytes by done. simpl. f_equal. apply u8_small, get_byte_range.
  - by rewrite lookup_ge_None_2 by (rewrite length_peek_bytes; lia).
Qed.

Lemma zone_bufs_ok zt z v : Forall (zone_buffer zt z) v -> bufs_ok v.
Proof. intros H. eapply Forall_impl; [exact H|]. intros b (_ & _ & Hl). simpl. lia. Qed.

(** ** Buffers that can be reached *)

Lemma mapped_span_spec m n : forall a,
  mapped_span m a n = true <-> forall x, a <= x < a + Z.of_nat n -> mapped m x = true.
Proof.
  induction n as [|n IH]; intros a; unfold mapped_span; fold mapped_span.
  - split; [intros _ x Hx; lia|done].
  - rewrite andb_true_iff, IH. split.
    + intros [H1 H2] x Hx. destruct (decide (x = a)) as [->|]; [done|]. apply H2. lia.
    + intros H. split; [apply H; lia|]. intros x Hx. apply H. lia.
Qed.

(** A buffer the daemon can reach: mapped, above address 0. *)
Definition reachable (m : hmem) (v : iovec) : Prop :=
  0 < iov_base v /\ 0 <= iov_len v < 2 ^ 32 /\ mapped_span m (iov_base v) (Z.to_nat (iov_len v)) = true.

Lemma reachable_access m v a n : reachable m v -> iov_base v <= a -> a + Z.of_nat n <= iov_base v + iov_len v ->
  access m a n = Ok tt.
Proof.
  intros (H0 & Hl & Hm) H1 H2. unfold access. replace (a =? 0) with false by lia.
  assert (mapped_span m a n = true) as ->; [|done].
  apply mapped_span_spec. intros x Hx. rewrite mapped_span_spec in Hm. apply Hm. lia.
Qed.

Lemma reachable_ranges m m' v : hm_ranges m' = hm_ranges m -> reachable m v -> reachable m' v.
Proof. intros R (H0 & Hl & Hm). split; [done|]. split; [done|]. by rewrite (mapped_span_ranges _ m' m). Qed.

Lemma reachable_load m v a n : reachable m v -> iov_base v <= a -> a + Z.of_nat n <= iov_base v + iov_len v ->
  load n m a = Ok (peek m a n).
Proof. intros Hr H1 H2. unfold load. by rewrite (reachable_access m v). Qed.

Lemma reachable_store m v a n x : reachable m v -> iov_base v <= a -> a + Z.of_nat n <= iov_base v + iov_len v ->
  store n m a x = Ok (poke m a n x).
Proof. intros Hr H1 H2. unfold store. by rewrite (reachable_access m v). Qed.

Lemma reachable_load_bytes m v a n : reachable m v -> iov_base v <= a -> a + Z.of_nat n <= iov_base v + iov_len v ->
  load_bytes n m a = Ok (peek_bytes m a n).
Proof. intros Hr H1 H2. unfold load_bytes. destruct n as [|n]; [done|]. by rewrite (reachable_access m v). Qed.

Lemma reachable_store_bytes m v a l :
  reachable m v -> iov_base v <= a -> a + Z.of_nat (length l) <= iov_base v + iov_len v ->
  store_bytes m a l = Ok (poke_bytes m a l).
Proof. intros Hr H1 H2. unfold store_bytes. destruct l as [|b l]; [done|]. by rewrite (reachable_access m v). Qed.

(** The used ring of the queue, as a buffer. *)
Definition used_area (vq : VirtQueue) : iovec := {| iov_base := used_ring vq; iov_len := 4 + 8 * num vq |}.

(** A used ring the daemon can reach accepts every completion. *)
Lemma update_used_ring_returns m vq id len :
  0 < num vq <= 2 ^ 16 -> reachable m (used_area vq) -> exists m', update_used_ring m vq id len = Ok m'.
Proof.
  intros Hn Hr. pose proof (proj1 Hr) as H0. unfold update_used_ring, used_idx, store_used_elem. cbn [used_area iov_base] in H0.
  rewrite (reachable_load m (used_area vq)) by (unfold used_area; simpl; lia || done). cbn [mbind result_bind].
  set (i := peek m (used_ring vq + 2) 2). pose proof (peek_range 2 m (used_ring vq + 2)) as Hi. fold i in Hi.
  assert (Hs : 0 <= Z.land i (used_mask vq) < num vq).
  { assert (Hm : used_mask vq = num vq - 1) by (unfold used_mask, u16; rewrite Z.mod_small; lia).
    rewrite Hm. pose proof (land_upper i (num vq - 1)). lia. }
  assert (Hst : forall m1 a n x, hm_ranges m1 = hm_ranges m -> used_ring vq <= a -> a + Z.of_nat n <= used_ring vq + 4 + 8 * num vq ->
            store n m1 a x = Ok (poke m1 a n x)).
  { intros m1 a n x R H1 H2. apply (reachable_store m1 (used_area vq)); [by apply (reachable_ranges m)|done|simpl; lia]. }
  unfold used_elem_addr. rewrite Hst by (done || lia). cbn [mbind result_bind].
  rewrite Hst by (rewrite ?hm_ranges_poke; done || lia). cbn [mbind result_bind].
  rewrite Hst by (rewrite ?hm_ranges_poke; done || lia). eauto.
Qed.
