(* ===== verification/DescChain.v ===== *)
(** * The allocating chain walk

    [process_descriptor_chain] of [tools/virtio/virtio.c], used by the console
    device: it measures the chain, allocates an iovec array and fills it.  Int
    arithmetic is kept at its width ([s32]); [malloc] is an argument, the
    predicate telling for which sizes it succeeds. *)

From S2P Require Import Prelude Memory ZoneMem Virtqueue IoVec.

(** [descriptor2iov] without flags copying: write entry [i] of the array. *)
Definition descriptor2iov (zt : zone_table) (zone_id : Z) (i : Z) (vd : VirtqDesc) (iov : list (option iovec)) :
    result (list (option iovec)) :=
  if (0 <=? i) && (i <? Z.of_nat (length iov))
  then Ok (<[Z.to_nat i := Some {| iov_base := get_virt_addr zt (desc_addr vd) (s32 zone_id); iov_len := desc_len vd |}]> iov)
  else Err OutOfBounds.

(** The measuring loop: the loop variable and [chain_len] when it stops. *)
Fixpoint measure_loop (fuel : nat) (m : hmem) (vq : VirtQueue) (i next chain_len : Z) : result (Z * Z) :=
  match fuel with
  | O => Err OutOfFuel
  | S fuel' =>
      if i <? s32 (num vq) then
        vdesc ← read_desc m (desc_table vq) next;
        let indirect := has_flag (desc_flags vdesc) VRING_DESC_F_INDIRECT in
        let chain_len := if indirect then s32 (chain_len + desc_len vdesc `div` 16) else chain_len in
        let i := if indirect then i - 1 else i in
        if has_flag (desc_flags vdesc) VRING_DESC_F_NEXT
        then measure_loop fuel' m vq (i + 1) (desc_next vdesc) chain_len
        else Ok (i, chain_len)
      else Ok (i, chain_len)
  end.

(** The inner [for (;;)] over an indirect table: [i], [table_len] and the array
    when it breaks.  Every turn writes one entry of the array, so the array's
    length plus one is enough fuel. *)
Fixpoint indirect_fill (fuel : nat) (m : hmem) (zt : zone_table) (zone_id table : Z)
    (next i table_len : Z) (iov : list (option iovec)) : result (Z * Z * list (option iovec)) :=
  match fuel with
  | O => Err OutOfFuel
  | S fuel' =>
      ind_desc ← read_desc m table next;
      iov' ← descriptor2iov zt zone_id i ind_desc iov;
      if has_flag (desc_flags ind_desc) VRING_DESC_F_NEXT
      then indirect_fill fuel' m zt zone_id table (desc_next ind_desc) (i + 1) (table_len - 1) iov'
      else Ok (i + 1, table_len - 1, iov')
  end.

(** The filling loop; [k] counts the turns left, at most [chain_len]. *)
Fixpoint fill_loop (k : nat) (m : hmem) (zt : zone_table) (zone_id : Z) (vq : VirtQueue)
    (chain_len i next : Z) (iov : list (option iovec)) : result (list (option iovec)) :=
  match k with
  | O => Ok iov
  | S k' =>
      if i <? chain_len then
        vdesc ← read_desc m (desc_table vq) next;
        if has_flag (desc_flags vdesc) VRING_DESC_F_INDIRECT then
          let ind_table := get_virt_addr zt (desc_addr vdesc) (s32 zone_id) in
          '(i', table_len, iov') ←
            indirect_fill (S (length iov)) m zt zone_id ind_table 0 i (desc_len vdesc `div` 16) iov;
          if negb (table_len =? 0) then Ok iov'
          else fill_loop k' m zt zone_id vq chain_len (i' + 1) (desc_next vdesc) iov'
        else
          iov' ← descriptor2iov zt zone_id i vdesc iov;
          fill_loop k' m zt zone_id vq chain_len (i + 1) (desc_next vdesc) iov'
      else Ok iov
  end.

Record chain_result := {
  cr_vq : VirtQueue;
  cr_desc_idx : Z;
  cr_iov : list (option iovec);    (* [None]: the entry was never written *)
  cr_len : Z;                      (* the return value *)
}.

(** [fuel] bounds the measuring loop; [append_len] extra entries are allocated. *)
Definition process_descriptor_chain (malloc : Z -> bool) (fuel : nat) (m : hmem) (zt : zone_table) (zone_id : Z)
    (vq : VirtQueue) (append_len : Z) : result (option chain_result) :=
  idx ← avail_idx m vq;
  if last_avail_idx vq =? idx then Ok None
  else
    desc_idx ← next_avail_head m vq;
    let vq' := set_last_avail_idx (u16 (last_avail_idx vq + 1)) vq in
    '(i, measured) ← measure_loop fuel m vq' 0 desc_idx 0;
    let chain_len := measured + (i + 1) in
    if negb (s32 chain_len =? chain_len) || negb (s32 (chain_len + append_len) =? chain_len + append_len)
    then Err SignedOverflow
    else
      let entries := chain_len + append_len in
      if negb (malloc (u64 (16 * entries))) then
        (* NULL array: the first write faults, an empty chain returns *)
        if 0 <? chain_len then Err NullDeref
        else Ok (Some {| cr_vq := vq'; cr_desc_idx := desc_idx; cr_iov := []; cr_len := chain_len |})
      else
        iov ← fill_loop (Z.to_nat chain_len) m zt zone_id vq' chain_len 0 desc_idx
                (replicate (Z.to_nat entries) None);
        Ok (Some {| cr_vq := vq'; cr_desc_idx := desc_idx; cr_iov := iov; cr_len := chain_len |}).

(** The first [n] entries of the array, as [readv] and [writev] read them; an
    entry that was never written is a fault. *)
Fixpoint filled (l : list (option iovec)) (n : nat) {struct n} : result (list iovec) :=
  match n, l with
  | O, _ => Ok []
  | S n', Some v :: l' => vs ← filled l' n'; Ok (v :: vs)
  | S _, _ => Err OutOfBounds
  end.

(** ** Direct chains *)

(** A chain without indirect descriptors, with its length. *)
Inductive direct_chain (m : hmem) (table : Z) : Z -> list VirtqDesc -> Prop :=
  | direct_last i d :
      read_desc m table i = Ok d ->
      has_flag (desc_flags d) VRING_DESC_F_INDIRECT = false ->
      has_flag (desc_flags d) VRING_DESC_F_NEXT = false ->
      direct_chain m table i [d]
  | direct_more i d ds :
      read_desc m table i = Ok d ->
      has_flag (desc_flags d) VRING_DESC_F_INDIRECT = false ->
      has_flag (desc_flags d) VRING_DESC_F_NEXT = true ->
      direct_chain m table (desc_next d) ds ->
      direct_chain m table i (d :: ds).

Lemma direct_chain_length m table i ds : direct_chain m table i ds -> (0 < length ds)%nat.
Proof. destruct 1; simpl; lia. Qed.

Lemma measure_loop_direct m vq i ds :
  direct_chain m (desc_table vq) i ds ->
  forall fuel j c, (length ds < fuel)%nat -> j + Z.of_nat (length ds) <= s32 (num vq) ->
  measure_loop fuel m vq j i c = Ok (j + Z.of_nat (length ds) - 1, c).
Proof.
  induction 1 as [i d Hd Hi Hn|i d ds Hd Hi Hn Hds IH]; intros fuel j c Hf Hj;
    (destruct fuel as [|fuel]; [simpl in Hf; lia|]); cbn [measure_loop length] in *;
    (replace (j <? s32 (num vq)) with true by lia); rewrite Hd; cbn [mbind result_bind];
    rewrite Hi, Hn.
  - do 2 f_equal. lia.
  - rewrite IH by lia. do 2 f_equal. lia.
Qed.

(** The loop reads the ring bounds only. *)
Lemma measure_loop_last_avail m vq v fuel : forall i next c,
  measure_loop fuel m (set_last_avail_idx v vq) i next c = measure_loop fuel m vq i next c.
Proof.
  induction fuel as [|fuel IH]; intros; [done|]. cbn [measure_loop set_last_avail_idx num desc_table].
  destruct (_ <? _); [|done]. destruct (read_desc _ _ _); cbn [mbind result_bind]; [|done].
  destruct (has_flag _ VRING_DESC_F_NEXT); [apply IH|done].
Qed.

Lemma insert_next_entry {A} (pre : list A) (x y : A) (n : nat) :
  <[length pre := x]> (pre ++ replicate (S n) y) = (pre ++ [x]) ++ replicate n y.
Proof.
  rewrite insert_app_r_alt by lia. rewrite Nat.sub_diag. simpl. by rewrite <- app_assoc.
Qed.

Lemma fill_loop_direct m zt zone_id vq i ds :
  direct_chain m (desc_table vq) i ds ->
  forall k pre extra chain_len,
  (length ds <= k)%nat -> chain_len = Z.of_nat (length pre + length ds) ->
  fill_loop k m zt zone_id vq chain_len (Z.of_nat (length pre)) i (pre ++ replicate (length ds + extra) None) =
    Ok (pre ++ (Some <$> (to_iovec zt zone_id <$> ds)) ++ replicate extra None).
Proof.
  assert (Hput : forall pre n d, descriptor2iov zt zone_id (Z.of_nat (length pre)) d (pre ++ replicate (S n) None) =
            Ok ((pre ++ [Some (to_iovec zt zone_id d)]) ++ replicate n None)).
  { intros pre n d. unfold descriptor2iov. rewrite length_app, length_replicate.
    replace (_ && _) with true by lia. rewrite Nat2Z.id. by rewrite insert_next_entry. }
  induction 1 as [i d Hd Hi Hn|i d ds Hd Hi Hn Hds IH]; intros k pre extra chain_len Hk ->;
    (destruct k as [|k]; [simpl in Hk; lia|]); cbn [fill_loop length] in *; rewrite Hd; cbn [mbind result_bind];
    rewrite Hi; (replace (Z.of_nat (length pre) <? _) with true by lia);
    cbn [Nat.add]; rewrite Hput; cbn [mbind result_bind fmap list_fmap].
  - destruct k as [|k]; cbn [fill_loop].
    + by rewrite <- app_assoc.
    + replace (Z.of_nat (length pre) + 1 <? _) with false by lia. by rewrite <- app_assoc.
  - replace (Z.of_nat (length pre) + 1) with (Z.of_nat (length (pre ++ [Some (to_iovec zt zone_id d)])))
      by (rewrite length_app; simpl; lia).
    rewrite (IH k _ extra); [|lia|rewrite length_app; simpl; lia].
    by rewrite <- app_assoc.
Qed.

(** ** What the allocating walk puts in its array *)

(** A buffer as [descriptor2iov] makes it: at the translation of the guest's address,
    which is NULL when no region of the zone has it, with the guest's 32-bit length,
    which the code does not compare with the region. *)
Definition translated (zt : zone_table) (z : Z) (v : iovec) : Prop :=
  (exists ipa, iov_base v = get_virt_addr zt ipa (s32 z)) /\ 0 <= iov_len v < 2 ^ 32.

Definition entries_ok (zt : zone_table) (z : Z) (l : list (option iovec)) : Prop :=
  Forall (fun o => forall v, o = Some v -> translated zt z v) l.

Lemma descriptor2iov_ok zt z i vd l l' :
  0 <= desc_len vd < 2 ^ 32 -> entries_ok zt z l -> descriptor2iov zt z i vd l = Ok l' -> entries_ok zt z l'.
Proof.
  unfold descriptor2iov. intros Hd Hl H. destruct (_ && _); [|done]. injection H as <-.
  apply Forall_insert; [done|]. intros v [= <-]. split; [eauto|done].
Qed.

Lemma indirect_fill_ok fuel : forall m zt z table next i tl l i' tl' l',
  entries_ok zt z l -> indirect_fill fuel m zt z table next i tl l = Ok (i', tl', l') -> entries_ok zt z l'.
Proof.
  induction fuel as [|fuel IH]; intros m zt z table next i tl l i' tl' l' Hl H; [done|]. cbn [indirect_fill] in H.
  apply bind_Ok_inv in H as (d & Hd & H). apply bind_Ok_inv in H as (l1 & H1 & H).
  apply descriptor2iov_ok in H1; [|by eapply read_desc_len|done].
  destruct (has_flag _ _); [by eapply IH|by injection H as <- <- <-].
Qed.

Lemma fill_loop_ok k : forall m zt z vq cl i next l l',
  entries_ok zt z l -> fill_loop k m zt z vq cl i next l = Ok l' -> entries_ok zt z l'.
Proof.
  induction k as [|k IH]; intros m zt z vq cl i next l l' Hl H; cbn [fill_loop] in H; [by injection H as <-|].
  destruct (i <? cl); [|by injection H as <-]. apply bind_Ok_inv in H as (d & Hd & H).
  destruct (has_flag _ _).
  - apply bind_Ok_inv in H as ([[i' tl] l1] & H1 & H). apply indirect_fill_ok in H1; [|done].
    destruct (negb _); [by injection H as <-|by eapply IH].
  - apply bind_Ok_inv in H as (l1 & H1 & H). apply descriptor2iov_ok in H1; [|by eapply read_desc_len|done]. by eapply IH.
Qed.

Lemma process_descriptor_chain_inv malloc fuel m zt z vq append cr :
  process_descriptor_chain malloc fuel m zt z vq append = Ok (Some cr) ->
  cr_vq cr = set_last_avail_idx (u16 (last_avail_idx vq + 1)) vq /\ entries_ok zt z (cr_iov cr).
Proof.
  unfold process_descriptor_chain. intros H. apply bind_Ok_inv in H as (idx & _ & H).
  destruct (_ =? idx); [done|]. apply bind_Ok_inv in H as (hd & _ & H). cbv zeta in H.
  apply bind_Ok_inv in H as ([i ms] & _ & H). destruct (_ || _); [done|]. destruct (negb (malloc _)).
  - destruct (0 <? _); [done|]. injection H as <-. split; [done|constructor].
  - apply bind_Ok_inv in H as (iov & Hf & H). injection H as <-. split; [done|]. eapply fill_loop_ok; [|exact Hf].
    apply Forall_replicate. intros v [=].
Qed.

Lemma filled_ok zt z n : forall l vs, entries_ok zt z l -> filled l n = Ok vs -> Forall (translated zt z) vs.
Proof.
  induction n as [|n IH]; intros l vs Hl H; [cbn in H; injection H as <-; constructor|].
  destruct l as [|[v|] l]; [done| |done]. cbn [filled] in H. apply bind_Ok_inv in H as (vs' & H1 & H). injection H as <-.
  apply Forall_cons in Hl as [Hv Hl]. constructor; [by apply Hv|by eapply IH].
Qed.

Lemma translated_bufs_ok zt z v : Forall (translated zt z) v -> bufs_ok v.
Proof. intros H. eapply Forall_impl; [exact H|]. intros b (_ & Hl). simpl. lia. Qed.

(** ** Theorems *)

(** For a direct chain no longer than the queue, the allocating walk
    returns the chain's length and an array holding exactly the chain's
    buffers, in order, all entries written but the [append_len] extra ones. *)
Theorem process_descriptor_chain_direct m zt zone_id vq append_len head idx ds :
  avail_idx m vq = Ok idx -> last_avail_idx vq <> idx ->
  next_avail_head m vq = Ok head -> direct_chain m (desc_table vq) head ds ->
  Z.of_nat (length ds) <= s32 (num vq) -> 0 <= append_len < 2 ^ 16 -> Z.of_nat (length ds) < 2 ^ 30 ->
  process_descriptor_chain (fun _ => true) (S (length ds)) m zt zone_id vq append_len =
    Ok (Some {| cr_vq := set_last_avail_idx (u16 (last_avail_idx vq + 1)) vq; cr_desc_idx := head;
                cr_iov := (Some <$> (to_iovec zt zone_id <$> ds)) ++ replicate (Z.to_nat append_len) None;
                cr_len := Z.of_nat (length ds) |}).
Proof.
  intros Hidx Hne Hhead Hds Hlen Happ Hbig. unfold process_descriptor_chain.
  rewrite Hidx. cbn [mbind result_bind]. replace (last_avail_idx vq =? idx) with false by lia.
  rewrite Hhead. cbn [mbind result_bind].
  set (vq1 := set_last_avail_idx (u16 (last_avail_idx vq + 1)) vq).
  change (direct_chain m (desc_table vq1) head ds) in Hds.
  rewrite (measure_loop_direct m vq1 head ds Hds) by (simpl; lia). cbn [mbind result_bind].
  replace (0 + (0 + Z.of_nat (length ds) - 1 + 1)) with (Z.of_nat (length ds)) by lia.
  assert (Hs : forall z, 0 <= z < 2 ^ 31 -> s32 z = z).
  { intros z Hz. unfold s32. rewrite u32_small by lia. by replace (z <? 2 ^ 31) with true by lia. }
  rewrite !Hs by lia. rewrite !Z.eqb_refl. cbn [negb orb].
  rewrite Nat2Z.id.
  replace (Z.to_nat (Z.of_nat (length ds) + append_len)) with (length ds + Z.to_nat append_len)%nat by lia.
  pose proof (fill_loop_direct m zt zone_id vq1 head ds Hds (length ds) [] (Z.to_nat append_len)
                (Z.of_nat (length ds)) ltac:(lia) ltac:(simpl; lia)) as Hfill.
  change (Z.of_nat (length [])) with 0 in Hfill. cbn [app] in Hfill. by rewrite Hfill.
Qed.

(** The memory of the two findings: descriptor 0 is indirect (table at guest
    0x4400) and, in the second memory, also chained to itself. *)
Definition vq_console : VirtQueue := set_num 4 vq4.

Definition mem_overrun : hmem :=
  mem_with [(0x7000, 0x1000)]
    (desc_vals 0 0x4400 16 4 0 ++ [(0x7102, 2%nat, 1)] ++
     [(0x7400, 8%nat, 0x4800); (0x7408, 4%nat, 8); (0x740c, 2%nat, 1); (0x740e, 2%nat, 1)] ++
     [(0x7410, 8%nat, 0x4900); (0x7418, 4%nat, 8); (0x741c, 2%nat, 0); (0x741e, 2%nat, 0)]).

Definition mem_selfloop : hmem :=
  mem_with [(0x7000, 0x1000)] (desc_vals 0 0x4400 8 5 0 ++ [(0x7102, 2%nat, 1)]).

(** An indirect descriptor whose table holds a longer chain than its length
    field announces makes the walk write past the iovec array it allocated. *)
Theorem process_descriptor_chain_overruns_array :
  process_descriptor_chain (fun _ => true) 8 mem_overrun table_ab 1 vq_console 0 = Err OutOfBounds.
Proof. vm_compute. reflexivity. Qed.

Lemma measure_loop_selfloop : forall fuel,
  measure_loop fuel mem_selfloop vq_console 0 0 0 = Err OutOfFuel.
Proof.
  induction fuel as [|fuel IH]; [done|].
  change (measure_loop (S fuel) mem_selfloop vq_console 0 0 0) with
    (if 0 <? s32 4 then
       vdesc ← read_desc mem_selfloop 0x7000 0;
       let indirect := has_flag (desc_flags vdesc) VRING_DESC_F_INDIRECT in
       let chain_len := if indirect then s32 (0 + desc_len vdesc `div` 16) else 0 in
       let i := if indirect then 0 - 1 else 0 in
       if has_flag (desc_flags vdesc) VRING_DESC_F_NEXT
       then measure_loop fuel mem_selfloop vq_console (i + 1) (desc_next vdesc) chain_len
       else Ok (i, chain_len)
     else Ok (0, 0)).
  assert (read_desc mem_selfloop 0x7000 0 =
    Ok {| desc_addr := 0x4400; desc_len := 8; desc_flags := 5; desc_next := 0 |}) as -> by (vm_compute; reflexivity).
  cbn -[measure_loop]. exact IH.
Qed.

(** The measuring loop does not count an indirect descriptor as progress,
    so a descriptor that is both indirect and chained to itself keeps it going
    for ever: no amount of fuel makes the walk return. *)
Theorem process_descriptor_chain_diverges fuel :
  process_descriptor_chain (fun _ => true) fuel mem_selfloop table_ab 1 vq_console 0 = Err OutOfFuel.
Proof.
  unfold process_descriptor_chain.
  assert (avail_idx mem_selfloop vq_console = Ok 1) as -> by (vm_compute; reflexivity). cbn [mbind result_bind].
  assert (next_avail_head mem_selfloop vq_console = Ok 0) as -> by (vm_compute; reflexivity).
  change (last_avail_idx vq_console =? 1) with false. cbn [mbind result_bind].
  change (set_last_avail_idx (u16 (last_avail_idx vq_console + 1)) vq_console) with (set_last_avail_idx 1 vq_console).
  rewrite measure_loop_last_avail, measure_loop_selfloop. reflexivity.
Qed.

(** ** Witness *)

Lemma process_descriptor_chain_direct_witness :
  exists r, process_descriptor_chain (fun _ => true) 4 mem4 table_ab 1 vq4 0 = Ok (Some r) /\ cr_len r = 3.
Proof.
  eexists. split.
  - eapply (process_descriptor_chain_direct mem4 table_ab 1 vq4 0 0 1 chain4);
      [vm_compute; reflexivity|vm_compute; discriminate|vm_compute; reflexivity| |vm_compute; discriminate|lia|simpl; lia].
    eapply direct_more; [vm_compute; reflexivity|reflexivity|reflexivity|].
    eapply direct_more; [vm_compute; reflexivity|reflexivity|reflexivity|].
    eapply direct_last; [vm_compute; reflexivity|reflexivity|reflexivity].
  - reflexivity.
Defined.
