(* ===== verification/Device.v ===== *)
(** * Devices, the shared bridge page and the daemon's world

    The data of [tools/virtio/include/virtio.h] ([VirtMmioRegs], [VirtIODevice],
    [virtio_device_ops]) and of [include/hvisor.h] ([device_req], [device_res],
    [virtio_bridge]), and the state outside a device that its handlers act on.
    Back pointers ([VirtQueue.dev]) and locks have no field: a handler gets the
    device that owns the queue, and runs as one step while it holds the lock.
    The private state behind [VirtIODevice.dev] is a parameter [D], given by each
    backend through the class [VirtioBackends]. *)

From S2P Require Import Prelude Memory ZoneMem Virtqueue.

(** ** Build targets *)

Inductive arch := ARM64 | RISCV64 | LOONGARCH64 | X86_64.

#[global] Instance arch_eq_dec : EqDecision arch.
Proof. solve_decision. Defined.

(** Targets on which the daemon lowers the interrupt line itself. *)
Definition level_triggered (a : arch) : bool :=
  match a with
  | LOONGARCH64 | X86_64 => true
  | ARM64 | RISCV64 => false
  end.

(** ** Device types *)

Inductive VirtioDeviceType :=
  | VirtioTNone
  | VirtioTNet
  | VirtioTBlock
  | VirtioTConsole
  | VirtioTGPU
  | VirtioTSCMI.

#[global] Instance VirtioDeviceType_eq_dec : EqDecision VirtioDeviceType.
Proof. solve_decision. Defined.

Definition device_type_code (t : VirtioDeviceType) : Z :=
  match t with
  | VirtioTNone => 0
  | VirtioTNet => 1
  | VirtioTBlock => 2
  | VirtioTConsole => 3
  | VirtioTGPU => 16
  | VirtioTSCMI => 32
  end.

(** ** MMIO registers *)

Record VirtMmioRegs := {
  device_id : Z;   (* uint32_t, as every field but the two feature words *)
  dev_feature_sel : Z;
  drv_feature_sel : Z;
  queue_sel : Z;
  interrupt_status : Z;
  status : Z;
  generation : Z;
  dev_feature : Z;   (* uint64_t *)
  drv_feature : Z;   (* uint64_t *)
}.

Definition set_dev_feature_sel (v : Z) (rg : VirtMmioRegs) : VirtMmioRegs :=
  {| device_id := device_id rg; dev_feature_sel := v; drv_feature_sel := drv_feature_sel rg;
     queue_sel := queue_sel rg; interrupt_status := interrupt_status rg; status := status rg;
     generation := generation rg; dev_feature := dev_feature rg; drv_feature := drv_feature rg |}.

Definition set_drv_feature_sel (v : Z) (rg : VirtMmioRegs) : VirtMmioRegs :=
  {| device_id := device_id rg; dev_feature_sel := dev_feature_sel rg; drv_feature_sel := v;
     queue_sel := queue_sel rg; interrupt_status := interrupt_status rg; status := status rg;
     generation := generation rg; dev_feature := dev_feature rg; drv_feature := drv_feature rg |}.

Definition set_queue_sel (v : Z) (rg : VirtMmioRegs) : VirtMmioRegs :=
  {| device_id := device_id rg; dev_feature_sel := dev_feature_sel rg; drv_feature_sel :=
     drv_feature_sel rg; queue_sel := v; interrupt_status := interrupt_status rg; status := status
     rg; generation := generation rg; dev_feature := dev_feature rg; drv_feature := drv_feature rg |}.

Definition set_interrupt_status (v : Z) (rg : VirtMmioRegs) : VirtMmioRegs :=
  {| device_id := device_id rg; dev_feature_sel := dev_feature_sel rg; drv_feature_sel :=
     drv_feature_sel rg; queue_sel := queue_sel rg; interrupt_status := v; status := status rg;
     generation := generation rg; dev_feature := dev_feature rg; drv_feature := drv_feature rg |}.

Definition set_status (v : Z) (rg : VirtMmioRegs) : VirtMmioRegs :=
  {| device_id := device_id rg; dev_feature_sel := dev_feature_sel rg; drv_feature_sel :=
     drv_feature_sel rg; queue_sel := queue_sel rg; interrupt_status := interrupt_status rg;
     status := v; generation := generation rg; dev_feature := dev_feature rg; drv_feature :=
     drv_feature rg |}.

Definition set_drv_feature (v : Z) (rg : VirtMmioRegs) : VirtMmioRegs :=
  {| device_id := device_id rg; dev_feature_sel := dev_feature_sel rg; drv_feature_sel :=
     drv_feature_sel rg; queue_sel := queue_sel rg; interrupt_status := interrupt_status rg;
     status := status rg; generation := generation rg; dev_feature := dev_feature rg; drv_feature
     := v |}.

(** ** Devices *)

Record VirtIODevice (D : Type) := {
  vqs_len : Z;   (* uint32_t *)
  zone_id : Z;   (* uint32_t *)
  irq_id : Z;   (* uint32_t *)
  base_addr : Z;   (* uint64_t *)
  len : Z;   (* uint64_t *)
  type : VirtioDeviceType;
  regs : VirtMmioRegs;
  vqs : list VirtQueue;
  dev : D;
  status_changed : bool;   (* whether the function pointer is set *)
  activated : bool;
  interrupt_line_asserted : bool;
}.
Arguments vqs_len {D} _.
Arguments zone_id {D} _.
Arguments irq_id {D} _.
Arguments base_addr {D} _.
Arguments len {D} _.
Arguments type {D} _.
Arguments regs {D} _.
Arguments vqs {D} _.
Arguments dev {D} _.
Arguments status_changed {D} _.
Arguments activated {D} _.
Arguments interrupt_line_asserted {D} _.

Definition set_regs {D} (v : VirtMmioRegs) (d : VirtIODevice D) : VirtIODevice D :=
  {| vqs_len := vqs_len d; zone_id := zone_id d; irq_id := irq_id d; base_addr := base_addr d; len
     := len d; type := type d; regs := v; vqs := vqs d; dev := dev d; status_changed :=
     status_changed d; activated := activated d; interrupt_line_asserted :=
     interrupt_line_asserted d |}.

Definition set_vqs {D} (v : list VirtQueue) (d : VirtIODevice D) : VirtIODevice D :=
  {| vqs_len := vqs_len d; zone_id := zone_id d; irq_id := irq_id d; base_addr := base_addr d; len
     := len d; type := type d; regs := regs d; vqs := v; dev := dev d; status_changed :=
     status_changed d; activated := activated d; interrupt_line_asserted :=
     interrupt_line_asserted d |}.

Definition set_dev {D} (v : D) (d : VirtIODevice D) : VirtIODevice D :=
  {| vqs_len := vqs_len d; zone_id := zone_id d; irq_id := irq_id d; base_addr := base_addr d; len
     := len d; type := type d; regs := regs d; vqs := vqs d; dev := v; status_changed :=
     status_changed d; activated := activated d; interrupt_line_asserted :=
     interrupt_line_asserted d |}.

Definition set_activated {D} (v : bool) (d : VirtIODevice D) : VirtIODevice D :=
  {| vqs_len := vqs_len d; zone_id := zone_id d; irq_id := irq_id d; base_addr := base_addr d; len
     := len d; type := type d; regs := regs d; vqs := vqs d; dev := dev d; status_changed :=
     status_changed d; activated := v; interrupt_line_asserted := interrupt_line_asserted d |}.

Definition set_interrupt_line_asserted {D} (v : bool) (d : VirtIODevice D) : VirtIODevice D :=
  {| vqs_len := vqs_len d; zone_id := zone_id d; irq_id := irq_id d; base_addr := base_addr d; len
     := len d; type := type d; regs := regs d; vqs := vqs d; dev := dev d; status_changed :=
     status_changed d; activated := activated d; interrupt_line_asserted := v |}.

(** Store back one register file, or one virtqueue. *)
Definition upd_regs {D} (f : VirtMmioRegs -> VirtMmioRegs) (d : VirtIODevice D) : VirtIODevice D :=
  set_regs (f (regs d)) d.

Definition put_vq {D} (q : nat) (vq : VirtQueue) (d : VirtIODevice D) : VirtIODevice D :=
  set_vqs (<[q := vq]> (vqs d)) d.

(** ** The page shared with the hypervisor *)

Definition MAX_REQ : Z := 32.

Record device_req := {
  src_cpu : Z;
  address : Z;
  size : Z;
  value : Z;
  src_zone : Z;
  is_write : Z;
  need_interrupt : Z;
}.

Record device_res := {
  target_zone : Z;
  res_irq_id : Z;
}.

#[global] Instance device_res_eq_dec : EqDecision device_res.
Proof. solve_decision. Defined.

Record virtio_bridge := {
  req_front : Z;
  req_rear : Z;
  res_front : Z;
  res_rear : Z;
  req_list : list device_req;   (* MAX_REQ entries *)
  res_list : list device_res;   (* MAX_REQ entries *)
  cfg_flags : list Z;   (* MAX_CPUS entries *)
  cfg_values : list Z;   (* MAX_CPUS entries *)
  mmio_addrs : list Z;   (* MAX_DEVS entries *)
  mmio_avail : Z;
  need_wakeup : Z;
}.

Definition set_req_front (v : Z) (b : virtio_bridge) : virtio_bridge :=
  {| req_front := v; req_rear := req_rear b; res_front := res_front b; res_rear := res_rear b;
     req_list := req_list b; res_list := res_list b; cfg_flags := cfg_flags b; cfg_values :=
     cfg_values b; mmio_addrs := mmio_addrs b; mmio_avail := mmio_avail b; need_wakeup :=
     need_wakeup b |}.

Definition set_req_rear (v : Z) (b : virtio_bridge) : virtio_bridge :=
  {| req_front := req_front b; req_rear := v; res_front := res_front b; res_rear := res_rear b;
     req_list := req_list b; res_list := res_list b; cfg_flags := cfg_flags b; cfg_values :=
     cfg_values b; mmio_addrs := mmio_addrs b; mmio_avail := mmio_avail b; need_wakeup :=
     need_wakeup b |}.

Definition set_res_front (v : Z) (b : virtio_bridge) : virtio_bridge :=
  {| req_front := req_front b; req_rear := req_rear b; res_front := v; res_rear := res_rear b;
     req_list := req_list b; res_list := res_list b; cfg_flags := cfg_flags b; cfg_values :=
     cfg_values b; mmio_addrs := mmio_addrs b; mmio_avail := mmio_avail b; need_wakeup :=
     need_wakeup b |}.

Definition set_res_rear (v : Z) (b : virtio_bridge) : virtio_bridge :=
  {| req_front := req_front b; req_rear := req_rear b; res_front := res_front b; res_rear := v;
     req_list := req_list b; res_list := res_list b; cfg_flags := cfg_flags b; cfg_values :=
     cfg_values b; mmio_addrs := mmio_addrs b; mmio_avail := mmio_avail b; need_wakeup :=
     need_wakeup b |}.

Definition set_req_list (v : list device_req) (b : virtio_bridge) : virtio_bridge :=
  {| req_front := req_front b; req_rear := req_rear b; res_front := res_front b; res_rear :=
     res_rear b; req_list := v; res_list := res_list b; cfg_flags := cfg_flags b; cfg_values :=
     cfg_values b; mmio_addrs := mmio_addrs b; mmio_avail := mmio_avail b; need_wakeup :=
     need_wakeup b |}.

Definition set_res_list (v : list device_res) (b : virtio_bridge) : virtio_bridge :=
  {| req_front := req_front b; req_rear := req_rear b; res_front := res_front b; res_rear :=
     res_rear b; req_list := req_list b; res_list := v; cfg_flags := cfg_flags b; cfg_values :=
     cfg_values b; mmio_addrs := mmio_addrs b; mmio_avail := mmio_avail b; need_wakeup :=
     need_wakeup b |}.

Definition set_cfg_flags (v : list Z) (b : virtio_bridge) : virtio_bridge :=
  {| req_front := req_front b; req_rear := req_rear b; res_front := res_front b; res_rear :=
     res_rear b; req_list := req_list b; res_list := res_list b; cfg_flags := v; cfg_values :=
     cfg_values b; mmio_addrs := mmio_addrs b; mmio_avail := mmio_avail b; need_wakeup :=
     need_wakeup b |}.

Definition set_cfg_values (v : list Z) (b : virtio_bridge) : virtio_bridge :=
  {| req_front := req_front b; req_rear := req_rear b; res_front := res_front b; res_rear :=
     res_rear b; req_list := req_list b; res_list := res_list b; cfg_flags := cfg_flags b;
     cfg_values := v; mmio_addrs := mmio_addrs b; mmio_avail := mmio_avail b; need_wakeup :=
     need_wakeup b |}.

Definition set_mmio_addrs (v : list Z) (b : virtio_bridge) : virtio_bridge :=
  {| req_front := req_front b; req_rear := req_rear b; res_front := res_front b; res_rear :=
     res_rear b; req_list := req_list b; res_list := res_list b; cfg_flags := cfg_flags b;
     cfg_values := cfg_values b; mmio_addrs := v; mmio_avail := mmio_avail b; need_wakeup :=
     need_wakeup b |}.

Definition set_mmio_avail (v : Z) (b : virtio_bridge) : virtio_bridge :=
  {| req_front := req_front b; req_rear := req_rear b; res_front := res_front b; res_rear :=
     res_rear b; req_list := req_list b; res_list := res_list b; cfg_flags := cfg_flags b;
     cfg_values := cfg_values b; mmio_addrs := mmio_addrs b; mmio_avail := v; need_wakeup :=
     need_wakeup b |}.

Definition set_need_wakeup (v : Z) (b : virtio_bridge) : virtio_bridge :=
  {| req_front := req_front b; req_rear := req_rear b; res_front := res_front b; res_rear :=
     res_rear b; req_list := req_list b; res_list := res_list b; cfg_flags := cfg_flags b;
     cfg_values := cfg_values b; mmio_addrs := mmio_addrs b; mmio_avail := mmio_avail b;
     need_wakeup := v |}.

(** ** The world a handler runs in *)

(** What the hypervisor sees of the daemon, in order: an entry written to the
    result ring, and the return value of each interrupt [ioctl]. *)
Inductive bridge_event :=
  | EvRes (zone irq : Z)
  | EvFinishReq (ret : Z)
  | EvDeassert (zone irq ret : Z).

(** [w_ioctl] holds the answers [(ret, errno)] of the interrupt [ioctl]s still to
    come, [w_front] the values of [res_front] still to be observed, and [w_log]
    the events so far, the newest first. *)
Record world := {
  w_mem : hmem;
  w_zones : zone_table;
  w_bridge : virtio_bridge;
  w_ioctl : list (Z * Z);
  w_front : list Z;
  w_log : list bridge_event;
  w_trace_seq : Z;   (* _Atomic uint64_t virtio_irq_trace_seq *)
}.

Definition set_w_mem (v : hmem) (w : world) : world :=
  {| w_mem := v; w_zones := w_zones w; w_bridge := w_bridge w; w_ioctl := w_ioctl w; w_front :=
     w_front w; w_log := w_log w; w_trace_seq := w_trace_seq w |}.

Definition set_w_bridge (v : virtio_bridge) (w : world) : world :=
  {| w_mem := w_mem w; w_zones := w_zones w; w_bridge := v; w_ioctl := w_ioctl w; w_front :=
     w_front w; w_log := w_log w; w_trace_seq := w_trace_seq w |}.

Definition set_w_ioctl (v : list (Z * Z)) (w : world) : world :=
  {| w_mem := w_mem w; w_zones := w_zones w; w_bridge := w_bridge w; w_ioctl := v; w_front :=
     w_front w; w_log := w_log w; w_trace_seq := w_trace_seq w |}.

Definition set_w_front (v : list Z) (w : world) : world :=
  {| w_mem := w_mem w; w_zones := w_zones w; w_bridge := w_bridge w; w_ioctl := w_ioctl w; w_front
     := v; w_log := w_log w; w_trace_seq := w_trace_seq w |}.

Definition set_w_log (v : list bridge_event) (w : world) : world :=
  {| w_mem := w_mem w; w_zones := w_zones w; w_bridge := w_bridge w; w_ioctl := w_ioctl w; w_front
     := w_front w; w_log := v; w_trace_seq := w_trace_seq w |}.

Definition set_w_trace_seq (v : Z) (w : world) : world :=
  {| w_mem := w_mem w; w_zones := w_zones w; w_bridge := w_bridge w; w_ioctl := w_ioctl w; w_front
     := w_front w; w_log := w_log w; w_trace_seq := v |}.

(** ** Backend interface *)

Definition VIRTIO_MAX_VQUEUES : Z := 4.

Record virtio_device_ops (D : Type) := {
  ops_type : VirtioDeviceType;
  features : Z;
  num_queues : Z;
  queue_max_size : Z;
  ops_reset : option (VirtIODevice D -> world -> result (VirtIODevice D * world));
  ops_status_changed : option (VirtIODevice D -> Z -> world -> result (VirtIODevice D * world));
  notify_handlers : list (option notify_fn);
}.
Arguments ops_type {D} _.
Arguments features {D} _.
Arguments num_queues {D} _.
Arguments queue_max_size {D} _.
Arguments ops_reset {D} _.
Arguments ops_status_changed {D} _.
Arguments notify_handlers {D} _.

(** What the device backends provide to the common code: the operation table,
    the code behind each notify handler (device, queue index), and the bytes of
    the object [vdev->dev] points to, which start with the configuration. *)
Class VirtioBackends (D : Type) := {
  device_ops_table : VirtioDeviceType -> option (virtio_device_ops D);
  call_notify : notify_fn -> VirtIODevice D -> nat -> world -> result (VirtIODevice D * world);
  dev_bytes : D -> list Z;
}.

(** The fields no backend operation changes: the device's identity, and of each
    queue the size offered and the handler. *)
Definition same_identity {D} (d d' : VirtIODevice D) : Prop :=
  vqs_len d' = vqs_len d /\ zone_id d' = zone_id d /\ irq_id d' = irq_id d /\
  base_addr d' = base_addr d /\ len d' = len d /\ type d' = type d /\
  Forall2 (fun q q' => queue_num_max q' = queue_num_max q /\ notify_handler q' = notify_handler q) (vqs d) (vqs d').

#[global] Instance same_identity_refl {D} : Reflexive (@same_identity D).
Proof. intros d. repeat split. by apply Forall_Forall2_diag, Forall_true. Qed.

#[global] Instance same_identity_trans {D} : Transitive (@same_identity D).
Proof.
  intros d1 d2 d3 (A1 & A2 & A3 & A4 & A5 & A6 & A7) (B1 & B2 & B3 & B4 & B5 & B6 & B7).
  repeat split; try congruence. clear -A7 B7. revert B7. generalize (vqs d3). induction A7 as [|x y l k [E1 E2] _ IH];
    intros l3 H; inversion H as [|? z ? k' [F1 F2] F3]; subst; constructor; [split; congruence|by apply IH].
Qed.

Lemma same_identity_len {D} (d d' : VirtIODevice D) : same_identity d d' -> length (vqs d') = length (vqs d).
Proof. intros (_ & _ & _ & _ & _ & _ & H). symmetry. by eapply Forall2_length. Qed.

Lemma same_identity_put {D} (d : VirtIODevice D) q vq vq' :
  vqs d !! q = Some vq -> queue_num_max vq' = queue_num_max vq -> notify_handler vq' = notify_handler vq ->
  same_identity d (put_vq q vq' d).
Proof.
  intros Hq Hn Hh. repeat split. unfold put_vq. simpl.
  apply Forall2_same_length_lookup. split; [by rewrite length_insert|].
  intros i x y Hx Hy. destruct (decide (i = q)) as [->|Hne].
  - rewrite list_lookup_insert_eq in Hy by (by eapply lookup_lt_Some). by simplify_eq.
  - rewrite list_lookup_insert_ne in Hy by done. by simplify_eq.
Qed.
