(* ===== verification/Ring.v ===== *)
(** * Index rings of the shared bridge page

    [virtio_bridge] has two single-producer single-consumer rings of [MAX_REQ]
    entries ([req_list], [res_list]) with a front and a rear index each; one slot
    stays free.  This file has the index arithmetic of [virtio.c] on them and the
    queue of entries such a ring stands for. *)

From S2P Require Import Prelude Memory ZoneMem Virtqueue Device.

(** [(i + 1) & (MAX_REQ - 1)] on [uint32_t]. *)
Definition ring_next (i : Z) : Z := Z.land (u32 (i + 1)) (MAX_REQ - 1).

Definition is_queue_full (front rear size : Z) : bool :=
  Z.land (u32 (rear + 1)) (u32 (size - 1)) =? front.

(** The index is within the ring. *)
Definition ring_index (i : Z) : Prop := 0 <= i < MAX_REQ.

(** Entries waiting, oldest first. *)
Fixpoint ring_take {A} (l : list A) (front : Z) (n : nat) : list A :=
  match n with
  | O => []
  | S n' =>
      match l !! Z.to_nat front with
      | Some x => x :: ring_take l (ring_next front) n'
      | None => []
      end
  end.

Definition ring_count (front rear : Z) : Z := (rear - front) `mod` MAX_REQ.

Definition ring_contents {A} (l : list A) (front rear : Z) : list A :=
  ring_take l front (Z.to_nat (ring_count front rear)).

Lemma ring_next_mod i : ring_next i = (i + 1) `mod` MAX_REQ.
Proof.
  unfold ring_next. change (MAX_REQ - 1) with (2 ^ 5 - 1). rewrite land_mask_mod by lia.
  unfold u32. change MAX_REQ with (2 ^ 5). apply Z.mod_mod_divide. by exists (2 ^ 27).
Qed.

Lemma ring_next_index i : ring_index (ring_next i).
Proof. rewrite ring_next_mod. unfold ring_index. apply Z.mod_pos_bound. unfold MAX_REQ. lia. Qed.

Lemma is_queue_full_next front rear : is_queue_full front rear MAX_REQ = (ring_next rear =? front).
Proof. reflexivity. Qed.

Lemma ring_take_lookup {A} (l : list A) : length l = Z.to_nat MAX_REQ ->
  forall n front k, ring_index front ->
  ring_take l front n !! k =
    if (k <? n)%nat then l !! Z.to_nat ((front + Z.of_nat k) `mod` MAX_REQ) else None.
Proof.
  intros Hl. induction n as [|n IH]; intros front k Hf; [done|]. cbn [ring_take].
  destruct (lookup_lt_is_Some_2 l (Z.to_nat front)) as [x Hx]; [rewrite Hl; unfold ring_index in Hf; lia|].
  rewrite Hx. destruct k as [|k]; cbn [lookup list_lookup].
  - simpl. rewrite Z.add_0_r, Z.mod_small by exact Hf. by rewrite Hx.
  - rewrite IH by apply ring_next_index. rewrite ring_next_mod.
    replace (S k <? S n)%nat with (k <? n)%nat by lia.
    rewrite Zplus_mod_idemp_l. do 3 f_equal. by replace (front + 1 + Z.of_nat k) with (front + Z.of_nat (S k)) by lia.
Qed.

Lemma ring_take_length {A} (l : list A) : length l = Z.to_nat MAX_REQ ->
  forall n front, ring_index front -> length (ring_take l front n) = n.
Proof.
  intros Hl. induction n as [|n IH]; intros front Hf; [done|]. cbn [ring_take].
  destruct (lookup_lt_is_Some_2 l (Z.to_nat front)) as [x Hx]; [rewrite Hl; unfold ring_index in Hf; lia|].
  rewrite Hx. simpl. f_equal. apply IH, ring_next_index.
Qed.

Lemma ring_count_range front rear : 0 <= ring_count front rear < MAX_REQ.
Proof. apply Z.mod_pos_bound. unfold MAX_REQ. lia. Qed.

(** Advancing the rear of a ring that is not full adds one entry. *)
Lemma ring_count_push front rear :
  is_queue_full front rear MAX_REQ = false -> ring_index front ->
  ring_count front (ring_next rear) = ring_count front rear + 1.
Proof.
  rewrite is_queue_full_next, ring_next_mod. unfold ring_count, ring_index.
  intros Hfull Hf. rewrite Zminus_mod_idemp_l.
  pose proof (Z.mod_pos_bound (rear - front) MAX_REQ ltac:(unfold MAX_REQ; lia)) as Hb.
  replace (rear + 1 - front) with (rear - front + 1) by lia.
  rewrite <- (Zplus_mod_idemp_l (rear - front)).
  apply Z.mod_small. split; [lia|].
  destruct (Z.eq_dec ((rear - front) `mod` MAX_REQ) (MAX_REQ - 1)) as [E|]; [|lia].
  exfalso. assert ((rear + 1) `mod` MAX_REQ = front); [|lia].
  replace (rear + 1) with (front + ((rear - front) + 1)) by lia.
  rewrite <- Zplus_mod_idemp_r. rewrite <- (Zplus_mod_idemp_l (rear - front)), E.
  replace (MAX_REQ - 1 + 1) with MAX_REQ by lia. rewrite Z_mod_same_full, Z.add_0_r. by apply Z.mod_small.
Qed.

Lemma ring_slot_last front rear :
  ring_index rear -> (front + ring_count front rear) `mod` MAX_REQ = rear.
Proof.
  intros Hr. unfold ring_count. rewrite Zplus_mod_idemp_r.
  replace (front + (rear - front)) with rear by lia. by apply Z.mod_small.
Qed.

(** Writing an entry at the rear and advancing it appends to the queue. *)
Lemma ring_contents_push {A} (l : list A) front rear x :
  length l = Z.to_nat MAX_REQ -> ring_index front -> ring_index rear ->
  is_queue_full front rear MAX_REQ = false ->
  ring_contents (<[Z.to_nat rear := x]> l) front (ring_next rear) = ring_contents l front rear ++ [x].
Proof.
  intros Hl Hf Hr Hfull. unfold ring_contents. rewrite ring_count_push by done.
  pose proof (ring_count_range front rear) as Hc. set (c := ring_count front rear) in *.
  assert (Hl' : length (<[Z.to_nat rear := x]> l) = Z.to_nat MAX_REQ) by by rewrite length_insert.
  apply list_eq. intros k. rewrite ring_take_lookup by done.
  destruct (decide (k < Z.to_nat c)%nat) as [Hk|Hk].
  - rewrite lookup_app_l by (rewrite ring_take_length by done; lia).
    rewrite ring_take_lookup by done.
    replace (k <? Z.to_nat (c + 1))%nat with true by lia. replace (k <? Z.to_nat c)%nat with true by lia.
    apply list_lookup_insert_ne. intros E.
    assert ((front + Z.of_nat k) `mod` MAX_REQ = rear) as E2.
    { pose proof (Z.mod_pos_bound (front + Z.of_nat k) MAX_REQ ltac:(unfold MAX_REQ; lia)).
      unfold ring_index in *. lia. }
    assert (c = Z.of_nat k); [|lia]. unfold c, ring_count. rewrite <- E2, Zminus_mod_idemp_l.
    replace (front + Z.of_nat k - front) with (Z.of_nat k) by lia. apply Z.mod_small. lia.
  - rewrite lookup_app_r by (rewrite ring_take_length by done; lia). rewrite ring_take_length by done.
    destruct (decide (k = Z.to_nat c)) as [->|Hne].
    + replace (Z.to_nat c <? Z.to_nat (c + 1))%nat with true by lia. rewrite Nat.sub_diag.
      rewrite Z2Nat.id by lia. unfold c. rewrite ring_slot_last by done.
      rewrite list_lookup_insert_eq; [done|]. rewrite Hl. unfold ring_index in Hr. lia.
    + replace (k <? Z.to_nat (c + 1))%nat with false by lia.
      destruct (k - Z.to_nat c)%nat eqn:E; [lia|done].
Qed.

(** A ring whose indices differ has an oldest entry, and advancing the front
    removes exactly that one. *)
Lemma ring_contents_pop {A} (l : list A) front rear :
  length l = Z.to_nat MAX_REQ -> ring_index front -> ring_index rear -> front <> rear ->
  exists x, l !! Z.to_nat front = Some x /\
    ring_contents l front rear = x :: ring_contents l (ring_next front) rear.
Proof.
  intros Hl Hf Hr Hne.
  destruct (lookup_lt_is_Some_2 l (Z.to_nat front)) as [x Hx]; [rewrite Hl; unfold ring_index in Hf; lia|].
  exists x. split; [done|]. unfold ring_contents.
  assert (ring_count front rear = ring_count (ring_next front) rear + 1) as ->.
  { unfold ring_count. rewrite ring_next_mod. rewrite Zminus_mod_idemp_r. unfold ring_index, MAX_REQ in *.
    destruct (decide (front < rear)).
    - rewrite !Z.mod_small by lia. lia.
    - rewrite <- (Z_mod_plus_full (rear - front) 1), <- (Z_mod_plus_full (rear - (front + 1)) 1).
      rewrite !Z.mod_small by lia. lia. }
  pose proof (ring_count_range (ring_next front) rear).
  rewrite Z2Nat.inj_add by lia. rewrite Nat.add_1_r. cbn [ring_take]. by rewrite Hx.
Qed.

Lemma ring_contents_nil {A} (l : list A) i : ring_contents l i i = [].
Proof. unfold ring_contents, ring_count. by rewrite Z.sub_diag. Qed.
