(* ===== verification/Interrupt.v ===== *)
(** * Interrupt delivery

    [virtio_inject_irq], [virtio_deassert_line_locked] and the interrupt parts of
    [virtio_dev_reset] and of the INTERRUPT_ACK register write of
    [tools/virtio/virtio.c].  The hypervisor is seen through the events of the
    world: it raises a line when a result entry for it is in the ring at a
    successful HVISOR_FINISH_REQ, and lowers it at a successful
    HVISOR_DEASSERT_IRQ; [line_level] replays a log to that level.

    [vring_need_event] comes from <linux/virtio_ring.h> and is a parameter; what is
    relied on is the law of the virtio specification, [VringEventLaw]. *)

From S2P Require Import Prelude Memory ZoneMem Virtqueue Device Ring.

Definition VIRTIO_MMIO_INT_VRING : Z := 1.
Definition VIRTIO_MMIO_INT_CONFIG : Z := 2.

(** ** The ring ABI header *)

Class VringEvent := vring_need_event : Z -> Z -> Z -> bool.

(** An event index asks for a notification exactly when it was passed by the
    step from [old] to [new], on 16-bit indices. *)
Class VringEventLaw `{!VringEvent} : Prop :=
  vring_need_event_iff : forall event_idx new old,
    vring_need_event event_idx new old = true <->
    u16 (new - event_idx - 1) < u16 (new - old).

(** ** Operations *)

Definition virtio_trace_sample (seq : Z) : bool :=
  (seq <? 128) || (negb (seq =? 0) && (Z.land seq (u64 (seq - 1)) =? 0)).

(** [atomic_fetch_add] on the trace counter; the log line itself is not state. *)
Definition trace (w : world) : world := set_w_trace_seq (u64 (w_trace_seq w + 1)) w.

Definition log_event (e : bridge_event) (w : world) : world := set_w_log (e :: w_log w) w.

(** [do ret = ioctl(...); while (ret < 0 && errno == EINTR)], over the answers
    the kernel gives; [ev] is the event of one attempt. *)
Fixpoint ioctl_loop (ans : list (Z * Z)) (ev : Z -> bridge_event) (w : world) : result (Z * world) :=
  match ans with
  | [] => Err EnvExhausted
  | (ret, errno) :: rest =>
      let w1 := log_event (ev ret) (set_w_ioctl rest w) in
      if (ret <? 0) && (errno =? EINTR) then ioctl_loop rest ev w1 else Ok (ret, w1)
  end.

Definition ioctl_retry (ev : Z -> bridge_event) (w : world) : result (Z * world) :=
  ioctl_loop (w_ioctl w) ev w.

Section ops.
Context {D : Type} {vring : VringEvent} (a : arch).

Definition virtio_deassert_line_locked (d : VirtIODevice D) (w : world) : result (Z * world) :=
  if level_triggered a then ioctl_retry (EvDeassert (zone_id d) (irq_id d)) w
  else Ok (0, w).

(** [while (is_queue_full(res_front, res_rear, MAX_REQ)) {}]: each evaluation
    observes the value the hypervisor has left in [res_front]. *)
Fixpoint wait_res_slot (obs : list Z) (w : world) : result world :=
  match obs with
  | [] => Err Spinning
  | f :: rest =>
      let w1 := set_w_front rest (set_w_bridge (set_res_front f (w_bridge w)) w) in
      if is_queue_full f (res_rear (w_bridge w)) MAX_REQ then wait_res_slot rest w1 else Ok w1
  end.

(** The entry written under RES_MUTEX. *)
Definition push_res (d : VirtIODevice D) (w : world) : result world :=
  let b := w_bridge w in
  let rear := res_rear b in
  _ ← of_index (res_list b !! Z.to_nat rear);
  let res := {| target_zone := zone_id d; res_irq_id := irq_id d |} in
  let b1 := set_res_rear (ring_next rear) (set_res_list (<[Z.to_nat rear := res]> (res_list b)) b) in
  Ok (log_event (EvRes (zone_id d) (irq_id d)) (set_w_bridge b1 w)).

(** The part of [virtio_inject_irq] under the device's interrupt lock. *)
Definition raise_line (d : VirtIODevice D) (w : world) : result (VirtIODevice D * world) :=
  let d1 := upd_regs (fun r => set_interrupt_status (Z.lor (interrupt_status r) VIRTIO_MMIO_INT_VRING) r) d in
  if interrupt_line_asserted d1 then Ok (d1, trace w)
  else
    w1 ← wait_res_slot (w_front w) w;
    w2 ← push_res d1 w1;
    '(ret, w3) ← ioctl_retry EvFinishReq w2;
    let d2 := if ret =? 0 then set_interrupt_line_asserted true d1 else d1 in
    Ok (d2, trace w3).

(** Whether the driver asked not to be interrupted for this batch. *)
Definition irq_suppressed (m : hmem) (vq : VirtQueue) (idx last : Z) : result bool :=
  if event_idx_enabled vq then
    event_idx ← VQ_USED_EVENT m vq;
    Ok (negb (vring_need_event event_idx idx last))
  else
    flags ← avail_flags m vq;
    Ok (has_flag flags VRING_AVAIL_F_NO_INTERRUPT).

Definition virtio_inject_irq (d : VirtIODevice D) (q : nat) (w : world) : result (VirtIODevice D * world) :=
  vq ← of_index (vqs d !! q);
  idx ← used_idx (w_mem w) vq;
  let d1 := put_vq q (set_last_used_idx idx vq) d in
  if idx =? last_used_idx vq then Ok (d1, w)
  else
    s ← irq_suppressed (w_mem w) vq idx (last_used_idx vq);
    if (s : bool) then Ok (d1, w) else raise_line d1 w.

(** INTERRUPT_ACK. *)
Definition interrupt_ack (d : VirtIODevice D) (v : Z) (w : world) : result (VirtIODevice D * world) :=
  let status_before := interrupt_status (regs d) in
  let ack := Z.land (u32 v) (Z.lor VIRTIO_MMIO_INT_VRING VIRTIO_MMIO_INT_CONFIG) in
  let status_after := Z.land status_before (u32 (Z.lnot ack)) in
  '(deassert_ret, w1) ←
    (if negb (status_before =? 0) && (status_after =? 0) && interrupt_line_asserted d
     then virtio_deassert_line_locked d w else Ok (0, w));
  let d1 :=
    if deassert_ret =? 0 then
      let d2 := upd_regs (set_interrupt_status status_after) d in
      if status_after =? 0 then set_interrupt_line_asserted false d2 else d2
    else d in
  Ok (d1, trace w1).

(** The first critical section of [virtio_dev_reset]. *)
Definition reset_interrupt (d : VirtIODevice D) (w : world) : result (VirtIODevice D * world) :=
  '(d1, w1) ←
    (if interrupt_line_asserted d then
       '(ret, w1) ← virtio_deassert_line_locked d w;
       Ok (if ret =? 0 then set_interrupt_line_asserted false d else d, w1)
     else Ok (d, w));
  Ok (if interrupt_line_asserted d1 then d1 else upd_regs (set_interrupt_status 0) d1, w1).

End ops.

(** ** The hypervisor's view *)

(** An entry for the line was put in the ring since the last successful
    HVISOR_FINISH_REQ. *)
Fixpoint res_waiting (z i : Z) (log : list bridge_event) : bool :=
  match log with
  | [] => false
  | EvRes z' i' :: l => ((z' =? z) && (i' =? i)) || res_waiting z i l
  | EvFinishReq ret :: l => if ret =? 0 then false else res_waiting z i l
  | EvDeassert _ _ _ :: l => res_waiting z i l
  end.

(** The level of the line after the events of a log (newest first). *)
Fixpoint line_level (z i : Z) (log : list bridge_event) : bool :=
  match log with
  | [] => false
  | EvRes _ _ :: l => line_level z i l
  | EvFinishReq ret :: l => if ret =? 0 then res_waiting z i l || line_level z i l else line_level z i l
  | EvDeassert z' i' ret :: l =>
      if (z' =? z) && (i' =? i) && (ret =? 0) then false else line_level z i l
  end.

(** No HVISOR_FINISH_REQ of the log failed. *)
Fixpoint finishes_ok (log : list bridge_event) : bool :=
  match log with
  | [] => true
  | EvFinishReq ret :: l => (ret =? 0) && finishes_ok l
  | _ :: l => finishes_ok l
  end.

(** The interrupt state of a device agrees with what the hypervisor has seen:
    a line believed up has an unacknowledged cause and, on level-triggered
    targets, is up; and while no HVISOR_FINISH_REQ failed, the line is up exactly
    when it is believed to be, and no entry for it is left waiting. *)
Record irq_consistent {D} (a : arch) (d : VirtIODevice D) (w : world) : Prop := {
  irq_cause : interrupt_line_asserted d = true -> interrupt_status (regs d) <> 0;
  irq_up : level_triggered a = true -> interrupt_line_asserted d = true ->
    line_level (zone_id d) (irq_id d) (w_log w) = true;
  irq_sync : finishes_ok (w_log w) = true ->
    res_waiting (zone_id d) (irq_id d) (w_log w) = false /\
    (level_triggered a = true ->
     line_level (zone_id d) (irq_id d) (w_log w) = interrupt_line_asserted d);
}.

(** Steps of a device and of the others sharing the bridge. *)
Definition other_event (z i : Z) (e : bridge_event) : Prop :=
  match e with
  | EvRes z' i' => (z', i') <> (z, i)
  | EvFinishReq _ => True
  | EvDeassert z' i' _ => (z', i') <> (z, i)
  end.

Inductive irq_step {D} `{!VringEvent} (a : arch) : VirtIODevice D * world -> VirtIODevice D * world -> Prop :=
  | step_inject d w q d' w' : virtio_inject_irq d q w = Ok (d', w') -> irq_step a (d, w) (d', w')
  | step_ack d w v d' w' : interrupt_ack a d v w = Ok (d', w') -> irq_step a (d, w) (d', w')
  | step_reset d w d' w' : reset_interrupt a d w = Ok (d', w') -> irq_step a (d, w) (d', w')
  | step_other d w w' evs :
      w_log w' = evs ++ w_log w -> Forall (other_event (zone_id d) (irq_id d)) evs ->
      irq_step a (d, w) (d, w').

Abbreviation irq_reachable a := (rtc (irq_step a)).

(** ** Lemmas *)

(** The return value of a retried ioctl is that of its last attempt, and the
    attempts before it failed. *)
Lemma ioctl_loop_spec ans ev : forall w ret w',
  ioctl_loop ans ev w = Ok (ret, w') ->
  exists fails : list Z, w_log w' = ev ret :: (ev <$> fails) ++ w_log w /\ Forall (fun r => r < 0) fails /\
    w_mem w' = w_mem w /\ w_zones w' = w_zones w /\ w_bridge w' = w_bridge w.
Proof.
  induction ans as [|[r e] ans IH]; intros w ret w' H; cbn [ioctl_loop] in H; [done|].
  destruct ((r <? 0) && (e =? EINTR)) eqn:E.
  - apply IH in H as (fails & Hl & Hf & Hm & Hz & Hb). exists (fails ++ [r]).
    rewrite fmap_app, <- app_assoc. split; [exact Hl|]. split; [|done].
    apply Forall_app. split; [done|]. constructor; [lia|done].
  - injection H as <- <-. exists []. repeat split; auto.
Qed.

Lemma wait_res_slot_spec obs : forall w w',
  wait_res_slot obs w = Ok w' ->
  w_log w' = w_log w /\ w_mem w' = w_mem w /\ w_zones w' = w_zones w /\
  exists f, w_bridge w' = set_res_front f (w_bridge w) /\ f ∈ obs /\
    is_queue_full f (res_rear (w_bridge w)) MAX_REQ = false.
Proof.
  induction obs as [|f obs IH]; intros w w' H; cbn [wait_res_slot] in H; [done|].
  destruct (is_queue_full f _ MAX_REQ) eqn:E.
  - apply IH in H as (Hl & Hm & Hz & f' & Hb & Hin & Hfull). repeat split; try done.
    exists f'. split; [done|]. split; [by right|done].
  - injection H as <-. repeat split; try done. exists f. split; [done|]. split; [by left|done].
Qed.

Lemma line_level_deassert_fails z i fails log :
  Forall (fun r => r < 0) fails ->
  line_level z i ((EvDeassert z i <$> fails) ++ log) = line_level z i log /\
  res_waiting z i ((EvDeassert z i <$> fails) ++ log) = res_waiting z i log /\
  finishes_ok ((EvDeassert z i <$> fails) ++ log) = finishes_ok log.
Proof.
  induction 1 as [|r fails Hr _ (IH1 & IH2 & IH3)]; [done|]. simpl.
  replace (r =? 0) with false by lia. rewrite andb_false_r. auto.
Qed.

Lemma line_level_finish_fails z i fails log :
  Forall (fun r => r < 0) fails ->
  line_level z i ((EvFinishReq <$> fails) ++ log) = line_level z i log /\
  res_waiting z i ((EvFinishReq <$> fails) ++ log) = res_waiting z i log /\
  (finishes_ok ((EvFinishReq <$> fails) ++ log) = true -> fails = [] /\ finishes_ok log = true).
Proof.
  induction 1 as [|r fails Hr _ (IH1 & IH2 & IH3)]; [done|]. simpl.
  replace (r =? 0) with false by lia. repeat split; auto; done.
Qed.

(** Events of other lines never lower this one, and leave it alone unless an
    entry for it is waiting. *)
Lemma other_events z i evs log :
  Forall (other_event z i) evs ->
  (line_level z i log = true -> line_level z i (evs ++ log) = true) /\
  (finishes_ok (evs ++ log) = true -> finishes_ok log = true) /\
  (res_waiting z i log = false ->
   line_level z i (evs ++ log) = line_level z i log /\ res_waiting z i (evs ++ log) = false).
Proof.
  induction 1 as [|e evs He _ (IH1 & IH2 & IH3)]; [done|]. simpl.
  destruct e as [z' i'|r|z' i' r]; simpl in He |- *.
  - replace ((z' =? z) && (i' =? i)) with false; [auto|].
    destruct (z' =? z) eqn:E1, (i' =? i) eqn:E2; try done. exfalso. apply He. f_equal; lia.
  - destruct (r =? 0); simpl; (split; [|split]); auto; try discriminate.
    + intros H. rewrite (IH1 H). by rewrite orb_true_r.
    + intros H. destruct (IH3 H) as [-> ->]. auto.
  - replace ((z' =? z) && (i' =? i)) with false; [auto|].
    destruct (z' =? z) eqn:E1, (i' =? i) eqn:E2; try done. exfalso. apply He. f_equal; lia.
Qed.

Section steps.
Context {D : Type} {vring : VringEvent} (a : arch).
Implicit Types (d : VirtIODevice D) (w : world).

(** Consistency only looks at four fields of the device and at the log. *)
Lemma irq_consistent_ext d w d' w' :
  interrupt_line_asserted d' = interrupt_line_asserted d ->
  interrupt_status (regs d') = interrupt_status (regs d) ->
  zone_id d' = zone_id d -> irq_id d' = irq_id d -> w_log w' = w_log w ->
  irq_consistent a d w -> irq_consistent a d' w'.
Proof. intros E1 E2 E3 E4 E5 []. constructor; rewrite ?E1, ?E2, ?E3, ?E4, ?E5; done. Qed.

(** Lowering the line through HVISOR_DEASSERT_IRQ. *)
Lemma virtio_deassert_line_locked_spec d w ret w' :
  virtio_deassert_line_locked a d w = Ok (ret, w') ->
  finishes_ok (w_log w') = finishes_ok (w_log w) /\
  res_waiting (zone_id d) (irq_id d) (w_log w') = res_waiting (zone_id d) (irq_id d) (w_log w) /\
  (level_triggered a = true ->
     line_level (zone_id d) (irq_id d) (w_log w') =
       if ret =? 0 then false else line_level (zone_id d) (irq_id d) (w_log w)) /\
  w_mem w' = w_mem w /\ w_zones w' = w_zones w /\ w_bridge w' = w_bridge w.
Proof.
  unfold virtio_deassert_line_locked. destruct (level_triggered a).
  - intros H. apply ioctl_loop_spec in H as (fails & Hl & Hf & Hm & Hz & Hb). rewrite Hl.
    destruct (line_level_deassert_fails (zone_id d) (irq_id d) fails (w_log w) Hf) as (E1 & E2 & E3).
    simpl. rewrite E1, E2, E3, !Z.eqb_refl. simpl. done.
  - intros H. injection H as <- <-. repeat split; done.
Qed.

Lemma status_or_vring s : Z.lor s VIRTIO_MMIO_INT_VRING <> 0.
Proof. intros H. apply Z.lor_eq_0_iff in H as [_ H]. discriminate. Qed.

Lemma push_res_spec d w w' :
  push_res d w = Ok w' ->
  w_log w' = EvRes (zone_id d) (irq_id d) :: w_log w /\ w_mem w' = w_mem w /\ w_zones w' = w_zones w /\
  w_bridge w' = set_res_rear (ring_next (res_rear (w_bridge w)))
    (set_res_list (<[Z.to_nat (res_rear (w_bridge w)) :=
       {| target_zone := zone_id d; res_irq_id := irq_id d |}]> (res_list (w_bridge w))) (w_bridge w)).
Proof. unfold push_res. intros H. apply bind_Ok_inv in H as (x & _ & H). injection H as <-. done. Qed.

(** What [raise_line] does, in one statement: the status bit, and unless the
    line was up already, one ring entry and one HVISOR_FINISH_REQ. *)
Lemma raise_line_inv d w d' w' :
  raise_line d w = Ok (d', w') ->
  let d1 := upd_regs (fun r => set_interrupt_status (Z.lor (interrupt_status r) VIRTIO_MMIO_INT_VRING) r) d in
  (interrupt_line_asserted d = true /\ d' = d1 /\ w' = trace w) \/
  (interrupt_line_asserted d = false /\ exists f w1 w2 ret fails,
     f ∈ w_front w /\ is_queue_full f (res_rear (w_bridge w)) MAX_REQ = false /\
     w_bridge w1 = set_res_front f (w_bridge w) /\ push_res d w1 = Ok w2 /\
     d' = (if ret =? 0 then set_interrupt_line_asserted true d1 else d1) /\
     w_bridge w' = w_bridge w2 /\ w_mem w' = w_mem w /\ w_zones w' = w_zones w /\ Forall (fun r => r < 0) fails /\
     w_log w' = EvFinishReq ret :: (EvFinishReq <$> fails) ++ EvRes (zone_id d) (irq_id d) :: w_log w).
Proof.
  unfold raise_line. simpl. destruct (interrupt_line_asserted d) eqn:Eas.
  { intros H. injection H as <- <-. left. done. }
  intros H. right. split; [done|].
  apply bind_Ok_inv in H as (w1 & H1 & H). apply bind_Ok_inv in H as (w2 & H2 & H).
  apply bind_Ok_inv in H as ([ret w3] & H3 & H). injection H as <- <-.
  apply wait_res_slot_spec in H1 as (L1 & M1 & Z1 & f & B1 & Hin & Hfull).
  pose proof H2 as H2'. apply push_res_spec in H2' as (L2 & M2 & Z2 & B2).
  apply ioctl_loop_spec in H3 as (fails & L3 & Hf & M3 & Z3 & B3).
  exists f, w1, w2, ret, fails. simpl. rewrite L3, L2, L1, B3, M3, M2, M1, Z3, Z2, Z1. auto 20.
Qed.

Lemma raise_line_consistent d w d' w' :
  irq_consistent a d w -> raise_line d w = Ok (d', w') -> irq_consistent a d' w'.
Proof.
  intros [Hc Hu Hs] H. apply raise_line_inv in H as
    [(Has & -> & ->)|(Has & f & w1 & w2 & ret & fails & _ & _ & _ & _ & -> & _ & _ & _ & Hf & Hl)].
  - constructor; simpl; auto. intros _. apply status_or_vring.
  - destruct (line_level_finish_fails (zone_id d) (irq_id d) fails (EvRes (zone_id d) (irq_id d) :: w_log w) Hf)
      as (E1 & E2 & E3). simpl in E1, E2, E3. rewrite !Z.eqb_refl in E2. simpl in E2.
    destruct (ret =? 0) eqn:Er; (constructor; [|rewrite Hl|rewrite Hl]); simpl; rewrite ?Er; simpl.
    + intros _. apply status_or_vring.
    + intros _ _. by rewrite E2.
    + intros _. rewrite E2. auto.
    + congruence.
    + congruence.
    + discriminate.
Qed.

Lemma virtio_inject_irq_consistent d w q d' w' :
  irq_consistent a d w -> virtio_inject_irq d q w = Ok (d', w') -> irq_consistent a d' w'.
Proof.
  intros Hc H. unfold virtio_inject_irq in H.
  apply bind_Ok_inv in H as (vq & _ & H). apply bind_Ok_inv in H as (idx & _ & H).
  destruct (idx =? last_used_idx vq).
  { injection H as <- <-. by eapply irq_consistent_ext; [| | | | |exact Hc]. }
  apply bind_Ok_inv in H as (s & _ & H). destruct s.
  { injection H as <- <-. by eapply irq_consistent_ext; [| | | | |exact Hc]. }
  eapply raise_line_consistent; [|exact H]. by eapply irq_consistent_ext; [| | | | |exact Hc].
Qed.

(** Lowering the line after a successful deassert, whatever the status. *)
Lemma irq_consistent_lowered d w w' d' :
  irq_consistent a d w -> interrupt_line_asserted d = true ->
  virtio_deassert_line_locked a d w = Ok (0, w') ->
  zone_id d' = zone_id d -> irq_id d' = irq_id d -> interrupt_line_asserted d' = false ->
  irq_consistent a d' w'.
Proof.
  intros [Hc Hu Hs] Has H Hz Hi Hd. apply virtio_deassert_line_locked_spec in H as (F & W & L & _).
  constructor; rewrite ?Hd, ?Hz, ?Hi; try done. rewrite F, W. intros Hok.
  split; [by apply Hs|]. intros Hlv. by rewrite (L Hlv).
Qed.

Lemma irq_consistent_kept_up d w ret w' :
  irq_consistent a d w -> virtio_deassert_line_locked a d w = Ok (ret, w') -> ret <> 0 ->
  irq_consistent a d w'.
Proof.
  intros [Hc Hu Hs] H Hr. apply virtio_deassert_line_locked_spec in H as (F & W & L & _).
  replace (ret =? 0) with false in L by lia.
  constructor; [done| |]; [intros Hlv Has; rewrite (L Hlv); auto|].
  rewrite F, W. intros Hok. destruct (Hs Hok) as [H1 H2]. split; [done|]. intros Hlv. rewrite (L Hlv). auto.
Qed.

Lemma reset_interrupt_consistent d w d' w' :
  irq_consistent a d w -> reset_interrupt a d w = Ok (d', w') -> irq_consistent a d' w'.
Proof.
  unfold reset_interrupt. intros Hc H. destruct (interrupt_line_asserted d) eqn:Has; cbn [mbind result_bind] in H.
  - apply bind_Ok_inv in H as ([d1 w1] & H1 & H). apply bind_Ok_inv in H1 as ([ret w2] & H1 & H2).
    injection H2 as <- <-. injection H as <- <-.
    destruct (ret =? 0) eqn:Er; simpl.
    + replace ret with 0 in H1 by lia. by eapply irq_consistent_lowered.
    + rewrite Has. eapply irq_consistent_kept_up; [done|exact H1|lia].
  - injection H as <- <-. rewrite Has. destruct Hc as [Hc Hu Hs]. constructor; simpl; congruence || auto.
Qed.

Lemma interrupt_ack_consistent d v w d' w' :
  irq_consistent a d w -> interrupt_ack a d v w = Ok (d', w') -> irq_consistent a d' w'.
Proof.
  unfold interrupt_ack. intros Hc H. set (after := Z.land _ (u32 (Z.lnot _))) in H.
  destruct (negb _ && (after =? 0) && interrupt_line_asserted d) eqn:E.
  - apply andb_true_iff in E as [E Has]. apply andb_true_iff in E as [_ Ha].
    apply bind_Ok_inv in H as ([ret w1] & H1 & H). rewrite Ha in H. injection H as <- <-.
    destruct (ret =? 0) eqn:Er; simpl.
    + replace ret with 0 in H1 by lia.
      eapply irq_consistent_ext with (w := w1)
        (d := set_interrupt_line_asserted false (upd_regs (set_interrupt_status after) d));
        [done..|]. by eapply (irq_consistent_lowered d w).
    + eapply irq_consistent_ext with (w := w1); [done..|].
      eapply irq_consistent_kept_up; [done|exact H1|lia].
  - cbn [mbind result_bind] in H. injection H as <- <-. destruct Hc as [Hc Hu Hs]. simpl.
    destruct (after =? 0) eqn:Ea; simpl.
    + assert (interrupt_line_asserted d = false) as Has.
      { destruct (interrupt_line_asserted d); [|done]. specialize (Hc eq_refl).
        destruct (interrupt_status (regs d) =? 0) eqn:E0; [lia|]. done. }
      constructor; simpl; try done. intros Hok. destruct (Hs Hok) as [H1 H2]. split; [done|].
      intros Hlv. by rewrite (H2 Hlv).
    + constructor; simpl; auto. intros _. lia.
Qed.

Lemma irq_step_consistent (s s' : VirtIODevice D * world) :
  irq_step a s s' -> irq_consistent a s.1 s.2 -> irq_consistent a s'.1 s'.2.
Proof.
  intros [d w q d' w' H|d w v d' w' H|d w d' w' H|d w w' evs Hl He]; simpl; intros Hc.
  - by eapply virtio_inject_irq_consistent.
  - by eapply interrupt_ack_consistent.
  - by eapply reset_interrupt_consistent.
  - destruct Hc as [Hc Hu Hs]. destruct (other_events _ _ evs (w_log w) He) as (E1 & E2 & E3).
    constructor; rewrite ?Hl; auto. intros Hok. destruct (Hs (E2 Hok)) as [H1 H2].
    destruct (E3 H1) as [-> ->]. auto.
Qed.

Lemma irq_steps_consistent (s s' : VirtIODevice D * world) :
  rtc (irq_step a) s s' -> irq_consistent a s.1 s.2 -> irq_consistent a s'.1 s'.2.
Proof. induction 1; eauto using irq_step_consistent. Qed.

End steps.

(** ** Theorems *)

Section theorems.
Context {D : Type} {vring : VringEvent} (a : arch).
Implicit Types (d : VirtIODevice D) (w : world).

Lemma ioctl_loop_total ev : forall ans w,
  existsb (fun '(r, e) => negb ((r <? 0) && (e =? EINTR))) ans = true ->
  is_ok (ioctl_loop ans ev w) = true.
Proof.
  induction ans as [|[r e] ans IH]; intros w H; [done|]. cbn [ioctl_loop existsb] in *.
  destruct ((r <? 0) && (e =? EINTR)); [by apply IH|done].
Qed.

Lemma wait_res_slot_total : forall obs w,
  existsb (fun f => negb (is_queue_full f (res_rear (w_bridge w)) MAX_REQ)) obs = true ->
  exists w', wait_res_slot obs w = Ok w' /\ w_ioctl w' = w_ioctl w /\
    res_rear (w_bridge w') = res_rear (w_bridge w) /\ res_list (w_bridge w') = res_list (w_bridge w).
Proof.
  induction obs as [|f obs IH]; intros w H; [done|]. cbn [wait_res_slot existsb] in *.
  destruct (is_queue_full f _ MAX_REQ); simpl in H; [|by eexists].
  destruct (IH (set_w_front obs (set_w_bridge (set_res_front f (w_bridge w)) w)) H) as (w' & Hw & E). eauto.
Qed.

(** Whether the driver wants an interrupt for the completions from [last] up to
    [idx], from the words it left in the available ring: the flags at its start, or
    the used_event index behind its entries. *)
Definition wanted (m : hmem) (vq : VirtQueue) (idx last : Z) (b : bool) : Prop :=
  if event_idx_enabled vq
  then exists event, load 2 m (avail_ring vq + 4 + 2 * num vq) = Ok event /\ (b = true <-> u16 (idx - event - 1) < u16 (idx - last))
  else exists flags, load 2 m (avail_ring vq) = Ok flags /\ b = negb (Z.testbit flags 0).

Lemma irq_suppressed_wanted {law : VringEventLaw} m vq idx last s :
  irq_suppressed m vq idx last = Ok s -> wanted m vq idx last (negb s).
Proof.
  unfold irq_suppressed, wanted. destruct (event_idx_enabled vq); intros H.
  - apply bind_Ok_inv in H as (event & He & H). injection H as <-. exists event. split; [exact He|].
    rewrite negb_involutive. apply vring_need_event_iff.
  - apply bind_Ok_inv in H as (flags & Hf & H). injection H as <-. exists flags. split; [exact Hf|]. f_equal.
    unfold has_flag, VRING_AVAIL_F_NO_INTERRUPT. change 1 with (Z.ones 1). rewrite Z.land_ones by lia. change (2 ^ 1) with 2.
    rewrite Z.bit0_odd, Zmod_odd. by destruct (Z.odd flags).
Qed.



(** C9: no lost notification with VIRTIO_RING_F_EVENT_IDX.  If the event index the
    driver asked for lies among the entries completed since the last injection,
    the injection is not suppressed: the interrupt status bit is set. *)
Theorem event_idx_no_lost_interrupt {law : VringEventLaw} d q w d' w' vq idx event k :
  vqs d !! q = Some vq -> event_idx_enabled vq = true ->
  used_idx (w_mem w) vq = Ok idx -> VQ_USED_EVENT (w_mem w) vq = Ok event ->
  0 <= k < u16 (idx - last_used_idx vq) -> event = u16 (last_used_idx vq + k) ->
  virtio_inject_irq d q w = Ok (d', w') ->
  has_flag (interrupt_status (regs d')) VIRTIO_MMIO_INT_VRING = true.
Proof.
  intros Hq He Hidx Hev Hk -> H. unfold virtio_inject_irq in H. rewrite Hq in H. cbn [of_index mbind result_bind] in H.
  rewrite Hidx in H. cbn [mbind result_bind] in H.
  destruct (idx =? last_used_idx vq) eqn:El.
  { replace (idx - last_used_idx vq) with 0 in Hk by lia. change (u16 0) with 0 in Hk. lia. }
  unfold irq_suppressed in H. rewrite He, Hev in H. cbn [mbind result_bind] in H.
  assert (vring_need_event (u16 (last_used_idx vq + k)) idx (last_used_idx vq) = true) as Hn.
  { apply vring_need_event_iff. unfold u16 in *. set (x := last_used_idx vq + k).
    pose proof (Z.div_mod x (2 ^ 16) ltac:(lia)) as Hx.
    replace (idx - x `mod` 2 ^ 16 - 1) with (idx - last_used_idx vq - (k + 1) + x `div` 2 ^ 16 * 2 ^ 16) by (unfold x in *; lia).
    rewrite Z_mod_plus_full.
    pose proof (Z.mod_pos_bound (idx - last_used_idx vq) (2 ^ 16) ltac:(lia)).
    rewrite <- (Zminus_mod_idemp_l (idx - last_used_idx vq)).
    rewrite (Z.mod_small ((idx - last_used_idx vq) `mod` 2 ^ 16 - (k + 1))) by lia. lia. }
  rewrite Hn in H. cbn [negb] in H.
  assert (Hor : forall s, has_flag (Z.lor s VIRTIO_MMIO_INT_VRING) VIRTIO_MMIO_INT_VRING = true).
  { intros s. unfold has_flag. rewrite Z.land_comm, Z.land_lor_distr_r, Z.land_diag.
    apply negb_true_iff, Z.eqb_neq. apply status_or_vring. }
  apply raise_line_inv in H as [(_ & -> & _)|(_ & f & w1 & w2 & ret & fails & _ & _ & _ & _ & -> & _)];
    [apply Hor|]. destruct (ret =? 0); apply Hor.
Qed.

(** An injection on a queue whose rings are mapped returns as soon as the
    hypervisor has left a free result slot and one ioctl attempt is not
    interrupted: the two waits are the only reasons it does not return. *)
Theorem virtio_inject_irq_returns d q w vq idx s :
  vqs d !! q = Some vq -> used_idx (w_mem w) vq = Ok idx ->
  irq_suppressed (w_mem w) vq idx (last_used_idx vq) = Ok s ->
  length (res_list (w_bridge w)) = Z.to_nat MAX_REQ -> ring_index (res_rear (w_bridge w)) ->
  existsb (fun f => negb (is_queue_full f (res_rear (w_bridge w)) MAX_REQ)) (w_front w) = true ->
  existsb (fun '(r, e) => negb ((r <? 0) && (e =? EINTR))) (w_ioctl w) = true ->
  is_ok (virtio_inject_irq d q w) = true.
Proof.
  intros Hq Hidx Hs Hlen Hrear Hfree Hans. unfold virtio_inject_irq. rewrite Hq. cbn [of_index mbind result_bind].
  rewrite Hidx. cbn [mbind result_bind]. destruct (idx =? last_used_idx vq); [done|].
  rewrite Hs. cbn [mbind result_bind]. destruct s; [done|]. unfold raise_line. simpl.
  destruct (interrupt_line_asserted d); [done|].
  destruct (wait_res_slot_total _ _ Hfree) as (w1 & -> & Ha & Hr & Hl). cbn [mbind result_bind].
  unfold push_res. rewrite Hl, Hr.
  destruct (lookup_lt_is_Some_2 (res_list (w_bridge w)) (Z.to_nat (res_rear (w_bridge w)))) as [x Hx].
  { rewrite Hlen. unfold ring_index in Hrear. lia. }
  rewrite Hx. cbn [of_index mbind result_bind]. unfold ioctl_retry. simpl. rewrite Ha.
  match goal with |- context [ioctl_loop ?an ?ev ?w] => pose proof (ioctl_loop_total ev an w Hans) as Hok;
    destruct (ioctl_loop an ev w) as [[r w3]|]; [done|discriminate Hok] end.
Qed.

End theorems.

(** ** Example state and witnesses *)

Definition regs0 : VirtMmioRegs :=
  {| device_id := 2; dev_feature_sel := 0; drv_feature_sel := 0; queue_sel := 0; interrupt_status := 0;
     status := 0; generation := 0; dev_feature := 0; drv_feature := 0 |}.

Definition dev0 : VirtIODevice unit :=
  {| vqs_len := 1; zone_id := 1; irq_id := 75; base_addr := 0xa000000; len := 0x200; type := VirtioTBlock;
     regs := regs0; vqs := [vq4]; dev := tt; status_changed := false; activated := false;
     interrupt_line_asserted := false |}.

Definition req0 : device_req :=
  {| src_cpu := 0; address := 0; size := 4; value := 0; src_zone := 0; is_write := 0; need_interrupt := 0 |}.

Definition bridge0 : virtio_bridge :=
  {| req_front := 0; req_rear := 0; res_front := 3; res_rear := 2; req_list := replicate 32 req0;
     res_list := replicate 32 {| target_zone := 0; res_irq_id := 0 |}; cfg_flags := replicate 32 0;
     cfg_values := replicate 32 0; mmio_addrs := replicate 8 0; mmio_avail := 0; need_wakeup := 0 |}.

(** One completion published, the result ring full at the first look, and the
    first ioctl attempt interrupted. *)
Definition world0 : world :=
  {| w_mem := mem_with [(0x7000, 0x1000)] [(0x7202, 2%nat, 1); (0x7100 + 4 + 2 * 4, 2%nat, 0)];
     w_zones := table_ab; w_bridge := bridge0; w_ioctl := [(-1, EINTR); (0, 0); (0, 0)];
     w_front := [3; 4]; w_log := []; w_trace_seq := 0 |}.

#[local] Instance vring_event_std : VringEvent :=
  fun event_idx new old => u16 (new - event_idx - 1) <? u16 (new - old).

Lemma vring_event_std_law : VringEventLaw.
Proof. intros e n o. apply Z.ltb_lt. Qed.



Lemma event_idx_no_lost_interrupt_witness :
  exists d' w', virtio_inject_irq (set_vqs [set_event_idx_enabled true vq4] dev0) 0 world0 = Ok (d', w') /\
    has_flag (interrupt_status (regs d')) VIRTIO_MMIO_INT_VRING = true.
Proof.
  assert (exists d' w', virtio_inject_irq (set_vqs [set_event_idx_enabled true vq4] dev0) 0 world0 = Ok (d', w'))
    as (d' & w' & H) by (eexists _, _; vm_compute; reflexivity).
  exists d', w'. split; [exact H|].
  apply (event_idx_no_lost_interrupt (law := vring_event_std_law) (set_vqs [set_event_idx_enabled true vq4] dev0) 0 world0 d' w'
    (set_event_idx_enabled true vq4) 1 0 0); try reflexivity; [vm_compute; split; [discriminate|reflexivity]|exact H].
Defined.

Lemma virtio_inject_irq_returns_witness : is_ok (virtio_inject_irq dev0 0 world0) = true.
Proof.
  apply (virtio_inject_irq_returns dev0 0 world0 vq4 1 false); try reflexivity.
  vm_compute. split; [discriminate|reflexivity].
Defined.
