(* ===== verification/Mmio.v ===== *)
(** * The virtio-mmio register file

    [init_mmio_regs], [init_virtio_queue], [virtio_dev_reset],
    [virtio_mmio_read] and [virtio_mmio_write] of [tools/virtio/virtio.c], over the
    backend interface [VirtioBackends].  The handlers are called with the device of
    a matched request, so the device is not NULL here.  An access [vqs[i]] outside
    the array of the device's queues is the fault [OutOfBounds]. *)

From S2P Require Import Prelude Memory ZoneMem Virtqueue Device Ring Interrupt.

(** ** Register map ([tools/include/linux/virtio_mmio.h]) *)

Definition VIRTIO_MMIO_MAGIC_VALUE : Z := 0x000.
Definition VIRTIO_MMIO_VERSION : Z := 0x004.
Definition VIRTIO_MMIO_DEVICE_ID : Z := 0x008.
Definition VIRTIO_MMIO_VENDOR_ID : Z := 0x00c.
Definition VIRTIO_MMIO_DEVICE_FEATURES : Z := 0x010.
Definition VIRTIO_MMIO_DEVICE_FEATURES_SEL : Z := 0x014.
Definition VIRTIO_MMIO_DRIVER_FEATURES : Z := 0x020.
Definition VIRTIO_MMIO_DRIVER_FEATURES_SEL : Z := 0x024.
Definition VIRTIO_MMIO_QUEUE_SEL : Z := 0x030.
Definition VIRTIO_MMIO_QUEUE_NUM_MAX : Z := 0x034.
Definition VIRTIO_MMIO_QUEUE_NUM : Z := 0x038.
Definition VIRTIO_MMIO_QUEUE_READY : Z := 0x044.
Definition VIRTIO_MMIO_QUEUE_NOTIFY : Z := 0x050.
Definition VIRTIO_MMIO_INTERRUPT_STATUS : Z := 0x060.
Definition VIRTIO_MMIO_INTERRUPT_ACK : Z := 0x064.
Definition VIRTIO_MMIO_STATUS : Z := 0x070.
Definition VIRTIO_MMIO_QUEUE_DESC_LOW : Z := 0x080.
Definition VIRTIO_MMIO_QUEUE_DESC_HIGH : Z := 0x084.
Definition VIRTIO_MMIO_QUEUE_AVAIL_LOW : Z := 0x090.
Definition VIRTIO_MMIO_QUEUE_AVAIL_HIGH : Z := 0x094.
Definition VIRTIO_MMIO_QUEUE_USED_LOW : Z := 0x0a0.
Definition VIRTIO_MMIO_QUEUE_USED_HIGH : Z := 0x0a4.
Definition VIRTIO_MMIO_CONFIG_GENERATION : Z := 0x0fc.
Definition VIRTIO_MMIO_CONFIG : Z := 0x100.

Definition VIRT_MAGIC : Z := 0x74726976.
Definition VIRT_VERSION : Z := 2.
Definition VIRT_VENDOR : Z := 0x48564953.
Definition VIRTIO_RING_F_EVENT_IDX : Z := 29.

(** The cases of the two [switch] statements. *)
Inductive mmio_reg :=
  | RMagic | RVersion | RDeviceId | RVendorId
  | RDeviceFeatures | RDeviceFeaturesSel | RDriverFeatures | RDriverFeaturesSel
  | RQueueSel | RQueueNumMax | RQueueNum | RQueueReady | RQueueNotify
  | RInterruptStatus | RInterruptAck | RStatus
  | RDescLow | RDescHigh | RAvailLow | RAvailHigh | RUsedLow | RUsedHigh
  | RConfigGeneration.

Definition reg_offset (r : mmio_reg) : Z :=
  match r with
  | RMagic => VIRTIO_MMIO_MAGIC_VALUE
  | RVersion => VIRTIO_MMIO_VERSION
  | RDeviceId => VIRTIO_MMIO_DEVICE_ID
  | RVendorId => VIRTIO_MMIO_VENDOR_ID
  | RDeviceFeatures => VIRTIO_MMIO_DEVICE_FEATURES
  | RDeviceFeaturesSel => VIRTIO_MMIO_DEVICE_FEATURES_SEL
  | RDriverFeatures => VIRTIO_MMIO_DRIVER_FEATURES
  | RDriverFeaturesSel => VIRTIO_MMIO_DRIVER_FEATURES_SEL
  | RQueueSel => VIRTIO_MMIO_QUEUE_SEL
  | RQueueNumMax => VIRTIO_MMIO_QUEUE_NUM_MAX
  | RQueueNum => VIRTIO_MMIO_QUEUE_NUM
  | RQueueReady => VIRTIO_MMIO_QUEUE_READY
  | RQueueNotify => VIRTIO_MMIO_QUEUE_NOTIFY
  | RInterruptStatus => VIRTIO_MMIO_INTERRUPT_STATUS
  | RInterruptAck => VIRTIO_MMIO_INTERRUPT_ACK
  | RStatus => VIRTIO_MMIO_STATUS
  | RDescLow => VIRTIO_MMIO_QUEUE_DESC_LOW
  | RDescHigh => VIRTIO_MMIO_QUEUE_DESC_HIGH
  | RAvailLow => VIRTIO_MMIO_QUEUE_AVAIL_LOW
  | RAvailHigh => VIRTIO_MMIO_QUEUE_AVAIL_HIGH
  | RUsedLow => VIRTIO_MMIO_QUEUE_USED_LOW
  | RUsedHigh => VIRTIO_MMIO_QUEUE_USED_HIGH
  | RConfigGeneration => VIRTIO_MMIO_CONFIG_GENERATION
  end.

Definition all_regs : list mmio_reg :=
  [RMagic; RVersion; RDeviceId; RVendorId; RDeviceFeatures; RDeviceFeaturesSel; RDriverFeatures;
   RDriverFeaturesSel; RQueueSel; RQueueNumMax; RQueueNum; RQueueReady; RQueueNotify; RInterruptStatus;
   RInterruptAck; RStatus; RDescLow; RDescHigh; RAvailLow; RAvailHigh; RUsedLow; RUsedHigh; RConfigGeneration].

(** The case an offset selects; [None] is [default]. *)
Definition decode_reg (offset : Z) : option mmio_reg :=
  List.find (fun r => reg_offset r =? offset) all_regs.

(** ** Initialisation and reset *)

Definition init_mmio_regs (t : VirtioDeviceType) (r : VirtMmioRegs) : VirtMmioRegs :=
  {| device_id := device_type_code t; dev_feature_sel := dev_feature_sel r;
     drv_feature_sel := drv_feature_sel r; queue_sel := 0; interrupt_status := interrupt_status r;
     status := status r; generation := generation r; dev_feature := dev_feature r;
     drv_feature := drv_feature r |}.

(** A zeroed queue, as [calloc] returns it. *)
Definition vq_zero : VirtQueue :=
  {| vq_idx := 0; num := 0; queue_num_max := 0; desc_table_addr := 0; avail_addr := 0; used_addr := 0;
     desc_table := 0; avail_ring := 0; used_ring := 0; notify_handler := None; last_avail_idx := 0;
     last_used_idx := 0; ready := 0; event_idx_enabled := false |}.

Definition init_one_queue (max : Z) (h : option notify_fn) (i : nat) : VirtQueue :=
  let q := virtqueue_reset vq_zero (Z.of_nat i) in
  {| vq_idx := vq_idx q; num := num q; queue_num_max := max; desc_table_addr := desc_table_addr q;
     avail_addr := avail_addr q; used_addr := used_addr q; desc_table := desc_table q;
     avail_ring := avail_ring q; used_ring := used_ring q; notify_handler := h;
     last_avail_idx := last_avail_idx q; last_used_idx := last_used_idx q; ready := ready q;
     event_idx_enabled := event_idx_enabled q |}.

Section mmio.
Context {D : Type} {vring : VringEvent} {backends : VirtioBackends D} (a : arch).

Definition set_queues (n : Z) (qs : list VirtQueue) (d : VirtIODevice D) : VirtIODevice D :=
  {| vqs_len := n; zone_id := zone_id d; irq_id := irq_id d; base_addr := base_addr d; len := len d;
     type := type d; regs := regs d; vqs := qs; dev := dev d; status_changed := status_changed d;
     activated := activated d; interrupt_line_asserted := interrupt_line_asserted d |}.

(** The return value and the device; [alloc]: whether [calloc] gives the array.  The
    count is set before the array is asked for. *)
Definition init_virtio_queue (alloc : bool) (d : VirtIODevice D) (ops : virtio_device_ops D) : Z * VirtIODevice D :=
  if (num_queues ops =? 0) || (VIRTIO_MAX_VQUEUES <? num_queues ops) then (- EINVAL, d)
  else if negb alloc then (- ENOMEM, set_queues (num_queues ops) [] d)
  else
    let n := Z.to_nat (num_queues ops) in
    (0, set_queues (num_queues ops)
      ((fun i => init_one_queue (queue_max_size ops) (default None (notify_handlers ops !! i)) i) <$> seq 0 n) d).

Definition lookup_ops (t : VirtioDeviceType) : option (virtio_device_ops D) :=
  if device_type_code t <=? device_type_code VirtioTNone then None else device_ops_table t.

Definition run_reset (d : VirtIODevice D) (w : world) : result (VirtIODevice D * world) :=
  match lookup_ops (type d) with
  | Some ops => match ops_reset ops with Some f => f d w | None => Ok (d, w) end
  | None => Ok (d, w)
  end.

Definition virtio_dev_reset (d : VirtIODevice D) (w : world) : result (VirtIODevice D * world) :=
  '(d1, w1) ← reset_interrupt a d w;
  let d2 := upd_regs (set_status 0) d1 in
  let idx := Z.to_nat (queue_sel (regs d2)) in
  vq ← of_index (vqs d2 !! idx);
  let d3 := put_vq idx (set_ready 0 vq) d2 in
  '(d4, w4) ← run_reset d3 w1;
  let d5 := set_vqs (imap (fun i q => virtqueue_reset q (Z.of_nat i)) (vqs d4)) d4 in
  Ok (set_activated false d5, w4).

(** ** Register reads *)

(** Eight bytes at [offset] of the object behind [vdev->dev], as a [uint64_t]. *)
Definition read_config (d : VirtIODevice D) (offset : Z) : result Z :=
  let bytes := take 8 (drop (Z.to_nat offset) (dev_bytes (dev d))) in
  if (length bytes =? 8)%nat then Ok (foldr (fun b acc => u8 b + 2 ^ 8 * acc) 0 bytes)
  else Err OutOfBounds.

Definition selected_vq (d : VirtIODevice D) : result VirtQueue :=
  of_index (vqs d !! Z.to_nat (queue_sel (regs d))).

Definition virtio_mmio_read (d : VirtIODevice D) (offset size : Z) (w : world) : result (Z * world) :=
  if VIRTIO_MMIO_CONFIG <=? offset then v ← read_config d (offset - VIRTIO_MMIO_CONFIG); Ok (v, w)
  else if negb (size =? 4) then Ok (0, w)
  else
    match decode_reg offset with
    | Some RMagic => Ok (VIRT_MAGIC, w)
    | Some RVersion => Ok (VIRT_VERSION, w)
    | Some RDeviceId => Ok (device_id (regs d), w)
    | Some RVendorId => Ok (VIRT_VENDOR, w)
    | Some RDeviceFeatures =>
        Ok (if negb (dev_feature_sel (regs d) =? 0) then Z.shiftr (dev_feature (regs d)) 32
            else dev_feature (regs d), w)
    | Some RQueueNumMax =>
        if vqs_len d <=? queue_sel (regs d) then Ok (0, w)
        else vq ← selected_vq d; Ok (queue_num_max vq, w)
    | Some RQueueReady => vq ← selected_vq d; Ok (ready vq, w)
    | Some RInterruptStatus => Ok (interrupt_status (regs d), trace w)
    | Some RStatus => Ok (status (regs d), w)
    | Some RConfigGeneration => Ok (generation (regs d), w)
    | Some _ | None => Ok (0, w)
    end.

(** ** Register writes *)

(** A write to the selected queue. *)
Definition upd_selected (f : VirtQueue -> VirtQueue) (d : VirtIODevice D) : result (VirtIODevice D) :=
  vq ← selected_vq d;
  Ok (put_vq (Z.to_nat (queue_sel (regs d))) (f vq) d).

Definition write_driver_features (d : VirtIODevice D) (v : Z) : VirtIODevice D :=
  let r := regs d in
  let f := Z.lor (drv_feature r) (if negb (drv_feature_sel r =? 0) then u64 (Z.shiftl v 32) else v) in
  let d1 := upd_regs (set_drv_feature f) d in
  if has_flag f (Z.shiftl 1 VIRTIO_RING_F_EVENT_IDX)
  then set_vqs (set_event_idx_enabled true <$> vqs d1) d1 else d1.

Definition queue_notify (d : VirtIODevice D) (v : Z) (w : world) : result (VirtIODevice D * world) :=
  if v <? vqs_len d then
    vq ← of_index (vqs d !! Z.to_nat v);
    match notify_handler vq with
    | Some f => call_notify f d (Z.to_nat v) w
    | None => Ok (d, w)
    end
  else Ok (d, w).

Definition run_status_changed (d : VirtIODevice D) (v : Z) (w : world) : result (VirtIODevice D * world) :=
  if status_changed d then
    match lookup_ops (type d) with
    | Some ops => match ops_status_changed ops with Some f => f d v w | None => Ok (d, w) end
    | None => Ok (d, w)
    end
  else Ok (d, w).

Definition write_status (d : VirtIODevice D) (v : Z) (w : world) : result (VirtIODevice D * world) :=
  let d1 := upd_regs (set_status (u32 v)) d in
  '(d2, w2) ← (if status (regs d1) =? 0 then virtio_dev_reset d1 w else Ok (d1, w));
  run_status_changed d2 (u32 v) w2.

Definition flag_of (v : Z) : Z := if v =? 0 then 0 else 1.

Definition virtio_mmio_write (d : VirtIODevice D) (offset value size : Z) (w : world) :
    result (VirtIODevice D * world) :=
  let zt := w_zones w in
  let low v := Z.land v UINT32_MAX in
  let high v := u64 (Z.shiftl v 32) in
  let pure r := d' ← r; Ok (d', w) in
  if VIRTIO_MMIO_CONFIG <=? offset then Ok (d, w)
  else if negb (size =? 4) then Ok (d, w)
  else
    match decode_reg offset with
    | Some RDeviceFeaturesSel => Ok (upd_regs (set_dev_feature_sel (flag_of value)) d, w)
    | Some RDriverFeatures => Ok (write_driver_features d value, w)
    | Some RDriverFeaturesSel => Ok (upd_regs (set_drv_feature_sel (flag_of value)) d, w)
    | Some RQueueSel => Ok (upd_regs (set_queue_sel (u32 value)) d, w)
    | Some RQueueNum => pure (upd_selected (set_num value) d)
    | Some RQueueReady => pure (upd_selected (set_ready (u8 value)) d)
    | Some RQueueNotify => queue_notify d value w
    | Some RInterruptAck => interrupt_ack a d value w
    | Some RStatus => write_status d value w
    | Some RDescLow => pure (upd_selected (fun q => set_desc_table_addr (Z.lor (desc_table_addr q) (low value)) q) d)
    | Some RDescHigh =>
        pure (upd_selected (fun q => virtqueue_set_desc_table zt (zone_id d)
                (set_desc_table_addr (Z.lor (desc_table_addr q) (high value)) q)) d)
    | Some RAvailLow => pure (upd_selected (fun q => set_avail_addr (Z.lor (avail_addr q) (low value)) q) d)
    | Some RAvailHigh =>
        pure (upd_selected (fun q => virtqueue_set_avail zt (zone_id d)
                (set_avail_addr (Z.lor (avail_addr q) (high value)) q)) d)
    | Some RUsedLow => pure (upd_selected (fun q => set_used_addr (Z.lor (used_addr q) (low value)) q) d)
    | Some RUsedHigh =>
        pure (upd_selected (fun q => virtqueue_set_used zt (zone_id d)
                (set_used_addr (Z.lor (used_addr q) (high value)) q)) d)
    | Some _ | None => Ok (d, w)
    end.

(** A sequence of 4-byte register writes. *)
Fixpoint write_regs (d : VirtIODevice D) (ws : list (mmio_reg * Z)) (w : world) : result (VirtIODevice D * world) :=
  match ws with
  | [] => Ok (d, w)
  | (r, v) :: ws' => '(d1, w1) ← virtio_mmio_write d (reg_offset r) v 4 w; write_regs d1 ws' w1
  end.

End mmio.

(** ** Well-formed devices and the backend contract *)

Definition vq_wf (q : VirtQueue) : Prop :=
  0 <= num q < 2 ^ 64 /\ 0 <= queue_num_max q < 2 ^ 32 /\ 0 <= desc_table_addr q < 2 ^ 64 /\
  0 <= avail_addr q < 2 ^ 64 /\ 0 <= used_addr q < 2 ^ 64 /\ 0 <= last_avail_idx q < 2 ^ 16 /\
  0 <= last_used_idx q < 2 ^ 16 /\ 0 <= ready q < 2 ^ 8.

Definition regs_wf (r : VirtMmioRegs) : Prop :=
  0 <= queue_sel r < 2 ^ 32 /\ 0 <= interrupt_status r < 2 ^ 32 /\ 0 <= status r < 2 ^ 32 /\
  0 <= dev_feature_sel r < 2 /\ 0 <= drv_feature_sel r < 2 /\
  0 <= dev_feature r < 2 ^ 64 /\ 0 <= drv_feature r < 2 ^ 64.

(** The queue array has the length the registers announce, and every field is
    in the range of its C type. *)
Definition device_wf {D} (d : VirtIODevice D) : Prop :=
  Z.of_nat (length (vqs d)) = vqs_len d /\ regs_wf (regs d) /\ Forall vq_wf (vqs d).

(** What a backend operation may do to the common part of a device: nothing to
    its identity, and of the registers only the interrupt status. *)
Definition backend_frame {D} (d d' : VirtIODevice D) : Prop :=
  same_identity d d' /\ regs d' = set_interrupt_status (interrupt_status (regs d')) (regs d) /\
  (device_wf d -> device_wf d').

(** What an operation on a device may do to the world: nothing to the zones'
    mappings, to the request ring or to the answers of other requests. *)
Definition world_frame (w w' : world) : Prop :=
  w_zones w' = w_zones w /\ req_front (w_bridge w') = req_front (w_bridge w) /\
  req_rear (w_bridge w') = req_rear (w_bridge w) /\ req_list (w_bridge w') = req_list (w_bridge w) /\
  cfg_flags (w_bridge w') = cfg_flags (w_bridge w) /\ cfg_values (w_bridge w') = cfg_values (w_bridge w) /\
  need_wakeup (w_bridge w') = need_wakeup (w_bridge w).

Class BackendLaws (D : Type) {backends : VirtioBackends D} : Prop := {
  notify_frame f d q w d' w' : call_notify f d q w = Ok (d', w') -> backend_frame d d' /\ world_frame w w';
  reset_frame t ops f d w d' w' :
    device_ops_table t = Some ops -> ops_reset ops = Some f -> f d w = Ok (d', w') ->
    backend_frame d d' /\ world_frame w w';
  status_frame t ops f d v w d' w' :
    device_ops_table t = Some ops -> ops_status_changed ops = Some f -> f d v w = Ok (d', w') ->
    backend_frame d d' /\ world_frame w w';
}.

#[global] Instance world_frame_refl : Reflexive world_frame.
Proof. intros w. by repeat split. Qed.

#[global] Instance world_frame_trans : Transitive world_frame.
Proof. intros w1 w2 w3 (A1 & A2 & A3 & A4 & A5 & A6 & A7) (B1 & B2 & B3 & B4 & B5 & B6 & B7). repeat split; congruence. Qed.

(** ** Lemmas *)

(** The writes to a queue that the register file can make. *)
Definition queue_write {D} (d d' : VirtIODevice D) : Prop :=
  same_identity d d' /\ (device_wf d -> device_wf d').

Lemma vq_wf_zero_reset q i : vq_wf q -> vq_wf (virtqueue_reset q i).
Proof. unfold vq_wf, virtqueue_reset. simpl. lia. Qed.

Lemma high_range v : 0 <= u64 (Z.shiftl v 32) < 2 ^ 64.
Proof. apply u64_range. Qed.

Lemma low_range v : 0 <= Z.land v UINT32_MAX < 2 ^ 64.
Proof. pose proof (land_upper v UINT32_MAX). unfold UINT32_MAX in *. lia. Qed.

#[export] Hint Resolve lor_range high_range low_range : hvisor.

Section lemmas.
Context {D : Type} {vring : VringEvent} {backends : VirtioBackends D} (a : arch).
Implicit Types (d : VirtIODevice D) (w : world).

Lemma backend_frame_refl d : backend_frame d d.
Proof. split; [reflexivity|]. split; [by destruct d as [? ? ? ? ? ? []]|done]. Qed.

Lemma upd_regs_frame f d :
  (regs_wf (regs d) -> regs_wf (f (regs d))) -> queue_write d (upd_regs f d).
Proof.
  intros H. split; [repeat split; by apply Forall_Forall2_diag, Forall_true|].
  intros (H1 & H2 & H3). split; [done|]. split; [by apply H|done].
Qed.

Lemma queue_write_trans d1 d2 d3 : queue_write d1 d2 -> queue_write d2 d3 -> queue_write d1 d3.
Proof. intros [A1 A2] [B1 B2]. split; [by etrans|auto]. Qed.

Lemma backend_frame_write d d' : backend_frame d d' -> queue_write d d'.
Proof. intros (H1 & _ & H2). by split. Qed.

Lemma put_vq_frame d q vq vq' :
  vqs d !! q = Some vq -> queue_num_max vq' = queue_num_max vq -> notify_handler vq' = notify_handler vq ->
  (vq_wf vq -> vq_wf vq') -> queue_write d (put_vq q vq' d).
Proof.
  intros Hq Hn Hh Hw. split; [by eapply same_identity_put|].
  intros (H1 & H2 & H3). split; [simpl; by rewrite length_insert|]. split; [done|].
  simpl. apply Forall_insert; [done|]. apply Hw. by eapply Forall_lookup_1.
Qed.

Lemma upd_selected_frame f d d' :
  (forall q, queue_num_max (f q) = queue_num_max q /\ notify_handler (f q) = notify_handler q) ->
  (forall q, vq_wf q -> vq_wf (f q)) ->
  upd_selected f d = Ok d' -> queue_write d d'.
Proof.
  intros Hf Hw H. unfold upd_selected, selected_vq in H. apply bind_Ok_inv in H as (vq & Hq & H). injection H as <-.
  apply of_index_Ok_inv in Hq. eapply put_vq_frame; [exact Hq|apply Hf|apply Hf|apply Hw].
Qed.

Lemma map_vqs_frame g d :
  (forall i q, queue_num_max (g i q) = queue_num_max q /\ notify_handler (g i q) = notify_handler q) ->
  (forall i q, vq_wf q -> vq_wf (g i q)) ->
  queue_write d (set_vqs (imap g (vqs d)) d).
Proof.
  intros Hg Hw. split.
  - repeat split. simpl. apply Forall2_same_length_lookup. split; [by rewrite length_imap|].
    intros i x y Hx Hy. rewrite list_lookup_imap, Hx in Hy. simpl in Hy. injection Hy as <-. apply Hg.
  - intros (H1 & H2 & H3). split; [simpl; by rewrite length_imap|]. split; [done|].
    simpl. apply Forall_lookup_2. intros i y Hy. rewrite list_lookup_imap in Hy.
    destruct (vqs d !! i) as [x|] eqn:Hx; [|done]. injection Hy as <-. apply Hw. by eapply Forall_lookup_1.
Qed.

Lemma deassert_frame d w ret w' : virtio_deassert_line_locked a d w = Ok (ret, w') -> world_frame w w'.
Proof.
  intros H. apply virtio_deassert_line_locked_spec in H as (_ & _ & _ & _ & Hz & Hb). unfold world_frame. by rewrite Hb.
Qed.

Lemma reset_interrupt_frame d w d' w' :
  reset_interrupt a d w = Ok (d', w') -> backend_frame d d' /\ world_frame w w'.
Proof.
  unfold reset_interrupt. intros H. apply bind_Ok_inv in H as ([d1 w1] & H1 & H). injection H as <- <-.
  assert (exists b, d1 = set_interrupt_line_asserted b d /\ world_frame w w1) as (b & -> & Hz).
  { destruct (interrupt_line_asserted d) eqn:Has.
    - apply bind_Ok_inv in H1 as ([ret w2] & Hd & H1). injection H1 as <- <-.
      apply deassert_frame in Hd.
      destruct (ret =? 0); [by exists false|]. exists true. split; [|done]. rewrite <- Has. by destruct d.
    - injection H1 as <- <-. exists false. split; [|done]. rewrite <- Has. by destruct d. }
  split; [|done]. destruct d as [vl z i ba l t [di ds rs qs si st g df rf] vs dv sc ac la]. simpl.
  destruct b; (split; [repeat split; by apply Forall_Forall2_diag, Forall_true|]; split; [done|]).
  - intros (H2 & H3 & H4). by split.
  - intros (H2 & H3 & H4). split; [done|]. split; [|done]. unfold regs_wf in *. simpl in *. lia.
Qed.

Lemma interrupt_ack_frame d v w d' w' :
  interrupt_ack a d v w = Ok (d', w') -> backend_frame d d' /\ world_frame w w'.
Proof.
  unfold interrupt_ack. intros H. apply bind_Ok_inv in H as ([ret w1] & Hd & H). injection H as <- <-.
  split; [clear Hd|destruct (negb _ && _ && _) in Hd; [apply (deassert_frame _ _ _ _ Hd)|by injection Hd as <- <-]].
  set (after := Z.land _ (u32 (Z.lnot _))).
  assert (0 <= interrupt_status (regs d) < 2 ^ 32 -> 0 <= after < 2 ^ 32) as Hr.
  { intros Hs. unfold after. pose proof (u32_range (Z.lnot (Z.land (u32 v)
      (Z.lor VIRTIO_MMIO_INT_VRING VIRTIO_MMIO_INT_CONFIG)))) as Hu.
    pose proof (land_upper (interrupt_status (regs d)) _ (proj1 Hu)). lia. }
  destruct (ret =? 0); [|apply backend_frame_refl].
  destruct d as [vl z i ba l t [di ds rs qs si st g df rf] vs dv sc ac la].
  destruct (after =? 0); (split; [repeat split; by apply Forall_Forall2_diag, Forall_true|]; split; [done|]);
    intros (H2 & H3 & H4); (split; [done|]; split; [|done]); unfold regs_wf in *; simpl in *; lia.
Qed.

Lemma write_driver_features_frame d v :
  0 <= v < 2 ^ 64 -> queue_write d (write_driver_features d v).
Proof.
  intros Hv. unfold write_driver_features.
  set (f := Z.lor _ _). assert (0 <= drv_feature (regs d) < 2 ^ 64 -> 0 <= f < 2 ^ 64) as Hf.
  { intros Hd. unfold f. destruct (negb _); auto with hvisor. apply lor_range; [lia|done|apply high_range].
    apply lor_range; [lia|done|done]. }
  assert (queue_write d (upd_regs (set_drv_feature f) d)) as H1.
  { apply upd_regs_frame. unfold regs_wf. simpl. intros (? & ? & ? & ? & ? & ? & H). specialize (Hf H). lia. }
  destruct (has_flag _ _); [|done]. eapply queue_write_trans; [exact H1|].
  replace (set_event_idx_enabled true <$> vqs (upd_regs (set_drv_feature f) d))
    with (imap (fun _ => set_event_idx_enabled true) (vqs (upd_regs (set_drv_feature f) d))).
  2: { apply list_eq. intros i. rewrite list_lookup_imap, list_lookup_fmap. done. }
  apply map_vqs_frame; [done|]. intros _ q H. exact H.
Qed.

Section laws.
Context {laws : BackendLaws D}.

Lemma skip_frame d w d' w' : Ok (d, w) = Ok (d', w') -> backend_frame d d' /\ world_frame w w'.
Proof. intros H. injection H as <- <-. split; [apply backend_frame_refl|reflexivity]. Qed.

Lemma run_reset_frame d w d' w' : run_reset d w = Ok (d', w') -> backend_frame d d' /\ world_frame w w'.
Proof.
  unfold run_reset, lookup_ops. intros H. destruct (_ <=? _); [by apply skip_frame|].
  destruct (device_ops_table (type d)) as [ops|] eqn:Eo; [|by apply skip_frame].
  destruct (ops_reset ops) as [f|] eqn:Ef; [|by apply skip_frame].
  by eapply reset_frame.
Qed.

Lemma run_status_changed_frame d v w d' w' : run_status_changed d v w = Ok (d', w') -> backend_frame d d' /\ world_frame w w'.
Proof.
  unfold run_status_changed, lookup_ops. intros H.
  destruct (status_changed d); [|by apply skip_frame].
  destruct (_ <=? _); [by apply skip_frame|].
  destruct (device_ops_table (type d)) as [ops|] eqn:Eo; [|by apply skip_frame].
  destruct (ops_status_changed ops) as [f|] eqn:Ef; [|by apply skip_frame].
  by eapply status_frame.
Qed.

Lemma virtio_dev_reset_frame d w d' w' : virtio_dev_reset a d w = Ok (d', w') -> queue_write d d' /\ world_frame w w'.
Proof.
  unfold virtio_dev_reset. intros H. apply bind_Ok_inv in H as ([d1 w1] & H1 & H).
  apply bind_Ok_inv in H as (vq & Hq & H). apply of_index_Ok_inv in Hq.
  apply bind_Ok_inv in H as ([d4 w4] & H4 & H). injection H as <- <-.
  apply reset_interrupt_frame in H1 as [H1 W1]. apply run_reset_frame in H4 as [H4 W4].
  split; [|by etrans].
  eapply queue_write_trans; [apply backend_frame_write, H1|].
  eapply queue_write_trans; [apply (upd_regs_frame (set_status 0))|].
  { unfold regs_wf. simpl. lia. }
  eapply queue_write_trans; [eapply (put_vq_frame _ _ vq (set_ready 0 vq)); [exact Hq|done|done|]|].
  { unfold vq_wf. simpl. lia. }
  eapply queue_write_trans; [apply backend_frame_write, H4|].
  eapply queue_write_trans; [apply (map_vqs_frame (fun i q => virtqueue_reset q (Z.of_nat i))); [done|]|].
  { intros i q. apply vq_wf_zero_reset. }
  split; [repeat split; by apply Forall_Forall2_diag, Forall_true|done].
Qed.

End laws.
End lemmas.

(** ** Theorems *)

Section theorems.
Context {D : Type} {vring : VringEvent} {backends : VirtioBackends D} (a : arch).
Implicit Types (d : VirtIODevice D) (w : world).

Ltac queue_field :=
  match goal with
  | H : mbind _ _ = Ok _ |- _ =>
      let H1 := fresh "H" in apply bind_Ok_inv in H as (? & H1 & H); injection H as <- <-;
      split; [|reflexivity]; eapply upd_selected_frame; [| |exact H1]; [done|]; unfold vq_wf; simpl; intros q Hq
  end.

Lemma virtio_mmio_write_frame {laws : BackendLaws D} d offset v size w d' w' :
  0 <= v < 2 ^ 64 -> virtio_mmio_write a d offset v size w = Ok (d', w') -> queue_write d d' /\ world_frame w w'.
Proof.
  intros Hv H. unfold virtio_mmio_write in H.
  assert (queue_write d d) as Hid by by split.
  assert (forall v, 0 <= flag_of v < 2) as Hfl by (intros v'; unfold flag_of; destruct (v' =? 0); lia).
  destruct (VIRTIO_MMIO_CONFIG <=? offset); [by injection H as <- <-|].
  destruct (negb (size =? 4)); [by injection H as <- <-|].
  destruct (decode_reg offset) as [[]|]; try (by injection H as <- <-);
    try (queue_field; pose proof (high_range v); pose proof (low_range v); pose proof (u8_range v);
         try match goal with |- context [Z.lor ?x ?y] =>
               pose proof (lor_range x y 64 ltac:(lia) ltac:(lia) ltac:(lia)) end; lia).
  - injection H as <- <-. split; [|done]. apply upd_regs_frame. unfold regs_wf. simpl. specialize (Hfl v). lia.
  - injection H as <- <-. split; [|done]. by apply write_driver_features_frame.
  - injection H as <- <-. split; [|done]. apply upd_regs_frame. unfold regs_wf. simpl. specialize (Hfl v). lia.
  - injection H as <- <-. split; [|done]. apply upd_regs_frame. unfold regs_wf. simpl. pose proof (u32_range v). lia.
  - unfold queue_notify in H. destruct (v <? vqs_len d); [|by injection H as <- <-].
    apply bind_Ok_inv in H as (vq & _ & H). destruct (notify_handler vq); [|by injection H as <- <-].
    apply notify_frame in H as [H W]. split; [by apply backend_frame_write|done].
  - apply interrupt_ack_frame in H as [H W]. split; [by apply backend_frame_write|done].
  - unfold write_status in H. apply bind_Ok_inv in H as ([d2 w2] & H2 & H).
    apply run_status_changed_frame in H as [H W].
    assert (queue_write d (upd_regs (set_status (u32 v)) d)) as H1.
    { apply upd_regs_frame. unfold regs_wf. simpl. pose proof (u32_range v). lia. }
    destruct (status _ =? 0).
    + apply (virtio_dev_reset_frame a) in H2 as [H2 W2]. split; [|by etrans].
      eapply queue_write_trans; [exact H1|]. eapply queue_write_trans; [exact H2|by apply backend_frame_write].
    + injection H2 as <- <-. split; [|done]. eapply queue_write_trans; [exact H1|by apply backend_frame_write].
Qed.

(** [virtqueue_reset] keeps nothing but the offered size and the handler. *)
Lemma virtqueue_reset_ext q q' i :
  queue_num_max q' = queue_num_max q -> notify_handler q' = notify_handler q ->
  virtqueue_reset q' i = virtqueue_reset q i.
Proof. intros H1 H2. unfold virtqueue_reset. by rewrite H1, H2. Qed.

Lemma same_identity_lookup d d' i q' :
  same_identity d d' -> vqs d' !! i = Some q' ->
  exists q, vqs d !! i = Some q /\ queue_num_max q' = queue_num_max q /\ notify_handler q' = notify_handler q.
Proof.
  intros (_ & _ & _ & _ & _ & _ & H) Hq. destruct (Forall2_lookup_r _ _ _ _ _ H Hq) as (q & H1 & H2). eauto.
Qed.

Lemma virtio_dev_reset_inv {laws : BackendLaws D} d w d' w' :
  virtio_dev_reset a d w = Ok (d', w') ->
  (exists s, regs d' = set_interrupt_status s (set_status 0 (regs d))) /\ activated d' = false /\
  same_identity d d' /\
  forall i q', vqs d' !! i = Some q' -> exists q, vqs d !! i = Some q /\ q' = virtqueue_reset q (Z.of_nat i).
Proof.
  intros H. pose proof (proj1 (proj1 (virtio_dev_reset_frame a _ _ _ _ H))) as Hid.
  unfold virtio_dev_reset in H. apply bind_Ok_inv in H as ([d1 w1] & H1 & H).
  apply bind_Ok_inv in H as (vq & Hq & H).
  apply bind_Ok_inv in H as ([d4 w4] & H4 & H). injection H as <- <-.
  apply reset_interrupt_frame in H1 as [(I1 & R1 & _) _]. apply run_reset_frame in H4 as [(I4 & R4 & _) _].
  simpl. split; [|split; [done|split; [done|]]].
  - eexists. rewrite R4. simpl. rewrite R1. reflexivity.
  - intros i q' Hq'. simpl in Hq'. rewrite list_lookup_imap in Hq'.
    destruct (vqs d4 !! i) as [q4|] eqn:E4; [|done]. injection Hq' as <-.
    destruct (same_identity_lookup _ _ _ _ I4 E4) as (q3 & E3 & A1 & A2). simpl in E3.
    assert (exists q1, vqs d1 !! i = Some q1 /\ queue_num_max q3 = queue_num_max q1 /\
              notify_handler q3 = notify_handler q1) as (q1 & E1 & B1 & B2).
    { apply of_index_Ok_inv in Hq. eapply (same_identity_lookup d1 (put_vq (Z.to_nat (queue_sel (regs d1))) (set_ready 0 vq) d1)); [|exact E3].
      eapply same_identity_put with (vq := vq) (vq' := set_ready 0 vq); done. }
    destruct (same_identity_lookup _ _ _ _ I1 E1) as (q & E & C1 & C2).
    exists q. split; [done|]. apply virtqueue_reset_ext; congruence.
Qed.

Lemma has_flag_lor_r x y f : has_flag x f = true -> has_flag (Z.lor x y) f = true.
Proof.
  unfold has_flag. rewrite !negb_true_iff, !Z.eqb_neq. intros H E. apply H.
  rewrite Z.land_comm, Z.land_lor_distr_r in E. apply Z.lor_eq_0_iff in E as [E _]. by rewrite Z.land_comm.
Qed.

(** The registers and values with which a driver programs one queue. *)
Definition queue_setup (q n dl dh al ah ul uh : Z) : list (mmio_reg * Z) :=
  [(RQueueSel, q); (RQueueNum, n); (RDescLow, dl); (RDescHigh, dh); (RAvailLow, al); (RAvailHigh, ah);
   (RUsedLow, ul); (RUsedHigh, uh); (RQueueReady, 1)].

(** The queue a driver means by these values. *)
Definition programmed (zt : zone_table) (z : Z) (vq : VirtQueue) (n desc avail used : Z) : VirtQueue :=
  {| vq_idx := vq_idx vq; num := n; queue_num_max := queue_num_max vq;
     desc_table_addr := desc; avail_addr := avail; used_addr := used;
     desc_table := get_virt_addr zt desc (s32 z); avail_ring := get_virt_addr zt avail (s32 z);
     used_ring := get_virt_addr zt used (s32 z); notify_handler := notify_handler vq;
     last_avail_idx := last_avail_idx vq; last_used_idx := last_used_idx vq; ready := 1;
     event_idx_enabled := event_idx_enabled vq |}.

Definition u32_val (z : Z) : Prop := 0 <= z < 2 ^ 32.

Lemma two_halves lo hi : u32_val lo -> u32_val hi ->
  Z.lor (Z.lor 0 (Z.land lo UINT32_MAX)) (u64 (Z.shiftl hi 32)) = lo + 2 ^ 32 * hi.
Proof.
  unfold u32_val. intros Hlo Hhi. rewrite Z.lor_0_l. change UINT32_MAX with (2 ^ 32 - 1).
  rewrite land_mask_mod, Z.mod_small by lia. rewrite u64_small; [by apply lor_halves|].
  rewrite Z.shiftl_mul_pow2 by lia. lia.
Qed.

Lemma upd_selected_put (f : VirtQueue -> VirtQueue) d n vq :
  vqs d !! n = Some vq -> Z.to_nat (queue_sel (regs d)) = n -> upd_selected f d = Ok (put_vq n (f vq) d).
Proof. intros Hq Hs. unfold upd_selected, selected_vq. rewrite Hs, Hq. done. Qed.

Lemma put_vq_put d n x y : put_vq n x (put_vq n y d) = put_vq n x d.
Proof. unfold put_vq, set_vqs. simpl. by rewrite list_insert_insert_eq. Qed.

Lemma put_vq_lookup d n x y : vqs d !! n = Some y -> vqs (put_vq n x d) !! n = Some x.
Proof. intros H. simpl. apply list_lookup_insert_eq. by eapply lookup_lt_Some. Qed.

Lemma queue_setup_selected d q n dl dh al ah ul uh w vq :
  u32_val q -> vqs d !! Z.to_nat q = Some vq -> desc_table_addr vq = 0 -> avail_addr vq = 0 -> used_addr vq = 0 ->
  u32_val dl -> u32_val dh -> u32_val al -> u32_val ah -> u32_val ul -> u32_val uh ->
  write_regs a d (queue_setup q n dl dh al ah ul uh) w =
    Ok (put_vq (Z.to_nat q) (programmed (w_zones w) (zone_id d) vq n (dl + 2 ^ 32 * dh) (al + 2 ^ 32 * ah)
          (ul + 2 ^ 32 * uh)) (upd_regs (set_queue_sel q) d), w).
Proof.
  intros Hq Hvq Z1 Z2 Z3 Hdl Hdh Hal Hah Hul Huh. unfold queue_setup.
  cbn [write_regs virtio_mmio_write]. cbn -[upd_selected upd_regs put_vq u32 u64 u8 Z.lor Z.shiftl Z.land get_virt_addr programmed].
  rewrite (u32_small q) by exact Hq. set (d0 := upd_regs (set_queue_sel q) d).
  assert (Hsel : forall x d1, regs d1 = regs d0 -> vqs d1 !! Z.to_nat q = Some x -> forall f,
    upd_selected f d1 = Ok (put_vq (Z.to_nat q) (f x) d1)).
  { intros x d1 Hr Hx f. apply upd_selected_put; [done|]. by rewrite Hr. }
  assert (vqs d0 !! Z.to_nat q = Some vq) as H0 by done.
  rewrite (Hsel vq d0 eq_refl H0). cbn [mbind result_bind].
  do 7 (erewrite (Hsel _ (put_vq _ _ d0) eq_refl (put_vq_lookup d0 _ _ _ H0)); cbn [mbind result_bind];
        rewrite put_vq_put).
  do 3 f_equal. unfold programmed. cbn -[u32 u64 u8 Z.lor Z.shiftl Z.land get_virt_addr Z.add Z.mul Z.pow].
  unfold virtqueue_set_desc_table, virtqueue_set_avail, virtqueue_set_used.
  cbn -[u32 u64 u8 Z.lor Z.shiftl Z.land get_virt_addr Z.add Z.mul Z.pow].
  rewrite Z1, Z2, Z3, !two_halves by done. reflexivity.
Qed.

(** A register write that returns keeps the device well-formed (the queue array has
    the announced length, every field is in the range of its C type) and never
    changes which device it is: its zone, interrupt, address window, and each
    queue's size limit and handler. *)
Theorem virtio_mmio_write_preserves {laws : BackendLaws D} d offset v size w d' w' :
  device_wf d -> 0 <= v < 2 ^ 64 ->
  virtio_mmio_write a d offset v size w = Ok (d', w') -> device_wf d' /\ same_identity d d'.
Proof. intros Hd Hv H. destruct (virtio_mmio_write_frame _ _ _ _ _ _ _ Hv H) as [[H1 H2] _]. auto. Qed.

(** The registers of the selected queue, and those whose write calls a device's
    handler or the hypervisor. *)
Definition queue_reg (r : mmio_reg) : bool :=
  match r with
  | RQueueNum | RQueueReady | RDescLow | RDescHigh | RAvailLow | RAvailHigh | RUsedLow | RUsedHigh => true
  | _ => false
  end.

Definition calls_out (r : mmio_reg) : bool :=
  match r with RQueueNotify | RInterruptAck | RStatus => true | _ => false end.

(** An access of [n] bytes at [offset] reaches a register of class [c]. *)
Definition reaches (c : mmio_reg -> bool) (offset n : Z) : bool :=
  (offset <? VIRTIO_MMIO_CONFIG) && (n =? 4) && match decode_reg offset with Some r => c r | None => false end.

Lemma upd_selected_exact f d :
  device_wf d -> upd_selected f d =
    if vqs_len d <=? queue_sel (regs d) then Err OutOfBounds
    else match vqs d !! Z.to_nat (queue_sel (regs d)) with
         | Some q => Ok (put_vq (Z.to_nat (queue_sel (regs d))) (f q) d)
         | None => Err OutOfBounds
         end.
Proof.
  intros (Hl & (Hs & _) & _). unfold upd_selected, selected_vq.
  destruct (vqs_len d <=? queue_sel (regs d)) eqn:E.
  - rewrite lookup_ge_None_2 by lia. done.
  - by destruct (vqs d !! _).
Qed.

(** What a register write that does not call out leaves of a device. *)
Definition written_only (queued : bool) (d d' : VirtIODevice D) : Prop :=
  (queued = true -> regs d' = regs d /\
     forall i q, Z.of_nat i <> queue_sel (regs d) -> vqs d !! i = Some q -> vqs d' !! i = Some q) /\
  (queued = false -> vqs d' = vqs d \/ vqs d' = set_event_idx_enabled true <$> vqs d).

Lemma queue_write_effect (d : VirtIODevice D) f (w : world) :
  device_wf d -> queue_sel (regs d) < vqs_len d ->
  exists d', (d' ← upd_selected f d; Ok (d', w)) = Ok (d', w) /\ written_only true d d'.
Proof.
  intros Hd Hs. rewrite upd_selected_exact by done. destruct Hd as (Hl & (Hq & _) & _).
  replace (vqs_len d <=? queue_sel (regs d)) with false by lia.
  destruct (lookup_lt_is_Some_2 (vqs d) (Z.to_nat (queue_sel (regs d)))) as [q ->]; [lia|].
  eexists. split; [reflexivity|]. split; [|done]. intros _. split; [done|]. intros i q' Hi Hq'. unfold put_vq. simpl.
  rewrite list_lookup_insert_ne by lia. done.
Qed.

(** C20: Which register writes the device survives, and what they reach.  Take a
    well-formed device and a write of any value and size to any offset but
    QUEUE_NOTIFY, INTERRUPT_ACK and STATUS, which call handlers or the hypervisor.
    The write indexes past the queue array exactly when it is a 4-byte write to a
    queue register while queue_sel is not a queue of the device (nothing checks
    that).  Otherwise it returns, the world is unchanged and the device stays
    well-formed and the same device; a write to a queue register changes nothing
    but the selected queue, any other write nothing of a queue but its EVENT_IDX
    flag. *)
Theorem virtio_mmio_write_confined {laws : BackendLaws D} d offset v size w :
  device_wf d -> 0 <= v < 2 ^ 64 -> reaches calls_out offset size = false ->
  let queued := reaches queue_reg offset size in
  (virtio_mmio_write a d offset v size w = Err OutOfBounds <-> queued = true /\ vqs_len d <= queue_sel (regs d)) /\
  (~ (queued = true /\ vqs_len d <= queue_sel (regs d)) ->
     exists d', virtio_mmio_write a d offset v size w = Ok (d', w) /\ device_wf d' /\ same_identity d d' /\
       written_only queued d d').
Proof.
  intros Hd Hv Hc queued.
  assert (queued = true /\ vqs_len d <= queue_sel (regs d) -> virtio_mmio_write a d offset v size w = Err OutOfBounds) as Hbad.
  { intros [Hq Hs]. unfold queued, reaches in Hq. unfold virtio_mmio_write.
    apply andb_prop in Hq as [Hq Hr]. apply andb_prop in Hq as [Ho Hz]. replace (VIRTIO_MMIO_CONFIG <=? offset) with false by lia.
    rewrite Hz. cbn [negb]. destruct (decode_reg offset) as [r|]; [|done].
    destruct r; try discriminate Hr; rewrite upd_selected_exact by done; by replace (vqs_len d <=? queue_sel (regs d)) with true by lia. }
  assert (~ (queued = true /\ vqs_len d <= queue_sel (regs d)) ->
     exists d', virtio_mmio_write a d offset v size w = Ok (d', w) /\ written_only queued d d') as Hgood.
  { intros Hn. unfold virtio_mmio_write. unfold queued, reaches in *.
    assert (forall r, Ok (d, w) = r -> exists d', r = Ok (d', w) /\ written_only false d d') as Hkeep.
    { intros r <-. exists d. split; [done|]. split; [done|]. by left. }
    destruct (VIRTIO_MMIO_CONFIG <=? offset) eqn:Eo.
    { replace (offset <? VIRTIO_MMIO_CONFIG) with false by lia. by apply Hkeep. }
    replace (offset <? VIRTIO_MMIO_CONFIG) with true in * by lia. destruct (size =? 4); cbn [negb andb] in *; [|by apply Hkeep].
    destruct (decode_reg offset) as [r|]; [|by apply Hkeep].
    destruct r; cbn [queue_reg calls_out] in *; try discriminate Hc; try (by apply Hkeep);
      try (apply queue_write_effect; [done|]; destruct (decide (vqs_len d <= queue_sel (regs d))); [exfalso; by apply Hn|lia]).
    all: eexists; split; [reflexivity|]; split; [done|]; intros _.
    all: try (by left). unfold write_driver_features. destruct (has_flag _ _); [by right|by left]. }
  split.
  - split; [|exact Hbad]. intros He. destruct (decide (queued = true /\ vqs_len d <= queue_sel (regs d))) as [|Hn]; [done|].
    destruct (Hgood Hn) as (d' & H & _). congruence.
  - intros Hn. destruct (Hgood Hn) as (d' & H & Hw). exists d'. split; [done|].
    destruct (virtio_mmio_write_frame _ _ _ _ _ _ _ Hv H) as [[H1 H2] _]. auto.
Qed.

(** C21: programming a queue after a reset takes effect exactly as the driver
    means it.  Whatever state the device was in before the reset, the nine
    register writes of the driver's queue setup leave the selected queue with
    the given size, the three 64-bit addresses assembled from their halves and
    translated in the device's own zone, and marked ready; no other queue and
    nothing of the world changes. *)
Theorem queue_setup_roundtrip {laws : BackendLaws D} d w d1 w1 q n dl dh al ah ul uh :
  virtio_dev_reset a d w = Ok (d1, w1) -> 0 <= q < Z.of_nat (length (vqs d1)) -> q < 2 ^ 32 ->
  u32_val dl -> u32_val dh -> u32_val al -> u32_val ah -> u32_val ul -> u32_val uh ->
  exists vq d2, vqs d1 !! Z.to_nat q = Some vq /\
    write_regs a d1 (queue_setup q n dl dh al ah ul uh) w1 = Ok (d2, w1) /\
    vqs d2 = <[Z.to_nat q := programmed (w_zones w1) (zone_id d) vq n
                 (dl + 2 ^ 32 * dh) (al + 2 ^ 32 * ah) (ul + 2 ^ 32 * uh)]> (vqs d1).
Proof.
  intros H Hq Hq32 Hdl Hdh Hal Hah Hul Huh.
  apply virtio_dev_reset_inv in H as (_ & _ & (_ & Hz & _) & Hqs).
  destruct (lookup_lt_is_Some_2 (vqs d1) (Z.to_nat q)) as [vq Hvq]; [lia|].
  destruct (Hqs _ _ Hvq) as (q0 & _ & Hr). eexists vq, _. split; [done|].
  rewrite (queue_setup_selected d1 q n dl dh al ah ul uh w1 vq); try done; try (by subst vq); [|unfold u32_val; lia].
  split; [reflexivity|]. by rewrite Hz.
Qed.

(** A device reset clears the status register and the activation flag and
    re-initialises every queue to its pristine state, keeping only the size
    limit and the handler; of the other registers at most the interrupt
    status differs. *)
Theorem virtio_dev_reset_spec {laws : BackendLaws D} d w d' w' :
  virtio_dev_reset a d w = Ok (d', w') ->
  status (regs d') = 0 /\ activated d' = false /\
  regs d' = set_interrupt_status (interrupt_status (regs d')) (set_status 0 (regs d)) /\
  vqs d' = imap (fun i q => virtqueue_reset q (Z.of_nat i)) (vqs d).
Proof.
  intros H. apply virtio_dev_reset_inv in H as ([s Hs] & Ha & Hid & Hq). rewrite Hs. repeat split; try done.
  apply list_eq. intros i. rewrite list_lookup_imap. pose proof (same_identity_len _ _ Hid) as Hl.
  destruct (vqs d' !! i) as [q'|] eqn:E.
  - destruct (Hq _ _ E) as (q & -> & ->). done.
  - apply lookup_ge_None_1 in E. by rewrite lookup_ge_None_2 by lia.
Qed.

(** The feature words a driver reads through the selector are the two
    halves of the device's 64 feature bits (the low word in the 32 bits the
    access carries), and reading registers changes nothing. *)
Theorem device_features_readable d w :
  0 <= dev_feature (regs d) < 2 ^ 64 ->
  exists d0 d1 lo hi,
    virtio_mmio_write a d VIRTIO_MMIO_DEVICE_FEATURES_SEL 0 4 w = Ok (d0, w) /\
    virtio_mmio_read d0 VIRTIO_MMIO_DEVICE_FEATURES 4 w = Ok (lo, w) /\
    virtio_mmio_write a d0 VIRTIO_MMIO_DEVICE_FEATURES_SEL 1 4 w = Ok (d1, w) /\
    virtio_mmio_read d1 VIRTIO_MMIO_DEVICE_FEATURES 4 w = Ok (hi, w) /\
    u32_val hi /\ dev_feature (regs d) = u32 lo + 2 ^ 32 * hi.
Proof.
  intros Hf. eexists _, _, _, _. split; [reflexivity|]. split; [reflexivity|]. split; [reflexivity|].
  split; [reflexivity|]. simpl. rewrite Z.shiftr_div_pow2 by lia. unfold u32_val, u32.
  pose proof (Z.div_mod (dev_feature (regs d)) (2 ^ 32) ltac:(lia)).
  split; [|lia]. split; [apply Z.div_pos; lia|apply Z.div_lt_upper_bound; lia].
Qed.

(** The queue selector is not validated.  After a driver selects a queue
    the device does not have, writing any of the queue registers, reading
    QUEUE_READY, or resetting the device indexes past the queue array. *)
Theorem queue_sel_unchecked d w q :
  Z.of_nat (length (vqs d)) <= q < 2 ^ 32 ->
  exists d1, virtio_mmio_write a d VIRTIO_MMIO_QUEUE_SEL q 4 w = Ok (d1, w) /\
    (forall r v, r ∈ [RQueueNum; RQueueReady; RDescLow; RDescHigh; RAvailLow; RAvailHigh; RUsedLow; RUsedHigh] ->
       virtio_mmio_write a d1 (reg_offset r) v 4 w = Err OutOfBounds) /\
    virtio_mmio_read d1 VIRTIO_MMIO_QUEUE_READY 4 w = Err OutOfBounds /\
    (interrupt_line_asserted d = false -> virtio_dev_reset a d1 w = Err OutOfBounds).
Proof.
  intros Hq. exists (upd_regs (set_queue_sel q) d).
  assert (vqs d !! Z.to_nat q = None) as Hn by (apply lookup_ge_None_2; lia).
  split; [|split; [|split]].
  - unfold virtio_mmio_write. simpl. by rewrite u32_small by lia.
  - intros r v Hr. repeat (apply elem_of_cons in Hr as [->|Hr]; [cbn -[upd_selected];
      unfold upd_selected, selected_vq; simpl; by rewrite Hn|]). by apply elem_of_nil in Hr.
  - cbn -[selected_vq]. unfold selected_vq. simpl. by rewrite Hn.
  - intros Has. unfold virtio_dev_reset, reset_interrupt. simpl. rewrite Has. cbn [mbind result_bind].
    simpl. rewrite Has. simpl. by rewrite Hn.
Qed.

(** The driver's accepted features survive a device reset.  Once a driver
    has accepted VIRTIO_RING_F_EVENT_IDX, a reset followed by a negotiation that
    accepts other features still runs every queue in event-index mode. *)
Theorem driver_features_survive_reset {laws : BackendLaws D} d w d1 w1 v :
  has_flag (drv_feature (regs d)) (Z.shiftl 1 VIRTIO_RING_F_EVENT_IDX) = true ->
  virtio_dev_reset a d w = Ok (d1, w1) ->
  exists d2, virtio_mmio_write a d1 VIRTIO_MMIO_DRIVER_FEATURES v 4 w1 = Ok (d2, w1) /\
    Forall (fun q => event_idx_enabled q = true) (vqs d2).
Proof.
  intros Hf H. apply virtio_dev_reset_inv in H as ([s Hs] & _). eexists. split; [reflexivity|].
  unfold write_driver_features. rewrite Hs. cbn [drv_feature set_interrupt_status set_status].
  rewrite has_flag_lor_r by done. simpl. apply Forall_fmap, Forall_true. done.
Qed.

End theorems.

(** ** Example backend and witnesses *)

(** A backend with one queue and no work to do. *)
Definition idle_ops : virtio_device_ops unit :=
  {| ops_type := VirtioTBlock; features := 0x300000001; num_queues := 1; queue_max_size := 512;
     ops_reset := None; ops_status_changed := None; notify_handlers := [Some virtio_blk_notify] |}.

#[local] Instance idle_backends : VirtioBackends unit :=
  {| device_ops_table := fun t => if decide (t = VirtioTBlock) then Some idle_ops else None;
     call_notify := fun _ d _ w => Ok (d, w); dev_bytes := fun _ => [] |}.

#[local] Instance idle_laws : BackendLaws unit.
Proof.
  constructor; simpl.
  - intros f d q w d' w' H. by apply skip_frame.
  - intros t ops f d w d' w' H Hf _. destruct (decide (t = VirtioTBlock)); [|done]. by injection H as <-.
  - intros t ops f d v w d' w' H Hf _. destruct (decide (t = VirtioTBlock)); [|done]. by injection H as <-.
Qed.

#[local] Existing Instance vring_event_std.

Lemma dev0_wf : device_wf dev0.
Proof.
  split; [reflexivity|]. split; [unfold regs_wf; simpl; lia|].
  apply Forall_cons_2; [unfold vq_wf; simpl; lia|by apply Forall_nil_2].
Qed.

Lemma virtio_mmio_write_preserves_witness :
  exists d' w', virtio_mmio_write ARM64 dev0 VIRTIO_MMIO_QUEUE_NUM 256 4 world0 = Ok (d', w') /\ device_wf d'.
Proof.
  eexists _, _. split; [reflexivity|].
  eapply (virtio_mmio_write_preserves ARM64 dev0 VIRTIO_MMIO_QUEUE_NUM 256 4 world0);
    [exact dev0_wf|lia|reflexivity].
Defined.

(** QUEUE_NUM of the only queue; then with queue_sel past it. *)
Lemma virtio_mmio_write_confined_witness :
  (exists d', virtio_mmio_write ARM64 dev0 VIRTIO_MMIO_QUEUE_NUM 256 4 world0 = Ok (d', world0) /\ device_wf d') /\
  virtio_mmio_write ARM64 (upd_regs (set_queue_sel 1) dev0) VIRTIO_MMIO_QUEUE_NUM 256 4 world0 = Err OutOfBounds.
Proof.
  split.
  - destruct (virtio_mmio_write_confined ARM64 dev0 VIRTIO_MMIO_QUEUE_NUM 256 4 world0 dev0_wf ltac:(lia) eq_refl) as [_ H].
    destruct H as (d' & H1 & H2 & _); [intros [_ H]; vm_compute in H; by apply H|]. exists d'. split; [exact H1|exact H2].
  - apply (virtio_mmio_write_confined ARM64 (upd_regs (set_queue_sel 1) dev0) VIRTIO_MMIO_QUEUE_NUM 256 4 world0); [|lia|reflexivity|].
    + destruct dev0_wf as (H1 & H2 & H3). split; [exact H1|]. split; [unfold regs_wf in *; simpl; lia|exact H3].
    + split; [reflexivity|simpl; lia].
Defined.

Lemma queue_setup_roundtrip_witness :
  exists d1 w1 d2, virtio_dev_reset ARM64 dev0 world0 = Ok (d1, w1) /\
    write_regs ARM64 d1 (queue_setup 0 256 0x4000 0 0x4100 0 0x4200 0) w1 = Ok (d2, w1).
Proof.
  assert (exists d1 w1, virtio_dev_reset ARM64 dev0 world0 = Ok (d1, w1) /\ length (vqs d1) = 1%nat)
    as (d1 & w1 & H1 & H2) by (eexists _, _; split; reflexivity).
  exists d1, w1.
  destruct (queue_setup_roundtrip ARM64 dev0 world0 d1 w1 0 256 0x4000 0 0x4100 0 0x4200 0) as (vq & d2 & _ & H & _);
    [exact H1|rewrite H2; lia|lia|unfold u32_val; lia..|].
  exists d2. split; [exact H1|exact H].
Defined.

Lemma virtio_dev_reset_spec_witness :
  exists d1 w1, virtio_dev_reset ARM64 dev0 world0 = Ok (d1, w1) /\ vqs d1 = [virtqueue_reset vq4 0].
Proof.
  eexists _, _. split; [reflexivity|].
  edestruct (virtio_dev_reset_spec ARM64 dev0 world0) as (_ & _ & _ & H); [reflexivity|]. exact H.
Defined.

Lemma device_features_readable_witness :
  exists d0 lo, virtio_mmio_write ARM64 dev0 VIRTIO_MMIO_DEVICE_FEATURES_SEL 0 4 world0 = Ok (d0, world0) /\
    virtio_mmio_read d0 VIRTIO_MMIO_DEVICE_FEATURES 4 world0 = Ok (lo, world0).
Proof.
  destruct (device_features_readable ARM64 dev0 world0) as (d0 & d1 & lo & hi & H1 & H2 & _);
    [vm_compute; split; [discriminate|reflexivity]|].
  exists d0, lo. split; [exact H1|exact H2].
Defined.

Lemma queue_sel_unchecked_witness :
  exists d1, virtio_mmio_write ARM64 dev0 VIRTIO_MMIO_QUEUE_SEL 1 4 world0 = Ok (d1, world0) /\
    virtio_mmio_read d1 VIRTIO_MMIO_QUEUE_READY 4 world0 = Err OutOfBounds.
Proof.
  destruct (queue_sel_unchecked ARM64 dev0 world0 1) as (d1 & H1 & _ & H2 & _);
    [vm_compute; split; [discriminate|reflexivity]|].
  exists d1. split; [exact H1|exact H2].
Defined.

Lemma driver_features_survive_reset_witness :
  exists d1 w1 d2,
    virtio_dev_reset ARM64 (upd_regs (set_drv_feature (2 ^ 29)) dev0) world0 = Ok (d1, w1) /\
    virtio_mmio_write ARM64 d1 VIRTIO_MMIO_DRIVER_FEATURES 0 4 w1 = Ok (d2, w1) /\
    Forall (fun q => event_idx_enabled q = true) (vqs d2).
Proof.
  assert (exists d1 w1, virtio_dev_reset ARM64 (upd_regs (set_drv_feature (2 ^ 29)) dev0) world0 = Ok (d1, w1))
    as (d1 & w1 & H) by (eexists _, _; reflexivity).
  destruct (driver_features_survive_reset ARM64 (upd_regs (set_drv_feature (2 ^ 29)) dev0) world0 d1 w1 0)
    as (d2 & H1 & H2); [reflexivity|exact H|].
  exists d1, w1, d2. split; [exact H|]. split; [exact H1|exact H2].
Defined.
