(* ===== verification/Bridge.v ===== *)
(** * Requests from the hypervisor

    [virtio_finish_cfg_req], [virtio_handle_req], [consume_pending_requests] and
    the sleep and wake-up protocol of [handle_virtio_requests]
    ([tools/virtio/virtio.c]).  The hypervisor fills the request ring concurrently:
    the executable loop takes, for each of its loads of [req_rear], the requests
    pushed before that load; the wake-up protocol is a step relation in which the
    two sides interleave freely. *)

From S2P Require Import Prelude Memory ZoneMem Virtqueue Device Ring Interrupt Mmio.

(** ** Dispatch *)

(** [vdevs[0 .. vdevs_num)] and the rest of the daemon's state. *)
Record system (D : Type) := {
  vdevs : list (VirtIODevice D);
  sw : world;
}.
Arguments vdevs {D} _.
Arguments sw {D} _.

Definition set_sw {D} (w : world) (s : system D) : system D := {| vdevs := vdevs s; sw := w |}.

Definition in_range (v lower n : Z) : bool := (lower <=? v) && (v <? u64 (lower + n)).

(** [cfg_values[cpu] = value; cfg_flags[cpu]++] *)
Definition virtio_finish_cfg_req (target_cpu v : Z) (b : virtio_bridge) : result virtio_bridge :=
  let c := Z.to_nat target_cpu in
  _ ← of_index (cfg_values b !! c);
  f ← of_index (cfg_flags b !! c);
  Ok (set_cfg_flags (<[c := u64 (f + 1)]> (cfg_flags b)) (set_cfg_values (<[c := v]> (cfg_values b)) b)).

Definition finish {D} (cpu v : Z) (s : system D) : result (system D) :=
  b ← virtio_finish_cfg_req (u32 cpu) v (w_bridge (sw s));
  Ok (set_sw (set_w_bridge b (sw s)) s).

Definition owns {D} (req : device_req) (d : VirtIODevice D) : bool :=
  (src_zone req =? zone_id d) && in_range (address req) (base_addr d) (len d).

(** The first device the request falls into. *)
Fixpoint find_dev {D} (req : device_req) (ds : list (VirtIODevice D)) (i : nat) : option (nat * VirtIODevice D) :=
  match ds with
  | [] => None
  | d :: ds' => if owns req d then Some (i, d) else find_dev req ds' (S i)
  end.

Section dispatch.
Context {D : Type} {vring : VringEvent} {backends : VirtioBackends D} (a : arch).

(** Return value and state. *)
Definition virtio_handle_req (req : device_req) (s : system D) : result (Z * system D) :=
  match find_dev req (vdevs s) 0 with
  | None => s1 ← finish (src_cpu req) 0 s; Ok (-1, s1)
  | Some (i, d) =>
      let offs := u64 (address req - base_addr d) in
      '(v, s1) ←
        (if negb (is_write req =? 0) then
           '(d1, w1) ← virtio_mmio_write a d offs (value req) (u32 (size req)) (sw s);
           Ok (0, {| vdevs := <[i := d1]> (vdevs s); sw := w1 |})
         else
           '(v, w1) ← virtio_mmio_read d offs (u32 (size req)) (sw s);
           Ok (v, set_sw w1 s));
      s2 ← (if need_interrupt req =? 0 then finish (src_cpu req) v s1 else Ok s1);
      Ok (0, s2)
  end.

(** ** The consumer loop *)

(** The hypervisor appends a request; it waits while the ring is full. *)
Definition push_req (req : device_req) (b : virtio_bridge) : virtio_bridge :=
  set_req_rear (ring_next (req_rear b)) (set_req_list (<[Z.to_nat (req_rear b) := req]> (req_list b)) b).

Fixpoint produce (reqs : list device_req) (b : virtio_bridge) : option virtio_bridge :=
  match reqs with
  | [] => Some b
  | r :: reqs' => if is_queue_full (req_front b) (req_rear b) MAX_REQ then None else produce reqs' (push_req r b)
  end.

(** The state seen by the next load of [req_rear]. *)
Definition observe (reqs : list device_req) (s : system D) : result (system D) :=
  match produce reqs (w_bridge (sw s)) with
  | Some b => Ok (set_sw (set_w_bridge b (sw s)) s)
  | None => Err Spinning
  end.

Definition upd_bridge (f : virtio_bridge -> virtio_bridge) (s : system D) : system D :=
  set_sw (set_w_bridge (f (w_bridge (sw s))) (sw s)) s.

Definition MAX_POLL_COUNT : Z := 10000000.

(** [env] has the requests pushed before each load of [req_rear]; [done_reqs]
    are the requests handled so far ([proc_count] is their number). *)
Fixpoint consume_loop (max_poll : Z) (env : list (list device_req)) (req_front poll_count : Z)
    (done_reqs : list device_req) (s : system D) {struct env} : result (list device_req * list (list device_req) * system D) :=
  match env with
  | [] => Err EnvExhausted
  | pushed :: env1 =>
      s1 ← observe pushed s;
      if negb (req_front =? req_rear (w_bridge (sw s1))) then
        req ← of_index (req_list (w_bridge (sw s1)) !! Z.to_nat req_front);
        '(_, s2) ← virtio_handle_req req s1;
        let req_front' := ring_next req_front in
        consume_loop max_poll env1 req_front' 0 (done_reqs ++ [req]) (upd_bridge (set_req_front req_front') s2)
      else if poll_count + 1 <? max_poll then consume_loop max_poll env1 req_front (poll_count + 1) done_reqs s1
      else
        let s2 := upd_bridge (set_need_wakeup 1) s1 in
        match env1 with
        | [] => Err EnvExhausted
        | pushed2 :: env2 =>
            s3 ← observe pushed2 s2;
            if req_front =? req_rear (w_bridge (sw s3)) then Ok (done_reqs, env2, s3)
            else consume_loop max_poll env2 req_front 0 done_reqs (upd_bridge (set_need_wakeup 0) s3)
        end
  end.

(** The requests handled, the observations not used, and the state. *)
Definition consume_pending_requests (max_poll : Z) (env : list (list device_req)) (s : system D) :
    result (list device_req * list (list device_req) * system D) :=
  consume_loop max_poll env (req_front (w_bridge (sw s))) 0 [] (upd_bridge (set_need_wakeup 0) s).

End dispatch.

(** ** Sleeping and waking up *)

(** Where the daemon's main thread is. *)
Inductive consumer_pc :=
  | CInit       (* about to set need_wakeup before the first epoll_wait *)
  | CEpoll      (* in epoll_wait *)
  | CStart      (* entering consume_pending_requests *)
  | CLoad       (* at the load of req_rear *)
  | CHandle     (* a request is there *)
  | CSetFlag    (* polled long enough *)
  | CRecheck    (* need_wakeup is set, before the final load *)
  | CClear.     (* the final load found work *)

(** Where the hypervisor is: between requests, or between advancing [req_rear]
    and testing [need_wakeup]. *)
Inductive producer_pc := PIdle | PCheck.

#[global] Instance consumer_pc_eq_dec : EqDecision consumer_pc.
Proof. solve_decision. Defined.
#[global] Instance producer_pc_eq_dec : EqDecision producer_pc.
Proof. solve_decision. Defined.

Record wake_state := {
  wk_front : Z;
  wk_rear : Z;
  wk_flag : Z;      (* need_wakeup *)
  wk_efd : Z;       (* eventfd counter *)
  wk_cpc : consumer_pc;
  wk_ppc : producer_pc;
}.

(** On LoongArch the main loop starts by draining the ring; on the other targets
    it starts by setting [need_wakeup] and going to sleep. *)
Definition first_pc (a : arch) : consumer_pc :=
  match a with LOONGARCH64 => CStart | _ => CInit end.

Inductive wake_step : wake_state -> wake_state -> Prop :=
  | c_init f r fl e p :
      wake_step {| wk_front := f; wk_rear := r; wk_flag := fl; wk_efd := e; wk_cpc := CInit; wk_ppc := p |}
                {| wk_front := f; wk_rear := r; wk_flag := 1; wk_efd := e; wk_cpc := CEpoll; wk_ppc := p |}
  | c_wake f r fl e p : 0 < e ->
      wake_step {| wk_front := f; wk_rear := r; wk_flag := fl; wk_efd := e; wk_cpc := CEpoll; wk_ppc := p |}
                {| wk_front := f; wk_rear := r; wk_flag := fl; wk_efd := 0; wk_cpc := CStart; wk_ppc := p |}
  | c_start f r fl e p :
      wake_step {| wk_front := f; wk_rear := r; wk_flag := fl; wk_efd := e; wk_cpc := CStart; wk_ppc := p |}
                {| wk_front := f; wk_rear := r; wk_flag := 0; wk_efd := e; wk_cpc := CLoad; wk_ppc := p |}
  | c_work f r fl e p : f <> r ->
      wake_step {| wk_front := f; wk_rear := r; wk_flag := fl; wk_efd := e; wk_cpc := CLoad; wk_ppc := p |}
                {| wk_front := f; wk_rear := r; wk_flag := fl; wk_efd := e; wk_cpc := CHandle; wk_ppc := p |}
  | c_handle f r fl e p :
      wake_step {| wk_front := f; wk_rear := r; wk_flag := fl; wk_efd := e; wk_cpc := CHandle; wk_ppc := p |}
                {| wk_front := ring_next f; wk_rear := r; wk_flag := fl; wk_efd := e; wk_cpc := CLoad; wk_ppc := p |}
  | c_poll f fl e p :
      wake_step {| wk_front := f; wk_rear := f; wk_flag := fl; wk_efd := e; wk_cpc := CLoad; wk_ppc := p |}
                {| wk_front := f; wk_rear := f; wk_flag := fl; wk_efd := e; wk_cpc := CLoad; wk_ppc := p |}
  | c_tired f fl e p :
      wake_step {| wk_front := f; wk_rear := f; wk_flag := fl; wk_efd := e; wk_cpc := CLoad; wk_ppc := p |}
                {| wk_front := f; wk_rear := f; wk_flag := fl; wk_efd := e; wk_cpc := CSetFlag; wk_ppc := p |}
  | c_set f r fl e p :
      wake_step {| wk_front := f; wk_rear := r; wk_flag := fl; wk_efd := e; wk_cpc := CSetFlag; wk_ppc := p |}
                {| wk_front := f; wk_rear := r; wk_flag := 1; wk_efd := e; wk_cpc := CRecheck; wk_ppc := p |}
  | c_sleep f fl e p :
      wake_step {| wk_front := f; wk_rear := f; wk_flag := fl; wk_efd := e; wk_cpc := CRecheck; wk_ppc := p |}
                {| wk_front := f; wk_rear := f; wk_flag := fl; wk_efd := e; wk_cpc := CEpoll; wk_ppc := p |}
  | c_race f r fl e p : f <> r ->
      wake_step {| wk_front := f; wk_rear := r; wk_flag := fl; wk_efd := e; wk_cpc := CRecheck; wk_ppc := p |}
                {| wk_front := f; wk_rear := r; wk_flag := fl; wk_efd := e; wk_cpc := CClear; wk_ppc := p |}
  | c_clear f r fl e p :
      wake_step {| wk_front := f; wk_rear := r; wk_flag := fl; wk_efd := e; wk_cpc := CClear; wk_ppc := p |}
                {| wk_front := f; wk_rear := r; wk_flag := 0; wk_efd := e; wk_cpc := CLoad; wk_ppc := p |}
  | p_push f r fl e c : is_queue_full f r MAX_REQ = false ->
      wake_step {| wk_front := f; wk_rear := r; wk_flag := fl; wk_efd := e; wk_cpc := c; wk_ppc := PIdle |}
                {| wk_front := f; wk_rear := ring_next r; wk_flag := fl; wk_efd := e; wk_cpc := c; wk_ppc := PCheck |}
  | p_kick f r fl e c : fl <> 0 ->
      wake_step {| wk_front := f; wk_rear := r; wk_flag := fl; wk_efd := e; wk_cpc := c; wk_ppc := PCheck |}
                {| wk_front := f; wk_rear := r; wk_flag := fl; wk_efd := e + 1; wk_cpc := c; wk_ppc := PIdle |}
  | p_skip f r e c :
      wake_step {| wk_front := f; wk_rear := r; wk_flag := 0; wk_efd := e; wk_cpc := c; wk_ppc := PCheck |}
                {| wk_front := f; wk_rear := r; wk_flag := 0; wk_efd := e; wk_cpc := c; wk_ppc := PIdle |}.

(** A request waits, the daemon sleeps, and nothing is on its way to wake it. *)
Definition stuck (s : wake_state) : Prop :=
  wk_cpc s = CEpoll /\ wk_front s <> wk_rear s /\ wk_efd s = 0 /\ wk_ppc s = PIdle.

(** What makes the handshake work: asleep or about to be, [need_wakeup] is set;
    asleep with work, a wake-up is pending or about to be sent. *)
Record wake_inv (s : wake_state) : Prop := {
  wk_not_init : wk_cpc s <> CInit;
  wk_efd_nonneg : 0 <= wk_efd s;
  wk_flag_set : wk_cpc s = CRecheck \/ wk_cpc s = CEpoll -> wk_flag s = 1;
  wk_covered : wk_cpc s = CEpoll -> wk_front s <> wk_rear s -> 0 < wk_efd s \/ wk_ppc s = PCheck;
}.

(** ** Lemmas *)

Lemma wake_step_inv s s' : wake_step s s' -> wake_inv s -> wake_inv s'.
Proof.
  intros H [Hi He Hf Hc]. destruct H; simpl in *; constructor; simpl in *;
    try done; try lia; try (intros [?|?]; first [done|auto]); auto.
  all: try (intros; right; done).
  all: try (intros E Hne; destruct (Hc E Hne) as [?|?]; [left; lia|done]).
  intros E Hne. exfalso. assert (0 = 1); [auto|lia].
Qed.

Lemma wake_steps_inv s s' : rtc wake_step s s' -> wake_inv s -> wake_inv s'.
Proof. induction 1; eauto using wake_step_inv. Qed.

(** Before the first [need_wakeup], with nothing in the ring. *)
Definition quiet_start (s : wake_state) : Prop :=
  0 <= wk_efd s /\ wk_cpc s = CInit /\ wk_front s = wk_rear s /\ wk_ppc s = PIdle.

Lemma quiet_start_step s s' :
  quiet_start s -> wake_step s s' -> (wk_cpc s = CInit -> wk_rear s' = wk_rear s) -> wake_inv s' \/ quiet_start s'.
Proof.
  intros (He & Hc & Hr & Hp) Hs Hl. destruct Hs as [f r fl e p| | | | | | | | | | |f r fl e c Hf| |]; simpl in *; subst; try discriminate.
  - left. constructor; simpl; auto. by intros _ [].
  - specialize (Hl eq_refl). exfalso. rewrite ring_next_mod in Hl. unfold MAX_REQ in *. pose proof (Z.mod_pos_bound (r + 1) 32 ltac:(lia)).
    rewrite Hl in H. destruct (decide (r = 31)) as [->|]; [done|]. rewrite Z.mod_small in Hl; lia.
Qed.

Lemma wake_inv_not_stuck s : wake_inv s -> ~ stuck s.
Proof. intros [_ _ _ Hc] (E1 & E2 & E3 & E4). destruct (Hc E1 E2); [lia|congruence]. Qed.

(** The request ring of a bridge page. *)
Definition req_ring_ok (b : virtio_bridge) : Prop :=
  length (req_list b) = Z.to_nat MAX_REQ /\ ring_index (req_front b) /\ ring_index (req_rear b).

Definition pending (b : virtio_bridge) : list device_req := ring_contents (req_list b) (req_front b) (req_rear b).

Definition req_wf (r : device_req) : Prop := 0 <= value r < 2 ^ 64.

Lemma produce_spec reqs : forall b b',
  produce reqs b = Some b' -> req_ring_ok b ->
  req_ring_ok b' /\ pending b' = pending b ++ reqs /\ req_front b' = req_front b /\ need_wakeup b' = need_wakeup b /\
  cfg_flags b' = cfg_flags b /\ cfg_values b' = cfg_values b.
Proof.
  induction reqs as [|r reqs IH]; intros b b' H (Hl & Hf & Hr); cbn [produce] in H.
  { injection H as <-. by rewrite app_nil_r. }
  destruct (is_queue_full _ _ _) eqn:E; [done|]. apply IH in H as (H1 & H2 & H3 & H4 & H5 & H6).
  - split; [done|]. rewrite H2, H3, H4, H5, H6. unfold pending, push_req. simpl.
    rewrite ring_contents_push by done. by rewrite <- app_assoc.
  - split; [simpl; by rewrite length_insert|]. split; [done|]. apply ring_next_index.
Qed.

Section lemmas.
Context {D : Type} {vring : VringEvent} {backends : VirtioBackends D} (a : arch).
Implicit Types (s : system D).

Lemma find_dev_spec req (ds : list (VirtIODevice D)) : forall i j d,
  find_dev req ds i = Some (j, d) ->
  exists k, j = (i + k)%nat /\ ds !! k = Some d /\ owns req d = true /\
    forall k' d', (k' < k)%nat -> ds !! k' = Some d' -> owns req d' = false.
Proof.
  induction ds as [|d0 ds IH]; intros i j d H; [done|]. cbn [find_dev] in H.
  destruct (owns req d0) eqn:E.
  - injection H as <- <-. exists 0%nat. split; [lia|]. split; [done|]. split; [done|]. intros. lia.
  - apply IH in H as (k & -> & H1 & H2 & H3). exists (S k). split; [lia|]. split; [done|]. split; [done|].
    intros [|k'] d' Hk Hd; [by injection Hd as <-|]. eapply H3; [|exact Hd]. lia.
Qed.

Lemma find_dev_None req (ds : list (VirtIODevice D)) : forall i, find_dev req ds i = None -> Forall (fun d => owns req d = false) ds.
Proof.
  induction ds as [|d0 ds IH]; intros i H; [constructor|]. cbn [find_dev] in H.
  destruct (owns req d0) eqn:E; [done|]. constructor; eauto.
Qed.

(** What answering a request does to the bridge. *)
Lemma finish_spec cpu v s s' :
  finish cpu v s = Ok s' ->
  vdevs s' = vdevs s /\ w_zones (sw s') = w_zones (sw s) /\
  exists f, cfg_flags (w_bridge (sw s)) !! Z.to_nat (u32 cpu) = Some f /\
    w_bridge (sw s') = set_cfg_flags (<[Z.to_nat (u32 cpu) := u64 (f + 1)]> (cfg_flags (w_bridge (sw s))))
                         (set_cfg_values (<[Z.to_nat (u32 cpu) := v]> (cfg_values (w_bridge (sw s)))) (w_bridge (sw s))).
Proof.
  unfold finish, virtio_finish_cfg_req. intros H. apply bind_Ok_inv in H as (b & Hb & H). injection H as <-.
  apply bind_Ok_inv in Hb as (x & _ & Hb). apply bind_Ok_inv in Hb as (f & Hf & Hb). injection Hb as <-.
  apply of_index_Ok_inv in Hf. simpl. eauto 10.
Qed.

Lemma virtio_mmio_read_frame d offset n w v w' :
  virtio_mmio_read d offset n w = Ok (v, w') -> world_frame w w'.
Proof.
  unfold virtio_mmio_read. intros H. destruct (VIRTIO_MMIO_CONFIG <=? offset).
  { apply bind_Ok_inv in H as (x & _ & H). by injection H as <- <-. }
  destruct (negb _); [by injection H as <- <-|].
  destruct (decode_reg offset) as [[]|]; try (by injection H as <- <-).
  - destruct (_ <=? _); [by injection H as <- <-|]. apply bind_Ok_inv in H as (x & _ & H). by injection H as <- <-.
  - apply bind_Ok_inv in H as (x & _ & H). by injection H as <- <-.
Qed.

(** The request ring and the wake-up flag are the consumer loop's alone. *)
Lemma virtio_handle_req_ring {laws : BackendLaws D} req s r s' :
  req_wf req -> virtio_handle_req a req s = Ok (r, s') ->
  req_front (w_bridge (sw s')) = req_front (w_bridge (sw s)) /\
  req_rear (w_bridge (sw s')) = req_rear (w_bridge (sw s)) /\
  req_list (w_bridge (sw s')) = req_list (w_bridge (sw s)) /\
  need_wakeup (w_bridge (sw s')) = need_wakeup (w_bridge (sw s)).
Proof.
  intros Hv H. unfold virtio_handle_req in H. destruct (find_dev req (vdevs s) 0) as [[i d]|].
  - apply bind_Ok_inv in H as ([v s1] & H1 & H). apply bind_Ok_inv in H as (s2 & H2 & H). injection H as <- <-.
    assert (world_frame (sw s) (sw s1)) as (_ & W1 & W2 & W3 & _ & _ & W4).
    { destruct (negb _).
      - apply bind_Ok_inv in H1 as ([d1 w1] & Hw & H1). injection H1 as <- <-.
        apply (virtio_mmio_write_frame a) in Hw as [_ Hw]; done.
      - apply bind_Ok_inv in H1 as ([v1 w1] & Hw & H1). injection H1 as <- <-.
        by apply virtio_mmio_read_frame in Hw. }
    destruct (need_interrupt req =? 0); [|by injection H2 as <-].
    apply finish_spec in H2 as (_ & _ & f & _ & ->). done.
  - apply bind_Ok_inv in H as (s1 & H & H1). injection H1 as <- <-.
    apply finish_spec in H as (_ & _ & f & _ & ->). done.
Qed.

Lemma observe_spec reqs s s' :
  observe reqs s = Ok s' -> req_ring_ok (w_bridge (sw s)) ->
  req_ring_ok (w_bridge (sw s')) /\ pending (w_bridge (sw s')) = pending (w_bridge (sw s)) ++ reqs /\
  req_front (w_bridge (sw s')) = req_front (w_bridge (sw s)) /\
  need_wakeup (w_bridge (sw s')) = need_wakeup (w_bridge (sw s)).
Proof.
  unfold observe. intros H Hok. destruct (produce _ _) as [b|] eqn:E; [|done]. injection H as <-. simpl.
  apply produce_spec in E as (H1 & H2 & H3 & H4 & _); done.
Qed.

End lemmas.

Section loop.
Context {D : Type} {vring : VringEvent} {backends : VirtioBackends D} (a : arch) (max_poll : Z).
Implicit Types (s : system D).

(** Taking the oldest request off the ring. *)
Lemma pending_pop b :
  req_ring_ok b -> req_front b <> req_rear b ->
  exists r, req_list b !! Z.to_nat (req_front b) = Some r /\
    pending b = r :: pending (set_req_front (ring_next (req_front b)) b) /\
    req_ring_ok (set_req_front (ring_next (req_front b)) b).
Proof.
  intros (Hl & Hf & Hr) Hne. destruct (ring_contents_pop (req_list b) _ _ Hl Hf Hr Hne) as (r & H1 & H2).
  exists r. split; [done|]. split; [exact H2|]. split; [done|]. split; [apply ring_next_index|done].
Qed.

(** The ring of a bridge only depends on its three fields. *)
Lemma pending_ext b b' :
  req_front b' = req_front b -> req_rear b' = req_rear b -> req_list b' = req_list b ->
  pending b' = pending b /\ (req_ring_ok b -> req_ring_ok b').
Proof. unfold pending, req_ring_ok. intros -> -> ->. done. Qed.

Lemma pending_empty b : req_front b = req_rear b -> pending b = [].
Proof. intros H. unfold pending. rewrite H. apply ring_contents_nil. Qed.

Lemma handle_step {laws : BackendLaws D} s req r s1 :
  req_ring_ok (w_bridge (sw s)) -> req_front (w_bridge (sw s)) <> req_rear (w_bridge (sw s)) ->
  req_list (w_bridge (sw s)) !! Z.to_nat (req_front (w_bridge (sw s))) = Some req -> req_wf req ->
  virtio_handle_req a req s = Ok (r, s1) ->
  let s2 := upd_bridge (set_req_front (ring_next (req_front (w_bridge (sw s))))) s1 in
  pending (w_bridge (sw s)) = req :: pending (w_bridge (sw s2)) /\ req_ring_ok (w_bridge (sw s2)).
Proof.
  intros Hok Hne Hreq Hw H. apply (virtio_handle_req_ring a) in H as (F1 & F2 & F3 & _); [|done].
  destruct (pending_pop _ Hok Hne) as (r0 & E1 & E2 & E3). assert (r0 = req) as -> by congruence.
  destruct (pending_ext (set_req_front (ring_next (req_front (w_bridge (sw s)))) (w_bridge (sw s)))
    (set_req_front (ring_next (req_front (w_bridge (sw s)))) (w_bridge (sw s1)))) as [P1 P2]; [done|done|done|].
  simpl. rewrite P1. auto.
Qed.

Lemma consume_loop_fifo {laws : BackendLaws D} n : forall env front poll acc s handled env' s',
  (length env <= n)%nat -> consume_loop a max_poll env front poll acc s = Ok (handled, env', s') ->
  req_ring_ok (w_bridge (sw s)) -> front = req_front (w_bridge (sw s)) ->
  Forall req_wf (pending (w_bridge (sw s))) -> Forall (Forall req_wf) env ->
  exists used, env = used ++ env' /\ handled = acc ++ pending (w_bridge (sw s)) ++ concat used /\
    req_front (w_bridge (sw s')) = req_rear (w_bridge (sw s')) /\ need_wakeup (w_bridge (sw s')) = 1 /\ req_ring_ok (w_bridge (sw s')).
Proof.
  induction n as [|n IH]; intros env front poll acc s handled env' s' Hn H Hok -> Hp He;
    (destruct env as [|pushed env1]; [done|]); simpl in Hn; [lia|].
  cbn [consume_loop] in H. apply bind_Ok_inv in H as (s1 & Ho & H). apply Forall_cons_1 in He as [He0 He1].
  apply observe_spec in Ho as (Hok1 & Hp1 & Hf1 & _); [|done]. rewrite <- Hf1 in H.
  assert (Forall req_wf (pending (w_bridge (sw s1)))) as Hw1 by (rewrite Hp1; by apply Forall_app).
  destruct (negb _) eqn:En.
  - apply bind_Ok_inv in H as (req & Hreq & H). apply of_index_Ok_inv in Hreq.
    apply bind_Ok_inv in H as ([r s2] & Hh & H).
    assert (req_front (w_bridge (sw s1)) <> req_rear (w_bridge (sw s1))) as Hne by lia.
    destruct (pending_pop _ Hok1 Hne) as (r0 & E1 & E2 & _). assert (r0 = req) as -> by congruence.
    rewrite E2 in Hw1. apply Forall_cons_1 in Hw1 as [Hwr _].
    destruct (handle_step s1 req r s2 Hok1 Hne Hreq Hwr Hh) as [Hpop Hok2].
    assert (Forall req_wf (pending (w_bridge (sw s1)))) as Hw1 by (rewrite Hp1; by apply Forall_app).
    rewrite Hpop in Hw1. apply Forall_cons_1 in Hw1 as [_ Hw2].
    destruct (IH env1 _ _ _ _ _ _ _ ltac:(lia) H Hok2 eq_refl Hw2 He1) as (used & -> & -> & H3 & H4).
    exists (pushed :: used). split; [done|]. split; [|done]. simpl.
    rewrite (app_assoc (pending _)), <- Hp1, Hpop, <- !app_assoc. done.
  - assert (pending (w_bridge (sw s1)) = []) as Hemp by (apply pending_empty; lia).
    rewrite Hemp in Hp1. symmetry in Hp1. apply app_eq_nil in Hp1 as [Hp0 ->]. rewrite Hp0.
    destruct (poll + 1 <? max_poll).
    + destruct (IH env1 _ _ _ _ _ _ _ ltac:(lia) H Hok1 eq_refl ltac:(by rewrite Hemp) He1) as (used & -> & -> & H3 & H4).
      rewrite Hemp. by exists ([] :: used).
    + destruct env1 as [|pushed2 env2]; [done|]. apply bind_Ok_inv in H as (s3 & Ho & H).
      apply Forall_cons_1 in He1 as [He1 He2].
      apply observe_spec in Ho as (Hok3 & Hp3 & Hf3 & Hn3); [|exact Hok1]. simpl in Hf3, Hn3, Hp3.
      change (pending (set_need_wakeup 1 (w_bridge (sw s1)))) with (pending (w_bridge (sw s1))) in Hp3.
      rewrite Hemp in Hp3. simpl in Hp3. rewrite <- Hf3 in H.
      destruct (req_front (w_bridge (sw s3)) =? req_rear (w_bridge (sw s3))) eqn:Ee.
      * injection H as <- <- <-. rewrite pending_empty in Hp3 by lia. subst pushed2.
        exists [[]; []]. split; [done|]. split; [by rewrite app_nil_r|]. split; [lia|]. by split.
      * destruct (IH env2 _ _ _ _ _ _ _ ltac:(simpl in *; lia) H Hok3 eq_refl) as (used & -> & -> & H3 & H4).
        -- change (Forall req_wf (pending (w_bridge (sw s3)))). by rewrite Hp3.
        -- done.
        -- exists ([] :: pushed2 :: used). split; [done|]. split; [|done].
           change (pending (w_bridge (sw (upd_bridge (set_need_wakeup 0) s3)))) with (pending (w_bridge (sw s3))).
           by rewrite Hp3.
Qed.

(** With no new requests arriving and handlers that return, the loop returns. *)
Lemma consume_loop_idle k : forall poll acc s,
  req_front (w_bridge (sw s)) = req_rear (w_bridge (sw s)) -> max_poll <= poll + 1 + Z.of_nat k ->
  is_ok (consume_loop a max_poll (replicate (k + 2) []) (req_front (w_bridge (sw s))) poll acc s) = true.
Proof.
  assert (Hset : forall (s : system D), set_sw (set_w_bridge (w_bridge (sw s)) (sw s)) s = s) by by intros [? []].
  induction k as [|k IH]; intros poll acc s Hemp Hk; cbn [Nat.add replicate consume_loop observe produce mbind result_bind];
    rewrite Hset; (replace (negb _) with false by lia).
  - replace (poll + 1 <? max_poll) with false by lia. cbn [observe produce mbind result_bind]. simpl.
    by replace (_ =? _) with true by lia.
  - destruct (poll + 1 <? max_poll) eqn:E.
    + apply IH; [done|lia].
    + replace (k + 2)%nat with (S (S k)) by lia. cbn [replicate observe produce mbind result_bind]. simpl.
      by replace (_ =? _) with true by lia.
Qed.

End loop.

(** ** Theorems *)

Section theorems.
Context {D : Type} {vring : VringEvent} {backends : VirtioBackends D} (a : arch).
Implicit Types (s : system D).

(** A set of states in which every one of the requests is served and which
    serving and the loop's own index updates do not leave. *)
Definition serves (reqs : list device_req) (P : system D -> Prop) : Prop :=
  (forall req s, P s -> req ∈ reqs -> exists r s1, virtio_handle_req a req s = Ok (r, s1) /\ P s1) /\
  (forall f s, P s -> P (upd_bridge (set_req_front f) s)) /\
  (forall s, P s -> P (upd_bridge (set_need_wakeup 0) s)).

Lemma consume_loop_returns {laws : BackendLaws D} max_poll reqs P : serves reqs P ->
  forall k acc s, P s -> req_ring_ok (w_bridge (sw s)) -> Forall req_wf (pending (w_bridge (sw s))) ->
  (forall r, r ∈ pending (w_bridge (sw s)) -> r ∈ reqs) -> length (pending (w_bridge (sw s))) = k ->
  is_ok (consume_loop a max_poll (replicate (k + (Z.to_nat max_poll + 2)) []) (req_front (w_bridge (sw s))) 0 acc s) = true.
Proof.
  intros (Hs & Hf & _). induction k as [|k IH]; intros acc s HP Hok Hw Hin Hk.
  - simpl. apply consume_loop_idle; [|lia].
    destruct (decide (req_front (w_bridge (sw s)) = req_rear (w_bridge (sw s)))) as [|Hne]; [done|].
    destruct (pending_pop _ Hok Hne) as (r & _ & E & _). rewrite E in Hk. done.
  - assert (Hset : set_sw (set_w_bridge (w_bridge (sw s)) (sw s)) s = s) by by destruct s as [? []].
    assert (req_front (w_bridge (sw s)) <> req_rear (w_bridge (sw s))) as Hne.
    { intros E. by rewrite pending_empty in Hk. }
    destruct (pending_pop _ Hok Hne) as (r & Hr & E & _).
    assert (Hmem : r ∈ reqs) by (apply Hin; rewrite E; by left).
    assert (Hwr : req_wf r) by (rewrite E in Hw; by apply Forall_cons_1 in Hw as [? _]).
    destruct (Hs r s HP Hmem) as (ret & s1 & Hh & HP1).
    destruct (handle_step a s r ret s1 Hok Hne Hr Hwr Hh) as [Hpop Hok2].
    cbn [Nat.add replicate consume_loop observe produce mbind result_bind]. rewrite Hset.
    replace (negb _) with true by lia. rewrite Hr. cbn [of_index mbind result_bind]. rewrite Hh. cbn [mbind result_bind].
    rewrite Hpop in Hw, Hin, Hk. apply Forall_cons_1 in Hw as [_ Hw].
    apply (IH _ (upd_bridge (set_req_front (ring_next (req_front (w_bridge (sw s))))) s1)); auto.
    intros x Hx. apply Hin. by right.
Qed.

(** C10: no lost wake-up.  The daemon starts its main loop with an empty request
    ring.  On LoongArch, whose loop starts by draining the ring, no interleaving with
    the hypervisor reaches a state in which the daemon is asleep with a request in
    the ring, no wake-up pending and none about to be sent.  On every target the
    same holds as long as no request arrives before the loop has set need_wakeup for
    the first time; on the others, which go to sleep right after that, such an early
    request can be left behind (early_request_not_announced). *)
Theorem no_lost_wakeup (b : arch) (s0 st : wake_state) :
  0 <= wk_efd s0 -> wk_cpc s0 = first_pc b -> wk_front s0 = wk_rear s0 -> wk_ppc s0 = PIdle ->
  (b = LOONGARCH64 -> rtc wake_step s0 st -> ~ stuck st) /\
  (rtc (fun x y : wake_state => wake_step x y /\ (wk_cpc x = CInit -> wk_rear y = wk_rear x)) s0 st -> ~ stuck st).
Proof.
  intros He Hc Hr Hp. assert (first_pc b <> CInit -> wake_inv s0) as Hinv.
  { intros Hn. destruct s0 as [f r fl e c p]. simpl in *. subst c. constructor; simpl; [done|done| |]; destruct b; simpl in *; try done; by intros []. }
  split.
  - intros -> Hrun. apply wake_inv_not_stuck. eapply wake_steps_inv; [exact Hrun|]. by apply Hinv.
  - intros Hrun. assert (wake_inv s0 \/ quiet_start s0) as Hstart.
    { destruct (decide (wk_cpc s0 = CInit)) as [E|E]; [by right|left; apply Hinv; congruence]. }
    clear Hinv He Hc Hr Hp. induction Hrun as [s|s1 s2 s3 [Hs Hlate] _ IH].
    + destruct Hstart as [H|(_ & E & _)]; [by apply wake_inv_not_stuck|]. intros (E' & _). congruence.
    + apply IH. destruct Hstart as [H|H]; [left; by eapply wake_step_inv|by apply (quiet_start_step s1)].
Qed.

(** On the other targets a request that reaches the ring before the main
    loop has set need_wakeup for the first time is not announced: the daemon
    goes to sleep with the request in the ring and nothing on its way to wake
    it. *)
Theorem early_request_not_announced b :
  b <> LOONGARCH64 ->
  exists st, rtc wake_step {| wk_front := 0; wk_rear := 0; wk_flag := 0; wk_efd := 0;
                             wk_cpc := first_pc b; wk_ppc := PIdle |} st /\ stuck st.
Proof.
  intros Hb. assert (first_pc b = CInit) as -> by by destruct b.
  eexists. split.
  - eapply rtc_l; [by apply p_push|]. eapply rtc_l; [by apply p_skip|]. eapply rtc_l; [by apply c_init|]. apply rtc_refl.
  - repeat split. simpl. rewrite ring_next_mod. done.
Qed.

(** The device's zone made the request and its window contains the address. *)
Definition claims (req : device_req) (d : VirtIODevice D) : Prop :=
  src_zone req = zone_id d /\ base_addr d <= address req < base_addr d + len d.

(** [d] is the first device that claims the request. *)
Definition first_claim (req : device_req) (ds : list (VirtIODevice D)) (i : nat) (d : VirtIODevice D) : Prop :=
  ds !! i = Some d /\ claims req d /\ forall j e, (j < i)%nat -> ds !! j = Some e -> ~ claims req e.

(** The requesting processor's slot got [v] and its flag advanced by one; no slot
    of another processor changed. *)
Definition answered (req : device_req) (v : Z) (b b' : virtio_bridge) : Prop :=
  exists f, cfg_flags b !! Z.to_nat (u32 (src_cpu req)) = Some f /\
    cfg_flags b' = <[Z.to_nat (u32 (src_cpu req)) := u64 (f + 1)]> (cfg_flags b) /\
    cfg_values b' = <[Z.to_nat (u32 (src_cpu req)) := v]> (cfg_values b).

Definition not_answered (b b' : virtio_bridge) : Prop := cfg_flags b' = cfg_flags b /\ cfg_values b' = cfg_values b.

Definition window_ok (d : VirtIODevice D) : Prop := 0 <= base_addr d /\ 0 <= len d /\ base_addr d + len d < 2 ^ 64.

Lemma owns_claims req d : window_ok d -> owns req d = true <-> claims req d.
Proof. intros (H1 & H2 & H3). unfold owns, in_range, claims. rewrite u64_small by lia. lia. Qed.

Lemma answered_frame req v w w1 b' : world_frame w w1 -> answered req v (w_bridge w1) b' -> answered req v (w_bridge w) b'.
Proof. intros (_ & _ & _ & _ & E1 & E2 & _) (f & H1 & H2 & H3). exists f. by rewrite <- E1, <- E2. Qed.

(** C12: dispatch of one request, with device windows that do not wrap around.  The
    request goes to the first device of the requesting zone whose window contains
    the address.  A write performs the register write of the transport, with the
    offset into the window and the request's value and size, on that device alone; a
    read performs the register read and changes no device.  Unless the request
    waits for an interrupt the requesting processor is answered, with the value read
    or with 0 for a write, and no other processor's slot changes.  An access that no
    device claims changes no device and is answered with 0. *)
Theorem virtio_handle_req_spec {laws : BackendLaws D} req s ret s' :
  req_wf req -> Forall window_ok (vdevs s) -> virtio_handle_req a req s = Ok (ret, s') ->
  let b := w_bridge (sw s) in
  let b' := w_bridge (sw s') in
  let done v w1 := if need_interrupt req =? 0 then answered req v b b' else not_answered b b' /\ sw s' = w1 in
  (exists i d, first_claim req (vdevs s) i d /\ ret = 0 /\
     if is_write req =? 0
     then exists v w1, virtio_mmio_read d (address req - base_addr d) (u32 (size req)) (sw s) = Ok (v, w1) /\
            vdevs s' = vdevs s /\ done v w1
     else exists d' w1, virtio_mmio_write a d (address req - base_addr d) (value req) (u32 (size req)) (sw s) = Ok (d', w1) /\
            vdevs s' = <[i := d']> (vdevs s) /\ done 0 w1)
  \/ ((forall d, d ∈ vdevs s -> ~ claims req d) /\ ret = -1 /\ vdevs s' = vdevs s /\ answered req 0 b b').
Proof.
  intros Hv Hwin H. unfold virtio_handle_req in H. destruct (find_dev req (vdevs s) 0) as [[i d]|] eqn:Ef; cbv zeta.
  - left. apply find_dev_spec in Ef as (k & -> & Hd & Ho & Hfst). cbn [Nat.add] in H. exists k, d.
    assert (window_ok d) as Hwd by (by eapply Forall_lookup_1). apply owns_claims in Ho as Hcl; [|done].
    apply bind_Ok_inv in H as ([v s1] & H1 & H). apply bind_Ok_inv in H as (s2 & H2 & H). injection H as <- <-.
    split; [|split; [done|] ].
    { split; [done|]. split; [done|]. intros j e Hj He Hc. apply owns_claims in Hc; [|by eapply Forall_lookup_1].
      by rewrite (Hfst _ _ Hj He) in Hc. }
    destruct Hcl as [_ Hrng]. rewrite u64_small in H1 by (destruct Hwd; lia).
    assert (world_frame (sw s) (sw s1) -> if need_interrupt req =? 0 then answered req v (w_bridge (sw s)) (w_bridge (sw s2))
      else not_answered (w_bridge (sw s)) (w_bridge (sw s2)) /\ sw s2 = sw s1) as Hdone.
    { intros Hf. destruct (need_interrupt req =? 0); [|injection H2 as <-; split; [split; apply Hf|done] ].
      apply finish_spec in H2 as (_ & _ & f & E2 & E3). eapply answered_frame; [exact Hf|]. exists f. by rewrite E3. }
    assert (vdevs s2 = vdevs s1) as Hdev by (destruct (need_interrupt req =? 0); [by apply finish_spec in H2 as (? & _)|by injection H2 as <-]).
    destruct (is_write req =? 0); cbn [negb] in H1.
    + apply bind_Ok_inv in H1 as ([v1 w1] & Hw & H1). injection H1 as <- <-. exists v1, w1. split; [done|]. split; [exact Hdev|].
      apply Hdone. by apply virtio_mmio_read_frame in Hw.
    + apply bind_Ok_inv in H1 as ([d1 w1] & Hw & H1). injection H1 as <- <-. exists d1, w1. split; [done|]. split; [exact Hdev|].
      apply Hdone. by apply (virtio_mmio_write_frame a) in Hw as [_ W].
  - right. apply find_dev_None in Ef. apply bind_Ok_inv in H as (s1 & H & H1). injection H1 as <- <-.
    apply finish_spec in H as (E1 & _ & f & E2 & E3). split; [|split; [done|split; [done|exists f; by rewrite E3] ] ].
    intros d Hd Hc. rewrite Forall_forall in Ef, Hwin. apply owns_claims in Hc; [|by apply Hwin]. by rewrite (Ef _ Hd) in Hc.
Qed.

(** The consumer loop serves the ring in FIFO order, each request exactly
    once: when it returns, the requests it handled are those that were waiting
    followed by those that arrived meanwhile, in order of arrival, none is left,
    and need_wakeup is set. *)
Theorem consume_pending_requests_fifo {laws : BackendLaws D} max_poll env s handled env' s' :
  req_ring_ok (w_bridge (sw s)) -> Forall req_wf (pending (w_bridge (sw s))) -> Forall (Forall req_wf) env ->
  consume_pending_requests a max_poll env s = Ok (handled, env', s') ->
  exists used, env = used ++ env' /\ handled = pending (w_bridge (sw s)) ++ concat used /\
    pending (w_bridge (sw s')) = [] /\ need_wakeup (w_bridge (sw s')) = 1.
Proof.
  intros Hok Hp He H. unfold consume_pending_requests in H.
  destruct (consume_loop_fifo a max_poll _ _ _ _ _ _ _ _ _ (Nat.le_refl _) H Hok eq_refl Hp He)
    as (used & -> & -> & H3 & H4 & _).
  exists used. split; [done|]. split; [done|]. split; [by apply pending_empty|done].
Qed.

(** The consumer loop returns.  If the waiting requests are ones the device
    handlers serve and none arrives meanwhile, then after one load per request
    and the polling period (plus the final check) the loop is done. *)
Theorem consume_pending_requests_returns {laws : BackendLaws D} max_poll s P :
  req_ring_ok (w_bridge (sw s)) -> Forall req_wf (pending (w_bridge (sw s))) ->
  serves (pending (w_bridge (sw s))) P -> P s ->
  is_ok (consume_pending_requests a max_poll
    (replicate (length (pending (w_bridge (sw s))) + (Z.to_nat max_poll + 2)) []) s) = true.
Proof.
  intros Hok Hw Hs HP. unfold consume_pending_requests.
  apply (consume_loop_returns max_poll (pending (w_bridge (sw s))) P Hs _ [] (upd_bridge (set_need_wakeup 0) s));
    try done. by apply Hs.
Qed.

End theorems.

(** ** Example state and witnesses *)

#[local] Existing Instance vring_event_std.
#[local] Existing Instance idle_backends.
#[local] Existing Instance idle_laws.

(** A write of QUEUE_NUM to [dev0] and a read no device claims. *)
Definition req_num : device_req :=
  {| src_cpu := 2; address := 0xa000038; size := 4; value := 256; src_zone := 1; is_write := 1; need_interrupt := 0 |}.
Definition req_stray : device_req :=
  {| src_cpu := 3; address := 0xb000000; size := 4; value := 0; src_zone := 1; is_write := 0; need_interrupt := 0 |}.

Definition sys0 : system unit :=
  {| vdevs := [dev0];
     sw := set_w_bridge (set_req_rear 1 (set_req_list (req_num :: replicate 31 req0) bridge0)) world0 |}.

Lemma sys0_ring : req_ring_ok (w_bridge (sw sys0)) /\ Forall req_wf (pending (w_bridge (sw sys0))).
Proof.
  split; [|apply Forall_cons_2; [unfold req_wf; simpl; lia|by apply Forall_nil_2]].
  split; [reflexivity|]. split; unfold ring_index, MAX_REQ; simpl; lia.
Qed.

(** On ARM64: asleep, a request arrives and its sender has seen need_wakeup. *)
Lemma no_lost_wakeup_witness :
  let s0 := {| wk_front := 0; wk_rear := 0; wk_flag := 0; wk_efd := 0; wk_cpc := CInit; wk_ppc := PIdle |} in
  let st := {| wk_front := 0; wk_rear := 1; wk_flag := 1; wk_efd := 1; wk_cpc := CEpoll; wk_ppc := PIdle |} in
  ~ stuck st.
Proof.
  intros s0 st. apply (no_lost_wakeup ARM64 s0 st); [simpl; lia|reflexivity|reflexivity|reflexivity|].
  eapply rtc_l; [split; [apply c_init|reflexivity]|]. eapply rtc_l; [split; [by apply p_push|discriminate]|].
  eapply rtc_l; [split; [by apply p_kick|discriminate]|]. apply rtc_refl.
Defined.

Lemma early_request_not_announced_witness :
  exists st, rtc wake_step {| wk_front := 0; wk_rear := 0; wk_flag := 0; wk_efd := 0;
                             wk_cpc := first_pc ARM64; wk_ppc := PIdle |} st /\ stuck st.
Proof. apply (early_request_not_announced ARM64). discriminate. Defined.

(** The write of QUEUE_NUM reaches the register of the only device. *)
Lemma virtio_handle_req_spec_witness :
  exists s' d' w1, virtio_handle_req ARM64 req_num sys0 = Ok (0, s') /\
    virtio_mmio_write ARM64 dev0 VIRTIO_MMIO_QUEUE_NUM 256 4 (sw sys0) = Ok (d', w1) /\ vdevs s' = [d'].
Proof.
  assert (exists s', virtio_handle_req ARM64 req_num sys0 = Ok (0, s')) as (s' & H)
    by (eexists; vm_compute; reflexivity).
  destruct (virtio_handle_req_spec ARM64 req_num sys0 0 s') as [(i & d & (Hi & _) & _ & d' & w1 & Hw & Hd & _)|(_ & E & _)].
  - unfold req_wf. simpl. lia.
  - repeat constructor; simpl; lia.
  - exact H.
  - destruct i as [|i]; [|discriminate Hi]. injection Hi as <-. exists s', d', w1. split; [exact H|]. split; [exact Hw|exact Hd].
  - discriminate E.
Defined.

Lemma consume_pending_requests_fifo_witness :
  exists s', consume_pending_requests ARM64 2 [[]; [req_stray]; []; []; []] sys0 = Ok ([req_num; req_stray], [], s') /\
    pending (w_bridge (sw s')) = [].
Proof.
  assert (exists s', consume_pending_requests ARM64 2 [[]; [req_stray]; []; []; []] sys0 =
    Ok ([req_num; req_stray], [], s')) as (s' & H) by (eexists; vm_compute; reflexivity).
  exists s'. split; [exact H|].
  destruct (consume_pending_requests_fifo ARM64 2 [[]; [req_stray]; []; []; []] sys0 _ _ s' (proj1 sys0_ring) (proj2 sys0_ring)
    ltac:(repeat constructor; vm_compute; discriminate) H) as (used & _ & _ & Hp & _).
  exact Hp.
Defined.

(** Without devices every request is answered with 0 while its cpu exists. *)
Lemma no_device_serves reqs :
  Forall (fun r => 0 <= src_cpu r < 32) reqs ->
  serves (D := unit) ARM64 reqs (fun s => vdevs s = [] /\ length (cfg_flags (w_bridge (sw s))) = 32%nat /\
                                  length (cfg_values (w_bridge (sw s))) = 32%nat).
Proof.
  intros Hc. split; [|split]; [|done|done].
  intros req s (Hd & Hf & Hv) Hin. rewrite Forall_forall in Hc. specialize (Hc _ Hin).
  unfold virtio_handle_req. rewrite Hd. cbn [find_dev]. unfold finish, virtio_finish_cfg_req.
  rewrite u32_small by lia.
  destruct (lookup_lt_is_Some_2 (cfg_values (w_bridge (sw s))) (Z.to_nat (src_cpu req))) as [v Hv']; [lia|].
  destruct (lookup_lt_is_Some_2 (cfg_flags (w_bridge (sw s))) (Z.to_nat (src_cpu req))) as [f Hf']; [lia|].
  rewrite Hv', Hf'. cbn [of_index mbind result_bind]. eexists _, _. split; [reflexivity|]. simpl.
  by rewrite !length_insert.
Qed.

Lemma consume_pending_requests_returns_witness :
  is_ok (consume_pending_requests ARM64 2 (replicate 5 []) {| vdevs := []; sw := sw sys0 |}) = true.
Proof.
  apply (consume_pending_requests_returns ARM64 2 {| vdevs := []; sw := sw sys0 |}
    (fun s => vdevs s = [] /\ length (cfg_flags (w_bridge (sw s))) = 32%nat /\
              length (cfg_values (w_bridge (sw s))) = 32%nat)).
  - exact (proj1 sys0_ring).
  - exact (proj2 sys0_ring).
  - apply no_device_serves. repeat constructor; vm_compute; congruence.
  - repeat split.
Defined.
