(* ===== verification/RequestLoop.v ===== *)
(** * The daemon's request loop

    The [while (true)] loop of [handle_virtio_requests] in virtio.c: waiting for a
    signal or a kick, and what a wake-up does.  An entry of the environment is the
    requests the hypervisor pushed while the daemon slept, and the outcome of
    [epoll_wait].  Claim: over any number of wake-ups every request is handled once,
    in the order of arrival. *)

From S2P Require Import Prelude Memory ZoneMem Virtqueue Device Ring Interrupt Mmio Bridge.

(** A ready descriptor: the signal descriptor or the event descriptor, with whether
    the [read] from it returns a whole structure, or neither.  A kick comes with the
    requests pushed while the ring is being drained. *)
Inductive ready :=
  | ReadySignal (whole : bool)
  | ReadyKick (whole : bool) (env : list (list device_req))
  | ReadyOther.

Inductive wait_result :=
  | WaitError (eintr : bool)
  | WaitReady (events : list ready).

Section loop.
Context {D : Type} {vring : VringEvent} {backends : VirtioBackends D} (a : arch) (max_poll : Z).

(** The state of the loop: whether [virtio_close] was called, the requests that
    arrived, those handled ([proc_count] is their number), and the system. *)
Record loop_state := {
  closed : bool;
  arrived : list device_req;
  handled : list device_req;
  sys : system D;
}.

(** One drain of the ring. *)
Definition drain (env : list (list device_req)) (l : loop_state) : result loop_state :=
  '(reqs, env', s) ← consume_pending_requests a max_poll env (sys l);
  Ok {| closed := closed l; arrived := arrived l ++ concat (take (length env - length env') env); handled := handled l ++ reqs; sys := s |}.

Definition close_loop (l : loop_state) : loop_state :=
  {| closed := true; arrived := arrived l; handled := handled l; sys := sys l |}.

(** [for (i = 0; i < nfds; i++)]; a signal ends the function. *)
Fixpoint handle_ready (events : list ready) (l : loop_state) : result loop_state :=
  match events with
  | [] => Ok l
  | ReadySignal whole :: events' => if whole then Ok (close_loop l) else handle_ready events' l
  | ReadyKick whole env :: events' =>
      if negb whole then handle_ready events' l
      else l1 ← drain env l; handle_ready events' l1
  | ReadyOther :: events' => handle_ready events' l
  end.

(** The requests pushed while the daemon waits. *)
Definition pushed_asleep (reqs : list device_req) (l : loop_state) : result loop_state :=
  s ← observe reqs (sys l);
  Ok {| closed := closed l; arrived := arrived l ++ reqs; handled := handled l; sys := s |}.

Fixpoint request_loop (waits : list (list device_req * wait_result)) (l : loop_state) : result loop_state :=
  match waits with
  | [] => Ok l
  | (pushed, w) :: waits' =>
      l1 ← pushed_asleep pushed l;
      match w with
      | WaitError eintr => if eintr then request_loop waits' l1 else Ok (close_loop l1)
      | WaitReady events =>
          l2 ← handle_ready events l1;
          if closed l2 then Ok l2 else request_loop waits' l2
      end
  end.

(** Before the loop LoongArch drains the ring, the other targets ask to be woken. *)
Definition enter_loop (env : list (list device_req)) (s : system D) : result loop_state :=
  let l := {| closed := false; arrived := []; handled := []; sys := s |} in
  match a with
  | LOONGARCH64 => drain env l
  | _ => Ok {| closed := false; arrived := []; handled := []; sys := upd_bridge (set_need_wakeup 1) s |}
  end.

Definition handle_virtio_requests (env : list (list device_req)) (waits : list (list device_req * wait_result)) (s : system D) : result loop_state :=
  l ← enter_loop env s; request_loop waits l.

(** ** Lemmas *)

(** Well-formed requests only, in all that is pushed. *)
Definition ready_wf (r : ready) : Prop :=
  match r with
  | ReadyKick _ env => Forall (Forall req_wf) env
  | _ => True
  end.

Definition wait_wf (w : list device_req * wait_result) : Prop :=
  Forall req_wf w.1 /\ match w.2 with WaitReady events => Forall ready_wf events | WaitError _ => True end.

(** What was waiting at first and what arrived is what was handled and what waits. *)
Definition in_order (before : list device_req) (l : loop_state) : Prop :=
  req_ring_ok (w_bridge (sw (sys l))) /\ Forall req_wf (pending (w_bridge (sw (sys l)))) /\
  before ++ arrived l = handled l ++ pending (w_bridge (sw (sys l))).

Lemma drain_in_order {laws : BackendLaws D} before env l l' : Forall (Forall req_wf) env -> in_order before l -> drain env l = Ok l' ->
  in_order before l' /\ pending (w_bridge (sw (sys l'))) = [] /\ need_wakeup (w_bridge (sw (sys l'))) = 1.
Proof.
  intros He (Hok & Hp & Heq) H. unfold drain in H. apply bind_Ok_inv in H as ( [ [reqs env'] s] & Hc & [= <-]). unfold consume_pending_requests in Hc.
  destruct (consume_loop_fifo a max_poll _ _ _ _ _ _ _ _ _ (Nat.le_refl _) Hc Hok eq_refl Hp He) as (used & Eenv & -> & H3 & H4 & H5).
  assert (pending (w_bridge (sw s)) = []) as Hemp by (by apply pending_empty). split; [|done]. split; [done|]. cbn. split; [by rewrite Hemp|].
  rewrite Hemp, app_nil_r, app_assoc, Heq, <- app_assoc. do 3 f_equal. rewrite Eenv, length_app.
  replace (length used + length env' - length env')%nat with (length used) by lia. by rewrite take_app_length.
Qed.

Lemma handle_ready_in_order {laws : BackendLaws D} before events : forall l l', Forall ready_wf events -> in_order before l ->
  handle_ready events l = Ok l' -> in_order before l'.
Proof.
  induction events as [|r events IH]; intros l l' Hw Hl H; cbn in H; [by simplify_eq|]. apply Forall_cons in Hw as [Hr Hw].
  destruct r as [whole|whole env|]; [destruct whole; [by simplify_eq|by eapply IH]| |by eapply IH].
  destruct whole; cbn [negb] in H; [|by eapply IH]. apply bind_Ok_inv in H as (l1 & Hd & H). eapply IH; [done| |exact H].
  by apply (drain_in_order before) in Hd as [? _].
Qed.

Lemma pushed_in_order before reqs l l' : Forall req_wf reqs -> in_order before l -> pushed_asleep reqs l = Ok l' -> in_order before l' /\ closed l' = closed l.
Proof.
  intros Hr (Hok & Hp & Heq) H. unfold pushed_asleep in H. apply bind_Ok_inv in H as (s & Ho & [= <-]).
  apply observe_spec in Ho as (Hok' & Hp' & _ & _); [|done]. split; [|done]. split; [done|]. cbn. rewrite Hp'. split; [by apply Forall_app|].
  by rewrite !app_assoc, Heq.
Qed.

Lemma request_loop_in_order {laws : BackendLaws D} before waits : forall l l', Forall wait_wf waits -> in_order before l ->
  request_loop waits l = Ok l' -> in_order before l'.
Proof.
  induction waits as [|[pushed w] waits IH]; intros l l' Hw Hl H; cbn in H; [by simplify_eq|]. apply Forall_cons in Hw as [ [Hp Hr] Hw].
  apply bind_Ok_inv in H as (l1 & H1 & H). apply (pushed_in_order before) in H1 as [H1 _]; [|done|done]. cbn in Hr.
  destruct w as [eintr|events]; [destruct eintr; [by eapply IH|by simplify_eq]|]. apply bind_Ok_inv in H as (l2 & H2 & H).
  eapply handle_ready_in_order in H2; [|done|exact H1]. destruct (closed l2); [by simplify_eq|by eapply IH].
Qed.

(** ** Theorems *)

(** C11: However often the daemon sleeps, is interrupted and is woken, the requests
    it has handled are a prefix of those that were waiting when it started followed
    by those that arrived since, in order of arrival, and the rest is in the ring:
    none is lost, repeated or reordered. *)
Theorem request_loop_fifo {laws : BackendLaws D} env waits s l :
  req_ring_ok (w_bridge (sw s)) -> Forall req_wf (pending (w_bridge (sw s))) -> Forall (Forall req_wf) env -> Forall wait_wf waits ->
  handle_virtio_requests env waits s = Ok l ->
  pending (w_bridge (sw s)) ++ arrived l = handled l ++ pending (w_bridge (sw (sys l))).
Proof.
  intros Hok Hp He Hw H. unfold handle_virtio_requests in H. apply bind_Ok_inv in H as (l0 & H0 & H).
  assert (in_order (pending (w_bridge (sw s))) l0) as Hl0; [|by eapply request_loop_in_order in H as (_ & _ & ?)].
  unfold enter_loop in H0. destruct a eqn:Ea; try (injection H0 as <-; split; [done|]; split; [done|]; by rewrite app_nil_r).
  eapply drain_in_order in H0 as [? _]; [done|done|]. split; [done|]. split; [done|]. by rewrite app_nil_r.
Qed.

(** A kick that is read leaves nothing behind: once it is handled the ring is empty
    and the hypervisor has been asked to announce the next request. *)
Theorem kick_drains {laws : BackendLaws D} env l l' :
  req_ring_ok (w_bridge (sw (sys l))) -> Forall req_wf (pending (w_bridge (sw (sys l)))) -> Forall (Forall req_wf) env ->
  handle_ready [ReadyKick true env] l = Ok l' -> pending (w_bridge (sw (sys l'))) = [] /\ need_wakeup (w_bridge (sw (sys l'))) = 1.
Proof.
  intros Hok Hp He H. cbn in H. apply bind_Ok_inv in H as (l1 & Hd & [= <-]). unfold drain in Hd. apply bind_Ok_inv in Hd as ( [ [reqs env'] s] & Hc & [= <-]).
  destruct (consume_loop_fifo a max_poll _ _ _ _ _ _ _ _ _ (Nat.le_refl _) Hc Hok eq_refl Hp He) as (used & _ & _ & H3 & H4 & _).
  split; [by apply pending_empty|done].
Qed.

End loop.

(** ** Witnesses *)

#[local] Existing Instance vring_event_std.
#[local] Existing Instance idle_backends.
#[local] Existing Instance idle_laws.

(** One request waits; a second is pushed while the daemon sleeps, an interruption
    and a kick wake it, a third is pushed during the drain, then a signal arrives. *)
Definition waits0 : list (list device_req * wait_result) :=
  [([req_stray], WaitError true); ([], WaitReady [ReadyOther; ReadyKick true [[]; [req_stray]; []; []; []; []] ]); ([], WaitReady [ReadySignal true])].

Lemma waits0_wf : Forall wait_wf waits0.
Proof.
  repeat constructor; vm_compute; discriminate.
Qed.

Lemma run_waits0 : exists l, handle_virtio_requests ARM64 2 [] waits0 sys0 = Ok l /\ closed l = true /\ handled l = [req_num; req_stray; req_stray].
Proof. eexists. split; [|split]; vm_compute; reflexivity. Qed.

Lemma request_loop_fifo_witness : exists l, handle_virtio_requests ARM64 2 [] waits0 sys0 = Ok l /\ handled l = [req_num; req_stray; req_stray] /\
  pending (w_bridge (sw sys0)) ++ arrived l = handled l ++ pending (w_bridge (sw (sys l))).
Proof.
  destruct run_waits0 as (l & H & _ & Hh). exists l. split; [exact H|]. split; [exact Hh|].
  exact (request_loop_fifo ARM64 2 [] waits0 sys0 l (proj1 sys0_ring) (proj2 sys0_ring) (List.Forall_nil _) waits0_wf H).
Defined.

Lemma run_kick0 : exists l, handle_ready ARM64 2 [ReadyKick true [[]; []; []; []] ] {| closed := false; arrived := []; handled := []; sys := sys0 |} = Ok l.
Proof. eexists. vm_compute. reflexivity. Qed.

Lemma kick_drains_witness : exists l, handle_ready ARM64 2 [ReadyKick true [[]; []; []; []] ] {| closed := false; arrived := []; handled := []; sys := sys0 |} = Ok l /\
  pending (w_bridge (sw (sys l))) = [] /\ need_wakeup (w_bridge (sw (sys l))) = 1.
Proof.
  destruct run_kick0 as (l & H). exists l. split; [exact H|].
  refine (kick_drains ARM64 2 [[]; []; []; []] {| closed := false; arrived := []; handled := []; sys := sys0 |} l (proj1 sys0_ring) (proj2 sys0_ring) _ H).
  repeat constructor.
Defined.
