(* ===== verification/Blk.v ===== *)
(** * virtio-blk request processing

    [blk_do_read], [blk_do_write], [blk_do_flush], [blk_do_get_id], [blk_complete],
    [virtq_blk_handle_one_request] and the drain loop of [blkproc_thread]
    ([tools/virtio/devices/blk/virtio_blk.c]).  The backing image is a byte string;
    each vectored system call on it takes one answer of the environment: a
    failure with its errno, or a bound on the bytes transferred (short transfers
    included).  Request constants and the request header layout are those of
    <linux/virtio_blk.h>. *)

From S2P Require Import Prelude Memory ZoneMem Virtqueue Device Ring Interrupt IoVec.

Definition VIRTQUEUE_BLK_MAX_SIZE : Z := 512.
Definition BLK_SEG_MAX : Z := 510.
Definition SECTOR_BSIZE : Z := 512.

Definition VIRTIO_BLK_T_IN : Z := 0.
Definition VIRTIO_BLK_T_OUT : Z := 1.
Definition VIRTIO_BLK_T_FLUSH : Z := 4.
Definition VIRTIO_BLK_T_GET_ID : Z := 8.
Definition VIRTIO_BLK_S_OK : Z := 0.
Definition VIRTIO_BLK_S_IOERR : Z := 1.
Definition VIRTIO_BLK_S_UNSUPP : Z := 2.

(** ** The backing image *)

Record backing := {
  disk : list Z;
  io : list (Z * Z);   (* answers to come: (n, errno), n < 0 is a failure *)
}.

(** The bytes [off, off + n) of the image that exist. *)
Definition disk_read (dk : list Z) (off n : nat) : list Z := take n (drop off dk).

(** The image with [data] at [off], extended with zeros if it was shorter. *)
Definition disk_write (dk : list Z) (off : nat) (data : list Z) : list Z :=
  take off (dk ++ replicate (off - length dk) 0) ++ data ++ drop (off + length data) dk.

(** Return value ([-1] on failure), errno, memory, image. *)
Definition preadv (bk : backing) (m : hmem) (v : list iovec) (off : Z) : result (Z * Z * hmem * backing) :=
  match io bk with
  | [] => Err EnvExhausted
  | (n, e) :: rest =>
      let bk1 := {| disk := disk bk; io := rest |} in
      if n <? 0 then Ok (-1, e, m, bk1)
      else if 2 ^ 63 <=? off then Ok (-1, EINVAL, m, bk1)
      else
        let data := disk_read (disk bk) (Z.to_nat off) (Z.to_nat (n `min` iov_total v)) in
        match scatter m v data with
        | Ok m1 => Ok (Z.of_nat (length data), 0, m1, bk1)
        | Err _ => Ok (-1, EFAULT, m, bk1)
        end
  end.

Definition pwritev (bk : backing) (m : hmem) (v : list iovec) (off : Z) : result (Z * Z * backing) :=
  match io bk with
  | [] => Err EnvExhausted
  | (n, e) :: rest =>
      let bk1 := {| disk := disk bk; io := rest |} in
      if n <? 0 then Ok (-1, e, bk1)
      else if 2 ^ 63 <=? off then Ok (-1, EINVAL, bk1)
      else
        match gather m v (Z.to_nat (n `min` iov_total v)) with
        | Ok data => Ok (Z.of_nat (length data), 0, {| disk := disk_write (disk bk) (Z.to_nat off) data; io := rest |})
        | Err _ => Ok (-1, EFAULT, bk1)
        end
  end.

Definition fdatasync (bk : backing) : result (Z * Z * backing) :=
  match io bk with
  | [] => Err EnvExhausted
  | (n, e) :: rest => Ok (if n <? 0 then -1 else 0, e, {| disk := disk bk; io := rest |})
  end.

(** ** Operations *)

(** Error code, bytes read, memory, image. *)
Definition blk_do_read (bk : backing) (m : hmem) (v : list iovec) (off : Z) : result (Z * Z * hmem * backing) :=
  '(n, errno, m1, bk1) ← preadv bk m v off;
  if n <? 0 then Ok (errno, 0, m1, bk1) else Ok (0, n, m1, bk1).

Definition blk_do_write (bk : backing) (m : hmem) (v : list iovec) (off : Z) : result (Z * backing) :=
  '(n, errno, bk1) ← pwritev bk m v off;
  if n <? 0 then Ok (errno, bk1) else Ok (0, bk1).

Definition blk_do_flush (bk : backing) : result (Z * backing) :=
  '(n, errno, bk1) ← fdatasync bk;
  if n <? 0 then Ok (errno, bk1) else Ok (0, bk1).

(** The bytes of "hvisor-virblk". *)
Definition blk_id : list Z := [104; 118; 105; 115; 111; 114; 45; 118; 105; 114; 98; 108; 107].

(** [snprintf] of the id into the first writable buffer: as many characters as
    fit before the terminating NUL. *)
Definition blk_do_get_id (m : hmem) (v : iovec) : result (Z * hmem) :=
  let n := Z.of_nat (length blk_id) in
  m1 ← (if iov_len v =? 0 then Ok m
        else store_bytes m (iov_base v) (take (Z.to_nat (iov_len v - 1)) blk_id ++ [0]));
  Ok ((n + 1) `min` iov_len v, m1).

(** [st] is the address of the status byte, 0 for NULL. *)
Definition blk_complete (m : hmem) (vq : VirtQueue) (idx st err wlen : Z) : result hmem :=
  m1 ← (if st =? 0 then Ok m
        else store 1 m st (if err =? 0 then VIRTIO_BLK_S_OK
                           else if err =? EOPNOTSUPP then VIRTIO_BLK_S_UNSUPP else VIRTIO_BLK_S_IOERR));
  update_used_ring m1 vq idx (u32 (wlen + 1)).

Definition blk_buf_config : VirtioBufConfig :=
  {| max_out := VIRTQUEUE_BLK_MAX_SIZE; max_in := VIRTQUEUE_BLK_MAX_SIZE |}.

(** The layout checks on a parsed request: header first, status byte last. *)
Definition blk_layout_ok (r : VirtioRequest) : bool :=
  let n := out_count r + in_count r in
  negb ((n <? 2) || (VIRTQUEUE_BLK_MAX_SIZE <? n)) &&
  match head (out_iov r) with Some h => iov_len h =? 16 | None => false end &&
  match last (in_iov r) with Some s => iov_len s =? 1 | None => false end.

(** The [switch] over the request type: error, length, memory, image. *)
Definition blk_execute (bk : backing) (m : hmem) (r : VirtioRequest) (hdr t : Z) :
    result (Z * Z * hmem * backing) :=
  if t =? VIRTIO_BLK_T_IN then
    sector ← load 8 m (hdr + 8);
    blk_do_read bk m (removelast (in_iov r)) (u64 (sector * SECTOR_BSIZE))
  else if t =? VIRTIO_BLK_T_OUT then
    sector ← load 8 m (hdr + 8);
    '(err, bk1) ← blk_do_write bk m (tail (out_iov r)) (u64 (sector * SECTOR_BSIZE));
    Ok (err, 0, m, bk1)
  else if t =? VIRTIO_BLK_T_FLUSH then '(err, bk1) ← blk_do_flush bk; Ok (err, 0, m, bk1)
  else if t =? VIRTIO_BLK_T_GET_ID then
    v ← of_index (head (in_iov r)); '(wlen, m1) ← blk_do_get_id m v; Ok (0, wlen, m1, bk)
  else Ok (EOPNOTSUPP, 0, m, bk).

Definition virtq_blk_handle_one_request (m : hmem) (zt : zone_table) (zone_id : Z) (bk : backing) (vq : VirtQueue) :
    result (VirtQueue * hmem * backing) :=
  desc_idx ← next_avail_head m vq;
  '(vq1, o) ← process_descriptor_chain_buf m zt zone_id vq desc_idx blk_buf_config;
  match o with
  | None =>
      let vq2 := set_last_avail_idx (u16 (last_avail_idx vq1 + 1)) vq1 in
      m1 ← blk_complete m vq2 desc_idx 0 EIO 0; Ok (vq2, m1, bk)
  | Some r =>
      if out_count r + in_count r <=? 0 then
        let vq2 := set_last_avail_idx (u16 (last_avail_idx vq1 + 1)) vq1 in
        m1 ← blk_complete m vq2 desc_idx 0 EIO 0; Ok (vq2, m1, bk)
      else if negb (blk_layout_ok r) then m1 ← blk_complete m vq1 desc_idx 0 EIO 0; Ok (vq1, m1, bk)
      else
        h ← of_index (head (out_iov r));
        s ← of_index (last (in_iov r));
        t ← load 4 m (iov_base h);
        if negb (if t =? VIRTIO_BLK_T_OUT then in_count r =? 1 else out_count r =? 1)
        then m1 ← blk_complete m vq1 desc_idx 0 EIO 0; Ok (vq1, m1, bk)
        else
          '(err, wlen, m1, bk1) ← blk_execute bk m r (iov_base h) t;
          m2 ← blk_complete m1 vq1 desc_idx (iov_base s) err wlen;
          Ok (vq1, m2, bk1)
  end.

(** ** The worker's drain loop *)

(** [while (!vq_is_empty(vq)) virtq_blk_handle_one_request(dev, vq)] *)
Fixpoint blk_process (fuel : nat) (m : hmem) (zt : zone_table) (zone_id : Z) (bk : backing) (vq : VirtQueue) :
    result (VirtQueue * hmem * backing) :=
  match fuel with
  | O => Err OutOfFuel
  | S fuel' =>
      e ← vq_is_empty m vq;
      if (e : bool) then Ok (vq, m, bk)
      else
        '(vq1, m1, bk1) ← virtq_blk_handle_one_request m zt zone_id bk vq;
        blk_process fuel' m1 zt zone_id bk1 vq1
  end.

(** The [do ... while] of disable-notify, process, enable-notify. *)
Fixpoint blk_drain (fuel : nat) (m : hmem) (zt : zone_table) (zone_id : Z) (bk : backing) (vq : VirtQueue) :
    result (VirtQueue * hmem * backing) :=
  match fuel with
  | O => Err OutOfFuel
  | S fuel' =>
      m1 ← virtqueue_disable_notify m vq;
      '(vq1, m2, bk1) ← blk_process fuel m1 zt zone_id bk vq;
      m3 ← virtqueue_enable_notify m2 vq1;
      e ← vq_is_empty m3 vq1;
      if (e : bool) then Ok (vq1, m3, bk1) else blk_drain fuel' m3 zt zone_id bk1 vq1
  end.

(** ** Lemmas *)

(** The rings and everything else of a queue but [last_avail_idx]. *)
Definition same_rings (vq vq' : VirtQueue) : Prop := vq' = set_last_avail_idx (last_avail_idx vq') vq.

Definition request_bufs_ok (r : VirtioRequest) : Prop := bufs_ok (out_iov r) /\ bufs_ok (in_iov r).

Lemma good_bufs_ok zt z cfg r : good zt z cfg r -> request_bufs_ok r.
Proof.
  intros [_ H]. apply Forall_app in H as [H1 H2]. split; eapply Forall_impl; [exact H1| |exact H2|];
    intros v (_ & _ & Hl); simpl in *; lia.
Qed.

Lemma in_removelast {A} (l : list A) x : x ∈ removelast l -> x ∈ l.
Proof.
  induction l as [|a l IH]; [done|]. simpl. destruct l as [|b l]; [by intros ?%elem_of_nil|].
  rewrite elem_of_cons. intros [->|H]; [by left|right; by apply IH].
Qed.

Lemma preadv_same_but bk m v off n e m' bk' :
  bufs_ok v -> preadv bk m v off = Ok (n, e, m', bk') -> same_but v m m' /\ disk bk' = disk bk.
Proof.
  unfold preadv. intros Hv H. destruct (io bk) as [|[k er] rest]; [done|].
  destruct (k <? 0); [by injection H as <- <- <- <-|]. destruct (_ <=? off); [by injection H as <- <- <- <-|].
  destruct (scatter m v _) as [m1|] eqn:E; injection H as <- <- <- <-; [|done].
  split; [by eapply scatter_same_but|done].
Qed.

(** Executing a request writes only its device-writable buffers. *)
Lemma blk_execute_frame bk m r hdr t err wlen m1 bk1 :
  request_bufs_ok r -> blk_execute bk m r hdr t = Ok (err, wlen, m1, bk1) ->
  same_but (in_iov r) m m1 /\ (t <> VIRTIO_BLK_T_OUT -> disk bk1 = disk bk).
Proof.
  unfold blk_execute. intros [_ Hin] H.
  destruct (t =? VIRTIO_BLK_T_IN).
  { apply bind_Ok_inv in H as (sec & _ & H). unfold blk_do_read in H.
    apply bind_Ok_inv in H as ([[[n e] m2] bk2] & H1 & H).
    apply preadv_same_but in H1 as [H1 H2].
    - destruct (n <? 0); injection H as <- <- <- <-; (split; [|done]);
        (eapply same_but_weaken; [|exact H1]; apply in_removelast).
    - apply Forall_forall. intros x Hx. eapply Forall_forall in Hin; [exact Hin|by apply in_removelast]. }
  destruct (t =? VIRTIO_BLK_T_OUT) eqn:Eo.
  { apply bind_Ok_inv in H as (sec & _ & H). apply bind_Ok_inv in H as ([e bk2] & _ & H). injection H as <- <- <- <-.
    split; [done|lia]. }
  destruct (t =? VIRTIO_BLK_T_FLUSH).
  { apply bind_Ok_inv in H as ([e bk2] & H1 & H). injection H as <- <- <- <-. split; [done|]. intros _.
    unfold blk_do_flush, fdatasync in H1. destruct (io bk) as [|[k er] rest]; [done|]. simpl in H1.
    destruct (k <? 0); simpl in H1; by injection H1 as <- <-. }
  destruct (t =? VIRTIO_BLK_T_GET_ID); [|by injection H as <- <- <- <-].
  apply bind_Ok_inv in H as (v & Hv & H). apply of_index_Ok_inv in Hv.
  apply bind_Ok_inv in H as ([n m2] & H1 & H). injection H as <- <- <- <-. split; [|done].
  unfold blk_do_get_id in H1. apply bind_Ok_inv in H1 as (m3 & H1 & H2). injection H2 as <- <-.
  assert (v ∈ in_iov r) as Hvin by (destruct (in_iov r); [done|]; injection Hv as <-; by left).
  pose proof (proj1 (Forall_forall _ _) Hin v Hvin) as Hlen. simpl in Hlen.
  destruct (iov_len v =? 0) eqn:E0; [by injection H1 as <-|].
  eapply store_bytes_same_but; [exact H1|exact Hvin|lia|]. rewrite length_app, length_take. simpl. lia.
Qed.

(** Completion: the status byte, then one used-ring element. *)
Lemma blk_complete_inv m vq idx st err wlen m' :
  blk_complete m vq idx st err wlen = Ok m' ->
  exists m1, update_used_ring m1 vq idx (u32 (wlen + 1)) = Ok m' /\
    (if st =? 0 then m1 = m
     else store 1 m st (if err =? 0 then VIRTIO_BLK_S_OK
                        else if err =? EOPNOTSUPP then VIRTIO_BLK_S_UNSUPP else VIRTIO_BLK_S_IOERR) = Ok m1).
Proof.
  unfold blk_complete. intros H. apply bind_Ok_inv in H as (m1 & H1 & H). exists m1. split; [done|].
  destruct (st =? 0); [by injection H1 as <-|done].
Qed.

Lemma disk_read_write dk off data : disk_read (disk_write dk off data) off (length data) = data.
Proof.
  unfold disk_read, disk_write.
  assert (length (take off (dk ++ replicate (off - length dk) 0)) = off) as Hl.
  { rewrite length_take, length_app, length_replicate. lia. }
  rewrite drop_app_length' by done. by rewrite take_app_length'.
Qed.

(** How far a request moves the available index: by one, but by two when the
    chain has no buffer. *)
Definition avail_advance (o : option VirtioRequest) : Z :=
  match o with
  | Some r => if out_count r + in_count r <=? 0 then 2 else 1
  | None => 1
  end.

Definition blk_status (err : Z) : Z :=
  if err =? 0 then VIRTIO_BLK_S_OK else if err =? EOPNOTSUPP then VIRTIO_BLK_S_UNSUPP else VIRTIO_BLK_S_IOERR.

(** The request was executed: header [h], status buffer [s], type [t], outcome. *)
Record blk_executed (m : hmem) (bk : backing) (vq : VirtQueue) (hd : Z) (r : VirtioRequest)
    (s : iovec) (t err wlen : Z) (m' : hmem) (bk' : backing) : Prop := {
  ex_layout : blk_layout_ok r = true;
  ex_status_buf : last (in_iov r) = Some s;
  ex_dir : (if t =? VIRTIO_BLK_T_OUT then in_count r =? 1 else out_count r =? 1) = true;
  ex_run : exists h m1 m2, head (out_iov r) = Some h /\ load 4 m (iov_base h) = Ok t /\
    blk_execute bk m r (iov_base h) t = Ok (err, wlen, m1, bk') /\
    (if iov_base s =? 0 then m2 = m1 else store 1 m1 (iov_base s) (blk_status err) = Ok m2) /\
    update_used_ring m2 vq hd (u32 (wlen + 1)) = Ok m';
}.

Lemma blk_layout_status r s : blk_layout_ok r = true -> last (in_iov r) = Some s -> iov_len s = 1.
Proof. unfold blk_layout_ok. intros H Hs. rewrite Hs in H. lia. Qed.

Lemma blk_handle_cases m zt z bk vq vq' m' bk' :
  virtq_blk_handle_one_request m zt z bk vq = Ok (vq', m', bk') ->
  exists hd vq1 o, next_avail_head m vq = Ok hd /\
    process_descriptor_chain_buf m zt z vq hd blk_buf_config = Ok (vq1, o) /\
    vq' = set_last_avail_idx (u16 (last_avail_idx vq + avail_advance o)) vq /\
    match o with Some r => good zt z blk_buf_config r | None => True end /\
    ((update_used_ring m vq hd 1 = Ok m' /\ bk' = bk) \/
     exists r s t err wlen, o = Some r /\ blk_executed m bk vq hd r s t err wlen m' bk').
Proof.
  unfold virtq_blk_handle_one_request. intros H.
  apply bind_Ok_inv in H as (hd & Hhd & H). apply bind_Ok_inv in H as ([vq1 o] & Hp & H).
  pose proof (process_descriptor_chain_buf_inv _ _ _ _ _ blk_buf_config _ _ ltac:(done) ltac:(done) Hp) as Hinv.
  exists hd, vq1, o. split; [done|]. split; [done|].
  assert (Hrej : forall vq2 (e : result (VirtQueue * hmem * backing)),
    (m1 ← blk_complete m vq2 hd 0 EIO 0; Ok (vq2, m1, bk)) = Ok (vq', m', bk') -> same_rings vq vq2 ->
    vq' = vq2 /\ update_used_ring m vq hd 1 = Ok m' /\ bk' = bk).
  { intros vq2 _ H' Hs. apply bind_Ok_inv in H' as (m1 & H1 & H'). injection H' as <- <- <-.
    apply blk_complete_inv in H1 as (m2 & H1 & ->). rewrite Hs in H1.
    split; [done|]. split; [exact H1|done]. }
  destruct o as [r|]; [destruct Hinv as [Hg ->]|subst vq1].
  2: { apply Hrej in H as (-> & H1 & H2); [|exact (Err OutOfFuel)|done]. simpl. auto. }
  unfold avail_advance. destruct (out_count r + in_count r <=? 0).
  { apply Hrej in H as (-> & H1 & H2); [|exact (Err OutOfFuel)|done]. simpl. split; [|by auto].
    unfold set_last_avail_idx. simpl. f_equal. unfold u16. rewrite Zplus_mod_idemp_l. f_equal. lia. }
  destruct (negb (blk_layout_ok r)) eqn:El.
  { apply Hrej in H as (-> & H1 & H2); [|exact (Err OutOfFuel)|done]. simpl. auto. }
  apply bind_Ok_inv in H as (h & Hh & H). apply of_index_Ok_inv in Hh.
  apply bind_Ok_inv in H as (s & Hs & H). apply of_index_Ok_inv in Hs. apply bind_Ok_inv in H as (t & Ht & H).
  destruct (if t =? VIRTIO_BLK_T_OUT then _ else _) eqn:Ed; cbn [negb] in H.
  2: { apply Hrej in H as (-> & H1 & H2); [|exact (Err OutOfFuel)|done]. simpl. auto. }
  apply bind_Ok_inv in H as ([[[err wlen] m1] bk1] & He & H). apply bind_Ok_inv in H as (m2 & H1 & H).
  injection H as <- <- <-. split; [done|]. split; [done|]. right. exists r, s, t, err, wlen. split; [done|].
  apply blk_complete_inv in H1 as (m3 & H1 & Hst). split; [by apply negb_false_iff|done|done|].
  exists h, m1, m3. auto 10.
Qed.

(** ** Theorems *)

(** Every request the worker takes off the queue is completed exactly once.
    Whatever the guest put in the descriptors, the processing that returns has
    pushed one used-ring element, with the request's head as id; before that it
    has changed guest memory only inside the request's device-writable buffers,
    all of which start in the guest's own zone; and the image only changes for a
    write request.  The available index advances by one, unless the chain has
    no buffer at all, in which case it advances by two. *)
Theorem blk_request_completed_once m zt z bk vq vq' m' bk' :
  virtq_blk_handle_one_request m zt z bk vq = Ok (vq', m', bk') ->
  exists head vq1 o bufs m1 len,
    next_avail_head m vq = Ok head /\
    process_descriptor_chain_buf m zt z vq head blk_buf_config = Ok (vq1, o) /\
    bufs = match o with Some r => in_iov r | None => [] end /\
    vq' = set_last_avail_idx (u16 (last_avail_idx vq + avail_advance o)) vq /\
    Forall (zone_buffer zt z) bufs /\ same_but bufs m m1 /\
    update_used_ring m1 vq head len = Ok m' /\
    (disk bk' = disk bk \/ exists r h, o = Some r /\ List.head (out_iov r) = Some h /\
                          load 4 m (iov_base h) = Ok VIRTIO_BLK_T_OUT).
Proof.
  intros H. apply blk_handle_cases in H as (hd & vq1 & o & Hhd & Hp & Hvq & Hg & Hcase).
  assert (Forall (zone_buffer zt z) (match o with Some r => in_iov r | None => [] end)) as Hz.
  { destruct o as [r|]; [|by constructor]. destruct Hg as [_ Hg]. by apply Forall_app in Hg as [_ ?]. }
  destruct Hcase as [[Hu ->]|(r & s & t & err & wlen & -> & [Hly Hs _ (h & m1 & m2 & Hh & Ht & He & Hst & Hu)])].
  { exists hd, vq1, o, (match o with Some r => in_iov r | None => [] end), m, 1. repeat (split; [done|]). by left. }
  exists hd, vq1, (Some r), (in_iov r), m2, (u32 (wlen + 1)). do 5 (split; [done|]).
  apply blk_execute_frame in He as [Hf Hd]; [|by eapply good_bufs_ok]. split; [|split; [done|]].
  - transitivity m1; [done|]. destruct (iov_base s =? 0); [by subst m2|].
    assert (s ∈ in_iov r) as Hin by (by apply last_Some_elem_of).
    rewrite Forall_forall in Hz. destruct (Hz s Hin) as (_ & _ & Hl).
    eapply store_same_but; [exact Hst|exact Hin|lia|]. rewrite (blk_layout_status r s) by done. simpl. lia.
  - destruct (decide (t = VIRTIO_BLK_T_OUT)) as [->|Hne]; [right; eauto|left; auto].
Qed.

(** Status byte and used length for the outcome of a system call that moves data
    to the guest ([n] bytes, negative for a failure with [errno]), or of one that
    does not. *)
Definition outcome (n errno moved st len : Z) : Prop :=
  (0 <= n -> st = VIRTIO_BLK_S_OK /\ len = u32 (moved + 1)) /\
  (n < 0 -> st = (if errno =? EOPNOTSUPP then VIRTIO_BLK_S_UNSUPP else VIRTIO_BLK_S_IOERR) /\ len = 1).

Lemma outcome_of n errno moved : (n < 0 -> errno <> 0) ->
  outcome n errno moved (blk_status (if n <? 0 then errno else 0)) (u32 ((if n <? 0 then 0 else moved) + 1)).
Proof.
  intros He. unfold outcome, blk_status. split; intros Hn.
  - by replace (n <? 0) with false by lia.
  - replace (n <? 0) with true by lia. by replace (errno =? 0) with false by (specialize (He Hn); lia).
Qed.

(** What a request of type [t] asks of the kernel and what it is told: the bytes
    moved for a read, nothing but success for a write or flush. *)
Definition reported (bk bk' : backing) (m : hmem) (r : VirtioRequest) (hdr t st len : Z) : Prop :=
  if t =? VIRTIO_BLK_T_IN then exists sector n errno m1,
    load 8 m (hdr + 8) = Ok sector /\ preadv bk m (removelast (in_iov r)) (u64 (sector * 512)) = Ok (n, errno, m1, bk') /\ outcome n errno n st len
  else if t =? VIRTIO_BLK_T_OUT then exists sector n errno,
    load 8 m (hdr + 8) = Ok sector /\ pwritev bk m (tail (out_iov r)) (u64 (sector * 512)) = Ok (n, errno, bk') /\ outcome n errno 0 st len
  else if t =? VIRTIO_BLK_T_FLUSH then exists n errno, fdatasync bk = Ok (n, errno, bk') /\ outcome n errno 0 st len
  else if t =? VIRTIO_BLK_T_GET_ID then exists v, head (in_iov r) = Some v /\ st = VIRTIO_BLK_S_OK /\ len = u32 (14 `min` iov_len v + 1) /\ bk' = bk
  else st = VIRTIO_BLK_S_UNSUPP /\ len = 1 /\ bk' = bk.

(** The answers of a system call that fails carry an error number. *)
Definition errors_ok (l : list (Z * Z)) : Prop := Forall (fun a => a.1 < 0 -> a.2 <> 0) l.

Lemma execute_reported bk bk' m r hdr t err wlen m1 :
  errors_ok (io bk) -> blk_execute bk m r hdr t = Ok (err, wlen, m1, bk') -> reported bk bk' m r hdr t (blk_status err) (u32 (wlen + 1)).
Proof.
  intros Ha H. unfold blk_execute in H. unfold reported.
  assert (forall n e rest, io bk = (n, e) :: rest -> n < 0 -> e <> 0) as Hhd.
  { intros n e rest E. unfold errors_ok in Ha. rewrite E in Ha. by apply Forall_cons_1 in Ha as [Ha _]. }
  destruct (t =? VIRTIO_BLK_T_IN).
  { apply bind_Ok_inv in H as (sector & Hsec & H). unfold blk_do_read in H. apply bind_Ok_inv in H as ([[[n e] m2] bk2] & Hp & H).
    exists sector, n, e, m2. change 512 with SECTOR_BSIZE.
    assert (n < 0 -> e <> 0) as He.
    { unfold preadv in Hp. destruct (io bk) as [|[n0 e0] rest] eqn:Eio; [done|]. specialize (Hhd _ _ _ eq_refl).
      destruct (n0 <? 0) eqn:En; [injection Hp as <- <- _ _; lia|]. destruct (_ <=? _); [by injection Hp as <- <- _ _|].
      destruct (scatter _ _ _); injection Hp as <- <- _ _; [lia|done]. }
    pose proof (outcome_of n e n He) as Ho. destruct (n <? 0) eqn:En; injection H as <- <- <- <-; auto. }
  destruct (t =? VIRTIO_BLK_T_OUT).
  { apply bind_Ok_inv in H as (sector & Hsec & H). apply bind_Ok_inv in H as ([e2 bk1] & Hw & H). injection H as <- <- <- <-.
    unfold blk_do_write in Hw. apply bind_Ok_inv in Hw as ([[n e] bk2] & Hp & Hw). exists sector, n, e. change 512 with SECTOR_BSIZE.
    assert (n < 0 -> e <> 0) as He.
    { unfold pwritev in Hp. destruct (io bk) as [|[n0 e0] rest] eqn:Eio; [done|]. specialize (Hhd _ _ _ eq_refl).
      destruct (n0 <? 0) eqn:En; [injection Hp as <- <- _; lia|]. destruct (_ <=? _); [by injection Hp as <- <- _|].
      destruct (gather _ _ _); injection Hp as <- <- _; [lia|done]. }
    pose proof (outcome_of n e 0 He) as Ho. destruct (n <? 0) eqn:En; injection Hw as <- <-; auto. }
  destruct (t =? VIRTIO_BLK_T_FLUSH).
  { apply bind_Ok_inv in H as ([e2 bk1] & Hw & H). injection H as <- <- <- <-.
    unfold blk_do_flush in Hw. apply bind_Ok_inv in Hw as ([[n e] bk2] & Hp & Hw). exists n, e.
    assert (n < 0 -> e <> 0) as He.
    { unfold fdatasync in Hp. destruct (io bk) as [|[n0 e0] rest] eqn:Eio; [done|]. specialize (Hhd _ _ _ eq_refl).
      injection Hp as <- <- _. destruct (n0 <? 0) eqn:En; lia. }
    pose proof (outcome_of n e 0 He) as Ho. destruct (n <? 0) eqn:En; injection Hw as <- <-; auto. }
  destruct (t =? VIRTIO_BLK_T_GET_ID).
  { apply bind_Ok_inv in H as (v & Hv & H). apply of_index_Ok_inv in Hv. apply bind_Ok_inv in H as ([wl m2] & Hg & H).
    injection H as <- <- <- <-. unfold blk_do_get_id in Hg. apply bind_Ok_inv in Hg as (m3 & _ & Hg). injection Hg as <- <-. by exists v. }
  by injection H as <- <- <- <-.
Qed.

(** C23: the status byte tells the outcome.  For a request with a valid layout
    whose data lies on the side its type requires, the status buffer receives OK
    when the kernel's preadv, pwritev or fdatasync did not fail (a short transfer
    counts as success), UNSUPP or IOERR according to errno when it failed; the used
    element carries the number of bytes read plus the status byte, and 1 for a
    write, a flush or a failure.  GET_ID succeeds; an unknown type is UNSUPP and
    leaves the image alone. *)
Theorem blk_status_reported m zt z bk vq vq' m' bk' hd vq1 r h s t :
  errors_ok (io bk) -> next_avail_head m vq = Ok hd ->
  process_descriptor_chain_buf m zt z vq hd blk_buf_config = Ok (vq1, Some r) ->
  blk_layout_ok r = true -> head (out_iov r) = Some h -> last (in_iov r) = Some s ->
  load 4 m (iov_base h) = Ok t ->
  (if t =? VIRTIO_BLK_T_OUT then in_count r =? 1 else out_count r =? 1) = true ->
  virtq_blk_handle_one_request m zt z bk vq = Ok (vq', m', bk') ->
  exists st len m2, reported bk bk' m r (iov_base h) t st len /\
    load 1 m2 (iov_base s) = Ok st /\ update_used_ring m2 vq hd len = Ok m'.
Proof.
  intros Ha Hhd Hp Hly Hh Hs Ht Hd H. unfold virtq_blk_handle_one_request in H.
  pose proof (process_descriptor_chain_buf_inv _ _ _ _ _ blk_buf_config _ _ ltac:(done) ltac:(done) Hp) as [Hg Hvq1].
  assert (0 < out_count r + in_count r) as Hpos by (unfold blk_layout_ok in Hly; lia).
  rewrite Hhd in H. cbn [mbind result_bind] in H. rewrite Hp in H. cbn [mbind result_bind] in H.
  replace (out_count r + in_count r <=? 0) with false in H by lia. rewrite Hly, Hh, Hs in H.
  cbn [negb of_index mbind result_bind] in H. rewrite Ht in H. cbn [mbind result_bind] in H. rewrite Hd in H. cbn [negb] in H.
  apply bind_Ok_inv in H as ([[[err wlen] m1] bk1] & He & H). apply bind_Ok_inv in H as (m2 & H1 & H).
  injection H as <- <- <-. apply blk_complete_inv in H1 as (m3 & H1 & Hst).
  assert ((iov_base s =? 0) = false) as Hs0.
  { destruct Hg as [_ Hg]. apply Forall_app in Hg as [_ Hg]. rewrite Forall_forall in Hg.
    destruct (Hg s (last_Some_elem_of _ _ Hs)) as [? _]. lia. }
  rewrite Hs0 in Hst. exists (blk_status err), (u32 (wlen + 1)), m3. split; [by apply execute_reported in He|]. split.
  - fold (blk_status err) in Hst. rewrite (load_store_same _ _ _ _ _ Hst). f_equal.
    unfold blk_status. destruct (err =? 0), (err =? EOPNOTSUPP); done.
  - by rewrite Hvq1 in H1.
Qed.

(** What is written to the image is read back.  After a write request whose
    transfer the kernel did in full, a read request of the same sectors into
    buffers of the same total size (in any split, not overlapping) leaves there
    exactly the bytes the guest had in its write buffers. *)
Theorem blk_write_read_roundtrip bk m vw off bk1 m2 vr wlen m3 bk2 n1 e1 n2 e2 rest :
  io bk = (n1, e1) :: (n2, e2) :: rest -> iov_total vw <= n1 -> iov_total vr <= n2 -> 0 <= off < 2 ^ 63 ->
  bufs_ok vw -> bufs_ok vr -> bufs_apart vr -> iov_total vr = iov_total vw ->
  blk_do_write bk m vw off = Ok (0, bk1) ->
  blk_do_read bk1 m2 vr off = Ok (0, wlen, m3, bk2) ->
  gather m3 vr (Z.to_nat (iov_total vw)) = gather m vw (Z.to_nat (iov_total vw)).
Proof.
  intros Hio Hn1 Hn2 Hoff Hw Hr Hap Htot HW HR.
  pose proof (iov_total_nonneg vw Hw) as Ht0.
  unfold blk_do_write, pwritev in HW. rewrite Hio in HW. replace (n1 <? 0) with false in HW by lia.
  replace (2 ^ 63 <=? off) with false in HW by lia. rewrite Z.min_r in HW by lia.
  destruct (gather m vw _) as [data|] eqn:Eg; [|discriminate HW]. cbn [mbind result_bind] in HW.
  pose proof (gather_length _ _ _ _ Hw Eg) as Hd. rewrite Z2Nat.id, Z.min_id in Hd by lia.
  replace (Z.of_nat (length data) <? 0) with false in HW by lia. injection HW as <-.
  unfold blk_do_read, preadv in HR. simpl in HR. replace (n2 <? 0) with false in HR by lia.
  replace (2 ^ 63 <=? off) with false in HR by lia. rewrite Z.min_r, Htot in HR by lia.
  replace (Z.to_nat (iov_total vw)) with (length data) in * by lia. rewrite disk_read_write in HR.
  destruct (scatter m2 vr data) as [m4|] eqn:Es; [|discriminate HR]. simpl in HR.
  replace (Z.of_nat (length data) <? 0) with false in HR by lia. injection HR as _ <- <-.
  rewrite (gather_scatter vr m2 data m4) by (done || lia). f_equal. by eapply gather_bytes.
Qed.

(** A class of states in which the worker can serve the head of the queue, one
    available entry at a time, without the guest touching the available ring. *)
Definition blk_serves (zt : zone_table) (z : Z) (P : hmem -> backing -> VirtQueue -> Prop) : Prop :=
  forall m bk vq i, P m bk vq -> avail_idx m vq = Ok i -> i <> last_avail_idx vq ->
  exists vq' m' bk', virtq_blk_handle_one_request m zt z bk vq = Ok (vq', m', bk') /\ P m' bk' vq' /\
    avail_ring vq' <> 0 /\ avail_idx m' vq' = Ok i /\ last_avail_idx vq' = u16 (last_avail_idx vq + 1).

(** The inner loop of the worker stops after exactly the outstanding
    requests.  If every outstanding request can be served without disturbing
    the available ring, then with the difference of the two 16-bit indices (plus
    the final test) as fuel the loop returns, with nothing outstanding. *)
Theorem blk_process_drains zt z P m bk vq i :
  blk_serves zt z P -> P m bk vq -> avail_ring vq <> 0 -> avail_idx m vq = Ok i ->
  0 <= last_avail_idx vq < 2 ^ 16 ->
  exists vq' m' bk', blk_process (S (Z.to_nat (u16 (i - last_avail_idx vq)))) m zt z bk vq = Ok (vq', m', bk') /\
    last_avail_idx vq' = i /\ P m' bk' vq' /\ vq_is_empty m' vq' = Ok true.
Proof.
  intros Hs HP Hr Hi Hl.
  assert (0 <= i < 2 ^ 16) as Hir by (exact (load_range _ _ _ _ Hi)).
  remember (Z.to_nat (u16 (i - last_avail_idx vq))) as k eqn:Hk.
  revert m bk vq HP Hr Hi Hl Hk. induction k as [|k IH]; intros m bk vq HP Hr Hi Hl Hk.
  - assert (i = last_avail_idx vq) as ->.
    { pose proof (u16_range (i - last_avail_idx vq)). unfold u16 in *.
      assert ((i - last_avail_idx vq) `mod` 2 ^ 16 = 0) as E by lia.
      apply Z.mod_divide in E as [q Hq]; lia. }
    assert (vq_is_empty m vq = Ok true) as He.
    { unfold vq_is_empty. replace (avail_ring vq =? 0) with false by lia. rewrite Hi. simpl. by rewrite Z.eqb_refl. }
    exists vq, m, bk. cbn [blk_process]. rewrite He. done.
  - assert (i <> last_avail_idx vq) as Hne by (intros ->; rewrite Z.sub_diag in Hk; discriminate Hk).
    destruct (Hs m bk vq i HP Hi Hne) as (vq1 & m1 & bk1 & Hh & HP1 & Hr1 & Hi1 & Hl1).
    destruct (IH m1 bk1 vq1 HP1 Hr1 Hi1) as (vq' & m' & bk' & Hrun & Hrest).
    { rewrite Hl1. apply u16_range. }
    { rewrite Hl1. unfold u16 in *. rewrite Zminus_mod_idemp_r.
      replace (i - (last_avail_idx vq + 1)) with (i - last_avail_idx vq - 1) by lia.
      pose proof (Z.mod_pos_bound (i - last_avail_idx vq) (2 ^ 16) ltac:(lia)).
      rewrite <- Zminus_mod_idemp_l. rewrite Z.mod_small; lia. }
    exists vq', m', bk'. cbn [blk_process]. unfold vq_is_empty.
    replace (avail_ring vq =? 0) with false by lia. rewrite Hi. cbn [mbind result_bind].
    replace (i =? last_avail_idx vq) with false by lia. rewrite Hh. cbn [mbind result_bind]. done.
Qed.

(** A chain of one indirect descriptor whose table is shorter than one entry. *)
Definition mem_empty_indirect : hmem :=
  mem_with [(0x7000, 0x1000)] (desc_vals 0 0x4800 8 VRING_DESC_F_INDIRECT 0 ++ [(0x7102, 2%nat, 2)]).

(** A chain without buffers makes the worker skip the request after it.  On
    an indirect descriptor with a table shorter than one entry the available
    index moves by two while a single used element is pushed, so with two
    requests outstanding the queue looks empty after one completion. *)
Theorem blk_empty_chain_skips_request bk :
  exists m', virtq_blk_handle_one_request mem_empty_indirect table_ab 1 bk vq4 = Ok (set_last_avail_idx 2 vq4, m', bk) /\
    avail_idx mem_empty_indirect vq4 = Ok 2 /\ used_idx m' vq4 = Ok 1 /\
    vq_is_empty m' (set_last_avail_idx 2 vq4) = Ok true.
Proof. eexists. repeat split; vm_compute; reflexivity. Qed.

(** ** Example state and witnesses *)

(** A read of 512 bytes at sector 1: the chain of [mem4] with its header. *)
Definition mem_read : hmem := poke (poke mem4 0x7800 4 VIRTIO_BLK_T_IN) 0x7808 8 1.
Definition bk_sevens : backing := {| disk := replicate 1024 7; io := [(4096, 0)] |}.

Lemma blk_read_runs :
  exists vq' m' bk', virtq_blk_handle_one_request mem_read table_ab 1 bk_sevens vq4 = Ok (vq', m', bk').
Proof.
  assert (is_ok (virtq_blk_handle_one_request mem_read table_ab 1 bk_sevens vq4) = true) as H by (vm_compute; reflexivity).
  destruct (virtq_blk_handle_one_request mem_read table_ab 1 bk_sevens vq4) as [[[vq' m'] bk']|]; [eauto|discriminate H].
Qed.

Lemma blk_request_completed_once_witness :
  exists vq' m' bk' m1 len, virtq_blk_handle_one_request mem_read table_ab 1 bk_sevens vq4 = Ok (vq', m', bk') /\
    update_used_ring m1 vq4 0 len = Ok m'.
Proof.
  destruct blk_read_runs as (vq' & m' & bk' & H).
  destruct (blk_request_completed_once mem_read table_ab 1 bk_sevens vq4 vq' m' bk' H)
    as (hd & vq1 & o & bufs & m1 & len & Hhd & _ & _ & _ & _ & _ & Hu & _).
  assert (hd = 0) as -> by (vm_compute in Hhd; injection Hhd as <-; reflexivity).
  exists vq', m', bk', m1, len. split; [exact H|exact Hu].
Defined.

Lemma blk_status_reported_witness :
  exists vq' m' bk' st len m2, virtq_blk_handle_one_request mem_read table_ab 1 bk_sevens vq4 = Ok (vq', m', bk') /\
    reported bk_sevens bk' mem_read (split_request table_ab 1 chain4) 0x7800 VIRTIO_BLK_T_IN st len /\ load 1 m2 0x7b00 = Ok st.
Proof.
  destruct blk_read_runs as (vq' & m' & bk' & H).
  destruct (blk_status_reported mem_read table_ab 1 bk_sevens vq4 vq' m' bk' 0 (set_last_avail_idx 1 vq4)
    (split_request table_ab 1 chain4) {| iov_base := 0x7800; iov_len := 16 |} {| iov_base := 0x7b00; iov_len := 1 |} 0)
    as (st & len & m2 & Hr & Hst & _); [repeat constructor; simpl; lia|vm_compute; reflexivity..|exact H|].
  exists vq', m', bk', st, len, m2. split; [exact H|]. split; [exact Hr|exact Hst].
Defined.

Lemma blk_write_read_roundtrip_witness :
  let v := [{| iov_base := 0x7800; iov_len := 3 |}] in
  let bk := {| disk := replicate 16 0; io := [(9, 0); (9, 0)] |} in
  let m := mem_with [(0x7000, 0x1000)] [(0x7800, 3%nat, 0x30201)] in
  exists bk1 m3 bk2, blk_do_write bk m v 4 = Ok (0, bk1) /\ blk_do_read bk1 mem4 v 4 = Ok (0, 3, m3, bk2) /\
    gather m3 v 3 = gather m v 3.
Proof.
  intros v bk m. eexists _, _, _. split; [vm_compute; reflexivity|]. split; [vm_compute; reflexivity|].
  eapply (blk_write_read_roundtrip bk m v 4 _ mem4 v 3 _ _ 9 0 9 0 []);
    [reflexivity|vm_compute; discriminate|vm_compute; discriminate|lia| | | |reflexivity|
     vm_compute; reflexivity|vm_compute; reflexivity].
  - apply Forall_cons_2; [simpl; lia|by apply Forall_nil_2].
  - apply Forall_cons_2; [simpl; lia|by apply Forall_nil_2].
  - split; [|exact I]. intros x _ (c & Hc & _). by apply elem_of_nil in Hc.
Defined.

(** A queue of one request that fails to parse: its single descriptor has an
    address outside the zone. *)
Definition mem_bad : hmem :=
  mem_with [(0x7000, 0x1000)] (desc_vals 0 0x90000 16 0 0 ++ [(0x7102, 2%nat, 1)]).

Lemma bad_serves : blk_serves table_ab 1 (fun m _ vq =>
  (m = mem_bad /\ vq = vq4) \/ (vq = set_last_avail_idx 1 vq4 /\ avail_idx m vq = Ok 1)).
Proof.
  intros m bk vq i [[-> ->]|[-> Ha]] Hi Hne; [|rewrite Ha in Hi; injection Hi as <-; done].
  vm_compute in Hi. injection Hi as <-.
  eexists (set_last_avail_idx 1 vq4), _, bk. split; [reflexivity|].
  assert (forall m', (m' = match update_used_ring mem_bad (set_last_avail_idx 1 vq4) 0 1 with Ok x => x | Err _ => mem_bad end) ->
    avail_idx m' (set_last_avail_idx 1 vq4) = Ok 1) as Ha by (intros m' ->; vm_compute; reflexivity).
  split; [right; split; [reflexivity|apply Ha; reflexivity]|].
  split; [discriminate|]. split; [apply Ha; reflexivity|reflexivity].
Qed.

Lemma blk_process_drains_witness :
  exists vq' m' bk', blk_process 2 mem_bad table_ab 1 bk_sevens vq4 = Ok (vq', m', bk') /\ last_avail_idx vq' = 1.
Proof.
  destruct (blk_process_drains table_ab 1 _ mem_bad bk_sevens vq4 1 bad_serves) as (vq' & m' & bk' & H1 & H2 & _);
    [left; split; reflexivity|discriminate|vm_compute; reflexivity|simpl; lia|].
  exists vq', m', bk'. split; [exact H1|exact H2].
Defined.
