(* ===== verification/BlkDisk.v ===== *)
(** * The block device as an abstract disk

    An abstract disk is an array of bytes that answers read, write, flush, identify
    and unknown requests one after the other, and may fail any transfer or, as the
    kernel's vectored calls may, do only its beginning.  Claim: the worker's drain
    loop ([blk_drain], virtio_blk.c) implements it: its effect on the image is a run
    of the abstract disk on the requests found in guest memory, in queue order, and
    its effect on guest memory is the delivery of that run's answers. *)

From S2P Require Import Prelude Memory ZoneMem Virtqueue Device Ring Interrupt IoVec Blk.

(** ** The abstract disk *)

Inductive disk_req :=
  | DRead (off len : Z)
  | DWrite (off len : Z)
  | DFlush
  | DGetId (cap : Z)
  | DUnknown
  | DMalformed.

Inductive disk_reply :=
  | Answer (data : list Z)
  | Failed (err : Z).

(** A request, the bytes the guest sent with it, how much the kernel was willing to
    transfer, and the reply. *)
Record exchange := {
  x_req : disk_req;
  x_sent : list Z;
  x_limit : option Z;
  x_reply : disk_reply;
}.

(** The identification string as [snprintf] leaves it in a buffer. *)
Definition id_reply (cap : Z) : list Z :=
  if cap =? 0 then [] else take (Z.to_nat (cap - 1)) blk_id ++ [0].

Inductive disk_step (dk : list Z) : exchange -> list Z -> Prop :=
  | disk_reads off len n :
      disk_step dk {| x_req := DRead off len; x_sent := []; x_limit := Some n;
                      x_reply := Answer (disk_read dk (Z.to_nat off) (Z.to_nat (n `min` len))) |} dk
  | disk_writes off len n data : Z.of_nat (length data) = n `min` len ->
      disk_step dk {| x_req := DWrite off len; x_sent := data; x_limit := Some n; x_reply := Answer [] |} (disk_write dk (Z.to_nat off) data)
  | disk_flushes : disk_step dk {| x_req := DFlush; x_sent := []; x_limit := None; x_reply := Answer [] |} dk
  | disk_identifies cap : disk_step dk {| x_req := DGetId cap; x_sent := []; x_limit := None; x_reply := Answer (id_reply cap) |} dk
  | disk_fails req err : err <> 0 -> match req with DRead _ _ | DWrite _ _ | DFlush => True | _ => False end ->
      disk_step dk {| x_req := req; x_sent := []; x_limit := None; x_reply := Failed err |} dk
  | disk_refuses : disk_step dk {| x_req := DUnknown; x_sent := []; x_limit := None; x_reply := Failed EOPNOTSUPP |} dk
  | disk_rejects : disk_step dk {| x_req := DMalformed; x_sent := []; x_limit := None; x_reply := Failed EIO |} dk.

Inductive disk_run : list Z -> list exchange -> list Z -> Prop :=
  | disk_run_nil dk : disk_run dk [] dk
  | disk_run_cons dk x dk1 xs dk2 : disk_step dk x dk1 -> disk_run dk1 xs dk2 -> disk_run dk (x :: xs) dk2.

(** ** Requests in guest memory, answers delivered to it *)

(** The request that a chain holds. *)
Definition decode (m : hmem) (o : option VirtioRequest) : result disk_req :=
  match o with
  | None => Ok DMalformed
  | Some r =>
      if negb (blk_layout_ok r) then Ok DMalformed
      else
        h ← of_index (head (out_iov r));
        t ← load 4 m (iov_base h);
        if negb (if t =? VIRTIO_BLK_T_OUT then in_count r =? 1 else out_count r =? 1) then Ok DMalformed
        else if t =? VIRTIO_BLK_T_IN then sector ← load 8 m (iov_base h + 8); Ok (DRead (u64 (sector * SECTOR_BSIZE)) (iov_total (removelast (in_iov r))))
        else if t =? VIRTIO_BLK_T_OUT then sector ← load 8 m (iov_base h + 8); Ok (DWrite (u64 (sector * SECTOR_BSIZE)) (iov_total (tail (out_iov r))))
        else if t =? VIRTIO_BLK_T_FLUSH then Ok DFlush
        else if t =? VIRTIO_BLK_T_GET_ID then v ← of_index (head (in_iov r)); Ok (DGetId (iov_len v))
        else Ok DUnknown
  end.

(** The bytes a request carries: a prefix of its device-readable buffers after the
    header. *)
Definition carries (m : hmem) (o : option VirtioRequest) (sent : list Z) : Prop :=
  sent = [] \/ exists r n, o = Some r /\ gather m (tail (out_iov r)) n = Ok sent.

(** Where the data of an answer goes. *)
Definition answer_bufs (req : disk_req) (r : VirtioRequest) : list iovec :=
  match req with
  | DGetId _ => take 1 (in_iov r)
  | _ => removelast (in_iov r)
  end.

Definition reply_err (p : disk_reply) : Z := match p with Answer _ => 0 | Failed err => err end.
Definition reply_data (p : disk_reply) : list Z := match p with Answer data => data | Failed _ => [] end.

(** The data in the buffers, the status in the last one, one used element with the
    number of bytes written; a malformed request gets the used element only. *)
Definition delivers (m : hmem) (vq : VirtQueue) (hd : Z) (o : option VirtioRequest) (x : exchange) (m' : hmem) : Prop :=
  match x_req x with
  | DMalformed => update_used_ring m vq hd 1 = Ok m'
  | req => exists r s m1 m2, o = Some r /\ last (in_iov r) = Some s /\
      scatter m (answer_bufs req r) (reply_data (x_reply x)) = Ok m1 /\
      store 1 m1 (iov_base s) (blk_status (reply_err (x_reply x))) = Ok m2 /\
      update_used_ring m2 vq hd (u32 (Z.of_nat (length (reply_data (x_reply x))) + 1)) = Ok m'
  end.

(** Requests taken off the queue one by one; in between the device writes its
    notification flags. *)
Inductive served (zt : zone_table) (z : Z) : hmem -> VirtQueue -> list exchange -> hmem -> VirtQueue -> Prop :=
  | served_nil m vq : served zt z m vq [] m vq
  | served_flags m m1 vq xs m' vq' :
      virtqueue_disable_notify m vq = Ok m1 \/ virtqueue_enable_notify m vq = Ok m1 ->
      served zt z m1 vq xs m' vq' -> served zt z m vq xs m' vq'
  | served_request m vq hd vq1 o x m1 xs m' vq' :
      next_avail_head m vq = Ok hd -> process_descriptor_chain_buf m zt z vq hd blk_buf_config = Ok (vq1, o) ->
      decode m o = Ok (x_req x) -> carries m o (x_sent x) -> delivers m vq hd o x m1 ->
      served zt z m1 (set_last_avail_idx (u16 (last_avail_idx vq + avail_advance o)) vq) xs m' vq' ->
      served zt z m vq (x :: xs) m' vq'.

(** ** Lemmas *)

Lemma disk_run_app dk1 xs dk2 ys dk3 : disk_run dk1 xs dk2 -> disk_run dk2 ys dk3 -> disk_run dk1 (xs ++ ys) dk3.
Proof. induction 1 as [|dk x dk' xs dk'' Hs _ IH]; intros H; [done|]. cbn. econstructor; [exact Hs|by apply IH]. Qed.

Lemma served_app zt z m vq xs m1 vq1 ys m2 vq2 : served zt z m vq xs m1 vq1 -> served zt z m1 vq1 ys m2 vq2 -> served zt z m vq (xs ++ ys) m2 vq2.
Proof.
  induction 1 as [|m m1 vq xs m' vq' Hf _ IH|m vq hd vq1 o x m1 xs m' vq' H1 H2 H3 H4 H5 _ IH]; intros H; [done|by eapply served_flags; [|apply IH]|].
  cbn. by eapply served_request; [..|apply IH].
Qed.

(** What an executed operation did: the exchange, and the answers used. *)
Definition executed_as (m : hmem) (r : VirtioRequest) (bk bk' : backing) (err wlen : Z) (m1 : hmem) (x : exchange) : Prop :=
  disk_step (disk bk) x (disk bk') /\ carries m (Some r) (x_sent x) /\ scatter m (answer_bufs (x_req x) r) (reply_data (x_reply x)) = Ok m1 /\
  reply_err (x_reply x) = err /\ Z.of_nat (length (reply_data (x_reply x))) = wlen /\
  (exists used, io bk = used ++ io bk') /\ (forall n, x_limit x = Some n -> n ∈ (io bk).*1).

Lemma executed_fails m r bk rest a req err : io bk = a :: rest -> err <> 0 -> match req with DRead _ _ | DWrite _ _ | DFlush => True | _ => False end ->
  exists x, x_req x = req /\ executed_as m r bk {| disk := disk bk; io := rest |} err 0 m x.
Proof.
  intros Hio He Hr. exists {| x_req := req; x_sent := []; x_limit := None; x_reply := Failed err |}. split; [done|]. unfold executed_as. cbn. split; [by constructor|]. split; [by left|]. split; [apply scatter_nil|]. split; [done|]. split; [done|].
  split; [by exists [a]|done].
Qed.

Lemma read_executed m r bk off err wlen m1 bk' : errors_ok (io bk) -> blk_do_read bk m (removelast (in_iov r)) off = Ok (err, wlen, m1, bk') ->
  exists x, x_req x = DRead off (iov_total (removelast (in_iov r))) /\ executed_as m r bk bk' err wlen m1 x.
Proof.
  intros Hok H. unfold blk_do_read in H. apply bind_Ok_inv in H as ( [ [ [k e] m2] bk2] & Hp & H). unfold preadv in Hp.
  destruct (io bk) as [|[n er] rest] eqn:Eio; [done|]. apply Forall_cons in Hok as [Hn _]. cbn in Hn.
  destruct (n <? 0) eqn:En.
  { injection Hp as <- <- <- <-. injection H as <- <- <- <-. eapply executed_fails; [exact Eio|apply Hn; lia|exact I]. }
  destruct (_ <=? off) eqn:Eoff; [injection Hp as <- <- <- <-; injection H as <- <- <- <-; by eapply executed_fails|].
  destruct (scatter m _ _) as [m3|] eqn:Es; injection Hp as <- <- <- <-; [|injection H as <- <- <- <-; by eapply executed_fails].
  replace (Z.of_nat _ <? 0) with false in H by lia. injection H as <- <- <- <-.
  exists {| x_req := DRead off (iov_total (removelast (in_iov r))); x_sent := []; x_limit := Some n;
    x_reply := Answer (disk_read (disk bk) (Z.to_nat off) (Z.to_nat (n `min` iov_total (removelast (in_iov r))))) |}.
  split; [done|]. unfold executed_as. cbn. split; [constructor|]. split; [by left|]. split; [exact Es|]. split; [done|]. split; [done|]. rewrite Eio.
  split; [by exists [(n, er)]|]. intros k [= <-]. by left.
Qed.

Lemma write_executed m r bk off err bk' : bufs_ok (tail (out_iov r)) -> errors_ok (io bk) -> blk_do_write bk m (tail (out_iov r)) off = Ok (err, bk') ->
  exists x, x_req x = DWrite off (iov_total (tail (out_iov r))) /\ executed_as m r bk bk' err 0 m x.
Proof.
  intros Hb Hok H. unfold blk_do_write in H. apply bind_Ok_inv in H as ( [ [k e] bk2] & Hp & H). unfold pwritev in Hp.
  destruct (io bk) as [|[n er] rest] eqn:Eio; [done|]. apply Forall_cons in Hok as [Hn _]. cbn in Hn.
  destruct (n <? 0) eqn:En.
  { injection Hp as <- <- <-. injection H as <- <-. eapply executed_fails; [exact Eio|apply Hn; lia|exact I]. }
  destruct (_ <=? off); [injection Hp as <- <- <-; injection H as <- <-; by eapply executed_fails|].
  destruct (gather m _ _) as [data|] eqn:Eg; injection Hp as <- <- <-; [|injection H as <- <-; by eapply executed_fails].
  replace (Z.of_nat _ <? 0) with false in H by lia. injection H as <- <-. pose proof (gather_length _ _ _ _ Hb Eg) as Hl. pose proof (iov_total_nonneg _ Hb).
  exists {| x_req := DWrite off (iov_total (tail (out_iov r))); x_sent := data; x_limit := Some n; x_reply := Answer [] |}.
  split; [done|]. unfold executed_as. cbn. split; [constructor; lia|]. split; [right; by eexists _, _|]. split; [apply scatter_nil|]. split; [done|]. split; [done|].
  rewrite Eio. split; [by exists [(n, er)]|]. intros k [= <-]. by left.
Qed.

Lemma flush_executed m r bk err bk' : errors_ok (io bk) -> blk_do_flush bk = Ok (err, bk') ->
  exists x, x_req x = DFlush /\ executed_as m r bk bk' err 0 m x.
Proof.
  intros Hok H. unfold blk_do_flush, fdatasync in H. destruct (io bk) as [|[n er] rest] eqn:Eio; [done|]. apply Forall_cons in Hok as [Hn _]. cbn in Hn, H.
  destruct (n <? 0) eqn:En; cbn in H; injection H as <- <-.
  - eapply executed_fails; [exact Eio|apply Hn; lia|exact I].
  - exists {| x_req := DFlush; x_sent := []; x_limit := None; x_reply := Answer [] |}. split; [done|]. unfold executed_as. cbn.
    split; [constructor|]. split; [by left|]. split; [apply scatter_nil|]. split; [done|]. split; [done|]. rewrite Eio. split; [by exists [(n, er)]|done].
Qed.

Lemma id_executed m r bk v wlen m1 : 0 <= iov_len v -> head (in_iov r) = Some v -> blk_do_get_id m v = Ok (wlen, m1) ->
  exists x, x_req x = DGetId (iov_len v) /\ executed_as m r bk bk 0 wlen m1 x.
Proof.
  intros Hv Hh H. unfold blk_do_get_id in H. apply bind_Ok_inv in H as (m2 & H1 & [= <- <-]).
  exists {| x_req := DGetId (iov_len v); x_sent := []; x_limit := None; x_reply := Answer (id_reply (iov_len v)) |}. split; [done|]. unfold executed_as. cbn [x_sent x_req x_reply x_limit reply_err reply_data answer_bufs].
  split; [constructor|]. split; [by left|]. assert (take 1 (in_iov r) = [v]) as -> by (destruct (in_iov r); [done|]; by injection Hh as ->).
  assert (Z.of_nat (length (id_reply (iov_len v))) = (Z.of_nat (length blk_id) + 1) `min` iov_len v) as Hl.
  { unfold id_reply. destruct (iov_len v =? 0) eqn:E; [cbn; lia|]. rewrite length_app, length_take. cbn [length]. lia. }
  split; [|split; [done|split; [exact Hl|split; [by exists []|done] ] ] ].
  cbn [scatter]. rewrite take_ge by lia. unfold id_reply. destruct (iov_len v =? 0); [injection H1 as <-; done|]. by rewrite H1.
Qed.

Lemma execute_refines m r bk h s t err wlen m1 bk' : request_bufs_ok r -> errors_ok (io bk) -> blk_layout_ok r = true -> head (out_iov r) = Some h ->
  load 4 m (iov_base h) = Ok t -> (if t =? VIRTIO_BLK_T_OUT then in_count r =? 1 else out_count r =? 1) = true -> last (in_iov r) = Some s ->
  blk_execute bk m r (iov_base h) t = Ok (err, wlen, m1, bk') ->
  exists x, decode m (Some r) = Ok (x_req x) /\ x_req x <> DMalformed /\ executed_as m r bk bk' err wlen m1 x.
Proof.
  intros [Hbo Hbi] Hok Hly Hh Ht Hd Hs H. unfold decode. rewrite Hly. cbn [negb]. rewrite Hh. cbn [of_index mbind result_bind]. rewrite Ht. cbn [mbind result_bind].
  rewrite Hd. cbn [negb]. unfold blk_execute in H. destruct (t =? VIRTIO_BLK_T_IN).
  { apply bind_Ok_inv in H as (sec & -> & H). apply read_executed in H as (x & Hx & H); [|done]. exists x. rewrite Hx. done. }
  destruct (t =? VIRTIO_BLK_T_OUT).
  { apply bind_Ok_inv in H as (sec & -> & H). apply bind_Ok_inv in H as ( [e bk2] & H & [= <- <- <- <-]).
    assert (bufs_ok (tail (out_iov r))) as Hb by (unfold bufs_ok in *; destruct (out_iov r); [done|by apply Forall_cons in Hbo as [_ ?] ]).
    apply (write_executed m r) in H as (x & Hx & H); [|done|done]. exists x. rewrite Hx. done. }
  destruct (t =? VIRTIO_BLK_T_FLUSH).
  { apply bind_Ok_inv in H as ( [e bk2] & H & [= <- <- <- <-]). apply (flush_executed m r) in H as (x & Hx & H); [|done]. exists x. rewrite Hx. done. }
  destruct (t =? VIRTIO_BLK_T_GET_ID).
  { apply bind_Ok_inv in H as (v & Hv & H). apply of_index_Ok_inv in Hv. rewrite Hv. apply bind_Ok_inv in H as ( [w m2] & H & [= <- <- <- <-]).
    assert (0 <= iov_len v) as Hl by (unfold bufs_ok in Hbi; rewrite Forall_forall in Hbi; apply Hbi; destruct (in_iov r); [done|]; injection Hv as <-; by left).
    apply (id_executed m r bk) in H as (x & Hx & H); [|done|done]. exists x. rewrite Hx. done. }
  injection H as <- <- <- <-. exists {| x_req := DUnknown; x_sent := []; x_limit := None; x_reply := Failed EOPNOTSUPP |}. split; [done|]. split; [done|].
  unfold executed_as. cbn. split; [apply disk_refuses|]. split; [by left|]. split; [apply scatter_nil|]. split; [done|]. split; [done|]. split; [by exists []|done].
Qed.

(** What a step leaves for the next: image, answers, limits. *)
Definition answers_used (bk bk' : backing) (xs : list exchange) : Prop :=
  (exists used, io bk = used ++ io bk') /\ Forall (fun x => forall n, x_limit x = Some n -> n ∈ (io bk).*1) xs.

Lemma answers_used_app bk1 bk2 bk3 xs ys : answers_used bk1 bk2 xs -> answers_used bk2 bk3 ys -> answers_used bk1 bk3 (xs ++ ys).
Proof.
  intros [ [u1 E1] H1] [ [u2 E2] H2]. split; [exists (u1 ++ u2); by rewrite E1, E2, app_assoc|]. apply Forall_app. split; [done|].
  eapply Forall_impl; [exact H2|]. intros x Hx n Hn. rewrite E1, fmap_app. apply elem_of_app. right. by apply Hx.
Qed.

Lemma answers_used_refl bk : answers_used bk bk [].
Proof. split; [by exists []|constructor]. Qed.

Lemma errors_ok_rest bk bk' xs : answers_used bk bk' xs -> errors_ok (io bk) -> errors_ok (io bk').
Proof. intros [ [u E] _] H. unfold errors_ok in *. rewrite E in H. by apply Forall_app in H as [_ ?]. Qed.

Definition rejected : exchange := {| x_req := DMalformed; x_sent := []; x_limit := None; x_reply := Failed EIO |}.

(** One request: a step of the abstract disk, delivered. *)
Lemma handle_refines m zt z bk vq vq' m' bk' : errors_ok (io bk) -> virtq_blk_handle_one_request m zt z bk vq = Ok (vq', m', bk') ->
  exists x, disk_step (disk bk) x (disk bk') /\ served zt z m vq [x] m' vq' /\ answers_used bk bk' [x].
Proof.
  intros Hok H. pose proof H as Hcase. apply blk_handle_cases in Hcase as (hd & vq1 & o & Hhd & Hp & Hvq & Hg & _).
  unfold virtq_blk_handle_one_request in H. rewrite Hhd in H. cbn [mbind result_bind] in H. rewrite Hp in H. cbn [mbind result_bind] in H.
  assert (vq1 = set_last_avail_idx (last_avail_idx vq1) vq) as Hrings.
  { pose proof (process_descriptor_chain_buf_inv _ _ _ _ _ blk_buf_config _ _ ltac:(done) ltac:(done) Hp) as Hi.
    destruct o; [destruct Hi as [_ ->]|subst vq1]; by destruct vq. }
  assert (Hrej : forall vq2, (m1 ← blk_complete m vq2 hd 0 EIO 0; Ok (vq2, m1, bk)) = Ok (vq', m', bk') -> vq2 = set_last_avail_idx (last_avail_idx vq2) vq -> decode m o = Ok DMalformed ->
    exists x, disk_step (disk bk) x (disk bk') /\ served zt z m vq [x] m' vq' /\ answers_used bk bk' [x]).
  { intros vq2 H' Hs Hdec. apply bind_Ok_inv in H' as (m1 & H1 & H'). injection H' as <- <- <-. apply blk_complete_inv in H1 as (m2 & H1 & ->). rewrite Hs in H1.
    exists rejected. split; [apply disk_rejects|]. split; [|split; [by exists []|by repeat constructor] ].
    eapply served_request; [exact Hhd|exact Hp|exact Hdec|by left|exact H1|]. rewrite <- Hvq. constructor. }
  destruct o as [r|]; [|eapply Hrej; [exact H|by rewrite Hrings|done] ].
  destruct (out_count r + in_count r <=? 0) eqn:Ecnt.
  { eapply Hrej; [exact H|by rewrite Hrings|]. unfold decode. replace (blk_layout_ok r) with false; [done|]. unfold blk_layout_ok. lia. }
  destruct (negb (blk_layout_ok r)) eqn:El; [eapply Hrej; [exact H|exact Hrings|by unfold decode; rewrite El]|]. apply negb_false_iff in El.
  apply bind_Ok_inv in H as (h & Hh & H). apply of_index_Ok_inv in Hh. apply bind_Ok_inv in H as (s & Hs & H). apply of_index_Ok_inv in Hs.
  apply bind_Ok_inv in H as (t & Ht & H). destruct (if t =? VIRTIO_BLK_T_OUT then _ else _) eqn:Ed; cbn [negb] in H.
  2: { eapply Hrej; [exact H|exact Hrings|]. unfold decode. rewrite El. cbn [negb]. rewrite Hh. cbn [of_index mbind result_bind]. rewrite Ht. cbn [mbind result_bind]. by rewrite Ed. }
  apply bind_Ok_inv in H as ( [ [ [err wlen] m1] bk1] & He & H). apply bind_Ok_inv in H as (m2 & H1 & [= <- <- <-]).
  pose proof Hg as Hgood. apply good_bufs_ok in Hgood.
  eapply execute_refines in He as (x & Hdec & Hne & Hst & Hc & Hsc & Hre & Hlen & Hused & Hlim); [|done|done|done|done|done|done|done].
  exists x. split; [exact Hst|]. split; [|split; [exact Hused|by repeat constructor] ].
  apply blk_complete_inv in H1 as (m3 & H1 & Hstat). assert ((iov_base s =? 0) = false) as Hs0.
  { destruct Hg as [_ Hg]. apply Forall_app in Hg as [_ Hg]. rewrite Forall_forall in Hg. destruct (Hg s (last_Some_elem_of _ _ Hs)) as [? _]. lia. }
  rewrite Hs0 in Hstat. eapply served_request; [exact Hhd|exact Hp|exact Hdec|exact Hc| |rewrite <- Hvq; constructor].
  rewrite Hrings in H1. unfold delivers. fold (blk_status err) in Hstat. rewrite <- Hre in Hstat. rewrite <- Hlen in H1. destruct (x_req x) eqn:Ex; [..|done]; exists r, s, m1, m3; done.
Qed.

Lemma process_refines fuel : forall m zt z bk vq vq' m' bk', errors_ok (io bk) -> blk_process fuel m zt z bk vq = Ok (vq', m', bk') ->
  exists xs, disk_run (disk bk) xs (disk bk') /\ served zt z m vq xs m' vq' /\ answers_used bk bk' xs.
Proof.
  induction fuel as [|fuel IH]; intros m zt z bk vq vq' m' bk' Hok H; [done|]. cbn [blk_process] in H. apply bind_Ok_inv in H as (e & _ & H).
  destruct e; [injection H as <- <- <-; exists []; split; [constructor|split; [constructor|apply answers_used_refl] ]|].
  apply bind_Ok_inv in H as ( [ [vq1 m1] bk1] & H1 & H). apply handle_refines in H1 as (x & Hd & Hs & Ha); [|done].
  apply IH in H as (xs & Hd' & Hs' & Ha'); [|by eapply errors_ok_rest]. exists (x :: xs). split; [by econstructor|].
  split; [by apply (served_app zt z m vq [x] m1 vq1 xs)|by apply (answers_used_app bk bk1 bk' [x] xs)].
Qed.

(** ** Theorems *)

(** C22: The block worker implements an abstract disk.  Whenever the drain loop
    returns, there is a sequence of exchanges, one per request taken off the queue,
    such that the image after the loop is the one an abstract disk reaches by these
    exchanges from the image before; each request is the one decoded from the guest's
    descriptors at its turn, a write carrying bytes of the guest's own buffers; and
    guest memory after the loop is what delivering the replies, in that order, makes
    of it, apart from the notification flags.  A transfer is cut short only where the
    kernel's answer says so. *)
Theorem blk_drain_refines_disk fuel m zt z bk vq vq' m' bk' :
  errors_ok (io bk) -> blk_drain fuel m zt z bk vq = Ok (vq', m', bk') ->
  exists xs, disk_run (disk bk) xs (disk bk') /\ served zt z m vq xs m' vq' /\
    Forall (fun x => forall n, x_limit x = Some n -> n ∈ (io bk).*1) xs.
Proof.
  intros Hok H. cut (exists xs, disk_run (disk bk) xs (disk bk') /\ served zt z m vq xs m' vq' /\ answers_used bk bk' xs).
  { intros (xs & H1 & H2 & _ & H3). by exists xs. }
  revert m bk vq Hok H. induction fuel as [|fuel IH]; intros m bk vq Hok H; [done|]. cbn [blk_drain] in H. apply bind_Ok_inv in H as (m1 & Hdis & H).
  apply bind_Ok_inv in H as ( [ [vq1 m2] bk1] & Hp & H). apply bind_Ok_inv in H as (m3 & Hen & H). apply bind_Ok_inv in H as (e & _ & H).
  apply process_refines in Hp as (xs & Hd & Hs & Ha); [|done].
  destruct e.
  - injection H as <- <- <-. exists xs. split; [done|]. split; [|done]. eapply served_flags; [by left|]. rewrite <- (app_nil_r xs).
    eapply served_app; [exact Hs|]. eapply served_flags; [by right|constructor].
  - apply IH in H as (ys & Hd' & Hs' & Ha'); [|by eapply errors_ok_rest]. exists (xs ++ ys). split; [by eapply disk_run_app|]. split; [|by eapply answers_used_app].
    eapply served_flags; [by left|]. eapply served_app; [exact Hs|]. eapply served_flags; [by right|exact Hs'].
Qed.

(** And the batch does return: when every outstanding request can be served without
    disturbing the available ring, one pass of the worker takes them all and acts as
    the abstract disk. *)
Theorem blk_batch_acts_as_disk zt z P m bk vq i :
  blk_serves zt z P -> P m bk vq -> avail_ring vq <> 0 -> avail_idx m vq = Ok i -> 0 <= last_avail_idx vq < 2 ^ 16 -> errors_ok (io bk) ->
  exists vq' m' bk' xs, blk_process (S (Z.to_nat (u16 (i - last_avail_idx vq)))) m zt z bk vq = Ok (vq', m', bk') /\
    last_avail_idx vq' = i /\ vq_is_empty m' vq' = Ok true /\ disk_run (disk bk) xs (disk bk') /\ served zt z m vq xs m' vq'.
Proof.
  intros Hs HP Hr Hi Hl Hio. destruct (blk_process_drains zt z P m bk vq i Hs HP Hr Hi Hl) as (vq' & m' & bk' & H & Hlast & _ & He).
  destruct (process_refines _ _ _ _ _ _ _ _ _ Hio H) as (xs & Hd & Hsv & _). by exists vq', m', bk', xs.
Qed.

(** On the abstract disk, a read of a range written before, and not written to in
    between, returns the bytes written. *)
Theorem disk_reads_last_write dk off data xs dk1 dk2 n : 
  disk_step dk {| x_req := DWrite off (Z.of_nat (length data)); x_sent := data; x_limit := Some n; x_reply := Answer [] |} dk1 ->
  disk_run dk1 xs dk2 -> Forall (fun x => match x_req x with DWrite _ _ => False | _ => True end) xs ->
  disk_read dk2 (Z.to_nat off) (length data) = data.
Proof.
  intros Hw Hr Hx. assert (dk2 = dk1) as ->.
  { clear Hw. induction Hr as [|d x d1 xs d2 Hs _ IH]; [done|]. apply Forall_cons in Hx as [Hx0 Hx]. rewrite (IH Hx). by inversion Hs; subst. }
  inversion Hw; subst. apply disk_read_write.
Qed.

(** ** Witnesses *)

Lemma drain_read_runs : exists vq' m' bk', blk_drain 4 mem_read table_ab 1 bk_sevens vq4 = Ok (vq', m', bk').
Proof.
  assert (is_ok (blk_drain 4 mem_read table_ab 1 bk_sevens vq4) = true) as H by (vm_compute; reflexivity).
  destruct (blk_drain 4 mem_read table_ab 1 bk_sevens vq4) as [ [ [vq' m'] bk']|]; [eauto|discriminate H].
Qed.

Lemma blk_drain_refines_disk_witness : exists vq' m' bk' xs, blk_drain 4 mem_read table_ab 1 bk_sevens vq4 = Ok (vq', m', bk') /\
  disk_run (disk bk_sevens) xs (disk bk').
Proof.
  destruct drain_read_runs as (vq' & m' & bk' & H).
  destruct (blk_drain_refines_disk 4 mem_read table_ab 1 bk_sevens vq4 vq' m' bk') as (xs & Hr & _); [repeat constructor; cbn; lia|exact H|].
  exists vq', m', bk', xs. split; [exact H|exact Hr].
Defined.

Lemma blk_batch_acts_as_disk_witness : exists vq' m' bk' xs, blk_process 2 mem_bad table_ab 1 bk_sevens vq4 = Ok (vq', m', bk') /\
  disk_run (disk bk_sevens) xs (disk bk').
Proof.
  destruct (blk_batch_acts_as_disk table_ab 1 _ mem_bad bk_sevens vq4 1 bad_serves) as (vq' & m' & bk' & xs & H1 & _ & _ & H2 & _);
    [left; split; reflexivity|discriminate|vm_compute; reflexivity|cbn; lia|repeat constructor; cbn; lia|].
  exists vq', m', bk', xs. split; [exact H1|exact H2].
Defined.

Lemma disk_reads_last_write_witness : disk_read [0; 7; 8; 0] 1 2 = [7; 8].
Proof.
  apply (disk_reads_last_write [0; 0; 0; 0] 1 [7; 8] [] [0; 7; 8; 0] [0; 7; 8; 0] 2).
  - exact (disk_writes [0; 0; 0; 0] 1 2 2 [7; 8] eq_refl).
  - constructor.
  - constructor.
Defined.
