(* ===== verification/BlkWorker.v ===== *)
(** * The virtio-blk worker thread and its reset, kick and close protocol

    [blkproc_thread], [virtio_blk_notify_handler], [virtio_blk_reset] and the
    thread part of [virtio_blk_close] ([tools/virtio/devices/blk/virtio_blk.c]) as a
    step relation of two threads sharing a mutex, a condition variable and the
    flags [close], [reset] and [worker_paused] of [BlkDev].  A thread waiting on the
    condition leaves [pthread_cond_wait] when it was signalled, or spuriously, and
    once the mutex is free.  The guest may change what the queue holds at any time,
    the worker serves one request per step of its drain loop, and injecting the
    interrupt waits for a free slot in the result ring, which the hypervisor and the
    other devices empty and fill at any time. *)

From S2P Require Import Prelude.

(** Where the worker is; the source lines of each point are in the comments. *)
Inductive worker_pc :=
  | WLock          (* top of the loop, before pthread_mutex_lock *)
  | WCheck         (* mutex held: testing vq_is_empty && !close && !reset *)
  | WWait          (* in the first pthread_cond_wait *)
  | WDecide (closing resetting : bool)   (* mutex released, flags copied *)
  | WLockReset     (* before the second pthread_mutex_lock *)
  | WResetLoop     (* mutex held: testing reset && !close *)
  | WResetWait     (* in the second pthread_cond_wait *)
  | WDrain (closing : bool)   (* testing whether there is anything to drain *)
  | WBatch (closing : bool)   (* test of the inner loop, notifications disabled *)
  | WRecheck (closing : bool) (* test of the outer loop, notifications enabled *)
  | WInject (closing : bool)  (* in virtio_inject_irq, waiting for a result slot *)
  | WExit.         (* pthread_exit *)

(** Where the main thread is with respect to this device. *)
Inductive main_pc :=
  | MIdle          (* may kick, reset or close *)
  | MResetCheck    (* virtio_blk_reset, mutex held: testing worker_paused *)
  | MResetWait     (* virtio_blk_reset, in pthread_cond_wait *)
  | MVqReset       (* virtio_blk_reset has returned: virtqueue_reset runs *)
  | MJoin          (* virtio_blk_close, in pthread_join *)
  | MClosed.       (* the device is freed *)

Inductive thread := Worker | Main.

#[global] Instance worker_pc_eq_dec : EqDecision worker_pc.
Proof. solve_decision. Defined.
#[global] Instance main_pc_eq_dec : EqDecision main_pc.
Proof. solve_decision. Defined.
#[global] Instance thread_eq_dec : EqDecision thread.
Proof. solve_decision. Defined.

Record blk_threads := {
  close : bool;
  reset : bool;
  worker_paused : bool;
  mtx : option thread;   (* holder of the mutex *)
  wpc : worker_pc;
  wsig : bool;           (* the worker's wait was signalled *)
  mpc : main_pc;
  msig : bool;           (* the main thread's wait was signalled *)
  avail : nat;           (* requests the worker would find in the queue *)
  ring_full : bool;      (* the result ring shared with the hypervisor is full *)
}.

(** [pthread_cond_signal]/[broadcast] by the main thread reach the worker if it
    waits, and the other way round. *)
Definition wake_worker (w : worker_pc) (s : bool) : bool :=
  match w with WWait | WResetWait => true | _ => s end.

Definition wake_main (p : main_pc) (s : bool) : bool :=
  match p with MResetWait => true | _ => s end.

(** The wait of the worker's first loop: [empty] is what [vq_is_empty] returned. *)
Definition worker_waits (empty cl rs : bool) : bool := empty && negb cl && negb rs.

(** A step of the worker or of the main thread. *)
Inductive thread_step : blk_threads -> blk_threads -> Prop :=
  (* the worker *)
  | w_lock cl rs pa ws m ms n fu :
      thread_step {| close := cl; reset := rs; worker_paused := pa; mtx := None; wpc := WLock; wsig := ws; mpc := m; msig := ms; avail := n; ring_full := fu |}
               {| close := cl; reset := rs; worker_paused := pa; mtx := Some Worker; wpc := WCheck; wsig := ws; mpc := m; msig := ms; avail := n; ring_full := fu |}
  | w_wait cl rs pa ws m ms n fu : worker_waits (n =? 0)%nat cl rs = true ->
      thread_step {| close := cl; reset := rs; worker_paused := pa; mtx := Some Worker; wpc := WCheck; wsig := ws; mpc := m; msig := ms; avail := n; ring_full := fu |}
               {| close := cl; reset := rs; worker_paused := pa; mtx := None; wpc := WWait; wsig := false; mpc := m; msig := ms; avail := n; ring_full := fu |}
  | w_woken cl rs pa ws m ms n fu :   (* signalled, or spuriously *)
      thread_step {| close := cl; reset := rs; worker_paused := pa; mtx := None; wpc := WWait; wsig := ws; mpc := m; msig := ms; avail := n; ring_full := fu |}
               {| close := cl; reset := rs; worker_paused := pa; mtx := Some Worker; wpc := WCheck; wsig := false; mpc := m; msig := ms; avail := n; ring_full := fu |}
  | w_go cl rs pa ws m ms n fu : worker_waits (n =? 0)%nat cl rs = false ->
      thread_step {| close := cl; reset := rs; worker_paused := pa; mtx := Some Worker; wpc := WCheck; wsig := ws; mpc := m; msig := ms; avail := n; ring_full := fu |}
               {| close := cl; reset := rs; worker_paused := pa; mtx := None; wpc := WDecide cl rs; wsig := ws; mpc := m; msig := ms; avail := n; ring_full := fu |}
  | w_to_reset cl rs pa mt ws m ms n fu :
      thread_step {| close := cl; reset := rs; worker_paused := pa; mtx := mt; wpc := WDecide false true; wsig := ws; mpc := m; msig := ms; avail := n; ring_full := fu |}
               {| close := cl; reset := rs; worker_paused := pa; mtx := mt; wpc := WLockReset; wsig := ws; mpc := m; msig := ms; avail := n; ring_full := fu |}
  | w_to_drain cl rs pa mt ws m ms c r n fu : r && negb c = false ->
      thread_step {| close := cl; reset := rs; worker_paused := pa; mtx := mt; wpc := WDecide c r; wsig := ws; mpc := m; msig := ms; avail := n; ring_full := fu |}
               {| close := cl; reset := rs; worker_paused := pa; mtx := mt; wpc := WDrain c; wsig := ws; mpc := m; msig := ms; avail := n; ring_full := fu |}
  | w_lock_reset cl rs pa ws m ms n fu :
      thread_step {| close := cl; reset := rs; worker_paused := pa; mtx := None; wpc := WLockReset; wsig := ws; mpc := m; msig := ms; avail := n; ring_full := fu |}
               {| close := cl; reset := rs; worker_paused := pa; mtx := Some Worker; wpc := WResetLoop; wsig := ws; mpc := m; msig := ms; avail := n; ring_full := fu |}
  | w_pause pa ws m ms n fu :
      thread_step {| close := false; reset := true; worker_paused := pa; mtx := Some Worker; wpc := WResetLoop; wsig := ws; mpc := m; msig := ms; avail := n; ring_full := fu |}
               {| close := false; reset := true; worker_paused := true; mtx := None; wpc := WResetWait; wsig := false; mpc := m; msig := wake_main m ms; avail := n; ring_full := fu |}
  | w_reset_woken cl rs pa ws m ms n fu :
      thread_step {| close := cl; reset := rs; worker_paused := pa; mtx := None; wpc := WResetWait; wsig := ws; mpc := m; msig := ms; avail := n; ring_full := fu |}
               {| close := cl; reset := rs; worker_paused := pa; mtx := Some Worker; wpc := WResetLoop; wsig := false; mpc := m; msig := ms; avail := n; ring_full := fu |}
  | w_resume cl rs pa ws m ms n fu : rs && negb cl = false ->
      thread_step {| close := cl; reset := rs; worker_paused := pa; mtx := Some Worker; wpc := WResetLoop; wsig := ws; mpc := m; msig := ms; avail := n; ring_full := fu |}
               {| close := cl; reset := rs; worker_paused := false; mtx := None; wpc := WLock; wsig := ws; mpc := m; msig := ms; avail := n; ring_full := fu |}
  | w_nothing cl rs pa mt ws m ms c fu :
      thread_step {| close := cl; reset := rs; worker_paused := pa; mtx := mt; wpc := WDrain c; wsig := ws; mpc := m; msig := ms; avail := 0; ring_full := fu |}
               {| close := cl; reset := rs; worker_paused := pa; mtx := mt; wpc := if c then WExit else WLock; wsig := ws; mpc := m; msig := ms; avail := 0; ring_full := fu |}
  | w_batch cl rs pa mt ws m ms c n fu :
      thread_step {| close := cl; reset := rs; worker_paused := pa; mtx := mt; wpc := WDrain c; wsig := ws; mpc := m; msig := ms; avail := S n; ring_full := fu |}
               {| close := cl; reset := rs; worker_paused := pa; mtx := mt; wpc := WBatch c; wsig := ws; mpc := m; msig := ms; avail := S n; ring_full := fu |}
  | w_serve cl rs pa mt ws m ms c n fu :
      thread_step {| close := cl; reset := rs; worker_paused := pa; mtx := mt; wpc := WBatch c; wsig := ws; mpc := m; msig := ms; avail := S n; ring_full := fu |}
               {| close := cl; reset := rs; worker_paused := pa; mtx := mt; wpc := WBatch c; wsig := ws; mpc := m; msig := ms; avail := n; ring_full := fu |}
  | w_batch_done cl rs pa mt ws m ms c fu :
      thread_step {| close := cl; reset := rs; worker_paused := pa; mtx := mt; wpc := WBatch c; wsig := ws; mpc := m; msig := ms; avail := 0; ring_full := fu |}
               {| close := cl; reset := rs; worker_paused := pa; mtx := mt; wpc := WRecheck c; wsig := ws; mpc := m; msig := ms; avail := 0; ring_full := fu |}
  | w_again cl rs pa mt ws m ms c n fu :
      thread_step {| close := cl; reset := rs; worker_paused := pa; mtx := mt; wpc := WRecheck c; wsig := ws; mpc := m; msig := ms; avail := S n; ring_full := fu |}
               {| close := cl; reset := rs; worker_paused := pa; mtx := mt; wpc := WBatch c; wsig := ws; mpc := m; msig := ms; avail := S n; ring_full := fu |}
  | w_drained cl rs pa mt ws m ms c fu :
      thread_step {| close := cl; reset := rs; worker_paused := pa; mtx := mt; wpc := WRecheck c; wsig := ws; mpc := m; msig := ms; avail := 0; ring_full := fu |}
               {| close := cl; reset := rs; worker_paused := pa; mtx := mt; wpc := WInject c; wsig := ws; mpc := m; msig := ms; avail := 0; ring_full := fu |}
  | w_spin cl rs pa mt ws m ms c n :
      thread_step {| close := cl; reset := rs; worker_paused := pa; mtx := mt; wpc := WInject c; wsig := ws; mpc := m; msig := ms; avail := n; ring_full := true |}
               {| close := cl; reset := rs; worker_paused := pa; mtx := mt; wpc := WInject c; wsig := ws; mpc := m; msig := ms; avail := n; ring_full := true |}
  | w_injected cl rs pa mt ws m ms c n :
      thread_step {| close := cl; reset := rs; worker_paused := pa; mtx := mt; wpc := WInject c; wsig := ws; mpc := m; msig := ms; avail := n; ring_full := false |}
               {| close := cl; reset := rs; worker_paused := pa; mtx := mt; wpc := if c then WExit else WLock; wsig := ws; mpc := m; msig := ms; avail := n; ring_full := false |}
  (* the main thread *)
  | m_kick cl rs pa w ws ms n fu :   (* virtio_blk_notify_handler *)
      thread_step {| close := cl; reset := rs; worker_paused := pa; mtx := None; wpc := w; wsig := ws; mpc := MIdle; msig := ms; avail := n; ring_full := fu |}
               {| close := cl; reset := false; worker_paused := pa; mtx := None; wpc := w; wsig := wake_worker w ws; mpc := MIdle; msig := ms; avail := n; ring_full := fu |}
  | m_reset cl rs pa w ws ms n fu :   (* virtio_blk_reset: lock, set, signal *)
      thread_step {| close := cl; reset := rs; worker_paused := pa; mtx := None; wpc := w; wsig := ws; mpc := MIdle; msig := ms; avail := n; ring_full := fu |}
               {| close := cl; reset := true; worker_paused := pa; mtx := Some Main; wpc := w; wsig := wake_worker w ws; mpc := MResetCheck; msig := ms; avail := n; ring_full := fu |}
  | m_wait cl rs w ws ms n fu :
      thread_step {| close := cl; reset := rs; worker_paused := false; mtx := Some Main; wpc := w; wsig := ws; mpc := MResetCheck; msig := ms; avail := n; ring_full := fu |}
               {| close := cl; reset := rs; worker_paused := false; mtx := None; wpc := w; wsig := ws; mpc := MResetWait; msig := false; avail := n; ring_full := fu |}
  | m_woken cl rs pa w ws ms n fu :
      thread_step {| close := cl; reset := rs; worker_paused := pa; mtx := None; wpc := w; wsig := ws; mpc := MResetWait; msig := ms; avail := n; ring_full := fu |}
               {| close := cl; reset := rs; worker_paused := pa; mtx := Some Main; wpc := w; wsig := ws; mpc := MResetCheck; msig := false; avail := n; ring_full := fu |}
  | m_paused cl rs w ws ms n fu :
      thread_step {| close := cl; reset := rs; worker_paused := true; mtx := Some Main; wpc := w; wsig := ws; mpc := MResetCheck; msig := ms; avail := n; ring_full := fu |}
               {| close := cl; reset := rs; worker_paused := true; mtx := None; wpc := w; wsig := ws; mpc := MVqReset; msig := ms; avail := n; ring_full := fu |}
  | m_vq_reset cl rs pa mt w ws ms n fu :
      thread_step {| close := cl; reset := rs; worker_paused := pa; mtx := mt; wpc := w; wsig := ws; mpc := MVqReset; msig := ms; avail := n; ring_full := fu |}
               {| close := cl; reset := rs; worker_paused := pa; mtx := mt; wpc := w; wsig := ws; mpc := MIdle; msig := ms; avail := 0; ring_full := fu |}
  | m_close cl rs pa w ws ms n fu :   (* virtio_blk_close: lock, set, signal, unlock *)
      thread_step {| close := cl; reset := rs; worker_paused := pa; mtx := None; wpc := w; wsig := ws; mpc := MIdle; msig := ms; avail := n; ring_full := fu |}
               {| close := true; reset := rs; worker_paused := pa; mtx := None; wpc := w; wsig := wake_worker w ws; mpc := MJoin; msig := ms; avail := n; ring_full := fu |}
  | m_joined cl rs pa mt ws ms n fu :
      thread_step {| close := cl; reset := rs; worker_paused := pa; mtx := mt; wpc := WExit; wsig := ws; mpc := MJoin; msig := ms; avail := n; ring_full := fu |}
               {| close := cl; reset := rs; worker_paused := pa; mtx := mt; wpc := WExit; wsig := ws; mpc := MClosed; msig := ms; avail := n; ring_full := fu |}.

(** Threads, guest and hypervisor interleaved: the guest owns the available index,
    so the queue may hold any number of requests next; a chain without buffers, which
    the worker consumes twice, counts as such a change. *)
Inductive blk_step : blk_threads -> blk_threads -> Prop :=
  | by_thread s s' : thread_step s s' -> blk_step s s'
  | by_guest cl rs pa mt w ws m ms n fu n' :
      blk_step {| close := cl; reset := rs; worker_paused := pa; mtx := mt; wpc := w; wsig := ws; mpc := m; msig := ms; avail := n; ring_full := fu |}
               {| close := cl; reset := rs; worker_paused := pa; mtx := mt; wpc := w; wsig := ws; mpc := m; msig := ms; avail := n'; ring_full := fu |}
  | by_hypervisor cl rs pa mt w ws m ms n fu fu' :
      blk_step {| close := cl; reset := rs; worker_paused := pa; mtx := mt; wpc := w; wsig := ws; mpc := m; msig := ms; avail := n; ring_full := fu |}
               {| close := cl; reset := rs; worker_paused := pa; mtx := mt; wpc := w; wsig := ws; mpc := m; msig := ms; avail := n; ring_full := fu' |}.

(** [start_blk_worker] has just created the thread. *)
Definition blk_started : blk_threads :=
  {| close := false; reset := false; worker_paused := false; mtx := None; wpc := WLock; wsig := false;
     mpc := MIdle; msig := false; avail := 0; ring_full := false |}.

(** The worker reads or writes the virtqueue. *)
Definition touches_vq (w : worker_pc) : bool :=
  match w with WCheck | WDrain _ | WBatch _ | WRecheck _ | WInject _ => true | _ => false end.

(** The worker cannot take a step by itself. *)
Definition worker_blocked (s : blk_threads) : bool :=
  match wpc s with
  | WWait | WResetWait => negb (wsig s)
  | WExit => true
  | _ => false
  end.

(** The main thread has been told the worker is parked and the guest has not
    kicked since: from the return of the reset operation to the next kick. *)
Definition reset_window (s : blk_threads) : bool :=
  match mpc s with
  | MVqReset => true
  | MIdle => reset s
  | _ => false
  end.

(** ** Invariant *)

Definition worker_holds (w : worker_pc) : bool := match w with WCheck | WResetLoop => true | _ => false end.
Definition parked (w : worker_pc) : bool := match w with WResetWait | WResetLoop => true | _ => false end.
Definition closing_pc (m : main_pc) : bool := match m with MJoin | MClosed => true | _ => false end.

Definition waits_first (w : worker_pc) : bool := match w with WWait => true | _ => false end.
Definition waits_reset (w : worker_pc) : bool := match w with WResetWait => true | _ => false end.
Definition main_waits (m : main_pc) : bool := match m with MResetWait => true | _ => false end.
Definition main_holds (m : main_pc) : bool := match m with MResetCheck => true | _ => false end.
Definition resetting_pc (m : main_pc) : bool :=
  match m with MResetCheck | MResetWait | MVqReset => true | _ => false end.

(** The worker has seen the close flag. *)
Definition leaving (w : worker_pc) : bool :=
  match w with WExit | WDrain true | WBatch true | WRecheck true | WInject true | WDecide true _ => true | _ => false end.

(** The conjuncts say: who holds the mutex; close is set exactly once the main
    thread closes; in the reset window the worker is parked; the reset flag is
    set during a reset; worker_paused means parked, and the parked wait has set
    it; only close lets the worker leave; and the three signals that must not
    be lost: the pause reaching the main thread, and a reset, kick or close
    reaching a waiting worker. *)
Definition blk_inv (s : blk_threads) : bool :=
  bool_decide (mtx s = if worker_holds (wpc s) then Some Worker else if main_holds (mpc s) then Some Main else None) &&
  negb (worker_holds (wpc s) && main_holds (mpc s)) &&
  eqb (close s) (closing_pc (mpc s)) &&
  implb (reset_window s) (parked (wpc s)) &&
  implb (resetting_pc (mpc s)) (reset s) &&
  implb (worker_paused s) (parked (wpc s)) &&
  implb (waits_reset (wpc s)) (worker_paused s) &&
  implb (leaving (wpc s)) (close s) &&
  implb (main_waits (mpc s) && worker_paused s) (msig s) &&
  implb (waits_first (wpc s) && (reset s || close s)) (wsig s) &&
  implb (waits_reset (wpc s) && (negb (reset s) || close s)) (wsig s).

Ltac all_cases :=
  repeat match goal with
  | x : bool |- _ => destruct x
  | x : option thread |- _ => destruct x as [[]|]
  | x : worker_pc |- _ => destruct x
  | x : main_pc |- _ => destruct x
  | H : context [(?n =? 0)%nat] |- _ => destruct (n =? 0)%nat
  end.

Lemma thread_step_inv s s' : thread_step s s' -> blk_inv s = true -> blk_inv s' = true.
Proof. intros H Hi. destruct H; all_cases; first [discriminate Hi|discriminate|reflexivity]. Qed.

Lemma blk_step_inv s s' : blk_step s s' -> blk_inv s = true -> blk_inv s' = true.
Proof. intros [x y H|cl rs pa mt w ws m ms n fu n'|cl rs pa mt w ws m ms n fu fu'] Hi; [by eapply thread_step_inv|exact Hi|exact Hi]. Qed.

Lemma blk_steps_inv s : rtc blk_step blk_started s -> blk_inv s = true.
Proof.
  intros H. assert (blk_inv blk_started = true) as H0 by reflexivity. revert H0.
  induction H; eauto using blk_step_inv.
Qed.

(** Steps the worker still takes at most once close is set, with [n] requests in the
    queue and no new ones: a request costs one step, a pass over the queue four. *)
Definition close_rank (w : worker_pc) (n : nat) : nat :=
  match w with
  | WExit => 0
  | WInject true => 1
  | WRecheck true => match n with O => 2 | S _ => n + 4 end
  | WBatch true => n + 3
  | WDrain true => n + 4
  | WDecide true _ => n + 5
  | WCheck => n + 6
  | WLock | WWait => n + 7
  | WInject false | WResetLoop => n + 8
  | WRecheck false => match n with O => 9 | S _ => 2 * n + 11 end
  | WBatch false => 2 * n + 10
  | WLockReset | WResetWait => n + 9
  | WDrain false => 2 * n + 11
  | WDecide false _ => 2 * n + 12
  end.

(** Every schedule of the two threads, the guest adding no request and the
    hypervisor keeping a result slot free, leads to the end of [virtio_blk_close]. *)
Inductive closes : blk_threads -> Prop :=
  | closed_now s : mpc s = MClosed -> closes s
  | closes_step s : (exists s', thread_step s s') -> (forall s', thread_step s s' -> closes s') -> closes s.

Ltac worker_moves :=
  first [apply w_lock|apply w_woken|apply w_go; destruct (_ =? _)%nat; reflexivity|apply w_to_reset
        |apply w_to_drain; reflexivity|apply w_lock_reset|apply w_reset_woken|apply w_resume; reflexivity
        |apply w_nothing|apply w_batch|apply w_serve|apply w_batch_done|apply w_again|apply w_drained|apply w_injected|apply m_joined].

(** While the close waits in [pthread_join], the threads can go on, and each of
    their steps brings the worker closer to its exit. *)
Lemma close_step s :
  blk_inv s = true -> mpc s = MJoin -> ring_full s = false ->
  (exists s', thread_step s s') /\
  (forall s', thread_step s s' ->
     mpc s' = MClosed \/ (mpc s' = MJoin /\ ring_full s' = false /\ (close_rank (wpc s') (avail s') < close_rank (wpc s) (avail s))%nat)).
Proof.
  intros H Hm Hf. destruct s as [cl rs pa mt w ws m ms n fu]. simpl in *. subst m fu.
  all_cases; try discriminate H; destruct n as [|n];
    (split; [eexists; worker_moves|intros s' Hs; inversion Hs; subst; simpl;
       first [left; reflexivity|right; split; [reflexivity|split; [reflexivity|lia] ]|all_cases; discriminate] ]).
Qed.

(** ** Theorems *)

(** C24: the worker does not touch the virtqueue while the main thread
    re-initialises it.  In every interleaving, from the moment the reset
    operation returns until the guest's next kick (or the close), the worker is
    parked in the reset wait. *)
Theorem blk_reset_quiesces s :
  rtc blk_step blk_started s -> reset_window s = true -> parked (wpc s) = true /\ touches_vq (wpc s) = false.
Proof.
  intros H Hw. apply blk_steps_inv in H. unfold blk_inv in H. rewrite Hw in H.
  destruct (wpc s); simpl in *; rewrite ?andb_false_r in H; done.
Qed.

(** A reset cannot hang: whenever the main thread waits for the worker to
    pause, it has been signalled or the worker is able to go on. *)
Theorem blk_reset_not_stuck s :
  rtc blk_step blk_started s -> mpc s = MResetWait -> msig s = true \/ worker_blocked s = false.
Proof.
  intros H Hm. apply blk_steps_inv in H. destruct s as [cl rs pa mt w ws m ms]. simpl in *. subst m.
  all_cases; first [discriminate H|auto].
Qed.


(** ** Example runs *)

Ltac runs := eapply rtc_l; [apply by_thread|].

Lemma blk_reset_run : exists s, rtc blk_step blk_started s /\ reset_window s = true.
Proof.
  eexists. split.
  - runs; [apply m_reset|]. runs; [apply m_wait|]. runs; [apply w_lock|]. runs; [by apply w_go|]. runs; [apply w_to_reset|].
    runs; [apply w_lock_reset|]. runs; [apply w_pause|]. runs; [apply m_woken|]. runs; [apply m_paused|]. apply rtc_refl.
  - reflexivity.
Qed.

Lemma blk_reset_quiesces_witness : exists s, reset_window s = true /\ touches_vq (wpc s) = false.
Proof.
  destruct blk_reset_run as (s & H1 & H2). exists s. split; [exact H2|]. apply (blk_reset_quiesces s H1 H2).
Defined.

Lemma blk_reset_not_stuck_witness :
  exists s, mpc s = MResetWait /\ (msig s = true \/ worker_blocked s = false).
Proof.
  eexists. split; [|eapply blk_reset_not_stuck]; [|runs; [apply m_reset|]; runs; [apply m_wait|]; apply rtc_refl|reflexivity].
  reflexivity.
Defined.

(** Two requests are in the queue and the worker is in its batch when the close
    begins. *)
Definition blk_busy : blk_threads :=
  {| close := true; reset := false; worker_paused := false; mtx := None; wpc := WBatch false; wsig := false;
     mpc := MJoin; msig := false; avail := 2; ring_full := false |}.

Lemma blk_busy_reached : rtc blk_step blk_started blk_busy.
Proof.
  eapply rtc_l; [apply (by_guest _ _ _ _ _ _ _ _ _ _ 2)|]. runs; [apply w_lock|]. runs; [by apply w_go|]. runs; [by apply w_to_drain|].
  runs; [apply w_batch|]. runs; [apply m_close|]. apply rtc_refl.
Qed.


(** A guest that adds a request for each one served keeps the worker in its batch,
    and virtio_blk_close in pthread_join: the run can repeat for ever. *)
Theorem blk_close_held_up : rtc blk_step blk_started blk_busy /\ mpc blk_busy = MJoin /\ tc blk_step blk_busy blk_busy.
Proof.
  split; [apply blk_busy_reached|]. split; [reflexivity|].
  eapply tc_l; [apply by_thread, w_serve|]. apply tc_once, by_guest.
Qed.
