(* ===== verification/Json.v ===== *)
(** * Reading numbers out of JSON documents

    [tools/json_parse.c] and [tools/safe_cjson.c].  The cJSON library is a third
    party's: a document is of a type [J] with the accessors of [CJson], and what is
    relied on is [CJsonLaws].  [strtoumax] with base 0 is that of the C standard. *)

From Stdlib Require Import String Ascii.
From S2P Require Import Prelude.

(** ** The cJSON interface *)

Class CJson (J : Type) := {
  cJSON_IsString : J -> bool;
  cJSON_IsNumber : J -> bool;
  cJSON_IsArray : J -> bool;
  cJSON_IsBool : J -> bool;
  cJSON_IsTrue : J -> bool;
  valuestring : J -> string;
  valueint : J -> Z;   (* int *)
  cJSON_GetObjectItem : J -> string -> option J;
  cJSON_GetObjectItemCaseSensitive : J -> string -> option J;
  cJSON_GetArraySize : J -> Z;
  cJSON_GetArrayItem : J -> Z -> option J;
}.

(** A size is never negative, every index below it has an item, and no item is
    both a string and a number. *)
Class CJsonLaws (J : Type) {cj : CJson J} : Prop := {
  array_size_nonneg j : 0 <= cJSON_GetArraySize j;
  array_item_some j i : 0 <= i < cJSON_GetArraySize j -> is_Some (cJSON_GetArrayItem j i);
  string_not_number j : cJSON_IsString j = true -> cJSON_IsNumber j = false;
}.

(** ** [strtoumax(str, &end, 0)] *)

Definition is_space (c : ascii) : bool :=
  let n := Z.of_nat (nat_of_ascii c) in (n =? 32) || ((9 <=? n) && (n <=? 13)).

Fixpoint skip_space (s : string) : string :=
  match s with
  | EmptyString => EmptyString
  | String c s' => if is_space c then skip_space s' else s
  end.

Definition digit_of (c : ascii) : option Z :=
  let n := Z.of_nat (nat_of_ascii c) in
  if (48 <=? n) && (n <=? 57) then Some (n - 48)
  else if (97 <=? n) && (n <=? 122) then Some (n - 87)
  else if (65 <=? n) && (n <=? 90) then Some (n - 55)
  else None.

Definition digit_in (base : Z) (c : ascii) : option Z :=
  match digit_of c with
  | Some d => if d <? base then Some d else None
  | None => None
  end.

(** The value of the longest prefix of digits, and the rest. *)
Fixpoint scan_digits (base acc : Z) (s : string) : Z * string :=
  match s with
  | EmptyString => (acc, s)
  | String c s' =>
      match digit_in base c with
      | Some d => scan_digits base (acc * base + d) s'
      | None => (acc, s)
      end
  end.

Definition starts_digit (base : Z) (s : string) : bool :=
  match s with
  | String c _ => match digit_in base c with Some _ => true | None => false end
  | EmptyString => false
  end.

(** The base the prefix selects, and the digits after the prefix. *)
Definition detect_base (s : string) : Z * string :=
  match s with
  | String "0"%char (String x s') =>
      if (Ascii.eqb x "x" || Ascii.eqb x "X") && starts_digit 16 s' then (16, s') else (8, s)
  | String "0"%char EmptyString => (8, s)
  | _ => (10, s)
  end.

Record strto_result := {
  st_val : Z;
  st_end : string;   (* what [endptr] points to *)
  st_erange : bool;
}.

Definition strtoumax (str : string) : strto_result :=
  let s := skip_space str in
  let '(neg, s1) :=
    match s with
    | String "-"%char s' => (true, s')
    | String "+"%char s' => (false, s')
    | _ => (false, s)
    end in
  let '(base, s2) := detect_base s1 in
  if starts_digit base s2 then
    let '(v, rest) := scan_digits base 0 s2 in
    if UINT64_MAX <? v then {| st_val := UINT64_MAX; st_end := rest; st_erange := true |}
    else {| st_val := if neg then u64 (- v) else v; st_end := rest; st_erange := false |}
  else {| st_val := 0; st_end := str; st_erange := false |}.

(** ** [json_parse.c] *)

Section json.
Context {J : Type} {cj : CJson J}.

(** [None] is the return value -1. *)
Definition parse_json_number_string (j : J) : option Z :=
  if negb (cJSON_IsString j) then None
  else
    let r := strtoumax (valuestring j) in
    if st_erange r then None
    else if String.eqb (st_end r) (valuestring j) then None
    else if String.eqb (st_end r) EmptyString then Some (st_val r) else None.

Definition parse_json_number (item : option J) : option Z :=
  match item with
  | None => None
  | Some j =>
      if cJSON_IsNumber j then if valueint j <? 0 then None else Some (valueint j)
      else if cJSON_IsString j then parse_json_number_string j
      else None
  end.

(** [DEFINE_PARSE_JSON_FUNC]. *)
Definition parse_json_max (max_val : Z) (item : option J) : option Z :=
  match parse_json_number item with
  | None => None
  | Some v => if max_val <? v then None else Some v
  end.

Definition parse_json_size := parse_json_max UINT64_MAX.
Definition parse_json_address := parse_json_max UINT64_MAX.
Definition parse_json_u64 := parse_json_max UINT64_MAX.
Definition parse_json_u32 := parse_json_max UINT32_MAX.
Definition parse_json_u8 := parse_json_max UINT8_MAX.
Definition parse_json_linux_u64 := parse_json_max UINT64_MAX.
Definition parse_json_linux_u32 := parse_json_max UINT32_MAX.
Definition parse_json_linux_u8 := parse_json_max UINT8_MAX.

(** ** [safe_cjson.c]: [None] is a NULL pointer *)

Definition SAFE_CJSON_GET_OBJECT_ITEM (o : option J) (key : string) : option J :=
  match o with
  | None => None
  | Some j => cJSON_GetObjectItem j key
  end.

Definition SAFE_CJSON_GET_ARRAY_SIZE (o : option J) : Z :=
  match o with
  | None => 0
  | Some j => cJSON_GetArraySize j
  end.

Definition SAFE_CJSON_GET_ARRAY_ITEM (o : option J) (index : Z) : option J :=
  match o with
  | None => None
  | Some j =>
      if (index <? 0) || (cJSON_GetArraySize j <=? index) then None else cJSON_GetArrayItem j index
  end.

End json.

(** ** Lemmas *)

(** The value a list of digits stands for, most significant first. *)
Definition digits_value (base : Z) (ds : list Z) : Z := foldl (fun acc d => acc * base + d) 0 ds.

(** A string written with these digits. *)
Inductive digit_string (base : Z) : list Z -> string -> Prop :=
  | ds_nil : digit_string base [] EmptyString
  | ds_cons c d ds s : digit_in base c = Some d -> digit_string base ds s -> digit_string base (d :: ds) (String c s).

Lemma scan_digits_value base ds s :
  digit_string base ds s -> forall acc, scan_digits base acc s = (foldl (fun acc d => acc * base + d) acc ds, EmptyString).
Proof. induction 1 as [|c d ds s Hc _ IH]; intros acc; simpl; [done|]. rewrite Hc. apply IH. Qed.

Lemma digit_of_nonneg c d : digit_of c = Some d -> 0 <= d.
Proof.
  unfold digit_of. intros H. destruct (_ && _) eqn:E1 in H; [injection H as <-; lia|].
  destruct (_ && _) eqn:E2 in H; [injection H as <-; lia|].
  destruct (_ && _) eqn:E3 in H; [injection H as <-; lia|done].
Qed.

Lemma scan_digits_nonneg base s : forall acc v rest,
  0 <= base -> 0 <= acc -> scan_digits base acc s = (v, rest) -> 0 <= v.
Proof.
  induction s as [|c s IH]; intros acc v rest Hb Ha H; simpl in H; [by injection H as <- _|].
  destruct (digit_in base c) as [d|] eqn:E; [|by injection H as <- _].
  eapply IH; [done| |exact H]. unfold digit_in in E. destruct (digit_of c) as [d'|] eqn:E'; [|done].
  destruct (d' <? base); [|done]. injection E as ->. apply digit_of_nonneg in E'. lia.
Qed.

Lemma detect_base_nonneg s : 0 <= (detect_base s).1.
Proof.
  unfold detect_base. destruct s as [|c s]; [simpl; lia|].
  destruct c as [[] [] [] [] [] [] [] []]; simpl; try lia. destruct s as [|x s]; simpl; [lia|].
  destruct (_ && _); simpl; lia.
Qed.

Lemma strtoumax_range s : 0 <= st_val (strtoumax s) <= UINT64_MAX.
Proof.
  unfold strtoumax. destruct (match skip_space s with | EmptyString => _ | String c s' => _ end) as [neg s1].
  destruct (detect_base s1) as [base s2] eqn:Eb. pose proof (detect_base_nonneg s1) as Hb. rewrite Eb in Hb. simpl in Hb.
  destruct (starts_digit base s2); [|simpl; unfold UINT64_MAX; lia].
  destruct (scan_digits base 0 s2) as [v rest] eqn:Es.
  assert (0 <= v) by (eapply scan_digits_nonneg; [exact Hb| |exact Es]; lia).
  destruct (UINT64_MAX <? v) eqn:E; simpl; [unfold UINT64_MAX; lia|].
  destruct neg; [|lia]. pose proof (u64_range (- v)). unfold UINT64_MAX in *. lia.
Qed.

Lemma strtoumax_hex ds s :
  digit_string 16 ds s -> ds <> [] -> digits_value 16 ds <= UINT64_MAX ->
  strtoumax ("0x" ++ s) = {| st_val := digits_value 16 ds; st_end := EmptyString; st_erange := false |}.
Proof.
  intros H Hne Hv. destruct H as [|c d ds s Hc H]; [done|]. unfold strtoumax. simpl.
  rewrite Hc. simpl. rewrite Hc. rewrite (scan_digits_value 16 ds s H).
  change (foldl (fun acc d : Z => acc * 16 + d) (0 * 16 + d) ds) with (digits_value 16 (d :: ds)).
  by replace (UINT64_MAX <? digits_value 16 (d :: ds)) with false by lia.
Qed.

Section theorems.
Context {J : Type} {cj : CJson J}.

(** The value a parsed item has is always within the bound of its type. *)
Lemma parse_json_max_range max (j : option J) v :
  0 <= max -> parse_json_max max j = Some v -> 0 <= v <= max.
Proof.
  unfold parse_json_max, parse_json_number, parse_json_number_string. intros Hm H.
  destruct j as [j|]; [|done]. destruct (cJSON_IsNumber j).
  - destruct (valueint j <? 0) eqn:E; [done|]. destruct (max <? valueint j) eqn:E2; [done|]. injection H as <-. lia.
  - destruct (cJSON_IsString j); [|done]. simpl in H. pose proof (strtoumax_range (valuestring j)) as Hr.
    destruct (st_erange _); [done|]. destruct (String.eqb _ _); [done|].
    destruct (String.eqb _ EmptyString); [|done]. destruct (max <? _) eqn:E; [done|]. injection H as <-. lia.
Qed.

(** Numbers written in hexadecimal, as the configuration files write them,
    are read exactly when they fit, and what any item is read as is within the
    range of the requested type: an out-of-range number is an error, never a
    truncation. *)
Theorem parse_json_hex_exact max (j : J) ds s :
  0 <= max <= UINT64_MAX -> cJSON_IsString j = true -> cJSON_IsNumber j = false ->
  valuestring j = ("0x" ++ s)%string -> digit_string 16 ds s -> ds <> [] -> digits_value 16 ds <= UINT64_MAX ->
  parse_json_max max (Some j) = (if digits_value 16 ds <=? max then Some (digits_value 16 ds) else None) /\
  (forall item v, parse_json_max max item = Some v -> 0 <= v <= max).
Proof.
  intros Hm Hs Hn Hval Hd Hne Hv. split; [|intros item v H; eapply parse_json_max_range; [|exact H]; lia].
  unfold parse_json_max, parse_json_number, parse_json_number_string. rewrite Hn, Hs, Hval. cbn [negb].
  rewrite (strtoumax_hex ds s) by done. cbn [st_erange st_end st_val].
  replace (String.eqb EmptyString ("0x" ++ s)) with false by reflexivity.
  replace (String.eqb EmptyString EmptyString) with true by reflexivity.
  destruct (max <? digits_value 16 ds) eqn:E.
  - by replace (digits_value 16 ds <=? max) with false by lia.
  - by replace (digits_value 16 ds <=? max) with true by lia.
Qed.

(** A negative number in a string wraps around: "-1" is read as the largest
    64-bit value, although parse_json_number is documented to keep negative
    numbers from wrapping around, which it does for number items only. *)
Theorem parse_json_negative_string (j : J) :
  cJSON_IsNumber j = false -> cJSON_IsString j = true -> valuestring j = "-1"%string ->
  parse_json_u64 (Some j) = Some UINT64_MAX.
Proof.
  intros Hn Hs Hv. unfold parse_json_u64, parse_json_max, parse_json_number, parse_json_number_string.
  rewrite Hn, Hs, Hv. reflexivity.
Qed.

End theorems.

(** ** An example document type and witnesses *)

#[warnings="-register-all"]
Inductive json :=
  | JNumber (n : Z)
  | JBool (b : bool)
  | JString (s : string)
  | JArray (l : list json)
  | JObject (l : list (string * json)).

Fixpoint assoc (l : list (string * json)) (k : string) : option json :=
  match l with
  | [] => None
  | (k', v) :: l' => if String.eqb k k' then Some v else assoc l' k
  end.

#[local] Instance json_cjson : CJson json := {|
  cJSON_IsString j := match j with JString _ => true | _ => false end;
  cJSON_IsNumber j := match j with JNumber _ => true | _ => false end;
  cJSON_IsArray j := match j with JArray _ => true | _ => false end;
  cJSON_IsBool j := match j with JBool _ => true | _ => false end;
  cJSON_IsTrue j := match j with JBool b => b | _ => false end;
  valuestring j := match j with JString s => s | _ => EmptyString end;
  valueint j := match j with JNumber n => n | JBool true => 1 | _ => 0 end;
  cJSON_GetObjectItem j k := match j with JObject l => assoc l k | _ => None end;
  cJSON_GetObjectItemCaseSensitive j k := match j with JObject l => assoc l k | _ => None end;
  cJSON_GetArraySize j := match j with JArray l => Z.of_nat (length l) | JObject l => Z.of_nat (length l) | _ => 0 end;
  cJSON_GetArrayItem j i :=
    match j with JArray l => l !! Z.to_nat i | JObject l => snd <$> l !! Z.to_nat i | _ => None end;
|}.

#[local] Instance json_laws : CJsonLaws json.
Proof.
  constructor.
  - intros [| | | |]; simpl; lia.
  - intros [| | |l|l] i Hi; simpl in *; try lia; [apply lookup_lt_is_Some_2; lia|].
    apply fmap_is_Some, lookup_lt_is_Some_2. lia.
  - by intros [].
Qed.

Lemma parse_json_hex_exact_witness : parse_json_u32 (Some (JString "0xa000000")) = Some 0xa000000.
Proof.
  destruct (parse_json_hex_exact UINT32_MAX (JString "0xa000000") [10; 0; 0; 0; 0; 0; 0] "a000000") as [H _];
    [unfold UINT32_MAX, UINT64_MAX; lia|reflexivity|reflexivity|reflexivity| |discriminate|vm_compute; discriminate|].
  { repeat (apply ds_cons; [reflexivity|]). apply ds_nil. }
  exact H.
Defined.

Lemma parse_json_negative_string_witness : parse_json_u64 (Some (JString "-1")) = Some UINT64_MAX.
Proof. apply (parse_json_negative_string (JString "-1")); reflexivity. Defined.
