(* ===== verification/Config.v ===== *)
(** * Configuration and device creation

    From a JSON document to running devices ([tools/virtio/virtio.c]): the parsing of
    zones, memory regions and devices, the validation of the whole configuration,
    the creation of the devices and their publication, [virtio_start_from_json],
    [virtio_add_from_json] and the control request handler.  A parse function
    returns [None] where the code returns -1.  The allocations of device objects and
    their queues may fail; those of parsed parameters are in [ConfigMem].  The
    backend constructors and destructors ([init], [close], [config_ops->parse]) are
    the interface [DeviceLife]; the file read and [cJSON_Parse] give the root. *)

From Stdlib Require Import String.
From S2P Require Import Prelude Memory ZoneMem Virtqueue Device Ring Interrupt Mmio Bridge Json.

Definition MAX_DEVS : Z := 8.

(** ** Parsed configuration *)

Record VirtioDeviceConfig (P : Type) := {
  cfg_type : VirtioDeviceType;
  cfg_zone_id : Z;
  cfg_addr : Z;
  cfg_len : Z;
  cfg_irq : Z;
  cfg_enabled : bool;
  cfg_params : option P;
}.
Arguments cfg_type {P} _.
Arguments cfg_zone_id {P} _.
Arguments cfg_addr {P} _.
Arguments cfg_len {P} _.
Arguments cfg_irq {P} _.
Arguments cfg_enabled {P} _.
Arguments cfg_params {P} _.

Record VirtioZoneConfig (P : Type) := {
  zc_zone_id : Z;
  zc_memory_regions : list VirtioMemoryRegionConfig;
  zc_devices : list (VirtioDeviceConfig P);
}.
Arguments zc_zone_id {P} _.
Arguments zc_memory_regions {P} _.
Arguments zc_devices {P} _.

(** The zones of a [VirtioConfig]. *)
Abbreviation VirtioConfig P := (list (VirtioZoneConfig P)).

Definition parse_virtio_device_type (s : string) : option VirtioDeviceType :=
  if String.eqb s "blk" then Some VirtioTBlock
  else if String.eqb s "net" then Some VirtioTNet
  else if String.eqb s "console" then Some VirtioTConsole
  else if String.eqb s "gpu" then Some VirtioTGPU
  else if String.eqb s "scmi" then Some VirtioTSCMI
  else None.

(** ** Parsing *)

(** [config_ops_table]: the parser of each type's parameters. *)
Class ConfigOps (J P : Type) := config_ops_table : VirtioDeviceType -> option (J -> option P).

Section parse.
Context {J P : Type} {cj : CJson J} {config_ops : ConfigOps J P}.

Definition lookup_config_ops (t : VirtioDeviceType) : option (J -> option P) :=
  if device_type_code t <=? device_type_code VirtioTNone then None else config_ops_table t.

(** The string an item holds, if it is one. *)
Definition item_string (o : option J) : option string :=
  j ← o; if cJSON_IsString j then Some (valuestring j) else None.

Definition disabled_device (zone_id : Z) : VirtioDeviceConfig P :=
  {| cfg_type := VirtioTNone; cfg_zone_id := zone_id; cfg_addr := 0; cfg_len := 0; cfg_irq := 0;
     cfg_enabled := false; cfg_params := None |}.

Definition parse_virtio_device_config (device_json : option J) (zone_id : Z) : option (VirtioDeviceConfig P) :=
  let item k := SAFE_CJSON_GET_OBJECT_ITEM device_json k in
  status ← item_string (item "status"%string);
  if String.eqb status "disable" then Some (disabled_device zone_id)
  else if negb (String.eqb status "enable") then None
  else
    tstr ← item_string (item "type"%string);
    t ← parse_virtio_device_type tstr;
    addr ← parse_json_u64 (item "addr"%string);
    len ← parse_json_u64 (item "len"%string);
    irq ← parse_json_u32 (item "irq"%string);
    if (addr =? 0) || (len =? 0) || (irq =? 0) then None
    else
      parse ← lookup_config_ops t;
      j ← device_json;
      params ← parse j;
      Some {| cfg_type := t; cfg_zone_id := zone_id; cfg_addr := addr; cfg_len := len; cfg_irq := irq;
              cfg_enabled := true; cfg_params := Some params |}.

Definition parse_virtio_memory_region_config (mem_json : option J) : option VirtioMemoryRegionConfig :=
  z0 ← parse_json_u64 (SAFE_CJSON_GET_OBJECT_ITEM mem_json "zone0_ipa"%string);
  zx ← parse_json_u64 (SAFE_CJSON_GET_OBJECT_ITEM mem_json "zonex_ipa"%string);
  sz ← parse_json_u64 (SAFE_CJSON_GET_OBJECT_ITEM mem_json "size"%string);
  Some {| cfg_zone0_ipa := z0; cfg_zonex_ipa := zx; cfg_size := sz |}.

(** [for (i = 0; i < n; i++)] over the items of an array, stopping at the first
    that does not parse. *)
Fixpoint parse_items {A} (f : option J -> option A) (arr : option J) (i : Z) (n : nat) : option (list A) :=
  match n with
  | O => Some []
  | S n' =>
      x ← f (SAFE_CJSON_GET_ARRAY_ITEM arr i);
      xs ← parse_items f arr (i + 1) n';
      Some (x :: xs)
  end.

Definition parse_array {A} (f : option J -> option A) (arr : option J) (max : Z) : option (list A) :=
  let n := SAFE_CJSON_GET_ARRAY_SIZE arr in
  if (n <? 0) || (max <? n) then None else parse_items f arr 0 (Z.to_nat n).

Definition parse_virtio_zone_config (zone_json : option J) : option (VirtioZoneConfig P) :=
  let item k := SAFE_CJSON_GET_OBJECT_ITEM zone_json k in
  let id := match item "id"%string with Some j => Some j | None => item "zone_id"%string end in
  zone_id ← parse_json_u32 id;
  if Z.of_nat MAX_ZONES <=? zone_id then None
  else
    mems ← parse_array parse_virtio_memory_region_config (item "memory_region"%string) (Z.of_nat CONFIG_MAX_MEMORY_REGIONS);
    devs ← parse_array (fun j => parse_virtio_device_config j zone_id) (item "devices"%string) MAX_DEVS;
    Some {| zc_zone_id := zone_id; zc_memory_regions := mems; zc_devices := devs |}.

Definition parse_virtio_config (root : J) : option (VirtioConfig P) :=
  match cJSON_GetObjectItemCaseSensitive root "zones"%string with
  | None => z ← parse_virtio_zone_config (Some root); Some [z]
  | Some zones => parse_array parse_virtio_zone_config (Some zones) (Z.of_nat MAX_ZONES)
  end.

End parse.

(** ** Validation *)

Definition conflicts {D P} (dev : VirtioDeviceConfig P) (d : VirtIODevice D) : bool :=
  (zone_id d =? cfg_zone_id dev) && ranges_overlap (cfg_addr dev) (cfg_len dev) (base_addr d) (len d).

Definition config_conflicts {P} (dev prev : VirtioDeviceConfig P) : bool :=
  cfg_enabled prev && (cfg_zone_id prev =? cfg_zone_id dev) &&
  ranges_overlap (cfg_addr dev) (cfg_len dev) (cfg_addr prev) (cfg_len prev).

(** The two nested loops over zones and devices, with the devices before the
    current one in the same order. *)
Fixpoint validate_loop {D P} (vds : list (VirtIODevice D)) (prev rest : list (VirtioDeviceConfig P)) (total : Z) : bool :=
  match rest with
  | [] => true
  | dev :: rest' =>
      if negb (cfg_enabled dev) then validate_loop vds (prev ++ [dev]) rest' total
      else
        let total' := total + 1 in
        if MAX_DEVS <? total' then false
        else if existsb (conflicts dev) vds then false
        else if existsb (config_conflicts dev) prev then false
        else validate_loop vds (prev ++ [dev]) rest' total'
  end.

Definition config_devices {P} (cfg : VirtioConfig P) : list (VirtioDeviceConfig P) :=
  concat (zc_devices <$> cfg).

(** [true] is the return value 0. *)
Definition validate_virtio_config_devices {D P} (vds : list (VirtIODevice D)) (cfg : VirtioConfig P) : bool :=
  validate_loop vds [] (config_devices cfg) (Z.of_nat (length vds)).

(** ** Creating and publishing devices *)

(** The parts of a backend that create and release host resources ([E]): an
    [init] that may fail, and the [close] that releases a device. *)
Class DeviceLife (D P E : Type) := {
  dev_null : D;   (* vdev->dev before init *)
  ops_init : VirtioDeviceType -> VirtIODevice D -> option P -> E -> bool * VirtIODevice D * E;
  ops_close : VirtIODevice D -> E -> E;
}.

(** [init] does not change which device it initialises. *)
Class DeviceLifeLaws (D P E : Type) {life : DeviceLife D P E} : Prop :=
  init_identity t d p e ok d' e' :
    ops_init t d p e = (ok, d', e') ->
    zone_id d' = zone_id d /\ base_addr d' = base_addr d /\ len d' = len d /\ irq_id d' = irq_id d /\ type d' = type d.

(** Host resources, the allocator ([h_grants n]: call [n] succeeds) and two records of
    what happened to device objects: those made so far, as
    [create_virtio_device_unpublished] left them, and those closed. *)
Record host (D E : Type) := {
  h_env : E;
  h_grants : nat -> bool;
  h_calls : nat;
  h_created : list (VirtIODevice D);
  h_closed : list (VirtIODevice D);
}.
Arguments h_env {D E} _.
Arguments h_grants {D E} _ _.
Arguments h_calls {D E} _.
Arguments h_created {D E} _.
Arguments h_closed {D E} _.

Section create.
Context {D P E : Type} {vring : VringEvent} {backends : VirtioBackends D} {life : DeviceLife D P E}.

(** The answer of the next [calloc]. *)
Definition host_calloc (h : host D E) : bool * host D E :=
  (h_grants h (h_calls h),
   {| h_env := h_env h; h_grants := h_grants h; h_calls := S (h_calls h); h_created := h_created h; h_closed := h_closed h |}).

(** Creation is done with object [d]. *)
Definition note_created (d : VirtIODevice D) (e : E) (h : host D E) : host D E :=
  {| h_env := e; h_grants := h_grants h; h_calls := h_calls h; h_created := h_created h ++ [d]; h_closed := h_closed h |}.

Definition close_device (d : VirtIODevice D) (h : host D E) : host D E :=
  {| h_env := ops_close d (h_env h); h_grants := h_grants h; h_calls := h_calls h; h_created := h_created h;
     h_closed := h_closed h ++ [d] |}.

Definition destroy_unpublished_virtio_device := close_device.

Definition regs_zero : VirtMmioRegs :=
  {| device_id := 0; dev_feature_sel := 0; drv_feature_sel := 0; queue_sel := 0; interrupt_status := 0;
     status := 0; generation := 0; dev_feature := 0; drv_feature := 0 |}.

Definition set_dev_feature (v : Z) (r : VirtMmioRegs) : VirtMmioRegs :=
  {| device_id := device_id r; dev_feature_sel := dev_feature_sel r; drv_feature_sel := drv_feature_sel r;
     queue_sel := queue_sel r; interrupt_status := interrupt_status r; status := status r;
     generation := generation r; dev_feature := v; drv_feature := drv_feature r |}.

(** [pthread_mutex_init] of the interrupt lock has no effect here; no [close] function
    destroys the lock. *)
Definition create_virtio_device_unpublished (t : VirtioDeviceType) (zone base_addr len irq : Z) (params : option P)
    (h : host D E) : option (VirtIODevice D) * host D E :=
  match lookup_ops t with
  | None => (None, h)
  | Some ops =>
      let '(got, h1) := host_calloc h in
      if negb got then (None, h1)
      else
        let d := {| vqs_len := 0; zone_id := zone; irq_id := irq; base_addr := base_addr; len := len; type := t;
                    regs := set_dev_feature (features ops) (init_mmio_regs t regs_zero); vqs := []; dev := dev_null;
                    status_changed := match ops_status_changed ops with Some _ => true | None => false end;
                    activated := false; interrupt_line_asserted := false |} in
        let '(got_vqs, h2) := host_calloc h1 in
        let '(ret, d1) := init_virtio_queue got_vqs d ops in
        if negb (ret =? 0) then (None, close_device d1 (note_created d1 (h_env h2) h2))
        else
          let '(ok, d2, e) := ops_init t d1 params (h_env h2) in
          let h3 := note_created d2 e h2 in
          if (ok : bool) then (Some d2, h3) else (None, close_device d2 h3)
  end.

(** [None] is the return value -1. *)
Definition publish_virtio_devices (vds new_devs : list (VirtIODevice D)) : option (list (VirtIODevice D)) :=
  let count := Z.of_nat (length new_devs) in
  if count =? 0 then Some vds
  else if MAX_DEVS - Z.of_nat (length vds) <? count then None
  else Some (vds ++ new_devs).

Definition create_virtio_device (vds : list (VirtIODevice D)) (t : VirtioDeviceType) (zone base_addr len irq : Z)
    (params : option P) (h : host D E) : option (VirtIODevice D) * list (VirtIODevice D) * host D E :=
  match create_virtio_device_unpublished t zone base_addr len irq params h with
  | (None, h1) => (None, vds, h1)
  | (Some d, h1) =>
      match publish_virtio_devices vds [d] with
      | Some vds' => (Some d, vds', h1)
      | None => (None, vds, destroy_unpublished_virtio_device d h1)
      end
  end.

Definition destroy_all (ds : list (VirtIODevice D)) (h : host D E) : host D E :=
  fold_left (fun h d => destroy_unpublished_virtio_device d h) ds h.

(** The creation loop: the devices created, or [None] once all are destroyed. *)
Fixpoint create_loop (cfgs : list (VirtioDeviceConfig P)) (new_devs : list (VirtIODevice D)) (h : host D E) :
    option (list (VirtIODevice D)) * host D E :=
  match cfgs with
  | [] => (Some new_devs, h)
  | c :: cfgs' =>
      if negb (cfg_enabled c) then create_loop cfgs' new_devs h
      else
        let '(o, h1) := create_virtio_device_unpublished (cfg_type c) (cfg_zone_id c) (cfg_addr c) (cfg_len c)
                          (cfg_irq c) (cfg_params c) h in
        match o with
        | None => (None, destroy_all new_devs h1)
        | Some d =>
            if Z.of_nat (length new_devs) =? MAX_DEVS
            then (None, destroy_all new_devs (destroy_unpublished_virtio_device d h1))
            else create_loop cfgs' (new_devs ++ [d]) h1
        end
  end.

(** [None] is the return value -1; otherwise the new table of devices. *)
Definition create_virtio_config_devices (vds : list (VirtIODevice D)) (cfg : VirtioConfig P) (h : host D E) :
    option (list (VirtIODevice D)) * host D E :=
  match create_loop (config_devices cfg) [] h with
  | (None, h1) => (None, h1)
  | (Some new_devs, h1) =>
      match publish_virtio_devices vds new_devs with
      | Some vds' => (Some vds', h1)
      | None => (None, destroy_all new_devs h1)
      end
  end.

(** ** Start and add *)

(** The daemon's tables. *)
Record daemon := {
  dm_vdevs : list (VirtIODevice D);
  dm_zones : zone_table;
  dm_host : host D E;
  dm_mmap : mmap_answers;   (* answers of the kernel to come *)
}.

Fixpoint mmap_zones (zt : zone_table) (zs : list (VirtioZoneConfig P)) (ans : mmap_answers) :
    result (zone_table * Z * mmap_answers) :=
  match zs with
  | [] => Ok (zt, 0, ans)
  | z :: zs' =>
      '(zt1, ret, ans1) ← mmap_virtio_zone_memory zt
        {| zone_memory_id := Z.to_nat (zc_zone_id z); memory_regions := zc_memory_regions z |} ans;
      if ret =? 0 then mmap_zones zt1 zs' ans1 else Ok (zt1, ret, ans1)
  end.

Context {J : Type} {cj : CJson J} {config_ops : ConfigOps J P}.

(** Return value and state; [root] is [None] when the file does not parse. *)
Definition virtio_start_from_json (root : option J) (dm : daemon) : result (Z * daemon) :=
  match root with
  | None => Ok (-1, dm)
  | Some j =>
      match parse_virtio_config j with
      | None => Ok (-1, dm)
      | Some cfg =>
          if negb (validate_virtio_config_devices (dm_vdevs dm) cfg) then Ok (-1, dm)
          else
            '(zt, ret, ans) ← mmap_zones (dm_zones dm) cfg (dm_mmap dm);
            let dm1 := {| dm_vdevs := dm_vdevs dm; dm_zones := zt; dm_host := dm_host dm; dm_mmap := ans |} in
            if negb (ret =? 0) then Ok (-1, dm1)
            else
              match create_virtio_config_devices (dm_vdevs dm) cfg (dm_host dm) with
              | (None, h) => Ok (-1, {| dm_vdevs := dm_vdevs dm; dm_zones := zt; dm_host := h; dm_mmap := ans |})
              | (Some vds, h) => Ok (0, {| dm_vdevs := vds; dm_zones := zt; dm_host := h; dm_mmap := ans |})
              end
      end
  end.

(** [for (i = 0; i < vdevs_num; i++) mmio_addrs[i] = vdevs[i]->base_addr] *)
Fixpoint announce (i : nat) (vds : list (VirtIODevice D)) (addrs : list Z) : result (list Z) :=
  match vds with
  | [] => Ok addrs
  | d :: vds' => _ ← of_index (addrs !! i); announce (S i) vds' (<[i := base_addr d]> addrs)
  end.

Definition virtio_add_from_json (root : option J) (dm : daemon) (b : virtio_bridge) : result (Z * daemon * virtio_bridge) :=
  '(err, dm1) ← virtio_start_from_json root dm;
  if negb (err =? 0) then Ok (err, dm1, b)
  else
    addrs ← announce 0 (dm_vdevs dm1) (mmio_addrs b);
    Ok (0, dm1, set_mmio_avail 1 (set_mmio_addrs addrs b)).

(** ** The control socket *)

Record control_response := {
  resp_status : Z;
  resp_message : string;
}.

(** [op] is the request's operation field, NUL-terminated by the handler; [load]
    is the document at the request's path. *)
Definition handle_control_client (op : string) (load : option J) (dm : daemon) (b : virtio_bridge) :
    result (control_response * daemon * virtio_bridge) :=
  if negb (String.eqb op "add") then
    Ok ({| resp_status := -1; resp_message := "unsupported virtio control operation" |}, dm, b)
  else
    '(err, dm1, b1) ← virtio_add_from_json load dm b;
    if negb (err =? 0) then Ok ({| resp_status := -1; resp_message := "virtio add failed" |}, dm1, b1)
    else Ok ({| resp_status := 0; resp_message := "virtio add succeeded" |}, dm1, b1).

End create.
Arguments daemon D E : clear implicits.

(** ** Well-formed tables *)

Definition windows_apart {D} (a b : VirtIODevice D) : Prop :=
  zone_id a = zone_id b -> ranges_overlap (base_addr b) (len b) (base_addr a) (len a) = false.

Definition window_ok {D} (d : VirtIODevice D) : Prop :=
  0 <= base_addr d < 2 ^ 64 /\ 0 <= len d < 2 ^ 64.

(** At most MAX_DEVS devices, no two of a zone with overlapping windows. *)
Definition vdevs_ok {D} (vds : list (VirtIODevice D)) : Prop :=
  Z.of_nat (length vds) <= MAX_DEVS /\ Forall window_ok vds /\
  (forall i j a b, (i < j)%nat -> vds !! i = Some a -> vds !! j = Some b -> windows_apart a b).

Definition daemon_ok {D E} (dm : daemon D E) : Prop := vdevs_ok (dm_vdevs dm) /\ zone_table_ok (dm_zones dm).

(** The enabled devices of a list of configurations. *)
Definition enabled_devices {P} (cs : list (VirtioDeviceConfig P)) : list (VirtioDeviceConfig P) :=
  List.filter cfg_enabled cs.

(** The device was made for this configuration entry. *)
Definition made_for {D P} (c : VirtioDeviceConfig P) (d : VirtIODevice D) : Prop :=
  zone_id d = cfg_zone_id c /\ base_addr d = cfg_addr c /\ len d = cfg_len c /\ irq_id d = cfg_irq c /\
  type d = cfg_type c.

Definition device_config_ok {P} (c : VirtioDeviceConfig P) : Prop :=
  cfg_enabled c = true -> 0 < cfg_addr c < 2 ^ 64 /\ 0 < cfg_len c < 2 ^ 64 /\ 0 < cfg_irq c < 2 ^ 32.

(** ** What a document says

    The configuration a document describes, item by item, without reference to the
    parsers of regions, devices and zones. *)

Section says.
Context {J P : Type} {cj : CJson J} {config_ops : ConfigOps J P}.

Definition device_names : list (string * VirtioDeviceType) :=
  [("blk", VirtioTBlock); ("net", VirtioTNet); ("console", VirtioTConsole); ("gpu", VirtioTGPU); ("scmi", VirtioTSCMI)]%string.

Record region_says (o : option J) (m : VirtioMemoryRegionConfig) : Prop := {
  rs_zone0 : parse_json_u64 (SAFE_CJSON_GET_OBJECT_ITEM o "zone0_ipa"%string) = Some (cfg_zone0_ipa m);
  rs_zonex : parse_json_u64 (SAFE_CJSON_GET_OBJECT_ITEM o "zonex_ipa"%string) = Some (cfg_zonex_ipa m);
  rs_size : parse_json_u64 (SAFE_CJSON_GET_OBJECT_ITEM o "size"%string) = Some (cfg_size m);
}.

(** An enabled device has a type with a parser, a window and an interrupt that are not
    zero, and the parameters its parser makes of the object. *)
Record enabled_says (o : option J) (c : VirtioDeviceConfig P) : Prop := {
  es_type : exists name, item_string (SAFE_CJSON_GET_OBJECT_ITEM o "type"%string) = Some name /\ In (name, cfg_type c) device_names;
  es_addr : parse_json_u64 (SAFE_CJSON_GET_OBJECT_ITEM o "addr"%string) = Some (cfg_addr c) /\ cfg_addr c <> 0;
  es_len : parse_json_u64 (SAFE_CJSON_GET_OBJECT_ITEM o "len"%string) = Some (cfg_len c) /\ cfg_len c <> 0;
  es_irq : parse_json_u32 (SAFE_CJSON_GET_OBJECT_ITEM o "irq"%string) = Some (cfg_irq c) /\ cfg_irq c <> 0;
  es_params : exists j parse p, o = Some j /\ config_ops_table (cfg_type c) = Some parse /\ parse j = Some p /\ cfg_params c = Some p;
  es_enabled : cfg_enabled c = true;
}.

Definition device_says (zone : Z) (o : option J) (c : VirtioDeviceConfig P) : Prop :=
  let status := item_string (SAFE_CJSON_GET_OBJECT_ITEM o "status"%string) in
  cfg_zone_id c = zone /\
  ((status = Some "disable"%string /\ c = disabled_device zone) \/ (status = Some "enable"%string /\ enabled_says o c)).

(** Item [i] of the array is what [says] of element [i]. *)
Definition array_says {A} (says : option J -> A -> Prop) (arr : option J) (max : Z) (l : list A) : Prop :=
  Z.of_nat (length l) = SAFE_CJSON_GET_ARRAY_SIZE arr /\ Z.of_nat (length l) <= max /\
  forall i x, l !! i = Some x -> says (SAFE_CJSON_GET_ARRAY_ITEM arr (Z.of_nat i)) x.

Record zone_says (o : option J) (z : VirtioZoneConfig P) : Prop := {
  zs_id : parse_json_u32 (match SAFE_CJSON_GET_OBJECT_ITEM o "id"%string with
                          | Some j => Some j
                          | None => SAFE_CJSON_GET_OBJECT_ITEM o "zone_id"%string end) = Some (zc_zone_id z);
  zs_bound : zc_zone_id z < Z.of_nat MAX_ZONES;
  zs_regions : array_says region_says (SAFE_CJSON_GET_OBJECT_ITEM o "memory_region"%string) (Z.of_nat CONFIG_MAX_MEMORY_REGIONS)
                 (zc_memory_regions z);
  zs_devices : array_says (device_says (zc_zone_id z)) (SAFE_CJSON_GET_OBJECT_ITEM o "devices"%string) MAX_DEVS (zc_devices z);
}.

(** A list of zones, or one zone that is the document itself. *)
Definition config_says (root : J) (cfg : VirtioConfig P) : Prop :=
  match cJSON_GetObjectItemCaseSensitive root "zones"%string with
  | Some zones => array_says zone_says (Some zones) (Z.of_nat MAX_ZONES) cfg
  | None => exists z, cfg = [z] /\ zone_says (Some root) z
  end.

End says.

(** ** Lemmas *)

Section lemmas.
Context {J P : Type} {cj : CJson J} {config_ops : ConfigOps J P}.

Lemma option_bind_Some_inv {A B} (o : option A) (f : A -> option B) b :
  o ≫= f = Some b -> exists a, o = Some a /\ f a = Some b.
Proof. destruct o; simpl; [eauto|done]. Qed.

Lemma device_names_exact name t : parse_virtio_device_type name = Some t <-> In (name, t) device_names.
Proof.
  unfold parse_virtio_device_type, device_names. split.
  - intros H. repeat (destruct (String.eqb name _) eqn:E; [apply String.eqb_eq in E as ->; injection H as <-; simpl; tauto|clear E]). done.
  - cbn. intros H. repeat (destruct H as [ [= <- <-]|H]; [reflexivity|]). done.
Qed.

Lemma region_exact o m : parse_virtio_memory_region_config o = Some m <-> region_says o m.
Proof.
  unfold parse_virtio_memory_region_config. split.
  - intros H. apply option_bind_Some_inv in H as (z0 & H0 & H). apply option_bind_Some_inv in H as (zx & H1 & H).
    apply option_bind_Some_inv in H as (sz & H2 & H). by injection H as <-.
  - intros [-> -> ->]. by destruct m.
Qed.

(** Every type with a name has a code above that of no type. *)
Lemma lookup_config_ops_named name t : In (name, t) device_names -> lookup_config_ops t = config_ops_table t.
Proof. cbn. intros H. by repeat (destruct H as [ [= _ <-]|H]; [reflexivity|]). Qed.

Lemma device_exact z o c : parse_virtio_device_config o z = Some c <-> device_says z o c.
Proof.
  unfold parse_virtio_device_config, device_says. split.
  - intros H. apply option_bind_Some_inv in H as (st & Hst & H). rewrite Hst.
    destruct (String.eqb st "disable") eqn:E1; [apply String.eqb_eq in E1 as ->; injection H as <-; split; [done|by left]|].
    destruct (String.eqb st "enable") eqn:E2; [apply String.eqb_eq in E2 as ->; cbn [negb] in H|done].
    apply option_bind_Some_inv in H as (ts & Hts & H). apply option_bind_Some_inv in H as (t & Ht & H). apply device_names_exact in Ht.
    apply option_bind_Some_inv in H as (a & Ha & H). apply option_bind_Some_inv in H as (l & Hl & H).
    apply option_bind_Some_inv in H as (i & Hi & H). destruct (_ || _) eqn:E; [done|].
    apply option_bind_Some_inv in H as (parse & Hp & H). apply option_bind_Some_inv in H as (j & -> & H).
    apply option_bind_Some_inv in H as (ps & Hps & H). injection H as <-. rewrite (lookup_config_ops_named _ _ Ht) in Hp.
    split; [done|]. right. split; [done|]. constructor; cbn; [eauto|split; [done|lia]|split; [done|lia]|split; [done|lia]|by exists j, parse, ps|done].
  - intros [Hz [ [-> ->]|[-> [(name & Hn & Ht) [Ha Ha0] [Hl Hl0] [Hi Hi0] (j & parse & ps & -> & Hp & Hps & Hc) He] ] ] ]; [reflexivity|].
    cbn [mbind option_bind]. change (String.eqb "enable" "disable") with false. change (String.eqb "enable" "enable") with true.
    cbn [negb]. rewrite Hn. cbn [mbind option_bind]. rewrite (proj2 (device_names_exact _ _) Ht). cbn [mbind option_bind]. rewrite Ha.
    cbn [mbind option_bind]. rewrite Hl. cbn [mbind option_bind]. rewrite Hi. cbn [mbind option_bind].
    replace ((cfg_addr c =? 0) || (cfg_len c =? 0) || (cfg_irq c =? 0)) with false by lia.
    rewrite (lookup_config_ops_named _ _ Ht), Hp. cbn [mbind option_bind]. rewrite Hps. cbn [mbind option_bind]. destruct c. cbn in *. by subst.
Qed.

Lemma items_exact {A} (f : option J -> option A) (says : option J -> A -> Prop) arr n : forall k l,
  (forall o x, f o = Some x <-> says o x) ->
  parse_items f arr (Z.of_nat k) n = Some l <->
  length l = n /\ forall i x, l !! i = Some x -> says (SAFE_CJSON_GET_ARRAY_ITEM arr (Z.of_nat (k + i))) x.
Proof.
  induction n as [|n IH]; intros k l Hf; cbn [parse_items].
  { split; [intros [= <-]; split; [done|]; intros i x H; by rewrite lookup_nil in H|]. intros [H _]. by destruct l. }
  replace (Z.of_nat k + 1) with (Z.of_nat (S k)) by lia. split.
  - intros H. apply option_bind_Some_inv in H as (x & Hx & H). apply option_bind_Some_inv in H as (xs & Hxs & H).
    injection H as <-. apply Hf in Hx. apply (IH (S k) xs Hf) in Hxs as [<- Hxs]. split; [done|].
    intros [|i] y Hy; cbn in Hy; [injection Hy as <-; by rewrite Nat.add_0_r|]. rewrite <- plus_n_Sm. by apply Hxs.
  - intros [Hlen H]. destruct l as [|x xs]; [done|]. injection Hlen as Hlen.
    assert (f (SAFE_CJSON_GET_ARRAY_ITEM arr (Z.of_nat k)) = Some x) as -> by (apply Hf; rewrite <- (Nat.add_0_r k); by apply (H 0%nat)).
    cbn [mbind option_bind]. rewrite (proj2 (IH (S k) xs Hf)); [done|]. split; [done|]. intros i y Hy.
    change (S k + i)%nat with (S (k + i)). rewrite plus_n_Sm. by apply (H (S i)).
Qed.

Lemma array_exact {A} (f : option J -> option A) (says : option J -> A -> Prop) arr max l :
  (forall o x, f o = Some x <-> says o x) -> parse_array f arr max = Some l <-> array_says says arr max l.
Proof.
  intros Hf. unfold parse_array, array_says. destruct (_ || _) eqn:E.
  - split; [done|]. intros (H1 & H2 & _). lia.
  - rewrite (items_exact f says arr _ 0 l Hf). cbn [Nat.add]. split.
    + intros [H1 H2]. split; [lia|]. split; [lia|done].
    + intros (H1 & H2 & H3). split; [lia|done].
Qed.

Lemma zone_exact o z : parse_virtio_zone_config o = Some z <-> zone_says o z.
Proof.
  unfold parse_virtio_zone_config. split.
  - intros H. apply option_bind_Some_inv in H as (zid & Hid & H). destruct (_ <=? zid) eqn:E; [done|].
    apply option_bind_Some_inv in H as (ms & Hm & H). apply option_bind_Some_inv in H as (ds & Hd & H). injection H as <-.
    constructor; cbn; [exact Hid|lia|by apply (array_exact _ _ _ _ _ region_exact) in Hm|].
    by apply (array_exact _ _ _ _ _ (device_exact zid)) in Hd.
  - intros [-> Hb Hm Hd]. cbn [mbind option_bind]. replace (_ <=? zc_zone_id z) with false by lia.
    rewrite (proj2 (array_exact _ _ _ _ _ region_exact) Hm). cbn [mbind option_bind].
    rewrite (proj2 (array_exact _ _ _ _ _ (device_exact (zc_zone_id z))) Hd). by destruct z.
Qed.

Lemma parse_virtio_device_config_ok j z (c : VirtioDeviceConfig P) :
  parse_virtio_device_config j z = Some c -> device_config_ok c /\ cfg_zone_id c = z.
Proof.
  unfold parse_virtio_device_config. intros H.
  apply option_bind_Some_inv in H as (s & _ & H). destruct (String.eqb s "disable"); [by injection H as <-|].
  destruct (negb _); [done|]. apply option_bind_Some_inv in H as (ts & _ & H).
  apply option_bind_Some_inv in H as (t & _ & H). apply option_bind_Some_inv in H as (a & Ha & H).
  apply option_bind_Some_inv in H as (l & Hl & H). apply option_bind_Some_inv in H as (i & Hi & H).
  destruct (_ || _) eqn:E; [done|].
  apply option_bind_Some_inv in H as (pr & _ & H). apply option_bind_Some_inv in H as (j' & _ & H).
  apply option_bind_Some_inv in H as (ps & _ & H). injection H as <-.
  apply parse_json_max_range in Ha, Hl, Hi; [|unfold UINT32_MAX, UINT64_MAX; lia..].
  split; [|done]. intros _. simpl. unfold UINT32_MAX, UINT64_MAX in *. lia.
Qed.

Lemma parse_items_Forall {A} (f : option J -> option A) (Q : A -> Prop) arr n : forall i l,
  (forall j x, f j = Some x -> Q x) -> parse_items f arr i n = Some l -> Forall Q l.
Proof.
  induction n as [|n IH]; intros i l Hf H; simpl in H; [injection H as <-; constructor|].
  apply option_bind_Some_inv in H as (x & Hx & H). apply option_bind_Some_inv in H as (xs & Hxs & H).
  injection H as <-. constructor; eauto.
Qed.

Lemma parse_array_Forall {A} (f : option J -> option A) (Q : A -> Prop) arr max l :
  (forall j x, f j = Some x -> Q x) -> parse_array f arr max = Some l -> Forall Q l.
Proof. unfold parse_array. intros Hf H. destruct (_ || _); [done|]. by eapply parse_items_Forall. Qed.

Definition zone_config_ok (z : VirtioZoneConfig P) : Prop :=
  Forall config_ok (zc_memory_regions z) /\ Forall device_config_ok (zc_devices z).

Lemma parse_virtio_zone_config_ok j (z : VirtioZoneConfig P) :
  parse_virtio_zone_config j = Some z -> zone_config_ok z.
Proof.
  unfold parse_virtio_zone_config. intros H. apply option_bind_Some_inv in H as (zid & _ & H).
  destruct (_ <=? zid); [done|]. apply option_bind_Some_inv in H as (ms & Hm & H).
  apply option_bind_Some_inv in H as (ds & Hd & H). injection H as <-. split; simpl.
  - eapply parse_array_Forall; [|exact Hm]. intros k x Hx. unfold parse_virtio_memory_region_config in Hx.
    apply option_bind_Some_inv in Hx as (z0 & H0 & Hx). apply option_bind_Some_inv in Hx as (zx & H1 & Hx).
    apply option_bind_Some_inv in Hx as (sz & H2 & Hx). injection Hx as <-.
    apply parse_json_max_range in H0, H1, H2; [|unfold UINT64_MAX; lia..].
    unfold config_ok, u64_val. simpl. unfold UINT64_MAX in *. lia.
  - eapply parse_array_Forall; [|exact Hd]. intros k x Hx. by apply parse_virtio_device_config_ok in Hx as [? _].
Qed.

Lemma parse_virtio_config_ok root (cfg : VirtioConfig P) :
  parse_virtio_config root = Some cfg -> Forall zone_config_ok cfg.
Proof.
  unfold parse_virtio_config. intros H. destruct (cJSON_GetObjectItemCaseSensitive root "zones") as [zs|].
  - eapply parse_array_Forall; [|exact H]. apply parse_virtio_zone_config_ok.
  - apply option_bind_Some_inv in H as (z & Hz & H). injection H as <-. constructor; [|constructor].
    by eapply parse_virtio_zone_config_ok.
Qed.

(** Every parameter of a parsed configuration comes from a parser. *)
Lemma parse_virtio_config_params (Q : P -> Prop) root (cfg : VirtioConfig P) :
  (forall t f j p, config_ops_table t = Some f -> f j = Some p -> Q p) -> parse_virtio_config root = Some cfg ->
  Forall (fun c => forall p, cfg_params c = Some p -> Q p) (config_devices cfg).
Proof.
  intros HQ H. assert (Forall (fun z => Forall (fun c => forall p, cfg_params c = Some p -> Q p) (zc_devices z)) cfg) as Hz.
  - assert (forall j z, parse_virtio_zone_config j = Some z -> Forall (fun c => forall p, cfg_params c = Some p -> Q p) (zc_devices z)) as Hone.
    { intros j z Hj. unfold parse_virtio_zone_config in Hj. apply option_bind_Some_inv in Hj as (zid & _ & Hj). destruct (_ <=? zid); [done|].
      apply option_bind_Some_inv in Hj as (ms & _ & Hj). apply option_bind_Some_inv in Hj as (ds & Hd & Hj). injection Hj as <-. cbn.
      eapply parse_array_Forall; [|exact Hd]. clear -HQ. intros j c Hc p Hp. unfold parse_virtio_device_config in Hc.
      apply option_bind_Some_inv in Hc as (s & _ & Hc). destruct (String.eqb s "disable"); [by injection Hc as <-|]. destruct (negb _); [done|].
      apply option_bind_Some_inv in Hc as (ts & _ & Hc). apply option_bind_Some_inv in Hc as (t & _ & Hc). apply option_bind_Some_inv in Hc as (a & _ & Hc).
      apply option_bind_Some_inv in Hc as (l & _ & Hc). apply option_bind_Some_inv in Hc as (i & _ & Hc). destruct (_ || _); [done|].
      apply option_bind_Some_inv in Hc as (f & Hf & Hc). apply option_bind_Some_inv in Hc as (j' & _ & Hc). apply option_bind_Some_inv in Hc as (ps & Hps & Hc).
      injection Hc as <-. cbn in Hp. injection Hp as ->. unfold lookup_config_ops in Hf. destruct (_ <=? _); [done|]. by eapply HQ. }
    unfold parse_virtio_config in H. destruct (cJSON_GetObjectItemCaseSensitive root "zones") as [zs|]; [by eapply parse_array_Forall|].
    apply option_bind_Some_inv in H as (z & Hz & H). injection H as <-. constructor; [by eapply Hone|constructor].
  - clear H. unfold config_devices. induction Hz as [|z cfg' Hz _ IH]; simpl; [constructor|]. by apply Forall_app.
Qed.

Lemma config_devices_ok (cfg : VirtioConfig P) :
  Forall zone_config_ok cfg -> Forall device_config_ok (config_devices cfg).
Proof.
  unfold config_devices. induction 1 as [|z cfg [_ Hz] _ IH]; simpl; [constructor|]. by apply Forall_app.
Qed.

End lemmas.

(** What the validation has checked of the devices still to come. *)
Lemma validate_loop_spec {D P} (vds : list (VirtIODevice D)) (rest : list (VirtioDeviceConfig P)) : forall prev total,
  validate_loop vds prev rest total = true ->
  (enabled_devices rest = [] \/ total + Z.of_nat (length (enabled_devices rest)) <= MAX_DEVS) /\
  Forall (fun c => existsb (conflicts c) vds = false) (enabled_devices rest) /\
  (forall p, p ∈ prev -> Forall (fun c => config_conflicts c p = false) (enabled_devices rest)) /\
  (forall i j a b, (i < j)%nat -> enabled_devices rest !! i = Some a -> enabled_devices rest !! j = Some b ->
     config_conflicts b a = false).
Proof.
  unfold enabled_devices. induction rest as [|c rest IH]; intros prev total H; cbn [validate_loop List.filter] in *.
  { repeat split; auto; try constructor. intros i j a b _ Ha. by rewrite lookup_nil in Ha. }
  destruct (cfg_enabled c) eqn:Ee; cbn [negb] in H.
  - destruct (MAX_DEVS <? total + 1) eqn:Em; [done|]. destruct (existsb (conflicts c) vds) eqn:Ec; [done|].
    destruct (existsb (config_conflicts c) prev) eqn:Ep; [done|].
    apply IH in H as (H1 & H2 & H3 & H4). split; [|split; [by constructor|split]].
    + right. simpl. destruct H1 as [->|H1]; simpl; lia.
    + intros p Hp. constructor; [|apply H3; by apply elem_of_app; left].
      destruct (config_conflicts c p) eqn:E; [|done]. exfalso.
      assert (existsb (config_conflicts c) prev = true) as Hex; [|congruence].
      apply existsb_exists. exists p. split; [by apply list_elem_of_In|done].
    + intros [|i] [|j] a b Hij Ha Hb; try lia; simpl in Ha, Hb.
      * injection Ha as <-. assert (Forall (fun c' => config_conflicts c' c = false) (List.filter cfg_enabled rest)) as Hf.
        { apply H3. apply elem_of_app. right. by apply list_elem_of_singleton. }
        by eapply Forall_lookup_1 in Hf.
      * eapply (H4 i j); [lia|done|done].
  - apply IH in H as (H1 & H2 & H3 & H4). split; [done|split; [done|split; [|done]]].
    intros p Hp. apply H3. apply elem_of_app. by left.
Qed.

Section create_lemmas.
Context {D P E : Type} {backends : VirtioBackends D} {life : DeviceLife D P E} {laws : DeviceLifeLaws D P E}.
Implicit Types (d : VirtIODevice D) (h : host D E) (c : VirtioDeviceConfig P).

Lemma destroy_all_closed ds : forall h, h_closed (destroy_all ds h) = h_closed h ++ ds /\ h_created (destroy_all ds h) = h_created h.
Proof.
  induction ds as [|d ds IH]; intros h; [by rewrite app_nil_r|].
  change (destroy_all (d :: ds) h) with (destroy_all ds (destroy_unpublished_virtio_device d h)).
  destruct (IH (destroy_unpublished_virtio_device d h)) as [-> ->]. simpl. by rewrite <- app_assoc.
Qed.

Lemma init_virtio_queue_identity alloc d ops ret d1 :
  init_virtio_queue alloc d ops = (ret, d1) ->
  zone_id d1 = zone_id d /\ base_addr d1 = base_addr d /\ len d1 = len d /\ irq_id d1 = irq_id d /\ type d1 = type d.
Proof. unfold init_virtio_queue. intros H. destruct (_ || _); [by injection H as _ <-|]. destruct (negb _); by injection H as _ <-. Qed.

(** Between two states of the host: the objects made in between, and those closed. *)
Definition host_log (h h' : host D E) (created closed : list (VirtIODevice D)) : Prop :=
  h_created h' = h_created h ++ created /\ h_closed h' = h_closed h ++ closed.

Lemma host_log_trans h1 h2 h3 (c1 d1 c2 d2 : list (VirtIODevice D)) : host_log h1 h2 c1 d1 -> host_log h2 h3 c2 d2 -> host_log h1 h3 (c1 ++ c2) (d1 ++ d2).
Proof. intros [H1 H2] [H3 H4]. split; [by rewrite H3, H1, app_assoc|by rewrite H4, H2, app_assoc]. Qed.

Lemma destroy_all_log ds h : host_log h (destroy_all ds h) [] ds.
Proof. destruct (destroy_all_closed ds h) as [H1 H2]. split; [by rewrite H2, app_nil_r|done]. Qed.

(** A device is created for its configuration, or what was allocated is closed. *)
Lemma create_unpublished_spec t z ba l i p h o h' :
  create_virtio_device_unpublished t z ba l i p h = (o, h') ->
  match o with
  | Some d => host_log h h' [d] [] /\ zone_id d = z /\ base_addr d = ba /\ len d = l /\ irq_id d = i /\ type d = t
  | None => exists failed, host_log h h' failed failed
  end.
Proof.
  unfold create_virtio_device_unpublished, host_log. intros H.
  destruct (lookup_ops t) as [ops|]; [|injection H as <- <-; exists []; by rewrite !app_nil_r].
  cbn [host_calloc] in H. destruct (negb _); [injection H as <- <-; exists []; by rewrite !app_nil_r|].
  destruct (init_virtio_queue _ _ ops) as [ret d1] eqn:E1. apply init_virtio_queue_identity in E1 as (Y1 & Y2 & Y3 & Y4 & Y5).
  destruct (negb (ret =? 0)); [injection H as <- <-; by exists [d1]|]. cbn [h_env] in H.
  destruct (ops_init t d1 p (h_env h)) as [[ok d2] e] eqn:E2. apply init_identity in E2 as (Z1 & Z2 & Z3 & Z4 & Z5). simpl in *.
  destruct ok; injection H as <- <-; [|by exists [d2] ]. rewrite app_nil_r. repeat split; congruence.
Qed.

(** The creation loop makes one device per enabled entry, in order; when it
    fails, all it made, and what the failing creation had allocated, is closed. *)
Lemma create_loop_spec cs : forall new h o h',
  create_loop cs new h = (o, h') ->
  match o with
  | Some ds => exists made, ds = new ++ made /\ Forall2 made_for (enabled_devices cs) made /\ host_log h h' made []
  | None => exists made closed, host_log h h' made closed /\ closed ≡ₚ new ++ made
  end.
Proof.
  induction cs as [|c cs IH]; intros new h o h' H; cbn [create_loop] in H.
  { injection H as <- <-. exists []. split; [by rewrite app_nil_r|]. split; [constructor|]. split; by rewrite app_nil_r. }
  unfold enabled_devices in *. cbn [List.filter]. destruct (cfg_enabled c) eqn:Ee; cbn [negb] in H; [|by apply IH].
  destruct (create_virtio_device_unpublished _ _ _ _ _ _ h) as [oc h1] eqn:Ec.
  apply create_unpublished_spec in Ec. destruct oc as [d|].
  - destruct Ec as (Hh & Z1 & Z2 & Z3 & Z4 & Z5). assert (made_for c d) as Hm by done.
    destruct (_ =? MAX_DEVS).
    + injection H as <- <-. exists [d], ([d] ++ new). split; [|by rewrite Permutation_app_comm].
      change [d] with ([d] ++ []) at 1. change ([d] ++ new) with ([] ++ [d] ++ new). eapply host_log_trans; [exact Hh|].
      rewrite <- (app_nil_l []). eapply host_log_trans; [|apply destroy_all_log]. split; [by rewrite app_nil_r|done].
    + apply IH in H. destruct o as [ds|].
      * destruct H as (made & -> & Hf & Hcl). exists (d :: made). split; [by rewrite <- app_assoc|].
        split; [by constructor|]. exact (host_log_trans _ _ _ _ _ _ _ Hh Hcl).
      * destruct H as (made & closed & Hl & Hp). exists (d :: made), closed. split; [exact (host_log_trans _ _ _ _ _ _ _ Hh Hl)|].
        rewrite Hp, <- app_assoc. done.
  - injection H as <- <-. destruct Ec as (failed & Hl). exists failed, (failed ++ new). split; [|by rewrite Permutation_app_comm].
    rewrite <- (app_nil_r failed) at 1. eapply host_log_trans; [exact Hl|apply destroy_all_log].
Qed.

Lemma mmap_zones_ok (zs : VirtioConfig P) : forall zt ans zt' ret ans',
  zone_table_ok zt -> Forall zone_config_ok zs -> mmap_zones zt zs ans = Ok (zt', ret, ans') -> zone_table_ok zt'.
Proof.
  induction zs as [|z zs IH]; intros zt ans zt' ret ans' Hzt Hok H; cbn [mmap_zones] in H; [by injection H as <- _ _|].
  apply Forall_cons_1 in Hok as [[Hz _] Hok]. apply bind_Ok_inv in H as ([[zt1 r1] ans1] & H1 & H).
  apply mmap_virtio_zone_memory_ok in H1; [|done|done]. destruct (r1 =? 0); [by eapply IH|by injection H as <- _ _].
Qed.

Lemma prefix_refl_all (zt : zone_table) : Forall2 prefix zt zt.
Proof. induction zt; by constructor. Qed.

Lemma mmap_one_grows zt cfg ans zt' ret ans' :
  zone_table_ok zt -> Forall config_ok (memory_regions cfg) ->
  mmap_virtio_zone_memory zt cfg ans = Ok (zt', ret, ans') -> Forall2 prefix zt zt'.
Proof.
  unfold mmap_virtio_zone_memory. intros [_ Hall] Hcfg H. apply bind_Ok_inv in H as (rs & Hrs & H). apply of_index_Ok_inv in Hrs.
  apply bind_Ok_inv in H as ([[rs' r] a] & Hm & H). injection H as <- _ _.
  destruct (mmap_regions_ok _ _ _ _ _ _ (Forall_lookup_1 _ _ _ _ Hall Hrs) Hcfg Hm) as (_ & Hp & _).
  rewrite <- (list_insert_id zt (zone_memory_id cfg) rs) at 1 by done. apply Forall2_insert; [apply prefix_refl_all|done].
Qed.

(** Mapping only adds regions. *)
Lemma mmap_zones_grows (zs : VirtioConfig P) : forall zt ans zt' ret ans',
  zone_table_ok zt -> Forall zone_config_ok zs -> mmap_zones zt zs ans = Ok (zt', ret, ans') -> Forall2 prefix zt zt'.
Proof.
  induction zs as [|z zs IH]; intros zt ans zt' ret ans' Hzt Hok H; cbn [mmap_zones] in H; [injection H as <- _ _; apply prefix_refl_all|].
  apply Forall_cons_1 in Hok as [[Hz _] Hok]. apply bind_Ok_inv in H as ([[zt1 r1] ans1] & H1 & H).
  assert (Forall2 prefix zt zt1) as Hp by (eapply mmap_one_grows; [exact Hzt| |exact H1]; exact Hz). apply mmap_virtio_zone_memory_ok in H1; [|done|done].
  destruct (r1 =? 0); [|by injection H as <- _ _]. etransitivity; [exact Hp|by eapply IH].
Qed.

(** Appending validated devices keeps the table well-formed. *)
Lemma vdevs_ok_app (vds new : list (VirtIODevice D)) (cs : list (VirtioDeviceConfig P)) :
  vdevs_ok vds -> Forall device_config_ok cs -> validate_loop vds [] cs (Z.of_nat (length vds)) = true ->
  Forall2 made_for (enabled_devices cs) new -> vdevs_ok (vds ++ new).
Proof.
  intros (Hlen & Hwin & Hap) Hcs Hv Hf. apply validate_loop_spec in Hv as (H1 & H2 & _ & H4).
  pose proof (Forall2_length _ _ _ Hf) as Hl2.
  assert (Hmade : forall i d, new !! i = Some d -> exists c, enabled_devices cs !! i = Some c /\ made_for c d).
  { intros i d Hd. destruct (Forall2_lookup_r _ _ _ _ _ Hf Hd) as (c & ? & ?). eauto. }
  assert (Hen : forall i c, enabled_devices cs !! i = Some c -> cfg_enabled c = true /\ device_config_ok c).
  { intros i c Hc. apply list_elem_of_lookup_2 in Hc. unfold enabled_devices in Hc. apply list_elem_of_In in Hc.
    apply filter_In in Hc as [Hin He]. split; [done|]. rewrite Forall_forall in Hcs. apply Hcs. by apply list_elem_of_In. }
  split; [|split].
  - rewrite length_app. destruct H1 as [E0|?]; [rewrite E0 in Hl2; simpl in Hl2; lia|lia].
  - apply Forall_app. split; [done|]. apply Forall_lookup_2. intros i d Hd.
    destruct (Hmade _ _ Hd) as (c & Hc & (_ & Hb & Hl & _)). destruct (Hen _ _ Hc) as [He Hok].
    unfold window_ok. rewrite Hb, Hl. specialize (Hok He). lia.
  - intros i j a b Hij Ha Hb Hz. apply lookup_app_Some in Ha as [Ha|[Hi Ha]]; apply lookup_app_Some in Hb as [Hb|[Hj Hb]].
    + by eapply (Hap i j).
    + destruct (Hmade _ _ Hb) as (c & Hc & (Zz & Zb & Zl & _)). eapply Forall_lookup_1 in H2; [|exact Hc].
      assert (conflicts c a = false) as Hno.
      { destruct (conflicts c a) eqn:E0; [|done]. rewrite <- H2. symmetry. apply existsb_exists.
        exists a. split; [|done]. apply list_elem_of_In. by eapply list_elem_of_lookup_2. }
      unfold conflicts in Hno. rewrite <- Zz, Hz, Z.eqb_refl, <- Zb, <- Zl in Hno. exact Hno.
    + apply lookup_lt_Some in Hb. lia.
    + destruct (Hmade _ _ Ha) as (c & Hc & (Zz & Zb & Zl & _)). destruct (Hmade _ _ Hb) as (c' & Hc' & (Yz & Yb & Yl & _)).
      pose proof (H4 (i - length vds)%nat (j - length vds)%nat _ _ ltac:(lia) Hc Hc') as Hno. destruct (Hen _ _ Hc) as [He _].
      unfold config_conflicts in Hno. rewrite He, <- Zz, <- Yz, Hz, Z.eqb_refl, <- Zb, <- Zl, <- Yb, <- Yl in Hno. exact Hno.
Qed.

End create_lemmas.

(** ** Theorems *)

Section theorems.
Context {D P E J : Type} {backends : VirtioBackends D} {life : DeviceLife D P E} {laws : DeviceLifeLaws D P E}
  {cj : CJson J} {config_ops : ConfigOps J P}.

(** What a call that returned [ret] has done to the devices: [created] are the objects
    it made, [closed] those it closed. *)
Definition start_outcome (root : option J) (dm : daemon D E) (ret : Z) (dm' : daemon D E) : Prop :=
  exists created closed, host_log (dm_host dm) (dm_host dm') created closed /\
  if ret =? 0
  then closed = [] /\ dm_vdevs dm' = dm_vdevs dm ++ created /\
       exists j cfg, root = Some j /\ parse_virtio_config j = Some cfg /\
         Forall2 made_for (enabled_devices (config_devices cfg)) created
  else ret = -1 /\ dm_vdevs dm' = dm_vdevs dm /\ closed ≡ₚ created.

Lemma start_nothing root dm dm' :
  dm_vdevs dm' = dm_vdevs dm -> dm_host dm' = dm_host dm -> start_outcome root dm (-1) dm'.
Proof. intros H1 H2. exists [], []. unfold host_log. rewrite H2, !app_nil_r. done. Qed.

Lemma publish_Some (vds new vds' : list (VirtIODevice D)) :
  publish_virtio_devices vds new = Some vds' -> vds' = vds ++ new.
Proof.
  unfold publish_virtio_devices. intros H. destruct (_ =? 0) eqn:E0.
  - injection H as <-. destruct new; [by rewrite app_nil_r|simpl in E0; lia].
  - destruct (_ <? _); [done|]. by injection H as <-.
Qed.

(** C33: A document is accepted exactly when it describes a configuration, and the
    configuration that results is the one it describes, item by item: the list of
    zones or the one zone of the document; in a zone the id, below MAX_ZONES, and as
    many memory regions and devices as its arrays have, within their limits, the
    n-th from the n-th item; in a region the three numbers from the items of their
    names; in a device the status, and if it is enabled the type by its name, the
    window and the interrupt, none of them zero, and the parameters that the parser
    of the type makes of the object.  Memory for the parameters is assumed. *)
Theorem parse_virtio_config_exact (root : J) (cfg : VirtioConfig P) :
  parse_virtio_config root = Some cfg <-> config_says root cfg.
Proof.
  unfold parse_virtio_config, config_says. destruct (cJSON_GetObjectItemCaseSensitive root "zones") as [zs|].
  - apply array_exact, zone_exact.
  - split.
    + intros H. apply option_bind_Some_inv in H as (z & Hz & H). injection H as <-. exists z. split; [done|]. by apply zone_exact.
    + intros (z & -> & Hz). by rewrite (proj2 (zone_exact _ z) Hz).
Qed.

(** C34: starting or adding a configuration publishes all its devices or none.  On
    success exactly the enabled devices of the document are appended to the table, in
    order, each with its configured zone, window, interrupt and type, and no object is
    closed.  On failure, whichever step fails and for whichever device, the table is
    unchanged and the objects closed are exactly those the attempt made, each once.
    In both cases the table has at most MAX_DEVS devices no two of which overlap
    within a zone, and the zone memory stays well-formed; regions mapped before a
    failure stay mapped, and none that was mapped is lost. *)
Theorem virtio_start_from_json_atomic (root : option J) (dm dm' : daemon D E) ret :
  daemon_ok dm -> virtio_start_from_json root dm = Ok (ret, dm') ->
  daemon_ok dm' /\ start_outcome root dm ret dm' /\ Forall2 prefix (dm_zones dm) (dm_zones dm').
Proof.
  unfold virtio_start_from_json. intros [Hv Hz] H. pose proof (prefix_refl_all (dm_zones dm)) as Hpre.
  assert (Hkeep : Ok (-1, dm) = Ok (ret, dm') -> daemon_ok dm' /\ start_outcome root dm ret dm' /\ Forall2 prefix (dm_zones dm) (dm_zones dm')).
  { intros E0. injection E0 as <- <-. split; [done|]. split; [by apply start_nothing|done]. }
  destruct root as [j|]; [|by apply Hkeep].
  destruct (parse_virtio_config j) as [cfg|] eqn:Ep; [|by apply Hkeep].
  apply parse_virtio_config_ok in Ep as Hcfg.
  destruct (validate_virtio_config_devices _ cfg) eqn:Ev; cbn [negb] in H; [|by apply Hkeep].
  apply bind_Ok_inv in H as ([[zt r] ans] & Hm & H). pose proof (mmap_zones_grows _ _ _ _ _ _ Hz Hcfg Hm) as Hg. apply mmap_zones_ok in Hm; [|done|done].
  destruct (r =? 0); cbn [negb] in H; [|injection H as <- <-; split; [done|]; split; [by apply start_nothing|done] ].
  unfold create_virtio_config_devices in H.
  destruct (create_loop (config_devices cfg) [] (dm_host dm)) as [o h1] eqn:Ec. apply create_loop_spec in Ec.
  destruct o as [ds|].
  - destruct Ec as (made & -> & Hf & Hcl). cbn [app] in H.
    destruct (publish_virtio_devices (dm_vdevs dm) made) as [vds|] eqn:Epb.
    + injection H as <- <-. apply publish_Some in Epb as ->. split; [split; [|done]|split; [|done] ].
      * simpl. eapply vdevs_ok_app; [exact Hv| |exact Ev|exact Hf]. by apply config_devices_ok.
      * exists made, []. split; [exact Hcl|]. split; [done|]. split; [done|]. by exists j, cfg.
    + injection H as <- <-. split; [done|]. split; [|done]. exists made, made. split; [|done].
      pose proof (host_log_trans _ _ _ _ _ _ _ Hcl (destroy_all_log made h1)) as Hl. by rewrite app_nil_r in Hl.
  - destruct Ec as (made & closed & Hl & Hp). injection H as <- <-. split; [done|]. split; [|done]. by exists made, closed.
Qed.

(** An address belongs to at most one device.  In a well-formed table no
    request is claimed by two devices, so the first match of the dispatcher is
    the only one. *)
Theorem owner_unique (vds : list (VirtIODevice D)) req i j a b :
  vdevs_ok vds -> vds !! i = Some a -> vds !! j = Some b -> owns req a = true -> owns req b = true -> i = j.
Proof.
  intros (_ & Hw & Hap) Ha Hb Oa Ob.
  assert (Hone : forall d : VirtIODevice D, window_ok d -> owns req d = true ->
    src_zone req = zone_id d /\ base_addr d <= address req < base_addr d + len d /\ base_addr d + len d < 2 ^ 64).
  { intros d [W1 W2] O. unfold owns, in_range, u64 in O.
    destruct (decide (base_addr d + len d < 2 ^ 64)) as [Hn|Hn].
    - rewrite Z.mod_small in O by lia. lia.
    - assert ((base_addr d + len d) `mod` 2 ^ 64 = base_addr d + len d - 2 ^ 64) as Hm.
      { symmetry. apply (Z.mod_unique_pos _ _ 1); lia. }
      rewrite Hm in O. lia. }
  assert (Hno : forall p q x y, (p < q)%nat -> vds !! p = Some x -> vds !! q = Some y ->
    owns req x = true -> owns req y = true -> False).
  { intros p q x y Hpq Hx Hy Ox Oy.
    apply Hone in Ox as (Zx & Rx & Nx); [|by eapply Forall_lookup_1].
    apply Hone in Oy as (Zy & Ry & Ny); [|by eapply Forall_lookup_1].
    pose proof (Hap p q x y Hpq Hx Hy ltac:(congruence)) as Hov. unfold ranges_overlap, range_end in Hov.
    replace (UINT64_MAX - base_addr x <? len x) with false in Hov by (unfold UINT64_MAX; lia).
    replace (UINT64_MAX - base_addr y <? len y) with false in Hov by (unfold UINT64_MAX; lia).
    destruct ((len y =? 0) || (len x =? 0)) eqn:E0; lia. }
  destruct (decide (i = j)) as [|Hne]; [done|]. exfalso.
  destruct (decide (i < j)%nat); [by eapply (Hno i j)|eapply (Hno j i); [lia|done..]].
Qed.

End theorems.

(** ** Example document and witnesses *)

#[local] Existing Instance json_cjson.
#[local] Existing Instance idle_backends.
#[local] Existing Instance vring_event_std.

#[local] Instance idle_config_ops : ConfigOps json unit :=
  fun t => if decide (t = VirtioTBlock) then Some (fun _ => Some tt) else None.

#[local] Instance idle_life : DeviceLife unit unit unit :=
  {| dev_null := tt; ops_init := fun _ d _ e => (true, d, e); ops_close := fun _ e => e |}.

#[local] Instance idle_life_laws : DeviceLifeLaws unit unit unit.
Proof. intros t d p e ok d' e' H. simpl in H. by injection H as <- <- <-. Qed.

Definition doc_device (addr : string) : json :=
  JObject [("status", JString "enable"); ("type", JString "blk"); ("addr", JString addr);
           ("len", JString "0x200"); ("irq", JNumber 75)]%string.

Definition doc (addrs : list string) : json :=
  JObject [("zone_id", JNumber 1); ("memory_region", JArray []); ("devices", JArray (doc_device <$> addrs))]%string.

Definition daemon0 : daemon unit unit :=
  {| dm_vdevs := []; dm_zones := table_ab; dm_host := {| h_env := tt; h_grants := fun _ => true; h_calls := 0; h_created := []; h_closed := [] |}; dm_mmap := [] |}.

Lemma daemon0_ok : daemon_ok daemon0.
Proof.
  split; [|exact table_ab_ok]. split; [simpl; unfold MAX_DEVS; lia|]. split; [constructor|].
  intros i j a b _ H. simpl in H. done.
Qed.

Lemma start_two_devices :
  exists dm', virtio_start_from_json (Some (doc ["0xa000000"; "0xa000200"]%string)) daemon0 = Ok (0, dm').
Proof. eexists. vm_compute. reflexivity. Qed.

(** Memory runs out at the second device. *)
Definition daemon_short : daemon unit unit :=
  {| dm_vdevs := []; dm_zones := table_ab;
     dm_host := {| h_env := tt; h_grants := fun n => negb (n =? 2)%nat; h_calls := 0; h_created := []; h_closed := [] |}; dm_mmap := [] |}.

Lemma start_out_of_memory :
  exists dm', virtio_start_from_json (Some (doc ["0xa000000"; "0xa000200"]%string)) daemon_short = Ok (-1, dm') /\
    length (h_created (dm_host dm')) = 1%nat.
Proof. eexists. split; vm_compute; reflexivity. Qed.

(** The first device of a failed attempt is closed; a complete one appends both. *)
Lemma virtio_start_from_json_atomic_witness :
  (exists dm', virtio_start_from_json (Some (doc ["0xa000000"; "0xa000200"]%string)) daemon0 = Ok (0, dm') /\ daemon_ok dm' /\
     dm_vdevs dm' = h_created (dm_host dm')) /\
  (exists dm', virtio_start_from_json (Some (doc ["0xa000000"; "0xa000200"]%string)) daemon_short = Ok (-1, dm') /\ dm_vdevs dm' = [] /\
     length (h_created (dm_host dm')) = 1%nat /\ h_closed (dm_host dm') ≡ₚ h_created (dm_host dm')).
Proof.
  split.
  - destruct start_two_devices as (dm' & H). exists dm'. split; [exact H|].
    destruct (virtio_start_from_json_atomic _ daemon0 dm' 0 daemon0_ok H) as (Hok & (created & closed & [Hc _] & _ & Hv & _) & _).
    split; [exact Hok|]. rewrite Hv, Hc. reflexivity.
  - destruct start_out_of_memory as (dm' & H & Hl). exists dm'. split; [exact H|].
    destruct (virtio_start_from_json_atomic _ daemon_short dm' (-1) daemon0_ok H) as (_ & (created & closed & [Hc Hcl] & _ & Hv & Hp) & _).
    split; [exact Hv|]. split; [exact Hl|]. rewrite Hc, Hcl. exact Hp.
Defined.

(** An overlapping second device is refused. *)
Example start_overlapping :
  virtio_start_from_json (Some (doc ["0xa000000"; "0xa000100"]%string)) daemon0 = Ok (-1, daemon0).
Proof. vm_compute. reflexivity. Qed.

Lemma dev0_table_ok : vdevs_ok [dev0].
Proof.
  split; [simpl; unfold MAX_DEVS; lia|]. split.
  - apply Forall_cons_2; [unfold window_ok; simpl; lia|by apply Forall_nil_2].
  - intros [|i] [|j] a b Hij Ha Hb; try lia; simpl in Hb; by rewrite ?lookup_nil in Hb.
Qed.

Lemma owner_unique_witness : owns req_num dev0 = true /\ 0%nat = 0%nat.
Proof.
  split; [reflexivity|].
  apply (owner_unique [dev0] req_num 0 0 dev0 dev0 dev0_table_ok); reflexivity.
Defined.
