(* ===== verification/ScmiCore.v ===== *)
(** * SCMI messages, the response context and the kernel interface

    [tools/virtio/devices/scmi/scmi_core.c] and the message layout of
    [tools/virtio/include/virtio_scmi.h].  A protocol handler runs in a small
    state monad: guest memory, the response context [struct scmi_resp_ctx] and
    the ioctls issued so far; a step that leaves defined behaviour is a fault.
    What the kernel driver answers to an ioctl is a parameter ([ScmiKernel]).
    The second half holds the proof rules for handlers: every rule concludes
    that the step returns. *)

From S2P Require Import Prelude Memory ZoneMem Virtqueue IoVec.

(** ** The packed message header *)

Record scmi_msg_header := { msg_id : Z; msg_type : Z; protocol_id : Z; token : Z; reserved : Z }.

(** A bit-field of [w] bits at bit [k] of the 32-bit word. *)
Definition bitfield (word k w : Z) : Z := Z.land (Z.shiftr word k) (2 ^ w - 1).

Definition unpack_header (word : Z) : scmi_msg_header :=
  {| msg_id := bitfield word 0 8; msg_type := bitfield word 8 2; protocol_id := bitfield word 10 8;
     token := bitfield word 18 10; reserved := bitfield word 28 4 |}.

(** Storing the fields: each is reduced to its width. *)
Definition pack_header (h : scmi_msg_header) : Z :=
  Z.lor (Z.land (msg_id h) (2 ^ 8 - 1))
    (Z.shiftl (Z.lor (Z.land (msg_type h) (2 ^ 2 - 1))
      (Z.shiftl (Z.lor (Z.land (protocol_id h) (2 ^ 8 - 1))
        (Z.shiftl (Z.lor (Z.land (token h) (2 ^ 10 - 1))
          (Z.shiftl (Z.land (reserved h) (2 ^ 4 - 1)) 10)) 8)) 2)) 8).

Definition SCMI_MSG_TYPE_COMMAND : Z := 0.

Definition scmi_build_header (proto msg tok : Z) : scmi_msg_header :=
  {| msg_id := msg; msg_type := SCMI_MSG_TYPE_COMMAND; protocol_id := proto; token := tok; reserved := 0 |}.

Definition SCMI_PROTO_ID_BASE : Z := 0x10.
Definition SCMI_PROTO_ID_POWER : Z := 0x11.
Definition SCMI_PROTO_ID_CLOCK : Z := 0x14.
Definition SCMI_PROTO_ID_RESET : Z := 0x16.

Definition SCMI_COMMON_MSG_VERSION : Z := 0.
Definition SCMI_COMMON_MSG_PROTOCOL_ATTRIBUTES : Z := 1.
Definition SCMI_COMMON_MSG_MESSAGE_ATTRIBUTES : Z := 2.

Definition SCMI_SUCCESS : Z := 0.
Definition SCMI_ERR_SUPPORT : Z := -1.
Definition SCMI_ERR_PARAMS : Z := -2.
Definition SCMI_ERR_ENTRY : Z := -4.
Definition SCMI_ERR_RANGE : Z := -5.
Definition SCMI_ERR_GENERIC : Z := -8.

(** [sizeof] of the two packed message structs, without their payload. *)
Definition sizeof_scmi_request : Z := 4.
Definition sizeof_scmi_response : Z := 8.

Definition SCMI_MAX_PROTOCOLS : Z := 16.
Definition SCMI_MAX_BUFFER_SIZE : Z := 1024 * 1024.

(** ** The device *)

(** The handler function pointers the device registers. *)
Inductive scmi_handler : Type := base_handler | clock_handler | power_handler | reset_handler.

(** [protocols] holds the first [protocol_count] entries of the array. *)
Record SCMIDev := {
  clock_ids : option (list Z);   (* None is NULL *)
  clock_count : Z;
  reset_ids : option (list Z);
  reset_count : Z;
  power_ids : option (list Z);
  power_count : Z;
  protocols : list (Z * scmi_handler);
}.

Definition protocol_count (dev : SCMIDev) : Z := Z.of_nat (length (protocols dev)).

Definition set_protocols (l : list (Z * scmi_handler)) (d : SCMIDev) : SCMIDev :=
  {| clock_ids := clock_ids d; clock_count := clock_count d; reset_ids := reset_ids d;
     reset_count := reset_count d; power_ids := power_ids d; power_count := power_count d; protocols := l |}.

Definition scmi_dev_register_protocol (dev : SCMIDev) (proto : Z) (h : scmi_handler) : Z * SCMIDev :=
  if SCMI_MAX_PROTOCOLS <=? protocol_count dev then (-1, dev)
  else if existsb (fun e => e.1 =? proto) (protocols dev) then (0, dev)
  else (0, set_protocols (protocols dev ++ [(proto, h)]) dev).

(** The lookup all three [clk_phys_id], [pwr_phys_id] and [rst_phys_id] make:
    [None] is [*valid = false]. *)
Definition phys_id (ids : option (list Z)) (count id : Z) : result (option Z) :=
  match ids with
  | None => Ok None
  | Some l => if count <=? id then Ok None else p ← of_index (l !! Z.to_nat id); Ok (Some p)
  end.

(** ** Ioctls *)

Inductive scmi_ioctl : Type := HVISOR_SCMI_CLOCK_IOCTL | HVISOR_SCMI_RESET_IOCTL | HVISOR_SCMI_POWER_IOCTL.

#[global] Instance scmi_ioctl_eq_dec : EqDecision scmi_ioctl.
Proof. solve_decision. Defined.

(** What the daemon passes down: the command, the header the helper fills in,
    the object's physical id (first word of every union member) and the rest of
    the words it sets. *)
Record scmi_call := { call_ioctl : scmi_ioctl; call_subcmd : Z; call_data_len : Z; call_id : Z; call_words : list Z }.

(** What the argument struct holds when the ioctl returns. *)
Record scmi_answer := {
  ans_ret : Z;
  ans_enabled : Z; ans_parent_id : Z; ans_name : list Z;
  ans_rate : Z; ans_config : Z; ans_extended : Z; ans_power_state : Z;
}.

(** The kernel driver: its answer to a call, given the calls before it. *)
Class ScmiKernel := scmi_answers : list scmi_call -> scmi_call -> scmi_answer.

Definition sizeof_args (c : scmi_ioctl) : Z :=
  match c with
  | HVISOR_SCMI_CLOCK_IOCTL => 88
  | HVISOR_SCMI_RESET_IOCTL => 20
  | HVISOR_SCMI_POWER_IOCTL => 80
  end.

(** ** The handler monad *)

Record scmi_resp_ctx := { iov : iovec; written : Z; capacity : Z }.

Record scmi_state := { s_mem : hmem; s_ctx : scmi_resp_ctx; s_calls : list scmi_call }.

Definition set_mem (m : hmem) (s : scmi_state) : scmi_state :=
  {| s_mem := m; s_ctx := s_ctx s; s_calls := s_calls s |}.
Definition set_written (n : Z) (s : scmi_state) : scmi_state :=
  {| s_mem := s_mem s; s_ctx := {| iov := iov (s_ctx s); written := n; capacity := capacity (s_ctx s) |};
     s_calls := s_calls s |}.
Definition add_call (c : scmi_call) (s : scmi_state) : scmi_state :=
  {| s_mem := s_mem s; s_ctx := s_ctx s; s_calls := s_calls s ++ [c] |}.

Definition scmi (A : Type) : Type := scmi_state -> result (A * scmi_state).

#[global] Instance scmi_ret : MRet scmi := fun A a s => Ok (a, s).
#[global] Instance scmi_bind : MBind scmi := fun A B k c s =>
  match c s with
  | Ok (a, s') => k a s'
  | Err f => Err f
  end.

Definition scmi_fault {A} (f : fault) : scmi A := fun _ => Err f.
Definition get_ctx : scmi scmi_resp_ctx := fun s => Ok (s_ctx s, s).
Definition put_written (n : Z) : scmi unit := fun s => Ok (tt, set_written n s).
Definition lift {A} (r : result A) : scmi A := fun s => a ← r; Ok (a, s).

(** Reads and writes of [n] bytes of guest memory. *)
Definition rd (n : nat) (a : Z) : scmi Z := fun s => v ← load n (s_mem s) a; Ok (v, s).
Definition wr (n : nat) (a v : Z) : scmi unit := fun s => m ← store n (s_mem s) a v; Ok (tt, set_mem m s).
Definition wr_bytes (a : Z) (l : list Z) : scmi unit := fun s => m ← store_bytes (s_mem s) a l; Ok (tt, set_mem m s).

(** The payload word at offset [off] of a request. *)
Definition req_word (req : iovec) (off : Z) : scmi Z := rd 4 (iov_base req + sizeof_scmi_request + off).

(** ** [scmi_core.c] *)

Definition scmi_validate_request (req_size min_req_size resp_size min_resp_size : Z) : Z :=
  if req_size <? min_req_size then SCMI_ERR_PARAMS
  else if resp_size <? min_resp_size then SCMI_ERR_PARAMS
  else SCMI_SUCCESS.

Definition scmi_resp_ctx_init (resp_iov : iovec) : scmi_resp_ctx :=
  {| iov := resp_iov; written := 0; capacity := iov_len resp_iov |}.

(** The reserved space's address, 0 for NULL; the context and its iovec are
    never NULL, both live on the caller's stack. *)
Definition scmi_resp_write (size : Z) : scmi Z :=
  ctx ← get_ctx;
  if capacity ctx <? u64 (written ctx + size) then mret 0
  else
    _ ← put_written (u64 (written ctx + size));
    mret (iov_base (iov ctx) + written ctx).

Definition scmi_make_response (proto msg tok status : Z) : scmi Z :=
  ctx ← get_ctx;
  if capacity ctx <? sizeof_scmi_response then mret SCMI_ERR_PARAMS
  else
    _ ← wr 4 (iov_base (iov ctx)) (pack_header (scmi_build_header proto msg tok));
    _ ← wr 4 (iov_base (iov ctx) + 4) (u32 status);
    _ ← put_written sizeof_scmi_response;
    mret 0.

Section ioctl.
Context `{kern : ScmiKernel}.

(** Return value and the arguments as the kernel left them. *)
Definition hvisor_scmi_ioctl_cmd (cmd : scmi_ioctl) (subcmd id : Z) (words : list Z) : scmi (Z * scmi_answer) := fun s =>
  let c := {| call_ioctl := cmd; call_subcmd := subcmd; call_data_len := sizeof_args cmd - 8;
              call_id := id; call_words := words |} in
  let a := scmi_answers (s_calls s) c in
  Ok ((if ans_ret a <? 0 then -5 else 0, a), add_call c s).

End ioctl.

(** ** C strings *)

(** Characters before the terminating NUL. *)
Fixpoint c_chars (l : list Z) : list Z :=
  match l with
  | [] => []
  | c :: l' => if u8 c =? 0 then [] else c :: c_chars l'
  end.

(** What [strncpy(dst, src, n)] writes at [dst]. *)
Definition strncpy (src : list Z) (n : nat) : list Z :=
  let cs := take n (c_chars src) in cs ++ replicate (n - length cs) 0.

(** [dst[size - 1] = 0] after [strncpy(dst, src, size - 1)]. *)
Definition wr_name (a : Z) (src : list Z) (size : nat) : scmi unit :=
  _ ← wr_bytes a (strncpy src (size - 1));
  wr 1 (a + Z.of_nat size - 1) 0.

(** ** Header arithmetic *)

Definition header_ok (h : scmi_msg_header) : Prop :=
  0 <= msg_id h < 2 ^ 8 /\ 0 <= msg_type h < 2 ^ 2 /\ 0 <= protocol_id h < 2 ^ 8 /\
  0 <= token h < 2 ^ 10 /\ 0 <= reserved h < 2 ^ 4.

Lemma bitfield_mod w k n : 0 <= k -> 0 <= n -> bitfield w k n = (w `div` 2 ^ k) `mod` 2 ^ n.
Proof. intros. unfold bitfield. by rewrite land_mask_mod, Z.shiftr_div_pow2. Qed.

Lemma lor_halves_mod x hi k : 0 <= k ->
  Z.lor (Z.land x (2 ^ k - 1)) (Z.shiftl hi k) = x `mod` 2 ^ k + 2 ^ k * hi.
Proof. intros Hk. rewrite land_mask_mod by done. apply lor_halves; [done|]. apply Z.mod_pos_bound. lia. Qed.

Lemma pack_header_eq h :
  pack_header h = msg_id h `mod` 2 ^ 8 + 2 ^ 8 * (msg_type h `mod` 2 ^ 2 + 2 ^ 2 * (protocol_id h `mod` 2 ^ 8 +
    2 ^ 8 * (token h `mod` 2 ^ 10 + 2 ^ 10 * (reserved h `mod` 2 ^ 4)))).
Proof. unfold pack_header. rewrite !lor_halves_mod by lia. by rewrite land_mask_mod by lia. Qed.

Lemma pack_header_range h : 0 <= pack_header h < 2 ^ 32.
Proof.
  rewrite pack_header_eq.
  pose proof (Z.mod_pos_bound (msg_id h) (2 ^ 8) ltac:(lia)). pose proof (Z.mod_pos_bound (msg_type h) (2 ^ 2) ltac:(lia)).
  pose proof (Z.mod_pos_bound (protocol_id h) (2 ^ 8) ltac:(lia)). pose proof (Z.mod_pos_bound (token h) (2 ^ 10) ltac:(lia)).
  pose proof (Z.mod_pos_bound (reserved h) (2 ^ 4) ltac:(lia)). lia.
Qed.

(** Reading the bit-fields back gives what was stored. *)
Lemma unpack_pack_header h : header_ok h -> unpack_header (pack_header h) = h.
Proof.
  intros (H1 & H2 & H3 & H4 & H5). unfold unpack_header. rewrite !bitfield_mod, pack_header_eq by lia.
  rewrite !Z.mod_small with (a := msg_id h), !Z.mod_small with (a := msg_type h),
    !Z.mod_small with (a := protocol_id h), !Z.mod_small with (a := token h), !Z.mod_small with (a := reserved h) by lia.
  destruct h as [a b c d e]. simpl in *. f_equal; Z.to_euclidean_division_equations; lia.
Qed.

Lemma unpack_header_ok w : header_ok (unpack_header w).
Proof. unfold header_ok, unpack_header. simpl. rewrite !bitfield_mod by lia. repeat split; apply Z.mod_pos_bound; lia. Qed.

(** ** What a device may touch *)

(** The objects configured for a device, per ioctl. *)
Definition configured_ids (dev : SCMIDev) (c : scmi_ioctl) : list Z :=
  default [] (match c with
              | HVISOR_SCMI_CLOCK_IOCTL => clock_ids dev
              | HVISOR_SCMI_RESET_IOCTL => reset_ids dev
              | HVISOR_SCMI_POWER_IOCTL => power_ids dev
              end).

(** A call that stays within the device's configuration. *)
Definition allowed_call (dev : SCMIDev) (c : scmi_call) : Prop := call_id c ∈ configured_ids dev (call_ioctl c).

(** The counts do not exceed the arrays, the table its 16 entries. *)
Definition ids_ok (ids : option (list Z)) (count : Z) : Prop :=
  match ids with Some l => count <= Z.of_nat (length l) | None => True end.

Record scmi_dev_ok (dev : SCMIDev) : Prop := {
  ok_clock : ids_ok (clock_ids dev) (clock_count dev);
  ok_reset : ids_ok (reset_ids dev) (reset_count dev);
  ok_power : ids_ok (power_ids dev) (power_count dev);
  ok_table : (length (protocols dev) <= 16)%nat;
  ok_protos : Forall (fun e => 0 <= e.1 < 2 ^ 8) (protocols dev);
}.

(** ** Proof rules for handlers *)

(** The step returns, and its outcome satisfies [Q]. *)
Definition wp {A} (c : scmi A) (s : scmi_state) (Q : A -> scmi_state -> Prop) : Prop :=
  match c s with
  | Ok (a, s') => Q a s'
  | Err _ => False
  end.

Lemma wp_ret {A} (a : A) s Q : Q a s -> wp (mret a) s Q.
Proof. done. Qed.

Lemma wp_bind {A B} (c : scmi A) (k : A -> scmi B) s Q : wp c s (fun a s' => wp (k a) s' Q) -> wp (c ≫= k) s Q.
Proof. unfold wp, mbind, scmi_bind. by destruct (c s) as [[a s']|]. Qed.

Lemma wp_rd n a v s Q : load n (s_mem s) a = Ok v -> Q v s -> wp (rd n a) s Q.
Proof. unfold wp, rd. by intros ->. Qed.

Lemma wp_get_ctx s Q : Q (s_ctx s) s -> wp get_ctx s Q.
Proof. done. Qed.

Lemma wp_conseq {A} (c : scmi A) s (Q Q' : A -> scmi_state -> Prop) :
  wp c s Q -> (forall a s', Q a s' -> Q' a s') -> wp c s Q'.
Proof. unfold wp. destruct (c s) as [[a s']|]; auto. Qed.

Lemma wp_store s b n a v Q :
  reachable (s_mem s) b -> iov_base b <= a -> a + Z.of_nat n <= iov_base b + iov_len b ->
  (forall m, store n (s_mem s) a v = Ok m -> Q tt (set_mem m s)) -> wp (wr n a v) s Q.
Proof.
  intros Hb H1 H2 HQ. unfold wp, wr. assert (exists m, store n (s_mem s) a v = Ok m) as [m E].
  { unfold store. rewrite (reachable_access _ b) by done. simpl. eauto. }
  rewrite E. simpl. by apply HQ.
Qed.

Section rules.
Context (allowed : scmi_call -> Prop) (s0 : scmi_state).

Notation resp := (iov (s_ctx s0)).
Notation cap := (capacity (s_ctx s0)).

(** What every handler keeps, whatever the outcome. *)
Record framed (s : scmi_state) : Prop := {
  fr_iov : iov (s_ctx s) = resp;
  fr_cap : capacity (s_ctx s) = cap;
  fr_written : 0 <= written (s_ctx s) <= cap;
  fr_mem : same_but [resp] (s_mem s0) (s_mem s);
  fr_calls : s_calls s = s_calls s0 \/ exists c, s_calls s = s_calls s0 ++ [c] /\ allowed c;
}.

(** A response with header [h] and status [st] is in place, [w] bytes long. *)
Record answered (h : scmi_msg_header) (st w : Z) (s : scmi_state) : Prop := {
  an_framed : framed s;
  an_written : written (s_ctx s) = w;
  an_len : sizeof_scmi_response <= w <= cap;
  an_header : load 4 (s_mem s) (iov_base resp) = Ok (pack_header h);
  an_status : load 4 (s_mem s) (iov_base resp + 4) = Ok (u32 st);
}.

(** The outcome of a handler for message [msg] of [proto]. *)
Definition handled (proto msg tok : Z) (r : Z) (s : scmi_state) : Prop :=
  framed s /\ (r = 0 -> exists st w, answered (scmi_build_header proto msg tok) st w s).

Context (Hresp : reachable (s_mem s0) resp) (Hcap : cap = iov_len resp) (Hw0 : written (s_ctx s0) = 0).

Lemma framed_refl : framed s0.
Proof. destruct Hresp as (_ & Hl & _). split; [done|done|lia|done|by left]. Qed.

Lemma framed_call c : allowed c -> framed (add_call c s0).
Proof. destruct Hresp as (_ & Hl & _). intros Hc. split; simpl; [done|done|lia|done|right; eauto]. Qed.

Lemma answered_handled proto msg tok st w s :
  answered (scmi_build_header proto msg tok) st w s -> handled proto msg tok 0 s.
Proof. intros H. split; [apply H|]. eauto. Qed.

Lemma wp_req_word s req off Q :
  framed s -> reachable (s_mem s0) req -> 0 <= off -> off + 8 <= iov_len req ->
  (forall v, 0 <= v < 2 ^ 32 -> load 4 (s_mem s) (iov_base req + sizeof_scmi_request + off) = Ok v -> Q v s) ->
  wp (req_word req off) s Q.
Proof.
  intros [_ _ _ [Hr _] _] Hreq H1 H2 HQ. unfold wp, req_word, rd.
  destruct (load 4 (s_mem s) _) as [v|] eqn:E.
  - simpl. apply HQ; [exact (load_range 4 _ _ _ E)|done].
  - unfold load in E. rewrite (reachable_access _ req) in E; [discriminate E|by eapply reachable_ranges| |];
      unfold sizeof_scmi_request; simpl; lia.
Qed.

Lemma wp_phys_id s ids count id Q :
  ids_ok ids count -> 0 <= id ->
  Q None s -> (forall l p, ids = Some l -> p ∈ l -> id < count -> Q (Some p) s) ->
  wp (lift (phys_id ids count id)) s Q.
Proof.
  unfold wp, lift, phys_id, ids_ok. intros Hl Hid HN HS. destruct ids as [l|]; [|done].
  destruct (count <=? id) eqn:E; [done|]. destruct (l !! Z.to_nat id) as [p|] eqn:Ep; simpl.
  - eapply HS; [done|by eapply list_elem_of_lookup_2|lia].
  - apply lookup_ge_None in Ep. lia.
Qed.

Lemma wp_wr s h st w n a v Q :
  answered h st w s -> iov_base resp + sizeof_scmi_response <= a -> a + Z.of_nat n <= iov_base resp + cap ->
  (forall s', answered h st w s' -> store n (s_mem s) a v = Ok (s_mem s') -> Q tt s') -> wp (wr n a v) s Q.
Proof.
  intros [[F1 F2 F3 F4 F5] W L H1 H2] Ha Hn HQ. unfold sizeof_scmi_response in *.
  apply (wp_store _ resp); [by eapply reachable_ranges; [apply F4|]|lia|lia|]. intros m E. apply HQ; [|done].
  split; [|done|done|by rewrite (load_store_other _ _ _ _ _ _ _ E) by lia|
          by rewrite (load_store_other _ _ _ _ _ _ _ E) by lia].
  split; [done|done|done| |done]. etransitivity; [exact F4|]. eapply store_same_but; [exact E|by left|lia|lia].
Qed.

Lemma wp_wr_bytes s h st w a l Q :
  answered h st w s -> iov_base resp + sizeof_scmi_response <= a -> a + Z.of_nat (length l) <= iov_base resp + cap ->
  (forall s', answered h st w s' -> Q tt s') -> wp (wr_bytes a l) s Q.
Proof.
  intros [F W L H1 H2] Ha Hn HQ. destruct F as [F1 F2 F3 F4 F5]. unfold wp, wr_bytes.
  destruct (store_bytes (s_mem s) a l) as [m|] eqn:E.
  - simpl. apply HQ. unfold sizeof_scmi_response in *. pose proof (store_bytes_same_outside _ _ _ _ E) as Hs.
    split; [|done|done|by rewrite (load_same_outside _ _ _ _ _ _ Hs) by lia|
            by rewrite (load_same_outside _ _ _ _ _ _ Hs) by lia].
    split; [done|done|done| |done]. etransitivity; [exact F4|]. eapply store_bytes_same_but; [exact E|by left|lia|lia].
  - unfold store_bytes in E. rewrite (reachable_access _ resp) in E; [by destruct l| | |];
      [by eapply reachable_ranges; [apply F4|]| |]; unfold sizeof_scmi_response in *; lia.
Qed.

Lemma wp_make_response s proto msg tok st Q :
  framed s -> sizeof_scmi_response <= cap ->
  (forall s', answered (scmi_build_header proto msg tok) st sizeof_scmi_response s' -> s_calls s' = s_calls s -> Q 0 s') ->
  wp (scmi_make_response proto msg tok st) s Q.
Proof.
  intros [F1 F2 F3 F4 F5] Hc HQ. unfold scmi_make_response. apply wp_bind, wp_get_ctx.
  rewrite F2, F1. replace (cap <? sizeof_scmi_response) with false by lia. unfold sizeof_scmi_response in *.
  assert (reachable (s_mem s) resp) as Hr by (by eapply reachable_ranges; [apply F4|]).
  apply wp_bind, (wp_store _ resp); [done|lia|simpl; lia|]. intros m1 E1.
  apply wp_bind, (wp_store _ resp); [|lia|simpl; lia|].
  { eapply reachable_ranges; [|exact Hr]. by eapply store_ranges. }
  intros m2 E2. cbn [s_mem set_mem] in E2. apply wp_bind. unfold wp.
  simpl. apply HQ; [|done]. split; simpl; [|done|unfold sizeof_scmi_response; lia| |].
  - split; simpl; [done|done|lia| |done]. etransitivity; [exact F4|].
    etransitivity; (eapply store_same_but; [eassumption|by left|lia|simpl; lia]).
  - rewrite (load_store_other _ _ _ _ _ _ _ E2) by (simpl; lia).
    rewrite (load_store_same _ _ _ _ _ E1). f_equal. apply Z.mod_small, pack_header_range.
  - rewrite (load_store_same _ _ _ _ _ E2). f_equal. apply Z.mod_small, u32_range.
Qed.

Lemma wp_resp_write s h st w size Q :
  answered h st w s -> 0 <= size < 2 ^ 32 ->
  (forall s', w + size <= cap -> answered h st (w + size) s' -> Q (iov_base resp + w) s') ->
  (cap < w + size -> Q 0 s) -> wp (scmi_resp_write size) s Q.
Proof.
  intros [[F1 F2 F3 F4 F5] W L H1 H2] Hs HQ HN. destruct Hresp as (Hb & Hl & _).
  unfold scmi_resp_write. apply wp_bind, wp_get_ctx. rewrite W, F2, F1, u64_small by lia.
  destruct (cap <? w + size) eqn:E; [apply wp_ret, HN; lia|].
  apply wp_bind. unfold wp. simpl. apply HQ; [lia|].
  unfold sizeof_scmi_response in *. split; simpl; [|done|unfold sizeof_scmi_response; lia|done|done]. split; simpl; try done; lia.
Qed.

(** Shortening the response once it is in place. *)
Lemma wp_put_written s h st w n Q :
  answered h st w s -> sizeof_scmi_response <= n <= cap ->
  (forall s', answered h st n s' -> s_mem s' = s_mem s -> Q tt s') -> wp (put_written n) s Q.
Proof.
  intros [[F1 F2 F3 F4 F5] W L H1 H2] Hn HQ. unfold wp. simpl. apply HQ; [|done]. unfold sizeof_scmi_response in *.
  split; simpl; [|done|done|done|done]. split; simpl; try done; lia.
Qed.

End rules.

Lemma length_strncpy l n : length (strncpy l n) = n.
Proof. unfold strncpy. rewrite length_app, length_replicate, length_take. lia. Qed.

Section more_rules.
Context `{kern : ScmiKernel} (allowed : scmi_call -> Prop) (s0 : scmi_state).
Context (Hresp : reachable (s_mem s0) (iov (s_ctx s0))) (Hcap : capacity (s_ctx s0) = iov_len (iov (s_ctx s0)))
  (Hw0 : written (s_ctx s0) = 0).

Lemma wp_wr_name s h st w a l n Q :
  answered allowed s0 h st w s -> iov_base (iov (s_ctx s0)) + sizeof_scmi_response <= a ->
  (0 < n)%nat -> a + Z.of_nat n <= iov_base (iov (s_ctx s0)) + capacity (s_ctx s0) ->
  (forall s', answered allowed s0 h st w s' -> Q tt s') -> wp (wr_name a l n) s Q.
Proof.
  intros HA H1 Hn H2 HQ. unfold wr_name. apply wp_bind.
  eapply (wp_wr_bytes allowed s0); [done|done|exact HA|lia|rewrite length_strncpy; lia|].
  intros s' HA'. eapply (wp_wr allowed s0); [done|done|exact HA'|lia|simpl; lia|auto].
Qed.

Lemma wp_ioctl cmd sub id words Q :
  (forall n ws, allowed {| call_ioctl := cmd; call_subcmd := sub; call_data_len := n; call_id := id; call_words := ws |}) ->
  (forall r a s', (r = 0 \/ r = -5) -> framed allowed s0 s' -> s_ctx s' = s_ctx s0 -> Q (r, a) s') ->
  wp (hvisor_scmi_ioctl_cmd cmd sub id words) s0 Q.
Proof.
  intros Hok HQ. unfold wp, hvisor_scmi_ioctl_cmd. apply HQ; [destruct (_ <? 0); auto|by apply framed_call|done].
Qed.

End more_rules.

Lemma allowed_intro dev cmd sub n id ws l :
  match cmd with
  | HVISOR_SCMI_CLOCK_IOCTL => clock_ids dev
  | HVISOR_SCMI_RESET_IOCTL => reset_ids dev
  | HVISOR_SCMI_POWER_IOCTL => power_ids dev
  end = Some l -> id ∈ l ->
  allowed_call dev {| call_ioctl := cmd; call_subcmd := sub; call_data_len := n; call_id := id; call_words := ws |}.
Proof. intros H Hid. unfold allowed_call, configured_ids. simpl. by rewrite H. Qed.

(** ** Automation: symbolic execution of a handler from its initial state *)

Lemma handled_error allowed s0 proto msg tok r s :
  framed allowed s0 s -> r <> 0 -> handled allowed s0 proto msg tok r s.
Proof. by split. Qed.

Lemma validate_inv a b c d : negb (scmi_validate_request a b c d =? SCMI_SUCCESS) = false -> b <= a /\ d <= c.
Proof. unfold scmi_validate_request. destruct (a <? b) eqn:?; [done|]. destruct (c <? d) eqn:?; [done|]. lia. Qed.

Lemma validate_fail a b c d :
  negb (scmi_validate_request a b c d =? SCMI_SUCCESS) = true -> scmi_validate_request a b c d <> 0.
Proof. intros H E. by rewrite E in H. Qed.

Ltac scmi_lia :=
  unfold sizeof_scmi_request, sizeof_scmi_response, SCMI_SUCCESS, SCMI_ERR_PARAMS, SCMI_ERR_SUPPORT in *; lia.

Ltac scmi_side := first [eassumption | scmi_lia | done].

(** One step; every branch the tests allow becomes a goal. *)
Ltac scmi_step :=
  cbv beta iota zeta;
  lazymatch goal with
  | |- wp (mret _) _ _ => apply wp_ret
  | |- wp (_ ≫= _) _ _ => apply wp_bind
  | |- wp get_ctx _ _ => apply wp_get_ctx
  | |- wp (req_word _ _) _ _ =>
      eapply wp_req_word; [eassumption|eassumption|scmi_side|scmi_side|intros ? ? ?]
  | |- wp (lift (phys_id _ _ _)) _ _ => eapply wp_phys_id; [eassumption|scmi_side| |intros ? ? ? ? ?]
  | |- wp (scmi_make_response _ _ _ _) _ _ =>
      eapply wp_make_response; [eassumption|eassumption|eassumption|scmi_side|intros ? ? _]
  | |- wp (scmi_resp_write _) _ _ =>
      eapply wp_resp_write; [eassumption|eassumption|eassumption|scmi_side|intros ? ? ?|intros ?]
  | |- wp (wr _ _ _) _ _ => eapply wp_wr; [eassumption|eassumption|eassumption|scmi_side|scmi_side|intros ? ? _]
  | |- wp (wr_bytes _ _) _ _ =>
      eapply wp_wr_bytes; [eassumption|eassumption|eassumption|scmi_side|rewrite ?length_strncpy; scmi_side|intros ? ?]
  | |- wp (wr_name _ _ _) _ _ =>
      eapply wp_wr_name; [eassumption|eassumption|eassumption|scmi_side|lia|scmi_side|intros ? ?]
  | |- wp (hvisor_scmi_ioctl_cmd _ _ _ _) _ _ =>
      eapply wp_ioctl; [eassumption|eassumption|eassumption|intros ? ?; eapply allowed_intro; eassumption|intros ? ? ? ? ? ?]
  | |- wp (if negb (scmi_validate_request _ _ _ _ =? _) then _ else _) _ _ =>
      let E := fresh "E" in
      destruct (negb (scmi_validate_request _ _ _ _ =? _)) eqn:E; [apply validate_fail in E|apply validate_inv in E as [? ?]]
  | |- wp (if ?b then _ else _) _ _ => let E := fresh "E" in destruct b eqn:E
  end.

(** Close a finished branch: the branch is impossible, the response is in
    place, or the handler gave up without one. *)
Ltac scmi_done :=
  first [ eapply answered_handled; eassumption
        | apply handled_error; [first [eassumption | eapply an_framed; eassumption]|scmi_side]
        | exfalso; scmi_lia ].

Ltac scmi_run := repeat (first [scmi_step | exfalso; scmi_lia]); try scmi_done.

(** The [switch] of a protocol's dispatcher: [tac] closes each case. *)
Ltac scmi_dispatch tac :=
  lazymatch goal with
  | |- wp (if ?m =? ?c then _ else _) _ _ =>
      let E := fresh "E" in
      destruct (Z.eqb_spec m c) as [E|E]; [subst m; solve [tac]|clear E; scmi_dispatch tac]
  | |- wp (mret _) _ _ => apply wp_ret, handled_error; done
  end.
