(* ===== verification/ScmiBase.v ===== *)
(** * The SCMI base protocol

    The handlers of [tools/virtio/devices/scmi/base.c]. *)

From S2P Require Import Prelude Memory ZoneMem Virtqueue IoVec ScmiCore.

Definition SCMI_BASE_VERSION : Z := 0x20001.
Definition SCMI_BASE_MSG_DISCOVER_VENDOR : Z := 0x3.
Definition SCMI_BASE_MSG_DISCOVER_SUB_VENDOR : Z := 0x4.
Definition SCMI_BASE_MSG_DISCOVER_IMPL_VERSION : Z := 0x5.
Definition SCMI_BASE_MSG_DISCOVER_LIST_PROTOCOLS : Z := 0x6.
Definition SCMI_BASE_MSG_DISCOVER_AGENT : Z := 0x7.
Definition SCMI_BASE_MSG_NOTIFY_ERRORS : Z := 0x8.
Definition SCMI_BASE_VENDOR_ID_LEN : Z := 16.

(** [struct scmi_msg_resp_base_protocol_list]: a count and four slot words. *)
Definition sizeof_protocol_list : Z := 20.

(** "HVIS", "SUB_HVIS", "OSPM" and "platform". *)
Definition str_hvis : list Z := [72; 86; 73; 83].
Definition str_sub_hvis : list Z := [83; 85; 66; 95; 72; 86; 73; 83].
Definition str_ospm : list Z := [79; 83; 80; 77].
Definition str_platform : list Z := [112; 108; 97; 116; 102; 111; 114; 109].

(** The loop of [get_protocol_list]: [pids] are the entries from [skip + i] on. *)
Fixpoint pack_protocols (resp i : Z) (pids : list Z) : scmi unit :=
  match pids with
  | [] => mret tt
  | pid :: pids' =>
      let slot := resp + 4 + 4 * (i `div` 4) in
      _ ← (if i `mod` 4 =? 0 then wr 4 slot 0 else mret tt);
      w ← rd 4 slot;
      _ ← wr 4 slot (Z.lor w (u32 (Z.shiftl pid ((i `mod` 4) * 8))));
      pack_protocols resp (i + 1) pids'
  end.

(** [skip] is an [int]; [total - skip] is signed arithmetic. *)
Definition get_protocol_list (dev : SCMIDev) (resp skip max : Z) : scmi Z :=
  let total := protocol_count dev in
  let remaining := total - skip in
  if 2 ^ 31 <=? remaining then scmi_fault SignedOverflow
  else if remaining <=? 0 then _ ← wr 4 resp 0; mret 0
  else
    let count := if remaining <? max then remaining else max in
    _ ← wr 4 resp count;
    _ ← pack_protocols resp 0 (fst <$> take (Z.to_nat count) (drop (Z.to_nat skip) (protocols dev)));
    mret count.

Definition handle_base_attributes (dev : SCMIDev) (tok : Z) (req : iovec) : scmi Z :=
  ctx ← get_ctx;
  let ret := scmi_validate_request (iov_len req) sizeof_scmi_request (capacity ctx) (sizeof_scmi_response + 4) in
  if negb (ret =? SCMI_SUCCESS) then mret ret
  else
    _ ← scmi_make_response SCMI_PROTO_ID_BASE SCMI_COMMON_MSG_PROTOCOL_ATTRIBUTES tok SCMI_SUCCESS;
    attr ← scmi_resp_write 4;
    if attr =? 0 then mret SCMI_ERR_PARAMS
    else
      _ ← wr 1 attr (u8 (protocol_count dev));
      _ ← wr 1 (attr + 1) 1;
      _ ← wr 2 (attr + 2) 0;
      mret 0.

Definition handle_base_version (tok : Z) (req : iovec) : scmi Z :=
  ctx ← get_ctx;
  let ret := scmi_validate_request (iov_len req) sizeof_scmi_request (capacity ctx) (sizeof_scmi_response + 4) in
  if negb (ret =? SCMI_SUCCESS) then mret ret
  else
    _ ← scmi_make_response SCMI_PROTO_ID_BASE SCMI_COMMON_MSG_VERSION tok SCMI_SUCCESS;
    version ← scmi_resp_write 4;
    if version =? 0 then mret SCMI_ERR_PARAMS
    else _ ← wr 4 version SCMI_BASE_VERSION; mret 0.

Definition handle_base_vendor (tok : Z) (req : iovec) (sub_vendor : bool) : scmi Z :=
  ctx ← get_ctx;
  let ret := scmi_validate_request (iov_len req) sizeof_scmi_request (capacity ctx)
               (sizeof_scmi_response + SCMI_BASE_VENDOR_ID_LEN) in
  if negb (ret =? SCMI_SUCCESS) then mret ret
  else
    _ ← scmi_make_response SCMI_PROTO_ID_BASE
          (if sub_vendor then SCMI_BASE_MSG_DISCOVER_SUB_VENDOR else SCMI_BASE_MSG_DISCOVER_VENDOR) tok SCMI_SUCCESS;
    vendor_id ← scmi_resp_write SCMI_BASE_VENDOR_ID_LEN;
    if vendor_id =? 0 then mret SCMI_ERR_PARAMS
    else
      _ ← wr_bytes vendor_id (strncpy (if sub_vendor then str_sub_hvis else str_hvis) 16);
      mret 0.

(** [total > skip] compares as [uint32_t], the argument converts to [int]. *)
Definition handle_base_protocol_list (dev : SCMIDev) (tok : Z) (req : iovec) : scmi Z :=
  ctx ← get_ctx;
  let ret := scmi_validate_request (iov_len req) (sizeof_scmi_request + 4) (capacity ctx) (sizeof_scmi_response + 2 * 4) in
  if negb (ret =? SCMI_SUCCESS) then mret ret
  else
    skip ← req_word req 0;
    _ ← scmi_make_response SCMI_PROTO_ID_BASE SCMI_BASE_MSG_DISCOVER_LIST_PROTOCOLS tok SCMI_SUCCESS;
    resp ← scmi_resp_write sizeof_protocol_list;
    if resp =? 0 then mret SCMI_ERR_PARAMS
    else
      let total := protocol_count dev in
      let max_protos := if skip <? u32 total then s32 (total - skip) else 0 in
      count ← get_protocol_list dev resp (s32 skip) max_protos;
      let actual := 4 + ((count + 3) `quot` 4) * 4 in
      _ ← put_written (sizeof_scmi_response + actual);
      mret 0.

Definition handle_base_discover_agent (tok : Z) (req : iovec) : scmi Z :=
  ctx ← get_ctx;
  let ret := scmi_validate_request (iov_len req) (sizeof_scmi_request + 4) (capacity ctx) (sizeof_scmi_response + 16) in
  if negb (ret =? SCMI_SUCCESS) then mret ret
  else
    agent_id ← req_word req 0;
    if negb (agent_id =? 0xFFFFFFFF) && negb (agent_id =? 0) then
      scmi_make_response SCMI_PROTO_ID_BASE SCMI_BASE_MSG_DISCOVER_AGENT tok SCMI_ERR_ENTRY
    else
      _ ← scmi_make_response SCMI_PROTO_ID_BASE SCMI_BASE_MSG_DISCOVER_AGENT tok SCMI_SUCCESS;
      name ← scmi_resp_write 16;
      if name =? 0 then mret SCMI_ERR_PARAMS
      else
        _ ← wr_bytes name (strncpy (if agent_id =? 0xFFFFFFFF then str_ospm else str_platform) 16);
        mret 0.

Definition handle_base_impl_version (tok : Z) (req : iovec) : scmi Z :=
  ctx ← get_ctx;
  let ret := scmi_validate_request (iov_len req) sizeof_scmi_request (capacity ctx) (sizeof_scmi_response + 4) in
  if negb (ret =? SCMI_SUCCESS) then mret ret
  else
    _ ← scmi_make_response SCMI_PROTO_ID_BASE SCMI_BASE_MSG_DISCOVER_IMPL_VERSION tok SCMI_SUCCESS;
    impl_ver ← scmi_resp_write 4;
    if impl_ver =? 0 then mret SCMI_ERR_PARAMS
    else _ ← wr 4 impl_ver 0x1; mret 0.

(** The event control word is read and only logged. *)
Definition handle_base_error_notify (tok : Z) (req : iovec) : scmi Z :=
  ctx ← get_ctx;
  let ret := scmi_validate_request (iov_len req) (sizeof_scmi_request + 4) (capacity ctx) 0 in
  if negb (ret =? SCMI_SUCCESS) then mret ret
  else
    _ ← req_word req 0;
    scmi_make_response SCMI_PROTO_ID_BASE SCMI_BASE_MSG_NOTIFY_ERRORS tok SCMI_SUCCESS.

Definition virtio_scmi_base_handle_req (dev : SCMIDev) (msg tok : Z) (req : iovec) : scmi Z :=
  ctx ← get_ctx;
  if (capacity ctx <? sizeof_scmi_response) || (iov_base (iov ctx) =? 0) then mret SCMI_ERR_PARAMS
  else if msg =? SCMI_COMMON_MSG_VERSION then handle_base_version tok req
  else if msg =? SCMI_COMMON_MSG_PROTOCOL_ATTRIBUTES then handle_base_attributes dev tok req
  else if msg =? SCMI_BASE_MSG_NOTIFY_ERRORS then handle_base_error_notify tok req
  else if msg =? SCMI_BASE_MSG_DISCOVER_VENDOR then handle_base_vendor tok req false
  else if msg =? SCMI_BASE_MSG_DISCOVER_SUB_VENDOR then handle_base_vendor tok req true
  else if msg =? SCMI_BASE_MSG_DISCOVER_IMPL_VERSION then handle_base_impl_version tok req
  else if msg =? SCMI_BASE_MSG_DISCOVER_LIST_PROTOCOLS then handle_base_protocol_list dev tok req
  else if msg =? SCMI_BASE_MSG_DISCOVER_AGENT then handle_base_discover_agent tok req
  else mret SCMI_ERR_SUPPORT.

(** ** Every handler answers the message it serves *)

Section handlers.
Context (allowed : scmi_call -> Prop) (s0 : scmi_state) (dev : SCMIDev) (tok : Z) (req : iovec).
Context (Hresp : reachable (s_mem s0) (iov (s_ctx s0))) (Hcap : capacity (s_ctx s0) = iov_len (iov (s_ctx s0)))
  (Hw0 : written (s_ctx s0) = 0) (Hreq : reachable (s_mem s0) req)
  (Hmin : sizeof_scmi_response <= capacity (s_ctx s0)) (Hfr : framed allowed s0 s0).

Lemma handle_base_version_handled :
  wp (handle_base_version tok req) s0 (handled allowed s0 SCMI_PROTO_ID_BASE SCMI_COMMON_MSG_VERSION tok).
Proof using All. unfold handle_base_version. scmi_run. Qed.

Lemma handle_base_attributes_handled :
  wp (handle_base_attributes dev tok req) s0
    (handled allowed s0 SCMI_PROTO_ID_BASE SCMI_COMMON_MSG_PROTOCOL_ATTRIBUTES tok).
Proof using All. unfold handle_base_attributes. scmi_run. Qed.

Lemma handle_base_vendor_handled sub :
  wp (handle_base_vendor tok req sub) s0 (handled allowed s0 SCMI_PROTO_ID_BASE
    (if sub then SCMI_BASE_MSG_DISCOVER_SUB_VENDOR else SCMI_BASE_MSG_DISCOVER_VENDOR) tok).
Proof using All. unfold handle_base_vendor, SCMI_BASE_VENDOR_ID_LEN. scmi_run. Qed.

Lemma handle_base_discover_agent_handled :
  wp (handle_base_discover_agent tok req) s0 (handled allowed s0 SCMI_PROTO_ID_BASE SCMI_BASE_MSG_DISCOVER_AGENT tok).
Proof using All. unfold handle_base_discover_agent. scmi_run. Qed.

Lemma handle_base_impl_version_handled :
  wp (handle_base_impl_version tok req) s0
    (handled allowed s0 SCMI_PROTO_ID_BASE SCMI_BASE_MSG_DISCOVER_IMPL_VERSION tok).
Proof using All. unfold handle_base_impl_version. scmi_run. Qed.

Lemma handle_base_error_notify_handled :
  wp (handle_base_error_notify tok req) s0 (handled allowed s0 SCMI_PROTO_ID_BASE SCMI_BASE_MSG_NOTIFY_ERRORS tok).
Proof using All. unfold handle_base_error_notify. scmi_run. Qed.

End handlers.

(** ** The protocol list *)

Lemma peek4_bytes m a :
  peek m a 4 = get_byte m a + 2 ^ 8 * (get_byte m (a + 1) + 2 ^ 8 * (get_byte m (a + 2) + 2 ^ 8 * get_byte m (a + 3))).
Proof. unfold peek. rewrite Z.mul_0_r, Z.add_0_r, <- !Z.add_assoc. reflexivity. Qed.

(** Or-ing a byte into the first free byte of a slot changes that byte only. *)
Lemma slot_or_byte m slot j pid k :
  0 <= j < 4 -> 0 <= pid < 2 ^ 8 -> 0 <= k < 4 -> (forall i, j <= i < 4 -> get_byte m (slot + i) = 0) ->
  u8 (Z.lor (peek m slot 4) (u32 (Z.shiftl pid (j * 8))) `div` 2 ^ (8 * k)) =
    if k =? j then pid else get_byte m (slot + k).
Proof.
  intros Hj Hp Hk Hz. rewrite peek4_bytes.
  pose proof (get_byte_range m slot). pose proof (get_byte_range m (slot + 1)).
  pose proof (get_byte_range m (slot + 2)). pose proof (get_byte_range m (slot + 3)).
  assert (j = 0 \/ j = 1 \/ j = 2 \/ j = 3) as Hc by lia. assert (k = 0 \/ k = 1 \/ k = 2 \/ k = 3) as Hd by lia.
  pose proof (Hz 3 ltac:(lia)). pose proof (fun E => Hz 2 E). pose proof (fun E => Hz 1 E). pose proof (fun E => Hz 0 E).
  rewrite Z.add_0_r in *.
  assert (0 <= Z.shiftl pid (j * 8) < 2 ^ 32) as Hs.
  { rewrite Z.shiftl_mul_pow2 by lia. destruct Hc as [-> | [-> | [-> | ->] ] ]; simpl (2 ^ _); lia. }
  rewrite u32_small by done. rewrite lor_halves; [|lia|].
  - unfold u8. destruct Hc as [-> | [-> | [-> | ->] ] ], Hd as [-> | [-> | [-> | ->] ] ]; simpl Z.mul; simpl Z.eqb; cbv iota;
      rewrite ?Z.add_0_r; Z.to_euclidean_division_equations; lia.
  - destruct Hc as [-> | [-> | [-> | ->] ] ]; simpl Z.mul; lia.
Qed.

Lemma store_get_byte n m a v m' x :
  store n m a v = Ok m' ->
  get_byte m' x = if (a <=? x) && (x <? a + Z.of_nat n) then u8 (v `div` 2 ^ (8 * (x - a))) else get_byte m x.
Proof. unfold store. intros H. res. apply get_byte_poke. Qed.

(** One turn of the packing loop writes byte [i] of the slots: the rest of its
    slot is cleared when the slot is opened. *)
Lemma pack_step m m1 m2 slots i pid :
  let slot := slots + 4 * (i `div` 4) in
  0 <= i -> 0 <= pid < 2 ^ 8 ->
  (if i `mod` 4 =? 0 then store 4 m slot 0 = Ok m1
   else m1 = m /\ forall k, i <= k < 4 * (i `div` 4) + 4 -> get_byte m (slots + k) = 0) ->
  store 4 m1 slot (Z.lor (peek m1 slot 4) (u32 (Z.shiftl pid ((i `mod` 4) * 8)))) = Ok m2 ->
  get_byte m2 (slots + i) = pid /\
  (forall x, x < slots + i \/ slots + 4 * (i `div` 4) + 4 <= x -> get_byte m2 x = get_byte m x) /\
  (forall k, i < k < 4 * (i `div` 4) + 4 -> get_byte m2 (slots + k) = 0).
Proof.
  intros slot Hi Hp H1 H2.
  pose proof (Z.mod_pos_bound i 4 ltac:(lia)) as Hm. pose proof (Z.div_mod i 4 ltac:(lia)) as Hdm.
  assert (Hz : forall k, i `mod` 4 <= k < 4 -> get_byte m1 (slot + k) = 0).
  { intros k Hk. destruct (i `mod` 4 =? 0) eqn:E.
    - rewrite (store_get_byte _ _ _ _ _ (slot + k) H1).
      destruct ((slot <=? slot + k) && (slot + k <? slot + Z.of_nat 4)) eqn:Eb; [by rewrite Zdiv_0_l|lia].
    - destruct H1 as [-> H1]. replace (slot + k) with (slots + (4 * (i `div` 4) + k)) by lia. apply H1. lia. }
  assert (Hb : forall k, 0 <= k < 4 -> get_byte m2 (slot + k) = if k =? i `mod` 4 then pid else get_byte m1 (slot + k)).
  { intros k Hk. rewrite (store_get_byte _ _ _ _ _ (slot + k) H2).
    replace ((slot <=? slot + k) && (slot + k <? slot + Z.of_nat 4)) with true by lia.
    replace (slot + k - slot) with k by lia. by apply slot_or_byte. }
  assert (Hout : forall x, x < slot \/ slot + 4 <= x -> get_byte m2 x = get_byte m x).
  { intros x Hx. rewrite (store_get_byte_outside _ _ _ _ _ x H2) by (simpl; lia).
    destruct (i `mod` 4 =? 0); [|by destruct H1 as [-> _]].
    rewrite (store_get_byte_outside _ _ _ _ _ x H1) by (simpl; lia). done. }
  split; [|split].
  - replace (slots + i) with (slot + i `mod` 4) by lia. rewrite Hb by lia. by rewrite Z.eqb_refl.
  - intros x Hx. destruct (decide (x < slot \/ slot + 4 <= x)) as [Hx'|Hx']; [by apply Hout|].
    replace x with (slot + (x - slot)) by lia. rewrite Hb by lia. replace (x - slot =? i `mod` 4) with false by lia.
    destruct (i `mod` 4 =? 0) eqn:E; [lia|]. by destruct H1 as [-> _].
  - intros k Hk. replace (slots + k) with (slot + (k - 4 * (i `div` 4))) by lia. rewrite Hb by lia.
    replace (k - 4 * (i `div` 4) =? i `mod` 4) with false by lia. apply Hz. lia.
Qed.

Section protocol_list.
Context (allowed : scmi_call -> Prop) (s0 : scmi_state) (dev : SCMIDev).
Context (Hresp : reachable (s_mem s0) (iov (s_ctx s0))) (Hcap : capacity (s_ctx s0) = iov_len (iov (s_ctx s0)))
  (Hw0 : written (s_ctx s0) = 0).

Notation base := (iov_base (iov (s_ctx s0))).

Lemma pack_protocols_spec h st w pids : forall resp i s,
  resp = base + 8 -> 28 <= capacity (s_ctx s0) ->
  answered allowed s0 h st w s -> 0 <= i -> i + Z.of_nat (length pids) <= 16 ->
  Forall (fun p => 0 <= p < 2 ^ 8) pids ->
  (i `mod` 4 <> 0 -> forall k, i <= k < 4 * (i `div` 4) + 4 -> get_byte (s_mem s) (resp + 4 + k) = 0) ->
  wp (pack_protocols resp i pids) s (fun _ s' =>
    answered allowed s0 h st w s' /\
    (forall x, resp <= x < resp + 4 + i -> get_byte (s_mem s') x = get_byte (s_mem s) x) /\
    forall k p, pids !! k = Some p -> get_byte (s_mem s') (resp + 4 + i + Z.of_nat k) = p).
Proof using Hresp Hcap.
  induction pids as [|pid pids IH]; intros resp i s Er Hc HA Hi Hlen Hb Hz; cbn [pack_protocols].
  { apply wp_ret. split; [done|]. split; [done|]. intros k p Hk. by rewrite lookup_nil in Hk. }
  apply Forall_cons in Hb as [Hp Hb]. cbn [length] in Hlen.
  pose proof (Z.mod_pos_bound i 4 ltac:(lia)) as Hm. pose proof (Z.div_mod i 4 ltac:(lia)) as Hdm.
  cbv zeta. set (slot := resp + 4 + 4 * (i `div` 4)).
  assert (Hslot : base + sizeof_scmi_response <= slot /\ slot + 4 <= base + capacity (s_ctx s0))
    by (unfold sizeof_scmi_response; lia).
  apply wp_bind. assert (Hclear : forall Q : unit -> scmi_state -> Prop,
    (forall s1, answered allowed s0 h st w s1 -> (if i `mod` 4 =? 0 then store 4 (s_mem s) slot 0 = Ok (s_mem s1)
      else s_mem s1 = s_mem s /\ forall k, i <= k < 4 * (i `div` 4) + 4 -> get_byte (s_mem s) (resp + 4 + k) = 0) -> Q tt s1) ->
    wp (if i `mod` 4 =? 0 then wr 4 slot 0 else mret tt) s Q).
  { intros Q HQ. destruct (i `mod` 4 =? 0) eqn:E; [|apply wp_ret, HQ; [done|split; [done|apply Hz; lia] ] ].
    eapply (wp_wr allowed s0); [done|done|exact HA|lia|simpl; lia|done]. }
  apply Hclear. clear Hclear. intros s1 HA1 Hm1. apply wp_bind.
  apply (wp_rd _ _ (peek (s_mem s1) slot 4)).
  { unfold load. rewrite (reachable_access _ (iov (s_ctx s0))); [done| |unfold sizeof_scmi_response in *; lia|simpl; lia].
    eapply reachable_ranges; [|exact Hresp]. apply HA1. }
  apply wp_bind. eapply (wp_wr allowed s0); [done|done|exact HA1|lia|simpl; lia|]. intros s2 HA2 Hm2.
  destruct (pack_step (s_mem s) (s_mem s1) (s_mem s2) (resp + 4) i pid) as (P1 & P2 & P3); [done|done| |done|].
  { by destruct (i `mod` 4 =? 0). }
  eapply wp_conseq; [apply (IH resp (i + 1) s2); [done|done|done|lia|lia|done|]|].
  - intros Hn k Hk. destruct (decide (i `mod` 4 = 3)) as [E3|E3]; [exfalso; apply Hn|].
    + rewrite Hdm, E3. replace (4 * (i `div` 4) + 3 + 1) with ((i `div` 4 + 1) * 4) by lia. by apply Z.mod_mul.
    + apply P3. assert ((i + 1) `div` 4 = i `div` 4) as Ed; [|lia].
      symmetry. apply (Z.div_unique_pos _ _ _ (i `mod` 4 + 1)); lia.
  - intros [] s3 (HA3 & F3 & B3). split; [done|]. split.
    + intros x Hx. rewrite F3 by lia. apply P2. lia.
    + intros [|k] p Hk; simpl in Hk.
      * injection Hk as <-. rewrite F3 by lia. rewrite Z.add_0_r. exact P1.
      * replace (resp + 4 + i + Z.of_nat (S k)) with (resp + 4 + (i + 1) + Z.of_nat k) by lia. by apply B3.
Qed.

(** The values of [skip] for which [total - skip] overflows an [int]. *)
Definition skip_overflows (n skip : Z) : bool := (2 ^ 31 <=? skip) && (skip <=? 2 ^ 31 + n).

Definition listed (skip : Z) : list Z := drop (Z.to_nat skip) (fst <$> protocols dev).

(** The list in guest memory: a count and one byte per protocol. *)
Definition list_in_place (skip : Z) (m : hmem) : Prop :=
  load 4 m (base + 8) = Ok (Z.of_nat (length (listed skip))) /\
  forall k p, listed skip !! k = Some p -> get_byte m (base + 12 + Z.of_nat k) = p.

Context (Hn : (length (protocols dev) <= 16)%nat) (Hpids : Forall (fun e => 0 <= e.1 < 2 ^ 8) (protocols dev)).

Lemma get_protocol_list_spec h st w skip s :
  0 <= skip < 2 ^ 32 -> skip_overflows (protocol_count dev) skip = false -> 28 <= capacity (s_ctx s0) ->
  answered allowed s0 h st w s ->
  wp (get_protocol_list dev (base + 8) (s32 skip)
       (if skip <? u32 (protocol_count dev) then s32 (protocol_count dev - skip) else 0)) s (fun count s' =>
    count = Z.of_nat (length (listed skip)) /\ answered allowed s0 h st w s' /\ list_in_place skip (s_mem s')).
Proof using Hresp Hcap Hn Hpids.
  intros Hskip Hov Hc HA. unfold skip_overflows, protocol_count in *. set (n := length (protocols dev)) in *.
  assert (Hlen : length (listed skip) = (n - Z.to_nat skip)%nat) by (unfold listed; by rewrite length_drop, length_fmap).
  assert (Hl : Forall (fun p => 0 <= p < 2 ^ 8) (listed skip)) by (unfold listed; by apply Forall_drop, Forall_fmap).
  assert (Hzero : (n <= Z.to_nat skip)%nat -> wp (_ ← wr 4 (base + 8) 0; mret 0) s (fun count s' =>
    count = Z.of_nat (length (listed skip)) /\ answered allowed s0 h st w s' /\ list_in_place skip (s_mem s'))).
  { intros Hle. apply wp_bind. eapply (wp_wr allowed s0); [done|done|exact HA|done|simpl; lia|].
    intros s' HA' Hm. apply wp_ret. rewrite Hlen. split; [lia|]. split; [done|]. unfold list_in_place.
    rewrite Hlen, (load_store_same _ _ _ _ _ Hm). split; [f_equal; rewrite Zmod_0_l; lia|].
    intros k p Hk. apply lookup_lt_Some in Hk. lia. }
  unfold get_protocol_list, protocol_count. fold n. rewrite (u32_small (Z.of_nat n)) by lia. cbv zeta.
  unfold s32. rewrite (u32_small skip) by lia. destruct (skip <? 2 ^ 31) eqn:E31.
  - replace (2 ^ 31 <=? Z.of_nat n - skip) with false by lia.
    destruct (Z.of_nat n - skip <=? 0) eqn:Er; [apply Hzero; lia|].
    replace (skip <? Z.of_nat n) with true by lia. rewrite (u32_small (Z.of_nat n - skip)) by lia.
    replace (Z.of_nat n - skip <? 2 ^ 31) with true by lia. rewrite Z.ltb_irrefl.
    apply wp_bind. eapply (wp_wr allowed s0); [done|done|exact HA|done|simpl; lia|]. intros s1 HA1 Hm1. apply wp_bind.
    replace (fst <$> take _ _) with (listed skip)
      by (unfold listed; rewrite take_ge, fmap_drop by (rewrite length_drop; fold n; lia); done).
    eapply wp_conseq; [apply (pack_protocols_spec h st w (listed skip) (base + 8) 0 s1); try done; lia|].
    intros [] s2 (HA2 & F & B). apply wp_ret. split; [lia|]. split; [done|]. split.
    + unfold load in *. rewrite (access_ranges _ (s_mem s1)) by (rewrite (proj1 (fr_mem _ _ _ (an_framed _ _ _ _ _ _ HA2)));
        symmetry; apply HA1). pose proof (load_store_same _ _ _ _ _ Hm1) as HL. unfold load in HL.
      destruct (access (s_mem s1) (base + 8) 4); [|done]. simpl in *. injection HL as HL. f_equal.
      rewrite (peek_ext _ _ (s_mem s1) _ (base + 8)); [rewrite HL, Z.mod_small; lia|]. intros i Hi. apply F. lia.
    + intros k p Hk. rewrite <- (B k p Hk). f_equal. lia.
  - replace (2 ^ 31 <=? Z.of_nat n - (skip - 2 ^ 32)) with false by lia.
    replace (Z.of_nat n - (skip - 2 ^ 32) <=? 0) with false by lia. replace (skip <? Z.of_nat n) with false by lia.
    replace (Z.of_nat n - (skip - 2 ^ 32) <? 0) with false by lia. apply Hzero. lia.
Qed.

Context (tok : Z) (req : iovec) (Hreq : reachable (s_mem s0) req)
  (Hmin : sizeof_scmi_response <= capacity (s_ctx s0)) (Hfr : framed allowed s0 s0).

(** The word a list request asks to skip does not overflow. *)
Definition skip_fits : Prop := forall v,
  load 4 (s_mem s0) (iov_base req + sizeof_scmi_request + 0) = Ok v -> skip_overflows (protocol_count dev) v = false.

Lemma handle_base_protocol_list_spec :
  skip_fits ->
  wp (handle_base_protocol_list dev tok req) s0 (fun r s =>
    handled allowed s0 SCMI_PROTO_ID_BASE SCMI_BASE_MSG_DISCOVER_LIST_PROTOCOLS tok r s /\
    (8 <= iov_len req -> 28 <= capacity (s_ctx s0) -> r = 0 /\ exists skip,
      load 4 (s_mem s0) (iov_base req + sizeof_scmi_request + 0) = Ok skip /\ list_in_place skip (s_mem s) /\
      written (s_ctx s) = 12 + 4 * ((Z.of_nat (length (listed skip)) + 3) `div` 4))).
Proof using All.
  intros Hskip. unfold handle_base_protocol_list. apply wp_bind, wp_get_ctx. cbv zeta.
  destruct (negb (scmi_validate_request _ _ _ _ =? _)) eqn:E.
  { apply wp_ret. split; [apply handled_error; [done|by apply validate_fail in E]|]. intros H1 H2.
    unfold scmi_validate_request, sizeof_scmi_request, sizeof_scmi_response in E.
    replace (iov_len req <? _) with false in E by lia. replace (_ <? _) with false in E by lia. done. }
  apply validate_inv in E as [E1 E2]. apply wp_bind.
  eapply (wp_req_word allowed s0); [done|done|lia|unfold sizeof_scmi_request in *; lia|]. intros skip Hr Hld.
  apply wp_bind. eapply (wp_make_response allowed s0); [done|done|done|done|]. intros s1 HA1 _.
  apply wp_bind. eapply (wp_resp_write allowed s0); [done|done|exact HA1|done| |].
  2: { intros Hlt. apply wp_ret. split; [apply handled_error; [apply HA1|done]|].
       unfold sizeof_protocol_list, sizeof_scmi_response in *. lia. }
  intros s2 Hle HA2. unfold sizeof_protocol_list, sizeof_scmi_response in *.
  replace (base + 8 =? 0) with false by (destruct Hresp; lia).
  apply wp_bind. eapply wp_conseq; [eapply get_protocol_list_spec; [lia|by apply Hskip|lia|exact HA2]|].
  intros count s3 (-> & HA3 & HL). assert (length (listed skip) <= 16)%nat
    by (unfold listed; rewrite length_drop, length_fmap; lia).
  rewrite Z.quot_div_nonneg by lia.
  apply wp_bind. eapply (wp_put_written allowed s0); [exact HA3| |].
  { unfold sizeof_scmi_response. Z.to_euclidean_division_equations. lia. }
  intros s4 HA4 Em. apply wp_ret. split; [by eapply answered_handled|]. intros _ _. split; [done|]. exists skip.
  split; [done|]. split; [by rewrite Em|rewrite (an_written _ _ _ _ _ _ HA4); lia].
Qed.

Lemma virtio_scmi_base_handled msg :
  (msg = SCMI_BASE_MSG_DISCOVER_LIST_PROTOCOLS -> skip_fits) ->
  wp (virtio_scmi_base_handle_req dev msg tok req) s0 (handled allowed s0 SCMI_PROTO_ID_BASE msg tok).
Proof using All.
  intros Hs. unfold virtio_scmi_base_handle_req. apply wp_bind, wp_get_ctx.
  destruct (_ || _); [apply wp_ret, handled_error; done|].
  scmi_dispatch ltac:(idtac; lazymatch goal with
    | |- wp (handle_base_version _ _) _ _ => by apply handle_base_version_handled
    | |- wp (handle_base_attributes _ _ _) _ _ => by apply handle_base_attributes_handled
    | |- wp (handle_base_error_notify _ _) _ _ => by apply handle_base_error_notify_handled
    | |- wp (handle_base_vendor _ _ ?b) _ _ =>
        exact (handle_base_vendor_handled allowed s0 dev tok req Hresp Hcap Hw0 Hreq Hmin Hfr b)
    | |- wp (handle_base_impl_version _ _) _ _ => by apply handle_base_impl_version_handled
    | |- wp (handle_base_discover_agent _ _) _ _ => by apply handle_base_discover_agent_handled
    | |- _ => eapply wp_conseq; [by apply handle_base_protocol_list_spec, Hs|by intros r s [? _] ]
    end).
Qed.

End protocol_list.
