(* ===== verification/ScmiPower.v ===== *)
(** * The SCMI power domain and reset protocols

    The handlers of [tools/virtio/devices/scmi/power.c] and
    [tools/virtio/devices/scmi/reset.c]. *)

From S2P Require Import Prelude Memory ZoneMem Virtqueue IoVec ScmiCore.

(** ** Power *)

Definition SCMI_POWER_VERSION : Z := 0x20000.
Definition SCMI_POWER_MSG_POWER_DOMAIN_ATTRIBUTES : Z := 0x3.
Definition SCMI_POWER_MSG_POWER_STATE_SET : Z := 0x4.
Definition SCMI_POWER_MSG_POWER_STATE_GET : Z := 0x5.
Definition SCMI_POWER_MSG_POWER_STATE_NOTIFY : Z := 0x6.
Definition HVISOR_SCMI_POWER_GET_ATTRIBUTES : Z := 0x02.
Definition HVISOR_SCMI_POWER_STATE_SET : Z := 0x03.
Definition HVISOR_SCMI_POWER_STATE_GET : Z := 0x04.

Definition pwr_phys_id (dev : SCMIDev) (dom_id : Z) : scmi (option Z) :=
  lift (phys_id (power_ids dev) (power_count dev) dom_id).

Definition handle_power_version (tok : Z) (req : iovec) : scmi Z :=
  ctx ← get_ctx;
  let ret := scmi_validate_request (iov_len req) sizeof_scmi_request (capacity ctx) (sizeof_scmi_response + 4) in
  if negb (ret =? SCMI_SUCCESS) then mret ret
  else
    _ ← scmi_make_response SCMI_PROTO_ID_POWER SCMI_COMMON_MSG_VERSION tok SCMI_SUCCESS;
    version ← scmi_resp_write 4;
    if version =? 0 then mret SCMI_ERR_PARAMS
    else _ ← wr 4 version SCMI_POWER_VERSION; mret 0.

Definition handle_power_protocol_attributes (dev : SCMIDev) (tok : Z) (req : iovec) : scmi Z :=
  ctx ← get_ctx;
  let ret := scmi_validate_request (iov_len req) sizeof_scmi_request (capacity ctx) (sizeof_scmi_response + 4) in
  if negb (ret =? SCMI_SUCCESS) then mret ret
  else
    _ ← scmi_make_response SCMI_PROTO_ID_POWER SCMI_COMMON_MSG_PROTOCOL_ATTRIBUTES tok SCMI_SUCCESS;
    attributes ← scmi_resp_write 4;
    if attributes =? 0 then mret SCMI_ERR_PARAMS
    else _ ← wr 4 attributes (Z.land (power_count dev) 0xFFFF); mret 0.

Section power.
Context `{kern : ScmiKernel}.

(** The struct of 4 + 16 bytes is written without a NULL check. *)
Definition handle_power_domain_attributes (dev : SCMIDev) (tok : Z) (req : iovec) : scmi Z :=
  if iov_len req <? sizeof_scmi_request + 4 then mret SCMI_ERR_PARAMS
  else
    domain_id ← req_word req 0;
    o ← pwr_phys_id dev domain_id;
    match o with
    | None => scmi_make_response SCMI_PROTO_ID_POWER SCMI_POWER_MSG_POWER_DOMAIN_ATTRIBUTES tok SCMI_ERR_ENTRY
    | Some id =>
        ctx ← get_ctx;
        if capacity ctx <? sizeof_scmi_response + 20 then
          scmi_make_response SCMI_PROTO_ID_POWER SCMI_POWER_MSG_POWER_DOMAIN_ATTRIBUTES tok SCMI_ERR_RANGE
        else
          '(ret, args) ← hvisor_scmi_ioctl_cmd HVISOR_SCMI_POWER_IOCTL HVISOR_SCMI_POWER_GET_ATTRIBUTES id [];
          if ret <? 0 then
            scmi_make_response SCMI_PROTO_ID_POWER SCMI_POWER_MSG_POWER_DOMAIN_ATTRIBUTES tok SCMI_ERR_GENERIC
          else
            _ ← scmi_make_response SCMI_PROTO_ID_POWER SCMI_POWER_MSG_POWER_DOMAIN_ATTRIBUTES tok SCMI_SUCCESS;
            attr ← scmi_resp_write 20;
            _ ← wr 4 attr (Z.shiftl 1 29);
            _ ← wr_name (attr + 4) (ans_name args) 16;
            mret 0
    end.

Definition handle_power_state_set (dev : SCMIDev) (tok : Z) (req : iovec) : scmi Z :=
  if iov_len req <? sizeof_scmi_request + 12 then mret SCMI_ERR_PARAMS
  else
    flags ← req_word req 0;
    domain_id ← req_word req 4;
    power_state ← req_word req 8;
    o ← pwr_phys_id dev domain_id;
    match o with
    | None => scmi_make_response SCMI_PROTO_ID_POWER SCMI_POWER_MSG_POWER_STATE_SET tok SCMI_ERR_ENTRY
    | Some id =>
        if has_flag flags 0x1 then
          scmi_make_response SCMI_PROTO_ID_POWER SCMI_POWER_MSG_POWER_STATE_SET tok SCMI_ERR_SUPPORT
        else
          '(ret, _) ← hvisor_scmi_ioctl_cmd HVISOR_SCMI_POWER_IOCTL HVISOR_SCMI_POWER_STATE_SET id [power_state];
          if ret <? 0 then
            scmi_make_response SCMI_PROTO_ID_POWER SCMI_POWER_MSG_POWER_STATE_SET tok SCMI_ERR_GENERIC
          else scmi_make_response SCMI_PROTO_ID_POWER SCMI_POWER_MSG_POWER_STATE_SET tok SCMI_SUCCESS
    end.

Definition handle_power_state_get (dev : SCMIDev) (tok : Z) (req : iovec) : scmi Z :=
  if iov_len req <? sizeof_scmi_request + 4 then mret SCMI_ERR_PARAMS
  else
    domain_id ← req_word req 0;
    o ← pwr_phys_id dev domain_id;
    match o with
    | None => scmi_make_response SCMI_PROTO_ID_POWER SCMI_POWER_MSG_POWER_STATE_GET tok SCMI_ERR_ENTRY
    | Some id =>
        ctx ← get_ctx;
        if capacity ctx <? sizeof_scmi_response + 4 then
          scmi_make_response SCMI_PROTO_ID_POWER SCMI_POWER_MSG_POWER_STATE_GET tok SCMI_ERR_RANGE
        else
          '(ret, args) ← hvisor_scmi_ioctl_cmd HVISOR_SCMI_POWER_IOCTL HVISOR_SCMI_POWER_STATE_GET id [];
          if ret <? 0 then
            scmi_make_response SCMI_PROTO_ID_POWER SCMI_POWER_MSG_POWER_STATE_GET tok SCMI_ERR_GENERIC
          else
            _ ← scmi_make_response SCMI_PROTO_ID_POWER SCMI_POWER_MSG_POWER_STATE_GET tok SCMI_SUCCESS;
            state ← scmi_resp_write 4;
            if state =? 0 then mret SCMI_ERR_PARAMS
            else _ ← wr 4 state (u32 (ans_power_state args)); mret 0
    end.

Definition handle_power_state_notify (tok : Z) : scmi Z :=
  scmi_make_response SCMI_PROTO_ID_POWER SCMI_POWER_MSG_POWER_STATE_NOTIFY tok SCMI_ERR_SUPPORT.

Definition virtio_scmi_power_handle_req (dev : SCMIDev) (msg tok : Z) (req : iovec) : scmi Z :=
  ctx ← get_ctx;
  if (capacity ctx <? sizeof_scmi_response) || (iov_base (iov ctx) =? 0) then mret SCMI_ERR_PARAMS
  else if msg =? SCMI_COMMON_MSG_VERSION then handle_power_version tok req
  else if msg =? SCMI_COMMON_MSG_PROTOCOL_ATTRIBUTES then handle_power_protocol_attributes dev tok req
  else if msg =? SCMI_COMMON_MSG_MESSAGE_ATTRIBUTES then
    scmi_make_response SCMI_PROTO_ID_POWER msg tok SCMI_ERR_SUPPORT
  else if msg =? SCMI_POWER_MSG_POWER_DOMAIN_ATTRIBUTES then handle_power_domain_attributes dev tok req
  else if msg =? SCMI_POWER_MSG_POWER_STATE_SET then handle_power_state_set dev tok req
  else if msg =? SCMI_POWER_MSG_POWER_STATE_GET then handle_power_state_get dev tok req
  else if msg =? SCMI_POWER_MSG_POWER_STATE_NOTIFY then handle_power_state_notify tok
  else mret SCMI_ERR_SUPPORT.

End power.

(** ** Reset *)

Definition SCMI_RESET_VERSION : Z := 0x20000.
Definition SCMI_RESET_MSG_RESET_ATTRIBUTES : Z := 0x3.
Definition SCMI_RESET_MSG_RESET : Z := 0x4.
Definition SCMI_RESET_MSG_RESET_NOTIFY : Z := 0x5.
Definition HVISOR_SCMI_RESET_RESET : Z := 0x02.

Definition rst_phys_id (dev : SCMIDev) (rst_id : Z) : scmi (option Z) :=
  lift (phys_id (reset_ids dev) (reset_count dev) rst_id).

(** Decimal digits of a 32-bit number, as [%u] prints them. *)
Fixpoint decimal_digits (fuel : nat) (n : Z) : list Z :=
  match fuel with
  | O => []
  | S fuel' => (if n <? 10 then [] else decimal_digits fuel' (n `div` 10)) ++ [48 + n `mod` 10]
  end.

(** [snprintf(name, 15, "rst_%u", id)]: at most 14 characters and a NUL; a
    32-bit number has at most ten digits. *)
Definition rst_name (id : Z) : list Z :=
  take 14 ([114; 115; 116; 95] ++ decimal_digits 10 id) ++ [0].

Definition handle_reset_version (tok : Z) (req : iovec) : scmi Z :=
  ctx ← get_ctx;
  let ret := scmi_validate_request (iov_len req) sizeof_scmi_request (capacity ctx) (sizeof_scmi_response + 4) in
  if negb (ret =? SCMI_SUCCESS) then mret ret
  else
    _ ← scmi_make_response SCMI_PROTO_ID_RESET SCMI_COMMON_MSG_VERSION tok SCMI_SUCCESS;
    version ← scmi_resp_write 4;
    if version =? 0 then mret SCMI_ERR_PARAMS
    else _ ← wr 4 version SCMI_RESET_VERSION; mret 0.

Definition handle_reset_protocol_attributes (dev : SCMIDev) (tok : Z) (req : iovec) : scmi Z :=
  ctx ← get_ctx;
  let ret := scmi_validate_request (iov_len req) sizeof_scmi_request (capacity ctx) (sizeof_scmi_response + 4) in
  if negb (ret =? SCMI_SUCCESS) then mret ret
  else
    _ ← scmi_make_response SCMI_PROTO_ID_RESET SCMI_COMMON_MSG_PROTOCOL_ATTRIBUTES tok SCMI_SUCCESS;
    attributes ← scmi_resp_write 4;
    if attributes =? 0 then mret SCMI_ERR_PARAMS
    else _ ← wr 4 attributes (Z.land (reset_count dev) 0xFFFF); mret 0.

(** The struct of 4 + 4 + 16 bytes is written without a NULL check. *)
Definition handle_reset_attributes (dev : SCMIDev) (tok : Z) (req : iovec) : scmi Z :=
  if iov_len req <? sizeof_scmi_request + 4 then mret SCMI_ERR_PARAMS
  else
    domain_id ← req_word req 0;
    o ← rst_phys_id dev domain_id;
    match o with
    | None => scmi_make_response SCMI_PROTO_ID_RESET SCMI_RESET_MSG_RESET_ATTRIBUTES tok SCMI_ERR_ENTRY
    | Some id =>
        ctx ← get_ctx;
        if capacity ctx <? sizeof_scmi_response + 24 then
          scmi_make_response SCMI_PROTO_ID_RESET SCMI_RESET_MSG_RESET_ATTRIBUTES tok SCMI_ERR_RANGE
        else
          _ ← scmi_make_response SCMI_PROTO_ID_RESET SCMI_RESET_MSG_RESET_ATTRIBUTES tok SCMI_SUCCESS;
          attr ← scmi_resp_write 24;
          _ ← wr 4 attr 0;
          _ ← wr 4 (attr + 4) 100;
          _ ← wr_bytes (attr + 8) (rst_name id);
          _ ← wr 1 (attr + 8 + 15) 0;
          mret 0
    end.

Section reset.
Context `{kern : ScmiKernel}.

Definition handle_reset (dev : SCMIDev) (tok : Z) (req : iovec) : scmi Z :=
  if iov_len req <? sizeof_scmi_request + 12 then mret SCMI_ERR_PARAMS
  else
    domain_id ← req_word req 0;
    flags ← req_word req 4;
    reset_state ← req_word req 8;
    o ← rst_phys_id dev domain_id;
    match o with
    | None => scmi_make_response SCMI_PROTO_ID_RESET SCMI_RESET_MSG_RESET tok SCMI_ERR_ENTRY
    | Some id =>
        if has_flag flags (Z.shiftl 1 2) then
          scmi_make_response SCMI_PROTO_ID_RESET SCMI_RESET_MSG_RESET tok SCMI_ERR_SUPPORT
        else
          '(ret, _) ← hvisor_scmi_ioctl_cmd HVISOR_SCMI_RESET_IOCTL HVISOR_SCMI_RESET_RESET id [flags; reset_state];
          if ret <? 0 then scmi_make_response SCMI_PROTO_ID_RESET SCMI_RESET_MSG_RESET tok SCMI_ERR_GENERIC
          else scmi_make_response SCMI_PROTO_ID_RESET SCMI_RESET_MSG_RESET tok SCMI_SUCCESS
    end.

Definition handle_reset_notify (tok : Z) : scmi Z :=
  scmi_make_response SCMI_PROTO_ID_RESET SCMI_RESET_MSG_RESET_NOTIFY tok SCMI_ERR_SUPPORT.

Definition virtio_scmi_reset_handle_req (dev : SCMIDev) (msg tok : Z) (req : iovec) : scmi Z :=
  ctx ← get_ctx;
  if (capacity ctx <? sizeof_scmi_response) || (iov_base (iov ctx) =? 0) then mret SCMI_ERR_PARAMS
  else if msg =? SCMI_COMMON_MSG_VERSION then handle_reset_version tok req
  else if msg =? SCMI_COMMON_MSG_PROTOCOL_ATTRIBUTES then handle_reset_protocol_attributes dev tok req
  else if msg =? SCMI_RESET_MSG_RESET_ATTRIBUTES then handle_reset_attributes dev tok req
  else if msg =? SCMI_RESET_MSG_RESET then handle_reset dev tok req
  else if msg =? SCMI_RESET_MSG_RESET_NOTIFY then handle_reset_notify tok
  else mret SCMI_ERR_SUPPORT.

End reset.

(** ** Every power handler answers the message it serves *)

Section power_handlers.
Context `{kern : ScmiKernel} (s0 : scmi_state) (dev : SCMIDev) (tok : Z) (req : iovec).
Context (Hdev : ids_ok (power_ids dev) (power_count dev)) (Hresp : reachable (s_mem s0) (iov (s_ctx s0)))
  (Hcap : capacity (s_ctx s0) = iov_len (iov (s_ctx s0))) (Hw0 : written (s_ctx s0) = 0)
  (Hreq : reachable (s_mem s0) req) (Hmin : sizeof_scmi_response <= capacity (s_ctx s0))
  (Hfr : framed (allowed_call dev) s0 s0).

Lemma handle_power_version_handled :
  wp (handle_power_version tok req) s0 (handled (allowed_call dev) s0 SCMI_PROTO_ID_POWER SCMI_COMMON_MSG_VERSION tok).
Proof using All. unfold handle_power_version. scmi_run. Qed.

Lemma handle_power_protocol_attributes_handled :
  wp (handle_power_protocol_attributes dev tok req) s0 (handled (allowed_call dev) s0 SCMI_PROTO_ID_POWER SCMI_COMMON_MSG_PROTOCOL_ATTRIBUTES tok).
Proof using All. unfold handle_power_protocol_attributes. scmi_run. Qed.

Lemma handle_power_domain_attributes_handled :
  wp (handle_power_domain_attributes dev tok req) s0 (handled (allowed_call dev) s0 SCMI_PROTO_ID_POWER SCMI_POWER_MSG_POWER_DOMAIN_ATTRIBUTES tok).
Proof using All. unfold handle_power_domain_attributes, pwr_phys_id. scmi_run. Qed.

Lemma handle_power_state_set_handled :
  wp (handle_power_state_set dev tok req) s0 (handled (allowed_call dev) s0 SCMI_PROTO_ID_POWER SCMI_POWER_MSG_POWER_STATE_SET tok).
Proof using All. unfold handle_power_state_set, pwr_phys_id. scmi_run. Qed.

Lemma handle_power_state_get_handled :
  wp (handle_power_state_get dev tok req) s0 (handled (allowed_call dev) s0 SCMI_PROTO_ID_POWER SCMI_POWER_MSG_POWER_STATE_GET tok).
Proof using All. unfold handle_power_state_get, pwr_phys_id. scmi_run. Qed.

Lemma handle_power_state_notify_handled :
  wp (handle_power_state_notify tok) s0 (handled (allowed_call dev) s0 SCMI_PROTO_ID_POWER SCMI_POWER_MSG_POWER_STATE_NOTIFY tok).
Proof using All. unfold handle_power_state_notify. scmi_run. Qed.

Lemma virtio_scmi_power_handled msg :
  wp (virtio_scmi_power_handle_req dev msg tok req) s0 (handled (allowed_call dev) s0 SCMI_PROTO_ID_POWER msg tok).
Proof using All.
  unfold virtio_scmi_power_handle_req. apply wp_bind, wp_get_ctx.
  destruct (_ || _); [apply wp_ret, handled_error; done|].
  scmi_dispatch ltac:(idtac; lazymatch goal with
    | |- wp (handle_power_version _ _) _ _ => by apply handle_power_version_handled
    | |- wp (handle_power_protocol_attributes _ _ _) _ _ => by apply handle_power_protocol_attributes_handled
    | |- wp (handle_power_domain_attributes _ _ _) _ _ => by apply handle_power_domain_attributes_handled
    | |- wp (handle_power_state_set _ _ _) _ _ => by apply handle_power_state_set_handled
    | |- wp (handle_power_state_get _ _ _) _ _ => by apply handle_power_state_get_handled
    | |- wp (handle_power_state_notify _) _ _ => by apply handle_power_state_notify_handled
    | |- wp (scmi_make_response _ _ _ _) _ _ => scmi_run
    end).
Qed.

End power_handlers.

Lemma length_rst_name id : (length (rst_name id) <= 15)%nat.
Proof. unfold rst_name. rewrite length_app, length_take. cbn [length]. lia. Qed.

(** ** Every reset handler answers the message it serves *)

Section reset_handlers.
Context `{kern : ScmiKernel} (s0 : scmi_state) (dev : SCMIDev) (tok : Z) (req : iovec).
Context (Hdev : ids_ok (reset_ids dev) (reset_count dev)) (Hresp : reachable (s_mem s0) (iov (s_ctx s0)))
  (Hcap : capacity (s_ctx s0) = iov_len (iov (s_ctx s0))) (Hw0 : written (s_ctx s0) = 0)
  (Hreq : reachable (s_mem s0) req) (Hmin : sizeof_scmi_response <= capacity (s_ctx s0))
  (Hfr : framed (allowed_call dev) s0 s0).

Lemma handle_reset_version_handled :
  wp (handle_reset_version tok req) s0 (handled (allowed_call dev) s0 SCMI_PROTO_ID_RESET SCMI_COMMON_MSG_VERSION tok).
Proof using All. unfold handle_reset_version. scmi_run. Qed.

Lemma handle_reset_protocol_attributes_handled :
  wp (handle_reset_protocol_attributes dev tok req) s0 (handled (allowed_call dev) s0 SCMI_PROTO_ID_RESET SCMI_COMMON_MSG_PROTOCOL_ATTRIBUTES tok).
Proof using All. unfold handle_reset_protocol_attributes. scmi_run. Qed.

Lemma handle_reset_attributes_handled :
  wp (handle_reset_attributes dev tok req) s0 (handled (allowed_call dev) s0 SCMI_PROTO_ID_RESET SCMI_RESET_MSG_RESET_ATTRIBUTES tok).
Proof using All. unfold handle_reset_attributes, rst_phys_id. pose proof length_rst_name as Hn.
  scmi_run. all: match goal with |- context [rst_name ?i] => specialize (Hn i) end; scmi_run. Qed.

Lemma handle_reset_handled :
  wp (handle_reset dev tok req) s0 (handled (allowed_call dev) s0 SCMI_PROTO_ID_RESET SCMI_RESET_MSG_RESET tok).
Proof using All. unfold handle_reset, rst_phys_id. scmi_run. Qed.

Lemma handle_reset_notify_handled :
  wp (handle_reset_notify tok) s0 (handled (allowed_call dev) s0 SCMI_PROTO_ID_RESET SCMI_RESET_MSG_RESET_NOTIFY tok).
Proof using All. unfold handle_reset_notify. scmi_run. Qed.

Lemma virtio_scmi_reset_handled msg :
  wp (virtio_scmi_reset_handle_req dev msg tok req) s0 (handled (allowed_call dev) s0 SCMI_PROTO_ID_RESET msg tok).
Proof using All.
  unfold virtio_scmi_reset_handle_req. apply wp_bind, wp_get_ctx.
  destruct (_ || _); [apply wp_ret, handled_error; done|].
  scmi_dispatch ltac:(idtac; lazymatch goal with
    | |- wp (handle_reset_version _ _) _ _ => by apply handle_reset_version_handled
    | |- wp (handle_reset_protocol_attributes _ _ _) _ _ => by apply handle_reset_protocol_attributes_handled
    | |- wp (handle_reset_attributes _ _ _) _ _ => by apply handle_reset_attributes_handled
    | |- wp (handle_reset _ _ _) _ _ => by apply handle_reset_handled
    | |- wp (handle_reset_notify _) _ _ => by apply handle_reset_notify_handled
    end).
Qed.

End reset_handlers.
