(* ===== verification/ScmiClock.v ===== *)
(** * The SCMI clock protocol

    The handlers of [tools/virtio/devices/scmi/clock.c]. *)

From S2P Require Import Prelude Memory ZoneMem Virtqueue IoVec ScmiCore.

Definition SCMI_CLOCK_VERSION : Z := 0x30000.
Definition SCMI_CLOCK_MSG_CLK_ATTRIBUTES : Z := 0x3.
Definition SCMI_CLOCK_MSG_DESCRIBE_RATES : Z := 0x4.
Definition SCMI_CLOCK_MSG_RATE_SET : Z := 0x5.
Definition SCMI_CLOCK_MSG_RATE_GET : Z := 0x6.
Definition SCMI_CLOCK_MSG_CONFIG_SET : Z := 0x7.
Definition SCMI_CLOCK_MSG_CONFIG_GET : Z := 0x8.
Definition SCMI_CLOCK_MSG_NAME_GET : Z := 0x9.
Definition HVISOR_SCMI_CLOCK_GET_ATTRIBUTES : Z := 0x02.
Definition HVISOR_SCMI_CLOCK_RATE_GET : Z := 0x04.
Definition HVISOR_SCMI_CLOCK_RATE_SET : Z := 0x05.
Definition HVISOR_SCMI_CLOCK_CONFIG_GET : Z := 0x06.
Definition HVISOR_SCMI_CLOCK_CONFIG_SET : Z := 0x07.
Definition HVISOR_SCMI_CLOCK_NAME_GET : Z := 0x08.

Definition clk_phys_id (dev : SCMIDev) (clk_id : Z) : scmi (option Z) :=
  lift (phys_id (clock_ids dev) (clock_count dev) clk_id).

Definition handle_clock_version (tok : Z) (req : iovec) : scmi Z :=
  ctx ← get_ctx;
  let ret := scmi_validate_request (iov_len req) sizeof_scmi_request (capacity ctx) (sizeof_scmi_response + 4) in
  if negb (ret =? SCMI_SUCCESS) then mret ret
  else
    _ ← scmi_make_response SCMI_PROTO_ID_CLOCK SCMI_COMMON_MSG_VERSION tok SCMI_SUCCESS;
    version ← scmi_resp_write 4;
    if version =? 0 then mret SCMI_ERR_PARAMS
    else _ ← wr 4 version SCMI_CLOCK_VERSION; mret 0.

(** Written without a NULL check; [num_clocks] is a [uint16_t]. *)
Definition handle_clock_protocol_attributes (dev : SCMIDev) (tok : Z) (req : iovec) : scmi Z :=
  ctx ← get_ctx;
  let ret := scmi_validate_request (iov_len req) sizeof_scmi_request (capacity ctx) (sizeof_scmi_response + 4) in
  if negb (ret =? SCMI_SUCCESS) then mret ret
  else
    _ ← scmi_make_response SCMI_PROTO_ID_CLOCK SCMI_COMMON_MSG_PROTOCOL_ATTRIBUTES tok SCMI_SUCCESS;
    attr ← scmi_resp_write 4;
    _ ← wr 2 attr (u16 (clock_count dev));
    _ ← wr 1 (attr + 2) 1;
    _ ← wr 1 (attr + 3) 0;
    mret 0.

(** A fixed answer: a range from 0 to 10 GHz in steps of 1 Hz. *)
Definition handle_clock_describe_rates (dev : SCMIDev) (tok : Z) (req : iovec) : scmi Z :=
  if iov_len req <? sizeof_scmi_request + 8 then mret SCMI_ERR_PARAMS
  else
    clock_id ← req_word req 0;
    o ← clk_phys_id dev clock_id;
    match o with
    | None => scmi_make_response SCMI_PROTO_ID_CLOCK SCMI_CLOCK_MSG_DESCRIBE_RATES tok SCMI_ERR_ENTRY
    | Some _ =>
        ctx ← get_ctx;
        if capacity ctx <? sizeof_scmi_response + 4 + 8 * 3 then
          scmi_make_response SCMI_PROTO_ID_CLOCK SCMI_CLOCK_MSG_DESCRIBE_RATES tok SCMI_ERR_RANGE
        else
          rate_index ← req_word req 4;
          if 0 <? rate_index then
            scmi_make_response SCMI_PROTO_ID_CLOCK SCMI_CLOCK_MSG_DESCRIBE_RATES tok SCMI_ERR_RANGE
          else
            _ ← scmi_make_response SCMI_PROTO_ID_CLOCK SCMI_CLOCK_MSG_DESCRIBE_RATES tok SCMI_SUCCESS;
            payload ← scmi_resp_write (4 + 8 * 3);
            _ ← wr 4 payload (Z.lor (Z.shiftl 1 12) (Z.land 3 0xFFF));
            _ ← wr 8 (payload + 4) 0;
            _ ← wr 8 (payload + 12) 10000000000;
            _ ← wr 8 (payload + 20) 1;
            mret 0
    end.

Section clock.
Context `{kern : ScmiKernel}.

(** The struct of 4 + 16 bytes is written without a NULL check. *)
Definition handle_clock_clock_attributes (dev : SCMIDev) (tok : Z) (req : iovec) : scmi Z :=
  if iov_len req <? sizeof_scmi_request + 4 then mret SCMI_ERR_PARAMS
  else
    clock_id ← req_word req 0;
    o ← clk_phys_id dev clock_id;
    match o with
    | None => scmi_make_response SCMI_PROTO_ID_CLOCK SCMI_CLOCK_MSG_CLK_ATTRIBUTES tok SCMI_ERR_ENTRY
    | Some id =>
        ctx ← get_ctx;
        if capacity ctx <? sizeof_scmi_response + 20 then
          scmi_make_response SCMI_PROTO_ID_CLOCK SCMI_CLOCK_MSG_CLK_ATTRIBUTES tok SCMI_ERR_RANGE
        else
          '(ret, args) ← hvisor_scmi_ioctl_cmd HVISOR_SCMI_CLOCK_IOCTL HVISOR_SCMI_CLOCK_GET_ATTRIBUTES id [];
          if ret <? 0 then
            scmi_make_response SCMI_PROTO_ID_CLOCK SCMI_CLOCK_MSG_CLK_ATTRIBUTES tok SCMI_ERR_GENERIC
          else
            _ ← scmi_make_response SCMI_PROTO_ID_CLOCK SCMI_CLOCK_MSG_CLK_ATTRIBUTES tok SCMI_SUCCESS;
            attr ← scmi_resp_write 20;
            let enabled := if u32 (ans_enabled args) =? 0 then 0 else Z.shiftl 1 0 in
            let parent := if u32 (ans_parent_id args) =? UINT32_MAX then 0 else Z.shiftl 1 28 in
            _ ← wr 4 attr (Z.lor enabled parent);
            _ ← wr_name (attr + 4) (ans_name args) 16;
            mret 0
    end.

Definition handle_clock_rate_get (dev : SCMIDev) (tok : Z) (req : iovec) : scmi Z :=
  if iov_len req <? sizeof_scmi_request + 4 then mret SCMI_ERR_PARAMS
  else
    clock_id ← req_word req 0;
    o ← clk_phys_id dev clock_id;
    match o with
    | None => scmi_make_response SCMI_PROTO_ID_CLOCK SCMI_CLOCK_MSG_RATE_GET tok SCMI_ERR_ENTRY
    | Some id =>
        ctx ← get_ctx;
        if capacity ctx <? sizeof_scmi_response + 8 then
          scmi_make_response SCMI_PROTO_ID_CLOCK SCMI_CLOCK_MSG_RATE_GET tok SCMI_ERR_RANGE
        else
          '(ret, args) ← hvisor_scmi_ioctl_cmd HVISOR_SCMI_CLOCK_IOCTL HVISOR_SCMI_CLOCK_RATE_GET id [];
          if ret <? 0 then
            scmi_make_response SCMI_PROTO_ID_CLOCK SCMI_CLOCK_MSG_RATE_GET tok SCMI_ERR_GENERIC
          else
            _ ← scmi_make_response SCMI_PROTO_ID_CLOCK SCMI_CLOCK_MSG_RATE_GET tok SCMI_SUCCESS;
            payload ← scmi_resp_write 8;
            if payload =? 0 then mret SCMI_ERR_PARAMS
            else
              let rate := u64 (ans_rate args) in
              _ ← wr 4 payload (Z.land rate 0xFFFFFFFF);
              _ ← wr 4 (payload + 4) (Z.land (Z.shiftr rate 32) 0xFFFFFFFF);
              mret 0
    end.

(** The rate is put together from its two halves. *)
Definition handle_clock_rate_set (dev : SCMIDev) (tok : Z) (req : iovec) : scmi Z :=
  if iov_len req <? sizeof_scmi_request + 16 then mret SCMI_ERR_PARAMS
  else
    flags ← req_word req 0;
    clock_id ← req_word req 4;
    rate_high ← req_word req 12;
    rate_low ← req_word req 8;
    let requested_rate := Z.lor (Z.shiftl rate_high 32) rate_low in
    o ← clk_phys_id dev clock_id;
    match o with
    | None => scmi_make_response SCMI_PROTO_ID_CLOCK SCMI_CLOCK_MSG_RATE_SET tok SCMI_ERR_ENTRY
    | Some id =>
        if has_flag flags 0x1 then
          scmi_make_response SCMI_PROTO_ID_CLOCK SCMI_CLOCK_MSG_RATE_SET tok SCMI_ERR_SUPPORT
        else
          '(ret, _) ← hvisor_scmi_ioctl_cmd HVISOR_SCMI_CLOCK_IOCTL HVISOR_SCMI_CLOCK_RATE_SET id [flags; requested_rate];
          if ret <? 0 then
            scmi_make_response SCMI_PROTO_ID_CLOCK SCMI_CLOCK_MSG_RATE_SET tok SCMI_ERR_GENERIC
          else scmi_make_response SCMI_PROTO_ID_CLOCK SCMI_CLOCK_MSG_RATE_SET tok SCMI_SUCCESS
    end.

Definition handle_clock_config_get (dev : SCMIDev) (tok : Z) (req : iovec) : scmi Z :=
  if iov_len req <? sizeof_scmi_request + 8 then mret SCMI_ERR_PARAMS
  else
    clock_id ← req_word req 0;
    flags ← req_word req 4;
    o ← clk_phys_id dev clock_id;
    match o with
    | None => scmi_make_response SCMI_PROTO_ID_CLOCK SCMI_CLOCK_MSG_CONFIG_GET tok SCMI_ERR_ENTRY
    | Some id =>
        if negb (Z.land flags 0xFF =? 0) then
          scmi_make_response SCMI_PROTO_ID_CLOCK SCMI_CLOCK_MSG_CONFIG_GET tok SCMI_ERR_PARAMS
        else
          ctx ← get_ctx;
          if capacity ctx <? sizeof_scmi_response + 12 then
            scmi_make_response SCMI_PROTO_ID_CLOCK SCMI_CLOCK_MSG_CONFIG_GET tok SCMI_ERR_RANGE
          else
            '(ret, args) ← hvisor_scmi_ioctl_cmd HVISOR_SCMI_CLOCK_IOCTL HVISOR_SCMI_CLOCK_CONFIG_GET id [flags];
            if ret <? 0 then
              scmi_make_response SCMI_PROTO_ID_CLOCK SCMI_CLOCK_MSG_CONFIG_GET tok SCMI_ERR_GENERIC
            else
              _ ← scmi_make_response SCMI_PROTO_ID_CLOCK SCMI_CLOCK_MSG_CONFIG_GET tok SCMI_SUCCESS;
              payload ← scmi_resp_write (4 * 3);
              if payload =? 0 then mret SCMI_ERR_PARAMS
              else
                _ ← wr 4 payload 0;
                _ ← wr 4 (payload + 4) (u32 (ans_config args));
                _ ← wr 4 (payload + 8) (u32 (ans_extended args));
                mret 0
    end.

Definition handle_clock_config_set (dev : SCMIDev) (tok : Z) (req : iovec) : scmi Z :=
  if iov_len req <? sizeof_scmi_request + 8 then mret SCMI_ERR_PARAMS
  else
    clock_id ← req_word req 0;
    o ← clk_phys_id dev clock_id;
    match o with
    | None => scmi_make_response SCMI_PROTO_ID_CLOCK SCMI_CLOCK_MSG_CONFIG_SET tok SCMI_ERR_ENTRY
    | Some id =>
        attributes ← req_word req 4;
        '(ret, _) ← hvisor_scmi_ioctl_cmd HVISOR_SCMI_CLOCK_IOCTL HVISOR_SCMI_CLOCK_CONFIG_SET id [attributes];
        if ret <? 0 then
          scmi_make_response SCMI_PROTO_ID_CLOCK SCMI_CLOCK_MSG_CONFIG_SET tok SCMI_ERR_GENERIC
        else scmi_make_response SCMI_PROTO_ID_CLOCK SCMI_CLOCK_MSG_CONFIG_SET tok SCMI_SUCCESS
    end.

(** 4 + 64 bytes, written without a NULL check. *)
Definition handle_clock_name_get (dev : SCMIDev) (tok : Z) (req : iovec) : scmi Z :=
  if iov_len req <? sizeof_scmi_request + 4 then mret SCMI_ERR_PARAMS
  else
    clock_id ← req_word req 0;
    o ← clk_phys_id dev clock_id;
    match o with
    | None => scmi_make_response SCMI_PROTO_ID_CLOCK SCMI_CLOCK_MSG_NAME_GET tok SCMI_ERR_ENTRY
    | Some id =>
        ctx ← get_ctx;
        if capacity ctx <? sizeof_scmi_response + (4 + 64) then
          scmi_make_response SCMI_PROTO_ID_CLOCK SCMI_CLOCK_MSG_NAME_GET tok SCMI_ERR_RANGE
        else
          '(ret, args) ← hvisor_scmi_ioctl_cmd HVISOR_SCMI_CLOCK_IOCTL HVISOR_SCMI_CLOCK_NAME_GET id [];
          if ret <? 0 then
            scmi_make_response SCMI_PROTO_ID_CLOCK SCMI_CLOCK_MSG_NAME_GET tok SCMI_ERR_GENERIC
          else
            _ ← scmi_make_response SCMI_PROTO_ID_CLOCK SCMI_CLOCK_MSG_NAME_GET tok SCMI_SUCCESS;
            flags ← scmi_resp_write (4 + 64);
            _ ← wr 4 flags 0;
            _ ← wr_name (flags + 4) (ans_name args) 64;
            mret 0
    end.

Definition virtio_scmi_clock_handle_req (dev : SCMIDev) (msg tok : Z) (req : iovec) : scmi Z :=
  ctx ← get_ctx;
  if (capacity ctx <? sizeof_scmi_response) || (iov_base (iov ctx) =? 0) then mret SCMI_ERR_PARAMS
  else if msg =? SCMI_COMMON_MSG_VERSION then handle_clock_version tok req
  else if msg =? SCMI_COMMON_MSG_PROTOCOL_ATTRIBUTES then handle_clock_protocol_attributes dev tok req
  else if msg =? SCMI_CLOCK_MSG_CLK_ATTRIBUTES then handle_clock_clock_attributes dev tok req
  else if msg =? SCMI_CLOCK_MSG_DESCRIBE_RATES then handle_clock_describe_rates dev tok req
  else if msg =? SCMI_CLOCK_MSG_RATE_SET then handle_clock_rate_set dev tok req
  else if msg =? SCMI_CLOCK_MSG_RATE_GET then handle_clock_rate_get dev tok req
  else if msg =? SCMI_CLOCK_MSG_CONFIG_SET then handle_clock_config_set dev tok req
  else if msg =? SCMI_CLOCK_MSG_CONFIG_GET then handle_clock_config_get dev tok req
  else if msg =? SCMI_CLOCK_MSG_NAME_GET then handle_clock_name_get dev tok req
  else mret SCMI_ERR_SUPPORT.

End clock.

(** ** Every handler answers the message it serves *)

Section handlers.
Context `{kern : ScmiKernel} (s0 : scmi_state) (dev : SCMIDev) (tok : Z) (req : iovec).
Context (Hdev : ids_ok (clock_ids dev) (clock_count dev)) (Hresp : reachable (s_mem s0) (iov (s_ctx s0)))
  (Hcap : capacity (s_ctx s0) = iov_len (iov (s_ctx s0))) (Hw0 : written (s_ctx s0) = 0)
  (Hreq : reachable (s_mem s0) req) (Hmin : sizeof_scmi_response <= capacity (s_ctx s0))
  (Hfr : framed (allowed_call dev) s0 s0).

Lemma handle_clock_version_handled :
  wp (handle_clock_version tok req) s0 (handled (allowed_call dev) s0 SCMI_PROTO_ID_CLOCK SCMI_COMMON_MSG_VERSION tok).
Proof using All. unfold handle_clock_version. scmi_run. Qed.

Lemma handle_clock_protocol_attributes_handled :
  wp (handle_clock_protocol_attributes dev tok req) s0 (handled (allowed_call dev) s0 SCMI_PROTO_ID_CLOCK SCMI_COMMON_MSG_PROTOCOL_ATTRIBUTES tok).
Proof using All. unfold handle_clock_protocol_attributes. scmi_run. Qed.

Lemma handle_clock_clock_attributes_handled :
  wp (handle_clock_clock_attributes dev tok req) s0 (handled (allowed_call dev) s0 SCMI_PROTO_ID_CLOCK SCMI_CLOCK_MSG_CLK_ATTRIBUTES tok).
Proof using All. unfold handle_clock_clock_attributes, clk_phys_id. scmi_run. Qed.

Lemma handle_clock_describe_rates_handled :
  wp (handle_clock_describe_rates dev tok req) s0 (handled (allowed_call dev) s0 SCMI_PROTO_ID_CLOCK SCMI_CLOCK_MSG_DESCRIBE_RATES tok).
Proof using All. unfold handle_clock_describe_rates, clk_phys_id. scmi_run. Qed.

Lemma handle_clock_rate_set_handled :
  wp (handle_clock_rate_set dev tok req) s0 (handled (allowed_call dev) s0 SCMI_PROTO_ID_CLOCK SCMI_CLOCK_MSG_RATE_SET tok).
Proof using All. unfold handle_clock_rate_set, clk_phys_id. scmi_run. Qed.

Lemma handle_clock_rate_get_handled :
  wp (handle_clock_rate_get dev tok req) s0 (handled (allowed_call dev) s0 SCMI_PROTO_ID_CLOCK SCMI_CLOCK_MSG_RATE_GET tok).
Proof using All. unfold handle_clock_rate_get, clk_phys_id. scmi_run. Qed.

Lemma handle_clock_config_set_handled :
  wp (handle_clock_config_set dev tok req) s0 (handled (allowed_call dev) s0 SCMI_PROTO_ID_CLOCK SCMI_CLOCK_MSG_CONFIG_SET tok).
Proof using All. unfold handle_clock_config_set, clk_phys_id. scmi_run. Qed.

Lemma handle_clock_config_get_handled :
  wp (handle_clock_config_get dev tok req) s0 (handled (allowed_call dev) s0 SCMI_PROTO_ID_CLOCK SCMI_CLOCK_MSG_CONFIG_GET tok).
Proof using All. unfold handle_clock_config_get, clk_phys_id. scmi_run. Qed.

Lemma handle_clock_name_get_handled :
  wp (handle_clock_name_get dev tok req) s0 (handled (allowed_call dev) s0 SCMI_PROTO_ID_CLOCK SCMI_CLOCK_MSG_NAME_GET tok).
Proof using All. unfold handle_clock_name_get, clk_phys_id. scmi_run. Qed.

Lemma virtio_scmi_clock_handled msg :
  wp (virtio_scmi_clock_handle_req dev msg tok req) s0 (handled (allowed_call dev) s0 SCMI_PROTO_ID_CLOCK msg tok).
Proof using All.
  unfold virtio_scmi_clock_handle_req. apply wp_bind, wp_get_ctx.
  destruct (_ || _); [apply wp_ret, handled_error; done|].
  scmi_dispatch ltac:(idtac; lazymatch goal with
    | |- wp (handle_clock_version _ _) _ _ => by apply handle_clock_version_handled
    | |- wp (handle_clock_protocol_attributes _ _ _) _ _ => by apply handle_clock_protocol_attributes_handled
    | |- wp (handle_clock_clock_attributes _ _ _) _ _ => by apply handle_clock_clock_attributes_handled
    | |- wp (handle_clock_describe_rates _ _ _) _ _ => by apply handle_clock_describe_rates_handled
    | |- wp (handle_clock_rate_set _ _ _) _ _ => by apply handle_clock_rate_set_handled
    | |- wp (handle_clock_rate_get _ _ _) _ _ => by apply handle_clock_rate_get_handled
    | |- wp (handle_clock_config_set _ _ _) _ _ => by apply handle_clock_config_set_handled
    | |- wp (handle_clock_config_get _ _ _) _ _ => by apply handle_clock_config_get_handled
    | |- wp (handle_clock_name_get _ _ _) _ _ => by apply handle_clock_name_get_handled
    end).
Qed.

End handlers.
