(* ===== verification/VirtioScmi.v ===== *)
(** * The virtio SCMI device

    [tools/virtio/devices/scmi/virtio_scmi.c] (configuration, device set-up, the
    transmit queue) and the dispatcher [scmi_handle_message] of
    [scmi_core.c].  Allocation outcomes are a parameter: the [k]-th allocation
    of a routine succeeds when [alloc k] is true. *)

From stdpp Require Import strings.
From S2P Require Import Prelude Memory ZoneMem Virtqueue Device Ring Interrupt IoVec Json.
From S2P Require Import ScmiCore ScmiBase ScmiPower ScmiClock.

(** ** Configuration *)

Record virtio_scmi_init_params := {
  p_clock_ids : option (list Z); p_clock_count : Z;
  p_reset_ids : option (list Z); p_reset_count : Z;
  p_power_ids : option (list Z); p_power_count : Z;
}.

Section config.
Context {J : Type} {cj : CJson J}.

Fixpoint parse_ids (j : J) (i : Z) (n : nat) : option (list Z) :=
  match n with
  | O => Some []
  | S n' =>
      v ← parse_json_u32 (cJSON_GetArrayItem j i);
      l ← parse_ids j (i + 1) n';
      Some (v :: l)
  end.

(** Return code, array and count. *)
Definition parse_id_array (alloc : bool) (json_array : option J) : Z * option (list Z) * Z :=
  match json_array with
  | None => (0, None, 0)
  | Some j =>
      if negb (cJSON_IsArray j) then (0, None, 0)
      else
        let count := cJSON_GetArraySize j in
        if count =? 0 then (0, None, 0)
        else if negb alloc then (- ENOMEM, None, 0)
        else
          match parse_ids j 0 (Z.to_nat count) with
          | None => (- EINVAL, None, 0)
          | Some ids => (0, Some ids, u32 count)
          end
  end.

(** On failure everything is released and no parameters are returned. *)
Definition virtio_scmi_parse_params (alloc : nat -> bool) (json : J) : Z * option virtio_scmi_init_params :=
  if negb (alloc 0%nat) then (- ENOMEM, None)
  else
    let '(r1, ci, cc) := parse_id_array (alloc 1%nat) (cJSON_GetObjectItem json "clock_ids") in
    if r1 <? 0 then (- EINVAL, None)
    else
      let '(r2, ri, rc) := parse_id_array (alloc 2%nat) (cJSON_GetObjectItem json "reset_ids") in
      if r2 <? 0 then (- EINVAL, None)
      else
        let '(r3, pi, pc) := parse_id_array (alloc 3%nat) (cJSON_GetObjectItem json "power_ids") in
        if r3 <? 0 then (- EINVAL, None)
        else (0, Some {| p_clock_ids := ci; p_clock_count := cc; p_reset_ids := ri; p_reset_count := rc;
                         p_power_ids := pi; p_power_count := pc |}).

End config.

(** ** Device set-up *)

(** A zero-filled [SCMIDev]. *)
Definition scmi_dev_zero : SCMIDev :=
  {| clock_ids := None; clock_count := 0; reset_ids := None; reset_count := 0; power_ids := None; power_count := 0;
     protocols := [] |}.

(** The copy of an id array; the outer [None] is [-ENOMEM].  [src] is never
    NULL when [count] is not 0. *)
Definition scmi_copy_id_array (alloc : bool) (src : option (list Z)) (count : Z) : option (option (list Z)) :=
  if count =? 0 then Some None
  else if negb alloc then None
  else Some (take (Z.to_nat count) <$> src).

Definition register_if (c : bool) (proto : Z) (h : scmi_handler) (d : SCMIDev) : SCMIDev :=
  if c then (scmi_dev_register_protocol d proto h).2 else d.

(** The table of handlers, from the counts of the device. *)
Definition scmi_register_protocols (d : SCMIDev) : SCMIDev :=
  let d1 := register_if true SCMI_PROTO_ID_BASE base_handler d in
  let d2 := register_if (0 <? clock_count d1) SCMI_PROTO_ID_CLOCK clock_handler d1 in
  let d3 := register_if (0 <? power_count d2) SCMI_PROTO_ID_POWER power_handler d2 in
  register_if (0 <? reset_count d3) SCMI_PROTO_ID_RESET reset_handler d3.

(** [None] is [-ENOMEM]; what was allocated by then is released by [close]. *)
Definition virtio_scmi_do_init (alloc : nat -> bool) (params : option virtio_scmi_init_params) : option SCMIDev :=
  if negb (alloc 0%nat) then None
  else
    match params with
    | None => Some scmi_dev_zero
    | Some p =>
        ci ← scmi_copy_id_array (alloc 1%nat) (p_clock_ids p) (p_clock_count p);
        ri ← scmi_copy_id_array (alloc 2%nat) (p_reset_ids p) (p_reset_count p);
        pi ← scmi_copy_id_array (alloc 3%nat) (p_power_ids p) (p_power_count p);
        Some (scmi_register_protocols
                {| clock_ids := ci; clock_count := p_clock_count p; reset_ids := ri; reset_count := p_reset_count p;
                   power_ids := pi; power_count := p_power_count p; protocols := [] |})
    end.

(** ** Messages *)

Section messages.
Context {kern : ScmiKernel}.

Definition run_handler (h : scmi_handler) (dev : SCMIDev) (msg tok : Z) (req : iovec) : scmi Z :=
  match h with
  | base_handler => virtio_scmi_base_handle_req dev msg tok req
  | clock_handler => virtio_scmi_clock_handle_req dev msg tok req
  | power_handler => virtio_scmi_power_handle_req dev msg tok req
  | reset_handler => virtio_scmi_reset_handle_req dev msg tok req
  end.

(** The first entry registered for the protocol. *)
Definition scmi_handle_message (dev : SCMIDev) (proto msg tok : Z) (req : iovec) : scmi Z :=
  match List.find (fun e => e.1 =? proto) (protocols dev) with
  | Some e => run_handler e.2 dev msg tok req
  | None => mret SCMI_ERR_SUPPORT
  end.

(** ** The transmit queue *)

Definition scmi_buf_config : VirtioBufConfig := {| max_out := 2; max_in := 2 |}.

(** The part after the chain is parsed: the length of the response, [None] for
    a request that is dropped, with memory and the ioctls issued. *)
Definition scmi_serve (m : hmem) (dev : SCMIDev) (calls : list scmi_call) (r : VirtioRequest) :
    result (option Z * hmem * list scmi_call) :=
  match out_iov r, in_iov r with
  | [req], [resp] =>
      if (iov_len req <? 4) || (iov_base req =? 0) || (SCMI_MAX_BUFFER_SIZE <? iov_len req) then Ok (None, m, calls)
      else
        word ← load 4 m (iov_base req);
        let hdr := unpack_header word in
        if negb (msg_type hdr =? SCMI_MSG_TYPE_COMMAND) then Ok (None, m, calls)
        else
          let s := {| s_mem := m; s_ctx := scmi_resp_ctx_init resp; s_calls := calls |} in
          '(ret, s') ← scmi_handle_message dev (protocol_id hdr) (msg_id hdr) (token hdr) req s;
          Ok (if negb (ret =? 0) then None else Some (written (s_ctx s')), s_mem s', s_calls s')
  | _, _ => Ok (None, m, calls)
  end.

(** Whether the request succeeded, the queue, memory and the ioctls issued. *)
Definition virtq_tx_handle_one_request (m : hmem) (zt : zone_table) (zone_id : Z) (dev : SCMIDev)
    (calls : list scmi_call) (vq : VirtQueue) : result (bool * VirtQueue * hmem * list scmi_call) :=
  desc_idx ← next_avail_head m vq;
  '(vq1, o) ← process_descriptor_chain_buf m zt zone_id vq desc_idx scmi_buf_config;
  let failed :=
    let vq2 := set_last_avail_idx (u16 (last_avail_idx vq1 + 1)) vq1 in
    m1 ← update_used_ring m vq2 desc_idx 0; Ok (false, vq2, m1, calls) in
  match o with
  | None => failed
  | Some r =>
      if out_count r + in_count r <=? 0 then failed
      else
        '(written, m1, calls1) ← scmi_serve m dev calls r;
        m2 ← update_used_ring m1 vq1 desc_idx (u32 (default 0 written));
        Ok (bool_decide (is_Some written), vq1, m2, calls1)
  end.

(** The inner loop: until the queue is empty or a request fails. *)
Fixpoint scmi_batch (fuel : nat) (m : hmem) (zt : zone_table) (zone_id : Z) (dev : SCMIDev)
    (calls : list scmi_call) (vq : VirtQueue) : result (VirtQueue * hmem * list scmi_call) :=
  match fuel with
  | O => Err OutOfFuel
  | S fuel' =>
      e ← virtqueue_is_empty m vq;
      if (e : bool) then Ok (vq, m, calls)
      else
        '(ok, vq1, m1, calls1) ← virtq_tx_handle_one_request m zt zone_id dev calls vq;
        if (ok : bool) then scmi_batch fuel' m1 zt zone_id dev calls1 vq1 else Ok (vq1, m1, calls1)
  end.

Fixpoint scmi_drain (fuel : nat) (m : hmem) (zt : zone_table) (zone_id : Z) (dev : SCMIDev)
    (calls : list scmi_call) (vq : VirtQueue) : result (VirtQueue * hmem * list scmi_call) :=
  match fuel with
  | O => Err OutOfFuel
  | S fuel' =>
      e ← virtqueue_is_empty m vq;
      if (e : bool) then Ok (vq, m, calls)
      else
        m1 ← virtqueue_disable_notify m vq;
        '(vq1, m2, calls1) ← scmi_batch fuel m1 zt zone_id dev calls vq;
        m3 ← virtqueue_enable_notify m2 vq1;
        scmi_drain fuel' m3 zt zone_id dev calls1 vq1
  end.

Definition virtio_scmi_txq_notify_handler {vring : VringEvent} (fuel : nat) (d : VirtIODevice SCMIDev) (q : nat)
    (w : world) (calls : list scmi_call) : result (VirtIODevice SCMIDev * world * list scmi_call) :=
  vq ← of_index (vqs d !! q);
  '(vq1, m1, calls1) ← scmi_drain fuel (w_mem w) (w_zones w) (zone_id d) (Device.dev d) calls vq;
  '(d1, w1) ← virtio_inject_irq (put_vq q vq1 d) q (set_w_mem m1 w);
  Ok (d1, w1, calls1).

End messages.

(** ** Which ioctls a computation issues *)

Definition emits (P : scmi_call -> Prop) {A} (c : scmi A) : Prop :=
  forall s a s', c s = Ok (a, s') -> exists new, s_calls s' = s_calls s ++ new /\ Forall P new.

Section emits_rules.
Context (P : scmi_call -> Prop).

Lemma emits_quiet {A} (c : scmi A) : (forall s a s', c s = Ok (a, s') -> s_calls s' = s_calls s) -> emits P c.
Proof. intros H s a s' E. exists []. by rewrite app_nil_r, (H _ _ _ E). Qed.

Lemma emits_ret {A} (a : A) : emits P (mret a).
Proof. apply emits_quiet. intros s b s' H. by injection H as <- <-. Qed.

Lemma emits_bind {A B} (c : scmi A) (k : A -> scmi B) : emits P c -> (forall a, emits P (k a)) -> emits P (c ≫= k).
Proof.
  intros H1 H2 s b s' E. unfold mbind, scmi_bind in E. destruct (c s) as [[a s1]|] eqn:Ec; [|done].
  destruct (H1 _ _ _ Ec) as (n1 & E1 & F1). destruct (H2 a _ _ _ E) as (n2 & E2 & F2).
  exists (n1 ++ n2). rewrite E2, E1, app_assoc. split; [done|]. by apply Forall_app.
Qed.

Lemma emits_get_ctx : emits P get_ctx.
Proof. apply emits_quiet. intros s b s' H. by injection H as <- <-. Qed.

Lemma emits_put_written n : emits P (put_written n).
Proof. apply emits_quiet. intros s b s' H. by injection H as <- <-. Qed.

Lemma emits_fault {A} f : emits P (scmi_fault (A := A) f).
Proof. by intros s a s' H. Qed.

Lemma emits_rd n a : emits P (rd n a).
Proof. apply emits_quiet. intros s b s' H. unfold rd in H. by destruct (load n _ a); simplify_eq/=. Qed.

Lemma emits_wr n a v : emits P (wr n a v).
Proof. apply emits_quiet. intros s b s' H. unfold wr in H. by destruct (store n _ a v); simplify_eq/=. Qed.

Lemma emits_wr_bytes a l : emits P (wr_bytes a l).
Proof. apply emits_quiet. intros s b s' H. unfold wr_bytes in H. by destruct (store_bytes _ a l); simplify_eq/=. Qed.

(** The continuation of an id lookup only sees configured ids. *)
Lemma emits_phys_bind {B} ids count id (k : option Z -> scmi B) :
  emits P (k None) -> (forall l p, ids = Some l -> p ∈ l -> emits P (k (Some p))) ->
  emits P (lift (phys_id ids count id) ≫= k).
Proof.
  intros HN HS s b s' E. unfold mbind, scmi_bind, lift, phys_id in E. destruct ids as [l|]; [|exact (HN _ _ _ E)].
  destruct (count <=? id); [exact (HN _ _ _ E)|].
  destruct (l !! Z.to_nat id) as [p|] eqn:Ep; [|done].
  eapply (HS l p); [done|by eapply list_elem_of_lookup_2|exact E].
Qed.

Lemma emits_ioctl `{kern : ScmiKernel} cmd sub id words :
  (forall n, P {| call_ioctl := cmd; call_subcmd := sub; call_data_len := n; call_id := id; call_words := words |}) ->
  emits P (hvisor_scmi_ioctl_cmd cmd sub id words).
Proof. intros H s a s' E. injection E as <- <-. eexists [_]. split; [done|]. by constructor. Qed.

End emits_rules.

Ltac emits_step :=
  cbv beta iota zeta;
  lazymatch goal with
  | |- emits _ (mret _) => apply emits_ret
  | |- emits _ (lift (phys_id _ _ _) ≫= _) => apply emits_phys_bind; [|intros ? ? ? ?]
  | |- emits _ (_ ≫= _) => apply emits_bind; [|intros ?]
  | |- emits _ get_ctx => apply emits_get_ctx
  | |- emits _ (put_written _) => apply emits_put_written
  | |- emits _ (scmi_fault _) => apply emits_fault
  | |- emits _ (rd _ _) => apply emits_rd
  | |- emits _ (req_word _ _) => apply emits_rd
  | |- emits _ (wr _ _ _) => apply emits_wr
  | |- emits _ (wr_bytes _ _) => apply emits_wr_bytes
  | |- emits _ (wr_name _ _ _) => unfold wr_name
  | |- emits _ (scmi_make_response _ _ _ _) => unfold scmi_make_response
  | |- emits _ (scmi_resp_write _) => unfold scmi_resp_write
  | |- emits _ (hvisor_scmi_ioctl_cmd _ _ _ _) => apply emits_ioctl; intros ?; eapply allowed_intro; eassumption
  | |- emits _ (if ?b then _ else _) => destruct b
  | |- emits _ (let '(_, _) := ?p in _) => destruct p
  end.
Ltac emits_run := repeat emits_step.

Section confined.
Context {kern : ScmiKernel} (dev : SCMIDev) (msg tok : Z) (req : iovec).

Lemma emits_pack P resp pids : forall i, emits P (pack_protocols resp i pids).
Proof. induction pids as [|p pids IH]; intros i; cbn [pack_protocols]; emits_run. apply IH. Qed.

Lemma emits_base : emits (allowed_call dev) (virtio_scmi_base_handle_req dev msg tok req).
Proof.
  unfold virtio_scmi_base_handle_req, handle_base_version, handle_base_attributes, handle_base_error_notify,
    handle_base_vendor, handle_base_impl_version, handle_base_protocol_list, handle_base_discover_agent, get_protocol_list.
  emits_run. apply emits_pack.
Qed.

Lemma emits_power : emits (allowed_call dev) (virtio_scmi_power_handle_req dev msg tok req).
Proof.
  unfold virtio_scmi_power_handle_req, handle_power_version, handle_power_protocol_attributes,
    handle_power_domain_attributes, handle_power_state_set, handle_power_state_get, handle_power_state_notify, pwr_phys_id.
  emits_run.
Qed.

Lemma emits_reset : emits (allowed_call dev) (virtio_scmi_reset_handle_req dev msg tok req).
Proof.
  unfold virtio_scmi_reset_handle_req, handle_reset_version, handle_reset_protocol_attributes, handle_reset_attributes,
    handle_reset, handle_reset_notify, rst_phys_id. emits_run.
Qed.

Lemma emits_clock : emits (allowed_call dev) (virtio_scmi_clock_handle_req dev msg tok req).
Proof.
  unfold virtio_scmi_clock_handle_req, handle_clock_version, handle_clock_protocol_attributes,
    handle_clock_clock_attributes, handle_clock_describe_rates, handle_clock_rate_set, handle_clock_rate_get,
    handle_clock_config_set, handle_clock_config_get, handle_clock_name_get, clk_phys_id. emits_run.
Qed.

Lemma emits_message proto : emits (allowed_call dev) (scmi_handle_message dev proto msg tok req).
Proof.
  unfold scmi_handle_message. destruct (List.find _ _) as [[p h]|]; [|apply emits_ret].
  destruct h; [apply emits_base|apply emits_clock|apply emits_power|apply emits_reset].
Qed.

End confined.

(** ** Devices that configuration can produce *)

Definition handler_proto (h : scmi_handler) : Z :=
  match h with
  | base_handler => SCMI_PROTO_ID_BASE
  | clock_handler => SCMI_PROTO_ID_CLOCK
  | power_handler => SCMI_PROTO_ID_POWER
  | reset_handler => SCMI_PROTO_ID_RESET
  end.

Definition table_ok (dev : SCMIDev) : Prop := Forall (fun e => e.1 = handler_proto e.2) (protocols dev).

(** The protocols a configuration asks for, in the order they are registered. *)
Definition configured_protocols (p : virtio_scmi_init_params) : list Z :=
  [SCMI_PROTO_ID_BASE] ++ (if 0 <? p_clock_count p then [SCMI_PROTO_ID_CLOCK] else []) ++
  (if 0 <? p_power_count p then [SCMI_PROTO_ID_POWER] else []) ++
  (if 0 <? p_reset_count p then [SCMI_PROTO_ID_RESET] else []).

Definition params_ok (p : virtio_scmi_init_params) : Prop :=
  ids_ok (p_clock_ids p) (p_clock_count p) /\ ids_ok (p_reset_ids p) (p_reset_count p) /\
  ids_ok (p_power_ids p) (p_power_count p) /\
  0 <= p_clock_count p /\ 0 <= p_reset_count p /\ 0 <= p_power_count p.

Lemma parse_ids_length {J} {cj : CJson J} n : forall (j : J) i l, parse_ids j i n = Some l -> length l = n.
Proof.
  induction n as [|n IH]; intros j i l H; simpl in H; [by simplify_eq|].
  destruct (parse_json_u32 _); [|done]. simpl in H. destruct (parse_ids j (i + 1) n) as [l'|] eqn:E; [|done].
  simplify_eq/=. by rewrite (IH _ _ _ E).
Qed.

Lemma parse_id_array_ok {J} {cj : CJson J} {laws : CJsonLaws J} alloc (o : option J) r ids count :
  parse_id_array alloc o = (r, ids, count) -> ids_ok ids count /\ 0 <= count.
Proof.
  unfold parse_id_array. intros H. destruct o as [j|]; [|by simplify_eq].
  destruct (negb _); [by simplify_eq|]. destruct (_ =? 0); [by simplify_eq|]. destruct (negb alloc); [by simplify_eq|].
  destruct (parse_ids j 0 _) as [l|] eqn:E; simplify_eq; [|by split].
  apply parse_ids_length in E. pose proof (array_size_nonneg j) as Hn. pose proof (u32_range (cJSON_GetArraySize j)).
  split; [|lia]. simpl. rewrite E, Z2Nat.id by done. unfold u32. apply Z.mod_le; lia.
Qed.

Lemma parse_params_ok {J} {cj : CJson J} {laws : CJsonLaws J} alloc (json : J) r p :
  virtio_scmi_parse_params alloc json = (r, Some p) -> params_ok p.
Proof.
  unfold virtio_scmi_parse_params. intros H. destruct (negb _); [done|].
  destruct (parse_id_array (alloc 1%nat) _) as [[r1 ci] cc] eqn:E1. destruct (r1 <? 0); [done|].
  destruct (parse_id_array (alloc 2%nat) _) as [[r2 ri] rc] eqn:E2. destruct (r2 <? 0); [done|].
  destruct (parse_id_array (alloc 3%nat) _) as [[r3 pi] pc] eqn:E3. destruct (r3 <? 0); [done|]. simplify_eq.
  apply parse_id_array_ok in E1 as [? ?], E2 as [? ?], E3 as [? ?]. done.
Qed.

Lemma copy_id_array_ok alloc src count dst :
  scmi_copy_id_array alloc src count = Some dst -> ids_ok src count -> ids_ok dst count.
Proof.
  unfold scmi_copy_id_array, ids_ok. intros H Hs. destruct (count =? 0) eqn:E; [by simplify_eq|].
  destruct (negb alloc); [done|]. destruct src as [l|]; simplify_eq/=; [|done]. rewrite length_take. lia.
Qed.

Lemma copy_id_array_sub alloc src count dst :
  scmi_copy_id_array alloc src count = Some dst -> default [] dst ⊆ default [] src.
Proof.
  unfold scmi_copy_id_array. intros H. destruct (count =? 0); [simplify_eq/=; apply list_subseteq_nil|].
  destruct (negb alloc); [done|]. destruct src as [l|]; simplify_eq/=; [|done].
  intros x Hx. rewrite <- (take_drop (Z.to_nat count) l). apply elem_of_app. by left.
Qed.

(** What a successful initialisation builds. *)
Lemma do_init_inv alloc p dev :
  virtio_scmi_do_init alloc (Some p) = Some dev ->
  fst <$> protocols dev = configured_protocols p /\ table_ok dev /\
  scmi_copy_id_array (alloc 1%nat) (p_clock_ids p) (p_clock_count p) = Some (clock_ids dev) /\
  scmi_copy_id_array (alloc 2%nat) (p_reset_ids p) (p_reset_count p) = Some (reset_ids dev) /\
  scmi_copy_id_array (alloc 3%nat) (p_power_ids p) (p_power_count p) = Some (power_ids dev) /\
  clock_count dev = p_clock_count p /\ reset_count dev = p_reset_count p /\ power_count dev = p_power_count p.
Proof.
  unfold virtio_scmi_do_init, scmi_register_protocols, configured_protocols. intros H. destruct (negb _); [done|].
  destruct (scmi_copy_id_array (alloc 1%nat) _ _) as [ci|] eqn:E1; [|done].
  destruct (scmi_copy_id_array (alloc 2%nat) _ _) as [ri|] eqn:E2; [|done].
  destruct (scmi_copy_id_array (alloc 3%nat) _ _) as [pi|] eqn:E3; [|done]. simpl in H.
  destruct (0 <? p_clock_count p) eqn:Ec, (0 <? p_power_count p) eqn:Ep, (0 <? p_reset_count p) eqn:Er;
    unfold register_if in H; simpl in H; rewrite ?Ec, ?Ep, ?Er in H; simpl in H; rewrite ?Er in H; simpl in H;
    injection H as <-; (split; [reflexivity|]); (split; [repeat constructor|done]).
Qed.

Lemma do_init_ok alloc p dev :
  virtio_scmi_do_init alloc (Some p) = Some dev -> params_ok p -> scmi_dev_ok dev.
Proof.
  intros H (P1 & P2 & P3 & _). apply do_init_inv in H as (Ht & _ & C1 & C2 & C3 & N1 & N2 & N3).
  split; [rewrite N1|rewrite N2|rewrite N3| |]; try by eapply copy_id_array_ok.
  - rewrite <- (length_fmap fst), Ht. unfold configured_protocols.
    destruct (0 <? p_clock_count p), (0 <? p_power_count p), (0 <? p_reset_count p); simpl; lia.
  - apply (Forall_fmap fst (fun x => 0 <= x < 2 ^ 8)). rewrite Ht. unfold configured_protocols.
    destruct (0 <? p_clock_count p), (0 <? p_power_count p), (0 <? p_reset_count p);
      simpl app; repeat (apply Forall_cons_2; [split; [discriminate|reflexivity]|]); apply Forall_nil_2.
Qed.

(** ** Lemmas on serving a request *)

Section served.
Context {kern : ScmiKernel} (dev : SCMIDev).

Lemma run_handler_small h msg tok req s :
  capacity (s_ctx s) < sizeof_scmi_response -> run_handler h dev msg tok req s = Ok (SCMI_ERR_PARAMS, s).
Proof.
  intros Hc. apply Z.ltb_lt in Hc.
  destruct h; cbn [run_handler]; unfold virtio_scmi_base_handle_req, virtio_scmi_clock_handle_req,
    virtio_scmi_power_handle_req, virtio_scmi_reset_handle_req, mbind, scmi_bind, get_ctx; by rewrite Hc.
Qed.

(** Any message, on any registered protocol, is handled. *)
Lemma scmi_handle_message_handled s0 proto msg tok req :
  scmi_dev_ok dev -> table_ok dev -> reachable (s_mem s0) (iov (s_ctx s0)) ->
  capacity (s_ctx s0) = iov_len (iov (s_ctx s0)) -> written (s_ctx s0) = 0 -> reachable (s_mem s0) req ->
  (proto = SCMI_PROTO_ID_BASE -> msg = SCMI_BASE_MSG_DISCOVER_LIST_PROTOCOLS -> skip_fits s0 dev req) ->
  wp (scmi_handle_message dev proto msg tok req) s0 (handled (allowed_call dev) s0 proto msg tok).
Proof.
  intros [Hc Hr Hp Hn Hb] Ht Hresp Hcap Hw Hreq Hskip. unfold scmi_handle_message.
  pose proof (framed_refl (allowed_call dev) s0 Hresp Hcap Hw) as Hfr.
  destruct (List.find _ _) as [[p h]|] eqn:E; [|by apply wp_ret, handled_error].
  apply List.find_some in E as [Hin Heq]. apply Z.eqb_eq in Heq. simpl in Heq. subst p. cbn [snd].
  assert (proto = handler_proto h) as ->.
  { unfold table_ok in Ht. rewrite Forall_forall in Ht. exact (Ht (proto, h) (proj2 (list_elem_of_In _ _) Hin)). }
  destruct (decide (capacity (s_ctx s0) < sizeof_scmi_response)) as [Hs|Hs].
  { unfold wp. rewrite run_handler_small by done. by apply handled_error. }
  assert (sizeof_scmi_response <= capacity (s_ctx s0)) as Hmin by lia.
  destruct h; cbn [run_handler handler_proto] in *.
  - apply virtio_scmi_base_handled; auto.
  - by apply virtio_scmi_clock_handled.
  - by apply virtio_scmi_power_handled.
  - by apply virtio_scmi_reset_handled.
Qed.

Lemma scmi_serve_emits m calls r o m1 calls1 :
  scmi_serve m dev calls r = Ok (o, m1, calls1) -> exists new, calls1 = calls ++ new /\ Forall (allowed_call dev) new.
Proof.
  intros H. assert (Hnil : forall o' m', Ok (o', m', calls) = Ok (o, m1, calls1) ->
    exists new, calls1 = calls ++ new /\ Forall (allowed_call dev) new).
  { intros o' m' E. injection E as <- <- <-. exists []. by rewrite app_nil_r. }
  unfold scmi_serve in H. destruct (out_iov r) as [|req [|? ?]]; [by eapply Hnil| |by eapply Hnil].
  destruct (in_iov r) as [|resp [|? ?]]; [by eapply Hnil| |by eapply Hnil].
  destruct (_ || _); [by eapply Hnil|]. apply bind_Ok_inv in H as (word & _ & H). cbv zeta in H.
  destruct (negb _); [by eapply Hnil|]. apply bind_Ok_inv in H as ([ret s'] & Hm & H). injection H as <- <- <-.
  by apply emits_message in Hm.
Qed.

Lemma handle_one_emits m zt z calls vq ok vq' m' calls' :
  virtq_tx_handle_one_request m zt z dev calls vq = Ok (ok, vq', m', calls') ->
  exists new, calls' = calls ++ new /\ Forall (allowed_call dev) new.
Proof.
  unfold virtq_tx_handle_one_request. intros H. apply bind_Ok_inv in H as (hd & _ & H).
  apply bind_Ok_inv in H as ([vq1 o] & _ & H). cbv zeta in H.
  assert (Hf : forall c, (m1 ← update_used_ring m (set_last_avail_idx (u16 (last_avail_idx vq1 + 1)) vq1) hd 0;
    Ok (false, set_last_avail_idx (u16 (last_avail_idx vq1 + 1)) vq1, m1, c)) = Ok (ok, vq', m', calls') -> calls' = c).
  { intros c H'. apply bind_Ok_inv in H' as (m1 & _ & H'). by injection H' as <- <- <- <-. }
  destruct o as [r|]; [|apply Hf in H as ->; exists []; by rewrite app_nil_r].
  destruct (_ <=? 0); [apply Hf in H as ->; exists []; by rewrite app_nil_r|].
  apply bind_Ok_inv in H as ([[wr m1] c1] & Hs & H). apply bind_Ok_inv in H as (m2 & _ & H). injection H as <- <- <- <-.
  by eapply scmi_serve_emits.
Qed.

Lemma emitted_app (calls c1 c2 : list scmi_call) :
  (exists new, c1 = calls ++ new /\ Forall (allowed_call dev) new) ->
  (exists new, c2 = c1 ++ new /\ Forall (allowed_call dev) new) ->
  exists new, c2 = calls ++ new /\ Forall (allowed_call dev) new.
Proof.
  intros (n1 & -> & F1) (n2 & -> & F2). exists (n1 ++ n2). rewrite app_assoc. split; [done|]. by apply Forall_app.
Qed.

Lemma scmi_batch_emits fuel : forall m zt z calls vq vq' m' calls',
  scmi_batch fuel m zt z dev calls vq = Ok (vq', m', calls') ->
  exists new, calls' = calls ++ new /\ Forall (allowed_call dev) new.
Proof.
  induction fuel as [|fuel IH]; intros m zt z calls vq vq' m' calls' H; [done|]. cbn [scmi_batch] in H.
  apply bind_Ok_inv in H as ([] & _ & H); [injection H as <- <- <-; exists []; by rewrite app_nil_r|].
  apply bind_Ok_inv in H as ([[[ok vq1] m1] c1] & H1 & H). apply handle_one_emits in H1.
  destruct ok; [|by injection H as <- <- <-]. eapply emitted_app; [exact H1|by eapply IH].
Qed.

Lemma scmi_drain_emits fuel : forall m zt z calls vq vq' m' calls',
  scmi_drain fuel m zt z dev calls vq = Ok (vq', m', calls') ->
  exists new, calls' = calls ++ new /\ Forall (allowed_call dev) new.
Proof.
  induction fuel as [|fuel IH]; intros m zt z calls vq vq' m' calls' H; [done|]. cbn [scmi_drain] in H.
  apply bind_Ok_inv in H as ([] & _ & H); [injection H as <- <- <-; exists []; by rewrite app_nil_r|].
  apply bind_Ok_inv in H as (m1 & _ & H). apply bind_Ok_inv in H as ([[vq1 m2] c1] & H1 & H).
  apply bind_Ok_inv in H as (m3 & _ & H). apply scmi_batch_emits in H1. eapply emitted_app; [exact H1|by eapply IH].
Qed.

End served.

(** ** Theorems *)

(** A request for the protocol list does not ask to skip a number of entries
    that overflows an [int]. *)
Definition skip_acceptable (m : hmem) (dev : SCMIDev) (r : VirtioRequest) : Prop := forall req word v,
  out_iov r = [req] -> load 4 m (iov_base req) = Ok word ->
  protocol_id (unpack_header word) = SCMI_PROTO_ID_BASE ->
  msg_id (unpack_header word) = SCMI_BASE_MSG_DISCOVER_LIST_PROTOCOLS ->
  load 4 m (iov_base req + 4) = Ok v -> skip_overflows (protocol_count dev) v = false.

Section theorems.
Context {kern : ScmiKernel}.

(** The outcome of serving a request, as [scmi_request_served] states it. *)
Definition served (dev : SCMIDev) (m : hmem) (calls : list scmi_call) (r : VirtioRequest)
    (res : result (option Z * hmem * list scmi_call)) : Prop :=
  exists o m1 calls1, res = Ok (o, m1, calls1) /\ same_but (in_iov r) m m1 /\
    (calls1 = calls \/ exists c, calls1 = calls ++ [c] /\ allowed_call dev c) /\
    forall n, o = Some n -> exists req resp word word',
      out_iov r = [req] /\ in_iov r = [resp] /\ 8 <= n <= iov_len resp /\ load 4 m (iov_base req) = Ok word /\
      load 4 m1 (iov_base resp) = Ok word' /\
      unpack_header word' = scmi_build_header (protocol_id (unpack_header word)) (msg_id (unpack_header word))
                              (token (unpack_header word)).

Lemma served_dropped dev m calls r : served dev m calls r (Ok (None, m, calls)).
Proof. exists None, m, calls. split; [done|]. split; [done|]. split; [by left|done]. Qed.

Lemma build_header_ok h : header_ok h -> header_ok (scmi_build_header (protocol_id h) (msg_id h) (token h)).
Proof. intros (O1 & O2 & O3 & O4 & O5). unfold header_ok, scmi_build_header, SCMI_MSG_TYPE_COMMAND.
  cbn [msg_id msg_type protocol_id token reserved]. lia. Qed.

Lemma scmi_serve_served dev m calls r :
  scmi_dev_ok dev -> table_ok dev -> Forall (reachable m) (out_iov r ++ in_iov r) -> skip_acceptable m dev r ->
  served dev m calls r (scmi_serve m dev calls r).
Proof.
  intros Hdev Htab Hre Hsk. unfold scmi_serve. unfold skip_acceptable in Hsk.
  destruct (out_iov r) as [|req [|? ?]] eqn:Eo; [apply served_dropped| |apply served_dropped].
  destruct (in_iov r) as [|resp [|? ?]] eqn:Ei; [apply served_dropped| |apply served_dropped].
  simpl in Hre. apply Forall_cons in Hre as [Hreq Hre]. apply Forall_cons in Hre as [Hresp _].
  destruct (_ || _) eqn:Ech; [apply served_dropped|].
  destruct (load 4 m (iov_base req)) as [word|] eqn:Ew.
  2: { unfold load in Ew. rewrite (reachable_access _ req) in Ew by (done || lia). done. }
  cbn [mbind result_bind]. destruct (negb _) eqn:Et; [apply served_dropped|].
  set (h := unpack_header word) in *. set (s0 := {| s_mem := m; s_ctx := scmi_resp_ctx_init resp; s_calls := calls |}).
  assert (wp (scmi_handle_message dev (protocol_id h) (msg_id h) (token h) req) s0
    (handled (allowed_call dev) s0 (protocol_id h) (msg_id h) (token h))) as Hwp.
  { apply scmi_handle_message_handled; try done. intros Hp Hm v Hv. eapply Hsk; [reflexivity|exact Ew|done|done|].
    unfold sizeof_scmi_request in Hv. rewrite Z.add_0_r in Hv. exact Hv. }
  unfold wp in Hwp. destruct (scmi_handle_message _ _ _ _ _ s0) as [[ret s']|]; [|done].
  destruct Hwp as [[F1 F2 F3 F4 F5] Hans]. cbn [mbind result_bind].
  eexists _, _, _. split; [reflexivity|]. rewrite Ei. split; [exact F4|]. split; [exact F5|].
  intros n Hn. destruct (negb (ret =? 0)) eqn:Er; [done|]. injection Hn as <-.
  destruct Hans as (st & w & [_ W L H1 _]); [lia|].
  exists req, resp, word, (pack_header (scmi_build_header (protocol_id h) (msg_id h) (token h))).
  split; [done|]. split; [done|]. split; [rewrite W; exact L|]. split; [done|]. split; [exact H1|].
  apply unpack_pack_header, build_header_ok, unpack_header_ok.
Qed.

(** A well-formed SCMI request is answered in its own response buffer.  For a
    device built from any parsed configuration and a request whose buffers are
    mapped, serving always returns (no NULL dereference, no access outside the
    buffers, whatever protocol, message or length the guest chose); memory
    changes only inside the response buffer; at most one ioctl is issued, for an
    object configured for this device; exactly one used element is pushed, with
    length 0 for a request that failed and otherwise with a length that fits
    the response buffer, whose header then echoes the request's protocol,
    message id and token. *)
Theorem scmi_request_served alloc p dev m zt z calls vq hd vq1 r :
  virtio_scmi_do_init alloc (Some p) = Some dev -> params_ok p ->
  next_avail_head m vq = Ok hd ->
  process_descriptor_chain_buf m zt z vq hd scmi_buf_config = Ok (vq1, Some r) -> 0 < out_count r + in_count r ->
  Forall (reachable m) (out_iov r ++ in_iov r) -> skip_acceptable m dev r ->
  exists o m1 calls1,
    virtq_tx_handle_one_request m zt z dev calls vq =
      (m2 ← update_used_ring m1 vq1 hd (u32 (default 0 o)); Ok (bool_decide (is_Some o), vq1, m2, calls1)) /\
    same_but (in_iov r) m m1 /\
    (calls1 = calls \/ exists c, calls1 = calls ++ [c] /\ allowed_call dev c) /\
    forall n, o = Some n -> exists req resp word word',
      out_iov r = [req] /\ in_iov r = [resp] /\ 8 <= n <= iov_len resp /\ load 4 m (iov_base req) = Ok word /\
      load 4 m1 (iov_base resp) = Ok word' /\
      unpack_header word' = scmi_build_header (protocol_id (unpack_header word)) (msg_id (unpack_header word))
                              (token (unpack_header word)).
Proof.
  intros Hi Hp Hhd Hpr Hpos Hre Hsk.
  destruct (scmi_serve_served dev m calls r) as (o & m1 & c1 & Hs & Hrest);
    [by eapply do_init_ok|by apply do_init_inv in Hi as (_ & ? & _)|done|done|].
  exists o, m1, c1. split; [|exact Hrest]. unfold virtq_tx_handle_one_request. rewrite Hhd. cbn [mbind result_bind].
  rewrite Hpr. cbn [mbind result_bind]. replace (_ <=? 0) with false by lia. by rewrite Hs.
Qed.

(** A guest reaches only the clocks, resets and power domains configured for
    its device.  Whatever the transmit queue of a device holds, every ioctl the
    notify handler issues while draining it carries a physical id from the
    configuration's list for that kind of object. *)
Theorem scmi_ids_confined {vring : VringEvent} alloc p d fuel q w calls d' w' calls' :
  virtio_scmi_do_init alloc (Some p) = Some (Device.dev d) ->
  virtio_scmi_txq_notify_handler fuel d q w calls = Ok (d', w', calls') ->
  exists new, calls' = calls ++ new /\
    Forall (fun c => call_id c ∈ default [] (match call_ioctl c with
                                             | HVISOR_SCMI_CLOCK_IOCTL => p_clock_ids p
                                             | HVISOR_SCMI_RESET_IOCTL => p_reset_ids p
                                             | HVISOR_SCMI_POWER_IOCTL => p_power_ids p
                                             end)) new.
Proof.
  intros Hi H. apply do_init_inv in Hi as (_ & _ & C1 & C2 & C3 & _).
  apply copy_id_array_sub in C1, C2, C3. unfold virtio_scmi_txq_notify_handler in H.
  apply bind_Ok_inv in H as (vq & _ & H). apply bind_Ok_inv in H as ([[vq1 m1] c1] & Hd & H).
  apply bind_Ok_inv in H as ([d1 w1] & _ & H). injection H as <- <- <-.
  apply scmi_drain_emits in Hd as (new & -> & F). exists new. split; [done|].
  eapply Forall_impl; [exact F|]. intros c Hc. unfold allowed_call, configured_ids in Hc. simpl.
  destruct (call_ioctl c); [by apply C1|by apply C2|by apply C3].
Qed.

(** Protocol discovery is exact.  For a device built from a parsed
    configuration, a list request with [skip] below 2^31 and a response buffer
    of at least 28 bytes succeeds; the response holds the number of remaining
    protocols, then one byte per protocol: base, then clock, power and reset
    where the configuration lists objects, from the [skip]-th on; its length
    covers exactly the slots in use. *)
Theorem scmi_protocol_list_exact alloc p dev s0 tok req skip :
  virtio_scmi_do_init alloc (Some p) = Some dev -> params_ok p ->
  reachable (s_mem s0) (iov (s_ctx s0)) -> capacity (s_ctx s0) = iov_len (iov (s_ctx s0)) ->
  written (s_ctx s0) = 0 -> reachable (s_mem s0) req -> 8 <= iov_len req -> 28 <= capacity (s_ctx s0) ->
  load 4 (s_mem s0) (iov_base req + 4) = Ok skip -> skip < 2 ^ 31 ->
  let l := drop (Z.to_nat skip) (configured_protocols p) in
  exists s, handle_base_protocol_list dev tok req s0 = Ok (0, s) /\
    load 4 (s_mem s) (iov_base (iov (s_ctx s0)) + 8) = Ok (Z.of_nat (length l)) /\
    (forall k pr, l !! k = Some pr -> get_byte (s_mem s) (iov_base (iov (s_ctx s0)) + 12 + Z.of_nat k) = pr) /\
    written (s_ctx s) = 12 + 4 * ((Z.of_nat (length l) + 3) `div` 4).
Proof.
  intros Hi Hp Hresp Hcap Hw Hreq Hl Hc Hld Hsk l.
  pose proof (do_init_ok _ _ _ Hi Hp) as [_ _ _ Hn Hb]. apply do_init_inv in Hi as (Ht & _).
  assert (listed dev skip = l) as El by (unfold listed; by rewrite Ht).
  assert (skip_fits s0 dev req) as Hfit.
  { intros v Hv. unfold sizeof_scmi_request in Hv. rewrite Z.add_0_r, Hld in Hv. injection Hv as <-.
    unfold skip_overflows. lia. }
  pose proof (handle_base_protocol_list_spec (allowed_call dev) s0 dev Hresp Hcap Hw Hn Hb tok req Hreq
    ltac:(unfold sizeof_scmi_response; lia) (framed_refl _ _ Hresp Hcap Hw) Hfit) as H.
  unfold wp in H. destruct (handle_base_protocol_list dev tok req s0) as [[r s]|]; [|done].
  destruct H as (_ & H). destruct (H Hl Hc) as (-> & sk & Hsk' & [L1 L2] & Hwr).
  unfold sizeof_scmi_request in Hsk'. rewrite Z.add_0_r, Hld in Hsk'. injection Hsk' as <-.
  rewrite El in L1, L2, Hwr. exists s. auto.
Qed.

End theorems.

(** ** Example state and witnesses *)

#[local] Existing Instance vring_event_std.

(** A kernel that succeeds and reports zeros. *)
#[local] Instance kernel_zero : ScmiKernel := fun _ _ =>
  {| ans_ret := 0; ans_enabled := 0; ans_parent_id := 0; ans_name := []; ans_rate := 0; ans_config := 0;
     ans_extended := 0; ans_power_state := 0 |}.

(** Two clocks and a reset line. *)
Definition scmi_params0 : virtio_scmi_init_params :=
  {| p_clock_ids := Some [10; 11]; p_clock_count := 2; p_reset_ids := Some [7]; p_reset_count := 1;
     p_power_ids := None; p_power_count := 0 |}.

Definition scmi_dev0 : SCMIDev :=
  {| clock_ids := Some [10; 11]; clock_count := 2; reset_ids := Some [7]; reset_count := 1; power_ids := None;
     power_count := 0;
     protocols := [(SCMI_PROTO_ID_BASE, base_handler); (SCMI_PROTO_ID_CLOCK, clock_handler);
                   (SCMI_PROTO_ID_RESET, reset_handler)] |}.

Lemma scmi_params0_ok : params_ok scmi_params0.
Proof. unfold params_ok. simpl. lia. Qed.

(** A request of 20 bytes and a response buffer of 64, with the words given. *)
Definition scmi_mem (words : list Z) : hmem :=
  mem_with [(0x7000, 0x1000)]
    (desc_vals 0 0x4800 20 1 1 ++ desc_vals 1 0x4900 64 2 0 ++ [(0x7102, 2%nat, 1)] ++
     imap (fun k v => (0x7800 + 4 * Z.of_nat k, 4%nat, v)) words).

(** The protocol list from entry 1 on, and a rate change of clock 1. *)
Definition mem_list : hmem := scmi_mem [pack_header (scmi_build_header SCMI_PROTO_ID_BASE 6 5); 1].
Definition mem_rate : hmem := scmi_mem [pack_header (scmi_build_header SCMI_PROTO_ID_CLOCK 5 9); 0; 1; 1000; 0].

Definition scmi_request0 : VirtioRequest :=
  {| out_iov := [{| iov_base := 0x7800; iov_len := 20 |}]; in_iov := [{| iov_base := 0x7900; iov_len := 64 |}] |}.

Lemma mem_list_reachable : Forall (reachable mem_list) (out_iov scmi_request0 ++ in_iov scmi_request0).
Proof.
  apply Forall_cons_2; [|apply Forall_cons_2; [|apply Forall_nil_2] ];
    (split; [reflexivity|split; [simpl; lia|vm_compute; reflexivity] ]).
Qed.

Lemma scmi_request_served_witness :
  exists o m1 calls1 n, virtq_tx_handle_one_request mem_list table_ab 1 scmi_dev0 [] vq4 =
      (m2 ← update_used_ring m1 (set_last_avail_idx 1 vq4) 0 (u32 (default 0 o));
       Ok (bool_decide (is_Some o), set_last_avail_idx 1 vq4, m2, calls1)) /\
    same_but (in_iov scmi_request0) mem_list m1 /\ load 4 mem_list 0x7804 = Ok n.
Proof.
  destruct (scmi_request_served (fun _ => true) scmi_params0 scmi_dev0 mem_list table_ab 1 [] vq4 0
    (set_last_avail_idx 1 vq4) scmi_request0) as (o & m1 & c1 & H1 & H2 & _).
  - reflexivity.
  - exact scmi_params0_ok.
  - vm_compute; reflexivity.
  - vm_compute; reflexivity.
  - reflexivity.
  - exact mem_list_reachable.
  - intros req word v Hr _ _ _ Hv. injection Hr as <-. vm_compute in Hv. injection Hv as <-. reflexivity.
  - exists o, m1, c1, 1. split; [exact H1|]. split; [exact H2|]. vm_compute. reflexivity.
Defined.

Definition scmi_vdev : VirtIODevice SCMIDev :=
  {| vqs_len := 2; zone_id := 1; irq_id := 75; base_addr := 0xa000000; len := 0x200; type := VirtioTSCMI;
     regs := regs0; vqs := [vq4]; Device.dev := scmi_dev0; status_changed := false; activated := true;
     interrupt_line_asserted := false |}.

Lemma scmi_ids_confined_witness :
  exists d' w' c, virtio_scmi_txq_notify_handler 3 scmi_vdev 0 (set_w_mem mem_rate world0) [] = Ok (d', w', [c]) /\
    call_subcmd c = HVISOR_SCMI_CLOCK_RATE_SET /\ call_id c ∈ [10; 11].
Proof.
  assert (match virtio_scmi_txq_notify_handler 3 scmi_vdev 0 (set_w_mem mem_rate world0) [] with
          | Ok (_, _, [c]) => match call_ioctl c with HVISOR_SCMI_CLOCK_IOCTL => call_subcmd c =? 5 | _ => false end
          | _ => false end = true) as Hc by (vm_compute; reflexivity).
  destruct (virtio_scmi_txq_notify_handler 3 scmi_vdev 0 (set_w_mem mem_rate world0) [])
    as [[[d' w'] [|c [|? ?] ] ]|] eqn:E; try discriminate Hc.
  destruct (scmi_ids_confined (fun _ => true) scmi_params0 scmi_vdev 3 0 (set_w_mem mem_rate world0) [] d' w' [c])
    as (new & En & F); [reflexivity|exact E|].
  simpl in En. subst new. apply Forall_cons in F as [F _]. exists d', w', c. split; [reflexivity|].
  destruct (call_ioctl c); try discriminate Hc. split; [by apply Z.eqb_eq|exact F].
Defined.

Lemma scmi_protocol_list_exact_witness :
  exists s, handle_base_protocol_list scmi_dev0 5 {| iov_base := 0x7800; iov_len := 20 |}
      {| s_mem := mem_list; s_ctx := scmi_resp_ctx_init {| iov_base := 0x7900; iov_len := 64 |}; s_calls := [] |} = Ok (0, s) /\
    load 4 (s_mem s) 0x7908 = Ok 2 /\ get_byte (s_mem s) 0x790c = SCMI_PROTO_ID_CLOCK.
Proof.
  pose proof (proj1 (Forall_cons _ _ _) mem_list_reachable) as [R1 R2]. apply Forall_cons in R2 as [R2 _].
  destruct (scmi_protocol_list_exact (fun _ => true) scmi_params0 scmi_dev0
    {| s_mem := mem_list; s_ctx := scmi_resp_ctx_init {| iov_base := 0x7900; iov_len := 64 |}; s_calls := [] |}
    5 {| iov_base := 0x7800; iov_len := 20 |} 1) as (s & H1 & H2 & H3 & _);
    [reflexivity|exact scmi_params0_ok|exact R2|reflexivity|reflexivity|exact R1|simpl; lia|simpl; lia|
     vm_compute; reflexivity|lia|].
  exists s. split; [exact H1|]. split; [exact H2|]. exact (H3 0%nat SCMI_PROTO_ID_CLOCK eq_refl).
Defined.

(** A skip count of 2^31 overflows the signed subtraction of [get_protocol_list]. *)
Theorem scmi_skip_overflows :
  exists s0 req, load 4 (s_mem s0) (iov_base req + 4) = Ok (2 ^ 31) /\
    handle_base_protocol_list scmi_dev0 5 req s0 = Err SignedOverflow.
Proof.
  exists {| s_mem := scmi_mem [pack_header (scmi_build_header SCMI_PROTO_ID_BASE 6 5); 2 ^ 31];
            s_ctx := scmi_resp_ctx_init {| iov_base := 0x7900; iov_len := 64 |}; s_calls := [] |},
    {| iov_base := 0x7800; iov_len := 20 |}. split; vm_compute; reflexivity.
Qed.
