(* ===== verification/HostFd.v ===== *)
(** * Host file descriptors

    The character devices and tap devices the back ends read from and write to,
    as an environment: a list of answers to reads (each a failure with its errno,
    or the data available), a list of answers to writes, and what was written. *)

From S2P Require Import Prelude Memory ZoneMem Virtqueue IoVec.

Record fd_env := {
  rx_answers : list (Z * Z * list Z);   (* (n, errno, data); n < 0 is a failure *)
  tx_answers : list (Z * Z);            (* (n, errno) *)
  sent : list (list Z);                 (* data of each write, oldest first *)
}.

Definition next_rx (t : fd_env) : fd_env :=
  {| rx_answers := tail (rx_answers t); tx_answers := tx_answers t; sent := sent t |}.
Definition next_tx (t : fd_env) (data : list (list Z)) : fd_env :=
  {| rx_answers := rx_answers t; tx_answers := tail (tx_answers t); sent := sent t ++ data |}.

(** [readv]: the data available, cut to the size of the buffers. *)
Definition readv (t : fd_env) (m : hmem) (v : list iovec) : result (Z * Z * hmem * fd_env) :=
  match rx_answers t with
  | [] => Err EnvExhausted
  | (n, e, pkt) :: _ =>
      if n <? 0 then Ok (-1, e, m, next_rx t)
      else
        let data := take (Z.to_nat (iov_total v)) pkt in
        match scatter m v data with
        | Ok m1 => Ok (Z.of_nat (length data), 0, m1, next_rx t)
        | Err _ => Ok (-1, EFAULT, m, next_rx t)
        end
  end.

(** [read] into a scratch buffer: the data is lost. *)
Definition read_trash (t : fd_env) : result fd_env :=
  match rx_answers t with
  | [] => Err EnvExhausted
  | _ :: _ => Ok (next_rx t)
  end.

(** [writev] of guest buffers followed by [pad] zero bytes.  A tap device takes a
    frame whole; a terminal takes at most the bytes its answer allows. *)
Definition writev (whole : bool) (t : fd_env) (m : hmem) (v : list iovec) (pad : Z) : result (Z * Z * fd_env) :=
  match tx_answers t with
  | [] => Err EnvExhausted
  | (n, e) :: _ =>
      if n <? 0 then Ok (-1, e, next_tx t [])
      else
        match gather m v (Z.to_nat (iov_total v)) with
        | Ok data =>
            let all := data ++ replicate (Z.to_nat pad) 0 in
            let out := if whole then all else take (Z.to_nat n) all in
            Ok (Z.of_nat (length out), 0, next_tx t [out])
        | Err _ => Ok (-1, EFAULT, next_tx t [])
        end
  end.

Lemma readv_same_but t m v n e m' t' :
  bufs_ok v -> readv t m v = Ok (n, e, m', t') -> same_but v m m' /\ (n < 0 -> m' = m).
Proof.
  unfold readv. intros Hv H. destruct (rx_answers t) as [|[[k er] pkt] rest]; [done|].
  destruct (k <? 0); [by injection H as <- <- <- <-|].
  destruct (scatter m v _) as [m1|] eqn:E; injection H as <- <- <- <-; [|done].
  split; [by eapply scatter_same_but|lia].
Qed.

Lemma writev_Ok whole t m v pad n e rest :
  tx_answers t = (n, e) :: rest ->
  exists len errno t1, writev whole t m v pad = Ok (len, errno, t1) /\ tx_answers t1 = rest.
Proof.
  intros H. unfold writev. rewrite H. assert (Hr : forall l, tx_answers (next_tx t l) = rest) by (intros l; simpl; by rewrite H).
  destruct (n <? 0); [eexists _, _, _; split; [reflexivity|apply Hr]|].
  destruct (gather m v _); eexists _, _, _; (split; [reflexivity|apply Hr]).
Qed.
