(* ===== verification/Net.v ===== *)
(** * The virtio network device

    [tools/virtio/devices/net/virtio_net.c]: device state, configuration, the two
    queue handlers, the tap event handler, status changes and reset.  The tap
    device is an environment ([HostFd]), one answer per packet.  The batch arrays
    on the handlers' stacks are lists whose growth past
    [VIRTQUEUE_NET_MAX_SIZE] is a fault. *)

From stdpp Require Import strings.
From S2P Require Import Prelude Memory ZoneMem Virtqueue Device Ring Interrupt IoVec HostFd Json.

Definition NET_QUEUE_RX : nat := 0.
Definition NET_QUEUE_TX : nat := 1.
Definition VIRTQUEUE_NET_MAX_SIZE : Z := 256.
Definition NET_IOV_MAX : Z := VIRTQUEUE_NET_MAX_SIZE.
Definition IFNAMSIZ : Z := 16.
Definition VIRTIO_F_VERSION_1 : Z := 32.
Definition VIRTIO_NET_S_LINK_UP : Z := 1.
Definition VIRTIO_CONFIG_S_FEATURES_OK : Z := 8.

(** ** Device state *)

Record NetDev := {
  mac : list Z;
  link_status : Z;
  tapfd : Z;
  rx_ready : Z;
  tap_env : fd_env;
  hdr_sizes : list Z;   (* TUNSETVNETHDRSZ ioctls issued *)
}.

Definition set_rx_ready (v : Z) (d : NetDev) : NetDev :=
  {| mac := mac d; link_status := link_status d; tapfd := tapfd d; rx_ready := v; tap_env := tap_env d;
     hdr_sizes := hdr_sizes d |}.
Definition set_tap_env (t : fd_env) (d : NetDev) : NetDev :=
  {| mac := mac d; link_status := link_status d; tapfd := tapfd d; rx_ready := rx_ready d; tap_env := t;
     hdr_sizes := hdr_sizes d |}.
Definition set_hdr_sizes (l : list Z) (d : NetDev) : NetDev :=
  {| mac := mac d; link_status := link_status d; tapfd := tapfd d; rx_ready := rx_ready d; tap_env := tap_env d;
     hdr_sizes := l |}.

(** [None] is a failed allocation. *)
Definition init_net_dev (alloc : bool) (mac_addr : list Z) (t : fd_env) : option NetDev :=
  if negb alloc then None
  else Some {| mac := take 6 mac_addr; link_status := VIRTIO_NET_S_LINK_UP; tapfd := -1; rx_ready := 0; tap_env := t;
             hdr_sizes := [] |}.

(** [sizeof(NetHdr)] and [sizeof(NetHdrLegacy)]. *)
Definition get_nethdr_size (d : VirtIODevice NetDev) : Z :=
  if has_flag (drv_feature (regs d)) (2 ^ VIRTIO_F_VERSION_1) then 12 else 10.

Definition virtio_net_reset (d : VirtIODevice NetDev) : VirtIODevice NetDev :=
  set_dev (set_rx_ready 0 (dev d)) d.

Definition net_on_status (d : VirtIODevice NetDev) (status : Z) : VirtIODevice NetDev :=
  let d1 :=
    if has_flag status VIRTIO_CONFIG_S_FEATURES_OK then
      set_dev (set_hdr_sizes (hdr_sizes (dev d) ++ [get_nethdr_size d]) (dev d)) d
    else d in
  if status =? 0 then set_dev (set_rx_ready 0 (dev d1)) d1 else d1.

(** ** Configuration *)

Record virtio_net_init_params := { p_mac : list Z; p_tap : string }.

Section config.
Context {J : Type} {cj : CJson J}.

Fixpoint parse_mac (j : J) (i : Z) (n : nat) : option (list Z) :=
  match n with
  | O => Some []
  | S n' =>
      v ← parse_json_u8 (cJSON_GetArrayItem j i);
      l ← parse_mac j (i + 1) n';
      Some (v :: l)
  end.

(** [cJSON_IsString(NULL)] is false and [cJSON_GetArraySize(NULL)] is 0. *)
Definition virtio_net_parse_params (alloc : bool) (json : J) : Z * option virtio_net_init_params :=
  if negb alloc then (- ENOMEM, None)
  else
    match cJSON_GetObjectItem json "tap" with
    | None => (- EINVAL, None)
    | Some t =>
        if negb (cJSON_IsString t) || (String.length (valuestring t) =? 0)%nat then (- EINVAL, None)
        else if IFNAMSIZ <=? Z.of_nat (String.length (valuestring t)) then (- ENAMETOOLONG, None)
        else
          match cJSON_GetObjectItem json "mac" with
          | None => (- EINVAL, None)
          | Some mj =>
              if negb (cJSON_GetArraySize mj =? 6) then (- EINVAL, None)
              else
                match parse_mac mj 0 6 with
                | None => (- EINVAL, None)
                | Some l => (0, Some {| p_mac := l; p_tap := valuestring t |})
                end
          end
    end.

End config.

(** ** Receive *)

Definition virtio_net_rxq_notify_handler (m : hmem) (net : NetDev) (vq : VirtQueue) : result (NetDev * hmem) :=
  if rx_ready net <=? 0 then m1 ← virtqueue_disable_notify m vq; Ok (set_rx_ready 1 net, m1)
  else Ok (net, m).

(** [batch_indices[batch_count] = idx; batch_lens[batch_count] = len; batch_count++] *)
Definition batch_push (b : list (Z * Z)) (idx len : Z) : result (list (Z * Z)) :=
  if VIRTQUEUE_NET_MAX_SIZE <=? Z.of_nat (length b) then Err OutOfBounds else Ok (b ++ [(idx, len)]).

Definition net_rx_config : VirtioBufConfig := {| max_out := 0; max_in := NET_IOV_MAX |}.

(** The return value of the walk. *)
Definition walk_ret (o : option VirtioRequest) : Z :=
  match o with
  | None => -1
  | Some r => out_count r + in_count r
  end.

Definition writable_bufs (o : option VirtioRequest) : list iovec :=
  match o with
  | None => []
  | Some r => in_iov r
  end.

(** Queue, memory, device and batch when the loop ends. *)
Fixpoint net_rx_loop (fuel : nat) (m : hmem) (zt : zone_table) (zone_id : Z) (net : NetDev) (vq : VirtQueue)
    (batch : list (Z * Z)) : result (VirtQueue * hmem * NetDev * list (Z * Z)) :=
  match fuel with
  | O => Err OutOfFuel
  | S fuel' =>
      e ← virtqueue_is_empty m vq;
      if (e : bool) then Ok (vq, m, net, batch)
      else
        idx ← next_avail_head m vq;
        '(vq1, o) ← process_descriptor_chain_buf m zt zone_id vq idx net_rx_config;
        let n := walk_ret o in
        if (n <? 1) || (VIRTQUEUE_NET_MAX_SIZE <? n) then
          let vq2 := if n <? 1 then set_last_avail_idx (u16 (last_avail_idx vq1 + 1)) vq1 else vq1 in
          b ← batch_push batch idx 0; Ok (vq2, m, net, b)
        else
          '(len, errno, m1, t1) ← readv (tap_env net) m (writable_bufs o);
          let net1 := set_tap_env t1 net in
          if (len <? 0) && (errno =? EWOULDBLOCK) then
            Ok (set_last_avail_idx (u16 (last_avail_idx vq1 - 1)) vq1, m1, net1, batch)
          else if len <? 0 then b ← batch_push batch idx 0; Ok (vq1, m1, net1, b)
          else if len =? 0 then b ← batch_push batch idx 0; Ok (vq1, m1, set_rx_ready 0 net1, b)
          else b ← batch_push batch idx (u32 len); net_rx_loop fuel' m1 zt zone_id net1 vq1 b
  end.

Section handlers.
Context {vring : VringEvent}.

(** [epollin] is the EPOLLIN bit of the event. *)
Definition virtio_net_event_handler (fuel : nat) (fd : Z) (epollin : bool) (d : VirtIODevice NetDev) (w : world) :
    result (VirtIODevice NetDev * world) :=
  let net := dev d in
  vq ← of_index (vqs d !! NET_QUEUE_RX);
  if negb (fd =? tapfd net) || negb epollin then Ok (d, w)
  else if (tapfd net =? -1) || negb (bool_decide (type d = VirtioTNet)) then Ok (d, w)
  else if rx_ready net =? 0 then t1 ← read_trash (tap_env net); Ok (set_dev (set_tap_env t1 net) d, w)
  else
    e ← virtqueue_is_empty (w_mem w) vq;
    if (e : bool) then
      t1 ← read_trash (tap_env net);
      virtio_inject_irq (set_dev (set_tap_env t1 net) d) NET_QUEUE_RX w
    else
      '(vq1, m1, net1, batch) ← net_rx_loop fuel (w_mem w) (w_zones w) (zone_id d) net vq [];
      m2 ← update_used_ring_batch m1 vq1 batch;
      virtio_inject_irq (put_vq NET_QUEUE_RX vq1 (set_dev net1 d)) NET_QUEUE_RX (set_w_mem m2 w).

(** ** Transmit *)

Definition net_tx_config : VirtioBufConfig := {| max_out := NET_IOV_MAX - 1; max_in := 0 |}.

(** Queue, tap and batch after one request. *)
Definition net_tx_one (m : hmem) (zt : zone_table) (zone_id tap_fd header_len : Z) (t : fd_env) (vq : VirtQueue)
    (batch : list (Z * Z)) : result (VirtQueue * fd_env * list (Z * Z)) :=
  if tap_fd =? -1 then Ok (vq, t, batch)
  else
    idx ← next_avail_head m vq;
    '(vq1, o) ← process_descriptor_chain_buf m zt zone_id vq idx net_tx_config;
    match o with
    | Some r =>
        if walk_ret o <? 1 then
          b ← batch_push batch idx 0; Ok (set_last_avail_idx (u16 (last_avail_idx vq1 + 1)) vq1, t, b)
        else
          first ← of_index (head (out_iov r));
          if iov_len first <? header_len then b ← batch_push batch idx 0; Ok (vq1, t, b)
          else
            let all_len := iov_total (out_iov r) in
            let packet_len := u64 (all_len - header_len) in
            let pad := if packet_len <? 64 then 64 - packet_len else 0 in
            '(len, errno, t1) ← writev true t m (out_iov r) pad;
            b ← batch_push batch idx (if len <? 0 then 0 else u32 all_len);
            Ok (vq1, t1, b)
    | None => b ← batch_push batch idx 0; Ok (set_last_avail_idx (u16 (last_avail_idx vq1 + 1)) vq1, t, b)
    end.

Fixpoint net_tx_inner (fuel : nat) (m : hmem) (zt : zone_table) (zone_id tap_fd header_len : Z) (t : fd_env)
    (vq : VirtQueue) (batch : list (Z * Z)) : result (VirtQueue * fd_env * list (Z * Z)) :=
  match fuel with
  | O => Err OutOfFuel
  | S fuel' =>
      e ← virtqueue_is_empty m vq;
      if (e : bool) then Ok (vq, t, batch)
      else
        '(vq1, t1, b) ← net_tx_one m zt zone_id tap_fd header_len t vq batch;
        net_tx_inner fuel' m zt zone_id tap_fd header_len t1 vq1 b
  end.

(** The body of [for (;;)] and its repetition. *)
Fixpoint net_tx_outer (fuel : nat) (d : VirtIODevice NetDev) (w : world) (q : nat) : result (VirtIODevice NetDev * world) :=
  match fuel with
  | O => Err OutOfFuel
  | S fuel' =>
      vq ← of_index (vqs d !! q);
      '(vq1, t1, batch) ← net_tx_inner fuel (w_mem w) (w_zones w) (zone_id d) (tapfd (dev d)) (get_nethdr_size d)
                            (tap_env (dev d)) vq [];
      let d1 := put_vq q vq1 (set_dev (set_tap_env t1 (dev d)) d) in
      '(d2, w2) ← (if (length batch =? 0)%nat then Ok (d1, w)
                   else m1 ← update_used_ring_batch (w_mem w) vq1 batch; virtio_inject_irq d1 q (set_w_mem m1 w));
      vq2 ← of_index (vqs d2 !! q);
      m3 ← virtqueue_enable_notify (w_mem w2) vq2;
      let w3 := set_w_mem m3 w2 in
      e ← virtqueue_is_empty m3 vq2;
      if (e : bool) then Ok (d2, w3)
      else m4 ← virtqueue_disable_notify m3 vq2; net_tx_outer fuel' d2 (set_w_mem m4 w3) q
  end.

Definition virtio_net_txq_notify_handler (fuel : nat) (d : VirtIODevice NetDev) (q : nat) (w : world) :
    result (VirtIODevice NetDev * world) :=
  vq ← of_index (vqs d !! q);
  m1 ← virtqueue_disable_notify (w_mem w) vq;
  net_tx_outer fuel d (set_w_mem m1 w) q.

End handlers.

(** ** Lemmas *)

Lemma batch_push_Ok b idx len : Z.of_nat (length b) < 256 -> batch_push b idx len = Ok (b ++ [(idx, len)]).
Proof. intros H. unfold batch_push, VIRTQUEUE_NET_MAX_SIZE. by replace (256 <=? _) with false by lia. Qed.

Lemma batch_push_inv b idx len b' : batch_push b idx len = Ok b' -> b' = b ++ [(idx, len)].
Proof. unfold batch_push. intros H. destruct (_ <=? _); [done|]. by injection H as <-. Qed.

(** One transmit request that can be walked takes one available entry and one
    batch entry, whatever its contents. *)
Lemma net_tx_one_step m zt z tap_fd hl t vq batch idx vq1 o :
  tap_fd <> -1 -> next_avail_head m vq = Ok idx -> process_descriptor_chain_buf m zt z vq idx net_tx_config = Ok (vq1, o) ->
  walk_ret o <> 0 -> Z.of_nat (length batch) < 256 -> tx_answers t <> [] ->
  exists t1 len, net_tx_one m zt z tap_fd hl t vq batch =
      Ok (set_last_avail_idx (u16 (last_avail_idx vq + 1)) vq, t1, batch ++ [(idx, len)]) /\
    (len = 0 \/ exists r, o = Some r /\ len = u32 (iov_total (out_iov r))) /\
    (length (tx_answers t) <= S (length (tx_answers t1)))%nat.
Proof.
  intros Hfd Hhd Hp Hw Hb Ht. pose proof (process_descriptor_chain_buf_inv _ _ _ _ _ net_tx_config _ _ ltac:(done) ltac:(done) Hp) as Hinv.
  unfold net_tx_one. replace (tap_fd =? -1) with false by lia. rewrite Hhd. cbn [mbind result_bind]. rewrite Hp.
  cbn [mbind result_bind]. destruct o as [r|].
  2: { rewrite batch_push_Ok by done. subst vq1. exists t, 0. split; [reflexivity|]. split; [by left|lia]. }
  destruct Hinv as [[[Ho Hi] _] ->]. cbn [walk_ret] in *. unfold out_count, in_count in *. simpl in Hi.
  replace (_ <? 1) with false by lia.
  destruct (out_iov r) as [|first out] eqn:Eo; [simpl in *; lia|]. cbn [head of_index mbind result_bind].
  destruct (iov_len first <? hl); [rewrite batch_push_Ok by done; eexists t, 0; split; [reflexivity|split; [by left|lia] ]|]. cbv zeta.
  destruct (tx_answers t) as [|[k e] rest] eqn:Et; [done|].
  match goal with |- context [writev true t m ?v ?p] => destruct (writev_Ok true t m v p k e rest Et) as (len & er & t1 & -> & H1) end.
  cbn [mbind result_bind]. rewrite batch_push_Ok by done. eexists t1, _. split; [reflexivity|]. split; [|rewrite H1; simpl; lia].
  destruct (len <? 0); [by left|right]. exists r. split; [done|]. by rewrite Eo.
Qed.

(** The next [n] available entries can be walked, and none is a chain without
    buffers. *)
Definition tx_walkable (m : hmem) (zt : zone_table) (z : Z) (vq : VirtQueue) (n : nat) : Prop :=
  forall k, (k < n)%nat -> let vqk := set_last_avail_idx (u16 (last_avail_idx vq + Z.of_nat k)) vq in
  exists idx vq1 o, next_avail_head m vqk = Ok idx /\
    process_descriptor_chain_buf m zt z vqk idx net_tx_config = Ok (vq1, o) /\ walk_ret o <> 0.

Lemma u16_succ x k : u16 (u16 x + k) = u16 (x + k).
Proof. unfold u16. by rewrite Zplus_mod_idemp_l. Qed.

Lemma tx_walkable_next m zt z vq n :
  tx_walkable m zt z vq (S n) -> tx_walkable m zt z (set_last_avail_idx (u16 (last_avail_idx vq + 1)) vq) n.
Proof.
  intros H k Hk. specialize (H (S k) ltac:(lia)). cbv zeta in *. cbn [last_avail_idx set_last_avail_idx].
  rewrite u16_succ. replace (last_avail_idx vq + 1 + Z.of_nat k) with (last_avail_idx vq + Z.of_nat (S k)) by lia.
  exact H.
Qed.

Lemma set_last_same vq : set_last_avail_idx (last_avail_idx vq) vq = vq.
Proof. by destruct vq. Qed.

Lemma u16_diff_zero i l : 0 <= i < 2 ^ 16 -> 0 <= l < 2 ^ 16 -> u16 (i - l) = 0 -> i = l.
Proof. intros Hi Hl H. unfold u16 in H. apply Z.mod_divide in H as [q Hq]; lia. Qed.

Lemma u16_diff_pred i l n : u16 (i - l) = Z.of_nat (S n) -> u16 (i - u16 (l + 1)) = Z.of_nat n.
Proof.
  unfold u16. intros H. rewrite Zminus_mod_idemp_r. replace (i - (l + 1)) with (i - l - 1) by lia.
  pose proof (Z.mod_pos_bound (i - l) (2 ^ 16) ltac:(lia)). rewrite <- Zminus_mod_idemp_l, H, Z.mod_small; lia.
Qed.

(** ** Theorems *)

(** The completion of the next available entry: the head of its chain, with 0 or the
    number of bytes in the buffers of the chain. *)
Definition tx_completed (m : hmem) (zt : zone_table) (z : Z) (vq : VirtQueue) (e : Z * Z) : Prop :=
  next_avail_head m vq = Ok e.1 /\
  (e.2 = 0 \/ exists vq1 r, process_descriptor_chain_buf m zt z vq e.1 net_tx_config = Ok (vq1, Some r) /\
     e.2 = u32 (iov_total (out_iov r))).

(** C31: one pass of the transmit loop, with the tap open and an available index that
    does not move during it.  If the [n] outstanding entries can be walked and none
    is a chain without buffers, and they fit in the batch arrays, the loop returns
    after [n] turns with the queue's index caught up, and the batch has one new entry
    for each, in the order of the available ring: the head of the chain, with 0 or
    the size of its buffers.  Whether the packets are well-formed and what the tap
    answers does not matter. *)
Theorem net_tx_drains m zt z tap_fd hl t vq batch i n :
  tap_fd <> -1 -> avail_ring vq <> 0 -> avail_idx m vq = Ok i -> 0 <= last_avail_idx vq < 2 ^ 16 ->
  u16 (i - last_avail_idx vq) = Z.of_nat n -> tx_walkable m zt z vq n ->
  (n <= length (tx_answers t))%nat -> Z.of_nat (length batch) + Z.of_nat n <= VIRTQUEUE_NET_MAX_SIZE ->
  exists t' new, net_tx_inner (S n) m zt z tap_fd hl t vq batch = Ok (set_last_avail_idx i vq, t', batch ++ new) /\
    length new = n /\
    forall k e, new !! k = Some e -> tx_completed m zt z (set_last_avail_idx (u16 (last_avail_idx vq + Z.of_nat k)) vq) e.
Proof.
  intros Hfd Hr Hi Hl Hn Hw Ht Hb. unfold VIRTQUEUE_NET_MAX_SIZE in Hb.
  pose proof (load_range _ _ _ _ Hi) as Hir. change (2 ^ (8 * Z.of_nat 2)) with (2 ^ 16) in Hir.
  revert t vq batch Hr Hi Hl Hn Hw Ht Hb. induction n as [|n IH]; intros t vq batch Hr Hi Hl Hn Hw Ht Hb;
    cbn [net_tx_inner]; unfold virtqueue_is_empty, vq_is_empty; replace (avail_ring vq =? 0) with false by lia;
    rewrite Hi; cbn [mbind result_bind].
  - apply u16_diff_zero in Hn as ->; [|done|done]. rewrite Z.eqb_refl, set_last_same. exists t, []. rewrite app_nil_r. split; [done|]. split; [done|]. intros k e He. by rewrite lookup_nil in He.
  - replace (i =? last_avail_idx vq) with false by (symmetry; apply Z.eqb_neq; intros ->; rewrite Z.sub_diag in Hn; discriminate Hn).
    destruct (Hw 0%nat ltac:(lia)) as (idx & vq1 & o & Hhd & Hp & Hne). cbv zeta in Hhd, Hp.
    rewrite Z.add_0_r, u16_small, set_last_same in Hhd, Hp by done.
    destruct (net_tx_one_step m zt z tap_fd hl t vq batch idx vq1 o) as (t1 & len & -> & Hlen & Ht1); try done; [lia| |].
    { intros E. rewrite E in Ht. simpl in Ht. lia. }
    cbn [mbind result_bind].
    destruct (IH t1 (set_last_avail_idx (u16 (last_avail_idx vq + 1)) vq) (batch ++ [(idx, len)])) as (t' & new & E & El & Hc).
    + done.
    + exact Hi.
    + apply u16_range.
    + by apply u16_diff_pred.
    + by apply tx_walkable_next.
    + lia.
    + rewrite length_app. cbn [length]. lia.
    + exists t', ((idx, len) :: new). split; [|split; [simpl; by rewrite El|] ].
      * etransitivity; [exact E|]. by rewrite <- app_assoc.
      * intros [|k] e He; cbn in He.
        -- injection He as <-. rewrite Z.add_0_r, u16_small, set_last_same by done. split; [exact Hhd|].
           destruct Hlen as [->|(r & -> & ->)]; [by left|right; by exists vq1, r].
        -- specialize (Hc k e He). cbn [last_avail_idx set_last_avail_idx] in Hc. rewrite u16_succ in Hc.
           replace (last_avail_idx vq + 1 + Z.of_nat k) with (last_avail_idx vq + Z.of_nat (S k)) in Hc by lia. exact Hc.
Qed.

(** A transmitted packet reaches the tap device unchanged.  For a request
    whose first buffer holds at least the negotiated header, when the kernel
    accepts the write, exactly one frame is sent: the guest's bytes in order,
    padded with zeros to the header plus 64 bytes; every buffer starts in the
    guest's own zone, and the completion reports the guest's byte count. *)
Theorem net_tx_frame m zt z tap_fd hl t vq batch idx vq1 r first data n e rest :
  tap_fd <> -1 -> next_avail_head m vq = Ok idx ->
  process_descriptor_chain_buf m zt z vq idx net_tx_config = Ok (vq1, Some r) ->
  head (out_iov r) = Some first -> 0 <= hl <= iov_len first -> Z.of_nat (length batch) < VIRTQUEUE_NET_MAX_SIZE ->
  tx_answers t = (n, e) :: rest -> 0 <= n -> gather m (out_iov r) (Z.to_nat (iov_total (out_iov r))) = Ok data ->
  exists t1 frame zeros,
    net_tx_one m zt z tap_fd hl t vq batch = Ok (vq1, t1, batch ++ [(idx, u32 (iov_total (out_iov r)))]) /\
    sent t1 = sent t ++ [frame] /\ frame = data ++ replicate zeros 0 /\
    Z.of_nat (length frame) = Z.max (iov_total (out_iov r)) (hl + 64) /\
    Forall (zone_buffer zt z) (out_iov r).
Proof.
  intros Hfd Hhd Hp Hf Hhl Hb Ht Hn Hg.
  pose proof (process_descriptor_chain_buf_inv _ _ _ _ _ net_tx_config _ _ ltac:(done) ltac:(done) Hp) as [[[Ho Hi] Hz] _].
  apply Forall_app in Hz as [Hz _]. pose proof (zone_bufs_ok _ _ _ Hz) as Hok.
  pose proof (gather_length _ _ _ _ Hok Hg) as Hlen. pose proof (iov_total_nonneg _ Hok) as H0.
  rewrite Z2Nat.id, Z.min_id in Hlen by done.
  destruct (out_iov r) as [|v out] eqn:Eo; [done|]. injection Hf as ->. apply Forall_cons in Hok as [_ Hok'].
  pose proof (iov_total_nonneg _ Hok') as H1.
  assert (iov_len first <= iov_total (first :: out) < 2 ^ 64) as Hall.
  { split; [simpl; lia|]. clear -Hz Ho Eo. unfold out_count in Ho. rewrite Eo in Ho.
    assert (forall l, Forall (zone_buffer zt z) l -> iov_total l <= Z.of_nat (length l) * 2 ^ 32) as Hsum.
    { induction 1 as [|x l (_ & _ & Hx) Hl IH]; simpl in *; lia. }
    specialize (Hsum _ Hz). unfold net_tx_config, NET_IOV_MAX, VIRTQUEUE_NET_MAX_SIZE in Ho. simpl max_out in Ho. lia. }
  unfold net_tx_one. replace (tap_fd =? -1) with false by lia. rewrite Hhd. cbn [mbind result_bind]. rewrite Hp.
  cbn [mbind result_bind walk_ret]. rewrite Eo. cbn [head of_index mbind result_bind].
  replace (out_count r + in_count r <? 1) with false by (unfold out_count, in_count; rewrite Eo; simpl; lia).
  replace (iov_len first <? hl) with false by lia. cbv zeta. rewrite u64_small by lia.
  unfold writev. rewrite Ht. replace (n <? 0) with false by lia. rewrite Hg. cbn [mbind result_bind].
  rewrite length_app, length_replicate. replace (_ <? 0) with false by lia.
  rewrite batch_push_Ok by (unfold VIRTQUEUE_NET_MAX_SIZE in Hb; lia). cbn [mbind result_bind].
  eexists _, _, _. split; [reflexivity|]. split; [reflexivity|]. split; [reflexivity|]. split; [|done].
  rewrite length_app, length_replicate. destruct (_ <? 64) eqn:E64; lia.
Qed.

(** The walk at some point of the loop found a chain without buffers. *)
Definition empty_chain (zt : zone_table) (z : Z) : Prop :=
  exists m vq idx vq1 r, process_descriptor_chain_buf m zt z vq idx net_rx_config = Ok (vq1, Some r) /\ walk_ret (Some r) = 0.

(** Reception neither loses nor invents buffers.  However the loop ends
    (queue empty, no more packets, a malformed chain, a tap error), the
    available index has advanced by exactly the number of completions recorded,
    the chain of an unanswered read being given back; an empty chain, which
    counts twice, is the only exception.  Guest memory changes only inside
    writable buffers that start in the guest's zone. *)
Theorem net_rx_accounting fuel m zt z net vq batch vq' m' net' batch' :
  0 <= last_avail_idx vq < 2 ^ 16 ->
  net_rx_loop fuel m zt z net vq batch = Ok (vq', m', net', batch') ->
  exists new bufs extra, batch' = batch ++ new /\
    vq' = set_last_avail_idx (u16 (last_avail_idx vq + Z.of_nat (length new) + extra)) vq /\
    (extra = 0 \/ extra = 1 /\ empty_chain zt z) /\
    Forall (zone_buffer zt z) bufs /\ same_but bufs m m'.
Proof.
  revert m net vq batch. induction fuel as [|fuel IH]; intros m net vq batch Hl H; [done|]. cbn [net_rx_loop] in H.
  apply bind_Ok_inv in H as (e & _ & H). destruct e.
  { injection H as <- <- <- <-. exists [], [], 0. rewrite app_nil_r, !Z.add_0_r, u16_small, set_last_same by done.
    split; [done|]. split; [done|]. split; [by left|]. split; [constructor|done]. }
  apply bind_Ok_inv in H as (idx & _ & H). apply bind_Ok_inv in H as ([vq1 o] & Hp & H). cbv zeta in H.
  pose proof (process_descriptor_chain_buf_inv _ _ _ _ _ net_rx_config _ _ ltac:(done) ltac:(done) Hp) as Hinv.
  destruct ((walk_ret o <? 1) || (VIRTQUEUE_NET_MAX_SIZE <? walk_ret o)) eqn:En.
  { apply bind_Ok_inv in H as (b & Hb & H). apply batch_push_inv in Hb as ->. injection H as <- <- <- <-.
    assert (walk_ret o < 1) as Hlt.
    { destruct o as [r|]; [|simpl; lia]. destruct Hinv as [[[Ho Hi] _] _]. cbn [walk_ret] in *.
      unfold net_rx_config, NET_IOV_MAX, VIRTQUEUE_NET_MAX_SIZE in *. simpl in Ho, Hi. lia. }
    replace (walk_ret o <? 1) with true by lia. destruct o as [r|]; [destruct Hinv as [Hg ->]|subst vq1].
    - exists [(idx, 0)], [], 1. split; [done|]. split.
      { unfold set_last_avail_idx. simpl. f_equal. rewrite u16_succ. by rewrite <- !Z.add_assoc. }
      split; [right; split; [done|]|split; [constructor|done] ].
      exists m, vq, idx, (set_last_avail_idx (u16 (last_avail_idx vq + 1)) vq), r. split; [done|].
      cbn [walk_ret] in *. unfold out_count, in_count in *. lia.
    - exists [(idx, 0)], [], 0. split; [done|]. split; [unfold set_last_avail_idx; simpl; do 2 f_equal; lia|].
      split; [by left|]. split; [constructor|done]. }
  destruct o as [r|]; [|simpl in En; lia]. destruct Hinv as [[_ Hz] ->]. apply Forall_app in Hz as [_ Hz].
  pose proof (zone_bufs_ok _ _ _ Hz) as Hok. cbn [writable_bufs] in H.
  apply bind_Ok_inv in H as ([[[len errno] m1] t1] & Hrd & H). apply readv_same_but in Hrd as [Hsb _]; [|done].
  assert (Hone : forall b len', batch_push batch idx len' = Ok b -> forall net1,
    Ok (set_last_avail_idx (u16 (last_avail_idx vq + 1)) vq, m1, net1, b) = Ok (vq', m', net', batch') ->
    exists new bufs extra, batch' = batch ++ new /\
      vq' = set_last_avail_idx (u16 (last_avail_idx vq + Z.of_nat (length new) + extra)) vq /\
      (extra = 0 \/ extra = 1 /\ empty_chain zt z) /\ Forall (zone_buffer zt z) bufs /\ same_but bufs m m').
  { intros b len' Hb net1 E. apply batch_push_inv in Hb as ->. injection E as <- <- <- <-.
    exists [(idx, len')], (in_iov r), 0. split; [done|]. split; [by rewrite Z.add_0_r|]. split; [by left|done]. }
  destruct ((len <? 0) && (errno =? EWOULDBLOCK)).
  { injection H as <- <- <- <-. exists [], (in_iov r), 0. rewrite app_nil_r. split; [done|]. split; [|split; [by left|done] ].
    unfold set_last_avail_idx. simpl. f_equal. rewrite !Z.add_0_r. unfold u16. rewrite Zminus_mod_idemp_l. f_equal. lia. }
  destruct (len <? 0); [apply bind_Ok_inv in H as (b & Hb & H); by eapply Hone|].
  destruct (len =? 0); [apply bind_Ok_inv in H as (b & Hb & H); by eapply Hone|].
  apply bind_Ok_inv in H as (b & Hb & H). apply batch_push_inv in Hb as ->.
  apply IH in H as (new & bufs & extra & -> & -> & Hx & Hzb & Hs2); [|apply u16_range].
  exists ((idx, u32 len) :: new), (in_iov r ++ bufs), extra. split; [by rewrite <- app_assoc|]. split.
  { unfold set_last_avail_idx. simpl. f_equal. rewrite <- Z.add_assoc, u16_succ. f_equal. lia. }
  split; [done|]. split; [by apply Forall_app|].
  etransitivity; (eapply same_but_weaken; [|eassumption]); intros x Hx'; apply elem_of_app; auto.
Qed.

Lemma net_tx_one_full m zt z tap_fd hl t vq batch idx vq1 o :
  tap_fd <> -1 -> next_avail_head m vq = Ok idx -> process_descriptor_chain_buf m zt z vq idx net_tx_config = Ok (vq1, o) ->
  walk_ret o <> 0 -> 256 <= Z.of_nat (length batch) -> tx_answers t <> [] ->
  net_tx_one m zt z tap_fd hl t vq batch = Err OutOfBounds.
Proof.
  intros Hfd Hhd Hp Hw Hb Ht. pose proof (process_descriptor_chain_buf_inv _ _ _ _ _ net_tx_config _ _ ltac:(done) ltac:(done) Hp) as Hinv.
  assert (Hpush : forall k len, batch_push batch k len = Err OutOfBounds).
  { intros k len. unfold batch_push, VIRTQUEUE_NET_MAX_SIZE. by replace (256 <=? _) with true by lia. }
  unfold net_tx_one. replace (tap_fd =? -1) with false by lia. rewrite Hhd. cbn [mbind result_bind]. rewrite Hp.
  cbn [mbind result_bind]. destruct o as [r|]; [|by rewrite Hpush].
  destruct Hinv as [[[Ho Hi] _] ->]. cbn [walk_ret] in *. unfold out_count, in_count in *. simpl in Hi.
  replace (_ <? 1) with false by lia.
  destruct (out_iov r) as [|first out] eqn:Eo; [simpl in *; lia|]. cbn [head of_index mbind result_bind].
  destruct (iov_len first <? hl); [by rewrite Hpush|]. cbv zeta. destruct (tx_answers t) as [|[k e] rest] eqn:Et; [done|].
  match goal with |- context [writev true t m ?v ?p] => destruct (writev_Ok true t m v p k e rest Et) as (len & er & t1 & -> & H1) end.
  cbn [mbind result_bind]. by rewrite Hpush.
Qed.

(** The batch arrays of the transmit handler are not bounded by the queue.  The
    number of outstanding requests is whatever the guest's 16-bit available
    index says; with more than 256 of them the loop writes past the arrays. *)
Theorem net_tx_batch_overflow m zt z tap_fd hl t vq batch i n :
  tap_fd <> -1 -> avail_ring vq <> 0 -> avail_idx m vq = Ok i -> 0 <= last_avail_idx vq < 2 ^ 16 ->
  u16 (i - last_avail_idx vq) = Z.of_nat n -> tx_walkable m zt z vq n ->
  (n <= length (tx_answers t))%nat -> VIRTQUEUE_NET_MAX_SIZE < Z.of_nat (length batch) + Z.of_nat n ->
  Z.of_nat (length batch) <= VIRTQUEUE_NET_MAX_SIZE ->
  net_tx_inner (S n) m zt z tap_fd hl t vq batch = Err OutOfBounds.
Proof.
  intros Hfd Hr Hi Hl Hn Hw Ht Hb Hb'. unfold VIRTQUEUE_NET_MAX_SIZE in Hb, Hb'.
  revert t vq batch Hr Hi Hl Hn Hw Ht Hb Hb'. induction n as [|n IH]; intros t vq batch Hr Hi Hl Hn Hw Ht Hb Hb'; [lia|].
  change (net_tx_inner (S (S n)) m zt z tap_fd hl t vq batch) with
    (e ← virtqueue_is_empty m vq;
     if (e : bool) then Ok (vq, t, batch)
     else '(vq1, t1, b) ← net_tx_one m zt z tap_fd hl t vq batch; net_tx_inner (S n) m zt z tap_fd hl t1 vq1 b).
  unfold virtqueue_is_empty, vq_is_empty. replace (avail_ring vq =? 0) with false by lia. rewrite Hi. cbn [mbind result_bind].
  replace (i =? last_avail_idx vq) with false by (symmetry; apply Z.eqb_neq; intros ->; rewrite Z.sub_diag in Hn; discriminate Hn).
  destruct (Hw 0%nat ltac:(lia)) as (idx & vq1 & o & Hhd & Hp & Hne). cbv zeta in Hhd, Hp.
  rewrite Z.add_0_r, u16_small, set_last_same in Hhd, Hp by done.
  assert (tx_answers t <> []) as Hta by (intros E; rewrite E in Ht; simpl in Ht; lia).
  destruct (decide (Z.of_nat (length batch) = 256)) as [Efull|Efull].
  { rewrite (net_tx_one_full m zt z tap_fd hl t vq batch idx vq1 o) by (done || lia). reflexivity. }
  destruct (net_tx_one_step m zt z tap_fd hl t vq batch idx vq1 o) as (t1 & len & -> & _ & Ht1); try done; [lia|].
  cbn [mbind result_bind]. apply IH.
  - done.
  - exact Hi.
  - apply u16_range.
  - by apply u16_diff_pred.
  - by apply tx_walkable_next.
  - lia.
  - rewrite length_app. cbn [length]. lia.
  - rewrite length_app. cbn [length]. lia.
Qed.

(** ** Example state and witnesses *)

Definition tap0 : fd_env :=
  {| rx_answers := [(3, 0, [1; 2; 3]); (-1, EWOULDBLOCK, [])]; tx_answers := replicate 300 (0, 0); sent := [] |}.

Definition net0 : NetDev :=
  {| mac := [2; 0; 0; 0; 0; 1]; link_status := VIRTIO_NET_S_LINK_UP; tapfd := 5; rx_ready := 1; tap_env := tap0;
     hdr_sizes := [] |}.

(** One descriptor of 20 bytes to send, available [n] times. *)
Definition mem_tx (n : Z) : hmem := mem_with [(0x7000, 0x1000)] (desc_vals 0 0x4800 20 0 0 ++ [(0x7102, 2%nat, n)]).

(** One descriptor of 64 bytes to fill, available twice. *)
Definition mem_rx : hmem := mem_with [(0x7000, 0x1000)] (desc_vals 0 0x4900 64 2 0 ++ [(0x7102, 2%nat, 2)]).

(** Every available entry of [mem_tx] names the one descriptor. *)
Definition tx_walks (m : hmem) (k : nat) : bool :=
  let vqk := set_last_avail_idx (u16 (last_avail_idx vq4 + Z.of_nat k)) vq4 in
  match next_avail_head m vqk with
  | Ok idx => match process_descriptor_chain_buf m table_ab 1 vqk idx net_tx_config with
              | Ok (_, o) => negb (walk_ret o =? 0)
              | Err _ => false
              end
  | Err _ => false
  end.

Lemma tx_walks_walkable m n : forallb (tx_walks m) (seq 0 n) = true -> tx_walkable m table_ab 1 vq4 n.
Proof.
  intros H k Hk. rewrite forallb_forall in H. specialize (H k). rewrite in_seq in H. specialize (H ltac:(lia)).
  unfold tx_walks in H. cbv zeta in *. set (vqk := set_last_avail_idx _ vq4) in *. clearbody vqk.
  destruct (next_avail_head m vqk) as [idx|]; [|done].
  destruct (process_descriptor_chain_buf m table_ab 1 vqk idx net_tx_config) as [[vq1 o]|] eqn:E; [|done].
  exists idx, vq1, o. split; [done|]. split; [exact E|]. by apply negb_true_iff, Z.eqb_neq in H.
Qed.

Lemma net_tx_drains_witness :
  exists t' new, net_tx_inner 4 (mem_tx 3) table_ab 1 5 12 tap0 vq4 [] = Ok (set_last_avail_idx 3 vq4, t', new) /\ length new = 3%nat /\
    forall k e, new !! k = Some e -> tx_completed (mem_tx 3) table_ab 1 (set_last_avail_idx (u16 (Z.of_nat k)) vq4) e.
Proof.
  destruct (net_tx_drains (mem_tx 3) table_ab 1 5 12 tap0 vq4 [] 3 3) as (t' & new & H1 & H2 & H3);
    [lia|discriminate|vm_compute; reflexivity|simpl; lia|reflexivity|
     apply tx_walks_walkable; vm_compute; reflexivity|simpl; lia|vm_compute; discriminate|].
  exists t', new. split; [exact H1|]. split; [exact H2|exact H3].
Defined.

Lemma net_tx_frame_witness :
  exists t1 frame, net_tx_one (mem_tx 1) table_ab 1 5 12 tap0 vq4 [] = Ok (set_last_avail_idx 1 vq4, t1, [(0, 20)]) /\
    sent t1 = [frame] /\ Z.of_nat (length frame) = 76.
Proof.
  destruct (net_tx_frame (mem_tx 1) table_ab 1 5 12 tap0 vq4 [] 0 (set_last_avail_idx 1 vq4)
    {| out_iov := [{| iov_base := 0x7800; iov_len := 20 |}]; in_iov := [] |} {| iov_base := 0x7800; iov_len := 20 |}
    (replicate 20 0) 0 0 (replicate 299 (0, 0))) as (t1 & frame & zeros & H1 & H2 & _ & H3 & _);
    [lia|vm_compute; reflexivity|vm_compute; reflexivity|reflexivity|simpl; lia|reflexivity|reflexivity|lia|
     vm_compute; reflexivity|].
  exists t1, frame. split; [exact H1|]. split; [exact H2|exact H3].
Defined.

Lemma net_rx_accounting_witness :
  exists m' net' new, net_rx_loop 3 mem_rx table_ab 1 net0 vq4 [] = Ok (set_last_avail_idx 1 vq4, m', net', new) /\
    length new = 1%nat.
Proof.
  assert (match net_rx_loop 3 mem_rx table_ab 1 net0 vq4 [] with
          | Ok (vq', _, _, new) => (last_avail_idx vq' =? 1) && (length new =? 1)%nat | Err _ => false end = true) as Hc
    by (vm_compute; reflexivity).
  destruct (net_rx_loop 3 mem_rx table_ab 1 net0 vq4 []) as [[[[vq' m'] net'] new]|] eqn:E; [|discriminate Hc].
  apply andb_true_iff in Hc as [Hc1 Hc2]. apply Z.eqb_eq in Hc1. apply Nat.eqb_eq in Hc2.
  destruct (net_rx_accounting 3 mem_rx table_ab 1 net0 vq4 [] vq' m' net' new) as (new' & bufs & x & Hb & Hv & _);
    [simpl; lia|exact E|].
  exists m', net', new. split; [|exact Hc2]. rewrite Hv in Hc1. simpl in Hc1. rewrite Hv. simpl. rewrite Hc1. reflexivity.
Defined.

Lemma net_tx_batch_overflow_witness :
  net_tx_inner 301 (mem_tx 300) table_ab 1 5 12 tap0 vq4 [] = Err OutOfBounds.
Proof.
  apply (net_tx_batch_overflow (mem_tx 300) table_ab 1 5 12 tap0 vq4 [] 300 300);
    [lia|discriminate|vm_compute; reflexivity|simpl; lia|reflexivity|
     apply tx_walks_walkable; vm_compute; reflexivity|
     cbn [tx_answers tap0]; rewrite length_replicate; lia|reflexivity|vm_compute; discriminate].
Defined.
