(* ===== verification/Console.v ===== *)
(** * The virtio console device

    [tools/virtio/devices/console/virtio_console.c]: device state, the terminal
    event handler, the two queue handlers and reset.  The pseudo-terminal is a
    file-descriptor environment ([HostFd]); setting it up is system calls only and
    not modelled.  [malloc] and the fuel of the allocating walk
    ([DescChain]) are arguments. *)

From S2P Require Import Prelude Memory ZoneMem Virtqueue DescChain Device Ring Interrupt IoVec HostFd.

Definition CONSOLE_QUEUE_RX : nat := 0.
Definition CONSOLE_QUEUE_TX : nat := 1.
Definition CONSOLE_MAX_QUEUES : Z := 2.
Definition VIRTQUEUE_CONSOLE_MAX_SIZE : Z := 64.

Record ConsoleDev := {
  cols : Z;
  rows : Z;
  master_fd : Z;
  slave_keepalive_fd : Z;
  rx_ready : Z;
  pty : fd_env;
}.

Definition set_rx_ready (v : Z) (d : ConsoleDev) : ConsoleDev :=
  {| cols := cols d; rows := rows d; master_fd := master_fd d; slave_keepalive_fd := slave_keepalive_fd d;
     rx_ready := v; pty := pty d |}.
Definition set_pty (t : fd_env) (d : ConsoleDev) : ConsoleDev :=
  {| cols := cols d; rows := rows d; master_fd := master_fd d; slave_keepalive_fd := slave_keepalive_fd d;
     rx_ready := rx_ready d; pty := t |}.

Definition init_console_dev (alloc : bool) (t : fd_env) : option ConsoleDev :=
  if negb alloc then None
  else Some {| cols := 80; rows := 25; master_fd := -1; slave_keepalive_fd := -1; rx_ready := -1; pty := t |}.

(** The device reset hook does nothing. *)
Definition virtio_console_reset (d : VirtIODevice ConsoleDev) : VirtIODevice ConsoleDev := d.

Definition virtio_console_rxq_notify_handler (m : hmem) (c : ConsoleDev) (vq : VirtQueue) : result (ConsoleDev * hmem) :=
  if rx_ready c <=? 0 then m1 ← virtqueue_disable_notify m vq; Ok (set_rx_ready 1 c, m1) else Ok (c, m).

Section walks.
Context (malloc : Z -> bool) (cfuel : nat).

(** ** Receive *)

Fixpoint console_rx_loop (fuel : nat) (m : hmem) (zt : zone_table) (zone_id : Z) (t : fd_env) (vq : VirtQueue) :
    result (VirtQueue * hmem * fd_env) :=
  match fuel with
  | O => Err OutOfFuel
  | S fuel' =>
      e ← virtqueue_is_empty m vq;
      if (e : bool) then Ok (vq, m, t)
      else
        o ← process_descriptor_chain malloc cfuel m zt zone_id vq 0;
        match o with
        | None => Ok (vq, m, t)
        | Some cr =>
            if cr_len cr <? 1 then Ok (cr_vq cr, m, t)
            else
              iov ← filled (cr_iov cr) (Z.to_nat (cr_len cr));
              '(len, errno, m1, t1) ← readv t m iov;
              if len <? 0 then Ok (set_last_avail_idx (u16 (last_avail_idx (cr_vq cr) - 1)) (cr_vq cr), m1, t1)
              else
                m2 ← update_used_ring m1 (cr_vq cr) (cr_desc_idx cr) (u32 len);
                console_rx_loop fuel' m2 zt zone_id t1 (cr_vq cr)
        end
  end.

Section handlers.
Context {vring : VringEvent}.

Definition virtio_console_event_handler (fuel : nat) (fd : Z) (epollin : bool) (d : VirtIODevice ConsoleDev) (w : world) :
    result (VirtIODevice ConsoleDev * world) :=
  let c := dev d in
  vq ← of_index (vqs d !! CONSOLE_QUEUE_RX);
  if negb (fd =? master_fd c) || negb epollin then Ok (d, w)
  else if (master_fd c <=? 0) || negb (bool_decide (type d = VirtioTConsole)) then Ok (d, w)
  else if rx_ready c <=? 0 then t1 ← read_trash (pty c); Ok (set_dev (set_pty t1 c) d, w)
  else
    e ← virtqueue_is_empty (w_mem w) vq;
    if (e : bool) then
      t1 ← read_trash (pty c); virtio_inject_irq (set_dev (set_pty t1 c) d) CONSOLE_QUEUE_RX w
    else
      '(vq1, m1, t1) ← console_rx_loop fuel (w_mem w) (w_zones w) (zone_id d) (pty c) vq;
      virtio_inject_irq (put_vq CONSOLE_QUEUE_RX vq1 (set_dev (set_pty t1 c) d)) CONSOLE_QUEUE_RX (set_w_mem m1 w).

(** ** Transmit *)

Definition console_tx_one (m : hmem) (zt : zone_table) (zone_id fd : Z) (t : fd_env) (vq : VirtQueue) :
    result (VirtQueue * hmem * fd_env) :=
  if fd <=? 0 then Ok (vq, m, t)
  else
    o ← process_descriptor_chain malloc cfuel m zt zone_id vq 0;
    match o with
    | None => Ok (vq, m, t)
    | Some cr =>
        if cr_len cr <? 1 then Ok (cr_vq cr, m, t)
        else
          iov ← filled (cr_iov cr) (Z.to_nat (cr_len cr));
          '(len, errno, t1) ← writev false t m iov 0;
          m1 ← update_used_ring m (cr_vq cr) (cr_desc_idx cr) 0;
          Ok (cr_vq cr, m1, t1)
    end.

Fixpoint console_tx_inner (fuel : nat) (m : hmem) (zt : zone_table) (zone_id fd : Z) (t : fd_env) (vq : VirtQueue) :
    result (VirtQueue * hmem * fd_env) :=
  match fuel with
  | O => Err OutOfFuel
  | S fuel' =>
      e ← virtqueue_is_empty m vq;
      if (e : bool) then Ok (vq, m, t)
      else
        '(vq1, m1, t1) ← console_tx_one m zt zone_id fd t vq;
        console_tx_inner fuel' m1 zt zone_id fd t1 vq1
  end.

Fixpoint console_tx_drain (fuel : nat) (m : hmem) (zt : zone_table) (zone_id fd : Z) (t : fd_env) (vq : VirtQueue) :
    result (VirtQueue * hmem * fd_env) :=
  match fuel with
  | O => Err OutOfFuel
  | S fuel' =>
      e ← virtqueue_is_empty m vq;
      if (e : bool) then Ok (vq, m, t)
      else
        m1 ← virtqueue_disable_notify m vq;
        '(vq1, m2, t1) ← console_tx_inner fuel m1 zt zone_id fd t vq;
        m3 ← virtqueue_enable_notify m2 vq1;
        console_tx_drain fuel' m3 zt zone_id fd t1 vq1
  end.

Definition virtio_console_txq_notify_handler (fuel : nat) (d : VirtIODevice ConsoleDev) (q : nat) (w : world) :
    result (VirtIODevice ConsoleDev * world) :=
  vq ← of_index (vqs d !! q);
  '(vq1, m1, t1) ← console_tx_drain fuel (w_mem w) (w_zones w) (zone_id d) (master_fd (dev d)) (pty (dev d)) vq;
  virtio_inject_irq (put_vq q vq1 (set_dev (set_pty t1 (dev d)) d)) q (set_w_mem m1 w).

End handlers.
End walks.

(** ** Theorems *)

(** Guest memory across a reception: input is put in translated buffers, and each
    completion of the list is one used-ring element. *)
Inductive rx_trace (zt : zone_table) (z : Z) (vq : VirtQueue) : hmem -> list (Z * Z) -> hmem -> Prop :=
  | rx_nil m : rx_trace zt z vq m [] m
  | rx_cons m bufs m1 id len m2 l m3 :
      Forall (translated zt z) bufs -> same_but bufs m m1 -> update_used_ring m1 vq id len = Ok m2 ->
      rx_trace zt z vq m2 l m3 -> rx_trace zt z vq m ((id, len) :: l) m3.

(** Console input is delivered in order and no buffer is lost.  However the
    loop ends, guest memory has gone through one delivery and one used element
    per completion, and the available index has advanced by exactly the number
    of completions: the chain of a failed read is given back untouched.  Only a
    chain the walk measures as empty is dropped. *)
Theorem console_rx_accounting malloc cfuel fuel m zt z t vq vq' m' t' :
  0 <= last_avail_idx vq < 2 ^ 16 ->
  console_rx_loop malloc cfuel fuel m zt z t vq = Ok (vq', m', t') ->
  exists l extra, rx_trace zt z vq m l m' /\
    vq' = set_last_avail_idx (u16 (last_avail_idx vq + Z.of_nat (length l) + extra)) vq /\
    (extra = 0 \/ extra = 1 /\ exists m1 vq1 cr,
       process_descriptor_chain malloc cfuel m1 zt z vq1 0 = Ok (Some cr) /\ cr_len cr < 1).
Proof.
  revert m t vq. induction fuel as [|fuel IH]; intros m t vq Hl H; [done|]. cbn [console_rx_loop] in H.
  assert (Hstop : exists l extra, rx_trace zt z vq m l m /\
    vq = set_last_avail_idx (u16 (last_avail_idx vq + Z.of_nat (length l) + extra)) vq /\ extra = 0).
  { exists [], 0. split; [constructor|]. split; [|done]. simpl. rewrite !Z.add_0_r, u16_small by done. by destruct vq. }
  destruct Hstop as (l0 & x0 & Htr0 & Hvq0 & ->).
  apply bind_Ok_inv in H as (e & _ & H). destruct e; [injection H as <- <- <-; exists l0, 0; auto|].
  apply bind_Ok_inv in H as (o & Hp & H). destruct o as [cr|]; [|injection H as <- <- <-; exists l0, 0; auto].
  pose proof (process_descriptor_chain_inv _ _ _ _ _ _ _ _ Hp) as [Hvq He].
  destruct (cr_len cr <? 1) eqn:En.
  { injection H as <- <- <-. exists [], 1. split; [constructor|]. split; [rewrite Hvq; simpl; do 2 f_equal; lia|].
    right. split; [done|]. exists m, vq, cr. split; [done|lia]. }
  apply bind_Ok_inv in H as (iov & Hf & H). apply (filled_ok zt z) in Hf; [|done].
  apply bind_Ok_inv in H as ([[[len errno] m1] t1] & Hrd & H).
  apply readv_same_but in Hrd as [Hsb Hfail]; [|by eapply translated_bufs_ok].
  destruct (len <? 0) eqn:E0.
  { injection H as <- <- <-. rewrite (Hfail ltac:(lia)). exists [], 0. split; [constructor|]. split; [|by left].
    rewrite Hvq. unfold set_last_avail_idx. simpl. f_equal. rewrite !Z.add_0_r.
    unfold u16. rewrite Zminus_mod_idemp_l. f_equal. lia. }
  apply bind_Ok_inv in H as (m2 & Hu & H). rewrite Hvq in Hu, H. apply IH in H as (l & extra & Htr & -> & Hx); [|apply u16_range].
  exists ((cr_desc_idx cr, u32 len) :: l), extra. split.
  - econstructor; [exact Hf|exact Hsb|exact Hu|]. clear -Htr. induction Htr; econstructor; eauto.
  - split; [|exact Hx]. unfold set_last_avail_idx. simpl. f_equal. unfold u16.
    rewrite <- Z.add_assoc, Zplus_mod_idemp_l. f_equal. lia.
Qed.

(** Console input that arrives after a device reset brings the daemon down.
    The reset hook leaves [rx_ready] set while [virtqueue_reset] clears the ring
    addresses: the queue then counts as empty, and the interrupt injected for
    it reads the used index through a NULL pointer. *)
Theorem console_event_after_reset {vring : VringEvent} malloc cfuel fuel d w vq0 idx :
  vqs d !! CONSOLE_QUEUE_RX = Some (virtqueue_reset vq0 idx) -> type d = VirtioTConsole ->
  0 < master_fd (dev d) -> 0 < rx_ready (dev (virtio_console_reset d)) -> rx_answers (pty (dev d)) <> [] ->
  mapped (w_mem w) 2 = false ->
  virtio_console_event_handler malloc cfuel fuel (master_fd (dev d)) true d w = Err Unmapped.
Proof.
  intros Hq Ht Hfd Hrx Hans Hm. unfold virtio_console_reset in Hrx. unfold virtio_console_event_handler. rewrite Hq.
  cbn [of_index mbind result_bind]. rewrite Z.eqb_refl. cbn [negb orb].
  replace (master_fd (dev d) <=? 0) with false by lia. rewrite bool_decide_true by done. cbn [negb orb].
  replace (rx_ready (dev d) <=? 0) with false by lia.
  unfold virtqueue_is_empty, vq_is_empty. cbn [virtqueue_reset avail_ring Z.eqb mbind result_bind].
  unfold read_trash. destruct (rx_answers (pty (dev d))) as [|a rest]; [done|]. cbn [mbind result_bind].
  unfold virtio_inject_irq. cbn [set_dev vqs]. rewrite Hq. cbn [of_index mbind result_bind].
  assert (used_idx (w_mem w) (virtqueue_reset vq0 idx) = Err Unmapped) as ->; [|done].
  unfold used_idx, load, access. change (used_ring (virtqueue_reset vq0 idx) + 2) with 2. simpl (2 =? 0).
  assert (mapped_span (w_mem w) 2 2 = false) as ->; [|done]. unfold mapped_span. by rewrite Hm.
Qed.

(** ** Example state and witnesses *)

#[local] Existing Instance vring_event_std.

Definition pty0 : fd_env :=
  {| rx_answers := [(2, 0, [104; 105]); (-1, EWOULDBLOCK, [])]; tx_answers := []; sent := [] |}.

(** One descriptor of 64 bytes to fill, available twice. *)
Definition mem_input : hmem := mem_with [(0x7000, 0x1000)] (desc_vals 0 0x4900 64 2 0 ++ [(0x7102, 2%nat, 2)]).

Lemma console_rx_accounting_witness :
  exists m' t' l, console_rx_loop (fun _ => true) 5 3 mem_input table_ab 1 pty0 vq4 = Ok (set_last_avail_idx 1 vq4, m', t') /\
    rx_trace table_ab 1 vq4 mem_input l m'.
Proof.
  assert (match console_rx_loop (fun _ => true) 5 3 mem_input table_ab 1 pty0 vq4 with
          | Ok (vq', _, _) => last_avail_idx vq' =? 1 | Err _ => false end = true) as Hc by (vm_compute; reflexivity).
  destruct (console_rx_loop (fun _ => true) 5 3 mem_input table_ab 1 pty0 vq4) as [[[vq' m'] t']|] eqn:E; [|discriminate Hc].
  apply Z.eqb_eq in Hc.
  destruct (console_rx_accounting (fun _ => true) 5 3 mem_input table_ab 1 pty0 vq4 vq' m' t') as (l & x & Htr & Hv & _);
    [simpl; lia|exact E|].
  exists m', t', l. split; [|exact Htr]. rewrite Hv in Hc. simpl in Hc. rewrite Hv. simpl. rewrite Hc. reflexivity.
Defined.

Definition console0 : VirtIODevice ConsoleDev :=
  {| vqs_len := 2; zone_id := 1; irq_id := 76; base_addr := 0xa000200; len := 0x200; type := VirtioTConsole;
     regs := regs0; vqs := [virtqueue_reset vq4 0; virtqueue_reset vq4 1];
     dev := {| cols := 80; rows := 25; master_fd := 7; slave_keepalive_fd := 8; rx_ready := 1; pty := pty0 |};
     status_changed := false; activated := false; interrupt_line_asserted := false |}.

Lemma console_event_after_reset_witness :
  virtio_console_event_handler (fun _ => true) 5 3 7 true console0 world0 = Err Unmapped.
Proof.
  apply (console_event_after_reset (fun _ => true) 5 3 console0 world0 vq4 0);
    [reflexivity|reflexivity|reflexivity|reflexivity|discriminate|reflexivity].
Defined.
