(* ===== verification/ZoneConfig.v ===== *)
(** * Zone configurations

    The structs of [include/zone_config.h] that the management tool fills and the
    kernel module hands to the hypervisor: memory regions, interrupts, IVC
    channels, PCI buses and devices and the part that depends on the
    architecture.  Structs are records, with the unions of the GIC and UEFI
    descriptions as inductive types; arrays are lists of the declared length. *)

From S2P Require Import Prelude.

(** ** Constants *)

Definition MEM_TYPE_RAM : Z := 0.
Definition MEM_TYPE_IO : Z := 1.
Definition MEM_TYPE_VIRTIO : Z := 2.

Definition CONFIG_MAX_MEMORY_REGIONS : Z := 64.
Definition CONFIG_MAX_INTERRUPTS : Z := 1024.
Definition CONFIG_INTERRUPTS_BITMAP_BITS_PER_WORD : Z := 32.
Definition CONFIG_MAX_ZONES : Z := 32.
Definition CONFIG_NAME_MAXLEN : Z := 32.
Definition CONFIG_MAX_PCI_DEV : Z := 32.
Definition CONFIG_PCI_BUS_MAXNUM : Z := 4.
Definition CONFIG_MAX_IVC_CONFIGS : Z := 2.
Definition CONFIG_MAGIC_VERSION : Z := 0x06.

(** ** Architecture independent parts *)

Record memory_region := {
  mr_type : Z;             (* __u32 *)
  physical_start : Z;      (* __u64 *)
  virtual_start : Z;
  mr_size : Z;
}.

Record hv_pci_dev_config := {
  dev_domain : Z;          (* __u8 *)
  dev_bus : Z;
  dev_device : Z;
  dev_function : Z;
  v_bus : Z;
  v_device : Z;
  v_function : Z;
  dev_type : Z;            (* __u32 *)
}.

Record pci_config := {
  ecam_base : Z;           (* __u64 *)
  ecam_size : Z;
  io_base : Z;
  io_size : Z;
  pci_io_base : Z;
  mem32_base : Z;
  mem32_size : Z;
  pci_mem32_base : Z;
  mem64_base : Z;
  mem64_size : Z;
  pci_mem64_base : Z;
  bus_range_begin : Z;     (* __u32 *)
  bus_range_end : Z;
  pci_domain : Z;          (* __u8 *)
}.

Record ivc_config := {
  ivc_id : Z;              (* __u32 *)
  peer_id : Z;
  control_table_ipa : Z;   (* __u64 *)
  shared_mem_ipa : Z;
  rw_sec_size : Z;         (* __u32 *)
  out_sec_size : Z;
  interrupt_num : Z;
  max_peers : Z;
}.

(** ** Architectures: the build defines exactly one of the macros *)

Inductive Arch := ARM64 | RISCV64 | LOONGARCH64 | X86_64.

#[global] Instance arch_eq_dec : EqDecision Arch.
Proof. solve_decision. Defined.

Record Gicv2Config := {
  v2_gicd_base : Z;
  v2_gicd_size : Z;
  gicc_base : Z;
  gicc_size : Z;
  gicc_offset : Z;
  gich_base : Z;
  gich_size : Z;
  gicv_base : Z;
  gicv_size : Z;
}.

Record Gicv3Config := {
  v3_gicd_base : Z;
  v3_gicd_size : Z;
  gicr_base : Z;
  gicr_size : Z;
  gits_base : Z;
  gits_size : Z;
}.

(** A union is the member written last, with its tag. *)
Inductive GicConfig :=
  | Gicv2Payload (gic_version_tag : Z) (gicv2_config : Gicv2Config)
  | Gicv3Payload (gic_version_tag : Z) (gicv3_config : Gicv3Config).

Record Uefi := {
  memory_map_addr : Z;
  memory_map_size : Z;
  sys_map_addr : Z;
}.

Inductive UefiConfig :=
  | UefiPayload (uefi_tag : Z) (uefi : Uefi)
  | NoUefi (no_uefi_tag : Z).

Record arm_zone_config := {
  is_aarch32 : Z;          (* __u8 *)
  gic_config : GicConfig;
  uefi_config : UefiConfig;
}.

Record riscv_zone_config := {
  plic_base : Z;
  plic_size : Z;
  aplic_base : Z;
  aplic_size : Z;
}.

Record x86_zone_config := {
  ioapic_base : Z;
  ioapic_size : Z;
  kernel_entry_gpa : Z;
  cmdline_load_gpa : Z;
  setup_load_gpa : Z;
  initrd_load_gpa : Z;
  initrd_size : Z;
  rsdp_memory_region_id : Z;
  acpi_memory_region_id : Z;
  uefi_memory_region_id : Z;
  screen_base : Z;
}.

(** [struct arch_zone_config], one definition per architecture. *)
Definition arch_zone_config (a : Arch) : Type :=
  match a with
  | ARM64 => arm_zone_config
  | RISCV64 => riscv_zone_config
  | LOONGARCH64 => Z       (* __u64 dummy *)
  | X86_64 => x86_zone_config
  end.

Record hv_zone_boot_mode := {
  bm_zone_id : Z;
  multiboot_enabled : Z;
  bm_multiboot_info_paddr : Z;
}.

Record zone_config (a : Arch) := {
  zone_id : Z;             (* __u32 *)
  cpus : Z;                (* __u64 *)
  num_memory_regions : Z;
  memory_regions : list memory_region;
  interrupts_bitmap : list Z;
  num_ivc_configs : Z;
  ivc_configs : list ivc_config;
  entry_point : Z;
  kernel_load_paddr : Z;
  kernel_size : Z;
  dtb_load_paddr : Z;
  dtb_size : Z;
  name : list Z;           (* char[CONFIG_NAME_MAXLEN] *)
  arch_config : arch_zone_config a;
  num_pci_bus : Z;
  pci_configs : list pci_config;
  num_pci_devs : Z;
  alloc_pci_devs : list hv_pci_dev_config;
}.
Arguments zone_id {a} _.
Arguments cpus {a} _.
Arguments num_memory_regions {a} _.
Arguments memory_regions {a} _.
Arguments interrupts_bitmap {a} _.
Arguments num_ivc_configs {a} _.
Arguments ivc_configs {a} _.
Arguments entry_point {a} _.
Arguments kernel_load_paddr {a} _.
Arguments kernel_size {a} _.
Arguments dtb_load_paddr {a} _.
Arguments dtb_size {a} _.
Arguments name {a} _.
Arguments arch_config {a} _.
Arguments num_pci_bus {a} _.
Arguments pci_configs {a} _.
Arguments num_pci_devs {a} _.
Arguments alloc_pci_devs {a} _.

Record zone_info := {
  zi_zone_id : Z;
  zi_cpus : Z;
  zi_name : list Z;
  zi_is_err : Z;
}.

(** ** Assignments to the fields of a configuration *)

Section setters.
Context {a : Arch}.
Implicit Type c : zone_config a.

Definition set_zone_id (v : Z) c : zone_config a :=
  Build_zone_config a v (cpus c) (num_memory_regions c) (memory_regions c) (interrupts_bitmap c) (num_ivc_configs c) (ivc_configs c) (entry_point c) (kernel_load_paddr c) (kernel_size c) (dtb_load_paddr c) (dtb_size c) (name c) (arch_config c) (num_pci_bus c) (pci_configs c) (num_pci_devs c) (alloc_pci_devs c).
Definition set_cpus (v : Z) c : zone_config a :=
  Build_zone_config a (zone_id c) v (num_memory_regions c) (memory_regions c) (interrupts_bitmap c) (num_ivc_configs c) (ivc_configs c) (entry_point c) (kernel_load_paddr c) (kernel_size c) (dtb_load_paddr c) (dtb_size c) (name c) (arch_config c) (num_pci_bus c) (pci_configs c) (num_pci_devs c) (alloc_pci_devs c).
Definition set_num_memory_regions (v : Z) c : zone_config a :=
  Build_zone_config a (zone_id c) (cpus c) v (memory_regions c) (interrupts_bitmap c) (num_ivc_configs c) (ivc_configs c) (entry_point c) (kernel_load_paddr c) (kernel_size c) (dtb_load_paddr c) (dtb_size c) (name c) (arch_config c) (num_pci_bus c) (pci_configs c) (num_pci_devs c) (alloc_pci_devs c).
Definition set_memory_regions (v : list memory_region) c : zone_config a :=
  Build_zone_config a (zone_id c) (cpus c) (num_memory_regions c) v (interrupts_bitmap c) (num_ivc_configs c) (ivc_configs c) (entry_point c) (kernel_load_paddr c) (kernel_size c) (dtb_load_paddr c) (dtb_size c) (name c) (arch_config c) (num_pci_bus c) (pci_configs c) (num_pci_devs c) (alloc_pci_devs c).
Definition set_interrupts_bitmap (v : list Z) c : zone_config a :=
  Build_zone_config a (zone_id c) (cpus c) (num_memory_regions c) (memory_regions c) v (num_ivc_configs c) (ivc_configs c) (entry_point c) (kernel_load_paddr c) (kernel_size c) (dtb_load_paddr c) (dtb_size c) (name c) (arch_config c) (num_pci_bus c) (pci_configs c) (num_pci_devs c) (alloc_pci_devs c).
Definition set_num_ivc_configs (v : Z) c : zone_config a :=
  Build_zone_config a (zone_id c) (cpus c) (num_memory_regions c) (memory_regions c) (interrupts_bitmap c) v (ivc_configs c) (entry_point c) (kernel_load_paddr c) (kernel_size c) (dtb_load_paddr c) (dtb_size c) (name c) (arch_config c) (num_pci_bus c) (pci_configs c) (num_pci_devs c) (alloc_pci_devs c).
Definition set_ivc_configs (v : list ivc_config) c : zone_config a :=
  Build_zone_config a (zone_id c) (cpus c) (num_memory_regions c) (memory_regions c) (interrupts_bitmap c) (num_ivc_configs c) v (entry_point c) (kernel_load_paddr c) (kernel_size c) (dtb_load_paddr c) (dtb_size c) (name c) (arch_config c) (num_pci_bus c) (pci_configs c) (num_pci_devs c) (alloc_pci_devs c).
Definition set_entry_point (v : Z) c : zone_config a :=
  Build_zone_config a (zone_id c) (cpus c) (num_memory_regions c) (memory_regions c) (interrupts_bitmap c) (num_ivc_configs c) (ivc_configs c) v (kernel_load_paddr c) (kernel_size c) (dtb_load_paddr c) (dtb_size c) (name c) (arch_config c) (num_pci_bus c) (pci_configs c) (num_pci_devs c) (alloc_pci_devs c).
Definition set_kernel_load_paddr (v : Z) c : zone_config a :=
  Build_zone_config a (zone_id c) (cpus c) (num_memory_regions c) (memory_regions c) (interrupts_bitmap c) (num_ivc_configs c) (ivc_configs c) (entry_point c) v (kernel_size c) (dtb_load_paddr c) (dtb_size c) (name c) (arch_config c) (num_pci_bus c) (pci_configs c) (num_pci_devs c) (alloc_pci_devs c).
Definition set_kernel_size (v : Z) c : zone_config a :=
  Build_zone_config a (zone_id c) (cpus c) (num_memory_regions c) (memory_regions c) (interrupts_bitmap c) (num_ivc_configs c) (ivc_configs c) (entry_point c) (kernel_load_paddr c) v (dtb_load_paddr c) (dtb_size c) (name c) (arch_config c) (num_pci_bus c) (pci_configs c) (num_pci_devs c) (alloc_pci_devs c).
Definition set_dtb_load_paddr (v : Z) c : zone_config a :=
  Build_zone_config a (zone_id c) (cpus c) (num_memory_regions c) (memory_regions c) (interrupts_bitmap c) (num_ivc_configs c) (ivc_configs c) (entry_point c) (kernel_load_paddr c) (kernel_size c) v (dtb_size c) (name c) (arch_config c) (num_pci_bus c) (pci_configs c) (num_pci_devs c) (alloc_pci_devs c).
Definition set_dtb_size (v : Z) c : zone_config a :=
  Build_zone_config a (zone_id c) (cpus c) (num_memory_regions c) (memory_regions c) (interrupts_bitmap c) (num_ivc_configs c) (ivc_configs c) (entry_point c) (kernel_load_paddr c) (kernel_size c) (dtb_load_paddr c) v (name c) (arch_config c) (num_pci_bus c) (pci_configs c) (num_pci_devs c) (alloc_pci_devs c).
Definition set_name (v : list Z) c : zone_config a :=
  Build_zone_config a (zone_id c) (cpus c) (num_memory_regions c) (memory_regions c) (interrupts_bitmap c) (num_ivc_configs c) (ivc_configs c) (entry_point c) (kernel_load_paddr c) (kernel_size c) (dtb_load_paddr c) (dtb_size c) v (arch_config c) (num_pci_bus c) (pci_configs c) (num_pci_devs c) (alloc_pci_devs c).
Definition set_arch_config (v : arch_zone_config a) c : zone_config a :=
  Build_zone_config a (zone_id c) (cpus c) (num_memory_regions c) (memory_regions c) (interrupts_bitmap c) (num_ivc_configs c) (ivc_configs c) (entry_point c) (kernel_load_paddr c) (kernel_size c) (dtb_load_paddr c) (dtb_size c) (name c) v (num_pci_bus c) (pci_configs c) (num_pci_devs c) (alloc_pci_devs c).
Definition set_num_pci_bus (v : Z) c : zone_config a :=
  Build_zone_config a (zone_id c) (cpus c) (num_memory_regions c) (memory_regions c) (interrupts_bitmap c) (num_ivc_configs c) (ivc_configs c) (entry_point c) (kernel_load_paddr c) (kernel_size c) (dtb_load_paddr c) (dtb_size c) (name c) (arch_config c) v (pci_configs c) (num_pci_devs c) (alloc_pci_devs c).
Definition set_pci_configs (v : list pci_config) c : zone_config a :=
  Build_zone_config a (zone_id c) (cpus c) (num_memory_regions c) (memory_regions c) (interrupts_bitmap c) (num_ivc_configs c) (ivc_configs c) (entry_point c) (kernel_load_paddr c) (kernel_size c) (dtb_load_paddr c) (dtb_size c) (name c) (arch_config c) (num_pci_bus c) v (num_pci_devs c) (alloc_pci_devs c).
Definition set_num_pci_devs (v : Z) c : zone_config a :=
  Build_zone_config a (zone_id c) (cpus c) (num_memory_regions c) (memory_regions c) (interrupts_bitmap c) (num_ivc_configs c) (ivc_configs c) (entry_point c) (kernel_load_paddr c) (kernel_size c) (dtb_load_paddr c) (dtb_size c) (name c) (arch_config c) (num_pci_bus c) (pci_configs c) v (alloc_pci_devs c).
Definition set_alloc_pci_devs (v : list hv_pci_dev_config) c : zone_config a :=
  Build_zone_config a (zone_id c) (cpus c) (num_memory_regions c) (memory_regions c) (interrupts_bitmap c) (num_ivc_configs c) (ivc_configs c) (entry_point c) (kernel_load_paddr c) (kernel_size c) (dtb_load_paddr c) (dtb_size c) (name c) (arch_config c) (num_pci_bus c) (pci_configs c) (num_pci_devs c) v.

End setters.

(** Assignments to the x86 part. *)
Definition set_ioapic_base (v : Z) (c : x86_zone_config) : x86_zone_config :=
  Build_x86_zone_config v (ioapic_size c) (kernel_entry_gpa c) (cmdline_load_gpa c) (setup_load_gpa c) (initrd_load_gpa c) (initrd_size c) (rsdp_memory_region_id c) (acpi_memory_region_id c) (uefi_memory_region_id c) (screen_base c).
Definition set_ioapic_size (v : Z) (c : x86_zone_config) : x86_zone_config :=
  Build_x86_zone_config (ioapic_base c) v (kernel_entry_gpa c) (cmdline_load_gpa c) (setup_load_gpa c) (initrd_load_gpa c) (initrd_size c) (rsdp_memory_region_id c) (acpi_memory_region_id c) (uefi_memory_region_id c) (screen_base c).
Definition set_kernel_entry_gpa (v : Z) (c : x86_zone_config) : x86_zone_config :=
  Build_x86_zone_config (ioapic_base c) (ioapic_size c) v (cmdline_load_gpa c) (setup_load_gpa c) (initrd_load_gpa c) (initrd_size c) (rsdp_memory_region_id c) (acpi_memory_region_id c) (uefi_memory_region_id c) (screen_base c).
Definition set_cmdline_load_gpa (v : Z) (c : x86_zone_config) : x86_zone_config :=
  Build_x86_zone_config (ioapic_base c) (ioapic_size c) (kernel_entry_gpa c) v (setup_load_gpa c) (initrd_load_gpa c) (initrd_size c) (rsdp_memory_region_id c) (acpi_memory_region_id c) (uefi_memory_region_id c) (screen_base c).
Definition set_setup_load_gpa (v : Z) (c : x86_zone_config) : x86_zone_config :=
  Build_x86_zone_config (ioapic_base c) (ioapic_size c) (kernel_entry_gpa c) (cmdline_load_gpa c) v (initrd_load_gpa c) (initrd_size c) (rsdp_memory_region_id c) (acpi_memory_region_id c) (uefi_memory_region_id c) (screen_base c).
Definition set_initrd_load_gpa (v : Z) (c : x86_zone_config) : x86_zone_config :=
  Build_x86_zone_config (ioapic_base c) (ioapic_size c) (kernel_entry_gpa c) (cmdline_load_gpa c) (setup_load_gpa c) v (initrd_size c) (rsdp_memory_region_id c) (acpi_memory_region_id c) (uefi_memory_region_id c) (screen_base c).
Definition set_initrd_size (v : Z) (c : x86_zone_config) : x86_zone_config :=
  Build_x86_zone_config (ioapic_base c) (ioapic_size c) (kernel_entry_gpa c) (cmdline_load_gpa c) (setup_load_gpa c) (initrd_load_gpa c) v (rsdp_memory_region_id c) (acpi_memory_region_id c) (uefi_memory_region_id c) (screen_base c).
Definition set_rsdp_memory_region_id (v : Z) (c : x86_zone_config) : x86_zone_config :=
  Build_x86_zone_config (ioapic_base c) (ioapic_size c) (kernel_entry_gpa c) (cmdline_load_gpa c) (setup_load_gpa c) (initrd_load_gpa c) (initrd_size c) v (acpi_memory_region_id c) (uefi_memory_region_id c) (screen_base c).
Definition set_acpi_memory_region_id (v : Z) (c : x86_zone_config) : x86_zone_config :=
  Build_x86_zone_config (ioapic_base c) (ioapic_size c) (kernel_entry_gpa c) (cmdline_load_gpa c) (setup_load_gpa c) (initrd_load_gpa c) (initrd_size c) (rsdp_memory_region_id c) v (uefi_memory_region_id c) (screen_base c).
Definition set_uefi_memory_region_id (v : Z) (c : x86_zone_config) : x86_zone_config :=
  Build_x86_zone_config (ioapic_base c) (ioapic_size c) (kernel_entry_gpa c) (cmdline_load_gpa c) (setup_load_gpa c) (initrd_load_gpa c) (initrd_size c) (rsdp_memory_region_id c) (acpi_memory_region_id c) v (screen_base c).
Definition set_screen_base (v : Z) (c : x86_zone_config) : x86_zone_config :=
  Build_x86_zone_config (ioapic_base c) (ioapic_size c) (kernel_entry_gpa c) (cmdline_load_gpa c) (setup_load_gpa c) (initrd_load_gpa c) (initrd_size c) (rsdp_memory_region_id c) (acpi_memory_region_id c) (uefi_memory_region_id c) v.

Definition set_x86 (f : x86_zone_config -> x86_zone_config) (c : zone_config X86_64) : zone_config X86_64 :=
  @set_arch_config X86_64 (f (arch_config c)) c.

(** ** The zeroed configuration ([memset] in [zone_start]) *)

Definition zero_memory_region : memory_region :=
  {| mr_type := 0; physical_start := 0; virtual_start := 0; mr_size := 0 |}.

Definition zero_pci_dev : hv_pci_dev_config :=
  {| dev_domain := 0; dev_bus := 0; dev_device := 0; dev_function := 0;
     v_bus := 0; v_device := 0; v_function := 0; dev_type := 0 |}.

Definition zero_pci_config : pci_config :=
  {| ecam_base := 0; ecam_size := 0; io_base := 0; io_size := 0; pci_io_base := 0;
     mem32_base := 0; mem32_size := 0; pci_mem32_base := 0;
     mem64_base := 0; mem64_size := 0; pci_mem64_base := 0;
     bus_range_begin := 0; bus_range_end := 0; pci_domain := 0 |}.

Definition zero_ivc_config : ivc_config :=
  {| ivc_id := 0; peer_id := 0; control_table_ipa := 0; shared_mem_ipa := 0;
     rw_sec_size := 0; out_sec_size := 0; interrupt_num := 0; max_peers := 0 |}.

Definition zero_gicv2 : Gicv2Config :=
  {| v2_gicd_base := 0; v2_gicd_size := 0; gicc_base := 0; gicc_size := 0; gicc_offset := 0;
     gich_base := 0; gich_size := 0; gicv_base := 0; gicv_size := 0 |}.

Definition zero_uefi : Uefi := {| memory_map_addr := 0; memory_map_size := 0; sys_map_addr := 0 |}.

Definition zero_x86 : x86_zone_config :=
  {| ioapic_base := 0; ioapic_size := 0; kernel_entry_gpa := 0; cmdline_load_gpa := 0; setup_load_gpa := 0;
     initrd_load_gpa := 0; initrd_size := 0; rsdp_memory_region_id := 0; acpi_memory_region_id := 0;
     uefi_memory_region_id := 0; screen_base := 0 |}.

Definition zero_arch (a : Arch) : arch_zone_config a :=
  match a with
  | ARM64 => {| is_aarch32 := 0; gic_config := Gicv2Payload 0 zero_gicv2; uefi_config := UefiPayload 0 zero_uefi |}
  | RISCV64 => {| plic_base := 0; plic_size := 0; aplic_base := 0; aplic_size := 0 |}
  | LOONGARCH64 => 0
  | X86_64 => zero_x86
  end.

Definition zero_config (a : Arch) : zone_config a :=
  {| zone_id := 0; cpus := 0; num_memory_regions := 0;
     memory_regions := replicate (Z.to_nat CONFIG_MAX_MEMORY_REGIONS) zero_memory_region;
     interrupts_bitmap := replicate (Z.to_nat (CONFIG_MAX_INTERRUPTS / CONFIG_INTERRUPTS_BITMAP_BITS_PER_WORD)) 0;
     num_ivc_configs := 0; ivc_configs := replicate (Z.to_nat CONFIG_MAX_IVC_CONFIGS) zero_ivc_config;
     entry_point := 0; kernel_load_paddr := 0; kernel_size := 0; dtb_load_paddr := 0; dtb_size := 0;
     name := replicate (Z.to_nat CONFIG_NAME_MAXLEN) 0;
     arch_config := zero_arch a;
     num_pci_bus := 0; pci_configs := replicate (Z.to_nat CONFIG_PCI_BUS_MAXNUM) zero_pci_config;
     num_pci_devs := 0; alloc_pci_devs := replicate (Z.to_nat CONFIG_MAX_PCI_DEV) zero_pci_dev |}.

(** ** Well-formed configurations: every field has a value of its C type *)

Definition is_u8 (z : Z) : Prop := 0 <= z <= UINT8_MAX.
Definition is_u32 (z : Z) : Prop := 0 <= z <= UINT32_MAX.
Definition is_u64 (z : Z) : Prop := 0 <= z <= UINT64_MAX.

Record memory_region_ok (r : memory_region) : Prop := {
  mro_type : mr_type r = MEM_TYPE_RAM \/ mr_type r = MEM_TYPE_IO \/ mr_type r = MEM_TYPE_VIRTIO;
  mro_phys : is_u64 (physical_start r);
  mro_virt : is_u64 (virtual_start r);
  mro_size : is_u64 (mr_size r);
}.

Definition pci_dev_ok (d : hv_pci_dev_config) : Prop :=
  Forall is_u8 [dev_domain d; dev_bus d; dev_device d; dev_function d; v_bus d; v_device d; v_function d] /\
  is_u32 (dev_type d).

Definition pci_config_ok (p : pci_config) : Prop :=
  Forall is_u64 [ecam_base p; ecam_size p; io_base p; io_size p; pci_io_base p; mem32_base p; mem32_size p;
                 pci_mem32_base p; mem64_base p; mem64_size p; pci_mem64_base p] /\
  is_u32 (bus_range_begin p) /\ is_u32 (bus_range_end p) /\ is_u8 (pci_domain p).

Definition ivc_config_ok (v : ivc_config) : Prop :=
  Forall is_u32 [ivc_id v; peer_id v; rw_sec_size v; out_sec_size v; interrupt_num v; max_peers v] /\
  is_u64 (control_table_ipa v) /\ is_u64 (shared_mem_ipa v).

Definition gic_ok (g : GicConfig) : Prop :=
  match g with
  | Gicv2Payload tag v =>
      tag = 0 /\
      Forall is_u64 [v2_gicd_base v; v2_gicd_size v; gicc_base v; gicc_size v; gicc_offset v;
                     gich_base v; gich_size v; gicv_base v; gicv_size v]
  | Gicv3Payload tag v =>
      tag = 1 /\
      Forall is_u64 [v3_gicd_base v; v3_gicd_size v; gicr_base v; gicr_size v; gits_base v; gits_size v]
  end.

Definition uefi_ok (u : UefiConfig) : Prop :=
  match u with
  | UefiPayload tag v => tag = 0 /\ Forall is_u64 [memory_map_addr v; memory_map_size v; sys_map_addr v]
  | NoUefi tag => tag = 1
  end.

Definition arch_ok (a : Arch) : arch_zone_config a -> Prop :=
  match a with
  | ARM64 => fun c => is_u8 (is_aarch32 c) /\ gic_ok (gic_config c) /\ uefi_ok (uefi_config c)
  | RISCV64 => fun c => Forall is_u64 [plic_base c; plic_size c; aplic_base c; aplic_size c]
  | LOONGARCH64 => fun c => is_u64 c
  | X86_64 => fun c =>
      Forall is_u64 [ioapic_base c; ioapic_size c; kernel_entry_gpa c; cmdline_load_gpa c; setup_load_gpa c;
                     initrd_load_gpa c; initrd_size c; rsdp_memory_region_id c; acpi_memory_region_id c;
                     uefi_memory_region_id c; screen_base c]
  end.

(** An array of [len] slots of which the first [num] are in use, all of them
    well-formed. *)
Definition array_ok {A} (P : A -> Prop) (len num : Z) (l : list A) : Prop :=
  Z.of_nat (length l) = len /\ 0 <= num <= len /\ Forall P l.

Record zone_config_ok {a : Arch} (c : zone_config a) : Prop := {
  zco_zone_id : is_u32 (zone_id c);
  zco_cpus : is_u64 (cpus c);
  zco_regions : array_ok memory_region_ok CONFIG_MAX_MEMORY_REGIONS (num_memory_regions c) (memory_regions c);
  zco_bitmap : array_ok is_u32 32 32 (interrupts_bitmap c);
  zco_ivc : array_ok ivc_config_ok CONFIG_MAX_IVC_CONFIGS (num_ivc_configs c) (ivc_configs c);
  zco_scalars : Forall is_u64 [entry_point c; kernel_load_paddr c; kernel_size c; dtb_load_paddr c; dtb_size c];
  zco_name : array_ok is_u8 CONFIG_NAME_MAXLEN CONFIG_NAME_MAXLEN (name c);
  zco_arch : arch_ok a (arch_config c);
  zco_pci : array_ok pci_config_ok CONFIG_PCI_BUS_MAXNUM (num_pci_bus c) (pci_configs c);
  zco_devs : array_ok pci_dev_ok CONFIG_MAX_PCI_DEV (num_pci_devs c) (alloc_pci_devs c);
}.

(** ** Interrupt bitmap *)

(** Whether the bitmap has the bit of [irq] set. *)
Definition bitmap_bit (bm : list Z) (irq : Z) : bool :=
  match bm !! Z.to_nat (irq / CONFIG_INTERRUPTS_BITMAP_BITS_PER_WORD) with
  | Some w => Z.testbit w (irq `mod` CONFIG_INTERRUPTS_BITMAP_BITS_PER_WORD)
  | None => false
  end.

(** ** Lemmas *)

Lemma is_u8_0 : is_u8 0.
Proof. unfold is_u8, UINT8_MAX. lia. Qed.
Lemma is_u32_0 : is_u32 0.
Proof. unfold is_u32, UINT32_MAX. lia. Qed.
Lemma is_u64_0 : is_u64 0.
Proof. unfold is_u64, UINT64_MAX. lia. Qed.
Lemma is_u8_u8 z : is_u8 (u8 z).
Proof. pose proof (u8_range z). unfold is_u8, UINT8_MAX. lia. Qed.
Lemma is_u32_u32 z : is_u32 (u32 z).
Proof. pose proof (u32_range z). unfold is_u32, UINT32_MAX. lia. Qed.
Lemma is_u64_u64 z : is_u64 (u64 z).
Proof. pose proof (u64_range z). unfold is_u64, UINT64_MAX. lia. Qed.

#[export] Hint Resolve is_u8_0 is_u32_0 is_u64_0 is_u8_u8 is_u32_u32 is_u64_u64 : hvisor.

Lemma array_ok_insert {A} (P : A -> Prop) len num l i x :
  array_ok P len num l -> P x -> array_ok P len num (<[i:=x]> l).
Proof.
  intros (Hl & Hn & HP) Hx. split; [by rewrite length_insert|]. split; [done|]. by apply Forall_insert.
Qed.

Lemma array_ok_num {A} (P : A -> Prop) len num num' l :
  array_ok P len num l -> 0 <= num' <= len -> array_ok P len num' l.
Proof. intros (Hl & Hn & HP) Hn'. done. Qed.

Lemma array_ok_replicate {A} (P : A -> Prop) len num x :
  0 <= num <= len -> P x -> array_ok P len num (replicate (Z.to_nat len) x).
Proof. intros Hn Hx. split; [rewrite length_replicate; lia|]. split; [done|]. by apply Forall_replicate. Qed.

#[export] Hint Resolve array_ok_insert : hvisor.

(** Solve the well-formedness of a struct whose fields are known to be. *)
Ltac wf := repeat first
  [ progress auto with hvisor | lazymatch goal with
    | |- Forall _ (_ :: _) => apply Forall_cons
    | |- Forall _ [] => apply Forall_nil_2
    | |- _ /\ _ => split
    | |- memory_region_ok _ => constructor
    end; cbn ].

Lemma zero_config_ok a : zone_config_ok (zero_config a).
Proof.
  constructor; unfold zero_config; cbn -[replicate Z.to_nat]; wf.
  all: try (apply array_ok_replicate; [vm_compute; split; discriminate|]; unfold pci_config_ok, pci_dev_ok, ivc_config_ok; cbn; wf).
  destruct a; cbn; wf.
Qed.

(** An assignment of a value of the field's type keeps a configuration
    well-formed. *)
Section set_ok.
Context {a : Arch}.
Implicit Type c : zone_config a.

Ltac set_ok := intros [] ?; constructor; cbn -[array_ok]; try done;
  first [ by eapply array_ok_num | rewrite !Forall_cons in *; tauto ].

Lemma set_zone_id_ok c (v : Z) : zone_config_ok c -> is_u32 v -> zone_config_ok (set_zone_id v c).
Proof. set_ok. Qed.
Lemma set_cpus_ok c (v : Z) : zone_config_ok c -> is_u64 v -> zone_config_ok (set_cpus v c).
Proof. set_ok. Qed.
Lemma set_num_memory_regions_ok c (v : Z) : zone_config_ok c -> 0 <= v <= CONFIG_MAX_MEMORY_REGIONS -> zone_config_ok (set_num_memory_regions v c).
Proof. set_ok. Qed.
Lemma set_memory_regions_ok c (v : list memory_region) : zone_config_ok c -> array_ok memory_region_ok CONFIG_MAX_MEMORY_REGIONS (num_memory_regions c) v -> zone_config_ok (set_memory_regions v c).
Proof. set_ok. Qed.
Lemma set_interrupts_bitmap_ok c (v : list Z) : zone_config_ok c -> array_ok is_u32 32 32 v -> zone_config_ok (set_interrupts_bitmap v c).
Proof. set_ok. Qed.
Lemma set_num_ivc_configs_ok c (v : Z) : zone_config_ok c -> 0 <= v <= CONFIG_MAX_IVC_CONFIGS -> zone_config_ok (set_num_ivc_configs v c).
Proof. set_ok. Qed.
Lemma set_ivc_configs_ok c (v : list ivc_config) : zone_config_ok c -> array_ok ivc_config_ok CONFIG_MAX_IVC_CONFIGS (num_ivc_configs c) v -> zone_config_ok (set_ivc_configs v c).
Proof. set_ok. Qed.
Lemma set_entry_point_ok c (v : Z) : zone_config_ok c -> is_u64 v -> zone_config_ok (set_entry_point v c).
Proof. set_ok. Qed.
Lemma set_kernel_load_paddr_ok c (v : Z) : zone_config_ok c -> is_u64 v -> zone_config_ok (set_kernel_load_paddr v c).
Proof. set_ok. Qed.
Lemma set_kernel_size_ok c (v : Z) : zone_config_ok c -> is_u64 v -> zone_config_ok (set_kernel_size v c).
Proof. set_ok. Qed.
Lemma set_dtb_load_paddr_ok c (v : Z) : zone_config_ok c -> is_u64 v -> zone_config_ok (set_dtb_load_paddr v c).
Proof. set_ok. Qed.
Lemma set_dtb_size_ok c (v : Z) : zone_config_ok c -> is_u64 v -> zone_config_ok (set_dtb_size v c).
Proof. set_ok. Qed.
Lemma set_name_ok c (v : list Z) : zone_config_ok c -> array_ok is_u8 CONFIG_NAME_MAXLEN CONFIG_NAME_MAXLEN v -> zone_config_ok (set_name v c).
Proof. set_ok. Qed.
Lemma set_arch_config_ok c (v : arch_zone_config a) : zone_config_ok c -> arch_ok a v -> zone_config_ok (set_arch_config v c).
Proof. set_ok. Qed.
Lemma set_num_pci_bus_ok c (v : Z) : zone_config_ok c -> 0 <= v <= CONFIG_PCI_BUS_MAXNUM -> zone_config_ok (set_num_pci_bus v c).
Proof. set_ok. Qed.
Lemma set_pci_configs_ok c (v : list pci_config) : zone_config_ok c -> array_ok pci_config_ok CONFIG_PCI_BUS_MAXNUM (num_pci_bus c) v -> zone_config_ok (set_pci_configs v c).
Proof. set_ok. Qed.
Lemma set_num_pci_devs_ok c (v : Z) : zone_config_ok c -> 0 <= v <= CONFIG_MAX_PCI_DEV -> zone_config_ok (set_num_pci_devs v c).
Proof. set_ok. Qed.
Lemma set_alloc_pci_devs_ok c (v : list hv_pci_dev_config) : zone_config_ok c -> array_ok pci_dev_ok CONFIG_MAX_PCI_DEV (num_pci_devs c) v -> zone_config_ok (set_alloc_pci_devs v c).
Proof. set_ok. Qed.

End set_ok.

#[export] Hint Resolve set_zone_id_ok set_cpus_ok set_num_memory_regions_ok set_memory_regions_ok set_interrupts_bitmap_ok set_num_ivc_configs_ok set_ivc_configs_ok set_entry_point_ok set_kernel_load_paddr_ok set_kernel_size_ok set_dtb_load_paddr_ok set_dtb_size_ok set_name_ok set_arch_config_ok set_num_pci_bus_ok set_pci_configs_ok set_num_pci_devs_ok set_alloc_pci_devs_ok : hvisor.

(** What a zone is given: the parts of a configuration that only the main parser
    assigns. *)
Definition same_resources {a} (c c' : zone_config a) : Prop :=
  zone_id c' = zone_id c /\ cpus c' = cpus c /\
  num_memory_regions c' = num_memory_regions c /\ memory_regions c' = memory_regions c /\
  interrupts_bitmap c' = interrupts_bitmap c /\
  num_ivc_configs c' = num_ivc_configs c /\ ivc_configs c' = ivc_configs c /\
  entry_point c' = entry_point c.

#[export] Instance same_resources_preorder a : PreOrder (@same_resources a).
Proof. split; [by repeat split|]. intros x y z. unfold same_resources. intuition congruence. Qed.

Lemma set_x86_ok f (c : zone_config X86_64) :
  zone_config_ok c -> (arch_ok X86_64 (arch_config c) -> arch_ok X86_64 (f (arch_config c))) -> zone_config_ok (set_x86 f c).
Proof. intros Hc Hf. apply set_arch_config_ok; [done|]. apply Hf, Hc. Qed.
