(* ===== verification/Loader.v ===== *)
(** * The management tool's world: ioctls, files and image loading

    The [hvisor] command ([tools/hvisor.c]) runs as a sequence of system calls.  Its
    functions are of type [tool]: they extend the list of ioctls issued on
    [/dev/hvisor] and return a value, give up with -1 ([Minus1], which callers
    pass on), leave the process by [exit] or leave defined behaviour ([Crash]).
    Files, the device and the hypervisor's answers are the interface [ToolEnv].
    This file has the monad with its program logic, and [read_file], [open_dev],
    [load_buffer_to_memory], [load_str_to_memory] and [load_image_to_memory]. *)

From Stdlib Require Import String Ascii.
From S2P Require Import Prelude ZoneConfig.

(** ** Strings as bytes *)

Fixpoint bytes_of (s : string) : list Z :=
  match s with
  | EmptyString => []
  | String c s' => Z.of_nat (nat_of_ascii c) :: bytes_of s'
  end.

Definition strlen (s : string) : Z := Z.of_nat (length (bytes_of s)).

(** ** The calls on the device *)

Inductive ioctl_call (a : Arch) :=
  | HVISOR_LOAD_IMAGE (user_buffer : list Z) (size load_paddr : Z)
  | HVISOR_ZONE_START (config : zone_config a)
  | HVISOR_ZONE_SHUTDOWN (id : Z)
  | HVISOR_ZONE_LIST (cnt : Z)
  | HVISOR_CONFIG_CHECK
  | HVISOR_SET_BOOT_MODE (mode : hv_zone_boot_mode)
  | HVISOR_GET_ECAM_BASE.
Arguments HVISOR_LOAD_IMAGE {a} _ _ _.
Arguments HVISOR_ZONE_START {a} _.
Arguments HVISOR_ZONE_SHUTDOWN {a} _.
Arguments HVISOR_ZONE_LIST {a} _.
Arguments HVISOR_CONFIG_CHECK {a}.
Arguments HVISOR_SET_BOOT_MODE {a} _.
Arguments HVISOR_GET_ECAM_BASE {a}.

(** The ioctls issued so far, oldest first. *)
Abbreviation trace a := (list (ioctl_call a)).

(** What the tool finds outside itself.  The answers to an ioctl may depend on
    the calls made before. *)
Class ToolEnv (a : Arch) := {
  page_size : Z;                                  (* sysconf(_SC_PAGESIZE) *)
  file_content : string -> option (Z * list Z);   (* st_size and the bytes read into the buffer; None: a call of read_file failed *)
  buffer_null : string -> bool;                   (* the call that failed is malloc(buf_size) *)
  log_info_on : bool;                             (* the level the tool is built with, HLOG, lets log_info print *)
  file_access : string -> bool;                   (* access(path, R_OK) == 0 *)
  calloc_ok : Z -> bool;                          (* calloc(1, size) != NULL *)
  dev_open : trace a -> bool;                     (* open("/dev/hvisor") >= 0 *)
  ioctl_ret : trace a -> ioctl_call a -> Z;
  ecam_out : trace a -> Z;                        (* the word GET_ECAM_BASE stores *)
  version_out : trace a -> Z;                     (* the word CONFIG_CHECK stores *)
  list_out : trace a -> list zone_info;           (* the array ZONE_LIST fills *)
}.

(** Pages are at least 4 KiB, a power of two; [read] gives at most the bytes asked
    for, each a byte; what the kernel stores in a word is a word. *)
Class ToolEnvLaws (a : Arch) {env : ToolEnv a} : Prop := {
  page_size_pow2 : exists k, 12 <= k <= 30 /\ page_size = 2 ^ k;
  file_content_ok p n bs : file_content p = Some (n, bs) ->
    Z.of_nat (length bs) <= n < 2 ^ 62 /\ Forall is_u8 bs;
  ecam_out_ok h : is_u64 (ecam_out h);
  version_out_ok h : is_u64 (version_out h);
}.

(** ** The monad *)

Inductive stop :=
  | Minus1              (* return -1, to the command's caller *)
  | Exit (status : Z)   (* exit(status) *)
  | Crash (f : fault).

Definition tool (a : Arch) (A : Type) : Type := trace a -> (A + stop) * trace a.

Section monad.
Context {a : Arch}.

#[global] Instance tool_ret : MRet (tool a) := fun A x h => (inl x, h).

#[global] Instance tool_bind : MBind (tool a) := fun A B k m h =>
  match m h with
  | (inl x, h') => k x h'
  | (inr s, h') => (inr s, h')
  end.

Definition minus1 {A} : tool a A := fun h => (inr Minus1, h).
Definition exit {A} (status : Z) : tool a A := fun h => (inr (Exit status), h).
Definition crash {A} (f : fault) : tool a A := fun h => (inr (Crash f), h).

(** A -1 result is passed on. *)
Definition or_minus1 {A} (o : option A) : tool a A :=
  match o with
  | Some x => mret x
  | None => minus1
  end.

(** An access that must be defined. *)
Definition or_crash {A} (r : result A) : tool a A :=
  match r with
  | Ok x => mret x
  | Err f => crash f
  end.

(** [for (i = first; i < first + n; i++) s = body(i, s)] *)
Fixpoint for_range {S} (n : nat) (i : Z) (body : Z -> S -> tool a S) (s : S) : tool a S :=
  match n with
  | O => mret s
  | S n' => s' ← body i s; for_range n' (i + 1) body s'
  end.

(** [arr[i] = x] *)
Definition array_set {A} (l : list A) (i : Z) (x : A) : tool a (list A) :=
  if (0 <=? i) && (i <? Z.of_nat (length l)) then mret (<[Z.to_nat i := x]> l) else crash OutOfBounds.

End monad.

(** ** System calls and image loading *)

Section load.
Context {a : Arch} {env : ToolEnv a}.

Definition ioctl (c : ioctl_call a) : tool a Z := fun h => (inl (ioctl_ret h c), h ++ [c]).

(** The file descriptor itself carries no information. *)
Definition open_dev : tool a unit := fun h => if dev_open h then (inl tt, h) else (inr (Exit 1), h).

(** The size rounded up to whole pages, in 64 bits: [(n + p - 1) & ~(p - 1)]. *)
Definition page_round (n : Z) : Z := Z.land (u64 (n + page_size - 1)) (u64 (Z.lnot (page_size - 1))).

(** The buffer, zero-filled to whole pages, and the number of bytes read.  What
    [malloc] returns is not tested: [memset] then stores through NULL. *)
Definition read_file (filename : string) : tool a (list Z * Z) :=
  match file_content filename with
  | None => if buffer_null filename then crash NullDeref else exit 1
  | Some (st_size, bs) =>
      let buf_size := page_round st_size in
      mret (bs ++ replicate (Z.to_nat (buf_size - Z.of_nat (length bs))) 0, Z.of_nat (length bs))
  end.

(** [buf] is what lies in memory from the pointer to the end of its object. *)
Definition load_buffer_to_memory (buf : list Z) (size load_paddr : Z) : tool a Z :=
  if size =? 0 then mret 0
  else
    let map_size := page_round size in
    open_dev ≫= fun _ =>
    if Z.of_nat (length buf) <? size then crash OutOfBounds
    else
      r ← ioctl (HVISOR_LOAD_IMAGE (take (Z.to_nat size) buf) size load_paddr);
      if negb (r =? 0) then exit 1 else mret map_size.

Definition load_str_to_memory (str : string) (load_paddr : Z) : tool a Z :=
  load_buffer_to_memory (bytes_of str ++ [0]) (strlen str + 1) load_paddr.

Definition load_image_to_memory (path : string) (load_paddr : Z) : tool a Z :=
  if String.eqb path "null" then mret 0
  else
    '(image, size) ← read_file path;
    load_buffer_to_memory image size load_paddr.

End load.

(** ** Program logic

    [spec P E m Q]: however [m] ends, the calls it issued all satisfy [P]; if it
    returns, the value satisfies [Q]; if it stops, the reason satisfies [E]. *)

Definition extends {a} (P : ioctl_call a -> Prop) (h h' : trace a) : Prop :=
  exists l, h' = h ++ l /\ Forall P l.

Definition spec {a A} (P : ioctl_call a -> Prop) (E : stop -> Prop) (m : tool a A) (Q : A -> Prop) : Prop :=
  forall h, match m h with
            | (inl x, h') => extends P h h' /\ Q x
            | (inr s, h') => extends P h h' /\ E s
            end.

Definition no_crash (s : stop) : Prop :=
  match s with
  | Crash _ => False
  | _ => True
  end.

Definition any_stop (s : stop) : Prop := True.

Definition is_load {a} (c : ioctl_call a) : Prop :=
  match c with
  | HVISOR_LOAD_IMAGE buf size _ => size = Z.of_nat (length buf)
  | _ => False
  end.

Section logic.
Context {a : Arch} {P : ioctl_call a -> Prop} {E : stop -> Prop}.

Lemma extends_refl h : extends P h h.
Proof. exists []. by rewrite app_nil_r. Qed.

Lemma extends_trans h1 h2 h3 : extends P h1 h2 -> extends P h2 h3 -> extends P h1 h3.
Proof.
  intros (l1 & -> & H1) (l2 & -> & H2). exists (l1 ++ l2). rewrite app_assoc. split; [done|]. by apply Forall_app.
Qed.

Lemma extends_one h c : P c -> extends P h (h ++ [c]).
Proof. intros Hc. exists [c]. split; [done|]. by apply Forall_singleton. Qed.

Lemma spec_ret {A} (x : A) (Q : A -> Prop) : Q x -> spec P E (mret x) Q.
Proof. intros HQ h. cbv [mret tool_ret]. eauto using extends_refl. Qed.

Lemma spec_bind {A B} (m : tool a A) (k : A -> tool a B) Q R :
  spec P E m Q -> (forall x, Q x -> spec P E (k x) R) -> spec P E (m ≫= k) R.
Proof.
  intros Hm Hk h. specialize (Hm h). cbv [mbind tool_bind]. destruct (m h) as [[x|s] h1]; [|done].
  destruct Hm as [He HQ]. specialize (Hk x HQ h1). destruct (k x h1) as [[y|s] h2];
    destruct Hk; split; eauto using extends_trans.
Qed.

Lemma spec_conseq {A} (m : tool a A) (Q R : A -> Prop) :
  spec P E m Q -> (forall x, Q x -> R x) -> spec P E m R.
Proof. intros Hm HQR h. specialize (Hm h). destruct (m h) as [[x|s] h']; [|done]. destruct Hm; auto. Qed.

Lemma spec_minus1 {A} (Q : A -> Prop) : E Minus1 -> spec P E minus1 Q.
Proof. intros HE h. split; [apply extends_refl|done]. Qed.

Lemma spec_exit {A} n (Q : A -> Prop) : E (Exit n) -> spec P E (exit n) Q.
Proof. intros HE h. split; [apply extends_refl|done]. Qed.

Lemma spec_crash {A} f (Q : A -> Prop) : E (Crash f) -> spec P E (crash f) Q.
Proof. intros HE h. split; [apply extends_refl|done]. Qed.

Lemma spec_or_minus1 {A} (o : option A) (Q : A -> Prop) :
  E Minus1 -> (forall x, o = Some x -> Q x) -> spec P E (or_minus1 o) Q.
Proof. intros HE HQ. destruct o; [apply spec_ret; auto|by apply spec_minus1]. Qed.

Lemma spec_or_crash {A} (r : result A) (Q : A -> Prop) :
  (forall f, r = Err f -> E (Crash f)) -> (forall x, r = Ok x -> Q x) -> spec P E (or_crash r) Q.
Proof. intros HE HQ. destruct r; [apply spec_ret; auto|apply spec_crash; auto]. Qed.

(** The invariant of a counting loop. *)
Lemma spec_for_range {S} (body : Z -> S -> tool a S) (I : Z -> S -> Prop) n : forall i s,
  I i s ->
  (forall j s, i <= j < i + Z.of_nat n -> I j s -> spec P E (body j s) (I (j + 1))) ->
  spec P E (for_range n i body s) (I (i + Z.of_nat n)).
Proof.
  induction n as [|n IH]; intros i s HI Hb; cbn [for_range].
  - apply spec_ret. by rewrite Z.add_0_r.
  - eapply spec_bind; [apply Hb; [lia|done]|]. intros s' Hs'.
    eapply spec_conseq; [apply IH; [exact Hs'|intros j t Hj; apply Hb; lia]|].
    intros t. by replace (i + 1 + Z.of_nat n) with (i + Z.of_nat (Datatypes.S n)) by lia.
Qed.

Lemma spec_array_set {A} (l : list A) i x (Q : list A -> Prop) :
  (~ (0 <= i < Z.of_nat (length l)) -> E (Crash OutOfBounds)) -> Q (<[Z.to_nat i := x]> l) ->
  spec P E (array_set l i x) Q.
Proof.
  intros HE HQ. unfold array_set. destruct (_ && _) eqn:Eb; [by apply spec_ret|].
  apply spec_crash, HE. lia.
Qed.

Context {env : ToolEnv a}.

Lemma spec_ioctl c (Q : Z -> Prop) : P c -> (forall h, Q (ioctl_ret h c)) -> spec P E (ioctl c) Q.
Proof. intros Hc HQ h. split; [by apply extends_one|done]. Qed.

Lemma spec_open_dev (Q : unit -> Prop) : E (Exit 1) -> Q tt -> spec P E open_dev Q.
Proof. intros HE HQ h. unfold open_dev. destruct (dev_open h); eauto using extends_refl. Qed.

End logic.

(** Discharge a condition on how a program may stop. *)
Ltac stop_ok := solve [done | exact I].

(** One step of symbolic execution. *)
Ltac tool_step :=
  lazymatch goal with
  | |- spec _ _ (mret _) _ => apply spec_ret
  | |- spec _ _ (_ ≫= _) _ => eapply spec_bind
  | |- spec _ _ minus1 _ => apply spec_minus1; stop_ok
  | |- spec _ _ (exit _) _ => apply spec_exit; stop_ok
  | |- spec _ _ (or_minus1 _) _ => apply spec_or_minus1; [stop_ok|]
  | |- spec _ _ open_dev _ => apply spec_open_dev; [stop_ok|]
  | |- spec _ _ (if ?b then _ else _) _ => let E := fresh "E" in destruct b eqn:E
  end.

(** ** Image loading *)

Section load_lemmas.
Context {a : Arch} {env : ToolEnv a} {laws : ToolEnvLaws a}.

Lemma page_round_spec n : 0 <= n < 2 ^ 63 ->
  n <= page_round n < n + page_size /\ page_round n `mod` page_size = 0 /\ is_u64 (page_round n).
Proof.
  intros Hn. destruct page_size_pow2 as (k & Hk & Hp). unfold page_round. rewrite Hp.
  assert (2 ^ k <= 2 ^ 30) as Hle by (apply Z.pow_le_mono_r; lia).
  assert (0 < 2 ^ k) as Hpos by (apply Z.pow_pos_nonneg; lia).
  rewrite (u64_small (n + 2 ^ k - 1)) by lia.
  replace (u64 (Z.lnot (2 ^ k - 1))) with (Z.shiftl (Z.ones (64 - k)) k).
  2: { unfold u64, Z.lnot. rewrite Z.shiftl_mul_pow2, Z.ones_equiv by lia.
       replace (Z.pred (- (2 ^ k - 1))) with (2 ^ 64 - 2 ^ k + (-1) * 2 ^ 64) by lia.
       rewrite Z.mod_add, Z.mod_small by lia.
       replace (2 ^ 64) with (2 ^ (64 - k) * 2 ^ k) by (rewrite <- Z.pow_add_r; f_equal; lia). lia. }
  set (x := n + 2 ^ k - 1).
  assert (Z.land x (Z.shiftl (Z.ones (64 - k)) k) = 2 ^ k * (x / 2 ^ k)) as ->.
  { rewrite Z.mul_comm, <- Z.shiftl_mul_pow2, <- Z.shiftr_div_pow2 by lia. apply Z.bits_inj'. intros i Hi.
    rewrite Z.land_spec. destruct (decide (i < k)) as [H|H].
    - rewrite !Z.shiftl_spec_low by lia. apply andb_false_r.
    - rewrite !Z.shiftl_spec, Z.shiftr_spec by lia. replace (i - k + k) with i by lia.
      destruct (decide (i < 64)).
      + rewrite Z.ones_spec_low by lia. apply andb_true_r.
      + rewrite Z.ones_spec_high by lia. rewrite andb_false_r. symmetry.
        rewrite <- (Z.mod_small x (2 ^ 64)) by lia. apply Z.mod_pow2_bits_high; lia. }
  pose proof (Z.div_mod x (2 ^ k) ltac:(lia)) as Hdm. pose proof (Z.mod_pos_bound x (2 ^ k) ltac:(lia)).
  split; [lia|]. split; [by rewrite Z.mul_comm, Z.mod_mul by lia|]. unfold is_u64, UINT64_MAX. lia.
Qed.

Lemma page_round_u64 n : is_u64 (page_round n).
Proof.
  unfold page_round. destruct (u64_range (Z.lnot (page_size - 1))) as [H0 H1].
  destruct (land_upper (u64 (n + page_size - 1)) _ H0) as [H2 H3]. split; [done|]. unfold UINT64_MAX. clear -H1 H3. lia.
Qed.

Lemma load_buffer_spec (E : stop -> Prop) buf size paddr :
  E (Exit 1) -> (Z.of_nat (length buf) < size -> E (Crash OutOfBounds)) -> 0 <= size ->
  spec is_load E (load_buffer_to_memory buf size paddr) is_u64.
Proof.
  intros HE HC Hs. unfold load_buffer_to_memory. destruct (size =? 0); [apply spec_ret, is_u64_0|].
  eapply (spec_bind _ _ (fun _ => True)); [by apply spec_open_dev|]. intros _ _.
  destruct (_ <? size) eqn:Eb; [apply spec_crash, HC; lia|].
  eapply (spec_bind _ _ (fun _ => True)); [apply spec_ioctl; [|done]; cbn; rewrite length_take; lia|]. intros r _.
  destruct (negb _); [by apply spec_exit|]. apply spec_ret, page_round_u64.
Qed.

(** Stopping for want of an image buffer is accounted for. *)
Definition buffers_safe (E : stop -> Prop) : Prop := forall p, buffer_null p = true -> E (Crash NullDeref).

Lemma read_file_spec (P : ioctl_call a -> Prop) (E : stop -> Prop) path :
  E (Exit 1) -> buffers_safe E -> spec P E (read_file path) (fun r => 0 <= r.2 <= Z.of_nat (length r.1) /\ Forall is_u8 r.1 /\ r.2 < 2 ^ 62).
Proof.
  intros HE HB. unfold read_file. destruct (file_content path) as [[n bs]|] eqn:Ef.
  2: { destruct (buffer_null path) eqn:Eb; [by apply spec_crash, (HB path)|by apply spec_exit]. }
  destruct (file_content_ok path n bs Ef) as [Hn Hb]. apply spec_ret. cbn. split; [rewrite length_app; lia|].
  split; [|lia]. apply Forall_app. split; [done|]. apply Forall_replicate, is_u8_0.
Qed.

Lemma load_image_spec (E : stop -> Prop) path paddr :
  E (Exit 1) -> buffers_safe E -> spec is_load E (load_image_to_memory path paddr) is_u64.
Proof.
  intros HE HB. unfold load_image_to_memory. destruct (String.eqb _ _); [apply spec_ret, is_u64_0|].
  eapply spec_bind; [by apply read_file_spec|]. intros [image size] [Hs _]. cbn in Hs.
  apply load_buffer_spec; [done|lia..].
Qed.

Lemma load_str_spec (E : stop -> Prop) str paddr :
  E (Exit 1) -> spec is_load E (load_str_to_memory str paddr) is_u64.
Proof.
  intros HE. unfold load_str_to_memory, strlen. apply load_buffer_spec; [done| |lia]. rewrite length_app. cbn. lia.
Qed.

End load_lemmas.
