(* ===== verification/Boot.v ===== *)
(** * Boot modes and the multiboot2 kernel loader

    [tools/boot/boot.c] and [tools/boot/multiboot2.c]: how the boot protocol of a zone is
    chosen, and for multiboot2 the loading of an ELF kernel segment by segment,
    with boot loader, command line and initial ram disk.  An ELF image is the
    list of bytes [read_file] returns; reads outside it are faults. *)

From Stdlib Require Import String Ascii.
From S2P Require Import Prelude Json ZoneConfig Loader.

(** ** Reading an image *)

(** The [n]-byte little-endian value at an offset of a buffer. *)
Definition buf_load (n : nat) (buf : list Z) (off : Z) : result Z :=
  if (0 <=? off) && (off + Z.of_nat n <=? Z.of_nat (length buf))
  then Ok (le_value (take n (drop (Z.to_nat off) buf))) else Err OutOfBounds.

(** Signed 64-bit arithmetic. *)
Definition int64 (z : Z) : result Z :=
  if (- 2 ^ 63 <=? z) && (z <? 2 ^ 63) then Ok z else Err SignedOverflow.

(** ** Boot modes *)

Inductive boot_mode_kind := BOOT_MODE_NONE | BOOT_MODE_MULTIBOOT2.

Record boot_mode := {
  kind : boot_mode_kind;
  multiboot_info_paddr : Z;
}.

Definition is_multiboot2 (k : boot_mode_kind) : bool :=
  match k with BOOT_MODE_NONE => false | BOOT_MODE_MULTIBOOT2 => true end.

Section json.
Context {J : Type} {cj : CJson J}.

(** [item->valuestring]: NULL unless the item is a string, as in every document
    that comes from [cJSON_Parse]. *)
Definition valuestring_of (j : J) : option string := if cJSON_IsString j then Some (valuestring j) else None.

Definition multiboot2_enabled (root : option J) : bool :=
  match SAFE_CJSON_GET_OBJECT_ITEM root "multiboot_enabled"%string with
  | Some j => if cJSON_IsBool j then cJSON_IsTrue j else false
  | None => false
  end.

Definition boot_mode_is_multiboot2 (root : option J) : bool :=
  match SAFE_CJSON_GET_OBJECT_ITEM root "boot_protocol"%string with
  | Some protocol =>
      if cJSON_IsString protocol then String.eqb (valuestring protocol) "multiboot2" else multiboot2_enabled root
  | None => multiboot2_enabled root
  end.

Definition boot_mode_parse (root : option J) : boot_mode :=
  {| kind := if boot_mode_is_multiboot2 root then BOOT_MODE_MULTIBOOT2 else BOOT_MODE_NONE;
     multiboot_info_paddr := 0 |}.

End json.

(** ** The ELF loader *)

Definition PT_LOAD : Z := 1.
Definition INT_MAX : Z := 2 ^ 31 - 1.

(** The fields of a program header that are used. *)
Record elf_phdr := {
  p_type : Z;
  p_offset : Z;
  p_paddr : Z;
  p_filesz : Z;
  p_memsz : Z;
}.

Definition read_phdr (elf : list Z) (phdr : Z) : result elf_phdr :=
  t ← buf_load 4 elf phdr;
  off ← buf_load 8 elf (phdr + 8);
  pa ← buf_load 8 elf (phdr + 24);
  fs ← buf_load 8 elf (phdr + 32);
  ms ← buf_load 8 elf (phdr + 40);
  Ok {| p_type := t; p_offset := off; p_paddr := pa; p_filesz := fs; p_memsz := ms |}.

(** The offset of header [i]: the product is computed in [int]. *)
Definition phdr_off (e_phoff e_phentsize i : Z) : result Z :=
  if i * e_phentsize <=? INT_MAX then Ok (e_phoff + i * e_phentsize) else Err SignedOverflow.

Section elf.
Context {a : Arch} {env : ToolEnv a}.

(** One iteration of the loop over the program headers; the state is
    [min_paddr] and [max_end]. *)
Definition load_segment (elf : list Z) (file_size e_phoff e_phentsize gpa_to_hpa_offset : Z)
    (i : Z) (mm : Z * Z) : tool a (Z * Z) :=
  phdr ← or_crash (phdr_off e_phoff e_phentsize i);
  ph ← or_crash (read_phdr elf phdr);
  if negb (p_type ph =? PT_LOAD) then mret mm
  else if file_size <? u64 (p_offset ph + p_filesz ph) then minus1
  else
    sum ← or_crash (int64 (s64 (p_paddr ph) + gpa_to_hpa_offset));
    let load_paddr := u64 sum in
    (if 0 <? p_filesz ph
     then load_buffer_to_memory (drop (Z.to_nat (p_offset ph)) elf) (p_filesz ph) load_paddr else mret 0) ≫= fun _ =>
    (if p_filesz ph <? p_memsz ph
     then
       let zero_fill_start := u64 (load_paddr + p_filesz ph) in
       let zero_fill_size := p_memsz ph - p_filesz ph in
       if negb (calloc_ok zero_fill_size) then minus1
       else load_buffer_to_memory (replicate (Z.to_nat zero_fill_size) 0) zero_fill_size zero_fill_start
     else mret 0) ≫= fun _ =>
    let min_paddr := if p_paddr ph <? mm.1 then p_paddr ph else mm.1 in
    let end_ := u64 (p_paddr ph + p_memsz ph) in
    let max_end := if mm.2 <? end_ then end_ else mm.2 in
    mret (min_paddr, max_end).

(** The entry point and the total size. *)
Definition load_elf_kernel (elf_path : string) (gpa_to_hpa_offset : Z) : tool a (Z * Z) :=
  '(elf, file_size) ← read_file elf_path;
  i0 ← or_crash (buf_load 1 elf 0);
  i1 ← or_crash (buf_load 1 elf 1);
  i2 ← or_crash (buf_load 1 elf 2);
  i3 ← or_crash (buf_load 1 elf 3);
  if negb ((i0 =? 0x7f) && (i1 =? 69) && (i2 =? 76) && (i3 =? 70)) then minus1
  else
    i4 ← or_crash (buf_load 1 elf 4);
    if negb (i4 =? 2) then minus1
    else
      entry ← or_crash (buf_load 8 elf 24);
      e_phoff ← or_crash (buf_load 8 elf 32);
      e_phentsize ← or_crash (buf_load 2 elf 54);
      e_phnum ← or_crash (buf_load 2 elf 56);
      '(min_paddr, max_end) ←
        for_range (Z.to_nat e_phnum) 0 (load_segment elf file_size e_phoff e_phentsize gpa_to_hpa_offset) (UINT64_MAX, 0);
      let total_size := if min_paddr =? UINT64_MAX then 0 else u64 (max_end - min_paddr) in
      mret (entry, total_size).

End elf.

(** ** Preparing a multiboot2 zone *)

(** The offset of the first RAM region in use, 0 if there is none. *)
Fixpoint gpa_to_hpa (regions : list memory_region) : result Z :=
  match regions with
  | [] => Ok 0
  | r :: rs =>
      if mr_type r =? MEM_TYPE_RAM then int64 (s64 (physical_start r) - s64 (virtual_start r)) else gpa_to_hpa rs
  end.

Section prepare.
Context {J : Type} {cj : CJson J}.

Definition multiboot2_prepare_zone_x86 {env : ToolEnv X86_64} (config : zone_config X86_64) (root : option J) :
    tool X86_64 (zone_config X86_64 * Z) :=
  let item k := SAFE_CJSON_GET_OBJECT_ITEM root k in
  off ← or_crash (gpa_to_hpa (take (Z.to_nat (num_memory_regions config)) (memory_regions config)));
  kernel ← or_minus1 (j ← item "kernel_filepath"%string; valuestring_of j);
  '(elf_entry, total_size) ← load_elf_kernel kernel off;
  let config := set_kernel_size total_size config in
  let config := set_x86 (set_kernel_entry_gpa elf_entry) config in
  let cmdline := default EmptyString (j ← item "kernel_cmdline"%string; valuestring_of j) in
  info ← match item "multiboot_info_paddr"%string with
         | None => mret 0x9000000
         | Some j => or_minus1 (parse_json_linux_u64 (Some j))
         end;
  let arch_item k := SAFE_CJSON_GET_OBJECT_ITEM (item "arch_config"%string) k in
  match (j ← arch_item "boot_filepath"%string; valuestring_of j), arch_item "boot_load_paddr"%string with
  | Some path, Some j =>
      boot_load_paddr ← or_minus1 (parse_json_linux_u64 (Some j));
      sum ← or_crash (int64 (s64 boot_load_paddr + off));
      load_image_to_memory path (u64 sum)
  | _, _ => mret 0
  end ≫= fun _ =>
  cmdline_gpa ← match arch_item "cmdline_load_gpa"%string with
                | None => mret info
                | Some j => or_minus1 (parse_json_linux_u64 (Some j))
                end;
  config ← (if String.eqb cmdline EmptyString then mret config
            else
              let config := set_x86 (set_cmdline_load_gpa cmdline_gpa) config in
              sum ← or_crash (int64 (s64 cmdline_gpa + off));
              load_buffer_to_memory (bytes_of cmdline ++ [0]) (strlen cmdline + 1) (u64 sum) ≫= fun _ =>
              mret config);
  config ← match (j ← item "initramfs_filepath"%string; valuestring_of j), item "initramfs_load_gpa"%string with
           | Some path, Some j =>
               if String.eqb path "null" then mret config
               else
                 gpa ← or_minus1 (parse_json_linux_u64 (Some j));
                 sum ← or_crash (int64 (s64 gpa + off));
                 size ← load_image_to_memory path (u64 sum);
                 mret (set_x86 (set_initrd_size size) (set_x86 (set_initrd_load_gpa gpa) config))
           | _, _ => mret config
           end;
  mret (config, info).

Definition multiboot2_prepare_zone {a : Arch} : forall {env : ToolEnv a}, zone_config a -> option J -> tool a (zone_config a * Z) :=
  match a with
  | X86_64 => @multiboot2_prepare_zone_x86
  | _ => fun _ _ _ => minus1
  end.

Definition boot_mode_prepare_zone {a : Arch} {env : ToolEnv a} (mode : boot_mode) (config : zone_config a) (root : option J) :
    tool a (boot_mode * zone_config a) :=
  match kind mode with
  | BOOT_MODE_NONE => mret (mode, config)
  | BOOT_MODE_MULTIBOOT2 =>
      '(config, info) ← multiboot2_prepare_zone config root;
      mret ({| kind := kind mode; multiboot_info_paddr := info |}, config)
  end.

End prepare.

Section apply.
Context {a : Arch} {env : ToolEnv a}.

Definition multiboot2_set_boot_mode (zone_id multiboot_info_paddr : Z) : tool a unit :=
  if decide (a = X86_64) then
    r ← ioctl (HVISOR_SET_BOOT_MODE
          {| bm_zone_id := zone_id; multiboot_enabled := 1; bm_multiboot_info_paddr := multiboot_info_paddr |});
    if negb (r =? 0) then minus1 else mret tt
  else minus1.

Definition boot_mode_apply (zone_id : Z) (mode : boot_mode) : tool a unit :=
  match kind mode with
  | BOOT_MODE_NONE => mret tt
  | BOOT_MODE_MULTIBOOT2 => multiboot2_set_boot_mode zone_id (multiboot_info_paddr mode)
  end.

End apply.

(** ** What loading an ELF image is to do *)

Definition is_pt_load (ph : elf_phdr) : bool := p_type ph =? PT_LOAD.

(** The host address a segment goes to. *)
Definition segment_hpa (off : Z) (ph : elf_phdr) : Z := u64 (s64 (p_paddr ph) + off).

(** The calls one program header leads to: the bytes of the file, then zeros up
    to the size in memory. *)
Definition segment_calls {a} (file : list Z) (off : Z) (ph : elf_phdr) : trace a :=
  if is_pt_load ph then
    (if 0 <? p_filesz ph
     then [HVISOR_LOAD_IMAGE (take (Z.to_nat (p_filesz ph)) (drop (Z.to_nat (p_offset ph)) file)) (p_filesz ph) (segment_hpa off ph)]
     else []) ++
    (if p_filesz ph <? p_memsz ph
     then [HVISOR_LOAD_IMAGE (replicate (Z.to_nat (p_memsz ph - p_filesz ph)) 0) (p_memsz ph - p_filesz ph)
             (u64 (segment_hpa off ph + p_filesz ph))]
     else [])
  else [].

(** The guest-physical extent of the loadable segments. *)
Definition elf_span (phs : list elf_phdr) : Z :=
  let loads := List.filter is_pt_load phs in
  let lo := foldl Z.min UINT64_MAX (p_paddr <$> loads) in
  let hi := foldl Z.max 0 ((fun ph => p_paddr ph + p_memsz ph) <$> loads) in
  if lo =? UINT64_MAX then 0 else hi - lo.

(** A 64-bit ELF file with this entry point and these program headers. *)
Record elf_image (file : list Z) (entry : Z) (phs : list elf_phdr) : Prop := {
  ei_ident : forall i b, [0x7f; 69; 76; 70; 2] !! i = Some b -> buf_load 1 file (Z.of_nat i) = Ok b;
  ei_entry : buf_load 8 file 24 = Ok entry;
  ei_phnum : buf_load 2 file 56 = Ok (Z.of_nat (length phs));
  ei_table : exists e_phoff e_phentsize,
    buf_load 8 file 32 = Ok e_phoff /\ buf_load 2 file 54 = Ok e_phentsize /\
    Z.of_nat (length phs) * e_phentsize <= INT_MAX /\
    forall i ph, phs !! i = Some ph -> read_phdr file (e_phoff + Z.of_nat i * e_phentsize) = Ok ph;
}.

(** A segment that lies in the file and whose addresses do not overflow. *)
Record segment_ok {a} {env : ToolEnv a} (file : list Z) (off : Z) (ph : elf_phdr) : Prop := {
  so_file : p_offset ph + p_filesz ph <= Z.of_nat (length file);
  so_paddr : int64 (s64 (p_paddr ph) + off) = Ok (s64 (p_paddr ph) + off);
  so_end : p_paddr ph + p_memsz ph <= UINT64_MAX;
  so_zero : p_filesz ph < p_memsz ph -> calloc_ok (p_memsz ph - p_filesz ph) = true;
}.

(** ** Lemmas *)

Lemma buf_load_range n buf off v : buf_load n buf off = Ok v -> 0 <= v < 2 ^ (8 * Z.of_nat n).
Proof.
  unfold buf_load. destruct (_ && _) eqn:E; [|done]. intros [= <-].
  pose proof (le_value_range (take n (drop (Z.to_nat off) buf))) as H.
  rewrite length_take, length_drop in H. by replace (n `min` (length buf - Z.to_nat off))%nat with n in H by lia.
Qed.

(** Reading the zero-filled buffer agrees with reading the file. *)
Lemma buf_load_app n buf z off v : buf_load n buf off = Ok v -> buf_load n (buf ++ z) off = Ok v.
Proof.
  unfold buf_load. destruct (_ && _) eqn:E; [|done]. intros [= <-]. rewrite length_app.
  replace ((0 <=? off) && (off + Z.of_nat n <=? Z.of_nat (length buf + length z))) with true by lia.
  rewrite drop_app_le, take_app_le by (rewrite ?length_drop; lia). done.
Qed.

Lemma read_phdr_app buf z off ph : read_phdr buf off = Ok ph -> read_phdr (buf ++ z) off = Ok ph.
Proof.
  unfold read_phdr. intros H. repeat (apply bind_Ok_inv in H; destruct H as (? & Hb & H);
    rewrite (buf_load_app _ _ _ _ _ Hb); cbn [mbind result_bind]; clear Hb). done.
Qed.

Lemma read_phdr_range buf off ph : read_phdr buf off = Ok ph ->
  is_u32 (p_type ph) /\ Forall is_u64 [p_offset ph; p_paddr ph; p_filesz ph; p_memsz ph].
Proof.
  unfold read_phdr. intros H. repeat (apply bind_Ok_inv in H; let Hb := fresh "Hb" in destruct H as (? & Hb & H);
    apply buf_load_range in Hb). injection H as <-. cbn.
  unfold is_u32, is_u64, UINT32_MAX, UINT64_MAX. split; [lia|]. repeat constructor; lia.
Qed.

Section runs.
Context {a : Arch} {env : ToolEnv a}.

(** The program returns, having appended these calls. *)
Definition runs {A} (m : tool a A) (h : trace a) (x : A) (l : trace a) : Prop := m h = (inl x, h ++ l).

Lemma runs_ret {A} (x : A) h : runs (mret x) h x [].
Proof. unfold runs. by rewrite app_nil_r. Qed.

Lemma runs_bind {A B} (m : tool a A) (k : A -> tool a B) h x l y l' :
  runs m h x l -> runs (k x) (h ++ l) y l' -> runs (m ≫= k) h y (l ++ l').
Proof. unfold runs. intros Hm Hk. cbv [mbind tool_bind]. rewrite Hm, Hk. by rewrite app_assoc. Qed.

(** A first step without calls. *)
Lemma runs_pure {A B} (m : tool a A) (k : A -> tool a B) h x y l :
  runs m h x [] -> runs (k x) h y l -> runs (m ≫= k) h y l.
Proof. unfold runs. intros Hm Hk. cbv [mbind tool_bind]. by rewrite Hm, app_nil_r. Qed.

Lemma runs_or_crash {A B} (r : result A) (k : A -> tool a B) h x y l :
  r = Ok x -> runs (k x) h y l -> runs (or_crash r ≫= k) h y l.
Proof. intros ->. apply runs_pure, runs_ret. Qed.

(** A device that is there and accepts images. *)
Context (device_ready : forall h, dev_open h = true)
        (images_accepted : forall h buf size paddr, ioctl_ret h (HVISOR_LOAD_IMAGE buf size paddr) = 0).

Lemma load_buffer_runs buf size paddr h : 0 < size <= Z.of_nat (length buf) ->
  runs (load_buffer_to_memory buf size paddr) h (page_round size) [HVISOR_LOAD_IMAGE (take (Z.to_nat size) buf) size paddr].
Proof using device_ready images_accepted.
  intros Hs. unfold runs, load_buffer_to_memory. replace (size =? 0) with false by lia.
  cbv [mbind tool_bind open_dev]. rewrite device_ready. replace (Z.of_nat (length buf) <? size) with false by lia.
  unfold ioctl. rewrite images_accepted. done.
Qed.

(** An optional call. *)
Lemma load_when_runs (b : bool) buf size paddr h : (b = true -> 0 < size <= Z.of_nat (length buf)) ->
  runs (if b then load_buffer_to_memory buf size paddr else mret 0) h
    (if b then page_round size else 0)
    (if b then [HVISOR_LOAD_IMAGE (take (Z.to_nat size) buf) size paddr] else []).
Proof using device_ready images_accepted. intros Hs. destruct b; [by apply load_buffer_runs, Hs|apply runs_ret]. Qed.

Lemma load_zeros_runs n paddr h : 0 < n ->
  runs (load_buffer_to_memory (replicate (Z.to_nat n) 0) n paddr) h (page_round n)
    [HVISOR_LOAD_IMAGE (replicate (Z.to_nat n) 0) n paddr].
Proof using device_ready images_accepted.
  intros Hn. pose proof (load_buffer_runs (replicate (Z.to_nat n) 0) n paddr h) as H.
  rewrite take_ge in H by (rewrite length_replicate; lia). apply H. rewrite length_replicate. lia.
Qed.

(** The lowest and highest address seen, after one more header. *)
Definition extent (mm : Z * Z) (ph : elf_phdr) : Z * Z :=
  if is_pt_load ph then (Z.min mm.1 (p_paddr ph), Z.max mm.2 (p_paddr ph + p_memsz ph)) else mm.

Lemma load_segment_runs file z e_phoff e_phentsize off i mm ph h :
  Z.of_nat (length file) < 2 ^ 62 -> i * e_phentsize <= INT_MAX -> read_phdr file (e_phoff + i * e_phentsize) = Ok ph ->
  (is_pt_load ph = true -> segment_ok file off ph) ->
  runs (load_segment (file ++ z) (Z.of_nat (length file)) e_phoff e_phentsize off i mm) h (extent mm ph)
    (segment_calls file off ph).
Proof using device_ready images_accepted.
  intros Hlen Hi Hph Hok. destruct (read_phdr_range _ _ _ Hph) as [_ Hr]. rewrite !Forall_cons in Hr.
  unfold is_u64, UINT64_MAX in Hr. destruct Hr as (Ho & Hpa & Hfs & Hms & _). unfold load_segment, phdr_off. replace (i * e_phentsize <=? INT_MAX) with true by lia.
  eapply runs_or_crash; [reflexivity|]. eapply runs_or_crash; [by apply read_phdr_app|].
  unfold extent, segment_calls. fold (is_pt_load ph). destruct (is_pt_load ph); [|apply runs_ret]. cbn [negb].
  destruct (Hok eq_refl) as [Hf Hp He Hc]. unfold UINT64_MAX in He. rewrite (u64_small (p_offset ph + p_filesz ph)) by lia.
  replace (Z.of_nat (length file) <? p_offset ph + p_filesz ph) with false by lia.
  eapply runs_or_crash; [exact Hp|]. fold (segment_hpa off ph).
  assert (take (Z.to_nat (p_filesz ph)) (drop (Z.to_nat (p_offset ph)) (file ++ z)) =
          take (Z.to_nat (p_filesz ph)) (drop (Z.to_nat (p_offset ph)) file)) as <-.
  { rewrite drop_app_le, take_app_le by (rewrite ?length_drop; lia). done. }
  eapply runs_bind; [apply load_when_runs; intros; rewrite length_drop, length_app; lia|]. rewrite <- (app_nil_r (if _ <? p_memsz ph then _ else _)).
  eapply (runs_bind _ _ _ (if p_filesz ph <? p_memsz ph then page_round (p_memsz ph - p_filesz ph) else 0)).
  { destruct (p_filesz ph <? p_memsz ph) eqn:Em; [|apply runs_ret]. rewrite Hc by lia. cbn [negb].
    apply load_zeros_runs. lia. }
  rewrite (u64_small (p_paddr ph + p_memsz ph)) by lia.
  replace (if p_paddr ph <? mm.1 then p_paddr ph else mm.1) with (Z.min mm.1 (p_paddr ph)) by (destruct (_ <? _) eqn:E; lia).
  replace (if mm.2 <? p_paddr ph + p_memsz ph then p_paddr ph + p_memsz ph else mm.2)
    with (Z.max mm.2 (p_paddr ph + p_memsz ph)) by (destruct (_ <? _) eqn:E; lia).
  apply runs_ret.
Qed.

Lemma load_segments_run file z e_phoff e_phentsize off : forall phs i mm h,
  Z.of_nat (length file) < 2 ^ 62 -> 0 <= i -> 0 <= e_phentsize -> (i + Z.of_nat (length phs)) * e_phentsize <= INT_MAX ->
  (forall j ph, phs !! j = Some ph -> read_phdr file (e_phoff + (i + Z.of_nat j) * e_phentsize) = Ok ph) ->
  Forall (fun ph => is_pt_load ph = true -> segment_ok file off ph) phs ->
  runs (for_range (length phs) i (load_segment (file ++ z) (Z.of_nat (length file)) e_phoff e_phentsize off) mm) h
    (foldl extent mm phs) (concat (segment_calls file off <$> phs)).
Proof using device_ready images_accepted.
  induction phs as [|ph phs IH]; intros i mm h Hlen Hi He Hm Hph Hok; [apply runs_ret|].
  cbn [length for_range foldl fmap list_fmap concat] in *. apply Forall_cons in Hok as [Ho Hok].
  eapply runs_bind.
  - apply load_segment_runs; [done|nia| |done]. specialize (Hph 0%nat ph eq_refl). by rewrite Z.add_0_r in Hph.
  - apply IH; [done|lia|done|nia| |done]. intros j q Hj. specialize (Hph (S j) q Hj).
    by replace (i + 1 + Z.of_nat j) with (i + Z.of_nat (S j)) by lia.
Qed.

Lemma foldl_extent phs : forall lo hi,
  foldl extent (lo, hi) phs =
  (foldl Z.min lo (p_paddr <$> List.filter is_pt_load phs),
   foldl Z.max hi ((fun ph => p_paddr ph + p_memsz ph) <$> List.filter is_pt_load phs)).
Proof.
  induction phs as [|ph phs IH]; intros lo hi; [done|]. cbn [foldl List.filter]. unfold extent at 2.
  destruct (is_pt_load ph); apply IH.
Qed.

(** The extent stays an interval of 64-bit addresses, or empty. *)
Lemma foldl_extent_range phs : forall mm,
  Forall (fun ph => is_pt_load ph = true -> 0 <= p_paddr ph <= p_paddr ph + p_memsz ph /\ p_paddr ph + p_memsz ph <= UINT64_MAX) phs ->
  0 <= mm.1 <= UINT64_MAX /\ 0 <= mm.2 <= UINT64_MAX /\ (mm.1 <> UINT64_MAX -> mm.1 <= mm.2) ->
  let r := foldl extent mm phs in
  0 <= r.1 <= UINT64_MAX /\ 0 <= r.2 <= UINT64_MAX /\ (r.1 <> UINT64_MAX -> r.1 <= r.2).
Proof.
  induction phs as [|ph phs IH]; intros mm Hok Hmm; [done|]. apply Forall_cons in Hok as [Ho Hok]. cbn [foldl].
  apply IH; [done|]. unfold extent. destruct (is_pt_load ph); [|done]. specialize (Ho eq_refl). simpl. lia.
Qed.

End runs.

(** Reading a file that is there. *)
Lemma read_file_runs {a} {env : ToolEnv a} path n bs h : file_content path = Some (n, bs) ->
  runs (read_file path) h
    (bs ++ replicate (Z.to_nat (page_round n - Z.of_nat (length bs))) 0, Z.of_nat (length bs)) [].
Proof. intros Hf. unfold read_file. rewrite Hf. apply runs_ret. Qed.

Section theorems.
Context {a : Arch} {env : ToolEnv a} {laws : ToolEnvLaws a}.

(** Loading a well-formed ELF kernel issues exactly the calls its program
    headers ask for, in order: the bytes of every loadable segment at its
    address, then zeros up to its size in memory; it reports the entry point of
    the file and the extent of the segments. *)
Theorem load_elf_kernel_exact path n file entry phs off h :
  (forall h, dev_open h = true) ->
  (forall h buf size paddr, ioctl_ret h (HVISOR_LOAD_IMAGE buf size paddr) = 0) ->
  file_content path = Some (n, file) -> elf_image file entry phs ->
  Forall (fun ph => is_pt_load ph = true -> segment_ok file off ph) phs ->
  load_elf_kernel path off h = (inl (entry, elf_span phs), h ++ concat (segment_calls file off <$> phs)).
Proof.
  intros Hd Hi Hf [Hid He Hn (phoff & phent & Hpo & Hpe & Hmul & Htab)] Hok.
  destruct (file_content_ok path n file Hf) as [Hlen _].
  change (runs (load_elf_kernel path off) h (entry, elf_span phs) (concat (segment_calls file off <$> phs))).
  unfold load_elf_kernel. eapply runs_pure; [by apply read_file_runs|]. cbv beta iota.
  set (z := replicate _ 0).
  assert (forall i b, [0x7f; 69; 76; 70; 2] !! i = Some b -> buf_load 1 (file ++ z) (Z.of_nat i) = Ok b) as Hid'
    by (intros; by apply buf_load_app, Hid).
  do 4 (eapply runs_or_crash; [first [exact (Hid' 0%nat _ eq_refl) | exact (Hid' 1%nat _ eq_refl) |
    exact (Hid' 2%nat _ eq_refl) | exact (Hid' 3%nat _ eq_refl)]|]).
  lazymatch goal with |- runs (if ?b then _ else _) _ _ _ => change b with false end.
  eapply runs_or_crash; [exact (Hid' 4%nat _ eq_refl)|].
  lazymatch goal with |- runs (if ?b then _ else _) _ _ _ => change b with false end.
  do 4 (eapply runs_or_crash; [by apply buf_load_app|]). rewrite Nat2Z.id.
  rewrite <- (app_nil_r (concat _)). eapply runs_bind.
  { apply load_segments_run; [done|done|lia|lia|apply buf_load_range in Hpe; lia|rewrite Z.add_0_l; lia| |done].
    intros j ph Hj. rewrite Z.add_0_l. by apply Htab. }
  assert (Forall (fun ph => is_pt_load ph = true -> 0 <= p_paddr ph <= p_paddr ph + p_memsz ph /\
    p_paddr ph + p_memsz ph <= UINT64_MAX) phs) as Hr.
  { apply Forall_lookup. intros i ph Hph Hl. destruct (proj1 (Forall_lookup _ _) Hok i ph Hph Hl) as [_ _ Hend _].
    destruct (read_phdr_range _ _ _ (Htab i ph Hph)) as [_ Hu]. rewrite !Forall_cons in Hu. unfold is_u64 in Hu. lia. }
  apply (foldl_extent_range phs (UINT64_MAX, 0)) in Hr; [|unfold UINT64_MAX; simpl; lia].
  rewrite foldl_extent in *. cbv beta iota. unfold elf_span. unfold UINT64_MAX in *. simpl in Hr.
  destruct (_ =? 2 ^ 64 - 1) eqn:El; [apply runs_ret|]. rewrite u64_small by lia. apply runs_ret.
Qed.

(** The bound on a segment is computed modulo 2^64: a header whose offset and
    size wrap around passes it, and the loader reads outside the image. *)
Theorem load_segment_bound_wraps elf file_size phoff phent off i mm ph h :
  (forall h, dev_open h = true) ->
  phdr_off phoff phent i = Ok (phoff + i * phent) -> read_phdr elf (phoff + i * phent) = Ok ph ->
  is_pt_load ph = true -> int64 (s64 (p_paddr ph) + off) = Ok (s64 (p_paddr ph) + off) ->
  Z.of_nat (length elf) <= p_offset ph -> 2 ^ 64 <= p_offset ph + p_filesz ph ->
  p_offset ph + p_filesz ph - 2 ^ 64 <= file_size ->
  load_segment elf file_size phoff phent off i mm h = (inr (Crash OutOfBounds), h).
Proof.
  intros Hd Ho Hph Hl Hs Hlen Hw Hb. destruct (read_phdr_range _ _ _ Hph) as [_ Hr]. rewrite !Forall_cons in Hr.
  unfold is_u64, UINT64_MAX in Hr. destruct Hr as (H1 & H2 & H3 & H4 & _). unfold load_segment. rewrite Ho.
  cbv [or_crash mbind tool_bind mret tool_ret]. rewrite Hph. fold (is_pt_load ph). rewrite Hl. cbn [negb].
  replace (u64 (p_offset ph + p_filesz ph)) with (p_offset ph + p_filesz ph - 2 ^ 64).
  2: { unfold u64. rewrite <- (Z.mod_small (p_offset ph + p_filesz ph - 2 ^ 64) (2 ^ 64)) by lia.
       rewrite <- (Z.mod_add (p_offset ph + p_filesz ph - 2 ^ 64) 1 (2 ^ 64)) by lia. f_equal. lia. }
  replace (file_size <? p_offset ph + p_filesz ph - 2 ^ 64) with false by lia. rewrite Hs.
  replace (0 <? p_filesz ph) with true by lia. unfold load_buffer_to_memory. replace (p_filesz ph =? 0) with false by lia.
  cbv [mbind tool_bind open_dev]. rewrite Hd, length_drop.
  by replace (Z.of_nat (length elf - Z.to_nat (p_offset ph)) <? p_filesz ph) with true by lia.
Qed.

(** ** The loader keeps to image loading and to its types *)

Lemma load_segment_spec (E : stop -> Prop) elf fsz phoff phent off i mm :
  (forall s, E s) -> is_u64 mm.1 /\ is_u64 mm.2 ->
  spec is_load E (load_segment elf fsz phoff phent off i mm) (fun r => is_u64 r.1 /\ is_u64 r.2).
Proof.
  intros HE Hmm. unfold load_segment.
  eapply spec_bind; [apply spec_or_crash; [auto|]; intros p Hp; exact I|]. intros p _.
  eapply spec_bind; [apply spec_or_crash; [auto|]; intros ph Hph; apply (read_phdr_range _ _ _ Hph)|].
  intros ph [_ Hr]. rewrite !Forall_cons in Hr. destruct Hr as (H1 & H2 & H3 & H4 & _).
  destruct (negb _); [by apply spec_ret|]. destruct (fsz <? _); [by apply spec_minus1|].
  eapply spec_bind; [apply spec_or_crash; [auto|]; intros sum _; exact I|]. intros sum _.
  eapply (spec_bind _ _ (fun _ => True)).
  { destruct (0 <? _); [|by apply spec_ret]. eapply spec_conseq; [apply load_buffer_spec; auto; unfold is_u64 in *; lia|done]. }
  intros _ _. eapply (spec_bind _ _ (fun _ => True)).
  { destruct (_ <? _) eqn:Ez; [|by apply spec_ret]. destruct (negb _); [by apply spec_minus1|].
    eapply spec_conseq; [apply load_buffer_spec; auto; lia|done]. }
  intros _ _. apply spec_ret. cbn. split; destruct (_ <? _); first [apply is_u64_u64 | tauto].
Qed.

Lemma load_elf_spec (E : stop -> Prop) path off :
  (forall s, E s) -> spec is_load E (load_elf_kernel path off) (fun r => is_u64 r.1 /\ is_u64 r.2).
Proof.
  intros HE. unfold load_elf_kernel. eapply spec_bind; [apply read_file_spec; [done|by intros ? ?]|]. intros [elf fsz] _.
  assert (forall n o, spec (a:=a) is_load E (or_crash (buf_load n elf o)) (fun v => 0 <= v < 2 ^ (8 * Z.of_nat n))) as Hb
    by (intros; apply spec_or_crash; [auto|]; intros v; apply buf_load_range).
  do 4 (eapply spec_bind; [apply Hb|]; intros ? _). destruct (negb _); [by apply spec_minus1|].
  eapply spec_bind; [apply Hb|]; intros ? _. destruct (negb _); [by apply spec_minus1|].
  eapply spec_bind; [apply Hb|]; intros entry Hentry. do 3 (eapply spec_bind; [apply Hb|]; intros ? _).
  eapply spec_bind; [apply (spec_for_range _ (fun _ mm => is_u64 mm.1 /\ is_u64 mm.2))|].
  - unfold is_u64, UINT64_MAX. simpl. lia.
  - intros. by apply load_segment_spec.
  - intros [lo hi] [_ _]. apply spec_ret. cbn. split; [unfold is_u64, UINT64_MAX; simpl in Hentry; lia|].
    destruct (_ =? _); auto with hvisor.
Qed.

End theorems.

Section prepare_lemmas.
Context {J : Type} {cj : CJson J}.

Lemma parse_linux_u64_range (o : option J) v : parse_json_linux_u64 o = Some v -> is_u64 v.
Proof. apply parse_json_max_range. unfold UINT64_MAX. lia. Qed.

Lemma parse_linux_u32_range (o : option J) v : parse_json_linux_u32 o = Some v -> is_u32 v.
Proof. apply parse_json_max_range. unfold UINT32_MAX. lia. Qed.

Lemma parse_linux_u8_range (o : option J) v : parse_json_linux_u8 o = Some v -> is_u8 v.
Proof. apply parse_json_max_range. unfold UINT8_MAX. lia. Qed.

(** Updates of the x86 part with words. *)
Lemma x86_update_ok f (c : zone_config X86_64) :
  (arch_ok X86_64 (arch_config c) -> arch_ok X86_64 (f (arch_config c))) -> zone_config_ok c ->
  zone_config_ok (set_x86 f c) /\ same_resources c (set_x86 f c).
Proof. intros Hf Hc. split; [by apply set_x86_ok|by repeat split]. Qed.

Lemma prepare_x86_spec {env : ToolEnv X86_64} {laws : ToolEnvLaws X86_64} (E : stop -> Prop) (root : option J) c :
  (forall s, E s) -> zone_config_ok c ->
  spec is_load E (multiboot2_prepare_zone_x86 c root) (fun r => zone_config_ok r.1 /\ same_resources c r.1).
Proof.
  intros HE Hc. unfold multiboot2_prepare_zone_x86.
  assert (forall r, spec (a:=X86_64) (A:=Z) is_load E (or_crash r) (fun _ => True)) as Hcr
    by (intros; apply spec_or_crash; auto).
  assert (forall o : option J, spec (a:=X86_64) is_load E (or_minus1 (parse_json_linux_u64 o)) is_u64) as Hu
    by (intros; apply spec_or_minus1; [auto|]; apply parse_linux_u64_range).
  eapply spec_bind; [apply Hcr|]. intros off _.
  eapply (spec_bind _ _ (fun _ => True)); [apply spec_or_minus1; auto|]. intros path _.
  eapply spec_bind; [by apply load_elf_spec|]. intros [entry total] [He Ht]. cbn in He, Ht.
  set (c1 := set_x86 _ (set_kernel_size total c)).
  assert (zone_config_ok c1 /\ same_resources c c1) as Hc1.
  { unfold c1. split; [|by repeat split]. apply set_x86_ok; [auto with hvisor|].
    cbn. rewrite !Forall_cons. tauto. }
  clearbody c1. eapply (spec_bind _ _ is_u64).
  { destruct (SAFE_CJSON_GET_OBJECT_ITEM _ _); [apply Hu|]. apply spec_ret. unfold is_u64, UINT64_MAX. lia. }
  intros info Hinfo. eapply (spec_bind _ _ (fun _ => True)).
  { repeat case_match; try by apply spec_ret. eapply spec_bind; [apply Hu|]. intros ? _.
    eapply spec_bind; [apply Hcr|]. intros ? _. eapply spec_conseq; [apply load_image_spec; [done|by intros ? ?]|done]. }
  intros _ _. eapply (spec_bind _ _ is_u64); [destruct (SAFE_CJSON_GET_OBJECT_ITEM _ _); [apply Hu|by apply spec_ret]|].
  intros gpa Hgpa. eapply (spec_bind _ _ (fun c2 => zone_config_ok c2 /\ same_resources c c2)).
  { destruct (String.eqb _ _); [by apply spec_ret|]. eapply spec_bind; [apply Hcr|]. intros sum _.
    eapply spec_bind; [apply load_buffer_spec; [done|done|unfold strlen; lia]|]. intros ? _. apply spec_ret.
    destruct Hc1 as [H1 H2]. split; [apply set_x86_ok; [done|]; cbn; rewrite !Forall_cons; tauto|].
    etransitivity; [exact H2|by repeat split]. }
  intros c2 Hc2. eapply (spec_bind _ _ (fun c2 => zone_config_ok c2 /\ same_resources c c2)).
  { repeat case_match; try by apply spec_ret. eapply spec_bind; [apply Hu|]. intros g Hg.
    eapply spec_bind; [apply Hcr|]. intros ? _. eapply spec_bind; [apply load_image_spec; [done|by intros ? ?]|]. intros size Hsz.
    apply spec_ret. destruct Hc2 as [Hk1 Hk2]. split; [|etransitivity; [exact Hk2|by repeat split]].
    apply set_x86_ok; [apply set_x86_ok; [done|]|]; cbn; rewrite !Forall_cons; tauto. }
  intros c3 Hc3. by apply spec_ret.
Qed.

Lemma prepare_spec {a} {env : ToolEnv a} {laws : ToolEnvLaws a} (E : stop -> Prop) mode (root : option J) c :
  (forall s, E s) -> zone_config_ok c ->
  spec is_load E (boot_mode_prepare_zone mode c root) (fun r => zone_config_ok r.2 /\ same_resources c r.2 /\ kind r.1 = kind mode).
Proof.
  intros HE Hc. unfold boot_mode_prepare_zone. destruct (kind mode) eqn:Ek; [by apply spec_ret|].
  eapply (spec_bind _ _ (fun r => zone_config_ok r.1 /\ same_resources c r.1)).
  - destruct a; try by apply spec_minus1. by apply prepare_x86_spec.
  - intros [c' info] [H1 H2]. by apply spec_ret.
Qed.

End prepare_lemmas.

(** ** An example image *)

Definition demo_phdr (ty off pa fs ms : Z) : list Z :=
  le_bytes 4 ty ++ le_bytes 4 5 ++ le_bytes 8 off ++ le_bytes 8 0 ++ le_bytes 8 pa ++ le_bytes 8 fs ++
  le_bytes 8 ms ++ le_bytes 8 0x1000.

(** A kernel of four bytes of code, eight bytes of zeroed data and a note. *)
Definition demo_elf : list Z :=
  [0x7f; 69; 76; 70; 2; 1; 1] ++ replicate 9 0 ++ le_bytes 8 0 ++ le_bytes 8 0x100000 ++ le_bytes 8 64 ++
  replicate 14 0 ++ le_bytes 2 56 ++ le_bytes 2 2 ++ replicate 6 0 ++
  demo_phdr 4 0 0 0 0 ++ demo_phdr 1 176 0x100000 4 12 ++ [0x90; 0x90; 0xeb; 0xfc].

Definition demo_phs : list elf_phdr :=
  [{| p_type := 4; p_offset := 0; p_paddr := 0; p_filesz := 0; p_memsz := 0 |};
   {| p_type := 1; p_offset := 176; p_paddr := 0x100000; p_filesz := 4; p_memsz := 12 |}].

(** An environment with this file in which every call succeeds. *)
Definition demo_env (a : Arch) : ToolEnv a := {|
  page_size := 0x1000;
  file_content p := if String.eqb p "kernel.elf" then Some (180, demo_elf) else None;
  buffer_null _ := false;
  log_info_on := true;
  file_access _ := true;
  calloc_ok _ := true;
  dev_open _ := true;
  ioctl_ret _ _ := 0;
  ecam_out _ := 0;
  version_out _ := CONFIG_MAGIC_VERSION;
  list_out _ := [];
|}.

Lemma demo_laws a : @ToolEnvLaws a (demo_env a).
Proof.
  constructor.
  - exists 12. split; [lia|done].
  - intros p n bs. cbn -[demo_elf]. destruct (String.eqb _ _); [|done]. intros [= <- <-]. split; [by vm_compute|].
    unfold is_u8, UINT8_MAX. apply (bool_decide_unpack _). by vm_compute.
  - intros h. apply is_u64_0.
  - intros h. unfold is_u64. by vm_compute.
Qed.

Lemma load_elf_kernel_exact_witness :
  @load_elf_kernel X86_64 (demo_env X86_64) "kernel.elf" 0x3a000000 [] =
  (inl (0x100000, 12),
   [HVISOR_LOAD_IMAGE [0x90; 0x90; 0xeb; 0xfc] 4 0x3a100000;
    HVISOR_LOAD_IMAGE [0; 0; 0; 0; 0; 0; 0; 0] 8 0x3a100004]).
Proof.
  pose proof (demo_laws X86_64) as laws.
  apply (load_elf_kernel_exact (env := demo_env X86_64) "kernel.elf" 180 demo_elf 0x100000 demo_phs 0x3a000000 []).
  - reflexivity.
  - reflexivity.
  - reflexivity.
  - constructor; [| reflexivity | reflexivity | exists 64, 56; repeat split; [by vm_compute|]].
    + intros i b. do 5 (destruct i as [|i]; [intros [= <-]; reflexivity|]). done.
    + intros i ph. do 2 (destruct i as [|i]; [intros [= <-]; reflexivity|]). done.
  - repeat constructor; try done; by vm_compute.
Defined.
