(* ===== verification/ZoneParse.v ===== *)
(** * Zone configuration files

    The parsers of [tools/hvisor.c]: modules, the architecture section, PCI buses and
    devices, and the sections of [zone_start_from_json] for CPUs, memory regions,
    interrupts and IVC channels.  [CHECK_JSON_NULL] and a number that does not
    parse both end in -1, and the number parsers reject NULL, so a required
    number is one step here. *)

From Stdlib Require Import String Ascii.
From S2P Require Import Prelude Json ZoneConfig Loader Boot.

Section parse.
Context {J : Type} {cj : CJson J} {a : Arch}.

(** ** Access to items *)

Definition u64_item (o : option J) : tool a Z := or_minus1 (parse_json_linux_u64 o).
Definition u32_item (o : option J) : tool a Z := or_minus1 (parse_json_linux_u32 o).
Definition u8_item (o : option J) : tool a Z := or_minus1 (parse_json_linux_u8 o).

(** [o->valueint], without a check of [o]. *)
Definition deref_int (o : option J) : tool a Z :=
  match o with
  | Some j => mret (valueint j)
  | None => crash NullDeref
  end.

(** [o->valuestring], handed to a function that reads the string. *)
Definition deref_string (o : option J) : tool a string :=
  match o ≫= valuestring_of with
  | Some s => mret s
  | None => crash NullDeref
  end.

(** ** [parse_modules] *)

Definition parse_module {env : ToolEnv a} (modules_json : option J) (i : Z) (_ : unit) : tool a unit :=
  let module_json := SAFE_CJSON_GET_ARRAY_ITEM modules_json i in
  let item k := SAFE_CJSON_GET_OBJECT_ITEM module_json k in
  _name ← or_minus1 (item "name"%string ≫= valuestring_of);
  filepath ← or_minus1 (item "filepath"%string ≫= valuestring_of);
  _paddr ← or_minus1 (item "load_paddr"%string ≫= valuestring_of);
  if negb (file_access filepath) then minus1
  else
    item_load_paddr ← or_minus1 (parse_json_address (item "load_paddr"%string));
    _size ← load_image_to_memory filepath item_load_paddr;
    mret tt.

Definition parse_modules {env : ToolEnv a} (modules_json : option J) : tool a unit :=
  match modules_json with
  | None => mret tt
  | Some j =>
      if negb (cJSON_IsArray j) then mret tt
      else for_range (Z.to_nat (SAFE_CJSON_GET_ARRAY_SIZE modules_json)) 0 (parse_module modules_json) tt
  end.

(** ** [parse_arch_config] *)

Definition parse_gicv2 (item : string -> option J) : tool a GicConfig :=
  gicd_base ← u64_item (item "gicd_base"%string);
  gicd_size ← u64_item (item "gicd_size"%string);
  gicc_base ← u64_item (item "gicc_base"%string);
  gicc_size ← u64_item (item "gicc_size"%string);
  gicc_offset ← u64_item (item "gicc_offset"%string);
  gich_base ← u64_item (item "gich_base"%string);
  gich_size ← u64_item (item "gich_size"%string);
  gicv_base ← u64_item (item "gicv_base"%string);
  gicv_size ← u64_item (item "gicv_size"%string);
  mret (Gicv2Payload 0
    {| v2_gicd_base := gicd_base; v2_gicd_size := gicd_size; gicc_base := gicc_base; gicc_size := gicc_size;
       gicc_offset := gicc_offset; gich_base := gich_base; gich_size := gich_size;
       gicv_base := gicv_base; gicv_size := gicv_size |}).

(** The ITS fields stay zero when one of them is missing. *)
Definition parse_gicv3 (item : string -> option J) : tool a GicConfig :=
  gicd_base ← u64_item (item "gicd_base"%string);
  gicd_size ← u64_item (item "gicd_size"%string);
  gicr_base ← u64_item (item "gicr_base"%string);
  gicr_size ← u64_item (item "gicr_size"%string);
  '(gits_base, gits_size) ←
    match item "gits_base"%string, item "gits_size"%string with
    | Some b, Some s =>
        gits_base ← u64_item (Some b);
        gits_size ← u64_item (Some s);
        mret (gits_base, gits_size)
    | _, _ => mret (0, 0)
    end;
  mret (Gicv3Payload 1
    {| v3_gicd_base := gicd_base; v3_gicd_size := gicd_size; gicr_base := gicr_base; gicr_size := gicr_size;
       gits_base := gits_base; gits_size := gits_size |}).

Definition parse_uefi (item : string -> option J) : tool a UefiConfig :=
  match item "memory_map_addr"%string with
  | None => mret (NoUefi 1)
  | Some j =>
      addr ← u64_item (Some j);
      size ← u64_item (item "memory_map_size"%string);
      sys ← u64_item (item "sys_map_addr"%string);
      mret (UefiPayload 0 {| memory_map_addr := addr; memory_map_size := size; sys_map_addr := sys |})
  end.

Definition parse_arch_arm (arch_config_json : option J) : tool a arm_zone_config :=
  let item k := SAFE_CJSON_GET_OBJECT_ITEM arch_config_json k in
  version ← or_minus1 (item "gic_version"%string);
  gic_version ← deref_string (Some version);
  gic ← (if String.eqb gic_version "v2" then parse_gicv2 item
         else if String.eqb gic_version "v3" then parse_gicv3 item
         else minus1);
  let aarch32 := match item "is_aarch32"%string with
                 | None => 0
                 | Some j => u8 (valueint j)
                 end in
  uefi ← parse_uefi item;
  mret {| is_aarch32 := aarch32; gic_config := gic; uefi_config := uefi |}.

Definition parse_arch_riscv (arch_config_json : option J) : tool a riscv_zone_config :=
  let item k := SAFE_CJSON_GET_OBJECT_ITEM arch_config_json k in
  plic_base ← u64_item (item "plic_base"%string);
  plic_size ← u64_item (item "plic_size"%string);
  aplic_base ← u64_item (item "aplic_base"%string);
  aplic_size ← u64_item (item "aplic_size"%string);
  mret {| plic_base := plic_base; plic_size := plic_size; aplic_base := aplic_base; aplic_size := aplic_size |}.

Definition parse_arch_x86 {env : ToolEnv a} (root arch_config_json : option J) (c : x86_zone_config) : tool a x86_zone_config :=
  let item k := SAFE_CJSON_GET_OBJECT_ITEM arch_config_json k in
  let multiboot_enabled := boot_mode_is_multiboot2 root in
  ioapic_base ← u64_item (item "ioapic_base"%string);
  ioapic_size ← u64_item (item "ioapic_size"%string);
  let c := set_ioapic_size ioapic_size (set_ioapic_base ioapic_base c) in
  c ← (if multiboot_enabled then mret c
       else entry ← u64_item (item "kernel_entry_gpa"%string); mret (set_kernel_entry_gpa entry c));
  match item "boot_filepath"%string with
  | Some j =>
      if multiboot_enabled then mret tt
      else
        boot_load_paddr ← u64_item (item "boot_load_paddr"%string);
        path ← deref_string (Some j);
        _size ← load_image_to_memory path boot_load_paddr;
        mret tt
  | None => mret tt
  end ≫= fun _ =>
  c ← match item "setup_filepath"%string with
      | Some j =>
          gpa ← u64_item (item "setup_load_gpa"%string);
          hpa ← u64_item (item "setup_load_hpa"%string);
          path ← deref_string (Some j);
          _size ← load_image_to_memory path hpa;
          mret (set_setup_load_gpa gpa c)
      | None => mret c
      end;
  c ← match item "cmdline"%string with
      | Some j =>
          gpa ← u64_item (item "cmdline_load_gpa"%string);
          hpa ← u64_item (item "cmdline_load_hpa"%string);
          str ← deref_string (Some j);
          _size ← load_str_to_memory str hpa;
          mret (set_cmdline_load_gpa gpa c)
      | None => mret c
      end;
  c ← match item "initrd_filepath"%string with
      | Some j =>
          gpa ← u64_item (item "initrd_load_gpa"%string);
          hpa ← u64_item (item "initrd_load_hpa"%string);
          path ← deref_string (Some j);
          size ← load_image_to_memory path hpa;
          mret (set_initrd_size size (set_initrd_load_gpa gpa c))
      | None => mret c
      end;
  rsdp ← u64_item (item "rsdp_memory_region_id"%string);
  acpi ← u64_item (item "acpi_memory_region_id"%string);
  uefi ← u64_item (item "uefi_memory_region_id"%string);
  screen ← u64_item (item "screen_base"%string);
  mret (set_screen_base screen (set_uefi_memory_region_id uefi
         (set_acpi_memory_region_id acpi (set_rsdp_memory_region_id rsdp c)))).

(** Only called on architectures other than LoongArch. *)
Definition parse_arch {env : ToolEnv a} (root arch_config_json : option J) : arch_zone_config a -> tool a (arch_zone_config a) :=
  match a as b return (arch_zone_config b -> tool a (arch_zone_config b)) with
  | ARM64 => fun _ => parse_arch_arm arch_config_json
  | RISCV64 => fun _ => parse_arch_riscv arch_config_json
  | LOONGARCH64 => fun c => mret c
  | X86_64 => parse_arch_x86 root arch_config_json
  end.

Definition parse_arch_config {env : ToolEnv a} (root : option J) (config : zone_config a) : tool a (zone_config a) :=
  arch_config_json ← or_minus1 (SAFE_CJSON_GET_OBJECT_ITEM root "arch_config"%string);
  arch ← parse_arch root (Some arch_config_json) (arch_config config);
  mret (set_arch_config arch config).

(** ** [parse_pci_config] *)

Definition parse_pci_bus (pci_config_json : option J) : tool a pci_config :=
  let item k := SAFE_CJSON_GET_OBJECT_ITEM pci_config_json k in
  ecam_base ← u64_item (item "ecam_base"%string);
  ecam_size ← u64_item (item "ecam_size"%string);
  io_base ← u64_item (item "io_base"%string);
  io_size ← u64_item (item "io_size"%string);
  pci_io_base ← u64_item (item "pci_io_base"%string);
  mem32_base ← u64_item (item "mem32_base"%string);
  mem32_size ← u64_item (item "mem32_size"%string);
  pci_mem32_base ← u64_item (item "pci_mem32_base"%string);
  mem64_base ← u64_item (item "mem64_base"%string);
  mem64_size ← u64_item (item "mem64_size"%string);
  pci_mem64_base ← u64_item (item "pci_mem64_base"%string);
  bus_range_begin ← u32_item (item "bus_range_begin"%string);
  bus_range_end ← u32_item (item "bus_range_end"%string);
  domain ← u8_item (item "domain"%string);
  mret {| ecam_base := ecam_base; ecam_size := ecam_size; io_base := io_base; io_size := io_size;
          pci_io_base := pci_io_base; mem32_base := mem32_base; mem32_size := mem32_size;
          pci_mem32_base := pci_mem32_base; mem64_base := mem64_base; mem64_size := mem64_size;
          pci_mem64_base := pci_mem64_base; bus_range_begin := bus_range_begin; bus_range_end := bus_range_end;
          pci_domain := domain |}.

(** The first field that parses is stored into slot [i], wherever that is: the count
    was not compared with the array.  A store past [alloc_pci_devs] is undefined, and
    the model follows the program no further. *)
Definition parse_pci_dev (dev_config_json : option J) (devs : list hv_pci_dev_config) (i : Z) : tool a hv_pci_dev_config :=
  let item k := SAFE_CJSON_GET_OBJECT_ITEM dev_config_json k in
  domain ← u8_item (item "domain"%string);
  if Z.of_nat (length devs) <=? i then crash OutOfBounds
  else
    bus ← u8_item (item "bus"%string);
    device ← u8_item (item "device"%string);
    function ← u8_item (item "function"%string);
    vbus ← u8_item (item "v_bus"%string);
    vdevice ← u8_item (item "v_device"%string);
    vfunction ← u8_item (item "v_function"%string);
    type ← u32_item (item "dev_type"%string);
    mret {| dev_domain := domain; dev_bus := bus; dev_device := device; dev_function := function;
            v_bus := vbus; v_device := vdevice; v_function := vfunction; dev_type := type |}.

Definition parse_pci_config (root : option J) (config : zone_config a) : tool a (zone_config a) :=
  pci_configs_json ← or_minus1 (SAFE_CJSON_GET_OBJECT_ITEM root "pci_config"%string);
  let num_pci_bus := SAFE_CJSON_GET_ARRAY_SIZE (Some pci_configs_json) in
  if CONFIG_PCI_BUS_MAXNUM <? num_pci_bus then minus1
  else
    let config := set_num_pci_bus (u64 num_pci_bus) config in
    buses ← for_range (Z.to_nat num_pci_bus) 0 (fun i arr =>
              p ← parse_pci_bus (SAFE_CJSON_GET_ARRAY_ITEM (Some pci_configs_json) i); array_set arr i p)
              (pci_configs config);
    let config := set_pci_configs buses config in
    let alloc_pci_devs_json := SAFE_CJSON_GET_OBJECT_ITEM root "alloc_pci_devs"%string in
    let num_pci_devs := SAFE_CJSON_GET_ARRAY_SIZE alloc_pci_devs_json in
    let config := set_num_pci_devs (u64 num_pci_devs) config in
    devs ← for_range (Z.to_nat num_pci_devs) 0 (fun i arr =>
             d ← parse_pci_dev (SAFE_CJSON_GET_ARRAY_ITEM alloc_pci_devs_json i) arr i; array_set arr i d)
             (alloc_pci_devs config);
    mret (set_alloc_pci_devs devs config).

(** ** The sections of [zone_start_from_json] *)

Definition parse_cpus (cpus_json : option J) (mask : Z) : tool a Z :=
  for_range (Z.to_nat (SAFE_CJSON_GET_ARRAY_SIZE cpus_json)) 0 (fun i acc =>
    v ← deref_int (SAFE_CJSON_GET_ARRAY_ITEM cpus_json i);
    if (0 <=? v) && (v <? 64) then mret (Z.lor acc (Z.shiftl 1 v)) else crash BadShift) mask.

Definition parse_memory_region (region : option J) : tool a memory_region :=
  physical ← u64_item (SAFE_CJSON_GET_OBJECT_ITEM region "physical_start"%string);
  virtual ← u64_item (SAFE_CJSON_GET_OBJECT_ITEM region "virtual_start"%string);
  size ← u64_item (SAFE_CJSON_GET_OBJECT_ITEM region "size"%string);
  type_str ← deref_string (SAFE_CJSON_GET_OBJECT_ITEM region "type"%string);
  type ← (if String.eqb type_str "ram" then mret MEM_TYPE_RAM
          else if String.eqb type_str "io" then mret MEM_TYPE_IO
          else if String.eqb type_str "virtio" then mret MEM_TYPE_VIRTIO
          else minus1);
  mret {| mr_type := type; physical_start := physical; virtual_start := virtual; mr_size := size |}.

Definition parse_memory_regions (memory_regions_json : option J) (regions : list memory_region) : tool a (list memory_region) :=
  for_range (Z.to_nat (SAFE_CJSON_GET_ARRAY_SIZE memory_regions_json)) 0 (fun i arr =>
    r ← parse_memory_region (SAFE_CJSON_GET_ARRAY_ITEM memory_regions_json i); array_set arr i r) regions.

(** [bitmap[irq / 32] |= 1 << (irq % 32)] *)
Definition set_irq (bitmap : list Z) (irq : Z) : tool a (list Z) :=
  let word_index := irq / CONFIG_INTERRUPTS_BITMAP_BITS_PER_WORD in
  let bit_index := irq `mod` CONFIG_INTERRUPTS_BITMAP_BITS_PER_WORD in
  word ← or_crash (of_index (bitmap !! Z.to_nat word_index));
  array_set bitmap word_index (Z.lor word (Z.shiftl 1 bit_index)).

Definition parse_interrupts (interrupts_json : option J) : tool a (list Z) :=
  for_range (Z.to_nat (SAFE_CJSON_GET_ARRAY_SIZE interrupts_json)) 0 (fun i bitmap =>
    irq ← or_minus1 (parse_json_size (SAFE_CJSON_GET_ARRAY_ITEM interrupts_json i));
    if CONFIG_MAX_INTERRUPTS <=? irq then minus1 else set_irq bitmap irq)
    (replicate (Z.to_nat (CONFIG_MAX_INTERRUPTS / CONFIG_INTERRUPTS_BITMAP_BITS_PER_WORD)) 0).

Definition parse_ivc_config (ivc_config_json : option J) : tool a ivc_config :=
  let item k := SAFE_CJSON_GET_OBJECT_ITEM ivc_config_json k in
  id ← deref_int (item "ivc_id"%string);
  peer ← deref_int (item "peer_id"%string);
  shared ← u64_item (item "shared_mem_ipa"%string);
  control ← u64_item (item "control_table_ipa"%string);
  rw ← u32_item (item "rw_sec_size"%string);
  out ← u32_item (item "out_sec_size"%string);
  intr ← deref_int (item "interrupt_num"%string);
  peers ← deref_int (item "max_peers"%string);
  mret {| ivc_id := u32 id; peer_id := u32 peer; control_table_ipa := control; shared_mem_ipa := shared;
          rw_sec_size := rw; out_sec_size := out; interrupt_num := u32 intr; max_peers := u32 peers |}.

Definition parse_ivc_configs (ivc_configs_json : option J) (ivcs : list ivc_config) : tool a (list ivc_config) :=
  for_range (Z.to_nat (SAFE_CJSON_GET_ARRAY_SIZE ivc_configs_json)) 0 (fun i arr =>
    v ← parse_ivc_config (SAFE_CJSON_GET_ARRAY_ITEM ivc_configs_json i); array_set arr i v) ivcs.

(** [strncpy(dst, s, n)] *)
Definition strncpy (s : string) (n : nat) : list Z :=
  let bs := take n (bytes_of s) in bs ++ replicate (n - length bs) 0.

End parse.

(** ** Documents of the expected shape

    What the parsers take for granted without a check: an item that is
    dereferenced is there, one that is used as a string is a string, CPU numbers
    fit the mask. *)

Section shape.
Context {J : Type} {cj : CJson J}.

Definition string_if_present (o : option J) : Prop := forall j, o = Some j -> cJSON_IsString j = true.

Definition all_items (P : J -> Prop) (o : option J) : Prop :=
  forall i j, SAFE_CJSON_GET_ARRAY_ITEM o i = Some j -> P j.

Definition cpu_shape (j : J) : Prop := 0 <= valueint j < 64.

Definition region_shape (j : J) : Prop :=
  exists t, cJSON_GetObjectItem j "type"%string = Some t /\ cJSON_IsString t = true.

Definition ivc_shape (j : J) : Prop :=
  Forall (fun k => is_Some (cJSON_GetObjectItem j k)) ["ivc_id"; "peer_id"; "interrupt_num"; "max_peers"]%string.

Definition arch_shape (a : Arch) (o : option J) : Prop :=
  match a with
  | ARM64 => string_if_present (SAFE_CJSON_GET_OBJECT_ITEM o "gic_version"%string)
  | X86_64 => Forall (fun k => string_if_present (SAFE_CJSON_GET_OBJECT_ITEM o k))
                ["boot_filepath"; "setup_filepath"; "cmdline"; "initrd_filepath"]%string
  | _ => True
  end.

(** The interrupts, CPUs and regions a document lists. *)
Definition listed_cpu (o : option J) (n : Z) : Prop :=
  exists i j, 0 <= i < SAFE_CJSON_GET_ARRAY_SIZE o /\ SAFE_CJSON_GET_ARRAY_ITEM o i = Some j /\ valueint j = n.

Definition listed_irq (o : option J) (irq : Z) : Prop :=
  exists i, 0 <= i < SAFE_CJSON_GET_ARRAY_SIZE o /\ parse_json_size (SAFE_CJSON_GET_ARRAY_ITEM o i) = Some irq.

(** The names of the region types. *)
Definition region_type (s : string) : option Z :=
  if String.eqb s "ram" then Some MEM_TYPE_RAM
  else if String.eqb s "io" then Some MEM_TYPE_IO
  else if String.eqb s "virtio" then Some MEM_TYPE_VIRTIO
  else None.

(** The region an item describes. *)
Definition region_of (o : option J) (r : memory_region) : Prop :=
  parse_json_linux_u64 (SAFE_CJSON_GET_OBJECT_ITEM o "physical_start"%string) = Some (physical_start r) /\
  parse_json_linux_u64 (SAFE_CJSON_GET_OBJECT_ITEM o "virtual_start"%string) = Some (virtual_start r) /\
  parse_json_linux_u64 (SAFE_CJSON_GET_OBJECT_ITEM o "size"%string) = Some (mr_size r) /\
  (SAFE_CJSON_GET_OBJECT_ITEM o "type"%string ≫= valuestring_of) ≫= region_type = Some (mr_type r).

End shape.

(** ** Specifications of the parsers

    Each holds for every way of stopping [E] that allows -1 and exit(1), and
    either allows crashes too or the document has the expected shape. *)

Section items.
Context {J : Type} {cj : CJson J} {jlaws : CJsonLaws J} {a : Arch} {env : ToolEnv a} {laws : ToolEnvLaws a}.
Context {E : stop -> Prop} (Em : E Minus1) (Ex : E (Exit 1)) (Ebuf : buffers_safe E).

Lemma array_item_in_range (o : option J) i : 0 <= i < SAFE_CJSON_GET_ARRAY_SIZE o -> is_Some (SAFE_CJSON_GET_ARRAY_ITEM o i).
Proof using jlaws.
  destruct o as [j|]; cbn; [|lia]. intros Hi. replace ((i <? 0) || (cJSON_GetArraySize j <=? i)) with false by lia.
  by apply array_item_some.
Qed.

Lemma array_size_range (o : option J) : 0 <= SAFE_CJSON_GET_ARRAY_SIZE o.
Proof using jlaws. destruct o; cbn; [apply array_size_nonneg|lia]. Qed.

Lemma u64_item_spec (o : option J) :
  spec (a:=a) is_load E (u64_item o) (fun v => parse_json_linux_u64 o = Some v /\ is_u64 v).
Proof using Em. apply spec_or_minus1; [done|]. intros v Hv. split; [done|]. by eapply parse_linux_u64_range. Qed.

Lemma u32_item_spec (o : option J) : spec (a:=a) is_load E (u32_item o) is_u32.
Proof using Em. apply spec_or_minus1; [done|]. intros v Hv. by eapply parse_linux_u32_range. Qed.

Lemma u8_item_spec (o : option J) : spec (a:=a) is_load E (u8_item o) is_u8.
Proof using Em. apply spec_or_minus1; [done|]. intros v Hv. by eapply parse_linux_u8_range. Qed.

Lemma deref_int_spec (o : option J) : is_Some o \/ (forall s, E s) ->
  spec (a:=a) is_load E (deref_int o) (fun v => exists j, o = Some j /\ v = valueint j).
Proof using Type. intros Hs. destruct o as [j|]; [apply spec_ret; eauto|]. destruct Hs as [[? ?]|Hs]; [done|]. apply spec_crash, Hs. Qed.

Lemma deref_string_spec (o : option J) : is_Some (o ≫= valuestring_of) \/ (forall s, E s) ->
  spec (a:=a) is_load E (deref_string o) (fun s => o ≫= valuestring_of = Some s).
Proof using Type.
  intros Hs. unfold deref_string. destruct (o ≫= valuestring_of); [by apply spec_ret|].
  destruct Hs as [[? ?]|Hs]; [done|]. apply spec_crash, Hs.
Qed.

Lemma string_present (j : J) o : o = Some j -> string_if_present o \/ (forall s, E s) ->
  is_Some (Some j ≫= valuestring_of) \/ (forall s, E s).
Proof using Type.
  intros Ho [H|H]; [left|by right]. cbn. unfold valuestring_of. rewrite (H j Ho). eauto.
Qed.

(** A section that only loads images. *)
Lemma parse_modules_spec (o : option J) : spec is_load E (parse_modules o) (fun _ => True).
Proof using Em Ex Ebuf laws.
  unfold parse_modules. destruct o as [j|]; [|by apply spec_ret]. destruct (negb _); [by apply spec_ret|].
  apply (spec_for_range _ (fun _ _ => True)); [done|]. intros i [] _ _. unfold parse_module.
  do 3 (eapply (spec_bind _ _ (fun _ => True)); [by apply spec_or_minus1|]; intros ? _).
  destruct (negb _); [by apply spec_minus1|].
  eapply (spec_bind _ _ (fun _ => True)); [by apply spec_or_minus1|]. intros ? _.
  eapply spec_bind; [by apply load_image_spec|]. intros ? _. by apply spec_ret.
Qed.

End items.

(** Read one number after the other. *)
Ltac numbers := repeat (eapply spec_bind; [first [eapply u64_item_spec | eapply u32_item_spec | eapply u8_item_spec]; eassumption|];
  let H := fresh "Hv" in intros ? H; cbv beta in H; lazymatch type of H with _ /\ _ => destruct H as [? H] | _ => idtac end).

(** The fields of a struct just read have the values of their types. *)
Ltac struct_ok := cbn in *; rewrite ?Forall_cons in *; wf; try tauto.

Section lemmas.
Context {J : Type} {cj : CJson J} {a : Arch} {env : ToolEnv a} {laws : ToolEnvLaws a}.
Context {E : stop -> Prop} (Em : E Minus1) (Ex : E (Exit 1)) (Ebuf : buffers_safe E).

Lemma parse_gicv2_spec (item : string -> option J) : spec (a:=a) is_load E (parse_gicv2 item) gic_ok.
Proof using Em. unfold parse_gicv2. numbers. apply spec_ret. struct_ok. Qed.

Lemma parse_gicv3_spec (item : string -> option J) : spec (a:=a) is_load E (parse_gicv3 item) gic_ok.
Proof using Em.
  unfold parse_gicv3. numbers. eapply (spec_bind _ _ (fun r => is_u64 r.1 /\ is_u64 r.2)).
  - repeat case_match; try (apply spec_ret; struct_ok). numbers. apply spec_ret. struct_ok.
  - intros [b z] [Hb Hz]. cbn in Hb, Hz. apply spec_ret. struct_ok.
Qed.

Lemma parse_uefi_spec (item : string -> option J) : spec (a:=a) is_load E (parse_uefi item) uefi_ok.
Proof using Em.
  unfold parse_uefi. destruct (item _); [|by apply spec_ret]. numbers. apply spec_ret. struct_ok.
Qed.

Lemma parse_arch_arm_spec (o : option J) : arch_shape ARM64 o \/ (forall s, E s) ->
  spec (a:=a) is_load E (parse_arch_arm o) (arch_ok ARM64).
Proof using Em.
  intros Hs. unfold parse_arch_arm. eapply spec_bind; [apply spec_or_minus1; [done|]; intros j Hj; exact Hj|].
  intros j Hj. eapply spec_bind; [apply deref_string_spec; eapply string_present; [exact Hj|exact Hs]|]. intros v _.
  eapply (spec_bind _ _ gic_ok).
  { destruct (String.eqb v _); [apply parse_gicv2_spec|].
    destruct (String.eqb v _); [apply parse_gicv3_spec|by apply spec_minus1]. }
  intros gic Hgic. eapply spec_bind; [apply parse_uefi_spec|]. intros uefi Huefi. apply spec_ret.
  destruct (SAFE_CJSON_GET_OBJECT_ITEM o "is_aarch32"); struct_ok.
Qed.

Lemma parse_arch_riscv_spec (o : option J) : spec (a:=a) is_load E (parse_arch_riscv o) (arch_ok RISCV64).
Proof using Em. unfold parse_arch_riscv. numbers. apply spec_ret. struct_ok. Qed.

(** Dereference a path or text and load what it names. *)
Ltac image H := eapply spec_bind; [by eapply H|]; intros ? _;
  eapply spec_bind; [first [by apply load_image_spec | by apply load_str_spec]|]; intros ? ?; apply spec_ret.

(** An optional item that is used as a string. *)
Lemma deref_arch_string (o : option J) k j : arch_shape X86_64 o \/ (forall s, E s) ->
  In k ["boot_filepath"; "setup_filepath"; "cmdline"; "initrd_filepath"]%string ->
  SAFE_CJSON_GET_OBJECT_ITEM o k = Some j -> spec (a:=a) is_load E (deref_string (Some j)) (fun _ => True).
Proof using Type.
  intros Hs Hk Hj. eapply spec_conseq; [apply deref_string_spec; eapply string_present; [exact Hj|]|done].
  destruct Hs as [Hs|Hs]; [left|by right]. cbn in Hs. rewrite List.Forall_forall in Hs. by apply Hs.
Qed.

Lemma parse_arch_x86_spec (root o : option J) c : arch_shape X86_64 o \/ (forall s, E s) -> arch_ok X86_64 c ->
  spec (a:=a) is_load E (parse_arch_x86 root o c) (arch_ok X86_64).
Proof using Em Ex Ebuf laws.
  intros Hs Hc. unfold parse_arch_x86.
  assert (forall k, In k ["boot_filepath"; "setup_filepath"; "cmdline"; "initrd_filepath"]%string -> forall j,
    SAFE_CJSON_GET_OBJECT_ITEM o k = Some j -> spec (a:=a) is_load E (deref_string (Some j)) (fun _ => True)) as Hstr
    by (intros k Hk j; by apply deref_arch_string). rewrite <- List.Forall_forall, !Forall_cons in Hstr.
  destruct Hstr as (Hb & Hset & Hcmd & Hrd & _).
  numbers. eapply (spec_bind _ _ (arch_ok X86_64)).
  { destruct (boot_mode_is_multiboot2 root); [|numbers]; apply spec_ret; struct_ok. }
  clear c Hc. intros c Hc. eapply (spec_bind _ _ (fun _ => True)).
  { destruct (SAFE_CJSON_GET_OBJECT_ITEM o "boot_filepath") eqn:Ej; [|by apply spec_ret].
    destruct (boot_mode_is_multiboot2 root); [by apply spec_ret|]. numbers. by image Hb. }
  intros _ _. eapply (spec_bind _ _ (arch_ok X86_64)).
  { destruct (SAFE_CJSON_GET_OBJECT_ITEM o "setup_filepath") eqn:Ej; [|by apply spec_ret]. numbers. image Hset. struct_ok. }
  clear c Hc. intros c Hc. eapply (spec_bind _ _ (arch_ok X86_64)).
  { destruct (SAFE_CJSON_GET_OBJECT_ITEM o "cmdline") eqn:Ej; [|by apply spec_ret]. numbers. image Hcmd. struct_ok. }
  clear c Hc. intros c Hc. eapply (spec_bind _ _ (arch_ok X86_64)).
  { destruct (SAFE_CJSON_GET_OBJECT_ITEM o "initrd_filepath") eqn:Ej; [|by apply spec_ret]. numbers. image Hrd. struct_ok. }
  clear c Hc. intros c Hc. numbers. apply spec_ret. struct_ok.
Qed.

End lemmas.

Section sections.
Context {J : Type} {cj : CJson J} {jlaws : CJsonLaws J} {a : Arch} {env : ToolEnv a} {laws : ToolEnvLaws a}.
Context {E : stop -> Prop} (Em : E Minus1) (Ex : E (Exit 1)) (Ebuf : buffers_safe E).

Lemma parse_arch_config_spec (root : option J) c :
  arch_shape a (SAFE_CJSON_GET_OBJECT_ITEM root "arch_config"%string) \/ (forall s, E s) -> zone_config_ok c ->
  spec is_load E (parse_arch_config root c) (fun c' => zone_config_ok c' /\ same_resources c c').
Proof using Em Ex Ebuf laws.
  intros Hs Hc. unfold parse_arch_config.
  eapply spec_bind; [apply spec_or_minus1; [done|]; intros j Hj; exact Hj|]. intros j Hj. rewrite Hj in Hs.
  eapply (spec_bind _ _ (arch_ok a)).
  - clear Hj. destruct a; [by apply parse_arch_arm_spec|by apply parse_arch_riscv_spec|apply spec_ret, Hc|].
    apply parse_arch_x86_spec; [done|done|done|done|apply Hc].
  - intros arch Harch. apply spec_ret. split; [by apply set_arch_config_ok|by repeat split].
Qed.

(** A loop that fills the slots of an array one after the other, each from an item
    of a list. *)
Lemma fill_array_spec {A} (P : A -> Prop) (R : option J -> A -> Prop) (f : Z -> list A -> tool a A) len num o l :
  array_ok P len num l ->
  (forall i arr, 0 <= i < SAFE_CJSON_GET_ARRAY_SIZE o -> Z.of_nat (length arr) = len ->
    spec is_load E (f i arr) (fun x => i < len /\ P x /\ R (SAFE_CJSON_GET_ARRAY_ITEM o i) x)) ->
  spec is_load E (for_range (Z.to_nat (SAFE_CJSON_GET_ARRAY_SIZE o)) 0 (fun i arr => x ← f i arr; array_set arr i x) l)
    (fun l' => SAFE_CJSON_GET_ARRAY_SIZE o <= len /\ array_ok P len num l' /\
       forall i, 0 <= i < SAFE_CJSON_GET_ARRAY_SIZE o ->
         exists x, l' !! Z.to_nat i = Some x /\ R (SAFE_CJSON_GET_ARRAY_ITEM o i) x).
Proof using jlaws.
  intros Hl Hf. pose proof (array_size_range o) as Hn.
  eapply spec_conseq; [apply (spec_for_range _ (fun k l' => k <= len /\ array_ok P len num l' /\
    forall i, 0 <= i < k -> exists x, l' !! Z.to_nat i = Some x /\ R (SAFE_CJSON_GET_ARRAY_ITEM o i) x))|].
  - split; [destruct Hl; lia|]. split; [done|lia].
  - intros k arr Hk (Hkl & Hok & Hprev). eapply spec_bind; [apply Hf; [lia|apply Hok]|]. intros x (Hi & Hx & HR).
    destruct Hok as (Hlen' & Hnum & Hall). apply spec_array_set; [lia|]. split; [lia|]. split.
    { by apply array_ok_insert. }
    intros i Hik. destruct (decide (i = k)) as [->|Hne].
    + exists x. split; [apply list_lookup_insert_eq; lia|done].
    + rewrite list_lookup_insert_ne by lia. apply Hprev. lia.
  - cbn. intros l' (Hle & Hok & Hall). split; [lia|]. split; [done|]. intros i Hi. apply Hall. lia.
Qed.

Lemma parse_pci_bus_spec (o : option J) : spec (a:=a) is_load E (parse_pci_bus o) pci_config_ok.
Proof using Em. unfold parse_pci_bus. numbers. apply spec_ret. unfold pci_config_ok. struct_ok. Qed.

Lemma parse_pci_dev_spec (o : option J) devs i : i < Z.of_nat (length devs) \/ (forall s, E s) ->
  spec (a:=a) is_load E (parse_pci_dev o devs i) pci_dev_ok.
Proof using Em.
  intros Hs. unfold parse_pci_dev. eapply spec_bind; [by apply u8_item_spec|]. intros d Hd.
  destruct (_ <=? i) eqn:Ei; [destruct Hs as [Hs|Hs]; [lia|by apply spec_crash]|].
  numbers. apply spec_ret. unfold pci_dev_ok. struct_ok.
Qed.

Lemma parse_pci_config_spec (root : option J) (c : zone_config a) :
  SAFE_CJSON_GET_ARRAY_SIZE (SAFE_CJSON_GET_OBJECT_ITEM root "alloc_pci_devs"%string) <= CONFIG_MAX_PCI_DEV \/ (forall s, E s) ->
  zone_config_ok c ->
  spec is_load E (parse_pci_config root c) (fun c' => zone_config_ok c' /\ same_resources c c').
Proof using Em jlaws.
  intros Hs Hc. unfold parse_pci_config.
  eapply (spec_bind _ _ (fun _ => True)); [by apply spec_or_minus1|]. intros buses_json _.
  pose proof (array_size_range (Some buses_json)) as Hb.
  destruct (_ <? _) eqn:Eb; [by apply spec_minus1|].
  eapply spec_bind.
  { apply (fill_array_spec pci_config_ok (fun _ _ => True) _ CONFIG_PCI_BUS_MAXNUM (num_pci_bus c)); [apply Hc|].
    intros i arr Hi Hlen. eapply spec_conseq; [apply parse_pci_bus_spec|]. intros x Hx. split; [lia|by split]. }
  intros buses (_ & Hbuses & _). set (devs_json := SAFE_CJSON_GET_OBJECT_ITEM root _) in *.
  pose proof (array_size_range devs_json) as Hd.
  eapply spec_bind.
  { apply (fill_array_spec pci_dev_ok (fun _ _ => True) _ CONFIG_MAX_PCI_DEV (num_pci_devs c)); [apply Hc|].
    intros i arr Hi Hlen. destruct (decide (i < CONFIG_MAX_PCI_DEV)) as [Hlt|Hge].
    - eapply spec_conseq; [apply parse_pci_dev_spec; left; lia|]. done.
    - destruct Hs as [Hs|Hs]; [lia|]. unfold parse_pci_dev.
      eapply spec_bind; [by apply u8_item_spec|]. intros d _.
      replace (Z.of_nat (length arr) <=? i) with true by lia. by apply spec_crash. }
  intros devs (Hle & Hdevs & _). apply spec_ret. split; [|by repeat split].
  unfold CONFIG_MAX_PCI_DEV, CONFIG_PCI_BUS_MAXNUM in *. rewrite !u64_small by lia.
  apply set_alloc_pci_devs_ok; [apply set_num_pci_devs_ok; [apply set_pci_configs_ok; [apply set_num_pci_bus_ok|]|]|];
    try done; cbn [num_pci_bus num_pci_devs set_num_pci_bus set_num_pci_devs set_pci_configs];
    unfold CONFIG_MAX_PCI_DEV, CONFIG_PCI_BUS_MAXNUM; try (eapply array_ok_num; [eassumption|]); lia.
Qed.

Lemma parse_cpus_spec (o : option J) mask : all_items cpu_shape o \/ (forall s, E s) -> is_u64 mask ->
  spec (a:=a) is_load E (parse_cpus o mask)
    (fun m => is_u64 m /\ forall n, 0 <= n -> Z.testbit m n = true <-> Z.testbit mask n = true \/ listed_cpu o n).
Proof using jlaws.
  intros Hs Hm. unfold parse_cpus. pose proof (array_size_range o) as Hn.
  eapply spec_conseq; [apply (spec_for_range _ (fun k m => is_u64 m /\ forall n, 0 <= n ->
    Z.testbit m n = true <-> Z.testbit mask n = true \/
      exists i j, 0 <= i < k /\ SAFE_CJSON_GET_ARRAY_ITEM o i = Some j /\ valueint j = n))|].
  - split; [done|]. intros n _. split; [by left|]. intros [H|(i & j & Hi & _)]; [done|lia].
  - intros k m Hk [Hu Hbits]. eapply spec_bind; [apply deref_int_spec; left; apply array_item_in_range; lia|].
    intros v (j & Hj & ->). destruct (_ && _) eqn:Ev.
    2: { destruct Hs as [Hs|Hs]; [|by apply spec_crash]. specialize (Hs k j Hj). unfold cpu_shape in Hs. lia. }
    apply spec_ret. split.
    { assert (0 <= Z.shiftl 1 (valueint j) < 2 ^ 64).
      { rewrite Z.shiftl_1_l. split; [apply Z.pow_nonneg; lia|apply Z.pow_lt_mono_r; lia]. }
      unfold is_u64, UINT64_MAX in *. pose proof (lor_range m (Z.shiftl 1 (valueint j)) 64). lia. }
    intros n Hpos. rewrite Z.lor_spec, orb_true_iff, Hbits by done. rewrite Z.shiftl_1_l, Z.pow2_bits_eqb by lia.
    split.
    + intros [[H|(i & j' & Hi & Hj' & Hv)]|He]; [by left|right; exists i, j'; repeat split; [lia..|done|done]|].
      right. exists k, j. repeat split; [lia|lia|done|lia].
    + intros [H|(i & j' & Hi & Hj' & Hv)]; [by do 2 left|]. destruct (decide (i = k)) as [->|Hne].
      * right. assert (j' = j) as -> by congruence. lia.
      * left; right. exists i, j'. repeat split; [lia..|done|done].
  - cbn. intros m [Hu Hbits]. split; [done|]. intros n Hpos. rewrite Hbits by done. unfold listed_cpu.
    by rewrite Z2Nat.id by done.
Qed.

Lemma parse_memory_region_spec (o : option J) :
  is_Some (SAFE_CJSON_GET_OBJECT_ITEM o "type"%string ≫= valuestring_of) \/ (forall s, E s) ->
  spec (a:=a) is_load E (parse_memory_region o) (fun r => memory_region_ok r /\ region_of o r).
Proof using Em.
  intros Hs. unfold parse_memory_region. numbers. eapply spec_bind; [by apply deref_string_spec|]. intros t Ht.
  eapply (spec_bind _ _ (fun ty => region_type t = Some ty)).
  { unfold region_type. do 3 (destruct (String.eqb t _); [by apply spec_ret|]). by apply spec_minus1. }
  intros ty Hty. apply spec_ret. split; [|unfold region_of; cbn; by rewrite Ht].
  constructor; try done. cbn. unfold region_type in Hty. repeat case_match; simplify_eq; auto.
Qed.

Lemma parse_memory_regions_spec (o : option J) regions num :
  all_items region_shape o \/ (forall s, E s) -> SAFE_CJSON_GET_ARRAY_SIZE o <= CONFIG_MAX_MEMORY_REGIONS ->
  array_ok memory_region_ok CONFIG_MAX_MEMORY_REGIONS num regions ->
  spec (a:=a) is_load E (parse_memory_regions o regions)
    (fun l => array_ok memory_region_ok CONFIG_MAX_MEMORY_REGIONS num l /\
       forall i, 0 <= i < SAFE_CJSON_GET_ARRAY_SIZE o ->
         exists r, l !! Z.to_nat i = Some r /\ region_of (SAFE_CJSON_GET_ARRAY_ITEM o i) r).
Proof using Em jlaws.
  intros Hs Hn Hok. eapply spec_conseq; [apply (fill_array_spec memory_region_ok region_of _ CONFIG_MAX_MEMORY_REGIONS num); [done|]|].
  - intros i arr Hi _. eapply spec_conseq; [apply parse_memory_region_spec|intros r Hr; split; [lia|done]].
    destruct Hs as [Hs|Hs]; [left|by right]. destruct (array_item_in_range o i Hi) as [j Hj]. rewrite Hj.
    destruct (Hs i j Hj) as (t & Ht & Hstr). cbn. rewrite Ht. cbn. unfold valuestring_of. rewrite Hstr. eauto.
  - tauto.
Qed.

Lemma bitmap_word (bm : list Z) q : 0 <= q < 1024 -> array_ok is_u32 32 32 bm -> exists w, bm !! Z.to_nat (q / 32) = Some w /\ is_u32 w.
Proof using Type.
  intros Hq (Hl & _ & Hall). destruct (lookup_lt_is_Some_2 bm (Z.to_nat (q / 32))) as [w Hw].
  { assert (q / 32 < 32) by (apply Z.div_lt_upper_bound; lia). lia. }
  exists w. split; [done|]. by eapply (proj1 (Forall_lookup _ _) Hall).
Qed.

Lemma set_irq_spec bm irq : 0 <= irq < CONFIG_MAX_INTERRUPTS -> array_ok is_u32 32 32 bm ->
  spec (a:=a) is_load E (set_irq bm irq)
    (fun bm' => array_ok is_u32 32 32 bm' /\
       forall q, 0 <= q < CONFIG_MAX_INTERRUPTS -> bitmap_bit bm' q = bitmap_bit bm q || (q =? irq)).
Proof using Type.
  unfold CONFIG_MAX_INTERRUPTS. intros Hi Hok. unfold set_irq, bitmap_bit, CONFIG_INTERRUPTS_BITMAP_BITS_PER_WORD.
  destruct (bitmap_word bm irq Hi Hok) as (w & Hw & Hu). rewrite Hw.
  pose proof (Z.mod_pos_bound irq 32 ltac:(lia)) as Hm. pose proof (Z.div_pos irq 32 ltac:(lia) ltac:(lia)) as Hd.
  pose proof (lookup_lt_Some _ _ _ Hw) as Hlt.
  eapply spec_bind; [apply spec_or_crash; [done|]; intros x Hx; exact Hx|]. intros x [= <-].
  apply spec_array_set; [lia|]. split.
  - apply array_ok_insert; [done|]. unfold is_u32, UINT32_MAX in *.
    assert (0 <= Z.shiftl 1 (irq `mod` 32) < 2 ^ 32).
    { rewrite Z.shiftl_1_l. split; [apply Z.pow_nonneg; lia|apply Z.pow_lt_mono_r; lia]. }
    pose proof (lor_range w (Z.shiftl 1 (irq `mod` 32)) 32). lia.
  - intros q Hq. pose proof (Z.mod_pos_bound q 32 ltac:(lia)) as Hqm. pose proof (Z.div_pos q 32 ltac:(lia) ltac:(lia)).
    pose proof (Z.div_mod q 32 ltac:(lia)). pose proof (Z.div_mod irq 32 ltac:(lia)).
    destruct (decide (q / 32 = irq / 32)) as [Heq|Hne].
    + rewrite Heq, list_lookup_insert_eq, Hw by done. rewrite Z.lor_spec, Z.shiftl_1_l, Z.pow2_bits_eqb by lia.
      f_equal. destruct (q =? irq) eqn:Eq; lia.
    + rewrite list_lookup_insert_ne by lia. replace (q =? irq) with false by lia. by rewrite orb_false_r.
Qed.

Lemma parse_interrupts_spec (o : option J) :
  spec (a:=a) is_load E (parse_interrupts o)
    (fun bm => array_ok is_u32 32 32 bm /\
       forall q, 0 <= q < CONFIG_MAX_INTERRUPTS -> bitmap_bit bm q = true <-> listed_irq o q).
Proof using Em jlaws.
  unfold parse_interrupts. pose proof (array_size_range o) as Hn.
  eapply spec_conseq; [apply (spec_for_range _ (fun k bm => array_ok is_u32 32 32 bm /\ forall q, 0 <= q < CONFIG_MAX_INTERRUPTS ->
    bitmap_bit bm q = true <-> exists i, 0 <= i < k /\ parse_json_size (SAFE_CJSON_GET_ARRAY_ITEM o i) = Some q))|].
  - split; [apply (array_ok_replicate is_u32 32 32 0); [lia|apply is_u32_0]|]. intros q Hq. unfold bitmap_bit.
    split; [|intros (i & Hi & _); lia]. case_match eqn:Hw; [|done]. apply lookup_replicate in Hw as [-> _].
    by rewrite Z.bits_0.
  - intros k bm Hk [Hok Hbits]. eapply spec_bind; [apply spec_or_minus1; [done|]; intros v Hv; exact Hv|].
    intros irq Hirq. destruct (_ <=? _) eqn:Ei; [by apply spec_minus1|].
    assert (0 <= irq) by (apply parse_json_max_range in Hirq; unfold UINT64_MAX in *; lia).
    eapply spec_conseq; [apply set_irq_spec; [lia|done]|]. intros bm' [Hok' Hb']. split; [done|]. intros q Hq.
    rewrite Hb', orb_true_iff, Hbits by done. split.
    + intros [(i & Hi & Hp)|He]; [exists i; split; [lia|done]|]. exists k. split; [lia|].
      by replace q with irq by lia.
    + intros (i & Hi & Hp). destruct (decide (i = k)) as [->|]; [right; assert (q = irq) by congruence; lia|].
      left. exists i. split; [lia|done].
  - cbn. intros bm [Hok Hbits]. split; [done|]. intros q Hq. rewrite Hbits by done. by rewrite Z2Nat.id by done.
Qed.

Lemma parse_ivc_configs_spec (o : option J) ivcs num :
  all_items ivc_shape o \/ (forall s, E s) -> SAFE_CJSON_GET_ARRAY_SIZE o <= CONFIG_MAX_IVC_CONFIGS ->
  array_ok ivc_config_ok CONFIG_MAX_IVC_CONFIGS num ivcs ->
  spec (a:=a) is_load E (parse_ivc_configs o ivcs) (array_ok ivc_config_ok CONFIG_MAX_IVC_CONFIGS num).
Proof using Em jlaws.
  intros Hs Hn Hok. eapply spec_conseq; [apply (fill_array_spec ivc_config_ok (fun _ _ => True) _ CONFIG_MAX_IVC_CONFIGS num); [done|]|tauto].
  intros i arr Hi _. destruct (array_item_in_range o i Hi) as [j Hj]. rewrite Hj.
  assert (Forall (fun k => is_Some (cJSON_GetObjectItem j k) \/ (forall s, E s)) ["ivc_id"; "peer_id"; "interrupt_num"; "max_peers"]%string) as Hk.
  { destruct Hs as [Hs|Hs]; [|apply List.Forall_forall; auto]. specialize (Hs i j Hj). unfold ivc_shape in Hs.
    eapply List.Forall_impl; [|exact Hs]. intros k Hk. by left. }
  rewrite !Forall_cons in Hk. destruct Hk as (H1 & H2 & H3 & H4 & _). unfold parse_ivc_config.
  do 2 (eapply spec_bind; [by apply deref_int_spec|]; intros ? _). numbers.
  do 2 (eapply spec_bind; [by apply deref_int_spec|]; intros ? _). apply spec_ret. split; [lia|]. split; [|done].
  unfold ivc_config_ok. struct_ok.
Qed.

Lemma strncpy_ok s n : array_ok is_u8 (Z.of_nat n) (Z.of_nat n) (strncpy s n).
Proof using Type.
  assert (Forall is_u8 (bytes_of s)) as Hb.
  { induction s as [|c s IH]; [done|]. cbn. apply Forall_cons. split; [|done].
    unfold is_u8, UINT8_MAX. pose proof (nat_ascii_bounded c). cbn in *. lia. }
  unfold strncpy. split; [|split; [lia|]].
  - rewrite length_app, length_replicate, length_take. lia.
  - apply Forall_app. split; [by apply Forall_take|apply Forall_replicate, is_u8_0].
Qed.

End sections.
