(* ===== verification/ZoneStart.v ===== *)
(** * The management commands

    [zone_start_from_json], [zone_apply_dynamic_ecam] and the commands [zone start],
    [zone shutdown] and [zone list] of [tools/hvisor.c] with [print_cpu_list] and the
    dispatch of [main].  The text of the document is the interface [JsonFiles]; what
    the commands print beyond the zone table's fields is left out. *)

From Stdlib Require Import String Ascii.
From S2P Require Import Prelude Json ZoneConfig Loader Boot ZoneParse.

(** What reading and parsing a configuration file gives: no file, no memory for
    its text, nothing read, or the root of the document (NULL if it does not
    parse). *)
Inductive json_file (J : Type) :=
  | NoFile
  | NoBuffer
  | EmptyFile
  | Document (root : option J).
Arguments NoFile {J}.
Arguments NoBuffer {J}.
Arguments EmptyFile {J}.
Arguments Document {J} _.

Class JsonFiles (J : Type) := read_json : string -> json_file J.

Definition MAX_CPUS : Z := 32.

Section start.
Context {J : Type} {cj : CJson J} {a : Arch} {env : ToolEnv a}.

(** ** Starting a zone *)

(** [CHECK_JSON_NULL_ERR_OUT] for the required items. *)
Definition required_items : list string :=
  ["zone_id"; "cpus"; "name"; "memory_regions"; "kernel_filepath"; "dtb_filepath"; "kernel_load_paddr";
   "dtb_load_paddr"; "entry_point"; "interrupts"; "ivc_configs"]%string.

Definition has_item (root : option J) (k : string) : bool :=
  match SAFE_CJSON_GET_OBJECT_ITEM root k with Some _ => true | None => false end.

(** The zone's identity, CPUs, memory regions, interrupts and IVC channels. *)
Definition parse_resources (root : option J) (config : zone_config a) : tool a (zone_config a) :=
  let item k := SAFE_CJSON_GET_OBJECT_ITEM root k in
  id ← deref_int (item "zone_id"%string);
  let config := set_zone_id (u32 id) config in
  mask ← parse_cpus (item "cpus"%string) (cpus config);
  let config := set_cpus mask config in
  let num_memory_regions := SAFE_CJSON_GET_ARRAY_SIZE (item "memory_regions"%string) in
  let num_interrupts := SAFE_CJSON_GET_ARRAY_SIZE (item "interrupts"%string) in
  if (CONFIG_MAX_MEMORY_REGIONS <? num_memory_regions) || (CONFIG_MAX_INTERRUPTS <? num_interrupts) then minus1
  else
  let config := set_num_memory_regions (u32 num_memory_regions) config in
  regions ← parse_memory_regions (item "memory_regions"%string) (memory_regions config);
  let config := set_memory_regions regions config in
  bitmap ← parse_interrupts (item "interrupts"%string);
  let config := set_interrupts_bitmap bitmap config in
  let num_ivc_configs := SAFE_CJSON_GET_ARRAY_SIZE (item "ivc_configs"%string) in
  if CONFIG_MAX_IVC_CONFIGS <? num_ivc_configs then minus1
  else
  let config := set_num_ivc_configs (u32 num_ivc_configs) config in
  ivcs ← parse_ivc_configs (item "ivc_configs"%string) (ivc_configs config);
  let config := set_ivc_configs ivcs config in
  entry ← u64_item (item "entry_point"%string);
  kernel_paddr ← u64_item (item "kernel_load_paddr"%string);
  dtb_paddr ← u64_item (item "dtb_load_paddr"%string);
  mret (set_dtb_load_paddr dtb_paddr (set_kernel_load_paddr kernel_paddr (set_entry_point entry config))).

(** The kernel, by its boot mode, the device tree and the modules. *)
Definition load_images (root : option J) (config : zone_config a) : tool a (boot_mode * zone_config a) :=
  let item k := SAFE_CJSON_GET_OBJECT_ITEM root k in
  let mode := boot_mode_parse root in
  '(mode, config) ←
    (if is_multiboot2 (kind mode) then boot_mode_prepare_zone mode config root
     else
       path ← deref_string (item "kernel_filepath"%string);
       size ← load_image_to_memory path (kernel_load_paddr config);
       mret (mode, set_kernel_size size config));
  config ←
    (if decide (a = X86_64) then mret config
     else
       path ← deref_string (item "dtb_filepath"%string);
       size ← load_image_to_memory path (dtb_load_paddr config);
       mret (set_dtb_size size config));
  _u ← parse_modules (item "modules"%string);
  mret (mode, config).

(** [%s] of a character array reads it up to its first zero byte; an array without
    one is read past its end. *)
Definition print_s (arr : list Z) : tool a unit :=
  if forallb (fun b => negb (b =? 0)) arr then crash OutOfBounds else mret tt.

(** The part of [zone_start_from_json] that works on the document.  A name of
    CONFIG_NAME_MAXLEN bytes passes the test and fills the array without a zero
    byte.  The messages that print the name again follow the first in any run. *)
Definition parse_zone (root : option J) (config : zone_config a) : tool a (boot_mode * zone_config a) :=
  if negb (forallb (has_item root) required_items) then minus1
  else
  config ← parse_resources root config;
  '(mode, config) ← load_images root config;
  zone_name ← deref_string (SAFE_CJSON_GET_OBJECT_ITEM root "name"%string);
  if CONFIG_NAME_MAXLEN <? strlen zone_name then minus1
  else
  let config := set_name (strncpy zone_name (Z.to_nat CONFIG_NAME_MAXLEN)) config in
  _u ← (if log_info_on then print_s (name config) else mret tt);
  config ← (if decide (a = LOONGARCH64) then mret config else parse_arch_config root config);
  config ← parse_pci_config root config;
  mret (mode, config).

Definition zone_apply_dynamic_ecam (config : zone_config a) : tool a (zone_config a) :=
  if num_pci_bus config =? 0 then mret config
  else fun h =>
    (r ← ioctl HVISOR_GET_ECAM_BASE;
     let base := ecam_out h in
     if negb (r =? 0) then minus1
     else if base =? 0 then mret config
     else
       p ← or_crash (of_index (pci_configs config !! 0%nat));
       if ecam_base p =? base then mret config
       else
         let p' := {| ecam_base := base; ecam_size := ecam_size p; io_base := io_base p; io_size := io_size p;
                      pci_io_base := pci_io_base p; mem32_base := mem32_base p; mem32_size := mem32_size p;
                      pci_mem32_base := pci_mem32_base p; mem64_base := mem64_base p; mem64_size := mem64_size p;
                      pci_mem64_base := pci_mem64_base p; bus_range_begin := bus_range_begin p;
                      bus_range_end := bus_range_end p; pci_domain := pci_domain p |} in
         mret (set_pci_configs (<[0%nat := p']> (pci_configs config)) config)) h.

(** The part after the document is freed. *)
Definition start_parsed (mode : boot_mode) (config : zone_config a) : tool a Z :=
  open_dev ≫= fun _ =>
  config ← zone_apply_dynamic_ecam config;
  (if is_multiboot2 (kind mode) then boot_mode_apply (zone_id config) mode else mret tt) ≫= fun _ =>
  ioctl (HVISOR_ZONE_START config).

Context {files : JsonFiles J}.

Definition zone_start_from_json (path : string) (config : zone_config a) : tool a Z :=
  match read_json path with
  | NoFile => exit 1
  | NoBuffer => crash NullDeref   (* fread into what malloc returned *)
  | EmptyFile => minus1
  | Document root =>
      '(mode, config) ← parse_zone root config;
      start_parsed mode config
  end.

(** [help(status)] prints the usage and leaves. *)
Definition help {A} (status : Z) : tool a A := exit status.

Definition check_version (h : trace a) : (bool + stop) * trace a :=
  (open_dev ≫= fun _ =>
   r ← ioctl HVISOR_CONFIG_CHECK;
   if negb (r =? 0) then minus1 else mret (version_out h =? CONFIG_MAGIC_VERSION)) h.

Definition zone_start (argv : list string) : tool a Z :=
  match argv with
  | [_; _; _; path] =>
      same ← (check_version : tool a bool);
      if negb same then minus1 else zone_start_from_json path (zero_config a)
  | _ => help 1
  end.

(** ** The other commands *)

(** [sscanf(s, "%lu", &zone_id)]: without a digit the variable keeps what it had. *)
Definition scan_lu (s : string) (garbage : Z) : Z :=
  let t := skip_space s in
  let '(neg, d) := match t with
                   | String "-"%char t' => (true, t')
                   | String "+"%char t' => (false, t')
                   | _ => (false, t)
                   end in
  if starts_digit 10 d then
    let v := (scan_digits 10 0 d).1 in
    if UINT64_MAX <? v then UINT64_MAX else if neg then u64 (- v) else v
  else garbage.

Definition zone_shutdown (argv : list string) (garbage : Z) : tool a Z :=
  match argv with
  | [flag; id] =>
      if negb (String.eqb flag "-id") then help 1
      else open_dev ≫= fun _ => ioctl (HVISOR_ZONE_SHUTDOWN (scan_lu id garbage))
  | _ => help 1
  end.

End start.

(** ** [print_cpu_list] *)

(** Decimal digits, for numbers below 100. *)
Definition dec (n : Z) : list Z := if n <? 10 then [48 + n] else [48 + n / 10; 48 + n `mod` 10].

Definition put_byte (buf : list Z) (pos c : Z) : result (list Z) :=
  if (0 <=? pos) && (pos <? Z.of_nat (length buf)) then Ok (<[Z.to_nat pos := c]> buf) else Err OutOfBounds.

Fixpoint put_bytes (buf : list Z) (pos : Z) (cs : list Z) : result (list Z) :=
  match cs with
  | [] => Ok buf
  | c :: cs' => buf' ← put_byte buf pos c; put_bytes buf' (pos + 1) cs'
  end.

(** [snprintf(buf + pos, size, "%zu", i)]: the digits that fit, and a zero byte. *)
Definition snprintf_zu (buf : list Z) (pos size i : Z) : result (list Z) :=
  if size <=? 0 then Ok buf else put_bytes buf pos (take (Z.to_nat (size - 1)) (dec i) ++ [0]).

(** [strlen] of what starts at [pos]. *)
Fixpoint c_strlen (l : list Z) : Z :=
  match l with
  | [] => 0
  | b :: l' => if b =? 0 then 0 else 1 + c_strlen l'
  end.

(** The loop over the CPUs from [i] on; [pos] is [buf - outbuf]. *)
Fixpoint cpu_loop (n : nat) (i : Z) (cpu_mask bufsize : Z) (out : list Z) (pos : Z) (found : bool) : result (list Z * bool) :=
  match n with
  | O => Ok (out, found)
  | S n' =>
      if pos <? bufsize then
        if Z.testbit cpu_mask i then
          '(out1, pos1) ←
            (if found then
               o1 ← put_byte out pos 44;
               o2 ← put_byte o1 (pos + 1) 32;
               Ok (o2, pos + 2)
             else Ok (out, pos));
          out2 ← snprintf_zu out1 pos1 (bufsize - pos1) i;
          cpu_loop n' (i + 1) cpu_mask bufsize out2 (pos1 + c_strlen (drop (Z.to_nat pos1) out2)) true
        else cpu_loop n' (i + 1) cpu_mask bufsize out pos found
      else Ok (out, found)
  end.

Definition print_cpu_list (cpu_mask : Z) (outbuf : list Z) (bufsize : Z) : result (list Z) :=
  '(out, found) ← cpu_loop (Z.to_nat MAX_CPUS) 0 cpu_mask bufsize outbuf 0 false;
  if found : bool then Ok out else put_bytes out 0 [110; 111; 110; 101; 0].

(** ** [zone list] and [main] *)

(** A row of the table. *)
Record zone_row := {
  row_id : Z;
  row_cpus : list Z;
  row_name : list Z;
  row_error : bool;
}.

Section commands.
Context {J : Type} {cj : CJson J} {a : Arch} {env : ToolEnv a} {files : JsonFiles J}.

(** The command's result and the rows it printed. *)
Definition zone_list (argv : list string) : tool a (Z * list zone_row) :=
  match argv with
  | [] => fun h =>
      (open_dev ≫= fun _ =>
       ret ← ioctl (HVISOR_ZONE_LIST CONFIG_MAX_ZONES);
       let zones := take (Z.to_nat CONFIG_MAX_ZONES) (list_out h) in
       rows ← for_range (Z.to_nat ret) 0 (fun i rows =>
                z ← or_crash (of_index (zones !! Z.to_nat i));
                text ← or_crash (print_cpu_list (zi_cpus z) (replicate 256 0) 256);
                mret (rows ++ [{| row_id := zi_zone_id z; row_cpus := text; row_name := zi_name z;
                                  row_error := negb (zi_is_err z =? 0) |}])) [];
       mret (ret, rows)) h
  | _ => help 1
  end.

(** A command that gave up returns -1. *)
Definition catch (m : tool a Z) : tool a Z := fun h =>
  match m h with
  | (inr Minus1, h') => (inl (-1), h')
  | r => r
  end.

(** The virtio commands are passed as arguments: they are not commands on
    [/dev/hvisor] alone. *)
Definition main (virtio_start virtio_add : list string -> tool a Z) (garbage : Z) (argv : list string) : tool a Z :=
  match argv with
  | _ :: c1 :: c2 :: rest =>
      err ←
        (if String.eqb c1 "zone" then
           if String.eqb c2 "start" then catch (zone_start argv)
           else if String.eqb c2 "shutdown" then catch (zone_shutdown rest garbage)
           else if String.eqb c2 "list" then '(ret, _) ← zone_list rest; mret ret
           else help 1
         else if String.eqb c1 "virtio" then
           if String.eqb c2 "start" then catch (virtio_start argv)
           else if String.eqb c2 "add" then catch (virtio_add argv)
           else help 1
         else help 1);
      mret (if err =? 0 then 0 else 1)
  | _ => help 1
  end.

End commands.

(** ** What a started zone is promised *)

Section promises.
Context {J : Type} {cj : CJson J} {a : Arch}.

(** The configuration says what the document says. *)
Record config_matches (root : option J) (c : zone_config a) : Prop := {
  cm_id : exists j, SAFE_CJSON_GET_OBJECT_ITEM root "zone_id"%string = Some j /\ zone_id c = u32 (valueint j);
  cm_cpus : forall n, 0 <= n ->
    Z.testbit (cpus c) n = true <-> listed_cpu (SAFE_CJSON_GET_OBJECT_ITEM root "cpus"%string) n;
  cm_num_regions :
    num_memory_regions c = SAFE_CJSON_GET_ARRAY_SIZE (SAFE_CJSON_GET_OBJECT_ITEM root "memory_regions"%string);
  cm_regions : forall i, 0 <= i < num_memory_regions c ->
    exists r, memory_regions c !! Z.to_nat i = Some r /\
      region_of (SAFE_CJSON_GET_ARRAY_ITEM (SAFE_CJSON_GET_OBJECT_ITEM root "memory_regions"%string) i) r;
  cm_irqs : forall q, 0 <= q < CONFIG_MAX_INTERRUPTS ->
    bitmap_bit (interrupts_bitmap c) q = true <-> listed_irq (SAFE_CJSON_GET_OBJECT_ITEM root "interrupts"%string) q;
  cm_entry : parse_json_linux_u64 (SAFE_CJSON_GET_OBJECT_ITEM root "entry_point"%string) = Some (entry_point c);
}.

(** A document of the expected shape: items that are dereferenced are there and of
    their type, at most 32 PCI devices, a name with room for its zero byte, and no
    multiboot2 boot, whose kernel the tool reads without checks. *)
Record zone_doc_ok (root : option J) : Prop := {
  zd_cpus : all_items cpu_shape (SAFE_CJSON_GET_OBJECT_ITEM root "cpus"%string);
  zd_regions : all_items region_shape (SAFE_CJSON_GET_OBJECT_ITEM root "memory_regions"%string);
  zd_ivcs : all_items ivc_shape (SAFE_CJSON_GET_OBJECT_ITEM root "ivc_configs"%string);
  zd_strings : Forall (fun k => string_if_present (SAFE_CJSON_GET_OBJECT_ITEM root k))
                 ["kernel_filepath"; "dtb_filepath"; "name"]%string;
  zd_arch : arch_shape a (SAFE_CJSON_GET_OBJECT_ITEM root "arch_config"%string);
  zd_pci : SAFE_CJSON_GET_ARRAY_SIZE (SAFE_CJSON_GET_OBJECT_ITEM root "alloc_pci_devs"%string) <= CONFIG_MAX_PCI_DEV;
  zd_name : forall s, SAFE_CJSON_GET_OBJECT_ITEM root "name"%string ≫= valuestring_of = Some s -> strlen s < CONFIG_NAME_MAXLEN;
  zd_boot : boot_mode_is_multiboot2 root = false;
}.

(** The calls after the images: the ECAM query, the boot mode and the start, each
    at most once and in this order. *)
Definition start_tail (R : zone_config a -> Prop) (l : trace a) : Prop :=
  exists e b s, l = e ++ b ++ s /\
    (e = [] \/ e = [HVISOR_GET_ECAM_BASE]) /\
    (b = [] \/ exists m, b = [HVISOR_SET_BOOT_MODE m]) /\
    (s = [] \/ exists c, s = [HVISOR_ZONE_START c] /\ R c).

Lemma config_matches_same root c c' : same_resources c c' -> config_matches root c -> config_matches root c'.
Proof.
  intros (E1 & E2 & E3 & E4 & E5 & _ & _ & E8) [H1 H2 H3 H4 H5 H6]. split; by rewrite ?E1, ?E2, ?E3, ?E4, ?E5, ?E8.
Qed.

End promises.
Arguments zone_doc_ok {J cj} a root.

(** A shorter string is copied with its zero byte. *)
Lemma strncpy_terminated s n : strlen s < Z.of_nat n -> forallb (fun b => negb (b =? 0)) (strncpy s n) = false.
Proof.
  unfold strlen, strncpy. intros H. rewrite forallb_app. apply andb_false_iff. right. rewrite take_ge by lia.
  destruct (n - length (bytes_of s))%nat eqn:E; [lia|done].
Qed.

Section parse_zone.
Context {J : Type} {cj : CJson J} {jlaws : CJsonLaws J} {a : Arch} {env : ToolEnv a} {laws : ToolEnvLaws a}.
Context {E : stop -> Prop} (Em : E Minus1) (Ex : E (Exit 1)) (Ebuf : buffers_safe E).

(** A string of the document that is dereferenced. *)
Lemma deref_doc_string (root : option J) k : zone_doc_ok a root \/ (forall s, E s) ->
  In k ["kernel_filepath"; "dtb_filepath"; "name"]%string -> has_item root k = true ->
  spec (a:=a) is_load E (deref_string (SAFE_CJSON_GET_OBJECT_ITEM root k)) (fun s => SAFE_CJSON_GET_OBJECT_ITEM root k ≫= valuestring_of = Some s).
Proof using Type.
  unfold has_item. destruct (SAFE_CJSON_GET_OBJECT_ITEM root k) as [j|] eqn:Hj; [|done]. intros Hs Hk _.
  apply deref_string_spec; eapply string_present; [exact Hj|].
  destruct Hs as [[_ _ _ Hs _ _ _ _]|Hs]; [left|by right]. rewrite List.Forall_forall in Hs. by apply Hs.
Qed.

Lemma parse_resources_spec (root : option J) : zone_doc_ok a root \/ (forall s, E s) -> has_item root "zone_id" = true ->
  spec is_load E (parse_resources root (zero_config a)) (fun c => zone_config_ok c /\ config_matches root c).
Proof using Em jlaws.
  intros Hs Hid. unfold parse_resources, has_item in *. pose proof (zero_config_ok a) as Hz.
  eapply spec_bind; [apply deref_int_spec; left; case_match; done|]. intros id (idj & Hidj & ->).
  eapply spec_bind; [apply parse_cpus_spec; [destruct Hs as [Hs|Hs]; [left; apply Hs|by right]|apply is_u64_0]|].
  intros mask [Hmask Hcpus]. destruct (_ || _) eqn:Ecount; [by apply spec_minus1|]. apply orb_false_iff in Ecount as [En _].
  set (mrj := SAFE_CJSON_GET_OBJECT_ITEM root "memory_regions") in *. pose proof (array_size_range mrj) as Hmr.
  unfold CONFIG_MAX_MEMORY_REGIONS, CONFIG_MAX_IVC_CONFIGS in *.
  rewrite (u32_small (SAFE_CJSON_GET_ARRAY_SIZE mrj)) by lia. eapply spec_bind.
  { apply (parse_memory_regions_spec Em mrj _ (SAFE_CJSON_GET_ARRAY_SIZE mrj));
      [destruct Hs as [Hs|Hs]; [left; apply Hs|by right]|unfold CONFIG_MAX_MEMORY_REGIONS; lia|].
    eapply array_ok_num; [apply Hz|unfold CONFIG_MAX_MEMORY_REGIONS; lia]. }
  intros regions [Hregions Hlist]. eapply spec_bind; [by apply parse_interrupts_spec|]. intros bm [Hbm Hirqs].
  destruct (2 <? SAFE_CJSON_GET_ARRAY_SIZE _) eqn:Ei; [by apply spec_minus1|]. set (ivj := SAFE_CJSON_GET_OBJECT_ITEM root "ivc_configs") in *.
  pose proof (array_size_range ivj) as Hiv. rewrite (u32_small (SAFE_CJSON_GET_ARRAY_SIZE ivj)) by lia. eapply spec_bind.
  { apply (parse_ivc_configs_spec Em ivj _ (SAFE_CJSON_GET_ARRAY_SIZE ivj));
      [destruct Hs as [Hs|Hs]; [left; apply Hs|by right]|unfold CONFIG_MAX_IVC_CONFIGS; lia|].
    eapply array_ok_num; [apply Hz|unfold CONFIG_MAX_IVC_CONFIGS; lia]. }
  intros ivcs Hivcs. numbers. apply spec_ret. split.
  - destruct Hz. constructor; cbn -[array_ok replicate]; auto with hvisor. struct_ok.
  - constructor; cbn -[array_ok replicate]; eauto. intros n Hn. rewrite (Hcpus n Hn). cbn. rewrite Z.bits_0. intuition discriminate.
Qed.

Lemma load_images_spec (root : option J) c : zone_doc_ok a root \/ (forall s, E s) ->
  has_item root "kernel_filepath" = true -> has_item root "dtb_filepath" = true -> zone_config_ok c ->
  spec is_load E (load_images root c) (fun r => zone_config_ok r.2 /\ same_resources c r.2).
Proof using Em Ex Ebuf laws.
  intros Hs Hk Hd Hc. unfold load_images.
  eapply (spec_bind _ _ (fun r => zone_config_ok r.2 /\ same_resources c r.2)).
  { unfold boot_mode_parse. cbn [kind]. destruct (boot_mode_is_multiboot2 root) eqn:Eb; cbn [is_multiboot2].
    - destruct Hs as [Hs|Hs]; [by rewrite (zd_boot _ Hs) in Eb|].
      eapply spec_conseq; [by apply prepare_spec|]. intros r (H1 & H2 & _). by split.
    - eapply spec_bind; [apply deref_doc_string; [done|simpl; tauto|done]|]. intros path _.
      eapply spec_bind; [by apply load_image_spec|]. intros size Hsize. apply spec_ret. cbn.
      split; [auto with hvisor|by repeat split]. }
  intros [mode c1] [Hc1 Hr1]. cbn in Hc1, Hr1.
  eapply (spec_bind _ _ (fun c2 => zone_config_ok c2 /\ same_resources c c2)).
  { destruct (decide _); [by apply spec_ret|].
    eapply spec_bind; [apply deref_doc_string; [done|simpl; tauto|done]|]. intros path _.
    eapply spec_bind; [by apply load_image_spec|]. intros size Hsize. apply spec_ret.
    split; [auto with hvisor|]. etransitivity; [exact Hr1|by repeat split]. }
  intros c2 Hc2. eapply spec_bind; [by apply parse_modules_spec|]. intros _ _. by apply spec_ret.
Qed.

Lemma parse_zone_spec (root : option J) : zone_doc_ok a root \/ (forall s, E s) ->
  spec is_load E (parse_zone root (zero_config a)) (fun r => zone_config_ok r.2 /\ config_matches root r.2).
Proof using Em Ex Ebuf jlaws laws.
  intros Hs. unfold parse_zone. destruct (negb _) eqn:Er; [by apply spec_minus1|].
  apply negb_false_iff in Er. rewrite forallb_forall in Er.
  eapply spec_bind; [apply parse_resources_spec; [done|apply Er; simpl; tauto]|]. intros c [Hc Hm].
  eapply spec_bind; [apply load_images_spec; [done|apply Er; simpl; tauto|apply Er; simpl; tauto|done]|].
  intros [mode c1] [Hc1 Hr1]. cbn in Hc1, Hr1.
  eapply spec_bind; [apply deref_doc_string; [done|simpl; tauto|apply Er; simpl; tauto]|]. intros nm Hnm.
  destruct (_ <? strlen nm); [by apply spec_minus1|]. set (c2 := set_name _ c1).
  eapply (spec_bind _ _ (fun _ => True)).
  { destruct log_info_on; [|by apply spec_ret]. unfold print_s. destruct (forallb _ _) eqn:Ef; [|by apply spec_ret].
    destruct Hs as [Hs|Hs]; [|apply spec_crash, Hs]. change (name c2) with (strncpy nm (Z.to_nat CONFIG_NAME_MAXLEN)) in Ef.
    rewrite strncpy_terminated in Ef; [done|]. exact (zd_name _ Hs nm Hnm). }
  intros _ _.
  assert (zone_config_ok c2 /\ same_resources c c2) as [Hc2 Hr2].
  { split; [apply set_name_ok; [done|apply strncpy_ok]|]. etransitivity; [exact Hr1|by repeat split]. }
  clearbody c2. eapply (spec_bind _ _ (fun c3 => zone_config_ok c3 /\ same_resources c c3)).
  { destruct (decide _); [by apply spec_ret|]. eapply spec_conseq.
    - apply parse_arch_config_spec; [done|done|done|destruct Hs as [Hs|Hs]; [left; apply Hs|by right]|done].
    - intros c3 [H1 H2]. split; [done|]. by etransitivity. }
  intros c3 [Hc3 Hr3]. eapply spec_bind.
  { apply parse_pci_config_spec; [done|destruct Hs as [Hs|Hs]; [left; apply Hs|by right]|done]. }
  intros c4 [Hc4 Hr4]. apply spec_ret. split; [done|]. eapply config_matches_same; [|exact Hm]. by etransitivity.
Qed.

End parse_zone.

Section start_lemmas.
Context {J : Type} {cj : CJson J} {jlaws : CJsonLaws J} {a : Arch} {env : ToolEnv a} {laws : ToolEnvLaws a}.

(** The ECAM query: the configuration stays well-formed, and nothing else is
    asked. *)
Lemma zone_apply_dynamic_ecam_spec (c : zone_config a) h : zone_config_ok c ->
  exists e, (e = [] \/ e = [HVISOR_GET_ECAM_BASE]) /\
    match zone_apply_dynamic_ecam c h with
    | (inl c', h') => h' = h ++ e /\ zone_config_ok c' /\ same_resources c c'
    | (inr s, h') => h' = h ++ e /\ no_crash s
    end.
Proof using laws.
  intros Hc. unfold zone_apply_dynamic_ecam. destruct (_ =? 0).
  { exists []. split; [by left|]. cbv [mret tool_ret]. rewrite app_nil_r. split; [done|]. split; [done|by repeat split]. }
  exists [HVISOR_GET_ECAM_BASE]. split; [by right|]. cbv [mbind tool_bind ioctl].
  destruct (negb _); [done|]. destruct (ecam_out h =? 0); [done|].
  pose proof (zco_pci _ Hc) as (Hlen & Hnum & Hall).
  destruct (pci_configs c) as [|p ps] eqn:Ep; [cbn in Hlen; discriminate|]. cbn [lookup list_lookup of_index or_crash].
  cbv [mret tool_ret]. destruct (ecam_base p =? _); [done|]. split; [done|]. split; [|by repeat split].
  apply set_pci_configs_ok; [done|]. rewrite <- Ep. apply array_ok_insert; [apply Hc|].
  apply Forall_cons in Hall as [Hp _]. unfold pci_config_ok in *. rewrite !Forall_cons in *. cbn.
  pose proof (ecam_out_ok h). tauto.
Qed.

Lemma boot_mode_apply_spec zid mode h :
  exists b, (b = [] \/ exists m, b = [HVISOR_SET_BOOT_MODE m]) /\
    match (if is_multiboot2 (kind mode) then boot_mode_apply zid mode else mret tt : tool a unit) h with
    | (inl _, h') => h' = h ++ b
    | (inr s, h') => h' = h ++ b /\ no_crash s
    end.
Proof using Type.
  unfold boot_mode_apply, multiboot2_set_boot_mode. destruct (kind mode); cbn [is_multiboot2].
  { exists []. split; [by left|]. by rewrite app_nil_r. }
  destruct (decide _); [|exists []; split; [by left|]; split; [by rewrite app_nil_r|done] ].
  eexists. split; [right; eexists; reflexivity|]. cbv [mbind tool_bind ioctl]. by destruct (negb _).
Qed.

(** However starting ends, its calls are a tail as promised; it never leaves
    defined behaviour. *)
Lemma start_parsed_spec (R : zone_config a -> Prop) mode c h :
  zone_config_ok c -> (forall c', zone_config_ok c' -> same_resources c c' -> R c') ->
  match start_parsed mode c h with
  | (o, h') => (exists l, h' = h ++ l /\ start_tail R l) /\ match o with inr s => no_crash s | _ => True end
  end.
Proof using laws.
  intros Hc HR. unfold start_parsed. cbv [mbind tool_bind open_dev]. destruct (dev_open h).
  2: { split; [|done]. exists []. rewrite app_nil_r. split; [done|]. exists [], [], []. auto. }
  destruct (zone_apply_dynamic_ecam_spec c h Hc) as (e & He & Hecam).
  destruct (zone_apply_dynamic_ecam c h) as [[c'|s] h1].
  2: { destruct Hecam as [-> Hn]. split; [|done]. exists e. split; [done|]. exists e, [], []. rewrite !app_nil_r. auto 6. }
  destruct Hecam as (-> & Hc' & Hsame). destruct (boot_mode_apply_spec (zone_id c') mode (h ++ e)) as (b & Hb & Hboot).
  match type of Hboot with match ?r with _ => _ end => destruct r as [[[]|s] h2] end.
  2: { destruct Hboot as [-> Hn]. split; [|done]. exists (e ++ b). rewrite app_assoc. split; [done|].
       exists e, b, []. rewrite app_nil_r. auto 6. }
  rewrite Hboot. cbn. split; [|done]. exists (e ++ b ++ [HVISOR_ZONE_START c']). rewrite !app_assoc. split; [done|].
  exists e, b, [HVISOR_ZONE_START c']. rewrite !app_assoc. split; [done|]. split; [done|]. split; [done|]. right. eauto.
Qed.

Context {files : JsonFiles J}.

(** All that [zone start] can do, for any property [R] of the configurations that
    parsing and starting a document can produce. *)
Lemma zone_start_spec (R : zone_config a -> Prop) argv h :
  (forall path root c, argv !! 3%nat = Some path -> read_json path = Document root ->
     zone_config_ok c -> config_matches root c -> R c) ->
  exists l, (zone_start argv h).2 = h ++ l /\
    (l = [] \/ exists loads tail, l = HVISOR_CONFIG_CHECK :: loads ++ tail /\ Forall is_load loads /\ start_tail R tail /\
       (loads ++ tail <> [] -> version_out h = CONFIG_MAGIC_VERSION /\ ioctl_ret h HVISOR_CONFIG_CHECK = 0)).
Proof using jlaws laws.
  intros HR. unfold zone_start. assert (exists l : trace a, h = h ++ l /\ l = []) as (l0 & Hl0 & ->)
    by (exists []; by rewrite app_nil_r).
  destruct argv as [|? [|? [|? [|path [|]]]]]; try (exists []; split; [exact Hl0|by left]).
  cbv [mbind tool_bind]. unfold check_version. cbv [mbind tool_bind open_dev].
  destruct (dev_open h); [|exists []; split; [exact Hl0|by left] ]. cbv [ioctl].
  assert (start_tail R []) as Htail0 by (exists [], [], []; auto 6).
  assert (forall X : Prop, exists loads tail, [HVISOR_CONFIG_CHECK] = HVISOR_CONFIG_CHECK :: loads ++ tail /\
    Forall is_load loads /\ start_tail R tail /\ (loads ++ tail <> [] -> X)) as Hnone.
  { intros X. exists [], []. split; [done|]. split; [constructor|]. split; [done|]. intros Hne. by destruct Hne. }
  destruct (negb (ioctl_ret h _ =? 0)) eqn:Ei.
  { exists [HVISOR_CONFIG_CHECK]. split; [done|]. right. apply Hnone. }
  cbv [mret tool_ret]. destruct (version_out h =? _) eqn:Ev; cbn [negb].
  2: { exists [HVISOR_CONFIG_CHECK]. split; [done|]. right. apply Hnone. }
  assert (version_out h = CONFIG_MAGIC_VERSION /\ ioctl_ret h HVISOR_CONFIG_CHECK = 0) as Hv by lia.
  unfold zone_start_from_json. destruct (read_json path) as [| | |root] eqn:Ej;
    try (exists [HVISOR_CONFIG_CHECK]; split; [done|]; right; apply Hnone).
  cbv [mbind tool_bind]. pose proof (parse_zone_spec (E:=any_stop) I I (fun _ _ => I) root (or_intror (fun _ => I))
    (h ++ [HVISOR_CONFIG_CHECK])) as Hp.
  destruct (parse_zone root (zero_config a) (h ++ [HVISOR_CONFIG_CHECK])) as [[[mode c]|st] h1].
  - destruct Hp as [(loads & -> & Hloads) [Hok Hm]]. cbn in Hok, Hm.
    pose proof (start_parsed_spec R mode c ((h ++ [HVISOR_CONFIG_CHECK]) ++ loads) Hok) as Hst.
    destruct (start_parsed mode c _) as [o h2]. destruct Hst as [(tl & -> & Htl) _].
    { intros c' Hc' Hs'. eapply HR; [done|done|done|]. by eapply config_matches_same. }
    exists (HVISOR_CONFIG_CHECK :: loads ++ tl). split; [cbn; by rewrite <- !app_assoc|]. right. eauto 10.
  - destruct Hp as [(loads & -> & Hloads) _]. exists (HVISOR_CONFIG_CHECK :: loads).
    split; [cbn; by rewrite <- app_assoc|]. right. exists loads, []. rewrite app_nil_r. auto.
Qed.

End start_lemmas.

(** ** The text of a CPU mask *)

Definition join (sep : list Z) (l : list (list Z)) : list Z :=
  match l with
  | [] => []
  | x :: l' => x ++ concat ((sep ++.) <$> l')
  end.

(** The numbers of the CPUs below [n] in the mask. *)
Definition mask_cpus (mask : Z) (n : nat) : list Z := List.filter (Z.testbit mask) (seqZ 0 (Z.of_nat n)).

(** Decimal numbers separated by a comma and a space, or "none". *)
Definition cpu_text (mask : Z) : list Z :=
  match mask_cpus mask (Z.to_nat MAX_CPUS) with
  | [] => [110; 111; 110; 101]
  | l => join [44; 32] (dec <$> l)
  end.

Definition zeros (n : Z) : list Z := replicate (Z.to_nat n) 0.

Lemma join_snoc sep l x : l <> [] -> join sep (l ++ [x]) = join sep l ++ sep ++ x.
Proof.
  destruct l as [|y l]; [done|]. intros _. cbn. rewrite fmap_app, concat_app. cbn. by rewrite app_nil_r, <- app_assoc.
Qed.

Lemma mask_cpus_S mask n :
  mask_cpus mask (S n) = mask_cpus mask n ++ (if Z.testbit mask (Z.of_nat n) then [Z.of_nat n] else []).
Proof.
  unfold mask_cpus. replace (Z.of_nat (S n)) with (Z.of_nat n + 1) by lia. rewrite seqZ_app by lia.
  rewrite List.filter_app. replace (seqZ (0 + Z.of_nat n) 1) with [Z.of_nat n] by (unfold seqZ; cbn; f_equal; lia).
  cbn [List.filter]. by destruct (Z.testbit _ _).
Qed.

Lemma dec_length n : 1 <= Z.of_nat (length (dec n)) <= 2.
Proof. unfold dec. destruct (_ <? _); cbn; lia. Qed.

Lemma put_bytes_zeros t cs : forall k, Z.of_nat (length cs) <= k ->
  put_bytes (t ++ zeros k) (Z.of_nat (length t)) cs = Ok (t ++ cs ++ zeros (k - Z.of_nat (length cs))).
Proof.
  revert t. induction cs as [|c cs IH]; intros t k Hk; cbn [put_bytes length] in *; [by rewrite Z.sub_0_r|].
  unfold put_byte. replace ((0 <=? Z.of_nat (length t)) && (Z.of_nat (length t) <? Z.of_nat (length (t ++ zeros k)))) with true
    by (unfold zeros; rewrite length_app, length_replicate; lia).
  cbn [mbind result_bind]. rewrite Nat2Z.id, insert_app_r_alt, Nat.sub_diag by lia.
  replace (zeros k) with (0 :: zeros (k - 1)) by (unfold zeros; replace (Z.to_nat k) with (S (Z.to_nat (k - 1))) by lia; done).
  cbn [insert list_insert]. replace (t ++ c :: zeros (k - 1)) with ((t ++ [c]) ++ zeros (k - 1)) by (rewrite <- app_assoc; done).
  replace (Z.of_nat (length t) + 1) with (Z.of_nat (length (t ++ [c]))) by (rewrite length_app; cbn; lia).
  rewrite IH by lia. rewrite <- app_assoc. by replace (k - 1 - Z.of_nat (length cs)) with (k - Z.of_nat (S (length cs))) by lia.
Qed.

Lemma zeros_cons k : 0 < k -> zeros k = 0 :: zeros (k - 1).
Proof. intros Hk. unfold zeros. by replace (Z.to_nat k) with (S (Z.to_nat (k - 1))) by lia. Qed.

(** Printing a number at the end of the text and measuring it. *)
Lemma snprintf_zeros t k i : 0 <= i -> 3 <= k ->
  snprintf_zu (t ++ zeros k) (Z.of_nat (length t)) k i = Ok ((t ++ dec i) ++ zeros (k - Z.of_nat (length (dec i)))) /\
  c_strlen (drop (length t) ((t ++ dec i) ++ zeros (k - Z.of_nat (length (dec i))))) = Z.of_nat (length (dec i)).
Proof.
  intros Hi Hk. pose proof (dec_length i) as Hd. unfold snprintf_zu. replace (k <=? 0) with false by lia.
  rewrite take_ge by lia. rewrite put_bytes_zeros by (rewrite length_app; cbn; lia). split.
  - rewrite <- !app_assoc. rewrite (zeros_cons (k - Z.of_nat (length (dec i)))) by lia.
    rewrite length_app. cbn [app length].
    by replace (k - Z.of_nat (length (dec i) + 1)) with (k - Z.of_nat (length (dec i)) - 1) by lia.
  - rewrite <- app_assoc, drop_app_length. rewrite (zeros_cons (k - _)) by lia.
    pose proof (Z.div_pos i 10 Hi ltac:(lia)). pose proof (Z.mod_pos_bound i 10 ltac:(lia)).
    unfold dec. destruct (i <? 10); cbn [app c_strlen length].
    + by replace (48 + i =? 0) with false by lia.
    + replace (48 + i / 10 =? 0) with false by lia. by replace (48 + i `mod` 10 =? 0) with false by lia.
Qed.

(** The separator. *)
Lemma put_separator t k : 2 <= k ->
  (o1 ← put_byte (t ++ zeros k) (Z.of_nat (length t)) 44;
   o2 ← put_byte o1 (Z.of_nat (length t) + 1) 32;
   Ok (o2, Z.of_nat (length t) + 2)) = Ok ((t ++ [44; 32]) ++ zeros (k - 2), Z.of_nat (length (t ++ [44; 32]))).
Proof.
  intros Hk. pose proof (put_bytes_zeros t [44; 32] k Hk) as Hp. cbn [put_bytes] in Hp.
  destruct (put_byte _ _ 44) as [o1|]; [|done]. cbn [mbind result_bind] in *.
  destruct (put_byte o1 _ 32) as [o2|]; [|done]. cbn in *. injection Hp as ->. rewrite <- app_assoc, length_app. cbn.
  do 2 f_equal. lia.
Qed.

(** The text after the CPUs below [j]. *)
Definition text_upto (mask : Z) (j : nat) : list Z := join [44; 32] (dec <$> mask_cpus mask j).

(** The loop appends the remaining CPUs to the text. *)
Lemma cpu_loop_text mask size : 132 <= size -> forall n i,
  (i + n = 32)%nat ->
  Z.of_nat (length (text_upto mask i)) <= 4 * Z.of_nat i ->
  cpu_loop n (Z.of_nat i) mask size (text_upto mask i ++ zeros (size - Z.of_nat (length (text_upto mask i))))
    (Z.of_nat (length (text_upto mask i))) (negb (bool_decide (mask_cpus mask i = []))) =
  Ok (text_upto mask 32 ++ zeros (size - Z.of_nat (length (text_upto mask 32))), negb (bool_decide (mask_cpus mask 32 = []))).
Proof.
  intros Hsize. induction n as [|n IH]; intros i Hi Hlen; [by replace i with 32%nat by lia|].
  set (txt := text_upto mask) in *.
  cbn [cpu_loop]. replace (Z.of_nat (length (txt i)) <? size) with true by lia.
  pose proof (mask_cpus_S mask i) as HS. specialize (IH (S i) ltac:(lia)).
  replace (Z.of_nat i + 1) with (Z.of_nat (S i)) by lia.
  destruct (Z.testbit mask (Z.of_nat i)).
  2: { rewrite app_nil_r in HS. assert (txt (S i) = txt i) as Ht by (unfold txt, text_upto; by rewrite HS).
       rewrite Ht, HS in IH. apply IH. lia. }
  pose proof (dec_length (Z.of_nat i)) as Hd.
  assert (exists t, (mask_cpus mask i = [] -> t = txt i) /\ (mask_cpus mask i <> [] -> t = txt i ++ [44; 32]) /\
    txt (S i) = t ++ dec (Z.of_nat i)) as (t & Hnil & Hsep & Ht).
  { unfold txt, text_upto. rewrite HS, fmap_app. destruct (mask_cpus mask i) as [|c l] eqn:Em.
    - exists []. repeat split; try done. cbn. by rewrite app_nil_r.
    - exists (join [44; 32] (dec <$> c :: l) ++ [44; 32]). repeat split; [done|].
      cbn [fmap list_fmap]. rewrite (join_snoc _ (dec c :: _)) by done. by rewrite <- app_assoc. }
  set (m := mask_cpus mask i) in *.
  assert ((if negb (bool_decide (m = [])) then
             o1 ← put_byte (txt i ++ zeros (size - Z.of_nat (length (txt i)))) (Z.of_nat (length (txt i))) 44;
             o2 ← put_byte o1 (Z.of_nat (length (txt i)) + 1) 32;
             Ok (o2, Z.of_nat (length (txt i)) + 2)
           else Ok (txt i ++ zeros (size - Z.of_nat (length (txt i))), Z.of_nat (length (txt i)))) =
          Ok (t ++ zeros (size - Z.of_nat (length t)), Z.of_nat (length t))) as ->.
  { destruct (decide (m = [])) as [Em|Em]; [rewrite bool_decide_eq_true_2 by done; cbn [negb]; by rewrite (Hnil Em)|].
    rewrite bool_decide_eq_false_2 by done. cbn [negb]. rewrite (Hsep Em).
    rewrite put_separator by lia. rewrite (length_app (txt i)). cbn [length].
    by replace (size - Z.of_nat (length (txt i)) - 2) with (size - Z.of_nat (length (txt i) + 2)) by lia. }
  assert (Z.of_nat (length t) <= 4 * Z.of_nat i + 2) as Htl.
  { destruct (decide (m = [])) as [Em|Em]; [rewrite (Hnil Em); lia|]. rewrite (Hsep Em), length_app. cbn. lia. }
  destruct (snprintf_zeros t (size - Z.of_nat (length t)) (Z.of_nat i)) as [Hp Hs]; [lia..|].
  cbn [mbind result_bind]. rewrite Hp. cbn [mbind result_bind]. rewrite Nat2Z.id, Hs.
  rewrite Ht, HS in IH. replace (negb (bool_decide (m ++ [Z.of_nat i] = []))) with true in IH
    by (rewrite bool_decide_eq_false_2; [done|by destruct m]).
  rewrite length_app in IH. replace (size - Z.of_nat (length t) - Z.of_nat (length (dec (Z.of_nat i))))
    with (size - Z.of_nat (length t + length (dec (Z.of_nat i)))) by lia.
  replace (Z.of_nat (length t) + Z.of_nat (length (dec (Z.of_nat i)))) with (Z.of_nat (length t + length (dec (Z.of_nat i)))) by lia.
  apply IH. lia.
Qed.

Section theorems.
Context {J : Type} {cj : CJson J} {jlaws : CJsonLaws J} {a : Arch} {env : ToolEnv a} {laws : ToolEnvLaws a} {files : JsonFiles J}.

(** Where the start call is in a trace. *)
Lemma start_tail_last (R : zone_config a -> Prop) c loads tail :
  Forall is_load loads -> start_tail R tail -> In (HVISOR_ZONE_START c) (HVISOR_CONFIG_CHECK :: loads ++ tail) ->
  R c /\ exists e b, tail = e ++ b ++ [HVISOR_ZONE_START c] /\
    (e = [] \/ e = [HVISOR_GET_ECAM_BASE]) /\ (b = [] \/ exists m, b = [HVISOR_SET_BOOT_MODE m]).
Proof using Type.
  intros Hl (e & b & s & -> & He & Hb & Hs) [|Hin]; [done|]. rewrite !in_app_iff in Hin.
  destruct Hin as [Hin|[Hin|[Hin|Hin]]].
  - rewrite List.Forall_forall in Hl. by apply Hl in Hin.
  - destruct He as [->| ->]; cbn in Hin; intuition discriminate.
  - destruct Hb as [->|[m ->]]; cbn in Hin; intuition discriminate.
  - destruct Hs as [->|(c' & -> & HR)]; cbn in Hin; [done|]. destruct Hin as [[= ->]|[] ]. eauto 10.
Qed.

(** C13: a zone is started only when the hypervisor accepts the tool's
    configuration version, at most once, as the last call, after all images and
    after the ECAM and boot mode calls, whatever the configuration file holds. *)
Theorem zone_start_protocol argv (c : zone_config a) :
  In (HVISOR_ZONE_START c) (zone_start argv []).2 ->
  version_out [] = CONFIG_MAGIC_VERSION /\ ioctl_ret [] HVISOR_CONFIG_CHECK = 0 /\
  exists loads e b, (zone_start argv []).2 = HVISOR_CONFIG_CHECK :: loads ++ e ++ b ++ [HVISOR_ZONE_START c] /\
    Forall is_load loads /\ (e = [] \/ e = [HVISOR_GET_ECAM_BASE]) /\
    (b = [] \/ exists m, b = [HVISOR_SET_BOOT_MODE m]).
Proof.
  destruct (zone_start_spec (fun _ => True) argv [] ltac:(done)) as (l & -> & [->|(loads & tail & -> & Hl & Ht & Hv)]); [done|].
  intros Hin. destruct (start_tail_last _ _ _ _ Hl Ht Hin) as (_ & e & b & -> & He & Hb).
  destruct Hv as [Hv1 Hv2]; [by destruct loads, e, b|]. eauto 10.
Qed.

(** A configuration handed to the hypervisor by a run without undefined behaviour
    has a value of its C type in each field, counts within their arrays and valid
    region types and union tags.  The model ends where C leaves an array, as
    [parse_pci_dev] can ([pci_devs_unchecked] below). *)
Lemma zone_start_well_typed argv (c : zone_config a) :
  In (HVISOR_ZONE_START c) (zone_start argv []).2 -> zone_config_ok c.
Proof.
  destruct (zone_start_spec zone_config_ok argv [] ltac:(done)) as (l & -> & [->|(loads & tail & -> & Hl & Ht & _)]); [done|].
  intros Hin. apply (start_tail_last _ _ _ _ Hl Ht Hin).
Qed.

(** C14: a started zone gets exactly the CPUs and interrupts its file lists, the
    memory regions in the order listed, and its entry point and id. *)
Theorem zone_start_exact argv path root (c : zone_config a) :
  argv !! 3%nat = Some path -> read_json path = Document root ->
  In (HVISOR_ZONE_START c) (zone_start argv []).2 -> config_matches root c.
Proof.
  intros Hp Hr. destruct (zone_start_spec (config_matches root) argv []) as (l & -> & [->|(loads & tail & -> & Hl & Ht & _)]).
  - intros path' root' c' Hp' Hr' _ Hm. rewrite Hp in Hp'. injection Hp' as <-. rewrite Hr in Hr'. by injection Hr' as <-.
  - done.
  - intros Hin. apply (start_tail_last _ _ _ _ Hl Ht Hin).
Qed.


End theorems.

(** C40: with a buffer of at least 132 bytes, such as the one of [zone list],
    [print_cpu_list] writes exactly the numbers of the CPUs below MAX_CPUS = 32 in
    the mask, in decimal, increasing and separated by a comma and a blank, or "none"
    if there is none, terminated and with nothing cut off or written outside the
    buffer.  The CPUs 32 to 63 of the mask are not printed; [high_cpus_not_listed]
    below. *)
Theorem print_cpu_list_exact mask size :
  132 <= size ->
  print_cpu_list mask (zeros size) size = Ok (cpu_text mask ++ zeros (size - Z.of_nat (length (cpu_text mask)))).
Proof.
  intros Hs. unfold print_cpu_list, cpu_text, MAX_CPUS.
  pose proof (cpu_loop_text mask size Hs 32 0 eq_refl ltac:(by vm_compute)) as Hl. cbn [text_upto] in Hl.
  change (text_upto mask 0) with (@nil Z) in Hl. cbn [length app Z.of_nat] in Hl. rewrite Z.sub_0_r in Hl.
  change (negb (bool_decide (mask_cpus mask 0 = []))) with false in Hl. change (Z.to_nat 32) with 32%nat.
  change (Z.of_nat 0) with 0 in Hl. rewrite Hl. cbn [mbind result_bind]. unfold text_upto. destruct (mask_cpus mask 32) as [|c l]; [|done].
  cbn [bool_decide negb fmap list_fmap join app length]. change (Z.of_nat 0) with 0. rewrite Z.sub_0_r.
  change (zeros size) with ([] ++ zeros size). rewrite (put_bytes_zeros []) by (cbn; lia).
  cbn [app length]. change (Z.of_nat 5) with 5. change (Z.of_nat 4) with 4. rewrite (zeros_cons (size - 4)) by lia.
  by replace (size - 4 - 1) with (size - 5) by lia.
Qed.

(** ** An example zone *)

#[local] Existing Instance json_cjson.
#[local] Existing Instance json_laws.

Definition demo_doc (devs : list json) : json := JObject [
  ("zone_id", JNumber 1); ("cpus", JArray [JNumber 2; JNumber 3]); ("name", JString "linux2");
  ("memory_regions", JArray [
     JObject [("type", JString "ram"); ("physical_start", JString "0x50000000");
              ("virtual_start", JString "0x50000000"); ("size", JString "0x20000000")];
     JObject [("type", JString "virtio"); ("physical_start", JString "0xa003c00");
              ("virtual_start", JString "0xa003c00"); ("size", JString "0x200")]]);
  ("kernel_filepath", JString "kernel.elf"); ("dtb_filepath", JString "null");
  ("kernel_load_paddr", JString "0x50400000"); ("dtb_load_paddr", JString "0x50000000");
  ("entry_point", JString "0x50400000"); ("interrupts", JArray [JNumber 76; JNumber 78]);
  ("ivc_configs", JArray []);
  ("arch_config", JObject [("gic_version", JString "v3"); ("gicd_base", JString "0x8000000");
     ("gicd_size", JString "0x10000"); ("gicr_base", JString "0x80a0000"); ("gicr_size", JString "0xf60000")]);
  ("pci_config", JArray []); ("alloc_pci_devs", JArray devs)]%string.

Definition demo_argv : list string := ["hvisor"; "zone"; "start"; "zone.json"]%string.

#[local] Instance demo_files : JsonFiles json := fun _ => Document (Some (demo_doc [])).

Lemma demo_doc_ok : zone_doc_ok ARM64 (Some (demo_doc [])).
Proof.
  constructor; cbn; try done.
  - intros i j. cbn. destruct (_ || _) eqn:Eb; [done|].
    destruct (Z.to_nat i) as [|[|k] ]; cbn; intros [= <-]; unfold cpu_shape; cbn; lia.
  - intros i j. cbn. destruct (_ || _) eqn:Eb; [done|].
    destruct (Z.to_nat i) as [|[|k] ]; cbn; intros [= <-]; eexists; by split.
  - intros i j. cbn. destruct (_ || _) eqn:Eb; [done|]. by destruct (Z.to_nat i).
  - repeat constructor; intros j [= <-]; done.
  - intros j [= <-]. done.
  - intros s [= <-]. unfold strlen, CONFIG_NAME_MAXLEN. cbn. lia.
Qed.

(** The configuration the example is started with. *)
Definition demo_started : option (zone_config ARM64) :=
  match last (@zone_start json _ ARM64 (demo_env ARM64) demo_files demo_argv []).2 with
  | Some (HVISOR_ZONE_START c) => Some c
  | _ => None
  end.

Lemma zone_start_protocol_witness :
  exists c loads, demo_started = Some c /\
    (@zone_start json _ ARM64 (demo_env ARM64) demo_files demo_argv []).2 =
      HVISOR_CONFIG_CHECK :: loads ++ [HVISOR_ZONE_START c].
Proof.
  pose proof (demo_laws ARM64) as laws.
  eexists. destruct (zone_start_protocol (env := demo_env ARM64) (J := json) demo_argv
    ltac:(let c := eval vm_compute in demo_started in match c with Some ?x => exact x end)) as (_ & _ & loads & e & b & H & _).
  { vm_compute. tauto. }
  exists (loads ++ e ++ b). split; [vm_compute; reflexivity|]. rewrite H. by rewrite <- !app_assoc.
Defined.

Lemma zone_start_exact_witness : exists c, demo_started = Some c /\ config_matches (Some (demo_doc [])) c /\ cpus c = 12.
Proof.
  pose proof (demo_laws ARM64) as laws. eexists. split; [vm_compute; reflexivity|]. split; [|reflexivity].
  apply (zone_start_exact (env := demo_env ARM64) (J := json) demo_argv "zone.json"); [reflexivity|reflexivity|].
  vm_compute. tauto.
Defined.


Lemma print_cpu_list_exact_witness :
  print_cpu_list 0x1405 (zeros 256) 256 = Ok (bytes_of "0, 2, 10, 12" ++ zeros 244).
Proof. apply (print_cpu_list_exact 0x1405 256). lia. Defined.

(** CPU 40, which [zone start] accepts, is not in the list. *)
Example high_cpus_not_listed :
  (@parse_cpus json _ ARM64 (Some (JArray [JNumber 40])) 0 []).1 = inl (2 ^ 40) /\
  print_cpu_list (2 ^ 40) (zeros 256) 256 = Ok (bytes_of "none" ++ zeros 252).
Proof. split; vm_compute; reflexivity. Qed.

(** A name of 32 bytes is accepted and then printed past the end of its array. *)
Example long_name_overread :
  (@parse_zone json _ ARM64 (demo_env ARM64) (Some (JObject (
     ("name", JString "abcdefghijklmnopqrstuvwxyz012345") ::
     match demo_doc [] with JObject l => l | _ => [] end)%string)) (zero_config ARM64) []).1 = inr (Crash OutOfBounds).
Proof. vm_compute. reflexivity. Qed.

(** Without memory for the kernel's file the tool stores through NULL. *)
Example image_buffer_unchecked :
  let env := {| page_size := 0x1000; file_content _ := None; buffer_null _ := true; log_info_on := false; file_access _ := true;
                calloc_ok _ := true; dev_open _ := true; ioctl_ret _ _ := 0; ecam_out _ := 0;
                version_out _ := CONFIG_MAGIC_VERSION; list_out _ := [] |} : ToolEnv ARM64 in
  (load_image_to_memory "Image" 0x50400000 []).1 = inr (Crash NullDeref).
Proof. reflexivity. Qed.

(** the number of PCI devices is not checked against the array: a file with 33
    of them makes the parser write past [alloc_pci_devs]. *)
Example pci_devs_unchecked :
  let dev := JObject [("domain", JNumber 0); ("bus", JNumber 0); ("device", JNumber 1); ("function", JNumber 0);
                      ("v_bus", JNumber 0); ("v_device", JNumber 1); ("v_function", JNumber 0); ("dev_type", JNumber 0)]%string in
  (parse_pci_config (Some (demo_doc (replicate 33 dev))) (zero_config ARM64) []).1 = inr (Crash OutOfBounds).
Proof. vm_compute. reflexivity. Qed.

(** [zone list] returns the number of zones, which [main] turns into a failure
    status: the command fails exactly when it has zones to show. *)
Example zone_list_reports_failure :
  let env := {| page_size := 0x1000; file_content _ := None; buffer_null _ := false; log_info_on := false; file_access _ := false; calloc_ok _ := true;
                dev_open _ := true; ioctl_ret _ c := match c with HVISOR_ZONE_LIST _ => 1 | _ => 0 end;
                ecam_out _ := 0; version_out _ := CONFIG_MAGIC_VERSION;
                list_out _ := [{| zi_zone_id := 0; zi_cpus := 1; zi_name := []; zi_is_err := 0 |}] |} : ToolEnv ARM64 in
  (main (fun _ => mret 0) (fun _ => mret 0) 0 ["hvisor"; "zone"; "list"]%string []).1 = inl 1.
Proof. vm_compute. reflexivity. Qed.
