(* ===== verification/EventMonitor.v ===== *)
(** * The event monitor

    [tools/virtio/event_monitor.c]: the table of registered file descriptors, the
    kernel's epoll set it mirrors, and the thread that calls the handlers of ready
    descriptors.  An event is a heap object, its address an index; the devices
    free an event after removing it ([virtio_net_close], [virtio_console_close]).
    The thread and the devices' threads interleave at the calls they make. *)

From S2P Require Import Prelude.

Definition MAX_EVENTS : nat := 16.

Record hvisor_event := {
  handler : Z;       (* function pointer *)
  param : Z;
  fd : Z;
  epoll_type : Z;
}.

Record monitor := {
  heap : list (option hvisor_event);   (* None: freed *)
  events : list (option nat);          (* the static array of pointers *)
  events_num : nat;
  interest : list (Z * nat);           (* the epoll set: descriptor and data.ptr *)
}.

(** After [initialize_event_monitor]. *)
Definition monitor0 : monitor :=
  {| heap := []; events := replicate MAX_EVENTS None; events_num := 0; interest := [] |}.

Definition CPU_SETSIZE : nat := 1024.

(** The search for the last available processor, downwards to 1. *)
Fixpoint last_cpu_loop (isset : nat -> bool) (i : nat) : option nat :=
  match i with
  | O => None
  | S i' => if isset i then Some i else last_cpu_loop isset i'
  end.

(** The return value, and the processor the thread is moved to, if any;
    [cpuset] is the process's affinity mask when it can be read. *)
Definition initialize_event_monitor (epoll_fd : Z) (cpuset : option (nat -> bool)) : Z * option nat :=
  (if 0 <=? epoll_fd then 0 else -1, isset ← cpuset; last_cpu_loop isset (CPU_SETSIZE - 1)).

(** ** The epoll set

    [EPOLL_CTL_ADD] fails for a descriptor that is in the set, and may fail for
    reasons of the kernel's own ([kernel_ok] false); [EPOLL_CTL_DEL] of a
    descriptor that is not there does nothing. *)

Definition in_interest (s : monitor) (f : Z) : bool := existsb (fun e => e.1 =? f) (interest s).

Definition epoll_del (f : Z) (l : list (Z * nat)) : list (Z * nat) := List.filter (fun e => negb (e.1 =? f)) l.

(** ** Operations *)

(** [alloc]: whether [calloc] gives an object; the code stores into it without
    looking. *)
Definition add_event (alloc kernel_ok : bool) (f : Z) (type handler param : Z) (s : monitor) : result (monitor * option nat) :=
  if (MAX_EVENTS <=? events_num s)%nat then Ok (s, None)
  else if (f <? 0) || (handler =? 0) then Ok (s, None)
  else if negb alloc then Err NullDeref
  else
    let hevent := length (heap s) in
    let ev := {| handler := handler; param := param; fd := f; epoll_type := type |} in
    if negb kernel_ok || in_interest s f then
      (* calloc and free: the address is not used again here *)
      Ok ({| heap := heap s ++ [None]; events := events s; events_num := events_num s; interest := interest s |}, None)
    else
      Ok ({| heap := heap s ++ [Some ev]; events := <[events_num s := Some hevent]> (events s);
          events_num := S (events_num s); interest := interest s ++ [(f, hevent)] |}, Some hevent).

(** The slot of an event among the first [n]. *)
Fixpoint find_slot (l : list (option nat)) (n : nat) (p : nat) : option nat :=
  match n, l with
  | S n', o :: l' => if decide (o = Some p) then Some 0%nat else S <$> find_slot l' n' p
  | _, _ => None
  end.

(** [hevent->fd] is read before the slot is cleared. *)
Definition remove_event (hevent : nat) (s : monitor) : result monitor :=
  match find_slot (events s) (events_num s) hevent with
  | None => Ok s
  | Some i =>
      match heap s !! hevent with
      | Some (Some ev) =>
          Ok {| heap := heap s; events := <[i := None]> (events s); events_num := events_num s;
                interest := epoll_del (fd ev) (interest s) |}
      | _ => Err Unmapped
      end
  end.

(** [free] of an event, done by the device that registered it. *)
Definition free_event (hevent : nat) (s : monitor) : monitor :=
  {| heap := <[hevent := None]> (heap s); events := events s; events_num := events_num s; interest := interest s |}.

(** The descriptors the table still holds are deleted one by one. *)
Fixpoint destroy_loop (slots : list (option nat)) (s : monitor) : result (list (Z * nat)) :=
  match slots with
  | [] => Ok (interest s)
  | None :: slots' => destroy_loop slots' s
  | Some p :: slots' =>
      match heap s !! p with
      | Some (Some ev) =>
          destroy_loop slots' {| heap := heap s; events := events s; events_num := events_num s;
                                 interest := epoll_del (fd ev) (interest s) |}
      | _ => Err Unmapped
      end
  end.

Definition destroy_event_monitor (s : monitor) : result monitor :=
  int ← destroy_loop (take (events_num s) (events s)) s;
  Ok {| heap := heap s; events := replicate (events_num s) None ++ drop (events_num s) (events s);
        events_num := events_num s; interest := int |}.

(** A handler call: the function, the descriptor, the ready events, the parameter. *)
Definition handler_call := (Z * Z * Z * Z)%type.

(** One iteration of the loop over what [epoll_wait] returned. *)
Definition dispatch (s : monitor) (ready : nat * Z) : result handler_call :=
  match heap s !! ready.1 with
  | Some (Some hevent) => Ok (handler hevent, fd hevent, ready.2, param hevent)
  | _ => Err Unmapped
  end.

(** ** Interleaving of the epoll thread with the device threads *)

Record em_state := {
  mon : monitor;
  pending : list (nat * Z);        (* returned by epoll_wait, not yet handled *)
  called : list handler_call;
}.

(** [close_when_idle]: devices only close while no batch is being handled. *)
Inductive em_step (close_when_idle : bool) : em_state -> em_state -> Prop :=
  | em_add st c k f t h p m' r :
      add_event c k f t h p (mon st) = Ok (m', r) ->
      em_step close_when_idle st {| mon := m'; pending := pending st; called := called st |}
  | em_close st p m' :
      (close_when_idle = true -> pending st = []) ->
      remove_event p (mon st) = Ok m' ->
      em_step close_when_idle st {| mon := free_event p m'; pending := pending st; called := called st |}
  | em_wait st ready :
      pending st = [] -> (length ready <= MAX_EVENTS)%nat ->
      Forall (fun r => exists f, (f, r.1) ∈ interest (mon st)) ready ->
      em_step close_when_idle st {| mon := mon st; pending := ready; called := called st |}
  | em_handle st r rs c :
      pending st = r :: rs -> dispatch (mon st) r = Ok c ->
      em_step close_when_idle st {| mon := mon st; pending := rs; called := called st ++ [c] |}.

Definition em0 : em_state := {| mon := monitor0; pending := []; called := [] |}.

(** ** Invariant *)

(** The event at an address, if it is alive. *)
Definition event_at (s : monitor) (p : nat) : option hvisor_event := mjoin (heap s !! p).

(** The table mirrors the epoll set: the slots in use hold live events, each
    registered under its own descriptor, and nothing else is registered. *)
Record monitor_ok (s : monitor) : Prop := {
  mo_len : length (events s) = MAX_EVENTS;
  mo_num : (events_num s <= MAX_EVENTS)%nat;
  mo_unused : forall i p, events s !! i = Some (Some p) -> (i < events_num s)%nat;
  mo_unique : forall i j p, events s !! i = Some (Some p) -> events s !! j = Some (Some p) -> i = j;
  mo_slot : forall i p, events s !! i = Some (Some p) ->
    exists ev, event_at s p = Some ev /\ (fd ev, p) ∈ interest s;
  mo_interest : forall f p, (f, p) ∈ interest s ->
    (exists i, events s !! i = Some (Some p)) /\ exists ev, event_at s p = Some ev /\ fd ev = f /\ handler ev <> 0;
  mo_fds : NoDup (interest s).*1;
}.

(** ** Lemmas *)

Lemma find_slot_Some l : forall n p i, find_slot l n p = Some i -> l !! i = Some (Some p) /\ (i < n)%nat.
Proof.
  induction l as [|o l IH]; intros [|n] p i; cbn; try done. destruct (decide (o = Some p)) as [->|]; [intros [= <-]; split; [done|lia]|].
  destruct (find_slot l n p) as [k|] eqn:Ek; [|done]. intros [= <-]. destruct (IH n p k Ek). split; [done|lia].
Qed.

Lemma find_slot_None l : forall n p i, find_slot l n p = None -> (i < n)%nat -> l !! i <> Some (Some p).
Proof.
  induction l as [|o l IH]; intros [|n] p i; cbn; try done; [lia|]. destruct (decide (o = Some p)) as [->|Ho]; [done|].
  destruct (find_slot l n p) as [k|] eqn:Ek; [done|]. intros _ Hi. destruct i as [|i]; cbn; [congruence|]. apply (IH n p i Ek). lia.
Qed.

Lemma elem_of_epoll_del f g p l : (g, p) ∈ epoll_del f l <-> (g, p) ∈ l /\ g <> f.
Proof. unfold epoll_del. rewrite !list_elem_of_In, filter_In. cbn. rewrite negb_true_iff, Z.eqb_neq. tauto. Qed.

Lemma NoDup_epoll_del f l : NoDup l.*1 -> NoDup (epoll_del f l).*1.
Proof.
  induction l as [|[g p] l IH]; cbn; [done|]. intros [Hn Hd]%NoDup_cons. destruct (negb (g =? f)); cbn; [|by apply IH].
  apply NoDup_cons. split; [|by apply IH]. intros [[g' q] [-> Hq]]%list_elem_of_fmap. cbn in Hn. apply Hn.
  apply elem_of_epoll_del in Hq as [Hq _]. apply list_elem_of_fmap. by exists (g', q).
Qed.

Lemma in_interest_false s f p : in_interest s f = false -> (f, p) ∉ interest s.
Proof.
  unfold in_interest. intros H Hin. apply list_elem_of_In in Hin. rewrite <- not_true_iff_false, existsb_exists in H.
  apply H. exists (f, p). split; [done|]. cbn. lia.
Qed.

Lemma event_at_app s s' l p ev : heap s' = heap s ++ l -> event_at s p = Some ev -> event_at s' p = Some ev.
Proof.
  unfold event_at. intros ->. destruct (heap s !! p) eqn:E; [|done]. by rewrite (lookup_app_l_Some _ _ _ _ E).
Qed.

Lemma event_at_lt s p ev : event_at s p = Some ev -> (p < length (heap s))%nat.
Proof. unfold event_at. destruct (heap s !! p) eqn:E; [|done]. intros _. by eapply lookup_lt_Some. Qed.

Lemma monitor0_ok : monitor_ok monitor0.
Proof.
  constructor; cbn -[replicate MAX_EVENTS].
  - apply length_replicate.
  - lia.
  - intros i p H. by apply lookup_replicate in H as [? _].
  - intros i j p H. by apply lookup_replicate in H as [? _].
  - intros i p H. by apply lookup_replicate in H as [? _].
  - intros f p H. by apply elem_of_nil in H.
  - constructor.
Qed.

(** The slots after a registration. *)
Lemma new_slot_inv s i q : monitor_ok s -> (events_num s < MAX_EVENTS)%nat ->
  <[events_num s := Some (length (heap s))]> (events s) !! i = Some (Some q) ->
  (i = events_num s /\ q = length (heap s)) \/ (i <> events_num s /\ events s !! i = Some (Some q) /\ q <> length (heap s)).
Proof.
  intros Hok Hn Hq. destruct (decide (i = events_num s)) as [->|Hne].
  - rewrite list_lookup_insert_eq in Hq by (rewrite (mo_len s Hok); lia). injection Hq as <-. by left.
  - rewrite list_lookup_insert_ne in Hq by done. right. split; [done|]. split; [done|].
    destruct (mo_slot s Hok i q Hq) as (e & He & _). apply event_at_lt in He. lia.
Qed.

Lemma register_ok s ev : monitor_ok s -> (events_num s < MAX_EVENTS)%nat -> handler ev <> 0 -> in_interest s (fd ev) = false ->
  monitor_ok {| heap := heap s ++ [Some ev]; events := <[events_num s := Some (length (heap s))]> (events s);
                events_num := S (events_num s); interest := interest s ++ [(fd ev, length (heap s))] |}.
Proof.
  intros Hok Hn Hh Ein. set (s' := {| heap := _ |}). pose proof (fun i q => new_slot_inv s i q Hok Hn) as Hins.
  destruct Hok as [H1 H2 H3 H4 H5 H6 H7].
  assert (event_at s' (length (heap s)) = Some ev) as Hnew by (unfold event_at; cbn; by rewrite list_lookup_middle).
  assert (forall q e, event_at s q = Some e -> event_at s' q = Some e) as Hold by (intros; by eapply event_at_app).
  constructor; cbn; try done.
  - by rewrite length_insert.
  - intros i q Hq. destruct (Hins i q Hq) as [[-> _]|(_ & Hq' & _)]; [lia|]. specialize (H3 i q Hq'). lia.
  - intros i j q Hi Hj. destruct (Hins i q Hi) as [[-> ->]|(Hni & Hi' & Hqi)], (Hins j _ Hj) as [[-> ?]|(Hnj & Hj' & Hqj)];
      try done. by apply (H4 i j q).
  - intros i q Hq. destruct (Hins i q Hq) as [[-> ->]|(_ & Hq' & _)].
    + exists ev. split; [done|]. apply elem_of_app. right. by apply list_elem_of_singleton.
    + destruct (H5 i q Hq') as (e & He & Hi). exists e. split; [by apply Hold|]. apply elem_of_app. by left.
  - intros g q [Hq|Hq]%elem_of_app.
    + destruct (H6 g q Hq) as ([i Hi] & e & He & Hf). split; [|exists e; split; [by apply Hold|done] ].
      exists i. rewrite list_lookup_insert_ne; [done|]. specialize (H3 i q Hi). lia.
    + apply list_elem_of_singleton in Hq as [= -> ->]. split; [|by exists ev].
      exists (events_num s). apply list_lookup_insert_eq. lia.
  - rewrite fmap_app. apply NoDup_app. split; [done|]. split; [|by apply NoDup_singleton].
    intros g Hg Hf. cbn in Hf. apply list_elem_of_singleton in Hf as ->. apply list_elem_of_fmap in Hg as ([g q] & Heq & Hq).
    cbn in Heq. subst g. by apply (in_interest_false s (fd ev) q Ein).
Qed.

Lemma add_event_ok c k f t h p s m r : monitor_ok s -> add_event c k f t h p s = Ok (m, r) -> monitor_ok m.
Proof.
  intros Hok. unfold add_event. destruct (_ <=? _)%nat eqn:Efull; [by intros [= <- _]|]. apply Nat.leb_gt in Efull.
  destruct (_ || _) eqn:Earg; [by intros [= <- _]|]. destruct (negb c); [done|].
  destruct (negb k || in_interest s f) eqn:Ek; intros [= <- _].
  - destruct Hok as [H1 H2 H3 H4 H5 H6 H7]. constructor; cbn; try done.
    + intros i q Hq. destruct (H5 i q Hq) as (ev & He & Hi). exists ev. split; [by eapply event_at_app|done].
    + intros g q Hq. destruct (H6 g q Hq) as (Hs & ev & He & Hf). split; [done|]. exists ev. split; [by eapply event_at_app|done].
  - apply orb_false_iff in Ek as [_ Ein].
    apply (register_ok s {| handler := h; param := p; fd := f; epoll_type := t |}); cbn; [done|done|lia|done].
Qed.

(** What removing an event does: its slot, if it has one, is cleared and its
    descriptor leaves the epoll set. *)
Lemma remove_event_spec p s s' : monitor_ok s -> remove_event p s = Ok s' ->
  heap s' = heap s /\ events_num s' = events_num s /\
  (forall i q, events s' !! i = Some (Some q) <-> events s !! i = Some (Some q) /\ q <> p) /\
  (forall f q, (f, q) ∈ interest s' <-> (f, q) ∈ interest s /\ q <> p) /\
  NoDup (interest s').*1 /\ length (events s') = length (events s).
Proof.
  intros [H1 H2 H3 H4 H5 H6 H7]. unfold remove_event. destruct (find_slot _ _ p) as [i|] eqn:Es.
  - apply find_slot_Some in Es as [Hi Hlt]. destruct (H5 i p Hi) as (ev & Hev & Hin). unfold event_at in Hev.
    destruct (heap s !! p) as [[ev'|]|] eqn:Eh; try done. injection Hev as ->. intros [= <-]. cbn.
    split; [done|]. split; [done|]. split; [|split; [|split; [by apply NoDup_epoll_del|by rewrite length_insert] ] ].
    + intros j q. destruct (decide (j = i)) as [->|Hne].
      * rewrite list_lookup_insert_eq by (by eapply lookup_lt_Some). split; [done|]. intros [Hq Hn]. congruence.
      * rewrite list_lookup_insert_ne by done. split; [|tauto]. intros Hq. split; [done|]. intros ->. by apply Hne, (H4 j i p).
    + intros g q. rewrite elem_of_epoll_del. split; intros [Hq Hn]; (split; [done|]).
      * intros ->. destruct (H6 g p Hq) as (_ & e & He & Hf & _). unfold event_at in He. rewrite Eh in He. cbn in He. congruence.
      * intros ->. apply Hn. destruct (list_elem_of_lookup_1 _ _ Hq) as [a Ha], (list_elem_of_lookup_1 _ _ Hin) as [b Hb].
        assert (a = b) as ->; [|congruence]. eapply (NoDup_lookup (interest s).*1 a b (fd ev) H7);
          rewrite list_lookup_fmap; [by rewrite Ha|by rewrite Hb].
  - intros [= <-]. split; [done|]. split; [done|].
    assert (forall j, events s !! j <> Some (Some p)) as Hno.
    { intros j Hj. eapply find_slot_None; [exact Es| |exact Hj]. by eapply H3. }
    split; [|split; [|done] ].
    + intros j q. split; [|tauto]. intros Hq. split; [done|]. intros ->. by apply (Hno j).
    + intros g q. split; [|tauto]. intros Hq. split; [done|]. intros ->. destruct (H6 g p Hq) as ([j Hj] & _). by apply (Hno j).
Qed.

(** Closing: remove and free. *)
Lemma close_event_ok p s s' : monitor_ok s -> remove_event p s = Ok s' -> monitor_ok (free_event p s').
Proof.
  intros Hok Hr. destruct (remove_event_spec p s s' Hok Hr) as (Hh & Hn & Hev & Hint & Hnd & Hlen).
  assert (forall q, q <> p -> event_at (free_event p s') q = event_at s q) as Hat
    by (intros q Hq; unfold event_at; cbn; by rewrite list_lookup_insert_ne, Hh by done).
  destruct Hok as [H1 H2 H3 H4 H5 H6 H7]. constructor; cbn; try done.
  - congruence.
  - lia.
  - intros i q [Hq _]%Hev. rewrite Hn. by eapply H3.
  - intros i j q [Hi _]%Hev [Hj _]%Hev. by eapply H4.
  - intros i q [Hq Hne]%Hev. destruct (H5 i q Hq) as (ev & He & Hi). exists ev. split; [by rewrite Hat|]. by apply Hint.
  - intros f q [Hq Hne]%Hint. destruct (H6 f q Hq) as ([i Hi] & ev & He). split; [exists i; by apply Hev|].
    exists ev. by rewrite Hat.
Qed.

Lemma em_step_ok b st st' : em_step b st st' -> monitor_ok (mon st) -> monitor_ok (mon st').
Proof.
  intros [? c k f t h p m' r Hadd| ? p m' _ Hrm| |] Hok; cbn; [|by eapply close_event_ok|done|done]. by eapply add_event_ok.
Qed.

(** Every event waiting to be handled is alive and has a handler. *)
Definition pending_ok (st : em_state) : Prop :=
  Forall (fun r => exists ev, event_at (mon st) r.1 = Some ev /\ handler ev <> 0) (pending st).

Lemma em_step_pending st st' : em_step true st st' -> monitor_ok (mon st) -> pending_ok st -> pending_ok st'.
Proof.
  unfold pending_ok. intros [s cc k f t h p m' r Hadd|s p m' Hidle Hrm|s ready _ _ Hready|s r rs c Hp Hd] Hok Hpend; cbn.
  - eapply List.Forall_impl; [|exact Hpend]. intros q (ev & He & Hh). exists ev. split; [|done].
    unfold add_event in Hadd. repeat case_match; simplify_eq; try done; by eapply event_at_app.
  - rewrite (Hidle eq_refl). constructor.
  - eapply List.Forall_impl; [|exact Hready]. intros q [f Hq]. destruct (mo_interest _ Hok f q.1 Hq) as (_ & ev & He & _ & Hh). eauto.
  - rewrite Hp in Hpend. by apply Forall_cons in Hpend as [_ ?].
Qed.

Lemma em_reachable_inv b st : rtc (em_step b) em0 st -> monitor_ok (mon st) /\ (b = true -> pending_ok st).
Proof.
  revert st. apply rtc_ind_r.
  - split; [apply monitor0_ok|]. intros _. constructor.
  - intros st1 st2 _ Hs [Hok Hp]. split; [by eapply em_step_ok|]. intros ->. eapply em_step_pending; [exact Hs|done|by apply Hp].
Qed.

Lemma em_step_num b st st' : em_step b st st' -> (events_num (mon st) <= events_num (mon st'))%nat.
Proof.
  intros [s cc k f t h p m' r Hadd|s p m' _ Hrm| |]; cbn; try done.
  - unfold add_event in Hadd. repeat case_match; simplify_eq; cbn; lia.
  - unfold remove_event in Hrm. repeat case_match; simplify_eq; done.
Qed.

Lemma destroy_loop_spec slots : forall s,
  (forall p, Some p ∈ slots -> exists ev, event_at s p = Some ev) ->
  exists int, destroy_loop slots s = Ok int /\
    forall f q, (f, q) ∈ int -> (f, q) ∈ interest s /\ forall p ev, Some p ∈ slots -> event_at s p = Some ev -> fd ev <> f.
Proof.
  induction slots as [|[p|] slots IH]; intros s Hlive; cbn [destroy_loop].
  - exists (interest s). split; [done|]. intros f q Hq. split; [done|]. intros p ev Hp. by apply elem_of_nil in Hp.
  - destruct (Hlive p) as [ev Hev]; [left|]. pose proof Hev as Hev'. unfold event_at in Hev'.
    destruct (heap s !! p) as [[e|]|]; try done. injection Hev' as ->. edestruct IH as (int & Hint & Hsub).
    2: { exists int. split; [exact Hint|]. intros f q Hq. destruct (Hsub f q Hq) as [Hin Hne]. cbn in Hin.
         apply elem_of_epoll_del in Hin as [Hin Hf]. split; [done|]. intros p' ev' Hp' Hev'.
         apply elem_of_cons in Hp' as [[= ->]|Hp']; [assert (ev' = ev) as -> by congruence; congruence|by eapply Hne]. }
    intros p' Hp'. apply Hlive. by right.
  - destruct (IH s) as (int & Hint & Hsub); [intros p Hp; apply Hlive; by right|]. exists int. split; [done|].
    intros f q Hq. destruct (Hsub f q Hq) as [Hin Hne]. split; [done|]. intros p ev [?|Hp]%elem_of_cons; [done|]. by eapply Hne.
Qed.

(** The thread is moved to the highest processor of the mask, never to 0. *)
Lemma initialize_event_monitor_cpu fd isset c :
  snd (initialize_event_monitor fd (Some isset)) = Some c ->
  (1 <= c < CPU_SETSIZE)%nat /\ isset c = true /\ forall j, (c < j < CPU_SETSIZE)%nat -> isset j = false.
Proof.
  cbn [initialize_event_monitor snd mbind option_bind]. unfold CPU_SETSIZE.
  assert (forall n, last_cpu_loop isset n = Some c ->
    (1 <= c <= n)%nat /\ isset c = true /\ forall j, (c < j <= n)%nat -> isset j = false) as Hloop.
  { induction n as [|n IH]; cbn [last_cpu_loop]; [done|]. destruct (isset (S n)) eqn:E.
    - intros [= <-]. split; [lia|]. split; [done|]. lia.
    - intros (H1 & H2 & H3)%IH. split; [lia|]. split; [done|]. intros j Hj.
      destruct (decide (j = S n)) as [->|]; [done|]. apply H3. lia. }
  intros (H1 & H2 & H3)%Hloop. split; [lia|]. split; [done|]. intros j Hj. apply H3. lia.
Qed.

(** ** Theorems *)

(** Shutting down leaves no descriptor in the epoll set and no event in the
    table. *)
Theorem destroy_event_monitor_empties s : monitor_ok s ->
  exists s', destroy_event_monitor s = Ok s' /\ interest s' = [] /\ forall i p, events s' !! i <> Some (Some p).
Proof.
  intros Hok. unfold destroy_event_monitor. destruct (destroy_loop_spec (take (events_num s) (events s)) s) as (int & Hint & Hsub).
  { intros p [i Hi]%list_elem_of_lookup_1. apply lookup_take_Some in Hi as [Hi _].
    destruct (mo_slot s Hok i p Hi) as (ev & Hev & _). eauto. }
  rewrite Hint. eexists. split; [reflexivity|]. cbn. split.
  - destruct int as [|[f q] int]; [done|]. destruct (Hsub f q) as [Hin Hne]; [left|].
    destruct (mo_interest s Hok f q Hin) as ([i Hi] & ev & Hev & Hf & _). exfalso. eapply Hne; [|exact Hev|exact Hf].
    eapply list_elem_of_lookup_2. apply lookup_take_Some. split; [exact Hi|]. by eapply (mo_unused s Hok).
  - intros i p Hi. destruct (decide (i < events_num s)%nat) as [Hlt|Hge].
    + rewrite lookup_app_l in Hi by (by rewrite length_replicate). by apply lookup_replicate in Hi as [? _].
    + rewrite lookup_app_r, length_replicate, lookup_drop in Hi by (rewrite length_replicate; lia).
      replace (events_num s + (i - events_num s))%nat with i in Hi by lia. apply (mo_unused s Hok) in Hi. lia.
Qed.

(** Under every interleaving of registrations, removals and dispatching, the
    table mirrors the kernel's epoll set: what is registered is exactly what the
    slots hold, each live event under its own descriptor, no descriptor twice. *)
Theorem event_table_mirrors_epoll b st : rtc (em_step b) em0 st -> monitor_ok (mon st).
Proof. apply em_reachable_inv. Qed.

(** As long as devices close only between two batches, every dispatched event
    is alive: the thread calls the handler registered for the descriptor, with
    its parameter. *)
Theorem dispatch_live st r rs :
  rtc (em_step true) em0 st -> pending st = r :: rs ->
  exists ev, event_at (mon st) r.1 = Some ev /\ handler ev <> 0 /\
    dispatch (mon st) r = Ok (handler ev, fd ev, r.2, param ev).
Proof.
  intros Hr Hp. destruct (em_reachable_inv _ _ Hr) as [_ Hok]. specialize (Hok eq_refl). unfold pending_ok in Hok.
  rewrite Hp in Hok. apply Forall_cons in Hok as [(ev & He & Hh) _]. exists ev. split; [done|]. split; [done|].
  unfold dispatch. unfold event_at in He. destruct (heap (mon st) !! r.1) as [[e|]|]; try done. by injection He as ->.
Qed.

(** The table's slots are never reused: after sixteen registrations no
    descriptor can be registered any more, however many were removed. *)
Theorem event_slots_exhausted b st st' c k f t h p :
  events_num (mon st) = MAX_EVENTS -> rtc (em_step b) st st' -> add_event c k f t h p (mon st') = Ok (mon st', None).
Proof.
  intros Hn Hr. assert (MAX_EVENTS <= events_num (mon st'))%nat as Hle.
  { assert (MAX_EVENTS <= events_num (mon st))%nat as Hle by lia. clear Hn c k f t h p.
    induction Hr as [|s1 s2 s3 Hs _ IH]; [done|]. apply em_step_num in Hs. apply IH. lia. }
  unfold add_event. by replace (MAX_EVENTS <=? events_num (mon st'))%nat with true by (symmetry; by apply Nat.leb_le).
Qed.

(** ** Examples *)

(** A registration that succeeds. *)
Definition registered (f : Z) (m : monitor) : monitor :=
  match add_event true true f 1 100 200 m with Ok (m', _) => m' | Err _ => m end.

Definition em_one : em_state := {| mon := registered 5 monitor0; pending := []; called := [] |}.

Definition em_ready : em_state := {| mon := mon em_one; pending := [(0%nat, 1)]; called := [] |}.

Lemma em_ready_reachable b : rtc (em_step b) em0 em_ready.
Proof.
  eapply rtc_l; [eapply (em_add b em0 true true 5 1 100 200); reflexivity|].
  apply rtc_once. apply (em_wait b em_one [(0%nat, 1)]); [done|vm_compute; lia|].
  repeat constructor. exists 5. vm_compute. apply list_elem_of_here.
Qed.

Lemma event_table_mirrors_epoll_witness : monitor_ok (mon em_ready) /\ interest (mon em_ready) = [(5, 0%nat)].
Proof. split; [|reflexivity]. apply (event_table_mirrors_epoll false em_ready), em_ready_reachable. Defined.

Lemma dispatch_live_witness : exists ev, dispatch (mon em_ready) (0%nat, 1) = Ok (handler ev, 5, 1, 200).
Proof.
  destruct (dispatch_live em_ready (0%nat, 1) []) as (ev & He & _ & Hd); [apply em_ready_reachable|reflexivity|].
  exists ev. rewrite Hd. injection He as <-. reflexivity.
Defined.

(** Sixteen registrations. *)
Definition em_full : em_state :=
  {| mon := foldl (fun m f => registered f m) monitor0 (seqZ 3 16); pending := []; called := [] |}.

Lemma event_slots_exhausted_witness :
  exists m, remove_event 0 (mon em_full) = Ok m /\
    add_event true true 3 1 100 200 (free_event 0 m) = Ok (free_event 0 m, None).
Proof.
  destruct (remove_event 0 (mon em_full)) as [m|] eqn:Er; [|vm_compute in Er; discriminate Er]. exists m. split; [done|].
  apply (event_slots_exhausted false em_full {| mon := free_event 0 m; pending := []; called := [] |} true true 3 1 100 200).
  - vm_compute. reflexivity.
  - apply rtc_once. apply (em_close false em_full 0 m); [discriminate|exact Er].
Defined.

(** without that discipline the thread uses a freed event: a device closed while
    its event is in the current batch leaves a dangling pointer there. *)
Example close_races_with_dispatch :
  exists st, rtc (em_step false) em0 st /\ pending st = [(0%nat, 1)] /\ dispatch (mon st) (0%nat, 1) = Err Unmapped.
Proof.
  destruct (remove_event 0 (mon em_ready)) as [m|] eqn:Er; [|vm_compute in Er; discriminate Er].
  exists {| mon := free_event 0 m; pending := pending em_ready; called := called em_ready |}. split; [|split; [done|] ].
  - eapply rtc_r; [apply em_ready_reachable|]. by apply (em_close false em_ready 0 m).
  - vm_compute in Er. by injection Er as <-.
Qed.
