(* ===== verification/HvisorDriver.v ===== *)
(** * The kernel module

    [driver/hvisor_main.c]: the ioctls of [/dev/hvisor], its [mmap], the virtio interrupt
    and the module's start and end.  The kernel's interfaces answer through the
    record [kenv] of a call: whether allocation, mapping and copies succeed and what
    a hypercall returns.  Hypercalls are recorded with what they pass; image
    loading works on physical memory.  The SCMI ioctls are in the SCMI server and
    not here. *)

From S2P Require Import Prelude Memory ZoneConfig.

(** ** Constants *)

Definition IRQ_NONE : Z := 0.
Definition IRQ_HANDLED : Z := 1.
Definition HVISOR_VIRTIO_WAKEUP_HWI : Z := 4.
Definition SIZEOF_zone_info : Z := 56.
Definition SIZEOF_virtio_bridge : Z := 2136.

Definition PAGE_SIZE : Z := 2 ^ 12.
Definition PAGE_ALIGN (n : Z) : Z := let m := u64 (n + PAGE_SIZE - 1) in m - m `mod` PAGE_SIZE.

(** ** Hypercalls, answers and state *)

Inductive hypercall (a : Arch) :=
  | HVISOR_HC_INIT_VIRTIO (bridge : Z)
  | HVISOR_HC_FINISH_REQ
  | HVISOR_HC_START_ZONE (config : zone_config a)
  | HVISOR_HC_SHUTDOWN_ZONE (id : Z)
  | HVISOR_HC_ZONE_LIST (cnt : Z)
  | HVISOR_HC_CONFIG_CHECK
  | HVISOR_HC_SET_BOOT_MODE (mode : hv_zone_boot_mode)
  | HVISOR_HC_GET_ECAM_BASE
  | HVISOR_HC_GET_VIRTIO_IRQ
  | HVISOR_HC_CLEAR_INJECT_IRQ (zone_id irq : Z).
Arguments HVISOR_HC_INIT_VIRTIO {a} _.
Arguments HVISOR_HC_FINISH_REQ {a}.
Arguments HVISOR_HC_START_ZONE {a} _.
Arguments HVISOR_HC_SHUTDOWN_ZONE {a} _.
Arguments HVISOR_HC_ZONE_LIST {a} _.
Arguments HVISOR_HC_CONFIG_CHECK {a}.
Arguments HVISOR_HC_SET_BOOT_MODE {a} _.
Arguments HVISOR_HC_GET_ECAM_BASE {a}.
Arguments HVISOR_HC_GET_VIRTIO_IRQ {a}.
Arguments HVISOR_HC_CLEAR_INJECT_IRQ {a} _ _.

(** What the kernel and the hypervisor answer during one call. *)
Record kenv := {
  k_alloc : option Z;              (* the page or object allocated; None: out of memory *)
  k_memremap : bool;               (* memremap succeeds *)
  k_user : Z -> Z -> option (list Z);   (* the user bytes at an address; None: a fault *)
  k_partial : list Z;              (* what a faulting copy left behind *)
  k_copy_out : bool;               (* copy_to_user succeeds *)
  k_ret : Z;                       (* what the hypercall returns *)
  k_word : Z;                      (* the word it stores *)
  k_garbage : Z;                   (* what an uninitialised word holds *)
  k_zones : list zone_info;        (* the entries ZONE_LIST stores *)
  k_line_size : Z;                 (* data cache line *)
}.

Record kstate (a : Arch) := {
  ks_bridge : option Z;            (* virtio_bridge, by physical address *)
  ks_irq : Z;                      (* virtio_irq *)
  ks_task : option Z;
  ks_ctx : option Z;               (* virtio_irq_ctx *)
  ks_refs : Z -> Z;                (* references the module holds on each eventfd *)
  ks_signals : Z -> Z;             (* the counters of the eventfds *)
  ks_pages : list Z;               (* pages allocated and not freed *)
  ks_phys : hmem;                  (* physical memory *)
  ks_calls : list (hypercall a);
}.
Arguments ks_bridge {a} _.
Arguments ks_irq {a} _.
Arguments ks_task {a} _.
Arguments ks_ctx {a} _.
Arguments ks_refs {a} _ _.
Arguments ks_signals {a} _ _.
Arguments ks_pages {a} _.
Arguments ks_phys {a} _.
Arguments ks_calls {a} _.

Section driver.
Context {a : Arch}.
Implicit Type s : kstate a.

Definition hvisor_call (c : hypercall a) s : kstate a :=
  {| ks_bridge := ks_bridge s; ks_irq := ks_irq s; ks_task := ks_task s; ks_ctx := ks_ctx s; ks_refs := ks_refs s;
     ks_signals := ks_signals s; ks_pages := ks_pages s; ks_phys := ks_phys s; ks_calls := ks_calls s ++ [c] |}.

Definition set_bridge (page : Z) s : kstate a :=
  {| ks_bridge := Some page; ks_irq := ks_irq s; ks_task := ks_task s; ks_ctx := ks_ctx s; ks_refs := ks_refs s;
     ks_signals := ks_signals s; ks_pages := page :: ks_pages s; ks_phys := poke_bytes (ks_phys s) page (replicate (Z.to_nat SIZEOF_virtio_bridge) 0);
     ks_calls := ks_calls s |}.

Definition set_task (t : Z) s : kstate a :=
  {| ks_bridge := ks_bridge s; ks_irq := ks_irq s; ks_task := Some t; ks_ctx := ks_ctx s; ks_refs := ks_refs s;
     ks_signals := ks_signals s; ks_pages := ks_pages s; ks_phys := ks_phys s; ks_calls := ks_calls s |}.

Definition set_phys (m : hmem) s : kstate a :=
  {| ks_bridge := ks_bridge s; ks_irq := ks_irq s; ks_task := ks_task s; ks_ctx := ks_ctx s; ks_refs := ks_refs s;
     ks_signals := ks_signals s; ks_pages := ks_pages s; ks_phys := m; ks_calls := ks_calls s |}.

Definition set_ctx (ctx : option Z) (refs : Z -> Z) s : kstate a :=
  {| ks_bridge := ks_bridge s; ks_irq := ks_irq s; ks_task := ks_task s; ks_ctx := ctx; ks_refs := refs;
     ks_signals := ks_signals s; ks_pages := ks_pages s; ks_phys := ks_phys s; ks_calls := ks_calls s |}.

Definition upd (f : Z -> Z) (x v : Z) : Z -> Z := fun y => if y =? x then v else f y.

(** ** The ioctls *)

(** The error, and the new state. *)
Definition hvisor_init_virtio (e : kenv) s : Z * kstate a :=
  if ks_irq s =? -1 then (ENOTTY, s)
  else
    match k_alloc e with
    | None => (- ENOMEM, s)
    | Some page =>
        let s1 := hvisor_call (HVISOR_HC_INIT_VIRTIO page) (set_bridge page s) in
        (k_ret e, s1)
    end.

Definition hvisor_finish_req (e : kenv) s : Z * kstate a := (k_ret e, hvisor_call HVISOR_HC_FINISH_REQ s).

(** [args]: what [copy_from_user] gives, [None] for a fault. *)
Definition hvisor_deassert_irq (e : kenv) (args : option (Z * Z)) s : Z * kstate a :=
  match args with
  | None => (- EFAULT, s)
  | Some (zone_id, irq_id) => (k_ret e, hvisor_call (HVISOR_HC_CLEAR_INJECT_IRQ zone_id irq_id) s)
  end.

(** The lines cleaned from [addr] on. *)
Fixpoint flush_loop (fuel : nat) (addr end_ line_size : Z) : list Z :=
  match fuel with
  | O => []
  | S fuel' => if addr <? end_ then addr :: flush_loop fuel' (addr + line_size) end_ line_size else []
  end.

(** On ARM64, the cache lines cleaned; the other architectures do nothing yet. *)
Definition flush_cache_mapped (line_size start size : Z) : list Z :=
  if decide (a = ARM64) then
    let end_ := start + PAGE_ALIGN size in
    let addr := start - start `mod` line_size in
    flush_loop (S (Z.to_nat ((end_ - addr) / line_size))) addr end_ line_size
  else [].

Record hvisor_load_image_args := {
  user_buffer : Z;
  li_size : Z;
  load_paddr : Z;
}.

(** A copy to [dst], which must lie in the mapping of [map_size] bytes at
    [map_phys]. *)
Definition copy_into (m : hmem) (map_phys map_size dst : Z) (bytes : list Z) : result hmem :=
  if (map_phys <=? dst) && (dst + Z.of_nat (length bytes) <=? map_phys + map_size)
  then Ok (poke_bytes m dst bytes) else Err OutOfBounds.

Definition hvisor_load_image (e : kenv) (arg : option hvisor_load_image_args) s : result (Z * kstate a) :=
  match arg with
  | None => Ok (- EFAULT, s)
  | Some kargs =>
      if (user_buffer kargs =? 0) || (li_size kargs =? 0) then Ok (- EINVAL, s)
      else
        let map_phys := load_paddr kargs - load_paddr kargs `mod` PAGE_SIZE in
        let page_offs := load_paddr kargs - map_phys in
        if UINT64_MAX - page_offs <? li_size kargs then Ok (- EINVAL, s)
        else
          let map_size := PAGE_ALIGN (li_size kargs + page_offs) in
          if map_size <? li_size kargs then Ok (- EINVAL, s)
          else if negb (k_memremap e) then Ok (- ENOMEM, s)
          else
            let dst := map_phys + page_offs in
            match k_user e (user_buffer kargs) (li_size kargs) with
            | None => m ← copy_into (ks_phys s) map_phys map_size dst (k_partial e); Ok (- EFAULT, set_phys m s)
            | Some bytes => m ← copy_into (ks_phys s) map_phys map_size dst bytes; Ok (0, set_phys m s)
            end
  end.

(** A failed allocation is reported and then used. *)
Definition hvisor_zone_start (e : kenv) (arg : option (zone_config a)) s : result (Z * kstate a) :=
  match k_alloc e, arg with
  | None, _ => Err NullDeref
  | Some _, None => Ok (- EFAULT, s)
  | Some _, Some config => Ok (k_ret e, hvisor_call (HVISOR_HC_START_ZONE config) s)
  end.

Definition hvisor_set_boot_mode (e : kenv) (arg : option hv_zone_boot_mode) s : Z * kstate a :=
  match k_alloc e, arg with
  | None, _ => (- ENOMEM, s)
  | Some _, None => (- EFAULT, s)
  | Some _, Some mode => (k_ret e, hvisor_call (HVISOR_HC_SET_BOOT_MODE mode) s)
  end.

(** The error, the word copied to the user and the new state.  The word is not
    initialised before the hypercall. *)
Definition hvisor_config_check (e : kenv) s : result (Z * option Z * kstate a) :=
  match k_alloc e with
  | None => Err NullDeref
  | Some _ =>
      let s1 := hvisor_call HVISOR_HC_CONFIG_CHECK s in
      let word := if k_ret e =? 0 then k_word e else k_garbage e in
      if negb (k_copy_out e) then Ok (- EFAULT, None, s1) else Ok (k_ret e, Some word, s1)
  end.

Definition hvisor_get_ecam_base (e : kenv) s : Z * option Z * kstate a :=
  match k_alloc e with
  | None => (- ENOMEM, None, s)
  | Some _ =>
      let s1 := hvisor_call HVISOR_HC_GET_ECAM_BASE s in
      if negb (k_ret e =? 0) then (k_ret e, None, s1)
      else if negb (k_copy_out e) then (- EFAULT, None, s1)
      else (0, Some (k_word e), s1)
  end.

(** The buffer has [cnt * sizeof(zone_info_t)] bytes, computed in 64 bits; the
    hypervisor stores its entries there. *)
Definition hvisor_zone_list (e : kenv) (arg : option Z) s : result (Z * list zone_info * kstate a) :=
  match arg with
  | None => Ok (- EFAULT, [], s)
  | Some cnt =>
      let bytes := u64 (cnt * SIZEOF_zone_info) in
      match k_alloc e with
      | None => Err NullDeref
      | Some _ =>
          let s1 := hvisor_call (HVISOR_HC_ZONE_LIST cnt) s in
          if k_ret e <? 0 then Ok (k_ret e, [], s1)
          else if bytes <? k_ret e * SIZEOF_zone_info then Err OutOfBounds
          else if negb (k_copy_out e) then Ok (k_ret e, [], s1)
          else Ok (k_ret e, take (Z.to_nat (k_ret e)) (k_zones e), s1)
      end
  end.

(** The three steps of SET_EVENTFD.  [eventfd_ctx_fdget] takes a reference on the new
    context, the reference on the current one is dropped, and the new one is stored.
    Nothing keeps the interrupt handler out in between. *)
Definition set_eventfd_get (c : Z) s : kstate a := set_ctx (ks_ctx s) (upd (ks_refs s) c (ks_refs s c + 1)) s.

Definition set_eventfd_put s : kstate a :=
  match ks_ctx s with
  | Some old => set_ctx (ks_ctx s) (upd (ks_refs s) old (ks_refs s old - 1)) s
  | None => s
  end.

Definition set_eventfd_store (c : Z) s : kstate a := set_ctx (Some c) (ks_refs s) s.

Definition hvisor_set_eventfd (ctx : Z + Z) s : Z * kstate a :=
  match ctx with
  | inr err => (err, s)
  | inl c => (0, set_eventfd_store c (set_eventfd_put (set_eventfd_get c s)))
  end.

(** The commands, with what [copy_from_user] finds at the argument. *)
Inductive ioctl_cmd :=
  | IOC_INIT_VIRTIO (current : Z)
  | IOC_ZONE_START (arg : option (zone_config a))
  | IOC_SET_BOOT_MODE (arg : option hv_zone_boot_mode)
  | IOC_ZONE_SHUTDOWN (arg : Z)
  | IOC_ZONE_LIST (arg : option Z)
  | IOC_FINISH_REQ
  | IOC_CONFIG_CHECK
  | IOC_GET_ECAM_BASE
  | IOC_SET_EVENTFD (ctx : Z + Z)          (* what eventfd_ctx_fdget gives: a context or an error *)
  | IOC_LOAD_IMAGE (arg : option hvisor_load_image_args)
  | IOC_DEASSERT_IRQ (arg : option (Z * Z))
  | IOC_UNKNOWN.

(** Only built on these architectures. *)
Definition has_deassert : bool := bool_decide (a = LOONGARCH64) || bool_decide (a = X86_64).

Definition hvisor_ioctl (e : kenv) (c : ioctl_cmd) s : result (Z * kstate a) :=
  match c with
  | IOC_INIT_VIRTIO current => let '(err, s1) := hvisor_init_virtio e s in Ok (err, set_task current s1)
  | IOC_ZONE_START arg => hvisor_zone_start e arg s
  | IOC_SET_BOOT_MODE arg => Ok (hvisor_set_boot_mode e arg s)
  | IOC_ZONE_SHUTDOWN arg => Ok (k_ret e, hvisor_call (HVISOR_HC_SHUTDOWN_ZONE arg) s)
  | IOC_ZONE_LIST arg => '(err, _, s1) ← hvisor_zone_list e arg s; Ok (err, s1)
  | IOC_FINISH_REQ => Ok (hvisor_finish_req e s)
  | IOC_CONFIG_CHECK => '(err, _, s1) ← hvisor_config_check e s; Ok (err, s1)
  | IOC_GET_ECAM_BASE => let '(err, _, s1) := hvisor_get_ecam_base e s in Ok (err, s1)
  | IOC_SET_EVENTFD ctx => Ok (hvisor_set_eventfd ctx s)
  | IOC_LOAD_IMAGE arg => hvisor_load_image e arg s
  | IOC_DEASSERT_IRQ arg => if has_deassert then Ok (hvisor_deassert_irq e arg s) else Ok (- EINVAL, s)
  | IOC_UNKNOWN => Ok (- EINVAL, s)
  end.

(** ** [mmap], the interrupt and the module's end *)

(** A page-aligned part of physical memory put at [vm_start]. *)
Record vm_mapping := {
  map_vstart : Z;
  map_pfn : Z;
  map_bytes : Z;
}.

(** [remap_err]: what [remap_pfn_range] returns. *)
Definition hvisor_map (remap_err vm_pgoff vm_start vm_end : Z) s : result (Z * option vm_mapping) :=
  if vm_pgoff =? 0 then
    match ks_bridge s with
    | None => Err NullDeref
    | Some phys =>
        if negb (remap_err =? 0) then Ok (remap_err, None)
        else Ok (0, Some {| map_vstart := vm_start; map_pfn := phys / PAGE_SIZE; map_bytes := vm_end - vm_start |})
    end
  else if negb (remap_err =? 0) then Ok (remap_err, None)
  else Ok (0, Some {| map_vstart := vm_start; map_pfn := vm_pgoff; map_bytes := vm_end - vm_start |}).

(** [is_ours]: the interrupt was registered with this device. *)
Definition virtio_irq_handler (is_ours : bool) s : Z * kstate a :=
  match ks_ctx s with
  | Some ctx =>
      if negb is_ours then (IRQ_NONE, s)
      else
        let s1 := {| ks_bridge := ks_bridge s; ks_irq := ks_irq s; ks_task := ks_task s; ks_ctx := ks_ctx s;
                     ks_refs := ks_refs s; ks_signals := upd (ks_signals s) ctx (ks_signals s ctx + 1);
                     ks_pages := ks_pages s; ks_phys := ks_phys s; ks_calls := ks_calls s |} in
        (IRQ_HANDLED, if decide (a = LOONGARCH64) then hvisor_call (HVISOR_HC_CLEAR_INJECT_IRQ 0 HVISOR_VIRTIO_WAKEUP_HWI) s1 else s1)
  | None => (IRQ_NONE, s)
  end.

(** What loading and unloading the module does to the rest of the kernel. *)
Inductive module_op :=
  | MiscRegister
  | MiscDeregister
  | ScmiInit
  | ScmiCleanup
  | PutNode
  | RequestIrq (irq : Z)
  | FreeIrq (irq : Z).

(** Answers during [hvisor_init]. *)
Record init_env := {
  i_misc : Z;            (* misc_register *)
  i_scmi : Z;            (* hvisor_scmi_init *)
  i_node : bool;         (* the device tree node exists *)
  i_irq : Z;             (* of_irq_get, or the word of GET_VIRTIO_IRQ *)
  i_alloc : bool;        (* kmalloc of that word *)
  i_hc : Z;              (* HVISOR_HC_GET_VIRTIO_IRQ *)
  i_request : Z;         (* request_irq *)
}.

(** The result, [virtio_irq] and the operations that took effect, oldest first. *)
Definition hvisor_init (e : init_env) : Z * Z * list module_op :=
  let scmi := bool_decide (a <> X86_64) in
  let undo := MiscDeregister :: (if scmi then [ScmiCleanup] else []) in
  if negb (i_misc e =? 0) then (i_misc e, -1, [])
  else if scmi && negb (i_scmi e =? 0) then (i_scmi e, -1, [MiscRegister; MiscDeregister])
  else
    let ops := MiscRegister :: (if scmi then [ScmiInit] else []) in
    if scmi && negb (i_node e) then (- ENODEV, -1, ops ++ undo)
    else if negb scmi && negb (i_alloc e) then (- ENOMEM, -1, ops ++ undo)
    else if negb scmi && negb (i_hc e =? 0) then (i_hc e, -1, ops ++ undo)
    else if negb (i_request e =? 0) then
      (i_request e, i_irq e, ops ++ (if negb (i_irq e =? -1) then [FreeIrq (i_irq e)] else []) ++ undo)
    else (0, i_irq e, ops ++ [RequestIrq (i_irq e)]).

Definition hvisor_exit s : kstate a * list module_op :=
  let refs := match ks_ctx s with
              | Some c => upd (ks_refs s) c (ks_refs s c - 1)
              | None => ks_refs s
              end in
  let pages := match ks_bridge s with
               | Some p => List.filter (fun q => negb (q =? p)) (ks_pages s)
               | None => ks_pages s
               end in
  ({| ks_bridge := ks_bridge s; ks_irq := ks_irq s; ks_task := ks_task s; ks_ctx := ks_ctx s; ks_refs := refs;
      ks_signals := ks_signals s; ks_pages := pages; ks_phys := ks_phys s; ks_calls := ks_calls s |},
   (if negb (ks_irq s =? -1) then [FreeIrq (ks_irq s)] else []) ++ [MiscDeregister] ++
   (if decide (a = X86_64) then [] else [ScmiCleanup; PutNode])).

End driver.

(** ** Lemmas *)

Lemma PAGE_ALIGN_fits n : 0 <= n -> n + PAGE_SIZE - 1 < 2 ^ 64 -> n <= PAGE_ALIGN n < n + PAGE_SIZE.
Proof.
  intros H0 Hn. unfold PAGE_ALIGN. cbv zeta. unfold PAGE_SIZE in *. rewrite u64_small by lia.
  pose proof (Z.mod_pos_bound (n + 2 ^ 12 - 1) (2 ^ 12) ltac:(lia)). lia.
Qed.

(** An alignment that overflows gives 0. *)
Lemma PAGE_ALIGN_wraps n : 2 ^ 64 <= n + PAGE_SIZE - 1 -> n < 2 ^ 64 -> PAGE_ALIGN n = 0.
Proof.
  intros H0 Hn. unfold PAGE_ALIGN. cbv zeta. unfold PAGE_SIZE in *.
  replace (u64 (n + 2 ^ 12 - 1)) with (n + 2 ^ 12 - 1 - 2 ^ 64).
  2: { unfold u64. rewrite <- (Z.mod_small (n + 2 ^ 12 - 1 - 2 ^ 64) (2 ^ 64)) by lia.
       rewrite <- (Z.mod_add (n + 2 ^ 12 - 1 - 2 ^ 64) 1 (2 ^ 64)) by lia. f_equal. lia. }
  rewrite Z.mod_small by lia. lia.
Qed.

(** The mapping of an accepted image covers it. *)
Lemma load_image_mapping size paddr :
  0 < size -> 0 <= paddr -> let offs := paddr `mod` PAGE_SIZE in
  size <= UINT64_MAX - offs -> size <= PAGE_ALIGN (size + offs) -> offs + size <= PAGE_ALIGN (size + offs).
Proof.
  intros Hs Hp offs Hm Hma. assert (0 <= offs < 2 ^ 12) by (apply Z.mod_pos_bound; reflexivity). unfold UINT64_MAX in *.
  destruct (decide (size + offs + PAGE_SIZE - 1 < 2 ^ 64)) as [Hlt|Hge].
  - pose proof (PAGE_ALIGN_fits (size + offs)). lia.
  - rewrite PAGE_ALIGN_wraps in Hma by lia. lia.
Qed.

Lemma copy_into_ok m map_phys map_size dst bytes :
  map_phys <= dst -> dst + Z.of_nat (length bytes) <= map_phys + map_size ->
  copy_into m map_phys map_size dst bytes = Ok (poke_bytes m dst bytes).
Proof. intros H1 H2. unfold copy_into. by replace ((_ <=? _) && (_ <=? _)) with true by lia. Qed.

Lemma same_outside_poke_bytes l : forall m x, same_outside x (Z.of_nat (length l)) m (poke_bytes m x l).
Proof.
  intros m x. split; [by rewrite hm_ranges_poke_bytes|]. intros y Hy. apply get_byte_poke_bytes_outside. lia.
Qed.

(** What the driver makes of an image, whatever the arguments. *)
Lemma hvisor_load_image_cases {a} (e : kenv) args (s : kstate a) :
  (forall p n bs, k_user e p n = Some bs -> Z.of_nat (length bs) = n) ->
  Z.of_nat (length (k_partial e)) <= li_size args -> is_u64 (li_size args) -> is_u64 (load_paddr args) ->
  exists err s', hvisor_load_image e (Some args) s = Ok (err, s') /\
    ((err <> 0 /\ err <> - EFAULT /\ s' = s) \/
     (err = - EFAULT /\ s' = set_phys (poke_bytes (ks_phys s) (load_paddr args) (k_partial e)) s) \/
     (err = 0 /\ exists bs, k_user e (user_buffer args) (li_size args) = Some bs /\
        s' = set_phys (poke_bytes (ks_phys s) (load_paddr args) bs) s)).
Proof.
  intros Hu Hpart Hsz Hpa. unfold is_u64 in Hsz, Hpa. unfold hvisor_load_image. cbv zeta.
  destruct (_ || _) eqn:Earg; [eexists _, _; split; [reflexivity|]; left; by vm_compute|].
  replace (load_paddr args - (load_paddr args - load_paddr args `mod` PAGE_SIZE)) with (load_paddr args `mod` PAGE_SIZE) by lia.
  destruct (_ <? _) eqn:E1; [eexists _, _; split; [reflexivity|]; left; by vm_compute|].
  destruct (PAGE_ALIGN _ <? _) eqn:E2; [eexists _, _; split; [reflexivity|]; left; by vm_compute|].
  destruct (negb _); [eexists _, _; split; [reflexivity|]; left; by vm_compute|].
  pose proof (load_image_mapping (li_size args) (load_paddr args)) as Hmap. cbv zeta in Hmap.
  pose proof (Z.mod_pos_bound (load_paddr args) PAGE_SIZE ltac:(reflexivity)) as Hmod.
  replace (load_paddr args - load_paddr args `mod` PAGE_SIZE + load_paddr args `mod` PAGE_SIZE) with (load_paddr args) by lia.
  destruct (k_user e _ _) as [bs|] eqn:Ek.
  - specialize (Hu _ _ _ Ek). rewrite copy_into_ok by lia. eexists _, _. split; [reflexivity|]. right; right. eauto.
  - rewrite copy_into_ok by lia. eexists _, _. split; [reflexivity|]. right; left. done.
Qed.

Lemma flush_loop_covers line : 0 < line -> forall fuel addr end_ x,
  (end_ - addr) / line < Z.of_nat fuel -> addr <= x < end_ ->
  exists l, In l (flush_loop fuel addr end_ line) /\ l <= x < l + line.
Proof.
  intros Hl. induction fuel as [|fuel IH]; intros addr end_ x Hf Hx.
  - pose proof (Z.div_pos (end_ - addr) line). lia.
  - cbn [flush_loop]. replace (addr <? end_) with true by lia. destruct (decide (x < addr + line)) as [Hlt|Hge].
    + exists addr. split; [by left|lia].
    + destruct (IH (addr + line) end_ x) as (l & Hin & Hr); [|lia|exists l; split; [by right|done] ].
      replace (end_ - (addr + line)) with (end_ - addr + (-1) * line) by lia. rewrite Z.div_add by lia. lia.
Qed.

(** ** References on the eventfd *)

(** A SET_EVENTFD call under way: the new context is referenced, then the old one is
    dropped. *)
Inductive set_call :=
  | Got (c : Z)
  | Dropped (c : Z).

Record dstate (a : Arch) := { ds_k : kstate a; ds_call : option set_call }.
Arguments ds_k {a} _.
Arguments ds_call {a} _.

Definition is_set_eventfd {a} (c : @ioctl_cmd a) : bool := match c with IOC_SET_EVENTFD _ => true | _ => false end.

(** One event of the module's life: an interrupt, an ioctl, or a step of SET_EVENTFD,
    of which one call is made at a time. *)
Inductive driver_step {a} : dstate a -> dstate a -> Prop :=
  | ds_ioctl e c s err s' k :
      is_set_eventfd c = false -> hvisor_ioctl e c s = Ok (err, s') -> driver_step {| ds_k := s; ds_call := k |} {| ds_k := s'; ds_call := k |}
  | ds_irq b s r s' k : virtio_irq_handler b s = (r, s') -> driver_step {| ds_k := s; ds_call := k |} {| ds_k := s'; ds_call := k |}
  | ds_get c s : driver_step {| ds_k := s; ds_call := None |} {| ds_k := set_eventfd_get c s; ds_call := Some (Got c) |}
  | ds_put c s : driver_step {| ds_k := s; ds_call := Some (Got c) |} {| ds_k := set_eventfd_put s; ds_call := Some (Dropped c) |}
  | ds_store c s : driver_step {| ds_k := s; ds_call := Some (Dropped c) |} {| ds_k := set_eventfd_store c s; ds_call := None |}.

(** The module as loaded, with the interrupt it got. *)
Definition loaded {a} (irq : Z) (m : hmem) : kstate a :=
  {| ks_bridge := None; ks_irq := irq; ks_task := None; ks_ctx := None; ks_refs := fun _ => 0; ks_signals := fun _ => 0;
     ks_pages := []; ks_phys := m; ks_calls := [] |}.

Definition idle {a} (s : kstate a) : dstate a := {| ds_k := s; ds_call := None |}.

(** The references the module should hold: one on the context in use, except after a
    call dropped it, and one on the context a call is about to store. *)
Definition held_refs (ctx : option Z) (k : option set_call) (c : Z) : Z :=
  let on := if bool_decide (ctx = Some c) then 1 else 0 in
  match k with
  | None => on
  | Some (Got d) => on + (if bool_decide (c = d) then 1 else 0)
  | Some (Dropped d) => if bool_decide (c = d) then 1 else 0
  end.

Definition refs_ok {a} (s : dstate a) : Prop := forall c, ks_refs (ds_k s) c = held_refs (ks_ctx (ds_k s)) (ds_call s) c.

Lemma upd_eq f x v y : upd f x v y = if decide (y = x) then v else f y.
Proof. unfold upd. destruct (decide (y = x)); [by replace (y =? x) with true by lia|by replace (y =? x) with false by lia]. Qed.

Ltac refs_cases := unfold held_refs; rewrite ?upd_eq; repeat case_bool_decide; simplify_eq; repeat destruct (decide _); simplify_eq; lia.

Lemma set_eventfd_refs {a} (s : kstate a) c :
  (refs_ok {| ds_k := s; ds_call := None |} -> refs_ok {| ds_k := set_eventfd_get c s; ds_call := Some (Got c) |}) /\
  (refs_ok {| ds_k := s; ds_call := Some (Got c) |} -> refs_ok {| ds_k := set_eventfd_put s; ds_call := Some (Dropped c) |}) /\
  (refs_ok {| ds_k := s; ds_call := Some (Dropped c) |} -> refs_ok {| ds_k := set_eventfd_store c s; ds_call := None |}).
Proof.
  unfold refs_ok. cbn [ds_k ds_call]. split; [|split]; intros Hok d; pose proof (Hok c) as Hc; pose proof (Hok d) as Hd.
  - cbn. unfold held_refs in *. destruct (ks_ctx s) as [old|] eqn:Eo; refs_cases.
  - unfold set_eventfd_put. destruct (ks_ctx s) as [old|] eqn:Eo; cbn; rewrite ?Eo; unfold held_refs in *; [|refs_cases].
    pose proof (Hok old). refs_cases.
  - cbn. unfold held_refs in *. refs_cases.
Qed.

(** Walk through the branches of an operation that returned. *)
Ltac driver_cases H := repeat case_match; cbn [mbind result_bind] in H; simplify_eq; done.

(** The other ioctls leave the context and the references alone. *)
Lemma ioctl_keeps_refs {a} e c (s s' : kstate a) err :
  is_set_eventfd c = false -> hvisor_ioctl e c s = Ok (err, s') -> ks_ctx s' = ks_ctx s /\ ks_refs s' = ks_refs s.
Proof.
  intros Hc Hi. destruct c; cbn in Hi; try (injection Hi as _ <-; done).
  - unfold hvisor_init_virtio in Hi. driver_cases Hi.
  - unfold hvisor_zone_start in Hi. driver_cases Hi.
  - unfold hvisor_set_boot_mode in Hi. driver_cases Hi.
  - unfold hvisor_zone_list in Hi. driver_cases Hi.
  - unfold hvisor_config_check in Hi. driver_cases Hi.
  - unfold hvisor_get_ecam_base in Hi. driver_cases Hi.
  - done.
  - unfold hvisor_load_image, copy_into in Hi. driver_cases Hi.
  - unfold hvisor_deassert_irq in Hi. driver_cases Hi.
Qed.

(** An interrupt signals the context in use, if the interrupt is the module's. *)
Lemma irq_keeps_refs {a} b (s s' : kstate a) r : virtio_irq_handler b s = (r, s') -> ks_ctx s' = ks_ctx s /\ ks_refs s' = ks_refs s.
Proof.
  unfold virtio_irq_handler. intros H. destruct (ks_ctx s) eqn:Ec; [|by injection H as _ <-].
  destruct b; [|by injection H as _ <-]. cbn [negb] in H. destruct (decide _); by injection H as _ <-.
Qed.

Lemma driver_step_refs {a} (s s' : dstate a) : driver_step s s' -> refs_ok s -> refs_ok s'.
Proof.
  intros [e c s0 err s1 k Hc Hi|b s0 r s1 k Hi|c s0|c s0|c s0] Hok; try (by apply set_eventfd_refs).
  - apply ioctl_keeps_refs in Hi as [H1 H2]; [|done]. unfold refs_ok in *. cbn in *. by rewrite H1, H2.
  - apply irq_keeps_refs in Hi as [H1 H2]. unfold refs_ok in *. cbn in *. by rewrite H1, H2.
Qed.

(** Run without a step in between, the three steps are the whole call. *)
Lemma set_eventfd_steps {a} c (s : kstate a) : rtc driver_step (idle s) (idle (hvisor_set_eventfd (inl c) s).2).
Proof. eapply rtc_l; [apply ds_get|]. eapply rtc_l; [apply ds_put|]. apply rtc_once, ds_store. Qed.

(** ** Theorems *)

Section theorems.
Context {a : Arch}.

(** C18: image loading, for any arguments: the driver never writes outside the
    pages it mapped; a successful call makes physical memory hold exactly the
    user's bytes at the load address, a failed one changes at most that range,
    and everything else is untouched. *)
Theorem hvisor_load_image_exact (e : kenv) args (s : kstate a) :
  (forall p n bs, k_user e p n = Some bs -> Z.of_nat (length bs) = n /\ Forall is_u8 bs) ->
  Z.of_nat (length (k_partial e)) <= li_size args -> is_u64 (li_size args) -> is_u64 (load_paddr args) ->
  exists err s', hvisor_load_image e (Some args) s = Ok (err, s') /\
    same_outside (load_paddr args) (li_size args) (ks_phys s) (ks_phys s') /\
    (err <> 0 -> err <> - EFAULT -> s' = s) /\
    (err = 0 -> exists bs, k_user e (user_buffer args) (li_size args) = Some bs /\
       peek_bytes (ks_phys s') (load_paddr args) (length bs) = bs).
Proof.
  intros Hu Hp Hs Ha. destruct (hvisor_load_image_cases e args s) as (err & s' & Hr & Hcases);
    [intros p n bs Hb; apply (Hu p n bs Hb)|done..|].
  exists err, s'. split; [done|]. destruct Hcases as [(Hn & He & ->)|[(-> & ->)|(-> & bs & Hb & ->)]].
  - split; [apply same_outside_refl|done].
  - split; [|done]. cbn. eapply same_outside_weaken; [apply same_outside_poke_bytes|lia..].
  - destruct (Hu _ _ _ Hb) as [Hl Hb8]. split; [|split; [done|] ].
    + cbn. rewrite <- Hl. apply same_outside_poke_bytes.
    + intros _. exists bs. split; [done|]. cbn. apply list_eq. intros i. destruct (decide (i < length bs)%nat) as [Hi|Hi].
      * rewrite lookup_peek_bytes, get_byte_poke_bytes by done.
        replace (load_paddr args <=? load_paddr args + Z.of_nat i) with true by lia.
        replace (load_paddr args + Z.of_nat i - load_paddr args) with (Z.of_nat i) by lia. rewrite Nat2Z.id.
        destruct (lookup_lt_is_Some_2 bs i Hi) as [b Hb']. rewrite Hb'. f_equal. apply u8_small.
        pose proof (proj1 (Forall_lookup _ _) Hb8 i b Hb') as Hr8. unfold is_u8, UINT8_MAX in Hr8. lia.
      * rewrite !lookup_ge_None_2; [done|lia|rewrite length_peek_bytes; lia].
Qed.

(** C19: ioctls, the single steps of SET_EVENTFD and interrupts in any order, with one
    SET_EVENTFD call at a time.  The references the module holds are known in every
    state: one on the context in use, except while a call has dropped it and not yet
    stored the new one, and one on the context a call brings.  So with no call under
    way it holds exactly one on the context it signals and none on any other, and
    unloading it then leaves none; and an interrupt signals a context the module
    holds unless it comes in that window ([irq_in_eventfd_window] below). *)
Theorem eventfd_refs_balanced irq m (s : dstate a) :
  rtc driver_step (idle (loaded irq m)) s ->
  (forall c, ks_refs (ds_k s) c = held_refs (ks_ctx (ds_k s)) (ds_call s) c) /\
  (ds_call s = None -> forall c, ks_refs (hvisor_exit (ds_k s)).1 c = 0) /\
  (forall b c s', virtio_irq_handler b (ds_k s) = (IRQ_HANDLED, s') -> ks_ctx (ds_k s) = Some c ->
     ks_signals s' c = ks_signals (ds_k s) c + 1 /\
     (ks_refs (ds_k s) c < 1 -> exists d, ds_call s = Some (Dropped d) /\ d <> c)).
Proof.
  intros Hr. assert (refs_ok s) as Hok.
  { revert s Hr. apply rtc_ind_r; [by intros c|]. intros s1 s2 _ Hs Hok. by eapply driver_step_refs. }
  split; [exact Hok|]. split.
  - intros Hn c. pose proof (Hok c) as Hc. rewrite Hn in Hc. cbn in *. destruct (ks_ctx (ds_k s)) as [d|] eqn:Ed; [|done].
    rewrite upd_eq. destruct (decide (c = d)) as [->|Hne].
    + rewrite Hc, bool_decide_eq_true_2 by done. lia.
    + by rewrite Hc, bool_decide_eq_false_2 by congruence.
  - intros b c s' Hi Hc. unfold virtio_irq_handler in Hi. rewrite Hc in Hi. destruct b; [|done]. cbn [negb] in Hi. split.
    + destruct (decide _); injection Hi as <-; cbn; rewrite upd_eq; by destruct (decide _).
    + pose proof (Hok c) as Hh. unfold held_refs in Hh. rewrite Hc, bool_decide_eq_true_2 in Hh by done.
      destruct (ds_call s) as [[d|d]|]; [case_bool_decide; lia| |lia]. case_bool_decide; [lia|]. intros _. exists d. split; [done|congruence].
Qed.

(** The cache maintenance after a load covers every byte of the mapping. *)
Theorem flush_cache_mapped_covers line start size x :
  a = ARM64 -> 0 < line -> start <= x < start + PAGE_ALIGN size ->
  exists l, In l (@flush_cache_mapped a line start size) /\ l <= x < l + line.
Proof.
  intros -> Hl Hx. unfold flush_cache_mapped. destruct (decide _); [|done].
  pose proof (Z.mod_pos_bound start line Hl). apply flush_loop_covers; [done| |lia].
  rewrite Nat2Z.inj_succ, Z2Nat.id; [lia|]. apply Z.div_pos; lia.
Qed.

(** The size of the zone list's buffer is computed modulo 2^64: a count near
    2^64 / 56 gives a buffer that is smaller than what the hypervisor stores. *)
Theorem zone_list_buffer_wraps e (s : kstate a) :
  k_alloc e <> None -> k_ret e = 2 ->
  hvisor_zone_list e (Some (2 ^ 64 / 56 + 1)) s = Err OutOfBounds.
Proof.
  intros Ha Hr. unfold hvisor_zone_list. destruct (k_alloc e); [|done]. rewrite Hr. reflexivity.
Qed.

End theorems.

(** ** Examples *)

Definition mem_none : hmem := HMem [] (fun _ => 7).

Definition kenv_copy (bs : list Z) : kenv :=
  {| k_alloc := Some 0x1000; k_memremap := true;
     k_user := fun _ n => if n =? Z.of_nat (length bs) then Some bs else None; k_partial := [];
     k_copy_out := true; k_ret := 0; k_word := 0; k_garbage := 0; k_zones := []; k_line_size := 64 |}.

Lemma hvisor_load_image_exact_witness :
  exists s', hvisor_load_image (a:=ARM64) (kenv_copy [1; 2; 3]) (Some {| user_buffer := 0x7000; li_size := 3; load_paddr := 0x4fff |})
      (loaded 40 mem_none) = Ok (0, s') /\ peek_bytes (ks_phys s') 0x4ffe 5 = [7; 1; 2; 3; 7].
Proof.
  destruct (hvisor_load_image_exact (kenv_copy [1; 2; 3]) {| user_buffer := 0x7000; li_size := 3; load_paddr := 0x4fff |}
    (loaded (a:=ARM64) 40 mem_none)) as (err & s' & Hr & _).
  - intros p n bs. unfold kenv_copy, k_user. destruct (n =? _) eqn:E; intros [= <-]. split; [cbn in *; lia|].
    repeat constructor; unfold UINT8_MAX; lia.
  - cbn. lia.
  - unfold is_u64, UINT64_MAX. cbn. lia.
  - unfold is_u64, UINT64_MAX. cbn. lia.
  - vm_compute in Hr. injection Hr as <- <-. eexists. split; reflexivity.
Defined.

Lemma eventfd_refs_balanced_witness :
  exists s : dstate ARM64, rtc driver_step (idle (loaded 40 mem_none)) s /\ ks_ctx (ds_k s) = Some 9 /\
    ks_refs (ds_k s) 9 = 1 /\ ks_refs (ds_k s) 8 = 0.
Proof.
  set (s1 := (hvisor_set_eventfd (inl 8) (loaded (a:=ARM64) 40 mem_none)).2). set (s2 := (hvisor_set_eventfd (inl 9) s1).2).
  assert (rtc driver_step (idle (loaded 40 mem_none)) (idle s2)) as Hr by (etransitivity; apply set_eventfd_steps).
  destruct (eventfd_refs_balanced 40 mem_none (idle s2) Hr) as [H _]. exists (idle s2).
  split; [exact Hr|]. split; [reflexivity|]. rewrite !H. split; reflexivity.
Defined.

(** The window: the daemon replaces eventfd 8 by 9, and an interrupt comes when the
    only reference on 8 is gone and 9 is not yet stored; 8 is signalled. *)
Theorem irq_in_eventfd_window :
  exists s : dstate ARM64, rtc driver_step (idle (loaded 40 mem_none)) s /\ ks_ctx (ds_k s) = Some 8 /\ ks_refs (ds_k s) 8 = 0 /\
    (virtio_irq_handler true (ds_k s)).1 = IRQ_HANDLED /\
    ks_signals (virtio_irq_handler true (ds_k s)).2 8 = ks_signals (ds_k s) 8 + 1.
Proof.
  eexists. split; [etransitivity; [apply (set_eventfd_steps 8)|] |].
  - eapply rtc_l; [apply (ds_get 9)|]. apply rtc_once, ds_put.
  - repeat split; reflexivity.
Qed.

(** a failed request for the interrupt is answered by freeing it. *)
Example init_frees_unrequested_irq :
  @hvisor_init ARM64 {| i_misc := 0; i_scmi := 0; i_node := true; i_irq := 40; i_alloc := true; i_hc := 0; i_request := - 16 |} =
  (- 16, 40, [MiscRegister; ScmiInit; FreeIrq 40; MiscDeregister; ScmiCleanup]).
Proof. reflexivity. Qed.

(** a second INIT_VIRTIO loses the page of the first. *)
Example init_virtio_leaks_page :
  let e p := {| k_alloc := Some p; k_memremap := true; k_user := fun _ _ => None; k_partial := []; k_copy_out := true;
                k_ret := 0; k_word := 0; k_garbage := 0; k_zones := []; k_line_size := 64 |} in
  let s1 := (hvisor_init_virtio (e 0x1000) (loaded (a:=ARM64) 40 mem_none)).2 in
  let s2 := (hvisor_init_virtio (e 0x2000) s1).2 in
  ks_pages (hvisor_exit s2).1 = [0x1000].
Proof. reflexivity. Qed.
