(* ===== verification/ImageLoad.v ===== *)
(** * Loading a kernel, from the file to physical memory

    The ELF loader of the management tool ([tools/boot/multiboot2.c]) on top of the
    kernel module's HVISOR_LOAD_IMAGE ([driver/hvisor_main.c]): the calls the tool issues,
    executed by the driver, put the image into physical memory. *)

From Stdlib Require Import String.
From S2P Require Import Prelude Memory ZoneConfig Loader Boot HvisorDriver.

(** ** The tool's calls executed by the driver *)

(** A process whose buffer holds these bytes and a kernel that can map. *)
Definition image_env (buf : list Z) : kenv :=
  {| k_alloc := Some 0; k_memremap := true; k_user := fun _ n => if n =? Z.of_nat (length buf) then Some buf else None;
     k_partial := []; k_copy_out := true; k_ret := 0; k_word := 0; k_garbage := 0; k_zones := []; k_line_size := 64 |}.

(** The image calls of a trace, until one fails; [ptr] is the buffer's address. *)
Fixpoint drive_loads {a} (ptr : Z) (l : trace a) (s : kstate a) : result (Z * kstate a) :=
  match l with
  | [] => Ok (0, s)
  | HVISOR_LOAD_IMAGE buf size paddr :: l' =>
      '(err, s') ← hvisor_load_image (image_env buf) (Some {| user_buffer := ptr; li_size := size; load_paddr := paddr |}) s;
      if err =? 0 then drive_loads ptr l' s' else Ok (err, s')
  | _ :: l' => drive_loads ptr l' s
  end.

(** ** What a segment is to look like in memory *)

Definition segment_bytes (file : list Z) (ph : elf_phdr) : list Z :=
  take (Z.to_nat (p_filesz ph)) (drop (Z.to_nat (p_offset ph)) file) ++ replicate (Z.to_nat (p_memsz ph - p_filesz ph)) 0.

(** The segment fits its size in memory, and its place is below 2^63. *)
Definition segment_placed (off : Z) (ph : elf_phdr) : Prop :=
  p_filesz ph <= p_memsz ph /\ segment_hpa off ph + p_memsz ph <= 2 ^ 63.

Definition segments_disjoint (off : Z) (phs : list elf_phdr) : Prop :=
  forall i j p q, i <> j -> phs !! i = Some p -> phs !! j = Some q -> is_pt_load p = true -> is_pt_load q = true ->
    segment_hpa off p + p_memsz p <= segment_hpa off q \/ segment_hpa off q + p_memsz q <= segment_hpa off p.

Definition in_segment (off : Z) (ph : elf_phdr) (x : Z) : Prop :=
  is_pt_load ph = true /\ segment_hpa off ph <= x < segment_hpa off ph + p_memsz ph.

(** Memory after the segments are written, one after the other. *)
Definition put_segment (file : list Z) (off : Z) (m : hmem) (ph : elf_phdr) : hmem :=
  if is_pt_load ph then poke_bytes m (segment_hpa off ph) (segment_bytes file ph) else m.

(** ** Lemmas *)

Lemma poke_bytes_app l1 : forall l2 m x, poke_bytes m x (l1 ++ l2) = poke_bytes (poke_bytes m x l1) (x + Z.of_nat (length l1)) l2.
Proof.
  induction l1 as [|b l1 IH]; intros l2 m x; [by rewrite Z.add_0_r|].
  change (poke_bytes m x ((b :: l1) ++ l2)) with (poke_bytes (set_byte m x b) (x + 1) (l1 ++ l2)).
  change (poke_bytes m x (b :: l1)) with (poke_bytes (set_byte m x b) (x + 1) l1).
  rewrite IH. f_equal. cbn [length]. lia.
Qed.

(** A call the driver accepts. *)
Lemma drive_load_ok {a} ptr buf paddr l (s : kstate a) :
  ptr <> 0 -> 0 < Z.of_nat (length buf) -> 0 <= paddr -> paddr + Z.of_nat (length buf) <= 2 ^ 63 ->
  drive_loads ptr (HVISOR_LOAD_IMAGE buf (Z.of_nat (length buf)) paddr :: l) s =
  drive_loads ptr l (set_phys (poke_bytes (ks_phys s) paddr buf) s).
Proof.
  intros Hptr Hlen Hp Hend. cbn [drive_loads]. unfold hvisor_load_image. cbn [user_buffer li_size load_paddr].
  replace ((ptr =? 0) || (Z.of_nat (length buf) =? 0)) with false by lia. cbv zeta.
  replace (paddr - (paddr - paddr `mod` PAGE_SIZE)) with (paddr `mod` PAGE_SIZE) by lia.
  pose proof (Z.mod_pos_bound paddr PAGE_SIZE ltac:(reflexivity)) as Hm. unfold UINT64_MAX.
  replace (2 ^ 64 - 1 - paddr `mod` PAGE_SIZE <? Z.of_nat (length buf)) with false by (unfold PAGE_SIZE in *; lia).
  pose proof (PAGE_ALIGN_fits (Z.of_nat (length buf) + paddr `mod` PAGE_SIZE)) as Hfit. unfold PAGE_SIZE in Hfit at 1 2 3.
  replace (PAGE_ALIGN _ <? Z.of_nat (length buf)) with false by (unfold PAGE_SIZE in *; lia).
  cbn [image_env k_memremap k_user negb]. rewrite Z.eqb_refl.
  replace (paddr - paddr `mod` PAGE_SIZE + paddr `mod` PAGE_SIZE) with paddr by lia.
  rewrite copy_into_ok by (unfold PAGE_SIZE in *; lia). reflexivity.
Qed.

Lemma set_phys_set_phys {a} m m' (s : kstate a) : set_phys m (set_phys m' s) = set_phys m s.
Proof. reflexivity. Qed.

(** The calls of one program header write one segment. *)
Lemma drive_segment {a} ptr file off ph l (s : kstate a) :
  ptr <> 0 -> (is_pt_load ph = true -> 0 <= p_offset ph /\ 0 <= p_filesz ph /\
    p_offset ph + p_filesz ph <= Z.of_nat (length file) /\ segment_placed off ph) ->
  drive_loads ptr (segment_calls file off ph ++ l) s = drive_loads ptr l (set_phys (put_segment file off (ks_phys s) ph) s).
Proof.
  intros Hptr Hok. unfold segment_calls, put_segment, segment_bytes. destruct (is_pt_load ph); [|by destruct s].
  destruct (Hok eq_refl) as (Ho & Hf & Hin & Hfm & Hend). set (hpa := segment_hpa off ph) in *.
  assert (0 <= hpa) as Hh by apply u64_range. set (data := take _ (drop _ file)).
  assert (Z.of_nat (length data) = p_filesz ph) as Hd by (unfold data; rewrite length_take, length_drop; lia).
  rewrite poke_bytes_app, Hd. rewrite (u64_small (hpa + p_filesz ph)) by lia.
  set (z := replicate (Z.to_nat (p_memsz ph - p_filesz ph)) 0).
  assert (Z.of_nat (length z) = p_memsz ph - p_filesz ph) as Hz by (unfold z; rewrite length_replicate; lia).
  rewrite <- app_assoc.
  assert (forall t l', drive_loads ptr ((if 0 <? p_filesz ph then [HVISOR_LOAD_IMAGE data (p_filesz ph) hpa] else []) ++ l') t =
    drive_loads ptr l' (set_phys (poke_bytes (ks_phys t) hpa data) t)) as ->.
  { intros t l'. destruct (0 <? p_filesz ph) eqn:E; cbn [app].
    - rewrite <- Hd. apply drive_load_ok; lia.
    - destruct data; [by destruct t|cbn in Hd; lia]. }
  destruct (p_filesz ph <? p_memsz ph) eqn:E; cbn [app].
  - rewrite <- Hz at 1. rewrite drive_load_ok by lia. by rewrite set_phys_set_phys.
  - destruct z; [done|cbn in Hz; lia].
Qed.

Lemma drive_segments {a} ptr file off phs : ptr <> 0 -> forall s : kstate a,
  Forall (fun ph => is_pt_load ph = true -> 0 <= p_offset ph /\ 0 <= p_filesz ph /\
    p_offset ph + p_filesz ph <= Z.of_nat (length file) /\ segment_placed off ph) phs ->
  drive_loads ptr (concat (segment_calls file off <$> phs)) s = Ok (0, set_phys (foldl (put_segment file off) (ks_phys s) phs) s).
Proof.
  intros Hptr. induction phs as [|ph phs IH]; intros s Hok; [by destruct s|]. apply Forall_cons in Hok as [Ho Hok].
  cbn [fmap list_fmap concat foldl]. rewrite drive_segment by done. rewrite IH by done. done.
Qed.

Lemma segment_bytes_length file ph : 0 <= p_offset ph -> 0 <= p_filesz ph <= p_memsz ph ->
  p_offset ph + p_filesz ph <= Z.of_nat (length file) -> Z.of_nat (length (segment_bytes file ph)) = p_memsz ph.
Proof. intros Ho Hf Hl. unfold segment_bytes. rewrite length_app, length_take, length_drop, length_replicate. lia. Qed.

(** A byte outside a segment is not touched by writing it. *)
Lemma put_segment_outside file off m ph x :
  (is_pt_load ph = true -> Z.of_nat (length (segment_bytes file ph)) = p_memsz ph) -> ~ in_segment off ph x ->
  get_byte (put_segment file off m ph) x = get_byte m x.
Proof.
  intros Hl Hx. unfold put_segment, in_segment in *. destruct (is_pt_load ph); [|done].
  apply get_byte_poke_bytes_outside. rewrite (Hl eq_refl). intros Hr. by apply Hx.
Qed.

Lemma put_segments_outside file off phs : forall m x,
  Forall (fun ph => is_pt_load ph = true -> Z.of_nat (length (segment_bytes file ph)) = p_memsz ph) phs ->
  Forall (fun ph => ~ in_segment off ph x) phs ->
  get_byte (foldl (put_segment file off) m phs) x = get_byte m x.
Proof.
  induction phs as [|ph phs IH]; intros m x Hl Hx; [done|]. apply Forall_cons in Hl as [Hl1 Hl], Hx as [Hx1 Hx].
  cbn [foldl]. rewrite IH by done. by apply put_segment_outside.
Qed.

(** The bytes of a segment after all are written. *)
Lemma put_segments_content file off phs m k ph :
  Forall (fun ph => is_pt_load ph = true -> Z.of_nat (length (segment_bytes file ph)) = p_memsz ph) phs ->
  segments_disjoint off phs -> phs !! k = Some ph -> is_pt_load ph = true -> Forall is_u8 file ->
  peek_bytes (foldl (put_segment file off) m phs) (segment_hpa off ph) (Z.to_nat (p_memsz ph)) = segment_bytes file ph.
Proof.
  intros Hl Hd Hk Hph Hf. pose proof (proj1 (Forall_lookup _ _) Hl k ph Hk Hph) as Hlen.
  apply list_eq. intros i. destruct (decide (i < Z.to_nat (p_memsz ph))%nat) as [Hi|Hi].
  2: { rewrite !lookup_ge_None_2; [done|lia|rewrite length_peek_bytes; lia]. }
  rewrite lookup_peek_bytes by done. destruct (lookup_lt_is_Some_2 (segment_bytes file ph) i) as [b Hb]; [lia|]. rewrite Hb. f_equal.
  rewrite <- (take_drop_middle phs k ph Hk), foldl_app. cbn [foldl].
  rewrite put_segments_outside.
  - unfold put_segment at 1. rewrite Hph, get_byte_poke_bytes.
    replace (segment_hpa off ph <=? segment_hpa off ph + Z.of_nat i) with true by lia.
    replace (segment_hpa off ph + Z.of_nat i - segment_hpa off ph) with (Z.of_nat i) by lia. rewrite Nat2Z.id, Hb.
    apply u8_small. assert (Forall is_u8 (segment_bytes file ph)) as Hall.
    { apply Forall_app. split; [by apply Forall_take, Forall_drop|apply Forall_replicate, is_u8_0]. }
    pose proof (proj1 (Forall_lookup _ _) Hall i b Hb) as Hr. unfold is_u8, UINT8_MAX in Hr. lia.
  - by apply Forall_drop.
  - apply Forall_lookup. intros j q Hq. rewrite lookup_drop in Hq. intros [Hql Hqr].
    destruct (Hd k (S k + j)%nat ph q ltac:(lia) Hk Hq Hph Hql); lia.
Qed.

(** C17: a well-formed ELF kernel ends up in physical memory as its program
    headers say: the tool issues the image calls, the driver accepts all of them,
    and then every loadable segment holds the bytes of the file followed by zeros
    up to its size in memory, while memory outside the segments is unchanged. *)
Theorem elf_kernel_in_memory {a} {env : ToolEnv a} {laws : ToolEnvLaws a} path n file entry phs off ptr (s : kstate a) :
  (forall h, dev_open h = true) ->
  (forall h buf size paddr, ioctl_ret h (HVISOR_LOAD_IMAGE buf size paddr) = 0) ->
  file_content path = Some (n, file) -> elf_image file entry phs -> ptr <> 0 ->
  Forall (fun ph => is_pt_load ph = true -> segment_ok file off ph /\ segment_placed off ph) phs ->
  segments_disjoint off phs ->
  exists l s', load_elf_kernel path off [] = (inl (entry, elf_span phs), l) /\ drive_loads ptr l s = Ok (0, s') /\
    (forall k ph, phs !! k = Some ph -> is_pt_load ph = true ->
       peek_bytes (ks_phys s') (segment_hpa off ph) (Z.to_nat (p_memsz ph)) = segment_bytes file ph) /\
    (forall x, Forall (fun ph => ~ in_segment off ph x) phs -> get_byte (ks_phys s') x = get_byte (ks_phys s) x).
Proof.
  intros Hd Hi Hf Himg Hptr Hok Hdis. destruct (file_content_ok path n file Hf) as [_ Hbytes].
  assert (Forall (fun ph => is_pt_load ph = true -> 0 <= p_offset ph /\ 0 <= p_filesz ph /\
    p_offset ph + p_filesz ph <= Z.of_nat (length file) /\ segment_placed off ph) phs) as Hok'.
  { apply Forall_lookup. intros i ph Hph Hl. destruct (proj1 (Forall_lookup _ _) Hok i ph Hph Hl) as [Hso Hpl].
    destruct (ei_table _ _ _ Himg) as (phoff & phent & _ & _ & _ & Htab).
    destruct (read_phdr_range _ _ _ (Htab i ph Hph)) as [_ Hu]. rewrite !Forall_cons in Hu. unfold is_u64 in Hu.
    pose proof (so_file _ _ _ Hso). repeat split; try lia; apply Hpl. }
  exists (concat (segment_calls file off <$> phs)). eexists. split; [|split; [by apply drive_segments|] ].
  - apply (load_elf_kernel_exact path n file entry phs off []); [done..|].
    eapply List.Forall_impl; [|exact Hok]. intros ph H Hl. by apply H.
  - cbn [ks_phys set_phys]. assert (Forall (fun ph => is_pt_load ph = true ->
      Z.of_nat (length (segment_bytes file ph)) = p_memsz ph) phs) as Hlen.
    { eapply List.Forall_impl; [|exact Hok']. intros ph H Hl. destruct (H Hl) as (H1 & H2 & H3 & H4 & H5).
      by apply segment_bytes_length. }
    split; [intros k ph Hk Hl; by eapply put_segments_content|]. intros x Hx. by apply put_segments_outside.
Qed.

Lemma elf_kernel_in_memory_witness :
  exists l s', @load_elf_kernel X86_64 (demo_env X86_64) "kernel.elf" 0x3a000000 [] = (inl (0x100000, 12), l) /\
    drive_loads 0x7000 l (loaded 40 mem_none) = Ok (0, s') /\
    peek_bytes (ks_phys s') 0x3a100000 12 = [0x90; 0x90; 0xeb; 0xfc; 0; 0; 0; 0; 0; 0; 0; 0].
Proof.
  pose proof (demo_laws X86_64) as laws.
  destruct (elf_kernel_in_memory (env := demo_env X86_64) "kernel.elf" 180 demo_elf 0x100000 demo_phs 0x3a000000 0x7000
    (loaded 40 mem_none)) as (l & s' & Hl & Hs & Hm & _).
  - reflexivity.
  - reflexivity.
  - reflexivity.
  - constructor; [| reflexivity | reflexivity | exists 64, 56; repeat split; [by vm_compute|]].
    + intros i b. do 5 (destruct i as [|i]; [intros [= <-]; reflexivity|]). done.
    + intros i ph. do 2 (destruct i as [|i]; [intros [= <-]; reflexivity|]). done.
  - done.
  - repeat constructor; try done; by vm_compute.
  - intros i j p q Hne. destruct i as [|[|i] ], j as [|[|j] ]; intros Hp Hq Hlp Hlq; simplify_eq/=; done.
  - exists l, s'. split; [exact Hl|]. split; [exact Hs|].
    exact (Hm 1%nat {| p_type := 1; p_offset := 176; p_paddr := 0x100000; p_filesz := 4; p_memsz := 12 |} eq_refl eq_refl).
Defined.
