(* ===== verification/IvcDriver.v ===== *)
(** * The inter-VM communication driver

    [driver/ivc_driver.c] as built on ARM64: one character device per channel, its
    interrupt, [poll] and [mmap], and the module's start and end.  The kernel's
    answers while the module starts are the record [ivc_env]; what the module
    acquires and releases is recorded in order. *)

From S2P Require Import Prelude ZoneConfig HvisorDriver.

(** ** State *)

(** What the hypervisor reports. *)
Record ivc_info := {
  ii_len : Z;
  ivc_ct_ipas : list Z;
  ivc_shmem_ipas : list Z;
  ivc_ids : list Z;
  ivc_irqs : list Z;
}.

Record ivc_dev := {
  iv_idx : Z;
  iv_id : Z;
  iv_irq : Z;            (* -1: none *)
  received_irq : Z;
}.

(** Kernel resources, named by the channel they belong to. *)
Inductive ivc_res :=
  | ResInfo               (* the memory of ivc_info *)
  | ResDevs               (* the memory of ivc_devs *)
  | ResNode               (* a reference to the device tree node *)
  | ResRegion
  | ResClass
  | ResCdev (i : Z)
  | ResDevice (i : Z)
  | ResIrq (irq i : Z).

Inductive ivc_op :=
  | Acquire (r : ivc_res)
  | Release (r : ivc_res).

#[global] Instance ivc_res_eq_dec : EqDecision ivc_res.
Proof. solve_decision. Defined.

#[global] Instance ivc_op_eq_dec : EqDecision ivc_op.
Proof. solve_decision. Defined.

(** Answers while the module starts. *)
Record ivc_env := {
  n_info_alloc : bool;
  n_info_ret : Z;                  (* HVISOR_HC_IVC_INFO *)
  n_info : ivc_info;
  n_devs_alloc : bool;
  n_region : Z;                    (* alloc_chrdev_region *)
  n_class : Z;                     (* class_create: 0 or an error *)
  n_cdev : Z -> Z;                 (* cdev_add of each device *)
  n_device : Z -> Z;               (* device_create *)
  n_node : bool;                   (* the device tree node exists *)
  n_irq : Z -> Z;                  (* of_irq_get *)
  n_request : Z -> Z;              (* request_irq *)
}.

(** ** Starting the module *)

Definition hvisor_ivc_info (e : ivc_env) : Z :=
  if negb (n_info_alloc e) then - ENOMEM
  else if negb (n_info_ret e =? 0) then n_info_ret e
  else if (ii_len (n_info e) =? 0) || (CONFIG_MAX_IVC_CONFIGS <? ii_len (n_info e)) then - EINVAL
  else 0.

(** The loop that creates the devices: the error (0 for none), the devices set
    up, the operations. *)
Fixpoint create_loop (e : ivc_env) (n : nat) (i : Z) (devs : list ivc_dev) (ops : list ivc_op) : Z * list ivc_dev * list ivc_op :=
  match n with
  | O => (0, devs, ops)
  | S n' =>
      let id := nth (Z.to_nat i) (ivc_ids (n_info e)) 0 in
      let devs := devs ++ [{| iv_idx := i; iv_id := s32 id; iv_irq := -1; received_irq := 0 |}] in
      if negb (n_cdev e i =? 0) then (n_cdev e i, devs, ops)
      else
        let ops := ops ++ [Acquire (ResCdev i)] in
        if negb (n_device e i =? 0) then (n_device e i, devs, ops)
        else create_loop e n' (i + 1) devs (ops ++ [Acquire (ResDevice i)])
  end.

Definition set_dev_irq (irq : Z) (d : ivc_dev) : ivc_dev :=
  {| iv_idx := iv_idx d; iv_id := iv_id d; iv_irq := irq; received_irq := received_irq d |}.

(** The loop that requests the interrupts; a channel without one is skipped. *)
Fixpoint irq_loop (e : ivc_env) (n : nat) (i : Z) (devs : list ivc_dev) (ops : list ivc_op) : Z * list ivc_dev * list ivc_op :=
  match n with
  | O => (0, devs, ops)
  | S n' =>
      let soft_irq := n_irq e i in
      if soft_irq <? 0 then irq_loop e n' (i + 1) devs ops
      else if negb (n_request e i =? 0) then (n_request e i, devs, ops)
      else irq_loop e n' (i + 1) (alter (set_dev_irq soft_irq) (Z.to_nat i) devs) (ops ++ [Acquire (ResIrq soft_irq i)])
  end.

(** [err2]: every slot of the array, used or not. *)
Definition undo_dev (devs : list ivc_dev) (i : Z) : list ivc_op :=
  match devs !! Z.to_nat i with
  | Some d => if 0 <=? iv_irq d then [Release (ResIrq (iv_irq d) i)] else []
  | None => [Release (ResIrq 0 i)]   (* never set up: the zeroed slot's irq is 0 *)
  end ++ [Release (ResCdev i); Release (ResDevice i)].

Definition undo_all (devs : list ivc_dev) (dev_len : Z) : list ivc_op :=
  concat (undo_dev devs <$> seqZ 0 dev_len) ++ [Release ResClass; Release ResRegion].

(** [err1]. *)
Definition free_tables : list ivc_op := [Release ResInfo; Release ResDevs].

(** The error, the devices and the operations. *)
Definition ivc_init (e : ivc_env) : Z * list ivc_dev * list ivc_op :=
  let err := hvisor_ivc_info e in
  let ops := if n_info_alloc e then [Acquire ResInfo] else [] in
  if negb (err =? 0) then (err, [], ops ++ free_tables)
  else
    let dev_len := ii_len (n_info e) in
    if negb (n_devs_alloc e) then (- ENOMEM, [], ops ++ free_tables)
    else
      let ops := ops ++ [Acquire ResDevs] in
      if negb (n_region e =? 0) then (n_region e, [], ops ++ free_tables)
      else
        let ops := ops ++ [Acquire ResRegion] in
        if negb (n_class e =? 0) then (n_class e, [], ops ++ free_tables)
        else
          let '(err, devs, ops) := create_loop e (Z.to_nat dev_len) 0 [] (ops ++ [Acquire ResClass]) in
          if negb (err =? 0) then (err, [], ops ++ undo_all devs dev_len ++ free_tables)
          else if negb (n_node e) then (0, devs, ops)
          else
            let '(err, devs, ops) := irq_loop e (Z.to_nat dev_len) 0 devs (ops ++ [Acquire ResNode]) in
            if negb (err =? 0) then (err, [], ops ++ undo_all devs dev_len ++ free_tables)
            else (0, devs, ops ++ [Release ResNode]).

(** Interrupts first, then the devices, the class and the region. *)
Definition ivc_exit (devs : list ivc_dev) : list ivc_op :=
  concat ((fun d => if 0 <=? iv_irq d then [Release (ResIrq (iv_irq d) (iv_idx d))] else []) <$> devs) ++
  concat ((fun d => [Release (ResCdev (iv_idx d)); Release (ResDevice (iv_idx d))]) <$> devs) ++
  [Release ResClass; Release ResRegion; Release ResDevs; Release ResInfo].

(** ** Operations of a channel *)

(** [HVISOR_IVC_USER_INFO]: the length and the ids handed out. *)
Definition hvisor_user_ivc_info (info : ivc_info) : Z * list Z :=
  (s32 (ii_len info), s32 <$> take (Z.to_nat (ii_len info)) (ivc_ids info)).

Definition ivc_ioctl (known : bool) (info : ivc_info) : Z * option (Z * list Z) :=
  if known then (0, Some (hvisor_user_ivc_info info)) else (- EINVAL, None).

(** [remap pfn size]: the answer of [remap_pfn_range]. *)
Definition ivc_map (remap : Z -> Z -> Z) (info : ivc_info) (d : ivc_dev) (vm_pgoff vm_start vm_end : Z) : result Z :=
  let size := vm_end - vm_start in
  let phys := u64 (vm_pgoff * PAGE_SIZE) in
  if phys =? 0 then
    if negb (size =? 0x1000) then Ok (- EINVAL)
    else ct ← of_index (ivc_ct_ipas info !! Z.to_nat (iv_idx d)); Ok (remap (ct / PAGE_SIZE) size)
  else
    let offset := phys - 0x1000 in
    sh ← of_index (ivc_shmem_ipas info !! Z.to_nat (iv_idx d));
    Ok (remap (u64 (sh + offset) / PAGE_SIZE) size).

(** Whether the mask has POLLIN, and the device after the call. *)
Definition ivc_poll (d : ivc_dev) : bool * ivc_dev :=
  if received_irq d =? 0 then (false, d)
  else (true, {| iv_idx := iv_idx d; iv_id := iv_id d; iv_irq := iv_irq d; received_irq := 0 |}).

(** [who]: the device the interrupt was requested for, if it is one of ours. *)
Definition ivc_irq_handler (devs : list ivc_dev) (who : option nat) : Z * list ivc_dev :=
  match who with
  | Some k =>
      if (k <? length devs)%nat then
        (IRQ_HANDLED, alter (fun d => {| iv_idx := iv_idx d; iv_id := iv_id d; iv_irq := iv_irq d;
                                         received_irq := s32 (received_irq d + 1) |}) k devs)
      else (IRQ_NONE, devs)
  | None => (IRQ_NONE, devs)
  end.

(** ** What is held after a sequence of operations *)

Definition hold_step (r : ivc_res) (acc : bool) (o : ivc_op) : bool :=
  match o with
  | Acquire q => if decide (q = r) then true else acc
  | Release q => if decide (q = r) then false else acc
  end.

Definition holds (ops : list ivc_op) (r : ivc_res) : bool := foldl (hold_step r) false ops.

(** ** Lemmas *)

Definition is_release (o : ivc_op) : Prop := exists r, o = Release r.

Lemma holds_acquired ops r : holds ops r = true -> Acquire r ∈ ops.
Proof.
  unfold holds. induction ops as [|o ops IH] using rev_ind; [done|]. rewrite foldl_app. cbn. intros H.
  apply elem_of_app. destruct o as [q|q]; cbn in H; destruct (decide (q = r)) as [->|]; try done; auto.
  right. by apply list_elem_of_singleton.
Qed.

Lemma foldl_release r rel : Forall is_release rel -> forall acc,
  foldl (hold_step r) acc rel = if decide (Release r ∈ rel) then false else acc.
Proof.
  induction 1 as [|o rel [q ->] _ IH]; intros acc; cbn [foldl hold_step].
  - destruct (decide _) as [H|]; [by apply elem_of_nil in H|done].
  - rewrite IH. destruct (decide (Release r ∈ rel)) as [Hin|Hout].
    + destruct (decide (Release r ∈ Release q :: rel)) as [|Hn]; [done|]. destruct Hn. by right.
    + destruct (decide (q = r)) as [->|Hne].
      * destruct (decide _) as [|Hn]; [done|]. destruct Hn. left.
      * destruct (decide _) as [Hin|]; [|done]. apply elem_of_cons in Hin as [[= ->]|]; done.
Qed.

(** Releasing what was acquired leaves nothing held. *)
Lemma released_clean ops rel r : Forall is_release rel -> (Acquire r ∈ ops -> Release r ∈ rel) -> holds (ops ++ rel) r = false.
Proof.
  intros Hrel Hall. unfold holds. rewrite foldl_app, foldl_release by done. destruct (decide _) as [|Hn]; [done|].
  destruct (foldl (hold_step r) false ops) eqn:E; [|done]. destruct Hn. by apply Hall, holds_acquired.
Qed.

(** What is not held is not held after releases. *)
Lemma holds_release ops rel r : Forall is_release rel -> holds ops r = false -> holds (ops ++ rel) r = false.
Proof. unfold holds. intros Hrel H. rewrite foldl_app, foldl_release, H by done. by destruct (decide _). Qed.

(** What a started module may have acquired. *)
Definition owned (dev_len : Z) (devs : list ivc_dev) (r : ivc_res) : Prop :=
  match r with
  | ResNode => False
  | ResInfo | ResDevs | ResRegion | ResClass => True
  | ResCdev i | ResDevice i => 0 <= i < dev_len
  | ResIrq irq i => 0 <= i < dev_len /\ 0 <= irq /\ exists d, devs !! Z.to_nat i = Some d /\ iv_irq d = irq
  end.

Definition all_owned (dev_len : Z) (devs : list ivc_dev) (ops : list ivc_op) : Prop :=
  forall r, r <> ResNode -> Acquire r ∈ ops -> owned dev_len devs r.

(** The devices are numbered in order. *)
Definition numbered (devs : list ivc_dev) : Prop := forall k d, devs !! k = Some d -> iv_idx d = Z.of_nat k.

Lemma all_owned_snoc len devs ops r : all_owned len devs ops -> (r <> ResNode -> owned len devs r) -> all_owned len devs (ops ++ [Acquire r]).
Proof. intros H Hr q Hne [Hq|Hq]%elem_of_app; [by apply H|]. apply list_elem_of_singleton in Hq as [= ->]. by apply Hr. Qed.

(** Before the interrupts, what is owned does not depend on the devices. *)
Definition is_early (r : ivc_res) : Prop := match r with ResIrq _ _ | ResNode => False | _ => True end.

Definition no_irqs (ops : list ivc_op) : Prop := forall r, Acquire r ∈ ops -> is_early r.

Lemma no_irqs_snoc ops r : no_irqs ops -> is_early r -> no_irqs (ops ++ [Acquire r]).
Proof. intros H Hr q [Hin|Hin]%elem_of_app; [by apply H|]. apply list_elem_of_singleton in Hin as [= ->]. done. Qed.

Lemma all_owned_devs len devs devs' ops : no_irqs ops -> all_owned len devs ops -> all_owned len devs' ops.
Proof. intros Hn H r Hne Hr. specialize (H r Hne Hr). specialize (Hn r Hr). by destruct r. Qed.

Lemma ivc_create_loop_spec e len n : forall i devs ops err devs' ops',
  i + Z.of_nat n <= len -> Z.of_nat (length devs) = i -> numbered devs -> no_irqs ops -> all_owned len devs ops ->
  create_loop e n i devs ops = (err, devs', ops') ->
  no_irqs ops' /\ all_owned len devs' ops' /\ numbered devs' /\ (err = 0 -> Z.of_nat (length devs') = i + Z.of_nat n).
Proof.
  induction n as [|n IH]; intros i devs ops err devs' ops' Hi Hlen Hnum Hno Hown; cbn [create_loop].
  { intros [= <- <- <-]. repeat split; try done. lia. }
  set (devs1 := devs ++ _). assert (numbered devs1) as Hnum1.
  { intros k d Hk. unfold devs1 in Hk. apply lookup_app_Some in Hk as [Hk|[Hge Hk]]; [by apply Hnum|].
    apply list_lookup_singleton_Some in Hk as [Hk <-]. cbn. lia. }
  assert (all_owned len devs1 ops) as Hown1 by (by eapply all_owned_devs).
  destruct (negb (n_cdev e i =? 0)) eqn:Ec; [intros [= <- <- <-]; repeat split; try done; lia|].
  assert (no_irqs (ops ++ [Acquire (ResCdev i)])) as Hno2 by (by apply no_irqs_snoc).
  assert (all_owned len devs1 (ops ++ [Acquire (ResCdev i)])) as Hown2 by (apply all_owned_snoc; [done|cbn; lia]).
  destruct (negb (n_device e i =? 0)) eqn:Ed; [intros [= <- <- <-]; repeat split; try done; lia|].
  intros Hloop. apply (IH (i + 1) devs1) in Hloop; [|lia| |done|by apply no_irqs_snoc|apply all_owned_snoc; [done|cbn; lia] ].
  - replace (i + 1 + Z.of_nat n) with (i + Z.of_nat (S n)) in Hloop by lia. done.
  - unfold devs1. rewrite length_app. cbn. lia.
Qed.

Lemma irq_loop_spec e len n : forall i devs ops err devs' ops',
  0 <= i -> i + Z.of_nat n <= len -> Z.of_nat (length devs) = len -> numbered devs ->
  all_owned len devs ops -> (forall irq j, Acquire (ResIrq irq j) ∈ ops -> j < i) ->
  irq_loop e n i devs ops = (err, devs', ops') ->
  all_owned len devs' ops' /\ numbered devs' /\ Z.of_nat (length devs') = len.
Proof.
  induction n as [|n IH]; intros i devs ops err devs' ops' Hi0 Hi Hlen Hnum Hown Hlt; cbn [irq_loop].
  { by intros [= <- <- <-]. }
  destruct (n_irq e i <? 0) eqn:E1.
  { apply IH; [lia|lia|done|done|done|]. intros irq j Hj. specialize (Hlt irq j Hj). lia. }
  destruct (negb (n_request e i =? 0)) eqn:E2; [by intros [= <- <- <-]|].
  destruct (lookup_lt_is_Some_2 devs (Z.to_nat i)) as [d Hd]; [lia|].
  apply IH; [lia|lia|by rewrite length_alter| | |].
  - intros k d' Hk. destruct (decide (k = Z.to_nat i)) as [->|Hne].
    + rewrite list_lookup_alter_eq, Hd in Hk. injection Hk as <-. cbn. by apply Hnum.
    + rewrite list_lookup_alter_ne in Hk by done. by apply Hnum.
  - apply all_owned_snoc.
    + intros r Hne Hr. specialize (Hown r Hne Hr). destruct r as [| | | | | | |irq j]; try done. cbn in *.
      rewrite list_lookup_alter_ne; [done|]. specialize (Hlt irq j Hr). lia.
    + intros _. cbn. split; [lia|]. split; [lia|]. rewrite list_lookup_alter_eq, Hd. cbn. eauto.
  - intros irq j [Hj|Hj]%elem_of_app; [specialize (Hlt irq j Hj); lia|]. apply list_elem_of_singleton in Hj as [= -> ->]. lia.
Qed.

Lemma undo_all_releases devs len : Forall is_release (undo_all devs len ++ free_tables).
Proof.
  apply Forall_app. split; [|repeat constructor; eexists; reflexivity].
  unfold undo_all. apply Forall_app. split; [|repeat constructor; eexists; reflexivity].
  apply Forall_concat, Forall_fmap, Forall_true. intros i. unfold undo_dev. cbn.
  destruct (devs !! Z.to_nat i); [destruct (_ <=? _)|]; repeat constructor; eexists; reflexivity.
Qed.

Lemma undo_all_complete devs len r : owned len devs r -> Release r ∈ undo_all devs len ++ free_tables.
Proof.
  intros Hr. unfold undo_all. rewrite <- app_assoc. apply elem_of_app.
  assert (forall i, 0 <= i < len -> forall o, o ∈ undo_dev devs i -> o ∈ concat (undo_dev devs <$> seqZ 0 len)) as Hin.
  { intros i Hi o Ho. apply list_elem_of_In, in_concat. exists (undo_dev devs i). split; [|by apply list_elem_of_In].
    apply list_elem_of_In, list_elem_of_fmap. exists i. split; [done|]. apply elem_of_seqZ. lia. }
  destruct r as [| | | | |i|i|irq i]; cbn in Hr; [right; apply list_elem_of_In; cbn; tauto..| | |].
  - left. apply (Hin i Hr). apply elem_of_app. right. left.
  - left. apply (Hin i Hr). apply elem_of_app. right. right. left.
  - left. destruct Hr as (Hi & Hq & d & Hd & <-). apply (Hin i Hi). apply elem_of_app. left. rewrite Hd.
    replace (0 <=? iv_irq d) with true by lia. left.
Qed.

Lemma ivc_exit_releases devs : Forall is_release (ivc_exit devs).
Proof.
  unfold ivc_exit. rewrite !Forall_app. split; [|split; [|repeat constructor; eexists; reflexivity] ];
    apply Forall_concat, Forall_fmap, Forall_true; intros d; cbn; [destruct (_ <=? _)|]; repeat constructor; eexists; reflexivity.
Qed.

Lemma ivc_exit_complete devs len r : Z.of_nat (length devs) = len -> numbered devs -> owned len devs r -> Release r ∈ ivc_exit devs.
Proof.
  intros Hlen Hnum Hr. unfold ivc_exit. rewrite !elem_of_app.
  assert (forall i, 0 <= i < len -> exists d, d ∈ devs /\ iv_idx d = i) as Hdev.
  { intros i Hi. destruct (lookup_lt_is_Some_2 devs (Z.to_nat i)) as [d Hd]; [lia|]. exists d.
    split; [by eapply list_elem_of_lookup_2|]. rewrite (Hnum _ _ Hd). lia. }
  assert (forall (f : ivc_dev -> list ivc_op) d o, d ∈ devs -> o ∈ f d -> o ∈ concat (f <$> devs)) as Hin.
  { intros f d o Hd Ho. apply list_elem_of_In, in_concat. exists (f d). split; [|by apply list_elem_of_In].
    apply list_elem_of_In, list_elem_of_fmap. eauto. }
  destruct r as [| | | | |i|i|irq i]; cbn in Hr; [right; right; apply list_elem_of_In; cbn; tauto..| | |].
  - destruct (Hdev i Hr) as (d & Hd & <-). right; left. eapply Hin; [exact Hd|]. left.
  - destruct (Hdev i Hr) as (d & Hd & <-). right; left. eapply Hin; [exact Hd|]. right. left.
  - destruct Hr as (Hi & Hq & d & Hd & <-). left. eapply Hin; [by eapply list_elem_of_lookup_2|]. cbn beta.
    replace (0 <=? iv_irq d) with true by lia. rewrite (Hnum _ _ Hd), Z2Nat.id by lia. left.
Qed.

(** What a start of the module gives. *)
Lemma ivc_init_cases e err devs ops : is_u64 (ii_len (n_info e)) -> ivc_init e = (err, devs, ops) ->
  (err <> 0 /\ exists acq, ops = acq ++ free_tables /\ forall r, Acquire r ∈ acq -> r = ResInfo \/ r = ResDevs) \/
  (err = n_class e /\ err <> 0) \/
  (err <> 0 /\ exists acq devs', ops = acq ++ undo_all devs' (ii_len (n_info e)) ++ free_tables /\
     all_owned (ii_len (n_info e)) devs' acq) \/
  (err = 0 /\ Z.of_nat (length devs) = ii_len (n_info e) /\ numbered devs /\ all_owned (ii_len (n_info e)) devs ops /\
   holds ops ResNode = false /\ 1 <= ii_len (n_info e) <= CONFIG_MAX_IVC_CONFIGS).
Proof.
  unfold ivc_init, hvisor_ivc_info. intros Hu H.
  assert (forall v : Z, negb (v =? 0) = true -> v <> 0) as Hnz by lia.
  destruct (n_info_alloc e); cbn [negb] in H.
  2: { injection H as <- <- <-. left. split; [done|]. exists []. split; [done|]. intros r Hr. by apply elem_of_nil in Hr. }
  assert (forall r, Acquire r ∈ [Acquire ResInfo] -> r = ResInfo \/ r = ResDevs) as Hinfo.
  { intros r Hr. apply list_elem_of_In in Hr. cbn in Hr. destruct Hr as [[= <-]|Hr]; [auto|]; intuition congruence. }
  assert (forall r, Acquire r ∈ [Acquire ResInfo; Acquire ResDevs] -> r = ResInfo \/ r = ResDevs) as Hboth.
  { intros r Hr. apply list_elem_of_In in Hr. cbn in Hr. destruct Hr as [[= <-]|Hr]; [auto|]; intuition congruence. }
  destruct (negb (n_info_ret e =? 0)) eqn:E1; [rewrite E1 in H; injection H as <- <- <-; left; split; [auto|]; by exists [Acquire ResInfo]|].
  destruct (_ || _) eqn:E2; [injection H as <- <- <-; left; split; [done|]; by exists [Acquire ResInfo]|]. cbn [negb Z.eqb] in H.
  destruct (negb (n_devs_alloc e)); [injection H as <- <- <-; left; split; [done|]; by exists [Acquire ResInfo]|]. cbn [app] in H.
  destruct (negb (n_region e =? 0)) eqn:E3; [injection H as <- <- <-; left; split; [auto|]; by exists [Acquire ResInfo; Acquire ResDevs]|].
  destruct (negb (n_class e =? 0)) eqn:E4; [injection H as <- <- <-; right; left; auto|].
  set (len := ii_len (n_info e)) in *. right; right. unfold is_u64 in Hu.
  destruct (create_loop e (Z.to_nat len) 0 [] _) as [[err1 devs1] ops1] eqn:Ec.
  apply (ivc_create_loop_spec e len) in Ec as (Hno & Hown & Hnum & Hlen); [|lia|done|done| |].
  2: { intros r Hin. apply list_elem_of_In in Hin. cbn in Hin. by repeat destruct Hin as [[= <-]|Hin]. }
  2: { intros r Hne Hin. apply list_elem_of_In in Hin. cbn in Hin. by repeat destruct Hin as [[= <-]|Hin]. }
  destruct (negb (err1 =? 0)) eqn:E5; [injection H as <- <- <-; left; split; [auto|]; eauto|].
  assert (Z.of_nat (length devs1) = len) as Hl1 by lia.
  destruct (negb (n_node e)).
  { injection H as <- <- <-. right. repeat split; [done..| |lia|unfold CONFIG_MAX_IVC_CONFIGS in *; lia].
    destruct (holds ops1 ResNode) eqn:Eh; [|done]. by apply holds_acquired, Hno in Eh. }
  destruct (irq_loop e (Z.to_nat len) 0 devs1 (ops1 ++ [Acquire ResNode])) as [[err2 devs2] ops2] eqn:Ei.
  apply (irq_loop_spec e len) in Ei as (Hown2 & Hnum2 & Hlen2); [|lia|lia|done|done|by apply all_owned_snoc|].
  2: { intros irq j [Hj|Hj]%elem_of_app; [by apply Hno in Hj|]. by apply list_elem_of_singleton in Hj. }
  destruct (negb (err2 =? 0)) eqn:E6; [injection H as <- <- <-; left; split; [auto|]; eauto|].
  injection H as <- <- <-. right. repeat split; [done..| | |lia|unfold CONFIG_MAX_IVC_CONFIGS in *; lia].
  - intros r Hne [Hr|Hr]%elem_of_app; [by apply Hown2|]. by apply list_elem_of_singleton in Hr.
  - apply released_clean; [by repeat econstructor|]. intros _. by apply list_elem_of_singleton.
Qed.

(** ** Theorems *)

(** When the module fails to start, after any of the kernel's refusals but
    that of the device class, nothing it acquired stays acquired, the reference
    to the device tree node apart: no interrupt, character device, device file,
    class, number region or table. *)
Theorem ivc_init_failure_clean e err devs ops :
  is_u64 (ii_len (n_info e)) -> ivc_init e = (err, devs, ops) -> err <> 0 -> n_class e = 0 ->
  forall r, r <> ResNode -> holds ops r = false.
Proof.
  intros Hu H Hne Hc r Hr.
  destruct (ivc_init_cases e err devs ops Hu H) as [(_ & acq & -> & Hacq)|[(-> & _)|[(_ & acq & devs' & -> & Hown)|(-> & _)] ] ]; try done.
  - apply released_clean; [by repeat econstructor|]. intros Hin. apply Hacq in Hin as [->| ->]; apply list_elem_of_In; cbn; tauto.
  - apply released_clean; [apply undo_all_releases|]. intros Hin. by apply undo_all_complete, Hown.
Qed.

(** A module that started has one device per channel, numbered in order and
    within the array, and unloading it releases everything it acquired. *)
Theorem ivc_init_exit_clean e devs ops :
  is_u64 (ii_len (n_info e)) -> ivc_init e = (0, devs, ops) ->
  1 <= Z.of_nat (length devs) <= CONFIG_MAX_IVC_CONFIGS /\ numbered devs /\ forall r, holds (ops ++ ivc_exit devs) r = false.
Proof.
  intros Hu H. destruct (ivc_init_cases e 0 devs ops Hu H) as [(? & _)|[(_ & ?)|[(? & _)|(_ & Hlen & Hnum & Hown & Hnode & Hr)] ] ]; try done.
  split; [lia|]. split; [done|]. intros r. destruct (decide (r = ResNode)) as [->|Hne]; [apply holds_release; [apply ivc_exit_releases|done]|].
  apply released_clean; [apply ivc_exit_releases|]. intros Hin. eapply ivc_exit_complete; [exact Hlen|done|]. by apply Hown.
Qed.

Definition bump (d : ivc_dev) : ivc_dev :=
  {| iv_idx := iv_idx d; iv_id := iv_id d; iv_irq := iv_irq d; received_irq := s32 (received_irq d + 1) |}.

Lemma u32_s32 z : u32 (s32 z) = u32 z.
Proof.
  unfold s32. cbv zeta. destruct (_ <? _); unfold u32.
  - apply Z.mod_mod. lia.
  - replace (z `mod` 2 ^ 32 - 2 ^ 32) with (z `mod` 2 ^ 32 + (-1) * 2 ^ 32) by lia. rewrite Z.mod_add, Z.mod_mod by lia. done.
Qed.

Lemma bump_count n d : received_irq d = 0 -> u32 (received_irq (Nat.iter n bump d)) = u32 (Z.of_nat n).
Proof.
  intros Hd. induction n as [|n IH]; [change (u32 (received_irq d) = u32 0); by rewrite Hd|].
  change (Nat.iter (S n) bump d) with (bump (Nat.iter n bump d)). cbn [received_irq bump]. rewrite u32_s32.
  unfold u32 in *. rewrite Z.add_mod, IH, <- Z.add_mod by lia. f_equal. lia.
Qed.

(** No interrupt is lost to [poll]: after any number of interrupts of a channel
    short of 2^32, the next poll of that channel reports data, and the one after
    it, without a further interrupt, does not; other channels are not affected. *)
Theorem ivc_poll_reports devs k d n :
  devs !! k = Some d -> received_irq d = 0 -> (0 < Z.of_nat n < 2 ^ 32) ->
  let devs' := Nat.iter n (fun ds => snd (ivc_irq_handler ds (Some k))) devs in
  exists d', devs' !! k = Some d' /\ fst (ivc_poll d') = true /\ fst (ivc_poll (snd (ivc_poll d'))) = false /\
    forall j, j <> k -> devs' !! j = devs !! j.
Proof.
  intros Hk Hz Hn devs'. assert (forall m, let ds := Nat.iter m (fun ds => snd (ivc_irq_handler ds (Some k))) devs in
    length ds = length devs /\ ds !! k = Some (Nat.iter m bump d) /\ forall j, j <> k -> ds !! j = devs !! j) as Hiter.
  { intros m. induction m as [|m IH]; [done|]. cbv zeta in *. destruct IH as (Hl & Hm & Ho).
    set (ds := Nat.iter m _ devs) in *. change (Nat.iter (S m) _ devs) with (snd (ivc_irq_handler ds (Some k))).
    change (Nat.iter (S m) bump d) with (bump (Nat.iter m bump d)). unfold ivc_irq_handler.
    apply lookup_lt_Some in Hk as Hlt. replace (k <? _)%nat with true by (symmetry; apply Nat.ltb_lt; lia). cbn [snd].
    rewrite length_alter, list_lookup_alter_eq, Hm. split; [done|]. split; [done|].
    intros j Hj. rewrite list_lookup_alter_ne by done. by apply Ho. }
  destruct (Hiter n) as (_ & Hm & Ho). exists (Nat.iter n bump d). split; [done|].
  pose proof (bump_count n d Hz) as Hc. rewrite (u32_small (Z.of_nat n)) in Hc by lia.
  assert (received_irq (Nat.iter n bump d) <> 0) as Hne by (intros E; rewrite E in Hc; change (u32 0) with 0 in Hc; lia).
  unfold ivc_poll. replace (received_irq (Nat.iter n bump d) =? 0) with false by lia. done.
Qed.

(** ** Instances *)

(** Two channels; the second has no interrupt. *)
Definition demo_info : ivc_info :=
  {| ii_len := 2; ivc_ct_ipas := [0x60000000; 0x60010000]; ivc_shmem_ipas := [0x60001000; 0x60011000];
     ivc_ids := [0; 7]; ivc_irqs := [0x20; 0x21] |}.

(** A kernel that grants everything but the requests [bad] names. *)
Definition demo_env (cls : Z) (bad_cdev bad_irq : option Z) : ivc_env :=
  {| n_info_alloc := true; n_info_ret := 0; n_info := demo_info; n_devs_alloc := true; n_region := 0; n_class := cls;
     n_cdev i := if decide (bad_cdev = Some i) then - ENOMEM else 0; n_device _ := 0; n_node := true;
     n_irq i := 40 + i; n_request i := if decide (bad_irq = Some i) then - EINVAL else 0 |}.

Lemma ivc_init_failure_clean_witness :
  let '(err, _, ops) := ivc_init (demo_env 0 None (Some 1)) in err = - EINVAL /\ holds ops (ResIrq 40 0) = false.
Proof.
  cbv zeta. destruct (ivc_init (demo_env 0 None (Some 1))) as [[err devs] ops] eqn:E.
  assert (err = - EINVAL) as He by (vm_compute in E; by injection E as <- _ _).
  split; [exact He|]. refine (ivc_init_failure_clean (demo_env 0 None (Some 1)) err devs ops _ E _ eq_refl (ResIrq 40 0) _).
  - by vm_compute.
  - by rewrite He.
  - discriminate.
Defined.

Lemma ivc_init_exit_clean_witness :
  exists devs ops, ivc_init (demo_env 0 None None) = (0, devs, ops) /\ length devs = 2%nat /\
    forall r, holds (ops ++ ivc_exit devs) r = false.
Proof.
  do 2 eexists. split; [vm_compute; reflexivity|]. split; [reflexivity|].
  refine (proj2 (proj2 (ivc_init_exit_clean (demo_env 0 None None) _ _ _ _))); by vm_compute.
Defined.

Lemma ivc_poll_reports_witness :
  let dev i := {| iv_idx := i; iv_id := i; iv_irq := 40 + i; received_irq := 0 |} in
  exists d', Nat.iter 3 (fun ds => snd (ivc_irq_handler ds (Some 1%nat))) [dev 0; dev 1] !! 1%nat = Some d' /\ fst (ivc_poll d') = true.
Proof.
  intros dev. destruct (ivc_poll_reports [dev 0; dev 1] 1 (dev 1) 3) as (d' & Hd & Hp & _); [reflexivity|reflexivity|lia|].
  exists d'. split; [exact Hd|exact Hp].
Defined.

(** When the class cannot be created the number region stays allocated. *)
Example class_failure_leaks_region :
  let '(err, _, ops) := ivc_init (demo_env (- ENOMEM) None None) in err = - ENOMEM /\ holds ops ResRegion = true.
Proof. by vm_compute. Qed.

(** When the first device cannot be added, the undo frees interrupt 0, which was
    never requested, on behalf of the second: its slot is still zeroed. *)
Example undo_frees_unrequested_irq :
  let '(err, _, ops) := ivc_init (demo_env 0 (Some 0) None) in
  err = - ENOMEM /\ Release (ResIrq 0 1) ∈ ops /\ Acquire (ResIrq 0 1) ∉ ops.
Proof. vm_compute ivc_init. split; [done|]. split; [apply list_elem_of_In; cbn; tauto|]. intros H. apply list_elem_of_In in H. cbn in H. intuition discriminate. Qed.

(** When an interrupt is refused, the reference to the node is not given back. *)
Example irq_failure_leaks_node :
  let '(err, _, ops) := ivc_init (demo_env 0 None (Some 0)) in err = - EINVAL /\ holds ops ResNode = true.
Proof. by vm_compute. Qed.
