(* ===== verification/ScmiServer.v ===== *)
(** * The kernel-side SCMI server

    [driver/virtio/scmi] ([server.c], [clock.c], [reset.c], [power.c]): the tables of
    clocks, reset controls and power domains of the hvisor device tree node, filled on
    demand, and the three ioctls the daemon issues, as built for Linux 5.10 and later.
    The frameworks the server calls answer through [scmi_kenv], one record per call of
    the server; what reaches them is recorded in order in [hw].  A clock, reset
    control or power domain is named by its index in the node's property. *)

From stdpp Require Import strings.
From S2P Require Import Prelude ScmiCore ScmiPower ScmiClock.

Definition SCMI_RESET_DEASSERT : Z := 0.
Definition SCMI_RESET_RESET : Z := Z.shiftl 1 0.
Definition SCMI_RESET_ASSERT : Z := Z.shiftl 1 1.
Definition SCMI_POWER_STATE_GENERIC_ON : Z := 0x00000000.
Definition SCMI_POWER_STATE_GENERIC_OFF : Z := 0x40000000.

Definition HVISOR_SCMI_CLOCK_GET_COUNT : Z := 0x01.
Definition HVISOR_SCMI_CLOCK_DESCRIBE_RATES : Z := 0x03.
Definition HVISOR_SCMI_RESET_GET_COUNT : Z := 0x01.
Definition HVISOR_SCMI_POWER_GET_COUNT : Z := 0x01.

(** ** State *)

(** What the server asks of the clock, reset and power frameworks. *)
Inductive hw_op :=
  | ClkGet (id : Z) | ClkPut (id : Z)
  | ClkSetRate (id rate : Z) | ClkEnable (id : Z) | ClkDisable (id : Z)
  | RstGet (id : Z) | RstPut (id : Z)
  | RstAcquire (id : Z) | RstRelease (id : Z)
  | RstAssert (id : Z) | RstDeassert (id : Z) | RstReset (id : Z)
  | PdAttach (id : Z) | PdDetach (id : Z)
  | PmGet (id : Z) | PmPut (id : Z)
  | PdevAdd | PdevDel.

#[global] Instance hw_op_eq_dec : EqDecision hw_op.
Proof. solve_decision. Defined.

(** An entry of a table is a pointer: [None] for NULL, else what the framework
    returned, an object if positive and an error pointer ([IS_ERR]) if negative. *)
Record server := {
  hvisor_np : bool;                        (* the node is cached, with a reference *)
  clock_cache : option (list (option Z));
  clock_max_num : Z;
  reset_cache : option (list (option Z));
  reset_cache_count : Z;
  power_devices : option (list bool);      (* attached, with its device *)
  power_max_num : Z;
  ctrl_pdev : bool;
  hw : list hw_op;
}.

(** Before the module is loaded. *)
Definition server0 : server :=
  {| hvisor_np := false; clock_cache := None; clock_max_num := 0; reset_cache := None; reset_cache_count := 0;
     power_devices := None; power_max_num := 0; ctrl_pdev := false; hw := [] |}.

Record scmi_kenv := {
  v_node : bool;                 (* of_find_compatible_node *)
  v_clocks : Z;                  (* of_count_phandle_with_args, or an error *)
  v_resets : Z;
  v_domains : Z;
  v_alloc : Z -> bool;           (* kcalloc of the clock, reset and domain tables: 0, 1, 2 *)
  v_pdev_alloc : bool;           (* platform_device_alloc *)
  v_pdev_add : bool;             (* platform_device_add succeeds *)
  v_clk_get : Z;                 (* of_clk_get; negative: an error, 0: NULL *)
  v_clk_enabled : bool;          (* __clk_is_enabled *)
  v_clk_name : option (list Z);  (* __clk_get_name *)
  v_clk_rate : Z;                (* clk_get_rate *)
  v_clk_set_rate : Z;
  v_clk_enable : Z;              (* clk_prepare_enable *)
  v_rst_get : Z;                 (* likewise *)
  v_rst_acquire : Z;
  v_rst_deassert : Z;
  v_rst_assert : Z;
  v_rst_reset : Z;
  v_attach : option Z;           (* genpd_dev_pm_attach_by_id; None: NULL *)
  v_pm_get : Z;                  (* pm_runtime_resume_and_get *)
  v_pm_put : Z;                  (* pm_runtime_put_sync *)
  v_pm_active : bool;
  v_copy_out : bool;             (* copy_to_user succeeds *)
}.

(** ** The server's monad *)

Definition srv (A : Type) : Type := server -> result (A * server).

#[global] Instance srv_ret : MRet srv := fun A x s => Ok (x, s).
#[global] Instance srv_bind : MBind srv := fun A B k c s =>
  match c s with
  | Ok (x, s') => k x s'
  | Err f => Err f
  end.

Definition hw_do (o : hw_op) : srv unit := fun s =>
  Ok (tt, {| hvisor_np := hvisor_np s; clock_cache := clock_cache s; clock_max_num := clock_max_num s;
             reset_cache := reset_cache s; reset_cache_count := reset_cache_count s;
             power_devices := power_devices s; power_max_num := power_max_num s; ctrl_pdev := ctrl_pdev s;
             hw := hw s ++ [o] |}).

Definition set_clocks (c : option (list (option Z))) (n : Z) : srv unit := fun s =>
  Ok (tt, {| hvisor_np := hvisor_np s; clock_cache := c; clock_max_num := n;
             reset_cache := reset_cache s; reset_cache_count := reset_cache_count s;
             power_devices := power_devices s; power_max_num := power_max_num s; ctrl_pdev := ctrl_pdev s; hw := hw s |}).

Definition set_resets (c : option (list (option Z))) (n : Z) : srv unit := fun s =>
  Ok (tt, {| hvisor_np := hvisor_np s; clock_cache := clock_cache s; clock_max_num := clock_max_num s;
             reset_cache := c; reset_cache_count := n;
             power_devices := power_devices s; power_max_num := power_max_num s; ctrl_pdev := ctrl_pdev s; hw := hw s |}).

Definition set_domains (c : option (list bool)) (n : Z) : srv unit := fun s =>
  Ok (tt, {| hvisor_np := hvisor_np s; clock_cache := clock_cache s; clock_max_num := clock_max_num s;
             reset_cache := reset_cache s; reset_cache_count := reset_cache_count s;
             power_devices := c; power_max_num := n; ctrl_pdev := ctrl_pdev s; hw := hw s |}).

Definition set_pdev (b : bool) : srv unit := fun s =>
  Ok (tt, {| hvisor_np := hvisor_np s; clock_cache := clock_cache s; clock_max_num := clock_max_num s;
             reset_cache := reset_cache s; reset_cache_count := reset_cache_count s;
             power_devices := power_devices s; power_max_num := power_max_num s; ctrl_pdev := b; hw := hw s |}).

Definition set_np (b : bool) : srv unit := fun s =>
  Ok (tt, {| hvisor_np := b; clock_cache := clock_cache s; clock_max_num := clock_max_num s;
             reset_cache := reset_cache s; reset_cache_count := reset_cache_count s;
             power_devices := power_devices s; power_max_num := power_max_num s; ctrl_pdev := ctrl_pdev s; hw := hw s |}).

Definition gets {A} (f : server -> A) : srv A := fun s => Ok (f s, s).

Definition srv_fault {A} (f : fault) : srv A := fun _ => Err f.

(** What a table holds once the pointer [p] is stored in it. *)
Definition stored (p : Z) : option Z := if p =? 0 then None else Some p.

(** A call with the pointer [p]: the frameworks take NULL for no object, and leave
    the hardware alone. *)
Definition hw_on (p : Z) (o : hw_op) : srv unit := if p =? 0 then mret tt else hw_do o.

(** The entry of a table at an index, through a pointer that may be NULL. *)
Definition entry {A} (table : option (list A)) (i : Z) : srv A := fun s =>
  match table with
  | None => Err NullDeref
  | Some l => x ← of_index (l !! Z.to_nat i); Ok (x, s)
  end.

(** ** server.c *)

Section server.
Context (e : scmi_kenv).

(** Whether there is a node. *)
Definition hvisor_get_node : srv bool :=
  np ← gets hvisor_np;
  if np : bool then mret true
  else _ ← set_np (v_node e); mret (v_node e).

Definition hvisor_put_node : srv unit := set_np false.

(** ** clock.c *)

Definition clock_init : srv Z :=
  np ← hvisor_get_node;
  if negb np then mret (- ENODEV)
  else
    let c := v_clocks e in
    if c =? - ENOENT then _ ← set_clocks None 0; mret 0
    else if c <? 0 then mret c
    else if negb (v_alloc e 0) then _ ← set_clocks None (u32 c); mret (- ENOMEM)
    else _ ← set_clocks (Some (replicate (Z.to_nat c) None)) (u32 c); mret 0.

(** The pointer.  A NULL from the framework leaves the entry empty, to be asked for
    again. *)
Definition clock_get_cached (clk_id : Z) : srv Z :=
  n ← gets clock_max_num;
  if n <=? clk_id then mret (- ENOENT)
  else
    cache ← gets clock_cache;
    p ← entry cache clk_id;
    match p with
    | Some err => mret err
    | None =>
        np ← hvisor_get_node;
        let err := v_clk_get e in
        _ ← set_clocks (<[Z.to_nat clk_id := stored err]> <$> cache) n;
        _ ← (if err <? 0 then mret tt else hw_on err (ClkGet clk_id));
        mret err
    end.

Definition get_clock_count : srv Z := n ← gets clock_max_num; mret (s32 n).

(** The decimal digits of a 32-bit number. *)
Fixpoint digits (fuel : nat) (n : Z) : list Z :=
  match fuel with
  | O => []
  | S fuel' => (if n <? 10 then [] else digits fuel' (n / 10)) ++ [48 + n `mod` 10]
  end.

Definition clk_text (prefix : list Z) (id : Z) : list Z := prefix ++ digits 10 id.

(** ["unknown_clk_"] and ["pd_"]. *)
Definition unknown_clk : list Z := [117; 110; 107; 110; 111; 119; 110; 95; 99; 108; 107; 95].
Definition pd_ : list Z := [112; 100; 95].

(** The name as it is in the 64-byte array handed to user space. *)
Definition name_field (text : list Z) : list Z := strncpy text 63 ++ [0].

Definition clock_name_of (id : Z) : list Z :=
  name_field (match v_clk_name e with Some n => take 63 n | None => clk_text unknown_clk id end).

(** Each gives the return value and what it stores. *)
Definition get_clock_config (clock_id : Z) : srv (Z * (Z * Z)) :=
  clk ← clock_get_cached clock_id;
  if clk <? 0 then mret (clk, (0, 0)) else mret (0, (if v_clk_enabled e then 1 else 0, 0)).

Definition get_clock_name (clock_id : Z) : srv (Z * list Z) :=
  clk ← clock_get_cached clock_id;
  if clk <? 0 then mret (clk, []) else mret (0, clock_name_of clock_id).

(** enabled, parent_id, clock_name, is_valid *)
Definition get_clock_attributes (clock_id : Z) : srv (Z * (Z * Z * list Z * Z)) :=
  clk ← clock_get_cached clock_id;
  if clk <? 0 then mret (clk, (0, 0, [], 0))
  else mret (0, (if v_clk_enabled e then 1 else 0, u32 (-1), clock_name_of clock_id, 1)).

Definition get_clock_rate (clock_id : Z) : srv (Z * Z) :=
  clk ← clock_get_cached clock_id;
  if clk <? 0 then mret (clk, 0) else mret (0, u64 (v_clk_rate e)).

Definition set_clock_rate (clock_id rate : Z) : srv Z :=
  clk ← clock_get_cached clock_id;
  if clk <? 0 then mret clk
  else _ ← hw_on clk (ClkSetRate clock_id rate); mret (v_clk_set_rate e).

Definition set_clock_config (clock_id config : Z) : srv Z :=
  clk ← clock_get_cached clock_id;
  if clk <? 0 then mret clk
  else if negb (Z.land config 1 =? 0) then
    _ ← (if v_clk_enable e =? 0 then hw_on clk (ClkEnable clock_id) else mret tt); mret (v_clk_enable e)
  else _ ← hw_on clk (ClkDisable clock_id); mret 0.

(** The loop over the table: [put] for every object in it. *)
Fixpoint put_all (put : Z -> hw_op) (i : Z) (l : list (option Z)) : srv unit :=
  match l with
  | [] => mret tt
  | p :: l' =>
      _ ← (match p with Some err => if err <? 0 then mret tt else hw_do (put i) | None => mret tt end);
      put_all put (i + 1) l'
  end.

(** The entries visited are those below the count. *)
Definition clock_ctrl_finish : srv unit :=
  cache ← gets clock_cache;
  n ← gets clock_max_num;
  match cache with
  | None => set_clocks None 0
  | Some l =>
      if Z.of_nat (length l) <? n then srv_fault OutOfBounds
      else _ ← put_all ClkPut 0 (take (Z.to_nat n) l); set_clocks None 0
  end.

(** ** reset.c *)

Definition reset_init : srv Z :=
  np ← hvisor_get_node;
  if negb np then mret (- ENODEV)
  else
    let count := v_resets e in
    if count =? - ENOENT then _ ← set_resets None 0; mret 0
    else if count <? 0 then mret count
    else
      n ← gets reset_cache_count;
      if negb (v_alloc e 1) then _ ← set_resets None n; mret (- ENOMEM)
      else _ ← set_resets (Some (replicate (Z.to_nat count) None)) count; mret 0.

Definition reset_get_cached (reset_id : Z) : srv Z :=
  n ← gets reset_cache_count;
  if n <=? reset_id then mret (- ENOENT)
  else
    cache ← gets reset_cache;
    p ← entry cache reset_id;
    match p with
    | Some err => mret err
    | None =>
        np ← hvisor_get_node;
        if negb np then mret (- ENODEV)
        else
          let err := v_rst_get e in
          _ ← set_resets (<[Z.to_nat reset_id := stored err]> <$> cache) n;
          _ ← (if err <? 0 then mret tt else hw_on err (RstGet reset_id));
          mret err
    end.

Definition reset_ctrl_finish : srv unit :=
  cache ← gets reset_cache;
  n ← gets reset_cache_count;
  match cache with
  | None => mret tt
  | Some l =>
      if Z.of_nat (length l) <? n then srv_fault OutOfBounds
      else _ ← put_all RstPut 0 (take (Z.to_nat n) l); set_resets None 0
  end.

Definition reset_domain (reset_id flags reset_state : Z) : srv Z :=
  rstc ← reset_get_cached reset_id;
  if rstc <? 0 then mret rstc
  else if negb (v_rst_acquire e =? 0) then mret (v_rst_acquire e)
  else
    _ ← hw_on rstc (RstAcquire reset_id);
    ret ← (if flags =? SCMI_RESET_DEASSERT then _ ← hw_on rstc (RstDeassert reset_id); mret (v_rst_deassert e)
           else if flags =? SCMI_RESET_ASSERT then _ ← hw_on rstc (RstAssert reset_id); mret (v_rst_assert e)
           else if flags =? SCMI_RESET_RESET then
             _ ← hw_on rstc (RstReset reset_id);
             if v_rst_reset e =? - ENOTSUPP then
               _ ← hw_on rstc (RstAssert reset_id);
               if negb (v_rst_assert e =? 0) then mret (v_rst_assert e)
               else _ ← hw_on rstc (RstDeassert reset_id); mret (v_rst_deassert e)
             else mret (v_rst_reset e)
           else mret (- EINVAL));
    _ ← hw_on rstc (RstRelease reset_id);
    mret ret.

(** ** power.c *)

(** A failure after the count is stored leaves it stored. *)
Definition power_init : srv Z :=
  np ← hvisor_get_node;
  if negb np then mret (- ENODEV)
  else
    let c := v_domains e in
    if c =? - ENOENT then _ ← set_domains None 0; _ ← set_pdev false; mret 0
    else if c <? 0 then mret c
    else if negb (v_alloc e 2) then _ ← set_domains None (u32 c); mret (- ENOMEM)
    else if negb (v_pdev_alloc e) then _ ← set_domains None (u32 c); _ ← set_pdev false; mret (- ENOMEM)
    else if negb (v_pdev_add e) then _ ← set_domains None (u32 c); _ ← set_pdev false; mret (- ENODEV)
    else
      _ ← set_domains (Some (replicate (Z.to_nat c) false)) (u32 c);
      _ ← set_pdev true;
      _ ← hw_do PdevAdd;
      mret 0.

Definition power_domain_get_count : srv Z := gets power_max_num.

Definition power_domain_init (domain_id : Z) : srv Z :=
  n ← gets power_max_num;
  if n <=? domain_id then mret (- ENOENT)
  else
    devs ← gets power_devices;
    attached ← entry devs domain_id;
    if attached : bool then mret 0
    else
      pdev ← gets ctrl_pdev;
      if negb pdev then srv_fault NullDeref
      else
        match v_attach e with
        | None => mret (- ENODEV)
        | Some err =>
            if err <? 0 then mret err
            else
              _ ← set_domains (<[Z.to_nat domain_id := true]> <$> devs) n;
              _ ← hw_do (PdAttach domain_id);
              mret 0
        end.

Fixpoint detach_all (i : Z) (l : list bool) : srv unit :=
  match l with
  | [] => mret tt
  | b :: l' => _ ← (if b : bool then hw_do (PdDetach i) else mret tt); detach_all (i + 1) l'
  end.

Definition power_ctrl_finish : srv unit :=
  devs ← gets power_devices;
  n ← gets power_max_num;
  _ ← match devs with
      | None => mret tt
      | Some l =>
          if Z.of_nat (length l) <? n then srv_fault OutOfBounds
          else _ ← detach_all 0 (take (Z.to_nat n) l); set_domains None 0
      end;
  pdev ← gets ctrl_pdev;
  if pdev : bool then _ ← hw_do PdevDel; set_pdev false else mret tt.

(** A failed [pm_runtime_resume_and_get] drops its own reference. *)
Definition power_domain_state_set (domain_id power_state : Z) : srv Z :=
  n ← gets power_max_num;
  if n <=? domain_id then mret (- ENODEV)
  else
    devs ← gets power_devices;
    attached ← entry devs domain_id;
    if negb attached then mret (- ENODEV)
    else if power_state =? SCMI_POWER_STATE_GENERIC_ON then
      _ ← (if v_pm_get e <? 0 then mret tt else hw_do (PmGet domain_id)); mret (v_pm_get e)
    else if power_state =? SCMI_POWER_STATE_GENERIC_OFF then
      _ ← hw_do (PmPut domain_id); mret (v_pm_put e)
    else mret (- EINVAL).

(** The attachment both readers make sure of. *)
Definition power_attached (domain_id : Z) : srv Z :=
  n ← gets power_max_num;
  if n <=? domain_id then mret (- ENODEV)
  else
    devs ← gets power_devices;
    attached ← entry devs domain_id;
    if negb attached then power_domain_init domain_id else mret 0.

Definition power_domain_state_get (domain_id : Z) : srv (Z * Z) :=
  ret ← power_attached domain_id;
  if negb (ret =? 0) then mret (ret, 0)
  else mret (0, if v_pm_active e then SCMI_POWER_STATE_GENERIC_ON else SCMI_POWER_STATE_GENERIC_OFF).

(** The text is cut at 62 characters, which it never has. *)
Definition power_domain_get_attributes (domain_id : Z) : srv (Z * (Z * list Z)) :=
  ret ← power_attached domain_id;
  if negb (ret =? 0) then mret (ret, (0, []))
  else mret (0, (0, name_field (take 62 (clk_text pd_ domain_id)))).

(** ** Start and end *)

Definition hvisor_scmi_init : srv Z :=
  ret ← clock_init;
  if negb (ret =? 0) then mret ret
  else
    ret ← reset_init;
    if negb (ret =? 0) then _ ← clock_ctrl_finish; mret ret
    else
      ret ← power_init;
      if negb (ret =? 0) then _ ← reset_ctrl_finish; _ ← clock_ctrl_finish; mret ret
      else mret 0.

Definition hvisor_scmi_cleanup : srv unit :=
  _ ← power_ctrl_finish;
  _ ← reset_ctrl_finish;
  clock_ctrl_finish.

(** ** The ioctls *)

(** The fields a command may read; the id is the first word of every member of
    the union that has one. *)
Record hvisor_scmi_clock_args := { ck_subcmd : Z; ck_id : Z; ck_rate : Z; ck_config : Z }.
Record hvisor_scmi_reset_args := { rs_subcmd : Z; rs_id : Z; rs_flags : Z; rs_state : Z }.
Record hvisor_scmi_power_args := { pw_subcmd : Z; pw_id : Z; pw_state : Z }.

(** What is copied back to the user's struct. *)
Inductive scmi_out :=
  | OutNothing
  | OutCount (n : Z)
  | OutClockAttr (enabled parent_id : Z) (clock_name : list Z) (is_valid : Z)
  | OutRate (rate : Z)
  | OutConfig (config extended_config_val : Z)
  | OutName (name : list Z)
  | OutPowerAttr (flags : Z) (name : list Z)
  | OutPowerState (power_state : Z).

Definition copy_to_user (o : scmi_out) : Z * scmi_out := if v_copy_out e then (0, o) else (- EFAULT, OutNothing).

Definition hvisor_scmi_clock_ioctl (user_args : option hvisor_scmi_clock_args) : srv (Z * scmi_out) :=
  match user_args with
  | None => mret (- EFAULT, OutNothing)
  | Some args =>
      if ck_subcmd args =? HVISOR_SCMI_CLOCK_GET_COUNT then
        ret ← get_clock_count;
        mret (if ret <? 0 then (ret, OutNothing) else copy_to_user (OutCount (u32 ret)))
      else if ck_subcmd args =? HVISOR_SCMI_CLOCK_GET_ATTRIBUTES then
        '(ret, (enabled, parent_id, clock_name, is_valid)) ← get_clock_attributes (ck_id args);
        mret (if ret <? 0 then (ret, OutNothing)
              else copy_to_user (OutClockAttr enabled parent_id (name_field clock_name) is_valid))
      else if ck_subcmd args =? HVISOR_SCMI_CLOCK_DESCRIBE_RATES then mret (0, OutNothing)
      else if ck_subcmd args =? HVISOR_SCMI_CLOCK_RATE_GET then
        '(ret, rate) ← get_clock_rate (ck_id args);
        mret (if ret <? 0 then (ret, OutNothing) else copy_to_user (OutRate rate))
      else if ck_subcmd args =? HVISOR_SCMI_CLOCK_RATE_SET then
        ret ← set_clock_rate (ck_id args) (ck_rate args); mret (ret, OutNothing)
      else if ck_subcmd args =? HVISOR_SCMI_CLOCK_CONFIG_GET then
        '(ret, (config, extended)) ← get_clock_config (ck_id args);
        mret (if ret <? 0 then (ret, OutNothing) else copy_to_user (OutConfig config extended))
      else if ck_subcmd args =? HVISOR_SCMI_CLOCK_CONFIG_SET then
        ret ← set_clock_config (ck_id args) (ck_config args); mret (ret, OutNothing)
      else if ck_subcmd args =? HVISOR_SCMI_CLOCK_NAME_GET then
        '(ret, name) ← get_clock_name (ck_id args);
        mret (if ret <? 0 then (ret, OutNothing) else copy_to_user (OutName (name_field name)))
      else mret (- EINVAL, OutNothing)
  end.

Definition hvisor_scmi_reset_ioctl (user_args : option hvisor_scmi_reset_args) : srv (Z * scmi_out) :=
  match user_args with
  | None => mret (- EFAULT, OutNothing)
  | Some args =>
      if rs_subcmd args =? HVISOR_SCMI_RESET_GET_COUNT then
        n ← gets reset_cache_count; mret (copy_to_user (OutCount (u32 n)))
      else if rs_subcmd args =? HVISOR_SCMI_RESET_RESET then
        ret ← reset_domain (rs_id args) (rs_flags args) (rs_state args); mret (ret, OutNothing)
      else mret (- EINVAL, OutNothing)
  end.

Definition hvisor_scmi_power_ioctl (user_args : option hvisor_scmi_power_args) : srv (Z * scmi_out) :=
  match user_args with
  | None => mret (- EFAULT, OutNothing)
  | Some args =>
      if pw_subcmd args =? HVISOR_SCMI_POWER_GET_COUNT then
        n ← power_domain_get_count; mret (copy_to_user (OutCount n))
      else if pw_subcmd args =? HVISOR_SCMI_POWER_GET_ATTRIBUTES then
        ret ← power_domain_init (pw_id args);
        if ret <? 0 then mret (ret, OutNothing)
        else
          '(ret, (flags, name)) ← power_domain_get_attributes (pw_id args);
          mret (if ret <? 0 then (ret, OutNothing) else copy_to_user (OutPowerAttr flags (name_field name)))
      else if pw_subcmd args =? HVISOR_SCMI_POWER_STATE_SET then
        ret ← power_domain_init (pw_id args);
        if ret <? 0 then mret (ret, OutNothing)
        else ret ← power_domain_state_set (pw_id args) (pw_state args); mret (ret, OutNothing)
      else if pw_subcmd args =? HVISOR_SCMI_POWER_STATE_GET then
        '(ret, power_state) ← power_domain_state_get (pw_id args);
        mret (if ret <? 0 then (ret, OutNothing) else copy_to_user (OutPowerState power_state))
      else mret (- EINVAL, OutNothing)
  end.

(** The three ioctls, on the call as the daemon makes it. *)
Definition scmi_serve_call (c : scmi_call) : srv (Z * scmi_out) :=
  match call_ioctl c with
  | HVISOR_SCMI_CLOCK_IOCTL =>
      hvisor_scmi_clock_ioctl (Some {| ck_subcmd := call_subcmd c; ck_id := call_id c;
        ck_rate := nth 1 (call_words c) 0; ck_config := nth 0 (call_words c) 0 |})
  | HVISOR_SCMI_RESET_IOCTL =>
      hvisor_scmi_reset_ioctl (Some {| rs_subcmd := call_subcmd c; rs_id := call_id c;
        rs_flags := nth 0 (call_words c) 0; rs_state := nth 1 (call_words c) 0 |})
  | HVISOR_SCMI_POWER_IOCTL =>
      hvisor_scmi_power_ioctl (Some {| pw_subcmd := call_subcmd c; pw_id := call_id c; pw_state := nth 0 (call_words c) 0 |})
  end.

End server.

(** ** Invariant: what is cached is what is held *)

Definition balance (up down : hw_op) (log : list hw_op) : Z :=
  Z.of_nat (count_occ hw_op_eq_dec log up) - Z.of_nat (count_occ hw_op_eq_dec log down).

(** An operation and the one that undoes it. *)
Inductive paired : hw_op -> hw_op -> Prop :=
  | paired_clk i : paired (ClkGet i) (ClkPut i)
  | paired_rst i : paired (RstGet i) (RstPut i)
  | paired_acquire i : paired (RstAcquire i) (RstRelease i)
  | paired_domain i : paired (PdAttach i) (PdDetach i)
  | paired_pdev : paired PdevAdd PdevDel.

Definition good (p : option Z) : bool := match p with Some err => negb (err <? 0) | None => false end.

(** A table of [n] entries, each of which is held once if [held], else not. *)
Record table_ok {A} (held : A -> bool) (get put : Z -> hw_op) (t : option (list A)) (n : Z) (log : list hw_op) : Prop := {
  tb_len : n = Z.of_nat (length (default [] t));
  tb_held i : 0 <= i -> balance (get i) (put i) log = if default false (held <$> default [] t !! Z.to_nat i) then 1 else 0;
}.

Record server_ok (s : server) : Prop := {
  so_np : hvisor_np s = true;
  so_clock : table_ok good ClkGet ClkPut (clock_cache s) (clock_max_num s) (hw s);
  so_reset : table_ok good RstGet RstPut (reset_cache s) (reset_cache_count s) (hw s);
  so_power : table_ok id PdAttach PdDetach (power_devices s) (power_max_num s) (hw s);
  so_pdev : is_Some (power_devices s) -> ctrl_pdev s = true;
  so_pdev_bal : balance PdevAdd PdevDel (hw s) = if ctrl_pdev s then 1 else 0;
  so_acquire i : balance (RstAcquire i) (RstRelease i) (hw s) = 0;
}.

Lemma balance_app u d l1 l2 : balance u d (l1 ++ l2) = balance u d l1 + balance u d l2.
Proof. unfold balance. rewrite !count_occ_app. lia. Qed.

(** Decides the balance of a short list of operations. *)
Ltac balance :=
  unfold balance; cbn [count_occ app];
  repeat match goal with |- context [hw_op_eq_dec ?x ?y] => destruct (hw_op_eq_dec x y) end; simplify_eq;
  first [lia | congruence | exfalso; match goal with H : ?f _ <> ?f _ |- _ => apply H; f_equal; lia end].

Definition level (log : list hw_op) : Prop := forall u d, paired u d -> balance u d log = 0.

Lemma table_ok_app {A} (held : A -> bool) get put t n log new :
  table_ok held get put t n log -> (forall i, balance (get i) (put i) new = 0) -> table_ok held get put t n (log ++ new).
Proof. intros [H1 H2] Hn. split; [done|]. intros i Hi. rewrite balance_app, Hn, H2 by done. lia. Qed.

(** Filling an entry that was not held. *)
Lemma table_ok_fill {A} (held : A -> bool) get put l n log i x y :
  table_ok held get put (Some l) n log -> 0 <= i -> l !! Z.to_nat i = Some x -> held x = false ->
  (forall j new, new = (if held y then [get i] else []) ->
     balance (get j) (put j) new = if held y && (j =? i) then 1 else 0) ->
  table_ok held get put (Some (<[Z.to_nat i := y]> l)) n (log ++ (if held y then [get i] else [])).
Proof.
  intros [H1 H2] Hi Hx Hh Hb. split; cbn [from_option id] in *; [by rewrite length_insert|]. intros j Hj.
  rewrite balance_app, H2, (Hb j _ eq_refl) by done. destruct (j =? i) eqn:E.
  - assert (j = i) as -> by lia. rewrite list_lookup_insert_eq by (by eapply lookup_lt_Some). rewrite Hx. cbn. rewrite Hh.
    by destruct (held y).
  - rewrite list_lookup_insert_ne by lia. rewrite andb_false_r. lia.
Qed.

(** [c] returns from a sound state, leaves a sound one, and asks the frameworks
    only for what [P] allows. *)
Definition keeps {A} (P : hw_op -> Prop) (c : srv A) : Prop :=
  forall s, server_ok s -> exists x s', c s = Ok (x, s') /\ server_ok s' /\ exists new, hw s' = hw s ++ new /\ Forall P new.

Section keeps.
Context (e : scmi_kenv) (P : hw_op -> Prop).

Lemma keeps_ret {A} (x : A) : keeps P (mret x).
Proof. intros s Hs. exists x, s. split; [done|]. split; [done|]. exists []. by rewrite app_nil_r. Qed.

Lemma keeps_bind {A B} (c : srv A) (k : A -> srv B) : keeps P c -> (forall x, keeps P (k x)) -> keeps P (c ≫= k).
Proof.
  intros Hc Hk s Hs. destruct (Hc s Hs) as (x & s1 & E1 & Hs1 & n1 & Hn1 & F1).
  destruct (Hk x s1 Hs1) as (y & s2 & E2 & Hs2 & n2 & Hn2 & F2). exists y, s2. split; [|split; [done|] ].
  - unfold mbind, srv_bind. by rewrite E1.
  - exists (n1 ++ n2). rewrite Hn2, Hn1, app_assoc. split; [done|]. by apply Forall_app.
Qed.

Lemma keeps_gets {A} (f : server -> A) : keeps P (gets f).
Proof. intros s Hs. exists (f s), s. split; [done|]. split; [done|]. exists []. by rewrite app_nil_r. Qed.

(** The state with operations appended. *)
Definition add_hw (new : list hw_op) (s : server) : server :=
  {| hvisor_np := hvisor_np s; clock_cache := clock_cache s; clock_max_num := clock_max_num s;
     reset_cache := reset_cache s; reset_cache_count := reset_cache_count s;
     power_devices := power_devices s; power_max_num := power_max_num s; ctrl_pdev := ctrl_pdev s; hw := hw s ++ new |}.

Lemma server_ok_level new s : server_ok s -> level new -> server_ok (add_hw new s).
Proof.
  intros [H1 H2 H3 H4 H5 H6 H7] Hl. constructor; cbn; try done.
  1-3: apply table_ok_app; [done|intros i; apply Hl; constructor].
  - rewrite balance_app, H6, (Hl _ _ paired_pdev). lia.
  - intros i. rewrite balance_app, H7, (Hl _ _ (paired_acquire i)). lia.
Qed.

(** Operations that take nothing and give nothing back. *)
Lemma keeps_hw o : P o -> level [o] -> keeps P (hw_do o).
Proof.
  intros Ho Hl s Hs. exists tt, (add_hw [o] s). split; [done|]. split; [by apply server_ok_level|]. exists [o]. split; [done|]. by constructor.
Qed.

Lemma level_none o : (forall u d, paired u d -> o <> u /\ o <> d) -> level [o].
Proof. intros Ho u d Hp. destruct (Ho u d Hp). balance. Qed.

Lemma keeps_same {A} (c : srv A) s x : server_ok s -> c s = Ok (x, s) ->
  exists x' s', c s = Ok (x', s') /\ server_ok s' /\ exists new, hw s' = hw s ++ new /\ Forall P new.
Proof. intros Hs Hc. exists x, s. split; [done|]. split; [done|]. exists []. by rewrite app_nil_r. Qed.

Lemma keeps_added {A} s new (x : A) : server_ok s -> level new -> Forall P new ->
  exists x' s', Ok (x, add_hw new s) = Ok (x', s') /\ server_ok s' /\ exists new', hw s' = hw s ++ new' /\ Forall P new'.
Proof. intros Hs Hl HF. exists x, (add_hw new s). split; [done|]. split; [by apply server_ok_level|]. by exists new. Qed.

(** An index below the count is an entry. *)
Lemma table_ok_entry {A} (held : A -> bool) get put t n log i : table_ok held get put t n log -> 0 <= i < n ->
  exists l x, t = Some l /\ l !! Z.to_nat i = Some x.
Proof.
  intros [Hl _] Hi. destruct t as [l|]; cbn [from_option id length] in Hl; [|lia].
  destruct (lookup_lt_is_Some_2 l (Z.to_nat i)) as [x Hx]; [lia|]. eauto.
Qed.

Lemma keeps_clock_get_cached clk : 0 <= clk -> P (ClkGet clk) -> keeps P (clock_get_cached e clk).
Proof.
  intros Hc HP s Hs. unfold clock_get_cached. destruct (clock_max_num s <=? clk) eqn:En.
  { eapply keeps_same; [done|]. cbv [mbind srv_bind gets]. by rewrite En. }
  destruct (table_ok_entry _ _ _ _ _ _ clk (so_clock s Hs)) as (l & x & Hl & Hx); [lia|].
  destruct x as [err|].
  { eapply keeps_same; [done|]. cbv [mbind srv_bind gets]. rewrite En, Hl. unfold entry. by rewrite Hx. }
  set (new := if good (stored (v_clk_get e)) then [ClkGet clk] else []).
  exists (v_clk_get e), {| hvisor_np := hvisor_np s; clock_cache := Some (<[Z.to_nat clk := stored (v_clk_get e)]> l);
     clock_max_num := clock_max_num s; reset_cache := reset_cache s; reset_cache_count := reset_cache_count s;
     power_devices := power_devices s; power_max_num := power_max_num s; ctrl_pdev := ctrl_pdev s; hw := hw s ++ new |}.
  split; [|split].
  - cbv [mbind srv_bind gets]. rewrite En, Hl. unfold entry. rewrite Hx. cbn [of_index mbind result_bind].
    unfold hvisor_get_node, gets. cbv [mbind srv_bind]. rewrite (so_np s Hs). unfold new, good, stored, hw_on.
    cbn. destruct (v_clk_get e <? 0) eqn:E0, (v_clk_get e =? 0) eqn:E1; cbn; rewrite ?E0; cbn; rewrite ?app_nil_r, (so_np s Hs); reflexivity.
  - destruct Hs as [H1 H2 H3 H4 H5 H6 H7]. rewrite Hl in H2. constructor; cbn; try done.
    + by eapply table_ok_fill; [| |exact Hx| |intros j n ->; destruct (good _); cbn; destruct (j =? clk) eqn:?; balance].
    + apply table_ok_app; [done|]. intros i. unfold new. destruct (good _); balance.
    + apply table_ok_app; [done|]. intros i. unfold new. destruct (good _); balance.
    + rewrite balance_app, H6. unfold new. destruct (good _); balance.
    + intros i. rewrite balance_app, H7. unfold new. destruct (good _); balance.
  - exists new. split; [done|]. unfold new. destruct (good _); by repeat constructor.
Qed.
Lemma keeps_reset_get_cached id : 0 <= id -> P (RstGet id) -> keeps P (reset_get_cached e id).
Proof.
  intros Hc HP s Hs. unfold reset_get_cached. destruct (reset_cache_count s <=? id) eqn:En.
  { eapply keeps_same; [done|]. cbv [mbind srv_bind gets]. by rewrite En. }
  destruct (table_ok_entry _ _ _ _ _ _ id (so_reset s Hs)) as (l & x & Hl & Hx); [lia|].
  destruct x as [err|].
  { eapply keeps_same; [done|]. cbv [mbind srv_bind gets]. rewrite En, Hl. unfold entry. by rewrite Hx. }
  set (new := if good (stored (v_rst_get e)) then [RstGet id] else []).
  exists (v_rst_get e), {| hvisor_np := hvisor_np s; clock_cache := clock_cache s; clock_max_num := clock_max_num s;
     reset_cache := Some (<[Z.to_nat id := stored (v_rst_get e)]> l); reset_cache_count := reset_cache_count s;
     power_devices := power_devices s; power_max_num := power_max_num s; ctrl_pdev := ctrl_pdev s; hw := hw s ++ new |}.
  split; [|split].
  - cbv [mbind srv_bind gets]. rewrite En, Hl. unfold entry. rewrite Hx. cbn [of_index mbind result_bind].
    unfold hvisor_get_node, gets. cbv [mbind srv_bind]. rewrite (so_np s Hs). unfold new, good, stored, hw_on.
    cbn. destruct (v_rst_get e <? 0) eqn:E0, (v_rst_get e =? 0) eqn:E1; cbn; rewrite ?E0; cbn; rewrite ?app_nil_r, (so_np s Hs); reflexivity.
  - destruct Hs as [H1 H2 H3 H4 H5 H6 H7]. rewrite Hl in H3. constructor; cbn; try done.
    + apply table_ok_app; [done|]. intros i. unfold new. destruct (good _); balance.
    + by eapply table_ok_fill; [| |exact Hx| |intros j n ->; destruct (good _); cbn; destruct (j =? id) eqn:?; balance].
    + apply table_ok_app; [done|]. intros i. unfold new. destruct (good _); balance.
    + rewrite balance_app, H6. unfold new. destruct (good _); balance.
    + intros i. rewrite balance_app, H7. unfold new. destruct (good _); balance.
  - exists new. split; [done|]. unfold new. destruct (good _); by repeat constructor.
Qed.

Lemma keeps_power_domain_init id : 0 <= id -> P (PdAttach id) -> keeps P (power_domain_init e id).
Proof.
  intros Hc HP s Hs. unfold power_domain_init. destruct (power_max_num s <=? id) eqn:En.
  { eapply keeps_same; [done|]. cbv [mbind srv_bind gets]. by rewrite En. }
  destruct (table_ok_entry _ _ _ _ _ _ id (so_power s Hs)) as (l & x & Hl & Hx); [lia|].
  assert (ctrl_pdev s = true) as Hp by (apply (so_pdev s Hs); by rewrite Hl).
  cbv [mbind srv_bind gets]. rewrite En, Hl. unfold entry. rewrite Hx. cbn [of_index mbind result_bind].
  destruct x; [by eapply (keeps_same (fun _ => _))|]. rewrite Hp. cbn [negb].
  destruct (v_attach e) as [err|]; [|by eapply (keeps_same (fun _ => _))].
  destruct (err <? 0); [by eapply (keeps_same (fun _ => _))|].
  eexists _, {| hvisor_np := hvisor_np s; clock_cache := clock_cache s; clock_max_num := clock_max_num s;
     reset_cache := reset_cache s; reset_cache_count := reset_cache_count s;
     power_devices := Some (<[Z.to_nat id := true]> l); power_max_num := power_max_num s; ctrl_pdev := ctrl_pdev s;
     hw := hw s ++ [PdAttach id] |}.
  split; [reflexivity|split].
  - destruct Hs as [H1 H2 H3 H4 H5 H6 H7]. rewrite Hl in H4. constructor; cbn; try done.
    + apply table_ok_app; [done|]. intros i. balance.
    + apply table_ok_app; [done|]. intros i. balance.
    + apply (table_ok_fill Datatypes.id PdAttach PdDetach l (power_max_num s) (hw s) id false true); [done..|].
      intros j n ->; cbn; destruct (j =? id) eqn:?; balance.
    + rewrite balance_app, H6. balance.
    + intros i. rewrite balance_app, H7. balance.
  - exists [PdAttach id]. split; [done|]. by repeat constructor.
Qed.

Lemma keeps_power_attached id : 0 <= id -> P (PdAttach id) -> keeps P (power_attached e id).
Proof.
  intros Hc HP s Hs. unfold power_attached. destruct (power_max_num s <=? id) eqn:En.
  { eapply keeps_same; [done|]. cbv [mbind srv_bind gets]. by rewrite En. }
  destruct (table_ok_entry _ _ _ _ _ _ id (so_power s Hs)) as (l & x & Hl & Hx); [lia|].
  cbv [mbind srv_bind gets]. rewrite En, Hl. unfold entry. rewrite Hx. cbn [of_index mbind result_bind].
  destruct x; [by eapply (keeps_same (fun _ => _))|]. by apply keeps_power_domain_init.
Qed.

Lemma keeps_power_domain_state_set id st : 0 <= id -> P (PmGet id) -> P (PmPut id) -> keeps P (power_domain_state_set e id st).
Proof.
  intros Hc HG HU s Hs. unfold power_domain_state_set. destruct (power_max_num s <=? id) eqn:En.
  { eapply keeps_same; [done|]. cbv [mbind srv_bind gets]. by rewrite En. }
  destruct (table_ok_entry _ _ _ _ _ _ id (so_power s Hs)) as (l & x & Hl & Hx); [lia|].
  cbv [mbind srv_bind gets]. rewrite En, Hl. unfold entry. rewrite Hx. cbn [of_index mbind result_bind].
  destruct x; [cbn [negb]|by eapply (keeps_same (fun _ => _))].
  destruct (st =? _); [destruct (v_pm_get e <? 0)|destruct (st =? _)].
  - by eapply (keeps_same (fun _ => _)).
  - apply (keeps_added s [PmGet id]); [done|apply level_none; by intros ? ? []|by constructor].
  - apply (keeps_added s [PmPut id]); [done|apply level_none; by intros ? ? []|by constructor].
  - by eapply (keeps_same (fun _ => _)).
Qed.

(** The reset control is acquired, used and released. *)
Lemma keeps_reset_domain id flags st :
  0 <= id -> (forall o, o ∈ [RstGet id; RstAcquire id; RstRelease id; RstAssert id; RstDeassert id; RstReset id] -> P o) ->
  keeps P (reset_domain e id flags st).
Proof.
  intros Hc HP. unfold reset_domain. apply keeps_bind; [apply keeps_reset_get_cached; [done|]; apply HP; left|]. intros r.
  destruct (r <? 0); [apply keeps_ret|]. destruct (negb _); [apply keeps_ret|]. intros s Hs.
  unfold hw_on. destruct (r =? 0).
  { destruct (flags =? SCMI_RESET_DEASSERT), (flags =? SCMI_RESET_ASSERT), (flags =? SCMI_RESET_RESET),
      (v_rst_reset e =? - ENOTSUPP), (v_rst_assert e =? 0); by eapply keeps_same. }
  assert (forall used, Forall (fun o => o ∈ [RstAssert id; RstDeassert id; RstReset id]) used ->
    level (RstAcquire id :: used ++ [RstRelease id]) /\ Forall P (RstAcquire id :: used ++ [RstRelease id])) as Hused.
  { intros used HF. split.
    - change (RstAcquire id :: used ++ [RstRelease id]) with ([RstAcquire id] ++ used ++ [RstRelease id]). intros u d Hp.
      rewrite !balance_app. replace (balance u d used) with 0; [destruct Hp; balance|].
      unfold balance. rewrite !(proj1 (count_occ_not_In _ _ _)); [done|..];
        intros Hin; apply (proj1 (List.Forall_forall _ _) HF) in Hin; apply list_elem_of_In in Hin; destruct Hp; cbn in Hin; intuition discriminate.
    - constructor; [apply HP; right; left|]. apply Forall_app. split; [|constructor; [apply HP; do 2 right; left|constructor] ].
      eapply List.Forall_impl; [|exact HF]. intros o Ho. apply HP. by do 3 right. }
  assert (forall used (x : Z), Forall (fun o => o ∈ [RstAssert id; RstDeassert id; RstReset id]) used ->
    exists y s', Ok (x, add_hw (RstAcquire id :: used ++ [RstRelease id]) s) = Ok (y, s') /\ server_ok s' /\
      exists new, hw s' = hw s ++ new /\ Forall P new) as Hfin.
  { intros used x HF. destruct (Hused used HF). by apply keeps_added. }
  cbv [mbind srv_bind hw_do mret srv_ret]. cbn. unfold add_hw in Hfin.
  destruct (flags =? SCMI_RESET_DEASSERT), (flags =? SCMI_RESET_ASSERT), (flags =? SCMI_RESET_RESET),
    (v_rst_reset e =? - ENOTSUPP), (v_rst_assert e =? 0); cbn; rewrite <- !app_assoc; cbn [app];
    first [apply (Hfin [RstDeassert id])|apply (Hfin [RstAssert id])|apply (Hfin [RstReset id; RstAssert id])
          |apply (Hfin [RstReset id; RstAssert id; RstDeassert id])|apply (Hfin [RstReset id])|apply (Hfin [])];
    repeat constructor; apply list_elem_of_In; cbn; tauto.
Qed.

End keeps.

(** The object an operation is on. *)
Definition target (o : hw_op) : option (scmi_ioctl * Z) :=
  match o with
  | ClkGet i | ClkPut i | ClkSetRate i _ | ClkEnable i | ClkDisable i => Some (HVISOR_SCMI_CLOCK_IOCTL, i)
  | RstGet i | RstPut i | RstAcquire i | RstRelease i | RstAssert i | RstDeassert i | RstReset i =>
      Some (HVISOR_SCMI_RESET_IOCTL, i)
  | PdAttach i | PdDetach i | PmGet i | PmPut i => Some (HVISOR_SCMI_POWER_IOCTL, i)
  | PdevAdd | PdevDel => None
  end.

Definition on (k : scmi_ioctl) (i : Z) (o : hw_op) : Prop := target o = Some (k, i).

Ltac keeps_step :=
  cbv beta iota zeta;
  lazymatch goal with
  | |- keeps _ (mret _) => apply keeps_ret
  | |- keeps _ (gets _) => apply keeps_gets
  | |- keeps _ (hw_on _ _) => unfold hw_on
  | |- keeps _ (hw_do _) => apply keeps_hw; [done|apply level_none; by intros ? ? [] ]
  | |- keeps _ (clock_get_cached _ _) => by apply keeps_clock_get_cached
  | |- keeps _ (power_domain_init _ _) => by apply keeps_power_domain_init
  | |- keeps _ (power_attached _ _) => by apply keeps_power_attached
  | |- keeps _ (power_domain_state_set _ _ _) => by apply keeps_power_domain_state_set
  | |- keeps _ (_ ≫= _) => apply keeps_bind; [|intros ?]
  | |- keeps _ (if ?b then _ else _) => destruct b
  | |- keeps _ (let '(_, _) := ?p in _) => destruct p
  end.

Lemma keeps_clock_ioctl e arg : 0 <= ck_id arg ->
  keeps (on HVISOR_SCMI_CLOCK_IOCTL (ck_id arg)) (hvisor_scmi_clock_ioctl e (Some arg)).
Proof.
  intros Hi. unfold hvisor_scmi_clock_ioctl, get_clock_count, get_clock_attributes, get_clock_rate, set_clock_rate,
    get_clock_config, set_clock_config, get_clock_name. repeat keeps_step.
Qed.

Lemma keeps_reset_ioctl e arg : 0 <= rs_id arg ->
  keeps (on HVISOR_SCMI_RESET_IOCTL (rs_id arg)) (hvisor_scmi_reset_ioctl e (Some arg)).
Proof.
  intros Hi. unfold hvisor_scmi_reset_ioctl. repeat keeps_step. apply keeps_reset_domain; [done|]. intros o Ho.
  by repeat (apply elem_of_cons in Ho as [->|Ho]; [reflexivity|]); apply elem_of_nil in Ho.
Qed.

Lemma keeps_power_ioctl e arg : 0 <= pw_id arg ->
  keeps (on HVISOR_SCMI_POWER_IOCTL (pw_id arg)) (hvisor_scmi_power_ioctl e (Some arg)).
Proof.
  intros Hi. unfold hvisor_scmi_power_ioctl, power_domain_get_count, power_domain_get_attributes, power_domain_state_get.
  repeat keeps_step.
Qed.

(** ** Start *)

(** The counts are C integers. *)
Definition int_counts (e : scmi_kenv) : Prop := v_clocks e < 2 ^ 31 /\ v_resets e < 2 ^ 31 /\ v_domains e < 2 ^ 31.

Lemma table_ok_new {A} (held : A -> bool) get put x n log : held x = false -> (forall i, balance (get i) (put i) log = 0) ->
  0 <= n -> table_ok held get put (Some (replicate (Z.to_nat n) x)) n log.
Proof.
  intros Hx Hb Hn. split; cbn [from_option id]; [rewrite length_replicate; lia|]. intros i Hi. rewrite Hb.
  destruct (replicate _ x !! Z.to_nat i) as [y|] eqn:E; [|done]. apply lookup_replicate in E as [-> _]. cbn. by rewrite Hx.
Qed.

Lemma table_ok_none {A} (held : A -> bool) get put log : (forall i, balance (get i) (put i) log = 0) -> table_ok held get put None 0 log.
Proof. intros Hb. split; [done|]. intros i _. by rewrite Hb. Qed.

Definition fresh {A} (x : A) (t : option (list A)) (n : Z) : Prop :=
  (t = None /\ n = 0) \/ (t = Some (replicate (Z.to_nat n) x) /\ 0 <= n).

Lemma table_ok_fresh {A} (held : A -> bool) get put x t n log : fresh x t n -> held x = false ->
  (forall i, balance (get i) (put i) log = 0) -> table_ok held get put t n log.
Proof. intros [[-> ->]|[-> Hn]] Hx Hb; [by apply table_ok_none|by apply table_ok_new]. Qed.

Ltac srv_cbn := cbv [mbind srv_bind gets set_np set_clocks set_resets set_domains set_pdev hw_do mret srv_ret]; cbn.

Lemma clock_init_inv e s s' : v_clocks e < 2 ^ 31 -> clock_init e s = Ok (0, s') -> hvisor_np s = false ->
  exists t n, fresh None t n /\
  s' = {| hvisor_np := true; clock_cache := t; clock_max_num := n; reset_cache := reset_cache s;
          reset_cache_count := reset_cache_count s; power_devices := power_devices s; power_max_num := power_max_num s;
          ctrl_pdev := ctrl_pdev s; hw := hw s |}.
Proof.
  intros Hc H Hnp. unfold clock_init, hvisor_get_node in H. revert H. srv_cbn. rewrite Hnp. cbn. destruct (v_node e); [cbn|done].
  destruct (v_clocks e =? - ENOENT) eqn:E1; [intros [= <-]; exists None, 0; split; [by left|done]|].
  destruct (v_clocks e <? 0) eqn:E2; [intros [= Hz _]; lia|]. destruct (v_alloc e 0); cbn; [|done].
  rewrite (u32_small (v_clocks e)) by lia. intros [= <-]. exists (Some (replicate (Z.to_nat (v_clocks e)) None)), (v_clocks e). split; [right; split; [reflexivity|lia]|done].
Qed.

Lemma reset_init_inv e s s' : reset_init e s = Ok (0, s') -> hvisor_np s = true ->
  exists t n, fresh None t n /\
  s' = {| hvisor_np := true; clock_cache := clock_cache s; clock_max_num := clock_max_num s; reset_cache := t;
          reset_cache_count := n; power_devices := power_devices s; power_max_num := power_max_num s;
          ctrl_pdev := ctrl_pdev s; hw := hw s |}.
Proof.
  intros H Hnp. unfold reset_init, hvisor_get_node in H. revert H. srv_cbn. rewrite Hnp. cbn.
  destruct (v_resets e =? - ENOENT) eqn:E1; [intros [= <-]; rewrite Hnp; exists None, 0; split; [by left|done]|].
  destruct (v_resets e <? 0) eqn:E2; [intros [= Hz _]; lia|]. destruct (v_alloc e 1); cbn; [|done].
  intros [= <-]. rewrite Hnp. exists (Some (replicate (Z.to_nat (v_resets e)) None)), (v_resets e). split; [right; split; [reflexivity|lia]|done].
Qed.

Lemma power_init_inv e s s' : v_domains e < 2 ^ 31 -> power_init e s = Ok (0, s') -> hvisor_np s = true ->
  exists t n, fresh false t n /\
  s' = {| hvisor_np := true; clock_cache := clock_cache s; clock_max_num := clock_max_num s; reset_cache := reset_cache s;
          reset_cache_count := reset_cache_count s; power_devices := t; power_max_num := n;
          ctrl_pdev := bool_decide (is_Some t); hw := hw s ++ if bool_decide (is_Some t) then [PdevAdd] else [] |}.
Proof.
  intros Hc H Hnp. unfold power_init, hvisor_get_node in H. revert H. srv_cbn. rewrite Hnp. cbn.
  destruct (v_domains e =? - ENOENT) eqn:E1.
  { intros [= <-]. rewrite Hnp. exists None, 0. split; [by left|]. cbn. by rewrite app_nil_r. }
  destruct (v_domains e <? 0) eqn:E2; [intros [= Hz _]; lia|].
  destruct (v_alloc e 2), (v_pdev_alloc e), (v_pdev_add e); cbn; try done.
  rewrite (u32_small (v_domains e)) by lia. intros [= <-]. rewrite Hnp. exists (Some (replicate (Z.to_nat (v_domains e)) false)), (v_domains e). split; [right; split; [reflexivity|lia]|done].
Qed.

Lemma scmi_init_ok e s : int_counts e -> hvisor_scmi_init e server0 = Ok (0, s) -> server_ok s.
Proof.
  intros (C1 & _ & C3). unfold hvisor_scmi_init. cbv [mbind srv_bind]. intros H.
  destruct (clock_init e server0) as [[r1 s1]|] eqn:E1; [|done].
  destruct (r1 =? 0) eqn:Z1; cbn [negb] in H; [|injection H as -> _; lia].
  apply Z.eqb_eq in Z1 as ->. apply clock_init_inv in E1 as (t1 & n1 & F1 & ->); [|done..].
  destruct (reset_init e _) as [[r2 s2]|] eqn:E2; [|done].
  destruct (r2 =? 0) eqn:Z2; cbn [negb] in H; [|destruct (clock_ctrl_finish s2) as [[]|]; [injection H as -> _; lia|done] ].
  apply Z.eqb_eq in Z2 as ->. apply reset_init_inv in E2 as (t2 & n2 & F2 & ->); [|done].
  destruct (power_init e _) as [[r3 s3]|] eqn:E3; [|done].
  destruct (r3 =? 0) eqn:Z3; cbn [negb] in H.
  2: { destruct (reset_ctrl_finish s3) as [[? s4]|]; [|done]. destruct (clock_ctrl_finish s4) as [[]|]; [injection H as -> _; lia|done]. }
  apply Z.eqb_eq in Z3 as ->. apply power_init_inv in E3 as (t3 & n3 & F3 & ->); [|done..]. injection H as <-. cbn.
  constructor; cbn; try done.
  - eapply table_ok_fresh; [done|done|]. intros i. destruct (bool_decide _); balance.
  - eapply table_ok_fresh; [done|done|]. intros i. destruct (bool_decide _); balance.
  - eapply table_ok_fresh; [done|done|]. intros i. destruct (bool_decide _); balance.
  - intros Ht. by apply bool_decide_eq_true.
  - destruct (bool_decide _); balance.
  - intros i. destruct (bool_decide _); balance.
Qed.

(** ** End *)

(** The operations of the loops that give everything back. *)
Fixpoint undo_ops {A} (held : A -> bool) (put : Z -> hw_op) (i : Z) (l : list A) : list hw_op :=
  match l with
  | [] => []
  | x :: l' => (if held x then [put i] else []) ++ undo_ops held put (i + 1) l'
  end.

Lemma put_all_eq put l : forall i s, put_all put i l s = Ok (tt, add_hw (undo_ops good put i l) s).
Proof.
  induction l as [|p l IH]; intros i s; cbn [put_all undo_ops].
  - unfold add_hw. rewrite app_nil_r. by destruct s.
  - cbv [mbind srv_bind]. destruct p as [err|]; cbn [good]; [destruct (err <? 0)|]; cbn [negb hw_do mret srv_ret app];
      rewrite IH; [done| |done]. unfold add_hw. cbn. by rewrite <- app_assoc.
Qed.

Lemma detach_all_eq l : forall i s, detach_all i l s = Ok (tt, add_hw (undo_ops id PdDetach i l) s).
Proof.
  induction l as [|b l IH]; intros i s; cbn [detach_all undo_ops].
  - unfold add_hw. rewrite app_nil_r. by destruct s.
  - cbv [mbind srv_bind]. destruct b; cbn [id hw_do mret srv_ret app]; rewrite IH; [|done]. unfold add_hw. cbn. by rewrite <- app_assoc.
Qed.

Definition cleaned (s : server) : server :=
  {| hvisor_np := hvisor_np s; clock_cache := None; clock_max_num := 0; reset_cache := None; reset_cache_count := 0;
     power_devices := None; power_max_num := 0; ctrl_pdev := false;
     hw := hw s ++ undo_ops id PdDetach 0 (default [] (power_devices s)) ++ (if ctrl_pdev s then [PdevDel] else []) ++
           undo_ops good RstPut 0 (default [] (reset_cache s)) ++ undo_ops good ClkPut 0 (default [] (clock_cache s)) |}.

Lemma hvisor_scmi_cleanup_eq s : server_ok s -> hvisor_scmi_cleanup s = Ok (tt, cleaned s).
Proof.
  intros [_ [C _] [R _] [D _] _ _ _]. destruct s as [np cc cn rc rn pd pn pdev log]. cbn in C, R, D. subst cn rn pn.
  unfold cleaned, hvisor_scmi_cleanup, power_ctrl_finish, reset_ctrl_finish, clock_ctrl_finish. cbv [mbind srv_bind gets]. cbn.
  destruct pd as [pd|]; cbn; [rewrite Z.ltb_irrefl, Nat2Z.id, firstn_all, detach_all_eq|]; cbn; destruct pdev; cbn;
    (destruct rc as [rc|]; cbn; [rewrite Z.ltb_irrefl, Nat2Z.id, firstn_all, put_all_eq|]; cbn);
    (destruct cc as [cc|]; cbn; [rewrite Z.ltb_irrefl, Nat2Z.id, firstn_all, put_all_eq|]; cbn);
    unfold set_clocks, add_hw; cbn; by rewrite <- ?app_assoc, ?app_nil_r.
Qed.

Lemma balance_cons u d o l : u <> d -> balance u d (o :: l) = (if decide (o = u) then 1 else if decide (o = d) then -1 else 0) + balance u d l.
Proof. intros Hne. destruct (decide (o = u)) as [E1|E1]; [|destruct (decide (o = d)) as [E2|E2] ]; balance. Qed.

(** Operations that do not concern a pair leave its balance. *)
Lemma balance_undo_other {A} (held : A -> bool) put l u d : (forall j, put j <> u /\ put j <> d) -> forall i,
  balance u d (undo_ops held put i l) = 0.
Proof.
  intros Hne. induction l as [|x l IH]; intros i; cbn [undo_ops]; [unfold balance; done|]. rewrite balance_app, IH.
  destruct (held x); [|done]. destruct (Hne i). balance.
Qed.

(** The part of a table from [i] on does not concern the entries before. *)
Lemma balance_undo_before {A} (held : A -> bool) (get put : Z -> hw_op) l : (forall i j, put i = put j -> i = j) ->
  (forall i j, get i <> put j) -> forall i j, j < i -> balance (get j) (put j) (undo_ops held put i l) = 0.
Proof.
  intros Hinj Hne. induction l as [|x l IH]; intros i j Hij; cbn [undo_ops]; [done|]. rewrite balance_app, IH by lia.
  destruct (held x); [|done]. rewrite balance_cons by done.
  rewrite decide_False by (intros E; by apply (Hne j i)). rewrite decide_False by (intros E; apply Hinj in E; lia). done.
Qed.

(** Giving back a table: one release for each entry held. *)
Lemma balance_undo {A} (held : A -> bool) (get put : Z -> hw_op) l : (forall i j, put i = put j -> i = j) ->
  (forall i j, get i <> put j) -> forall i j, i <= j ->
  balance (get j) (put j) (undo_ops held put i l) = if default false (held <$> l !! Z.to_nat (j - i)) then -1 else 0.
Proof.
  intros Hinj Hne. induction l as [|x l IH]; intros i j Hij; cbn [undo_ops]; [done|]. rewrite balance_app.
  destruct (decide (j = i)) as [->|Hji].
  - rewrite balance_undo_before by (done || lia). rewrite Z.sub_diag. change (default false (held <$> (x :: l) !! Z.to_nat 0)) with (held x).
    destruct (held x); [|done].
    rewrite balance_cons by done. rewrite decide_False by (intros E; by apply (Hne i i)). by rewrite decide_True.
  - rewrite IH by lia. replace (Z.to_nat (j - i)) with (S (Z.to_nat (j - (i + 1)))) by lia. cbn [lookup list_lookup].
    destruct (held x); [|done]. rewrite balance_cons by done.
    rewrite decide_False by (intros E; by apply (Hne j i)). by rewrite decide_False by (intros E; apply Hinj in E; lia).
Qed.

(** A table is level once its entries are given back. *)
Lemma table_ok_undone {A} (held : A -> bool) (get put : Z -> hw_op) t n log i : table_ok held get put t n log ->
  (forall i j, put i = put j -> i = j) -> (forall i j, get i <> put j) -> 0 <= i ->
  balance (get i) (put i) log + balance (get i) (put i) (undo_ops held put 0 (default [] t)) = 0.
Proof. intros [_ H] Hinj Hne Hi. rewrite H, balance_undo, Z.sub_0_r by done. by destruct (default false _). Qed.

(** ** Theorems *)

(** One ioctl, whatever the arguments and the answers. *)
Inductive server_step (s s' : server) : Prop :=
  | st_clock e arg r : (forall x, arg = Some x -> 0 <= ck_id x) -> hvisor_scmi_clock_ioctl e arg s = Ok (r, s') -> server_step s s'
  | st_reset e arg r : (forall x, arg = Some x -> 0 <= rs_id x) -> hvisor_scmi_reset_ioctl e arg s = Ok (r, s') -> server_step s s'
  | st_power e arg r : (forall x, arg = Some x -> 0 <= pw_id x) -> hvisor_scmi_power_ioctl e arg s = Ok (r, s') -> server_step s s'.

Lemma keeps_inv {A} P (c : srv A) s x s' : keeps P c -> server_ok s -> c s = Ok (x, s') -> server_ok s'.
Proof. intros Hk Hs E. destruct (Hk s Hs) as (y & s1 & E1 & Hs1 & _). congruence. Qed.

Lemma server_step_ok s s' : server_step s s' -> server_ok s -> server_ok s'.
Proof.
  intros [e [arg|] r Ha H|e [arg|] r Ha H|e [arg|] r Ha H] Hs; [| by injection H as _ <- | | by injection H as _ <- | | by injection H as _ <-].
  - eapply keeps_inv; [apply keeps_clock_ioctl; by apply Ha|done|exact H].
  - eapply keeps_inv; [apply keeps_reset_ioctl; by apply Ha|done|exact H].
  - eapply keeps_inv; [apply keeps_power_ioctl; by apply Ha|done|exact H].
Qed.

Lemma keeps_is_ok {A} P (c : srv A) s : keeps P c -> server_ok s -> is_ok (c s) = true.
Proof. intros Hk Hs. by destruct (Hk s Hs) as (x & s' & -> & _). Qed.

(** The server takes and gives back in pairs.  After a successful start and any
    sequence of ioctls, with any arguments and whatever the frameworks answer, the
    next ioctl stays within the tables, no reset control is left acquired, and the cleanup of the module returns and
    leaves every clock, reset control, power domain and the control device taken as
    often as given back. *)
Theorem scmi_server_balanced e s0 s :
  int_counts e -> hvisor_scmi_init e server0 = Ok (0, s0) -> rtc server_step s0 s ->
  (forall e' arg, 0 <= ck_id arg -> is_ok (hvisor_scmi_clock_ioctl e' (Some arg) s) = true) /\
  (forall e' arg, 0 <= rs_id arg -> is_ok (hvisor_scmi_reset_ioctl e' (Some arg) s) = true) /\
  (forall e' arg, 0 <= pw_id arg -> is_ok (hvisor_scmi_power_ioctl e' (Some arg) s) = true) /\
  (forall i, balance (RstAcquire i) (RstRelease i) (hw s) = 0) /\
  exists s', hvisor_scmi_cleanup s = Ok (tt, s') /\ balance PdevAdd PdevDel (hw s') = 0 /\
    forall i, 0 <= i -> balance (ClkGet i) (ClkPut i) (hw s') = 0 /\ balance (RstGet i) (RstPut i) (hw s') = 0 /\
      balance (PdAttach i) (PdDetach i) (hw s') = 0.
Proof.
  intros Hc Hi Hr. assert (server_ok s) as Hs.
  { apply scmi_init_ok in Hi; [|done]. clear Hc. revert Hi. induction Hr as [|s1 s2 s3 Hst _ IH]; [done|].
    intros H1. apply IH. by eapply server_step_ok. }
  split; [intros e' arg Ha; eapply keeps_is_ok; [by apply keeps_clock_ioctl|done]|].
  split; [intros e' arg Ha; eapply keeps_is_ok; [by apply keeps_reset_ioctl|done]|].
  split; [intros e' arg Ha; eapply keeps_is_ok; [by apply keeps_power_ioctl|done]|].
  split; [apply so_acquire, Hs|]. exists (cleaned s). split; [by apply hvisor_scmi_cleanup_eq|]. cbn [hw cleaned].
  destruct Hs as [_ HC HR HD _ HP _]. split.
  - rewrite !balance_app, HP, !balance_undo_other by done. destruct (ctrl_pdev s); balance.
  - intros i Hi0. assert (forall u d, PdevDel <> u -> PdevDel <> d -> balance u d (if ctrl_pdev s then [PdevDel] else []) = 0) as Hpd.
    { intros u d Hu Hd. destruct (ctrl_pdev s); balance. }
    rewrite !balance_app, !Hpd by done. repeat split.
    + rewrite !(balance_undo_other _ PdDetach), !(balance_undo_other _ RstPut) by done.
      pose proof (table_ok_undone _ _ _ _ _ _ i HC ltac:(congruence) ltac:(done) Hi0). lia.
    + rewrite !(balance_undo_other _ PdDetach), !(balance_undo_other _ ClkPut) by done.
      pose proof (table_ok_undone _ _ _ _ _ _ i HR ltac:(congruence) ltac:(done) Hi0). lia.
    + rewrite !(balance_undo_other _ RstPut), !(balance_undo_other _ ClkPut) by done.
      pose proof (table_ok_undone _ _ _ _ _ _ i HD ltac:(congruence) ltac:(done) Hi0). lia.
Qed.

(** ** Instances *)

(** Three clocks, two resets and two power domains; every framework answers well
    but for the clock lookup and the resets, as given. *)
Definition demo_kenv (clk_get rst_reset : Z) (pdev : bool) : scmi_kenv :=
  {| v_node := true; v_clocks := 3; v_resets := 2; v_domains := 2; v_alloc _ := true; v_pdev_alloc := pdev; v_pdev_add := true;
     v_clk_get := clk_get; v_clk_enabled := true; v_clk_name := None; v_clk_rate := 24000000; v_clk_set_rate := 0;
     v_clk_enable := 0; v_rst_get := 1; v_rst_acquire := 0; v_rst_deassert := 0; v_rst_assert := 0; v_rst_reset := rst_reset;
     v_attach := Some 0; v_pm_get := 0; v_pm_put := 0; v_pm_active := true; v_copy_out := true |}.

Definition rate_set (id rate : Z) : hvisor_scmi_clock_args :=
  {| ck_subcmd := HVISOR_SCMI_CLOCK_RATE_SET; ck_id := id; ck_rate := rate; ck_config := 0 |}.

Definition state_after {A} (r : result (A * server)) : server := match r with Ok (_, s) => s | Err _ => server0 end.

(** Started, one rate set, one domain reset without a reset operation of its own. *)
Definition demo_started : server := state_after (hvisor_scmi_init (demo_kenv 1 0 true) server0).

Definition demo_rate : server := state_after (hvisor_scmi_clock_ioctl (demo_kenv 1 0 true) (Some (rate_set 2 48000000)) demo_started).

Definition demo_reset : hvisor_scmi_reset_args :=
  {| rs_subcmd := HVISOR_SCMI_RESET_RESET; rs_id := 1; rs_flags := SCMI_RESET_RESET; rs_state := 0 |}.

Definition demo_server : server := state_after (hvisor_scmi_reset_ioctl (demo_kenv 1 (- ENOTSUPP) true) (Some demo_reset) demo_rate).

Example demo_server_hw :
  hw demo_server = [PdevAdd; ClkGet 2; ClkSetRate 2 48000000; RstGet 1; RstAcquire 1; RstReset 1; RstAssert 1; RstDeassert 1; RstRelease 1].
Proof. by vm_compute. Qed.

Lemma scmi_server_balanced_witness :
  balance (RstAcquire 1) (RstRelease 1) (hw demo_server) = 0 /\
  exists s', hvisor_scmi_cleanup demo_server = Ok (tt, s') /\ balance (ClkGet 2) (ClkPut 2) (hw s') = 0.
Proof.
  destruct (scmi_server_balanced (demo_kenv 1 0 true) demo_started demo_server) as (_ & _ & _ & Ha & s' & Hs & _ & Hb).
  - by vm_compute.
  - vm_compute. reflexivity.
  - apply (rtc_l _ _ demo_rate).
    + apply (st_clock _ _ (demo_kenv 1 0 true) (Some (rate_set 2 48000000)) (0, OutNothing)); [by intros x [= <-]|vm_compute; reflexivity].
    + apply rtc_once.
      apply (st_reset _ _ (demo_kenv 1 (- ENOTSUPP) true) (Some demo_reset) (0, OutNothing)); [by intros x [= <-]|vm_compute; reflexivity].
  - split; [apply Ha|]. exists s'. split; [exact Hs|]. by apply Hb.
Defined.

(** A clock the framework gives as NULL is not cached, and nothing is done to it. *)
Example clock_null_not_held :
  hvisor_scmi_clock_ioctl (demo_kenv 0 0 true) (Some (rate_set 2 48000000)) demo_started = Ok ((0, OutNothing), demo_started).
Proof. by vm_compute. Qed.

(** A lookup that fails once fails for good: the error pointer is cached. *)
Example clock_error_cached :
  let s1 := state_after (hvisor_scmi_clock_ioctl (demo_kenv (-517) 0 true) (Some (rate_set 2 48000000)) demo_started) in
  hvisor_scmi_clock_ioctl (demo_kenv 1 0 true) (Some (rate_set 2 48000000)) s1 = Ok ((-517, OutNothing), s1).
Proof. by vm_compute. Qed.

(** A failed start leaves the number of power domains behind without their table:
    an ioctl that arrives before the device is gone dereferences NULL. *)
Example power_ioctl_after_failed_init :
  exists s, hvisor_scmi_init (demo_kenv 1 0 false) server0 = Ok (- ENOMEM, s) /\
    hvisor_scmi_power_ioctl (demo_kenv 1 0 true)
      (Some {| pw_subcmd := HVISOR_SCMI_POWER_STATE_GET; pw_id := 0; pw_state := 0 |}) s = Err NullDeref.
Proof. eexists. split; [vm_compute; reflexivity|]. by vm_compute. Qed.

(** A failed start, and a failed start of the module after it, keep the reference
    to the device tree node. *)
Example failed_init_leaks_node :
  exists s, hvisor_scmi_init (demo_kenv 1 0 false) server0 = Ok (- ENOMEM, s) /\ hvisor_np s = true.
Proof. eexists. split; [vm_compute; reflexivity|]. by vm_compute. Qed.
