(* ===== verification/ScmiPath.v ===== *)
(** * SCMI end to end

    The daemon's SCMI device ([VirtioScmi]) on top of the kernel's SCMI server
    ([ScmiServer]): the server discharges the interface [ScmiKernel] the daemon is
    written against, and a guest's messages are followed down to the clock, reset and
    power frameworks. *)

From S2P Require Import Prelude Memory Virtqueue Device Interrupt ScmiCore ScmiClock VirtioScmi ScmiServer.

(** ** The server behind the daemon *)

(** The calls made so far, answered one after the other; [envs k] is what the
    frameworks answer during the [k]-th. *)
Fixpoint serve_calls (envs : nat -> scmi_kenv) (k : nat) (calls : list scmi_call) (s : server) : result server :=
  match calls with
  | [] => Ok s
  | c :: calls' => '(_, s1) ← scmi_serve_call (envs k) c s; serve_calls envs (S k) calls' s1
  end.

(** The argument struct after the call, as far as the daemon reads it. *)
Definition answer_of (ret : Z) (out : scmi_out) : scmi_answer :=
  let a en pa nm ra co ex ps := {| ans_ret := ret; ans_enabled := en; ans_parent_id := pa; ans_name := nm; ans_rate := ra;
                                   ans_config := co; ans_extended := ex; ans_power_state := ps |} in
  match out with
  | OutNothing | OutCount _ => a 0 0 [] 0 0 0 0
  | OutClockAttr enabled parent_id name _ => a enabled parent_id name 0 0 0 0
  | OutRate rate => a 0 0 [] rate 0 0 0
  | OutConfig config extended => a 0 0 [] 0 config extended 0
  | OutName name => a 0 0 name 0 0 0 0
  | OutPowerAttr _ name => a 0 0 name 0 0 0 0
  | OutPowerState st => a 0 0 [] 0 0 0 st
  end.

Definition server_kernel (envs : nat -> scmi_kenv) (s0 : server) : ScmiKernel := fun prior c =>
  match s ← serve_calls envs 0 prior s0; scmi_serve_call (envs (length prior)) c s with
  | Ok ((ret, out), _) => answer_of ret out
  | Err _ => answer_of (- EFAULT) OutNothing
  end.

(** ** Lemmas *)

Lemma keeps_serve_call e c : 0 <= call_id c -> keeps (on (call_ioctl c) (call_id c)) (scmi_serve_call e c).
Proof.
  intros Hc. unfold scmi_serve_call. destruct (call_ioctl c).
  - by apply (keeps_clock_ioctl e {| ck_id := call_id c |}).
  - by apply (keeps_reset_ioctl e {| rs_id := call_id c |}).
  - by apply (keeps_power_ioctl e {| pw_id := call_id c |}).
Qed.

(** Serving any calls returns, and touches only the objects the calls name. *)
Lemma serve_calls_spec envs calls : Forall (fun c => 0 <= call_id c) calls -> forall k s, server_ok s ->
  exists s' new, serve_calls envs k calls s = Ok s' /\ server_ok s' /\ hw s' = hw s ++ new /\
    Forall (fun o => exists c, c ∈ calls /\ on (call_ioctl c) (call_id c) o) new.
Proof.
  induction 1 as [|c calls Hc _ IH]; intros k s Hs; cbn [serve_calls].
  { exists s, []. rewrite app_nil_r. done. }
  destruct (keeps_serve_call (envs k) c Hc s Hs) as (x & s1 & E & Hs1 & n1 & Hn1 & F1). rewrite E. cbn [mbind result_bind].
  destruct (IH (S k) s1 Hs1) as (s2 & n2 & E2 & Hs2 & Hn2 & F2). exists s2, (n1 ++ n2). split; [done|]. split; [done|].
  split; [by rewrite Hn2, Hn1, app_assoc|]. apply Forall_app. split.
  - eapply List.Forall_impl; [|exact F1]. intros o Ho. exists c. split; [left|done].
  - eapply List.Forall_impl; [|exact F2]. intros o (c' & Hin & Ho). exists c'. split; [by right|done].
Qed.

(** The objects of a configuration, per kind. *)
Definition params_ids (p : virtio_scmi_init_params) (k : scmi_ioctl) : list Z :=
  default [] (match k with
              | HVISOR_SCMI_CLOCK_IOCTL => p_clock_ids p
              | HVISOR_SCMI_RESET_IOCTL => p_reset_ids p
              | HVISOR_SCMI_POWER_IOCTL => p_power_ids p
              end).

(** ** Theorems *)

(** C30: a guest reaches only the hardware configured for its device.  Whatever its
    transmit queue holds and whatever the frameworks answer, the kernel serves the
    ioctls of the daemon without fault, and every clock, reset and power operation
    that results is on an object of the configuration. *)
Theorem scmi_hardware_confined {vring : VringEvent} envs e0 s0 alloc p d fuel q w d' w' calls :
  int_counts e0 -> hvisor_scmi_init e0 server0 = Ok (0, s0) ->
  virtio_scmi_do_init alloc (Some p) = Some (Device.dev d) -> (forall k, Forall (fun i => 0 <= i) (params_ids p k)) ->
  virtio_scmi_txq_notify_handler (kern := server_kernel envs s0) fuel d q w [] = Ok (d', w', calls) ->
  exists s' new, serve_calls envs 0 calls s0 = Ok s' /\ hw s' = hw s0 ++ new /\
    Forall (fun o => exists k i, target o = Some (k, i) /\ i ∈ params_ids p k) new.
Proof.
  intros Hc Hi Hd Hp H. destruct (scmi_ids_confined alloc p d fuel q w [] d' w' calls Hd H) as (new & -> & F). cbn [app].
  assert (Forall (fun c => call_id c ∈ params_ids p (call_ioctl c)) new) as F'.
  { eapply List.Forall_impl; [|exact F]. intros c Hin. cbv beta in Hin. unfold params_ids. destruct (call_ioctl c); exact Hin. }
  destruct (serve_calls_spec envs new) with (k := 0%nat) (s := s0) as (s' & ops & E & _ & Hh & Fo).
  - eapply List.Forall_impl; [|exact F']. intros c Hin. by eapply (proj1 (Forall_forall _ _) (Hp (call_ioctl c))).
  - by eapply scmi_init_ok.
  - exists s', ops. split; [done|]. split; [done|]. eapply List.Forall_impl; [|exact Fo]. intros o (c & Hin & Ho).
    exists (call_ioctl c), (call_id c). split; [exact Ho|]. by apply (proj1 (Forall_forall _ _) F').
Qed.

(** ** Instance *)

#[local] Existing Instance vring_event_std.

(** Twelve clocks, of which the device has two. *)
Definition path_env : scmi_kenv :=
  {| v_node := true; v_clocks := 12; v_resets := - ENOENT; v_domains := - ENOENT; v_alloc _ := true; v_pdev_alloc := true;
     v_pdev_add := true; v_clk_get := 1; v_clk_enabled := true; v_clk_name := None; v_clk_rate := 24000000; v_clk_set_rate := 0;
     v_clk_enable := 0; v_rst_get := 1; v_rst_acquire := 0; v_rst_deassert := 0; v_rst_assert := 0; v_rst_reset := 0;
     v_attach := Some 0; v_pm_get := 0; v_pm_put := 0; v_pm_active := true; v_copy_out := true |}.

Definition path_server : server := state_after (hvisor_scmi_init path_env server0).

Definition path_run : option (list scmi_call * list hw_op) :=
  match virtio_scmi_txq_notify_handler (kern := server_kernel (fun _ => path_env) path_server) 3 scmi_vdev 0
          (set_w_mem mem_rate world0) [] with
  | Ok (_, _, calls) => match serve_calls (fun _ => path_env) 0 calls path_server with Ok s => Some (calls, hw s) | Err _ => None end
  | Err _ => None
  end.

Example path_run_ops : snd <$> path_run = Some [ClkGet 11; ClkSetRate 11 1000].
Proof. vm_compute. reflexivity. Qed.

Lemma scmi_hardware_confined_witness :
  exists calls, path_run = Some (calls, [ClkGet 11; ClkSetRate 11 1000]) /\ 11 ∈ [10; 11].
Proof.
  destruct (virtio_scmi_txq_notify_handler (kern := server_kernel (fun _ => path_env) path_server) 3 scmi_vdev 0
    (set_w_mem mem_rate world0) []) as [[[d' w'] calls]|] eqn:E; [|vm_compute in E; discriminate E].
  destruct (scmi_hardware_confined (fun _ => path_env) path_env path_server (fun _ => true) scmi_params0 scmi_vdev 3 0
    (set_w_mem mem_rate world0) d' w' calls) as (s' & new & Es & Hn & F).
  - split; [|split]; reflexivity.
  - vm_compute. reflexivity.
  - reflexivity.
  - intros []; repeat constructor; lia.
  - exact E.
  - assert (path_run = Some (calls, hw s')) as Hrun by (unfold path_run; rewrite E, Es; reflexivity).
    pose proof path_run_ops as Ho. rewrite Hrun in Ho. cbn in Ho. injection Ho as Ho. exists calls. rewrite Hrun, Ho. split; [reflexivity|].
    rewrite Hn in Ho. change (hw path_server) with (@nil hw_op) in Ho. cbn [app] in Ho. subst new.
    apply Forall_cons in F as [(k & i & Ht & Hin) _]. cbn in Ht. injection Ht as <- <-. exact Hin.
Defined.
