(* ===== verification/HostRes.v ===== *)
(** * Host resources

    What the virtio daemon holds of the host: open descriptors, registered events,
    threads, mutexes and condition variables, heap blocks.  The system calls of the
    back ends' [init] and [close] act on them; their outcomes come from a stream of
    answers.  A descriptor handed out is not open; closing one takes it out of the
    epoll set; closing one that is not open is counted, closing a negative one does
    nothing. *)

From S2P Require Import Prelude EventMonitor.

Record host_res := {
  r_fds : list Z;
  r_mon : monitor;
  r_threads : nat;
  r_sync : nat;         (* mutexes and condition variables *)
  r_blocks : nat;
  r_bad : nat;          (* closes of a descriptor that was not open *)
  r_stale : nat;        (* descriptors closed and left in their field *)
  r_event_mem : nat -> bool;   (* whether calloc gives the object of event n *)
  r_answers : nat -> Z;
  r_next : nat;
}.

Definition hm (A : Type) : Type := host_res -> result (A * host_res).

#[global] Instance hm_ret : MRet hm := fun A x r => Ok (x, r).
#[global] Instance hm_bind : MBind hm := fun A B k c r =>
  match c r with
  | Ok (x, r') => k x r'
  | Err f => Err f
  end.

Definition set_res (fds : list Z) (mn : monitor) (th sy bl bad stale : nat) (r : host_res) : host_res :=
  {| r_fds := fds; r_mon := mn; r_threads := th; r_sync := sy; r_blocks := bl; r_bad := bad; r_stale := stale;
     r_event_mem := r_event_mem r; r_answers := r_answers r; r_next := r_next r |}.

(** A change of the resources. *)
Definition act {A} (f : host_res -> A * host_res) : hm A := fun r => Ok (f r).

(** ** System calls *)

(** The value the next call returns. *)
Definition sys_ret : hm Z := fun r =>
  Ok (r_answers r (r_next r),
      {| r_fds := r_fds r; r_mon := r_mon r; r_threads := r_threads r; r_sync := r_sync r; r_blocks := r_blocks r;
         r_bad := r_bad r; r_stale := r_stale r; r_event_mem := r_event_mem r; r_answers := r_answers r; r_next := S (r_next r) |}).

Definition max_fd (l : list Z) : Z := foldr Z.max 0 l.

(** -1, or a descriptor that is not open. *)
Definition sys_open : hm Z :=
  a ← sys_ret;
  if a <? 0 then mret (-1)
  else act (fun r =>
    let f := if bool_decide (a ∈ r_fds r) then max_fd (r_fds r) + 1 else a in
    (f, set_res (f :: r_fds r) (r_mon r) (r_threads r) (r_sync r) (r_blocks r) (r_bad r) (r_stale r) r)).

(** A closed descriptor leaves the epoll set. *)
Definition drop_fd (f : Z) (s : monitor) : monitor :=
  {| heap := heap s; events := events s; events_num := events_num s; interest := epoll_del f (interest s) |}.

Definition remove_fd (f : Z) (l : list Z) : list Z := List.filter (fun g => negb (g =? f)) l.

Definition sys_close (f : Z) : hm unit := fun r =>
  if bool_decide (f ∈ r_fds r)
  then Ok (tt, set_res (remove_fd f (r_fds r)) (drop_fd f (r_mon r)) (r_threads r) (r_sync r) (r_blocks r) (r_bad r) (r_stale r) r)
  else if f <? 0 then Ok (tt, r)
  else Ok (tt, set_res (r_fds r) (r_mon r) (r_threads r) (r_sync r) (r_blocks r) (S (r_bad r)) (r_stale r) r).

(** Whether an allocation of one block succeeds. *)
Definition sys_alloc : hm bool :=
  a ← sys_ret;
  if a <? 0 then mret false
  else act (fun r => (true, set_res (r_fds r) (r_mon r) (r_threads r) (r_sync r) (S (r_blocks r)) (r_bad r) (r_stale r) r)).

Definition sys_free (n : nat) : hm unit := fun r =>
  Ok (tt, set_res (r_fds r) (r_mon r) (r_threads r) (r_sync r) (r_blocks r - n) (r_bad r) (r_stale r) r).

(** [pthread_mutex_init], [pthread_cond_init] and [pthread_create]. *)
Definition sync_init : hm bool :=
  a ← sys_ret;
  if negb (a =? 0) then mret false
  else act (fun r => (true, set_res (r_fds r) (r_mon r) (r_threads r) (S (r_sync r)) (r_blocks r) (r_bad r) (r_stale r) r)).

Definition sync_destroy : hm unit := fun r =>
  Ok (tt, set_res (r_fds r) (r_mon r) (r_threads r) (r_sync r - 1) (r_blocks r) (r_bad r) (r_stale r) r).

Definition thread_create : hm bool :=
  a ← sys_ret;
  if negb (a =? 0) then mret false
  else act (fun r => (true, set_res (r_fds r) (r_mon r) (S (r_threads r)) (r_sync r) (r_blocks r) (r_bad r) (r_stale r) r)).

Definition thread_join : hm unit := fun r =>
  Ok (tt, set_res (r_fds r) (r_mon r) (r_threads r - 1) (r_sync r) (r_blocks r) (r_bad r) (r_stale r) r).

(** A field keeps a descriptor that was just closed. *)
Definition note_stale : hm unit := fun r =>
  Ok (tt, set_res (r_fds r) (r_mon r) (r_threads r) (r_sync r) (r_blocks r) (r_bad r) (S (r_stale r)) r).

Definition EPOLLIN : Z := 1.

Definition res_add_event (f handler param : Z) : hm (option nat) :=
  a ← sys_ret;
  ((fun r =>
    '(m, o) ← add_event (r_event_mem r (length (heap (r_mon r)))) (0 <=? a) f EPOLLIN handler param (r_mon r);
    Ok (o, set_res (r_fds r) m (r_threads r) (r_sync r) (r_blocks r) (r_bad r) (r_stale r) r)) : hm (option nat)).

(** [remove_event] and [free] of a registered event. *)
Definition res_drop_event (p : nat) : hm unit := fun r =>
  m ← remove_event p (r_mon r);
  Ok (tt, set_res (r_fds r) (free_event p m) (r_threads r) (r_sync r) (r_blocks r) (r_bad r) (r_stale r) r).

(** [fcntl] twice. *)
Definition set_nonblocking (f : Z) : hm Z :=
  flags ← sys_ret;
  if flags =? -1 then mret (-1)
  else r ← sys_ret; mret (if r =? -1 then -1 else 0).

(** ** What is held on top of a base *)

Record owned := {
  o_fds : list Z;
  o_ints : list (Z * nat);   (* registered descriptors with their events *)
  o_threads : nat;
  o_sync : nat;
  o_blocks : nat;
  o_stale : list Z;          (* fields holding a closed descriptor *)
}.

Definition nothing : owned := {| o_fds := []; o_ints := []; o_threads := 0; o_sync := 0; o_blocks := 0; o_stale := [] |}.

Definition join (a b : owned) : owned :=
  {| o_fds := o_fds a ++ o_fds b; o_ints := o_ints a ++ o_ints b; o_threads := o_threads a + o_threads b;
     o_sync := o_sync a + o_sync b; o_blocks := o_blocks a + o_blocks b; o_stale := o_stale a ++ o_stale b |}.

Definition own_fd (f : Z) : owned := {| o_fds := [f]; o_ints := []; o_threads := 0; o_sync := 0; o_blocks := 0; o_stale := [] |}.
Definition own_int (f : Z) (p : nat) : owned :=
  {| o_fds := []; o_ints := [(f, p)]; o_threads := 0; o_sync := 0; o_blocks := 0; o_stale := [] |}.
Definition own_counts (th sy bl : nat) : owned :=
  {| o_fds := []; o_ints := []; o_threads := th; o_sync := sy; o_blocks := bl; o_stale := [] |}.
Definition own_stale (f : Z) : owned := {| o_fds := []; o_ints := []; o_threads := 0; o_sync := 0; o_blocks := 0; o_stale := [f] |}.

(** The same resources, in any order. *)
Record owned_equiv (a b : owned) : Prop := {
  eq_fds : o_fds a ≡ₚ o_fds b;
  eq_ints : o_ints a ≡ₚ o_ints b;
  eq_threads : o_threads a = o_threads b;
  eq_sync : o_sync a = o_sync b;
  eq_blocks : o_blocks a = o_blocks b;
  eq_stale : o_stale a ≡ₚ o_stale b;
}.

(** The same resources, listed and counted differently. *)
Ltac same_owned := constructor; cbn; try lia; solve_Permutation.

(** [r] holds [o] on top of [r0]: every registered descriptor is open, every live
    event is one of [o] or of [r0], and each close of a descriptor that was not open
    is the close of a stale field.  While the monitor is [up] these events are the
    registered ones; once it is down none is. *)
Record holds (up : bool) (r0 : host_res) (o : owned) (r : host_res) : Prop := {
  h_fds : r_fds r ≡ₚ o_fds o ++ r_fds r0;
  h_nodup : NoDup (r_fds r);
  h_nonneg : Forall (fun f => 0 <= f) (r_fds r);
  h_mon : monitor_ok (r_mon r);
  h_event_mem : forall n, r_event_mem r n = true;
  h_interest : if up then forall x, x ∈ interest (r_mon r) <-> x ∈ o_ints o \/ x ∈ interest (r_mon r0)
               else interest (r_mon r) = [];
  h_live : forall p ev, event_at (r_mon r) p = Some ev -> (fd ev, p) ∈ o_ints o \/ (fd ev, p) ∈ interest (r_mon r0);
  h_base : forall f p, (f, p) ∈ interest (r_mon r0) -> f ∈ r_fds r0;
  h_ints : forall f p, (f, p) ∈ o_ints o -> f ∈ o_fds o;
  h_once : NoDup (o_ints o).*1;
  h_threads : r_threads r = (o_threads o + r_threads r0)%nat;
  h_sync : r_sync r = (o_sync o + r_sync r0)%nat;
  h_blocks : r_blocks r = (o_blocks o + r_blocks r0)%nat;
  h_stale : r_stale r = (r_bad r + length (o_stale o))%nat;
  h_left : forall f, f ∈ o_stale o -> f ∉ r_fds r;
}.

Lemma holds_equiv up r0 a b r : owned_equiv a b -> holds up r0 a r -> holds up r0 b r.
Proof.
  intros [E1 E2 E3 E4 E5 E6] []. constructor;
    [by rewrite <- E1|done|done|done|done|destruct up; [intros x; rewrite <- E2; apply h_interest0|done]|intros p ev; rewrite <- E2; apply h_live0|done|intros f p; rewrite <- E2, <- E1; apply h_ints0|by rewrite <- E2
    |congruence|congruence|congruence|by rewrite <- E6|intros f; rewrite <- E6; apply h_left0].
Qed.

Lemma holds_registered up r0 o r x : holds up r0 o r -> x ∈ interest (r_mon r) -> x ∈ o_ints o \/ x ∈ interest (r_mon r0).
Proof. intros [] Hx. destruct up; [by apply h_interest0|]. rewrite h_interest0 in Hx. by apply elem_of_nil in Hx. Qed.

(** ** Rules *)

Definition hwp {A} (c : hm A) (r : host_res) (Q : A -> host_res -> Prop) : Prop :=
  match c r with
  | Ok (a, r') => Q a r'
  | Err _ => False
  end.

Lemma hwp_bind {A B} (c : hm A) (k : A -> hm B) r Q : hwp c r (fun a r' => hwp (k a) r' Q) -> hwp (c ≫= k) r Q.
Proof. unfold hwp, mbind, hm_bind. by destruct (c r) as [ [a r']|]. Qed.

Lemma hwp_conseq {A} (c : hm A) r (Q Q' : A -> host_res -> Prop) : hwp c r Q -> (forall a r', Q a r' -> Q' a r') -> hwp c r Q'.
Proof. unfold hwp. destruct (c r) as [ [a r']|]; auto. Qed.

Lemma hwp_ret {A} (a : A) r (Q : A -> host_res -> Prop) : Q a r -> hwp (mret a) r Q.
Proof. done. Qed.

Section rules.
Context (up : bool) (r0 : host_res).

Lemma hwp_answer o r (Q : Z -> host_res -> Prop) :
  holds up r0 o r -> (forall a r', r_fds r' = r_fds r -> r_mon r' = r_mon r -> holds up r0 o r' -> Q a r') -> hwp sys_ret r Q.
Proof. intros [] HQ. apply HQ; [done|done|]. by constructor. Qed.

Lemma max_fd_bound l f : f ∈ l -> f <= max_fd l.
Proof. induction l as [|g l IH]; [by intros ?%elem_of_nil|]. intros [->|H]%elem_of_cons; cbn; [lia|]. specialize (IH H). unfold max_fd in IH. lia. Qed.

Lemma max_fd_nonneg l : 0 <= max_fd l.
Proof. induction l as [|g l IH]; [done|]. cbn. unfold max_fd in IH. lia. Qed.

Lemma hwp_open o r (Q : Z -> host_res -> Prop) :
  holds up r0 o r -> o_stale o = [] -> (forall r', holds up r0 o r' -> Q (-1) r') ->
  (forall f r', 0 <= f -> f ∉ r_fds r -> holds up r0 (join (own_fd f) o) r' -> Q f r') -> hwp sys_open r Q.
Proof.
  intros Hr Hst Hfail Hok. unfold sys_open. apply hwp_bind, (hwp_answer o); [done|]. intros a r1 Ef Em Hr1.
  destruct (a <? 0) eqn:Ea; [by apply hwp_ret, Hfail|]. unfold hwp, act. set (f := if bool_decide _ then _ else _).
  assert (0 <= f /\ f ∉ r_fds r1) as [Hf0 Hf].
  { unfold f. case_bool_decide as Hb; [|split; [lia|done]]. pose proof (max_fd_nonneg (r_fds r1)). split; [lia|].
    intros Hin%max_fd_bound. lia. }
  apply Hok; [done|congruence|]. destruct Hr1. constructor; cbn; try done.
  - by rewrite h_fds0.
  - apply NoDup_cons. by split.
  - by constructor.
  - intros g p Hg. right. by eapply h_ints0.
  - rewrite Hst. intros g Hg. by apply elem_of_nil in Hg.
Qed.

Lemma elem_of_remove_fd f g l : g ∈ remove_fd f l <-> g ∈ l /\ g <> f.
Proof. unfold remove_fd. rewrite !list_elem_of_In, filter_In, negb_true_iff, Z.eqb_neq. tauto. Qed.

Lemma remove_fd_absent f l : f ∉ l -> remove_fd f l = l.
Proof.
  intros H. unfold remove_fd. apply forallb_filter_id, forallb_forall. intros g Hg. apply list_elem_of_In in Hg.
  apply negb_true_iff, Z.eqb_neq. by intros ->.
Qed.

Lemma remove_fd_perm f l k : f ∉ k -> l ≡ₚ f :: k -> remove_fd f l ≡ₚ k.
Proof.
  intros Hk Hp. assert (remove_fd f l ≡ₚ remove_fd f (f :: k)) as ->.
  { clear Hk. unfold remove_fd. induction Hp as [|x l1 l2 _ IH|x y l1|l1 l2 l3 _ IH1 _ IH2]; cbn; [done| | |by etrans].
    - destruct (negb _); [by rewrite IH|done].
    - destruct (negb (x =? f)), (negb (y =? f)); done || apply Permutation_swap. }
  unfold remove_fd at 1. cbn. rewrite Z.eqb_refl. cbn. fold (remove_fd f k). by rewrite remove_fd_absent.
Qed.

Lemma NoDup_remove_fd f l : NoDup l -> NoDup (remove_fd f l).
Proof. intros H. unfold remove_fd. apply NoDup_ListNoDup, List.NoDup_filter, NoDup_ListNoDup, H. Qed.

(** Without the descriptor's own entry nothing changes in the monitor. *)
Lemma drop_fd_absent f s : (forall p, (f, p) ∉ interest s) -> drop_fd f s = s.
Proof.
  intros H. destruct s as [hp ev n int]. unfold drop_fd. cbn in *. f_equal. unfold epoll_del.
  apply forallb_filter_id, forallb_forall. intros [g p] Hg. apply list_elem_of_In in Hg. cbn.
  apply negb_true_iff, Z.eqb_neq. intros ->. by eapply H.
Qed.

Lemma hwp_close o f r (Q : unit -> host_res -> Prop) :
  holds up r0 (join (own_fd f) o) r -> f ∉ (o_ints o).*1 -> (forall r', holds up r0 o r' -> Q tt r') -> hwp (sys_close f) r Q.
Proof.
  intros Hr Hi HQ. pose proof (h_fds _ _ _ _ Hr) as Hp. cbn in Hp. unfold hwp, sys_close.
  assert (f ∈ r_fds r) as Hin by (rewrite Hp; by left). rewrite bool_decide_eq_true_2 by done. apply HQ.
  assert (NoDup (f :: o_fds o ++ r_fds r0)) as Hnd by (rewrite <- Hp; apply Hr). apply NoDup_cons in Hnd as [Hf Hnd].
  assert (forall p, (f, p) ∉ interest (r_mon r)) as Hno.
  { intros p [Hx|Hx]%(holds_registered _ _ _ _ _ Hr); cbn in Hx.
    - apply Hi. apply list_elem_of_fmap. by exists (f, p).
    - apply Hf. apply elem_of_app. right. by eapply h_base. }
  rewrite drop_fd_absent by done. destruct Hr. constructor; cbn in *; try done.
  - by apply remove_fd_perm.
  - by apply NoDup_remove_fd.
  - apply Forall_forall. intros g [Hg _]%elem_of_remove_fd. by eapply Forall_forall in h_nonneg0.
  - intros g p Hg. specialize (h_ints0 g p Hg). apply elem_of_cons in h_ints0 as [->|]; [|done]. exfalso. apply Hi.
    apply list_elem_of_fmap. by exists (f, p).
  - intros g Hg [Hg' _]%elem_of_remove_fd. by eapply h_left0.
Qed.

(** Closing a field that holds a closed descriptor. *)
Lemma hwp_close_stale o f r (Q : unit -> host_res -> Prop) :
  0 <= f -> holds up r0 (join (own_stale f) o) r -> (forall r', holds up r0 o r' -> Q tt r') -> hwp (sys_close f) r Q.
Proof.
  intros Hf Hr HQ. unfold hwp, sys_close. rewrite bool_decide_eq_false_2 by (apply (h_left _ _ _ _ Hr); by left).
  replace (f <? 0) with false by lia. apply HQ.
  destruct Hr. constructor; cbn in *; try done; [lia|]. intros g Hg. apply h_left0. by right.
Qed.

(** A descriptor closed and kept in its field. *)
Lemma hwp_close_leave o f r (Q : unit -> host_res -> Prop) :
  holds up r0 (join (own_fd f) o) r -> f ∉ (o_ints o).*1 -> (forall r', holds up r0 (join (own_stale f) o) r' -> Q tt r') ->
  hwp (_ ← sys_close f; note_stale) r Q.
Proof.
  intros Hr Hi HQ. pose proof (h_fds _ _ _ _ Hr) as Hp. cbn in Hp. apply hwp_bind.
  assert (hwp (sys_close f) r (fun _ r' => holds up r0 o r' /\ f ∉ r_fds r')) as H.
  { pose proof (hwp_close o f r (fun _ r' => holds up r0 o r') Hr Hi (fun _ H => H)) as H. revert H. unfold hwp, sys_close.
    rewrite bool_decide_eq_true_2 by (rewrite Hp; by left). intros H. split; [exact H|]. cbn. by intros [_ ?]%elem_of_remove_fd. }
  eapply hwp_conseq; [exact H|]. intros [] r1 [H1 Hf]. apply HQ. destruct H1. constructor; cbn in *; try done; [lia|].
  intros g [->|Hg]%elem_of_cons; auto.
Qed.

Lemma hwp_alloc o r (Q : bool -> host_res -> Prop) :
  holds up r0 o r -> (forall r', holds up r0 o r' -> Q false r') -> (forall r', holds up r0 (join (own_counts 0 0 1) o) r' -> Q true r') ->
  hwp sys_alloc r Q.
Proof.
  intros Hr HF HT. apply hwp_bind, (hwp_answer o); [done|]. intros a r1 _ _ Hr1. destruct (a <? 0); [by apply hwp_ret, HF|].
  apply HT. destruct Hr1. constructor; cbn; try done. lia.
Qed.

Lemma hwp_free n o r (Q : unit -> host_res -> Prop) :
  holds up r0 (join (own_counts 0 0 n) o) r -> (forall r', holds up r0 o r' -> Q tt r') -> hwp (sys_free n) r Q.
Proof. intros [] HQ. apply HQ. constructor; cbn in *; try done. lia. Qed.

Lemma hwp_sync_init o r (Q : bool -> host_res -> Prop) :
  holds up r0 o r -> (forall r', holds up r0 o r' -> Q false r') -> (forall r', holds up r0 (join (own_counts 0 1 0) o) r' -> Q true r') ->
  hwp sync_init r Q.
Proof.
  intros Hr HF HT. apply hwp_bind, (hwp_answer o); [done|]. intros a r1 _ _ Hr1. destruct (negb _); [by apply hwp_ret, HF|].
  apply HT. destruct Hr1. constructor; cbn; try done. lia.
Qed.

Lemma hwp_sync_destroy o r (Q : unit -> host_res -> Prop) :
  holds up r0 (join (own_counts 0 1 0) o) r -> (forall r', holds up r0 o r' -> Q tt r') -> hwp sync_destroy r Q.
Proof. intros [] HQ. apply HQ. constructor; cbn in *; try done. lia. Qed.

Lemma hwp_thread_create o r (Q : bool -> host_res -> Prop) :
  holds up r0 o r -> (forall r', holds up r0 o r' -> Q false r') -> (forall r', holds up r0 (join (own_counts 1 0 0) o) r' -> Q true r') ->
  hwp thread_create r Q.
Proof.
  intros Hr HF HT. apply hwp_bind, (hwp_answer o); [done|]. intros a r1 _ _ Hr1. destruct (negb _); [by apply hwp_ret, HF|].
  apply HT. destruct Hr1. constructor; cbn; try done. lia.
Qed.

Lemma hwp_thread_join o r (Q : unit -> host_res -> Prop) :
  holds up r0 (join (own_counts 1 0 0) o) r -> (forall r', holds up r0 o r' -> Q tt r') -> hwp thread_join r Q.
Proof. intros [] HQ. apply HQ. constructor; cbn in *; try done. lia. Qed.

Lemma hwp_set_nonblocking o f r (Q : Z -> host_res -> Prop) :
  holds up r0 o r -> (forall a r', holds up r0 o r' -> Q a r') -> hwp (set_nonblocking f) r Q.
Proof.
  intros Hr HQ. apply hwp_bind, (hwp_answer o); [done|]. intros a r1 _ _ Hr1. destruct (_ =? _); [by apply hwp_ret, HQ|].
  apply hwp_bind, (hwp_answer o); [done|]. intros b r2 _ _ Hr2. by apply hwp_ret, HQ.
Qed.

(** ** Events *)

Lemma event_at_app_inv s l p ev : mjoin ((heap s ++ l) !! p) = Some ev -> event_at s p = Some ev \/ Some ev ∈ l.
Proof.
  unfold event_at. rewrite lookup_app. destruct (heap s !! p) as [o|] eqn:E; [by left|].
  intros H. right. destruct (l !! _) as [o|] eqn:El; [|done]. cbn in H. subst o. by eapply list_elem_of_lookup_2.
Qed.

Lemma hwp_add_event o f h q r (Q : option nat -> host_res -> Prop) :
  up = true -> holds up r0 o r -> f ∈ o_fds o -> f ∉ (o_ints o).*1 -> (forall r', holds up r0 o r' -> Q None r') ->
  (forall p r', holds up r0 (join (own_int f p) o) r' -> Q (Some p) r') -> hwp (res_add_event f h q) r Q.
Proof.
  intros Hup Hr Hf Hi HN HS. apply hwp_bind, (hwp_answer o); [done|]. intros a r1 Ef Em Hr1. clear r Hr Ef Em. unfold hwp.
  destruct (add_event _ (0 <=? a) f EPOLLIN h q (r_mon r1)) as [ [m o']|] eqn:Ea.
  2: { unfold add_event in Ea. rewrite (h_event_mem _ _ _ _ Hr1) in Ea. cbn [negb] in Ea. by repeat case_match. }
  pose proof (add_event_ok _ _ _ _ _ _ _ _ _ (h_mon _ _ _ _ Hr1) Ea) as Hmon. revert Ea Hmon. unfold add_event.
  rewrite (h_event_mem _ _ _ _ Hr1). cbn [negb mbind result_bind].
  destruct (_ <=? _)%nat; [intros [= <- <-] _; apply HN; destruct Hr1; by constructor|].
  destruct (_ || _); [intros [= <- <-] _; apply HN; destruct Hr1; by constructor|]. destruct (_ || _); intros [= <- <-] Hmon.
  - apply HN. destruct Hr1. constructor; cbn; try done. intros p ev H. apply event_at_app_inv in H as [H|H]; [by apply h_live0|].
    by apply list_elem_of_singleton in H.
  - apply HS. rewrite Hup in *. destruct Hr1. constructor; cbn; try done.
    + intros x. rewrite elem_of_app, h_interest0, list_elem_of_singleton, elem_of_cons. tauto.
    + intros p ev H. unfold event_at in H. cbn in H. apply event_at_app_inv in H as H'. destruct H' as [H'|H'].
      * apply h_live0 in H' as [?|?]; [left; by right|by right].
      * apply list_elem_of_singleton in H' as [= ->]. left. cbn. apply elem_of_cons. left. f_equal.
        destruct (decide (p < length (heap (r_mon r1)))%nat) as [Hlt|Hge].
        -- exfalso. rewrite lookup_app_l in H by done. apply h_live0 in H as H2. cbn in H2. destruct H2 as [H2|H2].
           ++ apply Hi. apply list_elem_of_fmap. by exists (f, p).
           ++ apply h_base0 in H2. assert (NoDup (o_fds o ++ r_fds r0)) as Hnd by (by rewrite <- h_fds0).
              apply NoDup_app in Hnd as (_ & Hnd & _). by eapply Hnd.
        -- rewrite lookup_app_r in H by lia. destruct (p - length (heap (r_mon r1)))%nat eqn:Ep; [lia|done].
    + intros g p [[= -> ->]|H]%elem_of_cons; [done|]. by eapply h_ints0.
    + apply NoDup_cons. by split.
Qed.

(** What is left once an event is removed and freed, the monitor up or down. *)
Lemma hwp_drop_event o f p r (Q : unit -> host_res -> Prop) :
  holds up r0 (join (own_int f p) o) r -> (forall r', holds up r0 o r' -> Q tt r') -> hwp (res_drop_event p) r Q.
Proof.
  intros Hr HQ. pose proof (h_mon _ _ _ _ Hr) as Hok. unfold hwp, res_drop_event.
  destruct (remove_event p (r_mon r)) as [m1|] eqn:Erm.
  2: { unfold remove_event in Erm. destruct (find_slot _ _ _) as [i|] eqn:Ei; [|done]. apply find_slot_Some in Ei as (Ei & _).
       destruct (mo_slot _ Hok _ _ Ei) as (ev & Hev & _). unfold event_at in Hev. by destruct (heap (r_mon r) !! p) as [ [|]|]. }
  cbn [mbind result_bind]. apply HQ. pose proof (close_event_ok p _ _ Hok Erm) as Hok'.
  destruct (remove_event_spec p _ _ Hok Erm) as (Hh & _ & _ & Hint & _). pose proof (h_once _ _ _ _ Hr) as Honce. cbn in Honce.
  apply NoDup_cons in Honce as [Hf Honce]. destruct Hr. constructor; cbn in *; try done.
  - destruct up; [|apply elem_of_nil_inv; intros [g q] [Hx _]%Hint; rewrite h_interest0 in Hx; by apply elem_of_nil in Hx].
    intros [g q]. rewrite Hint, h_interest0, elem_of_cons. split.
    + intros [ [ [ [= -> ->]|Hg]|Hg] Hq]; [done|by left|by right].
    + intros Hx. split; [destruct Hx as [Hx|Hx]; [left; by right|by right]|]. intros ->.
      assert ((g, p) ∈ interest (r_mon r)) as Hgp by (apply h_interest0; destruct Hx as [Hx|Hx]; [left; by right|by right]).
      assert ((f, p) ∈ interest (r_mon r)) as Hfp by (apply h_interest0; left; by left).
      destruct (mo_interest _ Hok g p Hgp) as (_ & ev' & Hev' & Hfd' & _). destruct (mo_interest _ Hok f p Hfp) as (_ & ev & Hev & Hfd & _).
      assert (g = f) as -> by congruence. destruct Hx as [Hx|Hx].
      * apply Hf. apply list_elem_of_fmap. by exists (f, p).
      * apply h_base0 in Hx. assert (NoDup (o_fds o ++ r_fds r0)) as Hnd by (by rewrite <- h_fds0). apply NoDup_app in Hnd as (_ & Hnd & _).
        eapply Hnd; [|exact Hx]. eapply h_ints0. by left.
  - intros q ev' H. unfold event_at in H. cbn in H. rewrite Hh in H. destruct (decide (q = p)) as [->|Hne].
    + destruct (decide (p < length (heap (r_mon r)))%nat); [by rewrite list_lookup_insert_eq in H|].
      rewrite list_insert_ge in H by lia. rewrite lookup_ge_None_2 in H by lia. done.
    + rewrite list_lookup_insert_ne in H by done. apply h_live0 in H as [ [ [= _ ->]|H]%elem_of_cons|H]; [done|by left|by right].
  - intros g q Hg. eapply h_ints0. by right.
Qed.

(** A device may close its descriptors before it removes its event. *)
Lemma close_drop_swap f p r : (_ ← sys_close f; res_drop_event p) r = (_ ← res_drop_event p; sys_close f) r.
Proof.
  unfold mbind, hm_bind, sys_close, res_drop_event. destruct (bool_decide _) eqn:E; cbn.
  - unfold remove_event, drop_fd. cbn. destruct (find_slot _ _ _) as [i|]; cbn; [|by rewrite E].
    destruct (heap (r_mon r) !! p) as [ [ev|]|]; cbn; try done. rewrite E. unfold set_res, drop_fd, free_event. cbn. do 4 f_equal.
    unfold epoll_del. clear. generalize (fd ev). intros g. induction (interest (r_mon r)) as [|x l IH]; [done|]. cbn.
    destruct (negb (x.1 =? f)) eqn:E1, (negb (x.1 =? g)) eqn:E2; cbn; rewrite ?E1, ?E2; cbn; congruence.
  - destruct (f <? 0) eqn:Ef; cbn; destruct (remove_event p (r_mon r)) as [m|]; cbn; try done; rewrite E; cbn; by rewrite ?Ef.
Qed.

End rules.
