(* ===== verification/IvcDemo.v ===== *)
(** * Two zones that talk

    The demonstration program [tools/ivc_demo.c], run as sender in one zone and as
    receiver in another, over the driver of [IvcDriver]: the windows each maps, the
    message each writes before it raises the other's interrupt, and the [poll] each
    waits in.  The hypervisor is the memory the two zones share and the interrupts on
    their way.  Also [tools/rpmsg_demo.c], on the descriptors of [HostRes].  Claim: the
    windows of the two programs match, and a program that [poll] wakes reads the
    complete message of the other, in every interleaving. *)

From Stdlib Require Import String Ascii.
From S2P Require Import Prelude ZoneConfig HvisorDriver IvcDriver EventMonitor HostRes.

(** ** Windows *)

(** [offset] of the first window, and after [offset += tb->out_sec_size]. *)
Definition first_window : Z := 0x1000.
Definition second_window (out_sec_size : Z) : Z := first_window + out_sec_size.

(** Where the windows [out] and [in] of a program are mapped. *)
Definition demo_windows (is_send : bool) (out_sec_size : Z) : Z * Z :=
  if is_send then (first_window, second_window out_sec_size) else (second_window out_sec_size, first_window).

(** The physical page [ivc_map] puts behind [offset], and where it lies in the memory
    shared by the zones, which starts at [ivc_shmem_ipas]. *)
Definition window_page (info : ivc_info) (d : ivc_dev) (offset len : Z) : result Z :=
  ivc_map (fun pfn _ => pfn) info d (offset / PAGE_SIZE) 0 len.

Definition shared_offset (info : ivc_info) (d : ivc_dev) (offset len : Z) : result Z :=
  pfn ← window_page info d offset len;
  sh ← of_index (ivc_shmem_ipas info !! Z.to_nat (iv_idx d));
  Ok (pfn * PAGE_SIZE - sh).

(** ** Messages *)

Definition msg_bytes (s : string) : list Z := (fun c => Z.of_nat (nat_of_ascii c)) <$> list_ascii_of_string s.

Definition send_msg_text : list Z := msg_bytes "hello zone1! I'm zone0.".
Definition reply_msg_text : list Z := msg_bytes "I'm zone1. hello zone0! ".

(** The shared memory: a byte at every offset.  [strcpy] puts the bytes and a NUL. *)
Definition shmem : Type := Z -> Z.

Definition put_string (m : shmem) (at_ : Z) (s : list Z) : shmem := fun x =>
  if (at_ <=? x) && (x <=? at_ + Z.of_nat (length s)) then default 0 ((s ++ [0]) !! Z.to_nat (x - at_)) else m x.

(** [printf("%s")]: the bytes before the first NUL. *)
Fixpoint get_string (fuel : nat) (m : shmem) (at_ : Z) : list Z :=
  match fuel with
  | O => []
  | S fuel' => if m at_ =? 0 then [] else m at_ :: get_string fuel' m (at_ + 1)
  end.

(** ** The two programs *)

Inductive demo_pc :=
  | DemoWrite   (* at strcpy *)
  | DemoIpi     (* at tb->ipi_invoke = *)
  | DemoPoll
  | DemoDone.

Record demo_zone := {
  dz_pc : demo_pc;
  dz_dev : ivc_dev;             (* of the zone's driver *)
  dz_printed : option (list Z); (* what was received *)
}.

Record demo_state := {
  ds_mem : shmem;
  ds_ipis : list nat;           (* peers whose interrupt is on its way *)
  ds_zone : nat -> demo_zone;   (* 0 sends, 1 receives *)
}.

Definition set_zone (s : demo_state) (k : nat) (z : demo_zone) : demo_state :=
  {| ds_mem := ds_mem s; ds_ipis := ds_ipis s; ds_zone := fun j => if (j =? k)%nat then z else ds_zone s j |}.

Definition at_pc (z : demo_zone) (pc : demo_pc) : demo_zone := {| dz_pc := pc; dz_dev := dz_dev z; dz_printed := dz_printed z |}.

(** Sender: write, interrupt, poll.  Receiver: poll, write, interrupt. *)
Definition after_write : demo_pc := DemoIpi.
Definition after_ipi (k : nat) : demo_pc := if (k =? 0)%nat then DemoPoll else DemoDone.
Definition after_poll (k : nat) : demo_pc := if (k =? 0)%nat then DemoDone else DemoWrite.

Definition out_of (sec : Z) (k : nat) : Z := if (k =? 0)%nat then 0 else sec.
Definition in_of (sec : Z) (k : nat) : Z := if (k =? 0)%nat then sec else 0.
Definition text_of (k : nat) : list Z := if (k =? 0)%nat then send_msg_text else reply_msg_text.
Definition peer (k : nat) : nat := if (k =? 0)%nat then 1%nat else 0%nat.

(** [sec] is [tb->out_sec_size], the size of a section. *)
Inductive demo_step (sec : Z) (s : demo_state) : demo_state -> Prop :=
  | demo_write k : (k < 2)%nat -> dz_pc (ds_zone s k) = DemoWrite ->
      demo_step sec s (set_zone {| ds_mem := put_string (ds_mem s) (out_of sec k) (text_of k); ds_ipis := ds_ipis s; ds_zone := ds_zone s |} k (at_pc (ds_zone s k) after_write))
  | demo_ipi k : (k < 2)%nat -> dz_pc (ds_zone s k) = DemoIpi ->
      demo_step sec s (set_zone {| ds_mem := ds_mem s; ds_ipis := peer k :: ds_ipis s; ds_zone := ds_zone s |} k (at_pc (ds_zone s k) (after_ipi k)))
  | demo_deliver l k l' d' : ds_ipis s = l ++ k :: l' -> ivc_irq_handler [dz_dev (ds_zone s k)] (Some 0%nat) = (IRQ_HANDLED, [d']) ->
      demo_step sec s (set_zone {| ds_mem := ds_mem s; ds_ipis := l ++ l'; ds_zone := ds_zone s |} k
                         {| dz_pc := dz_pc (ds_zone s k); dz_dev := d'; dz_printed := dz_printed (ds_zone s k) |})
  | demo_woken k d' : (k < 2)%nat -> dz_pc (ds_zone s k) = DemoPoll -> ivc_poll (dz_dev (ds_zone s k)) = (true, d') ->
      demo_step sec s (set_zone s k {| dz_pc := after_poll k; dz_dev := d'; dz_printed := Some (get_string (Z.to_nat sec) (ds_mem s) (in_of sec k)) |})
  | demo_poll_fails k : (k < 2)%nat -> dz_pc (ds_zone s k) = DemoPoll ->
      demo_step sec s (set_zone s k (at_pc (ds_zone s k) (after_poll k))).

Definition demo_start (m : shmem) (d0 d1 : ivc_dev) : demo_state :=
  {| ds_mem := m; ds_ipis := [];
     ds_zone := fun k => if (k =? 0)%nat then {| dz_pc := DemoWrite; dz_dev := d0; dz_printed := None |}
                         else {| dz_pc := DemoPoll; dz_dev := d1; dz_printed := None |} |}.

(** [close(fd)], then three [munmap]: address range lengths of the two sections as
    they were mapped and as they are unmapped. *)
Definition demo_unmaps (out_sec_size rw_sec_size : Z) : list (Z * Z) :=
  [(out_sec_size, out_sec_size); (out_sec_size, rw_sec_size); (0x1000, 0x1000)].

(** ** rpmsg_demo *)

(** [main] on the process's descriptors; the answers of [ioctl], [write] and [read]
    come from the environment.  The result is the exit status. *)
Definition rpmsg_create_eptdev : hm Z :=
  fd ← sys_open;
  if fd <? 0 then mret fd else sys_ret.

Definition rpmsg_open_eptdev : hm (Z * Z) :=
  efd ← sys_open;
  if efd <? 0 then e ← sys_ret; mret (- e, 0) else mret (0, efd).

(** [write] and [read], with their outcome as the return value of the helper. *)
Definition send_msg : hm Z := ret ← sys_ret; mret (if ret <? 0 then -1 else ret).
Definition recv_msg : hm Z := ret ← sys_ret; mret (if ret <? 0 then -1 else 0).

Definition rpmsg_destroy_eptdev (fd : Z) : hm Z :=
  ret ← sys_ret;
  if negb (ret =? 0) then mret ret else _ ← sys_close fd; mret 0.

Definition rpmsg_main : hm Z :=
  ret ← rpmsg_create_eptdev;
  if negb (ret =? 0) then mret ret
  else
    '(_, g_efd) ← rpmsg_open_eptdev;
    sent ← send_msg;
    if sent <? 0 then rpmsg_destroy_eptdev g_efd
    else
      received ← recv_msg;
      if received <? 0 then rpmsg_destroy_eptdev g_efd else mret 0.

(** ** Lemmas *)

(** Section [k] of the shared memory holds the message of program [k]. *)
Definition holds_text (sec : Z) (m : shmem) (k : nat) : Prop :=
  forall i, (i <= length (text_of k))%nat -> m (out_of sec k + Z.of_nat i) = default 0 ((text_of k ++ [0]) !! i).

Lemma put_string_at m a s i : (i <= length s)%nat -> put_string m a s (a + Z.of_nat i) = default 0 ((s ++ [0]) !! i).
Proof.
  intros Hi. unfold put_string. replace ((a <=? a + Z.of_nat i) && (a + Z.of_nat i <=? a + Z.of_nat (length s))) with true by lia.
  replace (Z.to_nat (a + Z.of_nat i - a)) with i by lia. done.
Qed.

Lemma put_string_other m a s x : x < a \/ a + Z.of_nat (length s) < x -> put_string m a s x = m x.
Proof. intros H. unfold put_string. replace ((a <=? x) && (x <=? a + Z.of_nat (length s))) with false by lia. done. Qed.

Lemma get_string_text s : forall fuel (m : shmem) a, Forall (fun b => b <> 0) s -> (length s < fuel)%nat ->
  (forall i, (i <= length s)%nat -> m (a + Z.of_nat i) = default 0 ((s ++ [0]) !! i)) -> get_string fuel m a = s.
Proof.
  induction s as [|b s IH]; intros fuel m a Hn Hf Hm; (destruct fuel as [|fuel]; [cbn in Hf; lia|]); cbn [get_string].
  - specialize (Hm 0%nat ltac:(cbn; lia)). rewrite Z.add_0_r in Hm. cbn in Hm. by rewrite Hm.
  - apply Forall_cons in Hn as [Hb Hn]. pose proof (Hm 0%nat ltac:(cbn; lia)) as H0. rewrite Z.add_0_r in H0. cbn in H0. rewrite H0.
    apply Z.eqb_neq in Hb as ->. f_equal. apply IH; [done|cbn in Hf; lia|]. intros i Hi. specialize (Hm (S i) ltac:(cbn; lia)).
    transitivity (m (a + Z.of_nat (S i))); [f_equal; lia|exact Hm].
Qed.

Lemma text_nonzero k : Forall (fun b => b <> 0) (text_of k).
Proof. unfold text_of. destruct (k =? 0)%nat; vm_compute; repeat constructor; discriminate. Qed.

Lemma text_short k : Z.of_nat (length (text_of k)) < 32.
Proof. unfold text_of. destruct (k =? 0)%nat; vm_compute; reflexivity. Qed.

Lemma write_holds sec m k : 32 <= sec -> (k < 2)%nat -> holds_text sec (put_string m (out_of sec k) (text_of k)) k /\
  (holds_text sec m (peer k) -> holds_text sec (put_string m (out_of sec k) (text_of k)) (peer k)).
Proof.
  intros Hs Hk. split; [intros i Hi; by apply put_string_at|]. intros Ho i Hi. rewrite <- (Ho i Hi). apply put_string_other.
  pose proof (text_short k). pose proof (text_short (peer k)). unfold out_of, peer in *. destruct k as [|[|k] ]; cbn in *; lia.
Qed.

(** Whether a program has written its message, and whether it has raised the other's
    interrupt. *)
Definition has_written (k : nat) (pc : demo_pc) : Prop :=
  match pc with DemoWrite => False | DemoIpi | DemoDone => True | DemoPoll => k = 0%nat end.
Definition has_signalled (k : nat) (pc : demo_pc) : Prop :=
  match pc with DemoWrite | DemoIpi => False | DemoDone => True | DemoPoll => k = 0%nat end.

Record demo_inv (sec : Z) (s : demo_state) : Prop := {
  di_written k : (k < 2)%nat -> has_written k (dz_pc (ds_zone s k)) -> holds_text sec (ds_mem s) k;
  di_ipis k : k ∈ ds_ipis s -> (k < 2)%nat /\ has_signalled (peer k) (dz_pc (ds_zone s (peer k)));
  di_irqs k : (k < 2)%nat -> received_irq (dz_dev (ds_zone s k)) <> 0 -> has_signalled (peer k) (dz_pc (ds_zone s (peer k)));
  di_printed k t : (k < 2)%nat -> dz_printed (ds_zone s k) = Some t -> t = text_of (peer k);
}.

Lemma signalled_written k pc : has_signalled k pc -> has_written k pc.
Proof. by destruct pc. Qed.

Lemma peer_lt k : (peer k < 2)%nat.
Proof. unfold peer. destruct (k =? 0)%nat; lia. Qed.

Lemma peer_peer k : (k < 2)%nat -> peer (peer k) = k.
Proof. intros H. unfold peer. destruct k as [|[|k] ]; cbn; lia. Qed.

Lemma peer_ne k : (k < 2)%nat -> peer k <> k.
Proof. intros H. unfold peer. destruct k as [|[|k] ]; cbn; lia. Qed.

(** What a step leaves as it was: memory, interrupts on their way, other programs. *)
Lemma zone_at s k z : ds_zone (set_zone s k z) k = z.
Proof. cbn. by rewrite Nat.eqb_refl. Qed.

Lemma zone_other s k z j : j <> k -> ds_zone (set_zone s k z) j = ds_zone s j.
Proof. intros H. cbn. by apply Nat.eqb_neq in H as ->. Qed.

(** A step of program [k] that keeps its device and what it printed. *)
Lemma inv_moves sec s k pc m ipis : (k < 2)%nat -> demo_inv sec s -> (has_signalled k (dz_pc (ds_zone s k)) -> has_signalled k pc) ->
  (forall j, (j < 2)%nat -> has_written j (if (j =? k)%nat then pc else dz_pc (ds_zone s j)) -> holds_text sec m j) ->
  (forall j, j ∈ ipis -> j ∈ ds_ipis s \/ j = peer k /\ has_signalled k pc) ->
  demo_inv sec (set_zone {| ds_mem := m; ds_ipis := ipis; ds_zone := ds_zone s |} k (at_pc (ds_zone s k) pc)).
Proof.
  intros Hk [I1 I2 I3 I4] Hsig Hw Hi.
  assert (forall j, has_signalled j (dz_pc (ds_zone s j)) -> has_signalled j (dz_pc (if (j =? k)%nat then at_pc (ds_zone s k) pc else ds_zone s j))) as Hkeep.
  { intros j Hj. destruct (Nat.eqb_spec j k) as [->|]; [by apply Hsig|done]. }
  split; cbn [set_zone ds_zone ds_mem ds_ipis].
  - intros j Hj Hp. apply Hw; [done|]. by destruct (j =? k)%nat.
  - intros j Hj. destruct (Hi j Hj) as [Hold|[-> Hs] ]; [destruct (I2 j Hold); split; [done|by apply Hkeep]|]. split; [apply peer_lt|]. rewrite peer_peer by done. by rewrite Nat.eqb_refl.
  - intros j Hj Hr. apply Hkeep, I3; [done|]. by destruct (Nat.eqb_spec j k) as [->|].
  - intros j t Hj Ht. apply (I4 j t Hj). by destruct (Nat.eqb_spec j k) as [->|].
Qed.

(** A change of program [k]'s device and of what it printed. *)
Lemma inv_device sec s k pc d t ipis : (k < 2)%nat -> demo_inv sec s -> (has_signalled k (dz_pc (ds_zone s k)) -> has_signalled k pc) ->
  (has_written k pc -> has_written k (dz_pc (ds_zone s k))) -> (forall j, j ∈ ipis -> j ∈ ds_ipis s) ->
  (received_irq d <> 0 -> has_signalled (peer k) (dz_pc (ds_zone s (peer k)))) -> (forall x, t = Some x -> x = text_of (peer k)) ->
  demo_inv sec (set_zone {| ds_mem := ds_mem s; ds_ipis := ipis; ds_zone := ds_zone s |} k {| dz_pc := pc; dz_dev := d; dz_printed := t |}).
Proof.
  intros Hk [I1 I2 I3 I4] Hsig Hw Hi Hd Ht.
  assert (forall j, has_signalled j (dz_pc (ds_zone s j)) -> has_signalled j (dz_pc (if (j =? k)%nat then {| dz_pc := pc; dz_dev := d; dz_printed := t |} else ds_zone s j))) as Hkeep.
  { intros j Hj. destruct (Nat.eqb_spec j k) as [->|]; [by apply Hsig|done]. }
  split; cbn [set_zone ds_zone ds_mem ds_ipis].
  - intros j Hj Hp. apply I1; [done|]. destruct (Nat.eqb_spec j k) as [->|]; [by apply Hw|done].
  - intros j Hj. destruct (I2 j (Hi j Hj)). split; [done|by apply Hkeep].
  - intros j Hj Hr. apply Hkeep. destruct (Nat.eqb_spec j k) as [->|]; [by apply Hd|by apply I3].
  - intros j x Hj Hx. destruct (Nat.eqb_spec j k) as [->|]; [by apply Ht|by apply (I4 j)].
Qed.

Lemma demo_step_inv sec s s' : 32 <= sec -> demo_inv sec s -> demo_step sec s s' -> demo_inv sec s'.
Proof.
  intros Hs HI Hst. pose proof HI as [I1 I2 I3 I4]. destruct Hst as [k Hk Hpc|k Hk Hpc|l k l' d' Hl Hd|k d' Hk Hpc Hp|k Hk Hpc].
  - apply inv_moves; [done|done|by rewrite Hpc| |by left]. destruct (write_holds sec (ds_mem s) k Hs Hk) as [H1 H2]. intros j Hj Hw.
    destruct (Nat.eqb_spec j k) as [->|Hne]; [done|]. replace j with (peer k) in * by (unfold peer; destruct k as [|[|k] ], j as [|[|j] ]; cbn; lia). apply H2, I1; [apply peer_lt|done].
  - apply inv_moves; [done|done|by rewrite Hpc| |].
    + intros j Hj Hw. apply I1; [done|]. destruct (Nat.eqb_spec j k) as [->|]; [by rewrite Hpc|done].
    + intros j Hj. apply elem_of_cons in Hj as [->|Hj]; [right|by left]. split; [done|]. unfold after_ipi. by destruct k as [|[|k] ].
  - assert (k ∈ ds_ipis s) as Hin by (rewrite Hl; apply elem_of_app; right; by left). destruct (I2 k Hin) as [Hk Hsig].
    apply (inv_device sec s k (dz_pc (ds_zone s k)) d' (dz_printed (ds_zone s k))); [done|done|done|done| |done|intros x Hx; by apply (I4 k)]. intros j Hj. rewrite Hl. apply elem_of_app in Hj as [Hj|Hj]; apply elem_of_app; [by left|right; by right].
  - assert (received_irq (dz_dev (ds_zone s k)) <> 0 /\ received_irq d' = 0) as [Hr Hr'].
    { unfold ivc_poll in Hp. destruct (Z.eqb_spec (received_irq (dz_dev (ds_zone s k))) 0); [done|]. by injection Hp as <-. }
    specialize (I3 k Hk Hr). apply signalled_written in I3 as Hwr. apply I1 in Hwr; [|apply peer_lt].
    apply (inv_device sec s k (after_poll k) d' (Some _) (ds_ipis s)); [done|done|unfold after_poll; rewrite Hpc; by destruct k as [|[|k] ]..|done|done|].
    intros x [= <-]. apply get_string_text; [apply text_nonzero|pose proof (text_short (peer k)); lia|]. intros i Hi. rewrite <- (Hwr i Hi).
    f_equal. unfold in_of, out_of, peer. by destruct k as [|[|k] ].
  - apply (inv_moves sec s k (after_poll k) (ds_mem s) (ds_ipis s)); [done|done|rewrite Hpc; unfold after_poll; by destruct k as [|[|k] ]| |by left].
    intros j Hj Hw. apply I1; [done|]. destruct (Nat.eqb_spec j k) as [->|]; [|done]. rewrite Hpc. unfold after_poll in Hw. by destruct k as [|[|k] ].
Qed.

(** ** Theorems *)

(** The windows of the two programs lie crosswise: with sections of whole pages, what
    the driver maps as the sender's [out] is the receiver's [in], at the start of the
    shared memory, and what it maps as the sender's [in] is the receiver's [out], one
    section further. *)
Theorem demo_windows_cross info d sh sec :
  ivc_shmem_ipas info !! Z.to_nat (iv_idx d) = Some sh -> 0 <= sh -> 0 < sec -> sh + sec < 2 ^ 63 -> sh mod PAGE_SIZE = 0 -> sec mod PAGE_SIZE = 0 ->
  let '(out0, in0) := demo_windows true sec in let '(out1, in1) := demo_windows false sec in
  shared_offset info d out0 sec = Ok 0 /\ shared_offset info d in1 sec = Ok 0 /\
  shared_offset info d in0 sec = Ok sec /\ shared_offset info d out1 sec = Ok sec.
Proof.
  intros Hsh H0 Hsec Hlim Hal1 Hal2.
  assert (forall off, 0 <= off <= sec -> off mod PAGE_SIZE = 0 -> shared_offset info d (first_window + off) sec = Ok off) as Hone.
  { intros off Hoff Hal. unfold shared_offset, window_page, ivc_map, first_window. change PAGE_SIZE with 4096 in *.
    assert ((0x1000 + off) / 4096 * 4096 = 0x1000 + off) as Hd.
    { rewrite (Z.div_mod (0x1000 + off) 4096) at 2 by lia. replace ((0x1000 + off) mod 4096) with 0; [lia|].
      rewrite Z.add_mod by lia. rewrite Hal. done. }
    rewrite Hd. rewrite (u64_small (0x1000 + off)) by lia. replace (0x1000 + off =? 0) with false by lia. rewrite Hsh. cbn [of_index mbind result_bind].
    replace (0x1000 + off - 0x1000) with off by lia. rewrite u64_small by lia.
    assert ((sh + off) / 4096 * 4096 = sh + off) as Hd2.
    { rewrite (Z.div_mod (sh + off) 4096) at 2 by lia. replace ((sh + off) mod 4096) with 0; [lia|]. rewrite Z.add_mod by lia. rewrite Hal, Hal1. done. }
    rewrite Hd2. f_equal. lia. }
  assert (shared_offset info d first_window sec = Ok 0) as H1 by (rewrite <- (Z.add_0_r first_window); apply Hone; [lia|done]).
  unfold demo_windows, second_window. rewrite Hone, H1 by (lia || done). done.
Qed.

(** In every interleaving of the two programs, of the hypervisor's delivery of
    interrupts and of failing [poll] calls, a program that [poll] wakes prints the
    complete message of the other. *)
Theorem demo_messages_whole sec m d0 d1 s k t :
  32 <= sec -> received_irq d0 = 0 -> received_irq d1 = 0 -> rtc (demo_step sec) (demo_start m d0 d1) s -> (k < 2)%nat ->
  dz_printed (ds_zone s k) = Some t -> t = text_of (peer k).
Proof.
  intros Hs H0 H1 Hrun Hk. assert (demo_inv sec (demo_start m d0 d1)) as HI.
  { split; cbn; [intros j Hj; by destruct (Nat.eqb_spec j 0) as [->|]|intros j Hj; by apply elem_of_nil in Hj| |intros j x _ Hx; by destruct (j =? 0)%nat].
    intros j Hj Hr. by destruct (j =? 0)%nat. }
  assert (demo_inv sec s) as [_ _ _ I4]; [|by apply I4]. clear H0 H1. induction Hrun as [|x y z Hst _ IH]; [done|]. by apply IH; eapply demo_step_inv.
Qed.

(** ** Witnesses and examples *)

Definition quiet_dev : ivc_dev := {| iv_idx := 0; iv_id := 0; iv_irq := 40; received_irq := 0 |}.

Lemma demo_windows_cross_witness : shared_offset demo_info quiet_dev 0x1000 0x1000 = Ok 0 /\ shared_offset demo_info quiet_dev 0x2000 0x1000 = Ok 0x1000.
Proof.
  pose proof (demo_windows_cross demo_info quiet_dev 0x60001000 0x1000) as H. cbv zeta beta iota in H. cbn [demo_windows] in H.
  destruct H as (H1 & _ & H2 & _); [reflexivity|lia|lia|lia|reflexivity|reflexivity|]. split; [exact H1|exact H2].
Defined.

(** The run to the receiver's message. *)
Lemma demo_receives : exists s, rtc (demo_step 4096) (demo_start (fun _ => 0) quiet_dev quiet_dev) s /\ dz_printed (ds_zone s 1) = Some send_msg_text.
Proof.
  eexists. split.
  - eapply rtc_l; [apply (demo_write _ _ 0); [lia|reflexivity]|]. eapply rtc_l; [apply (demo_ipi _ _ 0); [lia|reflexivity]|].
    eapply rtc_l; [apply (demo_deliver _ _ [] 1 []); reflexivity|]. eapply rtc_l; [apply (demo_woken _ _ 1); [lia|reflexivity|reflexivity]|]. apply rtc_refl.
  - vm_compute. reflexivity.
Qed.

Lemma demo_messages_whole_witness : exists s t, dz_printed (ds_zone s 1) = Some t /\ t = text_of 0.
Proof.
  destruct demo_receives as (s & Hr & Hp). exists s, send_msg_text. split; [exact Hp|].
  apply (demo_messages_whole 4096 (fun _ => 0) quiet_dev quiet_dev s 1 send_msg_text); [lia|reflexivity|reflexivity|exact Hr|lia|exact Hp].
Defined.

(** The demonstration unmaps its [out] window with the size of another section: when
    [rw_sec_size] is larger, pages beyond the window go too. *)
Example demo_unmaps_beyond_window : exists mapped unmapped, (mapped, unmapped) ∈ demo_unmaps 0x1000 0x3000 /\ mapped < unmapped.
Proof. exists 0x1000, 0x3000. split; [right; by left|lia]. Qed.

Definition fds_after (ans : nat -> Z) : option (Z * list Z) :=
  match rpmsg_main {| r_fds := [0; 1; 2]; r_mon := monitor0; r_threads := 0; r_sync := 0; r_blocks := 0; r_bad := 0; r_stale := 0; r_event_mem := fun _ => true; r_answers := ans; r_next := 0 |} with
  | Ok (ret, r) => Some (ret, r_fds r)
  | Err _ => None
  end.

(** [rpmsg_create_eptdev] leaves the control descriptor open, and a successful run its
    end point. *)
Example rpmsg_success_leaks : fds_after (fun _ => 0) = Some (0, [4; 3; 0; 1; 2]).
Proof. vm_compute. reflexivity. Qed.

(** A failure of [rpmsg_open_eptdev] is not noticed: the message goes to descriptor 0,
    and when that fails too it is descriptor 0 that is destroyed and closed. *)
Example rpmsg_open_failure_closes_stdin : fds_after (fun n => if (n =? 2)%nat || (n =? 4)%nat then -1 else 0) = Some (0, [3; 1; 2]).
Proof. vm_compute. reflexivity. Qed.
