(* ===== verification/Backends.v ===== *)
(** * Device back ends: initialisation and release

    The [init] and [close] operations of the block, network, console and SCMI
    devices on the host resources of [HostRes], and the interface [DeviceLife] they
    implement.  Claims: the resources the daemon holds are at every moment those of
    its published devices, whatever call fails while a configuration is started or
    added; closing the devices gives all of them back.  A back end is what
    [vdev->dev] points to; the [VirtIODevice] and its queues are freed by the same
    functions and are the [h_closed] of [Config]. *)

From Stdlib Require Import String.
From S2P Require Import Prelude Memory ZoneMem Virtqueue Device Ring Interrupt Mmio Bridge Blk Json Config ScmiCore VirtioScmi HostFd Net Console EventMonitor HostRes.

Record BlkDev := {
  capacity : Z;
  size_max : Z;
  seg_max : Z;
  blk_size : Z;
  img_fd : Z;
  mutex_initialized : bool;
  cond_initialized : bool;
  thread_started : bool;
}.

Record NetBackend := {
  net : NetDev;
  net_event : option nat;
  net_in_iov : bool;    (* whether the array is allocated *)
  net_out_iov : bool;
}.

Record ConsoleBackend := {
  console : ConsoleDev;
  console_event : option nat;
}.

(** [vdev->dev]; [BNull] is NULL. *)
Inductive backend :=
  | BNull
  | BBlk (d : BlkDev)
  | BNet (d : NetBackend)
  | BConsole (d : ConsoleBackend)
  | BScmi (d : SCMIDev).

(** The parsed parameters; the console's are NULL. *)
Inductive init_params :=
  | PBlk (img_path : string)
  | PNet (p : virtio_net_init_params)
  | PConsole
  | PScmi (p : virtio_scmi_init_params).

(** ** Block device *)

Definition set_img_fd (f : Z) (d : BlkDev) : BlkDev :=
  {| capacity := capacity d; size_max := size_max d; seg_max := seg_max d; blk_size := blk_size d; img_fd := f;
     mutex_initialized := mutex_initialized d; cond_initialized := cond_initialized d; thread_started := thread_started d |}.

(** [capacity] has 64 bits and [size_max] 32. *)
Definition set_capacity (n : Z) (d : BlkDev) : BlkDev :=
  {| capacity := n; size_max := u32 n; seg_max := seg_max d; blk_size := blk_size d; img_fd := img_fd d;
     mutex_initialized := mutex_initialized d; cond_initialized := cond_initialized d; thread_started := thread_started d |}.

Definition set_thread_started (d : BlkDev) : BlkDev :=
  {| capacity := capacity d; size_max := size_max d; seg_max := seg_max d; blk_size := blk_size d; img_fd := img_fd d;
     mutex_initialized := mutex_initialized d; cond_initialized := cond_initialized d; thread_started := true |}.

(** A failure has freed what was allocated. *)
Definition init_blk_dev : hm (option BlkDev) :=
  ok ← sys_alloc;
  if negb ok then mret None
  else
    m ← sync_init;
    if negb m then _ ← sys_free 1; mret None
    else
      c ← sync_init;
      if negb c then _ ← sync_destroy; _ ← sys_free 1; mret None
      else mret (Some {| capacity := u64 (-1); size_max := u32 (-1); seg_max := BLK_SEG_MAX; blk_size := SECTOR_BSIZE;
                         img_fd := -1; mutex_initialized := true; cond_initialized := true; thread_started := false |}).

(** [BLKGETSIZE64] is asked only when [st_size] is less than a sector. *)
Definition virtio_blk_init (d : BlkDev) : hm (Z * BlkDev) :=
  f ← sys_open;
  let d1 := set_img_fd f d in
  if f =? -1 then mret (-1, d1)
  else
    st ← sys_ret;
    if st =? -1 then mret (-1, d1)
    else
      st_size ← sys_ret;
      let sectors := u64 (Z.quot st_size SECTOR_BSIZE) in
      if sectors =? 0 then
        r ← sys_ret;
        if r =? 0 then size64 ← sys_ret; mret (0, set_capacity (u64 size64 / SECTOR_BSIZE) d1)
        else mret (-1, d1)
      else mret (0, set_capacity sectors d1).

Definition start_blk_worker (d : BlkDev) : hm (Z * BlkDev) :=
  if thread_started d then mret (0, d)
  else
    ok ← thread_create;
    if negb ok then mret (-1, d) else mret (0, set_thread_started d).

Definition virtio_blk_do_init (params : option string) : hm (Z * backend) :=
  match params with
  | None => mret (- EINVAL, BNull)
  | Some img_path =>
      o ← init_blk_dev;
      match o with
      | None => mret (- ENOMEM, BNull)
      | Some d =>
          '(r, d1) ← virtio_blk_init d;
          if negb (r =? 0) then mret (- EIO, BBlk d1)
          else
            '(r2, d2) ← start_blk_worker d1;
            if negb (r2 =? 0) then mret (- EIO, BBlk d2) else mret (0, BBlk d2)
      end
  end.

Definition when (b : bool) (c : hm unit) : hm unit := if b then c else mret tt.

(** The worker exits once [close] is set; [pthread_join] waits for it. *)
Definition virtio_blk_close (d : BlkDev) : hm unit :=
  _ ← when (thread_started d) thread_join;
  _ ← when (cond_initialized d) sync_destroy;
  _ ← when (mutex_initialized d) sync_destroy;
  _ ← when (0 <=? img_fd d) (sys_close (img_fd d));
  sys_free 1.

(** ** Network device *)

Definition net_handler : Z := 1.
Definition console_handler : Z := 2.

Definition set_tapfd (f : Z) (d : NetDev) : NetDev :=
  {| Net.mac := Net.mac d; Net.link_status := Net.link_status d; Net.tapfd := f; Net.rx_ready := Net.rx_ready d;
     Net.tap_env := Net.tap_env d; Net.hdr_sizes := Net.hdr_sizes d |}.

Definition open_tap : hm Z :=
  tunfd ← sys_open;
  if tunfd <? 0 then mret (-1)
  else
    r ← sys_ret;
    if r <? 0 then _ ← sys_close tunfd; mret (-1) else mret tunfd.

(** [vdev] is the argument of the event's handler. *)
Definition virtio_net_init (vdev : Z) (d : NetDev) : hm (Z * NetBackend) :=
  f ← open_tap;
  let n := set_tapfd f d in
  let b ev i o := {| net := n; net_event := ev; net_in_iov := i; net_out_iov := o |} in
  if f =? -1 then mret (-1, b None false false)
  else
    r ← set_nonblocking f;
    if r <? 0 then mret (-1, b None false false)
    else
      ev ← res_add_event f net_handler vdev;
      match ev with
      | None => mret (-1, b None false false)
      | Some _ =>
          i ← sys_alloc;
          o ← sys_alloc;
          if negb i || negb o then mret (-1, b ev i o) else mret (0, b ev i o)
      end.

Definition virtio_net_do_init (vdev : Z) (tap : fd_env) (params : option virtio_net_init_params) : hm (Z * backend) :=
  match params with
  | None => mret (- EINVAL, BNull)
  | Some p =>
      ok ← sys_alloc;
      match init_net_dev ok (p_mac p) tap with
      | None => mret (- ENOMEM, BNull)
      | Some d => '(r, b) ← virtio_net_init vdev d; mret (r, BNet b)
      end
  end.

Definition count (b : bool) : nat := if b then 1 else 0.

Definition drop_event (o : option nat) : hm unit :=
  match o with
  | None => mret tt
  | Some p => res_drop_event p
  end.

Definition virtio_net_close (b : NetBackend) : hm unit :=
  _ ← when (0 <=? tapfd (net b)) (sys_close (tapfd (net b)));
  _ ← drop_event (net_event b);
  sys_free (count (net_in_iov b) + count (net_out_iov b) + 1).

(** ** Console device *)

Definition set_pty_fds (master slave : Z) (d : ConsoleDev) : ConsoleDev :=
  {| cols := cols d; rows := rows d; master_fd := master; slave_keepalive_fd := slave; Console.rx_ready := Console.rx_ready d;
     pty := pty d |}.

(** [ptsname] is NULL when its answer is negative.  After [dev->master_fd] is set,
    the two early exits close the descriptor and leave it in the field. *)
Definition virtio_console_init (vdev : Z) (d : ConsoleDev) : hm (Z * ConsoleBackend) :=
  let b m s ev := {| console := set_pty_fds m s d; console_event := ev |} in
  let unset := {| console := d; console_event := None |} in
  master ← sys_open;
  if master <? 0 then mret (-1, unset)
  else
    g ← sys_ret;
    if g <? 0 then _ ← sys_close master; mret (-1, unset)
    else
      u ← sys_ret;
      if u <? 0 then _ ← sys_close master; mret (-1, unset)
      else
        name ← sys_ret;
        if name <? 0 then _ ← sys_close master; _ ← note_stale; mret (-1, b master (slave_keepalive_fd d) None)
        else
          slave ← sys_open;
          if slave <? 0 then _ ← sys_close master; _ ← note_stale; mret (-1, b master (slave_keepalive_fd d) None)
          else
            r ← set_nonblocking master;
            if r <? 0 then mret (-1, b master slave None)
            else
              ev ← res_add_event master console_handler vdev;
              match ev with
              | None => mret (-1, b master slave None)
              | Some _ => mret (0, b master slave ev)
              end.

Definition virtio_console_do_init (vdev : Z) (term : fd_env) : hm (Z * backend) :=
  ok ← sys_alloc;
  match init_console_dev ok term with
  | None => mret (- ENOMEM, BNull)
  | Some d => '(r, b) ← virtio_console_init vdev d; mret (r, BConsole b)
  end.

(** [remove_event] and [free] take NULL. *)
Definition virtio_console_close (b : ConsoleBackend) : hm unit :=
  _ ← when (0 <=? master_fd (console b)) (sys_close (master_fd (console b)));
  _ ← when (0 <=? slave_keepalive_fd (console b)) (sys_close (slave_keepalive_fd (console b)));
  _ ← drop_event (console_event b);
  sys_free 1.

(** ** SCMI device *)

(** The allocation of [scmi_copy_id_array]. *)
Definition copy_ids (src : option (list Z)) (n : Z) : hm (option (option (list Z))) :=
  if n =? 0 then mret (scmi_copy_id_array true src n)
  else ok ← sys_alloc; mret (scmi_copy_id_array ok src n).

Definition scmi_arrays (ci ri pi : option (list Z)) : SCMIDev :=
  {| clock_ids := ci; clock_count := 0; reset_ids := ri; reset_count := 0; power_ids := pi; power_count := 0; protocols := [] |}.

Definition scmi_init (params : option virtio_scmi_init_params) : hm (Z * backend) :=
  ok ← sys_alloc;
  if negb ok then mret (- ENOMEM, BNull)
  else
    match params with
    | None => mret (0, BScmi scmi_dev_zero)
    | Some p =>
        c ← copy_ids (p_clock_ids p) (p_clock_count p);
        match c with
        | None => mret (- ENOMEM, BScmi scmi_dev_zero)
        | Some ci =>
            r ← copy_ids (p_reset_ids p) (p_reset_count p);
            match r with
            | None => mret (- ENOMEM, BScmi (scmi_arrays ci None None))
            | Some ri =>
                w ← copy_ids (p_power_ids p) (p_power_count p);
                match w with
                | None => mret (- ENOMEM, BScmi (scmi_arrays ci ri None))
                | Some pi =>
                    mret (0, BScmi (scmi_register_protocols
                      {| clock_ids := ci; clock_count := p_clock_count p; reset_ids := ri; reset_count := p_reset_count p;
                         power_ids := pi; power_count := p_power_count p; protocols := [] |}))
                end
            end
        end
    end.

Definition array_block (ids : option (list Z)) : nat :=
  match ids with
  | None => 0
  | Some _ => 1
  end.

Definition array_blocks (d : SCMIDev) : nat := array_block (clock_ids d) + array_block (reset_ids d) + array_block (power_ids d).

(** Three arrays and the device. *)
Definition scmi_dev_free (d : SCMIDev) : hm unit := sys_free (array_blocks d + 1).

(** ** The operations of every type *)

(** The type has its own parameters or none.  Without the GPU back end no other type
    has operations. *)
Definition backend_init (t : VirtioDeviceType) (vdev : Z) (env : fd_env) (params : option init_params) : hm (Z * backend) :=
  match t with
  | VirtioTBlock => virtio_blk_do_init (match params with Some (PBlk i) => Some i | _ => None end)
  | VirtioTNet => virtio_net_do_init vdev env (match params with Some (PNet p) => Some p | _ => None end)
  | VirtioTConsole => virtio_console_do_init vdev env
  | VirtioTSCMI => scmi_init (match params with Some (PScmi p) => Some p | _ => None end)
  | _ => mret (- EINVAL, BNull)
  end.

Definition backend_close (b : backend) : hm unit :=
  match b with
  | BNull => mret tt
  | BBlk d => virtio_blk_close d
  | BNet d => virtio_net_close d
  | BConsole d => virtio_console_close d
  | BScmi d => scmi_dev_free d
  end.

(** ** What a back end owns *)

Definition fd_owned (f : Z) : owned := if 0 <=? f then own_fd f else nothing.

Definition event_owned (f : Z) (o : option nat) : owned :=
  match o with
  | None => nothing
  | Some p => own_int f p
  end.

Definition owned_of (b : backend) : owned :=
  match b with
  | BNull => nothing
  | BBlk d => join (own_counts (count (thread_started d)) (count (cond_initialized d) + count (mutex_initialized d)) 1)
                (fd_owned (img_fd d))
  | BNet d => join (event_owned (tapfd (net d)) (net_event d)) (join (fd_owned (tapfd (net d)))
                (own_counts 0 0 (count (net_in_iov d) + count (net_out_iov d) + 1)))
  | BConsole d => join (event_owned (master_fd (console d)) (console_event d)) (join (fd_owned (master_fd (console d)))
                (join (fd_owned (slave_keepalive_fd (console d))) (own_counts 0 0 1)))
  | BScmi d => own_counts 0 0 (array_blocks d + 1)
  end.

(** An event is registered on a descriptor of the device. *)
Definition backend_ok (b : backend) : Prop :=
  match b with
  | BNet d => is_Some (net_event d) -> 0 <= tapfd (net d)
  | BConsole d => is_Some (console_event d) -> 0 <= master_fd (console d)
  | _ => True
  end.

(** Every event of [o] is on a descriptor of [o]. *)
Definition contained (o : owned) : Prop := forall f p, (f, p) ∈ o_ints o -> f ∈ o_fds o.

Definition all_owned (ds : list (VirtIODevice backend)) : owned := foldr (fun d o => join (owned_of (dev d)) o) nothing ds.

Lemma join_assoc a b c : join a (join b c) = join (join a b) c.
Proof. unfold join. cbn. by rewrite !app_assoc, !Nat.add_assoc. Qed.

Lemma join_nothing_l a : join nothing a = a.
Proof. by destruct a. Qed.

Lemma join_nothing_r a : join a nothing = a.
Proof. destruct a. unfold join. cbn. by rewrite !app_nil_r, !Nat.add_0_r. Qed.

Lemma join_comm a b : owned_equiv (join a b) (join b a).
Proof. constructor; cbn; try lia; by rewrite Permutation_app_comm. Qed.

Lemma contained_join a b : contained a -> contained b -> contained (join a b).
Proof. intros Ha Hb f p. cbn. rewrite !elem_of_app. intros [H|H]; [left; by eapply Ha|right; by eapply Hb]. Qed.

Lemma contained_owned_of b : backend_ok b -> contained (owned_of b).
Proof.
  assert (forall f o c, (is_Some o -> 0 <= f) -> contained c -> o_ints c = [] -> contained (join (event_owned f o) (join (fd_owned f) c))) as H.
  { intros f [p|] c Hf Hc Hi; cbn in *.
    - unfold fd_owned. replace (0 <=? f) with true by (specialize (Hf (mk_is_Some _ _ eq_refl)); lia). intros g q. cbn. rewrite Hi.
      intros [[= -> ->]|Hx]%elem_of_cons; [by left|by apply elem_of_nil in Hx].
    - rewrite join_nothing_l. unfold fd_owned. destruct (_ <=? _); [|by rewrite join_nothing_l]. intros g q. cbn. rewrite Hi.
      intros Hx. by apply elem_of_nil in Hx. }
  destruct b as [|d|d|d|d]; cbn; intros Hb.
  - intros f p Hx. by apply elem_of_nil in Hx.
  - intros f p. unfold fd_owned. destruct (_ <=? _); cbn; intros Hx; by apply elem_of_nil in Hx.
  - apply H; [done| |done]. intros f p Hx. by apply elem_of_nil in Hx.
  - apply H; [done| |unfold fd_owned; by destruct (_ <=? _)]. intros f p. unfold fd_owned. destruct (_ <=? _); cbn; intros Hx; by apply elem_of_nil in Hx.
  - intros f p Hx. by apply elem_of_nil in Hx.
Qed.

Lemma contained_all ds : Forall (fun d => backend_ok (dev d)) ds -> contained (all_owned ds).
Proof.
  induction 1 as [|d ds Hd _ IH]; [intros f p Hx; by apply elem_of_nil in Hx|]. cbn. apply contained_join; [by apply contained_owned_of|done].
Qed.

(** ** Releasing a back end *)

Lemma hm_bind_ext {A B} (c : hm A) (k k' : A -> hm B) r : (forall x r', k x r' = k' x r') -> (c ≫= k) r = (c ≫= k') r.
Proof. intros H. unfold mbind, hm_bind. by destruct (c r) as [ [x r']|]. Qed.

Lemma when_close_drop {A} c f e (k : hm A) r :
  (_ ← when c (sys_close f); _ ← drop_event e; k) r = (_ ← drop_event e; _ ← when c (sys_close f); k) r.
Proof.
  destruct c; [|unfold mbind, hm_bind; cbn; by destruct (drop_event e r) as [ [ [] ?]|]].
  destruct e as [p|]; [|unfold mbind, hm_bind; cbn; by destruct (sys_close f r) as [ [ [] ?]|]].
  cbn [when drop_event]. pose proof (close_drop_swap f p r) as H.
  unfold mbind, hm_bind in *. destruct (sys_close f r) as [ [ [] r1]|] eqn:E1, (res_drop_event p r) as [ [ [] r2]|] eqn:E2; first [by rewrite H|by rewrite <- H|congruence].
Qed.

Section release.
Context (up : bool) (r0 : host_res).

Lemma fd_not_registered o f r : holds up r0 (join (own_fd f) o) r -> contained o -> f ∉ (o_ints o).*1.
Proof.
  intros Hr Hc ([g p] & -> & Hx)%list_elem_of_fmap. cbn in Hr. apply Hc in Hx. pose proof (h_fds _ _ _ _ Hr) as Hp. cbn in Hp.
  assert (NoDup (g :: o_fds o ++ r_fds r0)) as [Hn _]%NoDup_cons by (rewrite <- Hp; apply Hr). apply Hn, elem_of_app. by left.
Qed.

Lemma hwp_close_owned o f r :
  holds up r0 (join (fd_owned f) o) r -> contained o -> hwp (when (0 <=? f) (sys_close f)) r (fun _ r' => holds up r0 o r').
Proof.
  unfold fd_owned. intros Hr Hc. destruct (_ <=? _); cbn [when]; [|apply hwp_ret; by rewrite join_nothing_l in Hr].
  eapply hwp_close; [exact Hr|by eapply fd_not_registered|done].
Qed.

Lemma hwp_drop_owned o f e r : holds up r0 (join (event_owned f e) o) r -> hwp (drop_event e) r (fun _ r' => holds up r0 o r').
Proof. destruct e as [p|]; cbn [drop_event event_owned]; intros Hr; [by eapply hwp_drop_event|apply hwp_ret; by rewrite join_nothing_l in Hr]. Qed.

Lemma hwp_when_join th o r : holds up r0 (join (own_counts (count th) 0 0) o) r -> hwp (when th thread_join) r (fun _ r' => holds up r0 o r').
Proof. destruct th; cbn [when count]; intros Hr; [by eapply hwp_thread_join|apply hwp_ret; by rewrite join_nothing_l in Hr]. Qed.

Lemma hwp_when_destroy sy o r : holds up r0 (join (own_counts 0 (count sy) 0) o) r -> hwp (when sy sync_destroy) r (fun _ r' => holds up r0 o r').
Proof. destruct sy; cbn [when count]; intros Hr; [by eapply hwp_sync_destroy|apply hwp_ret; by rewrite join_nothing_l in Hr]. Qed.

Lemma hwp_free_owned n o r : holds up r0 (join (own_counts 0 0 n) o) r -> hwp (sys_free n) r (fun _ r' => holds up r0 o r').
Proof. intros Hr. by eapply hwp_free. Qed.

Lemma contained_counts th sy bl : contained (own_counts th sy bl).
Proof. intros f p Hx. by apply elem_of_nil in Hx. Qed.

Lemma contained_fd f : contained (fd_owned f).
Proof. unfold fd_owned. destruct (_ <=? _); intros g p Hx; by apply elem_of_nil in Hx. Qed.

Lemma blk_close_spec d o r : contained o -> holds up r0 (join (owned_of (BBlk d)) o) r -> hwp (virtio_blk_close d) r (fun _ r' => holds up r0 o r').
Proof.
  intros Hc Hr. unfold virtio_blk_close. set (t := count (thread_started d)). set (c := count (cond_initialized d)). set (m := count (mutex_initialized d)).
  apply (holds_equiv _ _ _ (join (own_counts t 0 0) (join (own_counts 0 c 0) (join (own_counts 0 m 0) (join (fd_owned (img_fd d)) (join (own_counts 0 0 1) o)))))) in Hr.
  2: { constructor; cbn; try done; unfold t, c, m; lia. }
  apply hwp_bind. eapply hwp_conseq; [by apply hwp_when_join|]. intros [] r1 H1.
  apply hwp_bind. eapply hwp_conseq; [by apply hwp_when_destroy|]. intros [] r2 H2.
  apply hwp_bind. eapply hwp_conseq; [by apply hwp_when_destroy|]. intros [] r3 H3.
  apply hwp_bind. eapply hwp_conseq; [apply hwp_close_owned; [done|]|]. { apply contained_join; [apply contained_counts|done]. }
  intros [] r4 H4. by apply hwp_free_owned.
Qed.

Lemma net_close_spec d o r : contained o -> holds up r0 (join (owned_of (BNet d)) o) r -> hwp (virtio_net_close d) r (fun _ r' => holds up r0 o r').
Proof.
  intros Hc Hr. unfold hwp, virtio_net_close. rewrite when_close_drop. cbn [owned_of] in Hr. rewrite <- !join_assoc in Hr.
  refine (hwp_bind (drop_event _) _ r _ _). eapply hwp_conseq; [by eapply hwp_drop_owned|]. intros [] r1 H1.
  apply hwp_bind. eapply hwp_conseq; [apply hwp_close_owned; [done|]|]. { apply contained_join; [apply contained_counts|done]. }
  intros [] r2 H2. by apply hwp_free_owned.
Qed.

Lemma console_close_spec d o r : contained o -> holds up r0 (join (owned_of (BConsole d)) o) r -> hwp (virtio_console_close d) r (fun _ r' => holds up r0 o r').
Proof.
  intros Hc Hr. unfold hwp, virtio_console_close.
  rewrite (hm_bind_ext (when _ _) _ _ r (fun _ r' => when_close_drop _ (slave_keepalive_fd (console d)) _ _ r')), when_close_drop.
  cbn [owned_of] in Hr. rewrite <- !join_assoc in Hr. refine (hwp_bind (drop_event _) _ r _ _).
  eapply hwp_conseq; [by eapply hwp_drop_owned|]. intros [] r1 H1.
  apply hwp_bind. eapply hwp_conseq; [apply hwp_close_owned; [done|]|].
  { apply contained_join; [apply contained_fd|]. apply contained_join; [apply contained_counts|done]. }
  intros [] r2 H2. apply hwp_bind. eapply hwp_conseq; [apply hwp_close_owned; [done|]|]. { apply contained_join; [apply contained_counts|done]. }
  intros [] r3 H3. by apply hwp_free_owned.
Qed.

Lemma backend_close_spec b o r : contained o -> holds up r0 (join (owned_of b) o) r -> hwp (backend_close b) r (fun _ r' => holds up r0 o r').
Proof.
  destruct b as [|d|d|d|d]; intros Hc Hr; cbn [backend_close].
  - cbn [owned_of] in Hr. rewrite join_nothing_l in Hr. by apply hwp_ret.
  - by apply blk_close_spec.
  - by apply net_close_spec.
  - by apply console_close_spec.
  - by apply hwp_free_owned.
Qed.

End release.

(** ** Initialising a back end *)

Section initialise.
Context (r0 : host_res) (o : owned) (Hc : contained o) (Hst : o_stale o = []).

(** On success the back end owns what was taken; on failure closing it gives it
    back. *)
Definition init_post (x : Z * backend) (r : host_res) : Prop :=
  if x.1 =? 0 then backend_ok x.2 /\ holds true r0 (join (owned_of x.2) o) r
  else hwp (backend_close x.2) r (fun _ r' => holds true r0 o r').

Lemma init_failed ret b r : ret <> 0 -> holds true r0 (join (owned_of b) o) r -> init_post (ret, b) r.
Proof. intros Hne Hr. unfold init_post. cbn. replace (ret =? 0) with false by lia. by apply backend_close_spec. Qed.

Lemma init_failed_null ret r : ret <> 0 -> holds true r0 o r -> init_post (ret, BNull) r.
Proof. intros Hne Hr. apply init_failed; [done|]. cbn. by rewrite join_nothing_l. Qed.

Lemma init_blk_dev_spec r : holds true r0 o r ->
  hwp init_blk_dev r (fun x r' => match x with
    | None => holds true r0 o r'
    | Some d => img_fd d = -1 /\ thread_started d = false /\ holds true r0 (join (owned_of (BBlk d)) o) r' end).
Proof.
  intros Hr. unfold init_blk_dev. apply hwp_bind. eapply hwp_alloc; [exact Hr|intros r1 H1; by apply hwp_ret|]. intros r1 H1. cbn [negb].
  apply hwp_bind. eapply hwp_sync_init; [exact H1| |]; intros r2 H2; cbn [negb].
  { apply hwp_bind. eapply hwp_conseq; [by apply hwp_free_owned|]. intros [] r3 H3. by apply hwp_ret. }
  apply hwp_bind. eapply hwp_sync_init; [exact H2| |]; intros r3 H3; cbn [negb].
  { apply hwp_bind. eapply hwp_sync_destroy; [exact H3|]. intros r4 H4. apply hwp_bind.
    eapply hwp_conseq; [by apply hwp_free_owned|]. intros [] r5 H5. by apply hwp_ret. }
  apply hwp_ret. split; [done|]. split; [done|]. eapply holds_equiv; [|exact H3]. same_owned.
Qed.

Lemma blk_init_spec d r : img_fd d = -1 -> thread_started d = false -> holds true r0 (join (owned_of (BBlk d)) o) r ->
  hwp (virtio_blk_init d) r (fun x r' => thread_started x.2 = false /\ holds true r0 (join (owned_of (BBlk x.2)) o) r').
Proof.
  intros Hf Ht Hr. unfold virtio_blk_init. apply hwp_bind. eapply hwp_open; [exact Hr| | |].
  - cbn. unfold fd_owned. rewrite Hf. cbn. exact Hst.
  - intros r1 H1. apply hwp_ret. split; [done|]. eapply holds_equiv; [|exact H1]. cbn. unfold fd_owned. rewrite Hf. same_owned.
  - intros f r1 Hf0 _ H1. replace (f =? -1) with false by lia.
    assert (forall d', img_fd d' = f -> thread_started d' = false -> cond_initialized d' = cond_initialized d -> mutex_initialized d' = mutex_initialized d ->
      forall r', holds true r0 (join (own_fd f) (join (owned_of (BBlk d)) o)) r' -> holds true r0 (join (owned_of (BBlk d')) o) r') as Hk.
    { intros d' E1 E2 E3 E4 r' H'. eapply holds_equiv; [|exact H']. cbn. unfold fd_owned. rewrite Hf, E1, E2, E3, E4, Ht.
      replace (0 <=? f) with true by lia. same_owned. }
    apply hwp_bind. eapply hwp_answer; [exact H1|]. intros a r2 _ _ H2. destruct (a =? -1); [apply hwp_ret; split; [done|by apply Hk]|].
    apply hwp_bind. eapply hwp_answer; [exact H2|]. intros sz r3 _ _ H3. destruct (_ =? 0); [|apply hwp_ret; split; [done|by apply Hk]].
    apply hwp_bind. eapply hwp_answer; [exact H3|]. intros q r4 _ _ H4. destruct (q =? 0); [|apply hwp_ret; split; [done|by apply Hk]].
    apply hwp_bind. eapply hwp_answer; [exact H4|]. intros z r5 _ _ H5. apply hwp_ret; split; [done|by apply Hk].
Qed.

Lemma blk_do_init_spec p r : holds true r0 o r -> hwp (virtio_blk_do_init p) r init_post.
Proof.
  intros Hr. destruct p as [img|]; cbn [virtio_blk_do_init]; [|apply hwp_ret; by apply init_failed_null].
  apply hwp_bind. eapply hwp_conseq; [by apply init_blk_dev_spec|]. intros [d|] r1 H1; [|apply hwp_ret; by apply init_failed_null].
  destruct H1 as (Hf & Ht & H1). apply hwp_bind. eapply hwp_conseq; [by apply blk_init_spec|]. intros [q d1] r2 [Ht1 H2]. cbn in Ht1, H2.
  destruct (negb _); [apply hwp_ret; by apply init_failed|]. apply hwp_bind. unfold start_blk_worker. rewrite Ht1. apply hwp_bind.
  eapply hwp_thread_create; [exact H2| |]; intros r3 H3; cbn [negb]; apply hwp_ret; cbn [negb Z.eqb]; apply hwp_ret.
  - by apply init_failed.
  - split; [done|]. eapply holds_equiv; [|exact H3]. cbn. rewrite Ht1. same_owned.
Qed.

Lemma open_tap_spec p r : contained p -> o_stale p = [] -> holds true r0 p r ->
  hwp open_tap r (fun f r' => f = -1 /\ holds true r0 p r' \/ 0 <= f /\ holds true r0 (join (own_fd f) p) r').
Proof.
  intros Hp Hs Hr. unfold open_tap. apply hwp_bind. eapply hwp_open; [exact Hr|done|intros r1 H1; apply hwp_ret; by left|].
  intros f r1 Hf _ H1. replace (f <? 0) with false by lia. apply hwp_bind. eapply hwp_answer; [exact H1|]. intros a r2 _ _ H2.
  destruct (a <? 0); [|apply hwp_ret; by right]. apply hwp_bind.
  eapply hwp_close; [exact H2|by eapply fd_not_registered|]. intros r3 H3. apply hwp_ret. by left.
Qed.

Lemma net_init_spec vdev d r : holds true r0 (join (own_counts 0 0 1) o) r ->
  hwp (virtio_net_init vdev d) r (fun x r' => init_post (x.1, BNet x.2) r').
Proof.
  intros Hr. unfold virtio_net_init. apply hwp_bind.
  eapply hwp_conseq; [apply (open_tap_spec (join (own_counts 0 0 1) o)); [apply contained_join; [apply contained_counts|done]|exact Hst|exact Hr]|].
  intros f r1 [ [-> H1] | [Hf H1] ].
  { cbn [Z.eqb]. apply hwp_ret, init_failed; [done|]. eapply holds_equiv; [|exact H1]. same_owned. }
  assert (fd_owned f = own_fd f) as Ef by (unfold fd_owned; by replace (0 <=? f) with true by lia).
  replace (f =? -1) with false by lia. apply hwp_bind. eapply hwp_set_nonblocking; [exact H1|]. intros q r2 H2.
  destruct (q <? 0). { apply hwp_ret, init_failed; [done|]. eapply holds_equiv; [|exact H2]. cbn. rewrite Ef. same_owned. }
  apply hwp_bind. eapply hwp_add_event; [done|exact H2|by left|..].
  { apply (fd_not_registered true r0 (join (own_counts 0 0 1) o) f r2); [exact H2|]. apply contained_join; [apply contained_counts|done]. }
  - intros r3 H3. apply hwp_ret, init_failed; [done|]. eapply holds_equiv; [|exact H3]. cbn. rewrite Ef. same_owned.
  - intros p r3 H3. apply hwp_bind.
    assert (forall (i q : bool) ret r', holds true r0 (join (own_counts 0 0 (count i + count q)) (join (own_int f p) (join (own_fd f) (join (own_counts 0 0 1) o)))) r' ->
      ret = 0 \/ ret = -1 -> init_post (ret, BNet {| net := set_tapfd f d; net_event := Some p; net_in_iov := i; net_out_iov := q |}) r') as Hk.
    { intros i q0 ret r' H' Hret. eapply (holds_equiv _ _ _ (join (owned_of (BNet {| net := set_tapfd f d; net_event := Some p; net_in_iov := i; net_out_iov := q0 |})) o)) in H'.
      2: { cbn. rewrite Ef. same_owned. }
      destruct Hret as [-> | ->]; [|by apply init_failed]. split; [|done]. by intros _. }
    eapply hwp_alloc; [exact H3| |]; intros r4 H4; apply hwp_bind; (eapply hwp_alloc; [exact H4| |]); intros r5 H5; cbn [negb orb];
      apply hwp_ret; (apply Hk; [|by auto]); (eapply holds_equiv; [|exact H5]); same_owned.
Qed.

Lemma net_do_init_spec vdev env p r : holds true r0 o r -> hwp (virtio_net_do_init vdev env p) r init_post.
Proof.
  intros Hr. destruct p as [p|]; cbn [virtio_net_do_init]; [|apply hwp_ret; by apply init_failed_null].
  apply hwp_bind. eapply hwp_alloc; [exact Hr|intros r1 H1; apply hwp_ret; by apply init_failed_null|]. intros r1 H1. cbn.
  apply hwp_bind. eapply hwp_conseq; [by apply net_init_spec|]. intros [q b] r2 H2. by apply hwp_ret.
Qed.

(** The two exits that leave a closed descriptor in [master_fd]. *)
Lemma console_close_stale d m r : 0 <= m -> slave_keepalive_fd d = -1 ->
  holds true r0 (join (own_stale m) (join (own_counts 0 0 1) o)) r ->
  init_post (-1, BConsole {| console := set_pty_fds m (slave_keepalive_fd d) d; console_event := None |}) r.
Proof.
  intros Hm Hs Hr. unfold init_post. cbn [fst snd Z.eqb backend_close]. unfold virtio_console_close.
  cbn [console console_event set_pty_fds master_fd slave_keepalive_fd drop_event]. rewrite Hs. replace (0 <=? m) with true by lia. cbn [when Z.leb Z.compare].
  apply hwp_bind. eapply hwp_close_stale; [exact Hm|exact Hr|]. intros r2 H2. apply hwp_bind, hwp_ret, hwp_bind, hwp_ret. by apply hwp_free_owned.
Qed.

Lemma console_left_closed d m r : 0 <= m -> slave_keepalive_fd d = -1 ->
  holds true r0 (join (own_fd m) (join (own_counts 0 0 1) o)) r ->
  hwp (_ ← sys_close m; _ ← note_stale; mret (-1, {| console := set_pty_fds m (slave_keepalive_fd d) d; console_event := None |})) r
    (fun x r' => init_post (x.1, BConsole x.2) r').
Proof.
  intros Hm Hs Hr. pose proof (hwp_close_leave true r0 _ m r (fun _ r' => holds true r0 (join (own_stale m) (join (own_counts 0 0 1) o)) r') Hr) as H.
  assert (m ∉ (o_ints o).*1) as Hi.
  { apply (fd_not_registered true r0 (join (own_counts 0 0 1) o) m r); [exact Hr|]. apply contained_join; [apply contained_counts|done]. }
  specialize (H Hi (fun _ H => H)). unfold hwp, mbind, hm_bind in *. destruct (sys_close m r) as [ [ [] r1]|]; [|done].
  by apply console_close_stale.
Qed.

Lemma console_init_spec vdev d r : master_fd d = -1 -> slave_keepalive_fd d = -1 -> holds true r0 (join (own_counts 0 0 1) o) r ->
  hwp (virtio_console_init vdev d) r (fun x r' => init_post (x.1, BConsole x.2) r').
Proof.
  intros Hmf Hsf Hr. unfold virtio_console_init.
  assert (contained (join (own_counts 0 0 1) o)) as Hco by (apply contained_join; [apply contained_counts|done]).
  assert (forall r', holds true r0 (join (own_counts 0 0 1) o) r' -> init_post (-1, BConsole {| console := d; console_event := None |}) r') as Hun.
  { intros r' H'. apply init_failed; [done|]. eapply holds_equiv; [|exact H']. cbn. rewrite Hmf, Hsf. same_owned. }
  apply hwp_bind. eapply hwp_open; [exact Hr|exact Hst|intros r1 H1; apply hwp_ret; by apply Hun|].
  intros m r1 Hm _ H1. replace (m <? 0) with false by lia. assert (fd_owned m = own_fd m) as Em by (unfold fd_owned; by replace (0 <=? m) with true by lia).
  assert (forall r', holds true r0 (join (own_fd m) (join (own_counts 0 0 1) o)) r' ->
    hwp (_ ← sys_close m; mret (-1, {| console := d; console_event := None |})) r' (fun x r' => init_post (x.1, BConsole x.2) r')) as Hcl.
  { intros r' H'. apply hwp_bind. eapply hwp_close; [exact H'|by eapply fd_not_registered|]. intros r2 H2. apply hwp_ret. by apply Hun. }
  apply hwp_bind. eapply hwp_answer; [exact H1|]. intros g r2 _ _ H2. destruct (g <? 0); [by apply Hcl|].
  apply hwp_bind. eapply hwp_answer; [exact H2|]. intros u r3 _ _ H3. destruct (u <? 0); [by apply Hcl|].
  apply hwp_bind. eapply hwp_answer; [exact H3|]. intros nm r4 _ _ H4. destruct (nm <? 0); [by apply console_left_closed|].
  apply hwp_bind. eapply hwp_open; [exact H4|exact Hst|intros r5 H5; by apply console_left_closed|].
  intros s r5 Hs _ H5. replace (s <? 0) with false by lia. assert (fd_owned s = own_fd s) as Es by (unfold fd_owned; by replace (0 <=? s) with true by lia).
  apply hwp_bind. eapply hwp_set_nonblocking; [exact H5|]. intros q r6 H6.
  assert (forall r', holds true r0 (join (own_fd s) (join (own_fd m) (join (own_counts 0 0 1) o))) r' ->
    init_post (-1, BConsole {| console := set_pty_fds m s d; console_event := None |}) r') as Hboth.
  { intros r' H'. apply init_failed; [done|]. eapply holds_equiv; [|exact H']. cbn. rewrite Em, Es. same_owned. }
  destruct (q <? 0); [apply hwp_ret; by apply Hboth|].
  apply hwp_bind. eapply hwp_add_event; [done|exact H6|cbn; right; by left|..].
  { apply (fd_not_registered true r0 (join (own_counts 0 0 1) o) m r4); [exact H4|exact Hco]. }
  - intros r7 H7. apply hwp_ret. by apply Hboth.
  - intros p r7 H7. apply hwp_ret. split; [by intros _|]. eapply holds_equiv; [|exact H7]. cbn. rewrite Em, Es. same_owned.
Qed.

Lemma console_do_init_spec vdev env r : holds true r0 o r -> hwp (virtio_console_do_init vdev env) r init_post.
Proof.
  intros Hr. unfold virtio_console_do_init. apply hwp_bind. eapply hwp_alloc; [exact Hr|intros r1 H1; apply hwp_ret; by apply init_failed_null|].
  intros r1 H1. cbn. apply hwp_bind. eapply hwp_conseq; [by apply console_init_spec|]. intros [q b] r2 H2. by apply hwp_ret.
Qed.

(** A non-empty array is present. *)
Definition ids_present (ids : option (list Z)) (n : Z) : Prop := n <> 0 -> is_Some ids.

Definition scmi_params_present (p : virtio_scmi_init_params) : Prop :=
  ids_present (p_clock_ids p) (p_clock_count p) /\ ids_present (p_reset_ids p) (p_reset_count p) /\
  ids_present (p_power_ids p) (p_power_count p).

Lemma copy_ids_spec src n p r : ids_present src n -> holds true r0 p r ->
  hwp (copy_ids src n) r (fun x r' => match x with
    | None => holds true r0 p r'
    | Some ids => holds true r0 (join (own_counts 0 0 (array_block ids)) p) r' end).
Proof.
  intros Hp Hr. unfold copy_ids, scmi_copy_id_array. destruct (n =? 0) eqn:E.
  { apply hwp_ret. change (own_counts 0 0 _) with nothing. by rewrite join_nothing_l. }
  apply hwp_bind. eapply hwp_alloc; [exact Hr|intros r1 H1; by apply hwp_ret|]. intros r1 H1. cbn. apply hwp_ret.
  destruct Hp as [l ->]; [lia|]. done.
Qed.

Lemma array_blocks_register d : array_blocks (scmi_register_protocols d) = array_blocks d.
Proof.
  unfold array_blocks, scmi_register_protocols, register_if, scmi_dev_register_protocol.
  repeat (case_match; cbn [snd clock_ids reset_ids power_ids]; try done).
Qed.

Lemma scmi_init_spec p r : (forall q, p = Some q -> scmi_params_present q) -> holds true r0 o r -> hwp (scmi_init p) r init_post.
Proof.
  intros Hp Hr. unfold scmi_init. apply hwp_bind. eapply hwp_alloc; [exact Hr|intros r1 H1; apply hwp_ret; by apply init_failed_null|].
  intros r1 H1. cbn [negb]. destruct p as [p|]; [|apply hwp_ret; split; [done|]; exact H1].
  destruct (Hp p eq_refl) as (P1 & P2 & P3). apply hwp_bind. eapply hwp_conseq; [by apply copy_ids_spec|]. intros [ci|] r2 H2.
  2: { apply hwp_ret, init_failed; [done|]. exact H2. }
  apply hwp_bind. eapply hwp_conseq; [by apply copy_ids_spec|]. intros [ri|] r3 H3.
  2: { apply hwp_ret, init_failed; [done|]. eapply holds_equiv; [|exact H3]. cbn [owned_of]. unfold array_blocks. same_owned. }
  apply hwp_bind. eapply hwp_conseq; [by apply copy_ids_spec|]. intros [pi|] r4 H4.
  2: { apply hwp_ret, init_failed; [done|]. eapply holds_equiv; [|exact H4]. cbn [owned_of]. unfold array_blocks. same_owned. }
  apply hwp_ret. split; [done|]. cbn [owned_of snd]. rewrite array_blocks_register. eapply holds_equiv; [|exact H4]. unfold array_blocks. same_owned.
Qed.

(** The parameters a parser makes. *)
Definition init_params_ok (p : init_params) : Prop :=
  match p with
  | PScmi q => scmi_params_present q
  | _ => True
  end.

Lemma backend_init_spec t vdev env p r : (forall q, p = Some q -> init_params_ok q) -> holds true r0 o r ->
  hwp (backend_init t vdev env p) r init_post.
Proof.
  intros Hp Hr. destruct t; cbn [backend_init]; try (apply hwp_ret; by apply init_failed_null).
  - by apply net_do_init_spec.
  - by apply blk_do_init_spec.
  - by apply console_do_init_spec.
  - apply scmi_init_spec; [|done]. intros q Hq. destruct p as [ [| | |p]|]; try done. injection Hq as <-. by apply (Hp (PScmi p)).
Qed.

End initialise.

(** The device built is the one [virtio_scmi_do_init] builds. *)
Lemma scmi_init_agrees p r d r' : scmi_init p r = Ok ((0, BScmi d), r') -> exists alloc, virtio_scmi_do_init alloc p = Some d.
Proof.
  unfold scmi_init, mbind, hm_bind. destruct (sys_alloc r) as [ [ok r1]|]; [|done]. destruct ok; cbn; [|done].
  destruct p as [p|]; [|intros [= <- _]; by exists (fun _ => true)].
  assert (forall src n q x q', copy_ids src n q = Ok (Some x, q') -> scmi_copy_id_array true src n = Some x) as Hcp.
  { intros src n q x q'. unfold copy_ids, mbind, hm_bind, scmi_copy_id_array. destruct (n =? 0); [by intros [= <- _]|].
    destruct (sys_alloc q) as [ [ [] q1]|]; cbn; [|done..]. by intros [= <- _]. }
  destruct (copy_ids (p_clock_ids p) _ r1) as [ [ [ci|] r2]|] eqn:E1; [|done..].
  destruct (copy_ids (p_reset_ids p) _ r2) as [ [ [ri|] r3]|] eqn:E2; [|done..].
  destruct (copy_ids (p_power_ids p) _ r3) as [ [ [pi|] r4]|] eqn:E3; [|done..].
  intros [= <- _]. exists (fun _ => true). unfold virtio_scmi_do_init. cbn. apply Hcp in E1, E2, E3. by rewrite E1, E2, E3.
Qed.

(** ** Parameters *)

Definition PATH_MAX : Z := 4096.

Section config.
Context {J : Type} {cj : CJson J}.

(** [cJSON_IsString(NULL)] is false. *)
Definition virtio_blk_parse_params (alloc : bool) (json : J) : Z * option string :=
  if negb alloc then (- ENOMEM, None)
  else
    match cJSON_GetObjectItem json "img" with
    | None => (- EINVAL, None)
    | Some img =>
        if negb (cJSON_IsString img) || (String.length (valuestring img) =? 0)%nat then (- EINVAL, None)
        else if PATH_MAX <=? Z.of_nat (String.length (valuestring img)) then (- ENAMETOOLONG, None)
        else (0, Some (valuestring img))
    end.

Definition virtio_console_parse_params (json : J) : Z * init_params := (0, PConsole).

(** The table of a build without the GPU back end; [alloc] answers the parsers'
    allocations. *)
#[global] Instance backend_config_ops (alloc : nat -> bool) : ConfigOps J init_params := fun t =>
  match t with
  | VirtioTBlock => Some (fun j => PBlk <$> (virtio_blk_parse_params (alloc 0%nat) j).2)
  | VirtioTNet => Some (fun j => PNet <$> (virtio_net_parse_params (alloc 0%nat) j).2)
  | VirtioTConsole => Some (fun j => Some (virtio_console_parse_params j).2)
  | VirtioTSCMI => Some (fun j => PScmi <$> (virtio_scmi_parse_params alloc j).2)
  | _ => None
  end.

Lemma parse_id_array_present alloc (j : option J) r ids n : parse_id_array alloc j = (r, ids, n) -> ids_present ids n.
Proof.
  unfold parse_id_array, ids_present. intros H. destruct j as [j|]; [|by simplify_eq]. destruct (negb _); [by simplify_eq|].
  destruct (_ =? 0); [by simplify_eq|]. destruct (negb alloc); [by simplify_eq|]. destruct (parse_ids _ _ _); by simplify_eq.
Qed.

Lemma config_ops_params alloc t f j p : @config_ops_table J init_params (backend_config_ops alloc) t = Some f -> f j = Some p -> init_params_ok p.
Proof.
  intros Ht Hp. destruct t; try done; injection Ht as <-.
  - by destruct (virtio_net_parse_params _ j) as [? [?|] ]; simplify_eq/=.
  - by destruct (virtio_blk_parse_params _ j) as [? [?|] ]; simplify_eq/=.
  - by simplify_eq/=.
  - destruct (virtio_scmi_parse_params alloc j) as [ret [q|] ] eqn:E; simplify_eq/=. unfold virtio_scmi_parse_params in E. destruct (negb _); [done|].
    destruct (parse_id_array (alloc 1%nat) _) as [ [r1 ci] cc] eqn:E1. destruct (r1 <? 0); [done|].
    destruct (parse_id_array (alloc 2%nat) _) as [ [r2 ri] rc] eqn:E2. destruct (r2 <? 0); [done|].
    destruct (parse_id_array (alloc 3%nat) _) as [ [r3 pi] pc] eqn:E3. destruct (r3 <? 0); [done|]. simplify_eq.
    apply parse_id_array_present in E1, E2, E3. done.
Qed.

End config.

(** ** The interface of [Config] *)

(** The host's resources, or the fault an operation ended with; [env] is what a
    new descriptor answers. *)
#[global] Instance backend_life (env : fd_env) : DeviceLife backend init_params (result host_res) :=
  {| dev_null := BNull;
     ops_init t d p e :=
       match e with
       | Err f => (false, d, Err f)
       | Ok r =>
           match backend_init t (base_addr d) env p r with
           | Ok ((ret, b), r') => (ret =? 0, set_dev b d, Ok r')
           | Err f => (false, d, Err f)
           end
       end;
     ops_close d e :=
       match e with
       | Err f => Err f
       | Ok r =>
           match backend_close (dev d) r with
           | Ok (_, r') => Ok r'
           | Err f => Err f
           end
       end |}.

#[global] Instance backend_life_laws env : @DeviceLifeLaws backend init_params (result host_res) (backend_life env).
Proof.
  intros t d p [r|f] ok d' e'; cbn; [|by intros [= <- <- <-]]. destruct (backend_init _ _ _ _ _) as [ [ [ret b] r']|f]; by intros [= <- <- <-].
Qed.

Section daemon_resources.
Context {backends : VirtioBackends backend} (env : fd_env) (r0 : host_res).

Abbreviation hst := (host backend (result host_res)).

Definition env_holds_in (up : bool) (o : owned) (h : hst) : Prop := exists r, h_env h = Ok r /\ holds up r0 o r.

Definition env_holds : owned -> hst -> Prop := env_holds_in true.

Lemma close_device_res up d o h : contained o -> env_holds_in up (join (owned_of (dev d)) o) h -> env_holds_in up o (close_device (life := backend_life env) d h).
Proof.
  intros Hc (r & Er & Hr). unfold env_holds_in, close_device. cbn. rewrite Er. apply backend_close_spec in Hr; [|done]. unfold hwp in Hr.
  destruct (backend_close (dev d) r) as [ [ [] r']|]; [|done]. eauto.
Qed.

Lemma destroy_all_res up ds : forall o h, Forall (fun d => backend_ok (dev d)) ds -> contained o ->
  env_holds_in up (join (all_owned ds) o) h -> env_holds_in up o (destroy_all (life := backend_life env) ds h).
Proof.
  induction ds as [|d ds IH]; intros o h Hds Hc Hh; cbn in *; [by rewrite join_nothing_l in Hh|]. apply Forall_cons in Hds as [Hd Hds].
  apply (IH o); [done|done|]. rewrite <- join_assoc in Hh. apply close_device_res; [|done]. apply contained_join; [by apply contained_all|done].
Qed.

Lemma create_unpublished_res t z ba l i p o (h : hst) out h' :
  contained o -> o_stale o = [] -> (forall q, p = Some q -> init_params_ok q) -> env_holds o h ->
  create_virtio_device_unpublished (life := backend_life env) t z ba l i p h = (out, h') ->
  match out with
  | Some d => backend_ok (dev d) /\ env_holds (join (owned_of (dev d)) o) h'
  | None => env_holds o h'
  end.
Proof.
  intros Hc Hst Hp (r & Er & Hr) H. unfold create_virtio_device_unpublished in H. destruct (lookup_ops t) as [ops|]; [|simplify_eq; by exists r].
  cbn [host_calloc] in H. destruct (negb _); [simplify_eq; by exists r|].
  destruct (init_virtio_queue _ _ ops) as [iret d1] eqn:E1. destruct (negb (iret =? 0)).
  - assert (dev d1 = BNull) as Hd1 by (unfold init_virtio_queue in E1; repeat case_match; by simplify_eq).
    simplify_eq. unfold env_holds, env_holds_in, close_device. cbn. rewrite Er, Hd1. cbn. eauto.
  - cbn in H. rewrite Er in H. pose proof (backend_init_spec r0 o Hc Hst t (base_addr d1) env p r Hp Hr) as Hi. unfold hwp in Hi.
    destruct (backend_init _ _ _ _ r) as [ [ [ret b] r']|]; [|done]. unfold init_post in Hi. cbn in Hi. destruct (ret =? 0); simplify_eq; cbn.
    + destruct Hi as [? ?]. split; [done|]. by exists r'.
    + unfold hwp in Hi. unfold env_holds, env_holds_in, close_device. cbn. destruct (backend_close b r') as [ [ [] r'']|]; [|done]. eauto.
Qed.

Lemma all_owned_app ds es : all_owned (ds ++ es) = join (all_owned ds) (all_owned es).
Proof. induction ds as [|d ds IH]; cbn [all_owned foldr app]; [by rewrite join_nothing_l|]. fold (all_owned (ds ++ es)). rewrite IH. apply join_assoc. Qed.

Lemma join_swap a b c : owned_equiv (join a (join b c)) (join (join b a) c).
Proof. constructor; cbn; try lia; rewrite app_assoc; by rewrite (Permutation_app_comm (_ a) (_ b)). Qed.

Lemma backends_owned_snoc ds d o : owned_equiv (join (owned_of (dev d)) (join (all_owned ds) o)) (join (all_owned (ds ++ [d])) o).
Proof. rewrite all_owned_app. change (all_owned [d]) with (join (owned_of (dev d)) nothing). rewrite join_nothing_r. apply join_swap. Qed.

Lemma all_owned_stale ds : o_stale (all_owned ds) = [].
Proof. induction ds as [|d ds IH]; [done|]. change (o_stale (owned_of (dev d)) ++ o_stale (all_owned ds) = []). rewrite IH. by destruct (dev d); cbn; unfold fd_owned, event_owned; repeat case_match. Qed.

Lemma env_holds_equiv a b h : owned_equiv a b -> env_holds a h -> env_holds b h.
Proof. intros He (r & Er & Hr). exists r. split; [done|]. by eapply holds_equiv. Qed.

Lemma create_loop_res (cfgs : list (VirtioDeviceConfig init_params)) : forall new o h out h',
  contained o -> o_stale o = [] -> Forall (fun d => backend_ok (dev d)) new ->
  Forall (fun c => forall p, cfg_params c = Some p -> init_params_ok p) cfgs ->
  env_holds (join (all_owned new) o) h -> create_loop (life := backend_life env) cfgs new h = (out, h') ->
  match out with
  | Some ds => Forall (fun d => backend_ok (dev d)) ds /\ env_holds (join (all_owned ds) o) h'
  | None => env_holds o h'
  end.
Proof.
  induction cfgs as [|c cfgs IH]; intros new o h out h' Hc Hst Hnew Hps Hh H; cbn [create_loop] in H; [by simplify_eq|].
  apply Forall_cons in Hps as [Hp Hps]. destruct (negb _); [by eapply IH|].
  destruct (create_virtio_device_unpublished _ _ _ _ _ _ h) as [od h1] eqn:Ec. apply create_unpublished_res with (o := join (all_owned new) o) in Ec; [|..].
  - destruct od as [d|].
    + destruct Ec as [Hd Hh1]. destruct (_ =? MAX_DEVS).
      * injection H as <- <-. apply destroy_all_res; [done|done|]. apply close_device_res; [|done]. apply contained_join; [by apply contained_all|done].
      * eapply IH; [exact Hc|exact Hst| |exact Hps| |exact H]; [apply Forall_app; by repeat constructor|].
        eapply env_holds_equiv; [apply backends_owned_snoc|done].
    + injection H as <- <-. by apply destroy_all_res.
  - apply contained_join; [by apply contained_all|done].
  - cbn. by rewrite all_owned_stale.
  - done.
  - done.
Qed.

Context {J : Type} {cj : CJson J} (alloc : nat -> bool).

(** The host's resources are those of the published devices, on top of [o]. *)
Definition daemon_holds_with (o : owned) (dm : daemon backend (result host_res)) : Prop :=
  Forall (fun d => backend_ok (dev d)) (dm_vdevs dm) /\ env_holds (join (all_owned (dm_vdevs dm)) o) (dm_host dm).

Definition daemon_holds : daemon backend (result host_res) -> Prop := daemon_holds_with nothing.

Lemma virtio_start_res o (root : option J) (dm dm' : daemon backend (result host_res)) ret :
  contained o -> o_stale o = [] -> daemon_holds_with o dm ->
  virtio_start_from_json (life := backend_life env) (config_ops := backend_config_ops alloc) root dm = Ok (ret, dm') -> daemon_holds_with o dm'.
Proof.
  unfold virtio_start_from_json. intros Hc Hst [Hok Hh] H. destruct root as [j|]; [|by simplify_eq].
  destruct (parse_virtio_config j) as [cfg|] eqn:Ep; [|by simplify_eq]. destruct (negb _); [by simplify_eq|].
  apply bind_Ok_inv in H as ( [ [zt r] ans] & _ & H). destruct (negb (r =? 0)); [by simplify_eq|].
  apply parse_virtio_config_params with (Q := init_params_ok) in Ep; [|intros; by eapply config_ops_params]. unfold create_virtio_config_devices in H.
  assert (contained (join (all_owned (dm_vdevs dm)) o)) as Hco by (apply contained_join; [by apply contained_all|done]).
  destruct (create_loop _ [] (dm_host dm)) as [out h1] eqn:Ec.
  apply create_loop_res with (o := join (all_owned (dm_vdevs dm)) o) in Ec; [|done|cbn; by rewrite all_owned_stale|constructor|done|by rewrite join_nothing_l].
  destruct out as [ds|]; [|by simplify_eq]. destruct Ec as [Hds Hh1].
  destruct (publish_virtio_devices _ ds) as [vds|] eqn:Epb; simplify_eq.
  - apply publish_Some in Epb as ->. split; cbn; [by apply Forall_app|]. eapply env_holds_equiv; [|exact Hh1].
    rewrite all_owned_app. apply join_swap.
  - split; [done|]. cbn. by apply destroy_all_res.
Qed.

(** C35: The descriptors, events, threads, back end locks and back end allocations the
    daemon holds are exactly those of its published devices, before and after a
    configuration is started or added.  This holds whichever allocation of a device,
    its queues or its back end, [open], [ioctl], registration or thread creation
    fails, and after whichever device of the document: everything taken is given
    back and no operation of a back end faults.  The exception is the object
    [add_event] allocates for the monitor, which must be available ([daemon_holds]
    asks for it): the code uses it unchecked ([event_object_unchecked] below).  The
    [interrupt_lock] of each device, which is never destroyed, is not counted. *)
Theorem start_resources_exact (root : option J) (dm dm' : daemon backend (result host_res)) ret :
  daemon_holds dm -> virtio_start_from_json (life := backend_life env) (config_ops := backend_config_ops alloc) root dm = Ok (ret, dm') -> daemon_holds dm'.
Proof. apply virtio_start_res; [|done]. intros f p Hx. by apply elem_of_nil in Hx. Qed.

End daemon_resources.

(** ** Witnesses and examples *)

#[local] Existing Instance json_cjson.
#[local] Existing Instance vring_event_std.

Definition queues_of (t : VirtioDeviceType) (n size : Z) : virtio_device_ops backend :=
  {| ops_type := t; features := 2 ^ VIRTIO_F_VERSION_1; num_queues := n; queue_max_size := size; ops_reset := None;
     ops_status_changed := None; notify_handlers := [] |}.

#[local] Instance queue_backends : VirtioBackends backend :=
  {| device_ops_table := fun t => match t with
       | VirtioTBlock => Some (queues_of t 1 VIRTQUEUE_BLK_MAX_SIZE)
       | VirtioTNet => Some (queues_of t 2 VIRTQUEUE_NET_MAX_SIZE)
       | VirtioTConsole => Some (queues_of t CONSOLE_MAX_QUEUES VIRTQUEUE_CONSOLE_MAX_SIZE)
       | _ => None end;
     call_notify := fun _ d _ w => Ok (d, w); dev_bytes := fun _ => [] |}.

Definition silent : fd_env := {| rx_answers := []; tx_answers := []; sent := [] |}.

(** Standard input, output and error, and the answers to come. *)
Definition res_base (ans : nat -> Z) : host_res :=
  {| r_fds := [0; 1; 2]; r_mon := monitor0; r_threads := 0; r_sync := 0; r_blocks := 0; r_bad := 0; r_stale := 0; r_event_mem := fun _ => true; r_answers := ans; r_next := 0 |}.

Lemma res_base_holds ans : holds true (res_base ans) nothing (res_base ans).
Proof.
  constructor; cbn; try done.
  - repeat (apply NoDup_cons; split; [intros Hx; repeat (apply elem_of_cons in Hx as [Hx|Hx]; [done|]); by apply elem_of_nil in Hx|]). apply NoDup_nil_2.
  - by repeat constructor.
  - apply monitor0_ok.
  - intros x. split; [by intros Hx; right|intros [Hx|Hx]; by apply elem_of_nil in Hx].
  - intros f p Hx. by apply elem_of_nil in Hx.
  - intros f p Hx. by apply elem_of_nil in Hx.
  - apply NoDup_nil_2.
  - intros f Hx. by apply elem_of_nil in Hx.
Qed.

(** No device made yet, and memory for those to come. *)
Definition host0 (r : host_res) : host backend (result host_res) :=
  {| h_env := Ok r; h_grants := fun _ => true; h_calls := 0; h_created := []; Config.h_closed := [] |}.

Definition res_daemon (ans : nat -> Z) : daemon backend (result host_res) :=
  {| dm_vdevs := []; dm_zones := table_ab; dm_host := host0 (res_base ans); dm_mmap := [] |}.

Definition res_device (ty addr : string) : json :=
  JObject [("status", JString "enable"); ("type", JString ty); ("addr", JString addr); ("len", JString "0x200"); ("irq", JNumber 75);
           ("img", JString "disk.img")]%string.

Definition res_doc : json :=
  JObject [("zone_id", JNumber 1); ("memory_region", JArray []);
           ("devices", JArray [res_device "blk" "0xa000000"; res_device "console" "0xa000200"])]%string.

(** A disk of eight sectors and a terminal; the second run fails at [ptsname], the
    twelfth answer. *)
Definition ans_ok (n : nat) : Z := if (n =? 5)%nat then 4096 else 0.
Definition ans_pty (n : nat) : Z := if (n =? 11)%nat then -1 else ans_ok n.

Abbreviation res_start ans :=
  (virtio_start_from_json (life := backend_life silent) (config_ops := backend_config_ops (fun _ => true)) (Some res_doc) (res_daemon ans)).

(** What is left of a run: return value, devices, descriptors, threads, locks,
    allocations and closes of a descriptor that was not open. *)
Definition res_summary (x : result (Z * daemon backend (result host_res))) : option (Z * nat * list Z * nat * nat * nat * nat) :=
  match x with
  | Ok (ret, dm) =>
      match h_env (dm_host dm) with
      | Ok r => Some (ret, length (dm_vdevs dm), r_fds r, r_threads r, r_sync r, r_blocks r, r_bad r)
      | Err _ => None
      end
  | Err _ => None
  end.

Lemma start_disk_run : exists dm', res_start ans_ok = Ok (0, dm') /\ length (dm_vdevs dm') = 2%nat.
Proof. eexists. split; vm_compute; reflexivity. Qed.

Lemma res_daemon_holds : daemon_holds (res_base ans_ok) (res_daemon ans_ok).
Proof. split; [constructor|]. exists (res_base ans_ok). split; [reflexivity|]. rewrite join_nothing_l. apply res_base_holds. Qed.

Lemma start_resources_exact_witness :
  exists dm', res_start ans_ok = Ok (0, dm') /\ daemon_holds (res_base ans_ok) dm' /\ length (dm_vdevs dm') = 2%nat.
Proof.
  destruct start_disk_run as (dm' & H & Hl). exists dm'. split; [exact H|]. split; [|exact Hl].
  exact (start_resources_exact silent (res_base ans_ok) (fun _ => true) (Some res_doc) (res_daemon ans_ok) dm' 0 res_daemon_holds H).
Defined.

(** Two devices started: a disk of eight sectors with its thread, mutex and condition
    variable, and a terminal with two descriptors. *)
Example start_disk_and_console : res_summary (res_start ans_ok) = Some (0, 2%nat, [5; 4; 3; 0; 1; 2], 1%nat, 2%nat, 2%nat, 0%nat).
Proof. vm_compute. reflexivity. Qed.

(** Without memory for the console's event the daemon stores through NULL. *)
Example event_object_unchecked :
  match virtio_start_from_json (life := backend_life silent) (config_ops := backend_config_ops (fun _ => true)) (Some res_doc)
          {| dm_vdevs := []; dm_zones := table_ab;
             dm_host := host0 {| r_fds := [0; 1; 2]; r_mon := monitor0; r_threads := 0; r_sync := 0; r_blocks := 0; r_bad := 0;
                                 r_stale := 0; r_event_mem := fun _ => false; r_answers := ans_ok; r_next := 0 |}; dm_mmap := [] |} with
  | Ok (_, dm) => h_env (dm_host dm) = Err NullDeref
  | Err _ => False
  end.
Proof. vm_compute. reflexivity. Qed.

(** When [ptsname] fails everything is given back, the disk too, but the console's
    [close] closes the master descriptor a second time. *)
Example console_master_closed_twice : res_summary (res_start ans_pty) = Some (-1, 0%nat, [0; 1; 2], 0%nat, 0%nat, 0%nat, 1%nat).
Proof. vm_compute. reflexivity. Qed.
