(* ===== verification/ConfigMem.v ===== *)
(** * Ownership of configuration parameters

    A configuration file is parsed into a [VirtioConfig] in place: every enabled
    device gets an object of parameters, made of one or more heap blocks, and the
    object is released by [free_virtio_config] however far the parsing or the start
    that follows it got.  This file has that code on a ledger of heap blocks: the
    parsers of the device types with their error paths, the parsing of devices, zones
    and the whole configuration, and the release.  Claims: the blocks live after
    parsing are exactly those the configuration refers to, and the release frees each
    of them once, whatever the document and whichever of these allocations fails; with
    memory available the result is that of [Config].  The buffer of the file itself is
    used unchecked, and its terminating zero byte is stored past the end of a file of
    whole pages: both are faults here. *)

From Stdlib Require Import String.
From S2P Require Import Prelude ZoneMem Device Mmio Json Config ScmiCore VirtioScmi Net Backends.

(** ** Heap blocks *)

(** Blocks are numbered by the calls of the allocator; [grants n] tells whether call
    [n] succeeds. *)
Record ledger := {
  grants : nat -> bool;
  calls : nat;
  live : list nat;
}.

Definition lm (A : Type) : Type := ledger -> result (A * ledger).

#[global] Instance lm_ret : MRet lm := fun A a g => Ok (a, g).
#[global] Instance lm_bind : MBind lm := fun A B k c g =>
  match c g with
  | Ok (a, g') => k a g'
  | Err f => Err f
  end.

Definition lm_alloc : lm (option nat) := fun g =>
  if grants g (calls g) then Ok (Some (calls g), {| grants := grants g; calls := S (calls g); live := calls g :: live g |})
  else Ok (None, {| grants := grants g; calls := S (calls g); live := live g |}).

(** [free]: of NULL nothing, of a block that is not live a fault. *)
Definition lm_free (p : option nat) : lm unit := fun g =>
  match p with
  | None => Ok (tt, g)
  | Some b =>
      if bool_decide (b ∈ live g) then Ok (tt, {| grants := grants g; calls := calls g; live := filter (fun x => x <> b) (live g) |})
      else Err UseAfterFree
  end.

(** ** Parameter objects *)

(** The object behind [params]: its blocks in the order they are freed. *)
Record params_obj := {
  po_blocks : list (option nat);
  po_value : init_params;
}.

Fixpoint free_blocks (l : list (option nat)) : lm unit :=
  match l with
  | [] => mret tt
  | p :: l' => _ ← lm_free p; free_blocks l'
  end.

(** [config_ops->free]: one block, or for the SCMI device the arrays and the object. *)
Definition free_params (o : params_obj) : lm unit := free_blocks (po_blocks o).

Section parse.
Context {J : Type} {cj : CJson J}.

(** [calloc], the checks of the value, [free] when one fails.  Return code, object. *)
Definition single_block (value : J -> Z * option init_params) (json : J) : lm (Z * option params_obj) :=
  p ← lm_alloc;
  match p with
  | None => mret (- ENOMEM, None)
  | Some b =>
      match value json with
      | (ret, None) => _ ← lm_free (Some b); mret (ret, None)
      | (ret, Some v) => mret (ret, Some {| po_blocks := [Some b]; po_value := v |})
      end
  end.

Definition blk_parse (json : J) : lm (Z * option params_obj) :=
  single_block (fun j => let '(ret, o) := virtio_blk_parse_params true j in (ret, PBlk <$> o)) json.

Definition net_parse (json : J) : lm (Z * option params_obj) :=
  single_block (fun j => let '(ret, o) := virtio_net_parse_params true j in (ret, PNet <$> o)) json.

(** [*out = NULL] *)
Definition console_parse (json : J) : lm (Z * option params_obj) := mret ((virtio_console_parse_params json).1, None).

(** Return code, block, array and count. *)
Definition id_array (json_array : option J) : lm (Z * option nat * option (list Z) * Z) :=
  match json_array with
  | None => mret (0, None, None, 0)
  | Some j =>
      if negb (cJSON_IsArray j) then mret (0, None, None, 0)
      else
        let count := cJSON_GetArraySize j in
        if count =? 0 then mret (0, None, None, 0)
        else
          p ← lm_alloc;
          match p with
          | None => mret (- ENOMEM, None, None, 0)
          | Some b =>
              match parse_ids j 0 (Z.to_nat count) with
              | None => _ ← lm_free (Some b); mret (- EINVAL, None, None, 0)
              | Some ids => mret (0, Some b, Some ids, u32 count)
              end
          end
  end.

(** [scmi_dev_free_params]. *)
Definition scmi_dev_free_params (b1 b2 b3 : option nat) (p : nat) : lm unit := free_blocks [b1; b2; b3; Some p].

Definition scmi_parse (json : J) : lm (Z * option params_obj) :=
  p ← lm_alloc;
  match p with
  | None => mret (- ENOMEM, None)
  | Some b =>
      '(r1, b1, ci, cc) ← id_array (cJSON_GetObjectItem json "clock_ids"%string);
      if r1 <? 0 then _ ← scmi_dev_free_params b1 None None b; mret (- EINVAL, None)
      else
        '(r2, b2, ri, rc) ← id_array (cJSON_GetObjectItem json "reset_ids"%string);
        if r2 <? 0 then _ ← scmi_dev_free_params b1 b2 None b; mret (- EINVAL, None)
        else
          '(r3, b3, pi, pc) ← id_array (cJSON_GetObjectItem json "power_ids"%string);
          if r3 <? 0 then _ ← scmi_dev_free_params b1 b2 b3 b; mret (- EINVAL, None)
          else mret (0, Some {| po_blocks := [b1; b2; b3; Some b];
                                po_value := PScmi {| p_clock_ids := ci; p_clock_count := cc; p_reset_ids := ri; p_reset_count := rc;
                                                     p_power_ids := pi; p_power_count := pc |} |})
  end.

(** [config_ops_table] of a build without the GPU. *)
Definition parse_of (t : VirtioDeviceType) : option (J -> lm (Z * option params_obj)) :=
  match t with
  | VirtioTBlock => Some blk_parse
  | VirtioTNet => Some net_parse
  | VirtioTConsole => Some console_parse
  | VirtioTSCMI => Some scmi_parse
  | _ => None
  end.

(** ** The configuration in place *)

(** A [VirtioDeviceConfig]; [sl_params] is the pointer. *)
Record dev_slot := {
  sl_type : VirtioDeviceType;
  sl_zone_id : Z;
  sl_addr : Z;
  sl_len : Z;
  sl_irq : Z;
  sl_enabled : bool;
  sl_ops : bool;   (* whether config_ops is set *)
  sl_params : option params_obj;
}.

(** [memset] to zero. *)
Definition slot_zero (zone_id : Z) : dev_slot :=
  {| sl_type := VirtioTNone; sl_zone_id := zone_id; sl_addr := 0; sl_len := 0; sl_irq := 0; sl_enabled := false; sl_ops := false; sl_params := None |}.

Definition slot_at (zone_id : Z) (t : VirtioDeviceType) (addr len irq : Z) (ops : bool) (p : option params_obj) : dev_slot :=
  {| sl_type := t; sl_zone_id := zone_id; sl_addr := addr; sl_len := len; sl_irq := irq; sl_enabled := true; sl_ops := ops; sl_params := p |}.

Definition free_virtio_device_config (c : dev_slot) : lm dev_slot :=
  _ ← match sl_params c with
      | Some o => if sl_ops c then free_params o else mret tt
      | None => mret tt
      end;
  mret {| sl_type := sl_type c; sl_zone_id := sl_zone_id c; sl_addr := sl_addr c; sl_len := sl_len c; sl_irq := sl_irq c;
          sl_enabled := sl_enabled c; sl_ops := sl_ops c; sl_params := None |}.

(** Return value and the slot as it is left. *)
Definition parse_device_at (device_json : option J) (zone_id : Z) : lm (Z * dev_slot) :=
  let item k := SAFE_CJSON_GET_OBJECT_ITEM device_json k in
  match item_string (item "status"%string) with
  | None => mret (-1, slot_zero zone_id)
  | Some status =>
      if String.eqb status "disable" then mret (0, slot_zero zone_id)
      else if negb (String.eqb status "enable") then mret (-1, slot_zero zone_id)
      else
        match tstr ← item_string (item "type"%string); parse_virtio_device_type tstr with
        | None => mret (-1, slot_at zone_id VirtioTNone 0 0 0 false None)
        | Some t =>
            match parse_json_u64 (item "addr"%string) with
            | None => mret (-1, slot_at zone_id t 0 0 0 false None)
            | Some addr =>
                match parse_json_u64 (item "len"%string) with
                | None => mret (-1, slot_at zone_id t addr 0 0 false None)
                | Some len =>
                    match parse_json_u32 (item "irq"%string) with
                    | None => mret (-1, slot_at zone_id t addr len 0 false None)
                    | Some irq =>
                        if (addr =? 0) || (len =? 0) || (irq =? 0) then mret (-1, slot_at zone_id t addr len irq false None)
                        else
                          match parse_of t, device_json with
                          | Some parse, Some j =>
                              '(r, p) ← parse j;
                              if negb (r =? 0) then c ← free_virtio_device_config (slot_at zone_id t addr len irq true p); mret (-1, c)
                              else mret (0, slot_at zone_id t addr len irq true p)
                          | _, _ => c ← free_virtio_device_config (slot_at zone_id t addr len irq false None); mret (-1, c)
                          end
                    end
                end
            end
        end
  end.

(** [for (i = 0; i < device_num; i++)]: the first [n] slots of the array, those after
    a failure still zero. *)
Fixpoint parse_devices_at (arr : option J) (zone_id i : Z) (n : nat) : lm (Z * list dev_slot) :=
  match n with
  | O => mret (0, [])
  | S n' =>
      '(r, c) ← parse_device_at (SAFE_CJSON_GET_ARRAY_ITEM arr i) zone_id;
      if negb (r =? 0) then mret (-1, c :: replicate n' (slot_zero 0))
      else '(r', cs) ← parse_devices_at arr zone_id (i + 1) n'; mret (r', c :: cs)
  end.

(** A [VirtioZoneConfig]: the arrays as far as their counts go. *)
Record zone_slot := {
  zs_zone_id : Z;
  zs_memory : list VirtioMemoryRegionConfig;
  zs_devices : list dev_slot;
}.

Definition zone_zero : zone_slot := {| zs_zone_id := 0; zs_memory := []; zs_devices := [] |}.

(** The memory regions after a failure are not looked at: [zs_memory] has those of a
    zone that parsed. *)
Definition parse_zone_at (zone_json : option J) : lm (Z * zone_slot) :=
  let item k := SAFE_CJSON_GET_OBJECT_ITEM zone_json k in
  let id := match item "id"%string with Some j => Some j | None => item "zone_id"%string end in
  match parse_json_u32 id with
  | None => mret (-1, zone_zero)
  | Some zone_id =>
      if Z.of_nat MAX_ZONES <=? zone_id then mret (-1, {| zs_zone_id := zone_id; zs_memory := []; zs_devices := [] |})
      else
        match parse_array parse_virtio_memory_region_config (item "memory_region"%string) (Z.of_nat CONFIG_MAX_MEMORY_REGIONS) with
        | None => mret (-1, {| zs_zone_id := zone_id; zs_memory := []; zs_devices := [] |})
        | Some mems =>
            let n := SAFE_CJSON_GET_ARRAY_SIZE (item "devices"%string) in
            if (n <? 0) || (MAX_DEVS <? n) then mret (-1, {| zs_zone_id := zone_id; zs_memory := mems; zs_devices := [] |})
            else
              '(r, cs) ← parse_devices_at (item "devices"%string) zone_id 0 (Z.to_nat n);
              mret (r, {| zs_zone_id := zone_id; zs_memory := mems; zs_devices := cs |})
        end
  end.

Fixpoint parse_zones_at (arr : option J) (i : Z) (n : nat) : lm (Z * list zone_slot) :=
  match n with
  | O => mret (0, [])
  | S n' =>
      '(r, z) ← parse_zone_at (SAFE_CJSON_GET_ARRAY_ITEM arr i);
      if negb (r =? 0) then mret (-1, z :: replicate n' zone_zero)
      else '(r', zs) ← parse_zones_at arr (i + 1) n'; mret (r', z :: zs)
  end.

(** Return value and the first [zone_num] zones. *)
Definition parse_config_at (root : J) : lm (Z * list zone_slot) :=
  match cJSON_GetObjectItemCaseSensitive root "zones"%string with
  | None => '(r, z) ← parse_zone_at (Some root); mret (r, [z])
  | Some zones =>
      let n := SAFE_CJSON_GET_ARRAY_SIZE (Some zones) in
      if (n <? 0) || (Z.of_nat MAX_ZONES <? n) then mret (-1, [])
      else parse_zones_at (Some zones) 0 (Z.to_nat n)
  end.

End parse.

Fixpoint free_devices (cs : list dev_slot) : lm (list dev_slot) :=
  match cs with
  | [] => mret []
  | c :: cs' => c' ← free_virtio_device_config c; cs'' ← free_devices cs'; mret (c' :: cs'')
  end.

Fixpoint free_virtio_config (zs : list zone_slot) : lm (list zone_slot) :=
  match zs with
  | [] => mret []
  | z :: zs' =>
      cs ← free_devices (zs_devices z); zs'' ← free_virtio_config zs';
      mret ({| zs_zone_id := zs_zone_id z; zs_memory := zs_memory z; zs_devices := cs |} :: zs'')
  end.

Definition lm_fault {A} (f : fault) : lm A := fun _ => Err f.

(** The size of the buffer [read_file] allocates: the file's, rounded up to pages. *)
Definition buffer_size (page st_size : Z) : Z := Z.land (st_size + page - 1) (Z.lnot (page - 1)).

(** [read_file] on a file that opens and reads, [len] bytes of [st_size]: what
    [malloc] returns goes to [memset] unchecked. *)
Definition read_file_buffer (page st_size : Z) : lm (option nat) :=
  buffer ← lm_alloc;
  match buffer with
  | Some buf => mret (Some buf)
  | None => if buffer_size page st_size =? 0 then mret None else lm_fault NullDeref
  end.

(** [virtio_start_from_json] as far as memory goes: the file's buffer with the zero
    byte stored behind the text, the document's tree, the parameters.  [doc] is the
    parsed document, [proceed] whether the steps between parsing and release succeed;
    they only read the configuration. *)
Definition start_from_json {J} {cj : CJson J} (page st_size len : Z) (doc : option J) (proceed : list zone_slot -> bool) : lm Z :=
  buffer ← read_file_buffer page st_size;
  match buffer with
  | None => mret (-1)
  | Some buf =>
      if buffer_size page st_size <=? len then lm_fault OutOfBounds
      else
        match doc with
        | None => _ ← lm_free (Some buf); mret (-1)
        | Some j =>
            root ← lm_alloc;
            match root with
            | None => _ ← lm_free (Some buf); mret (-1)
            | Some tree =>
                '(r, cfg) ← parse_config_at j;
                let err := if (r =? 0) && proceed cfg then 0 else -1 in
                _ ← free_virtio_config cfg;
                _ ← lm_free (Some tree);
                _ ← lm_free (Some buf);
                mret err
            end
        end
  end.

(** ** Accounting *)

(** On top of [base], exactly the blocks [bs] are live; the allocator is [gr]. *)
Record owes (base : list nat) (gr : nat -> bool) (bs : list nat) (g : ledger) : Prop := {
  ow_grants : grants g = gr;
  ow_live : live g ≡ₚ bs ++ base;
  ow_nodup : NoDup (live g);
  ow_old : Forall (fun b => (b < calls g)%nat) (live g);
}.

Lemma owes_equiv base gr bs bs' g : bs ≡ₚ bs' -> owes base gr bs g -> owes base gr bs' g.
Proof. intros Hp [H0 H1 H2 H3]. split; [done|by rewrite <- Hp|done|done]. Qed.

(** [c] runs without a fault, to a result and a ledger in [Q]. *)
Definition lwp {A} (c : lm A) (g : ledger) (Q : A -> ledger -> Prop) : Prop := exists a g', c g = Ok (a, g') /\ Q a g'.

Lemma lwp_ret {A} (a : A) g (Q : A -> ledger -> Prop) : Q a g -> lwp (mret a) g Q.
Proof. intros H. by exists a, g. Qed.

Lemma lwp_bind {A B} (c : lm A) (k : A -> lm B) g Q : lwp c g (fun a g' => lwp (k a) g' Q) -> lwp (c ≫= k) g Q.
Proof. intros (a & g' & Hc & Hk). unfold lwp, mbind, lm_bind. by rewrite Hc. Qed.

Lemma lwp_conseq {A} (c : lm A) g (Q Q' : A -> ledger -> Prop) : lwp c g Q -> (forall a g', Q a g' -> Q' a g') -> lwp c g Q'.
Proof. intros (a & g' & Hc & HQ) HI. exists a, g'. split; [done|by apply HI]. Qed.

Section accounting.
Context (base : list nat) (gr : nat -> bool).
Abbreviation owes := (owes base gr).

(** Every allocation succeeds. *)
Definition generous : Prop := forall n, gr n = true.

(** A granted call adds its block. *)
Lemma owes_push bs g : owes bs g -> owes (calls g :: bs) {| grants := grants g; calls := S (calls g); live := calls g :: live g |}.
Proof.
  intros [H0 H1 H2 H3]. split; cbn; [done|by rewrite H1| |constructor; [lia|eapply Forall_impl; [exact H3|intros; cbn in *; lia] ] ].
  apply NoDup_cons. split; [|done]. intros Hin. rewrite Forall_forall in H3. specialize (H3 _ Hin). lia.
Qed.

Lemma lwp_alloc bs g (Q : option nat -> ledger -> Prop) : owes bs g ->
  (forall g', owes bs g' -> ~ generous -> Q None g') -> (forall b g', owes (b :: bs) g' -> Q (Some b) g') -> lwp lm_alloc g Q.
Proof.
  intros Hg HN HS. pose proof (owes_push bs g Hg) as Hp. destruct Hg as [H0 H1 H2 H3].
  unfold lwp, lm_alloc. destruct (grants g (calls g)) eqn:Eg; eexists _, _; (split; [reflexivity|]).
  - by apply HS.
  - apply HN; [split; cbn; [done|done|done|eapply Forall_impl; [exact H3|intros; cbn in *; lia] ]|]. intros Hgen. rewrite H0, Hgen in Eg. done.
Qed.

(** The blocks of a list of pointers. *)
Definition blocks_of (l : list (option nat)) : list nat := omap id l.

Lemma filter_out b (l k : list nat) : NoDup l -> l ≡ₚ b :: k -> filter (fun x => x <> b) l ≡ₚ k.
Proof.
  intros Hn Hp. rewrite Hp in Hn |- *. apply NoDup_cons in Hn as [Hb _]. rewrite filter_cons_False by tauto.
  clear Hp l. induction k as [|x k IH]; [done|]. rewrite filter_cons_True by (intros ->; apply Hb; by left). f_equiv. apply IH. intros H. apply Hb. by right.
Qed.

Lemma lwp_free p bs g (Q : unit -> ledger -> Prop) : owes (blocks_of [p] ++ bs) g -> (forall g', owes bs g' -> Q tt g') -> lwp (lm_free p) g Q.
Proof.
  intros [H0 H1 H2 H3] HQ. unfold lwp, lm_free. destruct p as [b|]; [|eexists _, _; split; [reflexivity|]; by apply HQ]. cbn in H1.
  rewrite bool_decide_eq_true_2 by (rewrite H1; by left). eexists _, _. split; [reflexivity|]. apply HQ. split; cbn.
  - done.
  - by apply filter_out.
  - by apply NoDup_filter.
  - apply Forall_forall. intros x Hx. apply list_elem_of_filter in Hx as [_ Hx]. rewrite Forall_forall in H3. by apply H3.
Qed.

Lemma lwp_free_blocks l : forall bs g (Q : unit -> ledger -> Prop), owes (blocks_of l ++ bs) g -> (forall g', owes bs g' -> Q tt g') -> lwp (free_blocks l) g Q.
Proof.
  induction l as [|p l IH]; intros bs g Q H HQ; cbn [free_blocks]; [by apply lwp_ret, HQ|]. apply lwp_bind.
  apply lwp_free with (bs := blocks_of l ++ bs); [|intros g' H'; by apply (IH bs)].
  eapply owes_equiv; [|exact H]. unfold blocks_of. cbn. by destruct p.
Qed.

Definition obj_blocks (o : option params_obj) : list nat := match o with Some o => blocks_of (po_blocks o) | None => [] end.

(** ** The parsers *)

Section parsers.
Context {J : Type} {cj : CJson J}.

(** The value behind a pointer to parameters; only the console has none. *)
Definition obj_value (o : option params_obj) : init_params := match o with Some o => po_value o | None => PConsole end.

(** A return code and pointer that stand for [v]. *)
Definition stands_for (ret : Z) (o : option params_obj) (v : option init_params) : Prop :=
  match v with
  | Some v => ret = 0 /\ obj_value o = v
  | None => ret <> 0
  end.

(** A parser leaves the blocks of the object it returns, none when it fails, and
    parses [value]. *)
Definition parser_ok (parse : J -> lm (Z * option params_obj)) (value : J -> option init_params) : Prop :=
  forall j bs g, owes bs g -> lwp (parse j) g (fun x g' => owes (obj_blocks x.2 ++ bs) g' /\ (x.1 <> 0 -> x.2 = None) /\ (generous -> stands_for x.1 x.2 (value j))).

(** A value function returns 0 with a value and an error without. *)
Definition coded (value : J -> Z * option init_params) : Prop :=
  forall j, match (value j).2 with Some _ => (value j).1 = 0 | None => (value j).1 <> 0 end.

(** An allocation that failed. *)
Ltac refused Hn := apply lwp_ret; (split; [done|]); try (split; [done|]); intros Hgen; by destruct (Hn Hgen).

Lemma single_block_ok value : coded value -> parser_ok (single_block value) (fun j => (value j).2).
Proof.
  intros Hv j bs g Hg. unfold single_block. apply lwp_bind. apply lwp_alloc with (bs := bs); [done|intros g1 H1 Hn; refused Hn|].
  intros b g1 H1. specialize (Hv j). destruct (value j) as [ret [v|] ]; cbn in Hv.
  - apply lwp_ret. split; [exact H1|]. split; [done|]. intros _. by split.
  - apply lwp_bind. apply lwp_free with (bs := bs); [exact H1|]. intros g2 H2. by apply lwp_ret.
Qed.

Lemma blk_parse_ok : parser_ok blk_parse (fun j => PBlk <$> (virtio_blk_parse_params true j).2).
Proof.
  pose proof (single_block_ok (fun j => let '(ret, o) := virtio_blk_parse_params true j in (ret, PBlk <$> o))) as H.
  assert (coded (fun j => let '(ret, o) := virtio_blk_parse_params true j in (ret, PBlk <$> o))) as Hc.
  { intros j. unfold virtio_blk_parse_params. cbn [negb]. destruct (cJSON_GetObjectItem j "img"); [|done]. destruct (_ || _); [done|]. by destruct (_ <=? _). }
  intros j bs g Hg. eapply lwp_conseq; [by apply (H Hc j bs)|]. intros x g' (H1 & H2 & H3). split; [done|]. split; [done|]. by destruct (virtio_blk_parse_params true j).
Qed.

Lemma net_parse_ok : parser_ok net_parse (fun j => PNet <$> (virtio_net_parse_params true j).2).
Proof.
  pose proof (single_block_ok (fun j => let '(ret, o) := virtio_net_parse_params true j in (ret, PNet <$> o))) as H.
  assert (coded (fun j => let '(ret, o) := virtio_net_parse_params true j in (ret, PNet <$> o))) as Hc.
  { intros j. unfold virtio_net_parse_params. cbn [negb]. destruct (cJSON_GetObjectItem j "tap"); [|done]. destruct (_ || _); [done|]. destruct (_ <=? _); [done|].
    destruct (cJSON_GetObjectItem j "mac"); [|done]. destruct (negb _); [done|]. by destruct (parse_mac _ _ _). }
  intros j bs g Hg. eapply lwp_conseq; [by apply (H Hc j bs)|]. intros x g' (H1 & H2 & H3). split; [done|]. split; [done|]. by destruct (virtio_net_parse_params true j).
Qed.

Lemma console_parse_ok : parser_ok console_parse (fun j => Some (virtio_console_parse_params j).2).
Proof. intros j bs g Hg. by apply lwp_ret. Qed.

Lemma id_array_ok (o : option J) bs g : owes bs g ->
  lwp (id_array o) g (fun x g' => owes (blocks_of [x.1.1.2] ++ bs) g' /\ (generous -> parse_id_array true o = (x.1.1.1, x.1.2, x.2))).
Proof.
  intros Hg. unfold id_array, parse_id_array. destruct o as [j|]; [|by apply lwp_ret]. destruct (negb _); [by apply lwp_ret|]. destruct (_ =? 0); [by apply lwp_ret|].
  apply lwp_bind. apply lwp_alloc with (bs := bs); [done|intros g1 H1 Hn; refused Hn|]. intros b g1 H1. destruct (parse_ids _ _ _); [by apply lwp_ret|].
  apply lwp_bind. apply lwp_free with (bs := bs); [exact H1|]. intros g2 H2. by apply lwp_ret.
Qed.

(** The blocks of several pointers, whichever are NULL. *)
Ltac same_blocks := unfold blocks_of; repeat match goal with b : option nat |- _ => destruct b end; cbn; solve_Permutation.

Lemma scmi_parse_ok : parser_ok scmi_parse (fun j => PScmi <$> (virtio_scmi_parse_params (fun _ => true) j).2).
Proof.
  intros j bs g Hg. unfold scmi_parse, virtio_scmi_parse_params. cbn [negb]. apply lwp_bind. apply lwp_alloc with (bs := bs); [done|intros g1 H1 Hn; refused Hn|]. intros b g1 H1.
  assert (forall b1 b2 b3 g2 v, owes (blocks_of [b1; b2; b3; Some b] ++ bs) g2 -> (generous -> v = None) ->
    lwp (_ ← scmi_dev_free_params b1 b2 b3 b; mret (- EINVAL, None)) g2
      (fun (x : Z * option params_obj) g' => owes (obj_blocks x.2 ++ bs) g' /\ (x.1 <> 0 -> x.2 = None) /\ (generous -> stands_for x.1 x.2 v))) as Hfail.
  { intros b1 b2 b3 g2 v H2 Hv. apply lwp_bind. apply lwp_free_blocks with (bs := bs); [exact H2|]. intros g3 H3. apply lwp_ret. split; [done|]. split; [done|].
    intros Hgen. by rewrite (Hv Hgen). }
  apply lwp_bind. eapply lwp_conseq; [by apply (id_array_ok _ (b :: bs))|]. intros [ [ [r1 b1] ci] cc] g2 [H2 V1]. cbn in H2, V1.
  destruct (r1 <? 0) eqn:E1; [apply Hfail; [eapply owes_equiv; [|exact H2]; same_blocks|intros Hgen; by rewrite (V1 Hgen), E1]|].
  apply lwp_bind. eapply lwp_conseq; [by apply (id_array_ok _ _ _ H2)|]. intros [ [ [r2 b2] ri] rc] g3 [H3 V2]. cbn in H3, V2.
  destruct (r2 <? 0) eqn:E2; [apply Hfail; [eapply owes_equiv; [|exact H3]; same_blocks|intros Hgen; by rewrite (V1 Hgen), E1, (V2 Hgen), E2]|].
  apply lwp_bind. eapply lwp_conseq; [by apply (id_array_ok _ _ _ H3)|]. intros [ [ [r3 b3] pi] pc] g4 [H4 V3]. cbn in H4, V3.
  assert (owes (blocks_of [b1; b2; b3; Some b] ++ bs) g4) as H5 by (eapply owes_equiv; [|exact H4]; same_blocks).
  destruct (r3 <? 0) eqn:E3; [apply Hfail; [done|intros Hgen; by rewrite (V1 Hgen), E1, (V2 Hgen), E2, (V3 Hgen), E3]|].
  apply lwp_ret. split; [exact H5|]. split; [done|]. intros Hgen. by rewrite (V1 Hgen), E1, (V2 Hgen), E2, (V3 Hgen), E3.
Qed.

Abbreviation values := (backend_config_ops (fun _ => true)).

Lemma parse_of_ok t : match parse_of t with
  | Some parse => exists value, @config_ops_table J init_params values t = Some value /\ parser_ok parse value
  | None => @config_ops_table J init_params values t = None
  end.
Proof.
  destruct t; cbn; try done; (eexists; split; [reflexivity|]); [apply net_parse_ok|apply blk_parse_ok|apply console_parse_ok|apply scmi_parse_ok].
Qed.

(** ** The configuration *)

Definition slot_blocks (c : dev_slot) : list nat := obj_blocks (sl_params c).
Definition zone_blocks (z : zone_slot) : list nat := zs_devices z ≫= slot_blocks.
Definition config_blocks (zs : list zone_slot) : list nat := zs ≫= zone_blocks.

(** A slot with parameters has the function that frees them. *)
Definition slot_ok (c : dev_slot) : Prop := is_Some (sl_params c) -> sl_ops c = true.
Definition zone_ok (z : zone_slot) : Prop := Forall slot_ok (zs_devices z).

Lemma free_device_ok c bs g (Q : dev_slot -> ledger -> Prop) : slot_ok c -> owes (slot_blocks c ++ bs) g ->
  (forall c' g', sl_params c' = None -> owes bs g' -> Q c' g') -> lwp (free_virtio_device_config c) g Q.
Proof.
  intros Hc Hg HQ. unfold free_virtio_device_config. apply lwp_bind. unfold slot_blocks in Hg. destruct (sl_params c) as [o|] eqn:Ep.
  - rewrite Hc by (by rewrite Ep). apply lwp_free_blocks with (bs := bs); [exact Hg|]. intros g' H'. by apply lwp_ret, HQ.
  - apply lwp_ret, lwp_ret. by apply HQ.
Qed.

(** A slot, a zone and a configuration as [Config] has them. *)
Definition slot_matches (c : dev_slot) (d : VirtioDeviceConfig init_params) : Prop :=
  cfg_type d = sl_type c /\ cfg_zone_id d = sl_zone_id c /\ cfg_addr d = sl_addr c /\ cfg_len d = sl_len c /\ cfg_irq d = sl_irq c /\
  cfg_enabled d = sl_enabled c /\ cfg_params d = if sl_enabled c then Some (obj_value (sl_params c)) else None.

Definition zone_matches (z : zone_slot) (c : VirtioZoneConfig init_params) : Prop :=
  zc_zone_id c = zs_zone_id z /\ zc_memory_regions c = zs_memory z /\ Forall2 slot_matches (zs_devices z) (zc_devices c).

(** A return code and what was left in place, against a parse of [Config]. *)
Definition agrees {A B} (R : A -> B -> Prop) (x : Z * A) (o : option B) : Prop :=
  match o with
  | Some b => x.1 = 0 /\ R x.2 b
  | None => x.1 <> 0
  end.

Lemma parse_device_ok o z bs g : owes bs g ->
  lwp (parse_device_at o z) g (fun x g' => owes (slot_blocks x.2 ++ bs) g' /\ slot_ok x.2 /\
    (generous -> agrees slot_matches x (parse_virtio_device_config (config_ops := values) o z))).
Proof.
  intros Hg.
  assert (forall c, sl_params c = None -> lwp (mret (-1, c)) g (fun x g' => owes (slot_blocks x.2 ++ bs) g' /\ slot_ok x.2 /\ (generous -> agrees slot_matches x None))) as Hret.
  { intros c Hc. apply lwp_ret. unfold slot_blocks, slot_ok. cbn. rewrite Hc. split; [exact Hg|]. split; [by intros [? ?]|done]. }
  assert (forall c g1 v, slot_ok c -> owes (slot_blocks c ++ bs) g1 -> (generous -> v = None) ->
    lwp (c' ← free_virtio_device_config c; mret (-1, c')) g1 (fun x g' => owes (slot_blocks x.2 ++ bs) g' /\ slot_ok x.2 /\ (generous -> agrees slot_matches x v))) as Hfree.
  { intros c g1 v Hc H1 Hv. apply lwp_bind. apply free_device_ok with (bs := bs); [done|exact H1|]. intros c' g2 Hc' H2. apply lwp_ret. unfold slot_blocks, slot_ok. cbn. rewrite Hc'.
    split; [exact H2|]. split; [by intros [? ?]|]. intros Hgen. by rewrite (Hv Hgen). }
  unfold parse_device_at, parse_virtio_device_config. destruct (item_string (SAFE_CJSON_GET_OBJECT_ITEM o "status")) as [status|]; [cbn [mbind option_bind]|by apply Hret].
  destruct (String.eqb status "disable"); [apply lwp_ret; split; [exact Hg|]; split; [by intros [? ?]|]; intros _; split; [done|by repeat split]|]. destruct (negb _); [by apply Hret|].
  destruct (item_string (SAFE_CJSON_GET_OBJECT_ITEM o "type")) as [ts|]; cbn [mbind option_bind]; [|by apply Hret].
  destruct (parse_virtio_device_type ts) as [t|]; cbn [mbind option_bind]; [|by apply Hret].
  destruct (parse_json_u64 (SAFE_CJSON_GET_OBJECT_ITEM o "addr")) as [addr|]; cbn [mbind option_bind]; [|by apply Hret].
  destruct (parse_json_u64 (SAFE_CJSON_GET_OBJECT_ITEM o "len")) as [len|]; cbn [mbind option_bind]; [|by apply Hret].
  destruct (parse_json_u32 (SAFE_CJSON_GET_OBJECT_ITEM o "irq")) as [irq|]; cbn [mbind option_bind]; [|by apply Hret].
  destruct (_ || _); [by apply Hret|]. pose proof (parse_of_ok t) as Hp.
  assert (lookup_config_ops t = @config_ops_table J init_params values t) as -> by (unfold lookup_config_ops; by destruct t).
  destruct (parse_of t) as [parse|]; [destruct Hp as (value & Hv & Hp); rewrite Hv|rewrite Hp; by apply Hfree; [intros [? ?]|exact Hg|] ].
  destruct o as [j|]; cbn [mbind option_bind]; [|by apply Hfree; [intros [? ?]|exact Hg|] ].
  apply lwp_bind. eapply lwp_conseq; [by apply (Hp j)|]. intros [r p] g1 (H1 & Hnull & Hval). cbn [fst snd] in H1, Hnull, Hval. unfold stands_for in Hval. destruct (r =? 0) eqn:Er; cbn [negb].
  - apply lwp_ret. split; [exact H1|]. split; [done|]. intros Hgen. specialize (Hval Hgen). destruct (value j) as [v|]; cbn [mbind option_bind]; [|lia]. destruct Hval as [_ <-]. by repeat split.
  - apply Hfree; [done|exact H1|]. intros Hgen. specialize (Hval Hgen). destruct (value j); [lia|done].
Qed.

Lemma parse_devices_ok arr z n : forall i bs g, owes bs g ->
  lwp (parse_devices_at arr z i n) g (fun x g' => owes ((x.2 ≫= slot_blocks) ++ bs) g' /\ Forall slot_ok x.2 /\
    (generous -> agrees (Forall2 slot_matches) x (parse_items (fun j => parse_virtio_device_config (config_ops := values) j z) arr i n))).
Proof.
  induction n as [|n IH]; intros i bs g Hg; cbn [parse_devices_at parse_items]; [apply lwp_ret; split; [exact Hg|]; split; [constructor|]; intros _; split; [done|constructor]|]. apply lwp_bind. eapply lwp_conseq; [by apply parse_device_ok|].
  intros [r c] g1 (H1 & Hc & Hv). cbn [fst snd] in H1, Hc. unfold agrees in Hv. cbn [fst snd] in Hv. destruct (r =? 0) eqn:Er; cbn [negb].
  - apply lwp_bind. eapply lwp_conseq; [by apply IH|]. intros [r' cs] g2 (H2 & Hcs & Hvs). apply lwp_ret. cbn [snd] in *. split; [|split; [by constructor|] ].
    + eapply owes_equiv; [|exact H2]. cbn. solve_Permutation.
    + intros Hgen. specialize (Hv Hgen). specialize (Hvs Hgen). destruct (parse_virtio_device_config _ z) as [d|]; cbn [mbind option_bind]; [|lia].
      destruct (parse_items _ arr (i + 1) n) as [ds|]; cbn [mbind option_bind]; unfold agrees in *; cbn [fst snd] in *; [|done]. destruct Hv, Hvs. split; [done|by constructor].
  - apply lwp_ret. cbn [snd]. split; [|split; [constructor; [done|apply Forall_replicate; by intros [? ?] ]|] ].
    + assert ((c :: replicate n (slot_zero 0)) ≫= slot_blocks = slot_blocks c) as ->; [|exact H1].
      cbn. rewrite <- (app_nil_r (slot_blocks c)) at 2. f_equal. clear. by induction n.
    + intros Hgen. specialize (Hv Hgen). destruct (parse_virtio_device_config _ z) as [d|]; [lia|done].
Qed.

Lemma parse_zone_ok o bs g : owes bs g -> lwp (parse_zone_at o) g (fun x g' => owes (zone_blocks x.2 ++ bs) g' /\ zone_ok x.2 /\
  (generous -> agrees zone_matches x (parse_virtio_zone_config (config_ops := values) o))).
Proof.
  intros Hg. assert (forall z, zs_devices z = [] -> lwp (mret (-1, z)) g (fun x g' => owes (zone_blocks x.2 ++ bs) g' /\ zone_ok x.2 /\ (generous -> agrees zone_matches x None))) as Hret.
  { intros z Hz. apply lwp_ret. unfold zone_blocks, zone_ok. cbn. rewrite Hz. split; [exact Hg|]. split; [constructor|done]. }
  unfold parse_zone_at, parse_virtio_zone_config. destruct (parse_json_u32 _) as [zid|]; cbn [mbind option_bind]; [|by apply Hret]. destruct (_ <=? zid); [by apply Hret|].
  destruct (parse_array parse_virtio_memory_region_config _ _) as [mems|]; cbn [mbind option_bind]; [|by apply Hret]. unfold parse_array.
  destruct (_ || _); [by apply Hret|]. apply lwp_bind. eapply lwp_conseq; [by apply parse_devices_ok|]. intros [r cs] g1 (H1 & H2 & H3). apply lwp_ret.
  split; [exact H1|]. split; [exact H2|]. intros Hgen. specialize (H3 Hgen). destruct (parse_items _ _ _ _) as [ds|]; cbn [mbind option_bind]; unfold agrees in *; cbn [fst snd] in *; [|done].
  destruct H3. by repeat split.
Qed.

Lemma parse_zones_ok arr n : forall i bs g, owes bs g ->
  lwp (parse_zones_at arr i n) g (fun x g' => owes (config_blocks x.2 ++ bs) g' /\ Forall zone_ok x.2 /\
    (generous -> agrees (Forall2 zone_matches) x (parse_items (parse_virtio_zone_config (config_ops := values)) arr i n))).
Proof.
  induction n as [|n IH]; intros i bs g Hg; cbn [parse_zones_at parse_items]; [apply lwp_ret; split; [exact Hg|]; split; [constructor|]; intros _; split; [done|constructor]|]. apply lwp_bind. eapply lwp_conseq; [by apply parse_zone_ok|].
  intros [r z] g1 (H1 & Hz & Hv). cbn [fst snd] in H1, Hz. unfold agrees in Hv. cbn [fst snd] in Hv. destruct (r =? 0) eqn:Er; cbn [negb].
  - apply lwp_bind. eapply lwp_conseq; [by apply IH|]. intros [r' zs] g2 (H2 & Hzs & Hvs). apply lwp_ret. cbn [snd] in *. split; [|split; [by constructor|] ].
    + eapply owes_equiv; [|exact H2]. unfold config_blocks. cbn. solve_Permutation.
    + intros Hgen. specialize (Hv Hgen). specialize (Hvs Hgen). destruct (parse_virtio_zone_config _) as [d|]; cbn [mbind option_bind]; [|lia].
      destruct (parse_items _ arr (i + 1) n) as [ds|]; cbn [mbind option_bind]; unfold agrees in *; cbn [fst snd] in *; [|done]. destruct Hv, Hvs. split; [done|by constructor].
  - apply lwp_ret. cbn [snd]. split; [|split; [constructor; [done|apply Forall_replicate; constructor]|] ].
    + assert (config_blocks (z :: replicate n zone_zero) = zone_blocks z) as ->; [|exact H1].
      unfold config_blocks. cbn. rewrite <- (app_nil_r (zone_blocks z)) at 2. f_equal. clear. by induction n.
    + intros Hgen. specialize (Hv Hgen). destruct (parse_virtio_zone_config _) as [d|]; [lia|done].
Qed.

Lemma parse_config_ok root bs g : owes bs g -> lwp (parse_config_at root) g (fun x g' => owes (config_blocks x.2 ++ bs) g' /\ Forall zone_ok x.2 /\
  (generous -> agrees (Forall2 zone_matches) x (parse_virtio_config (config_ops := values) root))).
Proof.
  intros Hg. unfold parse_config_at, parse_virtio_config. destruct (cJSON_GetObjectItemCaseSensitive _ _) as [zs|].
  - unfold parse_array. destruct (_ || _); [apply lwp_ret; split; [exact Hg|]; split; [constructor|done]|]. by apply parse_zones_ok.
  - apply lwp_bind. eapply lwp_conseq; [by apply parse_zone_ok|]. intros [r z] g1 (H1 & Hz & Hv). apply lwp_ret. split; [|split; [by repeat constructor|] ].
    + unfold config_blocks. cbn. rewrite app_nil_r. exact H1.
    + intros Hgen. specialize (Hv Hgen). destruct (parse_virtio_zone_config _) as [d|]; cbn [mbind option_bind]; unfold agrees in *; cbn [fst snd] in *; [|done].
      destruct Hv. split; [done|]. constructor; [done|constructor].
Qed.

Lemma free_devices_ok cs : forall bs g (Q : list dev_slot -> ledger -> Prop), Forall slot_ok cs -> owes ((cs ≫= slot_blocks) ++ bs) g ->
  (forall cs' g', Forall (fun c => sl_params c = None) cs' -> owes bs g' -> Q cs' g') -> lwp (free_devices cs) g Q.
Proof.
  induction cs as [|c cs IH]; intros bs g Q Hc Hg HQ; cbn [free_devices]; [by apply lwp_ret, HQ|]. apply Forall_cons in Hc as [Hc Hcs]. apply lwp_bind.
  apply free_device_ok with (bs := (cs ≫= slot_blocks) ++ bs); [done|cbn in Hg; by rewrite <- app_assoc in Hg|]. intros c' g1 Hc' H1. apply lwp_bind.
  apply (IH bs); [done|exact H1|]. intros cs' g2 Hcs' H2. apply lwp_ret, HQ; [by constructor|done].
Qed.

Lemma free_config_ok zs : forall bs g (Q : list zone_slot -> ledger -> Prop), Forall zone_ok zs -> owes (config_blocks zs ++ bs) g ->
  (forall zs' g', config_blocks zs' = [] -> owes bs g' -> Q zs' g') -> lwp (free_virtio_config zs) g Q.
Proof.
  induction zs as [|z zs IH]; intros bs g Q Hz Hg HQ; cbn [free_virtio_config]; [by apply lwp_ret, HQ|]. apply Forall_cons in Hz as [Hz Hzs]. apply lwp_bind.
  apply (free_devices_ok _ (config_blocks zs ++ bs)); [done|unfold config_blocks in Hg; cbn in Hg; by rewrite <- app_assoc in Hg|]. intros cs g1 Hcs H1. apply lwp_bind.
  apply (IH bs); [done|exact H1|]. intros zs' g2 Hzs' H2. apply lwp_ret, HQ; [|done]. unfold config_blocks, zone_blocks in *. cbn. rewrite Hzs', app_nil_r.
  induction Hcs as [|c cs Hc _ IHc]; [done|]. cbn. rewrite IHc. unfold slot_blocks. by rewrite Hc.
Qed.

(** ** Theorems *)

Lemma start_from_json_ok page st_size len (doc : option J) proceed g :
  owes [] g -> gr (calls g) = true -> len < buffer_size page st_size ->
  lwp (start_from_json page st_size len doc proceed) g (fun _ g' => owes [] g').
Proof.
  intros Hg Hbuf Hlen. unfold start_from_json, read_file_buffer. apply lwp_bind, lwp_bind.
  assert (lm_alloc g = Ok (Some (calls g), {| grants := grants g; calls := S (calls g); live := calls g :: live g |})) as Ea
    by (unfold lm_alloc; by rewrite (ow_grants _ _ _ _ Hg), Hbuf).
  eexists _, _. split; [exact Ea|]. apply lwp_ret. replace (_ <=? len) with false by lia.
  pose proof (owes_push [] g Hg) as H1. clear Ea. revert H1. generalize (calls g) as buf. intros buf. generalize {| grants := grants g; calls := S (calls g); live := buf :: live g |}.
  intros g1 H1.
  destruct doc as [j|]; [|apply lwp_bind; apply lwp_free with (bs := []); [exact H1|]; intros g2 H2; by apply lwp_ret].
  apply lwp_bind. apply lwp_alloc with (bs := [buf]); [done|intros g2 H2 _; apply lwp_bind; apply lwp_free with (bs := []); [exact H2|]; intros g3 H3; by apply lwp_ret|].
  intros tree g2 H2. apply lwp_bind. eapply lwp_conseq; [by apply parse_config_ok|]. intros [r cfg] g3 (H3 & Hz & _). cbn [snd] in H3, Hz.
  apply lwp_bind. apply (free_config_ok cfg [tree; buf]); [done|exact H3|]. intros cfg' g4 _ H4.
  apply lwp_bind. apply lwp_free with (bs := [buf]); [exact H4|]. intros g5 H5. apply lwp_bind. apply lwp_free with (bs := []); [exact H5|]. intros g6 H6. by apply lwp_ret.
Qed.

End parsers.
End accounting.

(** The allocator has handed out every live block, each once. *)
Definition ledger_ok (g : ledger) : Prop := NoDup (live g) /\ Forall (fun b => (b < calls g)%nat) (live g).

Lemma ledger_owes g : ledger_ok g -> owes (live g) (grants g) [] g.
Proof. intros [H1 H2]. by split. Qed.

(** C32: Starting or adding devices from a configuration file that can be read, whose
    buffer is allocated and has room for the zero byte behind the text, gives back
    every block of memory it took, exactly once: the file's buffer, the document, and
    the parameters of every device, those of the devices parsed before a failure
    included, whatever the document holds, whichever allocation after the file's
    buffer fails and whether or not the steps after the parsing succeed.  No block is
    freed twice and none that was live before is freed.  The two conditions are those
    [file_buffer_unchecked] and [page_sized_file_overruns] below violate. *)
Theorem config_params_released {J} {cj : CJson J} page st_size len (doc : option J) proceed g :
  ledger_ok g -> grants g (calls g) = true -> len < buffer_size page st_size ->
  exists err g', start_from_json page st_size len doc proceed g = Ok (err, g') /\ live g' ≡ₚ live g.
Proof.
  intros Hg Hb Hl. destruct (start_from_json_ok (live g) (grants g) page st_size len doc proceed g (ledger_owes g Hg) Hb Hl)
    as (err & g' & H & [_ Hlv _ _]). by exists err, g'.
Qed.

(** Parsing a configuration in place agrees with the parsing of [Config] when memory
    is available, and in every case the live blocks are those of the parameters left
    in place. *)
Lemma parse_in_place_agrees {J} {cj : CJson J} (root : J) g :
  ledger_ok g -> (forall n, grants g n = true) ->
  exists r zs g', parse_config_at root g = Ok ((r, zs), g') /\ live g' ≡ₚ config_blocks zs ++ live g /\
    match parse_virtio_config (config_ops := backend_config_ops (fun _ => true)) root with
    | Some cfg => r = 0 /\ Forall2 zone_matches zs cfg
    | None => r <> 0
    end.
Proof.
  intros Hg Hgen. destruct (parse_config_ok (live g) (grants g) root [] g (ledger_owes g Hg)) as ( [r zs] & g' & H & [_ Hl _ _] & _ & Ha).
  exists r, zs, g'. split; [done|]. split; [by rewrite app_nil_r in Hl|]. exact (Ha Hgen).
Qed.

(** ** Witnesses *)

#[local] Existing Instance json_cjson.

(** Memory runs out at the fourth call, while the second device is parsed. *)
Definition ledger0 (fails : nat) : ledger := {| grants := fun n => negb (n =? fails)%nat; calls := 1; live := [0%nat] |}.

Lemma ledger0_ok fails : ledger_ok (ledger0 fails).
Proof. split; [apply NoDup_singleton|constructor; [cbn; lia|constructor] ]. Qed.

Definition two_disks : json :=
  JObject [("zone_id", JNumber 1); ("memory_region", JArray []); ("devices", JArray [res_device "blk" "0xa000000"; res_device "blk" "0xa000200"])]%string.

Lemma config_params_released_witness :
  exists g', start_from_json 4096 300 300 (Some two_disks) (fun _ => true) (ledger0 4) = Ok (-1, g') /\ live g' ≡ₚ [0%nat].
Proof.
  destruct (config_params_released 4096 300 300 (Some two_disks) (fun _ => true) (ledger0 4) (ledger0_ok 4)) as (err & g' & H & Hl);
    [reflexivity|reflexivity|]. exists g'. split; [|exact Hl].
  assert (err = -1) as <-; [|exact H].
  assert (match start_from_json 4096 300 300 (Some two_disks) (fun _ => true) (ledger0 4) with Ok (e, _) => e =? -1 | Err _ => false end = true) as E
    by (vm_compute; reflexivity).
  rewrite H in E. by apply Z.eqb_eq in E.
Defined.

(** ** Defects *)

(** Without memory for the file's text, [memset] stores through NULL. *)
Example file_buffer_unchecked : start_from_json 4096 300 300 (Some two_disks) (fun _ => true) (ledger0 1) = Err NullDeref.
Proof. vm_compute. reflexivity. Qed.

(** A file of exactly one page leaves no room for the zero byte. *)
Example page_sized_file_overruns : start_from_json 4096 4096 4096 (Some two_disks) (fun _ => true) (ledger0 9) = Err OutOfBounds.
Proof. vm_compute. reflexivity. Qed.
