(* ===== verification/Daemon.v ===== *)
(** * The virtio daemon's life

    Start-up, the control socket's server, the set-up of the request loop and
    shutdown ([virtio_init], [start_virtio_control_server],
    [stop_virtio_control_server], [handle_virtio_requests], [virtio_close] and
    [virtio_start] of virtio.c), on the host resources of [HostRes] and over the
    devices of [Backends].  Claims: however the daemon ends, everything it took is
    given back but the event monitor's thread, which ends with the process; no
    descriptor is closed that is not its own. *)

From Stdlib Require Import String.
From S2P Require Import Prelude Memory ZoneMem Virtqueue Device Ring Interrupt Mmio Bridge Json Config HostFd EventMonitor HostRes Backends.

(** ** State *)

Record globals := {
  ko_fd : Z;
  efd : Z;
  sfd : Z;
  epoll_fd : Z;
  mon_fd : Z;               (* [epoll_fd] of event_monitor.c *)
  bridge_mapped : bool;     (* [virtio_bridge] is a mapping *)
  ctrl_fd : Z;
  ctrl_thread_started : bool;
}.

Definition globals0 : globals :=
  {| ko_fd := 0; efd := -1; sfd := -1; epoll_fd := -1; mon_fd := 0; bridge_mapped := false; ctrl_fd := -1; ctrl_thread_started := false |}.

Definition set_ctrl (f : Z) (t : bool) (g : globals) : globals :=
  {| ko_fd := ko_fd g; efd := efd g; sfd := sfd g; epoll_fd := epoll_fd g; mon_fd := mon_fd g; bridge_mapped := bridge_mapped g;
     ctrl_fd := f; ctrl_thread_started := t |}.

Definition set_waits (s e : Z) (g : globals) : globals :=
  {| ko_fd := ko_fd g; efd := efd g; sfd := s; epoll_fd := e; mon_fd := mon_fd g; bridge_mapped := bridge_mapped g;
     ctrl_fd := ctrl_fd g; ctrl_thread_started := ctrl_thread_started g |}.

(** ** Start-up *)

(** The thread's creation is not checked; a failed [epoll_create1] leaves -1. *)
Definition start_event_monitor : hm Z :=
  f ← sys_open;
  _ ← thread_create;
  mret f.

(** [exit(1)], or a return value. *)
Inductive init_end :=
  | InitExit
  | InitReturn (ret : Z).

Definition virtio_init (g : globals) : hm (init_end * globals) :=
  let opened ko e b m :=
    {| ko_fd := ko; efd := e; sfd := sfd g; epoll_fd := epoll_fd g; mon_fd := m; bridge_mapped := b; ctrl_fd := ctrl_fd g;
       ctrl_thread_started := ctrl_thread_started g |} in
  ko ← sys_open;
  if ko <? 0 then mret (InitExit, opened ko (efd g) false (mon_fd g))
  else
    err ← sys_ret;
    if negb (err =? 0) then _ ← sys_close ko; mret (InitExit, opened ko (efd g) false (mon_fd g))
    else
      e ← sys_open;
      if e <? 0 then _ ← sys_close ko; mret (InitExit, opened ko e false (mon_fd g))
      else
        r ← sys_ret;
        if r <? 0 then _ ← sys_close ko; _ ← sys_close e; mret (InitExit, opened ko e false (mon_fd g))
        else
          mapped ← sys_ret;
          if mapped <? 0 then mret (InitReturn (-1), opened ko e false (mon_fd g))
          else m ← start_event_monitor; mret (InitReturn 0, opened ko e true m).

(** ** The control server *)

Definition start_virtio_control_server (g : globals) : hm (Z * globals) :=
  f ← sys_open;
  if f <? 0 then mret (-1, set_ctrl f (ctrl_thread_started g) g)
  else
    b ← sys_ret;
    l ← (if negb (b =? 0) then mret 1 else sys_ret);
    if negb (l =? 0) then _ ← sys_close f; mret (-1, set_ctrl (-1) (ctrl_thread_started g) g)
    else
      ok ← thread_create;
      if negb ok then _ ← sys_close f; mret (-1, set_ctrl (-1) (ctrl_thread_started g) g)
      else mret (0, set_ctrl f true g).

(** The join returns: the thread leaves its loop (see [Control]). *)
Definition stop_virtio_control_server (g : globals) : hm globals :=
  if negb (ctrl_thread_started g) && (ctrl_fd g <? 0) then mret g
  else
    _ ← when (ctrl_thread_started g) thread_join;
    _ ← when (0 <=? ctrl_fd g) (sys_close (ctrl_fd g));
    mret (set_ctrl (if 0 <=? ctrl_fd g then -1 else ctrl_fd g) false g).

(** ** The request loop's descriptors *)

(** Whether the loop is entered. *)
Definition requests_setup (g : globals) : hm (bool * globals) :=
  m ← sys_ret;
  if m =? -1 then mret (false, g)
  else
    s ← sys_open;
    if s =? -1 then mret (false, set_waits s (epoll_fd g) g)
    else
      e ← sys_open;
      if e =? -1 then _ ← sys_close s; mret (false, set_waits s e g)
      else
        a ← sys_ret;
        if a =? -1 then _ ← sys_close s; _ ← sys_close e; mret (false, set_waits s e g)
        else
          b ← sys_ret;
          if b =? -1 then _ ← sys_close s; _ ← sys_close e; mret (false, set_waits s e g)
          else mret (true, set_waits s e g).

(** ** Shutdown *)

(** [destroy_event_monitor], with its descriptor. *)
Definition stop_event_monitor (f : Z) : hm unit :=
  _ ← (fun r => m ← destroy_event_monitor (r_mon r);
                Ok (tt, set_res (r_fds r) m (r_threads r) (r_sync r) (r_blocks r) (r_bad r) (r_stale r) r));
  sys_close f.

Definition close_globals (g : globals) : hm globals :=
  _ ← when (0 <=? ko_fd g) (sys_close (ko_fd g));
  _ ← when (0 <=? efd g) (sys_close (efd g));
  _ ← when (0 <=? sfd g) (sys_close (sfd g));
  _ ← when (0 <=? epoll_fd g) (sys_close (epoll_fd g));
  let closed f := if 0 <=? f then -1 else f in
  mret {| ko_fd := closed (ko_fd g); efd := closed (efd g); sfd := closed (sfd g); epoll_fd := closed (epoll_fd g); mon_fd := mon_fd g;
          bridge_mapped := false; ctrl_fd := ctrl_fd g; ctrl_thread_started := ctrl_thread_started g |}.

(** The [munmap] calls, in order, and the cleared table. *)
Definition unmap_zones (zt : zone_table) : list (Z * Z) * zone_table :=
  (concat ((fun z => (fun r => (virt_addr r, mem_size r)) <$> List.filter (fun r => negb (mem_size r =? 0)) z) <$> zt), (fun _ => []) <$> zt).

Abbreviation rdaemon := (daemon backend (result host_res)).

Definition with_env {D E} (e : E) (h : host D E) : host D E :=
  {| h_env := e; h_grants := h_grants h; h_calls := h_calls h; h_created := h_created h; Config.h_closed := Config.h_closed h |}.

Definition set_env (r : host_res) (dm : rdaemon) : rdaemon :=
  {| dm_vdevs := dm_vdevs dm; dm_zones := dm_zones dm; dm_host := with_env (Ok r) (dm_host dm);
     dm_mmap := dm_mmap dm |}.

(** A call on the daemon's resources. *)
Definition on_host {A} (c : hm A) (dm : rdaemon) : result (A * rdaemon) :=
  match h_env (dm_host dm) with
  | Err f => Err f
  | Ok r =>
      match c r with
      | Ok (a, r') => Ok (a, set_env r' dm)
      | Err f => Err f
      end
  end.

Section life.
Context {J : Type} {cj : CJson J} {vring : VringEvent} {backends : VirtioBackends backend} (env : fd_env) (alloc : nat -> bool).

#[local] Instance the_life : DeviceLife backend init_params (result host_res) := backend_life env.
#[local] Instance the_config_ops : ConfigOps J init_params := backend_config_ops alloc.

(** The three parts of shutdown.  They run on the main thread, which serves no more
    requests; the control server's thread is joined by the first, and the event
    monitor's thread may call handlers up to the second and, for events it was
    already given, beyond it ([close_races_with_dispatch] of [EventMonitor]). *)
Definition close_control (g : globals) (dm : rdaemon) : result (globals * rdaemon) := on_host (stop_virtio_control_server g) dm.

Definition close_monitor (g : globals) (dm : rdaemon) : result rdaemon :=
  '(_, dm') ← on_host (stop_event_monitor (mon_fd g)) dm; Ok dm'.

Definition close_rest (g : globals) (dm : rdaemon) : result (globals * rdaemon) :=
  let dm1 := {| dm_vdevs := []; dm_zones := dm_zones dm; dm_host := destroy_all (dm_vdevs dm) (dm_host dm); dm_mmap := dm_mmap dm |} in
  '(g', dm2) ← on_host (close_globals g) dm1;
  Ok (g', {| dm_vdevs := dm_vdevs dm2; dm_zones := (unmap_zones (dm_zones dm2)).2; dm_host := dm_host dm2; dm_mmap := dm_mmap dm2 |}).

(** The whole of it, with no handler called in between. *)
Definition virtio_close (g : globals) (dm : rdaemon) : result (globals * rdaemon) :=
  '(g1, dm1) ← close_control g dm;
  dm2 ← close_monitor g1 dm1;
  close_rest g1 dm2.

(** How [virtio_start] goes on: [exit(1)], a return, or the request loop. *)
Inductive start_end :=
  | StartExit
  | StartReturn (ret : Z)
  | StartLoop.

Definition close_and_return (ret : Z) (g : globals) (dm : rdaemon) (b : virtio_bridge) : result (start_end * globals * rdaemon * virtio_bridge) :=
  '(g', dm') ← virtio_close g dm; Ok (StartReturn ret, g', dm', b).

Definition virtio_start (argc : Z) (root : option J) (g : globals) (dm : rdaemon) (b : virtio_bridge) :
    result (start_end * globals * rdaemon * virtio_bridge) :=
  if argc <? 4 then Ok (StartReturn (-1), g, dm, b)
  else
    '((e, g1), dm1) ← on_host (virtio_init g) dm;
    match e with
    | InitExit => Ok (StartExit, g1, dm1, b)
    | InitReturn err =>
        if negb (err =? 0) then Ok (StartReturn err, g1, dm1, b)
        else
          '(err2, dm2) ← virtio_start_from_json root dm1;
          if negb (err2 =? 0) then close_and_return err2 g1 dm2 b
          else
            '((c, g2), dm3) ← on_host (start_virtio_control_server g1) dm2;
            if negb (c =? 0) then close_and_return (-1) g2 dm3 b
            else
              addrs ← announce 0 (dm_vdevs dm3) (mmio_addrs b);
              let b1 := set_mmio_avail 1 (set_mmio_addrs addrs b) in
              '((entered, g3), dm4) ← on_host (requests_setup g2) dm3;
              Ok (if (entered : bool) then StartLoop else StartReturn 0, g3, dm4, b1)
    end.

(** ** While the loop runs *)

(** One round of the control server: accept a client, serve its request, close. *)
Definition control_round (op : string) (load : option J) (dm : rdaemon) (b : virtio_bridge) : result (rdaemon * virtio_bridge) :=
  '(f, dm1) ← on_host sys_open dm;
  if f <? 0 then Ok (dm1, b)
  else
    '(_, dm2, b1) ← handle_control_client op load dm1 b;
    '(_, dm3) ← on_host (sys_close f) dm2;
    Ok (dm3, b1).

(** What serving requests leaves of the devices: the same back ends. *)
Definition same_holdings (d d' : VirtIODevice backend) : Prop :=
  owned_of (dev d') = owned_of (dev d) /\ (backend_ok (dev d) -> backend_ok (dev d')).

Definition set_vdevs (vds : list (VirtIODevice backend)) (dm : rdaemon) : rdaemon :=
  {| dm_vdevs := vds; dm_zones := dm_zones dm; dm_host := dm_host dm; dm_mmap := dm_mmap dm |}.

Inductive daemon_step : rdaemon * virtio_bridge -> rdaemon * virtio_bridge -> Prop :=
  | step_client op load dm b dm' b' : control_round op load dm b = Ok (dm', b') -> daemon_step (dm, b) (dm', b')
  | step_requests dm b vds b' : Forall2 same_holdings (dm_vdevs dm) vds -> daemon_step (dm, b) (set_vdevs vds dm, b').

(** ** What the daemon holds *)

(** Descriptors and threads of the globals; [k] counts the monitor's thread. *)
Definition globals_owned (k : nat) (g : globals) : owned :=
  join (fd_owned (ko_fd g)) (join (fd_owned (efd g)) (join (fd_owned (sfd g)) (join (fd_owned (epoll_fd g))
    (join (fd_owned (mon_fd g)) (join (fd_owned (ctrl_fd g)) (own_counts (count (ctrl_thread_started g) + k) 0 0)))))).

Lemma contained_globals k g : contained (globals_owned k g).
Proof. unfold globals_owned. repeat (apply contained_join; [apply contained_fd|]). apply contained_counts. Qed.

Lemma globals_stale k g : o_stale (globals_owned k g) = [].
Proof. unfold globals_owned, fd_owned. cbn. by repeat case_match. Qed.

(** Everything is given back but the monitor's thread. *)
Definition released (r0 : host_res) (g : globals) (dm : rdaemon) : Prop :=
  dm_vdevs dm = [] /\ Forall (fun z => z = []) (dm_zones dm) /\ bridge_mapped g = false /\ ctrl_thread_started g = false /\
  Forall (fun f => f < 0) [ko_fd g; efd g; sfd g; epoll_fd g; ctrl_fd g] /\
  exists r k, h_env (dm_host dm) = Ok r /\ (k <= 1)%nat /\ holds false r0 (own_counts k 0 0) r.

(** ** Lemmas *)

Lemma on_host_spec {A} (c : hm A) dm r (Q : A -> host_res -> Prop) :
  h_env (dm_host dm) = Ok r -> hwp c r Q -> exists a r', on_host c dm = Ok (a, set_env r' dm) /\ Q a r'.
Proof. intros Er Hw. unfold on_host. rewrite Er. unfold hwp in Hw. destruct (c r) as [ [a r']|]; [|done]. eauto. Qed.

Lemma destroyed_monitor_ok s s' : monitor_ok s -> destroy_event_monitor s = Ok s' -> monitor_ok s' /\ heap s' = heap s /\ interest s' = [].
Proof.
  intros Hok Hd. destruct (destroy_event_monitor_empties s Hok) as (s1 & Hs1 & Hi & Hno). rewrite Hd in Hs1. injection Hs1 as <-.
  unfold destroy_event_monitor in Hd. apply bind_Ok_inv in Hd as (int & _ & [= <-]). cbn in *. split; [|done]. pose proof (mo_len _ Hok). pose proof (mo_num _ Hok).
  constructor; cbn; try done.
  - rewrite length_app, length_replicate, length_drop. lia.
  - intros i p Hp. exfalso. by eapply Hno.
  - intros i j p Hp. exfalso. by eapply Hno.
  - intros i p Hp. exfalso. by eapply Hno.
  - rewrite Hi. intros f p Hx. by apply elem_of_nil in Hx.
  - rewrite Hi. apply NoDup_nil_2.
Qed.

Lemma hwp_stop_monitor r0 o f r : contained o -> holds true r0 (join (fd_owned f) o) r -> hwp (stop_event_monitor f) r (fun _ r' => holds false r0 o r').
Proof.
  intros Hc Hr. unfold stop_event_monitor. apply hwp_bind. pose proof (h_mon _ _ _ _ Hr) as Hok.
  destruct (destroy_event_monitor_empties _ Hok) as (m & Hm & _). unfold hwp at 1. rewrite Hm. cbn [mbind result_bind].
  destruct (destroyed_monitor_ok _ _ Hok Hm) as (Hok' & Hh & Hi). set (r1 := set_res _ _ _ _ _ _ _ _).
  assert (holds false r0 (join (fd_owned f) o) r1) as H1.
  { destruct Hr. constructor; try done. unfold event_at. cbn. by rewrite Hh. }
  destruct (0 <=? f) eqn:E; [|].
  - pose proof (hwp_close_owned false r0 o f r1 H1 Hc) as Hw. by rewrite E in Hw.
  - unfold hwp, sys_close. unfold fd_owned in H1. rewrite E, join_nothing_l in H1.
    destruct (bool_decide _) eqn:Eb; [|by replace (f <? 0) with true by lia].
    apply bool_decide_eq_true in Eb. pose proof (h_nonneg _ _ _ _ H1) as Hn. eapply Forall_forall in Hn; [|exact Eb]. lia.
Qed.

Lemma hwp_stop_control r0 k g o r : contained o -> holds true r0 (join (globals_owned k g) o) r ->
  hwp (stop_virtio_control_server g) r (fun g' r' => g' = set_ctrl (if 0 <=? ctrl_fd g then -1 else ctrl_fd g) false g /\
    holds true r0 (join (globals_owned k g') o) r').
Proof.
  intros Hc Hr. unfold stop_virtio_control_server. destruct (negb _ && _) eqn:E.
  - apply hwp_ret. replace (0 <=? ctrl_fd g) with false by lia. destruct (ctrl_thread_started g) eqn:Et; [done|]. split; [by destruct g; cbn in *; subst|done].
  - set (g1 := set_ctrl _ false g). assert (owned_equiv (join (globals_owned k g) o)
      (join (own_counts (count (ctrl_thread_started g)) 0 0) (join (fd_owned (ctrl_fd g)) (join (globals_owned k g1) o)))) as He.
    { unfold globals_owned. destruct (0 <=? ctrl_fd g) eqn:Ec; unfold g1, fd_owned; rewrite ?Ec; constructor; cbn; rewrite ?Ec; cbn; try lia; solve_Permutation. }
    apply (holds_equiv _ _ _ _ _ He) in Hr. apply hwp_bind. eapply hwp_conseq; [by apply hwp_when_join|]. intros [] r1 H1.
    apply hwp_bind. eapply hwp_conseq; [apply hwp_close_owned; [done|]|]. { apply contained_join; [apply contained_globals|done]. }
    intros [] r2 H2. apply hwp_ret. done.
Qed.

(** What [close_globals] gives back. *)
Definition waits_owned (k : nat) (g : globals) : owned :=
  join (fd_owned (ko_fd g)) (join (fd_owned (efd g)) (join (fd_owned (sfd g)) (join (fd_owned (epoll_fd g)) (own_counts k 0 0)))).

Lemma contained_waits k g : contained (waits_owned k g).
Proof. unfold waits_owned. repeat (apply contained_join; [apply contained_fd|]). apply contained_counts. Qed.

Lemma hwp_close_globals r0 k g r : ctrl_fd g < 0 -> ctrl_thread_started g = false -> holds false r0 (waits_owned k g) r ->
  hwp (close_globals g) r (fun g' r' => bridge_mapped g' = false /\ ctrl_thread_started g' = false /\
    Forall (fun f => f < 0) [ko_fd g'; efd g'; sfd g'; epoll_fd g'; ctrl_fd g'] /\ holds false r0 (own_counts k 0 0) r').
Proof.
  intros Hc Ht Hr. unfold close_globals.
  apply hwp_bind. eapply hwp_conseq; [apply hwp_close_owned; [exact Hr|]|]. { repeat (apply contained_join; [apply contained_fd|]). apply contained_counts. }
  intros [] r1 H1. apply hwp_bind. eapply hwp_conseq; [apply hwp_close_owned; [exact H1|]|]. { repeat (apply contained_join; [apply contained_fd|]). apply contained_counts. }
  intros [] r2 H2. apply hwp_bind. eapply hwp_conseq; [apply hwp_close_owned; [exact H2|]|]. { repeat (apply contained_join; [apply contained_fd|]). apply contained_counts. }
  intros [] r3 H3. apply hwp_bind. eapply hwp_conseq; [apply hwp_close_owned; [exact H3|]|]. { apply contained_counts. }
  intros [] r4 H4. apply hwp_ret. split; [done|]. split; [done|]. split; [|exact H4].
  assert (forall f, (if 0 <=? f then -1 else f) < 0) as Hneg by (intros f; destruct (0 <=? f) eqn:E; lia).
  cbn. repeat constructor; auto.
Qed.

(** What is held once the control server is stopped. *)
Definition control_stopped (r0 : host_res) (k : nat) (g : globals) (dm : rdaemon) : Prop :=
  ctrl_fd g < 0 /\ ctrl_thread_started g = false /\ daemon_holds_with r0 (globals_owned k g) dm.

Lemma close_control_stops r0 k g dm : daemon_holds_with r0 (globals_owned k g) dm ->
  exists g1 dm1, close_control g dm = Ok (g1, dm1) /\ dm_vdevs dm1 = dm_vdevs dm /\ dm_zones dm1 = dm_zones dm /\ control_stopped r0 k g1 dm1.
Proof.
  intros [Hok (r & Er & Hr)]. unfold close_control.
  apply (holds_equiv _ _ _ (join (globals_owned k g) (all_owned (dm_vdevs dm)))) in Hr; [|apply join_comm].
  destruct (on_host_spec _ dm r _ Er (hwp_stop_control r0 k g _ r (contained_all _ Hok) Hr)) as (g1 & r1 & -> & Hg1 & H1).
  exists g1, (set_env r1 dm). split; [done|]. split; [done|]. split; [done|]. split; [rewrite Hg1; cbn; destruct (0 <=? ctrl_fd g) eqn:E; lia|].
  split; [by rewrite Hg1|]. split; [done|]. exists r1. split; [done|]. eapply holds_equiv; [apply join_comm|exact H1].
Qed.

(** Once the monitor is closed its epoll set is empty, so no further event is
    delivered, and the rest of shutdown gives everything back. *)
Lemma close_rest_releases r0 k g dm : (k <= 1)%nat -> control_stopped r0 k g dm ->
  exists dm1 r1, close_monitor g dm = Ok dm1 /\ h_env (dm_host dm1) = Ok r1 /\ interest (r_mon r1) = [] /\
    exists g' dm', close_rest g dm1 = Ok (g', dm') /\ released r0 g' dm'.
Proof.
  intros Hk (Hc0 & Ht0 & Hok & r & Er & Hr). unfold close_monitor, close_rest.
  apply (holds_equiv _ _ _ (join (fd_owned (mon_fd g)) (join (all_owned (dm_vdevs dm)) (waits_owned k g)))) in Hr.
  2: { unfold globals_owned, waits_owned. rewrite Ht0. unfold fd_owned at 6. replace (0 <=? ctrl_fd g) with false by lia. same_owned. }
  assert (contained (join (all_owned (dm_vdevs dm)) (waits_owned k g))) as Hc1 by (apply contained_join; [by apply contained_all|apply contained_waits]).
  destruct (on_host_spec _ dm r _ Er (hwp_stop_monitor r0 _ _ r Hc1 Hr)) as ( [] & r2 & -> & H2). cbn [mbind result_bind].
  exists (set_env r2 dm), r2. split; [done|]. split; [done|]. split; [exact (h_interest _ _ _ _ H2)|].
  assert (env_holds_in r0 false (waits_owned k g) (destroy_all (dm_vdevs (set_env r2 dm)) (dm_host (set_env r2 dm)))) as (r3 & E3 & H3).
  { apply destroy_all_res; [done|apply contained_waits|]. exists r2. split; [done|exact H2]. }
  pose proof (hwp_close_globals r0 k g r3 Hc0 Ht0 H3) as Hw.
  set (dm3 := {| dm_vdevs := []; dm_zones := _; dm_host := _; dm_mmap := _ |}).
  destruct (on_host_spec _ dm3 r3 _ E3 Hw) as (g2 & r4 & -> & Hb & Ht & Hf & H4). cbn [mbind result_bind].
  eexists _, _. split; [reflexivity|]. split; [done|]. split; [|split; [done|split; [done|split; [done|] ] ] ].
  - cbn. apply Forall_fmap, Forall_true. done.
  - exists r4, k. done.
Qed.

(** Shutdown from any state the daemon can be in, with no handler called during it. *)
Lemma virtio_close_releases r0 k g dm : (k <= 1)%nat -> daemon_holds_with r0 (globals_owned k g) dm ->
  exists g' dm', virtio_close g dm = Ok (g', dm') /\ released r0 g' dm'.
Proof.
  intros Hk Hd. unfold virtio_close. destruct (close_control_stops r0 k g dm Hd) as (g1 & dm1 & -> & _ & _ & H1). cbn [mbind result_bind].
  destruct (close_rest_releases r0 k g1 dm1 Hk H1) as (dm2 & r2 & -> & _ & _ & H2). exact H2.
Qed.

Lemma contained_nothing : contained nothing.
Proof. intros f p Hx. by apply elem_of_nil in Hx. Qed.

Lemma fd_owned_nonneg f : 0 <= f -> fd_owned f = own_fd f.
Proof. intros H. unfold fd_owned. by replace (0 <=? f) with true by lia. Qed.

Lemma hwp_start_monitor r0 o r : o_stale o = [] -> holds true r0 o r ->
  hwp start_event_monitor r (fun m r' => exists k, (k <= 1)%nat /\ holds true r0 (join (own_counts k 0 0) (join (fd_owned m) o)) r').
Proof.
  intros Hst Hr. unfold start_event_monitor.
  assert (forall m r1, holds true r0 (join (fd_owned m) o) r1 ->
    hwp (_ ← thread_create; mret m) r1 (fun m' r2 => exists k, (k <= 1)%nat /\ holds true r0 (join (own_counts k 0 0) (join (fd_owned m') o)) r2)) as Hth.
  { intros m r1 H1. apply hwp_bind. eapply hwp_thread_create; [exact H1| |]; intros r2 H2; apply hwp_ret.
    - exists 0%nat. split; [lia|]. change (own_counts 0 0 0) with nothing. by rewrite join_nothing_l.
    - exists 1%nat. by split; [lia|]. }
  apply hwp_bind. eapply hwp_open; [exact Hr|done| |].
  - intros r1 H1. apply Hth. change (fd_owned (-1)) with nothing. by rewrite join_nothing_l.
  - intros f r1 Hf _ H1. apply Hth. by rewrite fd_owned_nonneg.
Qed.

Lemma hwp_virtio_init r0 r : holds true r0 nothing r ->
  hwp (virtio_init globals0) r (fun x r' => match x.1 with
    | InitExit => holds true r0 nothing r'
    | InitReturn ret =>
        ret = 0 /\ (ctrl_fd x.2 = -1 /\ ctrl_thread_started x.2 = false /\ sfd x.2 = -1 /\ epoll_fd x.2 = -1) /\
          (exists k, (k <= 1)%nat /\ holds true r0 (globals_owned k x.2) r') \/
        ret = -1 /\ holds true r0 (join (fd_owned (ko_fd x.2)) (fd_owned (efd x.2))) r'
    end).
Proof.
  intros Hr. unfold virtio_init. apply hwp_bind. eapply hwp_open; [exact Hr|done|intros r1 H1; by apply hwp_ret|].
  intros ko r1 Hko _ H1. replace (ko <? 0) with false by lia.
  assert (forall r' (k : hm (init_end * globals)) (Q : init_end * globals -> host_res -> Prop), holds true r0 (join (own_fd ko) nothing) r' ->
    (forall r'', holds true r0 nothing r'' -> hwp k r'' Q) -> hwp (_ ← sys_close ko; k) r' Q) as Hclose.
  { intros r' k Q H' HQ. apply hwp_bind. eapply hwp_close; [exact H'|apply (fd_not_registered true r0 nothing ko r'); [done|apply contained_nothing]|]. done. }
  apply hwp_bind. eapply hwp_answer; [exact H1|]. intros err r2 _ _ H2. destruct (negb _); [apply Hclose; [done|]; intros; by apply hwp_ret|].
  apply hwp_bind. eapply hwp_open; [exact H2|done|intros r3 H3; apply Hclose; [done|]; intros; by apply hwp_ret|].
  intros e r3 He _ H3. replace (e <? 0) with false by lia. apply hwp_bind. eapply hwp_answer; [exact H3|]. intros q r4 _ _ H4. destruct (q <? 0).
  { apply (holds_equiv _ _ _ (join (own_fd ko) (join (own_fd e) nothing))) in H4; [|same_owned]. apply hwp_bind.
    eapply hwp_close; [exact H4|apply (fd_not_registered true r0 (join (own_fd e) nothing) ko r4); [done|]|].
    { intros f p Hx. by apply elem_of_nil in Hx. }
    intros r5 H5. apply hwp_bind. eapply hwp_close; [exact H5|apply (fd_not_registered true r0 nothing e r5); [done|apply contained_nothing]|].
    intros r6 H6. by apply hwp_ret. }
  apply hwp_bind. eapply hwp_answer; [exact H4|]. intros mp r5 _ _ H5. destruct (mp <? 0).
  { apply hwp_ret. right. split; [done|]. cbn [ko_fd efd snd]. rewrite !fd_owned_nonneg by done. eapply holds_equiv; [|exact H5]. same_owned. }
  apply hwp_bind. eapply hwp_conseq; [apply hwp_start_monitor; [|exact H5]; done|]. intros m r6 (k & Hk & H6). apply hwp_ret. left. split; [done|]. split; [done|].
  exists k. split; [done|]. eapply holds_equiv; [|exact H6]. unfold globals_owned. cbn [ko_fd efd sfd epoll_fd mon_fd ctrl_fd snd].
  rewrite (fd_owned_nonneg ko), (fd_owned_nonneg e) by done. same_owned.
Qed.

Lemma hwp_start_control r0 k g o r : ctrl_fd g = -1 -> ctrl_thread_started g = false -> contained o -> o_stale o = [] ->
  holds true r0 (join o (globals_owned k g)) r ->
  hwp (start_virtio_control_server g) r (fun x r' => holds true r0 (join o (globals_owned k x.2)) r' /\
    sfd x.2 = sfd g /\ epoll_fd x.2 = epoll_fd g /\ (x.1 = 0 -> ctrl_thread_started x.2 = true)).
Proof.
  intros Hf Ht Hc Hst Hr. unfold start_virtio_control_server. assert (o_stale (join o (globals_owned k g)) = []) as Hst' by (apply (f_equal2 (@app Z) Hst (globals_stale k g))).
  assert (contained (join o (globals_owned k g))) as Hc' by (apply contained_join; [done|apply contained_globals]).
  assert (set_ctrl (-1) false g = g) as Hg by (destruct g; cbn in *; by subst). rewrite Ht.
  apply hwp_bind. eapply hwp_open; [exact Hr|done|intros r1 H1; apply hwp_ret; cbn; by rewrite Hg|].
  intros f r1 Hf0 _ H1. replace (f <? 0) with false by lia.
  assert (forall r', holds true r0 (join (own_fd f) (join o (globals_owned k g))) r' ->
    hwp (_ ← sys_close f; mret (-1, set_ctrl (-1) false g)) r' (fun x r' => holds true r0 (join o (globals_owned k x.2)) r' /\ sfd x.2 = sfd g /\ epoll_fd x.2 = epoll_fd g /\
      (x.1 = 0 -> ctrl_thread_started x.2 = true))) as Hcl.
  { intros r' H'. apply hwp_bind. eapply hwp_close; [exact H'|by eapply fd_not_registered|]. intros r2 H2. apply hwp_ret. cbn. by rewrite Hg. }
  apply hwp_bind. eapply hwp_answer; [exact H1|]. intros b r2 _ _ H2.
  assert (hwp (if negb (b =? 0) then mret 1 else sys_ret) r2 (fun _ r' => holds true r0 (join (own_fd f) (join o (globals_owned k g))) r')) as Hl.
  { destruct (negb _); [by apply hwp_ret|]. eapply hwp_answer; [exact H2|]. done. }
  apply hwp_bind. eapply hwp_conseq; [exact Hl|]. intros l r3 H3. destruct (negb (l =? 0)); [by apply Hcl|].
  apply hwp_bind. eapply hwp_thread_create; [exact H3| |]; intros r4 H4; cbn [negb]; [by apply Hcl|]. apply hwp_ret. split; [|done].
  eapply holds_equiv; [|exact H4]. unfold globals_owned. cbn [ko_fd efd sfd epoll_fd mon_fd ctrl_fd ctrl_thread_started set_ctrl snd].
  rewrite Hf, Ht, (fd_owned_nonneg f) by done. same_owned.
Qed.

Lemma hwp_setup r0 k g o r : sfd g = -1 -> epoll_fd g = -1 -> contained o -> o_stale o = [] -> holds true r0 (join o (globals_owned k g)) r ->
  hwp (requests_setup g) r (fun x r' => if x.1 then holds true r0 (join o (globals_owned k x.2)) r' else holds true r0 (join o (globals_owned k g)) r').
Proof.
  intros Hs He Hc Hst Hr. unfold requests_setup. set (p := join o (globals_owned k g)) in *.
  assert (o_stale p = []) as Hst' by (apply (f_equal2 (@app Z) Hst (globals_stale k g))).
  assert (contained p) as Hp by (apply contained_join; [done|apply contained_globals]).
  apply hwp_bind. eapply hwp_answer; [exact Hr|]. intros m r1 _ _ H1. destruct (m =? -1); [by apply hwp_ret|].
  apply hwp_bind. eapply hwp_open; [exact H1|done|intros r2 H2; by apply hwp_ret|]. intros s r2 Hs0 _ H2. replace (s =? -1) with false by lia.
  apply hwp_bind. eapply hwp_open; [exact H2|done| |].
  { intros r3 H3. apply hwp_bind. eapply hwp_close; [exact H3|by eapply fd_not_registered|]. intros r4 H4. by apply hwp_ret. }
  intros e r3 He0 _ H3. replace (e =? -1) with false by lia.
  assert (forall r', holds true r0 (join (own_fd e) (join (own_fd s) p)) r' -> hwp (_ ← sys_close s; _ ← sys_close e; mret (false, set_waits s e g)) r'
    (fun x r' => if x.1 then holds true r0 (join o (globals_owned k x.2)) r' else holds true r0 p r')) as Hcl.
  { intros r' H'. apply (holds_equiv _ _ _ (join (own_fd s) (join (own_fd e) p))) in H'; [|same_owned]. apply hwp_bind.
    eapply hwp_close; [exact H'|apply (fd_not_registered true r0 (join (own_fd e) p) s r'); [done|] |].
    { apply contained_join; [|done]. intros f q Hx. by apply elem_of_nil in Hx. }
    intros r4 H4. apply hwp_bind. eapply hwp_close; [exact H4|by eapply fd_not_registered|]. intros r5 H5. by apply hwp_ret. }
  apply hwp_bind. eapply hwp_answer; [exact H3|]. intros a r4 _ _ H4. destruct (a =? -1); [by apply Hcl|].
  apply hwp_bind. eapply hwp_answer; [exact H4|]. intros b r5 _ _ H5. destruct (b =? -1); [by apply Hcl|]. apply hwp_ret. cbn [fst snd].
  eapply holds_equiv; [|exact H5]. unfold p, globals_owned. cbn [ko_fd efd sfd epoll_fd mon_fd ctrl_fd ctrl_thread_started set_waits].
  rewrite Hs, He, (fd_owned_nonneg s), (fd_owned_nonneg e) by done. same_owned.
Qed.

Lemma set_env_holds r0 o dm r' : Forall (fun d => backend_ok (dev d)) (dm_vdevs dm) ->
  holds true r0 (join (all_owned (dm_vdevs dm)) o) r' -> daemon_holds_with r0 o (set_env r' dm).
Proof. intros Hok Hr. split; [done|]. by exists r'. Qed.

Lemma control_round_keeps r0 o op load dm b dm' b' : contained o -> o_stale o = [] -> daemon_holds_with r0 o dm ->
  control_round op load dm b = Ok (dm', b') -> daemon_holds_with r0 o dm'.
Proof.
  intros Hc Hst [Hok (r & Er & Hr)] H. unfold control_round in H. apply bind_Ok_inv in H as ( [f dm1] & Ho & H).
  assert (contained (join (all_owned (dm_vdevs dm)) o)) as Hco by (apply contained_join; [by apply contained_all|done]).
  assert (hwp sys_open r (fun f r' => f < 0 /\ holds true r0 (join (all_owned (dm_vdevs dm)) o) r' \/
    0 <= f /\ holds true r0 (join (own_fd f) (join (all_owned (dm_vdevs dm)) o)) r')) as Hw.
  { eapply hwp_open; [exact Hr|exact (f_equal2 (@app Z) (all_owned_stale _) Hst)|intros; left; split; [lia|done]|]. intros g r1 Hg _ H1. by right. }
  destruct (on_host_spec _ dm r _ Er Hw) as (f' & r1 & Hf' & Hcase). rewrite Hf' in Ho. injection Ho as <- <-.
  destruct Hcase as [ [Hf H1] | [Hf H1] ]; [replace (f' <? 0) with true in H by lia; injection H as <- <-; by apply set_env_holds|].
  replace (f' <? 0) with false in H by lia. apply bind_Ok_inv in H as ( [ [resp dm2] b1] & Hh & H).
  apply bind_Ok_inv in H as ( [ [] dm3] & Hcl & [= <- <-]).
  assert (daemon_holds_with r0 (join (own_fd f') o) (set_env r1 dm)) as H1'.
  { apply set_env_holds; [done|]. eapply holds_equiv; [|exact H1]. same_owned. }
  assert (contained (join (own_fd f') o)) as Hc' by (apply contained_join; [intros g p Hx; by apply elem_of_nil in Hx|done]).
  assert (daemon_holds_with r0 (join (own_fd f') o) dm2) as [Hok2 (r2 & E2 & H2)].
  { unfold handle_control_client in Hh. destruct (negb (String.eqb _ _)); [by simplify_eq|].
    apply bind_Ok_inv in Hh as ( [ [err dm4] b4] & Ha & Hh). unfold virtio_add_from_json in Ha. apply bind_Ok_inv in Ha as ( [err' dm5] & Hs & Ha).
    apply virtio_start_res with (o := join (own_fd f') o) (r0 := r0) in Hs; [|done|exact Hst|done].
    assert (dm5 = dm4) as -> by (destruct (negb (err' =? 0)); [by simplify_eq|]; apply bind_Ok_inv in Ha as (? & _ & [= _ <- _]); done).
    destruct (negb (err =? 0)); by simplify_eq. }
  assert (hwp (sys_close f') r2 (fun _ r' => holds true r0 (join (all_owned (dm_vdevs dm2)) o) r')) as Hw2.
  { eapply (hwp_close _ _ (join (all_owned (dm_vdevs dm2)) o)); [eapply holds_equiv; [|exact H2]; same_owned| |done].
    eapply (fd_not_registered true r0 _ f' r2); [eapply holds_equiv; [|exact H2]; same_owned|]. apply contained_join; [by apply contained_all|done]. }
  destruct (on_host_spec _ dm2 r2 _ E2 Hw2) as ( [] & r3 & Hx & H3). rewrite Hx in Hcl. injection Hcl as <-. by apply set_env_holds.
Qed.

Lemma same_holdings_all vds vds' : Forall2 same_holdings vds vds' -> all_owned vds' = all_owned vds /\
  (Forall (fun d => backend_ok (dev d)) vds -> Forall (fun d => backend_ok (dev d)) vds').
Proof.
  induction 1 as [|d d' l l' [Ho Hb] _ [IH1 IH2] ]; [done|]. split; [change (join (owned_of (dev d')) (all_owned l') = join (owned_of (dev d)) (all_owned l)); by rewrite Ho, IH1|].
  intros [Hd Hl]%Forall_cons. apply Forall_cons. by split; [apply Hb|apply IH2].
Qed.

Lemma daemon_steps_keep r0 o s s' : contained o -> o_stale o = [] -> rtc daemon_step s s' -> daemon_holds_with r0 o s.1 -> daemon_holds_with r0 o s'.1.
Proof.
  intros Hc Hst. induction 1 as [|s1 s2 s3 Hstep _ IH]; [done|]. intros Hs. apply IH. destruct Hstep as [op load dm b dm' b' H|dm b vds b' H]; cbn in *.
  - by eapply control_round_keeps.
  - destruct (same_holdings_all _ _ H) as [E1 E2]. destruct Hs as [Hok Hh]. split; [by apply E2|].
    change (env_holds r0 (join (all_owned vds) o) (dm_host dm)). by rewrite E1.
Qed.

(** The answer to the mapping of the bridge is a failure: the fifth of [virtio_init]. *)
Definition bridge_refused (dm : rdaemon) : Prop := exists r, h_env (dm_host dm) = Ok r /\ r_answers r (r_next r + 4) < 0.

(** The ways a start returns.  Everything is given back; or the bridge could not be
    mapped, and the driver's descriptor and the event descriptor are held; or the
    request loop could not be set up, the return value is 0, and all is held that a
    running daemon holds, with the control server's thread. *)
Definition start_returns (r0 : host_res) (dm : rdaemon) (ret : Z) (g : globals) (dm' : rdaemon) : Prop :=
  (ret <> 0 /\ released r0 g dm') \/
  (ret = -1 /\ bridge_refused dm /\ daemon_holds_with r0 (join (fd_owned (ko_fd g)) (fd_owned (efd g))) dm') \/
  (ret = 0 /\ exists g2 k, (k <= 1)%nat /\ ctrl_thread_started g2 = true /\ daemon_holds_with r0 (globals_owned k g2) dm').

Lemma sys_ret_next r a r' : sys_ret r = Ok (a, r') -> a = r_answers r (r_next r) /\ r_answers r' = r_answers r /\ r_next r' = S (r_next r).
Proof. unfold sys_ret. by intros [= <- <-]. Qed.

Lemma sys_open_next r f r' : sys_open r = Ok (f, r') -> r_answers r' = r_answers r /\ r_next r' = S (r_next r).
Proof. unfold sys_open, sys_ret, act, mbind, hm_bind, mret, hm_ret. cbv beta iota. case_match; by intros [= _ <-]. Qed.

Lemma hm_bind_inv {A B} (c : hm A) (k : A -> hm B) r x : (c ≫= k) r = Ok x -> exists a r', c r = Ok (a, r') /\ k a r' = Ok x.
Proof. unfold mbind, hm_bind. destruct (c r) as [ [a r']|]; [|done]. eauto. Qed.

(** [virtio_init] returns -1 only when the bridge is not mapped. *)
Lemma virtio_init_unmapped g r g' r' : virtio_init g r = Ok ((InitReturn (-1), g'), r') -> r_answers r (r_next r + 4) < 0.
Proof.
  unfold virtio_init. intros H. apply hm_bind_inv in H as (ko & r1 & H1 & H). destruct (ko <? 0); [done|].
  apply hm_bind_inv in H as (err & r2 & H2 & H). destruct (negb _); [apply hm_bind_inv in H as (? & ? & _ & H); done|].
  apply hm_bind_inv in H as (e & r3 & H3 & H). destruct (e <? 0); [apply hm_bind_inv in H as (? & ? & _ & H); done|].
  apply hm_bind_inv in H as (q & r4 & H4 & H).
  destruct (q <? 0); [apply hm_bind_inv in H as (? & ? & _ & H); apply hm_bind_inv in H as (? & ? & _ & H); done|].
  apply hm_bind_inv in H as (mp & r5 & H5 & H). destruct (mp <? 0) eqn:E; [|apply hm_bind_inv in H as (? & ? & _ & H); done].
  apply sys_open_next in H1 as [A1 N1]. apply sys_ret_next in H2 as (_ & A2 & N2). apply sys_open_next in H3 as [A3 N3].
  apply sys_ret_next in H4 as (_ & A4 & N4). apply sys_ret_next in H5 as (-> & _ & _).
  replace (r_next r + 4)%nat with (r_next r4) by lia. replace (r_answers r) with (r_answers r4) by congruence. lia.
Qed.

(** Where [virtio_start] leads from a process that holds nothing. *)
Lemma virtio_start_outcome r0 argc root dm b e g dm' b' :
  dm_vdevs dm = [] -> daemon_holds r0 dm -> virtio_start argc root globals0 dm b = Ok (e, g, dm', b') ->
  match e with
  | StartExit => daemon_holds r0 dm'
  | StartReturn ret => argc < 4 \/ start_returns r0 dm ret g dm'
  | StartLoop => exists k, (k <= 1)%nat /\ daemon_holds_with r0 (globals_owned k g) dm'
  end.
Proof.
  intros Hv [Hok (r & Er & Hr)] H. unfold virtio_start in H. destruct (argc <? 4) eqn:Ea; [injection H as <- _ _ _; left; lia|].
  rewrite Hv, join_nothing_l in Hr. apply bind_Ok_inv in H as ( [ [e1 g1] dm1] & Hi & H).
  destruct (on_host_spec _ dm r _ Er (hwp_virtio_init r0 r Hr)) as ( [e1' g1'] & r1 & Hx & H1). rewrite Hx in Hi. injection Hi as <- <- <-. cbn [fst snd] in H1.
  assert (forall o, holds true r0 o r1 -> daemon_holds_with r0 o (set_env r1 dm)) as Hset by (intros o Ho; apply set_env_holds; [done|rewrite Hv, join_nothing_l; exact Ho]).
  destruct e1' as [|err]; [injection H as <- <- <- <-; by apply Hset|].
  destruct H1 as [ (-> & Hfr & k & Hk & H1) | [-> H1] ]; [|].
  2: { injection H as <- <- <- <-. right. right. left. split; [done|]. split; [|by apply Hset]. exists r. split; [done|].
       unfold on_host in Hx. rewrite Er in Hx. destruct (virtio_init globals0 r) as [ [ [x1 x2] x3]|] eqn:Ei; [|done].
       injection Hx as -> -> _. by eapply virtio_init_unmapped. }
  cbn [negb Z.eqb] in H. apply bind_Ok_inv in H as ( [err2 dm2] & Hs & H).
  apply virtio_start_res with (o := globals_owned k g1') (r0 := r0) in Hs; [|apply contained_globals|apply globals_stale|by apply Hset].
  assert (Hclose : forall ret g2 dm3, daemon_holds_with r0 (globals_owned k g2) dm3 -> close_and_return ret g2 dm3 b = Ok (e, g, dm', b') ->
    e = StartReturn ret /\ released r0 g dm').
  { intros ret g2 dm3 H3 Hcl. unfold close_and_return in Hcl. destruct (virtio_close_releases r0 k g2 dm3 Hk H3) as (g' & dmx & Hc & Hrel).
    rewrite Hc in Hcl. injection Hcl as <- <- <- <-. done. }
  destruct (err2 =? 0) eqn:E0; cbn [negb] in H; [|apply Hclose in H as [-> Hrel]; [|done]; right; left; split; [lia|done] ].
  apply bind_Ok_inv in H as ( [ [c g2] dm3] & Hc & H). destruct Hs as [Hok2 (r2 & E2 & H2)].
  destruct Hfr as (G1 & G2 & G3 & G4).
  assert (hwp (start_virtio_control_server g1') r2 (fun x r' => holds true r0 (join (all_owned (dm_vdevs dm2)) (globals_owned k x.2)) r' /\
    sfd x.2 = sfd g1' /\ epoll_fd x.2 = epoll_fd g1' /\ (x.1 = 0 -> ctrl_thread_started x.2 = true))) as Hw by (apply hwp_start_control; [done|done|by apply contained_all|apply all_owned_stale|done]).
  destruct (on_host_spec _ dm2 r2 _ E2 Hw) as ( [c' g2'] & r3 & Hy & H3 & S1 & S2 & S3). rewrite Hy in Hc. injection Hc as <- <- <-. cbn [fst snd] in H3, S1, S2, S3.
  destruct (c' =? 0) eqn:Ec0; cbn [negb] in H; [|apply Hclose in H as [-> Hrel]; [right; left; split; [lia|done]|by apply set_env_holds] ].
  apply bind_Ok_inv in H as (addrs & _ & H). apply bind_Ok_inv in H as ( [ [en g3] dm4] & Hsu & H).
  assert (hwp (requests_setup g2') r3 (fun x r' => if x.1 then holds true r0 (join (all_owned (dm_vdevs dm2)) (globals_owned k x.2)) r'
    else holds true r0 (join (all_owned (dm_vdevs dm2)) (globals_owned k g2')) r')) as Hw2.
  { apply hwp_setup; [by rewrite S1|by rewrite S2|by apply contained_all|apply all_owned_stale|done]. }
  destruct (on_host_spec _ (set_env r3 dm2) r3 _ eq_refl Hw2) as ( [en' g3'] & r4 & Hz & H4). rewrite Hz in Hsu. injection Hsu as <- <- <-. cbn [fst snd] in H4.
  injection H as <- <- <- <-. destruct en'.
  - exists k. split; [done|]. by apply set_env_holds.
  - right. right. right. split; [done|]. exists g2', k. split; [done|]. split; [apply S3; lia|]. by apply set_env_holds.
Qed.

(** A daemon that has reached its request loop, and has since served any number
    of requests and of clients of the control socket, gives back at shutdown every
    descriptor, event, lock, allocation and thread it took, but the event monitor's
    thread: shutdown does not fault, whichever calls of its start and of the
    clients' additions failed. *)
Theorem daemon_shutdown_complete r0 argc root dm b g dm1 b1 s :
  dm_vdevs dm = [] -> daemon_holds r0 dm -> virtio_start argc root globals0 dm b = Ok (StartLoop, g, dm1, b1) ->
  rtc daemon_step (dm1, b1) s -> exists g' dm', virtio_close g s.1 = Ok (g', dm') /\ released r0 g' dm'.
Proof.
  intros Hv Hd H Hs. apply virtio_start_outcome with (r0 := r0) in H as (k & Hk & H); [|done|done].
  apply (virtio_close_releases r0 k); [done|]. eapply daemon_steps_keep in Hs; [exact Hs|apply contained_globals|apply globals_stale|done].
Qed.


End life.

(** ** Witnesses and examples *)

#[local] Existing Instance json_cjson.
#[local] Existing Instance vring_event_std.
#[local] Existing Instance queue_backends.

Abbreviation run_start ans :=
  (virtio_start silent (fun _ => true) 4 (Some res_doc) globals0 (res_daemon ans) bridge0).

(** Every call succeeds; and one answer is a failure. *)
Definition ans_zero (n : nat) : Z := 0.
Definition ans_fail (k n : nat) : Z := if (n =? k)%nat then -1 else 0.

Lemma res_daemon_ready ans : dm_vdevs (res_daemon ans) = [] /\ daemon_holds (res_base ans) (res_daemon ans).
Proof. split; [done|]. split; [constructor|]. exists (res_base ans). split; [reflexivity|]. rewrite join_nothing_l. apply res_base_holds. Qed.

(** How a start ends, and what is held then: devices, descriptors, threads. *)
Definition start_summary (x : result (start_end * globals * rdaemon * virtio_bridge)) : option (start_end * nat * list Z * nat) :=
  match x with
  | Ok (e, _, dm, _) =>
      match h_env (dm_host dm) with
      | Ok r => Some (e, length (dm_vdevs dm), r_fds r, r_threads r)
      | Err _ => None
      end
  | Err _ => None
  end.

Lemma run_start_loops : exists g dm b, run_start ans_zero = Ok (StartLoop, g, dm, b).
Proof. eexists _, _, _. vm_compute. reflexivity. Qed.

Lemma daemon_shutdown_complete_witness :
  exists g dm b g' dm', run_start ans_zero = Ok (StartLoop, g, dm, b) /\ virtio_close silent g dm = Ok (g', dm') /\ released (res_base ans_zero) g' dm'.
Proof.
  destruct run_start_loops as (g & dm & b & H). destruct (res_daemon_ready ans_zero) as [Hv Hd].
  destruct (daemon_shutdown_complete silent (fun _ => true) (res_base ans_zero) 4 (Some res_doc) (res_daemon ans_zero) bridge0 g dm b (dm, b) Hv Hd H (rtc_refl _ _))
    as (g' & dm' & H1 & H2).
  exists g, dm, b, g', dm'. split; [exact H|]. split; [exact H1|exact H2].
Defined.

Lemma run_start_fails : exists g dm b, run_start (ans_fail 20) = Ok (StartReturn (-1), g, dm, b) /\ bridge_mapped g = false /\ dm_vdevs dm = [].
Proof. eexists _, _, _. split; [|split]; vm_compute; reflexivity. Qed.


(** A running daemon holds nine descriptors and three threads. *)
Example start_reaches_loop : start_summary (run_start ans_zero) = Some (StartLoop, 2%nat, [11; 10; 9; 8; 7; 6; 5; 4; 3; 0; 1; 2], 3%nat).
Proof. vm_compute. reflexivity. Qed.

(** When [sigprocmask] fails [handle_virtio_requests] returns, and [virtio_start]
    returns 0 with the devices, the control server and their threads left. *)
Example loop_setup_failure_unreported : start_summary (run_start (ans_fail 29)) = Some (StartReturn 0, 2%nat, [9; 8; 7; 6; 5; 4; 3; 0; 1; 2], 3%nat).
Proof. vm_compute. reflexivity. Qed.

(** When the bridge cannot be mapped two descriptors stay open. *)
Example bridge_failure_leaks : start_summary (run_start (ans_fail 4)) = Some (StartReturn (-1), 0%nat, [4; 3; 0; 1; 2], 0%nat).
Proof. vm_compute. reflexivity. Qed.
