(* ===== verification/Devices.v ===== *)
(** * The table of devices

    [device_ops_table] of virtio.c without the GPU: the queues, features and handlers of
    the block, network, console and SCMI devices, as one instance of the transport's
    interface [VirtioBackends], and the proof that they keep its contract
    [BackendLaws].  With it the theorems of the register file, of dispatch and of the
    request loop hold of the daemon's own devices.  The block device's handlers only
    wake or pause its worker (see [BlkWorker]); the ioctls of the SCMI device are those
    of [VirtioScmi].  Claim: from start to shutdown, with requests, events and control
    clients interleaved in any way, the daemon gives back what it took. *)

From Stdlib Require Import String.
From S2P Require Import Prelude Memory ZoneMem Virtqueue IoVec DescChain Device Ring Interrupt Mmio Bridge RequestLoop Blk Json Config ScmiCore VirtioScmi HostFd Net Console EventMonitor HostRes Backends Daemon.

(** ** The table *)

Definition VIRTIO_BLK_F_SIZE_MAX : Z := 1.
Definition VIRTIO_BLK_F_SEG_MAX : Z := 2.
Definition VIRTIO_BLK_F_FLUSH : Z := 9.
Definition VIRTIO_RING_F_INDIRECT_DESC : Z := 28.
Definition VIRTIO_NET_F_MAC : Z := 5.
Definition VIRTIO_NET_F_STATUS : Z := 16.
Definition VIRTIO_CONSOLE_F_SIZE : Z := 0.

Definition flags (l : list Z) : Z := foldr (fun b acc => Z.lor (2 ^ b) acc) 0 l.

Definition BLK_SUPPORTED_FEATURES : Z :=
  flags [VIRTIO_BLK_F_SEG_MAX; VIRTIO_BLK_F_SIZE_MAX; VIRTIO_BLK_F_FLUSH; VIRTIO_F_VERSION_1; VIRTIO_RING_F_INDIRECT_DESC].
Definition NET_SUPPORTED_FEATURES : Z := flags [VIRTIO_F_VERSION_1; VIRTIO_NET_F_MAC; VIRTIO_NET_F_STATUS].
Definition CONSOLE_SUPPORTED_FEATURES : Z := flags [VIRTIO_F_VERSION_1; VIRTIO_CONSOLE_F_SIZE].
Definition SCMI_SUPPORTED_FEATURES : Z := flags [VIRTIO_F_VERSION_1].

Definition NET_MAX_QUEUES : Z := 2.
Definition SCMI_MAX_QUEUES : Z := 2.
Definition VIRTQUEUE_SCMI_MAX_SIZE : Z := 64.

(** The same device with another [dev] pointer. *)
Definition retype {A B} (x : B) (d : VirtIODevice A) : VirtIODevice B :=
  {| vqs_len := vqs_len d; zone_id := zone_id d; irq_id := irq_id d; base_addr := base_addr d; len := len d; type := type d; regs := regs d;
     vqs := vqs d; dev := x; status_changed := status_changed d; activated := activated d; interrupt_line_asserted := interrupt_line_asserted d |}.

Definition with_net (n : NetDev) (b : NetBackend) : NetBackend :=
  {| net := n; net_event := net_event b; net_in_iov := net_in_iov b; net_out_iov := net_out_iov b |}.

Definition with_console (c : ConsoleDev) (b : ConsoleBackend) : ConsoleBackend := {| console := c; console_event := console_event b |}.

Section table.
Context {vring : VringEvent} {kern : ScmiKernel} (malloc : Z -> bool) (rest : backend -> list Z) (cfuel fuel : nat).

Definition net_rx_notify (b : NetBackend) (d : VirtIODevice backend) (q : nat) (w : world) : result (VirtIODevice backend * world) :=
  vq ← of_index (vqs d !! q);
  '(n, m) ← virtio_net_rxq_notify_handler (w_mem w) (net b) vq;
  Ok (set_dev (BNet (with_net n b)) d, set_w_mem m w).

Definition net_tx_notify (b : NetBackend) (d : VirtIODevice backend) (q : nat) (w : world) : result (VirtIODevice backend * world) :=
  '(d1, w1) ← virtio_net_txq_notify_handler fuel (retype (net b) d) q w;
  Ok (retype (BNet (with_net (dev d1) b)) d1, w1).

Definition console_rx_notify (b : ConsoleBackend) (d : VirtIODevice backend) (q : nat) (w : world) : result (VirtIODevice backend * world) :=
  vq ← of_index (vqs d !! q);
  '(c, m) ← virtio_console_rxq_notify_handler (w_mem w) (console b) vq;
  Ok (set_dev (BConsole (with_console c b)) d, set_w_mem m w).

Definition console_tx_notify (b : ConsoleBackend) (d : VirtIODevice backend) (q : nat) (w : world) : result (VirtIODevice backend * world) :=
  '(d1, w1) ← virtio_console_txq_notify_handler malloc cfuel fuel (retype (console b) d) q w;
  Ok (retype (BConsole (with_console (dev d1) b)) d1, w1).

Definition scmi_tx_notify (s : SCMIDev) (d : VirtIODevice backend) (q : nat) (w : world) : result (VirtIODevice backend * world) :=
  '(d1, w1, _) ← virtio_scmi_txq_notify_handler fuel (retype s d) q w [];
  Ok (retype (BScmi s) d1, w1).

(** A handler called for a device of another type, or before [init], would use a
    pointer that is not its own. *)
Definition device_notify (f : notify_fn) (d : VirtIODevice backend) (q : nat) (w : world) : result (VirtIODevice backend * world) :=
  match f, dev d with
  | virtio_blk_notify, BBlk _ => Ok (d, w)
  | virtio_net_rxq_notify, BNet b => net_rx_notify b d q w
  | virtio_net_txq_notify, BNet b => net_tx_notify b d q w
  | virtio_console_rxq_notify, BConsole b => console_rx_notify b d q w
  | virtio_console_txq_notify, BConsole b => console_tx_notify b d q w
  | virtio_scmi_txq_notify, BScmi s => scmi_tx_notify s d q w
  | _, _ => Err NullDeref
  end.

(** The handler the event monitor calls when a tap device or a terminal has input. *)
Definition device_event (fd : Z) (epollin : bool) (d : VirtIODevice backend) (w : world) : result (VirtIODevice backend * world) :=
  match dev d with
  | BNet b =>
      '(d1, w1) ← virtio_net_event_handler fuel fd epollin (retype (net b) d) w;
      Ok (retype (BNet (with_net (dev d1) b)) d1, w1)
  | BConsole b =>
      '(d1, w1) ← virtio_console_event_handler malloc cfuel fuel fd epollin (retype (console b) d) w;
      Ok (retype (BConsole (with_console (dev d1) b)) d1, w1)
  | _ => Err NullDeref
  end.

Definition no_effect (d : VirtIODevice backend) (w : world) : result (VirtIODevice backend * world) := Ok (d, w).

Definition net_reset (d : VirtIODevice backend) (w : world) : result (VirtIODevice backend * world) :=
  match dev d with
  | BNet b => Ok (retype (BNet (with_net (dev (virtio_net_reset (retype (net b) d))) b)) d, w)
  | _ => Ok (d, w)
  end.

Definition net_status (d : VirtIODevice backend) (v : Z) (w : world) : result (VirtIODevice backend * world) :=
  match dev d with
  | BNet b => Ok (retype (BNet (with_net (dev (net_on_status (retype (net b) d) v)) b)) d, w)
  | _ => Err NullDeref
  end.

Definition virtio_blk_ops : virtio_device_ops backend :=
  {| ops_type := VirtioTBlock; features := BLK_SUPPORTED_FEATURES; num_queues := 1; queue_max_size := VIRTQUEUE_BLK_MAX_SIZE;
     ops_reset := Some no_effect; ops_status_changed := None; notify_handlers := [Some virtio_blk_notify] |}.

Definition virtio_net_ops : virtio_device_ops backend :=
  {| ops_type := VirtioTNet; features := NET_SUPPORTED_FEATURES; num_queues := NET_MAX_QUEUES; queue_max_size := VIRTQUEUE_NET_MAX_SIZE;
     ops_reset := Some net_reset; ops_status_changed := Some net_status;
     notify_handlers := [Some virtio_net_rxq_notify; Some virtio_net_txq_notify] |}.

Definition virtio_console_ops : virtio_device_ops backend :=
  {| ops_type := VirtioTConsole; features := CONSOLE_SUPPORTED_FEATURES; num_queues := CONSOLE_MAX_QUEUES;
     queue_max_size := VIRTQUEUE_CONSOLE_MAX_SIZE; ops_reset := Some no_effect; ops_status_changed := None;
     notify_handlers := [Some virtio_console_rxq_notify; Some virtio_console_txq_notify] |}.

(** Queue 0 is SCMI_QUEUE_TX; the other has no handler. *)
Definition virtio_scmi_ops : virtio_device_ops backend :=
  {| ops_type := VirtioTSCMI; features := SCMI_SUPPORTED_FEATURES; num_queues := SCMI_MAX_QUEUES; queue_max_size := VIRTQUEUE_SCMI_MAX_SIZE;
     ops_reset := Some no_effect; ops_status_changed := None; notify_handlers := [Some virtio_scmi_txq_notify] |}.

(** The object behind [vdev->dev]: the configuration fields the sources set, then
    the bytes [rest] of it (the other fields of the structures of the system's
    headers, padding, pointers). *)
Definition config_bytes (b : backend) : list Z :=
  match b with
  | BNull => []
  | BBlk d => le_bytes 8 (capacity d) ++ le_bytes 4 (size_max d) ++ le_bytes 4 (seg_max d) ++ le_bytes 4 0 ++ le_bytes 4 (blk_size d) ++ rest b
  | BNet d => Net.mac (net d) ++ le_bytes 2 (link_status (net d)) ++ rest b
  | BConsole d => le_bytes 2 (cols (console d)) ++ le_bytes 2 (rows (console d)) ++ rest b
  | BScmi _ => rest b
  end.

Definition ops_of (t : VirtioDeviceType) : option (virtio_device_ops backend) :=
  match t with
  | VirtioTBlock => Some virtio_blk_ops
  | VirtioTNet => Some virtio_net_ops
  | VirtioTConsole => Some virtio_console_ops
  | VirtioTSCMI => Some virtio_scmi_ops
  | _ => None
  end.

Definition daemon_backends : VirtioBackends backend :=
  {| device_ops_table := ops_of; call_notify := device_notify; dev_bytes := config_bytes |}.

End table.

(** ** Frames *)

Section frames.
Context {D : Type} {vring : VringEvent}.
Implicit Types (d : VirtIODevice D) (w : world).

Lemma backend_frame_trans d1 d2 d3 : backend_frame d1 d2 -> backend_frame d2 d3 -> backend_frame d1 d3.
Proof.
  intros (A1 & A2 & A3) (B1 & B2 & B3). split; [by etrans|]. split; [|auto]. rewrite B2 at 1. rewrite A2. done.
Qed.

Lemma set_dev_frame x d : backend_frame d (set_dev x d).
Proof. split; [repeat split; by apply Forall_Forall2_diag, Forall_true|]. split; [by destruct d as [? ? ? ? ? ? [] ]|done]. Qed.

(** A handler moves [last_avail_idx], within its range. *)
Definition index_moved (vq vq' : VirtQueue) : Prop := vq' = vq \/ exists v, 0 <= v < 2 ^ 16 /\ vq' = set_last_avail_idx v vq.

Lemma index_moved_trans a b c : index_moved a b -> index_moved b c -> index_moved a c.
Proof. intros [->|(v & Hv & ->)] [->|(u & Hu & ->)]; [by left|right; by exists u|right; by exists v|right; by exists u]. Qed.

Lemma index_moved_u16 x vq : index_moved vq (set_last_avail_idx (u16 x) vq).
Proof. right. eexists. split; [|done]. apply u16_range. Qed.

Lemma put_moved_frame d q vq vq' : vqs d !! q = Some vq -> index_moved vq vq' -> backend_frame d (put_vq q vq' d).
Proof.
  intros Hq Hm. assert (queue_write d (put_vq q vq' d)) as [H1 H2].
  { eapply put_vq_frame; [exact Hq|destruct Hm as [->|(v & Hv & ->)]; done..|]. destruct Hm as [->|(v & Hv & ->)]; [done|]. unfold vq_wf. cbn. tauto. }
  split; [done|]. split; [by destruct d as [? ? ? ? ? ? [] ]|done].
Qed.

Lemma set_w_mem_frame m w : world_frame w (set_w_mem m w).
Proof. by repeat split. Qed.

Lemma used_idx_range m vq i : used_idx m vq = Ok i -> 0 <= i < 2 ^ 16.
Proof. unfold used_idx. intros H. by apply load_range in H. Qed.

Lemma virtio_inject_irq_frame d q w d' w' : virtio_inject_irq d q w = Ok (d', w') -> backend_frame d d' /\ world_frame w w'.
Proof.
  unfold virtio_inject_irq. intros H. apply bind_Ok_inv in H as (vq & Hq & H). apply of_index_Ok_inv in Hq.
  apply bind_Ok_inv in H as (idx & Hi & H). apply used_idx_range in Hi. set (d1 := put_vq q (set_last_used_idx idx vq) d) in *.
  assert (backend_frame d d1) as Hd1.
  { assert (queue_write d d1) as [H1 H2] by (eapply put_vq_frame; [exact Hq|done|done|unfold vq_wf; cbn; tauto]). split; [done|]. split; [by destruct d as [? ? ? ? ? ? [] ]|done]. }
  destruct (_ =? _); [injection H as <- <-; by split|]. apply bind_Ok_inv in H as (s & _ & H). destruct s; [injection H as <- <-; by split|].
  set (d2 := upd_regs (fun r => set_interrupt_status (Z.lor (interrupt_status r) VIRTIO_MMIO_INT_VRING) r) d1).
  assert (backend_frame d d2) as Hd2.
  { eapply backend_frame_trans; [exact Hd1|]. assert (queue_write d1 d2) as [H1 H2].
    { apply upd_regs_frame. unfold regs_wf. cbn. intros (? & Hs & ?). split; [done|]. split; [|done]. apply lor_range; [lia|done|unfold VIRTIO_MMIO_INT_VRING; lia]. }
    split; [done|]. split; [by destruct d as [? ? ? ? ? ? [] ]|done]. }
  apply raise_line_inv in H as [(_ & -> & ->)|(_ & f & w1 & w2 & ret & fails & _ & _ & Hb1 & Hp & -> & Hb & Hm & Hz & _)]; [by split|].
  apply push_res_spec in Hp as (_ & _ & _ & Hb2). split.
  - destruct (ret =? 0); [|done]. eapply backend_frame_trans; [exact Hd2|]. split; [repeat split; by apply Forall_Forall2_diag, Forall_true|].
    split; [by destruct d as [? ? ? ? ? ? [] ]|done].
  - unfold world_frame. rewrite Hz, Hb, Hb2, Hb1. done.
Qed.

End frames.

Lemma retype_frame {A B} (x : A) (y : B) (d : VirtIODevice B) (d1 : VirtIODevice A) : backend_frame (retype x d) d1 -> backend_frame d (retype y d1).
Proof. done. Qed.

Lemma set_dev_retype {A} (x : A) (d : VirtIODevice A) : set_dev x d = retype x d.
Proof. done. Qed.

(** ** The handlers' loops *)

Lemma walk_moved m zt z vq head cfg vq1 o : 0 <= max_out cfg -> 0 <= max_in cfg ->
  process_descriptor_chain_buf m zt z vq head cfg = Ok (vq1, o) -> index_moved vq vq1.
Proof.
  intros Ho Hi H. apply process_descriptor_chain_buf_inv in H; [|done|done]. destruct o as [r|]; [destruct H as [_ ->]; apply index_moved_u16|by left].
Qed.

Lemma net_tx_one_moved m zt z fd hl t vq batch vq' t' b : net_tx_one m zt z fd hl t vq batch = Ok (vq', t', b) -> index_moved vq vq'.
Proof.
  unfold net_tx_one. intros H. destruct (_ =? -1); [injection H as <- _ _; by left|]. apply bind_Ok_inv in H as (idx & _ & H).
  apply bind_Ok_inv in H as ( [vq1 o] & Hw & H). apply walk_moved in Hw; [|done|done]. eapply index_moved_trans; [exact Hw|]. destruct o as [r|].
  - destruct (_ <? 1); [apply bind_Ok_inv in H as (? & _ & [= <- _ _]); apply index_moved_u16|]. apply bind_Ok_inv in H as (first & _ & H).
    destruct (_ <? hl); [apply bind_Ok_inv in H as (? & _ & [= <- _ _]); by left|]. apply bind_Ok_inv in H as ( [ [l e] t1] & _ & H).
    apply bind_Ok_inv in H as (? & _ & [= <- _ _]). by left.
  - apply bind_Ok_inv in H as (? & _ & [= <- _ _]). apply index_moved_u16.
Qed.

Lemma net_tx_inner_moved fuel : forall m zt z fd hl t vq batch vq' t' b, net_tx_inner fuel m zt z fd hl t vq batch = Ok (vq', t', b) -> index_moved vq vq'.
Proof.
  induction fuel as [|fuel IH]; intros m zt z fd hl t vq batch vq' t' b H; cbn in H; [done|]. apply bind_Ok_inv in H as (e & _ & H).
  destruct e; [injection H as <- _ _; by left|]. apply bind_Ok_inv in H as ( [ [vq1 t1] b1] & H1 & H). apply net_tx_one_moved in H1.
  eapply index_moved_trans; [exact H1|by eapply IH].
Qed.

Section loops.
Context {vring : VringEvent}.

Lemma net_tx_outer_frame fuel : forall d w q d' w', net_tx_outer fuel d w q = Ok (d', w') -> backend_frame d d' /\ world_frame w w'.
Proof.
  induction fuel as [|fuel IH]; intros d w q d' w' H; [done|]. cbn [net_tx_outer] in H. apply bind_Ok_inv in H as (vq & Hq & H). apply of_index_Ok_inv in Hq.
  apply bind_Ok_inv in H as ( [ [vq1 t1] batch] & Hi & H). apply net_tx_inner_moved in Hi.
  set (d1 := put_vq q vq1 (set_dev (Net.set_tap_env t1 (dev d)) d)) in *.
  assert (backend_frame d d1) as Hd1 by (eapply backend_frame_trans; [apply set_dev_frame|by eapply put_moved_frame]).
  apply bind_Ok_inv in H as ( [d2 w2] & H2 & H). assert (backend_frame d d2 /\ world_frame w w2) as [Hd2 Hw2].
  { destruct (_ =? 0)%nat; [injection H2 as <- <-; by split|]. apply bind_Ok_inv in H2 as (m1 & _ & H2). apply virtio_inject_irq_frame in H2 as [? ?].
    split; [by eapply backend_frame_trans|]. etrans; [apply (set_w_mem_frame m1)|done]. }
  apply bind_Ok_inv in H as (vq2 & _ & H). apply bind_Ok_inv in H as (m3 & _ & H). apply bind_Ok_inv in H as (e & _ & H).
  destruct e; [injection H as <- <-; split; [done|etrans; [exact Hw2|apply set_w_mem_frame] ]|].
  apply bind_Ok_inv in H as (m4 & _ & H). apply IH in H as [? ?]. split; [by eapply backend_frame_trans|]. etrans; [exact Hw2|].
  etrans; [apply (set_w_mem_frame m3)|]. etrans; [apply (set_w_mem_frame m4)|done].
Qed.

Lemma console_tx_one_moved mal cf m zt z fd t vq vq' m' t' : console_tx_one mal cf m zt z fd t vq = Ok (vq', m', t') -> index_moved vq vq'.
Proof.
  unfold console_tx_one. intros H. destruct (_ <=? 0); [injection H as <- _ _; by left|]. apply bind_Ok_inv in H as (o & Hw & H).
  destruct o as [cr|]; [|injection H as <- _ _; by left]. apply process_descriptor_chain_inv in Hw as [Hcr _].
  assert (index_moved vq (cr_vq cr)) as Hm by (rewrite Hcr; apply index_moved_u16). destruct (_ <? 1); [by injection H as <- _ _|].
  apply bind_Ok_inv in H as (iov & _ & H). apply bind_Ok_inv in H as ( [ [l e] t1] & _ & H). by apply bind_Ok_inv in H as (m1 & _ & [= <- _ _]).
Qed.

Lemma console_tx_inner_moved mal cf fuel : forall m zt z fd t vq vq' m' t', console_tx_inner mal cf fuel m zt z fd t vq = Ok (vq', m', t') -> index_moved vq vq'.
Proof.
  induction fuel as [|fuel IH]; intros m zt z fd t vq vq' m' t' H; cbn in H; [done|]. apply bind_Ok_inv in H as (e & _ & H).
  destruct e; [injection H as <- _ _; by left|]. apply bind_Ok_inv in H as ( [ [vq1 m1] t1] & H1 & H). apply console_tx_one_moved in H1.
  eapply index_moved_trans; [exact H1|by eapply IH].
Qed.

Lemma console_tx_drain_moved mal cf fuel : forall m zt z fd t vq vq' m' t', console_tx_drain mal cf fuel m zt z fd t vq = Ok (vq', m', t') -> index_moved vq vq'.
Proof.
  induction fuel as [|fuel IH]; intros m zt z fd t vq vq' m' t' H; [done|]. cbn [console_tx_drain] in H. apply bind_Ok_inv in H as (e & _ & H).
  destruct e; [injection H as <- _ _; by left|]. apply bind_Ok_inv in H as (m1 & _ & H). apply bind_Ok_inv in H as ( [ [vq1 m2] t1] & H1 & H).
  apply bind_Ok_inv in H as (m3 & _ & H). apply console_tx_inner_moved in H1. eapply index_moved_trans; [exact H1|by eapply IH].
Qed.

Context {kern : ScmiKernel}.

Lemma scmi_one_moved m zt z s calls vq ok vq' m' calls' : virtq_tx_handle_one_request m zt z s calls vq = Ok (ok, vq', m', calls') -> index_moved vq vq'.
Proof.
  unfold virtq_tx_handle_one_request. intros H. apply bind_Ok_inv in H as (idx & _ & H). apply bind_Ok_inv in H as ( [vq1 o] & Hw & H).
  apply walk_moved in Hw; [|done|done]. eapply index_moved_trans; [exact Hw|].
  assert (forall r, (m1 ← update_used_ring m (set_last_avail_idx (u16 (last_avail_idx vq1 + 1)) vq1) idx 0; Ok (false, set_last_avail_idx (u16 (last_avail_idx vq1 + 1)) vq1, m1, calls))
    = Ok r -> index_moved vq1 r.1.1.2) as Hf by (intros r Hr; apply bind_Ok_inv in Hr as (m1 & _ & [= <-]); apply index_moved_u16).
  destruct o as [r|]; [|by apply (Hf _ H)]. destruct (_ <=? 0); [by apply (Hf _ H)|]. apply bind_Ok_inv in H as ( [ [wr m1] c1] & _ & H).
  apply bind_Ok_inv in H as (m2 & _ & [= _ <- _ _]). by left.
Qed.

Lemma scmi_batch_moved fuel : forall m zt z s calls vq vq' m' calls', scmi_batch fuel m zt z s calls vq = Ok (vq', m', calls') -> index_moved vq vq'.
Proof.
  induction fuel as [|fuel IH]; intros m zt z s calls vq vq' m' calls' H; cbn in H; [done|]. apply bind_Ok_inv in H as (e & _ & H).
  destruct e; [injection H as <- _ _; by left|]. apply bind_Ok_inv in H as ( [ [ [ok vq1] m1] c1] & H1 & H). apply scmi_one_moved in H1.
  destruct ok; [eapply index_moved_trans; [exact H1|by eapply IH]|by injection H as <- _ _].
Qed.

Lemma scmi_drain_moved fuel : forall m zt z s calls vq vq' m' calls', scmi_drain fuel m zt z s calls vq = Ok (vq', m', calls') -> index_moved vq vq'.
Proof.
  induction fuel as [|fuel IH]; intros m zt z s calls vq vq' m' calls' H; [done|]. cbn [scmi_drain] in H. apply bind_Ok_inv in H as (e & _ & H).
  destruct e; [injection H as <- _ _; by left|]. apply bind_Ok_inv in H as (m1 & _ & H). apply bind_Ok_inv in H as ( [ [vq1 m2] c1] & H1 & H).
  apply bind_Ok_inv in H as (m3 & _ & H). apply scmi_batch_moved in H1. eapply index_moved_trans; [exact H1|by eapply IH].
Qed.

(** A queue index moved, memory written, an interrupt injected. *)
Lemma served_frame {A} (d d1 : VirtIODevice A) q vq vq1 m w d2 w2 : vqs d !! q = Some vq -> index_moved vq vq1 -> backend_frame d d1 -> vqs d1 = vqs d ->
  virtio_inject_irq (put_vq q vq1 d1) q (set_w_mem m w) = Ok (d2, w2) -> backend_frame d d2 /\ world_frame w w2.
Proof.
  intros Hq Hm Hd Hv H. apply virtio_inject_irq_frame in H as [? ?]. split; [|etrans; [apply (set_w_mem_frame m)|done] ].
  eapply backend_frame_trans; [exact Hd|]. eapply backend_frame_trans; [eapply put_moved_frame; [by rewrite Hv|exact Hm]|done].
Qed.

Context (malloc : Z -> bool) (rest : backend -> list Z) (cfuel fuel : nat).

Lemma device_notify_frame f d q w d' w' : device_notify malloc cfuel fuel f d q w = Ok (d', w') -> backend_frame d d' /\ world_frame w w'.
Proof.
  unfold device_notify. intros H. destruct f, (dev d) as [|k|k|k|k]; try done.
  - by apply skip_frame.
  - unfold net_rx_notify in H. apply bind_Ok_inv in H as (vq & _ & H). apply bind_Ok_inv in H as ( [n m] & _ & [= <- <-]).
    split; [apply set_dev_frame|apply set_w_mem_frame].
  - unfold net_tx_notify in H. apply bind_Ok_inv in H as ( [d1 w1] & H1 & [= <- <-]). unfold virtio_net_txq_notify_handler in H1.
    apply bind_Ok_inv in H1 as (vq & _ & H1). apply bind_Ok_inv in H1 as (m & _ & H1). apply net_tx_outer_frame in H1 as [? ?].
    split; [by eapply retype_frame|]. etrans; [apply (set_w_mem_frame m)|done].
  - unfold console_rx_notify in H. apply bind_Ok_inv in H as (vq & _ & H). apply bind_Ok_inv in H as ( [n m] & _ & [= <- <-]).
    split; [apply set_dev_frame|apply set_w_mem_frame].
  - unfold console_tx_notify in H. apply bind_Ok_inv in H as ( [d1 w1] & H1 & [= <- <-]). unfold virtio_console_txq_notify_handler in H1.
    apply bind_Ok_inv in H1 as (vq & Hq & H1). apply of_index_Ok_inv in Hq. apply bind_Ok_inv in H1 as ( [ [vq1 m1] t1] & Hd & H1). apply console_tx_drain_moved in Hd.
    eapply served_frame in H1 as [? ?]; [|exact Hq|exact Hd|apply set_dev_frame|done]. split; [by eapply retype_frame|done].
  - unfold scmi_tx_notify in H. apply bind_Ok_inv in H as ( [ [d1 w1] c1] & H1 & [= <- <-]). unfold virtio_scmi_txq_notify_handler in H1.
    apply bind_Ok_inv in H1 as (vq & Hq & H1). apply of_index_Ok_inv in Hq. apply bind_Ok_inv in H1 as ( [ [vq1 m1] c2] & Hd & H1). apply scmi_drain_moved in Hd.
    apply bind_Ok_inv in H1 as ( [d2 w2] & H1 & [= <- <- _]).
    eapply served_frame in H1 as [? ?]; [|exact Hq|exact Hd|apply backend_frame_refl|done]. split; [by eapply retype_frame|done].
Qed.

(** The devices keep the transport's contract. *)
#[global] Instance daemon_backend_laws : @BackendLaws backend (daemon_backends malloc rest cfuel fuel).
Proof.
  constructor.
  - apply device_notify_frame.
  - intros t ops f d w d' w' Ht Hf H. cbn in Ht. destruct t; try done; injection Ht as <-; cbn in Hf; injection Hf as <-; try by apply skip_frame.
    unfold net_reset in H. destruct (dev d) as [|k|k|k|k] eqn:Ed; try by apply skip_frame. injection H as <- <-. split; [apply (set_dev_frame _ d)|reflexivity].
  - intros t ops f d v w d' w' Ht Hf H. cbn in Ht. destruct t; try done; injection Ht as <-; cbn in Hf; try done. injection Hf as <-.
    unfold net_status in H. destruct (dev d) as [|k|k|k|k] eqn:Ed; try done. injection H as <- <-. split; [apply (set_dev_frame _ d)|reflexivity].
Qed.

End loops.

(** ** The object behind [vdev->dev]

    A request changes it only through the device's own handlers: a preorder that every
    handler respects holds of the devices before and after any request. *)

Section dev_preorder.
Context {D : Type} {vring : VringEvent} {backends : VirtioBackends D} (a : arch) (R : relation D) `{!PreOrder R}.
Implicit Types (d : VirtIODevice D) (w : world) (s : system D).

Record HandlersRespect : Prop := {
  respect_notify f d q w d' w' : call_notify f d q w = Ok (d', w') -> R (dev d) (dev d');
  respect_reset t ops f d w d' w' : device_ops_table t = Some ops -> ops_reset ops = Some f -> f d w = Ok (d', w') -> R (dev d) (dev d');
  respect_status t ops f d v w d' w' : device_ops_table t = Some ops -> ops_status_changed ops = Some f -> f d v w = Ok (d', w') -> R (dev d) (dev d');
}.

Lemma reset_interrupt_dev d w d' w' : reset_interrupt a d w = Ok (d', w') -> dev d' = dev d.
Proof.
  unfold reset_interrupt. intros H. apply bind_Ok_inv in H as ( [d1 w1] & H1 & [= <- _]). transitivity (dev d1); [by destruct (interrupt_line_asserted d1)|].
  destruct (interrupt_line_asserted d); [|by injection H1 as <- _]. apply bind_Ok_inv in H1 as ( [ret w2] & _ & [= <- _]). by destruct (ret =? 0).
Qed.

Lemma interrupt_ack_dev d v w d' w' : interrupt_ack a d v w = Ok (d', w') -> dev d' = dev d.
Proof. unfold interrupt_ack. intros H. apply bind_Ok_inv in H as ( [ret w1] & _ & [= <- _]). destruct (ret =? 0); [|done]. by destruct (_ =? 0). Qed.

Lemma upd_selected_dev f d d' : upd_selected f d = Ok d' -> dev d' = dev d.
Proof. unfold upd_selected. intros H. by apply bind_Ok_inv in H as (vq & _ & [= <-]). Qed.

Context (HR : HandlersRespect).

Lemma write_status_dev d v w d' w' : write_status a d v w = Ok (d', w') -> R (dev d) (dev d').
Proof.
  unfold write_status. intros H. apply bind_Ok_inv in H as ( [d2 w2] & H2 & H). transitivity (dev d2).
  - destruct (_ =? 0); [|by injection H2 as <- _]. unfold virtio_dev_reset in H2. apply bind_Ok_inv in H2 as ( [d1 w1] & H1 & H2).
    apply reset_interrupt_dev in H1. apply bind_Ok_inv in H2 as (vq & _ & H2). apply bind_Ok_inv in H2 as ( [d4 w4] & H4 & [= <- _]). cbn [dev set_activated set_vqs].
    assert (dev d = dev d1) as -> by (by rewrite H1). unfold run_reset in H4. destruct (lookup_ops _) as [ops|] eqn:Eo; [|by injection H4 as <- _].
    destruct (ops_reset ops) as [f|] eqn:Ef; [|by injection H4 as <- _]. unfold lookup_ops in Eo. destruct (_ <=? _); [done|].
    by apply (respect_reset HR _ _ _ _ _ _ _ Eo Ef) in H4.
  - unfold run_status_changed in H. destruct (status_changed d2); [|by injection H as <- _]. destruct (lookup_ops _) as [ops|] eqn:Eo; [|by injection H as <- _].
    destruct (ops_status_changed ops) as [f|] eqn:Ef; [|by injection H as <- _]. unfold lookup_ops in Eo. destruct (_ <=? _); [done|].
    by apply (respect_status HR _ _ _ _ _ _ _ _ Eo Ef) in H.
Qed.

Lemma virtio_mmio_write_dev d offset v size w d' w' : virtio_mmio_write a d offset v size w = Ok (d', w') -> R (dev d) (dev d').
Proof.
  unfold virtio_mmio_write. intros H. destruct (_ <=? offset); [by injection H as <- _|]. destruct (negb _); [by injection H as <- _|].
  destruct (decode_reg offset) as [r|]; [|by injection H as <- _]. destruct r; try (by injection H as <- _);
    try (apply bind_Ok_inv in H as (d1 & H1 & [= <- _]); apply upd_selected_dev in H1; by rewrite H1).
  - injection H as <- _. unfold write_driver_features. by destruct (has_flag _ _).
  - unfold queue_notify in H. destruct (_ <? _); [|by injection H as <- _]. apply bind_Ok_inv in H as (vq & _ & H).
    destruct (notify_handler vq); [by eapply respect_notify|by injection H as <- _].
  - apply interrupt_ack_dev in H. by rewrite H.
  - by eapply write_status_dev.
Qed.

Definition devs_related (ds ds' : list (VirtIODevice D)) : Prop := Forall2 (fun d d' => R (dev d) (dev d')) ds ds'.

Lemma virtio_handle_req_dev req s r s' : virtio_handle_req a req s = Ok (r, s') -> devs_related (vdevs s) (vdevs s').
Proof.
  assert (forall ds, devs_related ds ds) as Hrefl by (intros ds; apply Forall_Forall2_diag, Forall_true; done).
  assert (forall c v s1 s2, finish c v s1 = Ok s2 -> vdevs s2 = vdevs s1) as Hfin by (intros c v s1 s2 Hf; unfold finish in Hf; by apply bind_Ok_inv in Hf as (b & _ & [= <-])).
  unfold virtio_handle_req. intros H. destruct (find_dev req (vdevs s) 0) as [ [i d]|] eqn:Ef.
  2: { apply bind_Ok_inv in H as (s1 & H1 & [= _ <-]). by rewrite (Hfin _ _ _ _ H1). }
  apply find_dev_spec in Ef as (k & -> & Hk & _). apply bind_Ok_inv in H as ( [v s1] & H1 & H). apply bind_Ok_inv in H as (s2 & H2 & [= _ <-]).
  assert (vdevs s2 = vdevs s1) as -> by (destruct (need_interrupt req =? 0); [by eapply Hfin|by injection H2 as <-]). clear H2.
  destruct (negb (is_write req =? 0)); apply bind_Ok_inv in H1 as ( [x w1] & H1 & [= _ <-]); [|apply Hrefl]. apply virtio_mmio_write_dev in H1. cbn [vdevs plus].
  rewrite <- (list_insert_id (vdevs s) k d Hk) at 1. apply Forall2_insert; [apply Hrefl|done].
Qed.

End dev_preorder.

(** ** Serving requests keeps what the devices hold *)

Definition same_owned_dev (b b' : backend) : Prop := owned_of b' = owned_of b /\ (backend_ok b -> backend_ok b').

#[global] Instance same_owned_preorder : PreOrder same_owned_dev.
Proof. split; [by intros b|]. intros b1 b2 b3 [A1 A2] [B1 B2]. split; [by rewrite B1|auto]. Qed.

Section serving.
Context {vring : VringEvent} {kern : ScmiKernel} (malloc : Z -> bool) (rest : backend -> list Z) (cfuel fuel : nat).

Lemma virtio_inject_irq_dev {A} (d : VirtIODevice A) q w d' w' : virtio_inject_irq d q w = Ok (d', w') -> dev d' = dev d.
Proof.
  unfold virtio_inject_irq. intros H. apply bind_Ok_inv in H as (vq & _ & H). apply bind_Ok_inv in H as (idx & _ & H). destruct (_ =? _); [by injection H as <- _|].
  apply bind_Ok_inv in H as (s & _ & H). destruct s; [by injection H as <- _|].
  apply raise_line_inv in H as [(_ & -> & _)|(_ & f & w1 & w2 & ret & fails & _ & _ & _ & _ & -> & _)]; [done|by destruct (ret =? 0)].
Qed.

Lemma net_tx_outer_tapfd n : forall d w q d' w', net_tx_outer n d w q = Ok (d', w') -> tapfd (dev d') = tapfd (dev d).
Proof.
  induction n as [|n IH]; intros d w q d' w' H; [done|]. cbn [net_tx_outer] in H. apply bind_Ok_inv in H as (vq & _ & H).
  apply bind_Ok_inv in H as ( [ [vq1 t1] batch] & _ & H). apply bind_Ok_inv in H as ( [d2 w2] & H2 & H).
  assert (tapfd (dev d2) = tapfd (dev d)) as Hd2.
  { destruct (_ =? 0)%nat; [by injection H2 as <- _|]. apply bind_Ok_inv in H2 as (m1 & _ & H2). apply virtio_inject_irq_dev in H2. by rewrite H2. }
  apply bind_Ok_inv in H as (vq2 & _ & H). apply bind_Ok_inv in H as (m3 & _ & H). apply bind_Ok_inv in H as (e & _ & H).
  destruct e; [by injection H as <- _|]. apply bind_Ok_inv in H as (m4 & _ & H). apply IH in H. by rewrite H.
Qed.

Lemma with_net_same n b : tapfd n = tapfd (net b) -> same_owned_dev (BNet b) (BNet (with_net n b)).
Proof. intros H. unfold same_owned_dev. cbn [owned_of backend_ok net net_event net_in_iov net_out_iov with_net]. by rewrite H. Qed.

Lemma with_console_same c b : master_fd c = master_fd (console b) -> slave_keepalive_fd c = slave_keepalive_fd (console b) ->
  same_owned_dev (BConsole b) (BConsole (with_console c b)).
Proof. intros H1 H2. unfold same_owned_dev. cbn [owned_of backend_ok console console_event with_console]. by rewrite H1, H2. Qed.

Lemma device_notify_same f d q w d' w' : device_notify malloc cfuel fuel f d q w = Ok (d', w') -> same_owned_dev (dev d) (dev d').
Proof.
  unfold device_notify. intros H. destruct f, (dev d) as [|k|k|k|k] eqn:Ed; try done.
  - injection H as <- _. by rewrite Ed.
  - unfold net_rx_notify in H. apply bind_Ok_inv in H as (vq & _ & H). apply bind_Ok_inv in H as ( [n m] & H1 & [= <- _]). apply with_net_same.
    unfold virtio_net_rxq_notify_handler in H1. destruct (_ <=? 0); [by apply bind_Ok_inv in H1 as (m1 & _ & [= <- _])|by injection H1 as <- _].
  - unfold net_tx_notify in H. apply bind_Ok_inv in H as ( [d1 w1] & H1 & [= <- _]). apply with_net_same. unfold virtio_net_txq_notify_handler in H1.
    apply bind_Ok_inv in H1 as (vq & _ & H1). apply bind_Ok_inv in H1 as (m & _ & H1). by apply net_tx_outer_tapfd in H1.
  - unfold console_rx_notify in H. apply bind_Ok_inv in H as (vq & _ & H). apply bind_Ok_inv in H as ( [n m] & H1 & [= <- _]).
    unfold virtio_console_rxq_notify_handler in H1.
    apply with_console_same; (destruct (_ <=? 0); [by apply bind_Ok_inv in H1 as (m1 & _ & [= <- _])|by injection H1 as <- _]).
  - unfold console_tx_notify in H. apply bind_Ok_inv in H as ( [d1 w1] & H1 & [= <- _]). unfold virtio_console_txq_notify_handler in H1.
    apply bind_Ok_inv in H1 as (vq & _ & H1). apply bind_Ok_inv in H1 as ( [ [vq1 m1] t1] & _ & H1). apply virtio_inject_irq_dev in H1.
    apply with_console_same; by rewrite H1.
  - unfold scmi_tx_notify in H. by apply bind_Ok_inv in H as ( [ [d1 w1] c1] & _ & [= <- _]).
Qed.

Lemma daemon_handlers_respect : @HandlersRespect backend (daemon_backends malloc rest cfuel fuel) same_owned_dev.
Proof.
  constructor; [apply device_notify_same| |]; cbn [device_ops_table daemon_backends].
  - intros t ops f d w d' w' Ht Hf H. destruct t; try done; injection Ht as <-; cbn in Hf; injection Hf as <-; try (by injection H as <- _).
    unfold net_reset in H. destruct (dev d) as [|k|k|k|k] eqn:Ed; injection H as <- _; try (by rewrite Ed). by apply with_net_same.
  - intros t ops f d v w d' w' Ht Hf H. destruct t; try done; injection Ht as <-; cbn in Hf; try done. injection Hf as <-.
    unfold net_status in H. destruct (dev d) as [|k|k|k|k] eqn:Ed; try done. injection H as <- _. apply with_net_same.
    unfold net_on_status. by destruct (has_flag _ _), (v =? 0).
Qed.

End serving.

(** ** Events *)

Section events.
Context {vring : VringEvent} (malloc : Z -> bool) (cfuel fuel : nat).

Lemma net_rx_loop_tapfd n : forall m zt z nd vq batch vq' m' nd' b, net_rx_loop n m zt z nd vq batch = Ok (vq', m', nd', b) -> tapfd nd' = tapfd nd.
Proof.
  induction n as [|n IH]; intros m zt z nd vq batch vq' m' nd' b H; [done|]. cbn [net_rx_loop] in H. apply bind_Ok_inv in H as (e & _ & H).
  destruct e; [by injection H as _ _ <- _|]. apply bind_Ok_inv in H as (idx & _ & H). apply bind_Ok_inv in H as ( [vq1 o] & _ & H).
  destruct (_ || _); [by apply bind_Ok_inv in H as (b1 & _ & [= _ _ <- _])|]. apply bind_Ok_inv in H as ( [ [ [l er] m1] t1] & _ & H).
  destruct (_ && _); [by injection H as _ _ <- _|]. destruct (l <? 0); [by apply bind_Ok_inv in H as (b1 & _ & [= _ _ <- _])|].
  destruct (l =? 0); [by apply bind_Ok_inv in H as (b1 & _ & [= _ _ <- _])|]. apply bind_Ok_inv in H as (b1 & _ & H). by apply IH in H.
Qed.

Lemma net_event_tapfd fd e d w d' w' : virtio_net_event_handler fuel fd e d w = Ok (d', w') -> tapfd (dev d') = tapfd (dev d).
Proof.
  unfold virtio_net_event_handler. intros H. apply bind_Ok_inv in H as (vq & _ & H). destruct (_ || _); [by injection H as <- _|].
  destruct (_ || _); [by injection H as <- _|]. destruct (_ =? 0); [by apply bind_Ok_inv in H as (t1 & _ & [= <- _])|].
  apply bind_Ok_inv in H as (em & _ & H). destruct em.
  - apply bind_Ok_inv in H as (t1 & _ & H). apply virtio_inject_irq_dev in H. by rewrite H.
  - apply bind_Ok_inv in H as ( [ [ [vq1 m1] n1] b] & Hl & H). apply bind_Ok_inv in H as (m2 & _ & H). apply net_rx_loop_tapfd in Hl.
    apply virtio_inject_irq_dev in H. by rewrite H.
Qed.

Lemma console_event_fds fd e d w d' w' : virtio_console_event_handler malloc cfuel fuel fd e d w = Ok (d', w') ->
  master_fd (dev d') = master_fd (dev d) /\ slave_keepalive_fd (dev d') = slave_keepalive_fd (dev d).
Proof.
  unfold virtio_console_event_handler. intros H. apply bind_Ok_inv in H as (vq & _ & H). destruct (_ || _); [by injection H as <- _|].
  destruct (_ || _); [by injection H as <- _|]. destruct (_ <=? 0); [by apply bind_Ok_inv in H as (t1 & _ & [= <- _])|].
  apply bind_Ok_inv in H as (em & _ & H).
  destruct em; [apply bind_Ok_inv in H as (t1 & _ & H)|apply bind_Ok_inv in H as ( [ [vq1 m1] t1] & _ & H)]; apply virtio_inject_irq_dev in H; by rewrite H.
Qed.

Lemma device_event_same fd e d w d' w' : device_event malloc cfuel fuel fd e d w = Ok (d', w') -> same_owned_dev (dev d) (dev d').
Proof.
  unfold device_event. intros H. destruct (dev d) as [|k|k|k|k]; try done; apply bind_Ok_inv in H as ( [d1 w1] & H1 & [= <- _]).
  - apply net_event_tapfd in H1. by apply with_net_same.
  - apply console_event_fds in H1 as [H1 H2]. by apply with_console_same.
Qed.

End events.

(** ** The daemon at work *)

Section daemon_at_work.
Context {J : Type} {cj : CJson J} {vring : VringEvent} {kern : ScmiKernel} (a : arch) (malloc : Z -> bool) (rest : backend -> list Z) (cfuel fuel : nat) (env : fd_env) (alloc : nat -> bool).
#[local] Instance table : VirtioBackends backend := daemon_backends malloc rest cfuel fuel.

(** The event monitor's thread calls the handler of a ready descriptor, which returns.
    Guest memory and the hypervisor's answers are any. *)
Inductive event_step : rdaemon * virtio_bridge -> rdaemon * virtio_bridge -> Prop :=
  | event_handled fd epollin i d d' dm w w' : w_zones w = dm_zones dm -> dm_vdevs dm !! i = Some d ->
      device_event malloc cfuel fuel fd epollin d w = Ok (d', w') ->
      event_step (dm, w_bridge w) (set_vdevs (<[i := d']> (dm_vdevs dm)) dm, w_bridge w').

(** The three threads of a running daemon, as they interleave: a client of the control
    socket, a guest's access to a register, and input on a descriptor of the event
    monitor, each served to its end. *)
Inductive serve_step : rdaemon * virtio_bridge -> rdaemon * virtio_bridge -> Prop :=
  | serve_client op load dm b dm' b' : control_round env alloc op load dm b = Ok (dm', b') -> serve_step (dm, b) (dm', b')
  | serve_request req dm w r s : w_zones w = dm_zones dm ->
      virtio_handle_req a req {| vdevs := dm_vdevs dm; sw := w |} = Ok (r, s) ->
      serve_step (dm, w_bridge w) (set_vdevs (vdevs s) dm, w_bridge (sw s))
  | serve_event s s' : event_step s s' -> serve_step s s'.

Lemma event_step_daemon s s' : event_step s s' -> daemon_step env alloc s s'.
Proof.
  intros [fd e i d d' dm w w' Hz Hi H]. apply step_requests. rewrite <- (list_insert_id (dm_vdevs dm) i d Hi) at 1.
  apply Forall2_insert; [by apply Forall_Forall2_diag, Forall_true|]. by eapply device_event_same.
Qed.

Lemma serve_step_daemon s s' : serve_step s s' -> daemon_step env alloc s s'.
Proof.
  intros [op load dm b dm' b' H|req dm w r s1 Hz H|s1 s2 H]; [by eapply step_client| |by apply event_step_daemon]. apply step_requests.
  exact (virtio_handle_req_dev a same_owned_dev (daemon_handlers_respect malloc rest cfuel fuel) _ _ _ _ H).
Qed.

Lemma steps_daemon (R : rdaemon * virtio_bridge -> rdaemon * virtio_bridge -> Prop) s s' :
  (forall x y, R x y -> daemon_step env alloc x y) -> rtc R s s' -> rtc (daemon_step env alloc) s s'.
Proof. intros HR. induction 1 as [|x y z H _ IH]; [done|]. eapply rtc_l; [by apply HR|exact IH]. Qed.

(** C36: The daemon with its block, network, console and SCMI devices, from its start
    to its shutdown.  Once the request loop is reached, guests' accesses, input on the
    taps and terminals and clients of the control socket are served, each handler
    returning, in any order.  Shutdown then stops the control server; the monitor's
    thread may go on calling handlers, which return; the event monitor is closed,
    after which no descriptor is registered and so no further event is delivered; and
    the rest of the shutdown, if no handler is called for events delivered before,
    does not fault and gives back every descriptor, event, back end lock and
    allocation, zone mapping and thread taken since the start but the monitor's
    thread, whichever calls failed.  A handler that is still called is a defect:
    [close_races_with_dispatch], [console_event_after_reset]. *)
Theorem serving_daemon_shuts_down r0 argc root dm b g dm1 b1 s :
  dm_vdevs dm = [] -> daemon_holds r0 dm -> virtio_start env alloc argc root globals0 dm b = Ok (StartLoop, g, dm1, b1) ->
  rtc serve_step (dm1, b1) s ->
  exists g2 dm2, close_control g s.1 = Ok (g2, dm2) /\
  forall s2, rtc event_step (dm2, s.2) s2 ->
    exists dm3 r3, close_monitor g2 s2.1 = Ok dm3 /\ h_env (dm_host dm3) = Ok r3 /\ interest (r_mon r3) = [] /\
    exists g' dm', close_rest env g2 dm3 = Ok (g', dm') /\ released r0 g' dm'.
Proof.
  intros Hv Hd H Hs. apply virtio_start_outcome with (r0 := r0) in H as (k & Hk & H); [|done|done].
  apply (steps_daemon _ _ _ serve_step_daemon) in Hs. eapply daemon_steps_keep in Hs; [|apply contained_globals|apply globals_stale|exact H].
  destruct (close_control_stops r0 k g s.1 Hs) as (g2 & dm2 & Hc & _ & _ & Hf & Ht & H2). exists g2, dm2. split; [done|]. intros s2 Hev.
  apply (steps_daemon _ _ _ event_step_daemon) in Hev. eapply daemon_steps_keep in Hev; [|apply contained_globals|apply globals_stale|exact H2].
  by apply (close_rest_releases env r0 k).
Qed.

End daemon_at_work.

(** ** Witnesses and examples *)

#[local] Existing Instance json_cjson.
#[local] Existing Instance vring_event_std.
#[local] Existing Instance kernel_zero.
(** The rest of each object is zero. *)
Definition zeros (b : backend) : list Z := replicate 64 0.
#[local] Instance table0 : VirtioBackends backend := daemon_backends (fun _ => true) zeros 16 16.

Abbreviation start0 := (virtio_start silent (fun _ => true) 4 (Some res_doc) globals0 (res_daemon ans_zero) bridge0).

(** An access to the disk's registers by processor 2 of zone 1. *)
Definition access (off v wr : Z) : device_req :=
  {| src_cpu := 2; address := 0xa000000 + off; size := 4; value := v; src_zone := 1; is_write := wr; need_interrupt := 0 |}.

Definition serve1 (req : device_req) (dm : rdaemon) (b : virtio_bridge) : result (Z * system backend) :=
  virtio_handle_req ARM64 req {| vdevs := dm_vdevs dm; sw := set_w_bridge b world0 |}.

Lemma run_start0 : exists g dm b r s, start0 = Ok (StartLoop, g, dm, b) /\ dm_zones dm = table_ab /\ serve1 (access VIRTIO_MMIO_STATUS 0 1) dm b = Ok (r, s).
Proof. eexists _, _, _, _, _. split; [vm_compute; reflexivity|]. split; vm_compute; reflexivity. Qed.

Lemma serving_daemon_shuts_down_witness :
  exists g dm b r s g2 dm2 dm3 g' dm', start0 = Ok (StartLoop, g, dm, b) /\ serve1 (access VIRTIO_MMIO_STATUS 0 1) dm b = Ok (r, s) /\
    close_control g (set_vdevs (vdevs s) dm) = Ok (g2, dm2) /\ close_monitor g2 dm2 = Ok dm3 /\
    close_rest silent g2 dm3 = Ok (g', dm') /\ released (res_base ans_zero) g' dm'.
Proof.
  destruct run_start0 as (g & dm & b & r & s & H & Hz & H1). destruct (res_daemon_ready ans_zero) as [Hv Hd].
  destruct (serving_daemon_shuts_down ARM64 (fun _ => true) zeros 16 16 silent (fun _ => true) (res_base ans_zero) 4 (Some res_doc) (res_daemon ans_zero) bridge0 g dm b
    (set_vdevs (vdevs s) dm, w_bridge (sw s)) Hv Hd H) as (g2 & dm2 & H2 & H3).
  { apply rtc_once. exact (serve_request ARM64 (fun _ => true) zeros 16 16 silent (fun _ => true) (access VIRTIO_MMIO_STATUS 0 1) dm (set_w_bridge b world0) r s (eq_sym Hz) H1). }
  destruct (H3 _ (rtc_refl _ _)) as (dm3 & r3 & H4 & _ & _ & g' & dm' & H5 & H6).
  exists g, dm, b, r, s, g2, dm2, dm3, g', dm'. split; [exact H|]. split; [exact H1|]. split; [exact H2|]. split; [exact H4|]. split; [exact H5|exact H6].
Defined.

(** What a guest reads at a register of the disk of the running daemon. *)
Definition disk_reads (ans : nat -> Z) (off : Z) : option Z :=
  match virtio_start silent (fun _ => true) 4 (Some res_doc) globals0 (res_daemon ans) bridge0 with
  | Ok (StartLoop, _, dm, b) =>
      match serve1 (access off 0 0) dm b with
      | Ok (0, s) => cfg_values (w_bridge (sw s)) !! 2%nat
      | _ => None
      end
  | _ => None
  end.

(** A disk image of 4096 bytes. *)
Definition ans_disk (n : nat) : Z := if (n =? 12)%nat then 4096 else 0.

(** The device identifier, the offered queue size and the capacity, as the guest's
    driver sees them. *)
Example disk_seen_by_guest :
  (disk_reads ans_disk VIRTIO_MMIO_DEVICE_ID, disk_reads ans_disk VIRTIO_MMIO_QUEUE_NUM_MAX, disk_reads ans_disk VIRTIO_MMIO_CONFIG) = (Some 2, Some 512, Some 8).
Proof. vm_compute. reflexivity. Qed.

(** [virtio_blk_init] stores the number of sectors in [size_max], which with the
    offered VIRTIO_BLK_F_SIZE_MAX is the longest segment in bytes: this disk accepts
    segments of 8 bytes. *)
Example disk_announces_small_segments :
  has_flag BLK_SUPPORTED_FEATURES (2 ^ VIRTIO_BLK_F_SIZE_MAX) = true /\
  (fun v => v mod 2 ^ 32) <$> disk_reads ans_disk (VIRTIO_MMIO_CONFIG + 8) = Some 8.
Proof. vm_compute. done. Qed.
