(* ===== verification/Control.v ===== *)
(** * The control socket's messages

    [read_full] and [write_full] of virtio.c over a connection that transfers any
    number of bytes per call, is interrupted, fails or ends; the request and response
    structures as bytes; the daemon's handler of one client and the [virtio add]
    command.  Claim: whatever the pieces the messages travel in, the daemon adds the
    configuration the command names and the command reports what the daemon did. *)

From Stdlib Require Import String Ascii.
From S2P Require Import Prelude Memory ZoneMem Virtqueue Device Ring Interrupt Mmio Bridge Json Config.

(** ** Transfers *)

(** The outcome of one [read] or [write]: at most [k] bytes, EINTR, or another
    error.  No byte is the end of the stream. *)
Inductive io_ans :=
  | IoSome (k : nat)
  | IoIntr
  | IoFail.

(** Return value, bytes read, bytes still to come, outcomes left. *)
Fixpoint read_loop (answers : list io_ans) (len : nat) (buf incoming : list Z) : result (Z * list Z * list Z * list io_ans) :=
  if (len <=? length buf)%nat then Ok (Z.of_nat (length buf), buf, incoming, answers)
  else
    match answers with
    | [] => Err EnvExhausted
    | IoIntr :: a => read_loop a len buf incoming
    | IoFail :: a => Ok (-1, buf, incoming, a)
    | IoSome k :: a =>
        let got := take (k `min` (len - length buf)) incoming in
        if (length got =? 0)%nat then Ok (Z.of_nat (length buf), buf, incoming, a)
        else read_loop a len (buf ++ got) (drop (length got) incoming)
    end.

Definition read_full (answers : list io_ans) (len : nat) (incoming : list Z) := read_loop answers len [] incoming.

(** Return value, bytes sent, outcomes left; [data] is what is not sent yet. *)
Fixpoint write_loop (answers : list io_ans) (data sent : list Z) : result (Z * list Z * list io_ans) :=
  match data with
  | [] => Ok (Z.of_nat (length sent), sent, answers)
  | _ :: _ =>
      match answers with
      | [] => Err EnvExhausted
      | IoIntr :: a => write_loop a data sent
      | IoFail :: a => Ok (-1, sent, a)
      | IoSome k :: a =>
          if (k =? 0)%nat then Ok (Z.of_nat (length sent), sent, a)
          else write_loop a (drop k data) (sent ++ take k data)
      end
  end.

Definition write_full (answers : list io_ans) (data : list Z) := write_loop answers data [].

(** ** Messages *)

Definition OP_LEN : nat := 16.
Definition PATH_LEN : nat := Z.to_nat 4096.
Definition VIRTIO_CTRL_MSG_LEN : nat := Z.to_nat 256.
Definition VIRTIO_CTRL_OP_ADD : string := "add".

Definition bytes_of (s : string) : list Z := (fun a => Z.of_nat (nat_of_ascii a)) <$> list_ascii_of_string s.

Fixpoint until_nul (l : list Z) : list Z :=
  match l with
  | [] => []
  | b :: l' => if b =? 0 then [] else b :: until_nul l'
  end.

(** The C string at the start of an array. *)
Definition cstr (l : list Z) : string := string_of_list_ascii ((fun b => ascii_of_nat (Z.to_nat b)) <$> until_nul l).

(** A zeroed array after [snprintf(..., "%s", s)]. *)
Definition snprintf_field (n : nat) (s : string) : list Z :=
  let d := take (n - 1) (bytes_of s) in d ++ replicate (n - length d) 0.

Definition request_bytes (op path : string) : list Z := snprintf_field OP_LEN op ++ snprintf_field PATH_LEN path.

Definition REQUEST_SIZE : nat := OP_LEN + PATH_LEN.

Definition fill_control_response (r : control_response) : list Z :=
  le_bytes 4 (resp_status r) ++ snprintf_field VIRTIO_CTRL_MSG_LEN (resp_message r).

Definition RESPONSE_SIZE : nat := 4 + VIRTIO_CTRL_MSG_LEN.

(** [a[n - 1] = 0] *)
Definition terminate (n : nat) (l : list Z) : list Z := <[(n - 1)%nat := 0]> l.

Section exchange.
Context {D P E J : Type} {backends : VirtioBackends D} {life : DeviceLife D P E} {cj : CJson J} {config_ops : ConfigOps J P}.

(** What the daemon sends back and its state; [load] is the document at a path,
    [running] what [ctrl_running] is when the request is done. *)
Definition serve_control_client (running : bool) (load : string -> option J) (ra wa : list io_ans) (incoming : list Z)
    (dm : daemon D E) (b : virtio_bridge) : result (list Z * daemon D E * virtio_bridge) :=
  '(n, req, _, _) ← read_full ra REQUEST_SIZE incoming;
  if negb (n =? Z.of_nat REQUEST_SIZE) then Ok ([], dm, b)
  else
    let op := cstr (terminate OP_LEN (take OP_LEN req)) in
    let path := cstr (terminate PATH_LEN (drop OP_LEN req)) in
    '(resp, dm1, b1) ← handle_control_client op (load path) dm b;
    if running then
      '(_, sent, _) ← write_full wa (fill_control_response resp);
      Ok (sent, dm1, b1)
    else Ok ([], dm1, b1).

(** The command: return value and what is printed.  [path] is [realpath]'s result,
    [fd] and [connected] those of [socket] and [connect], [answer] what the peer
    sends back for the bytes it is sent. *)
Definition virtio_add (argc : Z) (path : option string) (fd connected : Z) (wa ra : list io_ans) (answer : list Z -> result (list Z)) :
    result (Z * option string) :=
  match path with
  | None => Ok (-1, None)
  | Some p =>
      if argc <? 4 then Ok (-1, None)
      else if fd <? 0 then Ok (-1, None)
      else if negb (connected =? 0) then Ok (-1, None)
      else
        '(n, sent, _) ← write_full wa (request_bytes VIRTIO_CTRL_OP_ADD p);
        if negb (n =? Z.of_nat REQUEST_SIZE) then Ok (-1, None)
        else
          reply ← answer sent;
          '(m, resp, _, _) ← read_full ra RESPONSE_SIZE reply;
          if negb (m =? Z.of_nat RESPONSE_SIZE) then Ok (-1, None)
          else Ok (s32 (le_value (take 4 resp)), Some (cstr (drop 4 resp)))
  end.

End exchange.

(** ** Lemmas *)

(** A connection that works: no failure and no early end. *)
Definition works (a : io_ans) : Prop :=
  match a with
  | IoSome k => (0 < k)%nat
  | IoIntr => True
  | IoFail => False
  end.

Definition transfers (a : io_ans) : bool :=
  match a with
  | IoSome _ => true
  | _ => false
  end.

(** Enough outcomes for [n] bytes, one byte at a time at worst. *)
Definition carries (answers : list io_ans) (n : nat) : Prop := Forall works answers /\ (n <= length (List.filter transfers answers))%nat.

Lemma read_loop_exact answers : forall len buf incoming, Forall works answers ->
  (length buf <= len)%nat -> (len - length buf <= length (List.filter transfers answers))%nat -> (len - length buf <= length incoming)%nat ->
  exists rest, read_loop answers len buf incoming =
    Ok (Z.of_nat len, buf ++ take (len - length buf) incoming, drop (len - length buf) incoming, rest).
Proof.
  induction answers as [|a answers IH]; intros len buf incoming Hw Hb Hn Hi; cbn [read_loop].
  - cbn in Hn. replace (len <=? length buf)%nat with true by (symmetry; apply Nat.leb_le; lia).
    replace (len - length buf)%nat with 0%nat by lia. rewrite take_0, drop_0, app_nil_r. eexists. do 2 f_equal. repeat f_equal. lia.
  - apply Forall_cons in Hw as [Ha Hw]. destruct (len <=? length buf)%nat eqn:El.
    { apply Nat.leb_le in El. replace (len - length buf)%nat with 0%nat by lia. rewrite take_0, drop_0, app_nil_r. eexists. repeat f_equal. lia. }
    apply Nat.leb_gt in El. destruct a as [k| |]; [|by apply IH|done]. cbn in Ha, Hn. set (m := (k `min` (len - length buf))%nat).
    assert (length (take m incoming) = m) as Hm by (rewrite length_take; lia). rewrite Hm.
    replace (m =? 0)%nat with false by (symmetry; apply Nat.eqb_neq; lia).
    destruct (IH len (buf ++ take m incoming) (drop m incoming)) as [rest Hrest]; [done|rewrite length_app; lia..|rewrite length_app, length_drop; lia|].
    exists rest. rewrite Hrest, length_app, Hm, <- app_assoc, drop_drop. replace (len - length buf)%nat with (m + (len - (length buf + m)))%nat by lia.
    rewrite take_take_drop. done.
Qed.

Lemma read_full_exact answers len incoming : carries answers len -> (len <= length incoming)%nat ->
  exists rest, read_full answers len incoming = Ok (Z.of_nat len, take len incoming, drop len incoming, rest).
Proof.
  intros [Hw Hn] Hi. destruct (read_loop_exact answers len [] incoming) as [rest H]; [done|cbn; lia..|]. exists rest. cbn in H. by rewrite Nat.sub_0_r in H.
Qed.

Lemma write_loop_exact answers : forall data sent, Forall works answers -> (length data <= length (List.filter transfers answers))%nat ->
  exists rest, write_loop answers data sent = Ok (Z.of_nat (length (sent ++ data)), sent ++ data, rest).
Proof.
  induction answers as [|a answers IH]; intros data sent Hw Hn.
  - destruct data; [|cbn in Hn; lia]. cbn. rewrite app_nil_r. eauto.
  - apply Forall_cons in Hw as [Ha Hw]. destruct data as [|x data]; [cbn; rewrite app_nil_r; eauto|]. cbn [write_loop].
    destruct a as [k| |]; [|by apply IH|done]. cbn in Ha. replace (k =? 0)%nat with false by (symmetry; apply Nat.eqb_neq; lia).
    destruct (IH (drop k (x :: data)) (sent ++ take k (x :: data))) as [rest Hrest]; [done|rewrite length_drop; cbn in *; lia|].
    exists rest. by rewrite Hrest, <- app_assoc, take_drop.
Qed.

Lemma write_full_exact answers data : carries answers (length data) -> exists rest, write_full answers data = Ok (Z.of_nat (length data), data, rest).
Proof. intros [Hw Hn]. by apply write_loop_exact. Qed.

(** ** Strings *)

Definition no_nul (s : string) : Prop := Forall (fun a => a <> Ascii.zero) (list_ascii_of_string s).

Lemma length_string_bytes s : length (bytes_of s) = String.length s.
Proof. unfold bytes_of. rewrite length_fmap. induction s as [|a s IH]; [done|]. cbn. by rewrite IH. Qed.

Lemma nat_of_ascii_nonzero a : a <> Ascii.zero -> (Z.of_nat (nat_of_ascii a) =? 0) = false.
Proof.
  intros Ha. apply Z.eqb_neq. intros H. apply Ha. rewrite <- (ascii_nat_embedding a). replace (nat_of_ascii a) with 0%nat by lia. done.
Qed.

Lemma until_nul_bytes s l : no_nul s -> until_nul (bytes_of s ++ 0 :: l) = bytes_of s.
Proof.
  unfold no_nul, bytes_of. induction (list_ascii_of_string s) as [|a k IH]; [done|]. intros [Ha Hk]%Forall_cons. cbn. rewrite nat_of_ascii_nonzero by done.
  by rewrite IH.
Qed.

Lemma cstr_bytes s l : no_nul s -> cstr (bytes_of s ++ 0 :: l) = s.
Proof.
  intros Hs. unfold cstr. rewrite until_nul_bytes by done. unfold bytes_of. rewrite <- list_fmap_compose.
  transitivity (string_of_list_ascii (list_ascii_of_string s)); [|apply string_of_list_ascii_of_string]. f_equal.
  induction (list_ascii_of_string s) as [|a k IH]; [done|]. cbn. rewrite IH. f_equal. rewrite Nat2Z.id. apply ascii_nat_embedding.
Qed.

(** A string that fits is stored whole, with a NUL after it. *)
Lemma snprintf_field_fits n s : (String.length s < n)%nat -> snprintf_field n s = bytes_of s ++ 0 :: replicate (n - String.length s - 1) 0.
Proof.
  intros Hn. unfold snprintf_field. rewrite take_ge by (rewrite length_string_bytes; lia). rewrite length_string_bytes. f_equal.
  replace (n - String.length s)%nat with (S (n - String.length s - 1)) at 1 by lia. done.
Qed.

Lemma length_snprintf_field n s : (0 < n)%nat -> length (snprintf_field n s) = n.
Proof. intros Hn. unfold snprintf_field. rewrite length_app, length_replicate, length_take. lia. Qed.

Lemma terminate_field n s : (String.length s < n)%nat -> terminate n (snprintf_field n s) = snprintf_field n s.
Proof.
  intros Hn. unfold terminate. rewrite snprintf_field_fits by done. apply list_insert_id.
  destruct (decide (n - String.length s - 1 = 0)%nat) as [E|E].
  - rewrite lookup_app_r by (rewrite length_string_bytes; lia). rewrite length_string_bytes. replace (n - 1 - String.length s)%nat with 0%nat by lia. done.
  - rewrite lookup_app_r by (rewrite length_string_bytes; lia). rewrite length_string_bytes.
    replace (n - 1 - String.length s)%nat with (S (n - String.length s - 2)) by lia. cbn. apply lookup_replicate. split; [done|lia].
Qed.

Lemma cstr_field n s : (String.length s < n)%nat -> no_nul s -> cstr (snprintf_field n s) = s.
Proof. intros Hn Hs. rewrite snprintf_field_fits by done. by apply cstr_bytes. Qed.

Lemma length_request op path : length (request_bytes op path) = REQUEST_SIZE.
Proof. unfold request_bytes. rewrite length_app, !length_snprintf_field; [done|unfold PATH_LEN; lia|unfold OP_LEN; lia]. Qed.

Lemma length_response r : length (fill_control_response r) = RESPONSE_SIZE.
Proof. unfold fill_control_response. rewrite length_app, length_le_bytes, length_snprintf_field; [done|unfold VIRTIO_CTRL_MSG_LEN; lia]. Qed.

(** What the receiver of a request reads in it. *)
Lemma request_decodes op path : (String.length op < OP_LEN)%nat -> (String.length path < PATH_LEN)%nat -> no_nul op -> no_nul path ->
  cstr (terminate OP_LEN (take OP_LEN (request_bytes op path))) = op /\ cstr (terminate PATH_LEN (drop OP_LEN (request_bytes op path))) = path.
Proof.
  intros Ho Hp No Np. unfold request_bytes. assert (length (snprintf_field OP_LEN op) = OP_LEN) as Hl by (apply length_snprintf_field; unfold OP_LEN; lia).
  rewrite <- Hl at 2. rewrite <- Hl at 4. rewrite take_app_length, drop_app_length, !terminate_field by done. split; by apply cstr_field.
Qed.

(** What the receiver of a response reads in it. *)
Lemma response_decodes r : - 2 ^ 31 <= resp_status r < 2 ^ 31 -> (String.length (resp_message r) < VIRTIO_CTRL_MSG_LEN)%nat -> no_nul (resp_message r) ->
  s32 (le_value (take 4 (fill_control_response r))) = resp_status r /\ cstr (drop 4 (fill_control_response r)) = resp_message r.
Proof.
  intros Hs Hm Hn. unfold fill_control_response.
  rewrite (take_app_length' (le_bytes 4 _)) by (by rewrite length_le_bytes). rewrite (drop_app_length' (le_bytes 4 _)) by (by rewrite length_le_bytes).
  split; [|by apply cstr_field]. rewrite le_value_bytes. change (8 * Z.of_nat 4) with 32. unfold s32, u32. rewrite Z.mod_mod by lia.
  destruct (decide (0 <= resp_status r)).
  - rewrite Z.mod_small by lia. by replace (resp_status r <? 2 ^ 31) with true by lia.
  - replace (resp_status r `mod` 2 ^ 32) with (resp_status r + 2 ^ 32).
    + replace (_ <? _) with false by lia. lia.
    + apply (Z.mod_unique_pos _ _ (-1)); lia.
Qed.

(** ** Theorems *)

Section theorems.
Context {D P E J : Type} {backends : VirtioBackends D} {life : DeviceLife D P E} {cj : CJson J} {config_ops : ConfigOps J P}.

(** The handler's answers fit their structure. *)
Lemma control_response_fits op (load : option J) (dm dm' : daemon D E) b b' resp : handle_control_client op load dm b = Ok (resp, dm', b') ->
  - 2 ^ 31 <= resp_status resp < 2 ^ 31 /\ (String.length (resp_message resp) < VIRTIO_CTRL_MSG_LEN)%nat /\ no_nul (resp_message resp).
Proof.
  unfold handle_control_client. intros H. assert (forall st s, resp = {| resp_status := st; resp_message := s |} -> - 2 ^ 31 <= st < 2 ^ 31 ->
    (Z.of_nat (String.length s) <? 256) = true -> forallb (fun a => negb (Ascii.eqb a Ascii.zero)) (list_ascii_of_string s) = true ->
    - 2 ^ 31 <= resp_status resp < 2 ^ 31 /\ (String.length (resp_message resp) < VIRTIO_CTRL_MSG_LEN)%nat /\ no_nul (resp_message resp)) as Hfit.
  { intros st s -> Hst Hl Hz. cbn. split; [done|]. split; [unfold VIRTIO_CTRL_MSG_LEN; lia|]. unfold no_nul. apply Forall_forall. intros a Ha.
    apply list_elem_of_In in Ha. rewrite forallb_forall in Hz. specialize (Hz a Ha). intros ->. by rewrite Ascii.eqb_refl in Hz. }
  destruct (negb (String.eqb _ _)); [injection H as <- _ _; by eapply Hfit|]. apply bind_Ok_inv in H as ( [ [err dm1] b1] & _ & H).
  destruct (negb (err =? 0)); injection H as <- _ _; by eapply Hfit.
Qed.

(** C38: Over a connection that works, in whatever pieces and with whatever
    interruptions the messages travel, the daemon serves exactly the request the
    command sent: it adds the document at the command's path, and the command
    returns the status and prints the message the daemon's handler gave. *)
Theorem control_add_roundtrip argc path fd (load : string -> option J) wa sr sw ra (dm dm' : daemon D E) b b' resp :
  4 <= argc -> 0 <= fd -> no_nul path -> (String.length path < PATH_LEN)%nat ->
  carries wa REQUEST_SIZE -> carries sr REQUEST_SIZE -> carries sw RESPONSE_SIZE -> carries ra RESPONSE_SIZE ->
  handle_control_client VIRTIO_CTRL_OP_ADD (load path) dm b = Ok (resp, dm', b') ->
  exists reply, serve_control_client true load sr sw (request_bytes VIRTIO_CTRL_OP_ADD path) dm b = Ok (reply, dm', b') /\
    virtio_add argc (Some path) fd 0 wa ra (fun bytes => '(r, _, _) ← serve_control_client true load sr sw bytes dm b; Ok r) =
      Ok (resp_status resp, Some (resp_message resp)).
Proof.
  intros Ha Hf Hnul Hlen Hwa Hsr Hsw Hra Hh. set (req := request_bytes VIRTIO_CTRL_OP_ADD path). assert (length req = REQUEST_SIZE) as Hreq by apply length_request.
  assert (no_nul VIRTIO_CTRL_OP_ADD) as Hadd by (by repeat constructor).
  destruct (request_decodes VIRTIO_CTRL_OP_ADD path) as [Eop Epath]; [cbn; unfold OP_LEN; lia|done|done|done|]. fold req in Eop, Epath.
  destruct (control_response_fits _ _ _ _ _ _ _ Hh) as (F1 & F2 & F3). destruct (response_decodes resp F1 F2 F3) as [Est Emsg].
  set (out := fill_control_response resp) in *. assert (length out = RESPONSE_SIZE) as Hout by apply length_response.
  assert (serve_control_client true load sr sw req dm b = Ok (out, dm', b')) as Hserve.
  { unfold serve_control_client. destruct (read_full_exact sr REQUEST_SIZE req Hsr) as [rest Hr]; [lia|]. rewrite Hr. cbn [mbind result_bind].
    rewrite (take_ge req) by lia. rewrite Z.eqb_refl. cbn [negb]. rewrite Eop, Epath, Hh. cbn [mbind result_bind].
    destruct (write_full_exact sw out) as [rest2 Hw]; [by rewrite Hout|]. unfold out in Hw |- *. rewrite Hw. done. }
  exists out. split; [exact Hserve|]. unfold virtio_add. replace (argc <? 4) with false by lia. replace (fd <? 0) with false by lia. cbn [negb Z.eqb].
  destruct (write_full_exact wa req) as [rest Hw]; [by rewrite Hreq|]. fold req. rewrite Hw. cbn [mbind result_bind]. rewrite Hreq, Z.eqb_refl. cbn [negb].
  rewrite Hserve. cbn [mbind result_bind]. destruct (read_full_exact ra RESPONSE_SIZE out Hra) as [rest2 Hr]; [lia|]. rewrite Hr. cbn [mbind result_bind].
  rewrite (take_ge out) by lia. rewrite Z.eqb_refl. cbn [negb]. by rewrite Est, Emsg.
Qed.

Lemma read_loop_bound answers : forall len buf incoming n got rest left, read_loop answers len buf incoming = Ok (n, got, rest, left) ->
  n <= Z.of_nat (length buf + length incoming).
Proof.
  induction answers as [|a answers IH]; intros len buf incoming n got rest left H; cbn [read_loop] in H; destruct (_ <=? _)%nat; try (injection H as <- <- <- <-; lia); [done|].
  destruct a as [k| |]; [|by eapply IH|injection H as <- <- <- <-; lia]. destruct (_ =? 0)%nat; [injection H as <- <- <- <-; lia|].
  apply IH in H. rewrite length_app, length_drop, length_take in H. lia.
Qed.

(** A client that closes before its request is complete changes nothing and gets no
    answer. *)
Theorem short_request_ignored running (load : string -> option J) ra wa incoming (dm dm' : daemon D E) b b' reply :
  (length incoming < REQUEST_SIZE)%nat -> serve_control_client running load ra wa incoming dm b = Ok (reply, dm', b') ->
  reply = [] /\ dm' = dm /\ b' = b.
Proof.
  intros Hl H. unfold serve_control_client in H. apply bind_Ok_inv in H as ( [ [ [n got] rest] left] & Hr & H).
  apply read_loop_bound in Hr. cbn [length] in Hr. replace (n =? Z.of_nat REQUEST_SIZE) with false in H by lia. by injection H as <- <- <-.
Qed.

End theorems.

(** ** Witnesses *)

#[local] Existing Instance json_cjson.
#[local] Existing Instance vring_event_std.
#[local] Existing Instance idle_backends.
#[local] Existing Instance idle_config_ops.
#[local] Existing Instance idle_life.

(** An interruption, then pieces of at most seven bytes. *)
Definition pieces (n : nat) : list io_ans := IoIntr :: replicate n (IoSome 7).

Lemma pieces_carry n : carries (pieces n) n.
Proof.
  split; [constructor; [done|]; apply Forall_replicate; cbn; lia|]. cbn. induction n as [|n IH]; cbn; lia.
Qed.

Definition load0 (path : string) : option json := if String.eqb path "/etc/virtio.json" then Some (doc ["0xa000000"; "0xa000200"]%string) else None.

Lemma control_add_run : exists resp dm' b',
  handle_control_client VIRTIO_CTRL_OP_ADD (load0 "/etc/virtio.json") daemon0 bridge0 = Ok (resp, dm', b') /\ resp_status resp = 0.
Proof. eexists _, _, _. split; vm_compute; reflexivity. Qed.

Lemma control_add_roundtrip_witness : exists resp reply dm' b',
  serve_control_client true load0 (pieces REQUEST_SIZE) (pieces RESPONSE_SIZE) (request_bytes VIRTIO_CTRL_OP_ADD "/etc/virtio.json") daemon0 bridge0
    = Ok (reply, dm', b') /\ resp_status resp = 0 /\
  virtio_add 4 (Some "/etc/virtio.json"%string) 3 0 (pieces REQUEST_SIZE) (pieces RESPONSE_SIZE)
    (fun bytes => '(r, _, _) ← serve_control_client true load0 (pieces REQUEST_SIZE) (pieces RESPONSE_SIZE) bytes daemon0 bridge0; Ok r)
    = Ok (resp_status resp, Some (resp_message resp)).
Proof.
  destruct control_add_run as (resp & dm' & b' & Hh & Hs). exists resp.
  destruct (control_add_roundtrip 4 "/etc/virtio.json" 3 load0 (pieces REQUEST_SIZE) (pieces REQUEST_SIZE) (pieces RESPONSE_SIZE) (pieces RESPONSE_SIZE)
    daemon0 dm' bridge0 b' resp) as (reply & H1 & H2);
    [lia|lia|by repeat constructor|unfold PATH_LEN; cbn [String.length]; lia|apply pieces_carry|apply pieces_carry|apply pieces_carry|apply pieces_carry|exact Hh|].
  exists reply, dm', b'. split; [exact H1|]. split; [exact Hs|exact H2].
Defined.

Lemma short_request_ignored_witness : exists reply dm' b',
  serve_control_client true load0 [IoSome 3; IoSome 0] [] [97; 100; 100] daemon0 bridge0 = Ok (reply, dm', b') /\ reply = [] /\ dm' = daemon0 /\ b' = bridge0.
Proof.
  assert (serve_control_client true load0 [IoSome 3; IoSome 0] [] [97; 100; 100] daemon0 bridge0 = Ok ([], daemon0, bridge0)) as H by (vm_compute; reflexivity).
  eexists _, _, _. split; [exact H|]. refine (short_request_ignored true load0 _ _ _ daemon0 daemon0 bridge0 bridge0 [] _ H).
  unfold REQUEST_SIZE, OP_LEN. cbn [length]. lia.
Defined.
