(* ===== verification/ControlServer.v ===== *)
(** * The control server's thread

    [virtio_control_loop], with [handle_control_client], against
    [stop_virtio_control_server] of virtio.c, as a step relation on the flags, the
    slot of the current client and the two program counters.  What is done under
    [ctrl_client_lock] is one step.  A client is a descriptor and a serial number: the
    kernel may hand out a descriptor again once it is closed.  A client may send,
    read or close at any time, or do nothing for ever.  The file it names is opened
    and read by the server's thread; a FIFO nobody writes to holds it up for good, and
    a file that cannot be opened ends the process.  Claims: a stop always ends,
    whatever the clients do on their sockets, unless the thread waits for such a file;
    it never shuts down another connection than the one it found in the slot. *)

From S2P Require Import Prelude.

(** Descriptor and serial number. *)
Abbreviation conn := (Z * nat)%type.

Inductive control_pc :=
  | CLoop                       (* [while (atomic_load(&ctrl_running))] *)
  | CAccept
  | CFailed                     (* [accept] returned an error other than EINTR *)
  | CAccepted (c : conn)        (* about to take the lock *)
  | CRefuse (c : conn)          (* [shutdown], [close] and [break] *)
  | CRead (c : conn) (n : nat)  (* [n] bytes of the request missing *)
  | CServe (c : conn)           (* the request is complete *)
  | CFile (c : conn)            (* [read_file] of the path the client named *)
  | CAdd (c : conn)             (* the devices are created and announced *)
  | CReply (c : conn)           (* about to check [ctrl_running] *)
  | CWrite (c : conn) (n : nat) (* [n] bytes of the response left *)
  | CUnslot (c : conn)
  | CClose (c : conn)
  | CExit                       (* [read_file] called [exit] *)
  | CDone.

Inductive main_pc :=
  | MRun
  | MStopping                   (* [ctrl_running] is false *)
  | MLook                       (* the listening socket is shut down *)
  | MShut (o : option conn)     (* the slot was read *)
  | MJoin.

Record ctl := {
  ctrl_running : bool;
  listening : bool;
  ctrl_client : option conn;    (* [ctrl_client_fd] *)
  shut : list nat;              (* connections shut down by the daemon *)
  serial : nat;                 (* connections accepted so far *)
  cpc : control_pc;
  mpc : main_pc;
}.

Definition at_cpc (p : control_pc) (s : ctl) : ctl :=
  {| ctrl_running := ctrl_running s; listening := listening s; ctrl_client := ctrl_client s; shut := shut s; serial := serial s; cpc := p; mpc := mpc s |}.
Definition with_client (o : option conn) (p : control_pc) (s : ctl) : ctl :=
  {| ctrl_running := ctrl_running s; listening := listening s; ctrl_client := o; shut := shut s; serial := serial s; cpc := p; mpc := mpc s |}.
Definition accepted (f : Z) (s : ctl) : ctl :=
  {| ctrl_running := ctrl_running s; listening := listening s; ctrl_client := ctrl_client s; shut := shut s; serial := S (serial s);
     cpc := CAccepted (f, serial s); mpc := mpc s |}.

Definition REQUEST_BYTES : nat := 4112.
Definition RESPONSE_BYTES : nat := 260.

(** ** The server's thread *)

(** [readable k]: the file named by client [k] can be opened and read without waiting
    for ever. *)
Section server.
Context (readable : nat -> bool).

(** Steps the thread takes by itself, without anything a client does. *)
Inductive own_step : ctl -> ctl -> Prop :=
  | loop_go s : cpc s = CLoop -> ctrl_running s = true -> own_step s (at_cpc CAccept s)
  | loop_end s : cpc s = CLoop -> ctrl_running s = false -> own_step s (at_cpc CDone s)
  | accept_shut s : cpc s = CAccept -> listening s = false -> own_step s (at_cpc CFailed s)
  | failed_end s : cpc s = CFailed -> ctrl_running s = false -> own_step s (at_cpc CDone s)
  | failed_again s : cpc s = CFailed -> ctrl_running s = true -> own_step s (at_cpc CLoop s)
  | slot_taken s c : cpc s = CAccepted c -> ctrl_running s = true -> own_step s (with_client (Some c) (CRead c REQUEST_BYTES) s)
  | slot_refused s c : cpc s = CAccepted c -> ctrl_running s = false -> own_step s (at_cpc (CRefuse c) s)
  | refused s c : cpc s = CRefuse c -> own_step s (at_cpc CDone s)
  | read_all s c : cpc s = CRead c 0 -> own_step s (at_cpc (CServe c) s)
  | read_shut s c n : cpc s = CRead c (S n) -> c.2 ∈ shut s -> own_step s (at_cpc (CUnslot c) s)
  | serve_unknown s c : cpc s = CServe c -> own_step s (at_cpc (CReply c) s)
  | serve_add s c : cpc s = CServe c -> own_step s (at_cpc (CFile c) s)
  | file_read s c : cpc s = CFile c -> readable c.2 = true -> own_step s (at_cpc (CAdd c) s)
  | file_failed s c : cpc s = CFile c -> readable c.2 = true -> own_step s (with_client None CExit s)   (* the process is gone *)
  | add_done s c : cpc s = CAdd c -> own_step s (at_cpc (CReply c) s)
  | reply_go s c : cpc s = CReply c -> ctrl_running s = true -> own_step s (at_cpc (CWrite c RESPONSE_BYTES) s)
  | reply_skip s c : cpc s = CReply c -> ctrl_running s = false -> own_step s (at_cpc (CUnslot c) s)
  | write_all s c : cpc s = CWrite c 0 -> own_step s (at_cpc (CUnslot c) s)
  | write_shut s c n : cpc s = CWrite c (S n) -> c.2 ∈ shut s -> own_step s (at_cpc (CUnslot c) s)
  | unslot s c : cpc s = CUnslot c -> own_step s
      (with_client (match ctrl_client s with Some d => if d.1 =? c.1 then None else Some d | None => None end) (CClose c) s)
  | closed s c : cpc s = CClose c -> own_step s (at_cpc CLoop s).

(** Steps that wait for a client, or for an interruption or failure of [accept]. *)
Inductive client_step : ctl -> ctl -> Prop :=
  | arrives s f : cpc s = CAccept -> listening s = true -> 0 <= f -> client_step s (accepted f s)
  | interrupted s : cpc s = CAccept -> client_step s (at_cpc CLoop s)
  | accept_error s : cpc s = CAccept -> client_step s (at_cpc CFailed s)
  | sends s c n k : cpc s = CRead c (S n) -> (k <= n)%nat -> client_step s (at_cpc (CRead c k) s)
  | hangs_up s c n : cpc s = CRead c (S n) -> client_step s (at_cpc (CUnslot c) s)
  | takes s c n k : cpc s = CWrite c (S n) -> (k <= n)%nat -> client_step s (at_cpc (CWrite c k) s)
  | gone s c n : cpc s = CWrite c (S n) -> client_step s (at_cpc (CUnslot c) s).

(** ** The stopping thread *)

(** The client whose descriptor the thread has open. *)
Definition open_conn (p : control_pc) : option conn :=
  match p with
  | CAccepted c | CRefuse c | CRead c _ | CServe c | CFile c | CAdd c | CReply c | CWrite c _ | CUnslot c | CClose c => Some c
  | CLoop | CAccept | CFailed | CExit | CDone => None
  end.

(** [shutdown] of a descriptor reaches whatever connection has it now. *)
Definition shutdown_fd (f : Z) (s : ctl) : list nat :=
  match open_conn (cpc s) with
  | Some d => if d.1 =? f then d.2 :: shut s else shut s
  | None => shut s
  end.

Inductive stop_step : ctl -> ctl -> Prop :=
  | stop_flag s : mpc s = MRun -> stop_step s
      {| ctrl_running := false; listening := listening s; ctrl_client := ctrl_client s; shut := shut s; serial := serial s; cpc := cpc s; mpc := MStopping |}
  | stop_listen s : mpc s = MStopping -> stop_step s
      {| ctrl_running := ctrl_running s; listening := false; ctrl_client := ctrl_client s; shut := shut s; serial := serial s; cpc := cpc s; mpc := MLook |}
  | stop_look s : mpc s = MLook -> stop_step s
      {| ctrl_running := ctrl_running s; listening := listening s; ctrl_client := ctrl_client s; shut := shut s; serial := serial s; cpc := cpc s;
         mpc := MShut (ctrl_client s) |}
  | stop_shut s o : mpc s = MShut o -> stop_step s
      {| ctrl_running := ctrl_running s; listening := listening s; ctrl_client := ctrl_client s;
         shut := match o with Some c => if 0 <=? c.1 then shutdown_fd c.1 s else shut s | None => shut s end; serial := serial s; cpc := cpc s; mpc := MJoin |}.

(** Nothing moves once the process has exited. *)
Inductive ctl_step (s s' : ctl) : Prop :=
  | by_server : own_step s s' -> ctl_step s s'
  | by_client : client_step s s' -> ctl_step s s'
  | by_main : cpc s <> CExit -> stop_step s s' -> ctl_step s s'.

Definition ctl0 : ctl :=
  {| ctrl_running := true; listening := true; ctrl_client := None; shut := []; serial := 0; cpc := CLoop; mpc := MRun |}.

(** ** Invariant *)

(** The client the slot should hold. *)
Definition slot_conn (p : control_pc) : option conn :=
  match p with
  | CRead c _ | CServe c | CFile c | CAdd c | CReply c | CWrite c _ | CUnslot c => Some c
  | _ => None
  end.

Definition stopping (m : main_pc) : bool := match m with MRun => false | _ => true end.
Definition deaf (m : main_pc) : bool := match m with MRun | MStopping => false | _ => true end.

Record ctl_ok (s : ctl) : Prop := {
  ok_running : ctrl_running s = negb (stopping (mpc s));
  ok_listening : listening s = negb (deaf (mpc s));
  ok_slot : ctrl_client s = slot_conn (cpc s);
  ok_fd : forall c, open_conn (cpc s) = Some c -> 0 <= c.1;
  ok_read : forall o, mpc s = MShut o -> forall c, slot_conn (cpc s) = Some c -> o = Some c;
  ok_left : forall c, mpc s = MShut (Some c) -> open_conn (cpc s) = Some c \/ cpc s = CLoop \/ cpc s = CDone \/ cpc s = CExit;
  ok_join : mpc s = MJoin -> forall c, slot_conn (cpc s) = Some c -> c.2 ∈ shut s;
}.

Lemma slot_open p c : slot_conn p = Some c -> open_conn p = Some c.
Proof. by destruct p; cbn; intros [= ->]. Qed.

Ltac step_ok :=
  constructor; cbn in *; try done;
  try match goal with H : cpc ?s = _, H3 : ctrl_client ?s = _ |- _ => rewrite H in *; cbn in *; rewrite ?H3, ?Z.eqb_refl; intros; try done end;
  try match goal with
      | Hm : mpc ?s = MShut (Some ?c), H6 : forall c, mpc ?s = _ -> _ |- _ =>
          destruct (H6 c Hm) as [Hx|[Hx|[Hx|Hx] ] ]; try discriminate Hx; try (by left)
      end;
  try match goal with Hm : mpc ?s = _ |- _ => rewrite Hm in *; cbn in *; congruence end;
  try (by eauto); try (by simplify_eq); try (by right; right; right).

Lemma own_step_ok s s' : ctl_ok s -> own_step s s' -> ctl_ok s'.
Proof. intros [H1 H2 H3 H4 H5 H6 H7] Hs. destruct Hs; step_ok. Qed.

Lemma client_step_ok s s' : ctl_ok s -> client_step s s' -> ctl_ok s'.
Proof. intros [H1 H2 H3 H4 H5 H6 H7] Hs. destruct Hs; step_ok. Qed.

Lemma stop_step_ok s s' : ctl_ok s -> stop_step s s' -> ctl_ok s'.
Proof.
  intros [H1 H2 H3 H4 H5 H6 H7] Hs. destruct Hs as [s Hm|s Hm|s Hm|s o Hm]; rewrite Hm in *; constructor; cbn in *; try done.
  - intros o [= <-] c Hc. congruence.
  - intros c [= Hc]. left. apply slot_open. congruence.
  - intros _ c Hc. rewrite (H5 o eq_refl c Hc). apply slot_open in Hc. replace (0 <=? c.1) with true by (specialize (H4 c Hc); lia).
    unfold shutdown_fd. rewrite Hc, Z.eqb_refl. by left.
Qed.

Lemma ctl_reachable_ok s : rtc ctl_step ctl0 s -> ctl_ok s.
Proof.
  intros H. assert (ctl_ok ctl0) as H0 by (by constructor). revert H0. induction H as [|a b c Hs _ IH]; [done|]. intros Ha. apply IH.
  destruct Hs; [by eapply own_step_ok|by eapply client_step_ok|by eapply stop_step_ok].
Qed.

(** ** Stopping ends *)

(** Every schedule ends with the thread joined, or the process gone: something can
    always move, and whatever moves the end is nearer. *)
Inductive ends (s : ctl) : Prop :=
  | ended : mpc s = MJoin -> cpc s = CDone -> ends s
  | exited : cpc s = CExit -> ends s
  | moves s' : own_step s s' \/ stop_step s s' -> (forall t, ctl_step s t -> ends t) -> ends s.

Definition control_left (p : control_pc) : nat :=
  match p with
  | CDone | CExit => 0
  | CLoop | CFailed | CRefuse _ => 1
  | CAccepted _ | CClose _ => 2
  | CAccept | CUnslot _ => 3
  | CReply _ => 4
  | CAdd _ => 5
  | CFile _ => 6
  | CServe _ => 7
  | CWrite _ n => 4 + n
  | CRead _ n => 8 + n
  end.

Definition main_left (m : main_pc) : nat :=
  match m with
  | MRun => 4
  | MStopping => 3
  | MLook => 2
  | MShut _ => 1
  | MJoin => 0
  end.

Definition work_left (s : ctl) : nat := control_left (cpc s) + main_left (mpc s).

Lemma stopping_step_less s t : ctl_ok s -> mpc s <> MRun -> ctl_step s t -> (work_left t < work_left s)%nat /\ mpc t <> MRun.
Proof.
  intros [H1 _ _ _ _ _ _] Hm Hs. assert (ctrl_running s = false) as Hr by (rewrite H1; by destruct (mpc s)). clear H1.
  unfold work_left. destruct Hs as [Hs|Hs|_ Hs]; destruct Hs; cbn; try congruence;
    try (match goal with H : cpc _ = _ |- _ => rewrite H end; cbn; split; [lia|done]);
    match goal with H : mpc _ = _ |- _ => rewrite H end; cbn; split; (lia || done).
Qed.

(** The file of the client being served, if any, does not hold the thread up. *)
Definition client_readable (s : ctl) : Prop := forall c, slot_conn (cpc s) = Some c -> readable c.2 = true.

(** Once stopping, no new client is served. *)
Lemma stopping_same_client s t c : ctl_ok s -> mpc s <> MRun -> ctl_step s t -> slot_conn (cpc t) = Some c -> slot_conn (cpc s) = Some c.
Proof.
  intros [H1 _ _ _ _ _ _] Hm Hs. assert (ctrl_running s = false) as Hr by (rewrite H1; by destruct (mpc s)). clear H1.
  destruct Hs as [Hs|Hs|_ Hs]; destruct Hs; cbn; try done; try congruence;
    match goal with H : cpc _ = _ |- _ => rewrite H end; cbn; done.
Qed.

(** Before the join the stopping thread moves; at the join the server does. *)
Lemma stopping_moves s : ctl_ok s -> mpc s <> MRun -> client_readable s -> cpc s <> CExit ->
  mpc s = MJoin /\ cpc s = CDone \/ exists t, own_step s t \/ stop_step s t.
Proof.
  intros [H1 H2 _ _ _ _ H7] Hm Hf He. destruct (mpc s) eqn:Em; [done|right; eexists; right; econstructor; by eauto..|].
  cbn in H1, H2. specialize (H7 eq_refl). unfold client_readable in Hf.
  destruct (cpc s) as [| | |c|c|c n|c|c|c|c|c n|c|c| |] eqn:Ec; try (right; eexists; left; by econstructor); [| | |by left].
  - right. destruct n as [|n]; eexists; left; [by eapply read_all|]. eapply read_shut; [done|]. by apply H7.
  - right. eexists. left. eapply file_read; [exact Ec|]. by apply Hf.
  - right. destruct n as [|n]; eexists; left; [by eapply write_all|]. eapply write_shut; [done|]. by apply H7.
Qed.

(** C39: Once [stop_virtio_control_server] has begun, every schedule of the two
    threads and of any clients leads to the thread being joined, or to the exit of the
    process when the file named by the client cannot be opened: no client that sends
    nothing, reads nothing or arrives late can hold it up.  The condition is that the
    file of the client being served, if there is one, can be opened and read without
    waiting for ever; a FIFO does hold the stop up ([file_holds_up_stop]). *)
Theorem stop_always_ends s : rtc ctl_step ctl0 s -> mpc s <> MRun -> client_readable s -> ends s.
Proof.
  intros Hr%ctl_reachable_ok Hm Hf. remember (work_left s) as n eqn:En. revert s En Hr Hm Hf. induction (Nat.lt_wf_0 n) as [n _ IH]. intros s -> Hr Hm Hf.
  assert (cpc s = CExit \/ cpc s <> CExit) as [He|He] by (destruct (cpc s); (by left) || by right); [by apply exited|].
  destruct (stopping_moves s Hr Hm Hf He) as [ [H1 H2] | (t & Ht) ]; [by apply ended|]. apply (moves s t Ht). intros u Hu.
  destruct (stopping_step_less s u Hr Hm Hu) as [Hl Hu']. apply (IH _ Hl u eq_refl); [|done|].
  - destruct Hu; [by eapply own_step_ok|by eapply client_step_ok|by eapply stop_step_ok].
  - intros c Hc. apply Hf. by eapply stopping_same_client.
Qed.

(** A file that is never read, such as a FIFO nobody writes to, holds the thread up for
    ever, and with it the join. *)
Theorem file_holds_up_stop s t c : cpc s = CFile c -> readable c.2 = false -> rtc ctl_step s t -> cpc t = CFile c.
Proof.
  intros Hc Hf. induction 1 as [|x y z Hs _ IH]; [done|]. apply IH. clear IH.
  destruct Hs as [Hs|Hs|_ Hs]; destruct Hs; cbn; congruence.
Qed.

(** When the stopping thread shuts down the descriptor it found in the slot, the
    server's thread has no other connection open: the descriptor has not been handed
    to a later client. *)
Theorem stop_shuts_its_client s c d : rtc ctl_step ctl0 s -> mpc s = MShut (Some c) -> open_conn (cpc s) = Some d -> d = c.
Proof.
  intros Hr%ctl_reachable_ok Hm Hd. destruct (ok_left _ Hr c Hm) as [H|[H|[H|H] ] ]; [congruence|rewrite H in Hd; discriminate..].
Qed.

End server.

(** ** Witnesses *)

(** A client that never sends, found by the stop. *)
Definition ctl_silent (m : main_pc) : ctl :=
  {| ctrl_running := negb (stopping m); listening := negb (deaf m); ctrl_client := Some (7, 0%nat); shut := []; serial := 1;
     cpc := CRead (7, 0%nat) REQUEST_BYTES; mpc := m |}.

Lemma silent_client_reached readable : rtc (ctl_step readable) ctl0 (ctl_silent (MShut (Some (7, 0%nat)))).
Proof.
  eapply rtc_l; [apply by_server; by eapply loop_go|]. eapply rtc_l; [apply by_client; by eapply (arrives _ 7)|].
  eapply rtc_l; [apply by_server; by eapply slot_taken|]. eapply rtc_l; [apply by_main; [done|by eapply stop_flag]|].
  eapply rtc_l; [apply by_main; [done|by eapply stop_listen]|]. eapply rtc_l; [apply by_main; [done|by eapply stop_look]|]. apply rtc_refl.
Qed.

Lemma stop_always_ends_witness :
  rtc (ctl_step (fun _ => true)) ctl0 (ctl_silent (MShut (Some (7, 0%nat)))) /\ ends (fun _ => true) (ctl_silent (MShut (Some (7, 0%nat)))).
Proof.
  split; [apply silent_client_reached|]. apply (stop_always_ends (fun _ => true) _ (silent_client_reached _)); [discriminate|].
  intros c _. reflexivity.
Defined.

Lemma stop_shuts_its_client_witness : (7, 0%nat) = (7, 0%nat) :> conn.
Proof. exact (stop_shuts_its_client (fun _ => true) _ (7, 0%nat) (7, 0%nat) (silent_client_reached _) eq_refl eq_refl). Defined.

(** A client that has asked for the file of a FIFO, and a stop at its join. *)
Definition ctl_fifo : ctl :=
  {| ctrl_running := false; listening := false; ctrl_client := Some (7, 0%nat); shut := [0%nat]; serial := 1; cpc := CFile (7, 0%nat); mpc := MJoin |}.

Lemma fifo_reached readable : rtc (ctl_step readable) ctl0 ctl_fifo.
Proof.
  eapply rtc_l; [apply by_server; by eapply loop_go|]. eapply rtc_l; [apply by_client; by eapply (arrives _ 7)|].
  eapply rtc_l; [apply by_server; by eapply slot_taken|].
  eapply rtc_l; [apply by_client; eapply (sends _ (7, 0%nat) 4111 0); [reflexivity|lia]|].
  eapply rtc_l; [apply by_server; by eapply (read_all _ _ (7, 0%nat))|]. eapply rtc_l; [apply by_server; by eapply (serve_add _ _ (7, 0%nat))|].
  eapply rtc_l; [apply by_main; [done|by eapply stop_flag]|]. eapply rtc_l; [apply by_main; [done|by eapply stop_listen]|].
  eapply rtc_l; [apply by_main; [done|by eapply stop_look]|]. eapply rtc_l; [apply by_main; [done|by eapply stop_shut]|]. apply rtc_refl.
Qed.

Lemma file_holds_up_stop_witness :
  rtc (ctl_step (fun _ => false)) ctl0 ctl_fifo /\ forall t, rtc (ctl_step (fun _ => false)) ctl_fifo t -> cpc t = CFile (7, 0%nat).
Proof.
  split; [apply fifo_reached|]. intros t Ht. exact (file_holds_up_stop (fun _ => false) ctl_fifo t (7, 0%nat) eq_refl eq_refl Ht).
Defined.
