(* ===== verification/TailQ.v ===== *)
(** * Tail queues

    The TAILQ macros of [tools/compat/sys/queue.h], with which the GPU device keeps
    its resources and its pending commands: doubly linked lists whose elements carry
    the address of the link that points to them, and whose head carries the address
    of the last link.  The heap has one cell per 8-byte pointer; a queue is described
    by the cells it owns, so that every operation leaves all other cells alone.  Claim:
    any sequence of operations computes on pointers what the same operations compute on
    lists, and both traversals visit exactly that list. *)

From stdpp Require Import gmap sorting.
From S2P Require Import Prelude.

(** ** Cells *)

Abbreviation words := (gmap Z Z).

Definition ptr_m (A : Type) : Type := words -> result (A * words).

#[global] Instance ptr_ret : MRet ptr_m := fun A a h => Ok (a, h).
#[global] Instance ptr_bind : MBind ptr_m := fun A B k c h =>
  match c h with
  | Ok (a, h') => k a h'
  | Err f => Err f
  end.

Definition NULL : Z := 0.

Definition ptr_load (a : Z) : ptr_m Z := fun h =>
  match h !! a with
  | Some v => Ok (v, h)
  | None => Err Unmapped
  end.

Definition ptr_store (a v : Z) : ptr_m unit := fun h =>
  match h !! a with
  | Some _ => Ok (tt, <[a := v]> h)
  | None => Err Unmapped
  end.

(** ** The macros *)

Section tailq.
(** Offset of the TAILQ_ENTRY in an element. *)
Context (field : Z).

(** [&(head)->tqh_first], [&(head)->tqh_last]; [&(elm)->field.tqe_next],
    [&(elm)->field.tqe_prev].  Entry and head have the same layout. *)
Definition tqh_first (head : Z) : Z := head.
Definition tqh_last (head : Z) : Z := head + 8.
Definition tqe_next (elm : Z) : Z := elm + field.
Definition tqe_prev (elm : Z) : Z := elm + field + 8.

Definition TAILQ_INIT (head : Z) : ptr_m unit :=
  _ ← ptr_store (tqh_first head) NULL;
  ptr_store (tqh_last head) (tqh_first head).

Definition TAILQ_INSERT_HEAD (head elm : Z) : ptr_m unit :=
  n ← ptr_load (tqh_first head);
  _ ← ptr_store (tqe_next elm) n;
  _ ← (if n =? NULL then ptr_store (tqh_last head) (tqe_next elm)
       else f ← ptr_load (tqh_first head); ptr_store (tqe_prev f) (tqe_next elm));
  _ ← ptr_store (tqh_first head) elm;
  ptr_store (tqe_prev elm) (tqh_first head).

Definition TAILQ_INSERT_TAIL (head elm : Z) : ptr_m unit :=
  _ ← ptr_store (tqe_next elm) NULL;
  l ← ptr_load (tqh_last head);
  _ ← ptr_store (tqe_prev elm) l;
  l' ← ptr_load (tqh_last head);
  _ ← ptr_store l' elm;
  ptr_store (tqh_last head) (tqe_next elm).

Definition TAILQ_INSERT_AFTER (head listelm elm : Z) : ptr_m unit :=
  n ← ptr_load (tqe_next listelm);
  _ ← ptr_store (tqe_next elm) n;
  _ ← (if n =? NULL then ptr_store (tqh_last head) (tqe_next elm)
       else n' ← ptr_load (tqe_next elm); ptr_store (tqe_prev n') (tqe_next elm));
  _ ← ptr_store (tqe_next listelm) elm;
  ptr_store (tqe_prev elm) (tqe_next listelm).

Definition TAILQ_INSERT_BEFORE (listelm elm : Z) : ptr_m unit :=
  p ← ptr_load (tqe_prev listelm);
  _ ← ptr_store (tqe_prev elm) p;
  _ ← ptr_store (tqe_next elm) listelm;
  p' ← ptr_load (tqe_prev listelm);
  _ ← ptr_store p' elm;
  ptr_store (tqe_prev listelm) (tqe_next elm).

Definition TAILQ_REMOVE (head elm : Z) : ptr_m unit :=
  n ← ptr_load (tqe_next elm);
  _ ← (if n =? NULL then p ← ptr_load (tqe_prev elm); ptr_store (tqh_last head) p
       else n' ← ptr_load (tqe_next elm); p ← ptr_load (tqe_prev elm); ptr_store (tqe_prev n') p);
  p ← ptr_load (tqe_prev elm);
  n' ← ptr_load (tqe_next elm);
  ptr_store p n'.

Definition TAILQ_FIRST (head : Z) : ptr_m Z := ptr_load (tqh_first head).

Definition TAILQ_EMPTY (head : Z) : ptr_m bool :=
  f ← TAILQ_FIRST head; mret (f =? NULL).

Definition TAILQ_CONCAT (head1 head2 : Z) : ptr_m unit :=
  e ← TAILQ_EMPTY head2;
  if (e : bool) then mret tt
  else
    l1 ← ptr_load (tqh_last head1);
    f2 ← ptr_load (tqh_first head2);
    _ ← ptr_store l1 f2;
    f2' ← ptr_load (tqh_first head2);
    l1' ← ptr_load (tqh_last head1);
    _ ← ptr_store (tqe_prev f2') l1';
    l2 ← ptr_load (tqh_last head2);
    _ ← ptr_store (tqh_last head1) l2;
    TAILQ_INIT head2.

(** The elements a loop visits. *)
Fixpoint foreach_from (fuel : nat) (var : Z) : ptr_m (list Z) :=
  match fuel with
  | O => fun _ => Err OutOfFuel
  | S fuel' =>
      if var =? NULL then mret []
      else n ← ptr_load (tqe_next var); vs ← foreach_from fuel' n; mret (var :: vs)
  end.

Definition TAILQ_FOREACH (fuel : nat) (head : Z) : ptr_m (list Z) :=
  var ← TAILQ_FIRST head; foreach_from fuel var.

(** The cast of an entry to a head: what the second field of the entry at [link]
    points to. *)
Definition back_from (link : Z) : ptr_m Z := p ← ptr_load (tqh_last link); ptr_load p.

Definition TAILQ_LAST (head : Z) : ptr_m Z := l ← ptr_load (tqh_last head); back_from l.
Definition TAILQ_PREV (elm : Z) : ptr_m Z := p ← ptr_load (tqe_prev elm); back_from p.

Fixpoint foreach_reverse_from (fuel : nat) (var : Z) : ptr_m (list Z) :=
  match fuel with
  | O => fun _ => Err OutOfFuel
  | S fuel' =>
      if var =? NULL then mret []
      else p ← TAILQ_PREV var; vs ← foreach_reverse_from fuel' p; mret (var :: vs)
  end.

Definition TAILQ_FOREACH_REVERSE (fuel : nat) (head : Z) : ptr_m (list Z) :=
  var ← TAILQ_LAST head; foreach_reverse_from fuel var.

(** [while (!TAILQ_EMPTY(head)) { e = TAILQ_FIRST(head); TAILQ_REMOVE(head, e); ... }],
    the loop of [virtio_gpu_close] and of the GPU's worker: the elements taken. *)
Fixpoint take_all (fuel : nat) (head : Z) : ptr_m (list Z) :=
  match fuel with
  | O => fun _ => Err OutOfFuel
  | S fuel' =>
      e ← TAILQ_EMPTY head;
      if (e : bool) then mret []
      else f ← TAILQ_FIRST head; _ ← TAILQ_REMOVE head f; vs ← take_all fuel' head; mret (f :: vs)
  end.

End tailq.

(** ** Owned cells *)

(** A cell with its value, or an allocated cell whose value is not known. *)
Abbreviation cell := (Z * option Z)%type.

Definition holds_cell (h : words) (c : cell) : Prop :=
  match c.2 with
  | Some v => h !! c.1 = Some v
  | None => is_Some (h !! c.1)
  end.

Definition has_cells (h : words) (cs : list cell) : Prop := NoDup cs.*1 /\ Forall (holds_cell h) cs.

#[global] Instance has_cells_proper h : Proper ((≡ₚ) ==> iff) (has_cells h).
Proof. intros x y Hp. unfold has_cells. by rewrite Hp. Qed.

Lemma has_cells_forget h a o cs : has_cells h ((a, o) :: cs) -> has_cells h ((a, None) :: cs).
Proof.
  intros [Hn Hf]. split; [exact Hn|]. apply Forall_cons in Hf as [Ha Hf]. constructor; [|done].
  unfold holds_cell in *. cbn in *. destruct o; [by eexists|done].
Qed.

(** [c] runs from [h] without a fault, to a result and a heap in [Q]. *)
Definition pwp {A} (c : ptr_m A) (h : words) (Q : A -> words -> Prop) : Prop := exists a h', c h = Ok (a, h') /\ Q a h'.

Lemma pwp_ret {A} (a : A) h Q : Q a h -> pwp (mret a) h Q.
Proof. intros H. by exists a, h. Qed.

Lemma pwp_bind {A B} (c : ptr_m A) (k : A -> ptr_m B) h Q : pwp c h (fun a h' => pwp (k a) h' Q) -> pwp (c ≫= k) h Q.
Proof. intros (a & h' & Hc & Hk). unfold pwp, mbind, ptr_bind. by rewrite Hc. Qed.

Lemma pwp_conseq {A} (c : ptr_m A) h (Q Q' : A -> words -> Prop) : pwp c h Q -> (forall a h', Q a h' -> Q' a h') -> pwp c h Q'.
Proof. intros (a & h' & Hc & HQ) HI. exists a, h'. split; [done|by apply HI]. Qed.

Lemma pwp_load a v cs h (Q : Z -> words -> Prop) : has_cells h ((a, Some v) :: cs) -> Q v h -> pwp (ptr_load a) h Q.
Proof. intros [_ Hf] HQ. apply Forall_cons in Hf as [Ha _]. exists v, h. split; [|done]. unfold ptr_load. unfold holds_cell in Ha. cbn in Ha. by rewrite Ha. Qed.

Lemma pwp_store a o v cs h (Q : unit -> words -> Prop) :
  has_cells h ((a, o) :: cs) -> (forall h', has_cells h' ((a, Some v) :: cs) -> Q tt h') -> pwp (ptr_store a v) h Q.
Proof.
  intros [Hn Hf] HQ. apply Forall_cons in Hf as [Ha Hf]. assert (is_Some (h !! a)) as [x Hx] by (unfold holds_cell in Ha; cbn in Ha; destruct o; [by eexists|done]).
  exists tt, (<[a := v]> h). split; [unfold ptr_store; by rewrite Hx|]. apply HQ. split; [exact Hn|]. constructor; [apply lookup_insert_eq|].
  cbn in Hn. apply NoDup_cons in Hn as [Hnin _]. apply Forall_forall. intros c Hc. rewrite Forall_forall in Hf. specialize (Hf c Hc).
  assert (<[a := v]> h !! c.1 = h !! c.1) as E by (apply lookup_insert_ne; intros ->; by apply Hnin, list_elem_of_fmap_2).
  unfold holds_cell in *. by rewrite E.
Qed.

(** ** What a queue owns *)

Section reps.
Context (field : Z).
Implicit Types (h : words) (cs F : list cell) (l free : list Z).

Abbreviation next := (tqe_next field).
Abbreviation prev := (tqe_prev field).

(** The cells that link the elements of [l], from the cell [link] on. *)
Fixpoint seg_cells (link : Z) (l : list Z) : list cell :=
  match l with
  | [] => []
  | e :: l' => (link, Some e) :: (prev e, Some link) :: seg_cells (next e) l'
  end.

(** The link after the last element. *)
Fixpoint last_link (link : Z) (l : list Z) : Z :=
  match l with
  | [] => link
  | e :: l' => last_link (next e) l'
  end.

Definition queue_cells (head : Z) (l : list Z) : list cell :=
  seg_cells (tqh_first head) l ++ [(last_link (tqh_first head) l, Some NULL); (tqh_last head, Some (last_link (tqh_first head) l))].

(** The two cells of an element that is in no queue. *)
Definition entry_cells (e : Z) : list cell := [(next e, None); (prev e, None)].

Definition free_cells (free : list Z) : list cell := free ≫= entry_cells.

Lemma seg_cells_app l1 l2 : forall link, seg_cells link (l1 ++ l2) = seg_cells link l1 ++ seg_cells (last_link link l1) l2.
Proof. induction l1 as [|e l1 IH]; intros link; [done|]. cbn. by rewrite IH. Qed.

Lemma last_link_app l1 l2 : forall link, last_link link (l1 ++ l2) = last_link (last_link link l1) l2.
Proof. induction l1 as [|e l1 IH]; intros link; [done|]. cbn. by rewrite IH. Qed.

(** A queue [l] at [head], elements [free] in no queue, and other cells [F]. *)
Definition queue_rep (h : words) (head : Z) (l free : list Z) (F : list cell) : Prop :=
  has_cells h (queue_cells head l ++ free_cells free ++ F) /\ Forall (fun e => e <> NULL) (l ++ free).

Lemma queue_rep_equiv h head l free free' F : free ≡ₚ free' -> queue_rep h head l free F -> queue_rep h head l free' F.
Proof.
  intros Hp [Hc Hn]. split; [|by rewrite <- Hp]. unfold free_cells in *. by rewrite <- (bind_Permutation entry_cells _ _ Hp).
Qed.

(** ** Symbolic execution: the cell an instruction touches is brought to the front *)

Ltac without a cs :=
  lazymatch cs with
  | (a, ?o) :: ?t => constr:(t)
  | ?c :: ?t => let t' := without a t in constr:(c :: t')
  | ?x ++ ?y => let r := match x with _ => let x' := without a x in constr:(x' ++ y) | _ => let y' := without a y in constr:(x ++ y') end in r
  end.

Ltac value_of a cs :=
  lazymatch cs with
  | (a, ?o) :: ?t => constr:(o)
  | ?c :: ?t => value_of a t
  | ?x ++ ?y => let r := match x with _ => value_of a x | _ => value_of a y end in r
  end.

Ltac permute H := eapply has_cells_proper; [|exact H]; solve_Permutation.

Ltac focus a :=
  lazymatch goal with
  | H : has_cells ?h ?cs |- _ =>
      let cs' := without a cs in let o := value_of a cs in
      let H' := fresh "Hc" in assert (has_cells h ((a, o) :: cs')) as H' by permute H; clear H; rename H' into H
  end.

Ltac ptr_step :=
  lazymatch goal with
  | |- pwp (_ ≫= _) _ _ => apply pwp_bind; ptr_step
  | |- pwp (ptr_load ?a) ?h _ => focus a; match goal with H : has_cells h _ |- _ => eapply pwp_load; [exact H|] end
  | |- pwp (ptr_store ?a _) ?h _ =>
      focus a; match goal with H : has_cells h _ |- _ => eapply pwp_store; [exact H|]; clear h H; intros h H end
  | |- pwp (mret _) _ _ => apply pwp_ret
  end.

Ltac open_cells H := unfold queue_cells, free_cells in H; rewrite ?seg_cells_app, ?last_link_app in H; cbn [seg_cells last_link app mbind list_bind entry_cells] in H.

Ltac close_cells H := split; [unfold queue_cells, free_cells; rewrite ?seg_cells_app, ?last_link_app; cbn [seg_cells last_link app mbind list_bind entry_cells]; permute H|].

Ltac nonnull H :=
  lazymatch goal with
  | |- Forall ?P ?x => lazymatch type of H with Forall _ ?y => let E := fresh in assert (x ≡ₚ y) as E by solve_Permutation; rewrite E; exact H end
  end.

(** A queue is rebuilt from its cells. *)
Ltac rebuild Hn := match goal with H : has_cells ?h _ |- queue_rep ?h _ _ _ _ => close_cells H; nonnull Hn end.

Lemma insert_head_rep h head l e free F : queue_rep h head l (e :: free) F ->
  pwp (TAILQ_INSERT_HEAD field head e) h (fun _ h' => queue_rep h' head (e :: l) free F).
Proof.
  intros [Hc Hn]. unfold TAILQ_INSERT_HEAD. open_cells Hc. destruct l as [|f l]; cbn [seg_cells last_link app] in Hc; do 2 ptr_step.
  - cbn [Z.eqb NULL]. do 3 ptr_step. rebuild Hn.
  - apply Forall_cons in Hn as Hf. destruct Hf as [Hf _]. apply Z.eqb_neq in Hf. rewrite Hf. do 4 ptr_step. rebuild Hn.
Qed.

Lemma insert_tail_rep h head l e free F : queue_rep h head l (e :: free) F ->
  pwp (TAILQ_INSERT_TAIL field head e) h (fun _ h' => queue_rep h' head (l ++ [e]) free F).
Proof. intros [Hc Hn]. unfold TAILQ_INSERT_TAIL. open_cells Hc. do 6 ptr_step. rebuild Hn. Qed.

Lemma insert_after_rep h head l1 x l2 e free F : queue_rep h head (l1 ++ x :: l2) (e :: free) F ->
  pwp (TAILQ_INSERT_AFTER field head x e) h (fun _ h' => queue_rep h' head (l1 ++ x :: e :: l2) free F).
Proof.
  intros [Hc Hn]. unfold TAILQ_INSERT_AFTER. open_cells Hc. destruct l2 as [|f l2]; cbn [seg_cells last_link app] in Hc; do 2 ptr_step.
  - cbn [Z.eqb NULL]. do 3 ptr_step. rebuild Hn.
  - assert (f <> NULL) as Hf by (apply Forall_app in Hn as [Hn _]; apply Forall_app in Hn as [_ Hn]; apply Forall_cons in Hn as [_ Hn]; by apply Forall_cons in Hn as [Hn _]).
    apply Z.eqb_neq in Hf. rewrite Hf. do 4 ptr_step. rebuild Hn.
Qed.

Lemma insert_before_rep h head l1 x l2 e free F : queue_rep h head (l1 ++ x :: l2) (e :: free) F ->
  pwp (TAILQ_INSERT_BEFORE field x e) h (fun _ h' => queue_rep h' head (l1 ++ e :: x :: l2) free F).
Proof. intros [Hc Hn]. unfold TAILQ_INSERT_BEFORE. open_cells Hc. do 6 ptr_step. rebuild Hn. Qed.

Lemma forget_entry h e n p cs : has_cells h ((next e, n) :: (prev e, p) :: cs) -> has_cells h ((next e, None) :: (prev e, None) :: cs).
Proof.
  intros H. apply has_cells_forget in H. assert (has_cells h ((prev e, p) :: (next e, None) :: cs)) as H1 by permute H.
  apply has_cells_forget in H1. permute H1.
Qed.

Lemma remove_rep h head l1 e l2 free F : queue_rep h head (l1 ++ e :: l2) free F ->
  pwp (TAILQ_REMOVE field head e) h (fun _ h' => queue_rep h' head (l1 ++ l2) (e :: free) F).
Proof.
  intros [Hc Hn]. unfold TAILQ_REMOVE. open_cells Hc. destruct l2 as [|f l2]; cbn [seg_cells last_link app] in Hc; ptr_step.
  - cbn [Z.eqb NULL]. do 5 ptr_step. focus (prev e). focus (next e). apply forget_entry in Hc. rebuild Hn.
  - assert (f <> NULL) as Hf by (apply Forall_app in Hn as [Hn _]; apply Forall_app in Hn as [_ Hn]; apply Forall_cons in Hn as [_ Hn]; by apply Forall_cons in Hn as [Hn _]).
    apply Z.eqb_neq in Hf. rewrite Hf. do 6 ptr_step. focus (prev e). focus (next e). apply forget_entry in Hc. rebuild Hn.
Qed.

(** ** Creation, traversals, draining, concatenation *)

Lemma init_rep h head free F : has_cells h ((tqh_first head, None) :: (tqh_last head, None) :: free_cells free ++ F) -> Forall (fun e => e <> NULL) free ->
  pwp (TAILQ_INIT head) h (fun _ h' => queue_rep h' head [] free F).
Proof. intros Hc Hn. unfold TAILQ_INIT. do 2 ptr_step. rebuild Hn. Qed.

Lemma pwp_load_lookup a v h (Q : Z -> words -> Prop) : h !! a = Some v -> Q v h -> pwp (ptr_load a) h Q.
Proof. intros Ha HQ. exists v, h. split; [|done]. unfold ptr_load. by rewrite Ha. Qed.

Lemma has_cells_lookup h a v cs : has_cells h ((a, Some v) :: cs) -> h !! a = Some v.
Proof. intros [_ Hf]. by apply Forall_cons in Hf as [Ha _]. Qed.

(** What the link before [l] points to, and the element before the link after [l]. *)
Definition first_of (l : list Z) : Z := default NULL (head l).
Definition last_of (l : list Z) : Z := default NULL (last l).

Lemma link_value h link l cs : has_cells h (seg_cells link l ++ (last_link link l, Some NULL) :: cs) -> h !! link = Some (first_of l).
Proof. destruct l as [|e l]; cbn; apply has_cells_lookup. Qed.

Lemma foreach_seg h l : forall fuel link cs, (length l < fuel)%nat -> Forall (fun e => e <> NULL) l ->
  has_cells h (seg_cells link l ++ (last_link link l, Some NULL) :: cs) -> pwp (foreach_from field fuel (first_of l)) h (fun vs h' => vs = l /\ h' = h).
Proof.
  induction l as [|e l IH]; intros fuel link cs Hf Hn Hc; (destruct fuel as [|fuel]; [cbn in Hf; lia|]); cbn [foreach_from first_of head default].
  - by apply pwp_ret.
  - apply Forall_cons in Hn as [He Hn]. apply Z.eqb_neq in He. cbn [from_option id]. rewrite He.
    assert (has_cells h (seg_cells (next e) l ++ (last_link (next e) l, Some NULL) :: (link, Some e) :: (prev e, Some link) :: cs)) as Hc'.
    { cbn in Hc. permute Hc. }
    apply pwp_bind. eapply pwp_load_lookup; [by eapply link_value|]. apply pwp_bind. eapply pwp_conseq; [by eapply IH; [cbn in Hf; lia|..]|].
    intros vs h' [-> ->]. by apply pwp_ret.
Qed.

Lemma foreach_rep h head l free F fuel : (length l < fuel)%nat -> queue_rep h head l free F ->
  pwp (TAILQ_FOREACH field fuel head) h (fun vs h' => vs = l /\ h' = h).
Proof.
  intros Hf [Hc Hn]. apply Forall_app in Hn as [Hn _]. unfold queue_cells in Hc.
  assert (has_cells h (seg_cells (tqh_first head) l ++ (last_link (tqh_first head) l, Some NULL) :: (tqh_last head, Some (last_link (tqh_first head) l)) :: free_cells free ++ F)) as Hc' by permute Hc.
  unfold TAILQ_FOREACH, TAILQ_FIRST. apply pwp_bind. eapply pwp_load_lookup; [by eapply link_value|]. by eapply foreach_seg.
Qed.

Lemma last_of_snoc l e : last_of (l ++ [e]) = e.
Proof. unfold last_of. by rewrite last_snoc. Qed.

(** Stepping back from the link after [l1] reaches its last element, or NULL. *)
Lemma back_from_rep h head l1 l2 free F : queue_rep h head (l1 ++ l2) free F ->
  pwp (back_from (last_link (tqh_first head) l1)) h (fun v h' => v = last_of l1 /\ h' = h).
Proof.
  intros [Hc _]. unfold back_from. destruct l1 as [|e l0 _] using rev_ind.
  - cbn [last_link app] in *. unfold queue_cells in Hc. change (tqh_last (tqh_first head)) with (tqh_last head). do 2 ptr_step. done.
  - rewrite last_of_snoc. open_cells Hc. rewrite last_link_app. cbn [last_link]. change (tqh_last (next e)) with (prev e). do 2 ptr_step. done.
Qed.

Lemma foreach_reverse_prefix h head l1 : forall l2 free F fuel, (length l1 < fuel)%nat -> queue_rep h head (l1 ++ l2) free F ->
  pwp (foreach_reverse_from field fuel (last_of l1)) h (fun vs h' => vs = reverse l1 /\ h' = h).
Proof.
  induction l1 as [|e l0 IH] using rev_ind; intros l2 free F fuel Hf Hq; (destruct fuel as [|fuel]; [lia|]); cbn [foreach_reverse_from]; [by apply pwp_ret|].
  rewrite last_of_snoc. rewrite length_app in Hf. cbn in Hf. rewrite <- app_assoc in Hq. cbn [app] in Hq.
  assert (e <> NULL) as He by (destruct Hq as [_ Hn]; apply Forall_app in Hn as [Hn _]; apply Forall_app in Hn as [_ Hn]; by apply Forall_cons in Hn as [Hn _]).
  apply Z.eqb_neq in He. rewrite He. apply pwp_bind. unfold TAILQ_PREV. apply pwp_bind.
  assert (h !! prev e = Some (last_link (tqh_first head) l0)) as Hp.
  { destruct Hq as [Hc _]. open_cells Hc. focus (prev e). by eapply has_cells_lookup. }
  eapply pwp_load_lookup; [exact Hp|]. eapply pwp_conseq; [by eapply back_from_rep|]. intros v h' [-> ->]. apply pwp_bind.
  eapply pwp_conseq; [eapply IH; [|exact Hq]; lia|]. intros vs h' [-> ->]. apply pwp_ret. by rewrite reverse_app.
Qed.

Lemma foreach_reverse_rep h head l free F fuel : (length l < fuel)%nat -> queue_rep h head l free F ->
  pwp (TAILQ_FOREACH_REVERSE field fuel head) h (fun vs h' => vs = reverse l /\ h' = h).
Proof.
  intros Hf Hq. unfold TAILQ_FOREACH_REVERSE, TAILQ_LAST. rewrite <- (app_nil_r l) in Hq. do 2 apply pwp_bind.
  assert (h !! tqh_last head = Some (last_link (tqh_first head) l)) as Hl.
  { destruct Hq as [Hc _]. rewrite app_nil_r in Hc. unfold queue_cells in Hc. focus (tqh_last head). by eapply has_cells_lookup. }
  eapply pwp_load_lookup; [exact Hl|]. eapply pwp_conseq; [by eapply back_from_rep|]. intros v h' [-> ->]. by eapply foreach_reverse_prefix.
Qed.

Lemma empty_rep h head l free F : queue_rep h head l free F ->
  pwp (TAILQ_EMPTY head) h (fun b h' => b = bool_decide (l = []) /\ h' = h).
Proof.
  intros [Hc Hn]. unfold TAILQ_EMPTY, TAILQ_FIRST. open_cells Hc. destruct l as [|e l]; cbn [seg_cells last_link app] in Hc; ptr_step; apply pwp_ret; [done|].
  apply Forall_cons in Hn as [He _]. by apply Z.eqb_neq in He as ->.
Qed.

Lemma take_all_rep l : forall h head free F fuel, (length l < fuel)%nat -> queue_rep h head l free F ->
  pwp (take_all field fuel head) h (fun vs h' => vs = l /\ queue_rep h' head [] (reverse l ++ free) F).
Proof.
  induction l as [|e l IH]; intros h head free F fuel Hf Hq; (destruct fuel as [|fuel]; [cbn in Hf; lia|]); cbn [take_all]; apply pwp_bind;
    (eapply pwp_conseq; [by eapply empty_rep|]); intros b h' [-> ->]; [by apply pwp_ret|]. rewrite bool_decide_eq_false_2 by done.
  apply pwp_bind. unfold TAILQ_FIRST. assert (h !! tqh_first head = Some e) as He by (destruct Hq as [Hc _]; open_cells Hc; by eapply has_cells_lookup).
  eapply pwp_load_lookup; [exact He|]. apply pwp_bind. eapply pwp_conseq; [by apply (remove_rep h head [] e l free F)|]. intros [] h1 H1. cbn [app] in H1.
  apply pwp_bind. eapply pwp_conseq; [eapply IH; [|exact H1]; cbn in Hf; lia|]. intros vs h2 [-> H2]. apply pwp_ret. split; [done|].
  rewrite reverse_cons, <- app_assoc. exact H2.
Qed.

(** Two queues become one and an empty one. *)
Lemma concat_rep h head1 l1 head2 l2 free F : queue_rep h head1 l1 free (queue_cells head2 l2 ++ F) -> Forall (fun e => e <> NULL) l2 ->
  pwp (TAILQ_CONCAT field head1 head2) h (fun _ h' => queue_rep h' head1 (l1 ++ l2) free (queue_cells head2 [] ++ F)).
Proof.
  intros Hq Hn2. unfold TAILQ_CONCAT. apply pwp_bind. destruct Hq as [Hc Hn].
  assert (queue_rep h head2 l2 [] (queue_cells head1 l1 ++ free_cells free ++ F)) as Hq2.
  { split; [|by rewrite app_nil_r]. cbn [free_cells mbind list_bind app]. permute Hc. }
  eapply pwp_conseq; [by eapply empty_rep|]. intros b h' [-> ->]. destruct l2 as [|f l2]; [rewrite app_nil_r; by apply pwp_ret|].
  rewrite bool_decide_eq_false_2 by done. clear Hq2. unfold queue_cells, TAILQ_INIT in *. cbn [seg_cells last_link app] in Hc. do 10 ptr_step.
  assert (Forall (fun e => e <> NULL) ((l1 ++ free) ++ f :: l2)) as Hn3 by by apply Forall_app.
  match goal with H : has_cells ?h _ |- queue_rep ?h _ _ _ _ => close_cells H; nonnull Hn3 end.
Qed.

(** ** The abstract queue *)

Inductive tq_op :=
  | OpInsertHead (e : Z)
  | OpInsertTail (e : Z)
  | OpInsertAfter (x e : Z)
  | OpInsertBefore (x e : Z)
  | OpRemove (e : Z).

Definition run_op (head : Z) (op : tq_op) : ptr_m unit :=
  match op with
  | OpInsertHead e => TAILQ_INSERT_HEAD field head e
  | OpInsertTail e => TAILQ_INSERT_TAIL field head e
  | OpInsertAfter x e => TAILQ_INSERT_AFTER field head x e
  | OpInsertBefore x e => TAILQ_INSERT_BEFORE field x e
  | OpRemove e => TAILQ_REMOVE field head e
  end.

Fixpoint run_ops (head : Z) (ops : list tq_op) : ptr_m unit :=
  match ops with
  | [] => mret tt
  | op :: ops' => _ ← run_op head op; run_ops head ops'
  end.

(** The list before and after the first [x]. *)
Fixpoint split_at (x : Z) (l : list Z) : option (list Z * list Z) :=
  match l with
  | [] => None
  | y :: l' => if y =? x then Some ([], l') else '(l1, l2) ← split_at x l'; Some (y :: l1, l2)
  end.

(** [l] without the first [x]. *)
Definition take_out (x : Z) (l : list Z) : option (list Z) := '(l1, l2) ← split_at x l; Some (l1 ++ l2).

(** On lists: the queue and the elements in no queue.  An element is inserted only
    when it is in no queue; a place is an element of the queue. *)
Definition spec_op (op : tq_op) (st : list Z * list Z) : option (list Z * list Z) :=
  let '(l, free) := st in
  match op with
  | OpInsertHead e => free' ← take_out e free; Some (e :: l, free')
  | OpInsertTail e => free' ← take_out e free; Some (l ++ [e], free')
  | OpInsertAfter x e => free' ← take_out e free; '(l1, l2) ← split_at x l; Some (l1 ++ x :: e :: l2, free')
  | OpInsertBefore x e => free' ← take_out e free; '(l1, l2) ← split_at x l; Some (l1 ++ e :: x :: l2, free')
  | OpRemove e => '(l1, l2) ← split_at e l; Some (l1 ++ l2, e :: free)
  end.

Fixpoint spec_ops (ops : list tq_op) (st : list Z * list Z) : option (list Z * list Z) :=
  match ops with
  | [] => Some st
  | op :: ops' => st' ← spec_op op st; spec_ops ops' st'
  end.

Lemma split_at_Some x l : forall l1 l2, split_at x l = Some (l1, l2) -> l = l1 ++ x :: l2.
Proof.
  induction l as [|y l IH]; intros l1 l2 H; [done|]. cbn in H. destruct (y =? x) eqn:E; [apply Z.eqb_eq in E as ->; by injection H as <- <-|].
  destruct (split_at x l) as [ [k1 k2]|]; [|done]. injection H as <- <-. cbn. f_equal. by apply IH.
Qed.

Lemma take_out_Some x l l' : take_out x l = Some l' -> l ≡ₚ x :: l'.
Proof.
  unfold take_out. destruct (split_at x l) as [ [l1 l2]|] eqn:E; [|done]. intros [= <-]. apply split_at_Some in E as ->. by rewrite Permutation_middle.
Qed.

(** One operation is simulated. *)
Lemma run_op_rep h head op l free l' free' F : queue_rep h head l free F -> spec_op op (l, free) = Some (l', free') ->
  pwp (run_op head op) h (fun _ h' => queue_rep h' head l' free' F).
Proof.
  intros Hq Hs. destruct op as [e|e|x e|x e|e]; cbn [spec_op run_op] in *.
  5: { destruct (split_at e l) as [ [l1 l2]|] eqn:E; [|done]. injection Hs as <- <-. apply split_at_Some in E as ->. by apply remove_rep. }
  all: destruct (take_out e free) as [free1|] eqn:Ef; [|done]; apply take_out_Some in Ef; apply (queue_rep_equiv _ _ _ _ _ _ Ef) in Hq; cbn in Hs.
  - injection Hs as <- <-. by apply insert_head_rep.
  - injection Hs as <- <-. by apply insert_tail_rep.
  - destruct (split_at x l) as [ [l1 l2]|] eqn:E; [|done]. injection Hs as <- <-. apply split_at_Some in E as ->. by apply insert_after_rep.
  - destruct (split_at x l) as [ [l1 l2]|] eqn:E; [|done]. injection Hs as <- <-. apply split_at_Some in E as ->. by apply insert_before_rep.
Qed.

Lemma run_ops_rep ops : forall h head l free l' free' F, queue_rep h head l free F -> spec_ops ops (l, free) = Some (l', free') ->
  pwp (run_ops head ops) h (fun _ h' => queue_rep h' head l' free' F).
Proof.
  induction ops as [|op ops IH]; intros h head l free l' free' F Hq Hs; cbn [spec_ops run_ops] in *; [injection Hs as <- <-; by apply pwp_ret|].
  destruct (spec_op op (l, free)) as [ [l1 free1]|] eqn:E; [|done]. apply pwp_bind. eapply pwp_conseq; [by eapply run_op_rep|].
  intros [] h1 H1. by eapply IH.
Qed.

(** ** Theorems *)

(** C29: The pointer operations of the tail queues implement the operations on lists.
    From a queue set up by TAILQ_INIT, any sequence of insertions at either end or
    next to an element and of removals that makes sense on lists runs without
    touching a cell that is not its own, the cells [F] of other objects keep their
    values, and the traversals, forward and backward, and the loop that empties the
    queue go through exactly the elements of the list. *)
Theorem tailq_refines head free F ops l' free' h :
  has_cells h ((tqh_first head, None) :: (tqh_last head, None) :: free_cells free ++ F) -> Forall (fun e => e <> NULL) free ->
  spec_ops ops ([], free) = Some (l', free') ->
  exists h', (_ ← TAILQ_INIT head; run_ops head ops) h = Ok (tt, h') /\ has_cells h' F /\
    TAILQ_FOREACH field (S (length l')) head h' = Ok (l', h') /\
    TAILQ_FOREACH_REVERSE field (S (length l')) head h' = Ok (reverse l', h') /\
    exists h'', take_all field (S (length l')) head h' = Ok (l', h'') /\ has_cells h'' F.
Proof.
  intros Hc Hn Hs. assert (pwp (_ ← TAILQ_INIT head; run_ops head ops) h (fun _ h' => queue_rep h' head l' free' F)) as ([] & h' & Hr & Hq).
  { apply pwp_bind. eapply pwp_conseq; [by eapply init_rep|]. intros [] h1 H1. by eapply run_ops_rep. }
  assert (forall h0 k fr, queue_rep h0 head k fr F -> has_cells h0 F) as HF.
  { intros h0 k fr [ [Hd Hf] _]. rewrite app_assoc, fmap_app in Hd. rewrite app_assoc in Hf. split; [by apply NoDup_app in Hd as (_ & _ & ?)|by apply Forall_app in Hf as [_ ?] ]. }
  exists h'. split; [exact Hr|]. split; [by eapply HF|].
  destruct (foreach_rep h' head l' free' F (S (length l')) (Nat.lt_succ_diag_r _) Hq) as (vs & h1 & E1 & -> & ->). split; [exact E1|].
  destruct (foreach_reverse_rep h' head l' free' F (S (length l')) (Nat.lt_succ_diag_r _) Hq) as (vs & h1 & E2 & -> & ->). split; [exact E2|].
  destruct (take_all_rep l' h' head free' F (S (length l')) (Nat.lt_succ_diag_r _) Hq) as (vs & h1 & E3 & -> & Hq1). exists h1. split; [exact E3|by eapply HF].
Qed.

(** Joining two queues appends the second to the first and leaves the second empty. *)
Theorem tailq_concat_appends h head1 l1 head2 l2 free F :
  queue_rep h head1 l1 free (queue_cells head2 l2 ++ F) -> Forall (fun e => e <> NULL) l2 ->
  exists h', TAILQ_CONCAT field head1 head2 h = Ok (tt, h') /\
    TAILQ_FOREACH field (S (length (l1 ++ l2))) head1 h' = Ok (l1 ++ l2, h') /\ TAILQ_EMPTY head2 h' = Ok (true, h').
Proof.
  intros Hq Hn. destruct (concat_rep _ _ _ _ _ _ _ Hq Hn) as ([] & h' & E & Hq'). exists h'. split; [exact E|].
  destruct (foreach_rep h' head1 (l1 ++ l2) free _ _ (Nat.lt_succ_diag_r _) Hq') as (vs & h1 & E1 & -> & ->). split; [exact E1|].
  assert (queue_rep h' head2 [] [] (queue_cells head1 (l1 ++ l2) ++ free_cells free ++ F)) as H2.
  { destruct Hq' as [Hc _]. split; [|constructor]. cbn [free_cells mbind list_bind app]. permute Hc. }
  destruct (empty_rep _ _ _ _ _ H2) as (b & h1 & E2 & -> & ->). exact E2.
Qed.

End reps.

(** ** Witnesses *)

(** A head at 0x100, three elements with the entry at offset 16, and another cell. *)
Definition pool : list Z := [0x200; 0x300; 0x400].
Definition words0 : words :=
  list_to_map [(0x100, 7); (0x108, 7); (0x210, 7); (0x218, 7); (0x310, 7); (0x318, 7); (0x410, 7); (0x418, 7); (0x500, 42)].
Definition ops0 : list tq_op := [OpInsertTail 0x200; OpInsertHead 0x300; OpInsertAfter 0x300 0x400; OpRemove 0x200; OpInsertBefore 0x300 0x200].

Lemma words0_cells : has_cells words0 ((tqh_first 0x100, None) :: (tqh_last 0x100, None) :: free_cells 16 pool ++ [(0x500, Some 42)]).
Proof.
  split; [vm_compute; repeat (apply NoDup_cons; split; [intros H; repeat (apply elem_of_cons in H as [H|H]; [discriminate H|]); by apply elem_of_nil in H|]); apply NoDup_nil_2|].
  repeat constructor; vm_compute; try reflexivity; by eexists.
Qed.

Lemma tailq_refines_witness :
  exists h', (_ ← TAILQ_INIT 0x100; run_ops 16 0x100 ops0) words0 = Ok (tt, h') /\ TAILQ_FOREACH 16 4 0x100 h' = Ok ([0x200; 0x300; 0x400], h').
Proof.
  destruct (tailq_refines 16 0x100 pool [(0x500, Some 42)] ops0 [0x200; 0x300; 0x400] [] words0 words0_cells) as (h' & H1 & _ & H2 & _).
  - repeat constructor; discriminate.
  - reflexivity.
  - exists h'. split; [exact H1|exact H2].
Defined.

Lemma tailq_concat_appends_witness : exists h', TAILQ_CONCAT 16 0x100 0x600 (<[0x600 := 0]> (<[0x608 := 0x600]> (<[0x100 := 0]> (<[0x108 := 0x100]> ∅)))) = Ok (tt, h').
Proof.
  destruct (tailq_concat_appends 16 (<[0x600 := 0]> (<[0x608 := 0x600]> (<[0x100 := 0]> (<[0x108 := 0x100]> ∅)))) 0x100 [] 0x600 [] [] []) as (h' & H & _).
  - split; [|constructor]. split; [vm_compute; repeat (apply NoDup_cons; split; [intros H; repeat (apply elem_of_cons in H as [H|H]; [discriminate H|]); by apply elem_of_nil in H|]); apply NoDup_nil_2|].
    repeat constructor.
  - constructor.
  - exists h'. exact H.
Defined.

(** Removing an element twice, as after a lost reference, breaks the queue: the
    second removal writes through a stale link. *)
Example remove_twice_corrupts :
  match (_ ← TAILQ_INIT 0x100; run_ops 16 0x100 [OpInsertTail 0x200; OpInsertTail 0x300; OpRemove 0x200; OpRemove 0x300; OpRemove 0x200]) words0 with
  | Ok (_, h) => TAILQ_FOREACH 16 4 0x100 h = Ok ([0x300], h)
  | Err _ => False
  end.
Proof. vm_compute. reflexivity. Qed.
