(* ===== verification/GpuIov.v ===== *)
(** * Copies between GPU command buffers and structs

    [iov_to_buf], [buf_to_iov] and their [_full] loops
    ([tools/virtio/include/virtio_gpu.h], [virtio_gpu_base.c]): bytes from an offset
    of a scatter/gather list into a struct and back, with the one-buffer fast path
    the header takes for a size known at compile time. *)

From S2P Require Import Prelude Memory ZoneMem Virtqueue IoVec.

(** ** Copies between buffers and memory *)

(** The loop of [iov_to_buf_full]: the offset left and the bytes copied. *)
Fixpoint iov_to_buf_loop (m : hmem) (iov : list iovec) (offset bytes_need_copy : Z) (acc : list Z) : result (Z * list Z) :=
  match iov with
  | [] => Ok (offset, acc)
  | b :: iov' =>
      let done := Z.of_nat (length acc) in
      if (offset =? 0) && (bytes_need_copy <=? done) then Ok (offset, acc)
      else if offset <? iov_len b then
        let len := Z.min (iov_len b - offset) (bytes_need_copy - done) in
        l ← load_bytes (Z.to_nat len) m (iov_base b + offset);
        iov_to_buf_loop m iov' 0 bytes_need_copy (acc ++ l)
      else iov_to_buf_loop m iov' (offset - iov_len b) bytes_need_copy acc
  end.

(** The return value and the bytes written to the buffer. *)
Definition iov_to_buf_full (m : hmem) (iov : list iovec) (offset bytes_need_copy : Z) : result (Z * list Z) :=
  '(rest, l) ← iov_to_buf_loop m iov offset bytes_need_copy [];
  Ok (if negb (rest =? 0) then 0 else Z.of_nat (length l), l).

(** [constant]: the size is a compile-time constant. *)
Definition iov_to_buf (constant : bool) (m : hmem) (iov : list iovec) (offset bytes_need_copy : Z) : result (Z * list Z) :=
  match iov with
  | b :: _ =>
      if constant && (offset <=? iov_len b) && (bytes_need_copy <=? iov_len b - offset) then
        l ← load_bytes (Z.to_nat bytes_need_copy) m (iov_base b + offset); Ok (bytes_need_copy, l)
      else iov_to_buf_full m iov offset bytes_need_copy
  | [] => iov_to_buf_full m iov offset bytes_need_copy
  end.

(** The same loop with the destination in memory, as [memcpy] leaves it. *)
Fixpoint iov_to_mem_loop (m : hmem) (iov : list iovec) (offset bytes_need_copy dst done : Z) : result (Z * Z * hmem) :=
  match iov with
  | [] => Ok (offset, done, m)
  | b :: iov' =>
      if (offset =? 0) && (bytes_need_copy <=? done) then Ok (offset, done, m)
      else if offset <? iov_len b then
        let len := Z.min (iov_len b - offset) (bytes_need_copy - done) in
        l ← load_bytes (Z.to_nat len) m (iov_base b + offset);
        m1 ← store_bytes m (dst + done) l;
        iov_to_mem_loop m1 iov' 0 bytes_need_copy dst (done + len)
      else iov_to_mem_loop m iov' (offset - iov_len b) bytes_need_copy dst done
  end.

Fixpoint buf_to_iov_loop (m : hmem) (iov : list iovec) (offset : Z) (buf : list Z) (done : Z) : result (Z * Z * hmem) :=
  match iov with
  | [] => Ok (offset, done, m)
  | b :: iov' =>
      let bytes_need_copy := Z.of_nat (length buf) in
      if (offset =? 0) && (bytes_need_copy <=? done) then Ok (offset, done, m)
      else if offset <? iov_len b then
        let len := Z.min (iov_len b - offset) (bytes_need_copy - done) in
        m1 ← store_bytes m (iov_base b + offset) (take (Z.to_nat len) (drop (Z.to_nat done) buf));
        buf_to_iov_loop m1 iov' 0 buf (done + len)
      else buf_to_iov_loop m iov' (offset - iov_len b) buf done
  end.

Definition buf_to_iov_full (m : hmem) (iov : list iovec) (offset : Z) (buf : list Z) : result (Z * hmem) :=
  '(rest, done, m1) ← buf_to_iov_loop m iov offset buf 0;
  Ok (if negb (rest =? 0) then 0 else done, m1).

Definition buf_to_iov (constant : bool) (m : hmem) (iov : list iovec) (offset : Z) (buf : list Z) : result (Z * hmem) :=
  let bytes_need_copy := Z.of_nat (length buf) in
  match iov with
  | b :: _ =>
      if constant && (offset <=? iov_len b) && (bytes_need_copy <=? iov_len b - offset) then
        m1 ← store_bytes m (iov_base b + offset) buf; Ok (bytes_need_copy, m1)
      else buf_to_iov_full m iov offset buf
  | [] => buf_to_iov_full m iov offset buf
  end.

(** A little-endian field of a struct. *)
Definition field (n off : nat) (bytes : list Z) : Z := foldr (fun b acc => u8 b + 256 * acc) 0 (take n (drop off bytes)).

Fixpoint le (n : nat) (v : Z) : list Z :=
  match n with
  | O => []
  | S n' => u8 v :: le n' (v / 256)
  end.


(** ** Reference: the bytes of the list *)

Definition bytes_of (m : hmem) (iov : list iovec) : list Z :=
  concat ((fun b => peek_bytes m (iov_base b) (Z.to_nat (iov_len b))) <$> iov).

Lemma drop_peek_bytes k : forall m a n, drop k (peek_bytes m a n) = peek_bytes m (a + Z.of_nat k) (n - k).
Proof.
  intros m a n. apply list_eq. intros i. rewrite lookup_drop. destruct (decide (k + i < n)%nat) as [Hi|Hi].
  - rewrite !lookup_peek_bytes by lia. do 2 f_equal. lia.
  - rewrite !lookup_ge_None_2; [done| |]; rewrite length_peek_bytes; lia.
Qed.

Lemma take_peek_bytes k : forall m a n, take k (peek_bytes m a n) = peek_bytes m a (k `min` n).
Proof.
  intros m a n. apply list_eq. intros i. destruct (decide (i < k `min` n)%nat) as [Hi|Hi].
  - rewrite lookup_take_lt, !lookup_peek_bytes by lia. done.
  - rewrite !lookup_ge_None_2; [done| |]; rewrite ?length_take, length_peek_bytes; lia.
Qed.

Lemma length_bytes_of m iov : bufs_ok iov -> Z.of_nat (length (bytes_of m iov)) = iov_total iov.
Proof.
  induction 1 as [|b iov Hb _ IH]; [done|]. unfold bytes_of, iov_total in *. cbn [fmap list_fmap concat foldr].
  rewrite length_app, length_peek_bytes. lia.
Qed.

Lemma reachable_bufs_ok m iov : Forall (reachable m) iov -> bufs_ok iov.
Proof. intros H. eapply Forall_impl; [exact H|]. intros b (_ & Hl & _). simpl. lia. Qed.

(** What one turn of the loop copies, and what it leaves for the next. *)
Lemma take_drop_buffer m a len off n (R : list Z) :
  (off <= len)%nat ->
  take n (drop off (peek_bytes m a len ++ R)) =
    peek_bytes m (a + Z.of_nat off) (n `min` (len - off)) ++ take (n - (n `min` (len - off))) R.
Proof.
  intros H. rewrite drop_app, length_peek_bytes, drop_peek_bytes, take_app, length_peek_bytes, take_peek_bytes.
  replace (off - len)%nat with 0%nat by lia. rewrite drop_0. do 2 f_equal. lia.
Qed.

Lemma iov_to_buf_loop_exact m iov : Forall (reachable m) iov -> forall off n acc,
  0 <= off -> Z.of_nat (length acc) <= n ->
  iov_to_buf_loop m iov off n acc =
    Ok (Z.max 0 (off - iov_total iov),
        acc ++ take (Z.to_nat n - length acc) (drop (Z.to_nat off) (bytes_of m iov))).
Proof.
  induction 1 as [|b iov Hb Hiov IH]; intros off n acc Ho Hn.
  { cbn [iov_to_buf_loop bytes_of fmap list_fmap concat iov_total foldr]. rewrite drop_nil, take_nil, app_nil_r. do 2 f_equal. lia. }
  cbn [iov_to_buf_loop]. pose proof (iov_total_nonneg _ (reachable_bufs_ok _ _ Hiov)) as Ht. pose proof Hb as (H0 & Hl & _).
  change (iov_total (b :: iov)) with (iov_len b + iov_total iov).
  change (bytes_of m (b :: iov)) with (peek_bytes m (iov_base b) (Z.to_nat (iov_len b)) ++ bytes_of m iov).
  destruct ((off =? 0) && (n <=? Z.of_nat (length acc))) eqn:E.
  { replace (Z.to_nat n - length acc)%nat with 0%nat by lia. rewrite take_0, app_nil_r. do 2 f_equal. lia. }
  destruct (off <? iov_len b) eqn:El.
  - rewrite (reachable_load_bytes m b) by (done || lia). cbn [mbind result_bind].
    rewrite IH by (rewrite ?length_app, ?length_peek_bytes; lia).
    rewrite take_drop_buffer, length_app, length_peek_bytes by lia. rewrite drop_0, <- app_assoc.
    replace (iov_base b + Z.of_nat (Z.to_nat off)) with (iov_base b + off) by lia.
    match goal with |- Ok (?a, ?b) = Ok (?c, ?d) => assert (a = c) as -> by lia; assert (b = d) as ->; [|done] end.
    f_equal. f_equal; f_equal; lia.
  - rewrite IH by lia. rewrite drop_app, length_peek_bytes, (drop_ge (peek_bytes _ _ _)) by (rewrite length_peek_bytes; lia).
    rewrite app_nil_l. do 2 f_equal; [lia|]. do 3 f_equal. lia.
Qed.

(** What is copied to the struct, whichever path is taken. *)
Definition copied (m : hmem) (iov : list iovec) (offset bytes_need_copy : Z) : list Z :=
  take (Z.to_nat bytes_need_copy) (drop (Z.to_nat offset) (bytes_of m iov)).

Lemma iov_to_buf_full_exact m iov off n :
  Forall (reachable m) iov -> 0 <= off -> 0 <= n ->
  iov_to_buf_full m iov off n = Ok (Z.of_nat (length (copied m iov off n)), copied m iov off n).
Proof.
  intros Hiov Ho Hn. unfold iov_to_buf_full. rewrite iov_to_buf_loop_exact by (done || simpl; lia). cbn [mbind result_bind length app].
  rewrite Nat.sub_0_r. fold (copied m iov off n). do 2 f_equal. destruct (negb _) eqn:E; [|done].
  unfold copied. rewrite drop_ge, take_nil; [done|]. pose proof (length_bytes_of m iov (reachable_bufs_ok _ _ Hiov)). lia.
Qed.

Lemma iov_to_buf_exact c m iov off n :
  Forall (reachable m) iov -> 0 <= off -> 0 <= n ->
  iov_to_buf c m iov off n = Ok (Z.of_nat (length (copied m iov off n)), copied m iov off n).
Proof.
  intros Hiov Ho Hn. unfold iov_to_buf. destruct iov as [|b iov]; [by apply iov_to_buf_full_exact|].
  destruct (_ && _) eqn:E; [|by apply iov_to_buf_full_exact].
  pose proof (Forall_inv Hiov) as Hb. pose proof Hb as (H0 & Hl & _).
  rewrite (reachable_load_bytes m b) by (done || lia). cbn [mbind result_bind]. unfold copied.
  change (bytes_of m (b :: iov)) with (peek_bytes m (iov_base b) (Z.to_nat (iov_len b)) ++ bytes_of m iov).
  rewrite take_drop_buffer by lia. replace (Z.to_nat n - _)%nat with 0%nat by lia. rewrite take_0, app_nil_r, length_peek_bytes.
  replace (iov_base b + Z.of_nat (Z.to_nat off)) with (iov_base b + off) by lia. do 2 f_equal; [lia|]. f_equal. lia.
Qed.

(** From offset 0 the loop is a scatter. *)
Lemma buf_to_iov_loop_exact iov : bufs_ok iov -> forall m buf done, 0 <= done <= Z.of_nat (length buf) ->
  buf_to_iov_loop m iov 0 buf done =
    (m' ← scatter m iov (drop (Z.to_nat done) buf); Ok (0, Z.min (Z.of_nat (length buf)) (done + iov_total iov), m')).
Proof.
  induction 1 as [|b iov Hb Hiov IH]; intros m buf done Hd; cbn [buf_to_iov_loop scatter].
  { cbn [mbind result_bind]. do 3 f_equal. unfold iov_total. simpl. lia. }
  pose proof (iov_total_nonneg _ Hiov) as Ht. change (iov_total (b :: iov)) with (iov_len b + iov_total iov).
  rewrite Z.eqb_refl. cbn [andb]. destruct (_ <=? done) eqn:E.
  { rewrite (drop_ge buf) by lia. rewrite take_nil, drop_nil. cbn [store_bytes mbind result_bind]. rewrite scatter_nil. cbn [mbind result_bind].
    do 3 f_equal. lia. }
  destruct (0 <? iov_len b) eqn:El.
  - rewrite Z.add_0_r, Z.sub_0_r. 
    assert (take (Z.to_nat (Z.min (iov_len b) (Z.of_nat (length buf) - done))) (drop (Z.to_nat done) buf) =
            take (Z.to_nat (iov_len b)) (drop (Z.to_nat done) buf)) as ->.
    { destruct (decide (iov_len b <= Z.of_nat (length buf) - done)); [by rewrite Z.min_l|].
      rewrite Z.min_r by lia. rewrite !take_ge by (rewrite length_drop; lia). done. }
    destruct (store_bytes _ _ _) as [m1|]; cbn [mbind result_bind]; [|done]. rewrite IH by lia.
    rewrite drop_drop. 
    assert (drop (Z.to_nat (done + Z.min (iov_len b) (Z.of_nat (length buf) - done))) buf =
            drop (Z.to_nat done + Z.to_nat (iov_len b)) buf) as ->.
    { destruct (decide (iov_len b <= Z.of_nat (length buf) - done)); [f_equal; lia|]. rewrite !drop_ge by lia. done. }
    destruct (scatter _ _ _); cbn [mbind result_bind]; [|done]. do 3 f_equal. lia.
  - replace (iov_len b) with 0 by lia. rewrite Z.sub_0_r, IH by lia. change (Z.to_nat 0) with 0%nat. by rewrite drop_0, take_0.
Qed.

Lemma buf_to_iov_exact c m iov buf : bufs_ok iov ->
  buf_to_iov c m iov 0 buf = (m' ← scatter m iov buf; Ok (Z.min (Z.of_nat (length buf)) (iov_total iov), m')).
Proof.
  intros Hok. assert (Hf : buf_to_iov_full m iov 0 buf = (m' ← scatter m iov buf; Ok (Z.min (Z.of_nat (length buf)) (iov_total iov), m'))).
  { unfold buf_to_iov_full. rewrite buf_to_iov_loop_exact by (done || lia). rewrite drop_0. by destruct (scatter _ _ _). }
  unfold buf_to_iov. destruct iov as [|b iov]; [done|]. destruct (_ && _) eqn:E; [|done].
  apply Forall_cons_1 in Hok as [Hb Hok]. pose proof (iov_total_nonneg _ Hok). cbn [scatter].
  rewrite Z.add_0_r, take_ge, drop_ge by lia. destruct (store_bytes _ _ _); cbn [mbind result_bind]; [|done].
  rewrite scatter_nil. cbn [mbind result_bind]. change (iov_total (b :: iov)) with (iov_len b + iov_total iov). do 2 f_equal. lia.
Qed.

(** Scattering to buffers that can be reached returns. *)
Lemma scatter_returns v : forall m data, Forall (reachable m) v -> exists m', scatter m v data = Ok m'.
Proof.
  induction v as [|b v IH]; intros m data H; cbn [scatter]; [eauto|]. apply Forall_cons_1 in H as [Hb H]. pose proof Hb as (H0 & Hl & _).
  rewrite (reachable_store_bytes m b) by (rewrite ?length_take; done || lia). cbn [mbind result_bind]. apply IH.
  eapply Forall_impl; [exact H|]. intros x. apply reachable_ranges, hm_ranges_poke_bytes.
Qed.

Lemma gather_bytes_of m v : Forall (reachable m) v -> forall n, gather m v n = Ok (take n (bytes_of m v)).
Proof.
  induction 1 as [|b v Hb Hv IH]; intros n; cbn [gather]; [unfold bytes_of; cbn; by rewrite take_nil|]. pose proof Hb as (H0 & Hl & _).
  rewrite (reachable_load_bytes m b), IH by (done || lia). cbn [mbind result_bind]. f_equal.
  change (bytes_of m (b :: v)) with (peek_bytes m (iov_base b) (Z.to_nat (iov_len b)) ++ bytes_of m v).
  rewrite take_app, take_peek_bytes, length_peek_bytes. f_equal; f_equal; lia.
Qed.

(** ** Theorem *)

(** C15: The copies of the GPU device.  Reading a struct from buffers that can be
    reached gives the bytes at the offset of the buffers' concatenation and their
    number, and the fast path taken for sizes known at compile time gives the same;
    a response that fits disjoint buffers is written to them and nowhere else, is
    reported complete, and reads back as it was written, on either path. *)
Theorem gpu_copies_exact m iov off n :
  Forall (reachable m) iov -> 0 <= off -> 0 <= n ->
  iov_to_buf true m iov off n = iov_to_buf false m iov off n /\
  iov_to_buf false m iov off n = Ok (Z.of_nat (length (copied m iov off n)), copied m iov off n) /\
  forall c c' buf, bufs_apart iov -> Forall (fun b => 0 <= b < 256) buf -> Z.of_nat (length buf) <= iov_total iov ->
    exists m', buf_to_iov c m iov 0 buf = Ok (Z.of_nat (length buf), m') /\ same_but iov m m' /\
      iov_to_buf c' m' iov 0 (Z.of_nat (length buf)) = Ok (Z.of_nat (length buf), buf).
Proof.
  intros Hiov Ho Hn. split; [by rewrite !iov_to_buf_exact|]. split; [by apply iov_to_buf_exact|].
  intros c c' buf Hap Hbuf Hfit. pose proof (reachable_bufs_ok _ _ Hiov) as Hok.
  destruct (scatter_returns iov m buf Hiov) as [m' Hs]. exists m'. rewrite buf_to_iov_exact, Hs by done. cbn [mbind result_bind].
  rewrite Z.min_l by done. split; [done|]. pose proof (scatter_same_but _ _ _ _ Hok Hs) as Hsb. split; [done|].
  assert (Hiov' : Forall (reachable m') iov).
  { eapply Forall_impl; [exact Hiov|]. intros x. apply reachable_ranges, Hsb. }
  rewrite iov_to_buf_exact by (done || lia). pose proof (gather_scatter _ _ _ _ Hok Hap Hfit Hs) as Hg.
  rewrite gather_bytes_of in Hg by done. injection Hg as Hg. unfold copied. rewrite drop_0, Nat2Z.id, Hg, length_fmap.
  do 2 f_equal. clear - Hbuf. induction Hbuf as [|b buf Hb _ IH]; [done|]. cbn [fmap list_fmap]. by rewrite u8_small, IH.
Qed.

(** ** Witness *)

(** Two buffers of three and five bytes. *)
Definition mem_two : hmem := mem_with [(4096, 64)] [(4096, 4%nat, 67305985); (4112, 4%nat, 100992003)].
Definition iov_two : list iovec := [{| iov_base := 4096; iov_len := 3 |}; {| iov_base := 4112; iov_len := 5 |}].

Lemma gpu_copies_exact_witness :
  iov_to_buf true mem_two iov_two 1 4 = Ok (4, [2; 3; 3; 4]) /\
  exists m', buf_to_iov false mem_two iov_two 0 [9; 8; 7; 6] = Ok (4, m') /\
    iov_to_buf true m' iov_two 0 4 = Ok (4, [9; 8; 7; 6]).
Proof.
  destruct (gpu_copies_exact mem_two iov_two 1 4) as (H1 & H2 & H3).
  { repeat constructor; vm_compute; done. }
  { lia. }
  { lia. }
  split; [rewrite H1, H2; vm_compute; reflexivity|].
  destruct (H3 false true [9; 8; 7; 6]) as (m' & Hm & _ & Hr).
  { split; [|split; [intros x _ (b & Hb & _); by apply elem_of_nil in Hb|exact I]].
    intros x Hx (b & Hb & Hr). apply list_elem_of_singleton in Hb as ->. cbn [iov_base iov_len] in *. lia. }
  { repeat constructor; lia. }
  { vm_compute. discriminate. }
  exists m'. split; [exact Hm|exact Hr].
Defined.
