(* ===== verification/Gpu.v ===== *)
(** * The GPU device

    [tools/virtio/devices/gpu/virtio_gpu.c] and [virtio_gpu_base.c]: resources,
    scanouts and their frame buffers, and every 2D command.  libdrm answers through
    [gpu_env]; what is asked of it is recorded in order.  A frame buffer is a mapped
    range of the daemon's memory.  Command numbers and struct layouts are those of
    <linux/virtio_gpu.h>. *)

From S2P Require Import Prelude Memory ZoneMem Virtqueue IoVec GpuIov.

Definition GPU_CONTROL_QUEUE : nat := 0.
Definition GPU_CURSOR_QUEUE : nat := 1.
Definition HVISOR_VIRTIO_GPU_MAX_SCANOUTS : nat := 1.
Definition VIRTIO_GPU_MAX_HOSTMEM : Z := 536870912.
Definition SCANOUT_DEFAULT_WIDTH : Z := 1280.
Definition SCANOUT_DEFAULT_HEIGHT : Z := 800.

Definition VIRTIO_GPU_CMD_GET_DISPLAY_INFO : Z := 0x0100.
Definition VIRTIO_GPU_CMD_RESOURCE_CREATE_2D : Z := 0x0101.
Definition VIRTIO_GPU_CMD_RESOURCE_UNREF : Z := 0x0102.
Definition VIRTIO_GPU_CMD_SET_SCANOUT : Z := 0x0103.
Definition VIRTIO_GPU_CMD_RESOURCE_FLUSH : Z := 0x0104.
Definition VIRTIO_GPU_CMD_TRANSFER_TO_HOST_2D : Z := 0x0105.
Definition VIRTIO_GPU_CMD_RESOURCE_ATTACH_BACKING : Z := 0x0106.
Definition VIRTIO_GPU_CMD_RESOURCE_DETACH_BACKING : Z := 0x0107.
Definition VIRTIO_GPU_CMD_GET_EDID : Z := 0x010a.
Definition VIRTIO_GPU_RESP_OK_NODATA : Z := 0x1100.
Definition VIRTIO_GPU_RESP_OK_DISPLAY_INFO : Z := 0x1101.
Definition VIRTIO_GPU_RESP_ERR_UNSPEC : Z := 0x1200.
Definition VIRTIO_GPU_RESP_ERR_INVALID_SCANOUT_ID : Z := 0x1202.
Definition VIRTIO_GPU_RESP_ERR_INVALID_RESOURCE_ID : Z := 0x1203.
Definition VIRTIO_GPU_RESP_ERR_INVALID_PARAMETER : Z := 0x1205.
Definition VIRTIO_GPU_MAX_SCANOUTS : nat := 16.

(** ** State *)

Record virtio_gpu_rect := { r_x : Z; r_y : Z; r_width : Z; r_height : Z }.

Record GPUSimpleResource := {
  resource_id : Z;
  res_width : Z;
  res_height : Z;
  res_format : Z;
  res_iov : option (list iovec);    (* iov and iov_cnt; None: NULL *)
  hostmem : Z;
  scanout_bitmask : Z;
  transfer_rect : virtio_gpu_rect;
  transfer_offset : Z;
}.

Record GPUFrameBuffer := {
  fb_id : Z;
  fb_format : Z;
  bytes_pp : Z;
  fb_width : Z;
  fb_height : Z;
  fb_stride : Z;
  fb_offset : Z;
  drm_dumb_size : Z;
  drm_dumb_handle : Z;
  fb_addr : Z;
  fb_enabled : bool;
}.

(** The crtc, encoder and connector by their ids, [None] for NULL. *)
Record GPUScanout := {
  sc_width : Z;
  sc_height : Z;
  sc_x : Z;
  sc_y : Z;
  sc_resource_id : Z;
  frame_buffer : GPUFrameBuffer;
  card0_fd : Z;
  crtc : option Z;
  encoder : option Z;
  connector : option Z;
}.

Record GPUCommand := {
  cmd_type : Z;                     (* control_header.type *)
  resp_iov : list iovec;
  resp_idx : Z;
  finished : bool;
  error : Z;
  from_queue : nat;
}.

Record GPUConfig := { events_read : Z; events_clear : Z; num_scanouts : Z; num_capsets : Z }.

Record GPUDev := {
  gpu_config : GPUConfig;
  scanouts : list GPUScanout;
  requested_states : list (Z * Z);  (* width, height *)
  resource_list : list GPUSimpleResource;
  command_queue : list GPUCommand;
  scanouts_num : Z;
  dev_hostmem : Z;
  enabled_scanout_bitmask : Z;
  gpu_close : bool;
  async_started : bool;
}.

(** What is asked of libdrm and the kernel. *)
Inductive drm_op :=
  | CreateDumb (width height bpp handle : Z)
  | DestroyDumb (handle : Z)
  | AddFB (fb handle : Z)
  | RmFB (fb : Z)
  | MapFB (addr size : Z)
  | UnmapFB (addr size : Z)
  | SetCrtc (fb : Z).

Record gpu_env := {
  e_calloc : bool;                        (* calloc of a resource *)
  e_malloc : Z -> bool;                   (* malloc of the entries *)
  e_realloc : nat -> bool;                (* the n-th realloc of the backing array *)
  e_create_dumb : option (Z * Z * Z);     (* handle, pitch and size, or a failure *)
  e_map_dumb : option Z;                  (* the offset, or a failure *)
  e_addfb : option Z;
  e_mmap : Z;                             (* the address, as mmap returns it *)
}.

(** ** The command monad *)

Record gpu := {
  g_dev : GPUDev;
  g_mem : hmem;
  g_drm : list drm_op;
  g_cmd : GPUCommand;
}.

Definition gpu_m (A : Type) : Type := gpu -> result (A * gpu).

#[global] Instance gpu_ret : MRet gpu_m := fun A x s => Ok (x, s).
#[global] Instance gpu_bind : MBind gpu_m := fun A B k c s =>
  match c s with
  | Ok (x, s') => k x s'
  | Err f => Err f
  end.

Definition get_dev : gpu_m GPUDev := fun s => Ok (g_dev s, s).
Definition get_cmd : gpu_m GPUCommand := fun s => Ok (g_cmd s, s).
Definition put_dev (d : GPUDev) : gpu_m unit := fun s =>
  Ok (tt, {| g_dev := d; g_mem := g_mem s; g_drm := g_drm s; g_cmd := g_cmd s |}).
Definition put_mem (m : hmem) : gpu_m unit := fun s =>
  Ok (tt, {| g_dev := g_dev s; g_mem := m; g_drm := g_drm s; g_cmd := g_cmd s |}).
Definition put_cmd (c : GPUCommand) : gpu_m unit := fun s =>
  Ok (tt, {| g_dev := g_dev s; g_mem := g_mem s; g_drm := g_drm s; g_cmd := c |}).
Definition drm (o : drm_op) : gpu_m unit := fun s =>
  Ok (tt, {| g_dev := g_dev s; g_mem := g_mem s; g_drm := g_drm s ++ [o]; g_cmd := g_cmd s |}).
Definition with_mem {A} (f : hmem -> result A) : gpu_m A := fun s => x ← f (g_mem s); Ok (x, s).
Definition gpu_lift {A} (r : result A) : gpu_m A := fun s => x ← r; Ok (x, s).

Definition set_error (err : Z) : gpu_m unit :=
  c ← get_cmd;
  put_cmd {| cmd_type := cmd_type c; resp_iov := resp_iov c; resp_idx := resp_idx c; finished := finished c;
             error := err; from_queue := from_queue c |}.

(** ** Commands and their structs *)

(** [VIRTIO_GPU_FILL_CMD]: the struct's bytes, or the macro's [return]. *)
Definition VIRTIO_GPU_FILL_CMD (size : Z) : gpu_m (option (list Z)) :=
  c ← get_cmd;
  '(s, l) ← with_mem (fun m => iov_to_buf true m (resp_iov c) 0 size);
  mret (if negb (s =? size) then None else Some l).

Definition rect_at (off : nat) (bytes : list Z) : virtio_gpu_rect :=
  {| r_x := field 4 off bytes; r_y := field 4 (off + 4) bytes; r_width := field 4 (off + 8) bytes; r_height := field 4 (off + 12) bytes |}.

(** ** Resources *)

Definition virtio_gpu_find_resource (d : GPUDev) (id : Z) : option GPUSimpleResource :=
  List.find (fun r => resource_id r =? id) (resource_list d).

(** Updates the resource found under an id, in place. *)
Fixpoint upd_first (id : Z) (f : GPUSimpleResource -> GPUSimpleResource) (l : list GPUSimpleResource) : list GPUSimpleResource :=
  match l with
  | [] => []
  | r :: l' => if resource_id r =? id then f r :: l' else r :: upd_first id f l'
  end.

Definition set_resources (l : list GPUSimpleResource) (mem : Z) (d : GPUDev) : GPUDev :=
  {| gpu_config := gpu_config d; scanouts := scanouts d; requested_states := requested_states d; resource_list := l; command_queue := command_queue d;
     scanouts_num := scanouts_num d; dev_hostmem := mem; enabled_scanout_bitmask := enabled_scanout_bitmask d;
     gpu_close := gpu_close d; async_started := async_started d |}.

Definition upd_resource (id : Z) (f : GPUSimpleResource -> GPUSimpleResource) (d : GPUDev) : GPUDev :=
  set_resources (upd_first id f (resource_list d)) (dev_hostmem d) d.

Definition set_scanouts (l : list GPUScanout) (d : GPUDev) : GPUDev :=
  {| gpu_config := gpu_config d; scanouts := l; requested_states := requested_states d; resource_list := resource_list d; command_queue := command_queue d;
     scanouts_num := scanouts_num d; dev_hostmem := dev_hostmem d; enabled_scanout_bitmask := enabled_scanout_bitmask d;
     gpu_close := gpu_close d; async_started := async_started d |}.

Definition set_bitmask (b : Z) (r : GPUSimpleResource) : GPUSimpleResource :=
  {| resource_id := resource_id r; res_width := res_width r; res_height := res_height r; res_format := res_format r;
     res_iov := res_iov r; hostmem := hostmem r; scanout_bitmask := b; transfer_rect := transfer_rect r;
     transfer_offset := transfer_offset r |}.

Definition set_backing (v : option (list iovec)) (r : GPUSimpleResource) : GPUSimpleResource :=
  {| resource_id := resource_id r; res_width := res_width r; res_height := res_height r; res_format := res_format r;
     res_iov := v; hostmem := hostmem r; scanout_bitmask := scanout_bitmask r; transfer_rect := transfer_rect r;
     transfer_offset := transfer_offset r |}.

Definition set_transfer (rect : virtio_gpu_rect) (off : Z) (r : GPUSimpleResource) : GPUSimpleResource :=
  {| resource_id := resource_id r; res_width := res_width r; res_height := res_height r; res_format := res_format r;
     res_iov := res_iov r; hostmem := hostmem r; scanout_bitmask := scanout_bitmask r; transfer_rect := rect;
     transfer_offset := off |}.

(** 32-bit arithmetic; the row is rounded up to a multiple of four bytes. *)
Definition calc_image_hostmem (bits_per_pixel width height : Z) : Z :=
  let stride := Z.shiftr (u32 (width * bits_per_pixel + 0x1f)) 5 * 4 in
  u32 (height * stride).

(** A resource with backing; the error otherwise. *)
Definition virtio_gpu_check_resource (id : Z) : gpu_m (option GPUSimpleResource) :=
  d ← get_dev;
  match virtio_gpu_find_resource d id with
  | None => _ ← set_error VIRTIO_GPU_RESP_ERR_INVALID_RESOURCE_ID; mret None
  | Some res =>
      if negb (bool_decide (is_Some (res_iov res))) || (hostmem res <=? 0) then
        _ ← set_error VIRTIO_GPU_RESP_ERR_UNSPEC; mret None
      else mret (Some res)
  end.

(** ** Responses *)

Section commands.
Context (e : gpu_env) (zt : zone_table) (zone_id : Z) (queues : list VirtQueue).

(** Completed in the queue the command came from, [vdev->vqs[gcmd->from_queue] ]. *)
Definition virtio_gpu_ctrl_response (resp : list Z) : gpu_m unit :=
  c ← get_cmd;
  '(s, m1) ← with_mem (fun m => buf_to_iov false m (drop 1 (resp_iov c)) 0 resp);
  vq ← gpu_lift (of_index (queues !! from_queue c));
  m2 ← gpu_lift (update_used_ring m1 vq (resp_idx c) (u32 (Z.of_nat (length resp))));
  _ ← put_mem m2;
  put_cmd {| cmd_type := cmd_type c; resp_iov := resp_iov c; resp_idx := resp_idx c; finished := true;
             error := error c; from_queue := from_queue c |}.

(** A header of 24 bytes that is zero but for its type. *)
Definition response_header (type : Z) : list Z := le 4 type ++ replicate 20 0.

Definition virtio_gpu_ctrl_response_nodata (type : Z) : gpu_m unit := virtio_gpu_ctrl_response (response_header type).

Definition pmode (d : GPUDev) (i : nat) : list Z :=
  if (i <? HVISOR_VIRTIO_GPU_MAX_SCANOUTS)%nat && Z.testbit (enabled_scanout_bitmask d) (Z.of_nat i) then
    let '(w, h) := nth i (requested_states d) (0, 0) in le 4 0 ++ le 4 0 ++ le 4 w ++ le 4 h ++ le 4 1 ++ le 4 0
  else replicate 24 0.

Definition virtio_gpu_get_display_info : gpu_m unit :=
  d ← get_dev;
  virtio_gpu_ctrl_response (response_header VIRTIO_GPU_RESP_OK_DISPLAY_INFO ++
                            concat (pmode d <$> seq 0 VIRTIO_GPU_MAX_SCANOUTS)).

Definition virtio_gpu_get_edid : gpu_m unit := mret tt.

(** ** Creating and destroying resources *)

Definition virtio_gpu_resource_create_2d : gpu_m unit :=
  o ← VIRTIO_GPU_FILL_CMD 40;
  match o with
  | None => mret tt
  | Some create_2d =>
      let id := field 4 24 create_2d in
      let format := field 4 28 create_2d in
      let width := field 4 32 create_2d in
      let height := field 4 36 create_2d in
      d ← get_dev;
      if id =? 0 then set_error VIRTIO_GPU_RESP_ERR_INVALID_RESOURCE_ID
      else if bool_decide (is_Some (virtio_gpu_find_resource d id)) then set_error VIRTIO_GPU_RESP_ERR_INVALID_RESOURCE_ID
      else if negb (e_calloc e) then gpu_lift (Err NullDeref)
      else
        let res := {| resource_id := id; res_width := width; res_height := height; res_format := format; res_iov := None;
                      hostmem := calc_image_hostmem 32 width height; scanout_bitmask := 0;
                      transfer_rect := {| r_x := 0; r_y := 0; r_width := 0; r_height := 0 |}; transfer_offset := 0 |} in
        if VIRTIO_GPU_MAX_HOSTMEM <=? u64 (hostmem res + dev_hostmem d) then mret tt
        else put_dev (set_resources (res :: resource_list d) (u64 (dev_hostmem d + hostmem res)) d)
  end.

Definition set_sc (id w h : Z) (sc : GPUScanout) : GPUScanout :=
  {| sc_width := w; sc_height := h; sc_x := sc_x sc; sc_y := sc_y sc; sc_resource_id := id; frame_buffer := frame_buffer sc;
     card0_fd := card0_fd sc; crtc := crtc sc; encoder := encoder sc; connector := connector sc |}.

Definition clear_bit (b : Z) (i : nat) : Z := Z.land b (u32 (Z.lnot (Z.shiftl 1 (Z.of_nat i)))).

Definition virtio_gpu_disable_scanout (i : nat) (d : GPUDev) : result GPUDev :=
  scanout ← of_index (scanouts d !! i);
  if sc_resource_id scanout =? 0 then Ok d
  else
    let d1 := upd_resource (sc_resource_id scanout) (fun r => set_bitmask (clear_bit (scanout_bitmask r) i) r) d in
    Ok (set_scanouts (<[i := set_sc 0 0 0 scanout]> (scanouts d1)) d1).

(** The loop over the scanouts; the mask is read again at every turn. *)
Fixpoint disable_scanouts (n i : nat) (id : Z) (d : GPUDev) : result GPUDev :=
  match n with
  | O => Ok d
  | S n' =>
      d1 ← match virtio_gpu_find_resource d id with
           | Some res => if Z.testbit (scanout_bitmask res) (Z.of_nat i) then virtio_gpu_disable_scanout i d else Ok d
           | None => Ok d
           end;
      disable_scanouts n' (S i) id d1
  end.

Fixpoint remove_first (id : Z) (l : list GPUSimpleResource) : list GPUSimpleResource :=
  match l with
  | [] => []
  | r :: l' => if resource_id r =? id then l' else r :: remove_first id l'
  end.

Definition virtio_gpu_resource_destory (res : GPUSimpleResource) (d : GPUDev) : result GPUDev :=
  d1 ← (if negb (scanout_bitmask res =? 0) then disable_scanouts HVISOR_VIRTIO_GPU_MAX_SCANOUTS 0 (resource_id res) d else Ok d);
  Ok (set_resources (remove_first (resource_id res) (resource_list d1)) (u64 (dev_hostmem d1 - hostmem res)) d1).

Definition virtio_gpu_resource_unref : gpu_m unit :=
  o ← VIRTIO_GPU_FILL_CMD 32;
  match o with
  | None => mret tt
  | Some unref =>
      d ← get_dev;
      match virtio_gpu_find_resource d (field 4 24 unref) with
      | None => set_error VIRTIO_GPU_RESP_ERR_INVALID_RESOURCE_ID
      | Some res => d1 ← gpu_lift (virtio_gpu_resource_destory res d); put_dev d1
      end
  end.

(** ** Frame buffers *)

Definition set_fb (fb : GPUFrameBuffer) (sc : GPUScanout) : GPUScanout :=
  {| sc_width := sc_width sc; sc_height := sc_height sc; sc_x := sc_x sc; sc_y := sc_y sc; sc_resource_id := sc_resource_id sc;
     frame_buffer := fb; card0_fd := card0_fd sc; crtc := crtc sc; encoder := encoder sc; connector := connector sc |}.

(** The drm part of a frame buffer. *)
Definition set_drm (id size handle addr : Z) (en : bool) (fb : GPUFrameBuffer) : GPUFrameBuffer :=
  {| fb_id := id; fb_format := fb_format fb; bytes_pp := bytes_pp fb; fb_width := fb_width fb; fb_height := fb_height fb;
     fb_stride := fb_stride fb; fb_offset := fb_offset fb; drm_dumb_size := size; drm_dumb_handle := handle; fb_addr := addr;
     fb_enabled := en |}.

Definition put_fb (i : nat) (fb : GPUFrameBuffer) : gpu_m unit :=
  d ← get_dev; put_dev (set_scanouts (alter (set_fb fb) i (scanouts d)) d).

Definition get_scanout (i : nat) : gpu_m GPUScanout := d ← get_dev; gpu_lift (of_index (scanouts d !! i)).

(** Nothing happens to a buffer that is not enabled. *)
Definition virtio_gpu_remove_drm_framebuffer (i : nat) : gpu_m unit :=
  scanout ← get_scanout i;
  let fb := frame_buffer scanout in
  if negb (fb_enabled fb) || (fb_addr fb =? 0) then mret tt
  else
    _ ← drm (RmFB (fb_id fb));
    _ ← drm (UnmapFB (fb_addr fb) (drm_dumb_size fb));
    _ ← drm (DestroyDumb (drm_dumb_handle fb));
    m ← with_mem Ok;
    _ ← put_mem (HMem (List.filter (fun r => negb (bool_decide (r = (fb_addr fb, drm_dumb_size fb)))) (hm_ranges m)) (hm_bytes m));
    put_fb i (set_drm 0 0 0 0 false fb).

(** Only a NULL from [mmap] counts as a failure. *)
Definition virtio_gpu_create_drm_framebuffer (i : nat) : gpu_m unit :=
  scanout ← get_scanout i;
  let fb := frame_buffer scanout in
  if fb_enabled fb then mret tt
  else
    match e_create_dumb e with
    | None => set_error VIRTIO_GPU_RESP_ERR_UNSPEC
    | Some (handle, pitch, size) =>
        _ ← drm (CreateDumb (fb_width fb) (fb_height fb) (u32 (bytes_pp fb * 8)) handle);
        match e_map_dumb e with
        | None => _ ← virtio_gpu_remove_drm_framebuffer i; set_error VIRTIO_GPU_RESP_ERR_UNSPEC
        | Some _ =>
            match e_addfb e with
            | None => set_error VIRTIO_GPU_RESP_ERR_UNSPEC
            | Some id =>
                _ ← drm (AddFB id handle);
                let vaddr := e_mmap e in
                if vaddr =? 0 then _ ← virtio_gpu_remove_drm_framebuffer i; set_error VIRTIO_GPU_RESP_ERR_UNSPEC
                else
                  _ ← drm (MapFB vaddr size);
                  m ← with_mem Ok;
                  _ ← (if vaddr =? UINT64_MAX then mret tt else put_mem (HMem ((vaddr, size) :: hm_ranges m) (hm_bytes m)));
                  put_fb i (set_drm id (u32 size) handle vaddr true fb)
            end
        end
    end.

(** [iov_to_buf] into the frame buffer. *)
Definition iov_to_fb (iov : list iovec) (offset dst bytes_need_copy : Z) : gpu_m unit :=
  '(_, _, m1) ← with_mem (fun m => iov_to_mem_loop m iov offset bytes_need_copy dst 0); put_mem m1.

(** Row by row with an [int] counter; [bpp] is 32 here, in bits. *)
Fixpoint copy_rows (n : nat) (h stride bpp addr : Z) (iov : list iovec) (res : GPUSimpleResource) : gpu_m unit :=
  match n with
  | O => mret tt
  | S n' =>
      let src_offset := u32 (transfer_offset res + u32 (stride * h)) in
      let dst_offset := u32 ((r_y (transfer_rect res) + h) * stride + r_x (transfer_rect res) * bpp) in
      _ ← iov_to_fb iov src_offset (addr + dst_offset) (u32 (r_width (transfer_rect res) * bpp));
      if s32 (h + 1) =? h + 1 then copy_rows n' (h + 1) stride bpp addr iov res else gpu_lift (Err SignedOverflow)
  end.

Definition virtio_gpu_copy_and_flush (i : nat) (res : GPUSimpleResource) : gpu_m unit :=
  scanout ← get_scanout i;
  let fb := frame_buffer scanout in
  match res_iov res with
  | None => set_error VIRTIO_GPU_RESP_ERR_UNSPEC
  | Some iov =>
      if hostmem res <=? 0 then set_error VIRTIO_GPU_RESP_ERR_UNSPEC
      else if negb (fb_enabled fb) || (fb_addr fb =? 0) then set_error VIRTIO_GPU_RESP_ERR_UNSPEC
      else
        let bpp := 32 in
        let stride := u32 (hostmem res / res_height res) in
        let rect := transfer_rect res in
        _ ← (if negb (r_x rect =? 0) || negb (r_width rect =? res_width res) then
               copy_rows (Z.to_nat (r_height rect)) 0 stride bpp (fb_addr fb) iov res
             else
               iov_to_fb iov (u32 (transfer_offset res)) (fb_addr fb + u32 (r_y rect * stride + r_x rect * bpp))
                 (u32 (stride * r_height rect)));
        drm (SetCrtc (fb_id fb))
  end.

(** The rectangle against the resource, in 32-bit arithmetic. *)
Definition outside (r : virtio_gpu_rect) (width height : Z) : bool :=
  (width <? r_x r) || (height <? r_y r) || (width <? r_width r) || (height <? r_height r) ||
  (width <? u32 (r_x r + r_width r)) || (height <? u32 (r_y r + r_height r)).

Fixpoint flush_scanouts (n i : nat) (res : GPUSimpleResource) : gpu_m unit :=
  match n with
  | O => mret tt
  | S n' =>
      if negb (Z.testbit (scanout_bitmask res) (Z.of_nat i)) then flush_scanouts n' (S i) res
      else
        scanout ← get_scanout i;
        if negb (fb_enabled (frame_buffer scanout)) then
          _ ← virtio_gpu_create_drm_framebuffer i;
          c ← get_cmd;
          if negb (error c =? 0) then mret tt
          else _ ← virtio_gpu_copy_and_flush i res; flush_scanouts n' (S i) res
        else _ ← virtio_gpu_copy_and_flush i res; flush_scanouts n' (S i) res
  end.

Definition virtio_gpu_resource_flush : gpu_m unit :=
  o ← VIRTIO_GPU_FILL_CMD 48;
  match o with
  | None => mret tt
  | Some resource_flush =>
      r ← virtio_gpu_check_resource (field 4 40 resource_flush);
      match r with
      | None => mret tt
      | Some res =>
          if outside (rect_at 24 resource_flush) (res_width res) (res_height res)
          then set_error VIRTIO_GPU_RESP_ERR_INVALID_PARAMETER
          else flush_scanouts HVISOR_VIRTIO_GPU_MAX_SCANOUTS 0 res
      end
  end.

(** ** Scanouts *)

(** The previous frame buffer is overwritten. *)
Definition virtio_gpu_update_scanout (i : nat) (fb : GPUFrameBuffer) (res : GPUSimpleResource) (r : virtio_gpu_rect)
    (d : GPUDev) : result GPUDev :=
  scanout ← of_index (scanouts d !! i);
  let d1 := upd_resource (sc_resource_id scanout) (fun x => set_bitmask (clear_bit (scanout_bitmask x) i) x) d in
  let d2 := upd_resource (resource_id res) (fun x => set_bitmask (Z.lor (scanout_bitmask x) (Z.shiftl 1 (Z.of_nat i))) x) d1 in
  Ok (set_scanouts (<[i := {| sc_width := r_width r; sc_height := r_height r; sc_x := r_x r; sc_y := r_y r;
                              sc_resource_id := resource_id res; frame_buffer := fb; card0_fd := card0_fd scanout;
                              crtc := crtc scanout; encoder := encoder scanout; connector := connector scanout |}]> (scanouts d2)) d2).

(** The second comparison is with the width, as written. *)
Definition virtio_gpu_do_set_scanout (i : nat) (fb : GPUFrameBuffer) (res : GPUSimpleResource) (r : virtio_gpu_rect) : gpu_m unit :=
  if (fb_width fb <? r_x r) || (fb_width fb <? r_y r) || (r_width r <? 16) || (r_height r <? 16) || (fb_width fb <? r_width r) ||
     (fb_height fb <? r_height r) || (fb_width fb <? u32 (r_x r + r_width r)) || (fb_height fb <? u32 (r_y r + r_height r))
  then set_error VIRTIO_GPU_RESP_ERR_INVALID_PARAMETER
  else d ← get_dev; d1 ← gpu_lift (virtio_gpu_update_scanout i fb res r d); put_dev d1.

Definition virtio_gpu_set_scanout : gpu_m unit :=
  o ← VIRTIO_GPU_FILL_CMD 48;
  match o with
  | None => mret tt
  | Some set_scanout =>
      let scanout_id := field 4 40 set_scanout in
      d ← get_dev;
      if u32 (scanouts_num d) <=? scanout_id then set_error VIRTIO_GPU_RESP_ERR_INVALID_SCANOUT_ID
      else
        r ← virtio_gpu_check_resource (field 4 44 set_scanout);
        match r with
        | None => mret tt
        | Some res =>
            let stride := u32 (hostmem res / res_height res) in
            let rect := rect_at 24 set_scanout in
            virtio_gpu_do_set_scanout (Z.to_nat scanout_id)
              {| fb_id := 0; fb_format := res_format res; bytes_pp := 4; fb_width := res_width res; fb_height := res_height res;
                 fb_stride := stride; fb_offset := u32 (r_x rect * 4 + r_y rect * stride); drm_dumb_size := 0;
                 drm_dumb_handle := 0; fb_addr := 0; fb_enabled := false |} res rect
        end
  end.

Definition virtio_gpu_transfer_to_host_2d : gpu_m unit :=
  o ← VIRTIO_GPU_FILL_CMD 56;
  match o with
  | None => mret tt
  | Some transfer_2d =>
      r ← virtio_gpu_check_resource (field 4 48 transfer_2d);
      match r with
      | None => mret tt
      | Some res =>
          if outside (rect_at 24 transfer_2d) (res_width res) (res_height res)
          then set_error VIRTIO_GPU_RESP_ERR_INVALID_PARAMETER
          else d ← get_dev; put_dev (upd_resource (resource_id res) (set_transfer (rect_at 24 transfer_2d) (field 8 40 transfer_2d)) d)
      end
  end.

(** ** Backing storage *)

(** The loop over the entries; the array grows by sixteen. *)
Fixpoint map_entries (n v : nat) (entries : list Z) (iov : list iovec) : option (list iovec) :=
  match n with
  | O => Some iov
  | S n' =>
      if (v `mod` 16 =? 0)%nat && negb (e_realloc e (v / 16)) then None
      else
        let e_addr := field 8 0 entries in
        let e_length := field 4 8 entries in
        map_entries n' (S v) (drop 16 entries) (iov ++ [{| iov_base := get_virt_addr zt e_addr (s32 zone_id); iov_len := e_length |}])
  end.

(** The error and the array; without entries the array stays NULL. *)
Definition virtio_gpu_create_mapping_iov (nr_entries offset : Z) : gpu_m (Z * option (list iovec)) :=
  if 16384 <? nr_entries then mret (-1, None)
  else
    let entries_size := 16 * nr_entries in
    c ← get_cmd;
    '(s, entries) ← with_mem (fun m => iov_to_buf false m (resp_iov c) offset entries_size);
    if negb (e_malloc e entries_size) && negb (length entries =? 0)%nat then gpu_lift (Err NullDeref)
    else if negb (s =? entries_size) then mret (-1, None)
    else
      match map_entries (Z.to_nat nr_entries) 0 entries [] with
      | None => mret (-1, None)
      | Some [] => mret (0, None)
      | Some iov => mret (0, Some iov)
      end.

Definition virtio_gpu_resource_attach_backing : gpu_m unit :=
  o ← VIRTIO_GPU_FILL_CMD 32;
  match o with
  | None => mret tt
  | Some attach_backing =>
      d ← get_dev;
      match virtio_gpu_find_resource d (field 4 24 attach_backing) with
      | None => set_error VIRTIO_GPU_RESP_ERR_INVALID_RESOURCE_ID
      | Some res =>
          if bool_decide (is_Some (res_iov res)) then set_error VIRTIO_GPU_RESP_ERR_UNSPEC
          else
            '(err, iov) ← virtio_gpu_create_mapping_iov (field 4 28 attach_backing) 32;
            _ ← put_dev (upd_resource (resource_id res) (set_backing iov) d);
            if negb (err =? 0) then set_error VIRTIO_GPU_RESP_ERR_UNSPEC else mret tt
      end
  end.

Definition virtio_gpu_resource_detach_backing : gpu_m unit :=
  o ← VIRTIO_GPU_FILL_CMD 32;
  match o with
  | None => mret tt
  | Some detach =>
      r ← virtio_gpu_check_resource (field 4 24 detach);
      match r with
      | None => mret tt
      | Some res => d ← get_dev; put_dev (upd_resource (resource_id res) (set_backing None) d)
      end
  end.

(** ** One command *)

Definition dispatch_cmd (type : Z) : gpu_m unit :=
  if type =? VIRTIO_GPU_CMD_GET_DISPLAY_INFO then virtio_gpu_get_display_info
  else if type =? VIRTIO_GPU_CMD_GET_EDID then virtio_gpu_get_edid
  else if type =? VIRTIO_GPU_CMD_RESOURCE_CREATE_2D then virtio_gpu_resource_create_2d
  else if type =? VIRTIO_GPU_CMD_RESOURCE_UNREF then virtio_gpu_resource_unref
  else if type =? VIRTIO_GPU_CMD_RESOURCE_FLUSH then virtio_gpu_resource_flush
  else if type =? VIRTIO_GPU_CMD_TRANSFER_TO_HOST_2D then virtio_gpu_transfer_to_host_2d
  else if type =? VIRTIO_GPU_CMD_SET_SCANOUT then virtio_gpu_set_scanout
  else if type =? VIRTIO_GPU_CMD_RESOURCE_ATTACH_BACKING then virtio_gpu_resource_attach_backing
  else if type =? VIRTIO_GPU_CMD_RESOURCE_DETACH_BACKING then virtio_gpu_resource_detach_backing
  else set_error VIRTIO_GPU_RESP_ERR_UNSPEC.

(** A header that cannot be read ends the function: there is no answer. *)
Definition virtio_gpu_simple_process_cmd : gpu_m unit :=
  c ← get_cmd;
  _ ← put_cmd {| cmd_type := cmd_type c; resp_iov := resp_iov c; resp_idx := resp_idx c; finished := false; error := 0;
                 from_queue := from_queue c |};
  o ← VIRTIO_GPU_FILL_CMD 24;
  match o with
  | None => mret tt
  | Some hdr =>
      let type := field 4 0 hdr in
      _ ← put_cmd {| cmd_type := type; resp_iov := resp_iov c; resp_idx := resp_idx c; finished := false; error := 0;
                     from_queue := from_queue c |};
      _ ← dispatch_cmd type;
      c ← get_cmd;
      if negb (finished c)
      then virtio_gpu_ctrl_response_nodata (if negb (error c =? 0) then error c else VIRTIO_GPU_RESP_OK_NODATA)
      else mret tt
  end.

End commands.
