(* ===== verification/GpuInv.v ===== *)
(** * The GPU device: invariant and answers

    What every 2D command keeps true of the resources, the scanout and the memory
    account of [Gpu], and that a command whose header can be read is answered
    exactly once. *)

From S2P Require Import Prelude Memory ZoneMem Virtqueue IoVec DescChain GpuIov Gpu.

(** ** Invariant *)

Definition account (l : list GPUSimpleResource) : Z := foldr (fun r acc => hostmem r + acc) 0 l.

(** A resource: its id and size, the mask of the one scanout, backing that is
    translated guest memory, and a transfer rectangle that passed the test. *)
Record res_ok (zt : zone_table) (z : Z) (r : GPUSimpleResource) : Prop := {
  ok_id : 0 < resource_id r < 2 ^ 32;
  ok_size : hostmem r = calc_image_hostmem 32 (res_width r) (res_height r);
  ok_mask : scanout_bitmask r = 0 \/ scanout_bitmask r = 1;
  ok_backing : forall v, res_iov r = Some v -> v <> [] /\ Forall (translated zt z) v;
  ok_transfer : outside (transfer_rect r) (res_width r) (res_height r) = false;
}.

(** The scanout shows nothing, or a resource of the list marked as shown; an
    enabled frame buffer has an address. *)
Definition sc_ok (l : list GPUSimpleResource) (sc : GPUScanout) : Prop :=
  (sc_resource_id sc = 0 \/ exists r, r ∈ l /\ resource_id r = sc_resource_id sc /\ scanout_bitmask r = 1) /\
  (fb_enabled (frame_buffer sc) = true -> fb_addr (frame_buffer sc) <> 0).

Record gpu_ok (zt : zone_table) (z : Z) (d : GPUDev) : Prop := {
  ok_ids : NoDup (resource_id <$> resource_list d);
  ok_res : Forall (res_ok zt z) (resource_list d);
  ok_account : dev_hostmem d = account (resource_list d);
  ok_limit : dev_hostmem d < VIRTIO_GPU_MAX_HOSTMEM;
  ok_scanout : exists sc, scanouts d = [sc] /\ sc_ok (resource_list d) sc;
  ok_num : scanouts_num d = 1;
}.

(** Only the resource the scanout shows is marked as shown. *)
Definition bound (d : GPUDev) : Prop :=
  forall r sc, r ∈ resource_list d -> scanout_bitmask r = 1 -> sc ∈ scanouts d -> sc_resource_id sc = resource_id r.

(** ** The list of resources *)

Lemma calc_image_hostmem_range b w h : 0 <= calc_image_hostmem b w h < 2 ^ 32.
Proof. apply u32_range. Qed.

Lemma account_cons r l : account (r :: l) = hostmem r + account l.
Proof. done. Qed.

Lemma account_nonneg zt z l : Forall (res_ok zt z) l -> 0 <= account l.
Proof.
  induction 1 as [|r l Hr _ IH]; [done|]. rewrite account_cons.
  pose proof (calc_image_hostmem_range 32 (res_width r) (res_height r)). rewrite (ok_size _ _ _ Hr). lia.
Qed.

Lemma find_resource_Some d id r : virtio_gpu_find_resource d id = Some r -> r ∈ resource_list d /\ resource_id r = id.
Proof. intros H. apply find_some in H as [H1 H2]. split; [by apply list_elem_of_In|lia]. Qed.

Lemma find_resource_None d id : virtio_gpu_find_resource d id = None -> id ∉ (resource_id <$> resource_list d).
Proof.
  intros H Hin. apply list_elem_of_fmap in Hin as (r & -> & Hr).
  apply list_elem_of_In in Hr. apply (find_none _ _ H) in Hr. cbv beta in Hr. lia.
Qed.

(** With distinct ids, updating or removing the first is updating or removing all. *)
Definition at_id (id : Z) (f : GPUSimpleResource -> GPUSimpleResource) (r : GPUSimpleResource) : GPUSimpleResource :=
  if resource_id r =? id then f r else r.

Lemma at_id_absent id f (l : list GPUSimpleResource) : id ∉ (resource_id <$> l) -> at_id id f <$> l = l.
Proof.
  intros H. induction l as [|r l IH]; [done|]. cbn [fmap list_fmap] in *. apply not_elem_of_cons in H as [Hr Hl].
  rewrite IH by done. unfold at_id. by replace (resource_id r =? id) with false by lia.
Qed.

Lemma upd_first_map id f (l : list GPUSimpleResource) : NoDup (resource_id <$> l) -> upd_first id f l = at_id id f <$> l.
Proof.
  induction l as [|r l IH]; [done|]. cbn [fmap list_fmap upd_first]. intros H. apply NoDup_cons in H as [Hr Hl].
  unfold at_id at 1. destruct (_ =? _) eqn:E.
  - f_equal. symmetry. apply at_id_absent. by replace id with (resource_id r) by lia.
  - f_equal. by apply IH.
Qed.

Lemma remove_first_filter id (l : list GPUSimpleResource) :
  NoDup (resource_id <$> l) -> remove_first id l = List.filter (fun r => negb (resource_id r =? id)) l.
Proof.
  induction l as [|r l IH]; [done|]. cbn [fmap list_fmap remove_first List.filter]. intros H. apply NoDup_cons in H as [Hr Hl].
  destruct (_ =? _) eqn:E; cbn [negb]; [|by rewrite IH]. rewrite forallb_filter_id; [done|]. apply forallb_forall. intros x Hx.
  apply list_elem_of_In in Hx. destruct (resource_id x =? id) eqn:Ex; [|done]. exfalso. apply Hr.
  apply list_elem_of_fmap. exists x. split; [lia|done].
Qed.

Lemma remove_first_ids id (l : list GPUSimpleResource) : NoDup (resource_id <$> l) -> NoDup (resource_id <$> remove_first id l).
Proof.
  induction l as [|r l IH]; [done|]. cbn [fmap list_fmap remove_first]. intros H. apply NoDup_cons in H as [Hr Hl].
  destruct (_ =? _) eqn:E; [done|]. cbn [fmap list_fmap]. apply NoDup_cons. split; [|by apply IH].
  intros Hin. apply Hr. apply list_elem_of_fmap in Hin as (x & -> & Hx). apply list_elem_of_fmap. exists x. split; [done|].
  rewrite remove_first_filter in Hx by done. apply list_elem_of_In, filter_In in Hx as [Hx _]. by apply list_elem_of_In.
Qed.

Lemma elem_of_remove_first id (l : list GPUSimpleResource) r :
  NoDup (resource_id <$> l) -> (r ∈ remove_first id l <-> r ∈ l /\ resource_id r <> id).
Proof. intros H. rewrite remove_first_filter, !list_elem_of_In, filter_In by done. split; intros [H1 H2]; (split; [done|lia]). Qed.

Lemma account_remove id (l : list GPUSimpleResource) r :
  NoDup (resource_id <$> l) -> r ∈ l -> resource_id r = id -> account (remove_first id l) = account l - hostmem r.
Proof.
  induction l as [|x l IH]; [by intros _ H%elem_of_nil|]. cbn [fmap list_fmap remove_first].
  intros H Hr Hid. apply NoDup_cons in H as [Hx Hl]. rewrite account_cons. destruct (_ =? _) eqn:E.
  - apply elem_of_cons in Hr as [->|Hr]; [lia|]. exfalso. apply Hx. apply list_elem_of_fmap. exists r. split; [lia|done].
  - apply elem_of_cons in Hr as [->|Hr]; [lia|]. rewrite account_cons, IH by done. lia.
Qed.

(** An update that keeps the id and the size. *)
Definition tame (f : GPUSimpleResource -> GPUSimpleResource) : Prop :=
  forall r, resource_id (f r) = resource_id r /\ hostmem (f r) = hostmem r.

Lemma at_id_ids id f (l : list GPUSimpleResource) : tame f -> resource_id <$> (at_id id f <$> l) = resource_id <$> l.
Proof.
  intros Hf. induction l as [|r l IH]; [done|]. cbn [fmap list_fmap]. f_equal; [|exact IH].
  unfold at_id. destruct (_ =? _); [apply Hf|done].
Qed.

Lemma account_at_id id f (l : list GPUSimpleResource) : tame f -> account (at_id id f <$> l) = account l.
Proof.
  intros Hf. induction l as [|r l IH]; [done|]. cbn [fmap list_fmap]. rewrite !account_cons, IH. unfold at_id. destruct (_ =? _); [|done]. by rewrite (proj2 (Hf r)).
Qed.

(** The part of the invariant about the list alone. *)
Definition list_ok (zt : zone_table) (z : Z) (d : GPUDev) : Prop :=
  NoDup (resource_id <$> resource_list d) /\ Forall (res_ok zt z) (resource_list d) /\ dev_hostmem d = account (resource_list d).

Lemma gpu_ok_list zt z d : gpu_ok zt z d -> list_ok zt z d.
Proof. intros []. done. Qed.

(** An update of one resource keeps the list, and is an update of its elements. *)
Lemma upd_resource_ok zt z d id f :
  list_ok zt z d -> tame f -> (forall r, r ∈ resource_list d -> resource_id r = id -> res_ok zt z r -> res_ok zt z (f r)) ->
  list_ok zt z (upd_resource id f d) /\ resource_list (upd_resource id f d) = at_id id f <$> resource_list d.
Proof.
  intros (Hd1 & Hd2 & Hd3) Hf Hr. unfold list_ok, upd_resource, set_resources. cbn [resource_list dev_hostmem].
  rewrite upd_first_map by done. rewrite at_id_ids, account_at_id by done.
  split; [|done]. split; [done|]. split; [|done]. apply Forall_fmap, Forall_forall. intros r Hin. cbn.
  pose proof (proj1 (Forall_forall _ _) Hd2 r Hin) as Hok. unfold at_id. destruct (_ =? _) eqn:E; [|done].
  apply Hr; [done|lia|done].
Qed.

(** An update that keeps the masks too keeps the whole invariant. *)
Lemma upd_resource_keeps zt z d id f :
  gpu_ok zt z d -> tame f -> (forall r, scanout_bitmask (f r) = scanout_bitmask r) ->
  (forall r, r ∈ resource_list d -> resource_id r = id -> res_ok zt z r -> res_ok zt z (f r)) ->
  gpu_ok zt z (upd_resource id f d) /\ (bound d -> bound (upd_resource id f d)).
Proof.
  intros Hd Hf Hm Hr. destruct (upd_resource_ok zt z d id f (gpu_ok_list _ _ _ Hd) Hf Hr) as ((H1 & H2 & H3) & H4).
  assert (Hat : forall r, resource_id (at_id id f r) = resource_id r /\ scanout_bitmask (at_id id f r) = scanout_bitmask r).
  { intros r. unfold at_id. destruct (_ =? _); [|done]. split; [apply Hf|apply Hm]. }
  split.
  - constructor; try done; try apply Hd. destruct (ok_scanout _ _ _ Hd) as (sc & Hsc & Hs & Hfb). exists sc. split; [done|].
    split; [|done]. destruct Hs as [Hs|(r & Hin & Hid & Hmask)]; [by left|right]. exists (at_id id f r). rewrite H4.
    split; [by apply list_elem_of_fmap_2|]. by rewrite !(proj1 (Hat r)), (proj2 (Hat r)).
  - intros Hb r sc Hin Hmask Hsc. rewrite H4 in Hin. apply list_elem_of_fmap in Hin as (r0 & -> & Hin).
    rewrite (proj1 (Hat r0)). rewrite (proj2 (Hat r0)) in Hmask. by apply Hb.
Qed.

(** ** The device operations *)

Section device.
Context (zt : zone_table) (z : Z).

Notation keeps d d' := (gpu_ok zt z d' /\ (bound d -> bound d')).

Lemma res_ok_set_mask r b : res_ok zt z r -> b = 0 \/ b = 1 -> res_ok zt z (set_bitmask b r).
Proof. intros [] Hb. by constructor. Qed.

Lemma clear_mask b : b = 0 \/ b = 1 -> clear_bit b 0 = 0.
Proof. by intros [-> | ->]. Qed.

Lemma set_mask b : b = 0 \/ b = 1 -> Z.lor b (Z.shiftl 1 (Z.of_nat 0)) = 1.
Proof. by intros [-> | ->]. Qed.

Lemma tame_set_mask g : tame (fun r => set_bitmask (g r) r).
Proof. by intros r. Qed.

Lemma id_at_mask id g r : resource_id (at_id id (fun x => set_bitmask (g x) x) r) = resource_id r.
Proof. unfold at_id. by destruct (_ =? _). Qed.

Lemma mask_at_mask id g r :
  scanout_bitmask (at_id id (fun x => set_bitmask (g x) x) r) = if resource_id r =? id then g r else scanout_bitmask r.
Proof. unfold at_id. by destruct (_ =? _). Qed.

Lemma create_keeps d r :
  gpu_ok zt z d -> res_ok zt z r -> scanout_bitmask r = 0 -> resource_id r ∉ (resource_id <$> resource_list d) ->
  hostmem r + dev_hostmem d < VIRTIO_GPU_MAX_HOSTMEM ->
  keeps d (set_resources (r :: resource_list d) (dev_hostmem d + hostmem r) d).
Proof.
  intros Hd Hr Hm Hid Hlim. split.
  - destruct (ok_scanout _ _ _ Hd) as (sc & Hsc & Hs & Hfb). constructor; unfold set_resources; cbn [resource_list dev_hostmem scanouts scanouts_num].
    + cbn [fmap list_fmap]. apply NoDup_cons. split; [done|apply Hd].
    + constructor; [done|apply Hd].
    + rewrite account_cons, (ok_account _ _ _ Hd). lia.
    + lia.
    + exists sc. split; [done|]. split; [|done]. destruct Hs as [Hs|(x & Hx & Hxs)]; [by left|right; exists x; split; [by right|done]].
    + apply Hd.
  - intros Hb x sc Hx Hxm Hsc. cbn [set_resources resource_list scanouts] in *. apply elem_of_cons in Hx as [->|Hx]; [congruence|by apply Hb].
Qed.

(** Clearing the scanout. *)
Lemma disable_scanout_keeps d d1 :
  gpu_ok zt z d -> virtio_gpu_disable_scanout 0 d = Ok d1 ->
  keeps d d1 /\ (forall sc, sc ∈ scanouts d1 -> sc_resource_id sc = 0) /\ dev_hostmem d1 = dev_hostmem d /\
  (forall r, r ∈ resource_list d -> exists r', r' ∈ resource_list d1 /\ resource_id r' = resource_id r /\ hostmem r' = hostmem r).
Proof.
  intros Hd H. unfold virtio_gpu_disable_scanout in H. destruct (ok_scanout _ _ _ Hd) as (sc & Hsc & Hs & Hfb).
  rewrite Hsc in H. cbn [lookup list_lookup of_index mbind result_bind] in H. destruct (sc_resource_id sc =? 0) eqn:E; injection H as <-.
  { split; [done|]. split; [intros sc' Hsc'; rewrite Hsc in Hsc'; apply list_elem_of_singleton in Hsc' as ->; lia|]. split; [done|]. eauto. }
  set (f := fun r => set_bitmask (clear_bit (scanout_bitmask r) 0) r).
  destruct (upd_resource_ok zt z d (sc_resource_id sc) f (gpu_ok_list _ _ _ Hd) (tame_set_mask _)) as ((H1 & H2 & H3) & H4).
  { intros r _ _ Hr. apply res_ok_set_mask; [done|]. left. apply clear_mask, Hr. }
  cbn [set_scanouts scanouts upd_resource set_resources]. rewrite Hsc.
  assert (Hz : forall sc', sc' ∈ <[0%nat := set_sc 0 0 0 sc]> [sc] -> sc' = set_sc 0 0 0 sc).
  { intros sc' Hin. by apply list_elem_of_singleton in Hin. }
  split; [split|split; [|split; [done|] ] ].
  - constructor; try done; try apply Hd. exists (set_sc 0 0 0 sc). split; [done|]. split; [by left|done].
  - intros Hb r sc' Hr Hm Hin. exfalso.
    change (r ∈ resource_list (upd_resource (sc_resource_id sc) f d)) in Hr. rewrite H4 in Hr.
    apply list_elem_of_fmap in Hr as (r0 & -> & Hr0). unfold f in Hm. rewrite mask_at_mask in Hm. destruct (resource_id r0 =? _) eqn:E0.
    + rewrite clear_mask in Hm; [done|].
      pose proof (proj1 (Forall_forall _ _) (ok_res _ _ _ Hd) r0 Hr0) as Hok. apply Hok.
    + assert (sc ∈ scanouts d) as Hscd by (rewrite Hsc; by left). pose proof (Hb r0 sc Hr0 Hm Hscd). lia.
  - intros sc' Hin. by rewrite (Hz _ Hin).
  - intros r Hr. exists (at_id (sc_resource_id sc) f r). split; [|unfold at_id; by destruct (resource_id r =? _)].
    change (at_id (sc_resource_id sc) f r ∈ resource_list (upd_resource (sc_resource_id sc) f d)). rewrite H4.
    by apply list_elem_of_fmap_2.
Qed.

Lemma same_id_same d r x :
  gpu_ok zt z d -> r ∈ resource_list d -> x ∈ resource_list d -> resource_id x = resource_id r -> x = r.
Proof.
  intros Hd Hr Hx Heq. apply list_elem_of_lookup in Hx as [i Hi]. apply list_elem_of_lookup in Hr as [j Hj].
  assert (i = j) as ->; [|congruence]. apply (NoDup_lookup _ _ _ (resource_id r) (ok_ids _ _ _ Hd)); rewrite list_lookup_fmap.
  - by rewrite Hi, <- Heq.
  - by rewrite Hj.
Qed.

Lemma res_ok_in d r : gpu_ok zt z d -> r ∈ resource_list d -> res_ok zt z r.
Proof. intros Hd. apply (proj1 (Forall_forall _ _) (ok_res _ _ _ Hd)). Qed.

(** Removing a resource the scanout does not show. *)
Lemma remove_keeps d r :
  gpu_ok zt z d -> r ∈ resource_list d -> (forall sc, sc ∈ scanouts d -> sc_resource_id sc <> resource_id r) ->
  keeps d (set_resources (remove_first (resource_id r) (resource_list d)) (u64 (dev_hostmem d - hostmem r)) d).
Proof.
  intros Hd Hin Hns. pose proof (account_remove _ _ _ (ok_ids _ _ _ Hd) Hin eq_refl) as Hacc.
  assert (Hrem : Forall (res_ok zt z) (remove_first (resource_id r) (resource_list d))).
  { apply Forall_forall. intros x Hx. apply elem_of_remove_first in Hx as [Hx _]; [|apply Hd]. by apply (res_ok_in d). }
  pose proof (account_nonneg _ _ _ Hrem). pose proof (ok_limit _ _ _ Hd) as Hlim. pose proof (ok_account _ _ _ Hd) as Hda.
  pose proof (calc_image_hostmem_range 32 (res_width r) (res_height r)) as Hc.
  rewrite <- (ok_size _ _ _ (res_ok_in _ _ Hd Hin)) in Hc. unfold VIRTIO_GPU_MAX_HOSTMEM in Hlim. rewrite u64_small by lia.
  destruct (ok_scanout _ _ _ Hd) as (sc & Hsc & Hs & Hfb). split.
  - constructor; unfold set_resources; cbn [resource_list dev_hostmem scanouts scanouts_num].
    + apply remove_first_ids, Hd.
    + done.
    + lia.
    + unfold VIRTIO_GPU_MAX_HOSTMEM. lia.
    + exists sc. split; [done|]. split; [|done]. destruct Hs as [Hs|(x & Hx & Hxi & Hxm)]; [by left|right]. exists x.
      split; [|done]. apply elem_of_remove_first; [apply Hd|]. split; [done|]. rewrite Hxi. apply Hns. rewrite Hsc. by left.
    + apply Hd.
  - intros Hb x sc' Hx Hxm Hscx. cbn [set_resources resource_list scanouts] in *.
    apply elem_of_remove_first in Hx as [Hx _]; [|apply Hd]. by apply Hb.
Qed.

Lemma destroy_keeps d r d1 :
  gpu_ok zt z d -> virtio_gpu_find_resource d (resource_id r) = Some r -> virtio_gpu_resource_destory r d = Ok d1 -> keeps d d1.
Proof.
  intros Hd Hf H. pose proof (find_resource_Some _ _ _ Hf) as [Hin _]. pose proof (res_ok_in _ _ Hd Hin) as Hr.
  unfold virtio_gpu_resource_destory in H. destruct (ok_mask _ _ _ Hr) as [Hm|Hm]; rewrite Hm in H; cbn [Z.eqb negb] in H.
  - injection H as <-. apply remove_keeps; [done|done|]. intros sc Hsc Heq.
    destruct (ok_scanout _ _ _ Hd) as (sc0 & Hscs & Hs & _). rewrite Hscs in Hsc. apply list_elem_of_singleton in Hsc as ->.
    pose proof (ok_id _ _ _ Hr). destruct Hs as [Hs|(x & Hx & Hxi & Hxm)]; [lia|].
    rewrite (same_id_same d r x) in Hxm by (done || lia). lia.
  - apply bind_Ok_inv in H as (d0 & Hds & H). injection H as <-. cbn [disable_scanouts HVISOR_VIRTIO_GPU_MAX_SCANOUTS] in Hds.
    rewrite Hf, Hm in Hds. change (Z.testbit 1 (Z.of_nat 0)) with true in Hds. cbv iota in Hds.
    apply bind_Ok_inv in Hds as (d2 & Hds & H). injection H as <-.
    apply disable_scanout_keeps in Hds as ([Hk Hb] & Hz & _ & Hl); [|done]. destruct (Hl r Hin) as (r' & Hr' & Hid & Hh).
    rewrite <- Hid, <- Hh. destruct (remove_keeps d2 r' Hk Hr') as [H1 H2]; [|split; [exact H1|auto]].
    intros sc Hsc. rewrite (Hz _ Hsc), Hid. pose proof (ok_id _ _ _ Hr). lia.
Qed.

(** Showing a resource on the scanout, with a frame buffer that is not enabled. *)
Lemma update_scanout_keeps d d1 fb r rect :
  gpu_ok zt z d -> r ∈ resource_list d -> fb_enabled fb = false -> virtio_gpu_update_scanout 0 fb r rect d = Ok d1 -> keeps d d1.
Proof.
  intros Hd Hin Hfb H. unfold virtio_gpu_update_scanout in H. destruct (ok_scanout _ _ _ Hd) as (sc & Hsc & Hs & _).
  rewrite Hsc in H. cbn [lookup list_lookup of_index mbind result_bind] in H. injection H as <-.
  set (f := fun x => set_bitmask (clear_bit (scanout_bitmask x) 0) x).
  set (g := fun x => set_bitmask (Z.lor (scanout_bitmask x) (Z.shiftl 1 (Z.of_nat 0))) x).
  destruct (upd_resource_ok zt z d (sc_resource_id sc) f (gpu_ok_list _ _ _ Hd) (tame_set_mask _)) as (L1 & E1).
  { intros x _ _ Hx. apply res_ok_set_mask; [done|]. left. apply clear_mask, Hx. }
  set (da := upd_resource (sc_resource_id sc) f d) in *.
  destruct (upd_resource_ok zt z da (resource_id r) g L1 (tame_set_mask _)) as ((H1 & H2 & H3) & E2).
  { intros x _ _ Hx. apply res_ok_set_mask; [done|]. right. apply set_mask, Hx. }
  assert (Hlist : forall x, x ∈ resource_list (upd_resource (resource_id r) g da) ->
            scanout_bitmask x = 1 -> bound d -> resource_id x = resource_id r).
  { intros x Hx Hm Hb. rewrite E2, E1 in Hx. apply list_elem_of_fmap in Hx as (x1 & -> & Hx). apply list_elem_of_fmap in Hx as (x0 & -> & Hx).
    unfold g, f in *. rewrite mask_at_mask, id_at_mask, mask_at_mask in Hm. rewrite !id_at_mask.
    destruct (resource_id x0 =? resource_id r) eqn:Er; [lia|]. exfalso. destruct (resource_id x0 =? sc_resource_id sc) eqn:E.
    - rewrite clear_mask in Hm; [done|]. by apply (res_ok_in d).
    - assert (sc ∈ scanouts d) as Hscd by (rewrite Hsc; by left). pose proof (Hb x0 sc Hx Hm Hscd). lia. }
  cbn [set_scanouts scanouts upd_resource set_resources da]. rewrite Hsc. split.
  - constructor; try done; try apply Hd. eexists. split; [done|]. split; [|cbn; congruence]. right.
    exists (at_id (resource_id r) g (at_id (sc_resource_id sc) f r)).
    assert (Hok : res_ok zt z (at_id (sc_resource_id sc) f r)).
    { apply (proj1 (Forall_forall _ _) (proj1 (proj2 L1))). rewrite E1. by apply list_elem_of_fmap_2. }
    split; [|unfold g; rewrite mask_at_mask; unfold f; rewrite !id_at_mask, Z.eqb_refl; split; [done|apply set_mask, Hok] ].
    change (at_id (resource_id r) g (at_id (sc_resource_id sc) f r) ∈ resource_list (upd_resource (resource_id r) g da)).
    rewrite E2, E1. by do 2 apply list_elem_of_fmap_2.
  - intros Hb x sc' Hx Hm Hsc'. apply list_elem_of_singleton in Hsc' as ->. cbn [sc_resource_id]. symmetry. by apply (Hlist x).
Qed.

(** A frame buffer of the scanout replaced by one that is off or has an address. *)
Lemma put_fb_keeps d fb :
  gpu_ok zt z d -> (fb_enabled fb = true -> fb_addr fb <> 0) -> keeps d (set_scanouts (alter (set_fb fb) 0%nat (scanouts d)) d).
Proof.
  intros Hd Hfb. destruct (ok_scanout _ _ _ Hd) as (sc & Hsc & Hs & _). rewrite Hsc. split.
  - constructor; try apply Hd. exists (set_fb fb sc). split; [done|]. split; [exact Hs|exact Hfb].
  - intros Hb x sc' Hx Hm Hsc'. apply list_elem_of_singleton in Hsc' as ->. cbn [set_fb sc_resource_id]. apply Hb; [done|done|].
    rewrite Hsc. by left.
Qed.

End device.

(** ** Weakest preconditions

    With [t] the command must return; without, nothing is said of a fault. *)
Definition gwp (t : bool) {A} (c : gpu_m A) (s : gpu) (Q : A -> gpu -> Prop) : Prop :=
  match c s with
  | Ok (a, s') => Q a s'
  | Err _ => t = false
  end.

Lemma gwp_bind t {A B} (c : gpu_m A) (k : A -> gpu_m B) s Q :
  gwp t c s (fun a s' => gwp t (k a) s' Q) -> gwp t (c ≫= k) s Q.
Proof. unfold gwp. unfold mbind, gpu_bind. by destruct (c s) as [ [a s']|]. Qed.

Lemma gwp_conseq t {A} (c : gpu_m A) s (Q Q' : A -> gpu -> Prop) :
  gwp t c s Q -> (forall a s', Q a s' -> Q' a s') -> gwp t c s Q'.
Proof. unfold gwp. destruct (c s) as [ [a s']|]; auto. Qed.

Lemma gwp_ret t {A} (a : A) s (Q : A -> gpu -> Prop) : Q a s -> gwp t (mret a) s Q.
Proof. done. Qed.

Lemma gwp_lift t {A} (r : result A) s (Q : A -> gpu -> Prop) :
  (t = true -> is_ok r = true) -> (forall a, r = Ok a -> Q a s) -> gwp t (gpu_lift r) s Q.
Proof. unfold gwp, gpu_lift. intros Ht HQ. destruct r as [a|]; cbn [mbind result_bind]; [by apply HQ|]. by destruct t; [specialize (Ht eq_refl)|]. Qed.

Lemma gwp_with_mem t {A} (f : hmem -> result A) s (Q : A -> gpu -> Prop) :
  (t = true -> is_ok (f (g_mem s)) = true) -> (forall a, f (g_mem s) = Ok a -> Q a s) -> gwp t (with_mem f) s Q.
Proof. apply (gwp_lift t (f (g_mem s))). Qed.

Section specs.
Context (t : bool) (e : gpu_env) (zt : zone_table) (z : Z) (queues : list VirtQueue).

(** What a command leaves as it was but for its error, and the device invariant;
    [flush] if it may write to the frame buffer. *)
Definition same_cmd (c c' : GPUCommand) : Prop :=
  cmd_type c' = cmd_type c /\ resp_iov c' = resp_iov c /\ resp_idx c' = resp_idx c /\ finished c' = finished c /\
  from_queue c' = from_queue c.

Definition after (flush : bool) (s s' : gpu) : Prop :=
  gpu_ok zt z (g_dev s') /\ (bound (g_dev s) -> bound (g_dev s')) /\ same_cmd (g_cmd s) (g_cmd s') /\
  (flush = false -> g_mem s' = g_mem s /\ g_drm s' = g_drm s).

Lemma after_refl b s : gpu_ok zt z (g_dev s) -> after b s s.
Proof. done. Qed.

Lemma after_trans b s1 s2 s3 : after b s1 s2 -> after b s2 s3 -> after b s1 s3.
Proof.
  intros (A1 & B1 & (C1 & C2 & C3 & C4 & C5) & D1) (A2 & B2 & (E1 & E2 & E3 & E4 & E5) & D2).
  split; [done|]. split; [auto|]. split; [repeat split; congruence|]. intros Hb. destruct (D1 Hb), (D2 Hb). split; congruence.
Qed.

Lemma after_weaken s s' : after false s s' -> after true s s'.
Proof. intros (A & B & C & _). by split. Qed.

(** The buffers of the command can be reached. *)
Definition live (s : gpu) : Prop := Forall (reachable (g_mem s)) (resp_iov (g_cmd s)).

Lemma gwp_fill n s (Q : option (list Z) -> gpu -> Prop) :
  (t = true -> live s) -> 0 <= n -> Q None s -> (forall l, Q (Some l) s) -> gwp t (VIRTIO_GPU_FILL_CMD n) s Q.
Proof.
  intros Ht Hn H1 H2. unfold VIRTIO_GPU_FILL_CMD. apply gwp_bind. unfold get_cmd at 1. unfold gwp at 1. apply gwp_bind, gwp_with_mem.
  - intros Hb. rewrite iov_to_buf_exact by (lia || by apply Ht). done.
  - intros [k l] _. apply gwp_ret. destruct (negb _); auto.
Qed.

Lemma gwp_set_error b err s (Q : unit -> gpu -> Prop) :
  gpu_ok zt z (g_dev s) -> (forall s', after b s s' -> Q tt s') -> gwp t (set_error err) s Q.
Proof. intros Hd HQ. apply HQ. split; [exact Hd|]. split; [done|]. by split. Qed.

Lemma gwp_get_dev s (Q : GPUDev -> gpu -> Prop) : Q (g_dev s) s -> gwp t get_dev s Q.
Proof. done. Qed.

Lemma gwp_get_cmd s (Q : GPUCommand -> gpu -> Prop) : Q (g_cmd s) s -> gwp t get_cmd s Q.
Proof. done. Qed.

Lemma gwp_put_dev b d s (Q : unit -> gpu -> Prop) :
  gpu_ok zt z d /\ (bound (g_dev s) -> bound d) -> (forall s', after b s s' -> Q tt s') -> gwp t (put_dev d) s Q.
Proof. intros [H1 H2] HQ. apply HQ. by split. Qed.

Lemma gwp_put_mem m s (Q : unit -> gpu -> Prop) :
  gpu_ok zt z (g_dev s) -> (forall s', after true s s' -> Q tt s') -> gwp t (put_mem m) s Q.
Proof. intros Hd HQ. apply HQ. split; [exact Hd|]. split; [done|]. by split. Qed.

Lemma gwp_drm o s (Q : unit -> gpu -> Prop) :
  gpu_ok zt z (g_dev s) -> (forall s', after true s s' -> Q tt s') -> gwp t (drm o) s Q.
Proof. intros Hd HQ. apply HQ. split; [exact Hd|]. split; [done|]. by split. Qed.

(** ** Each command *)

Notation cmd_ok b c := (forall s, gpu_ok zt z (g_dev s) -> (t = true -> live s) -> gwp t c s (fun _ s' => after b s s')).

Lemma field_range n off l : 0 <= field n off l < 2 ^ (8 * Z.of_nat n).
Proof.
  unfold field. generalize (drop off l). intros k. revert k. induction n as [|n IH]; intros k; [by destruct k|].
  rewrite Nat2Z.inj_succ, Z.mul_succ_r, Z.pow_add_r by lia. pose proof (Z.pow_pos_nonneg 2 (8 * Z.of_nat n)).
  destruct k as [|x k]; cbn [take foldr]; [lia|]. pose proof (u8_range x). specialize (IH k). lia.
Qed.

Lemma gwp_check_resource b id s (Q : option GPUSimpleResource -> gpu -> Prop) :
  gpu_ok zt z (g_dev s) -> (forall s', after b s s' -> Q None s') ->
  (forall r, virtio_gpu_find_resource (g_dev s) id = Some r -> Q (Some r) s) ->
  gwp t (virtio_gpu_check_resource id) s Q.
Proof.
  intros Hd HN HS. unfold virtio_gpu_check_resource. apply gwp_bind, gwp_get_dev.
  destruct (virtio_gpu_find_resource _ _) as [r|] eqn:E.
  - destruct (_ || _); [|by apply gwp_ret, HS]. apply gwp_bind, (gwp_set_error b); [done|]. auto.
  - apply gwp_bind, (gwp_set_error b); [done|]. auto.
Qed.

Lemma create_2d_ok : (t = true -> e_calloc e = true) -> cmd_ok false (virtio_gpu_resource_create_2d e).
Proof.
  intros Hc s Hd Hl. unfold virtio_gpu_resource_create_2d. apply gwp_bind, gwp_fill; [done|lia|by apply gwp_ret|]. intros l.
  apply gwp_bind, gwp_get_dev. destruct (_ =? 0) eqn:E0; [by apply (gwp_set_error false)|].
  destruct (bool_decide _) eqn:E1; [by apply (gwp_set_error false)|].
  destruct (negb (e_calloc e)) eqn:E2. { apply gwp_lift; [|done]. intros Ht. rewrite (Hc Ht) in E2. done. }
  cbn [hostmem]. destruct (_ <=? _) eqn:E3; [by apply gwp_ret|]. apply (gwp_put_dev false); [|done].
  pose proof (field_range 4 24 l). pose proof (calc_image_hostmem_range 32 (field 4 32 l) (field 4 36 l)).
  pose proof (ok_limit _ _ _ Hd) as Hlim. pose proof (account_nonneg _ _ _ (ok_res _ _ _ Hd)) as Ha. rewrite <- (ok_account _ _ _ Hd) in Ha.
  unfold VIRTIO_GPU_MAX_HOSTMEM in *. rewrite u64_small in E3 by lia. rewrite u64_small by lia.
  match goal with |- context [set_resources (?r :: _) _ _] => apply (create_keeps zt z _ r) end; [done| |done| |].
  - constructor; cbn; try done; [lia|by left|]. unfold outside. cbn. pose proof (field_range 4 32 l). pose proof (field_range 4 36 l).
    change (u32 (0 + 0)) with 0. lia.
  - cbn. apply find_resource_None. apply bool_decide_eq_false in E1. by destruct (virtio_gpu_find_resource _ _) eqn:E; [exfalso; eauto|].
  - cbn. unfold VIRTIO_GPU_MAX_HOSTMEM. lia.
Qed.

(** With a scanout of index 0 every index the code uses is in range. *)
Lemma disable_scanout_returns d : gpu_ok zt z d -> is_ok (virtio_gpu_disable_scanout 0 d) = true.
Proof.
  intros Hd. destruct (ok_scanout _ _ _ Hd) as (sc & Hsc & _). unfold virtio_gpu_disable_scanout. rewrite Hsc.
  cbn [lookup list_lookup of_index mbind result_bind]. by destruct (_ =? 0).
Qed.

Lemma destroy_returns d r : gpu_ok zt z d -> is_ok (virtio_gpu_resource_destory r d) = true.
Proof.
  intros Hd. unfold virtio_gpu_resource_destory. destruct (negb _); [|done].
  cbn [disable_scanouts HVISOR_VIRTIO_GPU_MAX_SCANOUTS]. destruct (virtio_gpu_find_resource _ _) as [x|]; [|done].
  destruct (Z.testbit _ _); [|done]. pose proof (disable_scanout_returns d Hd). by destruct (virtio_gpu_disable_scanout 0 d).
Qed.

Lemma unref_ok : cmd_ok false virtio_gpu_resource_unref.
Proof.
  intros s Hd Hl. unfold virtio_gpu_resource_unref. apply gwp_bind, gwp_fill; [done|lia|by apply gwp_ret|]. intros l.
  apply gwp_bind, gwp_get_dev. destruct (virtio_gpu_find_resource _ _) as [r|] eqn:E; [|by apply (gwp_set_error false)].
  apply gwp_bind, gwp_lift; [intros _; by apply destroy_returns|]. intros d1 H1. apply (gwp_put_dev false); [|done].
  pose proof (find_resource_Some _ _ _ E) as [_ Hid]. rewrite <- Hid in E. by eapply destroy_keeps.
Qed.

Lemma tame_backing v : tame (set_backing v).
Proof. by intros r. Qed.

Lemma tame_transfer rect off : tame (set_transfer rect off).
Proof. by intros r. Qed.

Lemma detach_ok : cmd_ok false virtio_gpu_resource_detach_backing.
Proof.
  intros s Hd Hl. unfold virtio_gpu_resource_detach_backing. apply gwp_bind, gwp_fill; [done|lia|by apply gwp_ret|]. intros l.
  apply gwp_bind, (gwp_check_resource false); [done|done|]. intros r _. apply gwp_bind, gwp_get_dev, (gwp_put_dev false); [|done].
  apply upd_resource_keeps; [done|apply tame_backing|done|]. intros x _ _ []. constructor; cbn; done.
Qed.

Lemma transfer_ok : cmd_ok false virtio_gpu_transfer_to_host_2d.
Proof.
  intros s Hd Hl. unfold virtio_gpu_transfer_to_host_2d. apply gwp_bind, gwp_fill; [done|lia|by apply gwp_ret|]. intros l.
  apply gwp_bind, (gwp_check_resource false); [done|done|]. intros r Hf.
  destruct (outside _ _ _) eqn:E; [by apply (gwp_set_error false)|]. apply gwp_bind, gwp_get_dev, (gwp_put_dev false); [|done].
  apply upd_resource_keeps; [done|apply tame_transfer|done|]. intros x Hx Hid Hok. pose proof (find_resource_Some _ _ _ Hf) as [Hr _].
  rewrite (same_id_same zt z _ r x Hd Hr Hx Hid) in *. destruct Hok. by constructor.
Qed.

Lemma set_scanout_ok : cmd_ok false virtio_gpu_set_scanout.
Proof.
  intros s Hd Hl. unfold virtio_gpu_set_scanout. apply gwp_bind, gwp_fill; [done|lia|by apply gwp_ret|]. intros l.
  apply gwp_bind, gwp_get_dev. rewrite (ok_num _ _ _ Hd). change (u32 1) with 1.
  destruct (1 <=? _) eqn:E; [by apply (gwp_set_error false)|]. pose proof (field_range 4 40 l).
  replace (field 4 40 l) with 0 by lia. change (Z.to_nat 0) with 0%nat.
  apply gwp_bind, (gwp_check_resource false); [done|done|]. intros r Hf. pose proof (find_resource_Some _ _ _ Hf) as [Hr _].
  unfold virtio_gpu_do_set_scanout. destruct (_ || _); [by apply (gwp_set_error false)|]. apply gwp_bind, gwp_get_dev, gwp_bind, gwp_lift.
  - intros _. destruct (ok_scanout _ _ _ Hd) as (sc & Hsc & _). unfold virtio_gpu_update_scanout. by rewrite Hsc.
  - intros d1 H1. apply (gwp_put_dev false); [|done]. by eapply update_scanout_keeps in H1.
Qed.

(** The backing array holds translated guest addresses. *)
Lemma map_entries_ok n : forall v entries iov r,
  Forall (translated zt z) iov -> map_entries e zt z n v entries iov = Some r -> Forall (translated zt z) r.
Proof.
  induction n as [|n IH]; intros v entries iov r Hi H; cbn [map_entries] in H; [by injection H as <-|].
  destruct (_ && _); [done|]. apply IH in H; [done|]. apply Forall_app. split; [done|]. constructor; [|constructor].
  split; [by eexists|]. apply (field_range 4).
Qed.

Lemma gwp_create_mapping n off s (Q : Z * option (list iovec) -> gpu -> Prop) :
  (t = true -> live s) -> (t = true -> forall k, e_malloc e k = true) -> 0 <= n -> 0 <= off ->
  (forall err v, (forall x, v = Some x -> x <> [] /\ Forall (translated zt z) x) -> Q (err, v) s) ->
  gwp t (virtio_gpu_create_mapping_iov e zt z n off) s Q.
Proof.
  intros Hl Hm Hn Ho HQ. unfold virtio_gpu_create_mapping_iov. destruct (_ <? _); [by apply gwp_ret, HQ|].
  apply gwp_bind, gwp_get_cmd, gwp_bind, gwp_with_mem.
  { intros Ht. rewrite iov_to_buf_exact by (lia || by apply Hl). done. }
  intros [k entries] _. destruct (negb (e_malloc _ _) && _) eqn:E.
  { apply gwp_lift; [|done]. intros Ht. rewrite (Hm Ht) in E. done. }
  destruct (negb (k =? _)); [by apply gwp_ret, HQ|]. destruct (map_entries _ _ _ _ _ _ _) as [ [|b iov]|] eqn:Em; try by apply gwp_ret, HQ.
  apply gwp_ret, HQ. intros x [= <-]. split; [done|]. eapply map_entries_ok; [|exact Em]. constructor.
Qed.

Lemma attach_ok : (t = true -> forall k, e_malloc e k = true) -> cmd_ok false (virtio_gpu_resource_attach_backing e zt z).
Proof.
  intros Hm s Hd Hl. unfold virtio_gpu_resource_attach_backing. apply gwp_bind, gwp_fill; [done|lia|by apply gwp_ret|]. intros l.
  apply gwp_bind, gwp_get_dev. destruct (virtio_gpu_find_resource _ _) as [r|]; [|by apply (gwp_set_error false)].
  destruct (bool_decide _); [by apply (gwp_set_error false)|].
  apply gwp_bind, gwp_create_mapping; [done|done|apply (field_range 4)|lia|]. intros err v Hv.
  apply gwp_bind, (gwp_put_dev false).
  - apply upd_resource_keeps; [done|apply tame_backing|done|]. intros x _ _ []. constructor; cbn; done.
  - intros s1 H1. destruct (negb _); [|by apply gwp_ret]. apply (gwp_set_error false); [apply H1|]. intros s2 H2. by eapply after_trans.
Qed.

(** The commands that draw: memory and the card are theirs to change. *)
Section drawing.
Context (Hpartial : t = false).

Notation draws c := (forall s, gpu_ok zt z (g_dev s) -> gwp t c s (fun _ s' => after true s s')).

Lemma gwp_fault {A} (r : result A) s (Q : A -> gpu -> Prop) : (forall a, r = Ok a -> Q a s) -> gwp t (gpu_lift r) s Q.
Proof. intros HQ. apply gwp_lift; [|done]. congruence. Qed.

Lemma gwp_get_scanout i s (Q : GPUScanout -> gpu -> Prop) : (forall sc, Q sc s) -> gwp t (get_scanout i) s Q.
Proof. intros HQ. unfold get_scanout. apply gwp_bind, gwp_get_dev, gwp_fault. auto. Qed.

(** Sequencing two steps that keep the invariant. *)
Lemma draws_seq {B} (c : gpu_m unit) (k : gpu_m B) s :
  gwp t c s (fun _ s' => after true s s') ->
  (forall s', gpu_ok zt z (g_dev s') -> gwp t k s' (fun _ s'' => after true s' s'')) ->
  gwp t (c ≫= fun _ => k) s (fun _ s' => after true s s').
Proof.
  intros Hc Hk. apply gwp_bind. eapply gwp_conseq; [exact Hc|]. intros [] s1 H1.
  eapply gwp_conseq; [apply Hk, H1|]. intros x s2 H2. by eapply after_trans.
Qed.

Lemma draws_error err : draws (set_error err).
Proof. intros s Hd. by apply (gwp_set_error true). Qed.

Lemma draws_drm o : draws (drm o).
Proof. intros s Hd. by apply gwp_drm. Qed.

Lemma draws_put_mem m : draws (put_mem m).
Proof. intros s Hd. by apply gwp_put_mem. Qed.

Lemma draws_put_fb fb : (fb_enabled fb = true -> fb_addr fb <> 0) -> draws (put_fb 0 fb).
Proof. intros Hfb s Hd. unfold put_fb. apply gwp_bind, gwp_get_dev, (gwp_put_dev true); [|done]. by apply put_fb_keeps. Qed.

Lemma draws_ret : draws (mret tt).
Proof. intros s Hd. by apply gwp_ret. Qed.

Lemma draws_remove_fb : draws (virtio_gpu_remove_drm_framebuffer 0).
Proof.
  intros s Hd. unfold virtio_gpu_remove_drm_framebuffer. apply gwp_bind, gwp_get_scanout. intros sc.
  destruct (_ || _); [by apply draws_ret|]. do 3 (apply draws_seq; [by apply draws_drm|]; clear s Hd; intros s Hd).
  apply gwp_bind, gwp_with_mem; [congruence|]. intros m _. apply draws_seq; [by apply draws_put_mem|].
  intros s' Hd'. by apply draws_put_fb.
Qed.

Lemma draws_create_fb : draws (virtio_gpu_create_drm_framebuffer e 0).
Proof.
  intros s Hd. unfold virtio_gpu_create_drm_framebuffer. apply gwp_bind, gwp_get_scanout. intros sc.
  destruct (fb_enabled _); [by apply draws_ret|]. destruct (e_create_dumb e) as [ [ [handle pitch] size]|]; [|by apply draws_error].
  apply draws_seq; [by apply draws_drm|]. clear s Hd. intros s Hd. destruct (e_map_dumb e).
  2: { apply draws_seq; [by apply draws_remove_fb|]. intros s' Hd'. by apply draws_error. }
  destruct (e_addfb e); [|by apply draws_error]. apply draws_seq; [by apply draws_drm|]. clear s Hd. intros s Hd.
  destruct (e_mmap e =? 0) eqn:E.
  { apply draws_seq; [by apply draws_remove_fb|]. intros s' Hd'. by apply draws_error. }
  apply draws_seq; [by apply draws_drm|]. clear s Hd. intros s Hd. apply gwp_bind, gwp_with_mem; [congruence|]. intros m _.
  apply draws_seq; [destruct (_ =? UINT64_MAX); [by apply draws_ret|by apply draws_put_mem]|].
  intros s' Hd'. apply draws_put_fb; [|done]. cbn. lia.
Qed.

Lemma draws_iov_to_fb iov off dst n : draws (iov_to_fb iov off dst n).
Proof.
  intros s Hd. unfold iov_to_fb. apply gwp_bind, gwp_with_mem; [congruence|]. intros [ [rest k] m1] _. by apply draws_put_mem.
Qed.

Lemma draws_copy_rows n : forall h stride bpp addr iov res, draws (copy_rows n h stride bpp addr iov res).
Proof.
  induction n as [|n IH]; intros h stride bpp addr iov res s Hd; cbn [copy_rows]; [by apply draws_ret|].
  apply draws_seq; [by apply draws_iov_to_fb|]. intros s' Hd'. destruct (_ =? _); [by apply IH|by apply gwp_fault].
Qed.

Lemma draws_copy_and_flush res : draws (virtio_gpu_copy_and_flush 0 res).
Proof.
  intros s Hd. unfold virtio_gpu_copy_and_flush. apply gwp_bind, gwp_get_scanout. intros sc.
  destruct (res_iov res) as [iov|]; [|by apply draws_error]. destruct (_ <=? 0); [by apply draws_error|].
  destruct (negb _ || (fb_addr _ =? 0)); [by apply draws_error|].
  apply draws_seq; [|intros s' Hd'; by apply draws_drm]. destruct (_ || _); [by apply draws_copy_rows|by apply draws_iov_to_fb].
Qed.

Lemma flush_ok : draws (virtio_gpu_resource_flush e).
Proof.
  intros s Hd. unfold virtio_gpu_resource_flush. apply gwp_bind, gwp_fill; [congruence|lia|by apply draws_ret|]. intros l.
  apply gwp_bind, (gwp_check_resource true); [done|done|]. intros r _. destruct (outside _ _ _); [by apply draws_error|].
  cbn [flush_scanouts HVISOR_VIRTIO_GPU_MAX_SCANOUTS]. destruct (negb _); [by apply draws_ret|].
  apply gwp_bind, gwp_get_scanout. intros sc. destruct (negb _).
  - apply draws_seq; [by apply draws_create_fb|]. clear s Hd. intros s Hd. apply gwp_bind, gwp_get_cmd.
    destruct (negb _); [by apply draws_ret|]. apply draws_seq; [by apply draws_copy_and_flush|apply draws_ret].
  - apply draws_seq; [by apply draws_copy_and_flush|apply draws_ret].
Qed.

End drawing.

(** ** Answers *)

(** One response: written over the buffers after the first, completed in the ring
    of the queue the command came from, and marked on the command. *)
Definition answered (m0 : hmem) (s s' : gpu) (resp : list Z) : Prop :=
  finished (g_cmd s') = true /\ exists vq m1,
    queues !! from_queue (g_cmd s) = Some vq /\
    scatter m0 (drop 1 (resp_iov (g_cmd s))) resp = Ok m1 /\
    update_used_ring m1 vq (resp_idx (g_cmd s)) (u32 (Z.of_nat (length resp))) = Ok (g_mem s').

(** The used ring of the command's queue accepts completions. *)
Definition ring_live (m : hmem) (c : GPUCommand) : Prop :=
  exists vq, queues !! from_queue c = Some vq /\ 0 < num vq <= 2 ^ 16 /\ reachable m (used_area vq).

Lemma drop_bufs_ok n iov : bufs_ok iov -> bufs_ok (drop n iov).
Proof. intros H. by apply Forall_drop. Qed.

Lemma gwp_response resp s :
  bufs_ok (resp_iov (g_cmd s)) -> (t = true -> live s /\ ring_live (g_mem s) (g_cmd s)) ->
  gwp t (virtio_gpu_ctrl_response queues resp) s (fun _ s' =>
    g_dev s' = g_dev s /\ g_drm s' = g_drm s /\ error (g_cmd s') = error (g_cmd s) /\ answered (g_mem s) s s' resp).
Proof.
  intros Hok Ht. unfold virtio_gpu_ctrl_response. apply gwp_bind, gwp_get_cmd, gwp_bind, gwp_with_mem.
  { intros Htt. destruct (Ht Htt) as [Hl _]. rewrite buf_to_iov_exact by by apply drop_bufs_ok.
    destruct (scatter_returns (drop 1 (resp_iov (g_cmd s))) (g_mem s) resp) as [m' ->]; [by apply Forall_drop|done]. }
  intros [k m1] Hm. rewrite buf_to_iov_exact in Hm by by apply drop_bufs_ok. apply bind_Ok_inv in Hm as (m1' & Hs & Hm). injection Hm as _ <-.
  apply gwp_bind, gwp_lift.
  { intros Htt. by destruct (Ht Htt) as [_ (vq & -> & _)]. }
  intros vq Hvq. apply of_index_Ok_inv in Hvq. apply gwp_bind, gwp_lift.
  { intros Htt. destruct (Ht Htt) as [_ (vq' & Hvq' & Hn & Hr)]. rewrite Hvq in Hvq'. injection Hvq' as <-. apply scatter_same_but in Hs as [R _]; [|by apply drop_bufs_ok].
    destruct (update_used_ring_returns m1' vq (resp_idx (g_cmd s)) (u32 (Z.of_nat (length resp))) Hn) as [m' ->]; [|done].
    by apply (reachable_ranges (g_mem s)). }
  intros m2 H2. unfold gwp. cbn. repeat split; try done. by exists vq, m1'.
Qed.

Definition display_info (d : GPUDev) : list Z :=
  response_header VIRTIO_GPU_RESP_OK_DISPLAY_INFO ++ concat (pmode d <$> seq 0 VIRTIO_GPU_MAX_SCANOUTS).

(** The status of an answer without data. *)
Definition status (err : Z) : Z := if negb (err =? 0) then err else VIRTIO_GPU_RESP_OK_NODATA.

Definition mallocs : Prop := e_calloc e = true /\ forall k, e_malloc e k = true.

Lemma gwp_dispatch type s :
  gpu_ok zt z (g_dev s) -> bufs_ok (resp_iov (g_cmd s)) ->
  (t = true -> live s /\ ring_live (g_mem s) (g_cmd s) /\ mallocs /\ type <> VIRTIO_GPU_CMD_RESOURCE_FLUSH) ->
  gwp t (dispatch_cmd e zt z queues type) s (fun _ s' =>
    if type =? VIRTIO_GPU_CMD_GET_DISPLAY_INFO
    then g_dev s' = g_dev s /\ g_drm s' = g_drm s /\ answered (g_mem s) s s' (display_info (g_dev s))
    else after (type =? VIRTIO_GPU_CMD_RESOURCE_FLUSH) s s').
Proof.
  intros Hd Hok Ht. unfold dispatch_cmd.
  destruct (type =? VIRTIO_GPU_CMD_GET_DISPLAY_INFO).
  { unfold virtio_gpu_get_display_info. apply gwp_bind, gwp_get_dev. eapply gwp_conseq; [apply gwp_response; [done|] |].
    - intros Htt. by destruct (Ht Htt) as (? & ? & _).
    - by intros [] s' (H1 & H2 & _ & H3). }
  assert (Hlv : t = true -> live s) by (intros Htt; apply (Ht Htt)).
  assert (Hf : forall c, gwp t c s (fun (_ : unit) s' => after false s s') ->
            gwp t c s (fun _ s' => after (type =? VIRTIO_GPU_CMD_RESOURCE_FLUSH) s s')).
  { intros c Hc. eapply gwp_conseq; [exact Hc|]. intros [] s' H. by destruct (type =? _); [apply after_weaken|]. }
  destruct (type =? VIRTIO_GPU_CMD_GET_EDID); [by apply Hf, gwp_ret|].
  destruct (type =? VIRTIO_GPU_CMD_RESOURCE_CREATE_2D); [apply Hf, create_2d_ok; [intros Htt; apply (Ht Htt)|done|done]|].
  destruct (type =? VIRTIO_GPU_CMD_RESOURCE_UNREF); [by apply Hf, unref_ok|].
  destruct (type =? VIRTIO_GPU_CMD_RESOURCE_FLUSH) eqn:E.
  { apply flush_ok; [|done]. apply not_true_is_false. intros Htt. destruct (Ht Htt) as (_ & _ & _ & Hne). lia. }
  destruct (type =? VIRTIO_GPU_CMD_TRANSFER_TO_HOST_2D); [by apply transfer_ok|].
  destruct (type =? VIRTIO_GPU_CMD_SET_SCANOUT); [by apply set_scanout_ok|].
  destruct (type =? VIRTIO_GPU_CMD_RESOURCE_ATTACH_BACKING); [apply attach_ok; [intros Htt; apply (Ht Htt)|done|done]|].
  destruct (type =? VIRTIO_GPU_CMD_RESOURCE_DETACH_BACKING); [by apply detach_ok|]. by apply (gwp_set_error false).
Qed.

(** The outcome of a command, by what could be read of its header. *)
Definition outcome (s s' : gpu) (k : Z) (hdr : list Z) : Prop :=
  gpu_ok zt z (g_dev s') /\ (bound (g_dev s) -> bound (g_dev s')) /\
  if k =? 24 then
    exists m0 resp, answered m0 s s' resp /\
      (field 4 0 hdr <> VIRTIO_GPU_CMD_RESOURCE_FLUSH -> m0 = g_mem s /\ g_drm s' = g_drm s) /\
      resp = if field 4 0 hdr =? VIRTIO_GPU_CMD_GET_DISPLAY_INFO then display_info (g_dev s)
             else response_header (status (error (g_cmd s')))
  else finished (g_cmd s') = false /\ g_dev s' = g_dev s /\ g_mem s' = g_mem s /\ g_drm s' = g_drm s.

Lemma gwp_process_cmd s :
  gpu_ok zt z (g_dev s) -> bufs_ok (resp_iov (g_cmd s)) ->
  (t = true -> live s /\ ring_live (g_mem s) (g_cmd s) /\ mallocs /\
     field 4 0 (copied (g_mem s) (resp_iov (g_cmd s)) 0 24) <> VIRTIO_GPU_CMD_RESOURCE_FLUSH) ->
  gwp t (virtio_gpu_simple_process_cmd e zt z queues) s (fun _ s' =>
    exists k hdr, iov_to_buf true (g_mem s) (resp_iov (g_cmd s)) 0 24 = Ok (k, hdr) /\ outcome s s' k hdr).
Proof.
  intros Hd Hok Ht. unfold virtio_gpu_simple_process_cmd. apply gwp_bind, gwp_get_cmd, gwp_bind.
  unfold put_cmd at 1. unfold gwp at 1. unfold VIRTIO_GPU_FILL_CMD. apply gwp_bind, gwp_bind, gwp_get_cmd, gwp_bind, gwp_with_mem.
  { intros Htt. cbn. rewrite iov_to_buf_exact by (lia || apply (Ht Htt)). done. }
  cbn [g_mem g_cmd resp_iov]. intros [k hdr] Hhdr. apply gwp_ret. destruct (k =? 24) eqn:Ek; cbn [negb].
  2: { apply gwp_ret. exists k, hdr. split; [done|]. unfold outcome. rewrite Ek. split; [exact Hd|]. split; [by intros|]. done. }
  apply gwp_bind. unfold put_cmd at 1. unfold gwp at 1. set (s1 := {| g_dev := g_dev s |}).
  apply gwp_bind. eapply gwp_conseq; [apply gwp_dispatch; [exact Hd|exact Hok|]|].
  { intros Htt. destruct (Ht Htt) as (H1 & H2 & H3 & H4). split; [exact H1|]. split; [exact H2|]. split; [exact H3|].
    rewrite iov_to_buf_exact in Hhdr by (lia || apply H1). injection Hhdr as _ <-. exact H4. }
  intros [] s2 H2. apply gwp_bind, gwp_get_cmd. destruct (field 4 0 hdr =? VIRTIO_GPU_CMD_GET_DISPLAY_INFO) eqn:Edi.
  { destruct H2 as (D2 & R2 & A2). pose proof (proj1 A2) as Hf. rewrite Hf. apply gwp_ret. exists k, hdr. split; [done|].
    unfold outcome. rewrite Ek, Edi, D2. split; [exact Hd|]. split; [by intros|]. by exists (g_mem s), (display_info (g_dev s)). }
  destruct H2 as (D2 & B2 & (_ & C2 & C3 & C4 & C5) & M2). cbn in C2, C3, C4, C5. rewrite C4. cbn [negb].
  unfold virtio_gpu_ctrl_response_nodata. eapply gwp_conseq; [apply gwp_response|].
  - by rewrite C2.
  - intros Htt. destruct (Ht Htt) as (H1 & H3 & H4 & H5). destruct M2 as [M2 _].
    { rewrite iov_to_buf_exact in Hhdr by (lia || apply H1). injection Hhdr as _ <-. lia. }
    unfold live, ring_live. rewrite C2, M2, C5. by split.
  - intros [] s3 (D3 & R3 & E3 & F3 & vq & m1 & Q3 & S3 & U3). exists k, hdr. split; [done|]. unfold outcome. rewrite Ek, Edi, D3, E3.
    split; [done|]. split; [done|]. exists (g_mem s2), (response_header (status (error (g_cmd s2)))).
    split; [split; [done|]; exists vq, m1; by rewrite C2, C3, C5 in *|]. split; [|done].
    intros Hne. destruct M2 as [M2 R2]; [lia|]. rewrite R3. by split.
Qed.

End specs.
