(* ===== verification/GpuBase.v ===== *)
(** * The GPU device: life cycle and queues

    [tools/virtio/devices/gpu/virtio_gpu_base.c]: creation, opening of the card,
    reset and close, the JSON parameters, and the queue handlers that turn
    descriptor chains into commands.  libdrm's answers are [drm_card]; the objects
    it hands out are counted in a list of open handles. *)

From Stdlib Require Import String.
From S2P Require Import Prelude Memory ZoneMem Virtqueue IoVec DescChain Device Ring Interrupt Json GpuIov Gpu GpuInv.

(** ** Creation *)

Definition no_fb : GPUFrameBuffer :=
  {| fb_id := 0; fb_format := 0; bytes_pp := 0; fb_width := 0; fb_height := 0; fb_stride := 0; fb_offset := 0; drm_dumb_size := 0;
     drm_dumb_handle := 0; fb_addr := 0; fb_enabled := false |}.

(** [alloc]: whether [malloc] succeeds. *)
Definition init_gpu_dev (alloc : bool) (requested_state : option (Z * Z)) : option GPUDev :=
  match requested_state with
  | None => None
  | Some (width, height) =>
      if negb alloc then None
      else Some
        {| gpu_config := {| events_read := 0; events_clear := 0; num_scanouts := Z.of_nat HVISOR_VIRTIO_GPU_MAX_SCANOUTS;
                            num_capsets := 0 |};
           scanouts := [{| sc_width := SCANOUT_DEFAULT_WIDTH; sc_height := SCANOUT_DEFAULT_HEIGHT; sc_x := 0; sc_y := 0;
                           sc_resource_id := 0; frame_buffer := no_fb; card0_fd := -1; crtc := None; encoder := None;
                           connector := None |}];
           requested_states := [(width, height)]; resource_list := []; command_queue := []; scanouts_num := 1; dev_hostmem := 0;
           enabled_scanout_bitmask := 1; gpu_close := false; async_started := false |}
  end.

(** What libdrm returns holds until it is given back. *)
Inductive handle :=
  | HFd (fd : Z)
  | HResources
  | HConnector (id : Z)
  | HEncoder (id : Z)
  | HCrtc (id : Z).

#[global] Instance handle_eq_dec : EqDecision handle.
Proof. solve_decision. Defined.

Record connector_info := { connected : bool; encoder_id : Z; modes0 : option (Z * Z) }.

Record drm_card := {
  d_open : Z;                               (* open of /dev/dri/card0 *)
  d_resources : option (list Z);            (* the connectors' ids *)
  d_connector : Z -> option connector_info;
  d_encoder : Z -> option Z;                (* an encoder's crtc *)
  d_crtc : Z -> bool;
}.

Definition release (h : handle) (l : list handle) : list handle := List.filter (fun x => negb (bool_decide (x = h))) l.

(** [connector] after the loop: NULL, the connected one, or one already freed. *)
Inductive found := NoConnector | Connected (id : Z) (c : connector_info) | Freed.

Fixpoint find_connector (card : drm_card) (ids : list Z) (f : found) : result found :=
  match ids with
  | [] => Ok f
  | id :: ids' =>
      match d_connector card id with
      | None => Err NullDeref
      | Some c => if connected c then Ok (Connected id c) else find_connector card ids' Freed
      end
  end.

Definition open_scanout (fd cr en co w h : Z) (sc : GPUScanout) : GPUScanout :=
  {| sc_width := w; sc_height := h; sc_x := sc_x sc; sc_y := sc_y sc; sc_resource_id := sc_resource_id sc;
     frame_buffer := frame_buffer sc; card0_fd := fd; crtc := Some cr; encoder := Some en; connector := Some co |}.

Definition start_async (d : GPUDev) : GPUDev :=
  {| gpu_config := gpu_config d; scanouts := scanouts d; requested_states := requested_states d; resource_list := resource_list d;
     command_queue := command_queue d; scanouts_num := scanouts_num d; dev_hostmem := dev_hostmem d;
     enabled_scanout_bitmask := enabled_scanout_bitmask d; gpu_close := gpu_close d; async_started := true |}.

(** The return value, the device and the handles held. *)
Definition virtio_gpu_init (card : drm_card) (d : GPUDev) (held : list handle) : result (Z * GPUDev * list handle) :=
  let drm_fd := d_open card in
  if drm_fd <? 0 then Ok (-1, d, held)
  else
    let held1 := HFd drm_fd :: held in
    match d_resources card with
    | None => Ok (-1, d, release (HFd drm_fd) held1)
    | Some ids =>
        let held2 := HResources :: held1 in
        f ← find_connector card ids NoConnector;
        match f with
        | Freed => Err UseAfterFree
        | NoConnector => Ok (-1, d, release (HFd drm_fd) (release HResources held2))
        | Connected co c =>
            let held3 := HConnector co :: held2 in
            match d_encoder card (encoder_id c) with
            | None => Ok (-1, d, release (HFd drm_fd) (release HResources (release (HConnector co) held3)))
            | Some crtc_id =>
                let held4 := HEncoder (encoder_id c) :: held3 in
                if negb (d_crtc card crtc_id) then
                  Ok (-1, d, release (HFd drm_fd) (release HResources (release (HConnector co) (release (HEncoder (encoder_id c)) held4))))
                else
                  match modes0 c with
                  | None => Err NullDeref
                  | Some (w, h) =>
                      sc ← of_index (scanouts d !! 0%nat);
                      Ok (0, start_async (set_scanouts (<[0%nat := open_scanout drm_fd crtc_id (encoder_id c) co w h sc]> (scanouts d)) d),
                          HCrtc crtc_id :: held4)
                  end
            end
        end
    end.

(** The device created, if any, and the return value. *)
Definition virtio_gpu_do_init (alloc : bool) (card : drm_card) (params : option (Z * Z)) (held : list handle) :
    result (Z * option GPUDev * list handle) :=
  match init_gpu_dev alloc params with
  | None => Ok (- ENOMEM, None, held)
  | Some d => '(r, d1, held1) ← virtio_gpu_init card d held; Ok (r, Some d1, held1)
  end.

(** ** Reset and close *)

Definition reset_scanout (sc : GPUScanout) : GPUScanout :=
  {| sc_width := 0; sc_height := 0; sc_x := 0; sc_y := 0; sc_resource_id := 0; frame_buffer := frame_buffer sc;
     card0_fd := card0_fd sc; crtc := crtc sc; encoder := encoder sc; connector := connector sc |}.

Fixpoint reset_scanouts (n i : nat) (d : GPUDev) : result GPUDev :=
  match n with
  | O => Ok d
  | S n' =>
      sc ← of_index (scanouts d !! i);
      reset_scanouts n' (S i) (set_scanouts (<[i := reset_scanout sc]> (scanouts d)) d)
  end.

Definition virtio_gpu_reset (d : GPUDev) : result GPUDev := reset_scanouts (Z.to_nat (scanouts_num d)) 0 d.

Definition release_opt (f : Z -> handle) (o : option Z) (held : list handle) : list handle :=
  match o with Some id => release (f id) held | None => held end.

(** One turn of the loop over the scanouts: the frame buffer, then what the
    scanout holds. *)
Definition close_scanout (i : nat) (g : gpu) (held : list handle) : result (gpu * list handle) :=
  '(_, g1) ← virtio_gpu_remove_drm_framebuffer i g;
  sc ← of_index (scanouts (g_dev g1) !! i);
  let held1 := release_opt HConnector (connector sc) (release_opt HEncoder (encoder sc) (release_opt HCrtc (crtc sc) held)) in
  Ok (g1, if negb (card0_fd sc =? -1) then release (HFd (card0_fd sc)) held1 else held1).

Fixpoint close_scanouts (n i : nat) (g : gpu) (held : list handle) : result (gpu * list handle) :=
  match n with
  | O => Ok (g, held)
  | S n' => '(g1, held1) ← close_scanout i g held; close_scanouts n' (S i) g1 held1
  end.

(** Up to [pthread_join]; the device is freed after it. *)
Definition virtio_gpu_close (g : gpu) (held : list handle) : result (gpu * list handle) :=
  '(g1, held1) ← close_scanouts (Z.to_nat (scanouts_num (g_dev g))) 0 g held;
  let d := g_dev g1 in
  Ok ({| g_dev := {| gpu_config := gpu_config d; scanouts := scanouts d; requested_states := requested_states d; resource_list := [];
                     command_queue := []; scanouts_num := scanouts_num d; dev_hostmem := dev_hostmem d;
                     enabled_scanout_bitmask := enabled_scanout_bitmask d; gpu_close := true; async_started := async_started d |};
         g_mem := g_mem g1; g_drm := g_drm g1; g_cmd := g_cmd g1 |}, held1).

(** ** Configuration *)

Section config.
Context {J : Type} {cj : CJson J}.

Definition virtio_gpu_parse_params (alloc : bool) (json : J) : Z * option (Z * Z) :=
  if negb alloc then (- ENOMEM, None)
  else
    match parse_json_u32 (cJSON_GetObjectItem json "width"%string) with
    | None => (- EINVAL, None)
    | Some w =>
        match parse_json_u32 (cJSON_GetObjectItem json "height"%string) with
        | None => (- EINVAL, None)
        | Some h => (0, Some (w, h))
        end
    end.

End config.

(** ** Queues *)

Definition push_command (c : GPUCommand) (d : GPUDev) : GPUDev :=
  {| gpu_config := gpu_config d; scanouts := scanouts d; requested_states := requested_states d; resource_list := resource_list d;
     command_queue := command_queue d ++ [c]; scanouts_num := scanouts_num d; dev_hostmem := dev_hostmem d;
     enabled_scanout_bitmask := enabled_scanout_bitmask d; gpu_close := gpu_close d; async_started := async_started d |}.

Section queues.
Context (malloc : Z -> bool) (alloc : bool) (cfuel : nat).

(** One chain, appended to the command queue; always 0. *)
Definition virtio_gpu_handle_single_request (m : hmem) (zt : zone_table) (zone_id : Z) (vq : VirtQueue) (from : nat) (d : GPUDev) :
    result (VirtQueue * GPUDev) :=
  o ← process_descriptor_chain malloc cfuel m zt zone_id vq 0;
  match o with
  | None => Ok (vq, d)
  | Some cr =>
      if cr_len cr <? 1 then Ok (cr_vq cr, d)
      else if negb alloc then Err NullDeref
      else
        iov ← filled (cr_iov cr) (Z.to_nat (cr_len cr));
        Ok (cr_vq cr, push_command {| cmd_type := 0; resp_iov := iov; resp_idx := cr_desc_idx cr; finished := false; error := 0;
                                      from_queue := from |} d)
  end.

Fixpoint gpu_requests_loop (fuel : nat) (m : hmem) (zt : zone_table) (zone_id : Z) (vq : VirtQueue) (from : nat) (d : GPUDev) :
    result (VirtQueue * GPUDev) :=
  match fuel with
  | O => Err OutOfFuel
  | S fuel' =>
      emp ← virtqueue_is_empty m vq;
      if (emp : bool) then Ok (vq, d)
      else
        '(vq1, d1) ← virtio_gpu_handle_single_request m zt zone_id vq from d;
        gpu_requests_loop fuel' m zt zone_id vq1 from d1
  end.

Section handlers.
Context {vring : VringEvent}.

Definition gpu_drain (fuel : nat) (d : VirtIODevice GPUDev) (q from : nat) (w : world) : result (VirtIODevice GPUDev * world) :=
  vq ← of_index (vqs d !! q);
  m1 ← virtqueue_disable_notify (w_mem w) vq;
  '(vq1, g1) ← gpu_requests_loop fuel m1 (w_zones w) (zone_id d) vq from (dev d);
  m2 ← virtqueue_enable_notify m1 vq1;
  Ok (put_vq q vq1 (set_dev g1 d), set_w_mem m2 w).

(** The worker is signalled between the loop and [virtqueue_enable_notify]; see
    [GpuWorker]. *)
Definition virtio_gpu_ctrl_notify_handler (fuel : nat) (d : VirtIODevice GPUDev) (q : nat) (w : world) :
    result (VirtIODevice GPUDev * world) := gpu_drain fuel d q GPU_CONTROL_QUEUE w.

(** Nobody signals the worker here. *)
Definition virtio_gpu_cursor_notify_handler (fuel : nat) (d : VirtIODevice GPUDev) (q : nat) (w : world) :
    result (VirtIODevice GPUDev * world) :=
  '(d1, w1) ← gpu_drain fuel d q GPU_CURSOR_QUEUE w;
  virtio_inject_irq d1 q w1.

End handlers.
End queues.

(** ** The device over time *)

Definition with_queue (q : list GPUCommand) (d : GPUDev) : GPUDev :=
  {| gpu_config := gpu_config d; scanouts := scanouts d; requested_states := requested_states d; resource_list := resource_list d;
     command_queue := q; scanouts_num := scanouts_num d; dev_hostmem := dev_hostmem d;
     enabled_scanout_bitmask := enabled_scanout_bitmask d; gpu_close := gpu_close d; async_started := async_started d |}.

(** The first queued command is processed, with any memory, card and queues. *)
Inductive gpu_command_step (zt : zone_table) (z : Z) (d d' : GPUDev) : Prop :=
  | step_command e queues m log c q s' :
      command_queue d = c :: q ->
      virtio_gpu_simple_process_cmd e zt z queues {| g_dev := with_queue q d; g_mem := m; g_drm := log; g_cmd := c |} = Ok (tt, s') ->
      d' = with_queue q (g_dev s') -> gpu_command_step zt z d d'.

(** The guest queues a chain. *)
Inductive gpu_request_step (zt : zone_table) (z : Z) (d d' : GPUDev) : Prop :=
  | step_request malloc alloc cfuel m vq from vq' :
      virtio_gpu_handle_single_request malloc alloc cfuel m zt z vq from d = Ok (vq', d') -> gpu_request_step zt z d d'.

Definition gpu_step (zt : zone_table) (z : Z) (d d' : GPUDev) : Prop :=
  gpu_command_step zt z d d' \/ gpu_request_step zt z d d'.

Definition gpu_step_reset (zt : zone_table) (z : Z) (d d' : GPUDev) : Prop :=
  gpu_step zt z d d' \/ virtio_gpu_reset d = Ok d'.

(** Every queued command has buffers of the zone. *)
Definition queue_ok (zt : zone_table) (z : Z) (d : GPUDev) : Prop :=
  Forall (fun c => Forall (translated zt z) (resp_iov c)) (command_queue d).

Lemma with_queue_ok zt z q d : gpu_ok zt z d -> gpu_ok zt z (with_queue q d).
Proof. intros []. by constructor. Qed.

Lemma command_step_keeps zt z d d' :
  gpu_ok zt z d -> queue_ok zt z d -> gpu_command_step zt z d d' ->
  gpu_ok zt z d' /\ queue_ok zt z d' /\ (bound d -> bound d').
Proof.
  intros Hd Hq [e queues m log c q s' Hc Hp ->]. unfold queue_ok in Hq. rewrite Hc in Hq. apply Forall_cons_1 in Hq as [Hc1 Hq].
  set (s := {| g_dev := with_queue q d; g_mem := m; g_drm := log; g_cmd := c |}) in *.
  pose proof (gwp_process_cmd false e zt z queues s (with_queue_ok _ _ q _ Hd) (translated_bufs_ok _ _ _ Hc1)) as H.
  unfold gwp in H. rewrite Hp in H. destruct H as (k & hdr & _ & H1 & H2 & _); [done|].
  split; [by apply with_queue_ok|]. split; [exact Hq|]. exact H2.
Qed.

Lemma request_step_keeps zt z d d' :
  gpu_ok zt z d -> queue_ok zt z d -> gpu_request_step zt z d d' ->
  gpu_ok zt z d' /\ queue_ok zt z d' /\ (bound d -> bound d').
Proof.
  intros Hd Hq [malloc alloc cfuel m vq from vq' H]. unfold virtio_gpu_handle_single_request in H.
  apply bind_Ok_inv in H as ([cr|] & Hcr & H); [|by injection H as _ <-]. apply process_descriptor_chain_inv in Hcr as [_ He].
  destruct (_ <? 1); [by injection H as _ <-|]. destruct (negb alloc); [done|]. apply bind_Ok_inv in H as (iov & Hf & H).
  injection H as _ <-. split; [destruct Hd; by constructor|]. split; [|done].
  apply Forall_app. split; [exact Hq|]. constructor; [|constructor]. by eapply filled_ok.
Qed.

Lemma reset_keeps zt z d d' : gpu_ok zt z d -> virtio_gpu_reset d = Ok d' -> gpu_ok zt z d' /\ command_queue d' = command_queue d.
Proof.
  intros Hd H. unfold virtio_gpu_reset in H. rewrite (ok_num _ _ _ Hd) in H. destruct (ok_scanout _ _ _ Hd) as (sc & Hsc & Hs & Hfb).
  change (Z.to_nat 1) with 1%nat in H. cbn [reset_scanouts] in H. rewrite Hsc in H.
  cbn [lookup list_lookup of_index mbind result_bind] in H. injection H as <-. split; [|done].
  constructor; try apply Hd. exists (reset_scanout sc). split; [done|]. split; [by left|done].
Qed.

(** The device as [init_gpu_dev] makes it, or with the card open. *)
Definition fresh (d : GPUDev) : Prop := exists alloc params, init_gpu_dev alloc params = Some d.

Lemma fresh_ok zt z d : fresh d -> gpu_ok zt z d /\ queue_ok zt z d /\ bound d.
Proof.
  intros (alloc & [[w h]|] & H); [|done]. unfold init_gpu_dev in H. destruct (negb alloc); [done|]. injection H as <-.
  split; [|split; [constructor|by intros r sc Hr%elem_of_nil] ].
  constructor; cbn; [apply NoDup_nil_2|constructor|done|done| |done]. eexists. split; [done|]. split; [by left|done].
Qed.

(** ** Theorems *)

(** A backing entry: it starts at the translation of a guest address in the device's
    own zone, which is NULL when no region of the zone has the address and inside a
    region of the zone otherwise.  The 32-bit length is the guest's; nothing
    compares it with the region. *)
Definition backing_entry (zt : zone_table) (z : Z) (b : iovec) : Prop :=
  exists ipa, iov_base b = get_virt_addr zt ipa (s32 z) /\
    (iov_base b = 0 \/ buffer_at zt (s32 z) ipa 1 (iov_base b)) /\ 0 <= iov_len b < 2 ^ 32.

Lemma translated_entry zt z b : table_built zt -> translated zt z b -> backing_entry zt z b.
Proof.
  intros Ht [ [ipa Hb] Hl]. exists ipa. split; [done|]. split; [|done]. destruct (decide (iov_base b = 0)); [by left|right].
  by apply get_virt_addr_buffer.
Qed.


(** As long as the device is not reset, a resource is marked as shown exactly
    when the scanout shows it. *)
Theorem gpu_scanout_binding zt z d0 d :
  fresh d0 -> rtc (gpu_step zt z) d0 d ->
  forall r sc, r ∈ resource_list d -> sc ∈ scanouts d -> (scanout_bitmask r = 1 <-> sc_resource_id sc = resource_id r).
Proof.
  intros Hf H. assert (gpu_ok zt z d /\ bound d) as [Hd Hb].
  { apply (fresh_ok zt z) in Hf as (H1 & H2 & H3). induction H as [|x y w [Hc|Hr] _ IH]; [done| |].
    - destruct (command_step_keeps zt z x y H1 H2 Hc) as (? & ? & ?). auto.
    - destruct (request_step_keeps zt z x y H1 H2 Hr) as (? & ? & ?). auto. }
  intros r sc Hr Hsc. split; [intros Hm; by apply Hb|]. intros Heq. destruct (ok_scanout _ _ _ Hd) as (sc0 & Hscs & Hs & _).
  rewrite Hscs in Hsc. apply list_elem_of_singleton in Hsc as ->. pose proof (ok_id _ _ _ (res_ok_in zt z d r Hd Hr)) as Hid.
  destruct Hs as [Hs|(x & Hx & Hxi & Hxm)]; [lia|]. rewrite <- (same_id_same zt z d r x Hd Hr Hx); [done|congruence].
Qed.


(** What [virtio_gpu_init] holds of the card when it succeeds. *)
Definition card_handles (d : GPUDev) : list handle :=
  match scanouts d with
  | sc :: _ => (HFd <$> [card0_fd sc]) ++ HResources :: (HConnector <$> option_list (connector sc)) ++
               (HEncoder <$> option_list (encoder sc)) ++ (HCrtc <$> option_list (crtc sc))
  | [] => []
  end.

Ltac released :=
  split; [done|]; cbn;
  repeat first [rewrite bool_decide_eq_true_2 by done|rewrite bool_decide_eq_false_2 by done|progress cbn]; done.

(** Opening the card either fails and gives everything back, or succeeds and holds
    the descriptor, the connector, the encoder and the crtc of the scanout, and the
    resource list. *)
Theorem virtio_gpu_do_init_spec alloc card params r o held :
  virtio_gpu_do_init alloc card params [] = Ok (r, o, held) ->
  (r < 0 /\ held = []) \/
  (r = 0 /\ exists d, o = Some d /\ async_started d = true /\ forall h, h ∈ held <-> h ∈ card_handles d).
Proof.
  unfold virtio_gpu_do_init. destruct (init_gpu_dev alloc params) as [d|] eqn:Ed.
  2: { intros H. injection H as <- _ <-. left. done. }
  intros H. apply bind_Ok_inv in H as ([ [r' d1] held'] & H & Hr). injection Hr as <- <- <-.
  assert (exists sc, scanouts d = [sc]) as [sc Hsc].
  { unfold init_gpu_dev in Ed. destruct params as [ [w h]|]; [|done]. destruct (negb alloc); [done|]. injection Ed as <-. eauto. }
  unfold virtio_gpu_init in H. destruct (d_open card <? 0); [injection H as <- <- <-; left; done|].
  destruct (d_resources card) as [ids|]; [|injection H as <- <- <-; left; released].
  apply bind_Ok_inv in H as (f & _ & H). destruct f as [|co c|]; [injection H as <- <- <-; left; released| |done].
  destruct (d_encoder card (encoder_id c)) as [cr|]; [|injection H as <- <- <-; left; released].
  destruct (negb (d_crtc card cr)); [injection H as <- <- <-; left; released|].
  destruct (modes0 c) as [ [w h]|]; [|done]. rewrite Hsc in H. cbn [lookup list_lookup of_index mbind result_bind] in H.
  injection H as <- <- <-. right. split; [done|]. eexists. split; [done|]. split; [done|].
  intros x. cbn. rewrite !elem_of_cons. tauto.
Qed.

(** ** Example device *)

Definition gpu_fresh : GPUDev := default {| gpu_config := {| events_read := 0; events_clear := 0; num_scanouts := 0; num_capsets := 0 |};
    scanouts := []; requested_states := []; resource_list := []; command_queue := []; scanouts_num := 0; dev_hostmem := 0;
    enabled_scanout_bitmask := 0; gpu_close := false; async_started := false |} (init_gpu_dev true (Some (1280, 800))).

Lemma gpu_fresh_fresh : fresh gpu_fresh.
Proof. exists true, (Some (1280, 800)). reflexivity. Qed.

(** A chain of a command and a response buffer, holding the given command. *)
Definition mem_cmd (len : Z) (vals : list (Z * nat * Z)) : hmem :=
  mem_with [(0x7000, 0x4000)]
    (desc_vals 0 0x4800 len 1 1 ++ desc_vals 1 0x4900 24 2 0 ++ [(0x7102, 2%nat, 1)] ++ vals).

Definition bufs_cmd (len : Z) : list iovec :=
  [{| iov_base := 0x7800; iov_len := len |}; {| iov_base := 0x7900; iov_len := 24 |}].

Definition gcmd0 (len : Z) : GPUCommand :=
  {| cmd_type := 0; resp_iov := bufs_cmd len; resp_idx := 0; finished := false; error := 0; from_queue := 0 |}.

Definition gpu_at (d : GPUDev) (len : Z) (m : hmem) : gpu := {| g_dev := d; g_mem := m; g_drm := []; g_cmd := gcmd0 len |}.

(** Resource [id] of 64 by 64 pixels. *)
Definition create_vals (id : Z) : list (Z * nat * Z) :=
  [(0x7800, 4%nat, VIRTIO_GPU_CMD_RESOURCE_CREATE_2D); (0x7818, 4%nat, id); (0x781c, 4%nat, 1); (0x7820, 4%nat, 64); (0x7824, 4%nat, 64)].

(** One backing entry of 16 KiB at guest address 0x4000. *)
Definition attach_vals (id : Z) : list (Z * nat * Z) :=
  [(0x7800, 4%nat, VIRTIO_GPU_CMD_RESOURCE_ATTACH_BACKING); (0x7818, 4%nat, id); (0x781c, 4%nat, 1); (0x7820, 8%nat, 0x4000);
   (0x7828, 4%nat, 0x4000)].

Definition scanout_vals (id : Z) : list (Z * nat * Z) :=
  [(0x7800, 4%nat, VIRTIO_GPU_CMD_SET_SCANOUT); (0x7820, 4%nat, 64); (0x7824, 4%nat, 64); (0x7828, 4%nat, 0); (0x782c, 4%nat, id)].

Definition unref_vals (id : Z) : list (Z * nat * Z) :=
  [(0x7800, 4%nat, VIRTIO_GPU_CMD_RESOURCE_UNREF); (0x7818, 4%nat, id)].

Definition env_ok : gpu_env :=
  {| e_calloc := true; e_malloc := fun _ => true; e_realloc := fun _ => true; e_create_dumb := Some (1, 256, 16384);
     e_map_dumb := Some 0; e_addfb := Some 9; e_mmap := 0x20000 |}.

Definition gpu_run (d : GPUDev) (len : Z) (vals : list (Z * nat * Z)) : result gpu :=
  '(_, s) ← virtio_gpu_simple_process_cmd env_ok table_ab 1 [vq4] (gpu_at d len (mem_cmd len vals)); Ok s.

(** Commands one after the other. *)
Fixpoint gpu_runs (d : GPUDev) (l : list (Z * list (Z * nat * Z))) : result GPUDev :=
  match l with
  | [] => Ok d
  | (len, vals) :: l' => s ← gpu_run d len vals; gpu_runs (g_dev s) l'
  end.


(** A create command is queued and processed. *)
Lemma gpu_create_run :
  exists d1 d, gpu_step table_ab 1 gpu_fresh d1 /\ gpu_step table_ab 1 d1 d /\
    length (resource_list d) = 1%nat /\ length (scanouts d) = 1%nat.
Proof.
  destruct (virtio_gpu_handle_single_request (fun _ => true) true 3 (mem_cmd 40 (create_vals 5)) table_ab 1 vq4 0 gpu_fresh)
    as [ [vq1 d1]|] eqn:E1; [|exfalso; revert E1; vm_compute; discriminate].
  assert (command_queue d1 = [gcmd0 40] /\ with_queue [] d1 = gpu_fresh) as [Hq Hd].
  { revert E1. vm_compute. intros E1. injection E1 as _ <-. split; reflexivity. }
  assert (match gpu_run gpu_fresh 40 (create_vals 5) with
          | Ok s => (length (resource_list (g_dev s)) =? 1)%nat && (length (scanouts (g_dev s)) =? 1)%nat
          | Err _ => false end = true) as Hc by (vm_compute; reflexivity).
  unfold gpu_run in Hc.
  destruct (virtio_gpu_simple_process_cmd env_ok table_ab 1 [vq4] (gpu_at gpu_fresh 40 (mem_cmd 40 (create_vals 5))))
    as [ [[] s']|] eqn:E2; [|discriminate Hc]. cbn [mbind result_bind] in Hc.
  apply andb_prop in Hc as [Hc1 Hc2]. apply Nat.eqb_eq in Hc1, Hc2.
  exists d1, (with_queue [] (g_dev s')). split; [right; eapply step_request; exact E1|]. split; [|exact (conj Hc1 Hc2)].
  left. eapply (step_command _ _ _ _ env_ok [vq4] _ [] _ _ s' Hq); [|reflexivity]. rewrite Hd. exact E2.
Qed.

(** One chain with the command, queued and processed. *)
Definition queued_run (d : GPUDev) (len : Z) (vals : list (Z * nat * Z)) : result GPUDev :=
  '(_, d1) ← virtio_gpu_handle_single_request (fun _ => true) true 3 (mem_cmd len vals) table_ab 1 vq4 0 d;
  match command_queue d1 with
  | c :: q =>
      '(_, s) ← virtio_gpu_simple_process_cmd env_ok table_ab 1 [vq4]
                  {| g_dev := with_queue q d1; g_mem := mem_cmd len vals; g_drm := []; g_cmd := c |};
      Ok (with_queue q (g_dev s))
  | [] => Ok d1
  end.

Lemma queued_run_steps d len vals d' : queued_run d len vals = Ok d' -> rtc (gpu_step_reset table_ab 1) d d'.
Proof.
  unfold queued_run. intros H. apply bind_Ok_inv in H as ([vq1 d1] & H1 & H). eapply rtc_l; [left; right; eapply step_request; exact H1|].
  destruct (command_queue d1) as [|c q] eqn:Eq; [injection H as <-; reflexivity|].
  apply bind_Ok_inv in H as ([[] s] & H2 & H). injection H as <-. apply rtc_once. left. left. by eapply step_command.
Qed.

(** A resource is created and given backing. *)
Definition attached_run : result GPUDev := d ← queued_run gpu_fresh 40 (create_vals 5); queued_run d 48 (attach_vals 5).

Lemma runs_steps d1 l1 v1 l2 v2 d3 :
  (d2 ← queued_run d1 l1 v1; queued_run d2 l2 v2) = Ok d3 -> rtc (gpu_step_reset table_ab 1) d1 d3.
Proof. intros H. apply bind_Ok_inv in H as (d2 & H1 & H2). etransitivity; by eapply queued_run_steps. Qed.

Lemma attached_run_steps d : attached_run = Ok d -> rtc (gpu_step_reset table_ab 1) gpu_fresh d.
Proof. apply runs_steps. Qed.

Lemma attached_run_shape :
  exists d r v, attached_run = Ok d /\ resource_list d = [r] /\ res_iov r = Some v /\ v = [{| iov_base := 0x7000; iov_len := 0x4000 |}].
Proof.
  assert (match attached_run with Ok d => res_iov <$> resource_list d | Err _ => [] end = [Some [{| iov_base := 0x7000; iov_len := 0x4000 |}] ])
    as H by (vm_compute; reflexivity).
  destruct attached_run as [d|]; [|discriminate H]. destruct (resource_list d) as [|r [|]] eqn:E; [discriminate H| |discriminate H].
  injection H as H. exists d, r, [{| iov_base := 0x7000; iov_len := 0x4000 |}]. split; [reflexivity|]. split; [exact E|]. split; [exact H|reflexivity].
Qed.


Lemma gpu_scanout_binding_witness :
  exists d r sc, r ∈ resource_list d /\ sc ∈ scanouts d /\ (scanout_bitmask r = 1 <-> sc_resource_id sc = resource_id r).
Proof.
  destruct gpu_create_run as (d1 & d & S1 & S2 & Hl & Hs). exists d.
  pose proof (gpu_scanout_binding table_ab 1 gpu_fresh d gpu_fresh_fresh (rtc_l _ _ _ _ S1 (rtc_once _ _ S2))) as H.
  destruct (resource_list d) as [|r l]; [discriminate Hl|]. destruct (scanouts d) as [|sc k]; [discriminate Hs|].
  exists r, sc. split; [by left|]. split; [by left|]. apply H; by left.
Defined.

(** ** Defects *)

Definition shown (d : GPUDev) : list Z := sc_resource_id <$> scanouts d.

(** Resource 1 is shown, the device is reset, resource 2 is shown; destroying
    resource 1 then turns the scanout off, because the reset kept its mark. *)
Example unref_after_reset_blanks :
  (d1 ← gpu_runs gpu_fresh [(40, create_vals 1); (48, attach_vals 1); (48, scanout_vals 1)];
   d2 ← virtio_gpu_reset d1;
   d3 ← gpu_runs d2 [(40, create_vals 2); (48, attach_vals 2); (48, scanout_vals 2)];
   d4 ← gpu_runs d3 [(32, unref_vals 1)];
   Ok (shown d3, shown d4)) = Ok ([2], [0]).
Proof. vm_compute. reflexivity. Qed.

(** A command of sixteen bytes is never answered. *)
Example short_header_unanswered :
  match virtio_gpu_simple_process_cmd env_ok table_ab 1 [vq4]
          {| g_dev := gpu_fresh; g_mem := mem_cmd 16 []; g_drm := [];
             g_cmd := {| cmd_type := 0; resp_iov := [{| iov_base := 0x7800; iov_len := 16 |}]; resp_idx := 0; finished := false; error := 0;
                         from_queue := 0 |} |} with
  | Ok (_, s) => (finished (g_cmd s), match used_idx (g_mem s) vq4 with Ok i => i | Err _ => -1 end) = (false, 0)
  | Err _ => False
  end.
Proof. vm_compute. reflexivity. Qed.

(** A resource beyond the memory limit is not created, and the guest is told it was. *)
Example create_beyond_limit_accepted :
  match gpu_run gpu_fresh 40 [(0x7800, 4%nat, VIRTIO_GPU_CMD_RESOURCE_CREATE_2D); (0x7818, 4%nat, 5); (0x7820, 4%nat, 8192);
                              (0x7824, 4%nat, 16384)] with
  | Ok s => resource_list (g_dev s) = [] /\ load 4 (g_mem s) 0x7900 = Ok VIRTIO_GPU_RESP_OK_NODATA
  | Err _ => False
  end.
Proof. vm_compute. split; reflexivity. Qed.

(** 65536 by 65537 pixels are accounted as 256 KiB. *)
Example image_size_wraps : calc_image_hostmem 32 65536 65537 = 262144.
Proof. reflexivity. Qed.

(** A transfer of the right half of the last row is flushed 896 bytes beyond where
    it belongs: outside the frame buffer. *)
Example flush_overruns_frame_buffer :
  (d ← gpu_runs gpu_fresh [(40, create_vals 1); (48, attach_vals 1); (48, scanout_vals 1);
     (56, [(0x7800, 4%nat, VIRTIO_GPU_CMD_TRANSFER_TO_HOST_2D); (0x7818, 4%nat, 32); (0x781c, 4%nat, 63); (0x7820, 4%nat, 32);
           (0x7824, 4%nat, 1); (0x7830, 4%nat, 1)])];
   s ← gpu_run d 48 [(0x7800, 4%nat, VIRTIO_GPU_CMD_RESOURCE_FLUSH); (0x7818, 4%nat, 32); (0x781c, 4%nat, 63); (0x7820, 4%nat, 32);
                     (0x7824, 4%nat, 1); (0x7828, 4%nat, 1)];
   Ok tt) = Err Unmapped.
Proof. vm_compute. reflexivity. Qed.

Definition card_one (c : bool) : drm_card :=
  {| d_open := 3; d_resources := Some [31]; d_connector := fun _ => Some {| connected := c; encoder_id := 41; modes0 := Some (1920, 1080) |};
     d_encoder := fun _ => Some 51; d_crtc := fun _ => true |}.

(** A card with no connected display: the freed connector is read. *)
Example no_display_use_after_free : virtio_gpu_do_init true (card_one false) (Some (1280, 800)) [] = Err UseAfterFree.
Proof. reflexivity. Qed.

(** The resource list of the card is never given back. *)
Example close_keeps_resources :
  match virtio_gpu_do_init true (card_one true) (Some (1280, 800)) [] with
  | Ok (r, Some d, held) =>
      match virtio_gpu_close (gpu_at d 0 (mem_cmd 0 [])) held with Ok (_, held') => held' = [HResources] | Err _ => False end
  | _ => False
  end.
Proof. vm_compute. reflexivity. Qed.
