(* ===== verification/GpuWorker.v ===== *)
(** * The GPU worker thread

    [virtio_gpu_handler] ([tools/virtio/devices/gpu/virtio_gpu_async.c]) and the
    places of [virtio_gpu_base.c] that share its mutex, condition variable and
    command queue: the two queue handlers and [virtio_gpu_close].  Two step
    relations, one per thread; commands are numbered in the order they are queued.
    What a command does is [Gpu]; here it is one step. *)

From S2P Require Import Prelude.

Definition VIRTIO_GPU_MAX_REQUEST_BEFORE_KICK : nat := 16.

(** Where the worker is. *)
Inductive gworker_pc :=
  | GLock              (* before the first pthread_mutex_lock *)
  | GTop               (* mutex held: testing close *)
  | GLoop              (* mutex held: testing the command queue *)
  | GProcess (c : nat) (* mutex released: processing a command *)
  | GRelock            (* before the pthread_mutex_lock that ends the turn *)
  | GWait              (* in pthread_cond_wait *)
  | GExit.

(** Where the main thread is with respect to this device. *)
Inductive gmain_pc :=
  | GIdle
  | GQueued            (* control handler: in its loop, not signalled yet *)
  | GFreed             (* close: the lists are freed *)
  | GFlagged           (* close: the flag is set, not signalled yet *)
  | GJoin              (* close: in pthread_join *)
  | GClosed.

Record gpu_threads := {
  gq : list nat;         (* command_queue *)
  gclose : bool;
  gheld : bool;          (* the worker holds the mutex *)
  gpc : gworker_pc;
  gsig : bool;           (* the worker's wait was signalled *)
  gmain : gmain_pc;
  queued : list nat;     (* every command queued, in order *)
  processed : list nat;  (* every command processed, in order *)
  unkicked : list nat;   (* processed since the last interrupt; its length is request_cnt *)
}.

Definition gpu_started : gpu_threads :=
  {| gq := []; gclose := false; gheld := false; gpc := GLock; gsig := false; gmain := GIdle; queued := []; processed := [];
     unkicked := [] |}.

(** The count after one more command; at the limit the frontend is kicked. *)
Definition count_kick (u : list nat) (c : nat) : list nat :=
  if (VIRTIO_GPU_MAX_REQUEST_BEFORE_KICK <=? S (length u))%nat then [] else u ++ [c].

Inductive gworker_step : gpu_threads -> gpu_threads -> Prop :=
  | gw_lock q cl sg m qd pr uk :
      gworker_step {| gq := q; gclose := cl; gheld := false; gpc := GLock; gsig := sg; gmain := m; queued := qd; processed := pr; unkicked := uk |}
                   {| gq := q; gclose := cl; gheld := true; gpc := GTop; gsig := sg; gmain := m; queued := qd; processed := pr; unkicked := uk |}
  | gw_exit q sg m qd pr uk :
      gworker_step {| gq := q; gclose := true; gheld := true; gpc := GTop; gsig := sg; gmain := m; queued := qd; processed := pr; unkicked := uk |}
                   {| gq := q; gclose := true; gheld := false; gpc := GExit; gsig := sg; gmain := m; queued := qd; processed := pr; unkicked := uk |}
  | gw_open q sg m qd pr uk :
      gworker_step {| gq := q; gclose := false; gheld := true; gpc := GTop; gsig := sg; gmain := m; queued := qd; processed := pr; unkicked := uk |}
                   {| gq := q; gclose := false; gheld := true; gpc := GLoop; gsig := sg; gmain := m; queued := qd; processed := pr; unkicked := uk |}
  | gw_take c q cl sg m qd pr uk :
      gworker_step {| gq := c :: q; gclose := cl; gheld := true; gpc := GLoop; gsig := sg; gmain := m; queued := qd; processed := pr; unkicked := uk |}
                   {| gq := q; gclose := cl; gheld := false; gpc := GProcess c; gsig := sg; gmain := m; queued := qd; processed := pr; unkicked := uk |}
  | gw_done c q cl h sg m qd pr uk :
      gworker_step {| gq := q; gclose := cl; gheld := h; gpc := GProcess c; gsig := sg; gmain := m; queued := qd; processed := pr; unkicked := uk |}
                   {| gq := q; gclose := cl; gheld := h; gpc := GRelock; gsig := sg; gmain := m; queued := qd; processed := pr ++ [c];
                      unkicked := count_kick uk c |}
  | gw_relock q cl sg m qd pr uk :
      gworker_step {| gq := q; gclose := cl; gheld := false; gpc := GRelock; gsig := sg; gmain := m; queued := qd; processed := pr; unkicked := uk |}
                   {| gq := q; gclose := cl; gheld := true; gpc := GLoop; gsig := sg; gmain := m; queued := qd; processed := pr; unkicked := uk |}
  | gw_wait cl sg m qd pr uk :   (* the frontend is kicked if anything was processed *)
      gworker_step {| gq := []; gclose := cl; gheld := true; gpc := GLoop; gsig := sg; gmain := m; queued := qd; processed := pr; unkicked := uk |}
                   {| gq := []; gclose := cl; gheld := false; gpc := GWait; gsig := false; gmain := m; queued := qd; processed := pr; unkicked := [] |}
  | gw_woken q cl sg m qd pr uk :   (* signalled, or spuriously *)
      gworker_step {| gq := q; gclose := cl; gheld := false; gpc := GWait; gsig := sg; gmain := m; queued := qd; processed := pr; unkicked := uk |}
                   {| gq := q; gclose := cl; gheld := true; gpc := GTop; gsig := false; gmain := m; queued := qd; processed := pr; unkicked := uk |}.

(** [pthread_cond_signal]. *)
Definition gwake (w : gworker_pc) (s : bool) : bool := match w with GWait => true | _ => s end.

(** [cursor]: the guest also uses the cursor queue. *)
Inductive gmain_step (cursor : bool) : gpu_threads -> gpu_threads -> Prop :=
  | gm_queue q w sg m qd pr uk :   (* control handler: one chain *)
      m = GIdle \/ m = GQueued ->
      gmain_step cursor {| gq := q; gclose := false; gheld := false; gpc := w; gsig := sg; gmain := m; queued := qd; processed := pr; unkicked := uk |}
                        {| gq := q ++ [length qd]; gclose := false; gheld := false; gpc := w; gsig := sg; gmain := GQueued;
                           queued := qd ++ [length qd]; processed := pr; unkicked := uk |}
  | gm_kick q w sg m qd pr uk :   (* control handler: lock, signal, unlock *)
      m = GIdle \/ m = GQueued ->
      gmain_step cursor {| gq := q; gclose := false; gheld := false; gpc := w; gsig := sg; gmain := m; queued := qd; processed := pr; unkicked := uk |}
                        {| gq := q; gclose := false; gheld := false; gpc := w; gsig := gwake w sg; gmain := GIdle; queued := qd; processed := pr; unkicked := uk |}
  | gm_cursor q w sg qd pr uk :   (* cursor handler: one chain, no signal *)
      cursor = true ->
      gmain_step cursor {| gq := q; gclose := false; gheld := false; gpc := w; gsig := sg; gmain := GIdle; queued := qd; processed := pr; unkicked := uk |}
                        {| gq := q ++ [length qd]; gclose := false; gheld := false; gpc := w; gsig := sg; gmain := GIdle;
                           queued := qd ++ [length qd]; processed := pr; unkicked := uk |}
  (* close, none of it under the mutex *)
  | gm_free q h w sg qd pr uk :
      gmain_step cursor {| gq := q; gclose := false; gheld := h; gpc := w; gsig := sg; gmain := GIdle; queued := qd; processed := pr; unkicked := uk |}
                        {| gq := []; gclose := false; gheld := h; gpc := w; gsig := sg; gmain := GFreed; queued := qd; processed := pr; unkicked := uk |}
  | gm_flag q cl h w sg qd pr uk :
      gmain_step cursor {| gq := q; gclose := cl; gheld := h; gpc := w; gsig := sg; gmain := GFreed; queued := qd; processed := pr; unkicked := uk |}
                        {| gq := q; gclose := true; gheld := h; gpc := w; gsig := sg; gmain := GFlagged; queued := qd; processed := pr; unkicked := uk |}
  | gm_signal q cl h w sg qd pr uk :
      gmain_step cursor {| gq := q; gclose := cl; gheld := h; gpc := w; gsig := sg; gmain := GFlagged; queued := qd; processed := pr; unkicked := uk |}
                        {| gq := q; gclose := cl; gheld := h; gpc := w; gsig := gwake w sg; gmain := GJoin; queued := qd; processed := pr; unkicked := uk |}
  | gm_joined q cl h sg qd pr uk :
      gmain_step cursor {| gq := q; gclose := cl; gheld := h; gpc := GExit; gsig := sg; gmain := GJoin; queued := qd; processed := pr; unkicked := uk |}
                        {| gq := q; gclose := cl; gheld := h; gpc := GExit; gsig := sg; gmain := GClosed; queued := qd; processed := pr; unkicked := uk |}.

Definition gthreads_step (cursor : bool) (s s' : gpu_threads) : Prop := gworker_step s s' \/ gmain_step cursor s s'.

(** The command being processed. *)
Definition in_hand (w : gworker_pc) : list nat := match w with GProcess c => [c] | _ => [] end.

Definition closing (m : gmain_pc) : bool := match m with GIdle | GQueued => false | _ => true end.

(** ** Invariants *)

(** Nothing is lost, duplicated or reordered; the mutex is held at the tests; the
    count of commands since the last interrupt stays below the limit, and is zero
    in the wait. *)
Record gorder (s : gpu_threads) : Prop := {
  go_queue : if closing (gmain s) then exists l, processed s ++ in_hand (gpc s) ++ l = queued s /\ gq s = []
             else processed s ++ in_hand (gpc s) ++ gq s = queued s;
  go_numbered : queued s = seq 0 (length (queued s));
  go_held : gheld s = match gpc s with GTop | GLoop => true | _ => false end;
  go_count : (length (unkicked s) < VIRTIO_GPU_MAX_REQUEST_BEFORE_KICK)%nat;
  go_wait : gpc s = GWait -> unkicked s = [];
  go_close : gclose s = match gmain s with GFlagged | GJoin | GClosed => true | _ => false end;
  go_exit : gpc s = GExit -> closing (gmain s) = true;
}.

Lemma count_kick_bound u c : (length (count_kick u c) < VIRTIO_GPU_MAX_REQUEST_BEFORE_KICK)%nat.
Proof. unfold count_kick. destruct (_ <=? _)%nat eqn:E; unfold VIRTIO_GPU_MAX_REQUEST_BEFORE_KICK in *; [simpl; lia|]. rewrite length_app. simpl. lia. Qed.

Lemma gworker_order s s' : gworker_step s s' -> gorder s -> gorder s'.
Proof.
  intros H [Hq Hn Hh Hc Hw Hcl He]. destruct H; constructor; cbn in *; try done; try apply count_kick_bound.
  - intros _. by destruct m.
  - destruct (closing m); [by destruct Hq as (l & _ & Hq)|done].
  - destruct (closing m); [destruct Hq as (l & Hq & Hq'); exists l|]; by rewrite <- app_assoc.
  - unfold VIRTIO_GPU_MAX_REQUEST_BEFORE_KICK. lia.
Qed.

(** One more command at the tail. *)
Lemma order_push (pr ih q qd : list nat) :
  pr ++ ih ++ q = qd -> pr ++ ih ++ q ++ [length qd] = qd ++ [length qd].
Proof. intros <-. by rewrite <- !app_assoc. Qed.

Lemma numbered_push (qd : list nat) : qd = seq 0 (length qd) -> qd ++ [length qd] = seq 0 (length (qd ++ [length qd])).
Proof. intros H. rewrite length_app, Nat.add_1_r, seq_S, <- H. done. Qed.

Lemma gmain_order c s s' : gmain_step c s s' -> gorder s -> gorder s'.
Proof.
  intros H [Hq Hn Hh Hc Hw Hcl He]. destruct H as [? ? ? ? ? ? ? Hm|? ? ? ? ? ? ? Hm| | | | |]; constructor; cbn in *;
    try done; try (by apply numbered_push); try (destruct Hm as [-> | ->]; cbn in *; (by apply order_push) || done).
  - by apply order_push.
  - by exists q.
Qed.

Lemma gorder_reach c s : rtc (gthreads_step c) gpu_started s -> gorder s.
Proof.
  intros H. assert (gorder gpu_started) as H0 by (constructor; cbn; try done; unfold VIRTIO_GPU_MAX_REQUEST_BEFORE_KICK; lia).
  revert H0. induction H as [|x y z [Hw|Hm] _ IH]; eauto using gworker_order, gmain_order.
Qed.

(** Without cursor commands: whatever is queued when the handler has returned, the
    worker is signalled or on its way to it. *)
Definition gwoken (s : gpu_threads) : Prop :=
  gpc s = GWait -> gsig s = false -> gq s = [] \/ gmain s = GQueued.

Lemma gwoken_step s s' : gthreads_step false s s' -> gorder s -> gwoken s -> gwoken s'.
Proof.
  unfold gwoken. intros [H|H] Ho Hw.
  - destruct H; cbn in *; try done. by left.
  - destruct H as [? ? ? ? ? ? ? Hm|? ? ? ? ? ? ? Hm| | | | |]; cbn in *; intros Hg Hs; subst; try done; auto.
    by destruct (Hw eq_refl eq_refl) as [Hq|]; [left|].
Qed.

Lemma gwoken_reach s : rtc (gthreads_step false) gpu_started s -> gwoken s.
Proof.
  intros H. assert (gwoken gpu_started) as H0 by (intros [=]). pose proof (gorder_reach false gpu_started (rtc_refl _ _)) as H1.
  revert H1 H0. induction H as [|x y z Hs _ IH]; [done|]. intros Ho Hw. apply IH; [|by eapply gwoken_step].
  destruct Hs; eauto using gworker_order, gmain_order.
Qed.

(** Worker steps left until every queued command is processed. *)
Definition work_left (s : gpu_threads) : nat :=
  3 * length (gq s) + match gpc s with GLock | GWait | GProcess _ => 3 | GTop | GRelock => 2 | GLoop => 1 | GExit => 0 end.

(** ** Theorems *)

(** The worker processes the queued commands in order, each once: in every
    interleaving what it has processed, the command in its hands and the queue are
    the commands queued so far, until close empties the queue, and a prefix of them
    after; fewer than sixteen completions are ever unannounced, and none when it
    sleeps. *)
Theorem gpu_commands_in_order c s :
  rtc (gthreads_step c) gpu_started s ->
  NoDup (queued s) /\ (exists l, processed s ++ in_hand (gpc s) ++ l = queued s) /\
  (closing (gmain s) = false -> processed s ++ in_hand (gpc s) ++ gq s = queued s) /\
  (length (unkicked s) < VIRTIO_GPU_MAX_REQUEST_BEFORE_KICK)%nat /\ (gpc s = GWait -> unkicked s = []).
Proof.
  intros H. destruct (gorder_reach _ _ H) as [Hq Hn Hh Hc Hw Hcl He]. split; [rewrite Hn; apply NoDup_seq|].
  destruct (closing (gmain s)).
  - destruct Hq as (l & Hq & _). split; [by exists l|done].
  - split; [by exists (gq s)|done].
Qed.

Lemma no_lost_step s :
  gorder s -> gwoken s -> gmain s = GIdle -> processed s <> queued s ->
  (gpc s = GWait -> gsig s = true) /\ (exists s', gworker_step s s') /\
  (forall s', gworker_step s s' -> gmain s' = GIdle /\ queued s' = queued s /\ (work_left s' < work_left s)%nat).
Proof.
  intros [Hq Hn Hh Hc Hw Hcl He] Hwk Hm Hne.
  destruct s as [q cl h pc sg m qd pr uk]. cbn in *. subst m cl h. cbn in Hq. unfold gwoken in Hwk. cbn in Hwk.
  assert (Hq0 : in_hand pc = [] -> q <> []).
  { intros E ->. apply Hne. by rewrite E, !app_nil_r in Hq. }
  split; [|split].
  - intros ->. destruct sg; [done|]. by destruct (Hwk eq_refl eq_refl) as [Hq'|]; [apply Hq0 in Hq'|].
  - destruct pc; try (eexists; constructor); [|by specialize (He eq_refl)]. destruct q as [|c q]; [by specialize (Hq0 eq_refl)|].
    eexists. constructor.
  - intros s' Hs. inversion Hs; subst; cbn in *; (split; [done|split; [done|] ]); try lia. by specialize (Hq0 eq_refl).
Qed.

(** The worker by itself processes [l], whatever it is doing, and is never asleep
    without a signal before that. *)
Inductive gets_done (l : list nat) : gpu_threads -> Prop :=
  | all_done s : processed s = l -> gets_done l s
  | goes_on s : (gpc s = GWait -> gsig s = true) -> (exists s', gworker_step s s') ->
      (forall s', gworker_step s s' -> gets_done l s') -> gets_done l s.


(** ** Runs *)

(** A control command is queued and signalled while the worker sleeps. *)
Lemma gpu_kick_run : exists s, rtc (gthreads_step false) gpu_started s /\ gmain s = GIdle /\ processed s <> queued s /\ gpc s = GWait.
Proof.
  eexists. split.
  - eapply rtc_l; [left; apply gw_lock|]. eapply rtc_l; [left; apply gw_open|]. eapply rtc_l; [left; apply gw_wait|].
    eapply rtc_l; [right; apply gm_queue; by left|]. eapply rtc_l; [right; apply gm_kick; by right|]. apply rtc_refl.
  - split; [reflexivity|]. split; [discriminate|reflexivity].
Qed.

Lemma gpu_commands_in_order_witness : exists s, processed s ++ in_hand (gpc s) ++ gq s = queued s /\ gpc s = GWait.
Proof.
  destruct gpu_kick_run as (s & H & Hm & _ & Hw). exists s. split; [|exact Hw].
  apply (gpu_commands_in_order false s H). rewrite Hm. reflexivity.
Defined.


(** ** Defects *)

(** A command of the cursor queue does not wake the worker: it sleeps with the
    command queued and nobody about to signal it. *)
Example cursor_command_left_asleep :
  exists s, rtc (gthreads_step true) gpu_started s /\ gmain s = GIdle /\ gpc s = GWait /\ gsig s = false /\ gq s = [0%nat].
Proof.
  eexists. split.
  - eapply rtc_l; [left; apply gw_lock|]. eapply rtc_l; [left; apply gw_open|]. eapply rtc_l; [left; apply gw_wait|].
    eapply rtc_l; [right; by apply gm_cursor|]. apply rtc_refl.
  - done.
Qed.

(** Close sets its flag and signals without the mutex: between the worker's test of
    the flag and its wait the signal is lost, and the join never returns. *)
Example close_signal_lost :
  exists s, rtc (gthreads_step false) gpu_started s /\ gmain s = GJoin /\ gpc s = GWait /\ gsig s = false.
Proof.
  eexists. split.
  - eapply rtc_l; [left; apply gw_lock|]. eapply rtc_l; [left; apply gw_open|]. eapply rtc_l; [right; apply gm_free|].
    eapply rtc_l; [right; apply gm_flag|]. eapply rtc_l; [right; apply gm_signal|]. eapply rtc_l; [left; apply gw_wait|]. apply rtc_refl.
  - done.
Qed.
